(* ===== verification/_CoqProject ===== *)
-Q . S2P
Prelude.v
GoStrings.v
GoFloats.v
GoTime.v
Cron.v
TasksModel.v
JobManager.v
Dispatcher.v
Worker.v
Poller.v
TasksInv.v
TasksSystem.v
PollerSpec.v
JobSpec.v
Scopes.v
ServiceAccounts.v
TasksHandlers.v
KVStore.v
SignInRisk.v
Encodings.v
GoRunes.v
GoValues.v
URLQuery.v
Slugifier.v
GraphQLParser.v
GraphQLSpec.v
SqlText.v
RestQuery.v
RestBuilder.v
DataKV.v
DataCache.v
DataConfig.v
RealtimeFilter.v
Realtime.v
GraphQLCompiler.v
GraphQLSql.v
GraphQLHandler.v
Events.v
EventHooks.v
EventStore.v
CoreHandlers.v
RowSecurity.v
RecordHandlers.v
Tokens.v
AuthCodes.v
DDL.v
DataControl.v
AuthModel.v
AuthMonad.v
AuthSessions.v
AuthThreat.v
AuthPassword.v
AuthFactors.v
AuthUsers.v
AuthVerification.v
AuthOAuth.v
AuthOIDC.v
AuthOIDCFlow.v
AuthPasskeys.v
AuthService.v
ImageOptions.v
ImageCache.v
ImageEngine.v
FileStore.v
