(* ===== verification/Prelude.v ===== *)
(** * Layr: a verification library for the backend services

    Layr is a self-hosted backend written in Go: a core (HTTP gateway, machine
    accounts, event bus, key-value store, tokens) and services on top of it
    (tasks, auth, data, file storage, images, functions).  This library models
    the tasks service, the auth service, the data service (REST, GraphQL,
    key-value, realtime, schema), the transformation of images, the database
    engine of the file storage and the parts of the core they stand on, and
    proves the properties that make them correct; where the code falls short of
    its own intent, a theorem shows how.

    ** The parts and the files

    Foundations:
    - Prelude.v: results ([Ok]/[Err]), loops with a number of rounds, machine
      integers, shared tactics.
    - GoStrings.v, GoTime.v, GoRunes.v, GoValues.v: what the code uses of the
      packages strings, strconv, time, unicode, utf8 and fmt, and Go's [any].
      Times are nanoseconds since the zero time of Go; a location is a function
      from an instant to its zone; text is bytes, and runes are decoded from it
      as Go does.  Encodings.v: hex, base32, base64 and the order of bytes.
      GoFloats.v: float64, over the binary floating point numbers of Rocq, read
      from text and written with two digits.  Maps whose order the code cannot see are lists of entries
      with distinct keys.

    Tasks (src/tasks):
    - Cron.v: cron.go, parsing and the search for the next run.
    - TasksModel.v: model.go, config.go, event.go and the schema of
      migrations.go: rows, configuration, events, the state of the service, and
      the state-and-error monad its operations are written in.
    - JobManager.v, Dispatcher.v, Worker.v, Poller.v: the files of the same name,
      one definition per method with its statements and events in order.
    - TasksInv.v: the invariant of the tables and its preservation by every
      operation.  TasksSystem.v: the service as a transition system of
      operations, polls, dequeues, completions and crashes on any number of
      nodes.  PollerSpec.v: what a poll cycle does.  JobSpec.v: what the
      operations on jobs and dead letters do.
    - TasksHandlers.v: src/core/pagination.go and the control plane of the tasks
      service (control_plane_handler_*.go, router.go).

    Core (src/core):
    - Scopes.v: scopes.go.  ServiceAccounts.v: service_account.go, session.go
      and the authentication steps of server.go.
    - Slugifier.v: slugifier.go.  URLQuery.v: the queries of net/url, as the
      redirects of auth read and extend them.
    - KVStore.v: kvstore.go and kvstore_database.go; the driver interface as a
      class with laws, and the Postgres driver as an instance.  SignInRisk.v:
      src/auth/threat/risk.go, a client verified against the interface.
    - Events.v: event.go, patterns, the preparation of events, and the bus with
      its queue and workers as a transition system.  EventStore.v: the
      EventManager of event.go.  EventHooks.v: event_hook.go, the hook and
      delivery tables, the attempts of a delivery, and a transition system in
      which deliveries overlap with operations.
    - Tokens.v: crypto.go, the sealing of fields, and jwt_signer.go, the four
      tokens and how they are checked.
    - CoreHandlers.v: the control plane handlers of accounts, hooks and events,
      their routes, and the publishable key check of server.go.

    Auth (src/auth):
    - AuthCodes.v: the packages auth/otp, auth/totp and auth/password, and
      phone.go: the codes, their hashes, the normal form of phone numbers.
    - AuthModel.v: the tables of migrations.go as one record, the statements of
      the handlers as functions on it, the bodies of requests and answers.
      AuthMonad.v: what a handler is, a function of a state with what was sent
      out, and the rules its theorems are proved with: [keeps], what every step
      preserves, [quiet], steps that go on and change no table, and [gate], steps
      that answer 200 only by going on.
    - AuthSessions.v: base_handler.go, base_handler_session.go,
      federated_sign_out.go and control_plane_handler_session.go, with the
      cached sessions.  AuthThreat.v: base_handler_threat.go, threat/captcha.go
      and threat/breach.go.  AuthPassword.v: base_handler_password.go.
      AuthFactors.v: base_handler_otp.go, base_handler_mfa.go and
      base_handler_anonymous.go.  AuthUsers.v: base_handler_user.go
      and control_plane_handler_user.go.  AuthVerification.v:
      base_handler_verification.go.
    - AuthOAuth.v: oauth/oauth.go and base_handler_oauth.go, sign-in with a
      provider.  AuthOIDC.v: base_handler_oidc.go, Layr as a provider: the
      authorization endpoint, the sign-in form, the token endpoint with its
      three grants, user info and sign-out; a page is the data its template is
      given.  AuthOIDCFlow.v: what these endpoints promise together.
      AuthPasskeys.v: passkey/webauthn.go and base_handler_passkey.go.
    - AuthService.v: the service, a sequence of calls of these handlers.

    Data (src/data):
    - SqlText.v: the SQL scanner the statements are judged with: quotes,
      separators and placeholders.
    - RestQuery.v, RestBuilder.v: rest/filter.go and rest/builder.go, query
      strings and the five statements.
    - GraphQLParser.v, GraphQLSpec.v, GraphQLCompiler.v, GraphQLSql.v:
      graphql/parser.go with a printer it is proved against, and
      graphql/compiler.go with what its SQL is.  GraphQLHandler.v:
      base_handler_graphql.go.
    - DataKV.v: kv/kv.go and base_handler_kv.go, callers, their namespaces and
      the key-value handlers.  DataCache.v: rest/cache.go, the versions of
      service.go and the list handler of base_handler_rest.go.
      RecordHandlers.v: the other handlers of base_handler_rest.go, with
      transactions, invalidation and events.
    - DataConfig.v: config.go, the settings with the arrays their copies share.
      DDL.v: ddl.go, the statements that change the schema, with a reader for
      SQL that says what they mean.  DataControl.v: the handlers under
      /v1/_/data.
    - RealtimeFilter.v and Realtime.v: realtime/hub.go, realtime/client.go and
      base_handler_realtime.go, the hub as steps of its clients, of rows that
      change, of notifications that are read or lost, of tables that are dropped
      and of restarts, each with the settings of its moment.
    - RowSecurity.v: common/claims.go, claims as settings of the transaction.

    Images and files (src/image, src/filestorage):
    - ImageOptions.v: options.go, the options of a path with their presets, and
      the source it names.  ImageCache.v: signature.go and cache.go, signatures
      of paths, the keys of results, and the cache as its map and its list.
      ImageEngine.v: engine.go, the steps of a transformation over a class of
      operations on pictures ([Imaging]).
    - FileStore.v: model.go and engine_database.go, files as rows of objects and
      chunks, the engine as a map, with each statement's failure.

    The handlers of data are clients of the key-value interface: their theorems
    are proved from the laws of the class and hold for every driver that keeps
    them.  The record handlers call the cache, the cache the callers'
    namespaces, and all of them the scopes and accounts of the core.

    ** How code becomes definitions

    Tables are finite maps, ids generated by Postgres come from a counter, and
    each SQL statement of the platform's own tables has a name and may fail
    ([faults]); a failed statement has no effect, and inside a transaction it
    aborts the rest, as in Postgres.  Statements on the tables of users are
    texts with arguments, run by a parameter.  An operation reads one value of
    each clock.  Events are appended to the bus of the state.  What lies outside
    the repository is a parameter: JSON decoding, URL and address parsing, the
    time zone database and HMAC (class [Platform]); SHA-256 and addresses (class
    [HostLib]); UUID and body decoding (classes [ControlLib], [CoreDecoders],
    [KVDecoders], [RecordDecoders]); the cast of text to bigint (class
    [PgText]); floating point numbers (class [Floats]); the letters and digits
    of Unicode (class [UnicodeTables]); the HTTP client, the execution of SQL
    targets and the random source.  HKDF,
    AES-GCM, Ed25519 and HMAC are the class [Crypto], HMAC-SHA1 and Argon2id the
    class [AuthCrypto], each with its documented laws; the letter case of
    Unicode is [CaseTables]; ids and random values drawn, the uuid and inet
    types of Postgres and the outside services of auth are [AuthHost]; the
    providers and the encoding of stored payloads are [OAuthHost], the normal
    form of what precedes the query of a URL is [URLParser], the parsers of
    public keys and the verifiers of signatures are [WebAuthnCrypto]; the
    kernel that carries them is [Kernel].  Of the repository, the session query of the middleware and
    the project's handle are parameters, and the middleware in ServiceAccounts.v
    takes token verification, modelled in Tokens.v, as one.  Each class has a
    concrete instance with which the examples are evaluated.

    Loops that may not end carry a number of rounds.  For [Next] it is 4194304,
    more than the minutes of its five-year window; [Next_first_match] proves that it
    is enough in zones of fixed offset, and [Next_hangs_at_dst_gap] that in others no
    number is.  The loop of the poller has 2^40 rounds; the theorem on it is for
    every number.  A run that does not return is the error [Diverges].  The
    GraphQL parser has the length of the input plus one as its fuel, and
    [ParseGraphQL_total] proves that it is never used up; deliveries loop over
    the attempts that are left.

    ** What is shown

    - The queue: executions run exclusively, the tables stay well formed in
      every reachable state, dequeue is oldest first, running an execution
      leaves exactly one of three outcomes, retry delays are bounded.
    - Schedules: accepted expressions are in range, the search is sound,
      minimal and total in fixed zones; a poll cycle is all or nothing.
    - The control plane: each operation's effect on success and failure, the
      scope every tasks route requires, pages that tile the log; no sequence of
      core requests loses the last root account or leaves an ill-formed hook.
    - Accounts: keys authenticate exactly their rows, a new key works, a root
      account survives sequential operations, what a scope grants.
    - Auth: no sequence of requests leaves a session of an account that does not
      exist or two accounts with one address; a
      sign-in had the password and passed risk and factors; a refresh token is
      used once, while statements succeed; a second factor needs a code of the
      account's secret in the current window, and its ticket is spent by one
      attempt; a reset code allows five guesses at its own endpoint; deleting or
      locking an account ends its sessions; only tokens that were issued are accepted, within their window.
    - OpenID Connect: a browser is sent only to registered addresses, and with a
      code only when its user proved who they are; a code is exchanged once, while
      the store does not fail, by its client with the verifier of the challenge,
      and an authorized client is given tokens signed for that account; each
      scope of a machine token is one its key holds or covers, which is not
      transitive.
    - Providers and passkeys: a callback that signs in was begun; configured
      settings win over presets; a challenge is spent by one attempt, and a
      signature that is presented was verified, unless the key cannot be read.
    - The store: the Postgres driver refines a map with expiry; SetNX is a lock;
      failures within a window are counted; callers with different namespaces
      are isolated from each other, and a stored value is read back.
    - Statements: over a catalog of plain names every SQL text of REST, GraphQL
      and functions keeps the caller's data in its arguments; updates and deletes of GraphQL have a
      condition; answers are within the limits.
    - Records: a write that is answered with success was committed under the
      caller's policies, its table invalidated and its events announced, and
      one that is answered with an error left no trace; policies see the
      verified identity.
    - Cache: answers come from the caller's namespace or the database, and
      invalidation hides older ones while the version lives.
    - The schema: the statements of an operation read token for token as what
      was asked for, each as one; a request carries its operation out,
      invalidates and announces it, or changes nothing; settings stay valid.
    - Changes: a client is within its limits and is told only of tables that
      were exposed when it asked for them; a change of a table with its trigger
      is queued for each subscription that asks for it while the connection
      listens; a filter asks what its conditions say.
    - Images: options take effect in the order they are written and the last
      counts; presets go five deep; a signature is accepted exactly when its
      bytes begin the digest; the cache is a list of the thousand images used
      last; keys that agree name one transformation, up to what they leave out.
    - Files: the database engine answers uploads, ranges and deletions like a
      map from keys to bytes, and an upload that is refused changes nothing.
    - GraphQL text: the parser returns on every input and reads back what the
      printer writes.
    - Events: the bus loses none of the accepted events while it is open,
      recorded events are read back, hooks receive exactly what they match and
      deliveries tell their outcome.
    - Shortcomings: schedules on which the search or the poller does not return,
      executions orphaned by a crash, retries that run twice, a cycle lost to one
      failed statement, requests without credentials that become root, guards
      that race or count expired accounts, scopes split at spaces, flushes that
      flush nothing, cache keys that leave out negation and operation name,
      relations that reach excluded tables, mutations reported although their
      commit failed, events lost at shutdown, headers set too late, one-time
      codes that can be guessed without end, deleted accounts that refresh and
      locked ones that verify an address, properties that turn into a list,
      sign-out and ID tokens that pass as access tokens, a read-only account
      that is granted the root scope, a refresh grant that does not look at the
      client, passkeys that need no signature and sign-ups that enter accounts
      by their id, a filter that stops the process, settings that were refused
      and are in force, triggers that hide each other or cannot be found again,
      tables that are made again and stay silent or excluded and are still
      streamed, signatures of one byte, sources cut at
      their [@], options that have no effect, and uploads that are answered
      although their commit failed.

    ** What is not modelled

    Timers and the start and stop of the background loops, logging, the HTTP
    server itself, page templates, the Redis driver and what only calls
    libraries: the delivery of messages, the key set, the handlers in front of
    images and files with the fetcher, the S3 protocol and their settings, the
    runners of functions, the console and the command line.  Of auth the stored
    configuration, of data the reading of the catalog.  The generated
    client is not a part of the program.  Operations are atomic steps of the
    transition systems, except where a theorem splits one into its statements to
    show what an interleaving does. *)

From stdpp Require Export base gmap sets list strings numbers.
From Stdlib Require Import ZArith Lia.

(** ** Go results

    A fallible Go function returns [(value, error)] with exactly one of the two
    meaningful; here it returns a [result]. *)
Inductive result (E A : Type) : Type :=
| Ok (a : A)
| Err (e : E).
Arguments Ok {E A} a.
Arguments Err {E A} e.

Declare Scope go_scope.
Delimit Scope go_scope with go.

Definition result_bind {E A B} (k : A → result E B) (r : result E A) : result E B :=
  match r with
  | Ok a => k a
  | Err e => Err e
  end.

(** [if err != nil { return wrap(err) }]. *)
Definition map_err {E F A} (f : E → F) (r : result E A) : result F A :=
  match r with
  | Ok a => Ok a
  | Err e => Err (f e)
  end.

Notation "'let!' x := c 'in' k" := (result_bind (λ x, k) c)
  (at level 10, x pattern, c at level 100, k at level 200)
  : go_scope.

Lemma result_bind_Ok {E A B} (k : A → result E B) r b :
  result_bind k r = Ok b ↔ ∃ a, r = Ok a ∧ k a = Ok b.
Proof. destruct r; naive_solver. Qed.

Lemma map_err_Ok {E F A} (f : E → F) (r : result E A) a :
  map_err f r = Ok a ↔ r = Ok a.
Proof. destruct r; naive_solver. Qed.

(** ** Loops

    A Go loop body is a function [f : S → S + R]: [inl s'] goes round again in
    state [s'], [inr r] leaves the loop with [r].  [iter_until p f s] runs at
    most [p] rounds ([p] in binary, so a bound of millions costs nothing to
    write) and answers [inl] when the rounds are used up. *)
Section loops.
Context {St R : Type} (f : St → St + R).

Definition and_then (g : St → St + R) (x : St + R) : St + R :=
  match x with
  | inl s => g s
  | inr r => inr r
  end.

Fixpoint iter_until (p : positive) (s : St) : St + R :=
  match p with
  | xH => f s
  | xO p' => and_then (iter_until p') (iter_until p' s)
  | xI p' => and_then (λ s', and_then (iter_until p') (iter_until p' s')) (f s)
  end.

Fixpoint run_rounds (n : nat) (s : St) : St + R :=
  match n with
  | O => inl s
  | S n' => and_then (run_rounds n') (f s)
  end.

Lemma run_rounds_add n m s :
  run_rounds (n + m) s = and_then (run_rounds m) (run_rounds n s).
Proof. revert s. induction n as [|n IH]; intros s; simpl; [done|]. destruct (f s); simpl; [apply IH|done]. Qed.

Lemma iter_until_nat p s : iter_until p s = run_rounds (Pos.to_nat p) s.
Proof.
  revert s. induction p as [p IH|p IH|]; intros s; cbn [iter_until].
  - rewrite Pos2Nat.inj_xI.
    cbn [run_rounds]. destruct (f s) as [s'|r]; cbn [and_then]; [|done].
    replace (2 * Pos.to_nat p)%nat with (Pos.to_nat p + Pos.to_nat p)%nat by lia.
    rewrite run_rounds_add, IH. destruct (run_rounds _ s'); simpl; [apply IH|done].
  - rewrite Pos2Nat.inj_xO.
    replace (2 * Pos.to_nat p)%nat with (Pos.to_nat p + Pos.to_nat p)%nat by lia.
    rewrite run_rounds_add, IH. destruct (run_rounds _ s); simpl; [apply IH|done].
  - simpl. by destruct (f s).
Qed.

(** A loop whose body keeps an invariant and decreases a measure leaves the
    loop within as many rounds as the measure says. *)
Lemma run_rounds_terminates (I : St → Prop) (m : St → Z) n s :
  (∀ s s', I s → f s = inl s' → I s' ∧ (m s' < m s)%Z) →
  (∀ s, I s → (0 <= m s)%Z) →
  I s → (m s < Z.of_nat n)%Z → ∃ r, run_rounds n s = inr r.
Proof.
  intros Hstep Hpos. revert s. induction n as [|n IH]; intros s HI Hlt.
  { specialize (Hpos s HI). lia. }
  simpl. destruct (f s) as [s'|r] eqn:E; simpl; [|by eauto].
  destruct (Hstep s s' HI E) as [HI' Hdec]. apply IH; [done|lia].
Qed.

Lemma iter_until_terminates (I : St → Prop) (m : St → Z) p s :
  (∀ s s', I s → f s = inl s' → I s' ∧ (m s' < m s)%Z) →
  (∀ s, I s → (0 <= m s)%Z) →
  I s → (m s < Zpos p)%Z → ∃ r, iter_until p s = inr r.
Proof.
  intros. rewrite iter_until_nat.
  eapply (run_rounds_terminates I m); eauto. rewrite positive_nat_Z. done.
Qed.

(** Partial correctness: an invariant holds of the state the loop leaves
    from. *)
Lemma run_rounds_inv (I : St → Prop) (Q : R → Prop) n s r :
  (∀ s s', I s → f s = inl s' → I s') →
  (∀ s r, I s → f s = inr r → Q r) →
  I s → run_rounds n s = inr r → Q r.
Proof.
  intros Hstep Hex. revert s. induction n as [|n IH]; intros s HI; simpl; [done|].
  destruct (f s) as [s'|r'] eqn:E; simpl; intros H.
  - eapply IH; [eapply Hstep; eauto|done].
  - simplify_eq. eauto.
Qed.

Lemma iter_until_inv (I : St → Prop) (Q : R → Prop) p s r :
  (∀ s s', I s → f s = inl s' → I s') →
  (∀ s r, I s → f s = inr r → Q r) →
  I s → iter_until p s = inr r → Q r.
Proof. rewrite iter_until_nat. apply run_rounds_inv. Qed.

(** A body that comes back to the same state never leaves the loop. *)
Lemma iter_until_stuck p s : f s = inl s → iter_until p s = inl s.
Proof.
  intros E. rewrite iter_until_nat.
  induction (Pos.to_nat p) as [|n IH]; simpl; [done|]. by rewrite E.
Qed.

(** Rounds add up. *)
Lemma iter_until_step p s s' : f s = inl s' →
  iter_until (Pos.succ p) s = iter_until p s'.
Proof. intros E. rewrite !iter_until_nat, Pos2Nat.inj_succ. simpl. by rewrite E. Qed.

End loops.

(** ** Machine integers

    Go's [int] and [int64] are 64-bit two's complement on the platforms Layr
    is built for; arithmetic wraps. *)
Definition int64_min : Z := - 2 ^ 63.
Definition int64_max : Z := 2 ^ 63 - 1.
Definition in_int64 (z : Z) : bool := (int64_min <=? z)%Z && (z <=? int64_max)%Z.
Definition wrap64 (z : Z) : Z := ((z + 2 ^ 63) mod 2 ^ 64 - 2 ^ 63)%Z.

Lemma wrap64_range z : (int64_min <= wrap64 z <= int64_max)%Z.
Proof. unfold wrap64, int64_min, int64_max. pose proof (Z.mod_pos_bound (z + 2 ^ 63) (2 ^ 64)). lia. Qed.

Lemma wrap64_id z : (int64_min <= z <= int64_max)%Z → wrap64 z = z.
Proof. unfold wrap64, int64_min, int64_max. intros. rewrite Z.mod_small; lia. Qed.

Lemma in_int64_spec z : in_int64 z = true ↔ (int64_min <= z <= int64_max)%Z.
Proof. unfold in_int64. rewrite andb_true_iff, !Z.leb_le. done. Qed.

(** ** Lists *)

Lemma forallb_Forall {A} (f : A → bool) l : forallb f l = true ↔ Forall (λ x, f x = true) l.
Proof.
  induction l as [|x l IH]; simpl; [by split|]. rewrite andb_true_iff, IH.
  split; [intros []; by constructor|by inversion 1].
Qed.

Lemma Forall_both {A} (P Q R : A → Prop) l :
  Forall P l → Forall Q l → (∀ x, P x → Q x → R x) → Forall R l.
Proof. induction 1; inversion 1; constructor; auto. Qed.

(** ** Record update

    [r <| field := v |>] is the record [r] with another value of [field], for a
    record type whose [Eta] instance rebuilds a record from its fields. *)
Class Eta (R : Type) := eta : R → R.
Class Setter {R T : Type} (field : R → T) := update : (T → T) → R → R.

Ltac find_setter :=
  lazymatch goal with
  | |- @Setter ?R ?T ?field =>
      let i := constr:(_ : Eta R) in
      let rebuild := eval unfold eta in (@eta R i) in
      let rebuild := eval hnf in rebuild in
      lazymatch (eval pattern field in rebuild) with
      | ?f _ => let s := eval cbv beta in (fun (g : T → T) => f (fun r => g (field r))) in exact s
      end
  end.
#[export] Hint Extern 1 (Setter _) => find_setter : typeclass_instances.

Notation "r <| field := v |>" := (update (field := field) (λ _, v) r)
  (at level 12, left associativity, field at level 0) : stdpp_scope.

(** ** Automation *)

(** Turns the boolean tests of the code into propositions. *)
Ltac bool_to_prop :=
  repeat match goal with
  | H : context [_ && _ = true] |- _ => rewrite andb_true_iff in H
  | H : context [_ && _ = false] |- _ => rewrite andb_false_iff in H
  | H : context [_ || _ = true] |- _ => rewrite orb_true_iff in H
  | H : context [_ || _ = false] |- _ => rewrite orb_false_iff in H
  | H : context [negb _ = true] |- _ => rewrite negb_true_iff in H
  | H : context [negb _ = false] |- _ => rewrite negb_false_iff in H
  | H : context [(_ <? _)%Z = true] |- _ => rewrite Z.ltb_lt in H
  | H : context [(_ <? _)%Z = false] |- _ => rewrite Z.ltb_ge in H
  | H : context [(_ <=? _)%Z = true] |- _ => rewrite Z.leb_le in H
  | H : context [(_ <=? _)%Z = false] |- _ => rewrite Z.leb_gt in H
  | H : context [(_ =? _)%Z = true] |- _ => rewrite Z.eqb_eq in H
  | H : context [(_ =? _)%Z = false] |- _ => rewrite Z.eqb_neq in H
  | H : context [bool_decide _ = true] |- _ => rewrite bool_decide_eq_true in H
  | H : context [bool_decide _ = false] |- _ => rewrite bool_decide_eq_false in H
  end.

(** Case analysis on the conditions and matches of a definition, the way the
    code branches. *)
Ltac branches :=
  repeat (case_match; simplify_eq/=).

(** Linear arithmetic with divisions by constants. *)
Ltac euclid := Z.to_euclidean_division_equations; lia.

Create HintDb layr.
#[export] Hint Resolve wrap64_range : layr.
