(* ===== verification/GoStrings.v ===== *)
(** * Go's strings and strconv, as the services use them

    A Go string is a sequence of bytes; it is modelled by [String.string],
    whose characters are the 256 byte values.  The functions below are the
    ones of the packages [strings] and [strconv] that the modelled code
    calls: [TrimSpace], [Fields], [Split], [SplitN] at 2, [Contains],
    [HasPrefix], [HasSuffix], [TrimPrefix], [TrimSuffix], [ToLower] and [Atoi].

    [ToLower] is exact on every string up to comparison with ASCII constants,
    which is how the code uses it: ASCII capitals are lowered, the two
    non-ASCII characters that Unicode lowers to an ASCII letter (U+212A to
    [k], U+0130 to [i]) are handled, and other non-ASCII bytes are kept
    (their lower-case form is non-ASCII in either case). *)

From S2P Require Import Prelude.
From Stdlib Require Import Ascii String.
Local Open Scope string_scope.

Definition byte (n : nat) : ascii := ascii_of_nat n.
Definition bytes (l : list nat) : string := string_of_list_ascii (byte <$> l).

(** ** Prefixes *)

Fixpoint strip_prefix (p s : string) : option string :=
  match p, s with
  | EmptyString, _ => Some s
  | String a p', String b s' => if Ascii.eqb a b then strip_prefix p' s' else None
  | String _ _, EmptyString => None
  end.

(** [strings.HasPrefix]. *)
Definition HasPrefix (s p : string) : bool :=
  match strip_prefix p s with Some _ => true | None => false end.

(** [strings.Contains]. *)
Fixpoint Contains (s sub : string) : bool :=
  HasPrefix s sub ||
  match s with
  | EmptyString => false
  | String _ s' => Contains s' sub
  end.

(** [strings.TrimPrefix]. *)
Definition TrimPrefix (s p : string) : string := default s (strip_prefix p s).

Fixpoint strip_suffix (p s : string) : option string :=
  if String.eqb s p then Some EmptyString else
  match s with
  | EmptyString => None
  | String c s' => String c <$> strip_suffix p s'
  end.

(** [strings.HasSuffix] and [strings.TrimSuffix]. *)
Definition HasSuffix (s p : string) : bool :=
  match strip_suffix p s with Some _ => true | None => false end.
Definition TrimSuffix (s p : string) : string := default s (strip_suffix p s).

(** [strings.ReplaceAll] of one byte by another. *)
Fixpoint replace_byte (s : string) (old new : ascii) : string :=
  match s with
  | EmptyString => EmptyString
  | String c s' => String (if Ascii.eqb c old then new else c) (replace_byte s' old new)
  end.

(** ** White space

    The UTF-8 encodings of the characters [unicode.IsSpace] accepts.  Each
    starts with a byte that cannot occur inside another character, so a byte
    position holds a space character exactly when one of these is a prefix of
    the rest of the string. *)
Definition space_encodings : list string :=
  bytes <$> ([ [9]; [10]; [11]; [12]; [13]; [32]; [194; 133]; [194; 160];
     [225; 154; 128];
     [226; 128; 128]; [226; 128; 129]; [226; 128; 130]; [226; 128; 131];
     [226; 128; 132]; [226; 128; 133]; [226; 128; 134]; [226; 128; 135];
     [226; 128; 136]; [226; 128; 137]; [226; 128; 138];
     [226; 128; 168]; [226; 128; 169]; [226; 128; 175]; [226; 129; 159];
     [227; 128; 128] ])%nat.

(** Width in bytes of the space character at the head of [s], 0 if there is
    none. *)
Definition space_width (s : string) : nat :=
  match filter (λ e, HasPrefix s e = true) space_encodings with
  | e :: _ => String.length e
  | [] => 0
  end.

Fixpoint trim_left_from (skip : nat) (s : string) : string :=
  match s with
  | EmptyString => EmptyString
  | String c s' =>
      match skip with
      | S k => trim_left_from k s'
      | O => match space_width s with
             | O => s
             | S k => trim_left_from k s'
             end
      end
  end.

Definition trim_left (s : string) : string := trim_left_from 0 s.

Definition all_space (s : string) : bool :=
  match trim_left s with EmptyString => true | _ => false end.

Fixpoint trim_right (s : string) : string :=
  if all_space s then EmptyString else
  match s with
  | EmptyString => EmptyString
  | String c s' => String c (trim_right s')
  end.

(** [strings.TrimSpace]. *)
Definition TrimSpace (s : string) : string := trim_right (trim_left s).

(** [strings.Fields]: [cur] is the field being read, [None] between fields. *)
Fixpoint fields_from (skip : nat) (cur : option string) (s : string) : list string :=
  let flush := match cur with Some f => [f] | None => [] end in
  match s with
  | EmptyString => flush
  | String c s' =>
      match skip with
      | S k => fields_from k cur s'
      | O => match space_width s with
             | O => fields_from 0 (Some (default "" cur ++ String c "")) s'
             | S k => (flush ++ fields_from k None s')%list
             end
      end
  end.

Definition Fields (s : string) : list string := fields_from 0 None s.

(** ** Splitting *)

(** [strings.Cut] at a one-byte separator. *)
Fixpoint cut (sep : ascii) (s : string) : string * option string :=
  match s with
  | EmptyString => (EmptyString, None)
  | String c s' =>
      if Ascii.eqb c sep then (EmptyString, Some s')
      else let '(a, b) := cut sep s' in (String c a, b)
  end.

(** [strings.Split] at a one-byte separator. *)
Fixpoint Split (s : string) (sep : ascii) : list string :=
  match s with
  | EmptyString => [EmptyString]
  | String c s' =>
      if Ascii.eqb c sep then EmptyString :: Split s' sep
      else match Split s' sep with
           | f :: fs => String c f :: fs
           | [] => [String c EmptyString]
           end
  end.

(** [strings.SplitN(s, sep, 2)]. *)
Definition SplitN2 (s : string) (sep : ascii) : list string :=
  match cut sep s with
  | (a, Some b) => [a; b]
  | (a, None) => [a]
  end.

(** [strings.Join]. *)
Fixpoint Join (l : list string) (sep : string) : string :=
  match l with
  | [] => ""
  | [x] => x
  | x :: l' => x ++ sep ++ Join l' sep
  end.

(** ** Case *)

Definition lower_ascii (c : ascii) : ascii :=
  let n := nat_of_ascii c in
  if (65 <=? n)%nat && (n <=? 90)%nat then ascii_of_nat (n + 32) else c.

(** The byte the character at the head of [String c s'] is lowered to, and how
    many more bytes that character has. *)
Definition lower_head (c : ascii) (s' : string) : ascii * nat :=
  if HasPrefix (String c s') (bytes [226; 132; 170]%nat) then ("k"%char, 2)
  else if HasPrefix (String c s') (bytes [196; 176]%nat) then ("i"%char, 1)
  else (lower_ascii c, 0).

Fixpoint lower_from (skip : nat) (s : string) : string :=
  match s with
  | EmptyString => EmptyString
  | String c s' =>
      match skip with
      | S k => lower_from k s'
      | O => let '(c', k) := lower_head c s' in String c' (lower_from k s')
      end
  end.

(** [strings.ToLower]. *)
Definition ToLower (s : string) : string := lower_from 0 s.

(** ** strconv.Atoi *)

Definition digit_of (c : ascii) : option Z :=
  let n := nat_of_ascii c in
  if (48 <=? n)%nat && (n <=? 57)%nat then Some (Z.of_nat n - 48)%Z else None.

Fixpoint digits_from (acc : Z) (s : string) : option Z :=
  match s with
  | EmptyString => Some acc
  | String c s' =>
      match digit_of c with
      | Some d => digits_from (10 * acc + d)%Z s'
      | None => None
      end
  end.

Definition unsigned_digits (s : string) : option Z :=
  match s with
  | EmptyString => None
  | _ => digits_from 0 s
  end.

(** [strconv.Atoi]: an optional sign, decimal digits, in the range of [int];
    [None] is the error return. *)
Definition Atoi (s : string) : option Z :=
  let value :=
    match s with
    | String "-" s' => Z.opp <$> unsigned_digits s'
    | String "+" s' => unsigned_digits s'
    | _ => unsigned_digits s
    end in
  z ← value; if in_int64 z then Some z else None.

(** ** Lemmas *)

Lemma Atoi_range s z : Atoi s = Some z → (int64_min <= z <= int64_max)%Z.
Proof.
  unfold Atoi. intros (w & _ & H)%bind_Some.
  destruct (in_int64 w) eqn:E; [|done]. simplify_eq. by apply in_int64_spec.
Qed.

Lemma Split_not_nil s sep : Split s sep ≠ [].
Proof. destruct s as [|c s]; simpl; [done|]. destruct (Ascii.eqb c sep); [done|]. by destruct (Split s sep). Qed.

(** [Split] and [Join] are inverse. *)
Lemma Join_Split s sep : Join (Split s sep) (String sep "") = s.
Proof.
  induction s as [|c s IH]; simpl; [done|].
  destruct (Ascii.eqb_spec c sep) as [->|_].
  - destruct (Split s sep) eqn:E; [by apply Split_not_nil in E|]. simpl in *. by rewrite IH.
  - destruct (Split s sep) as [|f fs] eqn:E; [by apply Split_not_nil in E|].
    rewrite <- IH. by destruct fs.
Qed.

#[export] Hint Resolve Split_not_nil Atoi_range : layr.

(** Trimming and splitting never lengthen a string. *)
Lemma trim_left_from_length k s : (String.length (trim_left_from k s) <= String.length s)%nat.
Proof.
  revert k. induction s as [|c s IH]; intros k; [done|]. cbn [trim_left_from String.length].
  destruct k as [|k]; [destruct (space_width _) as [|k]; [done|]|]; specialize (IH k); lia.
Qed.

Lemma trim_right_length s : (String.length (trim_right s) <= String.length s)%nat.
Proof.
  induction s as [|c s IH]; [done|]. cbn [trim_right].
  destruct (all_space (String c s)); simpl; lia.
Qed.

Lemma TrimSpace_length s : (String.length (TrimSpace s) <= String.length s)%nat.
Proof.
  unfold TrimSpace. pose proof (trim_right_length (trim_left s)).
  pose proof (trim_left_from_length 0 s). unfold trim_left in *. lia.
Qed.

Lemma Split_length s sep f : f ∈ Split s sep → (String.length f <= String.length s)%nat.
Proof.
  revert f. induction s as [|c s IH]; intros f; simpl.
  { rewrite list_elem_of_singleton. by intros ->. }
  destruct (Ascii.eqb c sep).
  { rewrite elem_of_cons. intros [->|Hf]; [simpl; lia|]. specialize (IH f Hf). lia. }
  destruct (Split s sep) as [|g gs] eqn:E; [by apply Split_not_nil in E|].
  rewrite elem_of_cons. intros [->|Hf]; simpl.
  - specialize (IH g). rewrite elem_of_cons in IH. specialize (IH (or_introl eq_refl)). lia.
  - specialize (IH f). rewrite elem_of_cons in IH. specialize (IH (or_intror Hf)). lia.
Qed.

Lemma digits_from_bound acc s z :
  (0 <= acc)%Z → digits_from acc s = Some z →
  (acc <= z < (acc + 1) * 10 ^ Z.of_nat (String.length s))%Z.
Proof.
  revert acc. induction s as [|c s IH]; intros acc Hacc; simpl digits_from.
  { intros [= ->]. simpl. lia. }
  destruct (digit_of c) as [d|] eqn:Ed; [|done].
  assert (0 <= d <= 9)%Z by (unfold digit_of in Ed; case_match; bool_to_prop;
    rewrite ?Nat.leb_le in *; simplify_eq; lia).
  intros Hz. apply IH in Hz; [|lia]. cbn [String.length].
  rewrite Nat2Z.inj_succ, Z.pow_succ_r by lia.
  assert (0 < 10 ^ Z.of_nat (String.length s))%Z by lia. nia.
Qed.

Lemma Atoi_bound s z : Atoi s = Some z → (z < 10 ^ Z.of_nat (String.length s))%Z.
Proof.
  unfold Atoi. intros (w & Hw & H)%bind_Some.
  destruct (in_int64 w); [simplify_eq|done].
  assert (Hu : ∀ t n, unsigned_digits t = Some n →
            (0 <= n < 10 ^ Z.of_nat (String.length t))%Z).
  { intros [|c t] n; [done|]. intros Hn%digits_from_bound; [|lia]. lia. }
  assert (Hmono : ∀ c t, (10 ^ Z.of_nat (String.length t) <= 10 ^ Z.of_nat (String.length (String c t)))%Z).
  { intros c t. apply Z.pow_le_mono_r; simpl; lia. }
  assert (Hneg : ∀ t, Z.opp <$> unsigned_digits t = Some z → (z < 10 ^ Z.of_nat (String.length t))%Z).
  { intros t. destruct (unsigned_digits t) as [n|] eqn:E; [|done].
    apply Hu in E. intros [= <-]. lia. }
  destruct s as [|c s]; [done|].
  assert (Hcase : Z.opp <$> unsigned_digits s = Some z ∨ unsigned_digits s = Some z
                  ∨ unsigned_digits (String c s) = Some z).
  { clear -Hw. destruct c as [[] [] [] [] [] [] [] []]; auto. }
  specialize (Hmono c s). destruct Hcase as [H|[H|H]].
  - apply Hneg in H. lia.
  - apply Hu in H. lia.
  - apply Hu in H. lia.
Qed.

(** ** Plain strings: printable ASCII without spaces *)

Definition plain_char (c : ascii) : bool :=
  (33 <=? nat_of_ascii c)%nat && (nat_of_ascii c <=? 126)%nat.

Fixpoint all_chars (P : ascii → bool) (s : string) : bool :=
  match s with
  | EmptyString => true
  | String c s' => P c && all_chars P s'
  end.

Lemma all_chars_impl (P Q : ascii → bool) s : (∀ c, P c = true → Q c = true) →
  all_chars P s = true → all_chars Q s = true.
Proof. intros HPQ. induction s as [|c s IH]; [done|]. cbn. rewrite !andb_true_iff. naive_solver. Qed.

Definition plain (s : string) : bool := all_chars plain_char s.
Definition lacks (sep : ascii) (s : string) : bool := all_chars (λ c, negb (Ascii.eqb c sep)) s.

Lemma space_width_plain c s : plain_char c = true → space_width (String c s) = 0%nat.
Proof. destruct c as [[] [] [] [] [] [] [] []]; (discriminate || reflexivity). Qed.

Lemma space_width_space s : space_width (String " " s) = 1%nat.
Proof. reflexivity. Qed.

Lemma trim_left_plain c s : plain_char c = true → trim_left (String c s) = String c s.
Proof.
  intros H. unfold trim_left. cbn [trim_left_from]. by rewrite space_width_plain.
Qed.

Lemma trim_right_plain s : plain s = true → trim_right s = s.
Proof.
  induction s as [|c s IH]; [done|]. unfold plain. cbn [all_chars]. intros [Hc Hs]%andb_true_iff.
  cbn [trim_right]. unfold all_space. rewrite trim_left_plain by done. by rewrite IH.
Qed.

Lemma TrimSpace_plain s : plain s = true → TrimSpace s = s.
Proof.
  intros H. unfold TrimSpace. destruct s as [|c s]; [done|].
  unfold plain in H. cbn [all_chars] in H. rewrite trim_left_plain by (by apply andb_true_iff in H as []).
  by apply trim_right_plain.
Qed.

Lemma append_cons c s t : String c s ++ t = String c (s ++ t).
Proof. reflexivity. Qed.

Lemma append_assoc s t u : (s ++ t) ++ u = s ++ (t ++ u).
Proof. induction s as [|c s IH]; [done|]. rewrite !append_cons. by rewrite IH. Qed.

Lemma append_empty s : s ++ "" = s.
Proof. induction s as [|c s IH]; [done|]. rewrite !append_cons. by rewrite IH. Qed.

Lemma fields_plain s cur t : plain s = true → s ≠ "" →
  fields_from 0 cur (s ++ t) = fields_from 0 (Some (default "" cur ++ s)) t.
Proof.
  revert cur. induction s as [|c s IH]; [done|]. intros cur Hp _.
  unfold plain in Hp. cbn [all_chars] in Hp. apply andb_true_iff in Hp as [Hc Hs].
  rewrite append_cons. cbn [fields_from]. rewrite space_width_plain by done.
  destruct (decide (s = "")) as [->|Hne]; [done|].
  rewrite IH by done. cbn [default from_option id]. by rewrite append_assoc, append_cons.
Qed.

(** Fields joined by single spaces are read back. *)
Lemma Fields_Join l :
  Forall (λ s, plain s = true ∧ s ≠ "") l → Fields (Join l " ") = l.
Proof.
  unfold Fields. induction 1 as [|x l [Hp Hne] Hl IH]; [done|]. destruct l as [|y l].
  - cbn [Join]. rewrite <- (append_empty x) at 1. by rewrite fields_plain.
  - change (Join (x :: y :: l) " ") with (x ++ String " " (Join (y :: l) " ")).
    rewrite fields_plain by done. cbn [fields_from]. rewrite space_width_space. cbn [app].
    by rewrite IH.
Qed.

Lemma cut_lacks sep a b : lacks sep a = true → cut sep (a ++ String sep b) = (a, Some b).
Proof.
  induction a as [|c a IH]; unfold lacks; rewrite ?append_cons; cbn [cut all_chars].
  - change ("" ++ String sep b) with (String sep b). cbn [cut]. by rewrite Ascii.eqb_refl.
  - intros [Hc Ha]%andb_true_iff. apply negb_true_iff in Hc. by rewrite Hc, IH.
Qed.

Lemma all_chars_app P s t : all_chars P (s ++ t) = all_chars P s && all_chars P t.
Proof. induction s as [|c s IH]; [done|]. rewrite append_cons. cbn [all_chars]. by rewrite IH, andb_assoc. Qed.

Lemma length_append s t : String.length (s ++ t) = (String.length s + String.length t)%nat.
Proof. induction s as [|c s IH]; [done|]. rewrite append_cons. cbn [String.length]. lia. Qed.

Lemma Split_lacks s sep : lacks sep s = true → Split s sep = [s].
Proof.
  unfold lacks. induction s as [|c s IH]; [done|]. cbn [all_chars Split]. intros [Hc Hs]%andb_true_iff.
  apply negb_true_iff in Hc. rewrite Hc. by rewrite IH.
Qed.

Lemma Split_at s sep t : Split (s ++ String sep t) sep = (Split s sep ++ Split t sep)%list.
Proof.
  induction s as [|c s IH].
  - change ("" ++ String sep t) with (String sep t). cbn [Split]. by rewrite Ascii.eqb_refl.
  - rewrite append_cons. cbn [Split]. rewrite IH. destruct (Ascii.eqb c sep); [done|].
    destruct (Split s sep) as [|f fs] eqn:E; [by apply Split_not_nil in E|done].
Qed.

Lemma Split_app s sep t : lacks sep s = true → Split (s ++ String sep t) sep = s :: Split t sep.
Proof. intros Hs. by rewrite Split_at, Split_lacks. Qed.

(** ** Decimal text of a machine integer *)

Definition digit_char (d : Z) : ascii := ascii_of_nat (48 + Z.to_nat d).

Fixpoint dec_digits (fuel : nat) (n : Z) (acc : string) : string :=
  match fuel with
  | O => acc
  | S f =>
      let acc' := String (digit_char (n mod 10)) acc in
      if (n / 10 =? 0)%Z then acc' else dec_digits f (n / 10) acc'
  end.

(** Twenty digits hold every 64-bit integer. *)
Definition decimal (n : Z) : string :=
  if (n <? 0)%Z then String "-" (dec_digits 20 (- n) "") else dec_digits 20 n "".

Lemma digit_range_cases (d : Z) : (0 <= d < 10)%Z →
  digit_of (digit_char d) = Some d ∧ plain_char (digit_char d) = true
  ∧ digit_char d ≠ "-"%char ∧ digit_char d ≠ "+"%char.
Proof.
  intros Hd. assert (Hc : d ∈ [0; 1; 2; 3; 4; 5; 6; 7; 8; 9]%Z).
  { rewrite !elem_of_cons. lia. }
  repeat (apply elem_of_cons in Hc as [->|Hc]; [repeat split; done|]). by apply elem_of_nil in Hc.
Qed.

Lemma dec_digits_read fuel n acc : (0 <= n < 10 ^ Z.of_nat fuel)%Z → (0 < fuel)%nat →
  ∃ k, (0 < k)%Z ∧ ∀ a, digits_from a (dec_digits fuel n acc) = digits_from (a * 10 ^ k + n) acc.
Proof.
  revert n acc. induction fuel as [|f IH]; [lia|]. intros n acc Hn _. cbn [dec_digits].
  assert (Hmod : (0 <= n mod 10 < 10)%Z) by (apply Z.mod_pos_bound; lia).
  destruct (digit_range_cases _ Hmod) as (Hdig & _).
  pose proof (Z.div_mod n 10 ltac:(lia)) as Hdm.
  destruct (Z.eqb_spec (n / 10) 0) as [Hz|Hnz].
  - exists 1%Z. split; [lia|]. intros a. cbn [digits_from]. rewrite Hdig. f_equal. lia.
  - rewrite Nat2Z.inj_succ, Z.pow_succ_r in Hn by lia.
    assert (Hq : (0 <= n / 10 < 10 ^ Z.of_nat f)%Z).
    { split; [apply Z.div_pos; lia|]. apply Z.div_lt_upper_bound; lia. }
    destruct f as [|f]; [simpl in Hq; lia|].
    destruct (IH (n / 10)%Z (String (digit_char (n mod 10)) acc) Hq) as (k & Hk & Hread); [lia|].
    exists (k + 1)%Z. split; [lia|]. intros a. rewrite Hread. cbn [digits_from]. rewrite Hdig.
    f_equal. rewrite Z.pow_add_r by lia. lia.
Qed.

Lemma dec_digits_head fuel n acc : (0 <= n)%Z → (0 < fuel)%nat →
  ∃ d s, dec_digits fuel n acc = String (digit_char d) s ∧ (0 <= d < 10)%Z.
Proof.
  revert n acc. induction fuel as [|f IH]; [lia|]. intros n acc Hn _. cbn [dec_digits].
  assert (Hmod : (0 <= n mod 10 < 10)%Z) by (apply Z.mod_pos_bound; lia).
  destruct (n / 10 =? 0)%Z; [by eexists _, _|]. destruct f as [|f]; [by eexists _, _|].
  apply IH; [apply Z.div_pos; lia|lia].
Qed.

Lemma dec_digits_plain fuel n acc : (0 <= n)%Z → plain acc = true → plain (dec_digits fuel n acc) = true.
Proof.
  revert n acc. induction fuel as [|f IH]; [done|]. intros n acc Hn Hacc. cbn [dec_digits].
  assert (Hmod : (0 <= n mod 10 < 10)%Z) by (apply Z.mod_pos_bound; lia).
  destruct (digit_range_cases _ Hmod) as (_ & Hp & _).
  assert (Hacc' : plain (String (digit_char (n mod 10)) acc) = true).
  { unfold plain in *. cbn [all_chars]. by rewrite Hp. }
  destruct (n / 10 =? 0)%Z; [done|]. apply IH; [apply Z.div_pos; lia|done].
Qed.

Lemma decimal_plain n : plain (decimal n) = true.
Proof.
  unfold decimal. destruct (Z.ltb_spec n 0); [|by apply dec_digits_plain].
  unfold plain. cbn [all_chars]. apply (dec_digits_plain 20 (- n) ""); [lia|done].
Qed.

Lemma unsigned_dec n : (0 <= n < 10 ^ 20)%Z → unsigned_digits (dec_digits 20 n "") = Some n.
Proof.
  intros Hn. destruct (dec_digits_head 20 n "") as (d & s & E & _); [lia..|].
  destruct (dec_digits_read 20 n "" Hn) as (k & _ & Hread); [lia|].
  specialize (Hread 0%Z). rewrite E in *. cbn [unsigned_digits]. rewrite Hread. cbn [digits_from].
  reflexivity.
Qed.

(** What is printed is read back. *)
Lemma Atoi_decimal n : in_int64 n = true → Atoi (decimal n) = Some n.
Proof.
  intros Hin. pose proof Hin as Hr. apply in_int64_spec in Hr. unfold int64_min, int64_max in Hr.
  unfold Atoi, decimal. destruct (Z.ltb_spec n 0).
  - rewrite unsigned_dec by lia. simpl. rewrite Z.opp_involutive. by rewrite Hin.
  - destruct (dec_digits_head 20 n "") as (d & s & E & Hd); [lia..|].
    destruct (digit_range_cases d Hd) as (_ & _ & Hm & Hp).
    assert (Hu : unsigned_digits (String (digit_char d) s) = Some n).
    { rewrite <- E. apply unsigned_dec. lia. }
    rewrite E. destruct (digit_char d) as [[] [] [] [] [] [] [] []]; try done;
      rewrite Hu; simpl; by rewrite Hin.
Qed.
