(* ===== verification/GoFloats.v ===== *)
(** * float64: strconv.ParseFloat, %.2f and the conversions to integers

    The 64-bit floats are those of IEEE 754 with 53 bits of precision, as
    SpecFloat of the Standard Library defines them.  Texts are read the way
    strconv reads them: an optional sign, [inf], [infinity] or [nan], decimal
    digits with an exponent, or hexadecimal digits with a binary one, digits
    that may be separated by [_], rounded to the nearest float.  [%.2f] rounds
    the exact value to hundredths, halves to the even one.  A conversion to an
    integer that is out of its range gives what amd64 gives. *)

From Stdlib Require Import ZArith Lia Ascii String SpecFloat.
From S2P Require Import Prelude GoStrings.
Local Open Scope string_scope.
Local Open Scope Z_scope.

Definition prec : Z := 53.
Definition emax : Z := 1024.

Definition f64_of_int (z : Z) : spec_float := binary_normalize prec emax z 0 false.
Definition f64_zero : spec_float := S754_zero false.
Definition f64_one : spec_float := f64_of_int 1.
Definition f64_mul (x y : spec_float) : spec_float := SFmul prec emax x y.
(** [x < y], [x <= y]; false on NaN. *)
Definition f64_ltb (x y : spec_float) : bool := SFltb x y.
Definition f64_leb (x y : spec_float) : bool := SFleb x y.
Definition f64_positive (x : spec_float) : bool := f64_ltb f64_zero x.

(** ** To integers *)

(** Towards zero. *)
Definition truncate (x : spec_float) : option Z :=
  match x with
  | S754_zero _ => Some 0
  | S754_finite s m e =>
      let n := if 0 <=? e then Z.pos m * 2 ^ e else Z.pos m / 2 ^ (- e) in
      Some (if s then - n else n)
  | _ => None
  end.

Definition int_of_f64 (x : spec_float) : Z :=
  match truncate x with Some z => if in_int64 z then z else int64_min | None => int64_min end.

(** [uint8(f)]: the low byte of a conversion to 32 bits. *)
Definition uint8_of_f64 (x : spec_float) : Z :=
  match truncate x with
  | Some z => if (- 2 ^ 31 <=? z) && (z <? 2 ^ 31) then z mod 256 else 0
  | None => 0
  end.

(** ** Reading *)

Definition digit_in (hex : bool) (c : ascii) : option Z :=
  match digit_of c with
  | Some d => Some d
  | None =>
      let n := nat_of_ascii (lower_ascii c) in
      if hex && (97 <=? n)%nat && (n <=? 102)%nat then Some (Z.of_nat n - 87) else None
  end.

(** The digits with at most one dot: the number they spell without the dot, how
    many follow it, whether there are any, whether there is a [_], and the rest. *)
Fixpoint scan_digits (hex dot digits marks : bool) (m frac : Z) (s : string) : Z * Z * bool * bool * string :=
  match s with
  | EmptyString => (m, frac, digits, marks, s)
  | String c s' =>
      if Ascii.eqb c "_" then scan_digits hex dot digits true m frac s' else
      if Ascii.eqb c "." then if dot then (m, frac, digits, marks, s) else scan_digits hex true digits marks m frac s' else
      match digit_in hex c with
      | Some d => scan_digits hex dot true marks ((if hex then 16 else 10) * m + d) (if dot then frac + 1 else frac) s'
      | None => (m, frac, digits, marks, s)
      end
  end.

(** The exponent stops growing past 10000. *)
Fixpoint scan_exponent (marks : bool) (e : Z) (s : string) : Z * bool * string :=
  match s with
  | EmptyString => (e, marks, s)
  | String c s' =>
      if Ascii.eqb c "_" then scan_exponent true e s' else
      match digit_of c with
      | Some d => scan_exponent marks (if e <? 10000 then 10 * e + d else e) s'
      | None => (e, marks, s)
      end
  end.

Definition cut_sign (s : string) : bool * string :=
  match s with
  | String "-" s' => (true, s')
  | String "+" s' => (false, s')
  | _ => (false, s)
  end.

(** A [_] stands between digits, or between the prefix of a base and a digit. *)
Inductive Seen := SeenStart | SeenDigit | SeenMark | SeenOther.

Fixpoint marks_ok (hex : bool) (seen : Seen) (s : string) : bool :=
  match s with
  | EmptyString => match seen with SeenMark => false | _ => true end
  | String c s' =>
      match digit_in hex c with
      | Some _ => marks_ok hex SeenDigit s'
      | None =>
          if Ascii.eqb c "_" then match seen with SeenDigit => marks_ok hex SeenMark s' | _ => false end
          else match seen with SeenMark => false | _ => marks_ok hex SeenOther s' end
      end
  end.

Definition underscoreOK (s : string) : bool :=
  let unsigned := (cut_sign s).2 in
  match unsigned with
  | String "0" (String c s') =>
      if bool_decide (lower_ascii c ∈ ["b"; "o"; "x"]%char) then marks_ok (Ascii.eqb (lower_ascii c) "x") SeenDigit s'
      else marks_ok false SeenStart unsigned
  | _ => marks_ok false SeenStart unsigned
  end.

(** ± [m] · base^[e] to the nearest float. *)
Definition f64_of_parts (neg hex : bool) (m e : Z) : spec_float :=
  let signed := if neg then - m else m in
  if m =? 0 then S754_zero neg else
  if hex then binary_normalize prec emax signed e neg else
  if 0 <=? e then binary_normalize prec emax (signed * 10 ^ e) 0 neg else
  let '(q, e', l) := SFdiv_core_binary prec emax m 0 (10 ^ (- e)) 0 in
  binary_round_aux prec emax neg q e' l.

(** What [readFloat] accepts of all of [s]: sign, base, digits, exponent. *)
Definition readFloat (s : string) : option (bool * bool * Z * Z) :=
  let '(neg, unsigned) := cut_sign s in
  let '(hex, body) :=
    match unsigned with
    | String "0" (String c (String d s')) => if Ascii.eqb (lower_ascii c) "x" then (true, String d s') else (false, unsigned)
    | _ => (false, unsigned)
    end in
  let '(m, frac, digits, marks, rest) := scan_digits hex false false false 0 0 body in
  if negb digits then None else
  let exp := if hex then - (4 * frac) else - frac in
  match rest with
  | EmptyString => if hex || (marks && negb (underscoreOK s)) then None else Some (neg, hex, m, exp)
  | String c rest =>
      if negb (Ascii.eqb (lower_ascii c) (if hex then "p" else "e")%char) then None else
      let '(eneg, rest) := cut_sign rest in
      match rest with
      | String d _ =>
          match digit_of d with
          | None => None
          | Some _ =>
              let '(e, marks, rest) := scan_exponent marks 0 rest in
              if negb (String.eqb rest "") || (marks && negb (underscoreOK s)) then None
              else Some (neg, hex, m, exp + (if eneg then - e else e))
          end
      | EmptyString => None
      end
  end.

Definition ascii_lower (s : string) : string := string_of_list_ascii (lower_ascii <$> list_ascii_of_string s).

(** The float [strconv.ParseFloat(s, 64)] returns, and whether its error is
    nil.  A value out of range is an infinity with an error. *)
Definition ParseFloat64 (s : string) : spec_float * bool :=
  let '(neg, unsigned) := cut_sign s in
  if bool_decide (ascii_lower unsigned ∈ ["inf"; "infinity"]) then (S754_infinity neg, true) else
  if String.eqb (ascii_lower s) "nan" then (S754_nan, true) else
  match readFloat s with
  | None => (f64_zero, false)
  | Some (neg, hex, m, e) =>
      let f := f64_of_parts neg hex m e in
      (f, match f with S754_infinity _ => false | _ => true end)
  end.

(** ** Writing *)

(** ± [m] · 2^[e] in hundredths, to the nearest, halves to the even one. *)
Definition hundredths (m : positive) (e : Z) : Z :=
  if 0 <=? e then 100 * Z.pos m * 2 ^ e else
  let d := 2 ^ (- e) in
  let q := 100 * Z.pos m / d in
  let r := 100 * Z.pos m mod d in
  if (d <? 2 * r) || ((2 * r =? d) && Z.odd q) then q + 1 else q.

(** The decimal digits of a number that is not negative. *)
Definition digits_text (n : Z) : string := dec_digits (S (Z.to_nat (Z.log2 n))) n "".
Definition two_digits (n : Z) : string := (if n <? 10 then "0" else "") ++ digits_text n.

(** [%.2f] *)
Definition format_2f (x : spec_float) : string :=
  let signed (s : bool) (n : Z) := (if s then "-" else "") ++ digits_text (n / 100) ++ "." ++ two_digits (n mod 100) in
  match x with
  | S754_zero s => signed s 0
  | S754_infinity s => if s then "-Inf" else "+Inf"
  | S754_nan => "NaN"
  | S754_finite s m e => signed s (hundredths m e)
  end.

(** A float that [%.2f] writes without loss. *)
Definition exact_2f (x : spec_float) : Prop := (ParseFloat64 (format_2f x)).1 = x.

#[export] Instance spec_float_eq_dec : EqDecision spec_float.
Proof. solve_decision. Defined.

(** ** Integers: what a failed reading leaves *)

(** The digits of a number up to its end, or up to where it is beyond 64 bits. *)
Fixpoint uint64_digits (acc : Z) (s : string) : option Z :=
  match s with
  | EmptyString => Some acc
  | String c s' =>
      match digit_of c with
      | Some d => let n := 10 * acc + d in if 2 ^ 64 - 1 <? n then Some (2 ^ 64 - 1) else uint64_digits n s'
      | None => None
      end
  end.

(** The value of [strconv.Atoi] and of [strconv.ParseInt(s, 10, 64)] when the
    error is dropped: the nearest bound when out of range, else zero. *)
Definition atoi_value (s : string) : Z :=
  let '(neg, digits) := cut_sign s in
  let magnitude := if String.eqb digits "" then 0 else default 0 (uint64_digits 0 digits) in
  if neg then Z.max int64_min (- magnitude) else Z.min int64_max magnitude.

Lemma uint64_digits_ok acc s z : 0 <= acc → digits_from acc s = Some z → z <= 2 ^ 64 - 1 → uint64_digits acc s = Some z.
Proof.
  revert acc. induction s as [|c s IH]; intros acc Ha; cbn [digits_from uint64_digits]; [done|].
  destruct (digit_of c) as [d|] eqn:Ed; [|done]. intros Hz Hle.
  assert (0 <= d) by (unfold digit_of in Ed; case_match; bool_to_prop; rewrite ?Nat.leb_le in *; simplify_eq; lia).
  pose proof (digits_from_bound (10 * acc + d) s z ltac:(lia) Hz). destruct (Z.ltb_spec (2 ^ 64 - 1) (10 * acc + d)); [lia|]. apply IH; [lia|done..].
Qed.

Lemma cut_sign_Atoi s z : Atoi s = Some z → ∃ n, unsigned_digits (cut_sign s).2 = Some n ∧ z = (if (cut_sign s).1 then - n else n).
Proof.
  unfold Atoi. intros (w & Hw & H)%bind_Some. destruct (in_int64 w); [simplify_eq|done].
  destruct s as [|c s]; [done|]. unfold cut_sign.
  repeat case_match; cbn [fst snd] in *; simplify_eq; try (apply fmap_Some in Hw as (n & -> & ->)); eauto.
Qed.

Lemma atoi_value_ok s z : Atoi s = Some z → atoi_value s = z.
Proof.
  intros H. pose proof (Atoi_range s z H) as Hr. apply cut_sign_Atoi in H as (n & Hn & ->). unfold atoi_value.
  destruct (cut_sign s) as [neg digits]. cbn [fst snd] in *. unfold unsigned_digits in Hn. destruct digits as [|c digits]; [done|].
  pose proof (digits_from_bound 0 _ n ltac:(lia) Hn) as [Hn0 _]. cbn [String.eqb].
  assert (Hle : n <= 2 ^ 64 - 1) by (unfold int64_min, int64_max in Hr; destruct neg; lia).
  rewrite (uint64_digits_ok 0 (String c digits) n) by (done || lia). cbn zeta. cbn [default from_option id]. unfold id, int64_min, int64_max in *. destruct neg; lia.
Qed.

Lemma atoi_value_range s : int64_min <= atoi_value s <= int64_max.
Proof.
  assert (Hn : ∀ acc s n, 0 <= acc → uint64_digits acc s = Some n → 0 <= n).
  { clear. intros acc s. revert acc. induction s as [|c s IH]; intros acc n Ha; cbn [uint64_digits]; [by intros [= <-]|].
    destruct (digit_of c) as [d|] eqn:Ed; [|done].
    assert (0 <= d) by (unfold digit_of in Ed; case_match; bool_to_prop; rewrite ?Nat.leb_le in *; simplify_eq; lia).
    cbn zeta. case_match; [intros [= <-]; lia|]. apply IH. lia. }
  unfold atoi_value. destruct (cut_sign s) as [neg digits]. cbn zeta.
  assert (0 <= (if String.eqb digits "" then 0 else default 0 (uint64_digits 0 digits))).
  { case_match; [lia|]. destruct (uint64_digits 0 digits) eqn:E; [|done]. by apply (Hn 0 digits). }
  unfold int64_min, int64_max. destruct neg; lia.
Qed.

(** ** Two floats that are written alike *)

Definition float_char (c : ascii) : bool := plain_char c && negb (Ascii.eqb c ":") && negb (Ascii.eqb c "|").

Lemma digits_chars fuel n acc : all_chars float_char acc = true → all_chars float_char (dec_digits fuel n acc) = true.
Proof.
  revert n acc. induction fuel as [|fuel IH]; intros n acc Hacc; [done|]. cbn [dec_digits].
  assert (Hc : all_chars float_char (String (digit_char (n mod 10)) acc) = true).
  { cbn [all_chars]. rewrite Hacc, andb_true_r. pose proof (Z.mod_pos_bound n 10 ltac:(lia)) as Hm. set (d := n mod 10) in *. clearbody d.
    assert (Hd : d ∈ [0; 1; 2; 3; 4; 5; 6; 7; 8; 9]) by (rewrite !elem_of_cons; lia).
    repeat (apply elem_of_cons in Hd as [->|Hd]; [done|]). by apply elem_of_nil in Hd. }
  destruct (n / 10 =? 0); [done|]. by apply IH.
Qed.

Lemma format_2f_chars x : all_chars float_char (format_2f x) = true.
Proof.
  assert (H : ∀ (s : bool) n, all_chars float_char ((if s then "-" else "") ++ digits_text (n / 100) ++ "." ++ two_digits (n mod 100)) = true).
  { intros s n. unfold two_digits, digits_text. rewrite !all_chars_app, !digits_chars by done. by destruct s, (n mod 100 <? 10). }
  destruct x as [s|s| |s m e]; [apply H|by destruct s|done|apply H].
Qed.

Lemma format_2f_lacks sep x : sep = ":"%char ∨ sep = "|"%char → lacks sep (format_2f x) = true.
Proof.
  intros Hs. eapply all_chars_impl; [|apply format_2f_chars]. intros c. unfold float_char. rewrite !andb_true_iff.
  by destruct Hs as [-> | ->]; intros [[]].
Qed.

Lemma format_2f_inj x y : exact_2f x → exact_2f y → format_2f x = format_2f y → x = y.
Proof. unfold exact_2f. intros Hx Hy E. rewrite E in Hx. congruence. Qed.

Example reads_integers :
  atoi_value <$> ["12"; "-7"; "+3"; ""; "1x"; "99999999999999999999x"; "-99999999999999999999"] = [12; -7; 3; 0; 0; int64_max; int64_min].
Proof. reflexivity. Qed.

Example reads_decimals :
  (λ s, (format_2f (ParseFloat64 s).1, (ParseFloat64 s).2)) <$> ["1.5"; "-0"; "1_000.25"; "1e400"; "0x1.8p1"; "1__0"; "inf"; "abc"; ".5"; "2.675"; "0.125"; "1e22"] =
  [("1.50", true); ("-0.00", true); ("1000.25", true); ("+Inf", false); ("3.00", true); ("0.00", false); ("+Inf", true); ("0.00", false);
   ("0.50", true); ("2.67", true); ("0.12", true); ("10000000000000000000000.00", true)].
Proof. vm_compute. reflexivity. Qed.
