(* ===== verification/GoTime.v ===== *)
(** * Go's time package, as the services use it

    An instant ([time.Time]) is the number of nanoseconds since
    0001-01-01T00:00:00Z, so that the zero [time.Time{}] is [0]; a duration is
    a number of nanoseconds.  A [Location] is what Go's [lookup] answers for
    it: at an absolute second, the offset of the zone in force and the seconds
    between which it is in force.  [Date] resolves a wall-clock reading the
    way Go does, with its second look-up near a zone transition.  Instants are
    unbounded integers: the 292 billion year range of Go's is not modelled. *)

From S2P Require Import Prelude.
From Stdlib Require Import ZArith Lia.
Local Open Scope Z_scope.

Definition Second : Z := 1000000000.
Definition Millisecond : Z := 1000000.
Definition Minute : Z := 60 * Second.
Definition zero_time : Z := 0.

(** [Time.Unix]: whole seconds since 1970-01-01T00:00:00Z. *)
Definition Unix (t : Z) : Z := t / Second - 62135596800.

(** ** The proleptic Gregorian calendar

    Days are counted from 0001-01-01, which is day 0. *)
Definition days_before_year (y : Z) : Z :=
  let p := y - 1 in 365 * p + p / 4 - p / 100 + p / 400.

Definition leap_day (y : Z) : Z := days_before_year (y + 1) - days_before_year y - 365.

(** Days of the year before the first of month [m], [l] being 1 in a leap
    year. *)
Definition days_before_month (l m : Z) : Z :=
  if m <=? 1 then 0 else if m <=? 2 then 31 else
  l + (if m <=? 3 then 59 else if m <=? 4 then 90 else if m <=? 5 then 120
       else if m <=? 6 then 151 else if m <=? 7 then 181 else if m <=? 8 then 212
       else if m <=? 9 then 243 else if m <=? 10 then 273 else if m <=? 11 then 304
       else 334).

Definition month_of_yday (l yd : Z) : Z :=
  if yd <? 31 then 1 else if yd <? 59 + l then 2 else if yd <? 90 + l then 3
  else if yd <? 120 + l then 4 else if yd <? 151 + l then 5 else if yd <? 181 + l then 6
  else if yd <? 212 + l then 7 else if yd <? 243 + l then 8 else if yd <? 273 + l then 9
  else if yd <? 304 + l then 10 else if yd <? 334 + l then 11 else 12.

Definition year_of_days (n : Z) : Z :=
  let y := 400 * n / 146097 + 1 in
  if days_before_year (y + 1) <=? n then y + 1
  else if n <? days_before_year y then y - 1 else y.

Definition month_of_days (n : Z) : Z :=
  let y := year_of_days n in month_of_yday (leap_day y) (n - days_before_year y).

(** Day number of year [y], month [m], day [d]; out-of-range months carry
    into the year and out-of-range days into the following months, as
    [time.Date] documents. *)
Definition days_of (y m d : Z) : Z :=
  let y' := y + (m - 1) / 12 in
  let m' := (m - 1) mod 12 + 1 in
  days_before_year y' + days_before_month (leap_day y') m' + (d - 1).

Definition day_of_days (n : Z) : Z :=
  n - days_of (year_of_days n) (month_of_days n) 1 + 1.

(** ** Locations *)

Record zone := Zone { z_offset : Z; z_start : Z; z_end : Z }.
Record Location := MkLocation { lookup_zone : Z → zone }.

Definition FixedZone (off : Z) : Location :=
  MkLocation (λ _, Zone off int64_min int64_max).
Definition UTC : Location := FixedZone 0.

Section accessors.
Context (loc : Location).

(** Seconds of the wall clock at instant [t]. *)
Definition wall (t : Z) : Z := t / Second + z_offset (lookup_zone loc (t / Second)).
Definition Year (t : Z) : Z := year_of_days (wall t / 86400).
Definition Month (t : Z) : Z := month_of_days (wall t / 86400).
Definition Day (t : Z) : Z := day_of_days (wall t / 86400).
(** 0001-01-01 was a Monday; [time.Sunday] is 0. *)
Definition Weekday (t : Z) : Z := (wall t / 86400 + 1) mod 7.
Definition HourOf (t : Z) : Z := wall t mod 86400 / 3600.
Definition MinuteOf (t : Z) : Z := wall t mod 3600 / 60.
Definition SecondOf (t : Z) : Z := wall t mod 60.
Definition NanosecondOf (t : Z) : Z := t mod Second.

(** [time.Date]. *)
Definition Date (year month day hour min sec nsec : Z) : Z :=
  let abs := days_of year month day * 86400 + hour * 3600 + min * 60 + sec in
  let z := lookup_zone loc abs in
  let utc := abs - z_offset z in
  let off :=
    if z_offset z =? 0 then 0
    else if (utc <? z_start z) || (z_end z <=? utc) then z_offset (lookup_zone loc utc)
    else z_offset z in
  (abs - off) * Second + nsec.

(** [t.AddDate]. *)
Definition AddDate (t years months days : Z) : Z :=
  Date (Year t + years) (Month t + months) (Day t + days)
    (HourOf t) (MinuteOf t) (SecondOf t) (NanosecondOf t).
End accessors.

(** [t.Truncate(d)]. *)
Definition Truncate (t d : Z) : Z := t - t mod d.

(** The accessors unfold before the calendar they are defined with. *)
Strategy expand [Year Month Day Weekday HourOf MinuteOf SecondOf NanosecondOf].
Strategy 1000 [days_of year_of_days month_of_days day_of_days days_before_year].

(** ** Calendar lemmas *)

Lemma leap_day_range y : leap_day y = 0 ∨ leap_day y = 1.
Proof. unfold leap_day, days_before_year. euclid. Qed.

Lemma days_before_year_succ y : days_before_year (y + 1) = days_before_year y + 365 + leap_day y.
Proof. unfold leap_day. lia. Qed.

Lemma year_of_days_spec n :
  days_before_year (year_of_days n) <= n < days_before_year (year_of_days n + 1).
Proof.
  unfold year_of_days. set (y := 400 * n / 146097 + 1).
  assert (Hlo : days_before_year (y - 1) <= n) by (unfold days_before_year, y; euclid).
  assert (Hhi : n < days_before_year (y + 1 + 1)) by (unfold days_before_year, y; euclid).
  clearbody y.
  destruct (Z.leb_spec (days_before_year (y + 1)) n); [lia|].
  destruct (Z.ltb_spec n (days_before_year y)); [|lia].
  replace (y - 1 + 1) with y by lia. lia.
Qed.

(** First day of the year after month [m]. *)
Definition month_end (l m : Z) : Z :=
  if m =? 12 then 365 + l else days_before_month l (m + 1).

Ltac split_ifs :=
  repeat match goal with
  | |- context [if (?a <=? ?b) then _ else _] => destruct (Z.leb_spec a b)
  | |- context [if (?a <? ?b) then _ else _] => destruct (Z.ltb_spec a b)
  | |- context [if (?a =? ?b) then _ else _] => destruct (Z.eqb_spec a b)
  end.

Lemma month_of_yday_range l yd : 1 <= month_of_yday l yd <= 12.
Proof. unfold month_of_yday. split_ifs; lia. Qed.

Lemma month_of_yday_spec l yd :
  l = 0 ∨ l = 1 → 0 <= yd < 365 + l →
  days_before_month l (month_of_yday l yd) <= yd < month_end l (month_of_yday l yd).
Proof.
  intros Hl Hyd. unfold month_of_yday.
  split_ifs; unfold month_end, days_before_month; simpl; lia.
Qed.

Lemma month_of_yday_unique l m yd :
  l = 0 ∨ l = 1 → 1 <= m <= 12 →
  days_before_month l m <= yd < month_end l m → month_of_yday l yd = m.
Proof.
  intros Hl Hm.
  assert (m = 1 ∨ m = 2 ∨ m = 3 ∨ m = 4 ∨ m = 5 ∨ m = 6 ∨ m = 7 ∨ m = 8 ∨ m = 9 ∨ m = 10
          ∨ m = 11 ∨ m = 12) as Hcase by lia.
  unfold month_end, days_before_month, month_of_yday.
  destruct_or! Hcase; subst m; simpl; intros ?; split_ifs; lia.
Qed.

Lemma days_before_month_bound l m :
  l = 0 ∨ l = 1 → 1 <= m <= 12 → 0 <= days_before_month l m < 365 /\ month_end l m <= 365 + l.
Proof. intros Hl Hm. unfold month_end, days_before_month. split_ifs; lia. Qed.

Lemma days_of_month y m d :
  1 <= m <= 12 → days_of y m d = days_before_year y + days_before_month (leap_day y) m + (d - 1).
Proof.
  intros Hm. unfold days_of.
  assert ((m - 1) / 12 = 0) as -> by euclid. rewrite Z.mod_small by lia.
  by replace (y + 0) with y by lia; replace (m - 1 + 1) with m by lia.
Qed.

Lemma days_of_next_month y m :
  1 <= m <= 12 → days_of y (m + 1) 1 = days_before_year y + month_end (leap_day y) m.
Proof.
  intros Hm. unfold month_end. destruct (Z.eqb_spec m 12) as [->|Hne].
  - unfold days_of. replace ((12 + 1 - 1) / 12) with 1 by done.
    replace ((12 + 1 - 1) mod 12 + 1) with 1 by done.
    rewrite days_before_year_succ. unfold days_before_month. simpl. lia.
  - rewrite days_of_month by lia. lia.
Qed.

Lemma month_of_days_range n : 1 <= month_of_days n <= 12.
Proof. apply month_of_yday_range. Qed.

(** The month a day falls in: it starts on or before the day and ends after
    it. *)
Lemma month_bounds n :
  days_of (year_of_days n) (month_of_days n) 1 <= n
  < days_of (year_of_days n) (month_of_days n + 1) 1.
Proof.
  pose proof (month_of_days_range n) as Hm.
  rewrite days_of_month, days_of_next_month by done.
  unfold month_of_days in *. set (y := year_of_days n) in *.
  pose proof (year_of_days_spec n) as Hy. fold y in Hy.
  rewrite days_before_year_succ in Hy.
  pose proof (month_of_yday_spec (leap_day y) (n - days_before_year y) (leap_day_range y)).
  lia.
Qed.

Lemma days_before_year_mono y y' : y <= y' → days_before_year y <= days_before_year y'.
Proof. unfold days_before_year. euclid. Qed.

Lemma year_of_days_unique n y :
  days_before_year y <= n < days_before_year (y + 1) → year_of_days n = y.
Proof.
  intros Hy. pose proof (year_of_days_spec n) as Hn.
  destruct (Z.lt_trichotomy (year_of_days n) y) as [Hlt|[->|Hgt]]; [|done|].
  - pose proof (days_before_year_mono (year_of_days n + 1) y). lia.
  - pose proof (days_before_year_mono (y + 1) (year_of_days n)). lia.
Qed.

(** All the days between the first of a month and the first of the next are
    in that month. *)
Lemma month_constant y m n :
  1 <= m <= 12 → days_of y m 1 <= n < days_of y (m + 1) 1 →
  year_of_days n = y ∧ month_of_days n = m.
Proof.
  intros Hm. rewrite days_of_month, days_of_next_month by done. intros Hn.
  pose proof (days_before_month_bound (leap_day y) m (leap_day_range y) Hm).
  assert (Hy : year_of_days n = y).
  { apply year_of_days_unique. rewrite days_before_year_succ. lia. }
  split; [done|]. unfold month_of_days. rewrite Hy.
  apply month_of_yday_unique; [apply leap_day_range|done|lia].
Qed.

(** Reading a day number as year, month, day and building it back. *)
Lemma civil_roundtrip n : days_of (year_of_days n) (month_of_days n) (day_of_days n) = n.
Proof.
  unfold day_of_days. pose proof (month_of_days_range n).
  rewrite !days_of_month by done. lia.
Qed.

Lemma Date_fixed off y m d hh mi ss ns :
  Date (FixedZone off) y m d hh mi ss ns
  = (days_of y m d * 86400 + hh * 3600 + mi * 60 + ss - off) * Second + ns.
Proof.
  unfold Date. simpl. destruct (Z.eqb_spec off 0) as [->|]; [done|].
  by destruct (_ || _).
Qed.

(** A wall-clock second from a given one up to the end of its month is in the
    same month. *)
Lemma month_of_later_second w w' :
  w <= w' < 86400 * days_of (year_of_days (w / 86400)) (month_of_days (w / 86400) + 1) 1 →
  month_of_days (w' / 86400) = month_of_days (w / 86400).
Proof.
  pose proof (month_bounds (w / 86400)) as Hb.
  pose proof (month_constant (year_of_days (w / 86400)) (month_of_days (w / 86400)) (w' / 86400)
    (month_of_days_range _)) as Hc.
  revert Hb Hc. generalize (days_of (year_of_days (w / 86400)) (month_of_days (w / 86400)) 1).
  generalize (days_of (year_of_days (w / 86400)) (month_of_days (w / 86400) + 1) 1).
  intros hi lo Hb Hc Hw. apply Hc. clear Hc. euclid.
Qed.

Lemma month_end_ahead w :
  w < 86400 * days_of (year_of_days (w / 86400)) (month_of_days (w / 86400) + 1) 1.
Proof.
  pose proof (month_bounds (w / 86400)) as [_ Hb]. revert Hb.
  generalize (days_of (year_of_days (w / 86400)) (month_of_days (w / 86400) + 1) 1).
  intros hi Hb. euclid.
Qed.
