(* ===== verification/Cron.v ===== *)
(** * tasks/cron.go: cron expressions and their next occurrence

    [ParseCron] compiles a five-field expression or an alias to the sets of
    minutes, hours, days and months it names; [Next] searches the first
    instant after a given one that the sets accept.  The sets ([map[int]bool]
    in the source, with only [true] stored) are [gset Z]. *)

From S2P Require Import Prelude GoStrings GoTime.
From Stdlib Require Import ZArith Lia Ascii String.
Local Open Scope string_scope.
Local Open Scope Z_scope.

Definition maxCronMinute : Z := 59.
Definition maxCronHour : Z := 23.
Definition maxCronDayOfMonth : Z := 31.
Definition maxCronMonth : Z := 12.
Definition sundayAlternate : Z := 7.
Definition maxYearsLookup : Z := 5.

Definition cronAliases : list (string * string) :=
  [ ("@hourly", "0 * * * *"); ("@daily", "0 0 * * *"); ("@midnight", "0 0 * * *");
    ("@weekly", "0 0 * * 0"); ("@monthly", "0 0 1 * *"); ("@yearly", "0 0 1 1 *");
    ("@annually", "0 0 1 1 *") ].

Fixpoint assoc (k : string) (l : list (string * string)) : option string :=
  match l with
  | [] => None
  | (k', v) :: l' => if String.eqb k k' then Some v else assoc k l'
  end.

Record CronSchedule := MkCronSchedule {
  OriginalExpression : string;
  Minutes : gset Z;
  Hours : gset Z;
  DaysOfMonth : gset Z;
  Months : gset Z;
  DaysOfWeek : gset Z;
  DayOfMonthWildcard : bool;
  DayOfWeekWildcard : bool;
}.

(** The errors of [parseCronField], with the text they quote. *)
Inductive FieldError :=
| EmptyPart (field : string)
| InvalidStepSyntax (part : string)
| InvalidStepValue (step : string)
| InvalidRangeSyntax (segment : string)
| InvalidRange (segment : string)
| InvalidValue (segment : string).

Inductive CronField := MinuteField | HourField | DayOfMonthField | MonthField | DayOfWeekField.

Inductive CronError :=
| EmptyExpression
| WrongFieldCount (got : nat)
| InvalidField (f : CronField) (e : FieldError).

(** ** Fields *)

(** The step of a part, and what is left of the part in front of it. *)
Definition parse_step (part : string) : result FieldError (Z * string) :=
  if Contains part "/" then
    match Split part "/" with
    | [rangeSegment; step] =>
        match Atoi step with
        | Some parsedStep =>
            if parsedStep <=? 0 then Err (InvalidStepValue step)
            else Ok (parsedStep, rangeSegment)
        | None => Err (InvalidStepValue step)
        end
    | _ => Err (InvalidStepSyntax part)
    end
  else Ok (1, part).

(** The bounds a range segment names. *)
Definition parse_bounds (rangeSegment : string) (minLimit maxLimit : Z)
    : result FieldError (Z * Z) :=
  if String.eqb rangeSegment "*" then Ok (minLimit, maxLimit)
  else if Contains rangeSegment "-" then
    match Split rangeSegment "-" with
    | [lo; hi] =>
        match Atoi lo, Atoi hi with
        | Some rangeStart, Some rangeEnd =>
            if (rangeEnd <? rangeStart) || (rangeStart <? minLimit) || (maxLimit <? rangeEnd)
            then Err (InvalidRange rangeSegment)
            else Ok (rangeStart, rangeEnd)
        | _, _ => Err (InvalidRange rangeSegment)
        end
    | _ => Err (InvalidRangeSyntax rangeSegment)
    end
  else
    match Atoi rangeSegment with
    | Some exactNumber =>
        if (exactNumber <? minLimit) || (maxLimit <? exactNumber)
        then Err (InvalidValue rangeSegment)
        else Ok (exactNumber, exactNumber)
    | None => Err (InvalidValue rangeSegment)
    end.

(** [for itemIndex := startBound; itemIndex <= endBound; itemIndex += stepInterval
    { result[itemIndex] = true }]; the addition wraps at 64 bits. *)
Definition fill_step (endBound stepInterval : Z) (s : Z * gset Z) : Z * gset Z + gset Z :=
  let '(itemIndex, acc) := s in
  if itemIndex <=? endBound then inl (wrap64 (itemIndex + stepInterval), {[itemIndex]} ∪ acc)
  else inr acc.

(** Rounds allowed to the loop; [fill_terminates] shows they are enough. *)
Definition fill_fuel : positive := 512.

Definition fill (startBound endBound stepInterval : Z) (acc : gset Z) : gset Z :=
  match iter_until (fill_step endBound stepInterval) fill_fuel (startBound, acc) with
  | inr acc' => acc'
  | inl (_, acc') => acc'
  end.

Definition parse_part (field : string) (minLimit maxLimit : Z) (acc : gset Z) (part : string)
    : result FieldError (gset Z) :=
  let part := TrimSpace part in
  if String.eqb part "" then Err (EmptyPart field) else
  (let! (stepInterval, rangeSegment) := parse_step part in
   let! (startBound, endBound) := parse_bounds rangeSegment minLimit maxLimit in
   Ok (fill startBound endBound stepInterval acc))%go.

Fixpoint parse_parts (field : string) (minLimit maxLimit : Z) (parts : list string)
    (acc : gset Z) : result FieldError (gset Z) :=
  match parts with
  | [] => Ok acc
  | part :: parts' =>
      (let! acc' := parse_part field minLimit maxLimit acc part in
       parse_parts field minLimit maxLimit parts' acc')%go
  end.

Definition parseCronField (field : string) (minLimit maxLimit : Z)
    : result FieldError (gset Z) :=
  parse_parts field minLimit maxLimit (Split field ",") ∅.

Definition fold_sunday (dayIndex : Z) : Z :=
  if dayIndex =? sundayAlternate then 0 else dayIndex.

Definition parseDayOfWeekField (field : string) : result FieldError (gset Z) :=
  (let! rawMatches := parseCronField field 0 sundayAlternate in
   Ok (set_map fold_sunday rawMatches))%go.

Definition ParseCron (expression : string) : result CronError CronSchedule :=
  let trimmed := TrimSpace expression in
  if String.eqb trimmed "" then Err EmptyExpression else
  let trimmed := default trimmed (assoc (ToLower trimmed) cronAliases) in
  match Fields trimmed with
  | [f0; f1; f2; f3; f4] =>
      (let! minutes := map_err (InvalidField MinuteField) (parseCronField f0 0 maxCronMinute) in
       let! hours := map_err (InvalidField HourField) (parseCronField f1 0 maxCronHour) in
       let! daysOfMonth :=
         map_err (InvalidField DayOfMonthField) (parseCronField f2 1 maxCronDayOfMonth) in
       let! months := map_err (InvalidField MonthField) (parseCronField f3 1 maxCronMonth) in
       let! daysOfWeek := map_err (InvalidField DayOfWeekField) (parseDayOfWeekField f4) in
       Ok (MkCronSchedule expression minutes hours daysOfMonth months daysOfWeek
             (String.eqb f2 "*") (String.eqb f4 "*")))%go
  | fields => Err (WrongFieldCount (List.length fields))
  end.

(** ** The next occurrence *)

Definition has (s : gset Z) (z : Z) : bool := bool_decide (z ∈ s).

(** The day rule: either restricted field is enough when both are. *)
Definition day_match (schedule : CronSchedule) (dayOfMonth dayOfWeek : Z) : bool :=
  if DayOfMonthWildcard schedule && DayOfWeekWildcard schedule then true
  else if negb (DayOfMonthWildcard schedule) && negb (DayOfWeekWildcard schedule) then
    has (DaysOfMonth schedule) dayOfMonth || has (DaysOfWeek schedule) dayOfWeek
  else if negb (DayOfMonthWildcard schedule) then has (DaysOfMonth schedule) dayOfMonth
  else has (DaysOfWeek schedule) dayOfWeek.

(** One round of the search. *)
Definition next_step (schedule : CronSchedule) (location : Location) (maxCandidateTime : Z)
    (candidateTime : Z) : Z + Z :=
  if negb (candidateTime <? maxCandidateTime) then inr zero_time
  else if negb (has (Months schedule) (Month location candidateTime)) then
    inl (Date location (Year location candidateTime) (Month location candidateTime + 1) 1 0 0 0 0)
  else if negb (day_match schedule (Day location candidateTime) (Weekday location candidateTime))
  then
    inl (Date location (Year location candidateTime) (Month location candidateTime)
           (Day location candidateTime + 1) 0 0 0 0)
  else if negb (has (Hours schedule) (HourOf location candidateTime)) then
    inl (Date location (Year location candidateTime) (Month location candidateTime)
           (Day location candidateTime) (HourOf location candidateTime + 1) 0 0 0)
  else if negb (has (Minutes schedule) (MinuteOf location candidateTime)) then
    inl (candidateTime + Minute)
  else inr candidateTime.

(** First candidate: the next minute boundary. *)
Definition first_candidate (startTime : Z) : Z := Truncate startTime Minute + Minute.

(** [Next] with a bound on the rounds of its loop; [None] when the bound is
    used up.  [location] is [nil] for [None]. *)
Definition NextFuel (fuel : positive) (schedule : CronSchedule) (startTime : Z)
    (location : option Location) : option Z :=
  let location := default UTC location in
  let candidateTime := first_candidate startTime in
  let maxCandidateTime := AddDate location candidateTime maxYearsLookup 0 0 in
  match iter_until (next_step schedule location maxCandidateTime) fuel candidateTime with
  | inr t => Some t
  | inl _ => None
  end.

(** More rounds than there are minutes in five years. *)
Definition next_fuel : positive := 4194304.

Definition Next (schedule : CronSchedule) (startTime : Z) (location : option Location)
    : option Z :=
  NextFuel next_fuel schedule startTime location.

(** ** What the search is for *)

(** The schedule accepts the wall-clock minute of [t]. *)
Definition schedule_matches (schedule : CronSchedule) (location : Location) (t : Z) : bool :=
  has (Months schedule) (Month location t)
  && day_match schedule (Day location t) (Weekday location t)
  && has (Hours schedule) (HourOf location t)
  && has (Minutes schedule) (MinuteOf location t).

(** ** The loop that fills a field *)

Section fill_lemmas.
Context (endBound stepInterval : Z).
Hypothesis Hend : endBound <= 59.
Hypothesis Hstep : 1 <= stepInterval <= int64_max.

(** Terminates because the index climbs past the bound. *)
Lemma fill_terminates_plain start acc :
  stepInterval <= int64_max - 59 → 0 <= start <= 59 →
  ∃ acc', iter_until (fill_step endBound stepInterval) fill_fuel (start, acc) = inr acc'.
Proof using Hend Hstep.
  intros Hs Hstart.
  apply (iter_until_terminates _ (λ s, 0 <= s.1) (λ s, Z.max 0 (60 - s.1)));
    unfold fill_fuel; simpl; try lia.
  intros [i a] [i' a'] Hi. simpl. destruct (Z.leb_spec i endBound); [|done].
  intros [= <- _]. unfold int64_max in *. simpl in *.
  rewrite wrap64_id by (unfold int64_min, int64_max; lia). lia.
Qed.

(** Terminates although the index wraps: two rounds bring it back below
    where it was. *)
Lemma fill_terminates_wrap start acc :
  int64_max - 59 < stepInterval → 0 <= start <= 59 →
  ∃ acc', iter_until (fill_step endBound stepInterval) fill_fuel (start, acc) = inr acc'.
Proof using Hend Hstep.
  intros Hs Hstart. unfold int64_max in *. remember (2 ^ 63 - stepInterval) as k eqn:Hk.
  apply (iter_until_terminates _
    (λ s, - 60 <= s.1 ∨ ∃ i, k <= i <= 59 ∧ s.1 = i - k - 2 ^ 63)
    (λ s, if endBound <? s.1 then 0
          else if s.1 <? - 60 then 2 * (s.1 + stepInterval + 60) + 2
          else 2 * (s.1 + 60) + 1)); unfold fill_fuel; simpl.
  - intros [i a] [i' a'] Hi. simpl. destruct (Z.leb_spec i endBound); [|done].
    intros [= <- _]. simpl in Hi. unfold wrap64.
    destruct Hi as [Hi|(j & Hj & ->)].
    + destruct (Z.lt_ge_cases i k).
      * rewrite Z.mod_small by lia. split; [left; lia|]. split_ifs; lia.
      * replace (i + stepInterval + 2 ^ 63) with (i - k + 1 * 2 ^ 64) by lia.
        rewrite Z.mod_add, Z.mod_small by lia. split; [right; exists i; lia|].
        split_ifs; lia.
    + replace (j - k - 2 ^ 63 + stepInterval + 2 ^ 63) with (j - 2 * k + 2 ^ 63) by lia.
      rewrite Z.mod_small by lia. split; [left; lia|]. split_ifs; lia.
  - intros [i a] [Hi|(j & Hj & ->)]; simpl in *; split_ifs; lia.
  - left. lia.
  - split_ifs; lia.
Qed.

Lemma fill_terminates start acc :
  0 <= start <= 59 →
  ∃ acc', iter_until (fill_step endBound stepInterval) fill_fuel (start, acc) = inr acc'.
Proof using Hend Hstep.
  intros. destruct (Z.le_gt_cases stepInterval (int64_max - 59)).
  - by apply fill_terminates_plain.
  - by apply fill_terminates_wrap.
Qed.

Lemma fill_members_loop n i acc acc' z :
  stepInterval <= int64_max - 59 → 0 <= i →
  run_rounds (fill_step endBound stepInterval) n (i, acc) = inr acc' →
  z ∈ acc' ↔ z ∈ acc ∨ ∃ k, 0 <= k ∧ z = i + k * stepInterval ∧ z <= endBound.
Proof using Hend Hstep.
  intros Hs. revert i acc. induction n as [|n IH]; intros i acc Hi; [done|].
  simpl. destruct (Z.leb_spec i endBound); simpl.
  - unfold int64_max in Hs. rewrite wrap64_id by (unfold int64_min, int64_max; lia).
    intros ->%IH; [|lia]. rewrite elem_of_union, elem_of_singleton. split.
    + intros [[->|?]|(k & ? & -> & ?)]; [right; exists 0; lia|by left|].
      right. exists (k + 1). lia.
    + intros [?|(k & ? & -> & ?)]; [tauto|]. destruct (Z.eq_dec k 0) as [->|].
      * left. left. lia.
      * right. exists (k - 1). lia.
  - intros [= <-]. split; [tauto|]. intros [?|(k & ? & -> & ?)]; [done|]. nia.
Qed.

(** Membership in a filled field: the multiples of the step from the start
    bound to the end bound, as long as the step leaves room below the
    largest [int]. *)
Lemma elem_of_fill start acc z :
  stepInterval <= int64_max - 59 → 0 <= start <= 59 →
  z ∈ fill start endBound stepInterval acc ↔
  z ∈ acc ∨ ∃ k, 0 <= k ∧ z = start + k * stepInterval ∧ z <= endBound.
Proof using Hend Hstep.
  intros Hs Hstart. destruct (fill_terminates start acc Hstart) as [acc' Hacc'].
  unfold fill. rewrite Hacc'. rewrite iter_until_nat in Hacc'.
  eapply fill_members_loop; eauto. lia.
Qed.
End fill_lemmas.

Lemma fill_keeps e st i acc n acc' :
  run_rounds (fill_step e st) n (i, acc) = inr acc' → acc ⊆ acc'.
Proof.
  revert i acc. induction n as [|n IH]; intros i acc; [done|]. simpl.
  case_match; simpl; [intros ?%IH; set_solver|]. by intros [= <-].
Qed.

(** A field always accepts its start bound. *)
Lemma fill_start start e st acc :
  1 <= st <= int64_max → e <= 59 → 0 <= start <= e → start ∈ fill start e st acc ∧ acc ⊆ fill start e st acc.
Proof.
  intros Hst He Hs. destruct (fill_terminates e st He Hst start acc) as [acc' H]; [lia|].
  unfold fill. rewrite H. rewrite iter_until_nat in H.
  destruct (Pos2Nat.is_succ fill_fuel) as [n Hn]. rewrite Hn in H. cbn [run_rounds] in H.
  unfold fill_step in H at 2. destruct (Z.leb_spec start e); [|lia]. cbn [and_then] in H.
  apply fill_keeps in H. set_solver.
Qed.

(** ** Fields *)

Lemma parse_step_range part st seg :
  parse_step part = Ok (st, seg) → 1 <= st <= int64_max.
Proof.
  unfold parse_step. unfold int64_max. branches; intros; simplify_eq; [|lia].
  bool_to_prop. match goal with H : Atoi _ = Some _ |- _ => apply Atoi_range in H end.
  unfold int64_min, int64_max in *. lia.
Qed.

Lemma parse_step_short part st seg :
  (String.length part <= 18)%nat → parse_step part = Ok (st, seg) → st <= int64_max - 59.
Proof.
  intros Hlen. unfold parse_step, int64_max. destruct (Contains part "/"); [|intros; simplify_eq; lia].
  destruct (Split part "/") as [|a [|b [|c l]]] eqn:E; try done.
  destruct (Atoi b) as [z|] eqn:Ea; [|done]. destruct (z <=? 0); [done|]. intros [= <- _].
  apply Atoi_bound in Ea. assert (Hb : b ∈ Split part "/") by (rewrite E; set_solver).
  apply Split_length in Hb.
  pose proof (Z.pow_le_mono_r 10 (Z.of_nat (String.length b)) 18). lia.
Qed.

Lemma parse_bounds_range seg lo hi s e :
  lo <= hi → parse_bounds seg lo hi = Ok (s, e) → lo <= s <= e ∧ e <= hi.
Proof. intros Hlh. unfold parse_bounds. branches; intros; simplify_eq; bool_to_prop; lia. Qed.

(** What [parse_part] adds to the field: with limits inside a clock field, the
    members of the range it names, at least one of them. *)
Lemma parse_part_ok field lo hi acc part acc' :
  0 <= lo <= hi → hi <= 59 →
  parse_part field lo hi acc part = Ok acc' →
  acc ⊆ acc' ∧ (∃ z, z ∈ acc' ∧ lo <= z <= hi)
  ∧ ((String.length part <= 18)%nat → ∀ z, z ∈ acc' → z ∈ acc ∨ lo <= z <= hi).
Proof.
  intros Hlo Hhi. unfold parse_part. destruct (String.eqb _ _); [done|].
  rewrite result_bind_Ok. intros ([st seg] & Hst & H). apply result_bind_Ok in H.
  destruct H as ([s e] & Hb & [= <-]).
  pose proof (parse_step_range _ _ _ Hst). apply parse_bounds_range in Hb; [|lia].
  destruct (fill_start s e st acc) as [Hin Hsub]; [lia..|].
  split; [done|]. split; [exists s; split; [done|lia]|].
  intros Hlen z Hz. assert (Hs : st <= int64_max - 59).
  { eapply parse_step_short, Hst. pose proof (TrimSpace_length part). lia. }
  apply elem_of_fill in Hz; [|lia..]. destruct Hz as [?|(k & ? & -> & ?)]; [by left|].
  right. nia.
Qed.

Lemma parse_parts_ok field lo hi parts acc acc' :
  0 <= lo <= hi → hi <= 59 →
  parse_parts field lo hi parts acc = Ok acc' →
  acc ⊆ acc' ∧ (parts ≠ [] → ∃ z, z ∈ acc' ∧ lo <= z <= hi)
  ∧ (Forall (λ p, String.length p <= 18)%nat parts → ∀ z, z ∈ acc' → z ∈ acc ∨ lo <= z <= hi).
Proof.
  intros Hlo Hhi. revert acc. induction parts as [|p ps IH]; intros acc; simpl.
  { intros [= <-]. set_solver. }
  rewrite result_bind_Ok. intros (a & Ha & Hps). apply parse_part_ok in Ha; [|done..].
  apply IH in Hps. destruct Ha as (Ha1 & (z & Hz & Hzr) & Ha3), Hps as (Hp1 & _ & Hp3).
  split; [set_solver|]. split; [intros _; exists z; set_solver|].
  intros [Hp Hall]%Forall_cons_iff w Hw. destruct (Hp3 Hall w Hw) as [?%Ha3|]; tauto.
Qed.

Definition non_empty_in (lo hi : Z) (s : gset Z) : Prop :=
  (∃ z, z ∈ s ∧ lo <= z <= hi) ∧ ∀ z, z ∈ s → lo <= z <= hi.

Lemma parseCronField_ok field lo hi s :
  0 <= lo <= hi → hi <= 59 → (String.length field <= 18)%nat →
  parseCronField field lo hi = Ok s → non_empty_in lo hi s.
Proof.
  intros Hlo Hhi Hlen H. apply parse_parts_ok in H as (_ & Hne & Hin); [|done..].
  split; [exact (Hne (Split_not_nil _ _))|].
  assert (Hall : Forall (λ p, String.length p <= 18)%nat (Split field ",")).
  { apply list.Forall_forall. intros f Hf%Split_length. lia. }
  intros z Hz. destruct (Hin Hall z Hz) as [?|]; [set_solver|done].
Qed.

(** A compiled schedule is well formed: every set names at least one value,
    and only values of its field; Sunday is 0. *)
Record wf_schedule (s : CronSchedule) : Prop := {
  wf_minutes : non_empty_in 0 59 (Minutes s);
  wf_hours : non_empty_in 0 23 (Hours s);
  wf_dom : non_empty_in 1 31 (DaysOfMonth s);
  wf_months : non_empty_in 1 12 (Months s);
  wf_dow : non_empty_in 0 6 (DaysOfWeek s);
}.

Lemma parseDayOfWeekField_ok field s :
  (String.length field <= 18)%nat → parseDayOfWeekField field = Ok s → non_empty_in 0 6 s.
Proof.
  intros Hlen. unfold parseDayOfWeekField. rewrite result_bind_Ok. intros (raw & Hraw & [= <-]).
  apply parseCronField_ok in Hraw; [|unfold sundayAlternate; lia|unfold sundayAlternate; lia|done].
  destruct Hraw as [(z & Hz & Hr) Hall]. unfold fold_sunday, sundayAlternate in *. split.
  - exists (if z =? 7 then 0 else z). split; [|destruct (Z.eqb_spec z 7); lia].
    apply elem_of_map. eauto.
  - intros w (x & -> & Hx)%elem_of_map. specialize (Hall x Hx). destruct (Z.eqb_spec x 7); lia.
Qed.

(** The expression an alias stands for, or the trimmed expression. *)
Definition expand_alias (expression : string) : string :=
  default (TrimSpace expression) (assoc (ToLower (TrimSpace expression)) cronAliases).

(** The inversion of [ParseCron]: what an accepted expression went through. *)
Lemma ParseCron_inv e s :
  ParseCron e = Ok s →
  ∃ f0 f1 f2 f3 f4,
    Fields (expand_alias e) = [f0; f1; f2; f3; f4]
    ∧ parseCronField f0 0 maxCronMinute = Ok (Minutes s)
    ∧ parseCronField f1 0 maxCronHour = Ok (Hours s)
    ∧ parseCronField f2 1 maxCronDayOfMonth = Ok (DaysOfMonth s)
    ∧ parseCronField f3 1 maxCronMonth = Ok (Months s)
    ∧ parseDayOfWeekField f4 = Ok (DaysOfWeek s).
Proof.
  unfold ParseCron, expand_alias. destruct (String.eqb _ _); [done|].
  destruct (Fields _) as [|f0 [|f1 [|f2 [|f3 [|f4 [|f5 l]]]]]] eqn:E; try done.
  intros H. repeat (apply result_bind_Ok in H as (? & ?%map_err_Ok & H)). simplify_eq.
  by exists f0, f1, f2, f3, f4.
Qed.

(** every expression [ParseCron] accepts compiles to a well-formed
    schedule: each of the five sets is non-empty and stays inside its field's
    range, with 7 folded to Sunday's 0.  The fields are at most 18 bytes long,
    which keeps a step away from the largest [int]: the loop index overflows
    with a step near it. *)
Theorem ParseCron_wf (expression : string) (s : CronSchedule) :
  Forall (λ f, String.length f <= 18)%nat (Fields (expand_alias expression)) →
  ParseCron expression = Ok s → wf_schedule s.
Proof.
  intros Hlen (f0 & f1 & f2 & f3 & f4 & E & H0 & H1 & H2 & H3 & H4)%ParseCron_inv.
  rewrite E, !Forall_cons_iff in Hlen. destruct_and! Hlen.
  split; try (eapply parseCronField_ok; [..|eassumption]; unfold
    maxCronMinute, maxCronHour, maxCronDayOfMonth, maxCronMonth; (lia || done)).
  by eapply parseDayOfWeekField_ok.
Qed.

Lemma ParseCron_wf_witness :
  ∃ s, ParseCron "*/15 9-17 1,15 * 1-7/2" = Ok s ∧ wf_schedule s.
Proof.
  eexists. split; [vm_compute; reflexivity|].
  apply (ParseCron_wf "*/15 9-17 1,15 * 1-7/2").
  - vm_compute. repeat constructor.
  - vm_compute. reflexivity.
Defined.

(** a step close to the largest [int] overflows the loop index of
    [parseCronField]: the minute field [5/9223372036854775807] also accepts
    minutes 3 and 1, and puts values outside 0..59 into the set. *)
Theorem huge_step_leaves_range :
  ∃ s, parseCronField "5/9223372036854775807" 0 maxCronMinute = Ok s
    ∧ 3 ∈ s ∧ 1 ∈ s ∧ -1 ∈ s ∧ int64_min ∈ s.
Proof.
  eexists. split; [vm_compute; reflexivity|].
  repeat split; apply (bool_decide_unpack _); vm_compute; exact I.
Qed.

(** ** The search *)

(** How a round leaves the loop, in any location. *)
Lemma next_step_leaves schedule loc mx c r :
  next_step schedule loc mx c = inr r →
  (mx <= c ∧ r = zero_time) ∨ (c < mx ∧ r = c ∧ schedule_matches schedule loc c = true).
Proof.
  unfold next_step, schedule_matches. destruct (Z.ltb_spec c mx); simpl; [|naive_solver].
  repeat (destruct (has _ _) || destruct (day_match _ _ _)); simpl; naive_solver.
Qed.

(** *** In a zone of constant offset

    [o] is the zone's offset in minutes. *)
Section next_fixed.
Context (schedule : CronSchedule) (o : Z).
Let loc := FixedZone (60 * o).

Definition aligned (t : Z) : Prop := t mod Minute = 0.

Lemma wall_mono t t' : t <= t' → wall loc t <= wall loc t'.
Proof using. intros. unfold wall, loc. simpl. pose proof (Z.div_le_mono t t' Second). unfold Second in *. lia. Qed.

Lemma wall_before t x : t < (x - 60 * o) * Second → wall loc t < x.
Proof using. unfold wall, loc, Second. simpl. euclid. Qed.

Lemma before_wall t x : wall loc t < x → t < (x - 60 * o) * Second.
Proof using. unfold wall, loc, Second. simpl. euclid. Qed.

Lemma aligned_wall x : aligned ((60 * x - 60 * o) * Second).
Proof using.
  unfold aligned. replace ((60 * x - 60 * o) * Second) with ((x - o) * Minute) by (unfold Minute; lia).
  apply Z.mod_mul. done.
Qed.

(** The dates the search jumps to, as wall-clock seconds: the first of the
    next month, the next day, the next hour. *)
Definition month_jump (c : Z) : Z := days_of (Year loc c) (Month loc c + 1) 1 * 1440.
Definition day_jump (c : Z) : Z := (wall loc c / 86400 + 1) * 1440.
Definition hour_jump (c : Z) : Z := (wall loc c / 3600 + 1) * 60.
Definition at_wall_minute (x : Z) : Z := (60 * x - 60 * o) * Second.
Strategy expand [month_jump day_jump hour_jump at_wall_minute].

Lemma next_month_date c :
  Date loc (Year loc c) (Month loc c + 1) 1 0 0 0 0 = at_wall_minute (month_jump c).
Proof using. unfold loc. rewrite Date_fixed. unfold at_wall_minute, month_jump, loc, Second. lia. Qed.

Lemma next_day_date c :
  Date loc (Year loc c) (Month loc c) (Day loc c + 1) 0 0 0 0 = at_wall_minute (day_jump c).
Proof using.
  unfold loc. rewrite Date_fixed. unfold Year, Month, Day, at_wall_minute, day_jump, loc.
  pose proof (civil_roundtrip (wall (FixedZone (60 * o)) c / 86400)) as E.
  pose proof (month_of_days_range (wall (FixedZone (60 * o)) c / 86400)).
  rewrite days_of_month in * by done. unfold Second. lia.
Qed.

Lemma next_hour_date c :
  Date loc (Year loc c) (Month loc c) (Day loc c) (HourOf loc c + 1) 0 0 0
  = at_wall_minute (hour_jump c).
Proof using.
  unfold loc. rewrite Date_fixed. unfold Year, Month, Day. rewrite civil_roundtrip.
  unfold HourOf, at_wall_minute, hour_jump, loc. set (w := wall _ c). clearbody w.
  assert (w / 86400 * 86400 + (w mod 86400 / 3600 + 1) * 3600 = (w / 3600 + 1) * 3600) by euclid.
  unfold Second. lia.
Qed.

Lemma month_same c t :
  wall loc c <= wall loc t < 60 * month_jump c → Month loc t = Month loc c.
Proof using.
  intros Ht. unfold Month. apply month_of_later_second.
  unfold month_jump, Year, Month in Ht. rewrite !Z.mul_assoc in Ht. lia.
Qed.

Lemma month_jump_ahead c : wall loc c < 60 * month_jump c.
Proof using.
  pose proof (month_end_ahead (wall loc c)). unfold month_jump, Year, Month. lia.
Qed.

(** [c'] is a minute after [c] such that the schedule refuses every minute
    from [c] up to it. *)
Definition skips (c c' : Z) : Prop :=
  aligned c' ∧ c < c' ∧ ∀ t, c <= t < c' → aligned t → schedule_matches schedule loc t = false.

Lemma skip_to c x :
  wall loc c < 60 * x →
  (∀ t, wall loc c <= wall loc t < 60 * x → schedule_matches schedule loc t = false) →
  skips c (at_wall_minute x).
Proof using.
  intros Hc Hall. split; [apply aligned_wall|]. split; [by apply before_wall|].
  intros t [Ht1 Ht2] _. apply Hall. split; [by apply wall_mono|by apply wall_before].
Qed.

(** The minutes a round jumps over are all refused by the schedule. *)
Lemma next_step_skips mx c c' :
  aligned c → next_step schedule loc mx c = inl c' → c < mx ∧ skips c c'.
Proof using.
  intros Hc. unfold next_step. destruct (Z.ltb_spec c mx); simpl; [|done].
  intros Hstep. split; [done|]. revert Hstep.
  destruct (has (Months schedule) (Month loc c)) eqn:Em; simpl.
  2:{ rewrite next_month_date. intros [= <-]. apply skip_to; [apply month_jump_ahead|].
      intros t Ht. unfold schedule_matches. by rewrite (month_same c t), Em. }
  destruct (day_match schedule (Day loc c) (Weekday loc c)) eqn:Ed; simpl.
  2:{ rewrite next_day_date. intros [= <-]. apply skip_to; [unfold day_jump; euclid|].
      unfold day_jump. intros t Ht. assert (wall loc t / 86400 = wall loc c / 86400) as E by euclid.
      unfold schedule_matches, Day, Weekday in *. rewrite E, Ed. by rewrite andb_false_r. }
  destruct (has (Hours schedule) (HourOf loc c)) eqn:Eh; simpl.
  2:{ rewrite next_hour_date. intros [= <-]. apply skip_to; [unfold hour_jump; euclid|].
      unfold hour_jump. intros t Ht. assert (HourOf loc t = HourOf loc c) as E by (unfold HourOf; euclid).
      unfold schedule_matches. rewrite E, Eh. by rewrite andb_false_r. }
  destruct (has (Minutes schedule) (MinuteOf loc c)) eqn:Ei; simpl; [done|].
  intros [= <-]. unfold skips, aligned in *. split; [|split].
  - rewrite <- (Z.mul_1_l Minute) at 1. by rewrite Z.mod_add.
  - unfold Minute, Second. lia.
  - intros t Ht Hat. assert (t = c) as -> by (unfold Minute, Second in *; euclid).
    unfold schedule_matches. by rewrite Ei, andb_false_r.
Qed.

(** Five years are at most 1831 days. *)
Lemma AddDate_window c :
  aligned c → c + 1824 * 86400 * Second <= AddDate loc c maxYearsLookup 0 0
              <= c + 1831 * 86400 * Second.
Proof using.
  intros Hc. unfold AddDate, loc, maxYearsLookup. rewrite Date_fixed. rewrite !Z.add_0_r.
  fold loc. unfold aligned, Minute, Second, HourOf, MinuteOf, SecondOf, NanosecondOf, Second in *.
  pose proof (civil_roundtrip (wall loc c / 86400)) as E.
  fold (Year loc c) (Month loc c) (Day loc c) in E.
  assert (Hm : 1 <= Month loc c <= 12) by apply month_of_days_range.
  rewrite days_of_month in * by done.
  assert (1825 <= days_before_year (Year loc c + 5) - days_before_year (Year loc c) <= 1828)
    by (unfold days_before_year; euclid).
  assert (-1 <= days_before_month (leap_day (Year loc c + 5)) (Month loc c)
          - days_before_month (leap_day (Year loc c)) (Month loc c) <= 1).
  { pose proof (leap_day_range (Year loc c + 5)). pose proof (leap_day_range (Year loc c)).
    unfold days_before_month. split_ifs; lia. }
  assert (Hw : wall loc c = c / 1000000000 + 60 * o) by reflexivity.
  set (w := wall loc c) in *. clearbody w.
  assert (w mod 86400 / 3600 * 3600 + w mod 3600 / 60 * 60 + w mod 60 = w mod 86400) by euclid.
  pose proof (Z.div_mod w 86400). pose proof (Z.div_mod c 1000000000). lia.
Qed.
Lemma first_candidate_aligned start : aligned (first_candidate start).
Proof using.
  unfold aligned, first_candidate, Truncate, Minute, Second. euclid.
Qed.

Lemma first_candidate_least start t : aligned t → start < t → first_candidate start <= t.
Proof using. unfold aligned, first_candidate, Truncate, Minute, Second. euclid. Qed.

Lemma first_candidate_after start : start < first_candidate start.
Proof using. unfold first_candidate, Truncate, Minute, Second. euclid. Qed.

(** The loop leaves within its rounds: every round moves at least a minute
    towards the end of the five-year window. *)
Lemma next_loop_leaves start :
  ∃ r, iter_until (next_step schedule loc (AddDate loc (first_candidate start) maxYearsLookup 0 0))
         next_fuel (first_candidate start) = inr r.
Proof using.
  pose proof (AddDate_window _ (first_candidate_aligned start)) as Hw.
  set (c0 := first_candidate start) in *. set (mx := AddDate loc c0 maxYearsLookup 0 0) in *.
  apply (iter_until_terminates _ (λ c, aligned c ∧ c0 <= c) (λ c, Z.max 0 ((mx - c) / Minute + 1))).
  - intros c c' [Hal Hc] Hs.
    destruct (next_step_skips mx c c' Hal Hs) as (Hlt & Hal' & Hc' & _).
    split; [split; [done|lia]|].
    unfold aligned, Minute, Second in *. clear -Hal Hal' Hc' Hlt. euclid.
  - intros. lia.
  - split; [apply first_candidate_aligned|lia].
  - unfold next_fuel, Minute, Second in *. clear -Hw. euclid.
Qed.
End next_fixed.

Lemma NextFuel_inr fuel schedule startTime loc r :
  iter_until (next_step schedule loc (AddDate loc (first_candidate startTime) maxYearsLookup 0 0))
    fuel (first_candidate startTime) = inr r →
  NextFuel fuel schedule startTime (Some loc) = Some r.
Proof. intros H. unfold NextFuel. cbn. by rewrite H. Qed.

(** What the search promises: [r] is the first minute after [startTime] the
    schedule accepts, or the zero time when there is none before [maxTime]. *)
Definition first_match (schedule : CronSchedule) (loc : Location) (startTime maxTime r : Z) : Prop :=
  (startTime < r < maxTime ∧ aligned r ∧ schedule_matches schedule loc r = true
   ∧ ∀ t, startTime < t < r → aligned t → schedule_matches schedule loc t = false)
  ∨ (r = zero_time
     ∧ ∀ t, startTime < t < maxTime → aligned t → schedule_matches schedule loc t = false).

(** C30: in a zone of constant offset [Next] always returns, and what it
    returns is the first minute after [startTime] that the schedule accepts;
    the zero time is returned only when the schedule accepts no minute before
    the end of the five-year window. *)
Theorem Next_first_match (schedule : CronSchedule) (startTime o : Z) :
  let loc := FixedZone (60 * o) in
  let maxTime := AddDate loc (first_candidate startTime) maxYearsLookup 0 0 in
  ∃ r, Next schedule startTime (Some loc) = Some r
    ∧ first_match schedule loc startTime maxTime r.
Proof.
  intros loc maxTime. destruct (next_loop_leaves schedule o startTime) as [r Hr].
  exists r. split; [by apply NextFuel_inr|].
  pose proof (first_candidate_after startTime).
  revert Hr. apply (iter_until_inv _ (λ c, aligned c ∧ startTime < c
    ∧ ∀ t, startTime < t < c → aligned t → schedule_matches schedule loc t = false)
    (first_match schedule loc startTime maxTime)).
  - intros c c' (Hal & Hc & Hno) Hs.
    apply next_step_skips in Hs as (_ & Hal' & Hlt & Hskip); [|done].
    split; [done|]. split; [lia|]. intros t Ht Hat.
    destruct (Z.lt_ge_cases t c); [apply Hno|apply Hskip]; (done || lia).
  - intros c r' (Hal & Hc & Hno) [[Hmx ->]|(Hlt & -> & Hm)]%next_step_leaves.
    + right. split; [done|]. intros t Ht. apply Hno. fold loc maxTime in Hmx. lia.
    + left. done.
  - split; [apply first_candidate_aligned|]. split; [done|].
    intros t Ht Hat. pose proof (first_candidate_least _ _ Hat (proj1 Ht)). lia.
Qed.

(** What a search in any location answers, when it answers. *)
Lemma Next_result schedule startTime location r :
  Next schedule startTime location = Some r →
  r = zero_time ∨ schedule_matches schedule (default UTC location) r = true.
Proof.
  unfold Next, NextFuel. case_match eqn:E; [done|]. intros [= <-]. revert E.
  apply (iter_until_inv _ (λ _, True)
    (λ t, t = zero_time ∨ schedule_matches schedule (default UTC location) t = true)); try done.
  intros c r _ [[_ ->]|(_ & -> & ?)]%next_step_leaves; tauto.
Qed.

(** in any location, whatever its zone transitions, a time [Next] returns
    is one the schedule accepts, or the zero time. *)
Theorem Next_sound (schedule : CronSchedule) (startTime : Z) (location : option Location) (r : Z) :
  Next schedule startTime location = Some r →
  r = zero_time ∨ schedule_matches schedule (default UTC location) r = true.
Proof. apply Next_result. Qed.

Definition every_day_at_3 : CronSchedule :=
  match ParseCron "0 3 * * *" with
  | Ok s => s
  | Err _ => MkCronSchedule "" ∅ ∅ ∅ ∅ ∅ true true
  end.

Lemma Next_sound_witness :
  let start := Date UTC 2024 2 28 5 0 0 0 in
  let r := Date UTC 2024 2 29 3 0 0 0 in
  Next every_day_at_3 start None = Some r
  ∧ (r = zero_time ∨ schedule_matches every_day_at_3 UTC r = true).
Proof.
  split; [vm_compute; reflexivity|].
  apply (Next_sound every_day_at_3 (Date UTC 2024 2 28 5 0 0 0) None). vm_compute. reflexivity.
Defined.

(** New York around 2024-03-10: standard time until 07:00 UTC that day, then
    daylight saving time. *)
Definition ny_transition : Z := Date UTC 2024 3 10 7 0 0 0 / Second.
Definition New_York : Location := MkLocation (λ s,
  if s <? ny_transition then Zone (-18000) int64_min ny_transition
  else Zone (-14400) ny_transition int64_max).

(** [Next] can loop forever.  In New York on the night of the change to
    daylight saving time, the search for [0 3 * * *] steps from 01:00 to
    02:00, which does not exist; Go resolves it to 01:00 again, and the loop
    repeats that step whatever the number of rounds. *)
Theorem Next_hangs_at_dst_gap (fuel : positive) :
  NextFuel fuel every_day_at_3 (Date New_York 2024 3 10 0 0 0 0) (Some New_York) = None.
Proof.
  unfold NextFuel. simpl.
  set (f := next_step _ _ _).
  set (c0 := first_candidate _).
  set (c1 := Date New_York 2024 3 10 1 0 0 0).
  assert (H0 : f c0 = inl c1) by (vm_compute; reflexivity).
  assert (H1 : f c1 = inl c1) by (vm_compute; reflexivity).
  clearbody f c0 c1. destruct (Pos.succ_pred_or fuel) as [->|<-].
  - simpl. by rewrite H0.
  - by rewrite (iter_until_step f _ _ c1 H0), iter_until_stuck.
Qed.
