(* ===== verification/TasksModel.v ===== *)
(** * tasks: data, configuration, tables and the state they form

    The rows of tasks.jobs, tasks.executions and tasks.execution_logs
    (tasks/model.go), the runtime configuration (tasks/config.go), the events
    (tasks/event.go), and the state monad the operations of the service are
    written in.

    The tables are finite maps keyed by row id; the ids Postgres generates
    ([DEFAULT uuidv7()]) come from a counter in the state.  Every SQL
    statement of the code has a name ([Stmt]) and may fail ([faults]), in which
    case it has no effect.  A whole operation reads one value of each clock.
    What the code calls outside the repository is a parameter, the class
    [Platform]: the JSON decoders, [url.Parse], [net.ParseIP] and the time
    zone database. *)

From S2P Require Import Prelude GoStrings GoTime Cron.
From Stdlib Require Import ZArith Lia Ascii String QArith.
Local Open Scope string_scope.
Local Open Scope Z_scope.

Abbreviation uuid := N.

(** ** Rows *)

Definition TargetTypeHTTP : string := "http".
Definition TargetTypeSQL : string := "sql".

Inductive Status :=
| StatusPending | StatusRunning | StatusCompleted | StatusFailed | StatusSuccess | StatusTimeout.

#[export] Instance Status_eq_dec : EqDecision Status.
Proof. solve_decision. Defined.

Record Job := MkJob {
  job_id : uuid;
  job_name : string;
  job_cron : string;
  job_timezone : string;
  job_target_type : string;
  job_payload : string;
  job_enabled : bool;
  job_last_run_at : option Z;
  job_next_run_at : Z;
  job_created_at : Z;
  job_last_updated_at : Z;
}.

Record Execution := MkExecution {
  ex_id : uuid;
  ex_job_id : option uuid;
  ex_status : Status;
  ex_run_at : Z;
  ex_payload : string;
  ex_attempts : Z;
  ex_max_attempts : Z;
  ex_locked_at : option Z;
  ex_locked_by : option string;
  ex_last_error : option string;
  ex_created_at : Z;
}.

Record ExecutionLog := MkExecutionLog {
  log_job_id : option uuid;
  log_execution_id : uuid;
  log_status : Status;
  log_response_status_code : option Z;
  log_duration_ms : Z;
  log_response_body : option string;
  log_error_message : option string;
  log_executed_at : Z;
}.

Record DLQExecution := MkDLQExecution {
  dlq_id : uuid; dlq_job_id : option uuid; dlq_status : Status; dlq_run_at : Z; dlq_payload : string;
  dlq_attempts : Z; dlq_max_attempts : Z; dlq_last_error : option string; dlq_created_at : Z }.

Record HTTPPayload := MkHTTPPayload {
  http_url : string; http_headers : list (string * string); http_body : string }.
Record SQLPayload := MkSQLPayload { sql_query : string; sql_params : list string }.

(** ** Configuration *)

Record Config := MkConfig {
  ConcurrencyLimit : Z;
  TimeoutSeconds : Z;
  PollIntervalMs : Z;
  RetryInitialDelaySeconds : Z;
  RetryMaxDelaySeconds : Z;
  RetryMaxAttempts : Z;
}.

Definition DefaultConfig : Config := MkConfig 25 30 1000 5 300 5.

Inductive ConfigError :=
| BadConcurrencyLimit | BadTimeoutSeconds | BadPollIntervalMs
| BadRetryInitialDelay | BadRetryMaxDelay | BadRetryMaxAttempts.

Definition Validate (config : Config) : result ConfigError unit :=
  if (ConcurrencyLimit config <? 1) || (1000 <? ConcurrencyLimit config)
  then Err BadConcurrencyLimit
  else if (TimeoutSeconds config <? 1) || (3600 <? TimeoutSeconds config)
  then Err BadTimeoutSeconds
  else if (PollIntervalMs config <? 100) || (60000 <? PollIntervalMs config)
  then Err BadPollIntervalMs
  else if (RetryInitialDelaySeconds config <? 1) || (3600 <? RetryInitialDelaySeconds config)
  then Err BadRetryInitialDelay
  else if (RetryMaxDelaySeconds config <? RetryInitialDelaySeconds config)
          || (86400 <? RetryMaxDelaySeconds config)
  then Err BadRetryMaxDelay
  else if (RetryMaxAttempts config <? 1) || (20 <? RetryMaxAttempts config)
  then Err BadRetryMaxAttempts
  else Ok tt.

(** ** Events (tasks/event.go) *)

Inductive TaskEvent :=
| JobCreated (job : Job)
| JobUpdated (job : Job)
| JobDeleted (job : Job) (deletedExecutionsCount : Z)
| JobPaused (job : Job)
| JobResumed (job : Job)
| JobScheduled (job : Job) (previousRunAt : option Z) (nextRunAt : Z)
| ExecutionEnqueued (execution : Execution) (jobName : string) (isImmediate : bool)
| ExecutionStarted (execution : Execution) (jobName : string) (attempt : Z) (lockedBy : string)
| ExecutionCompleted (execution : Execution) (jobName : string) (durationMs : Z)
    (responseStatusCode : option Z) (attempt : Z)
| ExecutionFailed (execution : Execution) (jobName : string) (durationMs : Z)
    (responseStatusCode : option Z) (attempt : Z) (error : string)
| ExecutionTimedOut (execution : Execution) (jobName : string) (durationMs : Z)
    (timeoutLimitSeconds : Z) (attempt : Z)
| ExecutionRetried (execution : Execution) (jobName : string) (attempt maxAttempts nextRunAt
    backoffDelayMs : Z) (error : string)
| ExecutionCancelled (execution : Execution) (reason : string)
| DLQIsolated (execution : Execution) (jobName : string) (totalAttempts : Z) (lastError : string)
| DLQRetried (execution : Execution) (jobName : string) (triggeredBy : string)
| DLQPurged (execution : Execution)
| ThreatSSRFBlocked (targetURL resolvedIP : string) (reason : string)
| ThreatSignatureFailed (targetURL reason timestamp : string)
| ConfigUpdated (config : Config).

(** ** The tables *)

Record DB := MkDB {
  jobs : gmap uuid Job;
  executions : gmap uuid Execution;
  execution_logs : list ExecutionLog;
  config_row : option Config;
  next_uuid : uuid;
}.

Definition set_jobs (f : gmap uuid Job → gmap uuid Job) (d : DB) : DB :=
  MkDB (f (jobs d)) (executions d) (execution_logs d) (config_row d) (next_uuid d).
Definition set_executions (f : gmap uuid Execution → gmap uuid Execution) (d : DB) : DB :=
  MkDB (jobs d) (f (executions d)) (execution_logs d) (config_row d) (next_uuid d).
Definition add_log (l : ExecutionLog) (d : DB) : DB :=
  MkDB (jobs d) (executions d) (execution_logs d ++ [l]) (config_row d) (next_uuid d).
Definition set_config_row (c : Config) (d : DB) : DB :=
  MkDB (jobs d) (executions d) (execution_logs d) (Some c) (next_uuid d).
Definition bump_uuid (d : DB) : DB :=
  MkDB (jobs d) (executions d) (execution_logs d) (config_row d) (N.succ (next_uuid d)).

(** The service: its tables, its event bus, the configuration held in
    memory by [ConfigManager]. *)
Record TState := MkTState { db : DB; bus : list TaskEvent; mem_config : Config }.

(** ** The monad

    An operation changes the state and answers a value or an error; an error
    keeps the statements executed before it, which are committed one by
    one. *)
Inductive Stmt :=
| SSelectConfig | SUpsertConfig
| SInsertJob | SSelectJob | SListJobs | SUpdateJob | SDeletePending | SDeleteJob
| SInsertExecution | SListExecutions | SListDLQ | SSelectFailed | SRequeue | SPurge
| SJobsStats | SExecutionsStats
| SDequeue | SSelectJobTarget | SComplete | SInsertLog | SRetry | SIsolate
| SBegin | SSelectDue | SPollInsert (job : uuid) | SPollAdvance (job : uuid) | SCommit.

(** The errors of the operations.  [Diverges] is no Go error: it stands for
    a run that does not return normally: the search of [Next] has used up its
    rounds, or the code panics. *)
Inductive TaskError :=
| JobNameRequired
| InvalidCronExpression (e : CronError)
| InvalidTimezone (timezone : string)
| InvalidTargetType (targetType : string)
| UnsupportedTargetType (targetType : string)
| PayloadRequired (targetType : string)
| InvalidHTTPPayload | URLRequired | ValidURLRequired
| InvalidSQLPayload | QueryRequired
| ErrJobNotFound | ErrJobAlreadyExists | ErrDLQItemNotFound | ErrNoPendingExecutions
| ErrInvalidConfig (e : ConfigError)
| StoredConfigInvalid (e : ConfigError)
| Diverges
| TransactionAborted
| DBFailure (s : Stmt).

Definition M (A : Type) : Type := TState → result TaskError A * TState.

Definition fail {A} (e : TaskError) : M A := λ s, (Err e, s).
#[export] Instance M_ret : MRet M := λ A a s, (Ok a, s).
#[export] Instance M_bind : MBind M := λ A B k c s,
  match c s with
  | (Ok a, s') => k a s'
  | (Err e, s') => (Err e, s')
  end.
(** The continuation that inspects the outcome: [if err != nil { ... }]. *)
Definition try {A} (c : M A) : M (result TaskError A) := λ s,
  let '(r, s') := c s in (Ok r, s').
Definition gets {A} (f : TState → A) : M A := λ s, (Ok (f s), s).
Definition update_db (f : DB → DB) : M unit := λ s,
  (Ok tt, MkTState (f (db s)) (bus s) (mem_config s)).
Definition publish (e : TaskEvent) : M unit := λ s,
  (Ok tt, MkTState (db s) (bus s ++ [e]) (mem_config s)).
Definition SetMemoryConfig (c : Config) : M unit := λ s, (Ok tt, MkTState (db s) (bus s) c).
Definition lift_result {A} (r : result TaskError A) : M A := λ s, (r, s).
Definition when (b : bool) (c : M unit) : M unit := if b then c else mret tt.

(** ** What the service calls outside the repository *)

Record ParsedURL := MkParsedURL { Scheme : string; Hostname : string }.
Record IPClass := MkIPClass { IsLinkLocalUnicast : bool; IsLinkLocalMulticast : bool }.

Class Platform := MkPlatform {
  json_http : string → option HTTPPayload;
  json_sql : string → option SQLPayload;
  (** [json.Unmarshal] into a map, and whether the map has the key [query]. *)
  json_has_query : string → option bool;
  (** Text of the error [json.Unmarshal] answers. *)
  json_error : string → string;
  url_Parse : string → option ParsedURL;
  url_error : string → string;
  net_ParseIP : string → option IPClass;
  LoadLocation : string → option Location;
  CanonicalHeaderKey : string → string;
  (** HMAC-SHA256 of a message under a key, in hexadecimal. *)
  hmac_sha256_hex : string → string → string;
  uuid_String : uuid → string;
}.

(** ** The environment of one operation: the clocks of the process and of the
    database, and which statements fail. *)
Record Env := MkEnv { app_now : Z; db_now : Z; faults : Stmt → bool }.

Definition no_faults (now : Z) : Env := MkEnv now now (λ _, false).

Definition stmt {A} (env : Env) (s : Stmt) (c : M A) : M A :=
  if faults env s then fail (DBFailure s) else c.

Definition fresh_uuid : M uuid := λ s,
  (Ok (next_uuid (db s)), MkTState (bump_uuid (db s)) (bus s) (mem_config s)).

Section config.
Context (env : Env).

Definition GetConfig : M Config := gets mem_config.

(** [ConfigManager.Set]. *)
Definition SetConfig (newConfig : Config) : M unit :=
  match Validate newConfig with
  | Err e => fail (ErrInvalidConfig e)
  | Ok _ =>
      stmt env SUpsertConfig (update_db (set_config_row newConfig)) ;;
      SetMemoryConfig newConfig ;;
      publish (ConfigUpdated newConfig)
  end.

(** [ConfigManager.Load]; the stored JSON is the configuration it encodes. *)
Definition LoadConfig : M unit :=
  row ← stmt env SSelectConfig (gets (λ s, config_row (db s)));
  match row with
  | None => SetConfig DefaultConfig
  | Some loadedConfig =>
      match Validate loadedConfig with
      | Err e => fail (StoredConfigInvalid e)
      | Ok _ => SetMemoryConfig loadedConfig
      end
  end.
End config.

(** ** Lemmas *)

Definition valid_config (c : Config) : Prop :=
  1 <= ConcurrencyLimit c <= 1000 ∧ 1 <= TimeoutSeconds c <= 3600
  ∧ 100 <= PollIntervalMs c <= 60000
  ∧ 1 <= RetryInitialDelaySeconds c <= 3600
  ∧ RetryInitialDelaySeconds c <= RetryMaxDelaySeconds c <= 86400
  ∧ 1 <= RetryMaxAttempts c <= 20.

Lemma Validate_spec c : Validate c = Ok tt ↔ valid_config c.
Proof.
  unfold Validate, valid_config. split.
  - repeat (case_match; [done|]). intros _. bool_to_prop. lia.
  - intros H. repeat (case_match; [bool_to_prop; lia|]). done.
Qed.

Lemma Validate_ok c u : Validate c = Ok u → valid_config c.
Proof. destruct u. apply Validate_spec. Qed.

(** ** A concrete platform, for the examples

    Payloads of the form [http:...] and [sql:...] decode, URLs are split at
    [://] and at the next slash, and the zone database holds UTC only. *)
Definition sample_url (s : string) : option ParsedURL :=
  match strip_prefix "http://" s with
  | Some r => Some (MkParsedURL "http" (cut "/"%char r).1)
  | None => match strip_prefix "https://" s with
            | Some r => Some (MkParsedURL "https" (cut "/"%char r).1)
            | None => None
            end
  end.

Definition sample_platform : Platform := {|
  json_http s := if HasPrefix s "http" then Some (MkHTTPPayload s [] "") else None;
  json_sql s := match strip_prefix "sql:" s with Some q => Some (MkSQLPayload q []) | None => None end;
  json_has_query s := Some (HasPrefix s "sql:");
  json_error _ := "invalid character";
  url_Parse := sample_url;
  url_error _ := "missing protocol scheme";
  net_ParseIP s := if HasPrefix s "169.254." then Some (MkIPClass true false) else None;
  LoadLocation s := if String.eqb s "UTC" then Some UTC else None;
  CanonicalHeaderKey s := s;
  hmac_sha256_hex k m := (k ++ m)%string;
  uuid_String _ := "00000000-0000-7000-8000-000000000000";
|}.
