(* ===== verification/JobManager.v ===== *)
(** * tasks/job_manager.go: jobs, the execution queue and the dead letters

    One definition per method of [JobManager], with every statement it runs
    and every event it publishes, in the order of the source. *)

From S2P Require Import Prelude GoStrings GoTime Cron TasksModel.
From Stdlib Require Import ZArith Lia Ascii String QArith.
From stdpp Require Import sorting.
Local Open Scope string_scope.
Local Open Scope Z_scope.

(** ** Requests and responses (tasks/control_plane_model.go) *)

Record CreateJobInput := MkCreateJobInput {
  cj_name : string; cj_cron : string; cj_timezone : string; cj_target_type : string;
  cj_payload : string; cj_enabled : option bool }.

Record UpdateJobInput := MkUpdateJobInput {
  uj_name : option string; uj_cron : option string; uj_timezone : option string;
  uj_target_type : option string; uj_payload : option string; uj_enabled : option bool }.

Record GetJobResponse := MkGetJobResponse { gj_job : Job; NextRunCountdownSeconds : Z }.

Record TriggerExecutionInput := MkTriggerExecutionInput {
  te_job_id : option uuid; te_payload : option string }.

Record TriggerExecutionResponse := MkTriggerExecutionResponse {
  ter_execution_id : uuid; ter_status : Status; ter_run_at : Z }.

Record RetryDLQResponse := MkRetryDLQResponse {
  rd_execution_id : uuid; rd_status : Status; rd_message : string }.

Record GetStatsResponse := MkGetStatsResponse {
  TotalJobs : Z; ActiveJobs : Z; PausedJobs : Z; PendingExecutions : Z; RunningExecutions : Z;
  CompletedExecutions : Z; FailedExecutions : Z; SuccessRate : Q }.

(** ** SQL *)

Definition insert_job (j : Job) (d : DB) : DB := set_jobs <[job_id j := j]> d.
Definition insert_execution (e : Execution) (d : DB) : DB := set_executions <[ex_id e := e]> d.

(** The [UNIQUE] constraint of [tasks.jobs.name], for a row with id [id]. *)
Definition name_taken (d : DB) (id : uuid) (name : string) : bool :=
  bool_decide (map_Exists (λ i j, i ≠ id ∧ job_name j = name) (jobs d)).

(** [DELETE FROM tasks.executions WHERE job_id = $1 AND status = 'pending']. *)
Definition is_pending_of (id : uuid) (e : Execution) : Prop :=
  ex_job_id e = Some id ∧ ex_status e = StatusPending.
#[export] Instance is_pending_of_dec id e : Decision (is_pending_of id e).
Proof. unfold is_pending_of. apply _. Defined.

Definition delete_pending (id : uuid) (d : DB) : DB :=
  set_executions (filter (λ p, ¬ is_pending_of id p.2)) d.
Definition count_pending (id : uuid) (d : DB) : Z :=
  Z.of_nat (size (filter (λ p, is_pending_of id p.2) (executions d))).

(** [DELETE FROM tasks.jobs], with the [ON DELETE SET NULL] of the two foreign
    keys. *)
Definition unlink_execution (id : uuid) (e : Execution) : Execution :=
  MkExecution (ex_id e) (if decide (ex_job_id e = Some id) then None else ex_job_id e) (ex_status e)
    (ex_run_at e) (ex_payload e) (ex_attempts e) (ex_max_attempts e) (ex_locked_at e)
    (ex_locked_by e) (ex_last_error e) (ex_created_at e).
Definition unlink_log (id : uuid) (l : ExecutionLog) : ExecutionLog :=
  MkExecutionLog (if decide (log_job_id l = Some id) then None else log_job_id l)
    (log_execution_id l) (log_status l) (log_response_status_code l) (log_duration_ms l)
    (log_response_body l) (log_error_message l) (log_executed_at l).
Definition delete_job (id : uuid) (d : DB) : DB :=
  MkDB (delete id (jobs d)) (unlink_execution id <$> executions d)
    (unlink_log id <$> execution_logs d) (config_row d) (next_uuid d).

(** [ORDER BY key DESC LIMIT limit OFFSET offset] over the rows kept. *)
Definition newer {A} (key : A → Z) (a b : A) : Prop := key b <= key a.
#[export] Instance newer_dec {A} (key : A → Z) : RelDecision (newer key).
Proof. intros a b. unfold newer. apply _. Defined.
Definition newest_first {A} (key : A → Z) (l : list A) : list A := merge_sort (newer key) l.
Definition page {A} (limit offset : Z) (l : list A) : list A :=
  take (Z.to_nat limit) (drop (Z.to_nat offset) l).

Definition job_rows (d : DB) : list Job := (map_to_list (jobs d)).*2.
Definition execution_rows (d : DB) : list Execution := (map_to_list (executions d)).*2.

Section job_manager.
Context `{Platform} (env : Env).

Definition validateTargetPayload (targetType payloadValue : string) : result TaskError unit :=
  if negb (String.eqb targetType TargetTypeHTTP) && negb (String.eqb targetType TargetTypeSQL)
  then Err (UnsupportedTargetType targetType)
  else if String.eqb payloadValue "" || String.eqb payloadValue "{}"
  then Err (PayloadRequired targetType)
  else if String.eqb targetType TargetTypeHTTP then
    match json_http payloadValue with
    | None => Err InvalidHTTPPayload
    | Some httpPayload =>
        if String.eqb (TrimSpace (http_url httpPayload)) "" then Err URLRequired else
        match url_Parse (http_url httpPayload) with
        | None => Err ValidURLRequired
        | Some u =>
            if negb (String.eqb (Scheme u) "http") && negb (String.eqb (Scheme u) "https")
            then Err ValidURLRequired else Ok tt
        end
    end
  else
    match json_sql payloadValue with
    | None => Err InvalidSQLPayload
    | Some sqlPayload =>
        if String.eqb (TrimSpace (sql_query sqlPayload)) "" then Err QueryRequired else Ok tt
    end.

Definition parse_cron_or_fail (e : string) : M CronSchedule :=
  lift_result (map_err InvalidCronExpression (ParseCron e)).
Definition load_location_or_fail (tz : string) : M Location :=
  match LoadLocation tz with
  | Some l => mret l
  | None => fail (InvalidTimezone tz)
  end.
Definition next_run (schedule : CronSchedule) (from : Z) (location : Location) : M Z :=
  match Next schedule from (Some location) with
  | Some t => mret t
  | None => fail Diverges
  end.

(** [INSERT INTO tasks.jobs ... RETURNING], refused when the name is taken. *)
Definition insert_job_row (name cronExpr timezone targetType payload : string) (isEnabled : bool)
    (nextRunAt : Z) : M Job :=
  id ← fresh_uuid;
  d ← gets db;
  if name_taken d id name then fail ErrJobAlreadyExists else
  let job := MkJob id name cronExpr timezone targetType payload isEnabled None nextRunAt
               (db_now env) (db_now env) in
  update_db (insert_job job) ;; mret job.

Definition CreateJob (createJobInput : CreateJobInput) : M Job :=
  let name := TrimSpace (cj_name createJobInput) in
  if String.eqb name "" then fail JobNameRequired else
  let cronExpr := TrimSpace (cj_cron createJobInput) in
  cronSchedule ← parse_cron_or_fail cronExpr;
  let timezone := TrimSpace (cj_timezone createJobInput) in
  let timezone := if String.eqb timezone "" then "UTC" else timezone in
  location ← load_location_or_fail timezone;
  let targetType := ToLower (TrimSpace (cj_target_type createJobInput)) in
  if negb (String.eqb targetType TargetTypeHTTP) && negb (String.eqb targetType TargetTypeSQL)
  then fail (InvalidTargetType (cj_target_type createJobInput)) else
  lift_result (validateTargetPayload targetType (cj_payload createJobInput)) ;;
  let isEnabled := default true (cj_enabled createJobInput) in
  nextRunAt ← next_run cronSchedule (app_now env) location;
  job ← stmt env SInsertJob
    (insert_job_row name cronExpr timezone targetType (cj_payload createJobInput) isEnabled nextRunAt);
  publish (JobCreated job) ;;
  mret job.

(** Seconds until the next run, rounded towards zero, at least 0. *)
Definition countdown (job : Job) : Z :=
  let c := Z.quot (job_next_run_at job - app_now env) Second in
  if c <? 0 then 0 else c.

Definition GetJob (jobID : uuid) : M GetJobResponse :=
  row ← stmt env SSelectJob (gets (λ s, jobs (db s) !! jobID));
  match row with
  | None => fail ErrJobNotFound
  | Some job => mret (MkGetJobResponse job (countdown job))
  end.

Definition ListJobs : M (list GetJobResponse) :=
  rows ← stmt env SListJobs (gets (λ s, newest_first job_created_at (job_rows (db s))));
  mret ((λ job, MkGetJobResponse job (countdown job)) <$> rows).

(** [if p != nil && strings.TrimSpace(p) != "" { v = strings.TrimSpace(p) }]. *)
Definition override (p : option string) (v : string) : string :=
  match p with
  | Some x => if String.eqb (TrimSpace x) "" then v else TrimSpace x
  | None => v
  end.

Definition override_target_type (p : option string) (v : string) : result TaskError string :=
  match p with
  | Some x =>
      if String.eqb (TrimSpace x) "" then Ok v else
      let t := ToLower (TrimSpace x) in
      if negb (String.eqb t TargetTypeHTTP) && negb (String.eqb t TargetTypeSQL)
      then Err (InvalidTargetType x) else Ok t
  | None => Ok v
  end.

Definition update_job_row (id : uuid) (name cronExpr timezone targetType payload : string)
    (isEnabled : bool) (nextRunAt : Z) : M Job :=
  d ← gets db;
  match jobs d !! id with
  | None => fail (DBFailure SUpdateJob)
  | Some j =>
      if name_taken d id name then fail ErrJobAlreadyExists else
      let job := MkJob (job_id j) name cronExpr timezone targetType payload isEnabled
                   (job_last_run_at j) nextRunAt (job_created_at j) (db_now env) in
      update_db (set_jobs <[id := job]>) ;; mret job
  end.

Definition UpdateJob (jobID : uuid) (updateJobInput : UpdateJobInput) : M Job :=
  r ← GetJob jobID;
  let current := gj_job r in
  let name := override (uj_name updateJobInput) (job_name current) in
  let cronExpr := override (uj_cron updateJobInput) (job_cron current) in
  let timezone := override (uj_timezone updateJobInput) (job_timezone current) in
  cronSchedule ← parse_cron_or_fail cronExpr;
  location ← load_location_or_fail timezone;
  targetType ← lift_result
    (override_target_type (uj_target_type updateJobInput) (job_target_type current));
  let payload :=
    match uj_payload updateJobInput with
    | Some p => if String.eqb p "" then job_payload current else p
    | None => job_payload current
    end in
  lift_result (validateTargetPayload targetType payload) ;;
  let '(isEnabled, stateChanged) :=
    match uj_enabled updateJobInput with
    | Some b => if Bool.eqb b (job_enabled current) then (job_enabled current, false) else (b, true)
    | None => (job_enabled current, false)
    end in
  nextRunAt ← next_run cronSchedule (app_now env) location;
  job ← stmt env SUpdateJob
    (update_job_row jobID name cronExpr timezone targetType payload isEnabled nextRunAt);
  publish (JobUpdated job) ;;
  when stateChanged (publish (if isEnabled then JobResumed job else JobPaused job)) ;;
  mret job.

Definition DeleteJob (jobID : uuid) : M unit :=
  r ← GetJob jobID;
  deletedExecutionsCount ← stmt env SDeletePending
    (n ← gets (λ s, count_pending jobID (db s)); update_db (delete_pending jobID) ;; mret n);
  stmt env SDeleteJob (update_db (delete_job jobID)) ;;
  publish (JobDeleted (gj_job r) deletedExecutionsCount).

(** [INSERT INTO tasks.executions ... RETURNING]: a new pending row. *)
Definition enqueue (jobID : option uuid) (payload : string) (maxAttempts : Z) : M Execution :=
  id ← fresh_uuid;
  let execution := MkExecution id jobID StatusPending (db_now env) payload 0 maxAttempts
                     None None None (db_now env) in
  update_db (insert_execution execution) ;; mret execution.

(** The payload and the job's name a trigger starts from. *)
Definition trigger_source (input : TriggerExecutionInput) : M (string * string) :=
  match te_job_id input with
  | Some id => r ← GetJob id; mret (job_payload (gj_job r), job_name (gj_job r))
  | None => mret ("", "")
  end.

Definition TriggerExecution (input : TriggerExecutionInput) : M TriggerExecutionResponse :=
  '(jobPayload, jobName) ← trigger_source input;
  let payload :=
    match te_payload input with
    | Some p => if String.eqb p "" then jobPayload else p
    | None => jobPayload
    end in
  let payload := if String.eqb payload "" then "{}" else payload in
  tasksConfig ← GetConfig;
  execution ← stmt env SInsertExecution
    (enqueue (te_job_id input) payload (RetryMaxAttempts tasksConfig));
  publish (ExecutionEnqueued execution jobName true) ;;
  mret (MkTriggerExecutionResponse (ex_id execution) (ex_status execution) (ex_run_at execution)).

Definition clamp_limit (limit : Z) : Z := if (limit <=? 0) || (100 <? limit) then 50 else limit.
Definition clamp_offset (offset : Z) : Z := if offset <? 0 then 0 else offset.

Definition log_matches (jobID : option uuid) (l : ExecutionLog) : Prop :=
  match jobID with None => True | Some id => log_job_id l = Some id end.
#[export] Instance log_matches_dec jobID l : Decision (log_matches jobID l).
Proof. unfold log_matches. destruct jobID; apply _. Defined.

Definition ListExecutions (jobID : option uuid) (limit offset : Z) : M (list ExecutionLog * Z) :=
  stmt env SListExecutions (gets (λ s,
    let rows := filter (log_matches jobID) (execution_logs (db s)) in
    (page (clamp_limit limit) (clamp_offset offset) (newest_first log_executed_at rows),
     Z.of_nat (length rows)))).

Definition failed_rows (d : DB) : list Execution :=
  filter (λ e, ex_status e = StatusFailed) (execution_rows d).

(** The columns [ListDLQ] selects. *)
Definition dlq_item (e : Execution) : DLQExecution :=
  MkDLQExecution (ex_id e) (ex_job_id e) (ex_status e) (ex_run_at e) (ex_payload e) (ex_attempts e)
    (ex_max_attempts e) (ex_last_error e) (ex_created_at e).

Definition ListDLQ (limit offset : Z) : M (list DLQExecution * Z) :=
  stmt env SListDLQ (gets (λ s,
    (dlq_item <$>
       page (clamp_limit limit) (clamp_offset offset) (newest_first ex_created_at (failed_rows (db s))),
     Z.of_nat (length (failed_rows (db s)))))).

(** [SELECT ... WHERE e.id = $1 AND e.status = 'failed']. *)
Definition select_failed (d : DB) (executionID : uuid) : option Execution :=
  match executions d !! executionID with
  | Some e => if decide (ex_status e = StatusFailed) then Some e else None
  | None => None
  end.

(** [COALESCE(j.name, '')] of the left join on the job. *)
Definition joined_job_name (d : DB) (e : Execution) : string :=
  match ex_job_id e with
  | Some id => match jobs d !! id with Some j => job_name j | None => "" end
  | None => ""
  end.

Definition requeued (e : Execution) : Execution :=
  MkExecution (ex_id e) (ex_job_id e) StatusPending (db_now env) (ex_payload e) 0
    (ex_max_attempts e) None None None (ex_created_at e).

(** [UPDATE tasks.executions SET status = 'pending' ... WHERE id = $2
    RETURNING]. *)
Definition requeue_row (executionID : uuid) : M Execution :=
  d ← gets db;
  match executions d !! executionID with
  | None => fail (DBFailure SRequeue)
  | Some e => update_db (set_executions <[executionID := requeued e]>) ;; mret (requeued e)
  end.

Definition RetryDLQExecution (executionID : uuid) : M RetryDLQResponse :=
  found ← stmt env SSelectFailed
    (gets (λ s, (λ e, (e, joined_job_name (db s) e)) <$> select_failed (db s) executionID));
  match found with
  | None => fail ErrDLQItemNotFound
  | Some (_, jobName) =>
      execution ← stmt env SRequeue (requeue_row executionID);
      publish (DLQRetried execution jobName "control_plane") ;;
      publish (ExecutionEnqueued execution jobName true) ;;
      mret (MkRetryDLQResponse executionID StatusPending "Execution successfully re-queued from DLQ")
  end.

Definition PurgeDLQExecution (executionID : uuid) : M unit :=
  found ← stmt env SPurge
    (e ← gets (λ s, select_failed (db s) executionID);
     match e with
     | Some _ => update_db (set_executions (delete executionID)) ;; mret e
     | None => mret None
     end);
  match found with
  | None => fail ErrDLQItemNotFound
  | Some execution => publish (DLQPurged execution)
  end.

Definition count_jobs (P : Job → bool) (d : DB) : Z :=
  Z.of_nat (length (filter (λ j, P j = true) (job_rows d))).
Definition count_status (st : Status) (d : DB) : Z :=
  Z.of_nat (length (filter (λ e, ex_status e = st) (execution_rows d))).

(** The success rate is the rational the floating-point division rounds. *)
Definition success_rate (completed failed : Z) : Q :=
  let totalFinished := completed + failed in
  if 0 <? totalFinished then (inject_Z completed / inject_Z totalFinished * inject_Z 100)%Q
  else inject_Z 100.

Definition GetStats : M GetStatsResponse :=
  '(total, active, paused) ← stmt env SJobsStats (gets (λ s,
    (count_jobs (λ _, true) (db s), count_jobs job_enabled (db s),
     count_jobs (λ j, negb (job_enabled j)) (db s))));
  '(pending, running, completed, failed) ← stmt env SExecutionsStats (gets (λ s,
    (count_status StatusPending (db s), count_status StatusRunning (db s),
     count_status StatusCompleted (db s), count_status StatusFailed (db s))));
  mret (MkGetStatsResponse total active paused pending running completed failed
          (success_rate completed failed)).
End job_manager.
