(* ===== verification/Dispatcher.v ===== *)
(** * tasks/dispatcher.go: HTTP and SQL attempts, signatures, back-off

    The HTTP client and the execution of a SQL target are parameters of the
    attempts: functions from the request (or the statement) to its outcome. *)

From S2P Require Import Prelude GoStrings GoTime TasksModel.
From Stdlib Require Import ZArith Lia Ascii String.
From stdpp Require Import pretty.
Local Open Scope string_scope.
Local Open Scope Z_scope.

Definition maxLoggedResponseBodyBytes : nat := 1024.
Definition defaultDispatcherTimeout : Z := 30.
Definition maxBackoffExponentShift : Z := 30.

(** A Go error as the worker looks at it: its text, and whether it wraps
    [context.DeadlineExceeded]. *)
Record GoError := MkGoError { err_text : string; err_is_deadline : bool }.
Definition errorf (text : string) : GoError := MkGoError text false.
(** [fmt.Errorf(prefix + ": %w", err)]. *)
Definition wrap_error (prefix : string) (e : GoError) : GoError :=
  MkGoError (prefix ++ err_text e) (err_is_deadline e).

Record HTTPRequest := MkHTTPRequest {
  req_url : string; req_headers : gmap string string; req_body : string; req_timeout : Z }.

(** What [httpClient.Do] answers. *)
Inductive HTTPOutcome :=
| HTTPFailed (e : GoError)
| HTTPResponded (statusCode : Z) (body : string).

(** What [Exec] of a SQL target answers; a failure may carry a Postgres
    error code. *)
Inductive SQLOutcome :=
| SQLFailed (pgCode : option string) (e : GoError)
| SQLDone (rowsAffected : Z).

Section dispatcher.
Context `{Platform}.

(** [ComputeWebhookSignature]. *)
Definition ComputeWebhookSignature (secret timestamp payload : string) : string :=
  hmac_sha256_hex secret (timestamp ++ "." ++ payload).

(** [VerifyWebhookSignature]; [hmac.Equal] is equality in constant time. *)
Definition VerifyWebhookSignature (secret signature timestamp payload : string) : bool :=
  String.eqb signature (ComputeWebhookSignature secret timestamp payload).

Definition validateWebhookTargetURL (targetURL : string) : result GoError unit :=
  match url_Parse targetURL with
  | None => Err (wrap_error "invalid webhook target url: " (errorf (url_error targetURL)))
  | Some parsedURL =>
      if negb (String.eqb (Scheme parsedURL) "http") && negb (String.eqb (Scheme parsedURL) "https")
      then Err (errorf "webhook scheme must be http or https") else
      let hostname := ToLower (Hostname parsedURL) in
      if String.eqb hostname "" then Err (errorf "webhook target hostname is required")
      else if String.eqb hostname "metadata.google.internal" || String.eqb hostname "metadata"
      then Err (errorf "webhook target to metadata service is prohibited") else
      match net_ParseIP hostname with
      | Some parsedIP =>
          if IsLinkLocalUnicast parsedIP || IsLinkLocalMulticast parsedIP
          then Err (errorf ("webhook target to link-local address is prohibited: " ++ hostname))
          else Ok tt
      | None => Ok tt
      end
  end.

Definition set_header (h : gmap string string) (k v : string) : gmap string string :=
  <[CanonicalHeaderKey k := v]> h.

Definition timeout_or_default (timeoutSeconds : Z) : Z :=
  if timeoutSeconds <=? 0 then defaultDispatcherTimeout else timeoutSeconds.

(** The headers of the request, in the order they are set: the caller's
    headers come last. *)
Definition webhook_headers (signingKey timestamp bodyBytes : string) (jobID : option uuid)
    (executionID : uuid) (headers : list (string * string)) : gmap string string :=
  let h := set_header ∅ "Content-Type" "application/json" in
  let h := set_header h "User-Agent" "Layr-Tasks/1.0" in
  let h := set_header h "Webhook-Signature"
             (ComputeWebhookSignature signingKey timestamp bodyBytes) in
  let h := set_header h "Webhook-Timestamp" timestamp in
  let h := match jobID with
           | Some id => set_header h "Webhook-Job-ID" (uuid_String id)
           | None => h
           end in
  let h := set_header h "Webhook-Execution-ID" (uuid_String executionID) in
  foldl (λ h kv, set_header h kv.1 kv.2) h headers.

Definition is_client_error (statusCode : Z) : bool :=
  (400 <=? statusCode) && (statusCode <? 500) && negb (statusCode =? 429).

(** [ExecuteHTTPAttempt]: status, body, whether the failure is permanent,
    error. *)
Definition ExecuteHTTPAttempt (http_do : HTTPRequest → HTTPOutcome) (signingKey : string)
    (now : Z) (targetURL : string) (headers : list (string * string)) (bodyBytes : string)
    (jobID : option uuid) (executionID : uuid) (timeoutSeconds : Z)
    : M (option Z * option string * bool * option GoError) :=
  match validateWebhookTargetURL targetURL with
  | Err e =>
      publish (ThreatSSRFBlocked targetURL "" (err_text e)) ;;
      mret (None, None, true, Some (wrap_error "ssrf blocked: " e))
  | Ok _ =>
      let timestamp := pretty (Unix now) in
      let request := MkHTTPRequest targetURL
        (webhook_headers signingKey timestamp bodyBytes jobID executionID headers)
        bodyBytes (timeout_or_default timeoutSeconds) in
      match http_do request with
      | HTTPFailed e =>
          mret (None, None, false, Some (wrap_error "failed to execute http request: " e))
      | HTTPResponded statusCode body =>
          let responseText := String.substring 0 maxLoggedResponseBodyBytes body in
          mret (Some statusCode, Some responseText, is_client_error statusCode, None)
      end
  end.

Definition isTransientDatabaseError (pgCode : option string) (e : GoError) : bool :=
  match pgCode with
  | Some code =>
      String.eqb code "40001" || String.eqb code "40P01" || String.eqb code "57014"
      || HasPrefix code "08"
  | None => false
  end
  || let errMsg := ToLower (err_text e) in
     existsb (Contains errMsg)
       ["40001"; "40p01"; "57014"; "deadlock"; "serialization failure"; "connection reset";
        "broken pipe"; "connection refused"; "server closed the connection"].

(** [ExecuteSQLAttempt]: rows affected, summary, whether the failure is
    transient, error. *)
Definition ExecuteSQLAttempt (sql_exec : string → list string → Z → SQLOutcome)
    (query : string) (params : list string) (timeoutSeconds : Z)
    : Z * option string * bool * option GoError :=
  if String.eqb (TrimSpace query) "" then (0, None, false, Some (errorf "sql query is empty"))
  else
  match sql_exec query params (timeout_or_default timeoutSeconds) with
  | SQLFailed pgCode e => (0, None, isTransientDatabaseError pgCode e, Some e)
  | SQLDone rowsAffected =>
      (rowsAffected, Some (pretty rowsAffected ++ " rows affected"), false, None)
  end.
End dispatcher.

(** ** Back-off *)

(** Seconds before the retry of attempt number [attempt]; [None] is Go's
    panic on a negative shift. *)
Definition backoff_seconds (attempt initialDelaySeconds maxDelaySeconds : Z) : option Z :=
  let initialDelaySeconds := if initialDelaySeconds <=? 0 then 1 else initialDelaySeconds in
  let maxDelaySeconds :=
    if maxDelaySeconds <? initialDelaySeconds then initialDelaySeconds else maxDelaySeconds in
  let shift := if maxBackoffExponentShift <? attempt then maxBackoffExponentShift else attempt in
  if shift <? 0 then None else
  let delaySeconds := wrap64 (initialDelaySeconds * Z.shiftl 1 shift) in
  Some (if maxDelaySeconds <? delaySeconds then maxDelaySeconds else delaySeconds).

(** [CalculateTaskBackoff]: the duration in nanoseconds.  [rand_Int n] is the
    draw of [rand.Int] below [n], [None] when the random source fails. *)
Definition CalculateTaskBackoff (rand_Int : Z → option Z)
    (attempt initialDelaySeconds maxDelaySeconds : Z) : option Z :=
  delaySeconds ← backoff_seconds attempt initialDelaySeconds maxDelaySeconds;
  let maxJitterMs := Z.quot (wrap64 (delaySeconds * 1000)) 4 in
  let jitterMs := if 0 <? maxJitterMs then default 0 (rand_Int maxJitterMs) else 0 in
  Some (wrap64 (wrap64 (delaySeconds * Second) + wrap64 (jitterMs * Millisecond))).

(** The draw of a working random source. *)
Definition good_draw (rand_Int : Z → option Z) : Prop :=
  ∀ n z, 0 < n → rand_Int n = Some z → 0 <= z < n.

(** The back-off of [attempt], without jitter, for a valid configuration. *)
Lemma backoff_seconds_valid attempt init mx :
  0 <= attempt → 1 <= init <= mx → mx <= 86400 →
  backoff_seconds attempt init mx = Some (Z.min mx (init * 2 ^ Z.min 30 attempt)).
Proof.
  intros Ha Hi Hm. unfold backoff_seconds, maxBackoffExponentShift.
  destruct (Z.leb_spec init 0); [lia|]. destruct (Z.ltb_spec mx init); [lia|].
  replace (if 30 <? attempt then 30 else attempt) with (Z.min 30 attempt) by (destruct (Z.ltb_spec 30 attempt); lia).
  set (k := Z.min 30 attempt). assert (0 <= k <= 30) by lia.
  destruct (Z.ltb_spec k 0); [lia|]. rewrite Z.shiftl_1_l.
  assert (1 <= 2 ^ k <= 2 ^ 30).
  { split; [apply (Z.pow_le_mono_r 2 0 k); lia|apply Z.pow_le_mono_r; lia]. }
  rewrite wrap64_id by (unfold int64_min, int64_max; nia).
  f_equal. destruct (Z.ltb_spec mx (init * 2 ^ k)); lia.
Qed.

Lemma backoff_in_bounds (rand_Int : Z → option Z) (attempt init mx : Z) :
  good_draw rand_Int → 0 <= attempt → 1 <= init <= mx → mx <= 86400 →
  let base := Z.min mx (init * 2 ^ Z.min 30 attempt) in
  ∃ d, CalculateTaskBackoff rand_Int attempt init mx = Some d
    ∧ base * Second <= d ∧ 4 * d < 5 * (base * Second).
Proof.
  intros Hr Ha Hi Hm base. unfold CalculateTaskBackoff.
  rewrite backoff_seconds_valid by done. fold base. cbn [mbind option_bind].
  assert (0 < 2 ^ Z.min 30 attempt) by (apply Z.pow_pos_nonneg; lia).
  assert (Hb : 1 <= base <= 86400) by (unfold base; nia). clearbody base.
  rewrite (wrap64_id (base * 1000)) by (unfold int64_min, int64_max; lia).
  rewrite Z.quot_div_nonneg by lia. set (j := base * 1000 / 4).
  assert (Hj : 4 * j <= base * 1000 ∧ 0 < j) by (unfold j; euclid). clearbody j.
  destruct (Z.ltb_spec 0 j); [|lia].
  assert (Hjit : 0 <= default 0 (rand_Int j) < j).
  { destruct (rand_Int j) as [z|] eqn:E; simpl; [by apply Hr|lia]. }
  set (jit := default 0 (rand_Int j)) in *. clearbody jit. eexists. split; [reflexivity|].
  unfold Second, Millisecond. rewrite !wrap64_id; unfold int64_min, int64_max; rewrite ?wrap64_id; unfold int64_min, int64_max; lia.
Qed.

(** for a valid configuration the retry delay of [CalculateTaskBackoff] is
    the initial delay doubled once per attempt (30 times at most) and capped
    by the maximum delay, plus a jitter below a quarter of it: it never
    overflows and never reaches 1.25 times the cap. *)
Theorem CalculateTaskBackoff_bounds (rand_Int : Z → option Z) (attempt init mx : Z) :
  good_draw rand_Int → 0 <= attempt → 1 <= init <= mx → mx <= 86400 →
  let base := Z.min mx (init * 2 ^ Z.min 30 attempt) in
  ∃ d, CalculateTaskBackoff rand_Int attempt init mx = Some d
    ∧ base * Second <= d ∧ 4 * d < 5 * (base * Second).
Proof. apply backoff_in_bounds. Qed.

Lemma CalculateTaskBackoff_bounds_witness :
  ∃ d, CalculateTaskBackoff (λ n, Some (n - 1)) 3 5 300 = Some d
    ∧ 40 * Second <= d ∧ 4 * d < 5 * (40 * Second).
Proof.
  apply (CalculateTaskBackoff_bounds (λ n, Some (n - 1)) 3 5 300); try lia.
  intros n z Hn [= <-]. lia.
Defined.

(** a webhook passes the target check only when its URL parses with
    scheme http or https, a non-empty host that is no metadata service, and no
    link-local address. *)
Theorem validateWebhookTargetURL_safe `{Platform} (targetURL : string) :
  validateWebhookTargetURL targetURL = Ok tt →
  ∃ u, url_Parse targetURL = Some u
    ∧ (Scheme u = "http" ∨ Scheme u = "https")
    ∧ ToLower (Hostname u) ∉ ["" ; "metadata"; "metadata.google.internal"]
    ∧ ∀ ip, net_ParseIP (ToLower (Hostname u)) = Some ip →
        IsLinkLocalUnicast ip = false ∧ IsLinkLocalMulticast ip = false.
Proof.
  unfold validateWebhookTargetURL. destruct (url_Parse targetURL) as [u|]; [|done].
  destruct (String.eqb_spec (Scheme u) "http"), (String.eqb_spec (Scheme u) "https");
    cbn [negb andb]; try done;
  destruct (String.eqb_spec (ToLower (Hostname u)) ""); try done;
  destruct (String.eqb_spec (ToLower (Hostname u)) "metadata.google.internal"); try done;
  destruct (String.eqb_spec (ToLower (Hostname u)) "metadata"); try done; cbn [orb];
  (destruct (net_ParseIP (ToLower (Hostname u))) as [ip|] eqn:Eip;
    [destruct (IsLinkLocalUnicast ip) eqn:E1, (IsLinkLocalMulticast ip) eqn:E2; try done|]);
  intros _; exists u; (split; [done|]); (split; [tauto|]);
  (split; [rewrite !not_elem_of_cons; repeat split; try done; apply not_elem_of_nil|]);
  intros ip' Hip; simplify_eq; done.
Qed.

Lemma validateWebhookTargetURL_safe_witness :
  ∃ u, @url_Parse sample_platform "https://hooks.example.com/run" = Some u
    ∧ (Scheme u = "http" ∨ Scheme u = "https")
    ∧ ToLower (Hostname u) ∉ ["" ; "metadata"; "metadata.google.internal"]
    ∧ ∀ ip, @net_ParseIP sample_platform (ToLower (Hostname u)) = Some ip →
        IsLinkLocalUnicast ip = false ∧ IsLinkLocalMulticast ip = false.
Proof.
  apply (@validateWebhookTargetURL_safe sample_platform). vm_compute. reflexivity.
Defined.

Lemma CalculateTaskBackoff_total rand_Int attempt init mx :
  0 <= attempt → is_Some (CalculateTaskBackoff rand_Int attempt init mx).
Proof.
  intros Ha. unfold CalculateTaskBackoff, backoff_seconds, maxBackoffExponentShift.
  destruct (Z.ltb_spec (if 30 <? attempt then 30 else attempt) 0) as [Hneg|]; [|by eauto].
  destruct (30 <? attempt); lia.
Qed.
