(* ===== verification/Worker.v ===== *)
(** * tasks/worker.go: dequeueing and running executions

    [dequeueNextExecution] is the single statement that claims a due row;
    [processExecution] runs a claimed execution and records its outcome. *)

From S2P Require Import Prelude GoStrings GoTime Cron TasksModel JobManager Dispatcher.
From Stdlib Require Import ZArith Lia Ascii String.
Local Open Scope string_scope.
Local Open Scope Z_scope.

(** ** Claiming a row *)

(** [status = 'pending' AND run_at <= clock_timestamp()], on a row no other
    transaction holds locked. *)
Definition is_due (now : Z) (locked : gset uuid) (e : Execution) : Prop :=
  ex_status e = StatusPending ∧ ex_run_at e <= now ∧ ex_id e ∉ locked.
#[export] Instance is_due_dec now locked e : Decision (is_due now locked e).
Proof. unfold is_due. apply _. Defined.

(** [ORDER BY run_at ASC LIMIT 1]. *)
Fixpoint oldest (l : list Execution) : option Execution :=
  match l with
  | [] => None
  | e :: l' =>
      match oldest l' with
      | Some e' => if ex_run_at e' <? ex_run_at e then Some e' else Some e
      | None => Some e
      end
  end.

Definition claimed (now : Z) (node : string) (e : Execution) : Execution :=
  MkExecution (ex_id e) (ex_job_id e) StatusRunning (ex_run_at e) (ex_payload e) (ex_attempts e)
    (ex_max_attempts e) (Some now) (Some node) (ex_last_error e) (ex_created_at e).

Section worker.
Context `{Platform} (env : Env).

Definition next_task (locked : gset uuid) (d : DB) : option Execution :=
  oldest (filter (is_due (db_now env) locked) (execution_rows d)).

Definition dequeueNextExecution (locked : gset uuid) (nodeID : string) : M Execution :=
  row ← stmt env SDequeue
    (r ← gets (λ s, next_task locked (db s));
     match r with
     | Some e =>
         update_db (set_executions <[ex_id e := claimed (db_now env) nodeID e]>) ;;
         mret (Some (claimed (db_now env) nodeID e))
     | None => mret None
     end);
  match row with
  | Some execution => mret execution
  | None => fail ErrNoPendingExecutions
  end.

(** ** Running an execution *)

(** [_, _ = Exec(...)]: a failed statement is ignored. *)
Definition ignore {A} (c : M A) : M unit := r ← try c; mret tt.

(** The name and target type of the execution's job; kept at their
    defaults when the row is gone or the query fails. *)
Definition job_target (execution : Execution) : M (string * string) :=
  match ex_job_id execution with
  | Some id =>
      r ← try (stmt env SSelectJobTarget (gets (λ s, jobs (db s) !! id)));
      match r with
      | Ok (Some j) => mret (job_name j, job_target_type j)
      | _ => mret ("", TargetTypeHTTP)
      end
  | None =>
      match json_has_query (ex_payload execution) with
      | Some true => mret ("", TargetTypeSQL)
      | _ => mret ("", TargetTypeHTTP)
      end
  end.

Record Attempt := MkAttempt {
  at_status : option Z; at_body : option string; at_error : option GoError; at_permanent : bool }.

(** The attempt itself: the SQL or HTTP call of the target, and whether a
    failure is permanent. *)
Definition run_attempt (http_do : HTTPRequest → HTTPOutcome)
    (sql_exec : string → list string → Z → SQLOutcome) (signingKey : string) (start : Z)
    (targetType : string) (timeoutSeconds : Z) (execution : Execution) : M Attempt :=
  if String.eqb targetType TargetTypeSQL then
    match json_sql (ex_payload execution) with
    | None =>
        mret (MkAttempt None None
          (Some (errorf ("invalid sql payload: " ++ json_error (ex_payload execution)))) true)
    | Some sqlPayload =>
        let '(_, resultText, isTransient, err) :=
          ExecuteSQLAttempt sql_exec (sql_query sqlPayload) (sql_params sqlPayload) timeoutSeconds in
        mret (MkAttempt None resultText err
          (match err with Some _ => negb isTransient | None => false end))
    end
  else
    match json_http (ex_payload execution) with
    | None =>
        mret (MkAttempt None None
          (Some (errorf ("invalid http payload: " ++ json_error (ex_payload execution)))) true)
    | Some httpPayload =>
        '(status, bodyText, isClientErr, err) ←
          ExecuteHTTPAttempt http_do signingKey start (http_url httpPayload)
            (http_headers httpPayload) (http_body httpPayload) (ex_job_id execution)
            (ex_id execution) timeoutSeconds;
        let execErr :=
          match err, status with
          | None, Some code =>
              if (code <? 200) || (300 <=? code)
              then Some (errorf ("http error: status " ++ pretty.pretty code)) else None
          | _, _ => err
          end in
        mret (MkAttempt status bodyText execErr isClientErr)
    end.

(** [INSERT INTO tasks.execution_logs]; refused by the foreign key when the
    execution's job has been deleted meanwhile. *)
Definition insert_log (l : ExecutionLog) : M unit :=
  stmt env SInsertLog
    (d ← gets db;
     match log_job_id l with
     | Some id => if decide (is_Some (jobs d !! id)) then update_db (add_log l)
                  else fail (DBFailure SInsertLog)
     | None => update_db (add_log l)
     end).

(** The three updates of the execution's row. *)
Definition completed (e : Execution) : Execution :=
  MkExecution (ex_id e) (ex_job_id e) StatusCompleted (ex_run_at e) (ex_payload e) (ex_attempts e)
    (ex_max_attempts e) None None (ex_last_error e) (ex_created_at e).
Definition retried (nextAttempt nextRunAt : Z) (errMsg : string) (e : Execution) : Execution :=
  MkExecution (ex_id e) (ex_job_id e) StatusPending nextRunAt (ex_payload e) nextAttempt
    (ex_max_attempts e) None None (Some errMsg) (ex_created_at e).
Definition isolated (nextAttempt : Z) (errMsg : string) (e : Execution) : Execution :=
  MkExecution (ex_id e) (ex_job_id e) StatusFailed (ex_run_at e) (ex_payload e) nextAttempt
    (ex_max_attempts e) None None (Some errMsg) (ex_created_at e).

Definition update_execution (s : Stmt) (id : uuid) (f : Execution → Execution) : M unit :=
  ignore (stmt env s (update_db (set_executions (alter f id)))).

Definition on_success (execution : Execution) (jobName : string) (durationMs : Z) (a : Attempt)
    : M unit :=
  update_execution SComplete (ex_id execution) completed ;;
  ignore (insert_log (MkExecutionLog (ex_job_id execution) (ex_id execution) StatusSuccess
                        (at_status a) durationMs (at_body a) None (db_now env))) ;;
  publish (ExecutionCompleted execution jobName durationMs (at_status a) (ex_attempts execution + 1)).

Definition is_timeout (e : GoError) : bool :=
  err_is_deadline e || Contains (ToLower (err_text e)) "deadline exceeded".

Definition on_failure (rand_Int : Z → option Z) (tasksConfig : Config) (execution : Execution)
    (jobName : string) (durationMs : Z) (a : Attempt) (execErr : GoError) : M unit :=
  let errMsg := err_text execErr in
  let logStatus := if is_timeout execErr then StatusTimeout else StatusFailed in
  publish (if is_timeout execErr
           then ExecutionTimedOut execution jobName durationMs (TimeoutSeconds tasksConfig)
                  (ex_attempts execution + 1)
           else ExecutionFailed execution jobName durationMs (at_status a)
                  (ex_attempts execution + 1) errMsg) ;;
  ignore (insert_log (MkExecutionLog (ex_job_id execution) (ex_id execution) logStatus
                        (at_status a) durationMs (at_body a) (Some errMsg) (db_now env))) ;;
  let nextAttempt := ex_attempts execution + 1 in
  if negb (at_permanent a) && (nextAttempt <? ex_max_attempts execution) then
    match CalculateTaskBackoff rand_Int nextAttempt (RetryInitialDelaySeconds tasksConfig)
            (RetryMaxDelaySeconds tasksConfig) with
    | None => fail Diverges
    | Some delay =>
        let nextRunAt := app_now env + delay in
        update_execution SRetry (ex_id execution) (retried nextAttempt nextRunAt errMsg) ;;
        publish (ExecutionRetried execution jobName nextAttempt (ex_max_attempts execution)
                   nextRunAt (delay / Millisecond) errMsg)
    end
  else
    update_execution SIsolate (ex_id execution) (isolated nextAttempt errMsg) ;;
    publish (DLQIsolated execution jobName nextAttempt errMsg).

(** [processExecution]; [start] is the time it was entered, [app_now env]
    the time the attempt ended. *)
Definition processExecution (http_do : HTTPRequest → HTTPOutcome)
    (sql_exec : string → list string → Z → SQLOutcome) (rand_Int : Z → option Z)
    (signingKey nodeID : string) (start : Z) (execution : Execution) : M unit :=
  tasksConfig ← GetConfig;
  '(jobName, targetType) ← job_target execution;
  publish (ExecutionStarted execution jobName (ex_attempts execution + 1) nodeID) ;;
  a ← run_attempt http_do sql_exec signingKey start targetType (TimeoutSeconds tasksConfig) execution;
  let durationMs := (app_now env - start) / Millisecond in
  match at_error a with
  | None => on_success execution jobName durationMs a
  | Some execErr => on_failure rand_Int tasksConfig execution jobName durationMs a execErr
  end.
End worker.
