(* ===== verification/Poller.v ===== *)
(** * tasks/poller.go: enqueueing the executions of due jobs

    [PollOnce] runs in one transaction.  Its statements see a working copy of
    the tables, which becomes the state at the commit; a failed statement
    aborts the transaction, as it does in Postgres, so that every later
    statement of it fails and the commit rolls back.  Events go to the bus at
    once, whatever becomes of the transaction. *)

From S2P Require Import Prelude GoStrings GoTime Cron TasksModel JobManager.
From Stdlib Require Import ZArith Lia Ascii String.
Local Open Scope string_scope.
Local Open Scope Z_scope.

(** [WHERE is_enabled = true AND next_run_at <= clock_timestamp() FOR UPDATE
    SKIP LOCKED]. *)
Definition job_due (now : Z) (locked : gset uuid) (j : Job) : Prop :=
  job_enabled j = true ∧ job_next_run_at j <= now ∧ job_id j ∉ locked.
#[export] Instance job_due_dec now locked j : Decision (job_due now locked j).
Proof. unfold job_due. apply _. Defined.

(** [for newNextRunAt.Before(now) { newNextRunAt = Next(newNextRunAt) }]. *)
Definition advance_step (schedule : CronSchedule) (location : Location) (now : Z) (t : Z)
    : Z + option Z :=
  if t <? now then
    match Next schedule t (Some location) with
    | Some t' => inl t'
    | None => inr None
    end
  else inr (Some t).

Definition advance (fuel : positive) (schedule : CronSchedule) (location : Location) (now t : Z)
    : option Z :=
  match iter_until (advance_step schedule location now) fuel t with
  | inr r => r
  | inl _ => None
  end.

(** Rounds allowed to the loop of [PollOnce]: a minute-wise schedule of a
    million years. *)
Definition advance_fuel : positive := 2 ^ 40.

(** The job row after it has been scheduled. *)
Definition scheduled (now nextRunAt : Z) (j : Job) : Job :=
  MkJob (job_id j) (job_name j) (job_cron j) (job_timezone j) (job_target_type j) (job_payload j)
    (job_enabled j) (Some now) nextRunAt (job_created_at j) now.

(** A transaction: the working copy and whether it has been aborted. *)
Record Tx := MkTx { tx_db : DB; tx_aborted : bool }.

Section poller.
Context `{Platform} (env : Env).

Definition due_jobs (locked : gset uuid) (d : DB) : list Job :=
  filter (job_due (db_now env) locked) (job_rows d).

(** [Next] of the current run, then forward until it is not in the past. *)
Definition new_next_run (schedule : CronSchedule) (location : Location) (job : Job) : option Z :=
  t ← Next schedule (job_next_run_at job) (Some location);
  advance advance_fuel schedule location (app_now env) t.

Definition tx_fails (tx : Tx) (s : Stmt) : bool := tx_aborted tx || faults env s.

Definition new_execution (d : DB) (maxAttempts : Z) (job : Job) : Execution :=
  MkExecution (next_uuid d) (Some (job_id job)) StatusPending (db_now env) (job_payload job) 0
    maxAttempts None None None (db_now env).

(** One turn of the loop over the due jobs: the transaction, whether the
    job was scheduled, and the events. *)
Definition schedule_job (maxAttempts : Z) (tx : Tx) (job : Job)
    : result TaskError (Tx * bool * list TaskEvent) :=
  match ParseCron (job_cron job) with
  | Err _ => Ok (tx, false, [])
  | Ok cronSchedule =>
      let location := default UTC (LoadLocation (job_timezone job)) in
      match new_next_run cronSchedule location job with
      | None => Err Diverges
      | Some newNextRunAt =>
          if tx_fails tx (SPollInsert (job_id job))
          then Ok (MkTx (tx_db tx) true, false, []) else
          let execution := new_execution (tx_db tx) maxAttempts job in
          let d1 := insert_execution execution (bump_uuid (tx_db tx)) in
          if tx_fails tx (SPollAdvance (job_id job))
          then Ok (MkTx d1 true, false, []) else
          let d2 := set_jobs (alter (scheduled (db_now env) newNextRunAt) (job_id job)) d1 in
          Ok (MkTx d2 (tx_aborted tx), true,
              [JobScheduled job (Some (job_next_run_at job)) newNextRunAt;
               ExecutionEnqueued execution (job_name job) false])
      end
  end.

Fixpoint schedule_jobs (maxAttempts : Z) (tx : Tx) (due : list Job)
    : result TaskError (Tx * Z) * list TaskEvent :=
  match due with
  | [] => (Ok (tx, 0), [])
  | job :: due' =>
      match schedule_job maxAttempts tx job with
      | Err e => (Err e, [])
      | Ok (tx', done, evs) =>
          let '(r, evs') := schedule_jobs maxAttempts tx' due' in
          (match r with
           | Ok (tx'', n) => Ok (tx'', if done then n + 1 else n)
           | Err e => Err e
           end, evs ++ evs')%list
      end
  end.

(** [PollOnce]: the number of jobs scheduled. *)
Definition PollOnce (locked : gset uuid) : M Z := λ s,
  if faults env SBegin then (Err (DBFailure SBegin), s)
  else if faults env SSelectDue then (Err (DBFailure SSelectDue), s)
  else
    let due := due_jobs locked (db s) in
    if bool_decide (due = []) then (Ok 0, s) else
    let '(r, evs) := schedule_jobs (RetryMaxAttempts (mem_config s)) (MkTx (db s) false) due in
    let rolled_back := MkTState (db s) (bus s ++ evs) (mem_config s) in
    match r with
    | Err e => (Err e, rolled_back)
    | Ok (tx, scheduledCount) =>
        if tx_fails tx SCommit then (Err TransactionAborted, rolled_back)
        else (Ok scheduledCount, MkTState (tx_db tx) (bus s ++ evs) (mem_config s))
    end.
End poller.
