(* ===== verification/TasksInv.v ===== *)
(** * The invariant of the tasks tables

    [wf_db] is what the schema and the code keep true of the tables between
    operations; every operation of [JobManager], [ConfigManager], [JobPoller]
    and [WorkerQueue] preserves it. *)

From S2P Require Import Prelude GoStrings GoTime Cron TasksModel JobManager Dispatcher Worker Poller.
From Stdlib Require Import ZArith Lia Ascii String.
Local Open Scope string_scope.
Local Open Scope Z_scope.

(** A row of tasks.executions: attempts stay within the limit, an execution
    that can still run has an attempt left, and exactly the running ones are
    locked. *)
Record wf_execution (e : Execution) : Prop := {
  we_status : ex_status e ∈ [StatusPending; StatusRunning; StatusCompleted; StatusFailed];
  we_max : 1 <= ex_max_attempts e;
  we_attempts : 0 <= ex_attempts e <= ex_max_attempts e;
  we_left : ex_status e = StatusPending ∨ ex_status e = StatusRunning →
            ex_attempts e < ex_max_attempts e;
  we_locked_at : is_Some (ex_locked_at e) ↔ ex_status e = StatusRunning;
  we_locked_by : is_Some (ex_locked_by e) ↔ ex_status e = StatusRunning;
}.

Record wf_db (d : DB) : Prop := {
  wd_job : ∀ id j, jobs d !! id = Some j → job_id j = id ∧ (id < next_uuid d)%N;
  wd_names : ∀ id1 id2 j1 j2, jobs d !! id1 = Some j1 → jobs d !! id2 = Some j2 →
             job_name j1 = job_name j2 → id1 = id2;
  wd_exec : ∀ id e, executions d !! id = Some e →
            ex_id e = id ∧ (id < next_uuid d)%N ∧ wf_execution e;
  wd_link : ∀ id e j, executions d !! id = Some e → ex_job_id e = Some j → is_Some (jobs d !! j);
}.

Definition wf_state (s : TState) : Prop := wf_db (db s) ∧ valid_config (mem_config s).

(** ** Preservation, one combinator at a time *)

Definition preserves (P : TState → Prop) {A} (c : M A) : Prop := ∀ s, P s → P (c s).2.

Section preserves.
Context (P : TState → Prop).

Lemma preserves_ret {A} (a : A) : preserves P (mret a).
Proof. by intros s Hs. Qed.
Lemma preserves_fail {A} e : preserves P (@fail A e).
Proof. by intros s Hs. Qed.
Lemma preserves_gets {A} (f : TState → A) : preserves P (gets f).
Proof. by intros s Hs. Qed.
Lemma preserves_lift {A} (r : result TaskError A) : preserves P (lift_result r).
Proof. by intros s Hs. Qed.
Lemma preserves_bind {A B} (c : M A) (k : A → M B) :
  preserves P c → (∀ a, preserves P (k a)) → preserves P (c ≫= k).
Proof.
  intros Hc Hk s Hs. specialize (Hc s Hs). unfold mbind, M_bind.
  destruct (c s) as [[a|e] s1]; [by apply Hk|done].
Qed.
(** The continuation may use what the first computation answered. *)
Lemma preserves_bind_strong {A B} (c : M A) (k : A → M B) :
  (∀ s, P s → match c s with (Ok a, s1) => P (k a s1).2 | (Err _, s1) => P s1 end) →
  preserves P (c ≫= k).
Proof.
  intros Hc s Hs. specialize (Hc s Hs). unfold mbind, M_bind. by destruct (c s) as [[a|e] s1].
Qed.
Lemma preserves_try {A} (c : M A) : preserves P c → preserves P (try c).
Proof. intros Hc s Hs. specialize (Hc s Hs). unfold try. by destruct (c s). Qed.
Lemma preserves_stmt {A} env st (c : M A) : preserves P c → preserves P (stmt env st c).
Proof. intros Hc. unfold stmt. case_match; [apply preserves_fail|done]. Qed.
Lemma preserves_when b c : preserves P c → preserves P (when b c).
Proof. intros Hc. destruct b; [done|apply preserves_ret]. Qed.
Lemma preserves_ignore {A} (c : M A) : preserves P c → preserves P (ignore c).
Proof. intros Hc. apply preserves_bind; [by apply preserves_try|intros; apply preserves_ret]. Qed.
End preserves.

Create HintDb preserves.
#[export] Hint Resolve preserves_ret preserves_fail preserves_gets preserves_lift preserves_bind
  preserves_try preserves_stmt preserves_when preserves_ignore : preserves.

(** Walks a monadic definition down to its updates. *)
Ltac walk :=
  repeat lazymatch goal with
  | |- preserves _ (mbind _ _) => apply preserves_bind; [|intros ?]
  | |- preserves _ (stmt _ _ _) => apply preserves_stmt
  | |- preserves _ (ignore _) => apply preserves_ignore
  | |- preserves _ (try _) => apply preserves_try
  | |- preserves _ (when _ _) => apply preserves_when
  | |- preserves _ (mret _) => apply preserves_ret
  | |- preserves _ (fail _) => apply preserves_fail
  | |- preserves _ (gets _) => apply preserves_gets
  | |- preserves _ (lift_result _) => apply preserves_lift
  | |- preserves _ (match ?x with _ => _ end) => destruct x eqn:?
  end.

(** Runs a monadic definition on a state. *)
Ltac run_m :=
  repeat progress (unfold mbind, M_bind, mret, M_ret, gets, update_db, publish, fail, fresh_uuid,
    lift_result, GetConfig; cbn -[name_taken select_failed]).

Lemma preserves_publish ev : preserves wf_state (publish ev).
Proof. by intros s Hs. Qed.
#[export] Hint Resolve preserves_publish : preserves.

Lemma preserves_update f :
  (∀ d, wf_db d → wf_db (f d)) → preserves wf_state (update_db f).
Proof. intros Hf s [Hd Hc]. split; [by apply Hf|done]. Qed.

Lemma wf_bump d : wf_db d → wf_db (bump_uuid d).
Proof.
  intros [Hj Hn He Hl]. split; simpl; try done.
  - intros id j Hid. apply Hj in Hid. lia.
  - intros id e Hid. apply He in Hid. naive_solver lia.
Qed.

Lemma preserves_fresh : preserves wf_state fresh_uuid.
Proof. intros s [Hd Hc]. split; [by apply wf_bump|done]. Qed.
#[export] Hint Resolve preserves_fresh : preserves.

(** ** Rows *)

Lemma wf_set_config_row c d : wf_db d → wf_db (set_config_row c d).
Proof. by intros [? ? ? ?]. Qed.

(** Changing executions row by row, without touching ids and links. *)
Definition same_identity (e e' : Execution) : Prop := ex_id e' = ex_id e ∧ ex_job_id e' = ex_job_id e.

Lemma wf_insert_row d id e e' :
  wf_db d → executions d !! id = Some e → same_identity e e' → wf_execution e' →
  wf_db (set_executions <[id := e']> d).
Proof.
  intros [Hj Hn He Hl] Hid [Hi Hk] Hwf. split; simpl; try done.
  - intros id' x. rewrite lookup_insert. case_decide; [|by apply He].
    intros [= <-]. subst. apply He in Hid as (? & ? & ?). by rewrite Hi.
  - intros id' x j. rewrite lookup_insert. case_decide; [|by apply Hl].
    intros [= <-]. rewrite Hk. by apply (Hl id e).
Qed.

Lemma wf_alter_row d id f :
  wf_db d → (∀ e, executions d !! id = Some e → same_identity e (f e) ∧ wf_execution (f e)) →
  wf_db (set_executions (alter f id) d).
Proof.
  intros Hd Hf. destruct (executions d !! id) as [e|] eqn:E.
  - destruct (Hf e eq_refl) as [Hs Hw].
    assert (alter f id (executions d) = <[id := f e]> (executions d)) as Ha.
    { apply map_eq. intros i. rewrite lookup_alter, lookup_insert.
      case_decide; [subst; by rewrite E|done]. }
    pose proof (wf_insert_row d id e (f e) Hd E Hs Hw) as Hwf.
    unfold set_executions in *. by rewrite Ha.
  - assert (alter f id (executions d) = executions d) as Ha.
    { apply map_eq. intros i. rewrite lookup_alter. case_decide; [subst; by rewrite E|done]. }
    unfold set_executions. rewrite Ha. by destruct d.
Qed.

Lemma wf_insert_execution d e :
  wf_db d → (ex_id e < next_uuid d)%N → wf_execution e →
  (∀ j, ex_job_id e = Some j → is_Some (jobs d !! j)) → wf_db (insert_execution e d).
Proof.
  intros [Hj Hn He Hl] Hid Hwf Hlink. split; simpl; try done.
  - intros id x. rewrite lookup_insert. case_decide; [|by apply He]. intros [= <-]. by subst.
  - intros id x j. rewrite lookup_insert. case_decide; [|by apply Hl]. intros [= <-]. apply Hlink.
Qed.

Lemma wf_filter_executions d (Q : uuid * Execution → Prop) `{∀ x, Decision (Q x)} :
  wf_db d → wf_db (set_executions (filter Q) d).
Proof.
  intros [Hj Hn He Hl]. split; simpl; try done.
  - intros id e [? _]%map_lookup_filter_Some. by apply He.
  - intros id e j [? _]%map_lookup_filter_Some. by apply (Hl id).
Qed.

Lemma wf_delete_execution d id : wf_db d → wf_db (set_executions (delete id) d).
Proof.
  intros [Hj Hn He Hl]. split; simpl; try done.
  - intros id' e [_ ?]%lookup_delete_Some. by apply He.
  - intros id' e j [_ ?]%lookup_delete_Some. by apply (Hl id').
Qed.

(** A new or changed job row whose name no other row has. *)
Lemma wf_set_job d id j :
  wf_db d → job_id j = id → (id < next_uuid d)%N → name_taken d id (job_name j) = false →
  wf_db (set_jobs <[id := j]> d).
Proof.
  intros [Hj Hn He Hl] Hid Hlt Hname.
  assert (Hfree : ∀ id' j', jobs d !! id' = Some j' → job_name j' = job_name j → id' = id).
  { intros id' j' Hj' Heq. apply bool_decide_eq_false in Hname.
    destruct (decide (id' = id)); [done|]. destruct Hname.
    apply map_Exists_lookup. naive_solver. }
  split; simpl; try done.
  - intros id' x. rewrite lookup_insert. case_decide; [|by apply Hj]. by intros [= <-]; subst.
  - intros id1 id2 j1 j2. rewrite !lookup_insert. repeat case_decide; intros; simplify_eq; try done.
    + symmetry. by eapply Hfree.
    + by eapply Hfree.
    + by eapply Hn.
  - intros id' e k He' Hk. rewrite lookup_insert. case_decide; [by eauto|]. by apply (Hl id' e).
Qed.

Lemma wf_delete_job d id : wf_db d → wf_db (delete_job id d).
Proof.
  intros [Hj Hn He Hl]. split; simpl.
  - intros id' j [_ ?]%lookup_delete_Some. by apply Hj.
  - intros id1 id2 j1 j2 [_ ?]%lookup_delete_Some [_ ?]%lookup_delete_Some. by apply Hn.
  - intros id' e (x & <- & Hx)%lookup_fmap_Some. apply He in Hx as (? & ? & [? ? ? ? ? ?]). done.
  - intros id' e j (x & <- & Hx)%lookup_fmap_Some. simpl. case_decide; [done|].
    intros Hk. rewrite lookup_delete. case_decide; [naive_solver|]. by apply (Hl id' x).
Qed.

(** ** Configuration *)

Lemma preserves_set_mem c : valid_config c → preserves wf_state (SetMemoryConfig c).
Proof. by intros Hc s [Hd _]. Qed.

Lemma SetConfig_preserves env c : preserves wf_state (SetConfig env c).
Proof.
  unfold SetConfig. destruct (Validate c) eqn:E; [|apply preserves_fail].
  apply Validate_ok in E. walk; auto using preserves_update, wf_set_config_row, preserves_set_mem with preserves.
Qed.

Lemma LoadConfig_preserves env : preserves wf_state (LoadConfig env).
Proof.
  unfold LoadConfig. walk; [|apply SetConfig_preserves].
  apply preserves_set_mem. by eapply Validate_ok.
Qed.

(** ** Job manager *)

Section job_manager_preserves.
Context `{Platform} (env : Env).

Lemma insert_job_row_preserves name cron tz tt' payload en next :
  preserves wf_state (insert_job_row env name cron tz tt' payload en next).
Proof.
  intros s [Hd Hc]. unfold insert_job_row. run_m.
  destruct (name_taken _ _ _) eqn:En; run_m; (split; [|done]); [by apply wf_bump|].
  apply wf_set_job; [by apply wf_bump|done|simpl; lia|done].
Qed.

Lemma CreateJob_preserves input : preserves wf_state (CreateJob env input).
Proof.
  unfold CreateJob, parse_cron_or_fail, load_location_or_fail, next_run.
  walk; auto using insert_job_row_preserves with preserves.
Qed.

Lemma GetJob_preserves id : preserves wf_state (GetJob env id).
Proof. unfold GetJob. walk. Qed.

Lemma update_job_row_preserves id name cron tz tt' payload en next :
  preserves wf_state (update_job_row env id name cron tz tt' payload en next).
Proof.
  intros s [Hd Hc]. unfold update_job_row. run_m.
  destruct (jobs (db s) !! id) as [j|] eqn:Ej; run_m; [|done].
  destruct (name_taken _ _ _) eqn:En; run_m; [done|]. split; [|done].
  apply (wd_job _ Hd) in Ej as [? ?]. by apply wf_set_job.
Qed.

Lemma UpdateJob_preserves id input : preserves wf_state (UpdateJob env id input).
Proof.
  unfold UpdateJob, parse_cron_or_fail, load_location_or_fail, next_run.
  walk; auto using GetJob_preserves, update_job_row_preserves with preserves.
Qed.

Lemma DeleteJob_preserves id : preserves wf_state (DeleteJob env id).
Proof.
  unfold DeleteJob. walk; auto using GetJob_preserves with preserves;
    apply preserves_update; intros d Hd; [by apply wf_filter_executions|by apply wf_delete_job].
Qed.

(** A new pending row, for a job that exists. *)
Lemma wf_new_execution d id j payload mx :
  wf_db d → (id < next_uuid d)%N → 1 <= mx → (∀ i, j = Some i → is_Some (jobs d !! i)) →
  wf_db (insert_execution
    (MkExecution id j StatusPending (db_now env) payload 0 mx None None None (db_now env)) d).
Proof.
  intros Hd Hid Hmx Hj. apply wf_insert_execution; try done.
  split; simpl; try lia; try set_solver; (split; [by intros [? ?]|done]).
Qed.

Lemma trigger_source_job input s p s' :
  wf_state s → trigger_source env input s = (Ok p, s') →
  s' = s ∧ ∀ i, te_job_id input = Some i → is_Some (jobs (db s) !! i).
Proof.
  intros Hs. unfold trigger_source, GetJob, stmt. destruct (te_job_id input) as [i|].
  - destruct (faults env SSelectJob); [done|]. run_m.
    destruct (jobs (db s) !! i) eqn:E; run_m; [|done]. naive_solver.
  - run_m. naive_solver.
Qed.

Lemma trigger_source_preserves input : preserves wf_state (trigger_source env input).
Proof. unfold trigger_source. walk. apply GetJob_preserves. Qed.

Lemma TriggerExecution_preserves input : preserves wf_state (TriggerExecution env input).
Proof.
  unfold TriggerExecution. apply preserves_bind_strong. intros s Hs.
  pose proof (trigger_source_preserves input s Hs) as Hp.
  destruct (trigger_source env input s) as [[[p n]|e] s1] eqn:E; [|done].
  apply trigger_source_job in E as [-> Hlink]; [|done]. run_m. unfold stmt.
  destruct (faults env SInsertExecution); [done|]. run_m. destruct Hs as [Hd Hc].
  split; [|done]. apply wf_new_execution; simpl.
  - by apply wf_bump.
  - lia.
  - unfold valid_config in Hc. lia.
  - done.
Qed.

Lemma wf_requeued e : wf_execution e → wf_execution (requeued env e).
Proof.
  intros [? ? ? ? ? ?]. split; simpl; try lia; try set_solver; (split; [by intros [? ?]|done]).
Qed.

Lemma requeue_row_preserves id : preserves wf_state (requeue_row env id).
Proof.
  intros s [Hd Hc]. unfold requeue_row. run_m.
  destruct (executions (db s) !! id) as [e|] eqn:E; run_m; [|done]. split; [|done].
  eapply wf_insert_row; [done..|]. apply wf_requeued. by apply (wd_exec _ Hd) in E as (_ & _ & ?).
Qed.

Lemma RetryDLQExecution_preserves id : preserves wf_state (RetryDLQExecution env id).
Proof. unfold RetryDLQExecution. walk; auto using requeue_row_preserves with preserves. Qed.

Lemma PurgeDLQExecution_preserves id : preserves wf_state (PurgeDLQExecution env id).
Proof.
  unfold PurgeDLQExecution. walk; auto using preserves_update, wf_delete_execution with preserves.
Qed.
End job_manager_preserves.

(** ** Worker *)

Lemma oldest_None l : oldest l = None → l = [].
Proof.
  destruct l as [|a l]; [done|]. simpl. destruct (oldest l); [by case_match|done].
Qed.

Lemma oldest_Some l e :
  oldest l = Some e → e ∈ l ∧ ∀ x, x ∈ l → ex_run_at e <= ex_run_at x.
Proof.
  revert e. induction l as [|a l IH]; intros e; simpl; [done|].
  destruct (oldest l) as [b|] eqn:E.
  - destruct (IH b eq_refl) as [Hin Hle]. destruct (Z.ltb_spec (ex_run_at b) (ex_run_at a));
      intros [= <-]; (split; [set_solver|]); intros x [->|Hx]%elem_of_cons; try lia;
      specialize (Hle x Hx); lia.
  - intros [= <-]. apply oldest_None in E as ->. split; [set_solver|]. intros x ->%list_elem_of_singleton. lia.
Qed.

Lemma elem_of_execution_rows d e :
  e ∈ execution_rows d ↔ ∃ id, executions d !! id = Some e.
Proof.
  unfold execution_rows. rewrite list_elem_of_fmap. split.
  - intros ([id x] & -> & ?%elem_of_map_to_list). by exists id.
  - intros [id ?%elem_of_map_to_list]. by exists (id, e).
Qed.

Lemma elem_of_job_rows d j : j ∈ job_rows d ↔ ∃ id, jobs d !! id = Some j.
Proof.
  unfold job_rows. rewrite list_elem_of_fmap. split.
  - intros ([id x] & -> & ?%elem_of_map_to_list). by exists id.
  - intros [id ?%elem_of_map_to_list]. by exists (id, j).
Qed.

(** The row a dequeue claims: due, unlocked, and the oldest of those. *)
Lemma next_task_Some env locked d e :
  wf_db d → next_task env locked d = Some e →
  executions d !! ex_id e = Some e ∧ is_due (db_now env) locked e
  ∧ ∀ id x, executions d !! id = Some x → is_due (db_now env) locked x → ex_run_at e <= ex_run_at x.
Proof.
  intros Hd [Hin Hle]%oldest_Some. apply list_elem_of_filter in Hin as [Hdue Hrow].
  apply elem_of_execution_rows in Hrow as [id Hid].
  pose proof (wd_exec _ Hd _ _ Hid) as (-> & _ & _). split; [done|]. split; [done|].
  intros id' x Hx Hxd. apply Hle, list_elem_of_filter. split; [done|].
  apply elem_of_execution_rows. eauto.
Qed.

Lemma next_task_None env locked d id x :
  next_task env locked d = None → executions d !! id = Some x → ¬ is_due (db_now env) locked x.
Proof.
  intros Hn Hx Hdue. apply oldest_None in Hn.
  assert (x ∈ filter (is_due (db_now env) locked) (execution_rows d)) as Hin.
  { apply list_elem_of_filter. split; [done|]. apply elem_of_execution_rows. eauto. }
  rewrite Hn in Hin. set_solver.
Qed.

Lemma wf_claimed now node e :
  wf_execution e → ex_status e = StatusPending → wf_execution (claimed now node e).
Proof.
  intros [? ? ? Hl ? ?] Hp. split; simpl; try done; try set_solver.
Qed.

(** What a dequeue does, statement failures included. *)
Lemma dequeue_run env locked node s :
  wf_state s →
  (∃ e, next_task env locked (db s) = Some e
    ∧ dequeueNextExecution env locked node s
      = (Ok (claimed (db_now env) node e),
         MkTState (set_executions <[ex_id e := claimed (db_now env) node e]> (db s))
           (bus s) (mem_config s)))
  ∨ (dequeueNextExecution env locked node s).2 = s
    ∧ ((dequeueNextExecution env locked node s).1 = Err (DBFailure SDequeue)
       ∨ (dequeueNextExecution env locked node s).1 = Err ErrNoPendingExecutions
         ∧ next_task env locked (db s) = None).
Proof.
  intros Hs. unfold dequeueNextExecution, stmt.
  destruct (faults env SDequeue); [right; run_m; tauto|].
  run_m. destruct (next_task env locked (db s)) as [e|] eqn:E; run_m; [left; eauto|right; tauto].
Qed.

Lemma dequeue_preserves env locked node : preserves wf_state (dequeueNextExecution env locked node).
Proof.
  intros s Hs. destruct (dequeue_run env locked node s Hs) as [(e & He & ->)|[-> _]]; [|done].
  destruct Hs as [Hd Hc]. split; [|done]. apply next_task_Some in He as (Hrow & Hdue & _); [|done].
  eapply wf_insert_row; [done..|]. apply (wd_exec _ Hd) in Hrow as (_ & _ & Hw).
  apply wf_claimed; [done|]. by destruct Hdue.
Qed.

(** The state of a claimed execution while it runs: its row is still running
    and counts the same attempts. *)
Definition claims (d : DB) (e : Execution) : Prop :=
  ∃ row, executions d !! ex_id e = Some row ∧ ex_status row = StatusRunning
    ∧ ex_attempts row = ex_attempts e ∧ ex_max_attempts row = ex_max_attempts e.

Lemma wf_completed e : wf_execution e → wf_execution (completed e).
Proof.
  intros [? ? ? ? ? ?]. split; simpl; try done; try set_solver; try naive_solver.
  all: split; [by intros [? ?]|done].
Qed.

Lemma wf_retried n t m e : wf_execution e → 0 <= n < ex_max_attempts e → wf_execution (retried n t m e).
Proof.
  intros [? ? ? ? ? ?] ?. split; simpl; try lia; try set_solver.
  all: split; [by intros [? ?]|done].
Qed.

Lemma wf_isolated n m e : wf_execution e → 0 <= n <= ex_max_attempts e → wf_execution (isolated n m e).
Proof.
  intros [? ? ? ? ? ?] ?. split; simpl; try lia; try set_solver; try naive_solver.
  all: split; [by intros [? ?]|done].
Qed.

Section process.
Context `{Platform} (env : Env) (http_do : HTTPRequest → HTTPOutcome)
  (sql_exec : string → list string → Z → SQLOutcome) (rand_Int : Z → option Z)
  (signingKey nodeID : string) (start : Z).

Definition add_events (evs : list TaskEvent) (s : TState) : TState :=
  MkTState (db s) (bus s ++ evs) (mem_config s).

Lemma job_target_run e s : ∃ p, job_target env e s = (Ok p, s).
Proof.
  unfold job_target, stmt, try. destruct (ex_job_id e) as [id|].
  - destruct (faults env SSelectJobTarget); run_m; [eauto|].
    destruct (jobs (db s) !! id); run_m; eauto.
  - destruct (json_has_query (ex_payload e)) as [[]|]; run_m; eauto.
Qed.

Lemma run_attempt_run tgt timeout e :
  ∃ a evs, ∀ s, run_attempt http_do sql_exec signingKey start tgt timeout e s
                = (Ok a, add_events evs s).
Proof.
  assert (Hnil : ∀ s, add_events [] s = s).
  { intros [d b c]. unfold add_events. simpl. by rewrite app_nil_r. }
  assert (Hret : ∀ a : Attempt, ∃ b evs, ∀ s, (mret a : M Attempt) s = (Ok b, add_events evs s)).
  { intros a. exists a, []. intros s. by rewrite Hnil. }
  unfold run_attempt. destruct (String.eqb tgt TargetTypeSQL).
  - destruct (json_sql _); [|apply Hret]. destruct (ExecuteSQLAttempt _ _ _ _) as [[[? ?] ?] ?].
    apply Hret.
  - destruct (json_http _) as [p|]; [|apply Hret]. unfold ExecuteHTTPAttempt.
    destruct (validateWebhookTargetURL _) as [u|er]; [|by eexists _, [_]].
    destruct (http_do _) as [er|code body]; eexists _, []; intros s; rewrite Hnil; reflexivity.
Qed.

(** What becomes of the row of a finished execution. *)
Definition outcome_row (cfg : Config) (e : Execution) (a : Attempt) (row : Execution) : Execution :=
  match at_error a with
  | None => completed row
  | Some err =>
      let n := ex_attempts e + 1 in
      if negb (at_permanent a) && (n <? ex_max_attempts e) then
        retried n (app_now env + default 0 (CalculateTaskBackoff rand_Int n
          (RetryInitialDelaySeconds cfg) (RetryMaxDelaySeconds cfg))) (err_text err) row
      else isolated n (err_text err) row
  end.

Definition outcome_stmt (e : Execution) (a : Attempt) : Stmt :=
  match at_error a with
  | None => SComplete
  | Some _ =>
      if negb (at_permanent a) && (ex_attempts e + 1 <? ex_max_attempts e) then SRetry else SIsolate
  end.

(** The tables after the row of [e] was updated by [f], unless the statement
    failed; the log may have one more entry. *)
Definition row_updated (st : Stmt) (e : Execution) (f : Execution → Execution) (d d' : DB) : Prop :=
  executions d' = (if faults env st then executions d else alter f (ex_id e) (executions d))
  ∧ jobs d' = jobs d ∧ next_uuid d' = next_uuid d ∧ config_row d' = config_row d
  ∧ ∃ l, execution_logs d' = (execution_logs d ++ l)%list ∧ (List.length l <= 1)%nat.

Lemma insert_log_run l s :
  ∃ s', ignore (insert_log env l) s = (Ok tt, s')
    ∧ (s' = s ∨ s' = MkTState (add_log l (db s)) (bus s) (mem_config s)).
Proof.
  unfold ignore, insert_log, stmt, try. destruct (faults env SInsertLog); run_m; [eauto|].
  destruct (log_job_id l) as [id|]; [|run_m; eauto].
  destruct (decide _); run_m; eauto.
Qed.

Lemma update_execution_run st id f s :
  update_execution env st id f s
  = (Ok tt, if faults env st then s
            else MkTState (set_executions (alter f id) (db s)) (bus s) (mem_config s)).
Proof. unfold update_execution, ignore, stmt, try. destruct (faults env st); by run_m. Qed.

(** The log line and the row update of either outcome, in either order. *)
Definition logged (s s' : TState) : Prop :=
  ∃ l evs, (List.length l <= 1)%nat
    ∧ s' = MkTState (MkDB (jobs (db s)) (executions (db s)) (execution_logs (db s) ++ l)
                       (config_row (db s)) (next_uuid (db s))) (bus s ++ evs) (mem_config s).

Lemma insert_log_logged l s : ∃ s', ignore (insert_log env l) s = (Ok tt, s') ∧ logged s s'.
Proof.
  destruct (insert_log_run l s) as (s' & Hs' & Hcase). exists s'. split; [done|].
  destruct s as [[j e lg cf n] b c], Hcase as [->| ->]; unfold logged; simpl.
  - exists [], []. simpl. rewrite !app_nil_r. split; [lia|done].
  - exists [l], []. rewrite app_nil_r. split; [simpl; lia|done].
Qed.

Lemma row_updated_logged st e f s s1 s2 evs :
  logged s s1 →
  s2 = MkTState (if faults env st then db s1 else set_executions (alter f (ex_id e)) (db s1))
         (bus s1 ++ evs) (mem_config s1) →
  row_updated st e f (db s) (db s2) ∧ mem_config s2 = mem_config s.
Proof.
  intros (l & evs1 & Hl & ->) ->. unfold row_updated.
  destruct (faults env st); simpl; (split; [|done]); repeat split; by exists l.
Qed.

Lemma update_then_publish st id f ev s :
  (update_execution env st id f ;; publish ev) s
  = (Ok tt, MkTState (if faults env st then db s else set_executions (alter f id) (db s))
              (bus s ++ [ev]) (mem_config s)).
Proof. unfold mbind, M_bind. rewrite update_execution_run. by destruct (faults env st). Qed.

Lemma on_failure_run cfg e name dur a err s :
  0 <= ex_attempts e → at_error a = Some err →
  ∃ s', on_failure env rand_Int cfg e name dur a err s = (Ok tt, s')
    ∧ row_updated (outcome_stmt e a) e (outcome_row cfg e a) (db s) (db s')
    ∧ mem_config s' = mem_config s.
Proof.
  intros Ha He. unfold on_failure, outcome_stmt, outcome_row. rewrite He.
  match goal with |- context [publish ?ev ;; _] => set (ev1 := ev) end.
  match goal with |- context [insert_log env ?x] => set (l := x) end.
  destruct (insert_log_logged l (add_events [ev1] s)) as (s1 & Hs1 & Hlog).
  assert (Hlog' : logged s s1).
  { destruct Hlog as (l' & evs & Hl & ->). exists l', ([ev1] ++ evs)%list.
    split; [done|]. unfold add_events. simpl. by rewrite <- app_assoc. }
  unfold mbind at 1 2. unfold M_bind at 1 2. cbn [publish]. fold (add_events [ev1] s).
  rewrite Hs1. destruct (negb (at_permanent a) && _).
  - destruct (CalculateTaskBackoff_total rand_Int (ex_attempts e + 1)
      (RetryInitialDelaySeconds cfg) (RetryMaxDelaySeconds cfg)) as [delay ->]; [lia|].
    rewrite update_then_publish. eexists. split; [reflexivity|]. by eapply row_updated_logged.
  - rewrite update_then_publish. eexists. split; [reflexivity|]. by eapply row_updated_logged.
Qed.

Lemma on_success_run cfg e name dur a s :
  at_error a = None →
  ∃ s', on_success env e name dur a s = (Ok tt, s')
    ∧ row_updated (outcome_stmt e a) e (outcome_row cfg e a) (db s) (db s')
    ∧ mem_config s' = mem_config s.
Proof.
  intros He. unfold on_success, outcome_stmt, outcome_row. rewrite He.
  match goal with |- context [insert_log env ?x] => set (l := x) end.
  unfold mbind, M_bind. rewrite update_execution_run.
  match goal with |- context [ignore _ ?x] => set (s0 := x) end.
  destruct (insert_log_logged l s0) as (s1 & -> & (l' & evs & Hl & ->)). cbn [publish].
  eexists. split; [reflexivity|]. unfold s0, row_updated.
  destruct (faults env SComplete); simpl; (split; [|done]); repeat split; by exists l'.
Qed.

(** [processExecution] always comes back, and does to the tables what
    [outcome_row] says. *)
Lemma processExecution_run e s :
  0 <= ex_attempts e →
  ∃ p a evs s',
    job_target env e s = (Ok p, s)
    ∧ (∀ s0, run_attempt http_do sql_exec signingKey start p.2 (TimeoutSeconds (mem_config s)) e s0
             = (Ok a, add_events evs s0))
    ∧ processExecution env http_do sql_exec rand_Int signingKey nodeID start e s = (Ok tt, s')
    ∧ row_updated (outcome_stmt e a) e (outcome_row (mem_config s) e a) (db s) (db s')
    ∧ mem_config s' = mem_config s.
Proof.
  intros Ha. destruct (job_target_run e s) as [[name tgt] Hp].
  destruct (run_attempt_run tgt (TimeoutSeconds (mem_config s)) e) as (a & evs & Hrun).
  set (ev0 := ExecutionStarted e name (ex_attempts e + 1) nodeID).
  set (s1 := add_events evs (add_events [ev0] s)).
  assert (Hfin : ∃ s', match at_error a with
      | None => on_success env e name ((app_now env - start) / Millisecond) a
      | Some err => on_failure env rand_Int (mem_config s) e name ((app_now env - start) / Millisecond) a err
      end s1 = (Ok tt, s')
      ∧ row_updated (outcome_stmt e a) e (outcome_row (mem_config s) e a) (db s1) (db s')
      ∧ mem_config s' = mem_config s1).
  { destruct (at_error a) eqn:E; [by apply on_failure_run|by apply on_success_run]. }
  destruct Hfin as (s' & Hs' & Hrow & Hcfg). exists (name, tgt), a, evs, s'.
  split; [done|]. split; [done|]. split; [|done].
  unfold processExecution, GetConfig. unfold mbind, M_bind. cbn [gets]. rewrite Hp. cbn [publish].
  fold (add_events [ev0] s). rewrite Hrun. fold s1. rewrite <- Hs'. by destruct (at_error a).
Qed.
End process.

(** The row an outcome leaves is well formed. *)
Lemma wf_outcome_row env rand_Int cfg e a row :
  wf_execution row → ex_status row = StatusRunning →
  ex_attempts row = ex_attempts e → ex_max_attempts row = ex_max_attempts e →
  same_identity row (outcome_row env rand_Int cfg e a row)
  ∧ wf_execution (outcome_row env rand_Int cfg e a row).
Proof.
  intros Hw Hr Ha Hm. pose proof (we_attempts _ Hw). pose proof (we_left _ Hw (or_intror Hr)).
  unfold outcome_row. destruct (at_error a) as [err|]; [|split; [done|by apply wf_completed]].
  destruct (negb (at_permanent a) && (ex_attempts e + 1 <? ex_max_attempts e)) eqn:E.
  - bool_to_prop. split; [done|]. apply wf_retried; [done|lia].
  - split; [done|]. apply wf_isolated; [done|lia].
Qed.

Lemma row_updated_wf env st e f d d' :
  wf_db d → row_updated env st e f d d' →
  (∀ row, executions d !! ex_id e = Some row → same_identity row (f row) ∧ wf_execution (f row)) →
  wf_db d'.
Proof.
  intros Hd (He & Hj & Hn & _ & _) Hf.
  assert (Hd2 : wf_db (if faults env st then d else set_executions (alter f (ex_id e)) d)).
  { destruct (faults env st); [done|]. by apply wf_alter_row. }
  destruct Hd2 as [H1 H2 H3 H4].
  destruct (faults env st); split; rewrite ?Hj, ?He, ?Hn; done.
Qed.

Lemma processExecution_preserves `{Platform} env http_do sql_exec rand_Int key node start e s :
  wf_state s → claims (db s) e →
  wf_state (processExecution env http_do sql_exec rand_Int key node start e s).2.
Proof.
  intros [Hd Hc] (row & Hrow & Hr & Ha & Hm).
  pose proof (wd_exec _ Hd _ _ Hrow) as (_ & _ & Hw). pose proof (we_attempts _ Hw).
  destruct (processExecution_run env http_do sql_exec rand_Int key node start e s)
    as (p & a & evs & s' & _ & _ & -> & Hupd & Hcfg); [lia|].
  split; simpl; [|by rewrite Hcfg]. eapply row_updated_wf; [done..|].
  intros row' Hrow'. simplify_eq. by apply wf_outcome_row.
Qed.

(** ** Poller *)

Section poller_preserves.
Context `{Platform} (env : Env).

Lemma wf_scheduled d id now t : wf_db d → wf_db (set_jobs (alter (scheduled now t) id) d).
Proof.
  intros [Hj Hn He Hl]. split; simpl.
  - intros i j. rewrite lookup_alter. case_decide; [|by apply Hj].
    intros (j' & Hj' & ->)%fmap_Some. subst. by apply Hj in Hj'.
  - intros i1 i2 j1 j2. rewrite !lookup_alter.
    assert (Hcase : ∀ i j, (if decide (id = i) then scheduled now t <$> jobs d !! id else jobs d !! i)
              = Some j → ∃ j', jobs d !! i = Some j' ∧ job_name j' = job_name j).
    { intros i j. case_decide; [subst|by eauto]. intros (j' & ? & ->)%fmap_Some. eauto. }
    intros (j1' & ? & ?)%Hcase (j2' & ? & ?)%Hcase Heq. eapply Hn; [done..|]. congruence.
  - done.
  - intros i e j He' Hk. rewrite lookup_alter. specialize (Hl i e j He' Hk).
    case_decide; [subst; by apply fmap_is_Some|done].
Qed.

Lemma schedule_job_preserves mx tx job tx' done evs :
  1 <= mx → wf_db (tx_db tx) → is_Some (jobs (tx_db tx) !! job_id job) →
  schedule_job env mx tx job = Ok (tx', done, evs) →
  wf_db (tx_db tx') ∧ (∀ i, is_Some (jobs (tx_db tx) !! i) → is_Some (jobs (tx_db tx') !! i)).
Proof.
  intros Hmx Hd Hjob. unfold schedule_job.
  destruct (ParseCron _); [|by intros [= <- _ _]].
  destruct (new_next_run env _ _ _) as [t|]; [|done].
  destruct (tx_fails env tx _); [by intros [= <- _ _]|].
  assert (Hd1 : wf_db (insert_execution (new_execution env (tx_db tx) mx job) (bump_uuid (tx_db tx)))).
  { apply wf_new_execution; [by apply wf_bump|simpl; lia|done|]. intros i [= <-]. done. }
  destruct (tx_fails env tx _); intros [= <- _ _]; simpl; [done|].
  split; [by apply (wf_scheduled _ _ _ _ Hd1)|]. intros i Hi. rewrite lookup_alter.
  case_decide; [subst; by apply fmap_is_Some|done].
Qed.

Lemma schedule_jobs_preserves mx tx due tx' n evs :
  1 <= mx → wf_db (tx_db tx) → Forall (λ j, is_Some (jobs (tx_db tx) !! job_id j)) due →
  schedule_jobs env mx tx due = (Ok (tx', n), evs) → wf_db (tx_db tx').
Proof.
  intros Hmx. revert tx n evs. induction due as [|job due IH]; intros tx n evs Hd Hall; simpl.
  { by intros [= <- _ _]. }
  apply Forall_cons_iff in Hall as [Hj Hall].
  destruct (schedule_job env mx tx job) as [[[tx1 b] ev1]|e] eqn:E; [|done].
  apply schedule_job_preserves in E as [Hd1 Hmono]; [|done..].
  destruct (schedule_jobs env mx tx1 due) as [[[tx2 m]|e] evs2] eqn:E2; [|done].
  intros [= <- _ _]. eapply IH; [done| |done].
  eapply list.Forall_impl; [exact Hall|]. intros j' ?. by apply Hmono.
Qed.

Lemma due_jobs_exist locked d :
  wf_db d → Forall (λ j, jobs d !! job_id j = Some j) (due_jobs env locked d).
Proof.
  intros Hd. apply list.Forall_forall. intros j [_ [id Hid]%elem_of_job_rows]%list_elem_of_filter.
  by pose proof (wd_job _ Hd _ _ Hid) as [-> _].
Qed.

Lemma PollOnce_preserves locked : preserves wf_state (PollOnce env locked).
Proof.
  intros s [Hd Hc]. unfold PollOnce. destruct (faults env SBegin), (faults env SSelectDue); try done.
  case_bool_decide; [done|].
  destruct (schedule_jobs _ _ _ _) as [[[tx n]|e] evs] eqn:E; [|done].
  destruct (tx_fails env tx SCommit); [done|]. split; [|done]. simpl.
  eapply schedule_jobs_preserves in E; [done|unfold valid_config in Hc; lia|done|].
  eapply list.Forall_impl; [by apply due_jobs_exist|]. simpl. intros j ->. by eexists.
Qed.
End poller_preserves.
