(* ===== verification/TasksSystem.v ===== *)
(** * The tasks service as a transition system

    Control-plane operations, the poller and any number of worker processes
    act on the same tables.  A state is the tables and bus, and the
    executions that workers have claimed and are running.  Each operation of
    the earlier files is one step; claiming an execution and finishing it are
    separate steps, so everything else may happen in between; a worker may
    also die and never finish. *)

From Stdlib Require Import ZArith Lia Ascii String.
From S2P Require Import Prelude GoStrings GoTime Cron TasksModel JobManager Dispatcher Worker Poller TasksInv.
Local Open Scope string_scope.
Local Open Scope Z_scope.

Inductive Op :=
| OpCreateJob (input : CreateJobInput)
| OpUpdateJob (id : uuid) (input : UpdateJobInput)
| OpDeleteJob (id : uuid)
| OpTrigger (input : TriggerExecutionInput)
| OpRetryDLQ (id : uuid)
| OpPurgeDLQ (id : uuid)
| OpSetConfig (c : Config)
| OpLoadConfig
| OpPoll (locked : gset uuid).

Definition run_op `{Platform} (env : Env) (op : Op) (s : TState) : TState :=
  match op with
  | OpCreateJob input => (CreateJob env input s).2
  | OpUpdateJob id input => (UpdateJob env id input s).2
  | OpDeleteJob id => (DeleteJob env id s).2
  | OpTrigger input => (TriggerExecution env input s).2
  | OpRetryDLQ id => (RetryDLQExecution env id s).2
  | OpPurgeDLQ id => (PurgeDLQExecution env id s).2
  | OpSetConfig c => (SetConfig env c s).2
  | OpLoadConfig => (LoadConfig env s).2
  | OpPoll locked => (PollOnce env locked s).2
  end.

(** [workerLoop]: the limit in force, and whether the loop goes on to dequeue
    with [active] workers running. *)
Definition defaultConcurrencyLimit : Z := 25.
Definition concurrency_limit (tasksConfig : Config) : Z :=
  if ConcurrencyLimit tasksConfig <? 1 then defaultConcurrencyLimit
  else ConcurrencyLimit tasksConfig.
(** Conversion to [int32]. *)
Definition wrap32 (z : Z) : Z := (z + 2 ^ 31) mod 2 ^ 32 - 2 ^ 31.
Definition may_dequeue (tasksConfig : Config) (active : Z) : bool :=
  negb (wrap32 (concurrency_limit tasksConfig) <=? active).

Record Sys := MkSys { ts : TState; inflight : list (string * Execution) }.

Definition active (node : string) (l : list (string * Execution)) : Z :=
  Z.of_nat (List.length (filter (λ x, x.1 = node) l)).

Definition inflight_ids (l : list (string * Execution)) : list uuid := (λ x, ex_id x.2) <$> l.

Inductive step `{Platform} : Sys → Sys → Prop :=
| step_op env op s l : step (MkSys s l) (MkSys (run_op env op s) l)
| step_dequeue env cfg locked node s l e s' :
    valid_config cfg → may_dequeue cfg (active node l) = true →
    dequeueNextExecution env locked node s = (Ok e, s') →
    step (MkSys s l) (MkSys s' (l ++ [(node, e)]))
| step_finish env http_do sql_exec rand_Int key start s l1 node e l2 :
    step (MkSys s (l1 ++ (node, e) :: l2))
      (MkSys (processExecution env http_do sql_exec rand_Int key node start e s).2 (l1 ++ l2))
| step_crash s l1 node e l2 :
    step (MkSys s (l1 ++ (node, e) :: l2)) (MkSys s (l1 ++ l2)).

Definition initial : Sys :=
  MkSys (MkTState (MkDB ∅ ∅ [] None 0%N) [] DefaultConfig) [].

Definition reachable `{Platform} (s : Sys) : Prop := rtc step initial s.

(** ** Running rows are left alone

    The operations other than finishing an execution keep every running row
    as it is (its link to a deleted job apart). *)

Definition keeps (e : Execution) (s : TState) : Prop := wf_state s ∧ claims (db s) e.

Lemma keeps_update e f :
  (∀ d, wf_db d → wf_db (f d)) → (∀ d, claims d e → claims (f d) e) →
  preserves (keeps e) (update_db f).
Proof. intros Hw Hk s [[Hd Hc] He]. split; [split; [by apply Hw|done]|by apply Hk]. Qed.

Lemma keeps_of_wf {A} e (c : M A) :
  preserves wf_state c → (∀ s, executions (db (c s).2) = executions (db s)) → preserves (keeps e) c.
Proof.
  intros Hw Hsame s [Hs He]. split; [by apply Hw|]. destruct He as (row & Hrow & ?).
  exists row. by rewrite Hsame.
Qed.

Lemma kept_by_publish e ev : preserves (keeps e) (publish ev).
Proof. by apply keeps_of_wf; [apply preserves_publish|]. Qed.
#[export] Hint Resolve kept_by_publish : preserves.

Lemma claims_filter d e (Q : uuid * Execution → Prop) `{∀ x, Decision (Q x)} :
  (∀ i x, ex_status x = StatusRunning → Q (i, x)) →
  claims d e → claims (set_executions (filter Q) d) e.
Proof.
  intros HQ (row & Hrow & Hr & Ha & Hm). exists row. split; [|done]. simpl.
  apply map_lookup_filter_Some. auto.
Qed.

Lemma claims_delete_job d e id : claims d e → claims (delete_job id d) e.
Proof.
  intros (row & Hrow & Hr & Ha & Hm). exists (unlink_execution id row). simpl.
  by rewrite lookup_fmap, Hrow.
Qed.

(** Writing another row, or deleting it. *)
Lemma claims_other d e id x :
  id ≠ ex_id e → claims d e → claims (set_executions <[id := x]> d) e.
Proof.
  intros Hne (row & Hrow & ?). exists row. split; [|done]. simpl. by rewrite lookup_insert_ne.
Qed.

Lemma claims_delete d e id : id ≠ ex_id e → claims d e → claims (set_executions (delete id) d) e.
Proof.
  intros Hne (row & Hrow & ?). exists row. split; [|done]. simpl. by rewrite lookup_delete_ne.
Qed.

(** A claimed row is not a new one and not a failed one. *)
Lemma claims_not_fresh d e : wf_db d → claims d e → next_uuid d ≠ ex_id e.
Proof. intros Hd (row & Hrow & _). apply (wd_exec _ Hd) in Hrow as (_ & ? & _). lia. Qed.

Lemma claims_not_failed d e id x :
  claims d e → select_failed d id = Some x → id ≠ ex_id e.
Proof.
  intros (row & Hrow & Hr & _) Hf ->. unfold select_failed in Hf. rewrite Hrow in Hf.
  case_decide; congruence.
Qed.

Section keeps_ops.
Context `{Platform} (env : Env) (e : Execution).

Lemma SetConfig_keeps c : preserves (keeps e) (SetConfig env c).
Proof.
  apply keeps_of_wf; [apply SetConfig_preserves|]. intros s. unfold SetConfig, stmt.
  destruct (Validate c); [|done]. by destruct (faults env SUpsertConfig).
Qed.

Lemma LoadConfig_keeps : preserves (keeps e) (LoadConfig env).
Proof.
  unfold LoadConfig. walk; [|apply SetConfig_keeps].
  intros s [[Hd Hc] He]. split; [split; [done|by eapply Validate_ok]|done].
Qed.

Lemma insert_job_row_keeps name cron tz tt' payload en next :
  preserves (keeps e) (insert_job_row env name cron tz tt' payload en next).
Proof.
  apply keeps_of_wf; [apply insert_job_row_preserves|]. intros s. unfold insert_job_row. run_m.
  by destruct (name_taken _ _ _).
Qed.

Lemma CreateJob_keeps input : preserves (keeps e) (CreateJob env input).
Proof.
  unfold CreateJob, parse_cron_or_fail, load_location_or_fail, next_run.
  walk; auto using insert_job_row_keeps with preserves.
Qed.

Lemma GetJob_keeps id : preserves (keeps e) (GetJob env id).
Proof. unfold GetJob. walk. Qed.

Lemma update_job_row_keeps id name cron tz tt' payload en next :
  preserves (keeps e) (update_job_row env id name cron tz tt' payload en next).
Proof.
  apply keeps_of_wf; [apply update_job_row_preserves|]. intros s. unfold update_job_row. run_m.
  destruct (jobs (db s) !! id); run_m; [|done]. by destruct (name_taken _ _ _).
Qed.

Lemma UpdateJob_keeps id input : preserves (keeps e) (UpdateJob env id input).
Proof.
  unfold UpdateJob, parse_cron_or_fail, load_location_or_fail, next_run.
  walk; auto using GetJob_keeps, update_job_row_keeps with preserves.
Qed.

Lemma DeleteJob_keeps id : preserves (keeps e) (DeleteJob env id).
Proof.
  unfold DeleteJob. walk; auto using GetJob_keeps with preserves; apply keeps_update.
  - intros d Hd. by apply wf_filter_executions.
  - intros d. apply claims_filter. intros i x Hr [_ Hp]. simpl in Hp. congruence.
  - intros d Hd. by apply wf_delete_job.
  - intros d. apply claims_delete_job.
Qed.

Lemma TriggerExecution_keeps input : preserves (keeps e) (TriggerExecution env input).
Proof.
  intros s [Hs He]. split; [by apply TriggerExecution_preserves|]. destruct Hs as [Hd Hc].
  unfold TriggerExecution. unfold mbind at 1, M_bind at 1.
  destruct (trigger_source env input s) as [[[p n]|er] s1] eqn:E.
  - apply trigger_source_job in E as [-> _]; [|done]. run_m. unfold stmt.
    destruct (faults env SInsertExecution); [done|]. run_m.
    apply claims_other; [|done]. by apply claims_not_fresh.
  - revert E. unfold trigger_source, GetJob, stmt. destruct (te_job_id input) as [i|]; run_m; [|done].
    destruct (faults env SSelectJob); run_m; [by intros [= _ <-]|].
    destruct (jobs (db s) !! i); run_m; [done|]. by intros [= _ <-].
Qed.

Lemma RetryDLQExecution_keeps id : preserves (keeps e) (RetryDLQExecution env id).
Proof.
  intros s [Hs He]. split; [by apply RetryDLQExecution_preserves|].
  unfold RetryDLQExecution, stmt. destruct (faults env SSelectFailed); [done|]. run_m.
  destruct (select_failed (db s) id) as [x|] eqn:E; run_m; [|done].
  destruct (faults env SRequeue); run_m; [done|]. unfold requeue_row. run_m.
  destruct (executions (db s) !! id) eqn:E2; run_m; [|done].
  apply claims_other; [|done]. by eapply claims_not_failed.
Qed.

Lemma PurgeDLQExecution_keeps id : preserves (keeps e) (PurgeDLQExecution env id).
Proof.
  intros s [Hs He]. split; [by apply PurgeDLQExecution_preserves|].
  unfold PurgeDLQExecution, stmt. destruct (faults env SPurge); [done|]. run_m.
  destruct (select_failed (db s) id) as [x|] eqn:E; run_m; [|done].
  apply claims_delete; [|done]. by eapply claims_not_failed.
Qed.

Lemma schedule_job_keeps mx tx job tx' done evs :
  wf_db (tx_db tx) → claims (tx_db tx) e →
  schedule_job env mx tx job = Ok (tx', done, evs) → claims (tx_db tx') e.
Proof.
  intros Hd He. unfold schedule_job.
  destruct (ParseCron _); [|by intros [= <- _ _]].
  destruct (new_next_run env _ _ _) as [t|]; [|done].
  destruct (tx_fails env tx _); [by intros [= <- _ _]|].
  destruct (tx_fails env tx _); intros [= <- _ _];
    apply (claims_other (tx_db tx) e (next_uuid (tx_db tx))); auto using claims_not_fresh.
Qed.

Lemma schedule_jobs_keeps mx tx due tx' n evs :
  1 <= mx → wf_db (tx_db tx) → Forall (λ j, is_Some (jobs (tx_db tx) !! job_id j)) due →
  claims (tx_db tx) e → schedule_jobs env mx tx due = (Ok (tx', n), evs) → claims (tx_db tx') e.
Proof.
  intros Hmx. revert tx n evs. induction due as [|job due IH]; intros tx n evs Hd Hall He; simpl.
  { by intros [= <- _ _]. }
  apply Forall_cons_iff in Hall as [Hj Hall].
  destruct (schedule_job env mx tx job) as [[[tx1 b] ev1]|er] eqn:E; [|done].
  pose proof (schedule_job_keeps _ _ _ _ _ _ Hd He E) as He1.
  apply schedule_job_preserves in E as [Hd1 Hmono]; [|done..].
  destruct (schedule_jobs env mx tx1 due) as [[[tx2 m]|er] evs2] eqn:E2; [|done].
  intros [= <- _ _]. eapply IH; [done| |done|done].
  eapply list.Forall_impl; [exact Hall|]. intros j' ?. by apply Hmono.
Qed.

Lemma PollOnce_keeps locked : preserves (keeps e) (PollOnce env locked).
Proof.
  intros s [Hs He]. split; [by apply PollOnce_preserves|]. destruct Hs as [Hd Hc].
  unfold PollOnce. destruct (faults env SBegin), (faults env SSelectDue); try done.
  case_bool_decide; [done|].
  destruct (schedule_jobs _ _ _ _) as [[[tx n]|er] evs] eqn:E; [|done].
  destruct (tx_fails env tx SCommit); [done|]. simpl.
  eapply schedule_jobs_keeps in E; [done|unfold valid_config in Hc; lia|done| |done].
  eapply list.Forall_impl; [by apply due_jobs_exist|]. simpl. intros j ->. by eexists.
Qed.

Lemma run_op_keeps op s : keeps e s → keeps e (run_op env op s).
Proof.
  destruct op; simpl; [apply CreateJob_keeps|apply UpdateJob_keeps|apply DeleteJob_keeps
    |apply TriggerExecution_keeps|apply RetryDLQExecution_keeps|apply PurgeDLQExecution_keeps
    |apply SetConfig_keeps|apply LoadConfig_keeps|apply PollOnce_keeps].
Qed.
End keeps_ops.

Lemma run_op_preserves `{Platform} env op s : wf_state s → wf_state (run_op env op s).
Proof.
  destruct op; simpl; [apply CreateJob_preserves|apply UpdateJob_preserves|apply DeleteJob_preserves
    |apply TriggerExecution_preserves|apply RetryDLQExecution_preserves
    |apply PurgeDLQExecution_preserves|apply SetConfig_preserves|apply LoadConfig_preserves
    |apply PollOnce_preserves].
Qed.

(** ** The invariant of the system *)

Record sys_inv (sy : Sys) : Prop := {
  si_wf : wf_state (ts sy);
  si_claims : ∀ node e, (node, e) ∈ inflight sy → claims (db (ts sy)) e;
  si_nodup : NoDup (inflight_ids (inflight sy));
  si_active : ∀ node, active node (inflight sy) <= 1000;
}.

Lemma inflight_ids_app l1 l2 : inflight_ids (l1 ++ l2) = (inflight_ids l1 ++ inflight_ids l2)%list.
Proof. apply fmap_app. Qed.

Lemma active_app node l1 l2 : active node (l1 ++ l2) = active node l1 + active node l2.
Proof. unfold active. rewrite list.filter_app, length_app. lia. Qed.

Lemma active_nonneg node l : 0 <= active node l.
Proof. unfold active. lia. Qed.

(** A dequeue claims a row that nobody runs. *)
Lemma dequeue_Ok env locked node s e s' :
  wf_state s → dequeueNextExecution env locked node s = (Ok e, s') →
  ∃ row, executions (db s) !! ex_id row = Some row ∧ is_due (db_now env) locked row
    ∧ (∀ id x, executions (db s) !! id = Some x → is_due (db_now env) locked x →
         ex_run_at row <= ex_run_at x)
    ∧ e = claimed (db_now env) node row
    ∧ s' = MkTState (set_executions <[ex_id row := e]> (db s)) (bus s) (mem_config s).
Proof.
  intros Hs E. destruct (dequeue_run env locked node s Hs) as [(row & Hrow & Heq)|[_ [Herr|[Herr _]]]].
  - rewrite Heq in E. injection E as <- <-. destruct Hs as [Hd _].
    apply next_task_Some in Hrow as (? & ? & ?); [|done]. by exists row.
  - by rewrite E in Herr.
  - by rewrite E in Herr.
Qed.

Lemma claims_not_pending d e row :
  claims d e → executions d !! ex_id row = Some row → ex_status row = StatusPending →
  ex_id row ≠ ex_id e.
Proof. intros (r & Hr & Hst & _) Hrow Hp Heq. rewrite Heq in Hrow. simplify_eq. congruence. Qed.

Lemma claims_claimed d now node row :
  claims (set_executions <[ex_id row := claimed now node row]> d) (claimed now node row).
Proof. exists (claimed now node row). simpl. by rewrite lookup_insert_eq. Qed.

(** Finishing one execution leaves the rows of the others. *)
Lemma claims_row_updated env st e f d d' e' :
  row_updated env st e f d d' → ex_id e ≠ ex_id e' → claims d e' → claims d' e'.
Proof.
  intros (He & _) Hne (row & Hrow & ?). exists row. split; [|done]. rewrite He.
  destruct (faults env st); [done|]. by rewrite lookup_alter_ne.
Qed.

Lemma claims_attempts d e : wf_db d → claims d e → 0 <= ex_attempts e < ex_max_attempts e.
Proof.
  intros Hd (row & Hrow & Hr & <- & <-). apply (wd_exec _ Hd) in Hrow as (_ & _ & Hw).
  pose proof (we_attempts _ Hw). pose proof (we_left _ Hw (or_intror Hr)). lia.
Qed.

Lemma process_keeps_other `{Platform} env http_do sql_exec rand_Int key node start e e' s :
  wf_state s → claims (db s) e → ex_id e ≠ ex_id e' → claims (db s) e' →
  claims (db (processExecution env http_do sql_exec rand_Int key node start e s).2) e'.
Proof.
  intros [Hd _] He Hne He'. pose proof (claims_attempts _ _ Hd He).
  destruct (processExecution_run env http_do sql_exec rand_Int key node start e s)
    as (p & a & evs & s' & _ & _ & -> & Hupd & _); [lia|].
  by eapply claims_row_updated.
Qed.

Lemma sys_inv_remove s s' l1 x l2 :
  sys_inv (MkSys s (l1 ++ x :: l2)) → wf_state s' →
  (∀ node e, (node, e) ∈ (l1 ++ l2)%list → ex_id x.2 ≠ ex_id e → claims (db s) e → claims (db s') e) →
  sys_inv (MkSys s' (l1 ++ l2)).
Proof.
  intros [Hs Hc Hn Ha] Hs' Hk. simpl in *. rewrite inflight_ids_app in Hn.
  apply list.NoDup_app in Hn as (Hn1 & Hd & [Hx Hn2]%list.NoDup_cons).
  assert (Hnot : ∀ node e, (node, e) ∈ (l1 ++ l2)%list → ex_id x.2 ≠ ex_id e).
  { intros node e [Hin|Hin]%elem_of_app Heq.
    - apply (Hd (ex_id e)); [|rewrite <- Heq; set_solver]. apply list_elem_of_fmap. by exists (node, e).
    - apply Hx. rewrite Heq. apply list_elem_of_fmap. by exists (node, e). }
  split; simpl; [done| | |].
  - intros node e Hin. apply (Hk node); [done|by eapply Hnot|]. apply (Hc node). set_solver.
  - rewrite inflight_ids_app. apply list.NoDup_app. set_solver.
  - intros node. specialize (Ha node). rewrite active_app in *.
    replace (x :: l2) with ([x] ++ l2)%list in Ha by done. rewrite active_app in Ha.
    pose proof (active_nonneg node [x]). lia.
Qed.

Lemma step_inv `{Platform} sy sy' : step sy sy' → sys_inv sy → sys_inv sy'.
Proof.
  intros Hstep Hinv. destruct Hstep as [env op s l|env cfg locked node s l e s' Hcfg Hmay Hdq
    |env hd sq rd key start s l1 node e l2|s l1 node e l2].
  - destruct Hinv as [Hs Hc Hn Ha]. split; simpl in *; [by apply run_op_preserves| |done|done].
    intros node e Hin. destruct (run_op_keeps env e op s) as [_ Hk]; [split; [done|by eapply Hc]|done].
  - destruct Hinv as [Hs Hc Hn Ha]. simpl in *.
    pose proof (dequeue_preserves env locked node s Hs) as Hs'. rewrite Hdq in Hs'. simpl in Hs'.
    apply dequeue_Ok in Hdq as (row & Hrow & (Hp & _) & _ & -> & ->); [|done].
    assert (Hfresh : ∀ node' e', (node', e') ∈ l → ex_id row ≠ ex_id e').
    { intros node' e' Hin. by eapply claims_not_pending; [eapply Hc| |]. }
    split; simpl; [done| | |].
    + intros node' e' [Hin|[= -> ->]%list_elem_of_singleton]%elem_of_app.
      * apply claims_other; [by eapply Hfresh|by eapply Hc].
      * apply claims_claimed.
    + rewrite inflight_ids_app. apply list.NoDup_app. split; [done|]. split; [|apply NoDup_singleton].
      intros i ([node' e'] & -> & Hin)%list_elem_of_fmap Heq%list_elem_of_singleton.
      by apply (Hfresh _ _ Hin).
    + intros node'. rewrite active_app. unfold active at 2. rewrite list.filter_cons, list.filter_nil. simpl.
      case_decide; simpl; [subst node'|specialize (Ha node'); lia].
      unfold may_dequeue, concurrency_limit, wrap32, valid_config in *. bool_to_prop.
      destruct (Z.ltb_spec (ConcurrencyLimit cfg) 1); [lia|]. rewrite Z.mod_small in Hmay by lia. lia.
  - pose proof (si_claims _ Hinv node e ltac:(set_solver)) as He. pose proof (si_wf _ Hinv) as Hs.
    eapply sys_inv_remove; [done|by apply processExecution_preserves|].
    intros node' e' _ Hne Hc'. by apply process_keeps_other.
  - eapply sys_inv_remove; [done|by apply (si_wf _ Hinv)|]. done.
Qed.

Lemma initial_inv : sys_inv initial.
Proof.
  split; simpl.
  - split; [|unfold valid_config; simpl; lia]. split; simpl; intros; by rewrite lookup_empty in *.
  - intros node e Hin. set_solver.
  - constructor.
  - intros node. unfold active. simpl. lia.
Qed.

Lemma reachable_inv `{Platform} sy : reachable sy → sys_inv sy.
Proof.
  intros Hr. unfold reachable in Hr. remember initial as s0 eqn:E.
  assert (Hi : sys_inv s0) by (subst; apply initial_inv). clear E.
  induction Hr as [|x y z Hxy _ IH]; [done|]. apply IH. by eapply step_inv.
Qed.

(** ** What holds in every reachable state *)

(** A run of the system with the sample platform: an execution is triggered,
    and a worker of node [w1] claims it. *)
Definition demo_env : Env := no_faults (1000 * Second).
Definition demo_input : TriggerExecutionInput := MkTriggerExecutionInput None (Some "sql:select 1").
Definition demo_triggered : TState :=
  @run_op sample_platform demo_env (OpTrigger demo_input) (ts initial).
Definition demo_row : Execution :=
  MkExecution 0 None StatusPending (1000 * Second) "sql:select 1" 0 5 None None None (1000 * Second).
Definition demo_claim : Execution := claimed (1000 * Second) "w1" demo_row.
Definition demo_running : TState :=
  MkTState (set_executions <[0%N := demo_claim]> (db demo_triggered)) (bus demo_triggered) DefaultConfig.
Definition demo_sys : Sys := MkSys demo_running [("w1", demo_claim)].

Lemma demo_dequeue :
  dequeueNextExecution demo_env ∅ "w1" demo_triggered = (Ok demo_claim, demo_running).
Proof. vm_compute. reflexivity. Qed.

Lemma demo_reachable : @reachable sample_platform demo_sys.
Proof.
  eapply rtc_l; [apply (@step_op sample_platform demo_env (OpTrigger demo_input))|].
  eapply rtc_l; [|apply rtc_refl].
  apply (@step_dequeue sample_platform demo_env DefaultConfig ∅ "w1" demo_triggered [] demo_claim).
  - unfold valid_config. simpl. lia.
  - reflexivity.
  - apply demo_dequeue.
Qed.

(** C10: in every reachable state of the service the tables are well formed:
    ids are keys below the generator, job names are unique, every execution
    points to an existing job, its attempts are between 0 and its limit, one
    that can still run has an attempt left, and exactly the running ones carry
    a lock; the configuration in memory is valid. *)
Theorem reachable_tables_wf `{Platform} (sy : Sys) : reachable sy → wf_state (ts sy).
Proof. intros Hr. by apply si_wf, reachable_inv. Qed.

Lemma reachable_tables_wf_witness : wf_state (ts demo_sys).
Proof. apply (@reachable_tables_wf sample_platform demo_sys). apply demo_reachable. Defined.

(** C1: no execution is ever run by two workers at once, on any number of
    nodes: in every reachable state the executions in flight are distinct,
    each is marked running in the table with the attempt count its worker
    holds, and no node runs more than 1000 of them. *)
Theorem executions_run_exclusively `{Platform} (sy : Sys) :
  reachable sy →
  NoDup (inflight_ids (inflight sy))
  ∧ (∀ node e, (node, e) ∈ inflight sy →
       ∃ row, executions (db (ts sy)) !! ex_id e = Some row ∧ ex_status row = StatusRunning
         ∧ ex_attempts row = ex_attempts e ∧ ex_max_attempts row = ex_max_attempts e)
  ∧ ∀ node, active node (inflight sy) <= 1000.
Proof. intros [_ Hc Hn Ha]%reachable_inv. done. Qed.

Lemma executions_run_exclusively_witness :
  NoDup (inflight_ids (inflight demo_sys))
  ∧ (∀ node e, (node, e) ∈ inflight demo_sys →
       ∃ row, executions (db (ts demo_sys)) !! ex_id e = Some row ∧ ex_status row = StatusRunning
         ∧ ex_attempts row = ex_attempts e ∧ ex_max_attempts row = ex_max_attempts e)
  ∧ ∀ node, active node (inflight demo_sys) <= 1000.
Proof. apply (@executions_run_exclusively sample_platform demo_sys). apply demo_reachable. Defined.

(** A running row that no worker holds. *)
Definition orphaned (e : Execution) (sy : Sys) : Prop :=
  claims (db (ts sy)) e ∧ ex_id e ∉ inflight_ids (inflight sy).

Lemma orphaned_step `{Platform} e sy sy' :
  sys_inv sy → step sy sy' → orphaned e sy → orphaned e sy'.
Proof.
  intros Hinv Hstep [He Hnot]. destruct Hstep as [env op s l|env cfg locked node s l x s' _ _ Hdq
    |env hd sq rd key start s l1 node x l2|s l1 node x l2]; simpl in *.
  - split; simpl; [|done]. by destruct (run_op_keeps env e op s) as [_ ?]; [split; [apply Hinv|]|].
  - apply dequeue_Ok in Hdq as (row & Hrow & (Hp & _) & _ & -> & ->); [|apply Hinv].
    pose proof (claims_not_pending _ _ _ He Hrow Hp). split; simpl; [by apply claims_other|].
    rewrite inflight_ids_app. set_solver.
  - rewrite inflight_ids_app in Hnot. split; simpl; [|rewrite inflight_ids_app; set_solver].
    apply process_keeps_other; [apply Hinv|apply (si_claims _ Hinv node); set_solver|set_solver|done].
  - rewrite inflight_ids_app in Hnot. split; simpl; [done|rewrite inflight_ids_app; set_solver].
Qed.

(** a worker that dies leaves its execution running for ever.  Once the
    row of [e] is running and no live worker holds it, every state the system
    can reach has it still running and held by nobody: no operation of the
    service retries, times out or releases it. *)
Theorem orphaned_execution_never_recovers `{Platform} (e : Execution) (sy sy' : Sys) :
  reachable sy → orphaned e sy → rtc step sy sy' → orphaned e sy'.
Proof.
  intros Hr%reachable_inv Ho Hsteps. induction Hsteps as [|x y z Hxy _ IH]; [done|].
  apply IH; [by eapply step_inv|by eapply orphaned_step].
Qed.

(** The worker of the demonstration dies; the poller runs afterwards. *)
Lemma orphaned_execution_never_recovers_witness :
  let dead := MkSys demo_running [] in
  let later := MkSys (@run_op sample_platform demo_env (OpPoll ∅) demo_running) [] in
  orphaned demo_claim dead ∧ orphaned demo_claim later.
Proof.
  assert (Ho : orphaned demo_claim (MkSys demo_running [])).
  { split; [|set_solver]. exists demo_claim. repeat split; vm_compute; reflexivity. }
  split; [exact Ho|].
  eapply (@orphaned_execution_never_recovers sample_platform demo_claim (MkSys demo_running [])).
  - eapply rtc_r; [apply demo_reachable|].
    apply (@step_crash sample_platform demo_running [] "w1" demo_claim []).
  - exact Ho.
  - eapply rtc_l; [|apply rtc_refl]. apply (@step_op sample_platform demo_env (OpPoll ∅)).
Defined.

(** [dequeueNextExecution] claims the oldest execution that is pending,
    due and not locked by another transaction, marks it running for the node,
    and touches no other row. *)
Theorem dequeue_claims_oldest (env : Env) (locked : gset uuid) (node : string) (s s' : TState)
    (e : Execution) :
  wf_state s → dequeueNextExecution env locked node s = (Ok e, s') →
  ∃ row, executions (db s) !! ex_id e = Some row ∧ is_due (db_now env) locked row
    ∧ (∀ id x, executions (db s) !! id = Some x → is_due (db_now env) locked x →
         ex_run_at row <= ex_run_at x)
    ∧ executions (db s') !! ex_id e = Some (claimed (db_now env) node row)
    ∧ ∀ id, id ≠ ex_id e → executions (db s') !! id = executions (db s) !! id.
Proof.
  intros Hs (row & Hrow & Hdue & Hold & -> & ->)%dequeue_Ok; [|done].
  exists row. simpl. split; [done|]. split; [done|]. split; [done|].
  split; [apply lookup_insert_eq|]. intros id Hne. by rewrite lookup_insert_ne.
Qed.

Lemma dequeue_claims_oldest_witness :
  ∃ row, executions (db demo_triggered) !! 0%N = Some row ∧ is_due (db_now demo_env) ∅ row
    ∧ (∀ id x, executions (db demo_triggered) !! id = Some x → is_due (db_now demo_env) ∅ x →
         ex_run_at row <= ex_run_at x)
    ∧ executions (db demo_running) !! 0%N = Some (claimed (db_now demo_env) "w1" row)
    ∧ ∀ id, id ≠ 0%N → executions (db demo_running) !! id = executions (db demo_triggered) !! id.
Proof.
  apply (dequeue_claims_oldest demo_env ∅ "w1" demo_triggered demo_running demo_claim).
  - apply (@run_op_preserves sample_platform). apply (si_wf _ initial_inv).
  - apply demo_dequeue.
Defined.

(** an execution that was due is not missed: when the dequeue answers
    that nothing is pending, no unlocked row is pending and due. *)
Theorem dequeue_empty_means_none_due (env : Env) (locked : gset uuid) (node : string) (s : TState)
    (id : uuid) (x : Execution) :
  wf_state s → (dequeueNextExecution env locked node s).1 = Err ErrNoPendingExecutions →
  executions (db s) !! id = Some x → ¬ is_due (db_now env) locked x.
Proof.
  intros Hs Herr Hx. destruct (dequeue_run env locked node s Hs) as [(row & _ & Heq)|[_ [He|[_ Hn]]]].
  - by rewrite Heq in Herr.
  - by rewrite He in Herr.
  - by eapply next_task_None.
Qed.

Lemma dequeue_empty_means_none_due_witness : ¬ is_due (db_now demo_env) ∅ demo_claim.
Proof.
  apply (dequeue_empty_means_none_due demo_env ∅ "w2" demo_running 0%N).
  - apply (si_wf _ (@reachable_inv sample_platform _ demo_reachable)).
  - vm_compute. reflexivity.
  - vm_compute. reflexivity.
Defined.

(** ** Outcomes *)

(** The three things that can become of an execution that was run. *)
Definition outcome_spec (env : Env) (cfg : Config) (e : Execution) (a : Attempt)
    (row row' : Execution) : Prop :=
  match at_error a with
  | None => row' = completed row
  | Some err =>
      let n := ex_attempts e + 1 in
      ex_attempts row' = n ∧ ex_last_error row' = Some (err_text err)
      ∧ ex_locked_by row' = None ∧ ex_payload row' = ex_payload row
      ∧ if at_permanent a then ex_status row' = StatusFailed
        else (n < ex_max_attempts e ∧ ex_status row' = StatusPending
              ∧ app_now env + Z.min (RetryMaxDelaySeconds cfg)
                  (RetryInitialDelaySeconds cfg * 2 ^ Z.min 30 n) * Second <= ex_run_at row')
             ∨ (n = ex_max_attempts e ∧ ex_status row' = StatusFailed)
  end.

Lemma outcome_row_spec env rand_Int cfg e a row :
  good_draw rand_Int → valid_config cfg → 0 <= ex_attempts e < ex_max_attempts e →
  outcome_spec env cfg e a row (outcome_row env rand_Int cfg e a row).
Proof.
  intros Hr Hc Ha. unfold outcome_spec, outcome_row. destruct (at_error a) as [err|]; [|done].
  destruct (at_permanent a); simpl; [done|].
  destruct (Z.ltb_spec (ex_attempts e + 1) (ex_max_attempts e)) as [Hlt|Hge]; simpl.
  - unfold valid_config in Hc. repeat (split; [done|]). left. split; [done|]. split; [done|].
    destruct (backoff_in_bounds rand_Int (ex_attempts e + 1) (RetryInitialDelaySeconds cfg)
      (RetryMaxDelaySeconds cfg)) as (d & -> & Hd & _); [done|lia..|]. simpl. lia.
  - repeat (split; [done|]). right. split; [lia|done].
Qed.

(** [processExecution] always finishes, and when its statements succeed it
    leaves exactly one of three marks on the row of the execution it ran:
    completed; pending again with one more attempt, the error, and a run time
    at least the exponential delay ahead, when the failure is transient and an
    attempt is left; failed (in the dead-letter queue) when the failure is
    permanent or it was the last attempt.  No other row changes. *)
Theorem processExecution_outcome `{Platform} (env : Env) http_do sql_exec rand_Int
    (signingKey node : string) (start : Z) (e : Execution) (s : TState) :
  wf_state s → claims (db s) e → good_draw rand_Int → (∀ st, faults env st = false) →
  ∃ name tgt a evs row row' s',
    job_target env e s = (Ok (name, tgt), s)
    ∧ (∀ s0, run_attempt http_do sql_exec signingKey start tgt (TimeoutSeconds (mem_config s)) e s0
             = (Ok a, add_events evs s0))
    ∧ processExecution env http_do sql_exec rand_Int signingKey node start e s = (Ok tt, s')
    ∧ executions (db s) !! ex_id e = Some row
    ∧ executions (db s') !! ex_id e = Some row'
    ∧ outcome_spec env (mem_config s) e a row row'
    ∧ ∀ id, id ≠ ex_id e → executions (db s') !! id = executions (db s) !! id.
Proof.
  intros [Hd Hc] Hcl Hr Hnf. pose proof (claims_attempts _ _ Hd Hcl) as Ha.
  destruct Hcl as (row & Hrow & _).
  destruct (processExecution_run env http_do sql_exec rand_Int signingKey node start e s)
    as ([name tgt] & a & evs & s' & Hp & Hrun & Hproc & (He & _) & _); [lia|].
  exists name, tgt, a, evs, row, (outcome_row env rand_Int (mem_config s) e a row), s'.
  rewrite Hnf in He. rewrite He. split; [done|]. split; [done|]. split; [done|]. split; [done|].
  split; [by rewrite lookup_alter_eq, Hrow|]. split; [by apply outcome_row_spec|].
  intros id Hne. by rewrite lookup_alter_ne.
Qed.

Lemma processExecution_outcome_witness :
  let sql_exec := λ (q : string) (ps : list string) (t : Z),
    SQLFailed (Some "40001") (errorf "could not serialize access") in
  ∃ name tgt a evs row row' s',
    @job_target sample_platform demo_env demo_claim demo_running = (Ok (name, tgt), demo_running)
    ∧ (∀ s0, @run_attempt sample_platform (λ _, HTTPResponded 200 "") sql_exec "k" (1000 * Second)
               tgt 30 demo_claim s0 = (Ok a, add_events evs s0))
    ∧ @processExecution sample_platform demo_env (λ _, HTTPResponded 200 "") sql_exec (λ _, Some 0)
        "k" "w1" (1000 * Second) demo_claim demo_running = (Ok tt, s')
    ∧ executions (db demo_running) !! 0%N = Some row
    ∧ executions (db s') !! 0%N = Some row'
    ∧ outcome_spec demo_env DefaultConfig demo_claim a row row'
    ∧ ∀ id, id ≠ 0%N → executions (db s') !! id = executions (db demo_running) !! id.
Proof.
  intros sql_exec.
  apply (@processExecution_outcome sample_platform demo_env (λ _, HTTPResponded 200 "") sql_exec
    (λ _, Some 0) "k" "w1" (1000 * Second) demo_claim demo_running).
  - apply (si_wf _ (@reachable_inv sample_platform _ demo_reachable)).
  - apply (si_claims _ (@reachable_inv sample_platform _ demo_reachable) "w1"). simpl. set_solver.
  - intros n z Hn [= <-]. lia.
  - done.
Defined.

(** ** Statements of two requests interleaved

    The steps above run an operation as a whole.  [RetryDLQExecution] is two
    statements, and the second does not look at the status again. *)

Definition dead_letter : Execution :=
  MkExecution 0%N None StatusFailed 0 "sql:select 1" 5 5 None None (Some "boom") 0.
Definition dlq_state : TState :=
  MkTState (MkDB ∅ {[0%N := dead_letter]} [] None 1%N) [] DefaultConfig.

(** Two requests to retry one dead letter can have it run twice at once:
    both find it failed; the first re-queues it and a worker claims it; the
    second re-queues it again while it runs, and another worker claims it. *)
Theorem interleaved_retries_run_twice :
  select_failed (db dlq_state) 0%N = Some dead_letter
  ∧ ∃ r1 s1 e1 s2 r2 s3 e2 s4,
      requeue_row demo_env 0%N dlq_state = (Ok r1, s1)
      ∧ db (RetryDLQExecution demo_env 0%N dlq_state).2 = db s1
      ∧ dequeueNextExecution demo_env ∅ "w1" s1 = (Ok e1, s2)
      ∧ requeue_row demo_env 0%N s2 = (Ok r2, s3)
      ∧ dequeueNextExecution demo_env ∅ "w2" s3 = (Ok e2, s4)
      ∧ ex_id e1 = ex_id e2 ∧ ex_status e1 = StatusRunning ∧ ex_status e2 = StatusRunning.
Proof.
  split; [vm_compute; reflexivity|].
  eexists _, _, _, _, _, _, _, _. repeat (split; [vm_compute; reflexivity|]). vm_compute. reflexivity.
Qed.
