(* ===== verification/PollerSpec.v ===== *)
(** * What a poll cycle does

    The effect of a committed [PollOnce] on jobs and executions, its
    atomicity, and the schedules on which it does not come back. *)

From Stdlib Require Import ZArith Lia Ascii String.
From S2P Require Import Prelude GoStrings GoTime Cron TasksModel JobManager Dispatcher Worker Poller TasksInv.
Local Open Scope string_scope.
Local Open Scope Z_scope.

(** ** The next run of a scheduled job *)

Definition accepted (schedule : CronSchedule) (location : Location) (t : Z) : Prop :=
  t = zero_time ∨ schedule_matches schedule location t = true.

Lemma advance_spec fuel schedule location now t r :
  accepted schedule location t → advance fuel schedule location now t = Some r →
  now <= r ∧ accepted schedule location r.
Proof.
  intros Ht. unfold advance. destruct (iter_until _ _ _) as [|[x|]] eqn:E; try done.
  intros [= <-].
  pose proof (iter_until_inv (advance_step schedule location now) (accepted schedule location)
    (λ o, ∀ y, o = Some y → now <= y ∧ accepted schedule location y) fuel t (Some x)) as Hinv.
  apply Hinv; [| |done|done|done]; clear; intros c c' Hc; unfold advance_step;
    destruct (Z.ltb_spec c now); try done.
  - destruct (Next schedule c (Some location)) as [t'|] eqn:En; [|done]. intros [= <-].
    by apply Next_result in En.
  - destruct (Next schedule c (Some location)); [done|]. by intros [= <-].
  - intros [= <-] y [= <-]. done.
Qed.

Lemma new_next_run_spec env schedule location job r :
  new_next_run env schedule location job = Some r →
  app_now env <= r ∧ accepted schedule location r.
Proof.
  unfold new_next_run. intros (t & Ht & Hr)%bind_Some. eapply advance_spec, Hr.
  by apply Next_result in Ht.
Qed.

(** ** Schedules that accept no date *)

Lemma Next_total schedule o start :
  ∃ r, Next schedule start (Some (FixedZone (60 * o))) = Some r.
Proof.
  destruct (next_loop_leaves schedule o start) as [r Hr]. exists r. unfold Next.
  exact (NextFuel_inr next_fuel schedule start (FixedZone (60 * o)) r Hr).
Qed.

Lemma never_matches_Next schedule o start :
  (∀ t, schedule_matches schedule (FixedZone (60 * o)) t = false) →
  Next schedule start (Some (FixedZone (60 * o))) = Some zero_time.
Proof.
  intros Hno. destruct (Next_total schedule o start) as [r Hr]. rewrite Hr.
  destruct (Next_result _ _ _ _ Hr) as [Hz|Hm]; [by rewrite Hz|].
  cbn [default from_option id] in Hm. rewrite Hno in Hm. discriminate.
Qed.

Lemma advance_stuck fuel schedule o now :
  (∀ t, schedule_matches schedule (FixedZone (60 * o)) t = false) → 0 < now →
  advance fuel schedule (FixedZone (60 * o)) now zero_time = None.
Proof.
  intros Hno Hnow. unfold advance. rewrite iter_until_stuck; [done|]. unfold advance_step.
  destruct (Z.ltb_spec zero_time now); [|unfold zero_time in *; lia].
  by rewrite never_matches_Next.
Qed.

(** The 30th of February. *)
Definition february_30 : CronSchedule :=
  MkCronSchedule "0 0 30 2 *" {[0]} {[0]} {[30]} {[2]}
    {[0; 1; 2; 3; 4; 5; 6]} false true.

Lemma february_short n : month_of_days n = 2 → day_of_days n <= 29.
Proof.
  intros Hm. pose proof (month_bounds n) as Hb. unfold day_of_days. rewrite Hm in *.
  rewrite !days_of_month in * by lia. unfold days_before_month in *. simpl in *.
  pose proof (leap_day_range (year_of_days n)). lia.
Qed.

Lemma february_30_never loc t : schedule_matches february_30 loc t = false.
Proof.
  unfold schedule_matches, day_match, has. cbn [february_30 Months DaysOfMonth DayOfMonthWildcard
    DayOfWeekWildcard Hours Minutes andb negb].
  case_bool_decide as Hm; [|done]. apply elem_of_singleton in Hm. unfold Month in Hm.
  apply february_short in Hm. rewrite bool_decide_eq_false_2; [done|].
  rewrite elem_of_singleton. unfold Day. lia.
Qed.

Lemma february_30_parses : ParseCron "0 0 30 2 *" = Ok february_30.
Proof. vm_compute. reflexivity. Qed.

(** ** A committed cycle *)

Definition parses (j : Job) : Prop := ∃ schedule, ParseCron (job_cron j) = Ok schedule.
#[export] Instance parses_dec j : Decision (parses j).
Proof.
  refine (match ParseCron (job_cron j) as r return (ParseCron (job_cron j) = r → _) with
          | Ok s => λ E, left (ex_intro _ s E)
          | Err _ => λ E, right _
          end eq_refl).
  intros [s ?]. congruence.
Defined.

Section committed.
Context `{Platform} (env : Env) (mx : Z).

(** The execution enqueued for a job, under the id [id]. *)
Definition enqueued (id : uuid) (j : Job) : Execution :=
  MkExecution id (Some (job_id j)) StatusPending (db_now env) (job_payload j) 0 mx None None None
    (db_now env).

(** [t] is a proper next run of [j]: not in the past, and the zero time or
    a minute its schedule accepts in its time zone. *)
Definition proper_next_run (j : Job) (t : Z) : Prop :=
  ∃ schedule, ParseCron (job_cron j) = Ok schedule ∧ app_now env <= t
    ∧ accepted schedule (default UTC (LoadLocation (job_timezone j))) t.

(** What a committed cycle does: a fresh pending execution for every job of
    [l], the next run of each of them advanced, the rest as it was. *)
Record committed (l : list Job) (d d' : DB) : Prop := {
  cm_next : next_uuid d' = (next_uuid d + N.of_nat (List.length l))%N;
  cm_new : ∀ k j, l !! k = Some j →
    executions d' !! (next_uuid d + N.of_nat k)%N = Some (enqueued (next_uuid d + N.of_nat k) j);
  cm_old : ∀ id, (id < next_uuid d ∨ next_uuid d' <= id)%N → executions d' !! id = executions d !! id;
  cm_jobs : ∀ j, j ∈ l → ∃ t,
    jobs d' !! job_id j = scheduled (db_now env) t <$> jobs d !! job_id j ∧ proper_next_run j t;
  cm_others : ∀ id, id ∉ job_id <$> l → jobs d' !! id = jobs d !! id;
  cm_rest : execution_logs d' = execution_logs d ∧ config_row d' = config_row d;
}.

Lemma committed_nil d : committed [] d d.
Proof. split; try done; [simpl; lia|]. intros j Hj. by apply elem_of_nil in Hj. Qed.

(** The tables after one job has been scheduled. *)
Definition schedule_one (d : DB) (j : Job) (t : Z) : DB :=
  set_jobs (alter (scheduled (db_now env) t) (job_id j))
    (insert_execution (new_execution env d mx j) (bump_uuid d)).

Lemma schedule_job_ok tx job tx' done evs :
  schedule_job env mx tx job = Ok (tx', done, evs) → tx_aborted tx' = false →
  tx_aborted tx = false
  ∧ (if decide (parses job)
     then done = true ∧ ∃ t, proper_next_run job t ∧ tx_db tx' = schedule_one (tx_db tx) job t
     else done = false ∧ tx_db tx' = tx_db tx).
Proof.
  unfold schedule_job. case_decide as Hp.
  - destruct Hp as [schedule E]. rewrite E.
    destruct (new_next_run env _ _ _) as [t|] eqn:En; [|discriminate].
    apply new_next_run_spec in En.
    destruct (tx_fails env tx _); [by intros [= <- _ _]|].
    destruct (tx_fails env tx _); intros [= <- <- _] Hab; [done|]. simpl in *.
    split; [done|]. split; [done|]. exists t. split; [by exists schedule|done].
  - destruct (ParseCron _) eqn:E; [destruct Hp; by eexists|]. by intros [= <- <- _].
Qed.

Lemma committed_cons d job t l d' :
  proper_next_run job t → job_id job ∉ job_id <$> l →
  committed l (schedule_one d job t) d' → committed (job :: l) d d'.
Proof.
  intros Ht Hnd [Hn Hnew Hold Hjobs Hother Hrest]. split.
  - rewrite Hn. simpl. lia.
  - intros [|k] j Hk.
    + simpl in *. simplify_eq. rewrite N.add_0_r, Hold by (simpl; lia). apply lookup_insert_eq.
    + apply Hnew in Hk. simpl in Hk.
      by replace (next_uuid d + N.of_nat (S k))%N with (N.succ (next_uuid d) + N.of_nat k)%N by lia.
  - intros id Hid. rewrite Hold by (simpl; lia). simpl. apply lookup_insert_ne.
    rewrite Hn in Hid. simpl in Hid. lia.
  - intros j [->|Hj]%elem_of_cons.
    + exists t. rewrite Hother by done. split; [|done]. simpl. by rewrite lookup_alter_eq.
    + destruct (Hjobs j Hj) as (t' & Heq & Ht'). exists t'. split; [|done]. rewrite Heq. simpl.
      rewrite lookup_alter_ne; [done|]. intros Heq'. apply Hnd, list_elem_of_fmap. eauto.
  - intros id Hid. apply not_elem_of_cons in Hid as [Hne Hid]. rewrite Hother by done. simpl.
    by rewrite lookup_alter_ne.
  - by destruct Hrest.
Qed.

Lemma schedule_jobs_committed due tx tx' n evs :
  NoDup (job_id <$> due) →
  schedule_jobs env mx tx due = (Ok (tx', n), evs) → tx_aborted tx' = false →
  tx_aborted tx = false ∧ n = Z.of_nat (List.length (filter parses due))
  ∧ committed (filter parses due) (tx_db tx) (tx_db tx').
Proof.
  revert tx n evs. induction due as [|job due IH]; intros tx n evs Hnd; simpl.
  { intros [= <- <- _] Hab. split; [done|]. split; [done|]. apply committed_nil. }
  apply list.NoDup_cons in Hnd as [Hnew Hnd].
  destruct (schedule_job env mx tx job) as [[[tx1 b] ev1]|e] eqn:E; [|done].
  destruct (schedule_jobs env mx tx1 due) as [[[tx2 m]|e] evs2] eqn:E2; [|done].
  intros [= <- <- _] Hab. destruct (IH _ _ _ Hnd E2 Hab) as (Hab1 & -> & Hc).
  destruct (schedule_job_ok _ _ _ _ _ E Hab1) as [Hab0 Hone]. split; [done|].
  rewrite filter_cons. case_decide.
  - destruct Hone as (-> & t & Ht & Hd). split; [simpl; lia|].
    eapply committed_cons; [done| |by rewrite <- Hd].
    intros (j & Hj & [_ Hin]%list_elem_of_filter)%list_elem_of_fmap.
    apply Hnew, list_elem_of_fmap. eauto.
  - destruct Hone as (-> & Hd). by rewrite <- Hd.
Qed.
End committed.

Lemma job_rows_distinct d : wf_db d → NoDup (job_id <$> job_rows d).
Proof.
  intros Hd. unfold job_rows.
  replace (job_id <$> (map_to_list (jobs d)).*2) with ((map_to_list (jobs d)).*1).
  { apply NoDup_fst_map_to_list. }
  rewrite <- list_fmap_compose. apply list_fmap_ext. intros i [id j] Hi. simpl.
  apply list_elem_of_lookup_2, elem_of_map_to_list in Hi. by apply (wd_job _ Hd) in Hi as [-> _].
Qed.

Lemma due_jobs_distinct env locked d : wf_db d → NoDup (job_id <$> due_jobs env locked d).
Proof.
  intros Hd. eapply sublist_NoDup; [by apply job_rows_distinct|].
  apply fmap_sublist, sublist_filter.
Qed.

(** C31: A poll cycle is all or nothing.  When it fails, the tables are as they
    were; when it commits, the number it answers is the number of due jobs
    whose cron expression parses, each of them has a fresh pending execution
    of its payload and a next run that is not in the past and is the zero time
    or a minute its schedule accepts in its time zone, and every other row is
    as it was. *)
Theorem PollOnce_atomic `{Platform} env locked s r s' :
  wf_state s → PollOnce env locked s = (r, s') →
  mem_config s' = mem_config s
  ∧ match r with
    | Err _ => db s' = db s
    | Ok n =>
        let l := filter parses (due_jobs env locked (db s)) in
        n = Z.of_nat (List.length l)
        ∧ committed env (RetryMaxAttempts (mem_config s)) l (db s) (db s')
    end.
Proof.
  intros [Hd _]. unfold PollOnce.
  destruct (faults env SBegin); [by intros [= <- <-]|].
  destruct (faults env SSelectDue); [by intros [= <- <-]|].
  case_bool_decide as Hdue.
  { intros [= <- <-]. rewrite Hdue. split; [done|]. split; [done|]. apply committed_nil. }
  destruct (schedule_jobs _ _ _ _) as [[[tx n]|e] evs] eqn:E; [|by intros [= <- <-]].
  destruct (tx_fails env tx SCommit) eqn:Ef; intros [= <- <-]; [done|]. split; [done|].
  apply orb_false_iff in Ef as [Hab _].
  apply schedule_jobs_committed in E as (_ & -> & Hc); [done|by apply due_jobs_distinct|done].
Qed.

(** ** One failed statement *)

Lemma schedule_job_no_fault `{Platform} env mx tx job tx' done evs :
  schedule_job env mx tx job = Ok (tx', done, evs) → tx_aborted tx' = false → parses job →
  faults env (SPollInsert (job_id job)) = false ∧ faults env (SPollAdvance (job_id job)) = false.
Proof.
  unfold schedule_job, tx_fails. intros E Hab [sch Hs]. rewrite Hs in E.
  destruct (new_next_run _ _ _ _); [|done].
  destruct (tx_aborted tx), (faults env (SPollInsert _)), (faults env (SPollAdvance _));
    simplify_eq/=; done.
Qed.

Lemma schedule_jobs_no_fault `{Platform} env mx due tx tx' n evs :
  schedule_jobs env mx tx due = (Ok (tx', n), evs) → tx_aborted tx' = false →
  tx_aborted tx = false
  ∧ Forall (λ job, parses job → faults env (SPollInsert (job_id job)) = false
                   ∧ faults env (SPollAdvance (job_id job)) = false) due.
Proof.
  revert tx n evs. induction due as [|job due IH]; intros tx n evs; simpl.
  { by intros [= <- _ _]. }
  destruct (schedule_job env mx tx job) as [[[tx1 b] ev1]|e] eqn:E; [|done].
  destruct (schedule_jobs env mx tx1 due) as [[[tx2 m]|e] evs2] eqn:E2; [|done].
  intros [= <- _ _] Hab. destruct (IH _ _ _ E2 Hab) as [Hab1 Hall].
  split; [by eapply schedule_job_ok|]. constructor; [|done].
  intros Hp. by eapply schedule_job_no_fault.
Qed.

Lemma schedule_jobs_tables `{Platform} env locked s r s' :
  PollOnce env locked s = (r, s') →
  (∃ e, r = Err e ∧ db s' = db s)
  ∨ ∃ n, r = Ok n ∧ Forall (λ job, parses job → faults env (SPollInsert (job_id job)) = false
                   ∧ faults env (SPollAdvance (job_id job)) = false) (due_jobs env locked (db s)).
Proof.
  unfold PollOnce.
  destruct (faults env SBegin); [intros [= <- <-]; left; by eexists|].
  destruct (faults env SSelectDue); [intros [= <- <-]; left; by eexists|].
  case_bool_decide as Hdue; [intros [= <- <-]; right; exists 0; by rewrite Hdue|].
  destruct (schedule_jobs _ _ _ _) as [[[tx n]|e] evs] eqn:E; [|intros [= <- <-]; left; by eexists].
  destruct (tx_fails env tx SCommit) eqn:Ef; intros [= <- <-]; [left; by eexists|].
  right. exists n. split; [done|]. apply orb_false_iff in Ef as [Hab _].
  by eapply schedule_jobs_no_fault.
Qed.

(** One failed statement loses the whole cycle.  When the [INSERT] or the
    [UPDATE] for one due job fails, the [continue] after it does not skip that
    job alone: the transaction is aborted, the commit fails, and no due job is
    scheduled. *)
Theorem failed_statement_loses_cycle `{Platform} env locked s job :
  job ∈ due_jobs env locked (db s) → parses job →
  faults env (SPollInsert (job_id job)) = true ∨ faults env (SPollAdvance (job_id job)) = true →
  ∃ e s', PollOnce env locked s = (Err e, s') ∧ db s' = db s.
Proof.
  intros Hin Hp Hf. destruct (PollOnce env locked s) as [r s'] eqn:E.
  destruct (schedule_jobs_tables _ _ _ _ _ E) as [(e & -> & ?)|(n & -> & Hall)]; [by exists e, s'|].
  rewrite list.Forall_forall in Hall. destruct (Hall _ Hin Hp), Hf; congruence.
Qed.

(** ** A poll that does not come back *)

Lemma schedule_job_diverges `{Platform} env mx tx job schedule :
  ParseCron (job_cron job) = Ok schedule →
  new_next_run env schedule (default UTC (LoadLocation (job_timezone job))) job = None →
  schedule_job env mx tx job = Err Diverges.
Proof. unfold schedule_job. by intros -> ->. Qed.

Lemma schedule_job_err `{Platform} env mx tx job e :
  schedule_job env mx tx job = Err e → e = Diverges.
Proof. unfold schedule_job. repeat case_match; naive_solver. Qed.

Lemma schedule_jobs_diverges `{Platform} env mx job due tx :
  job ∈ due → (∀ tx, schedule_job env mx tx job = Err Diverges) →
  (schedule_jobs env mx tx due).1 = Err Diverges.
Proof.
  intros Hin Hjob. revert tx. induction due as [|job' due IH]; intros tx; simpl.
  { by apply elem_of_nil in Hin. }
  apply elem_of_cons in Hin as [<-|Hin].
  - by rewrite Hjob.
  - specialize (IH Hin). destruct (schedule_job env mx tx job') as [[[tx1 b] ev1]|e] eqn:E.
    + specialize (IH tx1). destruct (schedule_jobs env mx tx1 due) as [r evs]. simpl in *. by subst.
    + by rewrite (schedule_job_err _ _ _ _ _ E).
Qed.

Lemma new_next_run_stuck env schedule o job :
  (∀ t, schedule_matches schedule (FixedZone (60 * o)) t = false) → 0 < app_now env →
  new_next_run env schedule (FixedZone (60 * o)) job = None.
Proof.
  intros Hno Hnow. unfold new_next_run. rewrite never_matches_Next by done. simpl.
  by apply advance_stuck.
Qed.

(** A job with a date that does not exist stops the poller.  The 30th of
    February parses; its next run is the zero time, so the job is due at once;
    the loop that advances the next run past the present never ends, whatever
    the number of rounds; and the poll cycle that meets the job does not
    return. *)
Theorem impossible_date_hangs_poller `{Platform} env locked s job :
  job ∈ due_jobs env locked (db s) → job_cron job = "0 0 30 2 *" →
  LoadLocation (job_timezone job) = Some UTC → 0 < app_now env →
  faults env SBegin = false → faults env SSelectDue = false →
  ∃ schedule, ParseCron (job_cron job) = Ok schedule
    ∧ (∀ start, Next schedule start (Some UTC) = Some zero_time)
    ∧ (∀ fuel, advance fuel schedule UTC (app_now env) zero_time = None)
    ∧ (PollOnce env locked s).1 = Err Diverges.
Proof.
  intros Hin Hcron Hloc Hnow Hf1 Hf2. exists february_30.
  change UTC with (FixedZone (60 * 0)) in *.
  assert (Hparse : ParseCron (job_cron job) = Ok february_30).
  { rewrite Hcron. apply february_30_parses. }
  split; [done|].
  split; [intros start; apply never_matches_Next, february_30_never|].
  split; [intros fuel; apply advance_stuck; [apply february_30_never|done]|].
  unfold PollOnce. rewrite Hf1, Hf2. rewrite bool_decide_eq_false_2 by (intros E; rewrite E in Hin;
    by apply elem_of_nil in Hin).
  match goal with |- context [schedule_jobs ?e ?m ?t ?l] =>
    assert (Hd : (schedule_jobs e m t l).1 = Err Diverges);
      [|destruct (schedule_jobs e m t l) as [r evs]; simpl in Hd; by subst] end.
  apply (schedule_jobs_diverges _ _ job); [done|]. intros tx.
  eapply schedule_job_diverges; [done|]. rewrite Hloc. simpl.
  by apply new_next_run_stuck; [apply february_30_never|].
Qed.

(** ** Examples: one due job in the table *)

Definition poll_job (cron : string) : Job :=
  MkJob 0%N "report" cron "UTC" TargetTypeSQL "sql:select 1" true None 0 0 0.
Definition poll_state (cron : string) : TState :=
  MkTState (MkDB {[0%N := poll_job cron]} ∅ [] None 1%N) [] DefaultConfig.
Definition poll_now : Z := 5400 * Second.
Definition poll_faults (bad : Stmt → bool) : Env := MkEnv poll_now poll_now bad.
Definition bad_advance (s : Stmt) : bool := match s with SPollAdvance _ => true | _ => false end.
Definition bad_commit (s : Stmt) : bool := match s with SCommit => true | _ => false end.

Lemma poll_state_wf cron : wf_state (poll_state cron).
Proof.
  split; [|apply Validate_spec; reflexivity]. split; simpl.
  - intros id j [<- <-]%lookup_singleton_Some. done.
  - intros id1 id2 j1 j2 [<- <-]%lookup_singleton_Some [<- <-]%lookup_singleton_Some. done.
  - intros id e. by rewrite lookup_empty.
  - intros id e j. by rewrite lookup_empty.
Qed.

Lemma poll_due cron bad : poll_job cron ∈ due_jobs (poll_faults bad) ∅ (db (poll_state cron)).
Proof.
  apply list_elem_of_filter. split.
  - repeat split; [simpl; unfold poll_now, Second; lia|set_solver].
  - apply elem_of_job_rows. exists 0%N. apply lookup_singleton_eq.
Qed.

(** The state the hourly job leaves at half past one: a pending execution and
    a next run at two. *)
Definition poll_committed : TState :=
  let env := poll_faults (λ _, false) in
  (@PollOnce sample_platform env ∅ (poll_state "0 * * * *")).2.

Lemma PollOnce_atomic_witness :
  (job_next_run_at <$> jobs (db poll_committed) !! 0%N) = Some (7200 * Second)
  ∧ @committed sample_platform (poll_faults (λ _, false)) 5
      (filter parses (due_jobs (poll_faults (λ _, false)) ∅ (db (poll_state "0 * * * *"))))
      (db (poll_state "0 * * * *")) (db poll_committed).
Proof.
  split; [vm_compute; reflexivity|].
  apply (@PollOnce_atomic sample_platform (poll_faults (λ _, false)) ∅ (poll_state "0 * * * *")
           (Ok 1) poll_committed); [apply poll_state_wf|vm_compute; reflexivity].
Defined.

Lemma failed_statement_loses_cycle_witness :
  ∃ e s', @PollOnce sample_platform (poll_faults bad_advance) ∅ (poll_state "0 * * * *") = (Err e, s')
    ∧ db s' = db (poll_state "0 * * * *").
Proof.
  apply (@failed_statement_loses_cycle sample_platform _ _ _ (poll_job "0 * * * *")).
  - apply poll_due.
  - apply (bool_decide_eq_true_1 _). vm_compute. reflexivity.
  - right. reflexivity.
Defined.

Lemma impossible_date_hangs_poller_witness :
  ∃ schedule, ParseCron "0 0 30 2 *" = Ok schedule
    ∧ (∀ start, Next schedule start (Some UTC) = Some zero_time)
    ∧ (∀ fuel, advance fuel schedule UTC poll_now zero_time = None)
    ∧ (@PollOnce sample_platform (poll_faults (λ _, false)) ∅ (poll_state "0 0 30 2 *")).1
      = Err Diverges.
Proof.
  apply (@impossible_date_hangs_poller sample_platform (poll_faults (λ _, false)) ∅
           (poll_state "0 0 30 2 *") (poll_job "0 0 30 2 *")); try reflexivity.
  apply poll_due.
Defined.

(** Events of a cycle that rolls back have already been published: a
    failed commit leaves the job and the executions as they were, while the bus
    carries a scheduled and an enqueued event for an execution that does not
    exist. *)
Theorem events_outlive_rollback :
  let s := poll_state "0 * * * *" in
  let '(r, s') := @PollOnce sample_platform (poll_faults bad_commit) ∅ s in
  r = Err TransactionAborted ∧ db s' = db s
  ∧ ∃ job prev next execution,
      bus s' = [JobScheduled job prev next; ExecutionEnqueued execution "report" false]
      ∧ executions (db s') !! ex_id execution = None.
Proof. vm_compute. split; [done|]. split; [done|]. by eexists _, _, _, _. Qed.
