(* ===== verification/JobSpec.v ===== *)
(** * What the operations on jobs and dead letters do

    The effect of [CreateJob], [UpdateJob], [DeleteJob], [RetryDLQExecution] and
    [PurgeDLQExecution] on the tables and the bus, success and failure. *)

From Stdlib Require Import ZArith Lia Ascii String.
From S2P Require Import Prelude GoStrings GoTime Cron TasksModel JobManager TasksInv.
Local Open Scope string_scope.
Local Open Scope Z_scope.

(** Rows and events are those of [s]; only the id counter may have moved. *)
Definition same_rows (s s' : TState) : Prop :=
  jobs (db s') = jobs (db s) ∧ executions (db s') = executions (db s)
  ∧ execution_logs (db s') = execution_logs (db s) ∧ config_row (db s') = config_row (db s)
  ∧ bus s' = bus s ∧ mem_config s' = mem_config s.

Section create.
Context `{Platform} (env : Env).

(** What a committed creation leaves. *)
Definition created (input : CreateJobInput) (s s' : TState) (job : Job) : Prop :=
  job_id job = next_uuid (db s)
  ∧ job_name job = TrimSpace (cj_name input) ∧ job_name job ≠ ""
  ∧ (∀ id j, jobs (db s) !! id = Some j → id ≠ job_id job → job_name j ≠ job_name job)
  ∧ job_enabled job = default true (cj_enabled input) ∧ job_last_run_at job = None
  ∧ (∃ schedule location, ParseCron (job_cron job) = Ok schedule
       ∧ LoadLocation (job_timezone job) = Some location
       ∧ Next schedule (app_now env) (Some location) = Some (job_next_run_at job))
  ∧ validateTargetPayload (job_target_type job) (job_payload job) = Ok tt
  ∧ db s' = insert_job job (bump_uuid (db s))
  ∧ bus s' = (bus s ++ [JobCreated job])%list ∧ mem_config s' = mem_config s.

Lemma name_taken_spec d id n :
  name_taken d id n = false ↔ ∀ i j, jobs d !! i = Some j → i ≠ id → job_name j ≠ n.
Proof.
  unfold name_taken. rewrite bool_decide_eq_false. unfold map_Exists. split.
  - intros Hn i j Hj Hi Hname. apply Hn. by exists i, j.
  - intros Hall (i & j & Hj & Hi & Hname). by eapply Hall.
Qed.

Lemma insert_job_row_run name cron tz tt' payload en next s :
  insert_job_row env name cron tz tt' payload en next s
  = let job := MkJob (next_uuid (db s)) name cron tz tt' payload en None next (db_now env) (db_now env) in
    if name_taken (bump_uuid (db s)) (next_uuid (db s)) name
    then (Err ErrJobAlreadyExists, MkTState (bump_uuid (db s)) (bus s) (mem_config s))
    else (Ok job, MkTState (insert_job job (bump_uuid (db s))) (bus s) (mem_config s)).
Proof.
  unfold insert_job_row. run_m. destruct (name_taken _ _ _); reflexivity.
Qed.
End create.

(** [CreateJob] stores a complete job or nothing.  On success the new row
    has a fresh id, the trimmed name, which is not empty and no other job has,
    a cron expression and a time zone that load, a payload valid for its
    target, and as next run what [Next] answers for them at the present; it is
    the only change and one event announces it.  On failure no row, log or
    event changes. *)
Theorem CreateJob_spec `{Platform} env input s :
  match CreateJob env input s with
  | (Ok job, s') => created env input s s' job
  | (Err _, s') => same_rows s s'
  end.
Proof.
  unfold CreateJob. destruct (String.eqb_spec (TrimSpace (cj_name input)) "") as [|Hname]; [done|].
  unfold parse_cron_or_fail, load_location_or_fail, next_run, mbind, M_bind, lift_result.
  destruct (ParseCron (TrimSpace (cj_cron input))) as [sch|] eqn:Hcron; [|done]. cbn [map_err].
  destruct (LoadLocation _) as [loc|] eqn:Hloc; [|done]. unfold mret, M_ret.
  destruct (_ && _) eqn:Htype; [done|].
  destruct (validateTargetPayload _ _) as [[]|] eqn:Hval; [|done].
  destruct (Next _ _ _) as [next|] eqn:Hnext; [|done].
  unfold stmt. destruct (faults env SInsertJob); [done|]. rewrite insert_job_row_run. cbn zeta.
  destruct (name_taken _ _ _) eqn:Htaken; [done|]. cbn [publish].
  rewrite name_taken_spec in Htaken. unfold created. cbn. repeat split; try done. by exists sch, loc.
Qed.

(** ** Updating *)

Section update.
Context `{Platform} (env : Env).

(** The events of an update that found the row [j]: the switch of
    [is_enabled] is announced once. *)
Definition update_events (j job : Job) : list TaskEvent :=
  JobUpdated job ::
  (if Bool.eqb (job_enabled job) (job_enabled j) then []
   else [if job_enabled job then JobResumed job else JobPaused job]).

Definition job_updated (id : uuid) (input : UpdateJobInput) (j job : Job) (s s' : TState) : Prop :=
  job_id job = job_id j ∧ job_created_at job = job_created_at j
  ∧ job_last_run_at job = job_last_run_at j
  ∧ job_name job = override (uj_name input) (job_name j)
  ∧ job_enabled job = default (job_enabled j) (uj_enabled input)
  ∧ (∀ i x, jobs (db s) !! i = Some x → i ≠ id → job_name x ≠ job_name job)
  ∧ (∃ schedule location, ParseCron (job_cron job) = Ok schedule
       ∧ LoadLocation (job_timezone job) = Some location
       ∧ Next schedule (app_now env) (Some location) = Some (job_next_run_at job))
  ∧ validateTargetPayload (job_target_type job) (job_payload job) = Ok tt
  ∧ db s' = set_jobs <[id := job]> (db s)
  ∧ bus s' = (bus s ++ update_events j job)%list ∧ mem_config s' = mem_config s.

Lemma update_job_row_run id name cron tz tt' payload en next s j :
  jobs (db s) !! id = Some j →
  update_job_row env id name cron tz tt' payload en next s
  = let job := MkJob (job_id j) name cron tz tt' payload en (job_last_run_at j) next
                 (job_created_at j) (db_now env) in
    if name_taken (db s) id name then (Err ErrJobAlreadyExists, s)
    else (Ok job, MkTState (set_jobs <[id := job]> (db s)) (bus s) (mem_config s)).
Proof.
  intros Hj. unfold update_job_row. run_m. rewrite Hj. by destruct (name_taken _ _ _).
Qed.

Lemma GetJob_run id s :
  GetJob env id s
  = (if faults env SSelectJob then Err (DBFailure SSelectJob)
     else match jobs (db s) !! id with
          | None => Err ErrJobNotFound
          | Some j => Ok (MkGetJobResponse j (countdown env j))
          end, s).
Proof.
  unfold GetJob, stmt. destruct (faults env SSelectJob); [done|]. run_m.
  by destruct (jobs (db s) !! id).
Qed.

(** The switch of [is_enabled] an update asks for. *)
Lemma enabled_switch (b : bool) (o : option bool) :
  match o with
  | Some x => if Bool.eqb x b then (b, false) else (x, true)
  | None => (b, false)
  end = (default b o, negb (Bool.eqb (default b o) b)).
Proof. by destruct o as [[]|], b. Qed.
End update.

(** [UpdateJob] changes one row or nothing.  On success the row existed and
    keeps its id, its creation and its last run; the name is the new one if one
    was given and no other job has it; the schedule, the time zone and the
    payload are valid and the next run is recomputed from them; one event
    announces the update and one more the pause or the resumption, exactly when
    [is_enabled] changed.  On failure the state is as it was. *)
Theorem UpdateJob_spec `{Platform} env id input s :
  match UpdateJob env id input s with
  | (Ok job, s') => ∃ j, jobs (db s) !! id = Some j ∧ job_updated env id input j job s s'
  | (Err _, s') => s' = s
  end.
Proof.
  unfold UpdateJob. unfold mbind at 1, M_bind at 1. rewrite GetJob_run.
  destruct (faults env SSelectJob); [done|]. destruct (jobs (db s) !! id) as [j|] eqn:Hj; [|done].
  cbn [gj_job]. unfold parse_cron_or_fail, load_location_or_fail, next_run, mbind, M_bind, lift_result.
  destruct (ParseCron _) as [sch|] eqn:Hcron; [|done]. cbn [map_err].
  destruct (LoadLocation _) as [loc|] eqn:Hloc; [|done]. unfold mret, M_ret.
  destruct (override_target_type _ _) as [tgt|] eqn:Htype; [|done].
  destruct (validateTargetPayload _ _) as [[]|] eqn:Hval; [|done].
  rewrite enabled_switch. destruct (Next _ _ _) as [next|] eqn:Hnext; [|done].
  unfold stmt. destruct (faults env SUpdateJob); [done|].
  rewrite (update_job_row_run env id _ _ _ _ _ _ _ s j) by done. cbn zeta.
  destruct (name_taken _ _ _) eqn:Htaken; [done|]. rewrite name_taken_spec in Htaken.
  cbn [publish]. unfold when.
  destruct (Bool.eqb (default (job_enabled j) (uj_enabled input)) (job_enabled j)) eqn:Een; cbn [negb];
    exists j; (split; [done|]); unfold job_updated, update_events; cbn; rewrite Een;
    repeat split; try done; try (by exists sch, loc).
  by rewrite <- app_assoc.
Qed.

(** ** Deleting *)

Lemma lookup_delete_job d id i :
  executions (delete_job id (delete_pending id d)) !! i
  = match executions d !! i with
    | Some e => if decide (is_pending_of id e) then None else Some (unlink_execution id e)
    | None => None
    end.
Proof.
  simpl. rewrite lookup_fmap, map_lookup_filter. destruct (executions d !! i) as [e|]; [|done]. simpl.
  destruct (decide (is_pending_of id e)) as [Hp|Hp].
  - rewrite option_guard_False; [done|]. intros Hn. by apply Hn.
  - by rewrite option_guard_True.
Qed.

(** [DeleteJob] removes a job and what waits for it.  With no failing
    statement an existing job disappears, its pending executions disappear, its
    other executions stay but no longer refer to it, the rest of the queue and
    every other job are as they were, and one event carries the job and the
    number of executions removed; when the last statement fails the job is
    still there but its pending executions are already gone, and no event says
    so. *)
Theorem DeleteJob_spec env id s j :
  jobs (db s) !! id = Some j → faults env SSelectJob = false → faults env SDeletePending = false →
  ∃ s', DeleteJob env id s
        = (if faults env SDeleteJob then Err (DBFailure SDeleteJob) else Ok tt, s')
    ∧ if faults env SDeleteJob
      then jobs (db s') = jobs (db s) ∧ bus s' = bus s
           ∧ ∀ i, executions (db s') !! i = match executions (db s) !! i with
                                            | Some e => if decide (is_pending_of id e) then None else Some e
                                            | None => None
                                            end
      else jobs (db s') = delete id (jobs (db s))
           ∧ bus s' = (bus s ++ [JobDeleted j (count_pending id (db s))])%list
           ∧ ∀ i, executions (db s') !! i
                  = match executions (db s) !! i with
                    | Some e => if decide (is_pending_of id e) then None
                                else Some (unlink_execution id e)
                    | None => None
                    end.
Proof.
  intros Hj Hf1 Hf2. unfold DeleteJob. unfold mbind at 1, M_bind at 1.
  rewrite GetJob_run, Hf1, Hj. cbn [gj_job]. unfold stmt. rewrite Hf2.
  destruct (faults env SDeleteJob); run_m; eexists; (split; [reflexivity|]); cbn;
    (split; [done|]); (split; [done|]); intros i.
  - rewrite map_lookup_filter. destruct (executions (db s) !! i) as [e|]; [|done]. simpl.
    destruct (decide (is_pending_of id e)) as [Hp|Hp].
    + rewrite option_guard_False; [done|]. intros Hn. by apply Hn.
    + by rewrite option_guard_True.
  - apply (lookup_delete_job (db s)).
Qed.

(** ** Dead letters *)

Lemma select_failed_spec d id e :
  select_failed d id = Some e ↔ executions d !! id = Some e ∧ ex_status e = StatusFailed.
Proof.
  unfold select_failed. destruct (executions d !! id) as [x|]; [|naive_solver].
  case_decide; naive_solver.
Qed.

Lemma select_failed_none d id e :
  executions d !! id = Some e → ex_status e ≠ StatusFailed → select_failed d id = None.
Proof. intros He Hs. unfold select_failed. rewrite He. by rewrite decide_False. Qed.

(** Only failed executions leave the dead-letter queue.  An execution in
    any other state can be neither re-queued nor purged, and trying changes
    nothing; a failed one is re-queued as pending, due at once, with all its
    attempts back and no lock, or is removed, and no other row changes. *)
Theorem dlq_operations_spec env id s e :
  executions (db s) !! id = Some e →
  faults env SSelectFailed = false → faults env SRequeue = false → faults env SPurge = false →
  if decide (ex_status e = StatusFailed) then
    (∃ r s', RetryDLQExecution env id s = (Ok r, s')
       ∧ db s' = set_executions <[id := requeued env e]> (db s)
       ∧ ex_status (requeued env e) = StatusPending ∧ ex_attempts (requeued env e) = 0
       ∧ ex_locked_by (requeued env e) = None ∧ ex_run_at (requeued env e) = db_now env)
    ∧ ∃ s', PurgeDLQExecution env id s = (Ok tt, s')
       ∧ db s' = set_executions (delete id) (db s) ∧ bus s' = (bus s ++ [DLQPurged e])%list
  else
    RetryDLQExecution env id s = (Err ErrDLQItemNotFound, s)
    ∧ PurgeDLQExecution env id s = (Err ErrDLQItemNotFound, s).
Proof.
  intros He Hf1 Hf2 Hf3. case_decide as Hst.
  - assert (Hsel : select_failed (db s) id = Some e) by (by apply select_failed_spec).
    split.
    + unfold RetryDLQExecution, stmt, requeue_row. rewrite Hf1, Hf2. run_m. rewrite Hsel. cbn.
      rewrite He. by eexists _, _.
    + unfold PurgeDLQExecution, stmt. rewrite Hf3. run_m. rewrite Hsel. by eexists.
  - assert (Hsel : select_failed (db s) id = None) by (by eapply select_failed_none).
    unfold RetryDLQExecution, PurgeDLQExecution, stmt. rewrite Hf1, Hf3. run_m. by rewrite Hsel.
Qed.

(** ** Examples *)

Definition spec_job : Job :=
  MkJob 0%N "report" "0 * * * *" "UTC" TargetTypeSQL "sql:select 1" true None 0 0 0.
Definition spec_pending : Execution :=
  MkExecution 1%N (Some 0%N) StatusPending 0 "sql:select 1" 0 5 None None None 0.
Definition spec_failed : Execution :=
  MkExecution 2%N (Some 0%N) StatusFailed 0 "sql:select 1" 5 5 None None (Some "boom") 0.
Definition spec_state : TState :=
  MkTState (MkDB {[0%N := spec_job]} {[1%N := spec_pending; 2%N := spec_failed]} [] None 3%N) []
    DefaultConfig.

Lemma DeleteJob_spec_witness :
  ∃ s', DeleteJob (no_faults 0) 0%N spec_state = (Ok tt, s')
    ∧ jobs (db s') = delete 0%N (jobs (db spec_state))
    ∧ bus s' = [JobDeleted spec_job (count_pending 0%N (db spec_state))]
    ∧ ∀ i, executions (db s') !! i
           = match executions (db spec_state) !! i with
             | Some e => if decide (is_pending_of 0%N e) then None else Some (unlink_execution 0%N e)
             | None => None
             end.
Proof. apply (DeleteJob_spec (no_faults 0) 0%N spec_state spec_job); reflexivity. Defined.

Lemma dlq_operations_spec_witness :
  (∃ r s', RetryDLQExecution (no_faults 0) 2%N spec_state = (Ok r, s')
     ∧ db s' = set_executions <[2%N := requeued (no_faults 0) spec_failed]> (db spec_state)
     ∧ ex_status (requeued (no_faults 0) spec_failed) = StatusPending
     ∧ ex_attempts (requeued (no_faults 0) spec_failed) = 0
     ∧ ex_locked_by (requeued (no_faults 0) spec_failed) = None
     ∧ ex_run_at (requeued (no_faults 0) spec_failed) = db_now (no_faults 0))
  ∧ ∃ s', PurgeDLQExecution (no_faults 0) 2%N spec_state = (Ok tt, s')
     ∧ db s' = set_executions (delete 2%N) (db spec_state) ∧ bus s' = [DLQPurged spec_failed].
Proof. apply (dlq_operations_spec (no_faults 0) 2%N spec_state spec_failed); reflexivity. Defined.
