(* ===== verification/Scopes.v ===== *)
(** * core/scopes.go: scopes and what satisfies them

    A scope is a string [service:resource.action].  [HasScope] decides whether
    a list of granted scopes covers a required one. *)

From Stdlib Require Import ZArith Lia Ascii String.
From S2P Require Import Prelude GoStrings.
Local Open Scope string_scope.

(** ** The standard scopes the modelled handlers ask for *)

Definition ScopeRoot : string := "*".
Definition ScopeCoreServiceAccountRead : string := "core:service-account.read".
Definition ScopeCoreServiceAccountWrite : string := "core:service-account.write".
Definition ScopeTasksJobRead : string := "tasks:job.read".
Definition ScopeTasksJobWrite : string := "tasks:job.write".
Definition ScopeTasksExecutionRead : string := "tasks:execution.read".
Definition ScopeTasksExecutionWrite : string := "tasks:execution.write".
Definition ScopeTasksConfigRead : string := "tasks:config.read".
Definition ScopeTasksConfigWrite : string := "tasks:config.write".
Definition ScopeTasksStatsRead : string := "tasks:stats.read".

(** ** Parsing *)

Definition parseScope (scope : string) : string * string * string :=
  let scope := TrimSpace scope in
  if String.eqb scope ScopeRoot || String.eqb scope "" then ("*", "*", "*") else
  match SplitN2 scope ":"%char with
  | [service; rest] =>
      if String.eqb rest "*" then (service, "*", "*") else
      match SplitN2 rest "."%char with
      | [resource; action] => (service, resource, action)
      | parts => (service, default "" (head parts), "*")
      end
  | parts => (default "" (head parts), "*", "*")
  end.

(** ** Matching *)

(** One turn of the loop over the granted scopes. *)
Definition scope_satisfies (required granted : string) : bool :=
  let '(requiredService, requiredResource, requiredAction) := parseScope required in
  let granted := TrimSpace granted in
  if String.eqb granted ScopeRoot then true
  else if String.eqb granted required then true
  else
    let '(grantedService, grantedResource, grantedAction) := parseScope granted in
    if String.eqb grantedService requiredService && String.eqb grantedResource "*" then true
    else if negb (String.eqb grantedService requiredService) && negb (String.eqb grantedService "*")
    then false
    else if negb (String.eqb grantedResource requiredResource) && negb (String.eqb grantedResource "*")
    then false
    else if String.eqb grantedAction requiredAction || String.eqb grantedAction "*" then true
    else String.eqb grantedAction "write" && String.eqb requiredAction "read".

Definition HasScope (grantedScopes : list string) (requiredScope : string) : bool :=
  match grantedScopes with
  | [] => false
  | _ => if String.eqb requiredScope "" then true
         else existsb (scope_satisfies requiredScope) grantedScopes
  end.

(** ** Scopes made of three names *)

(** A name: no space, colon or dot, and not the wildcard. *)
Definition name (s : string) : bool :=
  plain s && lacks ":"%char s && lacks "."%char s
  && negb (String.eqb s "") && negb (String.eqb s "*").

Definition scope (service resource action : string) : string :=
  service ++ String ":" (resource ++ String "." action).

Ltac name_facts H :=
  unfold name in H; rewrite !andb_true_iff, !negb_true_iff, !String.eqb_neq in H;
  destruct H as ((((? & ?) & ?) & ?) & ?).

Lemma plain_scope a b c :
  plain a = true → plain b = true → plain c = true → plain (scope a b c) = true.
Proof.
  intros Ha Hb Hc. unfold scope, plain in *. rewrite all_chars_app, Ha. cbn [all_chars].
  rewrite all_chars_app, Hb. cbn [all_chars]. by rewrite Hc.
Qed.

Lemma scope_not_short a b c s :
  a ≠ "" → (String.length s < 2)%nat → String.eqb (scope a b c) s = false.
Proof.
  intros Ha Hs. apply String.eqb_neq. intros <-. revert Hs. destruct a as [|x a]; [done|].
  unfold scope. rewrite length_append. cbn [String.length]. lia.
Qed.

Lemma name_not_dotted r c : name r = true → String.eqb (r ++ String "." c) "*" = false.
Proof.
  intros H. name_facts H. apply String.eqb_neq. destruct r as [|x r]; [done|].
  rewrite append_cons. intros [= -> Hr]. destruct r; discriminate Hr.
Qed.

Lemma parse_named s r a :
  name s = true → plain r = true → lacks "."%char r = true →
  String.eqb (r ++ String "." a) "*" = false → plain a = true →
  parseScope (scope s r a) = (s, r, a).
Proof.
  intros Hs Hr Hrd Hdot Ha. name_facts Hs. unfold parseScope.
  rewrite TrimSpace_plain by (by apply plain_scope).
  rewrite !scope_not_short by (done || (cbn; lia)). cbn [orb]. unfold scope, SplitN2.
  rewrite cut_lacks by done. rewrite Hdot. by rewrite cut_lacks.
Qed.

Lemma parse_scope s r a :
  name s = true → name r = true → plain a = true → parseScope (scope s r a) = (s, r, a).
Proof.
  intros Hs Hr Ha. pose proof (name_not_dotted r a Hr). name_facts Hr. by apply parse_named.
Qed.

Lemma parse_resource_wildcard s a :
  name s = true → plain a = true → parseScope (scope s "*" a) = (s, "*", a).
Proof. intros Hs Ha. apply parse_named; done. Qed.

Lemma parse_service_wildcard s :
  name s = true → parseScope (s ++ ":*") = (s, "*", "*").
Proof.
  intros Hs. name_facts Hs. unfold parseScope.
  assert (Hp : plain (s ++ ":*") = true).
  { unfold plain in *. rewrite all_chars_app, H. done. }
  rewrite TrimSpace_plain by done.
  assert (Hl : ∀ x, (String.length x < 2)%nat → String.eqb (s ++ ":*") x = false).
  { intros x Hx. apply String.eqb_neq. intros <-. destruct s as [|c s]; [done|].
    revert Hx. rewrite length_append. cbn [String.length]. lia. }
  rewrite !Hl by (cbn; lia). cbn [orb]. unfold SplitN2. by rewrite (cut_lacks _ s "*").
Qed.

(** ** What satisfies what *)

(** The meaning of a grant without wildcards. *)
Definition covers (granted required : string * string * string) : Prop :=
  let '(s, r, a) := granted in
  let '(s', r', a') := required in
  s = s' ∧ r = r' ∧ (a = a' ∨ (a = "write" ∧ a' = "read")).

Definition named (x : string * string * string) : Prop :=
  let '(s, r, a) := x in name s = true ∧ name r = true ∧ name a = true.
Definition scope_of (x : string * string * string) : string :=
  let '(s, r, a) := x in scope s r a.

Lemma name_plain s : name s = true → plain s = true.
Proof. intros H. by name_facts H. Qed.

Lemma name_not_star s : name s = true → String.eqb s "*" = false.
Proof. intros H. name_facts H. by apply String.eqb_neq. Qed.

Lemma parse_scope_of x : named x → parseScope (scope_of x) = x.
Proof. destruct x as [[s r] a]. intros (? & ? & ?). apply parse_scope; auto using name_plain. Qed.

Lemma scope_of_plain x : named x → plain (scope_of x) = true.
Proof. destruct x as [[s r] a]. intros (? & ? & ?). apply plain_scope; auto using name_plain. Qed.

Lemma scope_of_not_short x s : named x → (String.length s < 2)%nat → String.eqb (scope_of x) s = false.
Proof. destruct x as [[a b] c]. intros (Ha & _ & _). name_facts Ha. by apply scope_not_short. Qed.

Lemma scope_of_inj x y : named x → named y → scope_of x = scope_of y → x = y.
Proof. intros Hx Hy E. rewrite <- (parse_scope_of x), <- (parse_scope_of y) by done. by rewrite E. Qed.

Lemma named_satisfies x y : named x → named y →
  scope_satisfies (scope_of y) (scope_of x) = true ↔ covers x y.
Proof.
  intros Hx Hy. unfold scope_satisfies. rewrite (TrimSpace_plain (scope_of x)) by by apply scope_of_plain.
  rewrite !parse_scope_of by done. rewrite scope_of_not_short by (done || (cbn; lia)).
  destruct (String.eqb_spec (scope_of x) (scope_of y)) as [E|Hne].
  { apply scope_of_inj in E as ->; [|done..]. destruct y as [[a b] c]. unfold covers. naive_solver. }
  destruct x as [[s r] a], y as [[s' r'] a']. destruct Hx as (Hs & Hr & Ha).
  rewrite (name_not_star s), (name_not_star r), (name_not_star a) by done. unfold covers.
  rewrite andb_false_r. cbn [negb]. rewrite !andb_true_r, orb_false_r.
  destruct (String.eqb_spec s s'), (String.eqb_spec r r'), (String.eqb_spec a a'),
    (String.eqb_spec a "write"), (String.eqb_spec a' "read"); cbn; naive_solver.
Qed.

(** Grants without wildcards give exactly what they name.  A list of
    scopes [service:resource.action] made of plain names satisfies a required
    scope if and only if one of them has the same service and resource, and
    the same action or [write] where [read] is required. *)
Theorem HasScope_named granted required :
  Forall named granted → named required →
  HasScope (scope_of <$> granted) (scope_of required) = true
  ↔ ∃ g, g ∈ granted ∧ covers g required.
Proof.
  intros Hg Hr. rewrite list.Forall_forall in Hg. unfold HasScope.
  destruct granted as [|x l]; [set_solver|]. cbn [fmap list_fmap].
  rewrite scope_of_not_short by (done || (cbn; lia)).
  change (scope_of x :: (scope_of <$> l)) with (scope_of <$> x :: l). rewrite existsb_exists. split.
  - intros (g' & Hin & Hsat). apply list_elem_of_In, list_elem_of_fmap in Hin as (g & -> & Hin).
    exists g. split; [done|]. apply named_satisfies; auto.
  - intros (g & Hin & Hc). exists (scope_of g).
    split; [by apply list_elem_of_In, list_elem_of_fmap_2|]. apply named_satisfies; auto.
Qed.

Lemma HasScope_named_witness :
  HasScope (scope_of <$> [("data", "schema", "write"); ("tasks", "job", "read")])
    (scope_of ("data", "schema", "read")) = true
  ↔ ∃ g, g ∈ [("data", "schema", "write"); ("tasks", "job", "read")]
         ∧ covers g ("data", "schema", "read").
Proof.
  apply (HasScope_named [("data", "schema", "write"); ("tasks", "job", "read")]
           ("data", "schema", "read")); repeat constructor.
Defined.

(** [service:*] covers every scope of the service and nothing of another
    service. *)
Theorem service_wildcard_scope s required :
  name s = true → named required →
  HasScope [s ++ ":*"] (scope_of required) = true ↔ required.1.1 = s.
Proof.
  intros Hs Hr. pose proof Hs as Hs'. name_facts Hs'. unfold HasScope, existsb.
  rewrite scope_of_not_short by (done || (cbn; lia)). rewrite orb_false_r. unfold scope_satisfies.
  rewrite parse_scope_of by done. rewrite TrimSpace_plain.
  2:{ unfold plain in *. rewrite all_chars_app, H. done. }
  rewrite parse_service_wildcard by done. destruct required as [[s' r'] a'] eqn:Er. cbn [fst].
  rewrite (name_not_star s) by done. destruct (String.eqb_spec s s') as [->|Hne].
  - cbn. by repeat case_match.
  - cbn. split; [|congruence]. destruct (String.eqb_spec (s ++ ":*") ScopeRoot) as [E|_].
    { exfalso. destruct s as [|c s]; [done|]. rewrite append_cons in E. injection E as -> E.
      destruct s; discriminate E. }
    destruct (String.eqb_spec (s ++ ":*") (scope s' r' a')) as [E|_]; [|done].
    exfalso. apply Hne. assert (parseScope (s ++ ":*") = parseScope (scope s' r' a')) as E' by by rewrite E.
    destruct Hr as (? & ? & ?). rewrite parse_service_wildcard, parse_scope in E' by auto using name_plain.
    by simplify_eq.
Qed.

Lemma service_wildcard_scope_witness :
  HasScope ["data" ++ ":*"] (scope_of ("data", "schema", "write")) = true ↔ "data" = "data".
Proof. apply (service_wildcard_scope "data" ("data", "schema", "write")); repeat constructor. Defined.

(** A resource wildcard grants every action.  [service:*.read] satisfies
    [service:resource.write], and more generally [service:*.a] satisfies every
    scope of the service whatever the action [a]. *)
Theorem resource_wildcard_ignores_action s a required :
  name s = true → plain a = true → named required → required.1.1 = s →
  HasScope [scope s "*" a] (scope_of required) = true.
Proof.
  intros Hs Ha Hr <-. unfold HasScope, existsb, scope_satisfies.
  rewrite scope_of_not_short by (done || (cbn; lia)). rewrite parse_scope_of by done.
  rewrite TrimSpace_plain by (apply plain_scope; auto using name_plain).
  rewrite parse_resource_wildcard by done. destruct required as [[s' r'] a']. cbn [fst].
  rewrite String.eqb_refl. by repeat case_match.
Qed.

Lemma resource_wildcard_ignores_action_witness :
  HasScope [scope "data" "*" "read"] (scope_of ("data", "schema", "write")) = true.
Proof.
  apply (resource_wildcard_ignores_action "data" "read" ("data", "schema", "write"));
    repeat constructor.
Defined.

(** A blank scope is a root scope: a granted scope of white space only
    satisfies every requirement. *)
Theorem blank_scope_is_root granted required :
  TrimSpace granted = "" → HasScope [granted] required = true.
Proof.
  intros Hg. unfold HasScope, existsb, scope_satisfies. destruct (String.eqb required ""); [done|].
  rewrite Hg. destruct (parseScope required) as [[s r] a].
  change (parseScope "") with ("*", "*", "*"). change (String.eqb "*" "*") with true.
  cbn [negb]. rewrite !andb_false_r, !orb_true_r. destruct (String.eqb "" ScopeRoot), (String.eqb "" required); try done.
  by destruct (String.eqb "*" s).
Qed.

Lemma blank_scope_is_root_witness : HasScope [" "] "core:service-account.write" = true.
Proof. apply blank_scope_is_root. vm_compute. reflexivity. Defined.
