(* ===== verification/ServiceAccounts.v ===== *)
(** * core/service_account.go, core/session.go: machine accounts and callers

    The table core.service_accounts with the operations of
    [ServiceAccountManager], the extraction of keys and addresses from a
    request, the caller identity kept in the request context, and the
    authentication steps of the server's middleware (core/server.go).

    Account ids are the UUIDs their text denotes.  The rows are a finite map;
    a statement may fail ([sa_faults]).  [rand.Read], SHA-256, [net.ParseIP],
    [net.ParseCIDR] and [net.SplitHostPort] are parameters (class [HostLib]);
    so are the token verification of core/jwt_signer.go and the session query
    in the middleware.  The event actor the middleware records beside the
    caller is left out. *)

From Stdlib Require Import ZArith Lia Ascii String.
From stdpp Require Import sorting.
From S2P Require Import Prelude GoStrings GoTime Scopes.
Local Open Scope string_scope.
Local Open Scope Z_scope.

(** ** Rows and inputs (core/model.go, core/control_plane_model.go) *)

Record ServiceAccount := MkServiceAccount {
  sa_ID : N;
  sa_ConsoleUserID : option string;
  sa_Name : string;
  sa_Description : option string;
  sa_KeyPrefix : string;
  sa_KeyHash : string;
  sa_Scopes : list string;
  sa_IsEnabled : bool;
  sa_AllowedIPs : list string;
  sa_ExpiresAt : option Z;
  sa_LastUsedAt : option Z;
  sa_CreatedAt : Z;
  sa_LastUpdatedAt : Z;
}.

Record CreateServiceAccountInput := MkCreateServiceAccountInput {
  csa_ConsoleUserID : option string; csa_Name : string; csa_Description : option string;
  csa_Scopes : list string; csa_AllowedIPs : list string; csa_ExpiresAt : option Z }.

(** [usa_AllowedIPs] is [None] when the field is absent from the request. *)
Record UpdateServiceAccountInput := MkUpdateServiceAccountInput {
  usa_Name : option string; usa_Description : option string; usa_Scopes : list string;
  usa_IsEnabled : option bool; usa_AllowedIPs : option (list string); usa_ExpiresAt : option Z }.

Inductive SAError :=
| NameRequired
| ErrServiceAccountNotFound | ErrServiceAccountDisabled | ErrServiceAccountExpired
| ErrServiceAccountIPBlocked | ErrRootAccountProtected | ErrServiceAccountOwnedByConsoleUser
| SAFailure.

Inductive SAStmt := SAInsert | SASelectPrefix | SATouch | SAList | SAGet | SAUpdate | SADelete | SACount.

Abbreviation Accounts := (gmap N ServiceAccount).

(** What the accounts need of the host. *)
Class HostLib := MkHostLib {
  sha256_Sum256 : string → string;
  IPAddr : Type;
  net_parse_ip : string → option IPAddr;
  ip_Equal : IPAddr → IPAddr → bool;
  (** [net.ParseCIDR] followed by [IPNet.Contains]. *)
  net_ParseCIDR : string → option (IPAddr → bool);
  net_SplitHostPort : string → option string;
}.

(** ** Hexadecimal *)

Definition hex_digit (n : nat) : ascii := ascii_of_nat (if (n <? 10)%nat then 48 + n else 87 + n).

Fixpoint hex_EncodeToString (s : string) : string :=
  match s with
  | EmptyString => ""
  | String c s' =>
      let n := nat_of_ascii c in
      String (hex_digit (n / 16)) (String (hex_digit (n mod 16)) (hex_EncodeToString s'))
  end.

Definition secretKeyEntropyBytes : nat := 32.
Definition secretKeyPrefixLength : nat := 8.
Definition minimumSecretKeyLength : nat := 16.

(** ** Strings *)

(** [s[:n]] and [s[n:]]. *)
Definition slice_to (n : nat) (s : string) : string := String.substring 0 n s.
Definition slice_from (n : nat) (s : string) : string :=
  String.substring n (String.length s - n) s.

(** [strings.Count] of a one-byte string. *)
Fixpoint count_char (c : ascii) (s : string) : nat :=
  match s with
  | EmptyString => 0
  | String d s' => (if Ascii.eqb c d then 1 else 0) + count_char c s'
  end.

(** [strings.Trim(s, "[]")]. *)
Definition is_bracket (c : ascii) : bool := Ascii.eqb c "[" || Ascii.eqb c "]".
Fixpoint trim_brackets_left (s : string) : string :=
  match s with
  | String c s' => if is_bracket c then trim_brackets_left s' else s
  | EmptyString => ""
  end.
Fixpoint trim_brackets_right (s : string) : string :=
  match s with
  | EmptyString => ""
  | String c s' =>
      if all_chars is_bracket s then "" else String c (trim_brackets_right s')
  end.
Definition Trim_brackets (s : string) : string := trim_brackets_right (trim_brackets_left s).

Section accounts.
Context `{HostLib} (now : Z) (sa_faults : SAStmt → bool).

(** [scan]: the columns read back; the hash stays in the table. *)
Definition scan_account (r : ServiceAccount) : ServiceAccount :=
  MkServiceAccount (sa_ID r) (sa_ConsoleUserID r) (sa_Name r) (sa_Description r) (sa_KeyPrefix r) ""
    (sa_Scopes r) (sa_IsEnabled r) (sa_AllowedIPs r) (sa_ExpiresAt r) (sa_LastUsedAt r)
    (sa_CreatedAt r) (sa_LastUpdatedAt r).

Definition HashSecretKey (secretKey : string) : string :=
  hex_EncodeToString (sha256_Sum256 secretKey).

(** The prefix, the key and its hash, from the random bytes drawn. *)
Definition GenerateServiceAccountSecretKey (randomBytes : string) : string * string * string :=
  let secretKey := hex_EncodeToString randomBytes in
  (slice_to secretKeyPrefixLength secretKey, secretKey, HashSecretKey secretKey).

(** [newID] is the [uuid.NewV7] drawn; the primary key refuses a used one. *)
Definition Create (newID : N) (randomBytes : string) (input : CreateServiceAccountInput)
    (db : Accounts) : result SAError (ServiceAccount * string) * Accounts :=
  if String.eqb (TrimSpace (csa_Name input)) "" then (Err NameRequired, db) else
  let scopes := match csa_Scopes input with [] => [ScopeRoot] | l => l end in
  let '(prefix, secretKey, hash) := GenerateServiceAccountSecretKey randomBytes in
  if sa_faults SAInsert || bool_decide (is_Some (db !! newID)) then (Err SAFailure, db) else
  let row := MkServiceAccount newID (csa_ConsoleUserID input) (csa_Name input) (csa_Description input)
               prefix hash scopes true (csa_AllowedIPs input) (csa_ExpiresAt input) None now now in
  (Ok (scan_account row, secretKey), <[newID := row]> db).

Definition pattern_allows (ip : IPAddr) (pattern : string) : bool :=
  let pattern := TrimSpace pattern in
  if Contains pattern "/" then
    match net_ParseCIDR pattern with Some contains => contains ip | None => false end
  else
    match net_parse_ip pattern with Some p => ip_Equal p ip | None => false end.

Definition IsIPAllowed (clientIP : string) (allowedPatterns : list string) : bool :=
  match net_parse_ip (TrimSpace clientIP) with
  | None => false
  | Some ip => existsb (pattern_allows ip) allowedPatterns
  end.

(** The rows of [WHERE key_prefix = $1]. *)
Definition rows_with_prefix (prefix : string) (db : Accounts) : list ServiceAccount :=
  filter (λ r, sa_KeyPrefix r = prefix) (map_to_list db).*2.

(** The account, and whether [last_used_at] is to be refreshed. *)
Definition Authenticate (secretKey clientIP : string) (db : Accounts)
    : result SAError (ServiceAccount * bool) :=
  let secretKey := TrimSpace secretKey in
  if (String.length secretKey <? minimumSecretKeyLength)%nat then Err ErrServiceAccountNotFound else
  let prefix := slice_to secretKeyPrefixLength secretKey in
  let hash := HashSecretKey secretKey in
  if sa_faults SASelectPrefix then Err SAFailure else
  match List.find (λ r, String.eqb (sa_KeyHash r) hash) (rows_with_prefix prefix db) with
  | None => Err ErrServiceAccountNotFound
  | Some r =>
      let matched := scan_account r in
      if negb (sa_IsEnabled matched) then Err ErrServiceAccountDisabled
      else if match sa_ExpiresAt matched with Some e => e <? now | None => false end
      then Err ErrServiceAccountExpired
      else if negb (bool_decide (sa_AllowedIPs matched = [])) && negb (String.eqb clientIP "")
              && negb (IsIPAllowed clientIP (sa_AllowedIPs matched))
      then Err ErrServiceAccountIPBlocked
      else Ok (matched, match sa_LastUsedAt matched with
                        | None => true
                        | Some u => 60 * Second <? now - u
                        end)
  end.

Definition touched (r : ServiceAccount) : ServiceAccount :=
  MkServiceAccount (sa_ID r) (sa_ConsoleUserID r) (sa_Name r) (sa_Description r) (sa_KeyPrefix r)
    (sa_KeyHash r) (sa_Scopes r) (sa_IsEnabled r) (sa_AllowedIPs r) (sa_ExpiresAt r) (Some now)
    (sa_CreatedAt r) (sa_LastUpdatedAt r).

Definition updateLastUsedAt (serviceAccountID : N) (db : Accounts) : Accounts :=
  if sa_faults SATouch then db else alter touched serviceAccountID db.

Definition newer_account (a b : ServiceAccount) : Prop := sa_CreatedAt b <= sa_CreatedAt a.
#[export] Instance newer_account_dec : RelDecision newer_account.
Proof. intros a b. unfold newer_account. apply _. Defined.

Definition List_ (db : Accounts) : result SAError (list ServiceAccount) :=
  if sa_faults SAList then Err SAFailure
  else Ok (scan_account <$> merge_sort newer_account (map_to_list db).*2).

Definition Get (serviceAccountID : N) (db : Accounts) : result SAError ServiceAccount :=
  if sa_faults SAGet then Err ErrServiceAccountNotFound else
  match db !! serviceAccountID with
  | None => Err ErrServiceAccountNotFound
  | Some r => Ok (scan_account r)
  end.

(** [WHERE id != $1 AND is_enabled = true AND scopes @> '["*"]']. *)
Definition counted_root (excludeID : N) (r : ServiceAccount) : Prop :=
  sa_ID r ≠ excludeID ∧ sa_IsEnabled r = true ∧ ScopeRoot ∈ sa_Scopes r.
#[export] Instance counted_root_dec id r : Decision (counted_root id r).
Proof. unfold counted_root. apply _. Defined.

Definition assertOtherRootExists (excludeID : N) (db : Accounts) : result SAError unit :=
  let count := if sa_faults SACount then 0%nat
               else List.length (filter (counted_root excludeID) (map_to_list db).*2) in
  if Nat.eqb count 0 then Err ErrRootAccountProtected else Ok tt.

(** The row an update leaves. *)
Definition updated (input : UpdateServiceAccountInput) (r : ServiceAccount) : ServiceAccount :=
  MkServiceAccount (sa_ID r) (sa_ConsoleUserID r)
    (match usa_Name input with
     | Some n => if String.eqb (TrimSpace n) "" then sa_Name r else n
     | None => sa_Name r
     end)
    (match usa_Description input with Some d => Some d | None => sa_Description r end)
    (sa_KeyPrefix r) (sa_KeyHash r)
    (match usa_Scopes input with [] => sa_Scopes r | l => l end)
    (default (sa_IsEnabled r) (usa_IsEnabled input))
    (default (sa_AllowedIPs r) (usa_AllowedIPs input))
    (match usa_ExpiresAt input with Some e => Some e | None => sa_ExpiresAt r end)
    (sa_LastUsedAt r) (sa_CreatedAt r) now.

(** The zero value of the struct, left when the [UPDATE] fails: its error is
    discarded. *)
Definition zero_account : ServiceAccount :=
  MkServiceAccount 0 None "" None "" "" [] false [] None None zero_time zero_time.

Definition drops_root (input : UpdateServiceAccountInput) : bool :=
  match usa_IsEnabled input with Some false => true | _ => false end
  || (negb (bool_decide (usa_Scopes input = [])) && negb (HasScope (usa_Scopes input) ScopeRoot)).

Definition Update (serviceAccountID : N) (input : UpdateServiceAccountInput) (db : Accounts)
    : result SAError ServiceAccount * Accounts :=
  match Get serviceAccountID db with
  | Err e => (Err e, db)
  | Ok current =>
      let guard :=
        if HasScope (sa_Scopes current) ScopeRoot && drops_root input
        then assertOtherRootExists serviceAccountID db else Ok tt in
      match guard with
      | Err e => (Err e, db)
      | Ok _ =>
          match (if sa_faults SAUpdate then None else db !! serviceAccountID) with
          | None => (Ok zero_account, db)
          | Some r => (Ok (scan_account (updated input r)), <[serviceAccountID := updated input r]> db)
          end
      end
  end.

(** [Delete] checks, then deletes; nothing holds the table in between. *)
Definition delete_check (serviceAccountID : N) (db : Accounts) : result SAError unit :=
  match Get serviceAccountID db with
  | Err e => Err e
  | Ok current =>
      if match sa_ConsoleUserID current with Some u => negb (String.eqb u "") | None => false end
      then Err ErrServiceAccountOwnedByConsoleUser
      else if HasScope (sa_Scopes current) ScopeRoot then assertOtherRootExists serviceAccountID db
      else Ok tt
  end.
Definition delete_exec (serviceAccountID : N) (db : Accounts) : result SAError unit * Accounts :=
  if sa_faults SADelete then (Err SAFailure, db) else (Ok tt, delete serviceAccountID db).

Definition Delete (serviceAccountID : N) (db : Accounts) : result SAError unit * Accounts :=
  match delete_check serviceAccountID db with
  | Err e => (Err e, db)
  | Ok _ => delete_exec serviceAccountID db
  end.
End accounts.

(** ** Requests and callers (core/session.go) *)

(** The claims the modelled code reads. *)
Record JWTClaims := MkJWTClaims {
  Subject : string; SessionID : string; Email : string; Phone : string; JWTRole : string;
  IsAnonymous : bool; Audience : string; Scope_ : string }.
Definition no_claims : JWTClaims := MkJWTClaims "" "" "" "" "" false "" "".

(** [JWTClaims.Scopes]. *)
Definition Scopes_ (c : JWTClaims) : list string := Fields (Scope_ c).

Record AuthContext := MkAuthContext {
  UserID : string; ServiceAccountID : string; JWT : JWTClaims; RefreshTokenHash : string }.
Definition no_auth : AuthContext := MkAuthContext "" "" no_claims "".

(** [AuthContext.HasScope], through [JWTClaims.HasScope]. *)
Definition auth_HasScope (a : AuthContext) (requiredScope : string) : bool :=
  HasScope (Scopes_ (JWT a)) requiredScope.
Definition IsAuthenticated (a : AuthContext) : bool :=
  negb (String.eqb (UserID a) "") || negb (String.eqb (ServiceAccountID a) "").
Definition IsUser (a : AuthContext) : bool := negb (String.eqb (UserID a) "").
Definition IsServiceAccount (a : AuthContext) : bool :=
  negb (String.eqb (ServiceAccountID a) "") || String.eqb (JWTRole (JWT a)) "service_role"
  || HasSuffix (Audience (JWT a)) ":service_account".

Definition default_role (role : string) (c : JWTClaims) : JWTClaims :=
  if String.eqb (JWTRole c) ""
  then MkJWTClaims (Subject c) (SessionID c) (Email c) (Phone c) role (IsAnonymous c) (Audience c) (Scope_ c)
  else c.

(** [WithAuthContext]: what it stores; [GetAuthContext] reads it back. *)
Definition WithAuthContext (a : AuthContext) : AuthContext :=
  if IsServiceAccount a then
    MkAuthContext ""
      (if String.eqb (ServiceAccountID a) "" && negb (String.eqb (Subject (JWT a)) "")
       then Subject (JWT a) else ServiceAccountID a)
      (default_role "service_role" (JWT a)) (RefreshTokenHash a)
  else if negb (String.eqb (Subject (JWT a)) "") then
    MkAuthContext (if String.eqb (UserID a) "" then Subject (JWT a) else UserID a) ""
      (default_role "authenticated" (JWT a)) (RefreshTokenHash a)
  else if negb (String.eqb (UserID a) "") then
    MkAuthContext (UserID a) "" (default_role "authenticated" (JWT a)) (RefreshTokenHash a)
  else a.

(** A request: its headers ([Header.Get], empty when absent), its cookies, the
    address of the peer and the caller its context carries. *)
Record Request := MkRequest {
  Header : string → string; Cookie : string → option string; RemoteAddr : string;
  AuthCtx : AuthContext }.

Definition SessionCookieNameSecure : string := "__Host-session".
Definition SessionCookieNameInsecure : string := "session".

(** The first of two headers that is not empty. *)
Definition header_or (r : Request) (h1 h2 : string) : string :=
  if String.eqb (Header r h1) "" then Header r h2 else Header r h1.

Definition bearer (authHeader : string) : option string :=
  if HasPrefix (ToLower authHeader) "bearer " then Some (TrimSpace (slice_from 7 authHeader)) else None.

Definition ExtractRequestServiceAccountKey (request : Request) : string :=
  if negb (String.eqb (Header request "Service-Account-Key") "")
  then TrimSpace (Header request "Service-Account-Key")
  else if negb (String.eqb (Header request "X-Service-Account-Key") "")
  then TrimSpace (Header request "X-Service-Account-Key")
  else match bearer (Header request "Authorization") with
       | Some candidate => if Nat.eqb (count_char "." candidate) 2 then "" else candidate
       | None => ""
       end.

(** The value of the first of the session cookies that is set. *)
Definition session_cookie (request : Request) : string :=
  match Cookie request SessionCookieNameSecure with
  | Some v => if String.eqb v "" then default "" (Cookie request SessionCookieNameInsecure) else v
  | None => default "" (Cookie request SessionCookieNameInsecure)
  end.

Definition ExtractRequestSessionToken (request : Request) : string :=
  match bearer (Header request "Authorization") with
  | Some token => if String.eqb token "" then session_cookie request else token
  | None => session_cookie request
  end.

Section requests.
Context `{HostLib} (now : Z) (sa_faults : SAStmt → bool) (trustProxy : bool).

(** The first address a proxy header names, if any. *)
Definition forwarded_ip (request : Request) : string :=
  let forwardedFor := header_or request "Forwarded-For" "X-Forwarded-For" in
  let first := TrimSpace (default "" (head (Split forwardedFor ","%char))) in
  if negb (String.eqb forwardedFor "") && negb (String.eqb first "") then first
  else TrimSpace (header_or request "Real-IP" "X-Real-IP").

Definition remote_ip (request : Request) : string :=
  let addr := RemoteAddr request in
  if String.eqb addr "" then "127.0.0.1" else
  match net_SplitHostPort addr with
  | Some host => if String.eqb host "" then
                   (let t := Trim_brackets (TrimSpace addr) in if String.eqb t "" then "127.0.0.1" else t)
                 else host
  | None => let t := Trim_brackets (TrimSpace addr) in if String.eqb t "" then "127.0.0.1" else t
  end.

Definition ExtractRequestClientIP (request : Request) : string :=
  if trustProxy && negb (String.eqb (forwarded_ip request) "") then forwarded_ip request
  else remote_ip request.

Definition CheckScope (request : Request) (requiredScope : string) (db : Accounts) : bool :=
  if IsServiceAccount (AuthCtx request) then auth_HasScope (AuthCtx request) requiredScope else
  let secretKey := ExtractRequestServiceAccountKey request in
  if String.eqb secretKey "" then true else
  match Authenticate now sa_faults secretKey (ExtractRequestClientIP request) db with
  | Err _ => false
  | Ok (serviceAccount, _) => HasScope (sa_Scopes serviceAccount) requiredScope
  end.

(** [RequireScope]: [None] when the request may go on, else the status of the
    response written. *)
Definition RequireScope (request : Request) (requiredScope : string) (db : Accounts) : option Z :=
  if CheckScope request requiredScope db then None else Some 403.

(** ** The authentication steps of [Server.middleware] *)

(** [VerifyAccessToken] and [HashRefreshToken] of core/jwt_signer.go, the
    query on auth.sessions, the text of an id, and the project's handle. *)
Context (VerifyAccessToken : string → option JWTClaims) (HashRefreshToken : string → string)
  (select_session : string → option (string * string * string * string * string * bool))
  (id_text : N → string) (handle : string).

(** The refresh token of the request: cookie, else header. *)
Definition refresh_token (request : Request) : string :=
  if String.eqb (session_cookie request) ""
  then header_or request "Refresh-Token" "X-Refresh-Token" else session_cookie request.

Definition set_role (role : string) (c : JWTClaims) : JWTClaims :=
  MkJWTClaims (Subject c) (SessionID c) (Email c) (Phone c) role (IsAnonymous c) (Audience c) (Scope_ c).

(** 1. A JWT: a machine token or a user's access token. *)
Definition jwt_auth (request : Request) : option AuthContext :=
  let token := ExtractRequestSessionToken request in
  if String.eqb token "" then None else
  match VerifyAccessToken token with
  | None => None
  | Some jwtClaims =>
      if String.eqb (Subject jwtClaims) "" then None else
      let layrAudience := ((if String.eqb handle "" then "layr" else handle) ++ ":service_account")%string in
      if String.eqb (JWTRole jwtClaims) "service_role"
         || HasSuffix (Audience jwtClaims) ":service_account" then
        if negb (String.eqb (Audience jwtClaims) layrAudience) then None
        else Some (WithAuthContext
               (MkAuthContext "" (Subject jwtClaims) (set_role "service_role" jwtClaims) ""))
      else
        let rt := refresh_token request in
        Some (WithAuthContext (MkAuthContext (Subject jwtClaims) "" jwtClaims
                (if String.eqb rt "" then "" else HashRefreshToken rt)))
  end.

(** 2. A service account key. *)
Definition key_auth (request : Request) (db : Accounts) : option AuthContext :=
  let key := ExtractRequestServiceAccountKey request in
  if String.eqb key "" then None else
  match Authenticate now sa_faults key (ExtractRequestClientIP request) db with
  | Err _ => None
  | Ok (acc, _) =>
      let id := id_text (sa_ID acc) in
      Some (WithAuthContext (MkAuthContext "" id
        (MkJWTClaims id "" "" "" "service_role" false "" (Join (sa_Scopes acc) " ")) ""))
  end.

(** 3. A session of the database. *)
Definition session_auth (request : Request) : option AuthContext :=
  let token := refresh_token request in
  if String.eqb token "" then None else
  match select_session (HashRefreshToken token) with
  | None => None
  | Some (sessionID, userID, email, phone, role, isAnonymous) =>
      if String.eqb userID "" then None else
      Some (WithAuthContext (MkAuthContext userID ""
        (MkJWTClaims userID sessionID email phone role isAnonymous "" "") (HashRefreshToken token)))
  end.

(** The caller the handlers see. *)
Definition authenticate_request (request : Request) (db : Accounts) : AuthContext :=
  match jwt_auth request with
  | Some a => a
  | None => match key_auth request db with
            | Some a => a
            | None => default (AuthCtx request) (session_auth request)
            end
  end.
End requests.

(** ** The invariant of the table: rows under their id, a root account left *)

Definition accounts_wf (db : Accounts) : Prop := ∀ id r, db !! id = Some r → sa_ID r = id.

Definition is_root (r : ServiceAccount) : Prop :=
  sa_IsEnabled r = true ∧ HasScope (sa_Scopes r) ScopeRoot = true.
Definition has_root (db : Accounts) : Prop := ∃ id r, db !! id = Some r ∧ is_root r.

Lemma star_is_root l : ScopeRoot ∈ l → HasScope l ScopeRoot = true.
Proof.
  intros Hin. destruct l as [|x l]; [by apply elem_of_nil in Hin|]. unfold HasScope.
  change (String.eqb ScopeRoot "") with false. apply existsb_exists. exists ScopeRoot.
  split; [by apply list_elem_of_In|]. vm_compute. reflexivity.
Qed.

Lemma other_root sa_faults id db u :
  accounts_wf db → assertOtherRootExists sa_faults id db = Ok u →
  ∃ id' r, id' ≠ id ∧ db !! id' = Some r ∧ is_root r.
Proof.
  intros Hwf. unfold assertOtherRootExists. destruct (sa_faults SACount); [done|].
  destruct (filter (counted_root id) (map_to_list db).*2) as [|r l] eqn:E; [done|]. intros _.
  assert (Hr : r ∈ filter (counted_root id) (map_to_list db).*2) by (rewrite E; left).
  apply list_elem_of_filter in Hr as ((Hne & Hen & Hstar) & Hin).
  apply list_elem_of_fmap in Hin as ([id' r'] & -> & Hin). apply elem_of_map_to_list in Hin.
  exists id', r'. split; [intros ->; simpl in *; by apply Hne, Hwf|]. split; [done|].
  split; [done|by apply star_is_root].
Qed.

Lemma has_root_insert db id r : is_root r → has_root (<[id := r]> db).
Proof. intros Hr. exists id, r. by rewrite lookup_insert_eq. Qed.

Lemma has_root_other (db db' : Accounts) id : (∀ i, i ≠ id → db' !! i = db !! i) →
  (∃ id' r, id' ≠ id ∧ db !! id' = Some r ∧ is_root r) → has_root db'.
Proof. intros Heq (id' & r & Hne & Hr & Hroot). exists id', r. by rewrite Heq. Qed.

Lemma updated_root now input r :
  is_root r → drops_root input = false → is_root (updated now input r).
Proof.
  intros [Hen Hroot] [Hd1 Hd2]%orb_false_iff. split; simpl.
  - destruct (usa_IsEnabled input) as [[]|]; done.
  - destruct (usa_Scopes input) as [|x l]; [done|]. simpl in Hd2. by apply negb_false_iff in Hd2.
Qed.

Lemma Update_keeps `{HostLib} now sa_faults id input db :
  accounts_wf db → has_root db →
  accounts_wf (Update now sa_faults id input db).2 ∧ has_root (Update now sa_faults id input db).2.
Proof.
  intros Hwf Hroot. unfold Update, Get. destruct (sa_faults SAGet); [done|].
  destruct (db !! id) as [r|] eqn:Er; [|done]. cbn [scan_account sa_Scopes].
  destruct (HasScope (sa_Scopes r) ScopeRoot && drops_root input) eqn:Eg.
  - destruct (assertOtherRootExists sa_faults id db) eqn:Ea; [|done].
    destruct (sa_faults SAUpdate); [done|]. split; simpl.
    + intros i x [[<- <-]|[_ ?]]%lookup_insert_Some; [by apply (Hwf _ _ Er)|by apply Hwf].
    + eapply has_root_other; [|by eapply other_root]. intros i Hi. by apply lookup_insert_ne.
  - destruct (sa_faults SAUpdate); [done|]. split; simpl.
    + intros i x [[<- <-]|[_ ?]]%lookup_insert_Some; [by apply (Hwf _ _ Er)|by apply Hwf].
    + destruct Hroot as (id' & r' & Hr' & Hroot). destruct (decide (id' = id)) as [->|Hne].
      * simplify_eq. apply has_root_insert, updated_root; [done|].
        destruct Hroot as [_ Hs]. by rewrite Hs in Eg.
      * eapply has_root_other; [intros i Hi; by apply lookup_insert_ne|]. by exists id', r'.
Qed.

Lemma Delete_keeps `{HostLib} sa_faults id db :
  accounts_wf db → has_root db →
  accounts_wf (Delete sa_faults id db).2 ∧ has_root (Delete sa_faults id db).2.
Proof.
  intros Hwf Hroot. unfold Delete, delete_exec. destruct (delete_check sa_faults id db) as [u|e] eqn:Ec; [|done].
  destruct (sa_faults SADelete); [done|]. split; simpl.
  { intros i x [_ ?]%lookup_delete_Some. by apply Hwf. }
  revert Ec. unfold delete_check, Get. destruct (sa_faults SAGet); [done|].
  destruct (db !! id) as [r|] eqn:Er; [|done]. cbn [scan_account sa_Scopes sa_ConsoleUserID].
  case_match; [done|]. intros Ec.
  apply (has_root_other db _ id); [intros i Hi; by apply lookup_delete_ne|].
  destruct (HasScope (sa_Scopes r) ScopeRoot) eqn:Eh; [by eapply other_root|].
  destruct Hroot as (id' & r' & Hr' & Hroot). exists id', r'. split; [|done].
  intros ->. simplify_eq. destruct Hroot. congruence.
Qed.

Lemma Create_keeps `{HostLib} now sa_faults newID rnd input db :
  accounts_wf db → has_root db →
  accounts_wf (Create now sa_faults newID rnd input db).2
  ∧ has_root (Create now sa_faults newID rnd input db).2.
Proof.
  intros Hwf (id & r & Hr & Hroot). unfold Create. case_match; [by split; [|exists id, r]|].
  destruct (GenerateServiceAccountSecretKey rnd) as [[prefix key] hash].
  destruct (sa_faults SAInsert); [by split; [|exists id, r]|]. cbn [orb].
  case_bool_decide as Hnew; [by split; [|exists id, r]|]. split; simpl.
  - intros i x [[<- <-]|[_ ?]]%lookup_insert_Some; [done|by apply Hwf].
  - exists id, r. rewrite lookup_insert_ne; [done|]. intros ->. apply Hnew. by eexists.
Qed.

Lemma touch_keeps now sa_faults id db :
  accounts_wf db → has_root db →
  accounts_wf (updateLastUsedAt now sa_faults id db) ∧ has_root (updateLastUsedAt now sa_faults id db).
Proof.
  intros Hwf (id' & r & Hr & Hroot). unfold updateLastUsedAt.
  destruct (sa_faults SATouch); [by split; [|exists id', r]|]. split.
  - intros i x. rewrite lookup_alter. case_decide; [|by apply Hwf].
    intros (y & Hy & ->)%fmap_Some. subst. by apply (Hwf _ _ Hy).
  - destruct (decide (id = id')) as [->|Hne].
    + exists id', (touched now r). by rewrite lookup_alter_eq, Hr.
    + exists id', r. by rewrite lookup_alter_ne.
Qed.

(** ** Sequences of operations *)

Inductive SAOp :=
| SACreateOp (newID : N) (randomBytes : string) (input : CreateServiceAccountInput)
| SAUpdateOp (id : N) (input : UpdateServiceAccountInput)
| SADeleteOp (id : N)
| SATouchOp (id : N).

Definition run_sa `{HostLib} (now : Z) (sa_faults : SAStmt → bool) (op : SAOp) (db : Accounts) : Accounts :=
  match op with
  | SACreateOp newID rnd input => (Create now sa_faults newID rnd input db).2
  | SAUpdateOp id input => (Update now sa_faults id input db).2
  | SADeleteOp id => (Delete sa_faults id db).2
  | SATouchOp id => updateLastUsedAt now sa_faults id db
  end.

Definition run_all `{HostLib} (ops : list (Z * (SAStmt → bool) * SAOp)) (db : Accounts) : Accounts :=
  foldl (λ db '(now, f, op), run_sa now f op db) db ops.

Lemma run_sa_keeps `{HostLib} now f op db :
  accounts_wf db → has_root db → accounts_wf (run_sa now f op db) ∧ has_root (run_sa now f op db).
Proof.
  destruct op; simpl; auto using Create_keeps, Update_keeps, Delete_keeps, touch_keeps.
Qed.

(** Operations run one after another never remove the last root account:
    from a table that has an enabled account whose scopes satisfy [*], every
    sequence of creations, updates, deletions and refreshes of the last use,
    with any statements failing, leads to a table that has one. *)
Theorem root_account_survives `{HostLib} ops db :
  accounts_wf db → has_root db → has_root (run_all ops db).
Proof.
  revert db. induction ops as [|[[now f] op] ops IH]; intros db Hwf Hroot; [done|]. simpl.
  destruct (run_sa_keeps now f op db Hwf Hroot). by apply IH.
Qed.

(** ** A concrete host, for the examples: the digest is the text itself and
    addresses are compared as text. *)
Definition sample_host : HostLib := {|
  sha256_Sum256 s := s;
  IPAddr := string;
  net_parse_ip s := if String.eqb s "" then None else Some s;
  ip_Equal := String.eqb;
  net_ParseCIDR p := Some (λ ip, HasPrefix ip (cut "/"%char p).1);
  net_SplitHostPort s := Some (cut ":"%char s).1;
|}.
Definition sa_ok (_ : SAStmt) : bool := false.

Definition root_row (id : N) (expires : option Z) : ServiceAccount :=
  MkServiceAccount id None "root" None "00000000" "hash" [ScopeRoot] true [] expires None 0 0.
Definition two_roots : Accounts := {[1%N := root_row 1 None; 2%N := root_row 2 None]}.

Lemma two_roots_wf : accounts_wf two_roots ∧ has_root two_roots.
Proof.
  split.
  - intros id r. unfold two_roots.
    intros [[<- <-]|[_ [<- <-]%lookup_singleton_Some]]%lookup_insert_Some; done.
  - exists 1%N, (root_row 1 None). split; [apply lookup_insert_eq|]. split; [done|].
    vm_compute. reflexivity.
Qed.

Lemma root_account_survives_witness :
  has_root (@run_all sample_host [(0, sa_ok, SADeleteOp 1); (0, sa_ok, SADeleteOp 2)] two_roots).
Proof. apply (@root_account_survives sample_host); apply two_roots_wf. Defined.

(** Two deletions at once remove both root accounts: each passes its
    check while the other account is still there, and then both rows go. *)
Theorem concurrent_deletes_remove_last_root :
  has_root two_roots
  ∧ delete_check sa_ok 1 two_roots = Ok tt ∧ delete_check sa_ok 2 two_roots = Ok tt
  ∧ (∀ db, Delete sa_ok 1 db = match delete_check sa_ok 1 db with
                               | Err e => (Err e, db)
                               | Ok _ => delete_exec sa_ok 1 db
                               end)
  ∧ (delete_exec sa_ok 2 (delete_exec sa_ok 1 two_roots).2).2 = ∅.
Proof.
  split; [apply two_roots_wf|]. split; [vm_compute; reflexivity|].
  split; [vm_compute; reflexivity|]. split; [done|]. vm_compute. reflexivity.
Qed.

(** The guard counts expired accounts: with one valid and one expired root
    account in the table, the valid one can be deleted, and the key of the
    account that is left is refused. *)
Theorem expired_root_satisfies_guard :
  let key := "0000000011112222" in
  let expired := MkServiceAccount 2 None "old" None "00000000" (hex_EncodeToString key) [ScopeRoot] true []
                   (Some 100) None 0 0 in
  let db := <[2%N := expired]> {[1%N := root_row 1 None]} in
  (Delete sa_ok 1 db).1 = Ok tt
  ∧ (Delete sa_ok 1 db).2 = {[2%N := expired]}
  ∧ @Authenticate sample_host 200 sa_ok key "" (Delete sa_ok 1 db).2 = Err ErrServiceAccountExpired.
Proof. vm_compute. done. Qed.

(** A failed [UPDATE] is answered as a success: the error of the statement
    is discarded, the table is as it was and the caller gets an account with
    no id, no name and no scopes. *)
Theorem failed_update_reports_success now sa_faults id input db r :
  sa_faults SAGet = false → sa_faults SAUpdate = true → db !! id = Some r →
  HasScope (sa_Scopes r) ScopeRoot && drops_root input = false →
  Update now sa_faults id input db = (Ok zero_account, db).
Proof. intros Hg Hu Hr Hd. unfold Update, Get. rewrite Hg, Hr. simpl. by rewrite Hd, Hu. Qed.

Definition rename_input : UpdateServiceAccountInput :=
  MkUpdateServiceAccountInput (Some "new") None [] None None None.

Lemma failed_update_reports_success_witness :
  Update 0 (λ s, match s with SAUpdate => true | _ => false end) 1 rename_input two_roots
  = (Ok zero_account, two_roots).
Proof.
  apply (failed_update_reports_success 0 _ 1 rename_input two_roots (root_row 1 None));
    try reflexivity.
Defined.

(** ** Authentication *)

Section authentication.
Context `{HostLib} (now : Z) (sa_faults : SAStmt → bool).

(** The key opens the row. *)
Definition key_of (key : string) (r : ServiceAccount) : Prop :=
  (minimumSecretKeyLength <= String.length key)%nat
  ∧ sa_KeyPrefix r = slice_to secretKeyPrefixLength key ∧ sa_KeyHash r = HashSecretKey key.

(** The row may be used now from the address. *)
Definition usable (clientIP : string) (r : ServiceAccount) : Prop :=
  sa_IsEnabled r = true
  ∧ (∀ e, sa_ExpiresAt r = Some e → now <= e)
  ∧ (sa_AllowedIPs r ≠ [] → clientIP ≠ "" → IsIPAllowed clientIP (sa_AllowedIPs r) = true).

Lemma rows_with_prefix_spec prefix (db : Accounts) r :
  r ∈ rows_with_prefix prefix db ↔ sa_KeyPrefix r = prefix ∧ ∃ id, db !! id = Some r.
Proof.
  unfold rows_with_prefix. rewrite list_elem_of_filter, list_elem_of_fmap. split.
  - intros (Hp & [id x] & -> & Hin%elem_of_map_to_list). eauto.
  - intros (Hp & id & Hr). split; [done|]. exists (id, r). by rewrite elem_of_map_to_list.
Qed.

Lemma find_key_row key db :
  (minimumSecretKeyLength <= String.length key)%nat →
  match List.find (λ r, String.eqb (sa_KeyHash r) (HashSecretKey key))
          (rows_with_prefix (slice_to secretKeyPrefixLength key) db) with
  | Some r => (∃ id, db !! id = Some r) ∧ key_of key r
  | None => ∀ id r, db !! id = Some r → ¬ key_of key r
  end.
Proof.
  intros Hlen. destruct (List.find _ _) as [r|] eqn:Ef.
  - apply List.find_some in Ef as [Hin Heq]. apply list_elem_of_In, rows_with_prefix_spec in Hin as [Hp Hid].
    split; [done|]. split; [done|]. split; [done|]. by apply String.eqb_eq.
  - intros id r Hr (_ & Hp & Hh).
    assert (Hin : In r (rows_with_prefix (slice_to secretKeyPrefixLength key) db)).
    { apply list_elem_of_In, rows_with_prefix_spec. eauto. }
    apply (List.find_none _ _ Ef) in Hin. by rewrite Hh, String.eqb_refl in Hin.
Qed.

Lemma not_expired_spec (expires : option Z) :
  match expires with Some e => e <? now | None => false end = false
  ↔ ∀ e, expires = Some e → now <= e.
Proof.
  destruct expires as [e|]; [rewrite Z.ltb_ge|]; split; [|by auto|done..]. by intros Hle e' [= <-].
Qed.

Lemma usable_spec clientIP r :
  usable clientIP r ↔
  sa_IsEnabled r = true
  ∧ match sa_ExpiresAt r with Some e => e <? now | None => false end = false
  ∧ negb (bool_decide (sa_AllowedIPs r = [])) && negb (String.eqb clientIP "")
      && negb (IsIPAllowed clientIP (sa_AllowedIPs r)) = false.
Proof.
  unfold usable. rewrite not_expired_spec.
  destruct (String.eqb_spec clientIP "") as [->|Hc]; [rewrite andb_false_r; naive_solver|].
  case_bool_decide as Ha; cbn [negb andb]; [naive_solver|]. rewrite negb_false_iff. naive_solver.
Qed.

(** The row [Authenticate] looks at, and what it answers about it. *)
Definition refresh_due (r : ServiceAccount) : bool :=
  match sa_LastUsedAt r with None => true | Some u => 60 * Second <? now - u end.

Lemma Authenticate_found key clientIP db a b :
  Authenticate now sa_faults key clientIP db = Ok (a, b) →
  ∃ id r, db !! id = Some r ∧ key_of (TrimSpace key) r ∧ usable clientIP r
    ∧ a = scan_account r ∧ b = refresh_due r.
Proof.
  unfold Authenticate. set (k := TrimSpace key).
  destruct (Nat.ltb_spec (String.length k) minimumSecretKeyLength) as [|Hlen]; [done|].
  destruct (sa_faults SASelectPrefix); [done|].
  pose proof (find_key_row k db Hlen) as Hf. destruct (List.find _ _) as [r|]; [|done].
  destruct Hf as [[id Hid] Hk]. cbn [scan_account sa_IsEnabled sa_ExpiresAt sa_AllowedIPs sa_LastUsedAt].
  destruct (negb (sa_IsEnabled r)) eqn:Hen; [done|].
  destruct (match sa_ExpiresAt r with Some e => e <? now | None => false end) eqn:Hex; [done|].
  destruct (_ && _ && _) eqn:Hip; [done|]. intros [= <- <-]. exists id, r. split; [done|]. split; [done|].
  split; [|done]. apply negb_false_iff in Hen. by apply usable_spec.
Qed.

Lemma Authenticate_finds key clientIP db id r :
  sa_faults SASelectPrefix = false → db !! id = Some r → key_of (TrimSpace key) r →
  (∀ id' r', db !! id' = Some r' → key_of (TrimSpace key) r' → r' = r) →
  usable clientIP r →
  Authenticate now sa_faults key clientIP db = Ok (scan_account r, refresh_due r).
Proof.
  intros Hf Hid Hk Hun Hu. unfold Authenticate. set (k := TrimSpace key) in *.
  destruct Hk as [Hlen Hk0]. assert (Hk : key_of k r) by (split; done).
  destruct (Nat.ltb_spec (String.length k) minimumSecretKeyLength); [lia|]. rewrite Hf.
  pose proof (find_key_row k db Hlen) as Hfind. destruct (List.find _ _) as [r'|].
  - destruct Hfind as [[id' Hid'] Hk']. rewrite (Hun id' r') by done.
    apply usable_spec in Hu as (Hen & Hex & Hip).
    cbn [scan_account sa_IsEnabled sa_ExpiresAt sa_AllowedIPs sa_LastUsedAt].
    by rewrite Hen, Hex, Hip.
  - by destruct (Hfind id r).
Qed.
End authentication.

(** C33: When the query for the key succeeds and no two rows share the key, a
    presented key is accepted if and only if some row has the prefix and the
    hash of the trimmed key, is enabled, is not expired and, where it lists
    addresses and the caller's is known, lists the caller's; the answer is
    that row without its hash. *)
Theorem Authenticate_spec `{HostLib} now sa_faults key clientIP db a :
  sa_faults SASelectPrefix = false →
  (∀ i1 i2 r1 r2, db !! i1 = Some r1 → db !! i2 = Some r2 →
     key_of (TrimSpace key) r1 → key_of (TrimSpace key) r2 → r1 = r2) →
  (∃ refresh, Authenticate now sa_faults key clientIP db = Ok (a, refresh))
  ↔ ∃ id r, db !! id = Some r ∧ key_of (TrimSpace key) r ∧ usable now clientIP r ∧ a = scan_account r.
Proof.
  intros Hf Hun. split.
  - intros [b Hb]. apply Authenticate_found in Hb as (id & r & ? & ? & ? & ? & _). eauto 10.
  - intros (id & r & Hid & Hk & Hu & ->). exists (refresh_due now r).
    eapply Authenticate_finds; eauto.
Qed.

(** ** A new key works *)

Lemma hex_digit_plain n : (n < 16)%nat → plain_char (hex_digit n) = true.
Proof. intros Hn. do 16 (destruct n as [|n]; [done|]). lia. Qed.

Lemma hex_plain s : plain (hex_EncodeToString s) = true.
Proof.
  induction s as [|c s IH]; [done|]. cbn [hex_EncodeToString]. unfold plain in *. cbn [all_chars].
  pose proof (nat_ascii_bounded c). rewrite IH, !hex_digit_plain; [done| |].
  - apply Nat.mod_upper_bound. lia.
  - apply Nat.Div0.div_lt_upper_bound. lia.
Qed.

Lemma hex_length s : String.length (hex_EncodeToString s) = (2 * String.length s)%nat.
Proof. induction s as [|c s IH]; [done|]. cbn [hex_EncodeToString String.length]. lia. Qed.

(** The key of a new account, whose bytes no other key has, authenticates. *)
Lemma Create_authenticates `{HostLib} now sa_faults faults' newID rnd input db a key db' clientIP later :
  String.length rnd = secretKeyEntropyBytes →
  (∀ id r, db !! id = Some r → ¬ key_of (hex_EncodeToString rnd) r) →
  Create now sa_faults newID rnd input db = (Ok (a, key), db') →
  faults' SASelectPrefix = false →
  (∀ e, csa_ExpiresAt input = Some e → later <= e) →
  (csa_AllowedIPs input ≠ [] → clientIP ≠ "" → IsIPAllowed clientIP (csa_AllowedIPs input) = true) →
  Authenticate later faults' key clientIP db' = Ok (a, true)
  ∧ sa_ID a = newID ∧ sa_IsEnabled a = true
  ∧ sa_Scopes a = match csa_Scopes input with [] => [ScopeRoot] | l => l end.
Proof.
  intros Hrnd Hnone Hc Hf Hexp Hip. revert Hc. unfold Create. case_match; [done|].
  cbn [GenerateServiceAccountSecretKey]. case_match; [done|].
  match goal with |- context [<[newID := ?x]> db] => set (row := x) end.
  intros [= <- <- <-]. split; [|done].
  assert (Hkey : key_of (TrimSpace (hex_EncodeToString rnd)) row).
  { rewrite TrimSpace_plain by apply hex_plain. split; [|done]. rewrite hex_length, Hrnd.
    unfold minimumSecretKeyLength, secretKeyEntropyBytes. lia. }
  change (Ok (scan_account row, true)) with (Ok (E := SAError) (scan_account row, refresh_due later row)).
  apply (Authenticate_finds later faults' _ clientIP _ newID); [done|by rewrite lookup_insert_eq|done| |done].
  intros id' r' [[_ <-]|[_ Hr']]%lookup_insert_Some Hk'; [done|].
  rewrite TrimSpace_plain in Hk' by apply hex_plain. by destruct (Hnone id' r').
Qed.

(** The key [Create] hands out authenticates as the account created: for
    32 random bytes whose key no row has yet, from an allowed address and
    before the expiry, the account comes back, enabled and with the scopes
    asked for (root when none were). *)
Theorem created_key_authenticates `{HostLib} now sa_faults newID rnd input db a key db' clientIP later :
  String.length rnd = secretKeyEntropyBytes →
  (∀ id r, db !! id = Some r → ¬ key_of (hex_EncodeToString rnd) r) →
  Create now sa_faults newID rnd input db = (Ok (a, key), db') →
  sa_faults SASelectPrefix = false →
  (∀ e, csa_ExpiresAt input = Some e → later <= e) →
  (csa_AllowedIPs input ≠ [] → clientIP ≠ "" → IsIPAllowed clientIP (csa_AllowedIPs input) = true) →
  Authenticate later sa_faults key clientIP db' = Ok (a, true)
  ∧ sa_ID a = newID ∧ sa_IsEnabled a = true
  ∧ sa_Scopes a = match csa_Scopes input with [] => [ScopeRoot] | l => l end.
Proof. apply Create_authenticates. Qed.

(** ** Examples *)

Definition sample_bytes : string := "0123456789abcdefghijklmnopqrstuv".
Definition sample_key : string := hex_EncodeToString sample_bytes.
Definition ci_input (scopes : list string) : CreateServiceAccountInput :=
  MkCreateServiceAccountInput None "ci" None scopes ["10.0.0.0/8"] (Some 500).
Definition ci_row (scopes : list string) : ServiceAccount :=
  MkServiceAccount 7 None "ci" None (slice_to 8 sample_key) (@HashSecretKey sample_host sample_key) scopes
    true ["10.0.0.0/8"] (Some 500) None 100 100.

Lemma Authenticate_spec_witness :
  (∃ refresh, @Authenticate sample_host 200 sa_ok sample_key "10.0.0.0" {[7%N := ci_row ["tasks:*"]]}
     = Ok (scan_account (ci_row ["tasks:*"]), refresh))
  ↔ ∃ id r, ({[7%N := ci_row ["tasks:*"]]} : Accounts) !! id = Some r
      ∧ @key_of sample_host (TrimSpace sample_key) r ∧ @usable sample_host 200 "10.0.0.0" r
      ∧ scan_account (ci_row ["tasks:*"]) = scan_account r.
Proof.
  apply (@Authenticate_spec sample_host); [reflexivity|].
  intros i1 i2 r1 r2 [<- <-]%lookup_singleton_Some [<- <-]%lookup_singleton_Some. done.
Defined.

Lemma created_key_authenticates_witness :
  @Authenticate sample_host 200 sa_ok sample_key "10.0.0.0" {[7%N := ci_row ["tasks:*"]]}
  = Ok (scan_account (ci_row ["tasks:*"]), true)
  ∧ sa_ID (scan_account (ci_row ["tasks:*"])) = 7%N
  ∧ sa_IsEnabled (scan_account (ci_row ["tasks:*"])) = true
  ∧ sa_Scopes (scan_account (ci_row ["tasks:*"])) = ["tasks:*"].
Proof.
  apply (@created_key_authenticates sample_host 100 sa_ok 7 sample_bytes (ci_input ["tasks:*"]) ∅).
  - reflexivity.
  - intros id r. by rewrite lookup_empty.
  - vm_compute. reflexivity.
  - reflexivity.
  - intros e [= <-]. lia.
  - intros _ _. vm_compute. reflexivity.
Defined.

(** ** The caller in the context *)

Lemma default_role_fields role c :
  Subject (default_role role c) = Subject c ∧ Audience (default_role role c) = Audience c.
Proof. unfold default_role. by destruct (String.eqb (JWTRole c) ""). Qed.

Lemma default_role_machine role c :
  String.eqb (JWTRole (default_role role c)) "service_role"
  = if String.eqb (JWTRole c) "" then String.eqb role "service_role"
    else String.eqb (JWTRole c) "service_role".
Proof. unfold default_role. by destruct (String.eqb (JWTRole c) ""). Qed.

Lemma WithAuthContext_machine a :
  IsServiceAccount (WithAuthContext a) = IsServiceAccount a.
Proof.
  unfold WithAuthContext. destruct (IsServiceAccount a) eqn:Hsa.
  - unfold IsServiceAccount in *. cbn [ServiceAccountID JWT].
    rewrite default_role_machine. destruct (default_role_fields "service_role" (JWT a)) as [_ ->].
    destruct (String.eqb_spec (JWTRole (JWT a)) ""); [by rewrite orb_true_r|].
    destruct (String.eqb (ServiceAccountID a) "") eqn:E; cbn [andb].
    + destruct (negb (String.eqb (Subject (JWT a)) "")) eqn:E2; [by rewrite E2|]. by rewrite E.
    + by rewrite E.
  - revert Hsa. unfold IsServiceAccount. intros Hsa. pose proof Hsa as Hsa0.
    apply orb_false_iff in Hsa as [[Hid Hrole]%orb_false_iff Haud].
    destruct (negb (String.eqb (Subject (JWT a)) "")), (negb (String.eqb (UserID a) "")); try done;
      cbn [ServiceAccountID JWT]; rewrite default_role_machine;
      destruct (default_role_fields "authenticated" (JWT a)) as [_ ->];
      rewrite Hrole, Haud; by destruct (String.eqb (JWTRole (JWT a)) "").
Qed.

(** The stored caller is a machine or a user, never both: a service
    account has no user id, any other caller has no service account id, and
    storing keeps which of the two it is. *)
Theorem WithAuthContext_exclusive a :
  let b := WithAuthContext a in
  IsServiceAccount b = IsServiceAccount a
  ∧ (IsServiceAccount b = true → UserID b = "")
  ∧ (IsServiceAccount b = false → ServiceAccountID b = "").
Proof.
  cbn zeta. rewrite WithAuthContext_machine. split; [done|]. unfold WithAuthContext.
  destruct (IsServiceAccount a) eqn:Hsa; [done|]. split; [done|]. intros _.
  apply orb_false_iff in Hsa as [[Hid _]%orb_false_iff _]. apply negb_false_iff, String.eqb_eq in Hid.
  by destruct (negb (String.eqb (Subject (JWT a)) "")), (negb (String.eqb (UserID a) "")).
Qed.

(** ** Scopes carried as a claim *)

Section key_caller.
Context `{HostLib} (now : Z) (sa_faults : SAStmt → bool) (trustProxy : bool) (id_text : N → string).

Lemma key_auth_account request db a :
  key_auth now sa_faults trustProxy id_text request db = Some a →
  ∃ acc refresh,
    Authenticate now sa_faults (ExtractRequestServiceAccountKey request)
      (ExtractRequestClientIP trustProxy request) db = Ok (acc, refresh)
    ∧ IsServiceAccount a = true ∧ UserID a = "" ∧ Scope_ (JWT a) = Join (sa_Scopes acc) " ".
Proof.
  unfold key_auth. destruct (String.eqb _ ""); [done|].
  destruct (Authenticate _ _ _ _ _) as [[acc b]|e]; [|done]. intros [= <-].
  exists acc, b. split; [done|]. rewrite WithAuthContext_machine.
  unfold IsServiceAccount. cbn [ServiceAccountID JWT JWTRole]. rewrite String.eqb_refl, orb_true_r.
  split; [done|]. unfold WithAuthContext, IsServiceAccount. cbn [ServiceAccountID JWT JWTRole].
  by rewrite String.eqb_refl, orb_true_r.
Qed.
End key_caller.

(** Carrying the scopes of an account as one claim loses nothing when the
    scopes are not empty and have no spaces: the caller identity the
    middleware builds from a key is a machine that satisfies exactly what the
    account's list satisfies. *)
Theorem key_caller_scopes `{HostLib} now sa_faults trustProxy id_text request db a :
  key_auth now sa_faults trustProxy id_text request db = Some a →
  IsServiceAccount a = true ∧ UserID a = ""
  ∧ ∃ acc refresh,
      Authenticate now sa_faults (ExtractRequestServiceAccountKey request)
        (ExtractRequestClientIP trustProxy request) db = Ok (acc, refresh)
      ∧ (Forall (λ s, plain s = true ∧ s ≠ "") (sa_Scopes acc) →
         ∀ required, auth_HasScope a required = HasScope (sa_Scopes acc) required).
Proof.
  intros (acc & refresh & Hauth & Hsa & Hu & Hs)%key_auth_account.
  split; [done|]. split; [done|]. exists acc, refresh. split; [done|]. intros Hp required.
  unfold auth_HasScope, Scopes_. by rewrite Hs, Fields_Join.
Qed.

Definition key_request (key : string) : Request :=
  MkRequest (λ h, if String.eqb h "Service-Account-Key" then key
                  else if String.eqb h "X-Forwarded-For" then "10.0.0.0" else "")
    (λ _, None) "" no_auth.
Definition ci_caller : AuthContext :=
  default no_auth (@key_auth sample_host 200 sa_ok true (λ _, "7") (key_request sample_key)
    {[7%N := ci_row ["tasks:*"]]}).

Lemma key_caller_scopes_witness :
  IsServiceAccount ci_caller = true ∧ UserID ci_caller = ""
  ∧ ∃ acc refresh,
      @Authenticate sample_host 200 sa_ok (ExtractRequestServiceAccountKey (key_request sample_key))
        (@ExtractRequestClientIP sample_host true (key_request sample_key)) {[7%N := ci_row ["tasks:*"]]}
      = Ok (acc, refresh)
      ∧ (Forall (λ s, plain s = true ∧ s ≠ "") (sa_Scopes acc) →
         ∀ required, auth_HasScope ci_caller required = HasScope (sa_Scopes acc) required).
Proof. apply (@key_caller_scopes sample_host _ _ _ (λ _, "7")). vm_compute. reflexivity. Defined.

(** A scope with a space in it is split on the way: an account whose only
    scope is the text [tasks:job.read *] may not write service accounts by its
    list, and the caller identity built from its key is root. *)
Theorem spaced_scope_becomes_root :
  let scopes := ["tasks:job.read *"] in
  HasScope scopes ScopeCoreServiceAccountWrite = false
  ∧ ∃ a, @key_auth sample_host 200 sa_ok true (λ _, "7") (key_request sample_key)
           {[7%N := ci_row scopes]} = Some a
         ∧ auth_HasScope a ScopeCoreServiceAccountWrite = true
         ∧ auth_HasScope a ScopeRoot = true.
Proof.
  cbn zeta. split; [vm_compute; reflexivity|]. eexists. split; [vm_compute; reflexivity|].
  split; vm_compute; reflexivity.
Qed.

(** ** Requests without a key *)

(** Requests that carry no credentials pass every scope check: with no
    header and no cookie the middleware finds no caller, and [RequireScope]
    lets the request go on whatever scope it asks for, while a request that
    carries a key [Authenticate] refuses is answered 403. *)
Theorem anonymous_passes_scope_checks `{HostLib} now sa_faults trustProxy verify hash select id_text
    handle request required db :
  (∀ h, Header request h = "") → (∀ c, Cookie request c = None) → AuthCtx request = no_auth →
  authenticate_request now sa_faults trustProxy verify hash select id_text handle request db = no_auth
  ∧ RequireScope now sa_faults trustProxy request required db = None
  ∧ ∀ keyed, AuthCtx keyed = no_auth → ExtractRequestServiceAccountKey keyed ≠ "" →
      (∀ x, Authenticate now sa_faults (ExtractRequestServiceAccountKey keyed)
              (ExtractRequestClientIP trustProxy keyed) db ≠ Ok x) →
      RequireScope now sa_faults trustProxy keyed required db = Some 403.
Proof.
  intros Hh Hc Ha.
  assert (Hcookie : session_cookie request = "") by (unfold session_cookie; by rewrite !Hc).
  assert (Hkey : ExtractRequestServiceAccountKey request = "").
  { unfold ExtractRequestServiceAccountKey. by rewrite !Hh. }
  assert (Htok : ExtractRequestSessionToken request = "").
  { unfold ExtractRequestSessionToken. rewrite Hh, Hcookie. done. }
  split; [|split].
  - unfold authenticate_request, jwt_auth, key_auth, session_auth, refresh_token, header_or.
    by rewrite Htok, Hkey, Hcookie, !Hh.
  - unfold RequireScope, CheckScope. rewrite Ha, Hkey. done.
  - intros keyed Hk Hne Hbad. unfold RequireScope, CheckScope. rewrite Hk.
    change (IsServiceAccount no_auth) with false. cbn [negb]. apply String.eqb_neq in Hne. rewrite Hne.
    destruct (Authenticate _ _ _ _ _) as [x|e]; [by destruct (Hbad x)|done].
Qed.

Definition bare_request : Request := MkRequest (λ _, "") (λ _, None) "10.0.0.1:4000" no_auth.

Lemma anonymous_passes_scope_checks_witness :
  @authenticate_request sample_host 0 sa_ok true (λ _, None) (λ s, s) (λ _, None) (λ _, "7") "layr"
    bare_request two_roots = no_auth
  ∧ @RequireScope sample_host 0 sa_ok true bare_request ScopeTasksJobWrite two_roots = None
  ∧ ∀ keyed, AuthCtx keyed = no_auth → ExtractRequestServiceAccountKey keyed ≠ "" →
      (∀ x, @Authenticate sample_host 0 sa_ok (ExtractRequestServiceAccountKey keyed)
              (@ExtractRequestClientIP sample_host true keyed) two_roots ≠ Ok x) →
      @RequireScope sample_host 0 sa_ok true keyed ScopeTasksJobWrite two_roots = Some 403.
Proof. by apply (@anonymous_passes_scope_checks sample_host). Defined.
