(* ===== verification/TasksHandlers.v ===== *)
(** * The control plane of the tasks service

    core/pagination.go and the handlers of tasks/control_plane_handler_*.go: the
    scope check, the decoding of path, query and body, the call of the
    manager and the status of every answer.

    A handler that calls code which does not return does not answer
    ([Diverges]).  A response is its status and what is written to it.  The decoders of
    [encoding/json], [uuid.Parse] and [url.Query] are parameters: a request
    carries its path values and its query as functions. *)

From Stdlib Require Import ZArith Lia Ascii String QArith.
From stdpp Require Import sorting.
From S2P Require Import Prelude GoStrings GoTime Cron TasksModel JobManager Scopes ServiceAccounts TasksInv.
Local Open Scope string_scope.
Local Open Scope Z_scope.

(** ** core/pagination.go *)

Definition DefaultPaginationLimit : Z := 50.
Definition MaxPaginationLimit : Z := 1000.

Record PaginationInput := MkPaginationInput { pi_Limit : Z; pi_Offset : Z }.
Record PaginationOutput := MkPaginationOutput { po_Limit : Z; po_Offset : Z; po_Count : Z; po_Total : Z }.

Definition ParsePaginationWithDefaults (query : string → string) (defaultLimit maxLimit : Z)
    : PaginationInput :=
  let limit :=
    let rawLimit := query "limit" in
    if String.eqb rawLimit "" then defaultLimit else
    match Atoi rawLimit with
    | Some parsedLimit =>
        if 0 <? parsedLimit then
          if (0 <? maxLimit) && (maxLimit <? parsedLimit) then maxLimit else parsedLimit
        else defaultLimit
    | None => defaultLimit
    end in
  let offset :=
    let rawOffset := query "offset" in
    if String.eqb rawOffset "" then 0 else
    match Atoi rawOffset with
    | Some parsedOffset => if 0 <=? parsedOffset then parsedOffset else 0
    | None => 0
    end in
  MkPaginationInput limit offset.

Definition ParsePagination (query : string → string) : PaginationInput :=
  ParsePaginationWithDefaults query DefaultPaginationLimit MaxPaginationLimit.

(** ** Requests and responses *)

Record ControlRequest := MkControlRequest {
  http_request : Request; PathValue : string → string; Query : string → string;
  RequestBody : option string; ContentLength : Z }.

Inductive ErrorDetail := Detail (text : string) | ErrorText (e : TaskError).

Inductive ResponseBody :=
| NoBody
| ErrorBody (d : ErrorDetail)
| JobBody (job : Job)
| GetJobBody (job : GetJobResponse)
| ListJobsBody (jobs : list GetJobResponse) (count : Z)
| TriggerBody (r : TriggerExecutionResponse)
| ListExecutionsBody (data : list ExecutionLog) (p : PaginationOutput)
| ListDLQBody (data : list DLQExecution) (p : PaginationOutput)
| RetryDLQBody (r : RetryDLQResponse)
| ConfigBody (c : Config)
| StatsBody (r : GetStatsResponse).

Record Response := MkResponse { status : Z; body : ResponseBody }.

Definition StatusOK : Z := 200.
Definition StatusCreated : Z := 201.
Definition StatusAccepted : Z := 202.
Definition StatusNoContent : Z := 204.
Definition StatusBadRequest : Z := 400.
Definition StatusForbidden : Z := 403.
Definition StatusNotFound : Z := 404.
Definition StatusConflict : Z := 409.
Definition StatusInternalServerError : Z := 500.

Definition WriteErrorResponse (st : Z) (d : ErrorDetail) : Response := MkResponse st (ErrorBody d).

Class ControlLib := MkControlLib {
  uuid_Parse : string → option uuid;
  decode_create_job : string → option CreateJobInput;
  decode_update_job : string → option UpdateJobInput;
  decode_trigger : string → option TriggerExecutionInput;
  (** Decoding over the current configuration: absent fields keep their value. *)
  decode_config : Config → string → option Config;
}.

Definition defaultListLimit : Z := 50.

Section handlers.
Context `{Platform} `{HostLib} `{ControlLib} (env : Env) (sa_faults : SAStmt → bool) (trustProxy : bool)
  (accounts : Accounts).

(** [RequireScope] first: a refused request is answered and goes no
    further. *)
Definition with_scope (request : ControlRequest) (scope : string) (k : M Response) : M Response :=
  match RequireScope (app_now env) sa_faults trustProxy (http_request request) scope accounts with
  | Some st => mret (WriteErrorResponse st (Detail ("Forbidden: scope " ++ scope ++ " required")))
  | None => k
  end.

(** An absent body does not decode. *)
Definition decode_body {A} (decode : string → option A) (request : ControlRequest) : option A :=
  RequestBody request ≫= decode.

Definition handleListJobs (request : ControlRequest) : M Response :=
  with_scope request ScopeTasksJobRead (
    r ← try (ListJobs env);
    match r with
    | Err e => mret (WriteErrorResponse StatusInternalServerError (ErrorText e))
    | Ok jobs => mret (MkResponse StatusOK (ListJobsBody jobs (Z.of_nat (List.length jobs))))
    end).

Definition handleCreateJob (request : ControlRequest) : M Response :=
  with_scope request ScopeTasksJobWrite (
    match decode_body decode_create_job request with
    | None => mret (WriteErrorResponse StatusBadRequest (Detail "Invalid request body"))
    | Some createJobInput =>
        r ← try (CreateJob env createJobInput);
        match r with
        | Err ErrJobAlreadyExists => mret (WriteErrorResponse StatusConflict (ErrorText ErrJobAlreadyExists))
        | Err Diverges => fail Diverges
        | Err e => mret (WriteErrorResponse StatusBadRequest (ErrorText e))
        | Ok job => mret (MkResponse StatusCreated (JobBody job))
        end
    end).

Definition handleGetJob (request : ControlRequest) : M Response :=
  with_scope request ScopeTasksJobRead (
    match uuid_Parse (PathValue request "job_id") with
    | None => mret (WriteErrorResponse StatusBadRequest (Detail "Invalid job UUID"))
    | Some jobID =>
        r ← try (GetJob env jobID);
        match r with
        | Err ErrJobNotFound => mret (WriteErrorResponse StatusNotFound (Detail "Job not found"))
        | Err e => mret (WriteErrorResponse StatusInternalServerError (ErrorText e))
        | Ok job => mret (MkResponse StatusOK (GetJobBody job))
        end
    end).

Definition handleUpdateJob (request : ControlRequest) : M Response :=
  with_scope request ScopeTasksJobWrite (
    match uuid_Parse (PathValue request "job_id") with
    | None => mret (WriteErrorResponse StatusBadRequest (Detail "Invalid job UUID"))
    | Some jobID =>
        match decode_body decode_update_job request with
        | None => mret (WriteErrorResponse StatusBadRequest (Detail "Invalid request body"))
        | Some updateJobInput =>
            r ← try (UpdateJob env jobID updateJobInput);
            match r with
            | Err ErrJobNotFound => mret (WriteErrorResponse StatusNotFound (Detail "Job not found"))
            | Err ErrJobAlreadyExists =>
                mret (WriteErrorResponse StatusConflict (ErrorText ErrJobAlreadyExists))
            | Err Diverges => fail Diverges
            | Err e => mret (WriteErrorResponse StatusBadRequest (ErrorText e))
            | Ok job => mret (MkResponse StatusOK (JobBody job))
            end
        end
    end).

Definition handleDeleteJob (request : ControlRequest) : M Response :=
  with_scope request ScopeTasksJobWrite (
    match uuid_Parse (PathValue request "job_id") with
    | None => mret (WriteErrorResponse StatusBadRequest (Detail "Invalid job UUID"))
    | Some jobID =>
        r ← try (DeleteJob env jobID);
        match r with
        | Err ErrJobNotFound => mret (WriteErrorResponse StatusNotFound (Detail "Job not found"))
        | Err e => mret (WriteErrorResponse StatusInternalServerError (ErrorText e))
        | Ok _ => mret (MkResponse StatusNoContent NoBody)
        end
    end).

(** The body is read only when it is announced. *)
Definition trigger_input (request : ControlRequest) : option TriggerExecutionInput :=
  match RequestBody request with
  | Some b => if 0 <? ContentLength request then decode_trigger b
              else Some (MkTriggerExecutionInput None None)
  | None => Some (MkTriggerExecutionInput None None)
  end.

Definition handleTriggerExecution (request : ControlRequest) : M Response :=
  with_scope request ScopeTasksExecutionWrite (
    match trigger_input request with
    | None => mret (WriteErrorResponse StatusBadRequest (Detail "Invalid request body"))
    | Some triggerExecutionInput =>
        r ← try (TriggerExecution env triggerExecutionInput);
        match r with
        | Err ErrJobNotFound => mret (WriteErrorResponse StatusNotFound (Detail "Job not found"))
        | Err e => mret (WriteErrorResponse StatusBadRequest (ErrorText e))
        | Ok resp => mret (MkResponse StatusAccepted (TriggerBody resp))
        end
    end).

(** The [job_id] of the query: absent, or a UUID. *)
Definition job_filter (request : ControlRequest) : option (option uuid) :=
  let rawJobID := Query request "job_id" in
  if String.eqb rawJobID "" then Some None else Some <$> uuid_Parse rawJobID.

Definition handleListExecutions (request : ControlRequest) : M Response :=
  with_scope request ScopeTasksExecutionRead (
    match job_filter request with
    | None => mret (WriteErrorResponse StatusBadRequest (Detail "Invalid job_id query parameter"))
    | Some jobID =>
        let p := ParsePaginationWithDefaults (Query request) defaultListLimit MaxPaginationLimit in
        r ← try (ListExecutions env jobID (pi_Limit p) (pi_Offset p));
        match r with
        | Err e => mret (WriteErrorResponse StatusInternalServerError (ErrorText e))
        | Ok (executions, totalCount) =>
            mret (MkResponse StatusOK (ListExecutionsBody executions
              (MkPaginationOutput (pi_Limit p) (pi_Offset p) (Z.of_nat (List.length executions)) totalCount)))
        end
    end).

Definition handleListDLQ (request : ControlRequest) : M Response :=
  with_scope request ScopeTasksExecutionRead (
    let p := ParsePaginationWithDefaults (Query request) defaultListLimit MaxPaginationLimit in
    r ← try (ListDLQ env (pi_Limit p) (pi_Offset p));
    match r with
    | Err e => mret (WriteErrorResponse StatusInternalServerError (ErrorText e))
    | Ok (dlq, totalCount) =>
        mret (MkResponse StatusOK (ListDLQBody dlq
          (MkPaginationOutput (pi_Limit p) (pi_Offset p) (Z.of_nat (List.length dlq)) totalCount)))
    end).

Definition handleRetryDLQ (request : ControlRequest) : M Response :=
  with_scope request ScopeTasksExecutionWrite (
    match uuid_Parse (PathValue request "execution_id") with
    | None => mret (WriteErrorResponse StatusBadRequest (Detail "Invalid execution UUID"))
    | Some executionID =>
        r ← try (RetryDLQExecution env executionID);
        match r with
        | Err ErrDLQItemNotFound => mret (WriteErrorResponse StatusNotFound (Detail "Execution not found"))
        | Err e => mret (WriteErrorResponse StatusInternalServerError (ErrorText e))
        | Ok resp => mret (MkResponse StatusOK (RetryDLQBody resp))
        end
    end).

Definition handlePurgeDLQ (request : ControlRequest) : M Response :=
  with_scope request ScopeTasksExecutionWrite (
    match uuid_Parse (PathValue request "execution_id") with
    | None => mret (WriteErrorResponse StatusBadRequest (Detail "Invalid execution UUID"))
    | Some executionID =>
        r ← try (PurgeDLQExecution env executionID);
        match r with
        | Err ErrDLQItemNotFound => mret (WriteErrorResponse StatusNotFound (Detail "Execution not found"))
        | Err e => mret (WriteErrorResponse StatusInternalServerError (ErrorText e))
        | Ok _ => mret (MkResponse StatusNoContent NoBody)
        end
    end).

Definition handleGetConfig (request : ControlRequest) : M Response :=
  with_scope request ScopeTasksConfigRead (
    c ← GetConfig; mret (MkResponse StatusOK (ConfigBody c))).

Definition handleUpdateConfig (request : ControlRequest) : M Response :=
  with_scope request ScopeTasksConfigWrite (
    current ← GetConfig;
    match decode_body (decode_config current) request with
    | None => mret (WriteErrorResponse StatusBadRequest (Detail "Invalid JSON payload"))
    | Some newConfig =>
        r ← try (SetConfig env newConfig);
        match r with
        | Err (ErrInvalidConfig e) =>
            mret (WriteErrorResponse StatusBadRequest (ErrorText (ErrInvalidConfig e)))
        | Err e => mret (WriteErrorResponse StatusInternalServerError (ErrorText e))
        | Ok _ => mret (MkResponse StatusOK (ConfigBody newConfig))
        end
    end).

Definition handleGetStats (request : ControlRequest) : M Response :=
  with_scope request ScopeTasksStatsRead (
    r ← try (GetStats env);
    match r with
    | Err e => mret (WriteErrorResponse StatusInternalServerError (ErrorText e))
    | Ok stats => mret (MkResponse StatusOK (StatsBody stats))
    end).

(** ** The routes (tasks/router.go) *)

Inductive Route :=
| ListJobsRoute | CreateJobRoute | GetJobRoute | UpdateJobRoute | DeleteJobRoute
| TriggerRoute | ListExecutionsRoute | ListDLQRoute | RetryDLQRoute | PurgeDLQRoute
| GetConfigRoute | UpdateConfigRoute | GetStatsRoute.

Definition route_pattern (r : Route) : string * string :=
  match r with
  | ListJobsRoute => ("GET", "/v1/_/tasks/jobs")
  | CreateJobRoute => ("POST", "/v1/_/tasks/jobs")
  | GetJobRoute => ("GET", "/v1/_/tasks/jobs/{job_id}")
  | UpdateJobRoute => ("PATCH", "/v1/_/tasks/jobs/{job_id}")
  | DeleteJobRoute => ("DELETE", "/v1/_/tasks/jobs/{job_id}")
  | TriggerRoute => ("POST", "/v1/_/tasks/executions")
  | ListExecutionsRoute => ("GET", "/v1/_/tasks/executions")
  | ListDLQRoute => ("GET", "/v1/_/tasks/dlq")
  | RetryDLQRoute => ("POST", "/v1/_/tasks/dlq/{execution_id}/retry")
  | PurgeDLQRoute => ("DELETE", "/v1/_/tasks/dlq/{execution_id}")
  | GetConfigRoute => ("GET", "/v1/_/tasks/config")
  | UpdateConfigRoute => ("PUT", "/v1/_/tasks/config")
  | GetStatsRoute => ("GET", "/v1/_/tasks/stats")
  end.

Definition serve (r : Route) : ControlRequest → M Response :=
  match r with
  | ListJobsRoute => handleListJobs
  | CreateJobRoute => handleCreateJob
  | GetJobRoute => handleGetJob
  | UpdateJobRoute => handleUpdateJob
  | DeleteJobRoute => handleDeleteJob
  | TriggerRoute => handleTriggerExecution
  | ListExecutionsRoute => handleListExecutions
  | ListDLQRoute => handleListDLQ
  | RetryDLQRoute => handleRetryDLQ
  | PurgeDLQRoute => handlePurgeDLQ
  | GetConfigRoute => handleGetConfig
  | UpdateConfigRoute => handleUpdateConfig
  | GetStatsRoute => handleGetStats
  end.

(** The scope each route's description says it requires. *)
Definition documented_scope (r : Route) : string :=
  match r with
  | ListJobsRoute | GetJobRoute => "tasks:job.read"
  | CreateJobRoute | UpdateJobRoute | DeleteJobRoute => "tasks:job.write"
  | TriggerRoute | RetryDLQRoute | PurgeDLQRoute => "tasks:execution.write"
  | ListExecutionsRoute | ListDLQRoute => "tasks:execution.read"
  | GetConfigRoute => "tasks:config.read"
  | UpdateConfigRoute => "tasks:config.write"
  | GetStatsRoute => "tasks:stats.read"
  end.
End handlers.

(** ** The scope check comes first *)

Section guarded.
Context `{Platform} `{HostLib} `{ControlLib} (env : Env) (sa_faults : SAStmt → bool) (trustProxy : bool)
  (accounts : Accounts).

(** What a route does once the scope check has passed. *)
Lemma serve_scoped r request :
  ∃ k, serve env sa_faults trustProxy accounts r request
       = with_scope env sa_faults trustProxy accounts request (documented_scope r) k.
Proof. destruct r; eexists; reflexivity. Qed.

Lemma RequireScope_status request scope st :
  RequireScope (app_now env) sa_faults trustProxy request scope accounts = Some st → st = 403.
Proof. unfold RequireScope. case_match; naive_solver. Qed.
End guarded.

(** Every route of the control plane asks for the scope its description
    names, before anything else: a request that fails that check is answered
    403 and neither reads nor changes the service's state. *)
Theorem routes_require_documented_scope `{Platform} `{HostLib} `{ControlLib} env sa_faults trustProxy
    accounts r request s st :
  RequireScope (app_now env) sa_faults trustProxy (http_request request) (documented_scope r) accounts
    = Some st →
  ∃ d, serve env sa_faults trustProxy accounts r request s
       = (Ok (MkResponse 403 (ErrorBody (Detail d))), s).
Proof.
  intros Hst. destruct (serve_scoped env sa_faults trustProxy accounts r request) as [k ->].
  unfold with_scope. rewrite Hst. apply RequireScope_status in Hst as ->. by eexists.
Qed.

(** ** Handlers keep the invariant and answer *)

(** [c] answers, or runs code that does not return. *)
Definition answers {A} (c : M A) : Prop :=
  ∀ s, match (c s).1 with Ok _ => True | Err e => e = Diverges end.

Section answers.
Lemma answers_ret {A} (a : A) : answers (mret a).
Proof. done. Qed.
Lemma answers_try {A B} (c : M A) (k : result TaskError A → M B) :
  (∀ r, answers (k r)) → answers (r ← try c; k r).
Proof. intros Hk s. unfold mbind, M_bind, try. destruct (c s) as [r s1]. apply Hk. Qed.
Lemma answers_config {A} (k : Config → M A) : (∀ c, answers (k c)) → answers (c ← GetConfig; k c).
Proof. intros Hk s. apply Hk. Qed.
Lemma answers_diverges {A} : answers (@fail A Diverges).
Proof. done. Qed.
End answers.

Ltac answer :=
  repeat lazymatch goal with
  | |- answers (mbind _ (try _)) => apply answers_try; intros ?
  | |- answers (mbind _ GetConfig) => apply answers_config; intros ?
  | |- answers (mret _) => apply answers_ret
  | |- answers (fail Diverges) => apply answers_diverges
  | |- answers (match ?x with _ => _ end) => destruct x eqn:?
  end.

#[export] Hint Resolve CreateJob_preserves UpdateJob_preserves DeleteJob_preserves GetJob_preserves
  TriggerExecution_preserves RetryDLQExecution_preserves PurgeDLQExecution_preserves
  SetConfig_preserves : preserves.

Section preserved.
Context `{Platform} `{HostLib} `{ControlLib} (env : Env) (sa_faults : SAStmt → bool) (trustProxy : bool)
  (accounts : Accounts).

Lemma serve_preserves r request : preserves wf_state (serve env sa_faults trustProxy accounts r request).
Proof.
  destruct r; cbn [serve];
    unfold handleListJobs, handleCreateJob, handleGetJob, handleUpdateJob, handleDeleteJob,
      handleTriggerExecution, handleListExecutions, handleListDLQ, handleRetryDLQ, handlePurgeDLQ,
      handleGetConfig, handleUpdateConfig, handleGetStats, with_scope;
    walk; auto with preserves; unfold ListJobs, ListExecutions, ListDLQ, GetStats, GetConfig; walk.
Qed.

Lemma serve_answers r request : answers (serve env sa_faults trustProxy accounts r request).
Proof.
  destruct r; cbn [serve];
    unfold handleListJobs, handleCreateJob, handleGetJob, handleUpdateJob, handleDeleteJob,
      handleTriggerExecution, handleListExecutions, handleListDLQ, handleRetryDLQ, handlePurgeDLQ,
      handleGetConfig, handleUpdateConfig, handleGetStats, with_scope; answer.
Qed.
End preserved.

(** Every request to the control plane is answered, unless the search of
    a cron schedule does not return, and leaves well-formed tables and a
    valid configuration, whatever statements fail and whatever the request
    holds. *)
Theorem serve_wf `{Platform} `{HostLib} `{ControlLib} env sa_faults trustProxy accounts r request s :
  wf_state s →
  wf_state (serve env sa_faults trustProxy accounts r request s).2
  ∧ ((∃ resp, (serve env sa_faults trustProxy accounts r request s).1 = Ok resp)
     ∨ (serve env sa_faults trustProxy accounts r request s).1 = Err Diverges).
Proof.
  intros Hs. split; [by apply serve_preserves|].
  pose proof (serve_answers env sa_faults trustProxy accounts r request s) as Ha.
  destruct (serve _ _ _ _ _ _ _).1 as [resp|e]; [left; by eexists|right; by subst].
Qed.

(** ** Pages *)

(** The pagination of a request is within bounds: for a default within the
    maximum, the limit is between 1 and the maximum and the offset is a
    non-negative machine integer, whatever the query holds. *)
Theorem ParsePagination_bounds query defaultLimit maxLimit :
  1 <= defaultLimit <= maxLimit →
  let p := ParsePaginationWithDefaults query defaultLimit maxLimit in
  1 <= pi_Limit p <= maxLimit ∧ 0 <= pi_Offset p <= int64_max.
Proof.
  intros Hd. cbn zeta. unfold ParsePaginationWithDefaults. cbn [pi_Limit pi_Offset]. split.
  - repeat case_match; bool_to_prop; lia.
  - destruct (String.eqb (query "offset") ""); [unfold int64_max; lia|].
    destruct (Atoi (query "offset")) as [n|] eqn:E; [|unfold int64_max; lia].
    apply Atoi_range in E. destruct (Z.leb_spec 0 n); unfold int64_max in *; lia.
Qed.

Lemma ParsePagination_bounds_witness :
  let p := ParsePaginationWithDefaults (λ k, if String.eqb k "limit" then "5000" else "-3") 50 1000 in
  1 <= pi_Limit p <= 1000 ∧ 0 <= pi_Offset p <= int64_max.
Proof. apply ParsePagination_bounds. lia. Defined.

Lemma newer_total {A} (key : A → Z) : Total (newer key).
Proof. intros a b. unfold newer. lia. Qed.

Lemma newest_first_spec {A} (key : A → Z) l :
  Sorted (newer key) (newest_first key l) ∧ newest_first key l ≡ₚ l.
Proof.
  split; [|apply merge_sort_Permutation].
  pose proof (@newer_total A key). apply Sorted_merge_sort; apply _.
Qed.

Lemma take_drop_tile {A} (l : list A) n k :
  mjoin ((λ i, take n (drop (i * n) l)) <$> seq 0 k) = take (k * n) l.
Proof.
  induction k as [|k IH]; [done|]. rewrite seq_S, fmap_app, join_app, IH. simpl. rewrite app_nil_r.
  rewrite take_take_drop. f_equal. lia.
Qed.

Lemma page_of {A} (l : list A) limit (i : nat) :
  1 <= limit <= 100 →
  page (clamp_limit limit) (clamp_offset (Z.of_nat i * limit)) l
  = take (Z.to_nat limit) (drop (i * Z.to_nat limit) l).
Proof.
  intros Hl. unfold page, clamp_limit, clamp_offset.
  destruct (Z.leb_spec limit 0), (Z.ltb_spec 100 limit), (Z.ltb_spec (Z.of_nat i * limit) 0); try lia.
  cbn [orb]. by replace (Z.to_nat (Z.of_nat i * limit)) with (i * Z.to_nat limit)%nat by nia.
Qed.

(** The pages of the execution log tile it: there is an order of the
    matching rows, newest first, such that for a limit the manager accepts
    the answers at the offsets 0, limit, 2 limit, ... are consecutive slices
    of it, and enough of them give every row exactly once; every answer
    carries the number of all matching rows. *)
Theorem pages_tile_log env jobID limit s :
  1 <= limit <= 100 → faults env SListExecutions = false →
  let rows := filter (log_matches jobID) (execution_logs (db s)) in
  ∃ sorted, sorted ≡ₚ rows ∧ Sorted (newer log_executed_at) sorted
    ∧ ∃ pages : nat → list ExecutionLog,
        (∀ i, ListExecutions env jobID limit (Z.of_nat i * limit) s
              = (Ok (pages i, Z.of_nat (List.length rows)), s))
        ∧ ∀ k, (List.length rows <= k * Z.to_nat limit)%nat → mjoin (pages <$> seq 0 k) = sorted.
Proof.
  intros Hl Hf rows. destruct (newest_first_spec log_executed_at rows) as [Hs Hp].
  exists (newest_first log_executed_at rows). split; [done|]. split; [done|].
  exists (λ i, take (Z.to_nat limit) (drop (i * Z.to_nat limit) (newest_first log_executed_at rows))).
  split.
  - intros i. unfold ListExecutions, stmt. rewrite Hf. unfold gets. fold rows. by rewrite page_of.
  - intros k Hk. rewrite take_drop_tile. apply take_ge. by rewrite Hp.
Qed.

Lemma pages_tile_log_witness :
  let s := MkTState (MkDB ∅ ∅ [] None 0%N) [] DefaultConfig in
  let rows := filter (log_matches None) (execution_logs (db s)) in
  ∃ sorted, sorted ≡ₚ rows ∧ Sorted (newer log_executed_at) sorted
    ∧ ∃ pages : nat → list ExecutionLog,
        (∀ i, ListExecutions (no_faults 0) None 10 (Z.of_nat i * 10) s
              = (Ok (pages i, Z.of_nat (List.length rows)), s))
        ∧ ∀ k, (List.length rows <= k * Z.to_nat 10)%nat → mjoin (pages <$> seq 0 k) = sorted.
Proof. apply (pages_tile_log (no_faults 0) None 10); [lia|reflexivity]. Defined.

(** The limit an answer reports is not the one it applied: a request for
    more than 100 rows, which the handler accepts up to 1000, is cut to 50 by
    the manager, and the answer still reports the larger limit. *)
Theorem reported_limit_not_applied `{HostLib} `{ControlLib} env sa_faults trustProxy accounts
    request s n jobID :
  RequireScope (app_now env) sa_faults trustProxy (http_request request) ScopeTasksExecutionRead accounts = None →
  Atoi (Query request "limit") = Some n → 100 < n → job_filter request = Some jobID →
  faults env SListExecutions = false →
  ∃ data p, handleListExecutions env sa_faults trustProxy accounts request s
              = (Ok (MkResponse StatusOK (ListExecutionsBody data p)), s)
    ∧ po_Limit p = Z.min n MaxPaginationLimit ∧ po_Count p <= 50
    ∧ po_Total p = Z.of_nat (List.length (filter (log_matches jobID) (execution_logs (db s)))).
Proof.
  intros Hsc Hn Hgt Hjob Hf. unfold handleListExecutions, with_scope. rewrite Hsc, Hjob.
  assert (Hlim : pi_Limit (ParsePaginationWithDefaults (Query request) defaultListLimit MaxPaginationLimit)
                 = Z.min n MaxPaginationLimit).
  { unfold ParsePaginationWithDefaults, MaxPaginationLimit. cbn [pi_Limit].
    destruct (String.eqb_spec (Query request "limit") "") as [E|_].
    { rewrite E in Hn. discriminate Hn. }
    rewrite Hn. destruct (Z.ltb_spec 0 n); [|lia]. cbn [andb].
    change (0 <? 1000) with true. cbn [andb]. destruct (Z.ltb_spec 1000 n); lia. }
  set (p := ParsePaginationWithDefaults _ _ _) in *. unfold mbind, M_bind, try, ListExecutions, stmt.
  rewrite Hf. unfold gets. eexists _, _. split; [reflexivity|]. cbn [po_Limit po_Count po_Total].
  split; [done|]. split; [|done]. unfold page, clamp_limit. rewrite Hlim.
  rewrite length_take. destruct (Z.ltb_spec 100 (Z.min n MaxPaginationLimit)) as [_|Hle];
    [|unfold MaxPaginationLimit in Hle; lia].
  rewrite orb_true_r. lia.
Qed.

(** ** Examples *)

Definition sample_control : ControlLib := {|
  uuid_Parse s := if String.eqb s "zero" then Some 0%N else None;
  decode_create_job _ := None;
  decode_update_job _ := None;
  decode_trigger _ := Some (MkTriggerExecutionInput None (Some "sql:select 1"));
  decode_config c _ := Some c;
|}.

Definition empty_state : TState := MkTState (MkDB ∅ ∅ [] None 0%N) [] DefaultConfig.

Lemma empty_state_wf : wf_state empty_state.
Proof.
  split; [|apply Validate_spec; reflexivity].
  split; simpl; intros *; rewrite ?lookup_empty; done.
Qed.

Definition plain_request (r : Request) (query : string → string) : ControlRequest :=
  MkControlRequest r (λ _, "zero") query (Some "{}") 2.
Definition limit_query (v : string) (k : string) : string := if String.eqb k "limit" then v else "".

Lemma routes_require_documented_scope_witness :
  ∃ d, @serve sample_platform sample_host sample_control (no_faults 200) sa_ok true
         {[7%N := ci_row ["data:*"]]} TriggerRoute (plain_request (key_request sample_key) (λ _, ""))
         empty_state
       = (Ok (MkResponse 403 (ErrorBody (Detail d))), empty_state).
Proof.
  apply (@routes_require_documented_scope sample_platform sample_host sample_control _ _ _ _ _ _ _ 403).
  vm_compute. reflexivity.
Defined.

Lemma serve_wf_witness :
  let out := @serve sample_platform sample_host sample_control (no_faults 200) sa_ok true
               {[7%N := ci_row ["tasks:*"]]} TriggerRoute (plain_request (key_request sample_key) (λ _, ""))
               empty_state in
  wf_state out.2 ∧ ((∃ resp, out.1 = Ok resp) ∨ out.1 = Err Diverges).
Proof. apply (@serve_wf sample_platform sample_host sample_control). apply empty_state_wf. Defined.

Lemma reported_limit_not_applied_witness :
  ∃ data p, @handleListExecutions sample_host sample_control (no_faults 200) sa_ok true
              {[7%N := ci_row ["tasks:*"]]}
              (plain_request (key_request sample_key) (limit_query "200")) empty_state
              = (Ok (MkResponse StatusOK (ListExecutionsBody data p)), empty_state)
    ∧ po_Limit p = Z.min 200 MaxPaginationLimit ∧ po_Count p <= 50
    ∧ po_Total p = Z.of_nat (List.length (filter (log_matches None) (execution_logs (db empty_state)))).
Proof.
  apply (@reported_limit_not_applied sample_host sample_control);
    vm_compute; reflexivity.
Defined.
