(* ===== verification/KVStore.v ===== *)
(** * core/kvstore.go, core/kvstore_database.go: the key-value store

    [KVDriver] is the interface of the drivers and [KVLaws] what a client may
    rely on: at every later instant the store shows a finite map, and each
    operation acts on that map.  The driver over Postgres, a table of values
    with an expiry, is an instance; its laws are proved here, and clients are
    verified against the interface.

    Times and durations are in nanoseconds; a duration reaches Postgres in
    whole microseconds.  The statements of one call see one clock value and
    may fail. *)

From Stdlib Require Import ZArith Lia Ascii String.
From S2P Require Import Prelude GoStrings GoTime.
Local Open Scope string_scope.
Local Open Scope Z_scope.

Inductive KVStmt := KVGet | KVMGet | KVSet | KVMSet | KVSetNX | KVDelete | KVIncrement | KVExpire | KVSweep.

Inductive KVError := ErrKVStoreKeyNotFound | KVFailure (s : KVStmt).

Record KVEnv := MkKVEnv { kv_now : Z; kv_faults : KVStmt → bool }.
Definition kv_ok (now : Z) : KVEnv := MkKVEnv now (λ _, false).

(** ** The interface *)

Class KVDriver (S : Type) := MkKVDriver {
  drv_Get : KVEnv → string → S → result KVError string;
  drv_MGet : KVEnv → list string → S → result KVError (gmap string string);
  drv_Set : KVEnv → string → string → Z → S → result KVError unit * S;
  drv_MSet : KVEnv → gmap string string → Z → S → result KVError unit * S;
  drv_SetNX : KVEnv → string → string → Z → S → result KVError bool * S;
  drv_Delete : KVEnv → string → S → result KVError unit * S;
  drv_Increment : KVEnv → string → Z → S → result KVError Z * S;
  drv_IncrementBy : KVEnv → string → Z → Z → S → result KVError Z * S;
  drv_Expire : KVEnv → string → Z → S → result KVError unit * S;
  drv_Sweep : KVEnv → S → result KVError Z * S;
}.

(** How long a requested expiry lasts: a day when it is not positive. *)
Definition defaultKeyExpiry : Z := 24 * 3600 * Second.
Definition effective_expiry (expiry : Z) : Z := if expiry <=? 0 then defaultKeyExpiry else expiry.
(** [expiry.Microseconds()] microseconds. *)
Definition lifetime (expiry : Z) : Z := Z.quot (effective_expiry expiry) 1000 * 1000.

(** The map at [t] after [k] has been written to live until [until]. *)
Definition put (t until : Z) (k v : string) (m : gmap string string) : gmap string string :=
  if t <? until then <[k := v]> m else delete k m.

(** Reading a counter: the text of a [bigint], as Postgres casts it. *)
Class PgText := { text_to_bigint : string → option Z }.
Class PgTextLaws `{PgText} : Prop :=
  { text_of_decimal : ∀ z, in_int64 z = true → text_to_bigint (decimal z) = Some z }.

(** The counter an increment leaves: the delta when nothing is visible, the
    sum when a number is and it fits; otherwise the statement fails. *)
Definition counted `{PgText} (shown : option string) (delta : Z) : option Z :=
  match shown with
  | None => if in_int64 delta then Some delta else None
  | Some text =>
      n ← text_to_bigint text; if in_int64 (n + delta) then Some (n + delta) else None
  end.

Class KVLaws (S : Type) `{KVDriver S, PgText} := MkKVLaws {
  (** What the store shows at an instant. *)
  kv_view : Z → S → gmap string string;
  (** Entries only disappear as time passes. *)
  law_expiry : ∀ s t t', t <= t' → kv_view t' s ⊆ kv_view t s;
  law_Get : ∀ env k s, kv_faults env KVGet = false →
    drv_Get env k s = match kv_view (kv_now env) s !! k with
                      | Some v => Ok v
                      | None => Err ErrKVStoreKeyNotFound
                      end;
  law_MGet : ∀ env ks s, kv_faults env KVMGet = false →
    drv_MGet env ks s = Ok (filter (λ p, p.1 ∈ ks) (kv_view (kv_now env) s));
  law_Set : ∀ env k v e s, kv_faults env KVSet = false →
    ∃ s', drv_Set env k v e s = (Ok tt, s')
      ∧ ∀ t, kv_now env <= t → kv_view t s' = put t (kv_now env + lifetime e) k v (kv_view t s);
  law_MSet : ∀ env m e s, kv_faults env KVMSet = false →
    ∃ s', drv_MSet env m e s = (Ok tt, s')
      ∧ ∀ t, kv_now env <= t →
          kv_view t s' = if t <? kv_now env + lifetime e then m ∪ kv_view t s else kv_view t s ∖ m;
  law_SetNX : ∀ env k v e s, kv_faults env KVSetNX = false →
    ∃ s', match kv_view (kv_now env) s !! k with
          | Some _ => drv_SetNX env k v e s = (Ok false, s)
          | None => drv_SetNX env k v e s = (Ok true, s')
                    ∧ ∀ t, kv_now env <= t →
                        kv_view t s' = put t (kv_now env + lifetime e) k v (kv_view t s)
          end;
  law_Delete : ∀ env k s, kv_faults env KVDelete = false →
    ∃ s', drv_Delete env k s = (Ok tt, s') ∧ ∀ t, kv_view t s' = delete k (kv_view t s);
  law_Increment : ∀ env k e s, drv_Increment env k e s = drv_IncrementBy env k 1 e s;
  law_IncrementBy : ∀ env k delta e s, kv_faults env KVIncrement = false →
    ∃ s', match counted (kv_view (kv_now env) s !! k) delta with
          | Some n => drv_IncrementBy env k delta e s = (Ok n, s')
                      ∧ ∀ t, kv_now env <= t →
                          kv_view t s' = put t (kv_now env + lifetime e) k (decimal n) (kv_view t s)
          | None => drv_IncrementBy env k delta e s = (Err (KVFailure KVIncrement), s)
          end;
  law_Expire : ∀ env k e s, kv_faults env KVExpire = false →
    ∃ s', match kv_view (kv_now env) s !! k with
          | Some v => drv_Expire env k e s = (Ok tt, s')
                      ∧ ∀ t, kv_now env <= t →
                          kv_view t s' = put t (kv_now env + lifetime e) k v (kv_view t s)
          | None => drv_Expire env k e s = (Err ErrKVStoreKeyNotFound, s)
          end;
  law_Sweep : ∀ env s t, kv_now env <= t → kv_view t (drv_Sweep env s).2 = kv_view t s;
  (** An operation leaves the other keys alone, also when it fails. *)
  law_frame : ∀ env s t k', kv_now env <= t →
    (∀ k v e, k' ≠ k → kv_view t (drv_Set env k v e s).2 !! k' = kv_view t s !! k')
    ∧ (∀ m e, m !! k' = None → kv_view t (drv_MSet env m e s).2 !! k' = kv_view t s !! k')
    ∧ (∀ k v e, k' ≠ k → kv_view t (drv_SetNX env k v e s).2 !! k' = kv_view t s !! k')
    ∧ (∀ k, k' ≠ k → kv_view t (drv_Delete env k s).2 !! k' = kv_view t s !! k')
    ∧ (∀ k delta e, k' ≠ k → kv_view t (drv_IncrementBy env k delta e s).2 !! k' = kv_view t s !! k')
    ∧ (∀ k e, k' ≠ k → kv_view t (drv_Expire env k e s).2 !! k' = kv_view t s !! k');
}.

(** ** The driver over Postgres *)

Record KVRow := MkKVRow { kv_value : string; expires_at : Z }.
Abbreviation KVTable := (gmap string KVRow).

Section database.
Context `{PgText}.

Definition visible (now : Z) (r : KVRow) : Prop := now < expires_at r.
#[export] Instance visible_dec now r : Decision (visible now r).
Proof. unfold visible. apply _. Defined.

Definition db_Sweep (env : KVEnv) (s : KVTable) : result KVError Z * KVTable :=
  if kv_faults env KVSweep then (Err (KVFailure KVSweep), s) else
  (Ok (Z.of_nat (size (filter (λ p, ¬ visible (kv_now env) p.2) s))),
   filter (λ p, visible (kv_now env) p.2) s).

Definition select_visible (now : Z) (key : string) (s : KVTable) : option KVRow :=
  match s !! key with
  | Some r => if decide (visible now r) then Some r else None
  | None => None
  end.

Definition db_Get (env : KVEnv) (key : string) (s : KVTable) : result KVError string :=
  if kv_faults env KVGet then Err (KVFailure KVGet) else
  match select_visible (kv_now env) key s with
  | Some r => Ok (kv_value r)
  | None => Err ErrKVStoreKeyNotFound
  end.

Definition db_MGet (env : KVEnv) (keys : list string) (s : KVTable)
    : result KVError (gmap string string) :=
  match keys with
  | [] => Ok ∅
  | _ => if kv_faults env KVMGet then Err (KVFailure KVMGet)
         else Ok (kv_value <$> filter (λ p, p.1 ∈ keys ∧ visible (kv_now env) p.2) s)
  end.

Definition new_row (env : KVEnv) (value : string) (expiry : Z) : KVRow :=
  MkKVRow value (kv_now env + lifetime expiry).

Definition db_Set (env : KVEnv) (key value : string) (expiry : Z) (s : KVTable)
    : result KVError unit * KVTable :=
  if kv_faults env KVSet then (Err (KVFailure KVSet), s)
  else (Ok tt, <[key := new_row env value expiry]> s).

Definition db_MSet (env : KVEnv) (entries : gmap string string) (expiry : Z) (s : KVTable)
    : result KVError unit * KVTable :=
  if decide (entries = ∅) then (Ok tt, s)
  else if kv_faults env KVMSet then (Err (KVFailure KVMSet), s)
  else (Ok tt, ((λ v, new_row env v expiry) <$> entries) ∪ s).

Definition db_SetNX (env : KVEnv) (key value : string) (expiry : Z) (s : KVTable)
    : result KVError bool * KVTable :=
  if kv_faults env KVSetNX then (Err (KVFailure KVSetNX), s) else
  match select_visible (kv_now env) key s with
  | Some _ => (Ok false, s)
  | None => (Ok true, <[key := new_row env value expiry]> s)
  end.

Definition db_Delete (env : KVEnv) (key : string) (s : KVTable) : result KVError unit * KVTable :=
  if kv_faults env KVDelete then (Err (KVFailure KVDelete), s) else (Ok tt, delete key s).

(** A value that is no number, or a sum out of range, fails the statement. *)
Definition db_IncrementBy (env : KVEnv) (key : string) (delta expiry : Z) (s : KVTable)
    : result KVError Z * KVTable :=
  if kv_faults env KVIncrement then (Err (KVFailure KVIncrement), s) else
  match counted (kv_value <$> select_visible (kv_now env) key s) delta with
  | Some n => (Ok n, <[key := new_row env (decimal n) expiry]> s)
  | None => (Err (KVFailure KVIncrement), s)
  end.

Definition db_Increment (env : KVEnv) (key : string) (expiry : Z) (s : KVTable)
    : result KVError Z * KVTable :=
  db_IncrementBy env key 1 expiry s.

Definition db_Expire (env : KVEnv) (key : string) (expiry : Z) (s : KVTable)
    : result KVError unit * KVTable :=
  if kv_faults env KVExpire then (Err (KVFailure KVExpire), s) else
  match select_visible (kv_now env) key s with
  | Some r => (Ok tt, <[key := new_row env (kv_value r) expiry]> s)
  | None => (Err ErrKVStoreKeyNotFound, s)
  end.

#[export] Instance DatabaseKVStore : KVDriver KVTable := {|
  drv_Get := db_Get; drv_MGet := db_MGet; drv_Set := db_Set; drv_MSet := db_MSet;
  drv_SetNX := db_SetNX; drv_Delete := db_Delete; drv_Increment := db_Increment;
  drv_IncrementBy := db_IncrementBy; drv_Expire := db_Expire; drv_Sweep := db_Sweep;
|}.

(** ** Its laws *)

Definition table_view (t : Z) (s : KVTable) : gmap string string :=
  kv_value <$> filter (λ p, visible t p.2) s.

Lemma lookup_view t s k : table_view t s !! k = kv_value <$> select_visible t k s.
Proof.
  unfold table_view, select_visible. rewrite lookup_fmap, map_lookup_filter.
  destruct (s !! k) as [r|]; [|done]. simpl. case_decide; [by rewrite option_guard_True|].
  by rewrite option_guard_False.
Qed.

Lemma view_insert t s k r :
  table_view t (<[k := r]> s) = put t (expires_at r) k (kv_value r) (table_view t s).
Proof.
  apply map_eq. intros k'. unfold put. rewrite lookup_view. unfold select_visible.
  destruct (decide (k = k')) as [->|Hne].
  - rewrite lookup_insert_eq. unfold visible.
    destruct (Z.ltb_spec t (expires_at r)); case_decide; try lia.
    + by rewrite lookup_insert_eq.
    + by rewrite lookup_delete_eq.
  - rewrite lookup_insert_ne by done.
    destruct (t <? expires_at r);
      rewrite ?lookup_insert_ne, ?lookup_delete_ne by done; symmetry; apply lookup_view.
Qed.

Lemma view_delete t s k : table_view t (delete k s) = delete k (table_view t s).
Proof. unfold table_view. by rewrite map_filter_delete, fmap_delete. Qed.

Lemma view_later t t' s : t <= t' → table_view t' s ⊆ table_view t s.
Proof.
  intros Ht. apply map_fmap_mono, map_subseteq_spec. intros k r.
  rewrite !map_lookup_filter_Some. unfold visible. simpl. intros [? ?]. split; [done|lia].
Qed.

Lemma view_sweep env t s : kv_now env <= t → table_view t (db_Sweep env s).2 = table_view t s.
Proof.
  intros Ht. unfold db_Sweep. destruct (kv_faults env KVSweep); [done|]. simpl. unfold table_view.
  f_equal. rewrite map_filter_filter. apply map_filter_ext. intros k r _. unfold visible. simpl. lia.
Qed.

Lemma view_MGet env ks s : kv_faults env KVMGet = false →
  db_MGet env ks s = Ok (filter (λ p, p.1 ∈ ks) (table_view (kv_now env) s)).
Proof.
  intros Hf. unfold db_MGet. assert (Heq : ∀ l : list string,
    kv_value <$> filter (λ p : string * KVRow, p.1 ∈ l ∧ visible (kv_now env) p.2) s
    = filter (λ p, p.1 ∈ l) (table_view (kv_now env) s)).
  { intros l. apply map_eq. intros k. apply option_eq. intros v.
    rewrite lookup_fmap_Some, map_lookup_filter_Some, lookup_view. setoid_rewrite map_lookup_filter_Some.
    unfold select_visible. simpl. destruct (s !! k) as [r|] eqn:E; [|naive_solver].
    case_decide; naive_solver. }
  destruct ks as [|k ks]; [|by rewrite Hf, Heq]. f_equal. rewrite <- Heq. symmetry.
  apply map_empty. intros k. apply eq_None_not_Some. intros [v (r & _ & Hr)%lookup_fmap_Some].
  apply map_lookup_filter_Some in Hr as [_ [Hin _]]. by apply elem_of_nil in Hin.
Qed.

Lemma view_MSet env m e s : kv_faults env KVMSet = false →
  ∃ s', db_MSet env m e s = (Ok tt, s')
    ∧ ∀ t, kv_now env <= t →
        table_view t s' = if t <? kv_now env + lifetime e then m ∪ table_view t s else table_view t s ∖ m.
Proof.
  intros Hf. unfold db_MSet. destruct (decide (m = ∅)) as [->|_].
  { exists s. split; [done|]. intros t _. rewrite map_difference_empty, (left_id_L ∅ (∪)).
    by destruct (t <? _). }
  rewrite Hf. eexists. split; [done|]. intros t _. apply map_eq. intros k.
  rewrite lookup_view. unfold select_visible. rewrite lookup_union, lookup_fmap.
  destruct (Z.ltb_spec t (kv_now env + lifetime e));
    rewrite ?lookup_union, ?lookup_difference, lookup_view; unfold select_visible;
    destruct (m !! k) as [v|]; simpl; destruct (s !! k) as [r|]; simpl; unfold visible; simpl;
    repeat case_decide; simpl; try done; try lia.
Qed.

Lemma view_insert_ne t s k r k' : k' ≠ k → table_view t (<[k := r]> s) !! k' = table_view t s !! k'.
Proof. intros Hk. rewrite !lookup_view. unfold select_visible. by rewrite lookup_insert_ne. Qed.

Lemma view_frame env s t k' : kv_now env <= t →
  (∀ k v e, k' ≠ k → table_view t (db_Set env k v e s).2 !! k' = table_view t s !! k')
  ∧ (∀ m e, m !! k' = None → table_view t (db_MSet env m e s).2 !! k' = table_view t s !! k')
  ∧ (∀ k v e, k' ≠ k → table_view t (db_SetNX env k v e s).2 !! k' = table_view t s !! k')
  ∧ (∀ k, k' ≠ k → table_view t (db_Delete env k s).2 !! k' = table_view t s !! k')
  ∧ (∀ k delta e, k' ≠ k → table_view t (db_IncrementBy env k delta e s).2 !! k' = table_view t s !! k')
  ∧ (∀ k e, k' ≠ k → table_view t (db_Expire env k e s).2 !! k' = table_view t s !! k').
Proof.
  intros _. split_and!; intros.
  - unfold db_Set. case_match; [done|]. by apply view_insert_ne.
  - unfold db_MSet. repeat case_match; try done. simpl. rewrite !lookup_view. unfold select_visible.
    by rewrite lookup_union, lookup_fmap, H0, (left_id_L None _).
  - unfold db_SetNX. repeat case_match; try done. by apply view_insert_ne.
  - unfold db_Delete. case_match; [done|]. simpl. by rewrite view_delete, lookup_delete_ne.
  - unfold db_IncrementBy. repeat case_match; try done. by apply view_insert_ne.
  - unfold db_Expire. repeat case_match; try done. by apply view_insert_ne.
Qed.

#[export] Instance DatabaseKVStore_laws : KVLaws KVTable.
Proof.
  refine {| kv_view := table_view |}.
  - intros s t t'. apply view_later.
  - intros env k s Hf. simpl. unfold db_Get. rewrite Hf, lookup_view.
    by destruct (select_visible _ _ _).
  - apply view_MGet.
  - intros env k v e s Hf. simpl. unfold db_Set. rewrite Hf. eexists. split; [done|].
    intros t _. apply view_insert.
  - apply view_MSet.
  - intros env k v e s Hf. simpl. unfold db_SetNX. rewrite Hf, lookup_view.
    destruct (select_visible _ _ _); simpl; [by exists s|]. eexists. split; [done|].
    intros t _. apply view_insert.
  - intros env k s Hf. simpl. unfold db_Delete. rewrite Hf. eexists. split; [done|].
    intros t. apply view_delete.
  - done.
  - intros env k delta e s Hf. simpl. unfold db_IncrementBy. rewrite Hf, lookup_view.
    destruct (counted _ _) as [n|]; [|by exists s]. eexists. split; [done|].
    intros t _. apply view_insert.
  - intros env k e s Hf. simpl. unfold db_Expire. rewrite Hf, lookup_view.
    destruct (select_visible _ _ _) as [r|]; simpl; [|by exists s]. eexists. split; [done|].
    intros t _. exact (view_insert t s k (new_row env (kv_value r) e)).
  - intros env s t. apply view_sweep.
  - intros env s t k'. apply view_frame.
Defined.
End database.

(** ** The store: a driver behind the methods of [KVStore]

    Each method calls the driver; an error is wrapped, which keeps what it
    is. *)
Section store.
Context {S : Type} `{KVDriver S}.

Definition Get (env : KVEnv) (key : string) (s : S) : result KVError string := drv_Get env key s.
Definition MGet (env : KVEnv) (keys : list string) (s : S) := drv_MGet env keys s.
Definition Set_ (env : KVEnv) (key value : string) (expiry : Z) (s : S) := drv_Set env key value expiry s.
Definition MSet (env : KVEnv) (entries : gmap string string) (expiry : Z) (s : S) :=
  drv_MSet env entries expiry s.
Definition SetNX (env : KVEnv) (key value : string) (expiry : Z) (s : S) :=
  drv_SetNX env key value expiry s.
Definition Delete (env : KVEnv) (key : string) (s : S) := drv_Delete env key s.
Definition Increment (env : KVEnv) (key : string) (expiry : Z) (s : S) := drv_Increment env key expiry s.
Definition IncrementBy (env : KVEnv) (key : string) (delta expiry : Z) (s : S) :=
  drv_IncrementBy env key delta expiry s.
Definition Expire (env : KVEnv) (key : string) (expiry : Z) (s : S) := drv_Expire env key expiry s.
Definition Sweep (env : KVEnv) (s : S) := drv_Sweep env s.
End store.

(** The casts of the examples: [bigint] texts are what [Atoi] reads. *)
Definition sample_pg : PgText := {| text_to_bigint := Atoi |}.
Lemma sample_pg_laws : @PgTextLaws sample_pg.
Proof. split. exact Atoi_decimal. Qed.

(** C36: The driver over Postgres implements the interface: read at an instant
    as the map of the rows that have not expired, its table satisfies every
    law of [KVLaws] for each of its operations. *)
Theorem database_driver_refines_map `{PgText} :
  ∃ laws : KVLaws KVTable, ∀ t s k v,
    @kv_view _ _ _ laws t s !! k = Some v ↔ ∃ r, s !! k = Some r ∧ kv_value r = v ∧ t < expires_at r.
Proof.
  exists DatabaseKVStore_laws. intros t s k v. simpl. rewrite lookup_view. unfold select_visible.
  destruct (s !! k) as [r|]; [|naive_solver]. case_decide as Hv; unfold visible in Hv; simpl.
  - naive_solver.
  - split; [done|]. intros (r' & [= <-] & _ & ?). lia.
Qed.

Section locks.
Context {S : Type} `{KVLaws S}.

(** Calls of [SetNX] on one key, in order of time: what each answers. *)
Fixpoint setnx_answers (key value : string) (expiry : Z) (times : list Z) (s : S)
    : list (result KVError bool) :=
  match times with
  | [] => []
  | t :: times' =>
      let '(r, s') := SetNX (kv_ok t) key value expiry s in
      r :: setnx_answers key value expiry times' s'
  end.

Lemma setnx_held key value expiry times s from until :
  Forall (λ t, from <= t < until) times →
  (∀ t, from <= t < until → is_Some (kv_view t s !! key)) →
  setnx_answers key value expiry times s = (λ _, Ok false) <$> times.
Proof.
  intros Ht Hheld. induction Ht as [|t times Ht _ IH]; [done|]. simpl. unfold SetNX.
  destruct (law_SetNX (kv_ok t) key value expiry s) as [s' Hs]; [done|].
  destruct (Hheld t Ht) as [v Hv]. cbn [kv_now kv_ok] in Hs. rewrite Hv in Hs. rewrite Hs. by rewrite IH.
Qed.
End locks.

(** A key set by [SetNX] is a lock, for every driver that keeps the laws:
    when the key is free, of any number of calls made within its lifetime
    only the first is answered true. *)
Theorem setnx_admits_one {S} `{KVLaws S} key value expiry t0 times s :
  kv_view t0 s !! key = None →
  Forall (λ t, t0 <= t < t0 + lifetime expiry) times →
  setnx_answers key value expiry (t0 :: times) s = Ok true :: ((λ _, Ok false) <$> times).
Proof.
  intros Hfree Ht. simpl. unfold SetNX.
  destruct (law_SetNX (kv_ok t0) key value expiry s) as [s' Hs]; [done|]. cbn [kv_now kv_ok] in Hs.
  rewrite Hfree in Hs. destruct Hs as [-> Hview]. f_equal. eapply setnx_held; [exact Ht|].
  intros t [Hlo Hhi]. rewrite Hview by done. unfold put. destruct (Z.ltb_spec t (t0 + lifetime expiry)); [|lia].
  exists value. apply lookup_insert_eq.
Qed.

Lemma setnx_admits_one_witness :
  @setnx_answers KVTable (@DatabaseKVStore sample_pg) "lock" "me" Second [10; 20; 30] ∅
  = Ok true :: ((λ _, Ok false) <$> [20; 30]).
Proof.
  apply (@setnx_admits_one KVTable (@DatabaseKVStore sample_pg) sample_pg (@DatabaseKVStore_laws sample_pg)).
  - vm_compute. reflexivity.
  - repeat constructor; vm_compute; congruence.
Defined.
