(* ===== verification/SignInRisk.v ===== *)
(** * auth/threat/risk.go: failed attempts and the risk of a sign-in

    A client of the key-value store, verified against the interface
    [KVDriver] and its laws for any driver.  The query on auth.sessions is a
    parameter: the counts it answers, or its failure. *)

From Stdlib Require Import ZArith Lia Ascii String.
From S2P Require Import Prelude GoStrings GoTime KVStore.
Local Open Scope string_scope.
Local Open Scope Z_scope.

Definition RiskLevelLow : string := "low".
Definition RiskLevelMedium : string := "medium".
Definition RiskLevelHigh : string := "high".
Definition defaultRiskWindowDays : Z := 30.
Definition highRiskThreshold : Z := 50.
Definition mediumRiskThreshold : Z := 25.
Definition failedAttemptsMediumThreshold : Z := 3.
Definition failedAttemptsCriticalThreshold : Z := 5.
Definition newDeviceRiskScore : Z := 30.
Definition newIPRiskScore : Z := 20.
Definition excessiveFailedAttemptsRiskScore : Z := 30.
Definition criticalFailedAttemptsRiskScore : Z := 20.
Definition failedAttemptKeyPrefix : string := "auth:threat:failed:".
Definition defaultAttemptWindowTime : Z := 15 * Minute.

Record RiskAssessment := MkRiskAssessment {
  Score : Z; Level : string; IsNewDevice : bool; IsNewIP : bool; FailedAttempts : Z;
  Reasons : list string }.

Section risk.
Context {S : Type} `{KVDriver S}.

Definition failed_key (identifier : string) : string :=
  (failedAttemptKeyPrefix ++ TrimSpace identifier)%string.

(** The store is [None] when the code passes a nil one. *)
Definition RecordFailedAttempt (env : KVEnv) (identifier : string) (windowDuration : Z)
    (kvStore : option S) : result KVError Z * option S :=
  match kvStore with
  | None => (Ok 0, None)
  | Some s =>
      if String.eqb (TrimSpace identifier) "" then (Ok 0, Some s) else
      let windowDuration := if windowDuration <=? 0 then defaultAttemptWindowTime else windowDuration in
      let '(r, s') := Increment env (failed_key identifier) windowDuration s in (r, Some s')
  end.

Definition ResetFailedAttempts (env : KVEnv) (identifier : string) (kvStore : option S)
    : result KVError unit * option S :=
  match kvStore with
  | None => (Ok tt, None)
  | Some s =>
      if String.eqb (TrimSpace identifier) "" then (Ok tt, Some s) else
      match Delete env (failed_key identifier) s with
      | (Err ErrKVStoreKeyNotFound, s') => (Ok tt, Some s')
      | (r, s') => (r, Some s')
      end
  end.

Definition GetFailedAttempts (env : KVEnv) (identifier : string) (kvStore : option S) : Z :=
  match kvStore with
  | None => 0
  | Some s =>
      if String.eqb (TrimSpace identifier) "" then 0 else
      match Get env (failed_key identifier) s with
      | Err _ => 0
      | Ok content => if String.eqb content "" then 0 else default 0 (Atoi (TrimSpace content))
      end
  end.

Definition risk_level (score : Z) : string :=
  if highRiskThreshold <=? score then RiskLevelHigh
  else if mediumRiskThreshold <=? score then RiskLevelMedium
  else RiskLevelLow.

(** The factors in the order they are added, with their scores and reasons. *)
Definition raised_factors (newDevice newIP excessive critical : bool) : list (Z * string) :=
  (if newDevice then [(newDeviceRiskScore, "new_device")] else [])
  ++ (if newIP then [(newIPRiskScore, "new_ip")] else [])
  ++ (if excessive then [(excessiveFailedAttemptsRiskScore, "excessive_failed_attempts")] else [])
  ++ (if critical then [(criticalFailedAttemptsRiskScore, "critical_failed_attempts")] else []).
Definition total_score (l : list (Z * string)) : Z := foldr Z.add 0 (fst <$> l).

(** The session history: whether the device and the address are new. *)
Definition history (query : option (string → string → string → Z → option (Z * Z * Z)))
    (userID cleanIP cleanUA : string) (windowDays : Z) : bool * bool :=
  match query with
  | Some q =>
      if String.eqb userID "" then (false, false) else
      match q cleanUA cleanIP userID windowDays with
      | Some (totalSessions, matchingUACount, matchingIPCount) =>
          if 0 <? totalSessions
          then ((matchingUACount =? 0) && negb (String.eqb cleanUA ""),
                (matchingIPCount =? 0) && negb (String.eqb cleanIP ""))
          else (false, false)
      | None => (false, false)
      end
  | None => (false, false)
  end.

Definition total_failed (env : KVEnv) (userID cleanIP : string) (kvStore : option S) : Z :=
  let byIP := if String.eqb cleanIP "" then 0 else GetFailedAttempts env cleanIP kvStore in
  let byUser := if String.eqb userID "" then 0 else GetFailedAttempts env userID kvStore in
  wrap64 (byIP + byUser).

Definition EvaluateSignInRisk (env : KVEnv)
    (query : option (string → string → string → Z → option (Z * Z * Z))) (kvStore : option S)
    (userID clientIP userAgent : string) (windowDays : Z) : RiskAssessment :=
  let windowDays := if windowDays <=? 0 then defaultRiskWindowDays else windowDays in
  let cleanIP := TrimSpace clientIP in
  let cleanUA := TrimSpace userAgent in
  let '(isNewDevice, isNewIP) := history query userID cleanIP cleanUA windowDays in
  let failed := match kvStore with None => 0 | Some _ => total_failed env userID cleanIP kvStore end in
  let raised := raised_factors isNewDevice isNewIP (failedAttemptsMediumThreshold <=? failed)
                  (failedAttemptsCriticalThreshold <=? failed) in
  let score := total_score raised in
  MkRiskAssessment score (risk_level score) isNewDevice isNewIP failed (snd <$> raised).
End risk.

(** ** Scores *)

Lemma total_score_cases d i m c :
  0 <= total_score (raised_factors d i m c) <= 100
  ∧ ((c = true → m = true) →
     risk_level (total_score (raised_factors d i m c)) = RiskLevelHigh
     ↔ c || (d && i) || (m && (d || i)) = true).
Proof.
  destruct d, i, m, c; (split; [vm_compute; split; congruence|]); intros Hc;
    try (by discriminate (Hc eq_refl)); vm_compute; split; congruence.
Qed.

(** The assessment is consistent: the score is between 0 and 100, the
    level is the one its thresholds give, and the score is high as soon as the
    attempts are critical, or both the device and the address are new. *)
Theorem risk_assessment_consistent {S} `{KVDriver S} env query kvStore userID clientIP userAgent windowDays :
  let a := EvaluateSignInRisk env query kvStore userID clientIP userAgent windowDays in
  0 <= Score a <= 100 ∧ Level a = risk_level (Score a)
  ∧ (Level a = RiskLevelHigh ↔
     failedAttemptsCriticalThreshold <= FailedAttempts a ∨ (IsNewDevice a = true ∧ IsNewIP a = true)
     ∨ (failedAttemptsMediumThreshold <= FailedAttempts a ∧ (IsNewDevice a = true ∨ IsNewIP a = true))).
Proof.
  cbn zeta. unfold EvaluateSignInRisk. destruct (history _ _ _ _ _) as [d i].
  set (n := match kvStore with None => 0 | Some _ => total_failed env userID (TrimSpace clientIP) kvStore end).
  cbn [Score Level FailedAttempts IsNewDevice IsNewIP].
  unfold failedAttemptsMediumThreshold, failedAttemptsCriticalThreshold.
  pose proof (total_score_cases d i (3 <=? n) (5 <=? n)) as [Hs Hl].
  split; [done|]. split; [done|].
  destruct (Z.leb_spec 3 n), (Z.leb_spec 5 n); try lia; rewrite Hl by done;
    destruct d, i; cbn [orb andb]; split; intros Hx; try done; try tauto; try lia; auto.
Qed.

(** ** Counting failures *)

Section counting.
Context {S : Type} `{KVLaws S, !PgTextLaws} (identifier : string) (window : Z).

(** The lifetime of the counter. *)
Definition attempt_window : Z :=
  lifetime (if window <=? 0 then defaultAttemptWindowTime else window).

(** Failures recorded one after another. *)
Fixpoint record_all (times : list Z) (s : S) : S :=
  match times with
  | [] => s
  | t :: times' =>
      match (RecordFailedAttempt (kv_ok t) identifier window (Some s)).2 with
      | Some s' => record_all times' s'
      | None => s
      end
  end.

(** Each failure follows the one before within its window. *)
Fixpoint within_window (last : Z) (times : list Z) : Prop :=
  match times with
  | [] => True
  | t :: times' => last <= t < last + attempt_window ∧ within_window t times'
  end.

(** From [from] until its expiry the counter shows [n]. *)
Definition shows (n : Z) (from until : Z) (s : S) : Prop :=
  ∀ t, from <= t < until → kv_view t s !! failed_key identifier = Some (decimal n).

Lemma record_step t s n :
  TrimSpace identifier ≠ "" → in_int64 (n + 1) = true →
  counted (kv_view t s !! failed_key identifier) 1 = Some (n + 1) →
  ∃ s', RecordFailedAttempt (kv_ok t) identifier window (Some s) = (Ok (n + 1), Some s')
    ∧ shows (n + 1) t (t + attempt_window) s'.
Proof.
  intros Hid Hn Hc. unfold RecordFailedAttempt, Increment. apply String.eqb_neq in Hid. rewrite Hid.
  rewrite law_Increment.
  destruct (law_IncrementBy (kv_ok t) (failed_key identifier) 1
    (if window <=? 0 then defaultAttemptWindowTime else window) s) as [s' Hs]; [done|].
  cbn [kv_now kv_ok] in Hs. rewrite Hc in Hs. destruct Hs as [-> Hview]. exists s'. split; [done|].
  intros t' Ht'. rewrite Hview by lia. unfold put, attempt_window in *.
  destruct (Z.ltb_spec t' (t + lifetime (if window <=? 0 then defaultAttemptWindowTime else window)));
    [|lia]. apply lookup_insert_eq.
Qed.

Lemma record_more times last s n :
  TrimSpace identifier ≠ "" → 0 <= n → n + Z.of_nat (List.length times) <= int64_max →
  shows n last (last + attempt_window) s → within_window last times →
  shows (n + Z.of_nat (List.length times)) (List.last times last)
    (List.last times last + attempt_window) (record_all times s).
Proof.
  intros Hid. revert last s n. induction times as [|t times IH]; intros last s n Hn Hmax Hs Hw.
  { simpl. by rewrite Z.add_0_r. }
  destruct Hw as [Ht Hw]. cbn [List.length] in Hmax. rewrite Nat2Z.inj_succ in Hmax.
  assert (Hin : ∀ z, 0 <= z <= int64_max → in_int64 z = true).
  { intros z Hz. apply in_int64_spec. unfold int64_min, int64_max in *. lia. }
  destruct (record_step t s n) as (s' & Hrec & Hs'); [done|apply Hin; lia| |].
  { rewrite Hs by done. cbn [counted]. rewrite text_of_decimal by (apply Hin; lia). simpl.
    by rewrite Hin by lia. }
  cbn [record_all]. rewrite Hrec. cbn [snd]. specialize (IH t s' (n + 1)).
  replace (n + Z.of_nat (List.length (t :: times))) with (n + 1 + Z.of_nat (List.length times))
    by (cbn [List.length]; lia).
  assert (Hlast : List.last (t :: times) last = List.last times t).
  { clear. revert t last. induction times as [|x times IHt]; intros t last; [done|].
    change (List.last (x :: times) last = List.last (x :: times) t). rewrite !IHt. done. }
  rewrite Hlast. apply IH; [lia|lia|done|done].
Qed.

Lemma shows_get n from until s t :
  TrimSpace identifier ≠ "" → in_int64 n = true → shows n from until s → from <= t < until →
  GetFailedAttempts (kv_ok t) identifier (Some s) = n.
Proof.
  intros Hid Hn Hs Ht. unfold GetFailedAttempts, Get. apply String.eqb_neq in Hid. rewrite Hid.
  rewrite law_Get by done. cbn [kv_now kv_ok]. rewrite Hs by done.
  destruct (String.eqb_spec (decimal n) "") as [E|_].
  { apply Atoi_decimal in Hn. rewrite E in Hn. discriminate Hn. }
  rewrite TrimSpace_plain by apply decimal_plain. by rewrite Atoi_decimal.
Qed.
End counting.

(** Failures are counted, on every driver that keeps the laws: when an
    identifier has no failures recorded and n failures follow each other, each
    within the window of the one before, then until the window of the last
    one has passed the count read back is n. *)
Theorem failures_are_counted {S} `{KVLaws S, !PgTextLaws} identifier window t0 times s t :
  TrimSpace identifier ≠ "" → kv_view t0 s !! failed_key identifier = None →
  within_window window t0 times → Z.of_nat (List.length times) < int64_max →
  List.last times t0 <= t < List.last times t0 + attempt_window window →
  GetFailedAttempts (kv_ok t) identifier (Some (record_all identifier window (t0 :: times) s))
  = 1 + Z.of_nat (List.length times).
Proof.
  intros Hid Hfree Hw Hmax Ht.
  destruct (record_step identifier window t0 s 0) as (s' & Hrec & Hs); [done|done| |].
  { by rewrite Hfree. }
  cbn [record_all]. rewrite Hrec. cbn [snd].
  eapply (shows_get identifier _ (List.last times t0)); [done| |apply record_more|]; try done; try lia.
  apply in_int64_spec. unfold int64_min, int64_max in *. lia.
Qed.

Lemma failures_are_counted_witness :
  @GetFailedAttempts KVTable (@DatabaseKVStore sample_pg) (kv_ok (400 * Second)) "10.0.0.1"
    (Some (@record_all KVTable (@DatabaseKVStore sample_pg) "10.0.0.1" 0
             [100 * Second; 200 * Second; 300 * Second] ∅))
  = 1 + Z.of_nat (List.length [200 * Second; 300 * Second]).
Proof.
  apply (@failures_are_counted KVTable (@DatabaseKVStore sample_pg) sample_pg
    (@DatabaseKVStore_laws sample_pg) sample_pg_laws).
  - vm_compute. congruence.
  - vm_compute. reflexivity.
  - vm_compute. repeat split; congruence.
  - vm_compute. reflexivity.
  - vm_compute. split; congruence.
Defined.

(** A reset forgets: whatever was recorded, after a reset the identifier
    counts no failures at any time. *)
Theorem reset_clears_failures {S} `{KVLaws S} identifier now s t :
  ∃ s', ResetFailedAttempts (kv_ok now) identifier (Some s) = (Ok tt, Some s')
    ∧ GetFailedAttempts (kv_ok t) identifier (Some s') = 0.
Proof.
  unfold ResetFailedAttempts, GetFailedAttempts, Delete, Get.
  destruct (String.eqb (TrimSpace identifier) ""); [by eexists|].
  destruct (law_Delete (kv_ok now) (failed_key identifier) s) as (s' & -> & Hview); [done|].
  eexists. split; [done|]. rewrite law_Get by done. by rewrite Hview, lookup_delete_eq.
Qed.
