(* ===== verification/Encodings.v ===== *)
(** * encoding/base64 and encoding/base32, as the code uses them

    Both regroup the bits of the bytes: 6 or 5 bits to a character, the last
    group filled with zeros, without padding characters.  Decoding drops line
    breaks, refuses characters that are not of the alphabet, and ignores the
    bits that are left over; base64 refuses a last group that cannot hold a
    byte, base32 drops it. *)

From Stdlib Require Import ZArith Lia Ascii String.
From S2P Require Import Prelude GoStrings.
Local Open Scope string_scope.

(** ** Bits *)

(** Most significant bit first. *)
Definition byte_bits (c : ascii) : list bool :=
  let '(Ascii b0 b1 b2 b3 b4 b5 b6 b7) := c in [b7; b6; b5; b4; b3; b2; b1; b0].

Fixpoint text_bits (s : string) : list bool :=
  match s with
  | EmptyString => []
  | String c s => (byte_bits c ++ text_bits s)%list
  end.

(** Whole bytes only. *)
Fixpoint bits_text (l : list bool) : string :=
  match l with
  | b7 :: b6 :: b5 :: b4 :: b3 :: b2 :: b1 :: b0 :: l => String (Ascii b0 b1 b2 b3 b4 b5 b6 b7) (bits_text l)
  | _ => ""
  end.

Definition bits_nat (l : list bool) : nat := foldl (λ n b, 2 * n + Nat.b2n b)%nat 0%nat l.

Fixpoint nat_bits (w : nat) (n : nat) : list bool :=
  match w with
  | O => []
  | S w => (nat_bits w (Nat.div2 n) ++ [Nat.odd n])%list
  end.

(** Groups of [w] bits, the last one filled with zeros. *)
Fixpoint groups (w fuel : nat) (l : list bool) : list (list bool) :=
  match fuel, l with
  | S fuel, _ :: _ => (take w l ++ replicate (w - List.length l) false)%list :: groups w fuel (drop w l)
  | _, _ => []
  end.

(** ** Alphabets *)

Definition upper_letters : string := "ABCDEFGHIJKLMNOPQRSTUVWXYZ".
Definition lower_letters : string := "abcdefghijklmnopqrstuvwxyz".
Definition std_alphabet : string := upper_letters ++ lower_letters ++ "0123456789+/".
Definition url_alphabet : string := upper_letters ++ lower_letters ++ "0123456789-_".
Definition base32_alphabet : string := upper_letters ++ "234567".

Definition nth_char (alphabet : string) (n : nat) : ascii := default "A"%char (list_ascii_of_string alphabet !! n).

Definition char_index (alphabet : string) (c : ascii) : option nat :=
  fst <$> list_find (λ d, d = c) (list_ascii_of_string alphabet).

(** ** The codecs *)

Definition encode_bits (alphabet : string) (w : nat) (s : string) : string :=
  let bits := text_bits s in
  string_of_list_ascii ((λ g, nth_char alphabet (bits_nat g)) <$> groups w (List.length bits) bits).

Definition is_newline (c : ascii) : bool := Ascii.eqb c (ascii_of_nat 10) || Ascii.eqb c (ascii_of_nat 13).

(** The values of the characters. *)
Definition decode_values (alphabet s : string) : option (list nat) :=
  mapM (char_index alphabet) (List.filter (λ c, negb (is_newline c)) (list_ascii_of_string s)).

Definition values_bits (w : nat) (values : list nat) : list bool := concat (nat_bits w <$> values).

(** [RawStdEncoding] and [RawURLEncoding]. *)
Definition base64_encode (alphabet s : string) : string := encode_bits alphabet 6 s.

Definition base64_decode (alphabet s : string) : option string :=
  values ← decode_values alphabet s;
  if (List.length values mod 4 =? 1)%nat then None else Some (bits_text (values_bits 6 values)).

(** [StdEncoding] and [URLEncoding]: whole groups of four characters, the last
    one filled with one or two [=]. *)
Fixpoint drop_padding (l : list ascii) : list ascii :=
  match l with c :: l' => if Ascii.eqb c "=" then drop_padding l' else l | [] => [] end.

Definition base64_decode_padded (alphabet s : string) : option string :=
  let text := List.filter (λ c, negb (is_newline c)) (list_ascii_of_string s) in
  let data := rev (drop_padding (rev text)) in
  if (List.length text mod 4 =? 0)%nat && (List.length text - List.length data <=? 2)%nat
  then base64_decode alphabet (string_of_list_ascii data) else None.

(** [base32.StdEncoding.WithPadding(NoPadding)]. *)
Definition base32_encode (s : string) : string := encode_bits base32_alphabet 5 s.

Definition base32_decode (s : string) : option string :=
  values ← decode_values base32_alphabet s;
  let rest := (List.length values mod 8)%nat in
  let dropped := if bool_decide (rest ∈ [1; 3; 6]%nat) then rest else 0%nat in
  Some (bits_text (values_bits 5 (take (List.length values - dropped) values))).

(** ** Regrouping bits *)

Lemma byte_bits_text c l : bits_text (byte_bits c ++ l) = String c (bits_text l).
Proof. by destruct c. Qed.

Lemma length_byte_bits c : List.length (byte_bits c) = 8%nat.
Proof. by destruct c. Qed.

Lemma length_text_bits s : List.length (text_bits s) = (8 * String.length s)%nat.
Proof. induction s as [|c s IH]; [done|]. cbn [text_bits String.length]. rewrite length_app, length_byte_bits, IH. lia. Qed.

Lemma bits_text_app s rest : (List.length rest < 8)%nat → bits_text (text_bits s ++ rest) = s.
Proof.
  intros Hr. induction s as [|c s IH]; cbn [text_bits].
  - cbn [app]. do 8 (destruct rest as [|? rest]; [done|]). cbn in Hr. lia.
  - by rewrite <- app_assoc, byte_bits_text, IH.
Qed.

Lemma foldl_bits l : ∀ n, foldl (λ n b, 2 * n + Nat.b2n b)%nat n l = (n * 2 ^ List.length l + bits_nat l)%nat.
Proof.
  unfold bits_nat. induction l as [|b l IH]; intros n; cbn [foldl List.length]; [cbn; lia|].
  rewrite (IH (2 * n + Nat.b2n b)%nat), (IH (2 * 0 + Nat.b2n b)%nat). rewrite Nat.pow_succ_r'. nia.
Qed.

Lemma bits_nat_snoc l b : bits_nat (l ++ [b]) = (2 * bits_nat l + Nat.b2n b)%nat.
Proof. unfold bits_nat. by rewrite foldl_app. Qed.

Lemma nat_bits_of l : nat_bits (List.length l) (bits_nat l) = l.
Proof.
  induction l as [|b l IH] using rev_ind; [done|]. rewrite length_app. cbn [List.length]. rewrite Nat.add_1_r. cbn [nat_bits].
  rewrite bits_nat_snoc. f_equal; [|f_equal].
  - rewrite Nat.div2_div. replace ((2 * bits_nat l + Nat.b2n b) / 2)%nat with (bits_nat l); [done|].
    destruct b; cbn [Nat.b2n]; [apply Nat.div_unique with 1%nat|apply Nat.div_unique with 0%nat]; lia.
  - destruct b; cbn [Nat.b2n].
    + by rewrite Nat.add_1_r, Nat.odd_succ, Nat.even_mul.
    + by rewrite Nat.add_0_r, Nat.odd_mul.
Qed.

Lemma bits_nat_bound l : (bits_nat l < 2 ^ List.length l)%nat.
Proof.
  induction l as [|b l IH] using rev_ind; [cbn; lia|]. rewrite bits_nat_snoc, length_app. cbn [List.length].
  rewrite Nat.add_1_r, Nat.pow_succ_r'. destruct b; cbn [Nat.b2n]; lia.
Qed.

(** The groups are the bits, filled up to a multiple of [w]. *)
Lemma groups_spec w fuel l : (0 < w)%nat → (List.length l <= fuel)%nat →
  Forall (λ g, List.length g = w) (groups w fuel l)
  ∧ ∃ p, (p < w)%nat ∧ concat (groups w fuel l) = (l ++ replicate p false)%list.
Proof.
  intros Hw. revert l. induction fuel as [|fuel IH]; intros l Hl.
  { destruct l; [|cbn in Hl; lia]. split; [constructor|]. exists 0%nat. split; [done|by cbn]. }
  destruct l as [|b l]; [split; [constructor|]; exists 0%nat; by split|]. cbn [groups].
  set (k := b :: l) in *. assert (Hk : (0 < List.length k)%nat) by (cbn; lia). clearbody k.
  destruct (IH (drop w k)) as [Hf (p & Hp & Hc)]; [rewrite length_drop; lia|]. split.
  - constructor; [|done]. rewrite length_app, length_take, length_replicate. lia.
  - destruct (decide (w <= List.length k)%nat) as [Hle|Hgt].
    + exists p. split; [done|]. cbn [concat]. rewrite Hc, (proj2 (Nat.sub_0_le w (List.length k)) Hle). cbn [replicate].
      rewrite app_nil_r, app_assoc, take_drop. done.
    + exists (w - List.length k)%nat. split; [lia|]. cbn [concat]. rewrite Hc, drop_ge by lia. rewrite take_ge by lia.
      cbn [app]. rewrite (drop_ge k w) in Hc by lia. destruct fuel; cbn [groups concat] in Hc;
        (destruct p; [by rewrite app_nil_r|done]).
Qed.

(** ** Decoding gives back what was encoded *)

Definition alphabet_ok (alphabet : string) (w : nat) : bool :=
  forallb (λ n, bool_decide (char_index alphabet (nth_char alphabet n) = Some n) && negb (is_newline (nth_char alphabet n)))
    (seq 0 (2 ^ w)).

Lemma alphabet_ok_at alphabet w n : alphabet_ok alphabet w = true → (n < 2 ^ w)%nat →
  char_index alphabet (nth_char alphabet n) = Some n ∧ is_newline (nth_char alphabet n) = false.
Proof.
  unfold alphabet_ok. rewrite forallb_forall. intros H Hn. specialize (H n).
  apply andb_true_iff in H as [H1%bool_decide_eq_true_1 H2%negb_true_iff]; [done|]. apply in_seq. lia.
Qed.

Lemma url_alphabet_ok : alphabet_ok url_alphabet 6 = true.
Proof. vm_compute. reflexivity. Qed.
Lemma std_alphabet_ok : alphabet_ok std_alphabet 6 = true.
Proof. vm_compute. reflexivity. Qed.
Lemma base32_alphabet_ok : alphabet_ok base32_alphabet 5 = true.
Proof. vm_compute. reflexivity. Qed.

(** Characters of encoded text. *)
Lemma encode_chars (P : ascii → bool) alphabet w s : (0 < w)%nat →
  forallb (λ n, P (nth_char alphabet n)) (seq 0 (2 ^ w)) = true → all_chars P (encode_bits alphabet w s) = true.
Proof.
  intros Hw HP. unfold encode_bits. destruct (groups_spec w (List.length (text_bits s)) (text_bits s) Hw) as [Hg _]; [done|].
  induction Hg as [|g gs Hg Hgs IH]; [done|]. cbn [fmap list_fmap string_of_list_ascii all_chars]. apply andb_true_iff. split; [|exact IH].
  rewrite forallb_forall in HP. apply HP, in_seq. pose proof (bits_nat_bound g). rewrite Hg in *. lia.
Qed.

Lemma decode_values_encode alphabet w s : (0 < w)%nat → alphabet_ok alphabet w = true →
  ∃ values p, decode_values alphabet (encode_bits alphabet w s) = Some values ∧ (p < w)%nat
  ∧ values_bits w values = (text_bits s ++ replicate p false)%list
  ∧ (w * List.length values = 8 * String.length s + p)%nat.
Proof.
  intros Hw Hok. unfold encode_bits, decode_values. rewrite list_ascii_of_string_of_list_ascii.
  destruct (groups_spec w (List.length (text_bits s)) (text_bits s) Hw) as [Hg (p & Hp & Hc)]; [done|].
  set (gs := groups w _ _) in *. clearbody gs. exists (bits_nat <$> gs), p.
  assert (Hval : mapM (char_index alphabet) (List.filter (λ c, negb (is_newline c)) ((λ g, nth_char alphabet (bits_nat g)) <$> gs))
                 = Some (bits_nat <$> gs)).
  { clear Hc. induction Hg as [|g gs Hg Hgs IH]; [done|]. cbn [fmap list_fmap List.filter].
    destruct (alphabet_ok_at alphabet w (bits_nat g)) as [Hi Hn]; [done|rewrite <- Hg; apply bits_nat_bound|].
    rewrite Hn. cbn [negb mapM]. rewrite Hi. cbn [mbind option_bind]. by rewrite IH. }
  assert (Hbits : values_bits w (bits_nat <$> gs) = concat gs).
  { unfold values_bits. clear Hc Hval. induction Hg as [|g gs Hg Hgs IH]; [done|]. cbn [fmap list_fmap concat]. f_equal; [|exact IH].
    rewrite <- Hg. apply nat_bits_of. }
  split_and!; [done|done|by rewrite Hbits|].
  apply (f_equal (@List.length bool)) in Hc. rewrite length_app, length_replicate, length_text_bits in Hc. rewrite <- Hc, length_fmap.
  clear -Hg. induction Hg as [|g gs Hg Hgs IH]; [cbn; lia|]. cbn [concat List.length]. rewrite length_app, Hg, <- IH. lia.
Qed.

Lemma base64_round_trip alphabet s : alphabet_ok alphabet 6 = true → base64_decode alphabet (base64_encode alphabet s) = Some s.
Proof.
  intros Hok. unfold base64_decode, base64_encode.
  destruct (decode_values_encode alphabet 6 s) as (values & p & -> & Hp & Hb & Hl); [lia|done|]. cbn [mbind option_bind].
  destruct (Nat.eqb_spec (List.length values mod 4) 1) as [H1|_].
  - exfalso. pose proof (Nat.div_mod_eq (List.length values) 4). lia.
  - rewrite Hb. by rewrite bits_text_app by (rewrite length_replicate; lia).
Qed.

Lemma base32_round_trip s : base32_decode (base32_encode s) = Some s.
Proof.
  unfold base32_decode, base32_encode.
  destruct (decode_values_encode base32_alphabet 5 s) as (values & p & -> & Hp & Hb & Hl); [lia|apply base32_alphabet_ok|].
  cbn [mbind option_bind]. rewrite bool_decide_eq_false_2.
  - rewrite Nat.sub_0_r, take_ge by done. rewrite Hb. by rewrite bits_text_app by (rewrite length_replicate; lia).
  - pose proof (Nat.div_mod_eq (List.length values) 8). intros Hr. rewrite !elem_of_cons, elem_of_nil in Hr. lia.
Qed.

Example base64_foobar : base64_encode std_alphabet "foobar!" = "Zm9vYmFyIQ" ∧ base64_decode url_alphabet "Zm9" = Some "fo".
Proof. by vm_compute. Qed.
Example base32_foob : base32_encode "foob" = "MZXW6YQ" ∧ base32_decode "MZXW6YQ" = Some "foob".
Proof. by vm_compute. Qed.
