(* ===== verification/GoRunes.v ===== *)
(** * Runes: UTF-8 and the character classes the data service tests

    What the code uses of the packages utf8 and unicode.  A rune is an
    integer; [decode_rune] is [utf8.DecodeRuneInString], [runes] the conversion
    [[]rune(s)] (and the runes a range loop over a string visits), [encode]
    the conversion [string(runes)].  The letters and digits outside ASCII are
    those of the Unicode tables of the Go release, the parameter
    [UnicodeTables]; every result holds for any tables.

    [IsValidIdentifier] is data/common/identifier.go. *)

From S2P Require Import Prelude GoStrings.
From Stdlib Require Import ZArith Lia Ascii String.
Local Open Scope string_scope.
Local Open Scope Z_scope.

Abbreviation rune := Z.

Definition RuneError : rune := 65533.

Definition byte_val (c : ascii) : Z := Z.of_nat (nat_of_ascii c).

(** ** Decoding *)

(** A continuation byte within the bounds the first byte allows. *)
Definition cont (lo hi : Z) (s : string) : option (Z * string) :=
  match s with
  | EmptyString => None
  | String c s' =>
      let b := byte_val c in
      if (lo <=? b) && (b <=? hi) then Some (b - 128, s') else None
  end.

(** The rune at the head of [String c s'] and the number of bytes it has
    after [c]; a malformed sequence is [RuneError], one byte wide. *)
Definition decode_rune (c : ascii) (s' : string) : rune * nat :=
  let b := byte_val c in
  let bad := (RuneError, 0%nat) in
  if b <? 128 then (b, 0%nat)
  else if (194 <=? b) && (b <=? 223) then
    match cont 128 191 s' with
    | Some (x, _) => ((b - 192) * 64 + x, 1%nat)
    | None => bad
    end
  else if (224 <=? b) && (b <=? 239) then
    let lo := if b =? 224 then 160 else 128 in
    let hi := if b =? 237 then 159 else 191 in
    match cont lo hi s' with
    | Some (x, s1) =>
        match cont 128 191 s1 with
        | Some (y, _) => ((b - 224) * 4096 + x * 64 + y, 2%nat)
        | None => bad
        end
    | None => bad
    end
  else if (240 <=? b) && (b <=? 244) then
    let lo := if b =? 240 then 144 else 128 in
    let hi := if b =? 244 then 143 else 191 in
    match cont lo hi s' with
    | Some (x, s1) =>
        match cont 128 191 s1 with
        | Some (y, s2) =>
            match cont 128 191 s2 with
            | Some (z, _) => ((b - 240) * 262144 + x * 4096 + y * 64 + z, 3%nat)
            | None => bad
            end
        | None => bad
        end
    | None => bad
    end
  else bad.

Fixpoint runes_from (skip : nat) (s : string) : list rune :=
  match s with
  | EmptyString => []
  | String c s' =>
      match skip with
      | S k => runes_from k s'
      | O => let '(r, k) := decode_rune c s' in r :: runes_from k s'
      end
  end.

(** [[]rune(s)]. *)
Definition runes (s : string) : list rune := runes_from 0 s.

(** [utf8.ValidString]: a [RuneError] of width one is an error. *)
Fixpoint valid_from (skip : nat) (s : string) : bool :=
  match s with
  | EmptyString => true
  | String c s' =>
      match skip with
      | S k => valid_from k s'
      | O => let '(r, k) := decode_rune c s' in
             negb ((r =? RuneError) && (k =? 0)%nat) && valid_from k s'
      end
  end.

Definition ValidString (s : string) : bool := valid_from 0 s.

(** ** Encoding *)

Definition byte_of (z : Z) : ascii := ascii_of_nat (Z.to_nat z).

Definition is_scalar (r : rune) : bool :=
  (0 <=? r) && (r <=? 1114111) && negb ((55296 <=? r) && (r <=? 57343)).

Definition encode_scalar (r : rune) : string :=
  if r <? 128 then String (byte_of r) ""
  else if r <? 2048 then
    String (byte_of (192 + r / 64)) (String (byte_of (128 + r mod 64)) "")
  else if r <? 65536 then
    String (byte_of (224 + r / 4096)) (String (byte_of (128 + r / 64 mod 64))
      (String (byte_of (128 + r mod 64)) ""))
  else
    String (byte_of (240 + r / 262144)) (String (byte_of (128 + r / 4096 mod 64))
      (String (byte_of (128 + r / 64 mod 64)) (String (byte_of (128 + r mod 64)) ""))).

(** [utf8.AppendRune]; what is no scalar value is written as [RuneError]. *)
Definition encode_rune (r : rune) : string :=
  encode_scalar (if is_scalar r then r else RuneError).

(** [string(runes)]. *)
Fixpoint encode (rs : list rune) : string :=
  match rs with
  | [] => ""
  | r :: rs' => encode_rune r ++ encode rs'
  end.

(** ** Character classes *)

Class UnicodeTables := MkUnicodeTables {
  letter_table : rune → bool;
  digit_table : rune → bool;
}.

Section classes.
Context `{UT : UnicodeTables}.

Definition in_range (lo hi r : Z) : bool := (lo <=? r) && (r <=? hi).

(** [unicode.IsLetter]. *)
Definition IsLetter (r : rune) : bool :=
  if r <? 128 then in_range 65 90 r || in_range 97 122 r else letter_table r.

(** [unicode.IsDigit]. *)
Definition IsDigit (r : rune) : bool :=
  if r <? 128 then in_range 48 57 r else digit_table r.

(** [unicode.IsSpace]: the White_Space property. *)
Definition IsSpace (r : rune) : bool :=
  in_range 9 13 r || (r =? 32) || (r =? 133) || (r =? 160) || (r =? 5760)
  || in_range 8192 8202 r || in_range 8232 8233 r || (r =? 8239) || (r =? 8287) || (r =? 12288).

Definition ident_head (r : rune) : bool := IsLetter r || (r =? 95).
Definition ident_char (r : rune) : bool := IsLetter r || IsDigit r || (r =? 95).

(** The range loop of [IsValidIdentifier]: the first rune, then the others. *)
Definition IsValidIdentifier (identifier : string) : bool :=
  if String.eqb identifier "" || (63 <? String.length identifier)%nat then false
  else match runes identifier with
       | [] => true
       | r :: rs => ident_head r && forallb ident_char rs
       end.

(** ** Lemmas *)

Lemma byte_val_range c : 0 <= byte_val c < 256.
Proof. unfold byte_val. pose proof (nat_ascii_bounded c). lia. Qed.

Lemma byte_val_inj c d : byte_val c = byte_val d → c = d.
Proof.
  unfold byte_val. intros E%Nat2Z.inj.
  rewrite <- (ascii_nat_embedding c), <- (ascii_nat_embedding d). by rewrite E.
Qed.

Lemma byte_val_of z : 0 <= z < 256 → byte_val (byte_of z) = z.
Proof. intros ?. unfold byte_val, byte_of. rewrite nat_ascii_embedding; lia. Qed.

Lemma cont_range lo hi s x s' : cont lo hi s = Some (x, s') →
  ∃ c, s = String c s' ∧ lo <= byte_val c <= hi ∧ x = byte_val c - 128.
Proof.
  destruct s as [|c s]; simpl; [done|]. case_match; [|done]. intros [= <- <-]. bool_to_prop. eauto.
Qed.

Lemma decode_ascii c s : byte_val c < 128 → decode_rune c s = (byte_val c, 0%nat).
Proof. intros Hc. unfold decode_rune. by rewrite (proj2 (Z.ltb_lt _ _) Hc). Qed.

(** The bytes a multi-byte rune takes after its first are not ASCII. *)
Fixpoint high_prefix (k : nat) (s : string) : Prop :=
  match k, s with
  | O, _ => True
  | S k', String c s' => 128 <= byte_val c ∧ high_prefix k' s'
  | S _, EmptyString => False
  end.

Ltac use_cont :=
  repeat match goal with
  | H : cont _ _ _ = Some (_, _) |- _ => apply cont_range in H as (? & ? & ? & ?)
  end.

Lemma decode_high c s r k : decode_rune c s = (r, k) →
  high_prefix k s ∧ (byte_val c < 128 → r = byte_val c) ∧ (128 <= byte_val c → 128 <= r).
Proof.
  unfold decode_rune, RuneError. repeat case_match; intros [= <- <-]; use_cont; subst; bool_to_prop;
    simpl; repeat split; repeat case_match; bool_to_prop; lia.
Qed.

(** What holds of every rune of a string holds of its ASCII bytes. *)
Lemma runes_from_ascii (P : Z → bool) k s :
  high_prefix k s → forallb P (runes_from k s) = true →
  all_chars (λ c, (128 <=? byte_val c) || P (byte_val c)) s = true.
Proof.
  revert k. induction s as [|c s IH]; intros k; [done|]. cbn [runes_from all_chars].
  destruct k as [|k]; simpl high_prefix.
  - intros _. destruct (decode_rune c s) as [r k] eqn:E. apply decode_high in E as (Hk & Hr & _).
    cbn [forallb]. intros [HP HPs]%andb_true_iff. rewrite (IH k) by done.
    destruct (Z.leb_spec 128 (byte_val c)); [done|]. rewrite <- Hr by done. by rewrite HP.
  - intros [Hc Hk] HP. rewrite (IH k) by done. by rewrite (proj2 (Z.leb_le _ _) Hc).
Qed.

(** An identifier holds no quote, backslash, dollar sign, space or other
    ASCII punctuation: only letters, digits, underscores and non-ASCII
    bytes. *)
Definition ident_byte (c : ascii) : bool :=
  (128 <=? byte_val c) || ident_char (byte_val c).

Lemma IsValidIdentifier_bytes s : IsValidIdentifier s = true → all_chars ident_byte s = true.
Proof.
  unfold IsValidIdentifier. case_match; [done|]. intros Hs.
  apply (runes_from_ascii ident_char 0); [done|]. unfold runes in Hs.
  destruct (runes_from 0 s) as [|r rs]; [done|]. apply andb_true_iff in Hs as [Hr Hrs].
  simpl. rewrite Hrs, andb_true_r. unfold ident_head in Hr. unfold ident_char.
  destruct (IsLetter r); simpl in *; [done|]. rewrite Hr. by rewrite orb_true_r.
Qed.

Lemma IsValidIdentifier_not_empty s : IsValidIdentifier s = true → s ≠ "".
Proof. by intros H ->. Qed.

(** ** Decoding and encoding are inverse on well-formed text *)

Lemma byte_of_eq c z : z = byte_val c → byte_of z = c.
Proof. intros ->. apply byte_val_inj, byte_val_of, byte_val_range. Qed.

Lemma div_small_add a b m : 0 <= b < m → (a * m + b) / m = a.
Proof. intros. rewrite Z.div_add_l by lia. rewrite Z.div_small by lia. lia. Qed.

Lemma mod_small_add a b m : 0 <= b < m → (a * m + b) mod m = b.
Proof. intros. rewrite Z.add_comm, Z_mod_plus_full. by apply Z.mod_small. Qed.

Fixpoint take_str (k : nat) (s : string) : string :=
  match k, s with
  | S k', String c s' => String c (take_str k' s')
  | _, _ => ""
  end.

Fixpoint drop_str (k : nat) (s : string) : string :=
  match k, s with
  | S k', String _ s' => drop_str k' s'
  | _, _ => s
  end.

Lemma runes_from_drop k s : runes_from k s = runes_from 0 (drop_str k s).
Proof. revert k. induction s as [|c s IH]; intros [|k]; try done. simpl. apply IH. Qed.

Lemma valid_from_drop k s : valid_from k s = valid_from 0 (drop_str k s).
Proof. revert k. induction s as [|c s IH]; intros [|k]; try done. simpl. apply IH. Qed.

Lemma take_drop_str k s : take_str k s ++ drop_str k s = s.
Proof. revert k. induction s as [|c s IH]; intros [|k]; try done. cbn [take_str drop_str].
  rewrite append_cons. by rewrite IH.
Qed.

Lemma is_scalar_spec r :
  is_scalar r = true ↔ 0 <= r <= 1114111 ∧ (r < 55296 ∨ 57343 < r).
Proof.
  unfold is_scalar. rewrite !andb_true_iff, negb_true_iff, andb_false_iff, !Z.leb_le, !Z.leb_gt. lia.
Qed.

(** Chooses the length of the encoding and compares it byte by byte. *)
Ltac encode_bytes :=
  unfold encode_scalar;
  repeat match goal with
  | |- context [?a <? ?b] => destruct (Z.ltb_spec a b); [try (exfalso; euclid)|try (exfalso; euclid)]
  end;
  cbn [take_str]; repeat f_equal; apply byte_of_eq; euclid.

Lemma encode_decode_rune c s r k : decode_rune c s = (r, k) →
  (r =? RuneError) && (k =? 0)%nat = false →
  is_scalar r = true ∧ encode_rune r = String c (take_str k s).
Proof.
  intros Hd Hv. assert (Hs : is_scalar r = true ∧ encode_scalar r = String c (take_str k s)).
  { revert Hd Hv. unfold decode_rune. pose proof (byte_val_range c).
    repeat (case_match; try (intros [= <- <-]; discriminate)); intros [= <- <-] _; use_cont;
      subst; bool_to_prop;
      (split; [apply is_scalar_spec; repeat case_match; bool_to_prop; lia|]);
      repeat case_match; bool_to_prop; encode_bytes. }
  unfold encode_rune. destruct Hs as [-> ->]. done.
Qed.


Lemma drop_str_length k s : (String.length (drop_str k s) <= String.length s)%nat.
Proof. revert k. induction s as [|c s IH]; intros [|k]; simpl; try lia. specialize (IH k). lia. Qed.

(** Well-formed text survives the passage through runes. *)
Lemma encode_runes s : ValidString s = true → encode (runes s) = s.
Proof.
  unfold ValidString, runes. remember (String.length s) as n eqn:Hn.
  revert s Hn. induction (lt_wf n) as [n _ IH]. intros [|c s] Hn; [done|].
  cbn [valid_from runes_from]. destruct (decode_rune c s) as [r k] eqn:E.
  intros [Hr Hv]%andb_true_iff. apply negb_true_iff in Hr.
  destruct (encode_decode_rune c s r k E Hr) as [_ Henc]. cbn [encode].
  rewrite valid_from_drop in Hv. rewrite runes_from_drop.
  rewrite (IH (String.length (drop_str k s))), Henc; [|simpl in Hn; pose proof (drop_str_length k s); lia|done..].
  rewrite append_cons. by rewrite take_drop_str.
Qed.

Lemma encode_app a b : encode (a ++ b)%list = encode a ++ encode b.
Proof. induction a as [|r a IH]; [done|]. cbn. by rewrite IH, append_assoc. Qed.

(** Text without letters beyond ASCII is its own list of runes. *)
Lemma runes_ascii s : all_chars (λ c, byte_val c <? 128) s = true →
  runes s = (byte_val <$> list_ascii_of_string s).
Proof.
  unfold runes. induction s as [|c s IH]; [done|]. cbn [all_chars runes_from].
  intros [Hc Hs]%andb_true_iff. apply Z.ltb_lt in Hc. rewrite decode_ascii by done.
  by rewrite IH.
Qed.

End classes.

(** The tables of ASCII: no letters or digits beyond. *)
Definition ascii_tables : UnicodeTables := MkUnicodeTables (λ _, false) (λ _, false).
