(* ===== verification/GoValues.v ===== *)
(** * Dynamic values: [any], maps keyed by strings, and floats

    The values JSON decoding and the GraphQL parser produce ([any] holding
    nil, a bool, an int64, a float64, a string, a [[]any] or a
    [map[string]any]), and what the code does with them: look-up, assignment
    and the text [%v] prints.

    A Go map is the list of its entries in the order a range loop visits them;
    the order is unspecified in Go, so results about a loop are stated for
    every list.  The 64-bit floats and their conversions from and to text
    (strconv.ParseFloat, the shortest decimal of %v) are the parameter
    [Floats]. *)

From S2P Require Import Prelude GoStrings.
From Stdlib Require Import ZArith Lia Ascii String.
Local Open Scope string_scope.

Class Floats := MkFloats {
  float64 : Type;
  ParseFloat : string → option float64;
  FormatFloat : float64 → string;
  float_leb : float64 → float64 → bool;
  float_ltb : float64 → float64 → bool;
  (** The conversions [int64(f)] and [float64(i)]. *)
  float_to_int : float64 → Z;
  float_of_int : Z → float64;
}.

Section values.
Context `{FL : Floats}.

Inductive any :=
| ANil
| ABool (b : bool)
| AInt (z : Z)
| AFloat (f : float64)
| AString (s : string)
| AList (l : list any)
| AMap (m : list (string * any)).

(** Induction through the lists and maps. *)
Section any_induction.
Context (P : any → Prop) (Hnil : P ANil) (Hbool : ∀ b, P (ABool b)) (Hint : ∀ z, P (AInt z))
  (Hfloat : ∀ f, P (AFloat f)) (Hstring : ∀ s, P (AString s))
  (Hlist : ∀ l, Forall P l → P (AList l))
  (Hmap : ∀ m, Forall (λ kv, P kv.2) m → P (AMap m)).

Fixpoint any_nested_ind (v : any) : P v :=
  match v with
  | ANil => Hnil
  | ABool b => Hbool b
  | AInt z => Hint z
  | AFloat f => Hfloat f
  | AString s => Hstring s
  | AList l =>
      Hlist l ((fix go (l : list any) : Forall P l :=
        match l with
        | [] => Forall_nil_2 _
        | x :: l' => Forall_cons_2 _ _ _ (any_nested_ind x) (go l')
        end) l)
  | AMap m =>
      Hmap m ((fix go (m : list (string * any)) : Forall (λ kv, P kv.2) m :=
        match m with
        | [] => Forall_nil_2 _
        | kv :: m' => Forall_cons_2 _ _ _ (any_nested_ind kv.2) (go m')
        end) m)
  end.
End any_induction.
End values.

(** ** Maps *)

(** [m[k]], and whether the key is there. *)
Fixpoint map_get {A} (m : list (string * A)) (k : string) : option A :=
  match m with
  | [] => None
  | (k', v) :: m' => if String.eqb k' k then Some v else map_get m' k
  end.

(** [m[k] = v]. *)
Fixpoint map_set {A} (m : list (string * A)) (k : string) (v : A) : list (string * A) :=
  match m with
  | [] => [(k, v)]
  | (k', v') :: m' => if String.eqb k' k then (k', v) :: m' else (k', v') :: map_set m' k v
  end.

(** The keys of a map are pairwise different. *)
Definition keys {A} (m : list (string * A)) : list string := m.*1.

Lemma map_get_in {A} (m : list (string * A)) k v : map_get m k = Some v → (k, v) ∈ m.
Proof.
  induction m as [|[k' v'] m IH]; simpl; [done|].
  destruct (String.eqb_spec k' k) as [->|]; [intros [= ->]; by left|]. right. auto.
Qed.

Lemma map_get_set {A} (m : list (string * A)) k v k' :
  map_get (map_set m k v) k' = if String.eqb k k' then Some v else map_get m k'.
Proof.
  induction m as [|[k0 v0] m IH]; simpl; [done|].
  destruct (String.eqb_spec k0 k) as [->|Hk]; simpl.
  - by destruct (String.eqb k k').
  - destruct (String.eqb_spec k0 k') as [->|]; simpl.
    + destruct (String.eqb_spec k k') as [->|]; [done|]. done.
    + by rewrite IH.
Qed.

(** Assigning a new key adds an entry at the end. *)
Lemma map_set_fresh {A} (m : list (string * A)) k v : k ∉ keys m → map_set m k v = (m ++ [(k, v)])%list.
Proof.
  induction m as [|[k' v'] m IH]; simpl; [done|]. intros [Hk Hm]%not_elem_of_cons.
  destruct (String.eqb_spec k' k) as [->|]; [done|]. by rewrite IH.
Qed.

(** ** Order of strings, byte by byte *)

Fixpoint string_leb (s t : string) : bool :=
  match s, t with
  | EmptyString, _ => true
  | String _ _, EmptyString => false
  | String a s', String b t' =>
      if Ascii.eqb a b then string_leb s' t'
      else (nat_of_ascii a <? nat_of_ascii b)%nat
  end.

(** [s < t] is [!(t <= s)]. *)
Definition string_ltb (s t : string) : bool := negb (string_leb t s).

(** [sort.Strings]: insertion; equal strings are indistinguishable, so every
    sorting algorithm gives this result. *)
Fixpoint insert_by {A} (le : A → A → bool) (x : A) (l : list A) : list A :=
  match l with
  | [] => [x]
  | y :: l' => if le x y then x :: l else y :: insert_by le x l'
  end.
Definition sort_by {A} (le : A → A → bool) (l : list A) : list A := foldr (insert_by le) [] l.
Definition sort_Strings (l : list string) : list string := sort_by string_leb l.

Lemma insert_by_perm {A} (le : A → A → bool) x l : insert_by le x l ≡ₚ x :: l.
Proof.
  induction l as [|y l IH]; simpl; [done|]. destruct (le x y); [done|].
  rewrite IH. apply Permutation_swap.
Qed.

Lemma sort_by_perm {A} (le : A → A → bool) l : sort_by le l ≡ₚ l.
Proof. induction l as [|x l IH]; simpl; [done|]. by rewrite insert_by_perm, IH. Qed.

(** ** [fmt.Sprintf("%v", value)] *)

Section format.
Context `{FL : Floats}.

Fixpoint format_v (v : any) : string :=
  match v with
  | ANil => "<nil>"
  | ABool b => if b then "true" else "false"
  | AInt z => decimal z
  | AFloat f => FormatFloat f
  | AString s => s
  | AList l => "[" ++ Join (format_v <$> l) " " ++ "]"
  | AMap m =>
      "map[" ++ Join ((λ kv, kv.1 ++ ":" ++ kv.2)
        <$> sort_by (λ a b, string_leb a.1 b.1) ((λ kv, (kv.1, format_v kv.2)) <$> m)) " " ++ "]"
  end.
End format.

(** Whole numbers in the place of floats, for the examples. *)
Definition integer_floats : Floats := {|
  float64 := Z; ParseFloat := Atoi; FormatFloat := decimal;
  float_leb := Z.leb; float_ltb := Z.ltb; float_to_int := λ z, z; float_of_int := λ z, z;
|}.
