(* ===== verification/URLQuery.v ===== *)
(** * net/url: query strings, as the redirects of the auth service use them

    [url.Values] with its escapes, and what [url.Parse], [Query().Set],
    [Encode] and [String] make of a URL whose query is extended.  The values of
    a query are kept as pairs in their order; [Encode] sorts them by key and
    leaves the values of one key in order.  A parameter ([URLParser]) is the
    normal form of what precedes the query, and that of the fragment. *)

From stdpp Require Import strings.
From Stdlib Require Import ZArith Lia Ascii String.
From S2P Require Import Prelude GoStrings GoRunes GoValues.
Local Open Scope string_scope.

(** ** Escapes *)

Definition char_between (lo hi c : ascii) : bool := (nat_of_ascii lo <=? nat_of_ascii c)%nat && (nat_of_ascii c <=? nat_of_ascii hi)%nat.

(** Letters, digits and "-_.~" stand for themselves. *)
Definition unreserved (c : ascii) : bool :=
  char_between "a" "z" c || char_between "A" "Z" c || char_between "0" "9" c
  || Ascii.eqb c "-" || Ascii.eqb c "_" || Ascii.eqb c "." || Ascii.eqb c "~".

Definition upperhex (n : nat) : ascii := default "0"%char (list_ascii_of_string "0123456789ABCDEF" !! n).

Definition unhex (c : ascii) : option nat :=
  if char_between "0" "9" c then Some (nat_of_ascii c - 48)%nat
  else if char_between "a" "f" c then Some (nat_of_ascii c - 87)%nat
  else if char_between "A" "F" c then Some (nat_of_ascii c - 55)%nat
  else None.

Definition escape_char (c : ascii) : string :=
  if unreserved c then String c ""
  else if Ascii.eqb c " " then "+"
  else String "%" (String (upperhex (nat_of_ascii c / 16)) (String (upperhex (nat_of_ascii c mod 16)) "")).

Fixpoint QueryEscape (s : string) : string :=
  match s with
  | "" => ""
  | String c s => escape_char c ++ QueryEscape s
  end.

Fixpoint QueryUnescape (s : string) : option string :=
  match s with
  | "" => Some ""
  | String c s =>
      if Ascii.eqb c "%" then
        match s with
        | String a (String b s) =>
            match unhex a, unhex b with
            | Some x, Some y => String (ascii_of_nat (16 * x + y)) <$> QueryUnescape s
            | _, _ => None
            end
        | _ => None
        end
      else String (if Ascii.eqb c "+" then " "%char else c) <$> QueryUnescape s
  end.

(** [url.PathUnescape]: as in a query, but [+] is itself. *)
Fixpoint PathUnescape (s : string) : option string :=
  match s with
  | "" => Some ""
  | String c s =>
      if Ascii.eqb c "%" then
        match s with
        | String a (String b s) =>
            match unhex a, unhex b with
            | Some x, Some y => String (ascii_of_nat (16 * x + y)) <$> PathUnescape s
            | _, _ => None
            end
        | _ => None
        end
      else String c <$> PathUnescape s
  end.

(** ** Values *)

Abbreviation Values := (list (string * string)).

(** A segment of a query; one that is empty, holds a semicolon or does not
    unescape is dropped. *)
Definition parse_segment (segment : string) : Values :=
  if String.eqb segment "" || negb (lacks ";" segment) then [] else
  let '(key, value) := cut "=" segment in
  match QueryUnescape key, QueryUnescape (default "" value) with
  | Some key, Some value => [(key, value)]
  | _, _ => []
  end.

Definition ParseQuery (query : string) : Values := Split query "&" ≫= parse_segment.

Definition values_Get (vs : Values) (key : string) : string := default "" (snd <$> List.find (λ kv, String.eqb kv.1 key) vs).
Definition values_Set (vs : Values) (key value : string) : Values := List.filter (λ kv, negb (String.eqb kv.1 key)) vs ++ [(key, value)].
Definition set_all (kvs vs : Values) : Values := foldl (λ vs kv, values_Set vs kv.1 kv.2) vs kvs.

Definition key_leb (a b : string * string) : bool := string_leb a.1 b.1.
Definition encode_pair (kv : string * string) : string := QueryEscape kv.1 ++ "=" ++ QueryEscape kv.2.
Definition values_Encode (vs : Values) : string := Join (encode_pair <$> sort_by key_leb vs) "&".

(** ** URLs *)

Class URLParser := MkURLParser {
  (** The text before the query, parsed and written again. *)
  url_rest : string → option string;
  url_fragment : string → option string }.

(** What is written before a query holds neither mark. *)
Class URLParserLaws `{URLParser} := {
  url_rest_marks : ∀ s t, url_rest s = Some t → lacks "?" t = true ∧ lacks "#" t = true }.

(** The parts of a URL: before the query, the query, the fragment. *)
Definition split_url (raw : string) : string * string * string :=
  let '(rest, fragment) := cut "#" raw in
  let '(base, query) := cut "?" rest in
  (base, default "" query, default "" fragment).

Definition raw_query (raw : string) : string := snd (fst (split_url raw)).

(** The URL with values set in its query; [kvs] is not empty. *)
Definition url_with `{URLParser} (raw : string) (kvs : Values) : option string :=
  let '(base, query, fragment) := split_url raw in
  base ← url_rest base;
  fragment ← url_fragment fragment;
  Some (base ++ "?" ++ values_Encode (set_all kvs (ParseQuery query)) ++ (if String.eqb fragment "" then "" else "#" ++ fragment)).

(** ** What is written is read back *)

Lemma unescape_char c t : QueryUnescape (escape_char c ++ t) = String c <$> QueryUnescape t.
Proof. destruct c as [[] [] [] [] [] [] [] []]; reflexivity. Qed.

Lemma QueryUnescape_QueryEscape s : QueryUnescape (QueryEscape s) = Some s.
Proof. induction s as [|c s IH]; [done|]. cbn [QueryEscape]. by rewrite unescape_char, IH. Qed.

Lemma PathUnescape_plain s : lacks "%" s = true → PathUnescape s = Some s.
Proof.
  induction s as [|c s IH]; [done|]. unfold lacks. cbn [all_chars PathUnescape]. intros [Hc%negb_true_iff Hs]%andb_true_iff.
  rewrite Hc, IH; done.
Qed.

(** The bytes of an escaped text. *)
Definition escaped_char (c : ascii) : bool := unreserved c || Ascii.eqb c "+" || Ascii.eqb c "%".

Lemma escape_char_chars c : all_chars escaped_char (escape_char c) = true.
Proof. destruct c as [[] [] [] [] [] [] [] []]; reflexivity. Qed.

Lemma QueryEscape_chars s : all_chars escaped_char (QueryEscape s) = true.
Proof. induction s as [|c s IH]; [done|]. cbn [QueryEscape]. by rewrite all_chars_app, escape_char_chars. Qed.

Lemma QueryEscape_lacks sep s : escaped_char sep = false → lacks sep (QueryEscape s) = true.
Proof.
  intros Hsep. eapply all_chars_impl, QueryEscape_chars. intros c Hc. destruct (Ascii.eqb_spec c sep) as [->|]; [congruence|done].
Qed.

Lemma single_app c t : String c "" ++ t = String c t. Proof. done. Qed.
Lemma lacks_app sep s t : lacks sep (s ++ t) = lacks sep s && lacks sep t.
Proof. apply all_chars_app. Qed.
Lemma lacks_cons sep c s : c ≠ sep → lacks sep s = true → lacks sep (String c s) = true.
Proof. intros Hc Hs. unfold lacks in *. cbn [all_chars]. rewrite Hs. by rewrite (proj2 (Ascii.eqb_neq c sep)). Qed.

Lemma encode_pair_lacks sep kv : escaped_char sep = false → sep ≠ "="%char → lacks sep (encode_pair kv) = true.
Proof.
  intros Hsep Hne. unfold encode_pair. rewrite lacks_app, QueryEscape_lacks by done. rewrite single_app. cbn [andb].
  apply lacks_cons; [congruence|]. by apply QueryEscape_lacks.
Qed.

Lemma parse_encode_pair kv : parse_segment (encode_pair kv) = [kv].
Proof.
  unfold parse_segment. rewrite encode_pair_lacks by done. destruct (String.eqb_spec (encode_pair kv) "") as [E|_].
  { exfalso. unfold encode_pair in E. by destruct (QueryEscape kv.1). }
  cbn [orb negb]. unfold encode_pair. rewrite single_app, cut_lacks by (by apply QueryEscape_lacks).
  cbn [from_option]. unfold id. rewrite !QueryUnescape_QueryEscape. by destruct kv.
Qed.

Lemma Join_two s t l sep : Join (s :: t :: l) (String sep "") = s ++ String sep (Join (t :: l) (String sep "")).
Proof. cbn [Join]. by rewrite single_app. Qed.

Lemma Split_Join sep l : l ≠ [] → Forall (λ s, lacks sep s = true) l → Split (Join l (String sep "")) sep = l.
Proof.
  intros Hl Hall. induction Hall as [|s l Hs Hall IH]; [done|]. destruct l as [|t l]; [by apply Split_lacks|].
  rewrite Join_two, Split_app by done. by rewrite IH.
Qed.

Lemma ParseQuery_Encode vs : ParseQuery (values_Encode vs) = sort_by key_leb vs.
Proof.
  unfold ParseQuery, values_Encode. destruct (sort_by key_leb vs) as [|kv l]; [done|].
  rewrite Split_Join; [|done|apply list.Forall_forall; intros s (x & -> & _)%list_elem_of_fmap; by apply encode_pair_lacks].
  generalize (kv :: l) as l'. intros l'. induction l' as [|x l' IH]; [done|]. cbn [fmap list_fmap mbind list_bind]. rewrite parse_encode_pair.
  cbn [app]. f_equal. exact IH.
Qed.

(** Sorting by key keeps the first value of each. *)
Lemma string_leb_refl s : string_leb s s = true.
Proof. induction s as [|c s IH]; [done|]. cbn. by rewrite Ascii.eqb_refl. Qed.

Lemma Get_insert x l key : values_Get (insert_by key_leb x l) key = values_Get (x :: l) key.
Proof.
  induction l as [|y l IH]; [done|]. cbn [insert_by]. destruct (key_leb x y) eqn:E; [done|]. unfold values_Get in *. cbn [List.find] in *.
  destruct (String.eqb_spec y.1 key) as [Hy|Hy].
  - destruct (String.eqb_spec x.1 key) as [Hx|Hx]; [|done]. exfalso. unfold key_leb in E. rewrite Hx, Hy, string_leb_refl in E. done.
  - rewrite IH. by destruct (String.eqb x.1 key).
Qed.

Lemma Get_sorted vs key : values_Get (sort_by key_leb vs) key = values_Get vs key.
Proof.
  induction vs as [|x vs IH]; [done|]. cbn [sort_by foldr]. rewrite Get_insert. unfold values_Get in *. cbn [List.find].
  by destruct (String.eqb x.1 key).
Qed.

Lemma find_filtered (vs : Values) k key : k ≠ key →
  List.find (λ kv, String.eqb kv.1 key) (List.filter (λ kv, negb (String.eqb kv.1 k)) vs) = List.find (λ kv, String.eqb kv.1 key) vs.
Proof.
  intros Hne. induction vs as [|x vs IH]; [done|]. cbn. destruct (String.eqb_spec x.1 k) as [Hx|Hx]; cbn; [|by rewrite IH].
  rewrite IH. destruct (String.eqb_spec x.1 key); congruence.
Qed.

Lemma find_none_filtered (vs : Values) k : List.find (λ kv, String.eqb kv.1 k) (List.filter (λ kv, negb (String.eqb kv.1 k)) vs) = None.
Proof. induction vs as [|x vs IH]; [done|]. cbn. destruct (String.eqb x.1 k) eqn:E; cbn; [done|]. by rewrite E. Qed.

Lemma find_app {A} (P : A → bool) l l' : List.find P (l ++ l') = match List.find P l with Some a => Some a | None => List.find P l' end.
Proof. induction l as [|x l IH]; [done|]. cbn. by destruct (P x). Qed.

Lemma Get_Set_eq vs k v : values_Get (values_Set vs k v) k = v.
Proof. unfold values_Get, values_Set. rewrite find_app, find_none_filtered. cbn. by rewrite String.eqb_refl. Qed.

Lemma Get_Set_ne vs k v key : k ≠ key → values_Get (values_Set vs k v) key = values_Get vs key.
Proof.
  intros Hne. unfold values_Get, values_Set. rewrite find_app, find_filtered by done. destruct (List.find _ vs); [done|]. cbn.
  by rewrite (proj2 (String.eqb_neq k key)).
Qed.

Lemma Get_set_all kvs : ∀ vs key, NoDup kvs.*1 →
  values_Get (set_all kvs vs) key = default (values_Get vs key) (snd <$> List.find (λ kv, String.eqb kv.1 key) kvs).
Proof.
  induction kvs as [|[k v] kvs IH]; intros vs key Hnd; [done|]. cbn [fmap list_fmap] in Hnd. apply list.NoDup_cons in Hnd as [Hk Hnd].
  change (set_all ((k, v) :: kvs) vs) with (set_all kvs (values_Set vs k v)). rewrite IH by done. cbn [List.find fst snd].
  destruct (String.eqb_spec k key) as [->|Hne]; [|by rewrite Get_Set_ne].
  destruct (List.find _ kvs) as [kv|] eqn:E; cbn; [|apply Get_Set_eq].
  exfalso. apply find_some in E as [Hin He]. apply String.eqb_eq in He. apply Hk, list_elem_of_fmap. exists kv. split; [done|]. by apply list_elem_of_In.
Qed.

(** ** The query of a URL that was extended *)

Section extended.
Context `{UL : URLParserLaws}.

Lemma cut_lacks_none sep s : lacks sep s = true → cut sep s = (s, None).
Proof. induction s as [|c s IH]; [done|]. unfold lacks. cbn. intros [H1 H2]%andb_true_iff. apply negb_true_iff in H1. rewrite H1. by rewrite IH. Qed.

Lemma Encode_lacks sep vs : escaped_char sep = false → sep ≠ "="%char → sep ≠ "&"%char → lacks sep (values_Encode vs) = true.
Proof.
  intros Hs H1 H2. unfold values_Encode. induction (sort_by key_leb vs) as [|x l IH]; [done|]. cbn [fmap list_fmap].
  destruct l as [|y l]; [by apply encode_pair_lacks|]. cbn [fmap list_fmap] in *. rewrite Join_two, lacks_app, encode_pair_lacks by done.
  cbn [andb]. apply lacks_cons; [congruence|]. exact IH.
Qed.

Lemma url_with_query raw kvs u : url_with raw kvs = Some u → raw_query u = values_Encode (set_all kvs (ParseQuery (raw_query raw))).
Proof.
  unfold url_with, raw_query. destruct (split_url raw) as [[base query] fragment] eqn:Es. cbn [fst snd].
  intros (b & Eb & (f & Ef & [= <-])%bind_Some)%bind_Some. apply url_rest_marks in Eb as [Hq Hh].
  set (q := values_Encode _). assert (Hlq : lacks "#" q = true) by (by apply Encode_lacks).
  unfold split_url. destruct (String.eqb_spec f "") as [->|Hf].
  - rewrite append_empty, single_app. rewrite (cut_lacks_none "#"); [by rewrite cut_lacks|].
    rewrite lacks_app, Hh. by apply lacks_cons.
  - replace (b ++ "?" ++ q ++ "#" ++ f) with ((b ++ String "?" q) ++ String "#" f) by (rewrite append_assoc, !single_app; by rewrite append_cons).
    rewrite cut_lacks; [by rewrite cut_lacks|]. rewrite lacks_app, Hh. by apply lacks_cons.
Qed.

(** The receiver of a redirect reads the values that were set, and the others
    of the original query. *)
Lemma url_with_read raw kvs u key : NoDup kvs.*1 → url_with raw kvs = Some u →
  values_Get (ParseQuery (raw_query u)) key
  = default (values_Get (ParseQuery (raw_query raw)) key) (snd <$> List.find (λ kv, String.eqb kv.1 key) kvs).
Proof. intros Hnd Hu. by rewrite (url_with_query _ _ _ Hu), ParseQuery_Encode, Get_sorted, Get_set_all. Qed.
End extended.

(** ** An instance: URLs that are in normal form already *)

#[export] Instance plain_urls : URLParser :=
  MkURLParser (λ s, if lacks "?" s && lacks "#" s then Some s else None) Some.
#[export] Instance plain_urls_laws : URLParserLaws.
Proof. split. intros s t. cbn. destruct (lacks "?" s) eqn:E1, (lacks "#" s) eqn:E2; try done. by intros [= <-]. Qed.

Example redirect_extended :
  url_with "https://app/cb?x=1&state=old#top" [("code", "a b"); ("state", "é&")] = Some "https://app/cb?code=a+b&state=%C3%A9%26&x=1#top".
Proof. reflexivity. Qed.
