(* ===== verification/Slugifier.v ===== *)
(** * core/slugifier.go: handles made of names

    The slugifier as [NewSlugifier] makes it: a dash between words and in place
    of what is neither letter nor digit, in lower case.  The transliteration to
    ASCII is a third-party package and a parameter.  What the theorems show:
    a slug is words of a-z and 0-9 with single dashes between them, and a slug
    is its own slug. *)

From stdpp Require Import strings.
From Stdlib Require Import ZArith Lia Ascii String.
From S2P Require Import Prelude GoStrings GoRunes.
Local Open Scope string_scope.
Local Open Scope Z_scope.

Section slugifier.
Context (Unidecode : string → string).

Definition separator : ascii := "-".

(** The character class a-zA-Z0-9 and the separator, on code points. *)
Definition allowed_rune (r : rune) : bool :=
  in_range 97 122 r || in_range 65 90 r || in_range 48 57 r || (r =? 45).

(** [invalidCharacterPattern.ReplaceAllString]: a dash for every other rune. *)
Definition replace_invalid (text : string) : list ascii :=
  (λ r, if allowed_rune r then byte_of r else separator) <$> runes text.

(** [duplicateSeparatorPattern.ReplaceAllString]. *)
Fixpoint collapse (l : list ascii) : list ascii :=
  match l with
  | [] => []
  | c :: l => match l with
              | d :: _ => if Ascii.eqb c separator && Ascii.eqb d separator then collapse l else c :: collapse l
              | [] => [c]
              end
  end.

Fixpoint trim_leading (l : list ascii) : list ascii :=
  match l with
  | [] => []
  | c :: l' => if Ascii.eqb c separator then trim_leading l' else l
  end.

Definition trim_both (l : list ascii) : list ascii := rev (trim_leading (rev (trim_leading l))).

Definition Slugify (text : string) : string :=
  let text := Join (Fields (Unidecode text)) (String separator "") in
  ToLower (string_of_list_ascii (trim_both (collapse (replace_invalid text)))).
End slugifier.

(** ** Slugs *)

Definition slug_char (c : ascii) : bool :=
  let b := byte_val c in in_range 97 122 b || in_range 48 57 b || (b =? 45).

(** No two separators in a row. *)
Fixpoint single (l : list ascii) : bool :=
  match l with
  | c :: (d :: _) as l' => negb (Ascii.eqb c separator && Ascii.eqb d separator) && single l'
  | _ => true
  end.
Definition starts_with_dash (l : list ascii) : bool := match l with c :: _ => Ascii.eqb c separator | [] => false end.

(** What a slug is, on its characters. *)
Definition is_slug (l : list ascii) : bool :=
  forallb slug_char l && single l && negb (starts_with_dash l) && negb (starts_with_dash (rev l)).

Definition dashes (c d : ascii) : bool := Ascii.eqb c separator && Ascii.eqb d separator.

Lemma collapse_two c d l : collapse (c :: d :: l) = if dashes c d then collapse (d :: l) else c :: collapse (d :: l).
Proof. done. Qed.
Lemma single_two c d l : single (c :: d :: l) = negb (dashes c d) && single (d :: l).
Proof. done. Qed.

Lemma collapse_head l : starts_with_dash (collapse l) = starts_with_dash l.
Proof.
  induction l as [|c l IH]; [done|]. destruct l as [|d l]; [done|]. rewrite collapse_two.
  destruct (dashes c d) eqn:E; [|done]. rewrite IH. apply andb_true_iff in E as [E1 E2]. cbn. congruence.
Qed.

Lemma collapse_single l : single (collapse l) = true.
Proof.
  induction l as [|c l IH]; [done|]. destruct l as [|d l]; [done|]. rewrite collapse_two. destruct (dashes c d) eqn:E; [done|].
  pose proof (collapse_head (d :: l)) as Hh. destruct (collapse (d :: l)) as [|x l'] eqn:Ex; [done|]. cbn [starts_with_dash] in Hh.
  rewrite single_two, IH. unfold dashes in *. by rewrite Hh, E.
Qed.

Lemma single_parts l l' : single (l ++ l') = true → single l = true ∧ single l' = true.
Proof.
  induction l as [|c l IH]; [done|]. destruct l as [|d l]; [cbn; destruct l'; [done|]; by intros [_ ?]%andb_true_iff|].
  cbn [app] in *. rewrite !single_two. intros [-> H]%andb_true_iff. by apply IH.
Qed.

Lemma single_rev l : single (rev l) = single l.
Proof.
  assert (Hsnoc : ∀ l c, single (l ++ [c]) = single l && negb (starts_with_dash (rev l) && Ascii.eqb c separator)).
  { clear l. intros l c. induction l as [|x l IH]; [done|]. destruct l as [|d l]; [cbn; by rewrite andb_true_r|].
    cbn [app] in *. rewrite !single_two, IH, <- andb_assoc. do 2 f_equal. cbn [rev]. by destruct (rev l). }
  induction l as [|c l IH]; [done|]. cbn [rev]. rewrite Hsnoc, rev_involutive, IH. destruct l as [|d l]; [done|].
  rewrite single_two. cbn [starts_with_dash]. unfold dashes. by rewrite andb_comm, (andb_comm (Ascii.eqb d separator)).
Qed.

Lemma trim_leading_suffix l : ∃ p, l = (p ++ trim_leading l)%list.
Proof.
  induction l as [|c l [p IH]]; [by exists []|]. cbn. destruct (Ascii.eqb c separator); [|by exists []].
  exists (c :: p). cbn. by rewrite <- IH.
Qed.
Lemma trim_leading_start l : starts_with_dash (trim_leading l) = false.
Proof. induction l as [|c l IH]; [done|]. cbn. by destruct (Ascii.eqb c separator) eqn:E. Qed.

Lemma trim_both_spec (P : ascii → bool) l : forallb P l = true → single l = true →
  forallb P (trim_both l) = true ∧ single (trim_both l) = true ∧ starts_with_dash (trim_both l) = false
  ∧ starts_with_dash (rev (trim_both l)) = false.
Proof.
  intros HP Hs. unfold trim_both. rewrite rev_involutive. destruct (trim_leading_suffix l) as [p Ep].
  pose proof (trim_leading_start l) as Hd. set (m := trim_leading l) in *.
  assert (Hm : forallb P m = true ∧ single m = true).
  { rewrite Ep in HP, Hs. rewrite forallb_app in HP. apply andb_true_iff in HP as [_ HP]. by apply single_parts in Hs as [_ Hs]. }
  destruct Hm as [HPm Hsm]. destruct (trim_leading_suffix (rev m)) as [q Eq]. pose proof (trim_leading_start (rev m)) as Hd'.
  set (n := trim_leading (rev m)) in *. assert (Em : m = (rev n ++ rev q)%list) by (by rewrite <- rev_app_distr, <- Eq, rev_involutive).
  rewrite Em in HPm, Hsm. rewrite forallb_app in HPm. apply andb_true_iff in HPm as [HPn _]. apply single_parts in Hsm as [Hsn _].
  split; [done|]. split; [done|]. split; [|done]. destruct (rev n) as [|c l'] eqn:En; [done|]. rewrite Em in Hd. exact Hd.
Qed.

(** ** What slugifying makes *)

Definition allowed_char (c : ascii) : bool := allowed_rune (byte_val c).

Lemma replace_allowed text : forallb allowed_char (replace_invalid text) = true.
Proof.
  unfold replace_invalid. apply forallb_forall. intros c Hin. apply list_elem_of_In, list_elem_of_fmap in Hin as (r & -> & _). unfold allowed_char.
  destruct (allowed_rune r) eqn:E; [|done]. rewrite byte_val_of; [done|]. unfold allowed_rune, in_range in E. lia.
Qed.

Lemma collapse_allowed (P : ascii → bool) l : forallb P l = true → forallb P (collapse l) = true.
Proof.
  induction l as [|c l IH]; [done|]. destruct l as [|d l]; [done|]. rewrite collapse_two. intros [Hc Hl]%andb_true_iff.
  destruct (dashes c d); [by apply IH|]. cbn [forallb]. rewrite Hc. by apply IH.
Qed.

(** Lowering an allowed character. *)
Lemma lower_allowed c : allowed_char c = true →
  slug_char (lower_ascii c) = true ∧ Ascii.eqb (lower_ascii c) separator = Ascii.eqb c separator ∧ (nat_of_ascii c < 128)%nat.
Proof. destruct c as [[] [] [] [] [] [] [] []]; intros H; try (vm_compute in H; discriminate H); (split; [reflexivity|split; [reflexivity|vm_compute; lia]]). Qed.

Lemma lower_slug_char c : slug_char c = true → lower_ascii c = c ∧ allowed_char c = true ∧ plain_char c = true ∧ byte_val c < 128.
Proof. destruct c as [[] [] [] [] [] [] [] []]; intros H; try (vm_compute in H; discriminate H); repeat split; reflexivity. Qed.

Lemma ToLower_ascii l : forallb allowed_char l = true → ToLower (string_of_list_ascii l) = string_of_list_ascii (lower_ascii <$> l).
Proof.
  unfold ToLower. induction l as [|c l IH]; [done|]. intros [Hc Hl]%andb_true_iff. cbn [string_of_list_ascii lower_from fmap list_fmap].
  assert (E : lower_head c (string_of_list_ascii l) = (lower_ascii c, 0%nat)).
  { apply lower_allowed in Hc as (_ & _ & Hlt). unfold lower_head, HasPrefix. cbn [bytes fmap list_fmap string_of_list_ascii].
    unfold strip_prefix. rewrite !(proj2 (Ascii.eqb_neq _ _)); [done|..]; intros E; subst c; vm_compute in Hlt; lia. }
  rewrite E. f_equal. by apply IH.
Qed.

Lemma lowered_slug l : forallb allowed_char l = true → single l = true → starts_with_dash l = false → starts_with_dash (rev l) = false →
  is_slug (lower_ascii <$> l) = true.
Proof.
  intros Ha Hs Hd Hr.
  assert (Hstart : ∀ m, forallb allowed_char m = true → starts_with_dash (lower_ascii <$> m) = starts_with_dash m).
  { intros [|c m]; [done|]. intros [Hc _]%andb_true_iff. cbn. by apply lower_allowed in Hc as (_ & -> & _). }
  unfold is_slug. rewrite Hstart, Hd by done.
  assert (Ha' : forallb allowed_char (rev l) = true).
  { apply forallb_forall. intros c Hin%in_rev. by eapply forallb_forall in Ha. }
  change (lower_ascii <$> l) with (List.map lower_ascii l) at 3. rewrite <- map_rev.
  change (List.map lower_ascii (rev l)) with (lower_ascii <$> rev l). rewrite Hstart, Hr by done.
  rewrite !andb_true_r. clear Hd Hr Hstart Ha'. induction l as [|c l IH]; [done|].
  cbn [forallb] in Ha. apply andb_true_iff in Ha as [Hc Ha]. destruct (lower_allowed c Hc) as (Hsc & Hdc & _). destruct l as [|d l].
  - cbn. by rewrite Hsc.
  - rewrite single_two in Hs. apply andb_true_iff in Hs as [Hcd Hs]. specialize (IH Ha Hs). apply andb_true_iff in IH as [IH1 IH2].
    cbn [fmap list_fmap] in *. rewrite single_two, IH2. cbn [forallb] in *. rewrite Hsc, IH1. unfold dashes in *.
    apply andb_true_iff in Ha as [Hd' _]. destruct (lower_allowed d Hd') as (_ & Hdd & _). by rewrite Hdc, Hdd, Hcd.
Qed.

(** A slug is words of lower-case letters and digits, with one dash between
    two words and none at either end. *)
Theorem slug_canonical Unidecode text : is_slug (list_ascii_of_string (Slugify Unidecode text)) = true.
Proof.
  unfold Slugify. set (l := collapse _).
  assert (Ha : forallb allowed_char l = true) by (apply collapse_allowed, replace_allowed).
  destruct (trim_both_spec allowed_char l Ha (collapse_single _)) as (H1 & H2 & H3 & H4).
  rewrite ToLower_ascii, list_ascii_of_string_of_list_ascii by done. by apply lowered_slug.
Qed.

(** ** A slug is its own slug *)

Lemma collapse_id l : single l = true → collapse l = l.
Proof.
  induction l as [|c l IH]; [done|]. destruct l as [|d l]; [done|]. rewrite single_two, collapse_two. intros [Hc Hl]%andb_true_iff.
  apply negb_true_iff in Hc. rewrite Hc. by rewrite IH.
Qed.

Lemma trim_leading_id l : starts_with_dash l = false → trim_leading l = l.
Proof. destruct l as [|c l]; [done|]. cbn. by intros ->. Qed.

Lemma slug_fixed Unidecode s : Unidecode s = s → is_slug (list_ascii_of_string s) = true → Slugify Unidecode s = s.
Proof.
  intros HU Hs. unfold is_slug in Hs. rewrite !andb_true_iff, !negb_true_iff in Hs. destruct Hs as (((Hc & H2) & H3) & H4).
  assert (Hplain : plain s = true ∧ all_chars (λ c, byte_val c <? 128) s = true).
  { clear H2 H3 H4 HU. induction s as [|c s IH]; [done|]. cbn in Hc. apply andb_true_iff in Hc as [Hc Hs]. destruct (IH Hs) as [E1 E2].
    destruct (lower_slug_char c Hc) as (_ & _ & Hp & Hb). unfold plain. cbn. rewrite Hp, E2. by apply Z.ltb_lt in Hb as ->. }
  destruct Hplain as [Hplain Hascii]. unfold Slugify. rewrite HU.
  assert (EJ : Join (Fields s) (String separator "") = s).
  { destruct (decide (s = "")) as [->|Hne]; [done|]. pose proof (Fields_Join [s]) as HF. cbn [Join] in HF. rewrite HF; [done|]. constructor; [done|constructor]. }
  rewrite EJ. set (l := list_ascii_of_string s) in *.
  assert (Er : replace_invalid s = l).
  { unfold replace_invalid. rewrite runes_ascii by done. rewrite <- list_fmap_compose. unfold l. clear -Hc. fold l in Hc. revert Hc. unfold l.
    generalize (list_ascii_of_string s). intros m. induction m as [|c m IH]; [done|]. cbn. intros [H1 H2]%andb_true_iff.
    destruct (lower_slug_char c H1) as (_ & Ha & _). unfold allowed_char in Ha. rewrite Ha, IH by done. by rewrite (byte_of_eq c (byte_val c)). }
  rewrite Er, collapse_id by done. unfold trim_both. rewrite (trim_leading_id l), (trim_leading_id (rev l)), rev_involutive by done.
  assert (Ha : forallb allowed_char l = true).
  { eapply forallb_forall. intros c Hin. eapply forallb_forall in Hc; [|exact Hin]. by apply lower_slug_char. }
  rewrite ToLower_ascii by done.
  assert (El : lower_ascii <$> l = l).
  { clear -Hc. induction l as [|c l IH]; [done|]. cbn in Hc. apply andb_true_iff in Hc as [H1 H2]. cbn. rewrite IH by done. by rewrite (proj1 (lower_slug_char c H1)). }
  rewrite El. apply string_of_list_ascii_of_string.
Qed.

(** Slugs are kept by the transliteration, which leaves ASCII as it is. *)
Theorem slug_idempotent Unidecode text : (∀ s, all_chars (λ c, byte_val c <? 128) s = true → Unidecode s = s) →
  Slugify Unidecode (Slugify Unidecode text) = Slugify Unidecode text.
Proof.
  intros HU. pose proof (slug_canonical Unidecode text) as Hs. apply slug_fixed; [|done]. apply HU.
  unfold is_slug in Hs. rewrite !andb_true_iff in Hs. destruct Hs as (((Hc & _) & _) & _). revert Hc. generalize (Slugify Unidecode text).
  intros s. induction s as [|c s IH]; [done|]. cbn. intros [H1 H2]%andb_true_iff. rewrite IH by done.
  destruct (lower_slug_char c H1) as (_ & _ & _ & Hb). by apply Z.ltb_lt in Hb as ->.
Qed.

Lemma slug_idempotent_witness :
  Slugify id "  Acme -- Corp & Söns! " = "acme-corp-s-ns" ∧ Slugify id (Slugify id "  Acme -- Corp & Söns! ") = "acme-corp-s-ns".
Proof. split; [reflexivity|]. rewrite slug_idempotent; [reflexivity|done]. Defined.
