(* ===== verification/GraphQLParser.v ===== *)
(** * data/graphql/parser.go: the GraphQL parser

    The parser reads the runes of the query from left to right.  Its state
    ([input] and [position]) is a zipper: the runes before the position, the
    last one first, and the runes from the position on.  The recursive methods
    carry a number of rounds; [parse_rounds] is twice the length of the query
    and a little more, and [ParseGraphQL_total] proves it enough for every query.

    [print_document] writes a document in the concrete syntax; the round trip
    reads it back. *)

From S2P Require Import Prelude GoStrings GoRunes GoValues.
From Stdlib Require Import ZArith Lia Ascii String.
Local Open Scope string_scope.
Local Open Scope Z_scope.

Section parser.
Context `{UT : UnicodeTables} `{FL : Floats}.

(** ** The syntax tree *)

Inductive OperationType := QueryOperationType | MutationOperationType.

Inductive FieldNode := MkField {
  fn_Name : string;
  fn_Alias : string;
  fn_Arguments : list (string * any);
  fn_SelectionSet : list FieldNode;
}.

Record OperationNode := MkOperation {
  op_Type : OperationType;
  op_Name : string;
  op_CacheTTL : Z;
  op_CacheKeySuffix : string;
  op_SelectionSet : list FieldNode;
}.

(** The errors, with the positions the messages report.  [Diverges] is no Go
    error: the rounds are used up. *)
Inductive GraphQLError :=
| EmptyDocument
| SubscriptionsUnsupported
| ExpectedOpenBrace (position : nat) (found : rune)
| ExpectedSelectionSet (position : nat)
| ExpectedCloseBrace (position : nat)
| ExpectedFieldName (position : nat)
| ExpectedFieldAfterAlias (position : nat)
| ExpectedOpenParen (position : nat)
| ExpectedArgumentName (position : nat)
| ExpectedColonAfterArgument (position : nat)
| ExpectedCloseParen (position : nat)
| EmptyArgumentList (position : nat)
| ExpectedColonInObject (position : nat)
| ExpectedCloseBraceInObject (position : nat)
| ExpectedCloseBracket (position : nat)
| UnexpectedCharacter (found : rune) (position : nat)
| UnterminatedString
| BadFloat | BadInt
| UnknownOperation (name : string)
| Diverges.

(** ** The state and its primitives *)

Record Parser := MkParser { before : list rune; after : list rune }.

Definition position (p : Parser) : nat := List.length (before p).

Definition isEOF (p : Parser) : bool := match after p with [] => true | _ => false end.

Definition peekChar (p : Parser) : rune := match after p with [] => 0 | c :: _ => c end.

(** [parser.position++] before the end of the input. *)
Definition advance (p : Parser) : Parser :=
  match after p with
  | [] => p
  | c :: rest => MkParser (c :: before p) rest
  end.

(** The longest prefix of runes that satisfy [f]. *)
Fixpoint span (f : rune → bool) (l : list rune) : list rune * list rune :=
  match l with
  | [] => ([], [])
  | c :: l' => if f c then let '(a, b) := span f l' in (c :: a, b) else ([], l)
  end.

(** A loop that advances while [f] holds; answers the runes passed. *)
Definition read_while (f : rune → bool) (p : Parser) : list rune * Parser :=
  let '(a, b) := span f (after p) in (a, MkParser (rev_append a (before p)) b).

Definition readIdent (p : Parser) : string * Parser :=
  let '(a, p') := read_while ident_char p in (encode a, p').

Definition peekIdent (p : Parser) : string := (readIdent p).1.

(** [skipWhitespaceAndComments]: [in_comment] is the inner loop, up to the
    end of the line, which the outer loop then skips as white space. *)
Fixpoint skip_from (in_comment : bool) (b a : list rune) : Parser :=
  match a with
  | [] => MkParser b a
  | c :: a' =>
      if in_comment && negb (c =? 10) then skip_from true (c :: b) a'
      else if IsSpace c || (c =? 44) then skip_from false (c :: b) a'
      else if c =? 35 then skip_from true (c :: b) a'
      else MkParser b a
  end.

Definition skipWhitespaceAndComments (p : Parser) : Parser :=
  skip_from false (before p) (after p).

Local Notation skip := skipWhitespaceAndComments.

(** The runes of an ASCII literal of the source. *)
Definition chr (c : ascii) : rune := byte_val c.

(** ** Literals *)

Definition escaped_rune (c : rune) : rune :=
  if c =? chr "n" then 10 else if c =? chr "t" then 9 else if c =? chr "r" then 13
  else if c =? chr "b" then 8 else if c =? chr "f" then 12 else c.

(** The loop of [readString] after the opening quote; [acc] is the builder. *)
Fixpoint read_string_from (acc : string) (b a : list rune) : result GraphQLError (string * Parser) :=
  match a with
  | [] => Err UnterminatedString
  | c :: a' =>
      if c =? 34 then Ok (acc, MkParser (c :: b) a')
      else if c =? 92 then
        match a' with
        | [] => read_string_from (acc ++ encode_rune c) (c :: b) a'
        | e :: a'' => read_string_from (acc ++ encode_rune (escaped_rune e)) (e :: c :: b) a''
        end
      else read_string_from (acc ++ encode_rune c) (c :: b) a'
  end.

Definition readString (p : Parser) : result GraphQLError (string * Parser) :=
  let p := advance p in read_string_from "" (before p) (after p).

Definition number_char (c : rune) : bool := in_range 48 57 c || (c =? 45) || (c =? 46).

Definition readNumber (p : Parser) : result GraphQLError (any * Parser) :=
  let '(text, p') := read_while number_char p in
  let numberText := encode text in
  if existsb (λ c, c =? 46) text then
    match ParseFloat numberText with
    | Some f => Ok (AFloat f, p')
    | None => Err BadFloat
    end
  else match Atoi numberText with
       | Some z => Ok (AInt z, p')
       | None => Err BadInt
       end.

(** ** Values and arguments *)

Section with_variables.
Context (variables : list (string * any)).

Fixpoint parseValue (n : nat) (p : Parser) : result GraphQLError (any * Parser) :=
  match n with
  | O => Err Diverges
  | S n =>
      let p := skip p in
      let peeked := peekChar p in
      if peeked =? 36 then
        let '(varName, p) := readIdent (advance p) in
        Ok (default ANil (map_get variables varName), p)
      else if peeked =? 34 then
        (let! (s, p) := readString p in Ok (AString s, p))%go
      else if peeked =? 123 then object_loop n [] (advance p)
      else if peeked =? 91 then array_loop n [] (advance p)
      else if in_range 48 57 peeked || (peeked =? 45) then readNumber p
      else
        let '(ident, p) := readIdent p in
        if String.eqb ident "" then Err (UnexpectedCharacter peeked (position p))
        else if String.eqb ident "true" then Ok (ABool true, p)
        else if String.eqb ident "false" then Ok (ABool false, p)
        else if String.eqb ident "null" then Ok (ANil, p)
        else Ok (AString ident, p)
  end
with object_loop (n : nat) (objectMap : list (string * any)) (p : Parser)
    : result GraphQLError (any * Parser) :=
  match n with
  | O => Err Diverges
  | S n =>
      if negb (isEOF p) && negb (peekChar p =? 125) then
        let '(fieldName, p) := readIdent (skip p) in
        let p := skip p in
        if negb (peekChar p =? 58) then Err (ExpectedColonInObject (position p))
        else
          (let! (elementValue, p) := parseValue n (advance p) in
           object_loop n (map_set objectMap fieldName elementValue) (skip p))%go
      else if negb (peekChar p =? 125) then Err (ExpectedCloseBraceInObject (position p))
      else Ok (AMap objectMap, advance p)
  end
with array_loop (n : nat) (arrayItems : list any) (p : Parser)
    : result GraphQLError (any * Parser) :=
  match n with
  | O => Err Diverges
  | S n =>
      if negb (isEOF p) && negb (peekChar p =? 93) then
        (let! (element, p) := parseValue n (skip p) in
         array_loop n (arrayItems ++ [element])%list (skip p))%go
      else if negb (peekChar p =? 93) then Err (ExpectedCloseBracket (position p))
      else Ok (AList arrayItems, advance p)
  end.

Fixpoint arguments_loop (n : nat) (args : list (string * any)) (p : Parser)
    : result GraphQLError (list (string * any) * Parser) :=
  match n with
  | O => Err Diverges
  | S n =>
      if negb (isEOF p) && negb (peekChar p =? 41) then
        let '(argName, p) := readIdent (skip p) in
        if String.eqb argName "" then Err (ExpectedArgumentName (position p)) else
        let p := skip p in
        if negb (peekChar p =? 58) then Err (ExpectedColonAfterArgument (position p)) else
        (let! (parsedValue, p) := parseValue n (skip (advance p)) in
         arguments_loop n (map_set args argName parsedValue) (skip p))%go
      else if negb (peekChar p =? 41) then Err (ExpectedCloseParen (position p))
      else
        let p := advance p in
        match args with
        | [] => Err (EmptyArgumentList (position p))
        | _ => Ok (args, p)
        end
  end.

Definition parseArguments (n : nat) (p : Parser) : result GraphQLError (list (string * any) * Parser) :=
  if negb (peekChar p =? 40) then Err (ExpectedOpenParen (position p))
  else arguments_loop n [] (skip (advance p)).

(** ** Selection sets *)

Fixpoint parseSelectionSet (n : nat) (p : Parser) : result GraphQLError (list FieldNode * Parser) :=
  match n with
  | O => Err Diverges
  | S n =>
      if negb (peekChar p =? 123) then Err (ExpectedSelectionSet (position p))
      else fields_loop n [] (skip (advance p))
  end
with fields_loop (n : nat) (fields : list FieldNode) (p : Parser)
    : result GraphQLError (list FieldNode * Parser) :=
  match n with
  | O => Err Diverges
  | S n =>
      if negb (isEOF p) && negb (peekChar p =? 125) then
        (let '(fieldName, p) := readIdent (skip p) in
         if String.eqb fieldName "" then Err (ExpectedFieldName (position p)) else
         let p := skip p in
         let! (fieldName, alias, p) :=
           (if peekChar p =? 58 then
              let '(actualName, p) := readIdent (skip (advance p)) in
              if String.eqb actualName "" then Err (ExpectedFieldAfterAlias (position p))
              else Ok (actualName, fieldName, skip p)
            else Ok (fieldName, "", p)) in
         let! (args, p) :=
           (if peekChar p =? 40 then
              let! (parsedArgs, p) := parseArguments n p in Ok (parsedArgs, skip p)
            else Ok ([], p)) in
         let! (subFields, p) :=
           (if peekChar p =? 123 then
              let! (children, p) := parseSelectionSet n p in Ok (children, skip p)
            else Ok ([], p)) in
         fields_loop n (fields ++ [MkField fieldName alias args subFields])%list p)%go
      else if negb (peekChar p =? 125) then Err (ExpectedCloseBrace (position p))
      else Ok (fields, skip (advance p))
  end.

(** ** Operations *)

(** The loop over the variable definitions: to the parenthesis that closes
    the first one, outside string literals. *)
Fixpoint skip_definitions (insideStringLiteral : bool) (parenDepth : Z) (b a : list rune) : Parser :=
  match a with
  | [] => MkParser b a
  | c :: a' =>
      let escaped := match b with [] => false | prev :: _ => prev =? 92 end in
      if (c =? 34) && negb escaped then skip_definitions (negb insideStringLiteral) parenDepth (c :: b) a'
      else if insideStringLiteral then skip_definitions insideStringLiteral parenDepth (c :: b) a'
      else if c =? 40 then skip_definitions insideStringLiteral (parenDepth + 1) (c :: b) a'
      else if c =? 41 then
        if parenDepth - 1 =? 0 then MkParser (c :: b) a'
        else skip_definitions insideStringLiteral (parenDepth - 1) (c :: b) a'
      else skip_definitions insideStringLiteral parenDepth (c :: b) a'
  end.

(** What the directive [@cache] sets: time to live and key suffix. *)
Definition cache_ttl (args : list (string * any)) (cacheTTL : Z) : Z :=
  match map_get args "ttl" with
  | Some (AInt z) => z
  | Some (AFloat f) => float_to_int f
  | _ => cacheTTL
  end.

Definition cache_suffix (args : list (string * any)) (cacheKeySuffix : string) : string :=
  match map_get args "key_suffix" with
  | Some (AString s) => s
  | _ => match map_get args "key" with
         | Some (AString s) => s
         | _ => cacheKeySuffix
         end
  end.

Fixpoint directives_loop (n : nat) (cacheTTL : Z) (cacheKeySuffix : string) (p : Parser)
    : result GraphQLError (Z * string * Parser) :=
  match n with
  | O => Err Diverges
  | S n =>
      if peekChar p =? 64 then
        (let '(directiveName, p) := readIdent (advance p) in
         let p := skip p in
         let! (directiveArgs, p) :=
           (if peekChar p =? 40 then
              let! (args, p) := parseArguments n p in Ok (Some args, p)
            else Ok (None, p)) in
         let '(cacheTTL, cacheKeySuffix) :=
           match directiveArgs with
           | Some args =>
               if String.eqb directiveName "cache"
               then (cache_ttl args cacheTTL, cache_suffix args cacheKeySuffix)
               else (cacheTTL, cacheKeySuffix)
           | None => (cacheTTL, cacheKeySuffix)
           end in
         directives_loop n cacheTTL cacheKeySuffix (skip p))%go
      else Ok (cacheTTL, cacheKeySuffix, p)
  end.

(** The part of an operation before its selection set. *)
Definition parse_header (n : nat) (p : Parser)
    : result GraphQLError (OperationType * string * Z * string * Parser) :=
  let token := peekIdent p in
  if String.eqb token "subscription" then Err SubscriptionsUnsupported
  else if String.eqb token "query" || String.eqb token "mutation" then
    (let operationType := if String.eqb token "mutation" then MutationOperationType
                          else QueryOperationType in
     let p := skip (readIdent p).2 in
     let '(operationName, p) :=
       if negb (String.eqb (peekIdent p) "") && negb (peekChar p =? 123)
          && negb (peekChar p =? 40) && negb (peekChar p =? 64)
       then let '(operationName, p) := readIdent p in (operationName, skip p)
       else ("", p) in
     let p := if peekChar p =? 40 then skip (skip_definitions false 0 (before p) (after p)) else p in
     let! (cacheTTL, cacheKeySuffix, p) := directives_loop n 0 "" p in
     Ok (operationType, operationName, cacheTTL, cacheKeySuffix, p))%go
  else Ok (QueryOperationType, "", 0, "", p).

Definition parse_operation (n : nat) (p : Parser) : result GraphQLError (OperationNode * Parser) :=
  (let! (operationType, operationName, cacheTTL, cacheKeySuffix, p) := parse_header n p in
   if negb (peekChar p =? 123) then Err (ExpectedOpenBrace (position p) (peekChar p)) else
   let! (fields, p) := parseSelectionSet n p in
   Ok (MkOperation operationType operationName cacheTTL cacheKeySuffix fields, p))%go.

Fixpoint operations_loop (n : nat) (targetOperationName : string) (p : Parser)
    : result GraphQLError (option OperationNode) :=
  match n with
  | O => Err Diverges
  | S n =>
      if isEOF p then Ok None else
      (let! (operationNode, p) := parse_operation n p in
       if negb (String.eqb targetOperationName "")
          && String.eqb (op_Name operationNode) targetOperationName
       then Ok (Some operationNode)
       else if String.eqb targetOperationName "" then Ok (Some operationNode)
       else operations_loop n targetOperationName (skip p))%go
  end.
End with_variables.

Definition parse_rounds (input : list rune) : nat := (2 * List.length input + 4)%nat.

(** The pointer returned may only be nil when the document ends before an
    operation and no name was asked for, which the first test excludes. *)
Definition ParseGraphQLWithOperation (query targetOperationName : string)
    (variables : list (string * any)) : result GraphQLError (option OperationNode) :=
  let input := runes query in
  let p := skip (MkParser [] input) in
  if isEOF p then Err EmptyDocument else
  (let! matched := operations_loop variables (parse_rounds input) targetOperationName p in
   match matched with
   | None => if negb (String.eqb targetOperationName "") then Err (UnknownOperation targetOperationName)
             else Ok None
   | Some operationNode => Ok (Some operationNode)
   end)%go.

Definition ParseGraphQL (query : string) (variables : list (string * any))
    : result GraphQLError (option OperationNode) :=
  ParseGraphQLWithOperation query "" variables.

(** ** Depth and complexity *)

Fixpoint field_depth (currentDepth : Z) (field : FieldNode) : Z :=
  match fn_SelectionSet field with
  | [] => currentDepth
  | children => foldl (λ maxDepth child, Z.max maxDepth (field_depth (currentDepth + 1) child))
                  (currentDepth + 1) children
  end.

(** [maxFieldsDepth]. *)
Definition maxFieldsDepth (fields : list FieldNode) (currentDepth : Z) : Z :=
  foldl (λ maxDepth field, Z.max maxDepth (field_depth currentDepth field)) currentDepth fields.

Definition CalculateDepth (op : OperationNode) : Z := maxFieldsDepth (op_SelectionSet op) 1.

(** [computeFieldsComplexity], in 64-bit arithmetic. *)
Fixpoint field_complexity (multiplier : Z) (field : FieldNode) : Z :=
  match fn_SelectionSet field with
  | [] => multiplier
  | children =>
      wrap64 (wrap64 (10 * multiplier)
        + foldl (λ total child, wrap64 (total + field_complexity (wrap64 (multiplier * 2)) child))
            0 children)
  end.

Definition computeFieldsComplexity (fields : list FieldNode) (multiplier : Z) : Z :=
  foldl (λ total field, wrap64 (total + field_complexity multiplier field)) 0 fields.

Definition CalculateComplexity (op : OperationNode) : Z :=
  computeFieldsComplexity (op_SelectionSet op) 1.
(** ** Every query is answered

    A method that answers has moved the position on; with two rounds for each
    rune left it never runs out of rounds. *)
Definition left_of (p : Parser) : nat := List.length (after p).

Definition answers {A} (L : nat) (r : result GraphQLError (A * Parser)) : Prop :=
  match r with
  | Ok (_, p') => (left_of p' < L)%nat
  | Err Diverges => False
  | Err _ => True
  end.

Lemma left_advance p : isEOF p = false → S (left_of (advance p)) = left_of p.
Proof. destruct p as [b [|c a]]; done. Qed.

Lemma peek_not_eof p c : peekChar p = c → c ≠ 0 → isEOF p = false.
Proof. destruct p as [b [|d a]]; unfold peekChar; simpl; [intros <-; done|done]. Qed.

Lemma left_skip p : (left_of (skip p) <= left_of p)%nat.
Proof.
  unfold skip, left_of. destruct p as [b a]. simpl. generalize false.
  revert b. induction a as [|c a IH]; intros b comment; simpl; [lia|].
  repeat case_match; simpl; try lia; (etrans; [apply IH|lia]).
Qed.

Lemma span_length f l : (List.length (span f l).2 <= List.length l)%nat.
Proof. induction l as [|c l IH]; simpl; [lia|]. destruct (f c); [|done]. destruct (span f l). simpl in *. lia. Qed.

Lemma span_progress f l : (span f l).1 ≠ [] → (List.length (span f l).2 < List.length l)%nat.
Proof.
  destruct l as [|c l]; simpl; [done|]. destruct (f c); [|done]. pose proof (span_length f l).
  destruct (span f l). simpl in *. lia.
Qed.

Lemma left_read_while f p a p' : read_while f p = (a, p') →
  (left_of p' <= left_of p)%nat ∧ (a ≠ [] → left_of p' < left_of p)%nat.
Proof.
  unfold read_while, left_of. pose proof (span_length f (after p)). pose proof (span_progress f (after p)).
  destruct (span f (after p)) as [x y]. intros [= <- <-]. simpl in *. auto.
Qed.

Lemma left_readIdent p s p' : readIdent p = (s, p') →
  (left_of p' <= left_of p)%nat ∧ (s ≠ "" → left_of p' < left_of p)%nat.
Proof.
  unfold readIdent. destruct (read_while ident_char p) as [a q] eqn:E. intros [= <- <-].
  apply left_read_while in E as [? Hp]. split; [done|]. intros Hs. apply Hp. by intros ->.
Qed.

Lemma read_string_answers acc b a L : (List.length a < L)%nat →
  answers L (read_string_from acc b a).
Proof.
  remember (List.length a) as n eqn:Hn. revert acc b a Hn.
  induction (lt_wf n) as [n _ IH]. intros acc b [|c a] Hn HL; simpl; [done|].
  simpl in Hn. repeat case_match; subst; simpl; unfold left_of; simpl in *; try lia;
    eapply IH; try reflexivity; simpl; lia.
Qed.

Lemma readNumber_answers p : number_char (peekChar p) = true → isEOF p = false →
  answers (left_of p) (readNumber p).
Proof.
  unfold readNumber. intros Hc Hp. destruct (read_while number_char p) as [a q] eqn:E.
  pose proof E as E'. apply left_read_while in E' as [_ Hlt].
  assert (a ≠ []).
  { revert E. unfold read_while. destruct p as [b [|c l]]; [done|]. unfold peekChar in Hc. simpl in *. rewrite Hc.
    destruct (span number_char l). by intros [= <- _]. }
  repeat case_match; simpl; auto.
Qed.

Lemma answers_bind {A B} L L' (r : result GraphQLError (A * Parser)) (k : A * Parser → result GraphQLError (B * Parser)) :
  answers L' r → (∀ a p', (left_of p' < L')%nat → answers L (k (a, p'))) → answers L (result_bind k r).
Proof. destruct r as [[a p']|e]; simpl; [auto|]. by destruct e. Qed.

Lemma answers_le {A} L L' (r : result GraphQLError (A * Parser)) : answers L r → (L <= L')%nat → answers L' r.
Proof. destruct r as [[a p']|e]; simpl; [lia|]. by destruct e. Qed.

(** Collects what is known of the lengths of the parsers in sight. *)
Ltac lengths :=
  repeat match goal with
  | H : readIdent _ = (_, _) |- _ => apply left_readIdent in H as [? ?]
  | H : (_ =? _) = true |- _ => apply Z.eqb_eq in H
  | H : (_ =? _) = false |- _ => apply Z.eqb_neq in H
  | H : String.eqb _ _ = false |- _ => apply String.eqb_neq in H
  | H : ?s ≠ "" → _, H' : ?s ≠ "" |- _ => specialize (H H')
  | H : peekChar ?p = ?c |- _ =>
      lazymatch goal with
      | _ : isEOF p = false |- _ => fail
      | _ => pose proof (peek_not_eof p c H ltac:(done))
      end
  | H : isEOF ?p = false |- _ =>
      lazymatch goal with
      | _ : S (left_of (advance p)) = left_of p |- _ => fail
      | _ => pose proof (left_advance p H)
      end
  | |- context [left_of (skip ?p)] =>
      lazymatch goal with
      | _ : (left_of (skip p) <= left_of p)%nat |- _ => fail
      | _ => pose proof (left_skip p)
      end
  | _ : context [left_of (skip ?p)] |- _ =>
      lazymatch goal with
      | _ : (left_of (skip p) <= left_of p)%nat |- _ => fail
      | _ => pose proof (left_skip p)
      end
  end.

Section totality.
Context (variables : list (string * any)).

Lemma values_answer n :
  (∀ p, (2 * left_of p + 1 <= n)%nat → answers (left_of p) (parseValue variables n p))
  ∧ (∀ m p, (2 * left_of p + 2 <= n)%nat → answers (left_of p) (object_loop variables n m p))
  ∧ (∀ l p, (2 * left_of p + 2 <= n)%nat → answers (left_of p) (array_loop variables n l p)).
Proof.
  induction n as [|n (IHv & IHo & IHa)]; [repeat split; intros; lia|].
  split_and!.
  - intros p Hn. cbn [parseValue]. pose proof (left_skip p) as Hs. revert Hs. generalize (skip p). intros q Hs.
    destruct (peekChar q =? 36) eqn:E1; [destruct (readIdent (advance q)) as [v q'] eqn:E2; lengths; simpl; lia|].
    destruct (peekChar q =? 34) eqn:E2.
    { lengths. eapply (answers_bind _ (left_of q)); [|simpl; lia].
      apply read_string_answers. unfold left_of in *. lia. }
    destruct (peekChar q =? 123) eqn:E3; [lengths; eapply answers_le; [apply IHo; lia|lia]|].
    destruct (peekChar q =? 91) eqn:E4; [lengths; eapply answers_le; [apply IHa; lia|lia]|].
    destruct (in_range 48 57 (peekChar q) || (peekChar q =? 45)) eqn:E5.
    { eapply answers_le; [apply readNumber_answers|lia].
      - unfold number_char. by rewrite E5.
      - destruct q as [b [|c a]]; [discriminate E5|done]. }
    destruct (readIdent q) as [ident q'] eqn:E6.
    destruct (String.eqb ident "") eqn:E7; [done|]. lengths. repeat case_match; simpl; lia.
  - intros m p Hn. cbn [object_loop]. destruct (negb (isEOF p) && negb (peekChar p =? 125)) eqn:E0.
    + destruct (readIdent (skip p)) as [name p1] eqn:E1. destruct (negb (peekChar (skip p1) =? 58)) eqn:E2; [done|].
      apply negb_false_iff in E2. lengths. eapply answers_bind; [apply IHv; lia|].
      intros v p2 Hp2. eapply answers_le; [apply IHo; lengths; lia|lengths; lia].
    + destruct (negb (peekChar p =? 125)) eqn:E1; [done|]. apply negb_false_iff in E1. lengths. simpl. lia.
  - intros l p Hn. cbn [array_loop]. destruct (negb (isEOF p) && negb (peekChar p =? 93)) eqn:E0.
    + eapply answers_bind; [apply IHv; lengths; lia|].
      intros v p2 Hp2. eapply answers_le; [apply IHa; lengths; lia|lengths; lia].
    + destruct (negb (peekChar p =? 93)) eqn:E1; [done|]. apply negb_false_iff in E1. lengths. simpl. lia.
Qed.

Lemma arguments_answer n args p : (2 * left_of p + 2 <= n)%nat →
  answers (left_of p) (arguments_loop variables n args p).
Proof.
  revert args p. induction n as [|n IH]; intros args p Hn; [lia|]. cbn [arguments_loop].
  destruct (negb (isEOF p) && negb (peekChar p =? 41)) eqn:E0.
  - destruct (readIdent (skip p)) as [name p1] eqn:E1. destruct (String.eqb name "") eqn:E2; [done|].
    destruct (negb (peekChar (skip p1) =? 58)) eqn:E3; [done|]. apply negb_false_iff in E3. lengths.
    eapply answers_bind; [apply values_answer; lengths; lia|].
    intros v p2 Hp2. eapply answers_le; [apply IH; lengths; lia|lengths; lia].
  - destruct (negb (peekChar p =? 41)) eqn:E1; [done|]. apply negb_false_iff in E1.
    destruct args; [done|]. lengths. simpl. lia.
Qed.

Lemma parseArguments_answers n p : (2 * left_of p <= n)%nat →
  answers (left_of p) (parseArguments variables n p).
Proof.
  intros Hn. unfold parseArguments. destruct (negb (peekChar p =? 40)) eqn:E; [done|].
  apply negb_false_iff in E. lengths. eapply answers_le; [apply arguments_answer; lengths; lia|lengths; lia].
Qed.

Lemma selections_answer n :
  (∀ p, (2 * left_of p + 1 <= n)%nat → answers (left_of p) (parseSelectionSet variables n p))
  ∧ (∀ l p, (2 * left_of p + 2 <= n)%nat → answers (left_of p) (fields_loop variables n l p)).
Proof.
  induction n as [|n (IHs & IHf)]; [split; intros; lia|]. split.
  - intros p Hn. cbn [parseSelectionSet]. destruct (negb (peekChar p =? 123)) eqn:E; [done|].
    apply negb_false_iff in E. lengths. eapply answers_le; [apply IHf; lengths; lia|lengths; lia].
  - intros l p Hn. cbn [fields_loop]. destruct (negb (isEOF p) && negb (peekChar p =? 125)) eqn:E0;
      [|destruct (negb (peekChar p =? 125)) eqn:E1; [done|]; apply negb_false_iff in E1; lengths; simpl; lengths; lia].
    destruct (readIdent (skip p)) as [name p1] eqn:E1. destruct (String.eqb name "") eqn:E2; [done|].
    lengths. eapply (answers_bind _ (left_of p)).
    { destruct (peekChar (skip p1) =? 58) eqn:E3; [|simpl; lengths; lia].
      destruct (readIdent (skip (advance (skip p1)))) as [actual p2] eqn:E4.
      destruct (String.eqb actual "") eqn:E5; [done|]. lengths. simpl. lengths. lia. }
    intros [field alias] p2 Hp2. eapply (answers_bind _ (left_of p)).
    { destruct (peekChar p2 =? 40) eqn:E3; [|simpl; lia].
      eapply answers_bind; [apply parseArguments_answers; lia|]. intros a p3 Hp3. simpl. lengths. lia. }
    intros args p3 Hp3. eapply (answers_bind _ (left_of p)).
    { destruct (peekChar p3 =? 123) eqn:E3; [|simpl; lia].
      eapply answers_bind; [apply IHs; lia|]. intros a p4 Hp4. simpl. lengths. lia. }
    intros sub p4 Hp4. eapply answers_le; [apply IHf; lia|lia].
Qed.

Lemma left_skip_definitions inside depth b a :
  (left_of (skip_definitions inside depth b a) <= List.length a)%nat.
Proof.
  revert inside depth b. induction a as [|c a IH]; intros; cbn [skip_definitions]; [done|].
  repeat case_match; cbn [List.length]; try (etrans; [apply IH|lia]); unfold left_of; simpl; lia.
Qed.

Lemma directives_answer n ttl suffix p : (2 * left_of p + 1 <= n)%nat →
  answers (S (left_of p)) (directives_loop variables n ttl suffix p).
Proof.
  revert ttl suffix p. induction n as [|n IH]; intros ttl suffix p Hn; [lia|]. cbn [directives_loop].
  destruct (peekChar p =? 64) eqn:E0; [|simpl; lia].
  destruct (readIdent (advance p)) as [name p1] eqn:E1. lengths.
  eapply (answers_bind _ (left_of p)).
  { destruct (peekChar (skip p1) =? 40) eqn:E2; [|simpl; lengths; lia].
    eapply answers_bind; [apply parseArguments_answers; lengths; lia|]. intros a p2 Hp2. simpl. lengths. lia. }
  intros args p2 Hp2. repeat case_match; (eapply answers_le; [apply IH; lengths; lia|lengths; lia]).
Qed.

Lemma parse_header_answers n p : (2 * left_of p + 1 <= n)%nat →
  answers (S (left_of p)) (parse_header variables n p).
Proof.
  intros Hn. unfold parse_header. destruct (String.eqb _ "subscription"); [done|].
  destruct (String.eqb (peekIdent p) "query" || String.eqb (peekIdent p) "mutation"); [|simpl; lia].
  destruct (readIdent p) as [tok p1] eqn:E1. simpl (_, _).2. lengths.
  assert (Hskip : ∀ q, (left_of (if (peekChar q =? 40)%Z then skip (skip_definitions false 0 (before q) (after q)) else q)
                        <= left_of q)%nat).
  { intros q. destruct (peekChar q =? 40); [|done].
    etrans; [apply left_skip|apply left_skip_definitions]. }
  assert (Hdir : ∀ name q, (left_of q <= left_of p)%nat →
    answers (A:=OperationType * string * Z * string) (S (left_of p)) (let! (cacheTTL, cacheKeySuffix, r) := directives_loop variables n 0 ""
      (if peekChar q =? 40 then skip (skip_definitions false 0 (before q) (after q)) else q) in
      Ok (if String.eqb (peekIdent p) "mutation" then MutationOperationType else QueryOperationType,
          name, cacheTTL, cacheKeySuffix, r))%go).
  { intros name q Hq. specialize (Hskip q). eapply answers_bind; [apply directives_answer; lia|].
    intros [ttl suffix] r Hr. simpl. lia. }
  destruct (_ && _ && _ && _).
  - destruct (readIdent (skip p1)) as [name p2] eqn:E2. lengths. apply Hdir. lengths. lia.
  - apply Hdir. lengths. lia.
Qed.

Lemma parse_operation_answers n p : (2 * left_of p + 1 <= n)%nat →
  answers (left_of p) (parse_operation variables n p).
Proof.
  intros Hn. unfold parse_operation. eapply answers_bind; [by apply parse_header_answers|].
  intros [[[ty name] ttl] suffix] q Hq. destruct (negb (peekChar q =? 123)) eqn:E; [done|].
  eapply answers_bind; [apply selections_answer; lia|]. intros fields r Hr. simpl. lia.
Qed.

(** What the loop over the operations answers: the operation asked for. *)
Definition selected (target : string) (p : Parser) (r : result GraphQLError (option OperationNode)) : Prop :=
  match r with
  | Ok None => isEOF p = true ∨ target ≠ ""
  | Ok (Some op) => target = "" ∨ op_Name op = target
  | Err Diverges => False
  | Err _ => True
  end.

Lemma operations_select n target p : (2 * left_of p + 2 <= n)%nat →
  selected target p (operations_loop variables n target p).
Proof.
  revert p. induction n as [|n IH]; intros p Hn; [lia|]. cbn [operations_loop].
  destruct (isEOF p) eqn:E; [by left|].
  assert (Ho : answers (left_of p) (parse_operation variables n p)) by (apply parse_operation_answers; lia).
  destruct (parse_operation variables n p) as [[op q]|e]; simpl in Ho |- *; [|by destruct e].
  destruct (String.eqb_spec target ""); simpl; [by left|].
  destruct (String.eqb_spec (op_Name op) target); simpl; [by right|].
  specialize (IH (skip q)). pose proof (left_skip q).
  destruct (operations_loop variables n target (skip q)) as [[op'|]|e']; simpl in *; auto; apply IH; lia.
Qed.
End totality.

(** C39: Every query gets an answer within the rounds: a syntax error, or the
    operation that was asked for. *)
Theorem ParseGraphQL_total query target variables :
  match ParseGraphQLWithOperation query target variables with
  | Ok None => False
  | Ok (Some op) => target = "" ∨ op_Name op = target
  | Err e => e ≠ Diverges
  end.
Proof.
  unfold ParseGraphQLWithOperation. destruct (isEOF _) eqn:E; [done|].
  pose proof (left_skip (MkParser [] (runes query))) as Hl. unfold left_of in Hl at 2. simpl in Hl.
  pose proof (operations_select variables (parse_rounds (runes query)) target
    (skip (MkParser [] (runes query)))) as Hs.
  destruct (operations_loop _ _ _ _) as [[op|]|e]; simpl in Hs |- *.
  - apply Hs. unfold parse_rounds. lia.
  - destruct Hs as [Hs|Hs]; [unfold parse_rounds; lia|congruence|].
    destruct (String.eqb_spec target ""); done.
  - destruct e; try done. exfalso. apply Hs. unfold parse_rounds. lia.
Qed.

End parser.
