(* ===== verification/GraphQLSpec.v ===== *)
(** * The GraphQL parser reads back what is printed

    A printer for documents in the concrete syntax of data/graphql/parser.go,
    and the proof that the parser inverts it: on a printed document it answers
    the first operation, or the first one of the name asked for. *)

From S2P Require Import Prelude GoStrings GoRunes GoValues GraphQLParser.
From Stdlib Require Import ZArith Lia Ascii String.
Local Open Scope string_scope.
Local Open Scope list_scope.
Local Open Scope Z_scope.

Section spec.
Context `{UT : UnicodeTables} `{FL : Floats}.

(** ** Printing *)

Definition lit (s : string) : list rune := byte_val <$> list_ascii_of_string s.

Definition escape (c : rune) : list rune := if (c =? 34) || (c =? 92) then [92; c] else [c].

Definition print_string (s : string) : list rune := [34] ++ (runes s ≫= escape) ++ [34].

Fixpoint print_value (v : any) : list rune :=
  match v with
  | ANil => lit "null"
  | ABool true => lit "true"
  | ABool false => lit "false"
  | AInt z => lit (decimal z)
  | AFloat _ => []
  | AString s => print_string s
  | AList l => [91] ++ (l ≫= λ x, print_value x ++ [32]) ++ [93]
  | AMap m => [123] ++ (m ≫= λ kv, runes kv.1 ++ [58] ++ print_value kv.2 ++ [32]) ++ [125]
  end.

Definition print_entry (kv : string * any) : list rune :=
  runes kv.1 ++ [58] ++ print_value kv.2 ++ [32].

Definition print_arguments (args : list (string * any)) : list rune :=
  match args with [] => [] | _ => [40] ++ (args ≫= print_entry) ++ [41] end.

Fixpoint print_field (f : FieldNode) : list rune :=
  (if String.eqb (fn_Alias f) "" then [] else runes (fn_Alias f) ++ [58])
  ++ runes (fn_Name f) ++ print_arguments (fn_Arguments f)
  ++ match fn_SelectionSet f with
     | [] => []
     | fs => [123] ++ (fs ≫= λ g, print_field g ++ [32]) ++ [125]
     end.

Definition print_directive (ttl : Z) (suffix : string) : list rune :=
  if (ttl =? 0) && String.eqb suffix "" then []
  else [64] ++ lit "cache" ++ print_arguments [("ttl", AInt ttl); ("key_suffix", AString suffix)] ++ [32].

Definition print_operation (op : OperationNode) : list rune :=
  (match op_Type op with QueryOperationType => lit "query" | MutationOperationType => lit "mutation" end)
  ++ [32]
  ++ (if String.eqb (op_Name op) "" then [] else runes (op_Name op) ++ [32])
  ++ print_directive (op_CacheTTL op) (op_CacheKeySuffix op)
  ++ [123] ++ (op_SelectionSet op ≫= λ f, print_field f ++ [32]) ++ [125].

Definition print_document (ops : list OperationNode) : list rune :=
  ops ≫= λ op, print_operation op ++ [10].

(** ** What can be printed

    Names are identifiers; integers fit in 64 bits; text is well formed;
    entries of a map have different names.  Floats and the values of variables
    have no literal. *)
Definition solid (c : rune) : bool := negb (IsSpace c) && negb (c =? 44) && negb (c =? 35).

Definition name_ok (s : string) : bool :=
  negb (String.eqb s "") && ValidString s && forallb (λ r, ident_char r && solid r) (runes s).

Fixpoint printable (v : any) : bool :=
  match v with
  | ANil | ABool _ => true
  | AInt z => in_int64 z
  | AFloat _ => false
  | AString s => ValidString s
  | AList l => forallb printable l
  | AMap m => bool_decide (NoDup (keys m)) && forallb (λ kv, name_ok kv.1 && printable kv.2) m
  end.

Definition args_ok (args : list (string * any)) : bool :=
  bool_decide (NoDup (keys args)) && forallb (λ kv, name_ok kv.1 && printable kv.2) args.

Fixpoint field_ok (f : FieldNode) : bool :=
  (String.eqb (fn_Alias f) "" || name_ok (fn_Alias f)) && name_ok (fn_Name f)
  && args_ok (fn_Arguments f) && forallb field_ok (fn_SelectionSet f).

Definition operation_ok (op : OperationNode) : bool :=
  (String.eqb (op_Name op) "" || name_ok (op_Name op)) && in_int64 (op_CacheTTL op)
  && ValidString (op_CacheKeySuffix op) && forallb field_ok (op_SelectionSet op).

(** The operation a request selects. *)
Definition select_operation (target : string) (ops : list OperationNode) : option OperationNode :=
  if String.eqb target "" then head ops
  else list_find (λ op, op_Name op = target) ops ≫= λ r, Some r.2.

(** ** Steps over printed text *)

Local Notation skip := skipWhitespaceAndComments.

Definition starts_solid (l : list rune) : Prop := match l with [] => True | c :: _ => solid c = true end.

Lemma skip_solid b l : starts_solid l → skip (MkParser b l) = MkParser b l.
Proof.
  destruct l as [|c l]; [done|]. unfold starts_solid, solid. intros [[Hs Hc]%andb_true_iff Hh]%andb_true_iff.
  unfold skip. simpl. apply negb_true_iff in Hs, Hc, Hh. by rewrite Hs, Hc, Hh.
Qed.

Lemma skip_space b c l : c = 32 ∨ c = 10 → starts_solid l → skip (MkParser b (c :: l)) = MkParser (c :: b) l.
Proof. intros [-> | ->] Hl; apply (skip_solid (_ :: b) l Hl). Qed.

Definition stops (f : rune → bool) (l : list rune) : Prop := match l with [] => True | c :: _ => f c = false end.

Lemma span_stop f a l : forallb f a = true → stops f l → span f (a ++ l) = (a, l).
Proof.
  intros Ha Hl. induction a as [|c a IH]; simpl in *.
  - destruct l as [|c l]; [done|]. simpl in *. by rewrite Hl.
  - apply andb_true_iff in Ha as [-> Ha]. by rewrite IH.
Qed.

Lemma readIdent_name b s l : name_ok s = true → stops ident_char l →
  ∃ b', readIdent (MkParser b (runes s ++ l)) = (s, MkParser b' l).
Proof.
  unfold name_ok. intros [[_ Hv]%andb_true_iff Hi]%andb_true_iff Hl.
  unfold readIdent, read_while. cbn [after before]. rewrite span_stop; [|..|done].
  - rewrite encode_runes by done. eauto.
  - apply forallb_forall. intros r Hr. rewrite forallb_forall in Hi. by apply Hi, andb_true_iff in Hr as [].
Qed.

Lemma name_starts s l : name_ok s = true → ∃ c a, runes s ++ l = c :: a ∧ ident_char c = true ∧ solid c = true.
Proof.
  unfold name_ok. intros [[Hne Hv]%andb_true_iff Hi]%andb_true_iff.
  destruct (runes s) as [|c a] eqn:E; [apply encode_runes in Hv; rewrite E in Hv; by subst|].
  simpl in Hi. apply andb_true_iff in Hi as [[Hc Hs]%andb_true_iff _]. by exists c, (a ++ l).
Qed.

(** No identifier starts with punctuation. *)
Lemma ident_char_not c d : ident_char c = true → ident_char d = false → (c =? d) = false.
Proof. intros Hc Hd. apply Z.eqb_neq. intros ->. congruence. Qed.

Lemma name_not_empty s : name_ok s = true → String.eqb s "" = false.
Proof. unfold name_ok. by intros [[?%negb_true_iff _]%andb_true_iff _]%andb_true_iff. Qed.

Lemma read_string_print acc b s l : 
  ∃ b', read_string_from acc b ((s ≫= escape) ++ 34 :: l) = Ok (append acc (encode s), MkParser b' l).
Proof.
  revert acc b. induction s as [|c s IH]; intros acc b; cbn [mbind list_bind].
  - simpl. rewrite append_empty. eauto.
  - rewrite <- app_assoc. unfold escape at 1. destruct ((c =? 34) || (c =? 92)) eqn:E.
    + assert (Hc : c = 34 ∨ c = 92) by (apply orb_true_iff in E as [E|E]; apply Z.eqb_eq in E; auto).
      assert (He : escaped_rune c = c) by (destruct Hc as [-> | ->]; reflexivity).
      change ([92; c] ++ ((s ≫= escape) ++ 34 :: l)) with (92 :: c :: ((s ≫= escape) ++ 34 :: l)).
      cbn [read_string_from]. rewrite He. change (92 =? 34) with false. change (92 =? 92) with true. cbn iota.
      destruct (IH (append acc (encode_rune c)) (c :: 92 :: b)) as [b' Hb']. rewrite Hb'.
      rewrite append_assoc. eauto.
    + apply orb_false_iff in E as [E1 E2]. cbn [app read_string_from]. rewrite E1, E2.
      destruct (IH (append acc (encode_rune c)) (c :: b)) as [b' Hb']. rewrite Hb', append_assoc. eauto.
Qed.

Lemma readString_print b s l : ValidString s = true →
  ∃ b', readString (MkParser b (print_string s ++ l)) = Ok (s, MkParser b' l).
Proof.
  intros Hs. unfold readString, print_string. rewrite <- !app_assoc. cbn [app advance after before].
  destruct (read_string_print "" (34 :: b) (runes s) l) as [b' Hb']. rewrite Hb'.
  rewrite encode_runes by done. eauto.
Qed.

(** ** Numbers *)

Definition number_byte (c : ascii) : bool := in_range 48 57 (byte_val c) || (byte_val c =? 45).

Lemma digit_char_byte d : 0 <= d < 10 → byte_val (digit_char d) = 48 + d.
Proof. intros Hd. unfold byte_val, digit_char. rewrite nat_ascii_embedding; lia. Qed.

Lemma dec_digits_bytes fuel n acc : 0 <= n → all_chars number_byte acc = true →
  all_chars number_byte (dec_digits fuel n acc) = true.
Proof.
  revert n acc. induction fuel as [|f IH]; [done|]. intros n acc Hn Hacc. cbn [dec_digits].
  assert (Hmod : 0 <= n mod 10 < 10) by (apply Z.mod_pos_bound; lia).
  assert (Hacc' : all_chars number_byte (String (digit_char (n mod 10)) acc) = true).
  { cbn [all_chars]. rewrite Hacc, andb_true_r. unfold number_byte, in_range.
    rewrite digit_char_byte by done. apply orb_true_iff. left. apply andb_true_iff.
    rewrite !Z.leb_le. lia. }
  destruct (n / 10 =? 0); [done|]. apply IH; [apply Z.div_pos; lia|done].
Qed.

Lemma decimal_bytes n : all_chars number_byte (decimal n) = true.
Proof.
  unfold decimal. destruct (Z.ltb_spec n 0); [|by apply dec_digits_bytes].
  cbn [all_chars]. apply (dec_digits_bytes 20 (- n) ""); [lia|done].
Qed.

Lemma decimal_cons n : ∃ c s, decimal n = String c s.
Proof.
  unfold decimal. destruct (Z.ltb_spec n 0); [eauto|].
  destruct (dec_digits_head 20 n "") as (d & s & E & _); [lia..|eauto].
Qed.

Lemma encode_lit s : all_chars (λ c, byte_val c <? 128) s = true → encode (lit s) = s.
Proof.
  induction s as [|c s IH]; [done|]. cbn [all_chars]. intros [Hc Hs]%andb_true_iff.
  change (lit (String c s)) with (byte_val c :: lit s). cbn [encode].
  rewrite IH by done. apply Z.ltb_lt in Hc. pose proof (byte_val_range c).
  unfold encode_rune. rewrite (proj2 (is_scalar_spec _)) by lia. unfold encode_scalar.
  rewrite (proj2 (Z.ltb_lt _ _) Hc). by rewrite (byte_of_eq c).
Qed.

Lemma forallb_lit (P : rune → bool) s : forallb P (lit s) = all_chars (λ c, P (byte_val c)) s.
Proof. induction s as [|c s IH]; [done|]. cbn. by rewrite <- IH. Qed.

Lemma number_byte_spec c : number_byte c = true →
  number_char (byte_val c) = true ∧ (byte_val c =? 46) = false ∧ byte_val c < 128.
Proof.
  unfold number_byte, number_char, in_range. rewrite !orb_true_iff, !andb_true_iff, !Z.leb_le, !Z.eqb_eq, Z.eqb_neq. lia.
Qed.

Lemma readNumber_print b z l : in_int64 z = true →
  ∃ b', readNumber (MkParser b (lit (decimal z) ++ 32 :: l)) = Ok (AInt z, MkParser b' (32 :: l)).
Proof.
  intros Hz. unfold readNumber, read_while. cbn [after before].
  pose proof (decimal_bytes z) as Hd. rewrite span_stop; [|rewrite forallb_lit|done].
  - rewrite encode_lit by (eapply all_chars_impl; [|done]; intros c Hc%number_byte_spec; apply Z.ltb_lt; tauto).
    assert (He : existsb (λ c, c =? 46) (lit (decimal z)) = false).
    { apply not_true_iff_false. rewrite existsb_exists. intros (c & Hin & Hc).
      assert (Hn : forallb (λ c, negb (c =? 46)) (lit (decimal z)) = true).
      { rewrite forallb_lit. eapply all_chars_impl; [|done]. intros d Hx%number_byte_spec.
        apply negb_true_iff. tauto. }
      rewrite forallb_forall in Hn. apply Hn in Hin. by rewrite Hc in Hin. }
    rewrite He, Atoi_decimal by done. eauto.
  - eapply all_chars_impl; [|done]. intros c Hc%number_byte_spec. tauto.
Qed.

(** ** Values *)

Lemma decimal_head z l : ∃ c a, lit (decimal z) ++ l = c :: a ∧ (48 <= c <= 57 ∨ c = 45).
Proof.
  destruct (decimal_cons z) as (c & s & E). pose proof (decimal_bytes z) as Hb. rewrite E in *.
  cbn [all_chars] in Hb. apply andb_true_iff in Hb as [Hc _]. exists (byte_val c), (lit s ++ l). split; [done|].
  unfold number_byte, in_range in Hc. rewrite orb_true_iff, andb_true_iff, !Z.leb_le, Z.eqb_eq in Hc. lia.
Qed.

(** A printed value starts with a solid rune that is no closing bracket. *)
Lemma print_value_starts v l : printable v = true →
  ∃ c a, print_value v ++ l = c :: a ∧ solid c = true ∧ c ≠ 93.
Proof.
  destruct v as [|[]| z | f | s | x | m]; cbn [print_value]; try done; try (by intros; eexists _, _).
  intros _. destruct (decimal_head z l) as (c & a & -> & Hc). exists c, a. split_and!; [done| |lia].
  unfold solid, IsSpace, in_range.
  rewrite !andb_true_iff, !negb_true_iff, !orb_false_iff, !andb_false_iff, !Z.leb_gt, !Z.eqb_neq. lia.
Qed.

Section values.
Context (variables : list (string * any)).

(** The statement of the round trip for one value, a space following it. *)
Definition reads_back (v : any) : Prop :=
  ∀ n b l, (2 * List.length (print_value v ++ 32%Z :: l) + 1 <= n)%nat →
  ∃ b', parseValue variables n (MkParser b (print_value v ++ 32 :: l)) = Ok (v, MkParser b' (32 :: l)).

Lemma array_reads_back items : Forall (λ v, printable v = true) items → Forall reads_back items →
  ∀ n acc b l, (2 * List.length ((items ≫= λ x, print_value x ++ [32%Z]) ++ 93%Z :: l) + 2 <= n)%nat →
  ∃ b', array_loop variables n acc (MkParser b ((items ≫= λ x, print_value x ++ [32]) ++ 93 :: l))
        = Ok (AList (acc ++ items), MkParser b' l).
Proof.
  intros Hp Hr. revert Hp. induction Hr as [|v items Hv Hr IH]; intros Hp n acc b l Hn.
  - destruct n as [|n]; [lia|]. simpl. rewrite app_nil_r. eauto.
  - apply Forall_cons_1 in Hp as [Hpv Hp]. cbn [mbind list_bind] in *.
    rewrite <- !app_assoc in *. cbn [app] in *.
    set (rest := mbind (λ x, print_value x ++ [32]) items ++ 93 :: l) in *.
    destruct n as [|n]; [lia|]. simpl array_loop.
    destruct (print_value_starts v (32 :: rest) Hpv) as (c & a & E & Hs & H93).
    assert (E' : negb (isEOF (MkParser b (print_value v ++ 32 :: rest)))
                 && negb (peekChar (MkParser b (print_value v ++ 32 :: rest)) =? 93) = true).
    { rewrite E. cbn. by rewrite (proj2 (Z.eqb_neq _ _) H93). }
    rewrite E'. rewrite skip_solid by (rewrite E; done).
    destruct (Hv n b rest) as [b1 H1]; [lia|]. rewrite H1. cbn [result_bind].
    assert (Hrest : starts_solid rest).
    { unfold rest. destruct items as [|w items]; [done|]. cbn [mbind list_bind]. rewrite <- !app_assoc.
      apply Forall_cons_1 in Hp as [Hw _].
      destruct (print_value_starts w ([32] ++ ((mbind (λ x, print_value x ++ [32]) items) ++ 93 :: l)) Hw)
        as (d & a' & -> & Hd & _). done. }
    rewrite skip_space by auto. rewrite length_app in Hn. cbn [List.length] in Hn.
    destruct (IH Hp n (acc ++ [v]) (32 :: b1) l) as [b2 H2]; [fold rest; lia|]. fold rest in H2.
    rewrite H2. rewrite <- app_assoc. eauto.
Qed.

(** Entries of an object or of an argument list. *)
Lemma entry_head k v rest : name_ok k = true →
  ∃ c a, print_entry (k, v) ++ rest = c :: a ∧ ident_char c = true ∧ solid c = true.
Proof. intros Hk. unfold print_entry. rewrite <- !app_assoc. by apply name_starts. Qed.

Lemma entries_solid entries close l : forallb (λ kv, name_ok kv.1 && printable kv.2) entries = true →
  solid close = true → starts_solid ((entries ≫= print_entry) ++ close :: l).
Proof.
  destruct entries as [|[k v] entries]; [done|]. cbn [forallb]. intros [[Hk _]%andb_true_iff _]%andb_true_iff _.
  cbn [mbind list_bind]. rewrite <- app_assoc.
  by destruct (entry_head k v (mbind print_entry entries ++ close :: l) Hk) as (c & a & -> & _ & ?).
Qed.

Lemma object_reads_back entries : Forall (λ kv, reads_back kv.2) entries →
  forallb (λ kv, name_ok kv.1 && printable kv.2) entries = true →
  ∀ n acc b l, NoDup (keys (acc ++ entries)) →
  (2 * List.length ((entries ≫= print_entry) ++ 125%Z :: l) + 2 <= n)%nat →
  ∃ b', object_loop variables n acc (MkParser b ((entries ≫= print_entry) ++ 125 :: l))
        = Ok (AMap (acc ++ entries), MkParser b' l).
Proof.
  induction 1 as [|[k v] entries Hv Hr IH]; intros Hok n acc b l Hnd Hn.
  - destruct n as [|n]; [lia|]. simpl. rewrite app_nil_r. eauto.
  - cbn [forallb fst snd] in Hok. apply andb_true_iff in Hok as [[Hk Hpv]%andb_true_iff Hok].
    cbn [mbind list_bind] in *. rewrite <- app_assoc in *.
    set (rest := (mbind print_entry entries) ++ 125 :: l) in *. cbn [snd] in Hv.
    destruct n as [|n]; [lia|].
    assert (Hsolid : starts_solid rest) by (by apply entries_solid).
    destruct (entry_head k v rest Hk) as (c & a & E & Hc & Hs).
    assert (Hrest : print_entry (k, v) ++ rest = runes k ++ 58 :: print_value v ++ 32 :: rest).
    { unfold print_entry. rewrite <- !app_assoc. done. }
    simpl object_loop.
    assert (E' : negb (isEOF (MkParser b (print_entry (k, v) ++ rest)))
                 && negb (peekChar (MkParser b (print_entry (k, v) ++ rest)) =? 125) = true).
    { rewrite E. cbn. by rewrite (ident_char_not c 125 Hc). }
    rewrite E'. rewrite skip_solid by (rewrite E; done). rewrite Hrest in *.
    destruct (readIdent_name b k (58 :: print_value v ++ 32 :: rest) Hk) as [b1 H1]; [done|]. rewrite H1.
    rewrite skip_solid by done. cbn [peekChar after advance before negb]. change (58 =? 58) with true. cbn [negb].
    rewrite !length_app in Hn. cbn [List.length] in Hn. rewrite length_app in Hn. cbn [List.length] in Hn.
    destruct (Hv n (58 :: b1) rest) as [b2 H2]; [rewrite length_app; cbn [List.length]; lia|].
    rewrite H2. cbn [result_bind]. rewrite skip_space by auto.
    rewrite map_set_fresh.
    + destruct (IH Hok n (acc ++ [(k, v)]) (32 :: b2) l) as [b3 H3].
      * by rewrite <- app_assoc.
      * fold rest. lia.
      * fold rest in H3. rewrite H3. rewrite <- app_assoc. eauto.
    + unfold keys in *. rewrite fmap_app in Hnd. apply list.NoDup_app in Hnd as (_ & Hd & _).
      intros Hin. apply (Hd k Hin). by left.
Qed.

Lemma value_reads_back v : printable v = true → reads_back v.
Proof.
  induction v as [|[]|z|f|s|l IH|m IH] using any_nested_ind; intros Hp n b rest Hn.
  all: destruct n as [|n]; [lia|].
  - simpl parseValue. eauto.
  - simpl parseValue. eauto.
  - simpl parseValue. eauto.
  - destruct (print_value_starts (AInt z) (32 :: rest) Hp) as (c & a & E & Hs & _).
    destruct (readNumber_print b z rest Hp) as [b' Hb'].
    destruct (decimal_head z (32 :: rest)) as (d & a' & E' & Hd).
    cbn [print_value] in E |- *. rewrite E' in *. injection E as -> ->.
    simpl parseValue. rewrite skip_solid by done. cbn [peekChar after]. unfold in_range.
    repeat match goal with
    | |- context [c =? ?k] => destruct (Z.eqb_spec c k); [exfalso; lia|]
    end.
    destruct Hd as [[Hd1 Hd2] | ->]; [|cbn; eauto].
    rewrite (proj2 (Z.leb_le _ _) Hd1), (proj2 (Z.leb_le _ _) Hd2). cbn. eauto.
  - done.
  - destruct (readString_print b s (32 :: rest) Hp) as [b' Hb'].
    simpl parseValue. rewrite skip_solid by done. cbn [peekChar after print_string app].
    change (34 =? 36) with false. change (34 =? 34) with true. cbn iota.
    unfold print_string in Hb'. cbn [app] in Hb'. rewrite Hb'. cbn. eauto.
  - cbn [print_value] in *. rewrite <- !app_assoc in *. cbn [app] in *.
    simpl parseValue. rewrite skip_solid by done. cbn [peekChar after advance before].
    change (91 =? 36) with false. change (91 =? 34) with false. change (91 =? 123) with false.
    change (91 =? 91) with true. cbn iota. cbn [printable] in Hp. cbn [List.length] in Hn.
    assert (HF : Forall (λ v, printable v = true) l) by (by apply forallb_Forall).
    destruct (array_reads_back l HF) with (n := n) (acc := @nil any) (b := 91 :: b) (l := 32 :: rest) as [b' Hb'];
      [|lia|eauto].
    by eapply Forall_both; [exact IH|exact HF|auto].
  - cbn [printable] in Hp. apply andb_true_iff in Hp as [Hnd%bool_decide_eq_true Hp].
    change (print_value (AMap m)) with ([123] ++ (m ≫= print_entry) ++ [125]) in *.
    rewrite <- !app_assoc in *. cbn [app List.length] in *.
    simpl parseValue. rewrite skip_solid by done. cbn [peekChar after advance before].
    change (123 =? 36) with false. change (123 =? 34) with false. change (123 =? 123) with true. cbn iota.
    destruct (object_reads_back m) with (n := n) (acc := @nil (string * any)) (b := 123 :: b) (l := 32 :: rest)
      as [b' Hb']; [|done|done|lia|eauto].
    assert (HF : Forall (λ kv, name_ok kv.1 && printable kv.2 = true) m) by (by apply forallb_Forall).
    eapply Forall_both; [exact IH|exact HF|]. intros kv Hkv [_ Hpv]%andb_true_iff. auto.
Qed.

(** ** Arguments *)

Lemma arguments_read_back entries : forallb (λ kv, name_ok kv.1 && printable kv.2) entries = true →
  ∀ n acc b l, NoDup (keys (acc ++ entries)) → acc ++ entries ≠ [] →
  (2 * List.length ((entries ≫= print_entry) ++ 41%Z :: l) + 2 <= n)%nat →
  ∃ b', arguments_loop variables n acc (MkParser b ((entries ≫= print_entry) ++ 41 :: l))
        = Ok (acc ++ entries, MkParser b' l).
Proof.
  induction entries as [|[k v] entries IH]; intros Hok n acc b l Hnd Hne Hn.
  - destruct n as [|n]; [lia|]. simpl. rewrite app_nil_r in *. destruct acc; [done|]. eauto.
  - cbn [forallb fst snd] in Hok. apply andb_true_iff in Hok as [[Hk Hpv]%andb_true_iff Hok].
    cbn [mbind list_bind] in *. rewrite <- app_assoc in *.
    set (rest := (mbind print_entry entries) ++ 41 :: l) in *. destruct n as [|n]; [lia|].
    assert (Hsolid : starts_solid rest) by (by apply entries_solid).
    destruct (entry_head k v rest Hk) as (c & a & E & Hc & Hs).
    assert (Hrest : print_entry (k, v) ++ rest = runes k ++ 58 :: print_value v ++ 32 :: rest).
    { unfold print_entry. rewrite <- !app_assoc. done. }
    simpl arguments_loop.
    assert (E' : negb (isEOF (MkParser b (print_entry (k, v) ++ rest)))
                 && negb (peekChar (MkParser b (print_entry (k, v) ++ rest)) =? 41) = true).
    { rewrite E. cbn. by rewrite (ident_char_not c 41 Hc). }
    rewrite E'. rewrite skip_solid by (rewrite E; done). rewrite Hrest in *.
    destruct (readIdent_name b k (58 :: print_value v ++ 32 :: rest) Hk) as [b1 H1]; [done|]. rewrite H1.
    rewrite (name_not_empty k Hk).
    rewrite skip_solid by done. cbn [peekChar after advance before negb]. change (58 =? 58) with true. cbn [negb].
    destruct (print_value_starts v (32 :: rest) Hpv) as (d & a' & Ev & Hd & _).
    rewrite skip_solid by (rewrite Ev; done).
    rewrite !length_app in Hn. cbn [List.length] in Hn. rewrite length_app in Hn. cbn [List.length] in Hn.
    destruct (value_reads_back v Hpv n (58 :: b1) rest) as [b2 H2]; [rewrite length_app; cbn [List.length]; lia|].
    rewrite H2. cbn [result_bind]. rewrite skip_space by auto.
    rewrite map_set_fresh.
    + destruct (IH Hok n (acc ++ [(k, v)]) (32 :: b2) l) as [b3 H3].
      * by rewrite <- app_assoc.
      * by destruct acc.
      * fold rest. lia.
      * fold rest in H3. rewrite H3. rewrite <- app_assoc. eauto.
    + unfold keys in *. rewrite fmap_app in Hnd. apply list.NoDup_app in Hnd as (_ & Hd' & _).
      intros Hin. apply (Hd' k Hin). by left.
Qed.

Lemma parseArguments_reads_back args n b l : args_ok args = true → args ≠ [] →
  (2 * List.length (print_arguments args ++ l) <= n)%nat →
  ∃ b', parseArguments variables n (MkParser b (print_arguments args ++ l)) = Ok (args, MkParser b' l).
Proof.
  unfold args_ok. intros [Hnd%bool_decide_eq_true Hok]%andb_true_iff Hne Hn.
  destruct args as [|kv args]; [done|].
  change (print_arguments (kv :: args)) with ([40] ++ ((kv :: args) ≫= print_entry) ++ [41]) in *.
  rewrite <- !app_assoc in *. cbn [app List.length] in *. unfold parseArguments. cbn [peekChar after advance before].
  change (40 =? 40) with true. cbn [negb]. rewrite skip_solid by (by apply entries_solid).
  apply arguments_read_back; [done..|lia].
Qed.

(** ** Fields *)

Definition fields_text (fs : list FieldNode) : list rune := fs ≫= λ g, print_field g ++ [32].

Definition selection_text (fs : list FieldNode) : list rune :=
  match fs with [] => [] | _ => [123] ++ fields_text fs ++ [125] end.

Lemma print_field_eq name alias args sel :
  print_field (MkField name alias args sel)
  = (if String.eqb alias "" then [] else runes alias ++ [58]) ++ runes name ++ print_arguments args ++ selection_text sel.
Proof. by destruct sel. Qed.

(** What may follow a field: the name of the next one, or the brace. *)
Definition follows (rest : list rune) : Prop :=
  ∃ c a, rest = c :: a ∧ solid c = true ∧ (ident_char c = true ∨ c = 125).

(** The text left after the names and after the arguments, white space
    skipped. *)
Definition after_args (sel : list FieldNode) (rest : list rune) : list rune :=
  match sel with [] => rest | _ => selection_text sel ++ 32 :: rest end.
Definition after_names (args : list (string * any)) (sel : list FieldNode) (rest : list rune) : list rune :=
  match args with [] => after_args sel rest | _ => print_arguments args ++ selection_text sel ++ 32 :: rest end.

Lemma skip_to_args b args sel rest : follows rest →
  ∃ b', skip (MkParser b (print_arguments args ++ selection_text sel ++ 32 :: rest)) = MkParser b' (after_names args sel rest).
Proof.
  intros (c & a & -> & Hs & _). destruct args as [|kv args]; [|rewrite skip_solid by done; by eexists].
  destruct sel as [|f sel]; [|rewrite skip_solid by done; by eexists].
  cbn [print_arguments selection_text app]. rewrite skip_space by auto. by eexists.
Qed.

Lemma skip_to_selection b sel rest : follows rest →
  ∃ b', skip (MkParser b (selection_text sel ++ 32 :: rest)) = MkParser b' (after_args sel rest).
Proof. intros Hf. destruct (skip_to_args b [] sel rest Hf) as [b' Hb']. by exists b'. Qed.

Lemma peek_follow b args sel rest k : follows rest → ident_char k = false → k < 123 → k ≠ 40 →
  (peekChar (MkParser b (after_names args sel rest)) =? k) = false
  ∧ (peekChar (MkParser b (after_names [] sel rest)) =? 40) = false.
Proof.
  intros (c & a & -> & Hs & Hc) Hk Hlt Hne.
  assert (Hck : (c =? k) = false ∧ (c =? 40) = false).
  { destruct Hc as [Hc | ->]; [split; by apply ident_char_not|]. split; apply Z.eqb_neq; lia. }
  destruct args, sel; cbn [after_names after_args selection_text print_arguments peekChar after app];
    split; try tauto; apply Z.eqb_neq; lia.
Qed.

(** The three stages of the loop over the fields. *)
Lemma name_stage b f args sel rest alias name : follows rest → f = MkField name alias args sel →
  name_ok name = true → String.eqb alias "" || name_ok alias = true →
  ∃ b1 first b2, readIdent (MkParser b (print_field f ++ 32 :: rest)) = (first, b1)
  ∧ String.eqb first "" = false
  ∧ (if peekChar (skip b1) =? 58 then
       let '(actualName, p) := readIdent (skip (advance (skip b1))) in
       if String.eqb actualName "" then Err (ExpectedFieldAfterAlias (position p))
       else Ok (actualName, first, skip p)
     else Ok (first, "", skip b1))
    = Ok (name, alias, MkParser b2 (after_names args sel rest)).
Proof.
  intros Hf -> Hname Halias. rewrite print_field_eq.
  assert (Hstop : stops ident_char (print_arguments args ++ selection_text sel ++ 32 :: rest)).
  { destruct args, sel; done. }
  destruct (String.eqb_spec alias "") as [->|Hne].
  - rewrite app_nil_l, <- !app_assoc.
    destruct (readIdent_name b name _ Hname Hstop) as [b1 H1]. rewrite H1.
    destruct (skip_to_args b1 args sel rest Hf) as [b2 H2].
    exists (MkParser b1 (print_arguments args ++ selection_text sel ++ 32 :: rest)), name, b2.
    rewrite H2. destruct (peek_follow b2 args sel rest 58 Hf) as [-> _]; [done..|].
    by rewrite (name_not_empty name Hname).
  - cbn [orb] in Halias. rewrite <- !app_assoc. cbn [app].
    destruct (readIdent_name b alias (58 :: runes name ++ print_arguments args ++ selection_text sel ++ 32 :: rest) Halias)
      as [b1 H1]; [done|]. rewrite H1.
    destruct (readIdent_name (58 :: b1) name _ Hname Hstop) as [b2 H2].
    destruct (skip_to_args b2 args sel rest Hf) as [b3 H3].
    eexists _, alias, b3. split_and!; [done|by apply name_not_empty|].
    rewrite skip_solid by done. cbn [peekChar after advance before]. change (58 =? 58) with true. cbn iota.
    destruct (name_starts name (print_arguments args ++ selection_text sel ++ 32 :: rest) Hname) as (c & a & E & _ & Hs).
    rewrite skip_solid by (rewrite E; done). rewrite H2, (name_not_empty name Hname), H3. done.
Qed.

Lemma args_stage n b args sel rest : follows rest → args_ok args = true →
  (2 * List.length (after_names args sel rest) <= n)%nat →
  ∃ b', (if peekChar (MkParser b (after_names args sel rest)) =? 40 then
           (let! (parsedArgs, p) := parseArguments variables n (MkParser b (after_names args sel rest)) in
            Ok (parsedArgs, skip p))%go
         else Ok ([], MkParser b (after_names args sel rest)))
        = Ok (args, MkParser b' (after_args sel rest)).
Proof.
  intros Hf Hok Hn. destruct args as [|kv args].
  - destruct (peek_follow b [] sel rest 58 Hf) as [_ Hp]; [done..|]. rewrite Hp. by eexists.
  - destruct (parseArguments_reads_back (kv :: args) n b (selection_text sel ++ 32 :: rest) Hok) as [b1 H1];
      [done|exact Hn|].
    change (after_names (kv :: args) sel rest) with (print_arguments (kv :: args) ++ selection_text sel ++ 32 :: rest).
    change (peekChar _ =? 40) with true. cbn iota. rewrite H1. cbn [result_bind].
    destruct (skip_to_selection b1 sel rest Hf) as [b2 H2]. rewrite H2. by eexists.
Qed.

(** One round of the loop reads one printed field. *)
Definition field_reads_back (f : FieldNode) : Prop :=
  ∀ n acc b rest, follows rest → (2 * List.length (print_field f ++ 32%Z :: rest) <= n)%nat →
  ∃ b', fields_loop variables (S n) acc (MkParser b (print_field f ++ 32 :: rest))
        = fields_loop variables n (acc ++ [f]) (MkParser b' rest).

Lemma field_starts f l : field_ok f = true →
  ∃ c a, print_field f ++ l = c :: a ∧ ident_char c = true ∧ solid c = true.
Proof.
  destruct f as [name alias args sel]. cbn [field_ok fn_Alias fn_Name].
  intros [[[Ha Hname]%andb_true_iff _]%andb_true_iff _]%andb_true_iff. rewrite print_field_eq, <- !app_assoc.
  destruct (String.eqb alias ""); cbn [orb] in Ha; rewrite <- ?app_assoc, ?app_nil_l; by apply name_starts.
Qed.

Lemma fields_follow fs l : forallb field_ok fs = true → follows (fields_text fs ++ 125 :: l).
Proof.
  destruct fs as [|f fs]; [intros _; by exists 125, l; auto|]. cbn [forallb].
  intros [Hf _]%andb_true_iff. unfold fields_text. cbn [mbind list_bind]. rewrite <- !app_assoc.
  destruct (field_starts f ([32] ++ mbind (λ g, print_field g ++ [32]) fs ++ 125 :: l) Hf) as (c & a & E & Hc & Hs).
  exists c, a. auto.
Qed.

Lemma fields_read_back fs : Forall field_reads_back fs → forallb field_ok fs = true →
  ∀ n acc b l, (2 * List.length (fields_text fs ++ 125%Z :: l) + 1 <= n)%nat →
  ∃ b', fields_loop variables n acc (MkParser b (fields_text fs ++ 125 :: l)) = Ok (acc ++ fs, skip (MkParser b' l)).
Proof.
  induction 1 as [|f fs Hf Hfs IH]; intros Hok n acc b l Hn.
  - destruct n as [|n]; [lia|]. simpl. rewrite app_nil_r. eauto.
  - cbn [forallb] in Hok. apply andb_true_iff in Hok as [_ Hok].
    unfold fields_text in *. cbn [mbind list_bind] in *. rewrite <- !app_assoc in *. cbn [app] in *.
    destruct n as [|n]; [lia|]. rewrite length_app in Hn. cbn [List.length] in Hn.
    destruct (Hf n acc b _ (fields_follow fs l Hok)) as [b1 H1]; [rewrite length_app; cbn [List.length]; unfold fields_text; lia|].
    unfold fields_text in H1. rewrite H1.
    destruct (IH Hok n (acc ++ [f]) b1 l) as [b2 H2]; [lia|].
    rewrite H2, <- app_assoc. eauto.
Qed.

Lemma length_print_field name alias args sel rest :
  (List.length (after_names args sel rest) <= List.length (print_field (MkField name alias args sel) ++ 32%Z :: rest))%nat
  ∧ (List.length (after_args sel rest) <= List.length (after_names args sel rest))%nat.
Proof.
  rewrite print_field_eq, !length_app. unfold after_names, after_args.
  destruct args, sel; cbn [List.length]; rewrite ?length_app; cbn [List.length]; lia.
Qed.

Lemma selection_stage n b sel rest : Forall field_reads_back sel → forallb field_ok sel = true → follows rest →
  (2 * List.length (after_args sel rest) <= n)%nat →
  ∃ b', (if peekChar (MkParser b (after_args sel rest)) =? 123 then
           (let! (children, p) := parseSelectionSet variables n (MkParser b (after_args sel rest)) in
            Ok (children, skip p))%go
         else Ok ([], MkParser b (after_args sel rest)))
        = Ok (sel, MkParser b' rest).
Proof.
  intros Hsel Hok (c & a & -> & Hs & Hc) Hn. destruct sel as [|f sel].
  - cbn [after_args peekChar after].
    assert ((c =? 123) = false) as ->; [|by eexists].
    destruct Hc as [Hc | ->]; [by apply ident_char_not|done].
  - set (fs := f :: sel) in *. set (l := 32 :: c :: a).
    assert (E : after_args fs (c :: a) = 123 :: fields_text fs ++ 125 :: l).
    { cbn [after_args fs selection_text]. fold fs. rewrite <- !app_assoc. done. }
    clearbody fs. rewrite E in *. change (peekChar _ =? 123) with true. cbn iota. cbn [List.length] in Hn.
    destruct n as [|n]; [lia|]. simpl parseSelectionSet. cbn [advance after before].
    destruct (fields_follow fs l Hok) as (d & a' & Ed & Hd & _).
    rewrite skip_solid by (rewrite Ed; done).
    destruct (fields_read_back fs Hsel Hok n [] (123 :: b) l) as [b1 H1]; [lia|]. rewrite H1. cbn [result_bind app].
    assert (Hskip : skip (MkParser b1 l) = MkParser (32 :: b1) (c :: a)) by (by apply skip_space; auto).
    rewrite Hskip, skip_solid by done. by eexists.
Qed.

Section field_induction.
Context (P : FieldNode → Prop)
  (Hfield : ∀ name alias args sel, Forall P sel → P (MkField name alias args sel)).

Fixpoint field_nested_ind (f : FieldNode) : P f :=
  match f with
  | MkField name alias args sel =>
      Hfield name alias args sel ((fix go (l : list FieldNode) : Forall P l :=
        match l with
        | [] => Forall_nil_2 _
        | x :: l' => Forall_cons_2 _ _ _ (field_nested_ind x) (go l')
        end) sel)
  end.
End field_induction.

Lemma field_read_back f : field_ok f = true → field_reads_back f.
Proof.
  induction f as [name alias args sel IH] using field_nested_ind. intros Hok n acc b rest Hf Hn.
  destruct (field_starts _ (32 :: rest) Hok) as (c & a & E & Hc & Hs).
  cbn [field_ok fn_Alias fn_Name fn_Arguments fn_SelectionSet] in Hok.
  apply andb_true_iff in Hok as [[[Halias Hname]%andb_true_iff Hargs]%andb_true_iff Hsel].
  destruct (length_print_field name alias args sel rest) as [Hl1 Hl2].
  assert (HIH : Forall field_reads_back sel).
  { eapply Forall_both; [exact IH|by apply forallb_Forall|]. auto. }
  destruct (name_stage b _ args sel rest alias name Hf eq_refl Hname Halias) as (p1 & first & b2 & H1 & Hne & H2).
  destruct (args_stage n b2 args sel rest Hf Hargs) as [b3 H3]; [lia|].
  destruct (selection_stage n b3 sel rest HIH Hsel Hf) as [b4 H4]; [lia|].
  exists b4. remember (print_field (MkField name alias args sel) ++ 32 :: rest) as text eqn:Etext.
  clear Etext. simpl fields_loop.
  assert (E' : negb (isEOF (MkParser b text)) && negb (peekChar (MkParser b text) =? 125) = true).
  { rewrite E. cbn [isEOF after peekChar negb andb]. by rewrite (ident_char_not c 125 Hc). }
  rewrite E', skip_solid by (rewrite E; done). rewrite H1, Hne, H2. cbn [result_bind].
  rewrite H3. cbn [result_bind]. rewrite H4. done.
Qed.

(** ** Operations and documents *)

Lemma all_fields_read_back fs : forallb field_ok fs = true → Forall field_reads_back fs.
Proof. intros H%forallb_Forall. eapply Forall_impl; [|exact H]. intros f. apply field_read_back. Qed.

Definition selection (fs : list FieldNode) (l : list rune) : list rune := 123 :: fields_text fs ++ 125 :: l.

Lemma selection_reads_back fs n b l : forallb field_ok fs = true →
  (2 * List.length (selection fs l) <= n)%nat →
  ∃ b', parseSelectionSet variables n (MkParser b (selection fs l)) = Ok (fs, skip (MkParser b' l)).
Proof.
  intros Hok Hn. unfold selection in *. cbn [List.length] in Hn. destruct n as [|n]; [lia|].
  simpl parseSelectionSet. cbn [advance after before].
  destruct (fields_follow fs l Hok) as (d & a' & Ed & Hd & _). rewrite skip_solid by (rewrite Ed; done).
  destruct (fields_read_back fs (all_fields_read_back fs Hok) Hok n [] (123 :: b) l) as [b1 H1]; [lia|].
  by exists b1.
Qed.

Lemma directive_reads_back n b ttl suffix l : in_int64 ttl = true → ValidString suffix = true →
  (2 * List.length (print_directive ttl suffix ++ 123%Z :: l) + 2 <= n)%nat →
  ∃ b', directives_loop variables n 0 "" (MkParser b (print_directive ttl suffix ++ 123 :: l))
        = Ok (ttl, suffix, MkParser b' (123 :: l)).
Proof.
  intros Httl Hsuffix Hn. unfold print_directive in *.
  destruct ((ttl =? 0) && String.eqb suffix "") eqn:E.
  { apply andb_true_iff in E as [->%Z.eqb_eq ->%String.eqb_eq]. destruct n as [|n]; [lia|]. by eexists. }
  clear E. set (args := [("ttl", AInt ttl); ("key_suffix", AString suffix)]) in *.
  rewrite <- !app_assoc in *. cbn [app] in *. cbn [List.length] in Hn. rewrite !length_app in Hn.
  destruct n as [|n]; [lia|]. cbn [directives_loop]. change (peekChar _ =? 64) with true. cbn iota.
  cbn [advance after before].
  destruct (readIdent_name (64 :: b) "cache" (print_arguments args ++ 32 :: 123 :: l)) as [b1 H1]; [done|done|].
  change (runes "cache") with (lit "cache") in H1. rewrite H1. cbn iota. rewrite skip_solid by done.
  change (peekChar _ =? 40) with true. cbn iota.
  destruct (parseArguments_reads_back args n b1 (32 :: 123 :: l)) as [b2 H2]; [|done|rewrite length_app; simpl in *; lia|].
  { apply andb_true_iff. split; [reflexivity|]. cbn [args forallb fst snd printable].
    rewrite Httl, Hsuffix. reflexivity. }
  rewrite H2. cbn [result_bind]. change (String.eqb "cache" "cache") with true. cbn iota.
  rewrite skip_space; [|auto|done]. destruct n as [|n]; [lia|]. by eexists.
Qed.

Lemma header_reads_back n b op l : operation_ok op = true →
  (2 * List.length (print_operation op ++ l) + 2 <= n)%nat →
  ∃ b', parse_header variables n (MkParser b (print_operation op ++ l))
        = Ok (op_Type op, op_Name op, op_CacheTTL op, op_CacheKeySuffix op,
              MkParser b' (selection (op_SelectionSet op) l)).
Proof.
  destruct op as [ty name ttl suffix fs]. unfold operation_ok, print_operation.
  cbn [op_Type op_Name op_CacheTTL op_CacheKeySuffix op_SelectionSet].
  intros [[[Hname Httl]%andb_true_iff Hsuffix]%andb_true_iff _]%andb_true_iff Hn.
  fold (fields_text fs) in *. rewrite <- !app_assoc in *. cbn [app] in *. fold (selection fs l) in *.
  set (kw := match ty with QueryOperationType => "query" | MutationOperationType => "mutation" end).
  set (T := print_directive ttl suffix ++ selection fs l) in *.
  set (N := if String.eqb name "" then [] else runes name ++ [32]) in *.
  assert (Hkw : match ty with QueryOperationType => lit "query" | MutationOperationType => lit "mutation" end = runes kw)
    by (by destruct ty).
  rewrite Hkw in *. unfold parse_header, peekIdent.
  assert (HT : ∃ c t, T = c :: t ∧ (c = 64 ∨ c = 123)).
  { unfold T, print_directive. destruct (_ && _); eexists _, _; split; try reflexivity; auto. }
  assert (Hkwok : name_ok kw = true) by (by destruct ty).
  destruct (readIdent_name b kw (32 :: N ++ T) Hkwok) as [b1 H1]; [done|]. rewrite H1. cbn [fst snd].
  assert (Htests : String.eqb kw "subscription" = false ∧ String.eqb kw "query" || String.eqb kw "mutation" = true
    ∧ (if String.eqb kw "mutation" then MutationOperationType else QueryOperationType) = ty) by (by destruct ty).
  destruct Htests as (-> & -> & ->).
  rewrite length_app in Hn. cbn [List.length] in Hn. rewrite length_app in Hn.
  assert (Hdir : ∀ b, ∃ b', directives_loop variables n 0 ""
            (if peekChar (MkParser b T) =? 40 then skip (skip_definitions false 0 b T) else MkParser b T)
          = Ok (ttl, suffix, MkParser b' (selection fs l))).
  { intros b0. destruct HT as (c & t & ET & Hc).
    assert ((peekChar (MkParser b0 T) =? 40) = false) as ->.
    { rewrite ET. cbn [peekChar after]. destruct Hc as [-> | ->]; done. }
    apply directive_reads_back; [done..|]. fold (selection fs l). fold T. lia. }
  clearbody T. destruct HT as (c & t & -> & Hc).
  destruct (String.eqb_spec name "") as [->|Hne].
  - cbn [N app]. rewrite skip_space; [|auto|destruct Hc as [-> | ->]; done].
    assert (Hid : readIdent (MkParser (32 :: b1) (c :: t)) = ("", MkParser (32 :: b1) (c :: t))).
    { unfold readIdent, read_while. cbn [after before span].
      assert (ident_char c = false) as -> by (destruct Hc as [-> | ->]; done). done. }
    rewrite Hid. cbn [fst String.eqb negb andb].
    destruct (Hdir (32 :: b1)) as [b2 H2]. cbn [before after]. rewrite H2. by eexists.
  - cbn [orb] in Hname. unfold N. destruct (String.eqb_spec name ""); [done|].
    rewrite <- app_assoc. cbn [app].
    destruct (name_starts name (32 :: c :: t) Hname) as (d & a & E & Hd & Hs).
    rewrite skip_space; [|auto|rewrite E; done].
    destruct (readIdent_name (32 :: b1) name (32 :: c :: t) Hname) as [b2 H2]; [done|]. rewrite H2. cbn [fst].
    rewrite (name_not_empty name Hname). cbn [negb andb].
    assert (Hpk : ∀ k, ident_char k = false → (peekChar (MkParser (32 :: b1) (runes name ++ 32 :: c :: t)) =? k) = false).
    { intros k Hk. rewrite E. cbn [peekChar after]. by apply ident_char_not. }
    rewrite !Hpk by done. cbn [negb andb].
    rewrite skip_space; [|auto|destruct Hc as [-> | ->]; done].
    destruct (Hdir (32 :: b2)) as [b3 H3]. cbn [before after]. rewrite H3. by eexists.
Qed.

Lemma operation_reads_back n b op l : operation_ok op = true →
  (2 * List.length (print_operation op ++ l) + 2 <= n)%nat →
  ∃ b', parse_operation variables n (MkParser b (print_operation op ++ l)) = Ok (op, skip (MkParser b' l)).
Proof.
  intros Hok Hn. destruct (header_reads_back n b op l Hok Hn) as [b1 H1].
  unfold parse_operation. rewrite H1. cbn [result_bind]. change (peekChar _ =? 123) with true. cbn [negb].
  pose proof Hok as Hsel. unfold operation_ok in Hsel. apply andb_true_iff in Hsel as [_ Hsel].
  destruct (selection_reads_back (op_SelectionSet op) n b1 l Hsel) as [b2 H2].
  - unfold print_operation in Hn. fold (fields_text (op_SelectionSet op)) in Hn. unfold selection.
    rewrite !length_app in Hn. cbn [List.length] in *. rewrite length_app in *. cbn [List.length] in *. lia.
  - rewrite H2. cbn [result_bind]. exists b2. by destruct op.
Qed.

Lemma document_solid ops : starts_solid (print_document ops).
Proof. destruct ops as [|[[] name ttl suffix fs] ops]; done. Qed.

Lemma document_reads_back ops target : forallb operation_ok ops = true →
  ∀ n b, (2 * List.length (print_document ops) + 3 <= n)%nat →
  operations_loop variables n target (MkParser b (print_document ops)) = Ok (select_operation target ops).
Proof.
  induction ops as [|op ops IH]; intros Hok n b Hn; destruct n as [|n]; try lia.
  { unfold select_operation. by destruct (String.eqb target ""). }
  cbn [forallb] in Hok. apply andb_true_iff in Hok as [Hop Hok].
  unfold print_document in *. cbn [mbind list_bind] in *. rewrite <- app_assoc in *. cbn [app] in *.
  fold (print_document ops) in *.
  destruct (operation_reads_back n b op (10 :: print_document ops) Hop) as [b1 H1]; [lia|].
  cbn [operations_loop].
  assert (isEOF (MkParser b (print_operation op ++ 10 :: print_document ops)) = false) as ->
    by (by destruct op as [[] ? ? ? ?]).
  rewrite H1. cbn [result_bind]. rewrite skip_space; [|auto|apply document_solid].
  rewrite skip_solid by apply document_solid.
  rewrite length_app in Hn. cbn [List.length] in Hn.
  unfold select_operation. destruct (String.eqb_spec target "") as [->|Hne]; cbn [negb andb]; [done|].
  destruct (String.eqb_spec (op_Name op) target) as [Heq|Hneq].
  - cbn [list_find]. by rewrite decide_True by done.
  - rewrite IH by (done || lia). unfold select_operation. destruct (String.eqb_spec target ""); [done|].
    cbn [list_find]. rewrite decide_False by done.
    by destruct (list_find (λ op0, op_Name op0 = target) ops) as [[i op']|].
Qed.
End values.

(** C29: A GraphQL document that is printed is read back: the parser answers
    the first operation, or the first one of the requested name, exactly as it
    was (names, aliases, arguments with their nested values, selections, cache
    directive); a name that does not occur is the error of an unknown
    operation. *)
Theorem graphql_round_trip query target variables ops :
  forallb operation_ok ops = true → ops ≠ [] → runes query = print_document ops →
  ParseGraphQLWithOperation query target variables
  = match select_operation target ops with
    | Some op => Ok (Some op)
    | None => Err (UnknownOperation target)
    end.
Proof.
  intros Hok Hne Hq. unfold ParseGraphQLWithOperation. rewrite Hq.
  rewrite skip_solid by apply document_solid.
  assert (isEOF (MkParser [] (print_document ops)) = false) as ->.
  { destruct ops as [|[[] ? ? ? ?] ops]; done. }
  rewrite document_reads_back; [|done|unfold parse_rounds; lia]. cbn [result_bind].
  destruct (select_operation target ops) as [op|] eqn:E; [done|].
  destruct (String.eqb_spec target ""); [|done]. subst. by destruct ops.
Qed.
End spec.

#[local] Existing Instance ascii_tables.
#[local] Existing Instance integer_floats.

(** A document with two operations, nested selections and arguments. *)
Definition sample_document : list OperationNode :=
  let user := MkField "users" "people" [("limit", AInt 10); ("where", AMap [("name", AMap [("_eq", AString "a")])])]
    [MkField "id" "" [] []; MkField "posts" "" [] [MkField "title" "" [] []]] in
  [MkOperation QueryOperationType "First" 60 "sfx" [user];
   MkOperation MutationOperationType "Second" 0 ""
     [MkField "delete_posts" "" [("where", AMap [("id", AMap [("_in", AList [AInt (-1); ABool true; ANil])])])] []]].

Lemma graphql_round_trip_witness :
  ParseGraphQLWithOperation (encode (print_document sample_document)) "Second" []
  = Ok (sample_document !! 1%nat).
Proof.
  refine (eq_trans (graphql_round_trip (encode (print_document sample_document)) "Second" [] sample_document _ _ _) _).
  - vm_compute. reflexivity.
  - discriminate.
  - vm_compute. reflexivity.
  - reflexivity.
Defined.
