(* ===== verification/SqlText.v ===== *)
(** * SQL text: quoting and placeholders

    The data service builds SQL from text with [fmt.Sprintf]; values travel as
    arguments of numbered placeholders and names are put between quotes.  This
    file has a scanner for the lexical structure that matters: where quotes
    open and close, which placeholders stand outside quotes, and whether a
    statement separator does.  A text is [emits]-ed with placeholders [hs] when
    the scanner ends outside quotes, met no separator, and saw exactly [hs], in
    this order.  The builders' theorems say that for their texts [hs] is
    [1, 2, ..., n] with [n] arguments. *)

From S2P Require Import Prelude GoStrings GoRunes.
From Stdlib Require Import ZArith Lia Ascii String.
Local Open Scope string_scope.
Local Open Scope Z_scope.

(** ** The scanner *)

(** Outside quotes, in a string literal, in a quoted identifier, in the
    number of a placeholder; [Broken] once a separator was met. *)
Inductive Mode := Plain | Squote | Dquote | Hole (n : Z) | Broken.

Definition plain_step (c : ascii) : Mode :=
  if Ascii.eqb c "'" then Squote
  else if byte_val c =? 34 then Dquote
  else if Ascii.eqb c "$" then Hole 0
  else if Ascii.eqb c ";" then Broken
  else Plain.

Definition scan_step (m : Mode) (c : ascii) : Mode * list Z :=
  match m with
  | Plain => (plain_step c, [])
  | Squote => (if Ascii.eqb c "'" then Plain else Squote, [])
  | Dquote => (if byte_val c =? 34 then Plain else Dquote, [])
  | Hole n => match digit_of c with
              | Some d => (Hole (10 * n + d), [])
              | None => (plain_step c, [n])
              end
  | Broken => (Broken, [])
  end.

Fixpoint scan (m : Mode) (s : string) : Mode * list Z :=
  match s with
  | EmptyString => (m, [])
  | String c s' =>
      let '(m1, h1) := scan_step m c in
      let '(m2, h2) := scan m1 s' in
      (m2, (h1 ++ h2)%list)
  end.

(** The placeholder still open at the end of the text. *)
Definition flush (m : Mode) : option (list Z) :=
  match m with
  | Plain => Some []
  | Hole n => Some [n]
  | _ => None
  end.

(** The placeholders of a well-quoted text, in order. *)
Definition placeholders (s : string) : option (list Z) :=
  let '(m, h) := scan Plain s in
  last ← flush m; Some (h ++ last)%list.

(** ** Building blocks *)

(** A quoted identifier and a string literal: [Sprintf] with ["%s"] and
    ['%s']. *)
Definition dq (x : string) : string := String (ascii_of_nat 34) (x ++ String (ascii_of_nat 34) "").
Definition sq (x : string) : string := "'" ++ x ++ "'".
(** [$%d]; a number has no more digits than bits. *)
Definition hole (n : Z) : string := "$" ++ dec_digits (S (Z.to_nat (Z.log2 n))) n "".

(** ** Lemmas *)

Lemma scan_app m a b :
  scan m (a ++ b) = let '(m1, h1) := scan m a in let '(m2, h2) := scan m1 b in (m2, (h1 ++ h2)%list).
Proof.
  revert m. induction a as [|c a IH]; intros m.
  - change ("" ++ b) with b. cbn. by destruct (scan m b).
  - rewrite append_cons. cbn [scan]. destruct (scan_step m c) as [m1 h1]. rewrite IH.
    destruct (scan m1 a) as [m2 h2]. destruct (scan m2 b) as [m3 h3]. by rewrite app_assoc.
Qed.

(** [emits s hs]: the text is well quoted and has the placeholders [hs]. *)
Definition emits (s : string) (hs : list Z) : Prop := placeholders s = Some hs.

(** A text that may follow a placeholder. *)
Definition breaks (s : string) : bool :=
  match s with
  | EmptyString => true
  | String c _ => match digit_of c with Some _ => false | None => true end
  end.

Lemma scan_hole n s : breaks s = true → s ≠ "" →
  scan (Hole n) s = let '(m, h) := scan Plain s in (m, n :: h).
Proof.
  destruct s as [|c s]; [done|]. cbn [breaks scan scan_step]. destruct (digit_of c); [done|]. intros _ _.
  by destruct (scan (plain_step c) s).
Qed.

Lemma emits_app a b ha hb : emits a ha → emits b hb → breaks b = true → emits (a ++ b) (ha ++ hb)%list.
Proof.
  unfold emits, placeholders. intros Ha Hb Hbr. rewrite scan_app.
  destruct (scan Plain a) as [ma la]. destruct ma as [| | |n|]; simpl in Ha; try done; injection Ha as <-.
  - destruct (scan Plain b) as [mb lb]. destruct (flush mb); simpl in *; [|done]. injection Hb as <-.
    by rewrite app_nil_r, app_assoc.
  - destruct (decide (b = "")) as [->|Hne].
    + cbn in Hb. injection Hb as <-. cbn. by rewrite !app_nil_r.
    + rewrite scan_hole by done. destruct (scan Plain b) as [mb lb]. destruct (flush mb); simpl in *; [|done].
      injection Hb as <-. f_equal. rewrite <- !app_assoc. done.
Qed.

(** Text without quotes, placeholders and separators. *)
Definition inert (c : ascii) : bool := match plain_step c with Plain => true | _ => false end.

Lemma scan_inert s : all_chars inert s = true → scan Plain s = (Plain, []).
Proof.
  induction s as [|c s IH]; [done|]. cbn [all_chars scan scan_step]. unfold inert.
  destruct (plain_step c); intros [? ?]%andb_true_iff; try done. by rewrite IH.
Qed.

Lemma emits_inert s : all_chars inert s = true → emits s [].
Proof. intros H. unfold emits, placeholders. by rewrite scan_inert. Qed.

Lemma emits_empty : emits "" [].
Proof. done. Qed.

(** In front of inert text anything well quoted may follow, digits too. *)
Lemma emits_after_inert a b hb : all_chars inert a = true → emits b hb → emits (a ++ b) hb.
Proof.
  intros Ha Hb. unfold emits, placeholders in *. rewrite scan_app, scan_inert by done.
  by destruct (scan Plain b).
Qed.

Lemma decimal_inert n : all_chars inert (decimal n) = true.
Proof.
  assert (Hdig : ∀ d, 0 <= d < 10 → inert (digit_char d) = true).
  { intros d Hd. assert (Hc : d ∈ [0; 1; 2; 3; 4; 5; 6; 7; 8; 9]) by (rewrite !elem_of_cons; lia).
    repeat (apply elem_of_cons in Hc as [->|Hc]; [done|]). by apply elem_of_nil in Hc. }
  assert (Hd : ∀ fuel n acc, all_chars inert acc = true → all_chars inert (dec_digits fuel n acc) = true).
  { induction fuel as [|f IH]; [done|]. intros k acc Hacc. cbn [dec_digits].
    assert (Hacc' : all_chars inert (String (digit_char (k mod 10)) acc) = true).
    { cbn [all_chars]. rewrite Hdig by (apply Z.mod_pos_bound; lia). done. }
    destruct (k / 10 =? 0); [done|]. by apply IH. }
  unfold decimal. destruct (n <? 0); [cbn [all_chars]|]; by rewrite Hd.
Qed.

Lemma scan_hole_digits n s z : digits_from n s = Some z → scan (Hole n) s = (Hole z, []).
Proof.
  revert n. induction s as [|c s IH]; intros n; cbn [digits_from scan scan_step]; [by intros [= ->]|].
  destruct (digit_of c) as [d|]; [|done]. intros H. by rewrite (IH _ H).
Qed.

Lemma emits_hole n : 0 <= n → emits (hole n) [n].
Proof.
  intros Hn. unfold emits, placeholders, hole. set (f := S (Z.to_nat (Z.log2 n))).
  change ("$" ++ ?t) with (String "$" t). cbn [scan scan_step]. change (plain_step "$") with (Hole 0).
  assert (Hlt : n < 10 ^ Z.of_nat f).
  { unfold f. rewrite Nat2Z.inj_succ, Z2Nat.id by apply Z.log2_nonneg.
    destruct (decide (n = 0)) as [->|]; [done|].
    eapply Z.lt_le_trans; [apply (Z.log2_spec n); lia|]. apply Z.pow_le_mono_l. lia. }
  destruct (dec_digits_read f n "") as (k & _ & Hread); [lia|unfold f; lia|].
  rewrite (scan_hole_digits 0 _ n); [done|]. rewrite Hread. cbn. done.
Qed.

(** ** Quoted names *)

Section names.
Context `{UT : UnicodeTables}.

(** Bytes that end neither kind of quote. *)
Definition name_text (s : string) : bool := all_chars ident_byte s.

Lemma ident_byte_quotes c : ident_byte c = true → Ascii.eqb c "'" = false ∧ (byte_val c =? 34) = false.
Proof.
  intros Hc. split.
  - apply Ascii.eqb_neq. intros ->. done.
  - apply Z.eqb_neq. intros E. unfold ident_byte in Hc. by rewrite E in Hc.
Qed.

Lemma scan_name_squote s : name_text s = true → scan Squote s = (Squote, []).
Proof.
  unfold name_text. induction s as [|c s IH]; [done|]. cbn [all_chars scan scan_step].
  intros [Hc Hs]%andb_true_iff. destruct (ident_byte_quotes c Hc) as [-> _]. by rewrite IH.
Qed.

Lemma scan_name_dquote s : name_text s = true → scan Dquote s = (Dquote, []).
Proof.
  unfold name_text. induction s as [|c s IH]; [done|]. cbn [all_chars scan scan_step].
  intros [Hc Hs]%andb_true_iff. destruct (ident_byte_quotes c Hc) as [_ ->]. by rewrite IH.
Qed.

Lemma valid_name_text s : IsValidIdentifier s = true → name_text s = true.
Proof. apply IsValidIdentifier_bytes. Qed.
End names.

(** ** Joining *)

(** [joined pieces hs]: well-quoted pieces whose placeholders are, one after
    the other, [hs]. *)
Inductive pieces : list string → list Z → Prop :=
| pieces_nil : pieces [] []
| pieces_cons x hx l hl : emits x hx → pieces l hl → pieces (x :: l) (hx ++ hl)%list.

Lemma pieces_app l1 h1 l2 h2 : pieces l1 h1 → pieces l2 h2 → pieces (l1 ++ l2)%list (h1 ++ h2)%list.
Proof. induction 1; simpl; [done|]. intros. rewrite <- app_assoc. constructor; auto. Qed.

Lemma pieces_one x hx : emits x hx → pieces [x] hx.
Proof. intros. rewrite <- (app_nil_r hx). repeat constructor. done. Qed.

Lemma pieces_snoc l hl x hx : pieces l hl → emits x hx → pieces (l ++ [x])%list (hl ++ hx)%list.
Proof. intros. apply pieces_app; [done|by apply pieces_one]. Qed.

Lemma emits_Join l hs sep : all_chars inert sep = true → breaks sep = true → sep ≠ "" →
  pieces l hs → emits (Join l sep) hs.
Proof.
  intros Hs Hb Hne. induction 1 as [|x hx l hl Hx Hl IH]; [done|].
  destruct l as [|y l]; [inversion Hl; subst; by rewrite app_nil_r|].
  change (Join (x :: y :: l) sep) with (x ++ (sep ++ Join (y :: l) sep)).
  apply emits_app; [done|by apply emits_after_inert|].
  destruct sep as [|c sep]; [done|]. rewrite append_cons. done.
Qed.

(** ** Neutral text: quotes closed, no placeholder *)

Definition neutral (s : string) : Prop := scan Plain s = (Plain, []).

Lemma neutral_app a b : neutral a → neutral b → neutral (a ++ b).
Proof. unfold neutral. intros Ha Hb. by rewrite scan_app, Ha, Hb. Qed.

Lemma emits_after a b hb : neutral a → emits b hb → emits (a ++ b) hb.
Proof.
  unfold neutral, emits, placeholders. intros Ha Hb. rewrite scan_app, Ha. by destruct (scan Plain b).
Qed.

Lemma emits_then a b ha : emits a ha → neutral b → breaks b = true → emits (a ++ b) ha.
Proof.
  intros Ha Hb Hbr. rewrite <- (app_nil_r ha). apply emits_app; [done| |done].
  unfold emits, placeholders. by rewrite Hb.
Qed.

Lemma neutral_emits s : neutral s → emits s [].
Proof. unfold neutral, emits, placeholders. by intros ->. Qed.

Lemma neutral_decimal n : neutral (decimal n).
Proof. apply scan_inert, decimal_inert. Qed.

Section neutral_names.
Context `{UT : UnicodeTables}.

Lemma neutral_dq s : name_text s = true → neutral (dq s).
Proof.
  intros Hs. unfold neutral, dq. cbn [scan scan_step]. change (plain_step (ascii_of_nat 34)) with Dquote.
  by rewrite scan_app, scan_name_dquote.
Qed.

Lemma neutral_sq s : name_text s = true → neutral (sq s).
Proof.
  intros Hs. unfold neutral, sq. change ("'" ++ s ++ "'") with (String "'" (s ++ "'")).
  cbn [scan scan_step]. change (plain_step "'") with Squote. by rewrite scan_app, scan_name_squote.
Qed.

Lemma name_text_app a b : name_text a = true → name_text b = true → name_text (a ++ b) = true.
Proof. unfold name_text. intros. by rewrite all_chars_app, andb_true_iff. Qed.
End neutral_names.

Lemma neutral_Join l sep : neutral sep → Forall neutral l → neutral (Join l sep).
Proof.
  intros Hs. induction 1 as [|x l Hx Hl IH]; [done|]. destruct l as [|y l]; [done|].
  change (Join (x :: y :: l) sep) with (x ++ (sep ++ Join (y :: l) sep)). by repeat apply neutral_app.
Qed.

Lemma neutral_pieces l : Forall neutral l → pieces l [].
Proof. induction 1; [constructor|]. apply (pieces_cons _ [] _ []); [by apply neutral_emits|done]. Qed.

(** ** Consecutive placeholders *)

(** [seq_holes i j] is [i, i+1, ..., j-1]. *)
Definition seq_holes (i j : Z) : list Z := seqZ i (j - i).

Lemma seq_holes_nil i : seq_holes i i = [].
Proof. unfold seq_holes. by rewrite Z.sub_diag. Qed.

Lemma seq_holes_one i : seq_holes i (i + 1) = [i].
Proof. unfold seq_holes. replace (i + 1 - i) with 1 by lia. done. Qed.

Lemma seq_holes_app i j k : i <= j <= k → (seq_holes i j ++ seq_holes j k)%list = seq_holes i k.
Proof.
  intros H. unfold seq_holes. replace (k - i) with ((j - i) + (k - j)) by lia.
  rewrite seqZ_app by lia. by replace (i + (j - i)) with j by lia.
Qed.

Lemma emits_next_hole i : 0 <= i → emits (hole i) (seq_holes i (i + 1)).
Proof. intros Hi. rewrite seq_holes_one. by apply emits_hole. Qed.

(** Text made for the arguments [args] from index [i] on. *)
Definition clause_ok {A} (i : Z) (clause : string) (args : list A) (j : Z) : Prop :=
  j = i + Z.of_nat (List.length args) ∧ emits clause (seq_holes i j).

(** A name quoted in text: [neutral_dq] and its likes are found by the hints;
    fixed text computes. *)
Create HintDb sql.
#[export] Hint Resolve neutral_dq neutral_sq neutral_decimal valid_name_text neutral_emits : sql.

Ltac neutral_text :=
  repeat first
    [ assumption
    | solve [ reflexivity ]
    | solve [ eauto 4 with sql nocore ]
    | apply neutral_app ].

(** Splits text at its concatenations: neutral text in front is passed over,
    neutral text behind is dropped. *)
Ltac emit_text :=
  repeat first
    [ assumption
    | apply emits_after; [solve [neutral_text]|]
    | apply emits_then; [|solve [neutral_text]|reflexivity] ].
