(* ===== verification/RestQuery.v ===== *)
(** * data/rest/filter.go: the query parameters of the REST interface

    Selection, embedded relations, filters, order and page, from the query
    string.  The query string, a map, is the list of its entries in the order
    the code ranges over them.  What parses is well formed ([query_wf]), and
    parsing always ends ([ParseQueryParams_returns]). *)

From S2P Require Import Prelude GoStrings GoRunes GoValues SqlText.
From Stdlib Require Import ZArith Lia Ascii String.
Local Open Scope string_scope.
Local Open Scope Z_scope.

Section rest.
Context `{UT : UnicodeTables} `{FL : Floats}.

(** ** Query parameters *)

Record FilterOp := MkFilterOp {
  fo_Column : string;
  fo_Op : string;
  fo_Value : string;
  fo_Extra : string;
  fo_Values : list string;
  fo_Negated : bool;
}.

Record OrderBy := MkOrderBy { ob_Column : string; ob_Desc : bool; ob_NullsLast : bool }.

Inductive EmbeddedField := MkEmbedded {
  em_Relation : string;
  em_Fields : list string;
  em_Children : list EmbeddedField;
}.

Record QueryParams := MkQueryParams {
  qp_Fields : list string;
  qp_Embedded : list EmbeddedField;
  qp_Filters : list FilterOp;
  qp_Orders : list OrderBy;
  qp_Limit : Z;
  qp_Offset : Z;
  qp_CountExact : bool;
  qp_OnConflict : string;
}.

Inductive QueryError :=
| InvalidRelation (relation : string)
| InvalidField (token : string)
| InvalidOrderColumn (column : string)
| InvalidLimit (value : string)
| InvalidOffset (value : string)
| InvalidOnConflict (value : string)
| InvalidColumn (column : string)
| MissingFilterPrefix (column : string)
| InvalidIs (column : string)
| InvalidIn (column : string)
| InvalidCs (column : string)
| InvalidFtsLanguage (lang : string)
| UnknownFilter (filterOp : string)
| SelectDiverges.

(** ** select *)

(** The range loop of [tokenizeSelect] over the runes. *)
Fixpoint tokenize_from (current : string) (depth : Z) (s : list rune) : list string :=
  match s with
  | [] => if String.eqb current "" then [] else [TrimSpace current]
  | c :: s' =>
      if c =? 40 then tokenize_from (current ++ encode_rune c) (depth + 1) s'
      else if c =? 41 then tokenize_from (current ++ encode_rune c) (depth - 1) s'
      else if c =? 44 then
        if depth =? 0 then
          if String.eqb current "" then tokenize_from current depth s'
          else TrimSpace current :: tokenize_from "" depth s'
        else tokenize_from (current ++ encode_rune c) depth s'
      else tokenize_from (current ++ encode_rune c) depth s'
  end.

Definition tokenizeSelect (selectExpression : string) : list string :=
  tokenize_from "" 0 (runes selectExpression).

(** [token[openParen+1 : len(token)-1]] when the token ends in a closing
    parenthesis. *)
Definition inner_of (token : string) : string * string :=
  match cut "("%char token with
  | (relation, Some rest) => (relation, TrimSuffix rest ")")
  | (relation, None) => (relation, "")
  end.

(** The loop over the tokens; [parse] reads the inside of a relation. *)
Fixpoint select_loop (parse : string → result QueryError (list string * list EmbeddedField))
    (tokens fields : list string) (embedded : list EmbeddedField)
    : result QueryError (list string * list EmbeddedField) :=
  match tokens with
  | [] => Ok (fields, embedded)
  | token :: tokens =>
      if Contains token "(" && HasSuffix token ")" then
        let '(relation, inner) := inner_of token in
        if negb (IsValidIdentifier relation) then Err (InvalidRelation relation) else
        match parse inner with
        | Err e => Err e
        | Ok (subFields, subEmbed) =>
            select_loop parse tokens fields (embedded ++ [MkEmbedded relation subFields subEmbed])%list
        end
      else if negb (String.eqb token "*") && negb (IsValidIdentifier token)
      then Err (InvalidField token)
      else select_loop parse tokens (fields ++ [token])%list embedded
  end.

(** [parseSelect]; [n] bounds the nesting. *)
Fixpoint parseSelect (n : nat) (raw : string) : result QueryError (list string * list EmbeddedField) :=
  match n with
  | O => Err SelectDiverges
  | S n =>
      let raw := TrimSpace raw in
      if String.eqb raw "" || String.eqb raw "*" then Ok (["*"], [])
      else select_loop (parseSelect n) (tokenizeSelect raw) [] []
  end.

(** ** order *)

Definition apply_modifier (acc : bool * bool) (modifier : string) : bool * bool :=
  let '(desc, nullsLast) := acc in
  let m := ToLower modifier in
  if String.eqb m "desc" then (true, nullsLast)
  else if String.eqb m "asc" then (false, nullsLast)
  else if String.eqb m "nullslast" then (desc, true)
  else (desc, nullsLast).

Fixpoint parse_order_parts (parts : list string) (orders : list OrderBy)
    : result QueryError (list OrderBy) :=
  match parts with
  | [] => Ok orders
  | part :: parts =>
      let part := TrimSpace part in
      if String.eqb part "" then parse_order_parts parts orders else
      match Split part "."%char with
      | [] => parse_order_parts parts orders
      | column :: modifiers =>
          if negb (IsValidIdentifier column) then Err (InvalidOrderColumn column) else
          let '(desc, nullsLast) := foldl apply_modifier (false, false) modifiers in
          parse_order_parts parts (orders ++ [MkOrderBy column desc nullsLast])%list
      end
  end.

Definition parseOrder (raw : string) : result QueryError (list OrderBy) :=
  parse_order_parts (Split raw ","%char) [].

(** ** filters *)

Definition scalar_ops : list string := ["eq"; "neq"; "gt"; "gte"; "lt"; "lte"; "like"; "ilike"].

Definition bracketed (value op cl : string) : option (list string) :=
  if negb (HasPrefix value op) || negb (HasSuffix value cl) then None
  else Some (TrimSpace <$> Split (TrimSuffix (TrimPrefix value op) cl) ","%char).

Definition parseFilter (column raw : string) : result QueryError FilterOp :=
  if negb (IsValidIdentifier column) then Err (InvalidColumn column) else
  let negated := HasPrefix raw "not." in
  let trimmed := if negated then TrimPrefix raw "not." else raw in
  match cut "."%char trimmed with
  | (_, None) => Err (MissingFilterPrefix column)
  | (filterOp, Some value) =>
      if bool_decide (filterOp ∈ scalar_ops) then
        let value := if String.eqb filterOp "ilike" || String.eqb filterOp "like"
                     then replace_byte value "*"%char "%"%char else value in
        Ok (MkFilterOp column filterOp value "" [] negated)
      else if String.eqb filterOp "is" then
        if negb (String.eqb value "null") && negb (String.eqb value "not.null")
        then Err (InvalidIs column)
        else Ok (MkFilterOp column "is" value "" [] negated)
      else if String.eqb filterOp "in" then
        match bracketed value "(" ")" with
        | None => Err (InvalidIn column)
        | Some parts => Ok (MkFilterOp column "in" "" "" parts negated)
        end
      else if String.eqb filterOp "cs" then
        match bracketed value "{" "}" with
        | None => Err (InvalidCs column)
        | Some parts => Ok (MkFilterOp column "cs" "" "" parts negated)
        end
      else if HasPrefix filterOp "fts(" && HasSuffix filterOp ")" then
        let lang := TrimSuffix (TrimPrefix filterOp "fts(") ")" in
        if negb (IsValidIdentifier lang) then Err (InvalidFtsLanguage lang)
        else Ok (MkFilterOp column "fts" value lang [] negated)
      else Err (UnknownFilter filterOp)
  end.

Fixpoint parse_filters (column : string) (raws : list string) (filters : list FilterOp)
    : result QueryError (list FilterOp) :=
  match raws with
  | [] => Ok filters
  | raw :: raws =>
      match parseFilter column raw with
      | Err e => Err e
      | Ok filterOp => parse_filters column raws (filters ++ [filterOp])%list
      end
  end.

(** ** The query string *)

Definition set_select (fields : list string) (embedded : list EmbeddedField) (q : QueryParams) : QueryParams :=
  MkQueryParams fields embedded (qp_Filters q) (qp_Orders q) (qp_Limit q) (qp_Offset q) (qp_CountExact q) (qp_OnConflict q).
Definition set_filters (filters : list FilterOp) (q : QueryParams) : QueryParams :=
  MkQueryParams (qp_Fields q) (qp_Embedded q) filters (qp_Orders q) (qp_Limit q) (qp_Offset q) (qp_CountExact q) (qp_OnConflict q).
Definition set_orders (orders : list OrderBy) (q : QueryParams) : QueryParams :=
  MkQueryParams (qp_Fields q) (qp_Embedded q) (qp_Filters q) orders (qp_Limit q) (qp_Offset q) (qp_CountExact q) (qp_OnConflict q).
Definition set_page (limit offset : Z) (q : QueryParams) : QueryParams :=
  MkQueryParams (qp_Fields q) (qp_Embedded q) (qp_Filters q) (qp_Orders q) limit offset (qp_CountExact q) (qp_OnConflict q).
Definition set_count (countExact : bool) (q : QueryParams) : QueryParams :=
  MkQueryParams (qp_Fields q) (qp_Embedded q) (qp_Filters q) (qp_Orders q) (qp_Limit q) (qp_Offset q) countExact (qp_OnConflict q).
Definition set_conflict (onConflict : string) (q : QueryParams) : QueryParams :=
  MkQueryParams (qp_Fields q) (qp_Embedded q) (qp_Filters q) (qp_Orders q) (qp_Limit q) (qp_Offset q) (qp_CountExact q) onConflict.

(** One round of the loop of [ParseQueryParams]. *)
Definition parse_param (maxLimit : Z) (q : QueryParams) (rawKey : string) (valueList : list string)
    : result QueryError QueryParams :=
  match valueList with
  | [] => Ok q
  | firstValue :: _ =>
      if String.eqb rawKey "select" then
        match parseSelect (S (String.length firstValue)) firstValue with
        | Err e => Err e
        | Ok (fields, embedded) => Ok (set_select fields embedded q)
        end
      else if String.eqb rawKey "order" then
        match parseOrder firstValue with
        | Err e => Err e
        | Ok orders => Ok (set_orders orders q)
        end
      else if String.eqb rawKey "limit" then
        match Atoi firstValue with
        | None => Err (InvalidLimit firstValue)
        | Some parsedLimit =>
            if parsedLimit <? 0 then Err (InvalidLimit firstValue)
            else Ok (set_page (if maxLimit <? parsedLimit then maxLimit else parsedLimit) (qp_Offset q) q)
        end
      else if String.eqb rawKey "offset" then
        match Atoi firstValue with
        | None => Err (InvalidOffset firstValue)
        | Some parsedOffset =>
            if parsedOffset <? 0 then Err (InvalidOffset firstValue)
            else Ok (set_page (qp_Limit q) parsedOffset q)
        end
      else if String.eqb rawKey "count" then
        Ok (if String.eqb firstValue "exact" then set_count true q else q)
      else if String.eqb rawKey "on_conflict" then
        if negb (IsValidIdentifier firstValue) then Err (InvalidOnConflict firstValue)
        else Ok (set_conflict firstValue q)
      else if bool_decide (rawKey ∈ ["cache_ttl"; "cache_key"; "cache_key_suffix"]) then Ok q
      else match parse_filters rawKey valueList (qp_Filters q) with
           | Err e => Err e
           | Ok filters => Ok (set_filters filters q)
           end
  end.

Fixpoint parse_params (maxLimit : Z) (q : QueryParams) (urlValues : list (string * list string))
    : result QueryError QueryParams :=
  match urlValues with
  | [] => Ok q
  | (rawKey, valueList) :: urlValues =>
      match parse_param maxLimit q rawKey valueList with
      | Err e => Err e
      | Ok q => parse_params maxLimit q urlValues
      end
  end.

Definition ParseQueryParams (urlValues : list (string * list string)) (defaultLimit maxLimit : Z)
    : result QueryError QueryParams :=
  parse_params maxLimit (MkQueryParams [] [] [] [] defaultLimit 0 false "") urlValues.
(** ** What a parsed query satisfies *)

Definition known_ops : list string := (scalar_ops ++ ["is"; "in"; "cs"; "fts"])%list.

Record filter_wf (f : FilterOp) : Prop := {
  fw_column : IsValidIdentifier (fo_Column f) = true;
  fw_op : fo_Op f ∈ known_ops;
  fw_extra : fo_Op f = "fts" → IsValidIdentifier (fo_Extra f) = true;
}.

Definition field_wf (f : string) : Prop := f = "*" ∨ IsValidIdentifier f = true.

Inductive embedded_wf : EmbeddedField → Prop :=
| embedded_wf_intro relation fields children :
    IsValidIdentifier relation = true → Forall field_wf fields → Forall embedded_wf children →
    embedded_wf (MkEmbedded relation fields children).

Record query_wf (maxLimit defaultLimit : Z) (q : QueryParams) : Prop := {
  qw_fields : Forall field_wf (qp_Fields q);
  qw_embedded : Forall embedded_wf (qp_Embedded q);
  qw_filters : Forall filter_wf (qp_Filters q);
  qw_orders : Forall (λ o, IsValidIdentifier (ob_Column o) = true) (qp_Orders q);
  qw_limit : qp_Limit q = defaultLimit ∨ 0 <= qp_Limit q <= maxLimit;
  qw_offset : 0 <= qp_Offset q <= int64_max;
  qw_conflict : qp_OnConflict q = "" ∨ IsValidIdentifier (qp_OnConflict q) = true;
}.

Lemma parseFilter_wf column raw f : parseFilter column raw = Ok f → filter_wf f ∧ fo_Column f = column.
Proof.
  unfold parseFilter. destruct (IsValidIdentifier column) eqn:Hc; cbn [negb]; [|done].
  destruct (cut "."%char _) as [op [value|]]; [|done].
  assert (Hk : ∀ o, o ∈ ["is"; "in"; "cs"; "fts"] → o ∈ known_ops) by (intros; apply elem_of_app; by right).
  case_bool_decide as Hop.
  { intros [= <-]. split; [|done]. constructor; [done|apply elem_of_app; by left|cbn].
    intros ->. exfalso. by apply (bool_decide_unpack ("fts" ∉ scalar_ops)). }
  repeat case_match; intros [= <-]; (split; [|done]); constructor; cbn; try done;
    try (apply Hk; set_solver); try (by intros [=]).
  intros _. by apply negb_false_iff.
Qed.

Lemma parse_filters_wf column raws filters filters' :
  Forall filter_wf filters → parse_filters column raws filters = Ok filters' → Forall filter_wf filters'.
Proof.
  revert filters. induction raws as [|raw raws IH]; intros filters Hf; simpl; [by intros [= <-]|].
  destruct (parseFilter column raw) as [f|e] eqn:E; [|done]. apply IH, Forall_app_2; [done|].
  constructor; [|done]. by apply parseFilter_wf in E as [].
Qed.

Lemma parse_order_wf parts orders orders' :
  Forall (λ o, IsValidIdentifier (ob_Column o) = true) orders →
  parse_order_parts parts orders = Ok orders' →
  Forall (λ o, IsValidIdentifier (ob_Column o) = true) orders'.
Proof.
  revert orders. induction parts as [|part parts IH]; intros orders Ho; simpl; [by intros [= <-]|].
  destruct (String.eqb _ ""); [by apply IH|]. destruct (Split _ _) as [|column modifiers]; [by apply IH|].
  destruct (IsValidIdentifier column) eqn:Hc; cbn [negb]; [|done].
  destruct (foldl apply_modifier (false, false) modifiers) as [desc nullsLast].
  apply IH, Forall_app_2; [done|]. by constructor.
Qed.

Lemma select_loop_wf parse tokens fields embedded fields' embedded' :
  (∀ inner f e, parse inner = Ok (f, e) → Forall field_wf f ∧ Forall embedded_wf e) →
  Forall field_wf fields → Forall embedded_wf embedded →
  select_loop parse tokens fields embedded = Ok (fields', embedded') →
  Forall field_wf fields' ∧ Forall embedded_wf embedded'.
Proof.
  intros Hp. revert fields embedded. induction tokens as [|token tokens IH]; intros fields embedded Hf He;
    cbn [select_loop]; [by intros [= <- <-]|].
  destruct (_ && _).
  - destruct (inner_of token) as [relation inner]. destruct (IsValidIdentifier relation) eqn:Hr; cbn [negb]; [|done].
    destruct (parse inner) as [[sub subEmbed]|e] eqn:E; [|done]. apply Hp in E as [? ?].
    apply IH; [done|]. apply Forall_app_2; [done|]. constructor; [|done]. by constructor.
  - destruct (String.eqb_spec token "*") as [->|]; cbn [negb andb].
    + apply IH; [|done]. apply Forall_app_2; [done|]. constructor; [by left|done].
    + destruct (IsValidIdentifier token) eqn:Hv; cbn [negb]; [|done].
      apply IH; [|done]. apply Forall_app_2; [done|]. constructor; [by right|done].
Qed.

Lemma parseSelect_wf n raw fields embedded : parseSelect n raw = Ok (fields, embedded) →
  Forall field_wf fields ∧ Forall embedded_wf embedded.
Proof.
  revert raw fields embedded. induction n as [|n IH]; intros raw fields embedded; [done|]. cbn [parseSelect].
  destruct (_ || _); [intros [= <- <-]; split; repeat constructor|].
  apply select_loop_wf; auto.
Qed.

Lemma parse_param_wf maxLimit defaultLimit q key values q' : 0 <= maxLimit →
  query_wf maxLimit defaultLimit q → parse_param maxLimit q key values = Ok q' → query_wf maxLimit defaultLimit q'.
Proof.
  intros Hmax []. unfold parse_param. destruct values as [|first values]; [by intros [= <-]|].
  repeat (destruct (String.eqb key _); [|]).
  - destruct (parseSelect _ first) as [[fields embedded]|e] eqn:E; [|done]. intros [= <-].
    apply parseSelect_wf in E as [? ?]. by constructor.
  - destruct (parseOrder first) as [orders|e] eqn:E; [|done]. intros [= <-].
    apply parse_order_wf in E; [|constructor]. by constructor.
  - destruct (Atoi first) as [l|]; [|done]. destruct (Z.ltb_spec l 0); [done|]. intros [= <-].
    constructor; try done. cbn. right. destruct (Z.ltb_spec maxLimit l); lia.
  - destruct (Atoi first) as [l|] eqn:E; [|done]. destruct (Z.ltb_spec l 0); [done|]. intros [= <-].
    apply Atoi_range in E. constructor; try done. cbn. lia.
  - destruct (String.eqb first "exact"); intros [= <-]; by constructor.
  - destruct (IsValidIdentifier first) eqn:E; cbn [negb]; [|done]. intros [= <-]. constructor; try done. by right.
  - case_bool_decide; [intros [= <-]; by constructor|].
    destruct (parse_filters key (first :: values) (qp_Filters q)) as [filters|e] eqn:E; [|done]. intros [= <-].
    apply parse_filters_wf in E; [|done]. by constructor.
Qed.

(** What the parser accepts is well formed: names are identifiers, operators
    are known, the page is within the configured bounds. *)
Lemma ParseQueryParams_wf urlValues defaultLimit maxLimit q : 0 <= maxLimit →
  ParseQueryParams urlValues defaultLimit maxLimit = Ok q → query_wf maxLimit defaultLimit q.
Proof.
  intros Hmax. unfold ParseQueryParams.
  assert (Hinit : query_wf maxLimit defaultLimit (MkQueryParams [] [] [] [] defaultLimit 0 false "")).
  { constructor; cbn; auto. unfold int64_max. lia. }
  revert Hinit. generalize (MkQueryParams [] [] [] [] defaultLimit 0 false "").
  induction urlValues as [|[key values] urlValues IH]; intros q0 Hq0; cbn [parse_params]; [by intros [= <-]|].
  destruct (parse_param maxLimit q0 key values) as [q1|e] eqn:E; [|done].
  apply IH. by eapply parse_param_wf.
Qed.
(** ** The nesting of select ends

    Each level takes an opening parenthesis away, so the length of the
    parameter bounds the levels. *)
Definition opens (s : string) : nat := List.length (filter (λ c, c = "("%char) (list_ascii_of_string s)).

Lemma opens_cons c s : opens (String c s) = ((if Ascii.eqb c "(" then 1 else 0) + opens s)%nat.
Proof.
  unfold opens. cbn [list_ascii_of_string]. rewrite filter_cons.
  destruct (Ascii.eqb_spec c "("); [rewrite decide_True by done|rewrite decide_False by done]; done.
Qed.

Lemma opens_app a b : opens (a ++ b) = (opens a + opens b)%nat.
Proof. induction a as [|c a IH]; [done|]. rewrite append_cons, !opens_cons, IH. lia. Qed.

Lemma opens_length s : (opens s <= String.length s)%nat.
Proof. induction s as [|c s IH]; [done|]. rewrite opens_cons. simpl. destruct (Ascii.eqb c "("); lia. Qed.

Lemma opens_trim_left k s : (opens (trim_left_from k s) <= opens s)%nat.
Proof.
  revert k. induction s as [|c s IH]; intros k; [done|]. cbn [trim_left_from].
  destruct k as [|k]; [destruct (space_width _) as [|k]; [done|]|]; specialize (IH k); rewrite (opens_cons c s); lia.
Qed.

Lemma opens_trim_right s : (opens (trim_right s) <= opens s)%nat.
Proof.
  induction s as [|c s IH]; [done|]. cbn [trim_right]. destruct (all_space _); rewrite !opens_cons; [cbn; lia|lia].
Qed.

Lemma opens_TrimSpace s : (opens (TrimSpace s) <= opens s)%nat.
Proof. unfold TrimSpace, trim_left. etrans; [apply opens_trim_right|apply opens_trim_left]. Qed.

Definition opens_runes (l : list rune) : nat := List.length (filter (λ r, r = 40) l).

Lemma opens_runes_cons r l : opens_runes (r :: l) = ((if (r =? 40)%Z then 1 else 0) + opens_runes l)%nat.
Proof.
  unfold opens_runes. rewrite filter_cons.
  destruct (Z.eqb_spec r 40); [rewrite decide_True by done|rewrite decide_False by done]; done.
Qed.

Lemma opens_high c s : 128 <= byte_val c → opens (String c s) = opens s.
Proof.
  intros Hc. rewrite opens_cons. destruct (Ascii.eqb_spec c "(") as [->|]; [|done].
  change (byte_val "(") with 40 in Hc. lia.
Qed.

Lemma opens_byte_of z s : 128 <= z < 256 → opens (String (byte_of z) s) = opens s.
Proof. intros Hz. apply opens_high. rewrite byte_val_of; lia. Qed.

Lemma opens_encode_rune r : opens (encode_rune r) = if r =? 40 then 1%nat else 0%nat.
Proof.
  unfold encode_rune. destruct (is_scalar r) eqn:Hs.
  - apply is_scalar_spec in Hs. unfold encode_scalar.
    repeat match goal with |- context [?a <? ?b] => destruct (Z.ltb_spec a b) end.
    + rewrite opens_cons. destruct (Z.eqb_spec r 40) as [->|Hne]; [done|].
      destruct (Ascii.eqb_spec (byte_of r) "(") as [E|]; [|done].
      apply (f_equal byte_val) in E. rewrite byte_val_of in E by lia. by change (byte_val "(") with 40 in E.
    + rewrite !opens_byte_of by euclid. destruct (Z.eqb_spec r 40); [lia|done].
    + rewrite !opens_byte_of by euclid. destruct (Z.eqb_spec r 40); [lia|done].
    + rewrite !opens_byte_of by euclid. destruct (Z.eqb_spec r 40); [lia|done].
  - destruct (Z.eqb_spec r 40) as [->|]; done.
Qed.

Lemma opens_runes_from k s : high_prefix k s → opens_runes (runes_from k s) = opens s.
Proof.
  revert k. induction s as [|c s IH]; intros k; [done|]. cbn [runes_from]. destruct k as [|k].
  - intros _. destruct (decode_rune c s) as [r k] eqn:E. apply decode_high in E as (Hk & Hlow & Hhigh).
    rewrite opens_runes_cons, IH, opens_cons by done. f_equal.
    destruct (Z.ltb_spec (byte_val c) 128) as [Hc|Hc].
    + rewrite (Hlow Hc). destruct (Z.eqb_spec (byte_val c) 40) as [E|E], (Ascii.eqb_spec c "(") as [E'|E']; try done.
      * exfalso. apply E'. by apply byte_val_inj.
      * subst. done.
    + specialize (Hhigh Hc). destruct (Z.eqb_spec r 40); [lia|]. destruct (Ascii.eqb_spec c "(") as [->|]; [|done].
      change (byte_val "(") with 40 in Hc. lia.
  - intros [Hc Hk]. rewrite opens_high by done. by apply IH.
Qed.

Lemma tokenize_opens current depth l token : token ∈ tokenize_from current depth l →
  (opens token <= opens current + opens_runes l)%nat.
Proof.
  revert current depth. induction l as [|c l IH]; intros current depth; cbn [tokenize_from].
  - destruct (String.eqb current ""); [by intros ?%elem_of_nil|].
    rewrite list_elem_of_singleton. intros ->. pose proof (opens_TrimSpace current). lia.
  - rewrite opens_runes_cons.
    assert (Happ : ∀ d, token ∈ tokenize_from (current ++ encode_rune c) d l →
      (opens token <= opens current + ((if (c =? 40)%Z then 1 else 0) + opens_runes l))%nat).
    { intros d Ht%IH. rewrite opens_app, opens_encode_rune in Ht. lia. }
    destruct (c =? 40)%Z eqn:E1; [by apply Happ|]. destruct (c =? 41)%Z; [by apply Happ|].
    destruct (c =? 44)%Z; [|by apply Happ]. destruct (depth =? 0)%Z; [|by apply Happ].
    destruct (String.eqb current ""); [intros Ht%IH; lia|].
    intros [->|Ht%IH]%elem_of_cons; [pose proof (opens_TrimSpace current); lia|]. change (opens "") with 0%nat in Ht. lia.
Qed.

Lemma opens_cut s a b : cut "("%char s = (a, Some b) → opens s = S (opens b).
Proof.
  revert a. induction s as [|c s IH]; intros a; cbn [cut]; [done|]. rewrite opens_cons.
  destruct (Ascii.eqb c "("); [by intros [= _ ->]|]. destruct (cut "("%char s) as [a' [b'|]]; [|done].
  intros [= _ <-]. by rewrite (IH a').
Qed.

Lemma opens_strip_suffix p s t : strip_suffix p s = Some t → (opens t <= opens s)%nat.
Proof.
  revert t. induction s as [|c s IH]; intros t; cbn [strip_suffix].
  - case_match; [intros [= <-]; cbn; lia|done].
  - case_match; [intros [= <-]; cbn; lia|]. destruct (strip_suffix p s) as [t'|]; [|done]. intros [= <-].
    rewrite !opens_cons. specialize (IH t' eq_refl). lia.
Qed.

Lemma Contains_cut s : Contains s "(" = true → ∃ a b, cut "("%char s = (a, Some b).
Proof.
  induction s as [|c s IH]; [done|]. cbn [Contains cut]. rewrite orb_true_iff.
  destruct (Ascii.eqb_spec c "("); [eauto|]. intros [H|H].
  - exfalso. unfold HasPrefix in H. cbn [strip_prefix] in H.
    destruct (Ascii.eqb_spec "("%char c); congruence.
  - destruct (IH H) as (a & b & ->). eauto.
Qed.

Lemma inner_of_opens token relation inner : Contains token "(" = true → inner_of token = (relation, inner) →
  (opens inner < opens token)%nat.
Proof.
  intros Hc. unfold inner_of. destruct (Contains_cut token Hc) as (a & b & E). rewrite E.
  rewrite (opens_cut _ _ _ E). intros [= _ <-]. unfold TrimSuffix.
  destruct (strip_suffix ")" b) as [t|] eqn:Es; [|change (default b None) with b; lia].
  change (default b (Some t)) with t. apply opens_strip_suffix in Es. lia.
Qed.

Lemma select_loop_returns parse tokens fields embedded :
  (∀ token relation inner, token ∈ tokens → Contains token "(" = true → inner_of token = (relation, inner) →
    parse inner ≠ Err SelectDiverges) →
  select_loop parse tokens fields embedded ≠ Err SelectDiverges.
Proof.
  revert fields embedded. induction tokens as [|token tokens IH]; intros fields embedded Hp; cbn [select_loop]; [done|].
  assert (Hp' : ∀ t relation inner, t ∈ tokens → Contains t "(" = true → inner_of t = (relation, inner) →
    parse inner ≠ Err SelectDiverges) by (intros t ? ? ?; eapply Hp; by right).
  destruct (Contains token "(" && HasSuffix token ")") eqn:Hc;
    [|destruct (negb _ && negb _); [done|by apply IH]].
  apply andb_true_iff in Hc as [Hc _].
  destruct (inner_of token) as [relation inner] eqn:Ei. destruct (negb (IsValidIdentifier relation)); [done|].
  assert (Hin : parse inner ≠ Err SelectDiverges) by (eapply Hp; [by left|done|done]).
  destruct (parse inner) as [[sub subEmbed]|e]; [by apply IH|congruence].
Qed.

Lemma parseSelect_returns n raw : (opens raw < n)%nat → parseSelect n raw ≠ Err SelectDiverges.
Proof.
  revert raw. induction n as [|n IH]; intros raw Hn; [lia|]. cbn [parseSelect].
  destruct (_ || _); [done|]. apply select_loop_returns. intros token relation inner Hin Hc Ei.
  apply IH. apply inner_of_opens in Ei; [|done]. apply tokenize_opens in Hin. unfold runes in Hin.
  rewrite opens_runes_from in Hin by done. pose proof (opens_TrimSpace raw).
  change (opens "") with 0%nat in Hin. lia.
Qed.

Lemma parseOrder_returns parts orders : parse_order_parts parts orders ≠ Err SelectDiverges.
Proof.
  revert orders. induction parts as [|part parts IH]; intros orders; cbn [parse_order_parts]; [done|].
  destruct (String.eqb _ ""); [apply IH|]. destruct (Split _ _) as [|column modifiers]; [apply IH|].
  destruct (negb _); [done|]. destruct (foldl _ _ _). apply IH.
Qed.

Lemma parse_filters_return column raws filters : parse_filters column raws filters ≠ Err SelectDiverges.
Proof.
  revert filters. induction raws as [|raw raws IH]; intros filters; cbn [parse_filters]; [done|].
  destruct (parseFilter column raw) as [f|e] eqn:E; [apply IH|]. intros [= ->]. revert E.
  unfold parseFilter. repeat case_match; done.
Qed.

Lemma ParseQueryParams_returns urlValues defaultLimit maxLimit :
  ParseQueryParams urlValues defaultLimit maxLimit ≠ Err SelectDiverges.
Proof.
  unfold ParseQueryParams. generalize (MkQueryParams [] [] [] [] defaultLimit 0 false "").
  induction urlValues as [|[key values] urlValues IH]; intros q; cbn [parse_params]; [done|].
  destruct (parse_param maxLimit q key values) as [q'|e] eqn:E; [apply IH|]. intros [= ->].
  revert E. unfold parse_param. destruct values as [|first values]; [done|].
  destruct (String.eqb key "select").
  { pose proof (parseSelect_returns (S (String.length first)) first) as Hs. pose proof (opens_length first).
    destruct (parseSelect _ first) as [[a b]|e]; [done|]. intros [= ->]. by apply Hs; [lia|]. }
  destruct (String.eqb key "order").
  { pose proof (parseOrder_returns (Split first ","%char) []) as Ho. unfold parseOrder.
    destruct (parse_order_parts _ _); [done|]. congruence. }
  pose proof (parse_filters_return key (first :: values) (qp_Filters q)) as Hf.
  destruct (parse_filters key (first :: values) (qp_Filters q)); repeat case_match; congruence.
Qed.
End rest.
