(* ===== verification/RestBuilder.v ===== *)
(** * data/rest/builder.go: the SQL statements of the REST interface

    Each statement is the text [fmt.Sprintf] produces and the list of its
    arguments.  The theorems say that, whatever the request, the text is well
    quoted and its placeholders are [$1 ... $n] for [n] arguments: what the
    caller sends can only be a quoted name that passed [IsValidIdentifier], a
    number, or an argument. *)

From S2P Require Import Prelude GoStrings GoRunes GoValues SqlText RestQuery.
From Stdlib Require Import ZArith Lia Ascii String.
Local Open Scope string_scope.
Local Open Scope Z_scope.

Section builder.
Context `{UT : UnicodeTables} `{FL : Floats}.

Record SQLStatement := MkSQLStatement { st_SQL : string; st_Args : list any }.

Record RelationForeignKey := MkRelationForeignKey {
  rfk_FromColumn : string; rfk_ToTable : string; rfk_ToColumn : string }.

Record TableMetadata := MkTableMetadata {
  tm_PrimaryKey : string;
  tm_ForeignKeys : list (string * RelationForeignKey);
  tm_Columns : list string;
}.

Record QueryBuilder := MkQueryBuilder { qb_schema : string; qb_table : string }.

Definition NewQueryBuilder (schema table : string) : QueryBuilder :=
  MkQueryBuilder (if String.eqb schema "" then "public" else schema) table.

Inductive BuildError :=
| InvalidFilterColumn (column : string)
| UnsupportedFilter (op : string)
| NoRecords | NoColumns | NoValues
| InvalidInsertColumn (column : string)
| InvalidUpdateColumn (column : string).

Section methods.
Context (queryBuilder : QueryBuilder).
Local Notation schema := (qb_schema queryBuilder).
Local Notation table := (qb_table queryBuilder).

(** ["%s"."%s"] of the table and a column. *)
Definition column_ref (column : string) : string := dq table ++ "." ++ dq column.

(** ** WHERE *)

(** A clause with one placeholder: the operator, negated or not. *)
Definition compare_clause (column : string) (negated : bool) (op negatedOp : string) (argIndex : Z) : string :=
  column_ref column ++ (if negated then negatedOp else op) ++ hole argIndex.

(** The placeholders of an [IN] list. *)
Fixpoint in_holes (values : list string) (argIndex : Z) : list string :=
  match values with
  | [] => []
  | _ :: values => hole argIndex :: in_holes values (argIndex + 1)
  end.

(** One round of [buildWhere]: the clause, its arguments, the next index. *)
Definition filter_clause (filterOp : FilterOp) (argIndex : Z)
    : result BuildError (string * list any * Z) :=
  let column := fo_Column filterOp in
  let negated := fo_Negated filterOp in
  let op := fo_Op filterOp in
  let one clause := Ok (clause, [AString (fo_Value filterOp)], argIndex + 1) in
  if negb (IsValidIdentifier column) then Err (InvalidFilterColumn column)
  else if String.eqb op "eq" then one (compare_clause column negated " = " " != " argIndex)
  else if String.eqb op "neq" then one (compare_clause column negated " != " " = " argIndex)
  else if String.eqb op "gt" then one (compare_clause column negated " > " " <= " argIndex)
  else if String.eqb op "gte" then one (compare_clause column negated " >= " " < " argIndex)
  else if String.eqb op "lt" then one (compare_clause column negated " < " " >= " argIndex)
  else if String.eqb op "lte" then one (compare_clause column negated " <= " " > " argIndex)
  else if String.eqb op "like" then one (compare_clause column negated " LIKE " " NOT LIKE " argIndex)
  else if String.eqb op "ilike" then one (compare_clause column negated " ILIKE " " NOT ILIKE " argIndex)
  else if String.eqb op "is" then
    let isNull := (String.eqb (fo_Value filterOp) "null" && negb negated)
                  || (String.eqb (fo_Value filterOp) "not.null" && negated) in
    Ok (column_ref column ++ (if isNull then " IS NULL" else " IS NOT NULL"), [], argIndex)
  else if String.eqb op "in" then
    Ok (column_ref column ++ " " ++ (if negated then "NOT IN" else "IN") ++ " ("
          ++ Join (in_holes (fo_Values filterOp) argIndex) ", " ++ ")",
        AString <$> fo_Values filterOp, argIndex + Z.of_nat (List.length (fo_Values filterOp)))
  else if String.eqb op "cs" then
    let clause := column_ref column ++ " @> " ++ hole argIndex in
    Ok (if negated then "NOT (" ++ clause ++ ")" else clause,
        [AList (AString <$> fo_Values filterOp)], argIndex + 1)
  else if String.eqb op "fts" then
    let clause := "to_tsvector(" ++ sq (fo_Extra filterOp) ++ ", " ++ column_ref column
                  ++ ") @@ websearch_to_tsquery(" ++ sq (fo_Extra filterOp) ++ ", " ++ hole argIndex ++ ")" in
    one (if negated then "NOT (" ++ clause ++ ")" else clause)
  else Err (UnsupportedFilter op).

Fixpoint where_loop (filters : list FilterOp) (clauses : list string) (args : list any) (argIndex : Z)
    : result BuildError (string * list any) :=
  match filters with
  | [] => Ok (Join clauses " AND ", args)
  | filterOp :: filters =>
      match filter_clause filterOp argIndex with
      | Err e => Err e
      | Ok (clause, newArgs, argIndex) =>
          where_loop filters (clauses ++ [clause])%list (args ++ newArgs)%list argIndex
      end
  end.

Definition buildWhere (filters : list FilterOp) (startIndex : Z) : result BuildError (string * list any) :=
  match filters with
  | [] => Ok ("", [])
  | _ => where_loop filters [] [] startIndex
  end.

Definition with_where (query whereClause : string) : string :=
  if String.eqb whereClause "" then query else query ++ " WHERE " ++ whereClause.

(** ** SELECT *)

Definition select_column (fieldName : string) : string :=
  if String.eqb fieldName "*" then dq table ++ ".*" else column_ref fieldName.

Definition all_columns (fields : list string) : bool :=
  match fields with
  | [] => true
  | [f] => String.eqb f "*"
  | _ => false
  end.

Definition json_pair (fieldName : string) : string := sq fieldName ++ ", r." ++ dq fieldName.

(** The JSON expression of an embedded relation. *)
Definition json_agg_expression (fields : list string) : string :=
  if negb (all_columns fields) then
    match json_pair <$> filter (λ f, IsValidIdentifier f = true) fields with
    | [] => "to_json(r)"
    | pairs => "json_build_object(" ++ Join pairs ", " ++ ")"
    end
  else "to_json(r)".

(** The correlated subquery: the related table, its column, and the column of
    this table it refers to. *)
Definition embedded_sql (expression relatedTable relatedColumn ownColumn relation : string) : string :=
  "(
				SELECT COALESCE(json_agg(" ++ expression ++ "), '[]'::json)
				FROM " ++ dq schema ++ "." ++ dq relatedTable ++ " r
				WHERE r." ++ dq relatedColumn ++ " = " ++ column_ref ownColumn ++ "
			) AS " ++ dq relation.

Definition embedded_column (tableMetadata : TableMetadata) (embedded : EmbeddedField) : string :=
  let primaryKey := if String.eqb (tm_PrimaryKey tableMetadata) "" then "id"
                    else tm_PrimaryKey tableMetadata in
  let expression := json_agg_expression (em_Fields embedded) in
  match map_get (tm_ForeignKeys tableMetadata) (em_Relation embedded) with
  | None => embedded_sql expression (em_Relation embedded) (TrimSuffix table "s" ++ "_id")
              primaryKey (em_Relation embedded)
  | Some fk => embedded_sql expression (rfk_ToTable fk) (rfk_ToColumn fk)
                 (rfk_FromColumn fk) (em_Relation embedded)
  end.

Definition order_part (orderOp : OrderBy) : string :=
  column_ref (ob_Column orderOp) ++ " " ++ (if ob_Desc orderOp then "DESC" else "ASC")
  ++ (if ob_NullsLast orderOp then " NULLS LAST" else "").

Definition BuildSelect (queryParams : QueryParams) (tableMetadata : TableMetadata)
    : result BuildError SQLStatement :=
  let selectColumns :=
    ((if all_columns (qp_Fields queryParams) then [(dq table ++ ".*")%string]
      else select_column <$> qp_Fields queryParams)
     ++ (embedded_column tableMetadata <$> qp_Embedded queryParams))%list in
  match buildWhere (qp_Filters queryParams) 1 with
  | Err e => Err e
  | Ok (whereClause, whereArgs) =>
      let query := "SELECT " ++ Join selectColumns ", " ++ " FROM " ++ dq schema ++ "." ++ dq table in
      let query := with_where query whereClause in
      let query := match qp_Orders queryParams with
                   | [] => query
                   | orders => query ++ " ORDER BY " ++ Join (order_part <$> orders) ", "
                   end in
      let query := if 0 <? qp_Limit queryParams then query ++ " LIMIT " ++ decimal (qp_Limit queryParams)
                   else query in
      let query := if 0 <? qp_Offset queryParams then query ++ " OFFSET " ++ decimal (qp_Offset queryParams)
                   else query in
      Ok (MkSQLStatement query whereArgs)
  end.

Definition BuildCount (queryParams : QueryParams) : result BuildError SQLStatement :=
  match buildWhere (qp_Filters queryParams) 1 with
  | Err e => Err e
  | Ok (whereClause, whereArgs) =>
      Ok (MkSQLStatement (with_where ("SELECT COUNT(*) FROM " ++ dq schema ++ "." ++ dq table) whereClause) whereArgs)
  end.

(** ** INSERT *)

(** The columns of the records, each once, in the order they are met. *)
Fixpoint collect_columns (names : list string) (columns : list string) : result BuildError (list string) :=
  match names with
  | [] => Ok columns
  | columnName :: names =>
      if negb (IsValidIdentifier columnName) then Err (InvalidInsertColumn columnName)
      else collect_columns names (if bool_decide (columnName ∈ columns) then columns
                                  else columns ++ [columnName])%list
  end.

Fixpoint row_placeholders (record : list (string * any)) (columns : list string)
    (holes : list string) (args : list any) (argIndex : Z) : list string * list any * Z :=
  match columns with
  | [] => (holes, args, argIndex)
  | column :: columns =>
      match map_get record column with
      | Some value => row_placeholders record columns (holes ++ [hole argIndex])%list
                        (args ++ [value])%list (argIndex + 1)
      | None => row_placeholders record columns (holes ++ ["DEFAULT"])%list args argIndex
      end
  end.

Fixpoint insert_rows (records : list (list (string * any))) (columns : list string)
    (valueRows : list string) (args : list any) (argIndex : Z) : list string * list any :=
  match records with
  | [] => (valueRows, args)
  | record :: records =>
      let '(rowPlaceholders, args, argIndex) := row_placeholders record columns [] args argIndex in
      insert_rows records columns (valueRows ++ [("(" ++ Join rowPlaceholders ", " ++ ")")%string])%list args argIndex
  end.

Definition update_part (column : string) : string := dq column ++ " = EXCLUDED." ++ dq column.

Definition conflict_clause (columns : list string) (onConflict : string) : string :=
  if String.eqb onConflict "" then "" else
  match update_part <$> filter (λ column, column ≠ onConflict) columns with
  | [] => " ON CONFLICT (" ++ dq onConflict ++ ") DO NOTHING"
  | updateParts => " ON CONFLICT (" ++ dq onConflict ++ ") DO UPDATE SET " ++ Join updateParts ", "
  end.

Definition BuildInsert (records : list (list (string * any))) (onConflict : string)
    : result BuildError SQLStatement :=
  match records with
  | [] => Err NoRecords
  | _ =>
      match collect_columns (records ≫= keys) [] with
      | Err e => Err e
      | Ok [] => Err NoColumns
      | Ok columns =>
          let '(valueRows, args) := insert_rows records columns [] [] 1 in
          Ok (MkSQLStatement
            ("INSERT INTO " ++ dq schema ++ "." ++ dq table ++ " (" ++ Join (dq <$> columns) ", "
               ++ ") VALUES " ++ Join valueRows ", " ++ conflict_clause columns onConflict ++ " RETURNING *")
            args)
      end
  end.

(** ** UPDATE and DELETE *)

Fixpoint set_loop (values : list (string * any)) (setParts : list string) (args : list any) (argIndex : Z)
    : result BuildError (list string * list any * Z) :=
  match values with
  | [] => Ok (setParts, args, argIndex)
  | (columnName, columnValue) :: values =>
      if negb (IsValidIdentifier columnName) then Err (InvalidUpdateColumn columnName)
      else set_loop values (setParts ++ [(dq columnName ++ " = " ++ hole argIndex)%string])%list
             (args ++ [columnValue])%list (argIndex + 1)
  end.

Definition BuildUpdate (values : list (string * any)) (filters : list FilterOp) : result BuildError SQLStatement :=
  match values with
  | [] => Err NoValues
  | _ =>
      match set_loop values [] [] 1 with
      | Err e => Err e
      | Ok (setParts, args, argIndex) =>
          match buildWhere filters argIndex with
          | Err e => Err e
          | Ok (whereClause, whereArgs) =>
              Ok (MkSQLStatement
                (with_where ("UPDATE " ++ dq schema ++ "." ++ dq table ++ " SET " ++ Join setParts ", ") whereClause
                   ++ " RETURNING *") (args ++ whereArgs)%list)
          end
      end
  end.

Definition BuildDelete (filters : list FilterOp) : result BuildError SQLStatement :=
  match buildWhere filters 1 with
  | Err e => Err e
  | Ok (whereClause, whereArgs) =>
      Ok (MkSQLStatement
        (with_where ("DELETE FROM " ++ dq schema ++ "." ++ dq table) whereClause ++ " RETURNING *") whereArgs)
  end.

(** ** Proofs *)

Context (Hschema : name_text schema = true) (Htable : name_text table = true).

Lemma neutral_column_ref column : IsValidIdentifier column = true → neutral (column_ref column).
Proof. intros. unfold column_ref. neutral_text. Qed.

Lemma neutral_column_name column : name_text column = true → neutral (column_ref column).
Proof. intros. unfold column_ref. neutral_text. Qed.

Hint Resolve neutral_column_ref neutral_column_name : sql.

Lemma compare_clause_emits column negated op negatedOp i :
  IsValidIdentifier column = true → neutral op → neutral negatedOp → 0 <= i →
  emits (compare_clause column negated op negatedOp i) (seq_holes i (i + 1)).
Proof.
  intros. unfold compare_clause. emit_text. apply emits_after; [by destruct negated|]. by apply emits_next_hole.
Qed.

Lemma in_holes_pieces values i : 0 <= i →
  pieces (in_holes values i) (seq_holes i (i + Z.of_nat (List.length values))).
Proof.
  revert i. induction values as [|v values IH]; intros i Hi; cbn [in_holes List.length].
  - rewrite Z.add_0_r, seq_holes_nil. constructor.
  - rewrite <- (seq_holes_app i (i + 1)) by lia. constructor; [by apply emits_next_hole|].
    replace (i + Z.of_nat (S (List.length values))) with (i + 1 + Z.of_nat (List.length values)) by lia.
    apply IH. lia.
Qed.

Lemma column_ref_text column s : column_ref column ++ s ≠ "".
Proof. discriminate. Qed.

Lemma compare_clause_text column negated op negatedOp i : compare_clause column negated op negatedOp i ≠ "".
Proof. apply column_ref_text. Qed.

(** Every well-formed filter has a clause. *)
Lemma filter_clause_ok f i : filter_wf f → 0 <= i →
  ∃ clause args j, filter_clause f i = Ok (clause, args, j) ∧ clause_ok i clause args j ∧ clause ≠ "".
Proof.
  intros [Hc Hop Hextra] Hi. unfold filter_clause. rewrite Hc. cbn [negb].
  assert (Hone : ∀ clause : string, emits clause (seq_holes i (i + 1)) → clause ≠ "" →
    ∃ c (args : list any) j, (Ok (clause, [AString (fo_Value f)], i + 1) : result BuildError _) = Ok (c, args, j)
      ∧ clause_ok i c args j ∧ c ≠ "").
  { intros clause Hcl Hne. eexists _, _, _. split_and!; [done| |done]. by split. }
  do 8 (match goal with
        | |- context [if String.eqb (fo_Op f) ?x then _ else _] =>
            let E := fresh "E" in destruct (String.eqb (fo_Op f) x) eqn:E
        end;
    [apply Hone; [apply compare_clause_emits; [done|reflexivity|reflexivity|done]|apply compare_clause_text]|]).
  destruct (String.eqb (fo_Op f) "is") eqn:?; [|destruct (String.eqb (fo_Op f) "in") eqn:?;
    [|destruct (String.eqb (fo_Op f) "cs") eqn:?; [|destruct (String.eqb (fo_Op f) "fts") eqn:?]]].
  - eexists _, _, _. split_and!; [done| |apply column_ref_text]. split; [cbn; lia|]. rewrite seq_holes_nil.
    apply neutral_emits. apply neutral_app; [auto with sql|]. by destruct (_ || _).
  - eexists _, _, _. split_and!; [done| |apply column_ref_text]. split; [by rewrite length_fmap|].
    apply emits_after; [auto with sql|]. apply emits_after; [done|].
    apply emits_after; [by destruct (fo_Negated f)|]. apply emits_after; [done|].
    apply emits_then; [|done|done]. apply emits_Join; [done..|]. by apply in_holes_pieces.
  - eexists _, _, _. split_and!; [done| |destruct (fo_Negated f); [discriminate|apply column_ref_text]]. split; [done|].
    assert (Hcl : emits (column_ref (fo_Column f) ++ " @> " ++ hole i) (seq_holes i (i + 1))).
    { emit_text. by apply emits_next_hole. }
    destruct (fo_Negated f); [|done]. apply emits_after; [done|]. by apply emits_then.
  - match goal with H : String.eqb (fo_Op f) "fts" = true |- _ => apply String.eqb_eq in H; specialize (Hextra H) end.
    assert (Hcl : emits ("to_tsvector(" ++ sq (fo_Extra f) ++ ", " ++ column_ref (fo_Column f)
                  ++ ") @@ websearch_to_tsquery(" ++ sq (fo_Extra f) ++ ", " ++ hole i ++ ")") (seq_holes i (i + 1))).
    { emit_text. by apply emits_next_hole. }
    apply Hone; destruct (fo_Negated f); try discriminate; [|done].
    apply emits_after; [done|]. by apply emits_then.
  - exfalso. unfold known_ops, scalar_ops in Hop. cbn [app] in Hop. rewrite !elem_of_cons, elem_of_nil in Hop.
    repeat match goal with H : String.eqb _ _ = false |- _ => apply String.eqb_neq in H end. naive_solver.
Qed.

Lemma where_loop_ok filters clauses (args : list any) s i :
  Forall filter_wf filters → 0 <= s <= i → pieces clauses (seq_holes s i) →
  clauses ≠ [] ∨ filters ≠ [] → Forall (λ c, c ≠ "") clauses →
  ∃ whereClause newArgs, where_loop filters clauses args i = Ok (whereClause, args ++ newArgs)%list
  ∧ emits whereClause (seq_holes s (i + Z.of_nat (List.length newArgs))) ∧ whereClause ≠ "".
Proof.
  intros Hf. revert clauses args i. induction Hf as [|f filters Hf Hfs IH]; intros clauses args i Hi Hp Hne Hcl; cbn [where_loop].
  - exists (Join clauses " AND "), []. rewrite app_nil_r. split_and!; [done| |].
    + rewrite Z.add_0_r. by apply emits_Join.
    + destruct Hne as [Hne|]; [|done]. destruct Hcl as [|c clauses Hc _]; [done|].
      destruct clauses; [done|]. by destruct c.
  - destruct (filter_clause_ok f i Hf) as (clause & newArgs & j & -> & [Hj He] & Hnec); [lia|].
    destruct (IH (clauses ++ [clause])%list (args ++ newArgs)%list j) as (w & more & Hw & Hemit & Hwne).
    + lia.
    + rewrite <- (seq_holes_app s i) by lia. by apply pieces_snoc.
    + left. by destruct clauses.
    + apply Forall_app_2; [done|]. by constructor.
    + exists w, (newArgs ++ more)%list. rewrite Hw, app_assoc. split_and!; [done| |done].
      rewrite length_app, Nat2Z.inj_add, Z.add_assoc, <- Hj. done.
Qed.

Lemma buildWhere_ok filters i : Forall filter_wf filters → 0 <= i →
  ∃ whereClause args, buildWhere filters i = Ok (whereClause, args)
  ∧ emits whereClause (seq_holes i (i + Z.of_nat (List.length args)))
  ∧ (whereClause = "" → args = []).
Proof.
  intros Hf Hi. unfold buildWhere. destruct filters as [|f filters].
  - exists "", []. rewrite Z.add_0_r, seq_holes_nil. done.
  - destruct (where_loop_ok (f :: filters) [] [] i i) as (w & args & Hw & He & Hne); auto; [lia|rewrite seq_holes_nil; constructor|].
    exists w, args. by rewrite Hw.
Qed.

(** [query WHERE clause] after a text with its own placeholders. *)
Lemma with_where_emits query w i j k : i <= j <= k →
  emits query (seq_holes i j) → emits w (seq_holes j k) → (w = "" → j = k) →
  emits (with_where query w) (seq_holes i k).
Proof.
  intros Hijk Hq Hw He. unfold with_where. destruct (String.eqb_spec w "") as [->|].
  - by rewrite <- He.
  - rewrite <- (seq_holes_app i j) by lia. apply emits_app; [done| |done]. by apply emits_after.
Qed.

(** ** The statements *)

(** Text with the placeholders [$1 ... $n] for its [n] arguments. *)
Definition parameterised (st : SQLStatement) : Prop :=
  placeholders (st_SQL st) = Some (seqZ 1 (Z.of_nat (List.length (st_Args st)))).

Lemma parameterised_intro sql (args : list any) :
  emits sql (seq_holes 1 (1 + Z.of_nat (List.length args))) → parameterised (MkSQLStatement sql args).
Proof.
  unfold parameterised, emits, seq_holes. cbn [st_SQL st_Args]. intros ->.
  by replace (1 + Z.of_nat (List.length args) - 1) with (Z.of_nat (List.length args)) by lia.
Qed.

(** Names the metadata brings in: they come from the catalogue. *)
Record metadata_ok (tm : TableMetadata) : Prop := {
  mo_pk : name_text (tm_PrimaryKey tm) = true;
  mo_fks : Forall (λ kv, name_text (rfk_FromColumn kv.2) = true ∧ name_text (rfk_ToTable kv.2) = true
                         ∧ name_text (rfk_ToColumn kv.2) = true) (tm_ForeignKeys tm);
  mo_columns : Forall (λ c, name_text c = true) (tm_Columns tm);
}.

Lemma strip_suffix_text P p s t : all_chars P s = true → strip_suffix p s = Some t → all_chars P t = true.
Proof.
  revert t. induction s as [|c s IH]; intros t; cbn [strip_suffix all_chars].
  - case_match; [by intros _ [= <-]|done].
  - intros [Hc Hs]%andb_true_iff. case_match; [by intros [= <-]|].
    destruct (strip_suffix p s) as [t'|]; [|done]. intros [= <-]. cbn [all_chars]. by rewrite Hc, (IH t').
Qed.

Lemma name_text_foreign_column : name_text (TrimSuffix table "s" ++ "_id") = true.
Proof.
  apply name_text_app; [|done]. unfold TrimSuffix. destruct (strip_suffix "s" table) as [t|] eqn:E; [|done].
  by apply (strip_suffix_text _ _ _ _ Htable) in E.
Qed.

Lemma neutral_select_column f : field_wf f → neutral (select_column f).
Proof.
  unfold select_column. destruct (String.eqb_spec f "*") as [|]; [intros _; neutral_text|].
  intros [->|Hv]; [done|]. by apply neutral_column_ref.
Qed.

Lemma neutral_json_agg fields : neutral (json_agg_expression fields).
Proof.
  unfold json_agg_expression. destruct (negb _); [|done].
  assert (Hp : Forall neutral (json_pair <$> filter (λ f, IsValidIdentifier f = true) fields)).
  { apply Forall_fmap, list.Forall_forall. intros f [Hf _]%list_elem_of_filter. unfold compose, json_pair. neutral_text. }
  destruct (json_pair <$> _) as [|x l]; [done|]. apply neutral_app; [done|]. apply neutral_app; [|done].
  by apply neutral_Join.
Qed.

Lemma neutral_embedded_sql e relatedTable relatedColumn ownColumn relation : neutral e →
  name_text relatedTable = true → name_text relatedColumn = true → name_text ownColumn = true →
  name_text relation = true → neutral (embedded_sql e relatedTable relatedColumn ownColumn relation).
Proof. intros. unfold embedded_sql. neutral_text. Qed.

Lemma neutral_embedded tm e : metadata_ok tm → embedded_wf e → neutral (embedded_column tm e).
Proof.
  intros [Hpk Hfks] [relation fields children Hr _ _]. unfold embedded_column. cbn [em_Relation em_Fields].
  destruct (map_get (tm_ForeignKeys tm) relation) as [fk|] eqn:E.
  - apply map_get_in in E. rewrite list.Forall_forall in Hfks. destruct (Hfks _ E) as (? & ? & ?).
    apply neutral_embedded_sql; auto using neutral_json_agg, valid_name_text.
  - apply neutral_embedded_sql; auto using neutral_json_agg, valid_name_text, name_text_foreign_column.
    destruct (String.eqb _ ""); done.
Qed.

Lemma neutral_order o : IsValidIdentifier (ob_Column o) = true → neutral (order_part o).
Proof.
  intros Ho. unfold order_part. destruct (ob_Desc o), (ob_NullsLast o); neutral_text.
Qed.

(** A suffix that starts with a space. *)
Lemma emits_suffix a b ha : emits a ha → neutral (" " ++ b) → emits (a ++ " " ++ b) ha.
Proof. intros. by apply emits_then. Qed.

Lemma BuildSelect_ok q tm m d : metadata_ok tm → query_wf m d q →
  ∃ st, BuildSelect q tm = Ok st ∧ parameterised st.
Proof.
  intros Hm []. unfold BuildSelect.
  destruct (buildWhere_ok (qp_Filters q) 1) as (w & args & -> & Hw & Hwe); [done|lia|].
  eexists. split; [done|]. apply parameterised_intro.
  assert (Hcols : Forall neutral ((if all_columns (qp_Fields q) then [(dq table ++ ".*")%string]
      else select_column <$> qp_Fields q) ++ (embedded_column tm <$> qp_Embedded q))%list).
  { apply Forall_app_2.
    - destruct (all_columns _); [repeat constructor; neutral_text|].
      apply Forall_fmap. eapply Forall_impl; [|done]. apply neutral_select_column.
    - apply Forall_fmap. eapply Forall_impl; [|done]. intros e. by apply neutral_embedded. }
  set (cols := (_ ++ (embedded_column tm <$> qp_Embedded q))%list) in *. clearbody cols.
  assert (Hbase : emits (with_where ("SELECT " ++ Join cols ", " ++ " FROM " ++ dq schema ++ "." ++ dq table) w)
                    (seq_holes 1 (1 + Z.of_nat (List.length args)))).
  { apply (with_where_emits _ _ 1 1); [lia| |done|].
    - rewrite seq_holes_nil. apply neutral_emits. apply neutral_app; [done|]. apply neutral_app; [by apply neutral_Join|].
      neutral_text.
    - intros ->. rewrite Hwe by done. cbn. lia. }
  set (base := with_where _ w) in *. clearbody base.
  assert (Horder : emits (match qp_Orders q with
                          | [] => base
                          | orders => base ++ " ORDER BY " ++ Join (order_part <$> orders) ", "
                          end) (seq_holes 1 (1 + Z.of_nat (List.length args)))).
  { destruct (qp_Orders q) as [|o os]; [done|]. apply emits_then; [done| |done].
    apply neutral_app; [done|]. apply neutral_Join; [done|]. apply Forall_fmap.
    eapply Forall_impl; [|done]. apply neutral_order. }
  set (ordered := match qp_Orders q with [] => _ | _ => _ end) in *. clearbody ordered.
  assert (Hlimit : emits (if 0 <? qp_Limit q then ordered ++ " LIMIT " ++ decimal (qp_Limit q) else ordered)
                     (seq_holes 1 (1 + Z.of_nat (List.length args)))).
  { destruct (0 <? qp_Limit q); [|done]. apply emits_then; [done|neutral_text|done]. }
  destruct (0 <? qp_Offset q); [|done]. apply emits_then; [done|neutral_text|done].
Qed.

Lemma BuildCount_ok q m d : query_wf m d q → ∃ st, BuildCount q = Ok st ∧ parameterised st.
Proof.
  intros []. unfold BuildCount.
  destruct (buildWhere_ok (qp_Filters q) 1) as (w & args & -> & Hw & Hwe); [done|lia|].
  eexists. split; [done|]. apply parameterised_intro, (with_where_emits _ _ 1 1); [lia| |done|].
  - rewrite seq_holes_nil. apply neutral_emits. neutral_text.
  - intros ->. rewrite Hwe by done. cbn. lia.
Qed.

Lemma BuildDelete_ok filters : Forall filter_wf filters → ∃ st, BuildDelete filters = Ok st ∧ parameterised st.
Proof.
  intros Hf. unfold BuildDelete.
  destruct (buildWhere_ok filters 1) as (w & args & -> & Hw & Hwe); [done|lia|].
  eexists. split; [done|]. apply parameterised_intro. apply emits_then; [|done|done].
  apply (with_where_emits _ _ 1 1); [lia| |done|].
  - rewrite seq_holes_nil. apply neutral_emits. neutral_text.
  - intros ->. rewrite Hwe by done. cbn. lia.
Qed.

Lemma set_loop_ok values setParts args i : Forall (λ kv, IsValidIdentifier kv.1 = true) values →
  1 <= i → pieces setParts (seq_holes 1 i) →
  ∃ parts, set_loop values setParts args i
           = Ok (parts, args ++ values.*2, i + Z.of_nat (List.length values))%list
  ∧ pieces parts (seq_holes 1 (i + Z.of_nat (List.length values))).
Proof.
  intros Hv. revert setParts args i. induction Hv as [|[k v] values Hk Hv IH]; intros setParts args i Hi Hp; cbn [set_loop].
  - exists setParts. cbn. by rewrite app_nil_r, Z.add_0_r.
  - cbn in Hk. rewrite Hk. cbn [negb].
    destruct (IH (setParts ++ [(dq k ++ " = " ++ hole i)%string])%list (args ++ [v])%list (i + 1)) as (parts & -> & Hparts); [lia| |].
    + rewrite <- (seq_holes_app 1 i) by lia. apply pieces_snoc; [done|]. emit_text. apply emits_next_hole. lia.
    + exists parts. cbn [List.length fmap list_fmap snd]. rewrite <- app_assoc.
      by replace (i + Z.of_nat (S (List.length values))) with (i + 1 + Z.of_nat (List.length values)) by lia.
Qed.

Lemma BuildUpdate_ok values filters : values ≠ [] → Forall (λ kv, IsValidIdentifier kv.1 = true) values →
  Forall filter_wf filters → ∃ st, BuildUpdate values filters = Ok st ∧ parameterised st.
Proof.
  intros Hne Hv Hf. unfold BuildUpdate. destruct values as [|kv values]; [done|]. set (vs := kv :: values) in *. clearbody vs.
  destruct (set_loop_ok vs [] [] 1 Hv) as (parts & -> & Hparts); [lia|rewrite seq_holes_nil; constructor|].
  destruct (buildWhere_ok filters (1 + Z.of_nat (List.length vs))) as (w & args & -> & Hw & Hwe); [done|lia|].
  eexists. split; [done|]. apply parameterised_intro. apply emits_then; [|done|done].
  rewrite app_nil_l, length_app, length_fmap.
  replace (1 + Z.of_nat (List.length vs + List.length args))
    with (1 + Z.of_nat (List.length vs) + Z.of_nat (List.length args)) by lia.
  apply (with_where_emits _ _ 1 (1 + Z.of_nat (List.length vs))); [lia| |done|].
  - emit_text. by apply emits_Join.
  - intros ->. rewrite Hwe by done. cbn. lia.
Qed.

(** One row: its placeholders run on from the index it starts with. *)
Lemma row_placeholders_ok record columns holes (args : list any) s i holes' args' j :
  0 <= s <= i → pieces holes (seq_holes s i) →
  row_placeholders record columns holes args i = (holes', args', j) →
  i <= j ∧ pieces holes' (seq_holes s j) ∧ Z.of_nat (List.length args') = Z.of_nat (List.length args) + (j - i).
Proof.
  revert holes args i. induction columns as [|c columns IH]; intros holes args i Hi Hp; cbn [row_placeholders].
  - intros [= <- <- <-]. split_and!; [lia|done|lia].
  - destruct (map_get record c) as [v|].
    + intros Hr. apply IH in Hr as (Hj & Hh & Hl); [|lia|].
      * rewrite length_app in Hl. cbn [List.length] in Hl. split_and!; [lia|done|lia].
      * rewrite <- (seq_holes_app s i) by lia. apply pieces_snoc; [done|]. apply emits_next_hole. lia.
    + apply IH; [lia|]. rewrite <- (app_nil_r (seq_holes s i)). by apply pieces_snoc.
Qed.

Lemma insert_rows_ok records columns rows (args : list any) i rows' args' :
  1 <= i → pieces rows (seq_holes 1 i) → Z.of_nat (List.length args) = i - 1 →
  insert_rows records columns rows args i = (rows', args') →
  pieces rows' (seq_holes 1 (1 + Z.of_nat (List.length args'))).
Proof.
  revert rows args i. induction records as [|record records IH]; intros rows args i Hi Hp Hl; cbn [insert_rows].
  - intros [= <- <-]. rewrite Hl. by replace (1 + (i - 1)) with i by lia.
  - destruct (row_placeholders record columns [] args i) as [[holes args1] j] eqn:E.
    apply (row_placeholders_ok _ _ _ _ i) in E as (Hj & Hh & Hl'); [|lia|rewrite seq_holes_nil; constructor].
    apply IH; [lia| |lia]. rewrite <- (seq_holes_app 1 i) by lia. apply pieces_snoc; [done|].
    apply emits_after; [done|]. apply emits_then; [|done|done]. by apply emits_Join.
Qed.

Lemma collect_columns_ok names columns : Forall (λ c, IsValidIdentifier c = true) columns →
  match collect_columns names columns with
  | Ok columns' => Forall (λ c, IsValidIdentifier c = true) columns'
  | Err e => ∃ c, e = InvalidInsertColumn c ∧ c ∈ names ∧ IsValidIdentifier c = false
  end.
Proof.
  revert columns. induction names as [|c names IH]; intros columns Hc; cbn [collect_columns]; [done|].
  destruct (IsValidIdentifier c) eqn:Hv; cbn [negb]; [|exists c; split_and!; [done|by left|done]].
  assert (Hc' : Forall (λ c, IsValidIdentifier c = true)
                  (if bool_decide (c ∈ columns) then columns else columns ++ [c])%list).
  { case_bool_decide; [done|]. apply Forall_app_2; [done|]. by constructor. }
  specialize (IH _ Hc'). destruct (collect_columns names _); [done|].
  destruct IH as (d & -> & Hin & Hd). exists d. split_and!; [done|by right|done].
Qed.

Lemma neutral_conflict columns onConflict : Forall (λ c, IsValidIdentifier c = true) columns →
  onConflict = "" ∨ IsValidIdentifier onConflict = true → neutral (conflict_clause columns onConflict).
Proof.
  intros Hc Ho. unfold conflict_clause. destruct (String.eqb_spec onConflict ""); [done|].
  destruct Ho as [|Ho]; [done|].
  assert (Hp : Forall neutral (update_part <$> filter (λ column, column ≠ onConflict) columns)).
  { apply Forall_fmap, list.Forall_forall. intros c [_ Hin]%list_elem_of_filter. rewrite list.Forall_forall in Hc.
    specialize (Hc c Hin). unfold compose, update_part. neutral_text. }
  destruct (update_part <$> _) as [|x l]; [neutral_text|].
  apply neutral_app; [done|]. apply neutral_app; [neutral_text|]. apply neutral_app; [done|]. by apply neutral_Join.
Qed.

Lemma BuildInsert_ok records onConflict st : onConflict = "" ∨ IsValidIdentifier onConflict = true →
  BuildInsert records onConflict = Ok st → parameterised st.
Proof.
  intros Ho. unfold BuildInsert. destruct records as [|r records]; [done|]. set (rs := r :: records). clearbody rs.
  pose proof (collect_columns_ok (rs ≫= keys) [] (Forall_nil_2 _)) as Hc.
  destruct (collect_columns (rs ≫= keys) []) as [columns|e]; [|done]. destruct columns as [|c columns]; [done|].
  set (cs := c :: columns) in *. clearbody cs.
  destruct (insert_rows rs cs [] [] 1) as [rows args] eqn:E. intros [= <-].
  apply insert_rows_ok in E; [|lia|rewrite seq_holes_nil; constructor|done].
  apply parameterised_intro. do 3 (apply emits_after; [neutral_text|]). 
  apply emits_after; [neutral_text|]. apply emits_after; [neutral_text|].
  apply emits_after. { apply neutral_Join; [done|]. apply Forall_fmap. eapply Forall_impl; [|done].
    intros x Hx. unfold compose. neutral_text. }
  apply emits_after; [done|]. apply emits_then.
  - by apply emits_Join.
  - apply neutral_app; [by apply neutral_conflict|done].
  - unfold conflict_clause. destruct (String.eqb onConflict ""); [done|]. by destruct (update_part <$> _).
Qed.
End methods.

Lemma new_builder_schema schema table : IsValidIdentifier schema = true →
  name_text (qb_schema (NewQueryBuilder schema table)) = true.
Proof. intros Hs. cbn. destruct (String.eqb schema ""); [done|]. by apply valid_name_text. Qed.

(** C13: For a schema and table with valid names, table metadata whose names are made
    of letters, digits and underscores, and a maximum that is not negative,
    the SQL of the REST interface is parameterised for every query string
    that parses: select, count and delete statements, and updates of values
    with valid names, are built, every insert that is built too; their
    quotes are closed, no separator occurs, and their placeholders are $1
    ... $n for n arguments, in order. Names of the metadata are not escaped
    by the builder, hence the condition. *)
Theorem rest_statements_parameterised schema table urlValues d m q tm :
  IsValidIdentifier schema = true → IsValidIdentifier table = true → metadata_ok tm → 0 <= m →
  ParseQueryParams urlValues d m = Ok q →
  let qb := NewQueryBuilder schema table in
  (∃ st, BuildSelect qb q tm = Ok st ∧ parameterised st)
  ∧ (∃ st, BuildCount qb q = Ok st ∧ parameterised st)
  ∧ (∃ st, BuildDelete qb (qp_Filters q) = Ok st ∧ parameterised st)
  ∧ (∀ values, values ≠ [] → Forall (λ kv, IsValidIdentifier kv.1 = true) values →
      ∃ st, BuildUpdate qb values (qp_Filters q) = Ok st ∧ parameterised st)
  ∧ (∀ records st, BuildInsert qb records (qp_OnConflict q) = Ok st → parameterised st).
Proof.
  intros Hs Ht Hm Hmax Hq qb. apply ParseQueryParams_wf in Hq; [|done].
  assert (Hsn : name_text (qb_schema qb) = true) by (by apply new_builder_schema).
  assert (Htn : name_text (qb_table qb) = true) by (by apply valid_name_text).
  pose proof (qw_filters _ _ _ Hq) as Hf. split_and!.
  - by eapply BuildSelect_ok.
  - by eapply BuildCount_ok.
  - by apply BuildDelete_ok.
  - intros. by apply BuildUpdate_ok.
  - intros records st. apply BuildInsert_ok; [done|done|]. by destruct Hq.
Qed.
End builder.

#[local] Existing Instance ascii_tables.
#[local] Existing Instance integer_floats.

(** A query string with a selection, an embedded relation, filters and a page. *)
Definition sample_url_values : list (string * list string) :=
  [("select", ["id,name,posts(title,comments(*))"]); ("age", ["gte.18"; "not.in.(20, 21)"]);
   ("name", ["ilike.*x*"]); ("order", ["age.desc.nullslast"]); ("limit", ["10"])].

Definition sample_metadata : TableMetadata :=
  MkTableMetadata "id" [("posts", MkRelationForeignKey "id" "posts" "author_id")] ["id"; "name"].

Definition sample_query : QueryParams :=
  match ParseQueryParams sample_url_values 100 1000 with
  | Ok q => q
  | Err _ => MkQueryParams [] [] [] [] 0 0 false ""
  end.

Lemma rest_statements_parameterised_witness :
  ParseQueryParams sample_url_values 100 1000 = Ok sample_query
  ∧ ∃ st, BuildSelect (NewQueryBuilder "public" "users") sample_query sample_metadata = Ok st
  ∧ parameterised st ∧ List.length (st_Args st) = 4%nat.
Proof.
  assert (Hq : ParseQueryParams sample_url_values 100 1000 = Ok sample_query) by (vm_compute; reflexivity).
  split; [exact Hq|].
  destruct (rest_statements_parameterised "public" "users" sample_url_values 100 1000 sample_query sample_metadata)
    as [(st & Hst & Hp) _]; [reflexivity|reflexivity|split; repeat constructor|lia|exact Hq|].
  exists st. split; [exact Hst|]. split; [exact Hp|].
  assert (Hlen : match BuildSelect (NewQueryBuilder "public" "users") sample_query sample_metadata with
                 | Ok st => List.length (st_Args st)
                 | Err _ => 0%nat
                 end = 4%nat) by (vm_compute; reflexivity).
  rewrite Hst in Hlen. exact Hlen.
Defined.
