(* ===== verification/DataKV.v ===== *)
(** * data/kv/kv.go, data/base_handler_kv.go: the key-value interface

    Callers name keys; [BuildInternalKey] puts the caller's namespace in front
    of them, and the handlers of /v1/data/kv/... run the key-value store of the
    kernel on the result.  The store is any driver with the laws of [KVLaws].

    JSON bodies are decoded by parameters ([encoding/json]); the body itself,
    its size limit and what happens when reading fails are modelled.  The
    stores' clock is also the clock of the visitor hash. *)

From Stdlib Require Import ZArith Lia Ascii String.
From S2P Require Import Prelude GoStrings GoRunes GoTime ServiceAccounts KVStore.
Local Open Scope string_scope.
Local Open Scope Z_scope.

(** ** Callers and their namespaces *)

Definition DefaultSaltSecret : string := "data-cache-salt".

(** [kv.AuthContext]. *)
Record Caller := MkCaller { c_Role : string; c_Subject : string; c_VisitorHash : string }.

Section callers.
Context `{HostLib}.

(** The hash of a visitor and a day; [now] in nanoseconds. *)
Definition ComputeVisitorHash (clientIP userAgent : string) (now : Z) (saltSecret : string) : string :=
  let saltSecret := if String.eqb saltSecret "" then DefaultSaltSecret else saltSecret in
  let bucket := Z.quot (now / Second) (24 * 3600) in
  hex_EncodeToString (sha256_Sum256
    (clientIP ++ ":" ++ saltSecret ++ ":" ++ userAgent ++ ":" ++ decimal bucket)).

Definition ExtractAuthContext (trustProxy : bool) (request : Request) (now : Z) (saltSecret : string) : Caller :=
  let jwtClaims := JWT (AuthCtx request) in
  if negb (String.eqb (Subject jwtClaims) "")
     || (negb (String.eqb (JWTRole jwtClaims) "") && negb (String.eqb (JWTRole jwtClaims) "anon"))
  then MkCaller (JWTRole jwtClaims) (Subject jwtClaims) ""
  else
    let role := if String.eqb (JWTRole jwtClaims) "" then "anon" else JWTRole jwtClaims in
    MkCaller role ""
      (ComputeVisitorHash (ExtractRequestClientIP trustProxy request) (Header request "User-Agent") now saltSecret).
End callers.

Definition is_cache_key (userVisibleKey : string) : bool :=
  HasPrefix userVisibleKey "rest:" || HasPrefix userVisibleKey "graphql:".

Definition BuildInternalKey (authContext : Caller) (userVisibleKey : string) : string :=
  let isCache := is_cache_key userVisibleKey in
  if negb (String.eqb (c_Role authContext) "anon") && String.eqb (c_VisitorHash authContext) "" then
    let role := if String.eqb (c_Role authContext) "" then "authenticated" else c_Role authContext in
    if negb (String.eqb (c_Subject authContext) "") then
      if isCache then "cache:" ++ role ++ ":" ++ c_Subject authContext ++ ":" ++ userVisibleKey
      else role ++ ":" ++ c_Subject authContext ++ ":" ++ userVisibleKey
    else if isCache then "cache:" ++ role ++ "::" ++ userVisibleKey
    else role ++ "::" ++ userVisibleKey
  else
    let role := if String.eqb (c_Role authContext) "" then "anon" else c_Role authContext in
    if isCache then "cache:" ++ role ++ ":" ++ c_VisitorHash authContext ++ ":" ++ userVisibleKey
    else role ++ ":" ++ c_VisitorHash authContext ++ ":" ++ userVisibleKey.

(** ** The handlers *)

Definition maxKVKeyLength : nat := 512.
Definition maxKVPayloadBytes : N := 2 * 1024 * 1024.

Definition reserved_key (key : string) : bool :=
  String.eqb key "mget" || String.eqb key "mset" || String.eqb key "increment".

(** [None] when the key may be used, else the message. *)
Definition validateKVKey (cacheKey : string) : option string :=
  if String.eqb cacheKey "" then Some "Missing key in path"
  else if (maxKVKeyLength <? String.length cacheKey)%nat then Some "Key length exceeds maximum of 512 bytes"
  else if reserved_key cacheKey then Some "'mget', 'mset', and 'increment' are reserved key names"
  else None.

Record SetKVInput := MkSetKVInput { skv_Value : string; skv_TTL : Z }.
Record SetMultipleKVInput := MkSetMultipleKVInput { smkv_Entries : list (string * string); smkv_TTL : Z }.
Record IncrementKVInput := MkIncrementKVInput { ikv_Key : string; ikv_Step : option Z; ikv_TTL : Z }.

(** The decoders of [encoding/json]: an object's members, and the input types. *)
Class KVDecoders := MkKVDecoders {
  decode_members : string → option (list string);
  decode_set : string → option SetKVInput;
  decode_touch : string → option Z;
  decode_keys : string → option (list string);
  decode_entries : string → option SetMultipleKVInput;
  decode_increment : string → option IncrementKVInput;
}.

(** A request of the interface: path values, URL, body; [None] when reading
    the body fails. *)
Record KVRequest := MkKVRequest {
  kr_Request : Request;
  kr_PathValue : string → string;
  kr_Path : string;
  kr_Query : string → string;
  kr_Body : option string;
}.

Inductive KVResponseBody :=
| KVNoBody
| KVErrorBody (detail : string)
(** [Invalid key %q: %s]. *)
| KVInvalidKey (key message : string)
| GetKVResponse (key value : string)
| SetKVResponse (key : string) (created : bool) (ttl : Z)
| TouchKVResponse (key : string) (ttl : Z)
| GetMultipleKVResponse (values : gmap string string)
| SetMultipleKVResponse (count : Z)
| IncrementKVResponse (key : string) (value : Z).

Record KVResponse := MkKVResponse { kr_status : Z; kr_body : KVResponseBody }.

Inductive KVEvent :=
| KVSetEvent (key : string) (ttl : Z)
| KVDeletedEvent (key : string)
| KVTouchedEvent (key : string) (ttl : Z).

(** [strings.Trim(s, "/")]. *)
Fixpoint trim_slashes_left (s : string) : string :=
  match s with
  | String c s' => if Ascii.eqb c "/" then trim_slashes_left s' else s
  | EmptyString => ""
  end.
Fixpoint trim_slashes_right (s : string) : string :=
  match s with
  | EmptyString => ""
  | String c s' => if all_chars (Ascii.eqb "/") s then "" else String c (trim_slashes_right s')
  end.
Definition Trim_slashes (s : string) : string := trim_slashes_right (trim_slashes_left s).

Definition extractKVKey (request : KVRequest) : string :=
  let cacheKey := if String.eqb (kr_PathValue request "key") "" then kr_PathValue request "cache_key"
                  else kr_PathValue request "key" in
  if negb (String.eqb cacheKey "") then Trim_slashes cacheKey
  else Trim_slashes (TrimPrefix (kr_Path request) "/v1/data/kv").

Definition exceeds_limit (body : string) : bool := (maxKVPayloadBytes <? N.of_nat (String.length body))%N.

(** [io.ReadAll] of the limited body, with the responses of its errors. *)
Definition read_all (request : KVRequest) : result KVResponse string :=
  match kr_Body request with
  | None => Err (MkKVResponse 400 (KVErrorBody "Invalid or empty request body"))
  | Some body =>
      if exceeds_limit body then Err (MkKVResponse 413 (KVErrorBody "Request body exceeds size limit"))
      else if String.eqb body "" then Err (MkKVResponse 400 (KVErrorBody "Invalid or empty request body"))
      else Ok body
  end.

(** [json.NewDecoder(...).Decode] of the limited body: what is past the limit
    is never read. *)
Definition decode_body {A} (decode : string → option A) (request : KVRequest) : option A :=
  body ← kr_Body request;
  decode (if exceeds_limit body then slice_to (N.to_nat maxKVPayloadBytes) body else body).

(** [time.Duration(ttlSeconds) * time.Second]. *)
Definition ttl_duration (ttlSeconds : Z) : Z := wrap64 (ttlSeconds * Second).

Section handlers.
Context `{HostLib} `{KVDecoders} {S : Type} `{KVDriver S} (env : KVEnv) (trustProxy : bool) (saltSecret : string).

Definition KVResult : Type := KVResponse * S * list KVEvent.

Definition kv_error (status : Z) (detail : string) (s : S) : KVResult :=
  (MkKVResponse status (KVErrorBody detail), s, []).
Definition kv_unavailable (s : S) : KVResult := kv_error 500 "Service temporarily unavailable" s.

Definition caller_of (request : KVRequest) : Caller :=
  ExtractAuthContext trustProxy (kr_Request request) (kv_now env) saltSecret.

Definition executeGetKV (authContext : Caller) (cacheKey : string) (s : S) : KVResult :=
  match Get env (BuildInternalKey authContext cacheKey) s with
  | Err ErrKVStoreKeyNotFound => kv_error 404 "Key not found" s
  | Err _ => kv_unavailable s
  | Ok storedValue => (MkKVResponse 200 (GetKVResponse cacheKey storedValue), s, [])
  end.

(** The end of [executePostKV] and [executePutKV]: the conditional and the
    unconditional write. *)
Definition store_value (isNX : bool) (authContext : Caller) (cacheKey value : string) (ttlSeconds : Z) (s : S) : KVResult :=
  let internalKey := BuildInternalKey authContext cacheKey in
  if isNX then
    let '(created, s) := SetNX env internalKey value (ttl_duration ttlSeconds) s in
    match created with
    | Err _ => kv_unavailable s
    | Ok false => kv_error 409 "Key already exists" s
    | Ok true => (MkKVResponse 201 (SetKVResponse cacheKey true ttlSeconds), s, [KVSetEvent cacheKey ttlSeconds])
    end
  else
    let '(r, s) := Set_ env internalKey value (ttl_duration ttlSeconds) s in
    match r with
    | Err _ => kv_unavailable s
    | Ok _ => (MkKVResponse 200 (SetKVResponse cacheKey false ttlSeconds), s, [KVSetEvent cacheKey ttlSeconds])
    end.

Definition is_nx (request : KVRequest) : bool :=
  String.eqb (kr_Query request "nx") "true" || String.eqb (Header (kr_Request request) "If-None-Match") "*".

Definition executePostKV (request : KVRequest) (authContext : Caller) (cacheKey : string) (s : S) : KVResult :=
  match read_all request with
  | Err response => (response, s, [])
  | Ok bodyBytes =>
      match decode_members bodyBytes with
      | None => kv_error 400 "Invalid request body" s
      | Some rawMap =>
          if negb (bool_decide ("value" ∈ rawMap)) then kv_error 400 "Missing required 'value' property" s else
          match decode_set bodyBytes with
          | None => kv_error 400 "Invalid request body" s
          | Some setKVInput =>
              let ttlSeconds := if skv_TTL setKVInput <? 0 then 0 else skv_TTL setKVInput in
              store_value (is_nx request) authContext cacheKey (skv_Value setKVInput) ttlSeconds s
          end
      end
  end.

(** A lifetime written as text: a positive number, else none. *)
Definition positive_or_zero (rawTTL : string) : Z :=
  match Atoi rawTTL with
  | Some parsedTTL => if 0 <? parsedTTL then parsedTTL else 0
  | None => 0
  end.

Definition put_ttl (request : KVRequest) : Z :=
  if negb (String.eqb (kr_Query request "ttl") "") then positive_or_zero (kr_Query request "ttl")
  else if negb (String.eqb (Header (kr_Request request) "Cache-TTL") "")
  then positive_or_zero (Header (kr_Request request) "Cache-TTL")
  else if negb (String.eqb (Header (kr_Request request) "X-Cache-TTL") "")
  then positive_or_zero (Header (kr_Request request) "X-Cache-TTL")
  else 0.

Definition executePutKV (request : KVRequest) (authContext : Caller) (cacheKey : string) (s : S) : KVResult :=
  match read_all request with
  | Err response => (response, s, [])
  | Ok bodyBytes => store_value (is_nx request) authContext cacheKey bodyBytes (put_ttl request) s
  end.

Definition executePatchKV (request : KVRequest) (authContext : Caller) (cacheKey : string) (s : S) : KVResult :=
  match decode_body decode_touch request with
  | None => kv_error 400 "Invalid expiration value" s
  | Some ttl =>
      if ttl <=? 0 then kv_error 400 "Invalid expiration value" s else
      let '(r, s) := Expire env (BuildInternalKey authContext cacheKey) (ttl_duration ttl) s in
      match r with
      | Err ErrKVStoreKeyNotFound => kv_error 404 "Key not found" s
      | Err _ => kv_unavailable s
      | Ok _ => (MkKVResponse 200 (TouchKVResponse cacheKey ttl), s, [KVTouchedEvent cacheKey ttl])
      end
  end.

Definition executeDeleteKV (authContext : Caller) (cacheKey : string) (s : S) : KVResult :=
  let '(_, s) := Delete env (BuildInternalKey authContext cacheKey) s in
  (MkKVResponse 204 KVNoBody, s, [KVDeletedEvent cacheKey]).

(** The keys [executeMGetKV] looks up; later duplicates win in its table. *)
Definition usable_key (key : string) : bool :=
  negb (String.eqb key "" || (maxKVKeyLength <? String.length key)%nat || reserved_key key).

Fixpoint key_lookup (authContext : Caller) (keys : list string) : gmap string string :=
  match keys with
  | [] => ∅
  | key :: keys => key_lookup authContext keys ∪ {[BuildInternalKey authContext key := key]}
  end.

(** The stored values under the names the caller used. *)
Definition user_values (keyLookup : gmap string string) (stored : list (string * string)) : gmap string string :=
  list_to_map (omap (λ kv, userKey ← keyLookup !! kv.1; Some (userKey, kv.2)) stored).

Definition executeMGetKV (request : KVRequest) (authContext : Caller) (s : S) : KVResult :=
  match decode_body decode_keys request with
  | None | Some [] => kv_error 400 "Keys are required" s
  | Some keys =>
      let keys := filter (λ k, usable_key k = true) keys in
      let internalKeys := BuildInternalKey authContext <$> keys in
      let keyLookup := key_lookup authContext keys in
      let result :=
        match internalKeys with
        | [] => ∅
        | _ => match MGet env internalKeys s with
               | Err _ => ∅
               | Ok mgetResults => user_values keyLookup (map_to_list mgetResults)
               end
        end in
      (MkKVResponse 200 (GetMultipleKVResponse result), s, [])
  end.

(** The first key of a batch that may not be used. *)
Fixpoint invalid_key (keys : list string) : option (string * string) :=
  match keys with
  | [] => None
  | key :: keys => match validateKVKey key with
                   | Some message => Some (key, message)
                   | None => invalid_key keys
                   end
  end.

Definition internal_entries (authContext : Caller) (entries : list (string * string)) : gmap string string :=
  list_to_map ((λ kv, (BuildInternalKey authContext kv.1, kv.2)) <$> entries).

Definition executeMSetKV (request : KVRequest) (authContext : Caller) (s : S) : KVResult :=
  match decode_body decode_entries request with
  | None => kv_error 400 "Invalid request body" s
  | Some input =>
      match smkv_Entries input with
      | [] => kv_error 400 "Entries cannot be empty" s
      | entries =>
          let ttlSeconds := if 0 <? smkv_TTL input then smkv_TTL input else 0 in
          match invalid_key entries.*1 with
          | Some (key, message) => (MkKVResponse 400 (KVInvalidKey key message), s, [])
          | None =>
              let internalEntries := internal_entries authContext entries in
              let '(r, s) := MSet env internalEntries (ttl_duration ttlSeconds) s in
              match r with
              | Err _ => kv_unavailable s
              | Ok _ => (MkKVResponse 200 (SetMultipleKVResponse (Z.of_nat (size internalEntries))), s,
                         (λ kv, KVSetEvent kv.1 ttlSeconds) <$> entries)
              end
          end
      end
  end.

Definition executeIncrementKV (request : KVRequest) (authContext : Caller) (s : S) : KVResult :=
  match decode_body decode_increment request with
  | None => kv_error 400 "Key is required" s
  | Some input =>
      if String.eqb (ikv_Key input) "" then kv_error 400 "Key is required" s else
      match validateKVKey (ikv_Key input) with
      | Some message => kv_error 400 message s
      | None =>
          let ttlSeconds := if 0 <? ikv_TTL input then ikv_TTL input else 0 in
          let delta := default 1 (ikv_Step input) in
          let '(r, s) := IncrementBy env (BuildInternalKey authContext (ikv_Key input)) delta (ttl_duration ttlSeconds) s in
          match r with
          | Err _ => kv_unavailable s
          | Ok counterValue => (MkKVResponse 200 (IncrementKVResponse (ikv_Key input) counterValue), s,
                                [KVSetEvent (ikv_Key input) ttlSeconds])
          end
      end
  end.

(** The routes. *)
Inductive KVRoute := RouteGet | RouteSet | RouteUpdate | RouteTouch | RouteDelete | RouteMGet | RouteMSet | RouteIncrement.

Definition with_key (request : KVRequest) (k : string → S → KVResult) (s : S) : KVResult :=
  let cacheKey := extractKVKey request in
  match validateKVKey cacheKey with
  | Some errorMsg => kv_error 400 errorMsg s
  | None => k cacheKey s
  end.

Definition handle_kv (route : KVRoute) (request : KVRequest) (s : S) : KVResult :=
  let authContext := caller_of request in
  match route with
  | RouteGet => with_key request (executeGetKV authContext) s
  | RouteSet => with_key request (executePostKV request authContext) s
  | RouteUpdate => with_key request (executePutKV request authContext) s
  | RouteTouch => with_key request (executePatchKV request authContext) s
  | RouteDelete => with_key request (executeDeleteKV authContext) s
  | RouteMGet => executeMGetKV request authContext s
  | RouteMSet => executeMSetKV request authContext s
  | RouteIncrement => executeIncrementKV request authContext s
  end.
End handlers.

(** ** Namespaces do not overlap *)

(** The role and the identity under which a caller's keys are stored. *)
Definition namespace (c : Caller) : string * string :=
  if negb (String.eqb (c_Role c) "anon") && String.eqb (c_VisitorHash c) ""
  then (if String.eqb (c_Role c) "" then "authenticated" else c_Role c, c_Subject c)
  else (if String.eqb (c_Role c) "" then "anon" else c_Role c, c_VisitorHash c).

Lemma BuildInternalKey_form c k :
  BuildInternalKey c k =
    (if is_cache_key k then "cache:" else "") ++ (namespace c).1 ++ ":" ++ (namespace c).2 ++ ":" ++ k.
Proof.
  unfold BuildInternalKey, namespace. destruct (negb _ && _); simpl.
  - destruct (String.eqb_spec (c_Subject c) "") as [E|]; [rewrite E|]; by destruct (is_cache_key k).
  - by destruct (is_cache_key k).
Qed.

(** Names without a colon, and a role that is not the prefix of cache keys. *)
Definition proper (c : Caller) : Prop :=
  lacks ":" (namespace c).1 = true ∧ lacks ":" (namespace c).2 = true ∧ (namespace c).1 ≠ "cache".

Lemma cut_unique sep a b a' b' : lacks sep a = true → lacks sep a' = true →
  a ++ String sep b = a' ++ String sep b' → a = a' ∧ b = b'.
Proof.
  intros Ha Ha' E. apply (f_equal (cut sep)) in E. rewrite !cut_lacks in E by done. by injection E.
Qed.

Lemma internal_key_inj c c' k k' : proper c → proper c' →
  BuildInternalKey c k = BuildInternalKey c' k' → namespace c = namespace c' ∧ k = k'.
Proof.
  rewrite !BuildInternalKey_form. unfold proper. destruct (namespace c) as [r i], (namespace c') as [r' i'].
  intros (Hr & Hi & Hc) (Hr' & Hi' & Hc'); simpl in *.
  assert (Hsame : ∀ k k', r ++ ":" ++ i ++ ":" ++ k = r' ++ ":" ++ i' ++ ":" ++ k' → (r, i) = (r', i') ∧ k = k').
  { intros x x' E. destruct (cut_unique ":" _ _ _ _ Hr Hr' E) as [-> E'].
    by destruct (cut_unique ":" _ _ _ _ Hi Hi' E') as [-> ->]. }
  destruct (is_cache_key k), (is_cache_key k'); intros E.
  - destruct (cut_unique ":" "cache" _ "cache" _ eq_refl eq_refl E) as [_ E']. by apply Hsame.
  - by destruct (cut_unique ":" "cache" _ _ _ eq_refl Hr' E) as [<- _].
  - by destruct (cut_unique ":" _ _ "cache" _ Hr eq_refl E) as [-> _].
  - by apply Hsame.
Qed.

Lemma hex_lacks_colon s : lacks ":" (hex_EncodeToString s) = true.
Proof.
  assert (Hd : ∀ n, (n < 16)%nat → negb (Ascii.eqb (hex_digit n) ":") = true).
  { intros n Hn. do 16 (destruct n as [|n]; [done|]). lia. }
  unfold lacks. induction s as [|c s IH]; [done|]. cbn [hex_EncodeToString all_chars].
  rewrite !Hd, IH; [done| |].
  - apply Nat.mod_upper_bound. lia.
  - pose proof (nat_ascii_bounded c). apply Nat.Div0.div_lt_upper_bound. lia.
Qed.

(** ** Isolation *)

Section isolation.
Context `{HostLib} `{KVDecoders} {S : Type} `{KVLaws S} (trustProxy : bool) (saltSecret : string).

Local Notation handle := (handle_kv (S := S)).

(** What a caller sees of the store at an instant. *)
Definition visible_to (c : Caller) (t : Z) (s : S) (k : string) : option string :=
  kv_view t s !! BuildInternalKey c k.

Definition same_view (c : Caller) (t : Z) (s s' : S) : Prop := ∀ k, visible_to c t s' k = visible_to c t s k.

Section one_request.
Context (env : KVEnv) (c c' : Caller) (Hc : proper c) (Hc' : proper c') (Hne : namespace c' ≠ namespace c)
  (t : Z) (Ht : kv_now env <= t).

Lemma keys_apart k k' : BuildInternalKey c k' ≠ BuildInternalKey c' k.
Proof. intros E. apply internal_key_inj in E as [E _]; try done. Qed.

Lemma entries_apart entries k : internal_entries c' entries !! BuildInternalKey c k = None.
Proof.
  apply not_elem_of_list_to_map. rewrite <- list_fmap_compose. intros (kv & E & _)%list_elem_of_fmap.
  by apply keys_apart in E.
Qed.

Lemma store_value_apart isNX k v ttl s : same_view c t s (store_value env isNX c' k v ttl s).1.2.
Proof.
  intros k'. unfold visible_to, store_value, SetNX, Set_.
  destruct (law_frame env s t (BuildInternalKey c k') Ht) as (Hs & _ & Hnx & _).
  destruct isNX.
  - specialize (Hnx (BuildInternalKey c' k) v (ttl_duration ttl) (keys_apart _ _)).
    destruct (drv_SetNX _ _ _ _ _) as [[[]|] s']; done.
  - specialize (Hs (BuildInternalKey c' k) v (ttl_duration ttl) (keys_apart _ _)).
    by destruct (drv_Set _ _ _ _ _) as [[] s'].
Qed.

(** A request of one caller leaves what another caller sees as it was. *)
Lemma request_apart route request s : caller_of env trustProxy saltSecret request = c' →
  same_view c t s (handle_kv env trustProxy saltSecret route request s).1.2.
Proof.
  intros Hcaller. unfold handle_kv. rewrite Hcaller.
  pose proof (law_frame env s t) as Hframe.
  destruct route; unfold with_key; try (destruct (validateKVKey _); [done|]).
  - unfold executeGetKV. by repeat case_match.
  - unfold executePostKV. repeat case_match; try done; apply store_value_apart.
  - unfold executePutKV. case_match; [apply store_value_apart|done].
  - unfold executePatchKV. destruct (decode_body _ _) as [ttl|]; [|done]. destruct (ttl <=? 0); [done|].
    intros k. destruct (Hframe (BuildInternalKey c k) Ht) as (_ & _ & _ & _ & _ & He). unfold Expire.
    specialize (He (BuildInternalKey c' (extractKVKey request)) (ttl_duration ttl) (keys_apart _ _)).
    destruct (drv_Expire _ _ _ _) as [[|[]] s']; done.
  - intros k. destruct (Hframe (BuildInternalKey c k) Ht) as (_ & _ & _ & Hd & _). unfold executeDeleteKV, Delete.
    specialize (Hd (BuildInternalKey c' (extractKVKey request)) (keys_apart _ _)).
    by destruct (drv_Delete _ _ _) as [r s'].
  - unfold executeMGetKV. by repeat case_match.
  - unfold executeMSetKV. destruct (decode_body _ _) as [input|]; [|done].
    destruct (smkv_Entries input) as [|e entries]; [done|]. destruct (invalid_key _) as [[]|]; [done|].
    intros k. destruct (Hframe (BuildInternalKey c k) Ht) as (_ & Hm & _). unfold MSet.
    specialize (Hm _ (ttl_duration (if 0 <? smkv_TTL input then smkv_TTL input else 0)) (entries_apart (e :: entries) k)).
    by destruct (drv_MSet _ _ _ _) as [[] s'].
  - unfold executeIncrementKV. destruct (decode_body _ _) as [input|]; [|done].
    destruct (String.eqb _ ""); [done|]. destruct (validateKVKey _); [done|].
    intros k. destruct (Hframe (BuildInternalKey c k) Ht) as (_ & _ & _ & _ & Hi & _). unfold IncrementBy.
    specialize (Hi (BuildInternalKey c' (ikv_Key input)) (default 1 (ikv_Step input))
      (ttl_duration (if 0 <? ikv_TTL input then ikv_TTL input else 0)) (keys_apart _ _)).
    by destruct (drv_IncrementBy _ _ _ _ _) as [[] s'].
Qed.
End one_request.

(** Requests one after the other, each at its own time. *)
Definition KVTrace : Type := list (KVEnv * KVRoute * KVRequest).

Fixpoint run_kv (trace : KVTrace) (s : S) : S :=
  match trace with
  | [] => s
  | (env, route, request) :: trace => run_kv trace (handle_kv env trustProxy saltSecret route request s).1.2
  end.

(** Requests made before [t] by callers with other namespaces than [c]. *)
Definition foreign (c : Caller) (t : Z) (x : KVEnv * KVRoute * KVRequest) : Prop :=
  let '(env, _, request) := x in
  let c' := caller_of env trustProxy saltSecret request in
  proper c' ∧ namespace c' ≠ namespace c ∧ kv_now env <= t.

Lemma foreign_trace c t trace s : proper c → Forall (foreign c t) trace → same_view c t s (run_kv trace s).
Proof.
  intros Hc Hf. revert s. induction Hf as [|[[env route] request] trace (Hp & Hn & Ht) _ IH]; intros s; [done|].
  intros k. simpl. rewrite IH. by eapply request_apart.
Qed.
End isolation.

(** ** Storing and reading back *)

Section readback.
Context `{HostLib} `{KVDecoders} {S : Type} `{KVLaws S} (trustProxy : bool) (saltSecret : string).

(** The value and the lifetime, in seconds, a write asks for. *)
Definition submitted (route : KVRoute) (request : KVRequest) : option (string * Z) :=
  match route with
  | RouteUpdate => body ← kr_Body request; Some (body, put_ttl request)
  | RouteSet => body ← kr_Body request; input ← decode_set body;
                Some (skv_Value input, Z.max 0 (skv_TTL input))
  | _ => None
  end.

Definition stored (response : KVResponse) : Prop := kr_status response = 200 ∨ kr_status response = 201.

(** A successful write shows its value until the lifetime is over. *)
Lemma store_value_shows env isNX c k v ttl s response s' events t :
  kv_faults env KVSet = false → kv_faults env KVSetNX = false →
  store_value env isNX c k v ttl s = (response, s', events) → stored response →
  kv_now env <= t < kv_now env + lifetime (ttl_duration ttl) → visible_to c t s' k = Some v.
Proof.
  intros Hs Hnx E Hok Ht.
  assert (Hput : ∀ m, put t (kv_now env + lifetime (ttl_duration ttl)) (BuildInternalKey c k) v m
                       !! BuildInternalKey c k = Some v).
  { intros m. unfold put. destruct (Z.ltb_spec t (kv_now env + lifetime (ttl_duration ttl))); [|lia].
    apply lookup_insert_eq. }
  unfold visible_to. unfold store_value, SetNX, Set_ in E. destruct isNX.
  - destruct (law_SetNX env (BuildInternalKey c k) v (ttl_duration ttl) s Hnx) as [s1 Hl].
    destruct (kv_view (kv_now env) s !! _) as [w|].
    + rewrite Hl in E. injection E as <- <- <-. by destruct Hok.
    + destruct Hl as [Hl Hv]. rewrite Hl in E. injection E as _ <- _. rewrite Hv by lia. apply Hput.
  - destruct (law_Set env (BuildInternalKey c k) v (ttl_duration ttl) s Hs) as (s1 & Hl & Hv).
    rewrite Hl in E. injection E as _ <- _. rewrite Hv by lia. apply Hput.
Qed.

Lemma write_shows env route request v ttl s response s' events t :
  kv_faults env KVSet = false → kv_faults env KVSetNX = false →
  submitted route request = Some (v, ttl) →
  handle_kv env trustProxy saltSecret route request s = (response, s', events) → stored response →
  kv_now env <= t < kv_now env + lifetime (ttl_duration ttl) →
  validateKVKey (extractKVKey request) = None
  ∧ visible_to (caller_of env trustProxy saltSecret request) t s' (extractKVKey request) = Some v.
Proof.
  intros Hs Hnx Hsub E Hok Ht. unfold handle_kv in E.
  destruct route; try discriminate Hsub; unfold with_key in E;
    (destruct (validateKVKey (extractKVKey request)) as [m|];
     [injection E as <- _ _; by destruct Hok|split; [done|]]);
    unfold submitted in Hsub; destruct (kr_Body request) as [body|] eqn:Hb; try discriminate Hsub; simpl in Hsub.
  - unfold executePostKV, read_all in E. rewrite Hb in E.
    destruct (exceeds_limit body); [injection E as <- _ _; by destruct Hok|].
    destruct (String.eqb body ""); [injection E as <- _ _; by destruct Hok|].
    destruct (decode_members body) as [members|]; [|injection E as <- _ _; by destruct Hok].
    destruct (negb _); [injection E as <- _ _; by destruct Hok|].
    destruct (decode_set body) as [input|]; [|discriminate Hsub]. injection Hsub as <- <-.
    replace (if skv_TTL input <? 0 then 0 else skv_TTL input) with (Z.max 0 (skv_TTL input)) in E
      by (destruct (Z.ltb_spec (skv_TTL input) 0); lia).
    by eapply store_value_shows.
  - injection Hsub as <- <-. unfold executePutKV, read_all in E. rewrite Hb in E.
    destruct (exceeds_limit body); [injection E as <- _ _; by destruct Hok|].
    destruct (String.eqb body ""); [injection E as <- _ _; by destruct Hok|].
    by eapply store_value_shows.
Qed.
End readback.

(** C11: On every driver that keeps the interface laws, a value stored by a POST or
    PUT answered 200 or 201, whose write to the store did not fail, is what
    a GET of the same key by the same caller returns within its lifetime,
    when the store can be read, whatever requests were served in between to
    callers whose namespace is another one; for callers whose role and
    subject have no colon and whose role is not the prefix of cache keys.
    Callers that share a namespace are not kept apart
    (DataCache.anon_subjects_share_namespace). *)
Theorem kv_stored_value_returned `{HostLib} `{KVDecoders} {S} `{KVLaws S} trustProxy saltSecret
    env route request v ttl s response s' events trace env' request' :
  kv_faults env KVSet = false → kv_faults env KVSetNX = false →
  submitted route request = Some (v, ttl) →
  handle_kv env trustProxy saltSecret route request s = (response, s', events) → stored response →
  proper (caller_of env trustProxy saltSecret request) →
  Forall (foreign trustProxy saltSecret (caller_of env trustProxy saltSecret request) (kv_now env')) trace →
  kv_faults env' KVGet = false →
  kv_now env <= kv_now env' < kv_now env + lifetime (ttl_duration ttl) →
  caller_of env' trustProxy saltSecret request' = caller_of env trustProxy saltSecret request →
  extractKVKey request' = extractKVKey request →
  (handle_kv env' trustProxy saltSecret RouteGet request' (run_kv trustProxy saltSecret trace s')).1.1
  = MkKVResponse 200 (GetKVResponse (extractKVKey request) v).
Proof.
  intros Hs Hnx Hsub E Hok Hp Htrace Hg Ht Hcaller Hkey.
  destruct (write_shows trustProxy saltSecret env route request v ttl s response s' events (kv_now env'))
    as [Hvalid Hv]; [done..|].
  unfold handle_kv, with_key. rewrite Hkey, Hvalid, Hcaller. unfold executeGetKV, Get.
  rewrite law_Get by done.
  pose proof (foreign_trace trustProxy saltSecret _ _ trace s' Hp Htrace (extractKVKey request)) as Hsame.
  unfold visible_to in Hsame, Hv. by rewrite Hsame, Hv.
Qed.

(** Members of the examples: a body is its own value. *)
Definition sample_decoders : KVDecoders := {|
  decode_members := λ _, Some ["value"];
  decode_set := λ body, Some (MkSetKVInput body 60);
  decode_touch := Atoi;
  decode_keys := λ body, Some (Split body ","%char);
  decode_entries := λ body, Some (MkSetMultipleKVInput [(body, body)] 0);
  decode_increment := λ body, Some (MkIncrementKVInput body None 0);
|}.

(** A request of a user for the key "k". *)
Definition user_request (user : string) (body : string) : KVRequest :=
  MkKVRequest
    (MkRequest (λ _, "") (λ _, None) "10.0.0.1:4000"
       (MkAuthContext user "" (MkJWTClaims user "" "" "" "authenticated" false "" "") ""))
    (λ name, if String.eqb name "key" then "k" else "") "/v1/data/kv/k" (λ _, "") (Some body).

Section kv_samples.
#[local] Existing Instance sample_host.
#[local] Existing Instance sample_decoders.
#[local] Existing Instance sample_pg.

(** Somebody else writes and deletes the same key. *)
Definition foreign_sample : KVTrace :=
  [(kv_ok 20, RouteUpdate, user_request "u2" "other"); (kv_ok 30, RouteDelete, user_request "u2" "")].

Lemma kv_stored_value_returned_witness :
  (handle_kv (kv_ok 10) false "" RouteUpdate (user_request "u1" "mine") (∅ : KVTable)).1.1
    = MkKVResponse 200 (SetKVResponse "k" false 0)
  ∧ (handle_kv (kv_ok 40) false "" RouteGet (user_request "u1" "")
       (run_kv false "" foreign_sample
          (handle_kv (kv_ok 10) false "" RouteUpdate (user_request "u1" "mine") (∅ : KVTable)).1.2)).1.1
    = MkKVResponse 200 (GetKVResponse "k" "mine").
Proof.
  split; [reflexivity|].
  assert (Hst : kr_status (handle_kv (kv_ok 10) false "" RouteUpdate (user_request "u1" "mine") (∅ : KVTable)).1.1 = 200)
    by reflexivity.
  revert Hst. destruct (handle_kv (kv_ok 10) false "" RouteUpdate (user_request "u1" "mine") (∅ : KVTable))
    as [[response s'] events] eqn:E. intros Hst.
  assert (Hok : stored response) by (left; exact Hst).
  eapply (kv_stored_value_returned false "" (kv_ok 10) RouteUpdate (user_request "u1" "mine") "mine" 0
            (∅ : KVTable) response s' events foreign_sample (kv_ok 40) (user_request "u1" ""));
    [reflexivity|reflexivity|reflexivity|exact E|exact Hok| | |reflexivity|vm_compute; split; congruence|reflexivity|reflexivity].
  - vm_compute. done.
  - repeat constructor; vm_compute; done.
Defined.
End kv_samples.
