(* ===== verification/DataCache.v ===== *)
(** * Cached queries: data/rest/cache.go, data/kv/kv.go, data/service.go and the
    list handler of data/base_handler_rest.go

    The key of a cached response is a hash of the query and of the version of
    its tables; writes move the version on, so that older responses are no
    longer found.  The list handler looks the response up under the caller's
    namespace ([DataKV]), else runs the statement of [RestBuilder] and stores
    what it answers.

    Parameters: the hash (SHA-256), the rows the database returns for a
    statement under the row-level security of the caller, and their JSON text.
    The JSON text of the hashed tuple and the FNV hash of composite versions
    are computed. *)

From Stdlib Require Import ZArith Lia Ascii String.
From S2P Require Import Prelude GoStrings GoRunes GoValues GoTime SqlText RestQuery RestBuilder Scopes ServiceAccounts KVStore DataKV.
Local Open Scope string_scope.
Local Open Scope Z_scope.

(** ** The text of the hashed tuple *)

(** [encoding/json] escapes quotes, control characters, HTML's and the line
    separators, and replaces what is not UTF-8. *)
Definition quote : string := String (ascii_of_nat 34) "".
Definition hex4 (r : rune) : string :=
  let d i := hex_digit (Z.to_nat (Z.shiftr r i mod 16)) in
  "\u" ++ String (d 12) (String (d 8) (String (d 4) (String (d 0) ""))).

Definition json_rune (r : rune) : string :=
  if (r =? 34) || (r =? 92) then "\" ++ encode_rune r
  else if r =? 8 then "\b" else if r =? 12 then "\f" else if r =? 10 then "\n"
  else if r =? 13 then "\r" else if r =? 9 then "\t"
  else if (r <? 32) || (r =? 60) || (r =? 62) || (r =? 38) || (r =? 8232) || (r =? 8233) then hex4 r
  else encode_rune r.

Fixpoint json_escape (skip : nat) (s : string) : string :=
  match s with
  | EmptyString => ""
  | String c s' =>
      match skip with
      | S k => json_escape k s'
      | O => let '(r, k) := decode_rune c s' in
             (if (r =? RuneError) && (k =? 0)%nat then "\ufffd" else json_rune r) ++ json_escape k s'
      end
  end.

Definition json_string (s : string) : string := quote ++ json_escape 0 s ++ quote.
Definition json_bool (b : bool) : string := if b then "true" else "false".

Record RESTQueryTuple := MkRESTQueryTuple {
  t_Schema : string; t_Table : string; t_TableVersion : Z; t_Select : string; t_Filters : string;
  t_Order : string; t_Limit : Z; t_Offset : Z; t_CountExact : bool }.

Definition member (name value : string) : string := quote ++ name ++ quote ++ ":" ++ value.

(** [json.Marshal(restQueryTuple)]; a zero version is omitted. *)
Definition tuple_json (t : RESTQueryTuple) : string :=
  "{" ++ Join (
    [member "schema" (json_string (t_Schema t)); member "table" (json_string (t_Table t))]
    ++ (if t_TableVersion t =? 0 then [] else [member "table_version" (decimal (t_TableVersion t))])
    ++ [member "select" (json_string (t_Select t)); member "filters" (json_string (t_Filters t));
        member "order" (json_string (t_Order t)); member "limit" (decimal (t_Limit t));
        member "offset" (decimal (t_Offset t)); member "count_exact" (json_bool (t_CountExact t))])%list "," ++ "}".

Section keys.
Context `{HostLib} `{UT : UnicodeTables} `{FL : Floats}.

Definition BuildRESTQueryKeyWithVersion (schema table : string) (tableVersion : Z)
    (fields embeddedStrings filterStrings orderStrings : list string) (limit offset : Z)
    (countExact : bool) (customSuffix : string) : string :=
  if negb (String.eqb customSuffix "") then "rest:" ++ customSuffix else
  let selectParts := ((match fields with [] => [] | _ => [Join (sort_Strings fields) ","] end) ++ embeddedStrings)%list in
  "rest:" ++ hex_EncodeToString (sha256_Sum256 (tuple_json (MkRESTQueryTuple schema table tableVersion
    (Join (sort_Strings selectParts) ";") (Join (sort_Strings filterStrings) "&") (Join orderStrings ",")
    limit offset countExact))).

Fixpoint formatEmbeddedField (embeddedField : EmbeddedField) : string :=
  match embeddedField with
  | MkEmbedded relation fields children =>
      relation ++ "(" ++ Join fields "," ++ "){" ++ Join (formatEmbeddedField <$> children) ";" ++ "}"
  end.

Definition filter_string (filterOp : FilterOp) : string :=
  let valueString := match fo_Values filterOp with [] => fo_Value filterOp | values => Join values "," end in
  fo_Column filterOp ++ "." ++ fo_Op filterOp ++ "." ++ valueString.

Definition order_string (orderOp : OrderBy) : string :=
  ob_Column orderOp ++ "." ++ json_bool (ob_Desc orderOp) ++ "." ++ json_bool (ob_NullsLast orderOp).

Definition GenerateUserVisibleRESTKeyWithVersion (schema table : string) (queryParams : QueryParams)
    (customSuffix : string) (tableVersion : Z) : string :=
  BuildRESTQueryKeyWithVersion schema table tableVersion (qp_Fields queryParams)
    (formatEmbeddedField <$> qp_Embedded queryParams) (filter_string <$> qp_Filters queryParams)
    (order_string <$> qp_Orders queryParams) (qp_Limit queryParams) (qp_Offset queryParams)
    (qp_CountExact queryParams) customSuffix.
End keys.

(** ** Table versions *)

(** [fnv.New64a]. *)
Definition fnv_offset : Z := 14695981039346656037.
Definition fnv_prime : Z := 1099511628211.
Fixpoint fnv_write (h : Z) (s : string) : Z :=
  match s with
  | EmptyString => h
  | String c s' => fnv_write ((Z.lxor h (byte_val c) * fnv_prime) mod 2 ^ 64) s'
  end.

Record DataConfig := MkDataConfig {
  cfg_Schemas : list string;
  cfg_RESTEnabled : bool;
  cfg_MaxLimit : Z;
  cfg_DefaultLimit : Z;
  cfg_ExcludedTables : list string;
  cfg_CacheEnabled : bool;
  cfg_QueryTTLSeconds : Z;
  cfg_MaxCachedQueries : Z;
  cfg_InvalidateOnMutation : bool;
}.

Record InvalidateCacheInput := MkInvalidateCacheInput {
  ic_Schema : string; ic_Table : string; ic_Pattern : string; ic_Catalog : bool; ic_All : bool }.

Definition version_key (schema table : string) : string := "cache:v:" ++ schema ++ ":" ++ table.

Section versions.
Context {S : Type} `{KVDriver S} (env : KVEnv).

Definition getTableCacheVersion (schema table : string) (s : S) : Z :=
  match Get env (version_key schema table) s with
  | Err _ => 0
  | Ok versionString =>
      if String.eqb versionString "" then 0 else default 0 (Atoi versionString)
  end.

Definition maxSafeVersion : Z := 9000000000000000.

Definition InvalidateTableCache (config : DataConfig) (schema table : string) (s : S) : S :=
  if negb (cfg_CacheEnabled config) || negb (cfg_InvalidateOnMutation config) then s else
  let versionKey := version_key schema table in
  let '(r, s) := Increment env versionKey 0 s in
  match r with
  | Ok newVersion => if maxSafeVersion <=? newVersion then (Set_ env versionKey "1" 0 s).2 else s
  | Err _ => (Set_ env versionKey "1" 0 s).2
  end.

Definition ResetTableCacheVersion (schema table : string) (s : S) : S :=
  (Delete env (version_key schema table) s).2.

(** [Service.InvalidateCache]: what /v1/_/data/cache/flush and /invalidate run. *)
Definition InvalidateCache (input : InvalidateCacheInput) (s : S) : S :=
  let s := if ic_All input || ic_Catalog input then
             let s := (Delete env "cache:catalog" s).2 in
             let s := (Delete env "cache:schema:catalog" s).2 in
             let s := (Increment env "cache:v:global" 0 s).2 in
             (Delete env "cache:query_count" s).2
           else s in
  let s := if negb (String.eqb (ic_Schema input) "") && negb (String.eqb (ic_Table input) "") then
             let s := (Delete env ("cache:" ++ ic_Schema input ++ "." ++ ic_Table input) s).2 in
             (Increment env (version_key (ic_Schema input) (ic_Table input)) 0 s).2
           else s in
  if negb (String.eqb (ic_Pattern input) "") then (Delete env ("cache:" ++ ic_Pattern input) s).2 else s.

Fixpoint composite_versions (schema : string) (relations : list string) (s : S) : string :=
  match relations with
  | [] => ""
  | rel :: relations =>
      ";" ++ rel ++ ":" ++ decimal (getTableCacheVersion schema rel s) ++ composite_versions schema relations s
  end.

Definition getCompositeTableCacheVersion (schema rootTable : string) (embeddedRelations : list string) (s : S) : Z :=
  let rootVersion := getTableCacheVersion schema rootTable s in
  match embeddedRelations with
  | [] => rootVersion
  | _ => Z.land (fnv_write fnv_offset
           (schema ++ ":" ++ rootTable ++ ":" ++ decimal rootVersion ++ composite_versions schema embeddedRelations s))
           int64_max
  end.
End versions.

Fixpoint relations_of (ef : EmbeddedField) : list string :=
  match ef with MkEmbedded relation _ children => relation :: concat (relations_of <$> children) end.
Definition collectEmbeddedRelations (embedded : list EmbeddedField) : list string :=
  concat (relations_of <$> embedded).

(** ** The list handler *)

Record DataRequest := MkDataRequest {
  dr_Request : Request;
  dr_PathValue : string → string;
  dr_Path : string;
  dr_Values : list (string * list string);
}.

(** [request.URL.Query().Get]. *)
Definition query_get (request : DataRequest) (name : string) : string :=
  match map_get (dr_Values request) name with
  | Some (v :: _) => v
  | _ => ""
  end.

Definition parsePath (path : string) : option (string * string * string) :=
  match Split (TrimPrefix path "/v1/data/") "/"%char with
  | schema :: table :: rest =>
      if String.eqb schema "" || String.eqb table "" then None
      else Some (schema, table, default "" (head rest))
  | _ => None
  end.

Definition extractSchemaTableAndRecordID (request : DataRequest) : option (string * string * string) :=
  let schema := dr_PathValue request "schema_name" in
  let table := dr_PathValue request "table_name" in
  if negb (String.eqb schema "") && negb (String.eqb table "")
  then Some (schema, table, dr_PathValue request "record_id")
  else parsePath (dr_Path request).

Inductive DBError := PgError (code : string) | OtherDBError.

(** [writeDBErrorResponse]: the status and the message of a database error. *)
Definition writeDBErrorResponse (e : DBError) : Z * string :=
  match e with
  | PgError code =>
      if String.eqb code "42501" then (403, "Access denied")
      else if String.eqb code "23505" then (409, "Resource already exists")
      else if String.eqb code "23503" || String.eqb code "23001" then (409, "Invalid reference")
      else if String.eqb code "42P01" || String.eqb code "42883" then (404, "Resource not found")
      else if String.eqb code "42703" then (400, "Invalid field specified")
      else (500, "Service temporarily unavailable")
  | OtherDBError => (500, "Service temporarily unavailable")
  end.

Definition ScopeDataQueryRead : string := "data:query.read".

Record DataResponse := MkDataResponse {
  d_status : Z;
  d_CacheKey : string;
  d_CacheStatus : string;
  (** [Total-Count], and the first and last item of [Content-Range]. *)
  d_Range : option (Z * Z * Z);
  d_body : string;
}.

Section list_handler.
Context `{HostLib} `{UT : UnicodeTables} `{FL : Floats} {S : Type} `{KVDriver S}
  (env : KVEnv) (sa_faults : SAStmt → bool) (accounts : Accounts) (trustProxy : bool) (saltSecret : string)
  (config : DataConfig) (tables : list (string * TableMetadata)).

(** The database: whether a transaction begins, the rows and the count of a
    statement under the caller's claims ([None]: row-level security is
    bypassed), and the JSON text of rows. *)
Context (begin_error : option DBError)
  (run_query : option JWTClaims → SQLStatement → result DBError (list any))
  (run_count : option JWTClaims → SQLStatement → option Z)
  (json_rows : list any → string).

Definition isRLSBypassed (request : Request) (requiredScope : string) : bool :=
  if IsServiceAccount (AuthCtx request) && auth_HasScope (AuthCtx request) requiredScope then true else
  let secretKey := ExtractRequestServiceAccountKey request in
  if String.eqb secretKey "" then false else
  match Authenticate (kv_now env) sa_faults secretKey (ExtractRequestClientIP trustProxy request) accounts with
  | Err _ => false
  | Ok (serviceAccount, _) => HasScope (sa_Scopes serviceAccount) requiredScope
  end.

(** A failure of [prepareTableContext] is the response it wrote. *)
Definition prepareTableContext (request : DataRequest)
    : result (Z * string) (string * string * string * TableMetadata) :=
  if negb (cfg_RESTEnabled config) then Err (403, "Access denied") else
  match extractSchemaTableAndRecordID request with
  | None => Err (400, "Invalid request path")
  | Some (schema, table, recordID) =>
      if negb (IsValidIdentifier schema) || negb (IsValidIdentifier table) then Err (400, "Invalid request path")
      else if negb (bool_decide (schema ∈ cfg_Schemas config)) then Err (403, "Access denied")
      else if bool_decide (table ∈ cfg_ExcludedTables config)
              || bool_decide ((schema ++ "." ++ table)%string ∈ cfg_ExcludedTables config)
      then Err (403, "Access denied")
      else Ok (schema, table, recordID,
               default (MkTableMetadata "id" [] []) (map_get tables (schema ++ "." ++ table)))
  end.

Definition requested_ttl (request : DataRequest) : Z :=
  let ttlRaw := query_get request "cache_ttl" in
  let h1 := Header (dr_Request request) "Cache-TTL" in
  let h2 := Header (dr_Request request) "X-Cache-TTL" in
  if negb (String.eqb ttlRaw "") then positive_or_zero ttlRaw
  else if negb (String.eqb h1 "") then positive_or_zero h1
  else if negb (String.eqb h2 "") then positive_or_zero h2
  else if cfg_CacheEnabled config then
    if 0 <? cfg_QueryTTLSeconds config then cfg_QueryTTLSeconds config else 0
  else 0.

(** The first of the texts that is not empty. *)
Definition first_text (l : list string) : string := default "" (head (filter (λ x, x ≠ "") l)).

Definition key_suffix (request : DataRequest) : string :=
  first_text [query_get request "cache_key_suffix"; query_get request "cache_key";
              Header (dr_Request request) "Cache-Key-Suffix"; Header (dr_Request request) "X-Cache-Key-Suffix"].

Definition data_error (status : Z) (detail : string) : DataResponse := MkDataResponse status "" "" None detail.

(** The entry is stored unless the counter has reached the limit. *)
Definition cache_room (s : S) : bool :=
  let maxQueries := cfg_MaxCachedQueries config in
  if 0 <? maxQueries then
    match Get env "cache:query_count" s with
    | Ok text =>
        if String.eqb text "" then true else
        match Atoi text with
        | Some currentCount => negb (maxQueries <=? currentCount)
        | None => true
        end
    | Err _ => true
    end
  else true.

Definition counter_expiry : Z :=
  let e := wrap64 (wrap64 (cfg_QueryTTLSeconds config * 2) * Second) in
  if e <? 5 * 60 * Second then 5 * 60 * Second else e.

Definition store_response (cacheTTL : Z) (internalCacheKey responseJSON : string) (s : S) : S :=
  let s := (Set_ env internalCacheKey responseJSON (ttl_duration cacheTTL) s).2 in
  (Increment env "cache:query_count" counter_expiry s).2.

Definition content_range (rls : option JWTClaims) (queryBuilder : QueryBuilder) (queryParams : QueryParams)
    (results : list any) : option (Z * Z * Z) :=
  if qp_CountExact queryParams then
    match BuildCount queryBuilder queryParams with
    | Err _ => None
    | Ok st =>
        total ← run_count rls st;
        let endIndex := wrap64 (wrap64 (qp_Offset queryParams + Z.of_nat (List.length results)) - 1) in
        Some (total, qp_Offset queryParams, if endIndex <? qp_Offset queryParams then qp_Offset queryParams else endIndex)
    end
  else None.

(** From the database on: the statement, the response, the new entry. *)
Definition query_and_store (schema table : string) (tableMetadata : TableMetadata) (queryParams : QueryParams)
    (request : DataRequest) (cacheTTL : Z) (userVisibleCacheKey internalCacheKey : string) (s : S) : DataResponse * S :=
  match begin_error with
  | Some e => let '(status, message) := writeDBErrorResponse e in
              (MkDataResponse status userVisibleCacheKey "" None message, s)
  | None =>
      let rls := if isRLSBypassed (dr_Request request) ScopeDataQueryRead then None
                 else Some (JWT (AuthCtx (dr_Request request))) in
      let queryBuilder := NewQueryBuilder schema table in
      let sqlStatement := match BuildSelect queryBuilder queryParams tableMetadata with
                          | Ok st => st
                          | Err _ => MkSQLStatement "" []
                          end in
      match run_query rls sqlStatement with
      | Err e => let '(status, message) := writeDBErrorResponse e in
                 (MkDataResponse status userVisibleCacheKey "" None message, s)
      | Ok results =>
          let range := content_range rls queryBuilder queryParams results in
          let responseJSON := json_rows results in
          if (0 <? cacheTTL) && negb (String.eqb internalCacheKey "") && cache_room s
          then (MkDataResponse 200 userVisibleCacheKey "MISS" range responseJSON,
                store_response cacheTTL internalCacheKey responseJSON s)
          else (MkDataResponse 200 userVisibleCacheKey "" range responseJSON, s)
      end
  end.

Definition handleListRecords (request : DataRequest) (s : S) : DataResponse * S :=
  match prepareTableContext request with
  | Err (status, message) => (data_error status message, s)
  | Ok (schema, table, _, tableMetadata) =>
      match ParseQueryParams (dr_Values request) (cfg_DefaultLimit config) (cfg_MaxLimit config) with
      | Err _ => (data_error 400 "Invalid query parameters", s)
      | Ok queryParams =>
          let cacheTTL := requested_ttl request in
          let tableVersion := getCompositeTableCacheVersion env schema table
                                (collectEmbeddedRelations (qp_Embedded queryParams)) s in
          if 0 <? cacheTTL then
            let caller := ExtractAuthContext trustProxy (dr_Request request) (kv_now env) saltSecret in
            let userVisibleCacheKey := GenerateUserVisibleRESTKeyWithVersion schema table queryParams
                                         (key_suffix request) tableVersion in
            let internalCacheKey := BuildInternalKey caller userVisibleCacheKey in
            match Get env internalCacheKey s with
            | Ok cached =>
                if negb (String.eqb cached "") then (MkDataResponse 200 userVisibleCacheKey "HIT" None cached, s)
                else query_and_store schema table tableMetadata queryParams request cacheTTL
                       userVisibleCacheKey internalCacheKey s
            | Err _ => query_and_store schema table tableMetadata queryParams request cacheTTL
                         userVisibleCacheKey internalCacheKey s
            end
          else query_and_store schema table tableMetadata queryParams request cacheTTL "" "" s
      end
  end.
End list_handler.

(** ** Keys of the service and keys of callers *)

Lemma count_char_app c a b : count_char c (a ++ b) = (count_char c a + count_char c b)%nat.
Proof. induction a as [|d a IH]; [done|]. rewrite append_cons. cbn [count_char]. rewrite IH. lia. Qed.

Lemma HasPrefix_split s p : HasPrefix s p = true → ∃ t, s = p ++ t.
Proof.
  unfold HasPrefix. destruct (strip_prefix p s) as [t|] eqn:E; [|done]. intros _. exists t.
  revert s E. induction p as [|c p IH]; intros [|d s]; cbn [strip_prefix]; try done.
  - by intros [= <-].
  - by intros [= <-].
  - destruct (Ascii.eqb_spec c d) as [->|]; [|done]. intros E. rewrite append_cons. f_equal. by apply IH.
Qed.

(** The keys the service itself uses have at most two colons; the version of a
    table has three and a cached response at least three. *)
Lemma version_key_colons schema table : (3 <= count_char ":" (version_key schema table))%nat.
Proof. unfold version_key. rewrite !count_char_app. change (count_char ":" "cache:v:") with 2%nat. change (count_char ":" ":") with 1%nat. lia. Qed.

Lemma cache_key_colons c k : is_cache_key k = true → (4 <= count_char ":" (BuildInternalKey c k))%nat.
Proof.
  intros Hk. rewrite BuildInternalKey_form, Hk. assert (1 <= count_char ":" k)%nat.
  { unfold is_cache_key in Hk.
    apply orb_true_iff in Hk as [[t ->]%HasPrefix_split|[t ->]%HasPrefix_split]; rewrite count_char_app; simpl; lia. }
  rewrite !count_char_app. simpl. lia.
Qed.

(** ** Flushing *)

Section cache_laws.
Context `{HostLib} `{UT : UnicodeTables} `{FL : Floats} {S : Type} `{KVLaws S}.

(** A key the operations of [InvalidateCache] with [All] do not name. *)
Lemma flush_other env k t s : kv_now env <= t → (3 <= count_char ":" k)%nat →
  kv_view t (InvalidateCache env (MkInvalidateCacheInput "" "" "" true true) s) !! k = kv_view t s !! k.
Proof.
  intros Ht Hk.
  assert (Hne : ∀ x, (count_char ":" x < 3)%nat → k ≠ x) by (intros x Hx ->; lia).
  unfold InvalidateCache, Delete, Increment. simpl.
  assert (Hd : ∀ s x, (count_char ":" x < 3)%nat → kv_view t (drv_Delete env x s).2 !! k = kv_view t s !! k).
  { intros s0 x Hx. destruct (law_frame env s0 t k Ht) as (_ & _ & _ & Hd & _). by apply Hd, Hne. }
  rewrite Hd by (vm_compute; lia). rewrite law_Increment.
  destruct (law_frame env (drv_Delete env "cache:schema:catalog" (drv_Delete env "cache:catalog" s).2).2 t k Ht)
    as (_ & _ & _ & _ & Hi & _).
  rewrite Hi by (apply Hne; vm_compute; lia). rewrite !Hd by (vm_compute; lia). done.
Qed.

Lemma Get_same env k s s' : kv_faults env KVGet = false →
  kv_view (kv_now env) s' !! k = kv_view (kv_now env) s !! k → Get env k s' = Get env k s.
Proof. intros Hf E. unfold Get. by rewrite !law_Get, E. Qed.

Lemma version_same env s s' : (∀ schema table, Get env (version_key schema table) s' = Get env (version_key schema table) s) →
  ∀ schema table relations,
  getCompositeTableCacheVersion env schema table relations s' = getCompositeTableCacheVersion env schema table relations s.
Proof.
  intros Hsame schema table relations.
  assert (Hv : ∀ schema table, getTableCacheVersion env schema table s' = getTableCacheVersion env schema table s).
  { intros. unfold getTableCacheVersion. by rewrite Hsame. }
  unfold getCompositeTableCacheVersion. rewrite Hv. destruct relations as [|r relations]; [done|].
  assert (Hc : ∀ l, composite_versions env schema l s' = composite_versions env schema l s).
  { induction l as [|x l IH]; [done|]. cbn [composite_versions]. by rewrite Hv, IH. }
  by rewrite Hc.
Qed.

Lemma rest_key_cached schema table q suffix version :
  is_cache_key (GenerateUserVisibleRESTKeyWithVersion schema table q suffix version) = true.
Proof.
  unfold GenerateUserVisibleRESTKeyWithVersion, BuildRESTQueryKeyWithVersion. by destruct (negb _).
Qed.
End cache_laws.

(** ** What the list handler answers *)

Section answers.
Context `{HostLib} `{UT : UnicodeTables} `{FL : Floats} {S : Type} `{KVLaws S}
  (sa_faults : SAStmt → bool) (accounts : Accounts) (trustProxy : bool) (saltSecret : string)
  (config : DataConfig) (tables : list (string * TableMetadata)) (begin_error : option DBError)
  (run_query : option JWTClaims → SQLStatement → result DBError (list any))
  (run_count : option JWTClaims → SQLStatement → option Z) (json_rows : list any → string).

Local Notation list_records env := (handleListRecords env sa_faults accounts trustProxy saltSecret config tables
  begin_error run_query run_count json_rows).
Local Notation bypassed env := (isRLSBypassed env sa_faults accounts trustProxy).

(** Flushing the cache does not remove a cached response: a list request
    that would have been answered from the cache is answered with the same
    cached response after /v1/_/data/cache/flush has run [InvalidateCache] with
    [All] and [Catalog]; for every driver that keeps the laws. *)
Theorem flush_keeps_cached_responses env env' request response s s' :
  kv_now env <= kv_now env' → kv_faults env' KVGet = false →
  list_records env' request s = (response, s') → d_CacheStatus response = "HIT" →
  (list_records env' request (InvalidateCache env (MkInvalidateCacheInput "" "" "" true true) s)).1 = response.
Proof.
  intros Ht Hf. set (fl := InvalidateCache _ _ _). unfold handleListRecords.
  destruct (prepareTableContext _ _ _) as [[[[schema table] rid] md]|[st msg]]; [|by intros [= <- <-]].
  destruct (ParseQueryParams _ _ _) as [q|]; [|by intros [= <- <-]].
  assert (Hget : ∀ k, (3 <= count_char ":" k)%nat → Get env' k fl = Get env' k s).
  { intros k Hk. apply Get_same; [done|]. by apply flush_other. }
  rewrite (version_same env' s fl) by (intros; apply Hget, version_key_colons).
  assert (Hmiss : ∀ ttl key ikey s0 r s1, query_and_store env' sa_faults accounts trustProxy config begin_error run_query
            run_count json_rows schema table md q request ttl key ikey s0 = (r, s1) → d_CacheStatus r ≠ "HIT").
  { intros ttl key ikey s0 r s1. unfold query_and_store. repeat case_match; by intros [= <- <-]. }
  destruct (0 <? requested_ttl config request); [|by intros ?%Hmiss].
  rewrite Hget by (etransitivity; [|apply cache_key_colons, rest_key_cached]; lia).
  destruct (Get env' _ s) as [cached|]; [|by intros ?%Hmiss].
  destruct (negb _); [by intros [= <- <-]|by intros ?%Hmiss].
Qed.

Lemma prepare_ok request schema table rid md : Forall (λ kv, metadata_ok kv.2) tables →
  prepareTableContext config tables request = Ok (schema, table, rid, md) →
  IsValidIdentifier schema = true ∧ IsValidIdentifier table = true ∧ schema ∈ cfg_Schemas config
  ∧ table ∉ cfg_ExcludedTables config ∧ (schema ++ "." ++ table)%string ∉ cfg_ExcludedTables config ∧ metadata_ok md.
Proof.
  intros Htables. unfold prepareTableContext. destruct (negb (cfg_RESTEnabled config)); [done|].
  destruct (extractSchemaTableAndRecordID request) as [[[sc tb] r]|]; [|done].
  destruct (IsValidIdentifier sc) eqn:Hs; [|done]. destruct (IsValidIdentifier tb) eqn:Ht; [|done]. cbn [negb orb].
  repeat case_bool_decide; try done. intros [= <- <- <- <-]. split_and!; try done.
  destruct (map_get tables _) as [md|] eqn:Hmd; [|split; [done|constructor|constructor]].
  apply map_get_in in Hmd. rewrite list.Forall_forall in Htables. exact (Htables _ Hmd).
Qed.

Lemma prepare_error request status message :
  prepareTableContext config tables request = Err (status, message) → status ≠ 200.
Proof. unfold prepareTableContext. repeat case_match; try done; by intros [= <- <-]. Qed.

Lemma db_error_status e : (writeDBErrorResponse e).1 ≠ 200.
Proof. destruct e; simpl; repeat case_match; done. Qed.

(** A 200 of the second half of the handler carries the rows of the query. *)
Lemma query_and_store_rows env schema table md q request ttl key ikey s r s' st :
  BuildSelect (NewQueryBuilder schema table) q md = Ok st →
  query_and_store env sa_faults accounts trustProxy config begin_error run_query run_count json_rows
    schema table md q request ttl key ikey s = (r, s') → d_status r = 200 →
  ∃ rows, run_query (if bypassed env (dr_Request request) ScopeDataQueryRead then None
                     else Some (JWT (AuthCtx (dr_Request request)))) st = Ok rows
    ∧ d_body r = json_rows rows.
Proof.
  intros Hst. unfold query_and_store. rewrite Hst. destruct begin_error as [e|].
  { pose proof (db_error_status e) as He. destruct (writeDBErrorResponse e). by intros [= <- <-]. }
  destruct (run_query _ st) as [rows|e].
  - destruct (_ && _); intros [= <- <-] _; by exists rows.
  - pose proof (db_error_status e) as He. destruct (writeDBErrorResponse e). by intros [= <- <-].
Qed.

(** Where an answer of the list handler comes from.  A request answered 200
    names a table of an exposed schema that is not excluded; the body is either
    what the cache holds under the caller's own namespace, or the rows of a
    parameterised statement, run without row-level security only for a service
    account whose scopes allow it. *)
Theorem list_records_origin env request response s s' :
  Forall (λ kv, metadata_ok kv.2) tables → 0 <= cfg_MaxLimit config →
  list_records env request s = (response, s') → d_status response = 200 →
  ∃ schema table rid md q,
    prepareTableContext config tables request = Ok (schema, table, rid, md)
    ∧ schema ∈ cfg_Schemas config
    ∧ table ∉ cfg_ExcludedTables config ∧ (schema ++ "." ++ table)%string ∉ cfg_ExcludedTables config
    ∧ ParseQueryParams (dr_Values request) (cfg_DefaultLimit config) (cfg_MaxLimit config) = Ok q
    ∧ ((d_CacheStatus response = "HIT"
        ∧ Get env (BuildInternalKey (ExtractAuthContext trustProxy (dr_Request request) (kv_now env) saltSecret)
                     (d_CacheKey response)) s = Ok (d_body response))
       ∨ ∃ st rows, BuildSelect (NewQueryBuilder schema table) q md = Ok st ∧ parameterised st
         ∧ run_query (if bypassed env (dr_Request request) ScopeDataQueryRead then None
                      else Some (JWT (AuthCtx (dr_Request request)))) st = Ok rows
         ∧ d_body response = json_rows rows).
Proof.
  intros Htables Hmax. unfold handleListRecords.
  destruct (prepareTableContext config tables request) as [[[[schema table] rid] md]|[st msg]] eqn:Hp;
    [|intros [= <- <-]; by apply prepare_error in Hp].
  destruct (ParseQueryParams _ _ _) as [q|] eqn:Hq; [|by intros [= <- <-]].
  destruct (prepare_ok request schema table rid md) as (Hs & Ht & Hin & Hx1 & Hx2 & Hmd); [done..|].
  intros E Hok. exists schema, table, rid, md, q. split_and!; try done.
  destruct (BuildSelect_ok (NewQueryBuilder schema table)) with (q := q) (tm := md)
    (m := cfg_MaxLimit config) (d := cfg_DefaultLimit config) as (st & Hst & Hpar);
    [by apply new_builder_schema|by apply valid_name_text|done|by apply ParseQueryParams_wf in Hq|].
  assert (Hrows : ∀ ttl key ikey, query_and_store env sa_faults accounts trustProxy config begin_error run_query run_count
            json_rows schema table md q request ttl key ikey s = (response, s') → ∃ st rows,
            BuildSelect (NewQueryBuilder schema table) q md = Ok st ∧ parameterised st
            ∧ run_query (if bypassed env (dr_Request request) ScopeDataQueryRead then None
                         else Some (JWT (AuthCtx (dr_Request request)))) st = Ok rows
            ∧ d_body response = json_rows rows).
  { intros ttl key ikey E'. destruct (query_and_store_rows _ _ _ _ _ _ _ _ _ _ _ _ st Hst E' Hok) as (rows & ? & ?).
    by exists st, rows. }
  destruct (0 <? requested_ttl config request); [|right; by eapply Hrows].
  destruct (Get env _ s) as [cached|] eqn:Hget; [|right; by eapply Hrows].
  destruct (negb _); [|right; by eapply Hrows]. injection E as <- <-. left. by split.
Qed.
End answers.

(** ** Cached responses of different callers do not mix *)

Lemma counter_apart c k : proper c → BuildInternalKey c k ≠ "cache:query_count".
Proof.
  rewrite BuildInternalKey_form. unfold proper. destruct (namespace c) as [r i]. intros (Hr & _ & Hc) E; simpl in *.
  destruct (is_cache_key k).
  - destruct (cut_unique ":" "cache" (r ++ ":" ++ i ++ ":" ++ k) "cache" "query_count" eq_refl eq_refl E) as [_ E'].
    apply (f_equal (count_char ":")) in E'. rewrite !count_char_app in E'. simpl in E'. lia.
  - by destruct (cut_unique ":" _ _ "cache" "query_count" Hr eq_refl E) as [-> _].
Qed.

Section mixed.
Context `{HostLib} `{KVDecoders} `{UT : UnicodeTables} `{FL : Floats} {S : Type} `{KVLaws S}
  (sa_faults : SAStmt → bool) (accounts : Accounts) (trustProxy : bool) (saltSecret : string)
  (config : DataConfig) (tables : list (string * TableMetadata)).

(** A request of the data service, with what the database answers at the time. *)
Inductive DataStep :=
| StepKV (env : KVEnv) (route : KVRoute) (request : KVRequest)
| StepList (env : KVEnv) (begin_error : option DBError)
    (run_query : option JWTClaims → SQLStatement → result DBError (list any))
    (run_count : option JWTClaims → SQLStatement → option Z) (json_rows : list any → string)
    (request : DataRequest).

Definition step_env (x : DataStep) : KVEnv :=
  match x with StepKV env _ _ | StepList env _ _ _ _ _ => env end.
Definition step_caller (x : DataStep) : Caller :=
  match x with
  | StepKV env _ request => caller_of env trustProxy saltSecret request
  | StepList env _ _ _ _ request => ExtractAuthContext trustProxy (dr_Request request) (kv_now env) saltSecret
  end.
Definition run_step (x : DataStep) (s : S) : S :=
  match x with
  | StepKV env route request => (handle_kv env trustProxy saltSecret route request s).1.2
  | StepList env begin_error run_query run_count json_rows request =>
      (handleListRecords env sa_faults accounts trustProxy saltSecret config tables begin_error run_query run_count
         json_rows request s).2
  end.
Definition run_steps (l : list DataStep) (s : S) : S := foldl (λ s x, run_step x s) s l.

Lemma store_response_apart env c c' t ttl k text s : proper c → proper c' → namespace c' ≠ namespace c →
  kv_now env <= t → same_view c t s (store_response env config ttl (BuildInternalKey c' k) text s).
Proof.
  intros Hc Hc' Hne Ht k'. unfold visible_to, store_response, Set_, Increment. rewrite law_Increment.
  destruct (law_frame env (drv_Set env (BuildInternalKey c' k) text (ttl_duration ttl) s).2 t (BuildInternalKey c k') Ht)
    as (_ & _ & _ & _ & Hi & _).
  rewrite Hi by (by apply counter_apart).
  destruct (law_frame env s t (BuildInternalKey c k') Ht) as (Hs & _). apply Hs.
  by apply keys_apart.
Qed.

Lemma step_apart x c t s : proper c → proper (step_caller x) → namespace (step_caller x) ≠ namespace c →
  kv_now (step_env x) <= t → same_view c t s (run_step x s).
Proof.
  intros Hc Hx Hne Ht. destruct x as [env route request|env be rq rc jr request]; simpl in *.
  { by eapply request_apart. }
  unfold handleListRecords. destruct (prepareTableContext _ _ _) as [[[[schema table] rid] md]|[]]; [|done].
  destruct (ParseQueryParams _ _ _) as [q|]; [|done]. unfold query_and_store.
  repeat case_match; try done; try (by apply store_response_apart).
  all: exfalso; by repeat match goal with E : _ && _ = true |- _ => apply andb_true_iff in E as [E ?] end.
Qed.

(** Requests of other callers change nothing a caller can see: after any
    sequence of key-value and list requests made by callers with other
    namespaces, whatever the database answered them and whatever failed, the
    store shows this caller, under every key, what it showed before, at every
    instant from then on. *)
Theorem data_requests_isolated c t l s :
  proper c →
  Forall (λ x, proper (step_caller x) ∧ namespace (step_caller x) ≠ namespace c ∧ kv_now (step_env x) <= t) l →
  ∀ k, kv_view t (run_steps l s) !! BuildInternalKey c k = kv_view t s !! BuildInternalKey c k.
Proof.
  intros Hc Hl. unfold run_steps. revert s.
  induction Hl as [|x l (Hx & Hne & Ht) _ IH]; intros s k; [done|].
  simpl. rewrite IH. by apply (step_apart x c t s).
Qed.
End mixed.

(** ** Invalidation *)

Lemma append_cancel_l a b c : a ++ b = a ++ c → b = c.
Proof. induction a as [|x a IH]; [done|]. rewrite !append_cons. intros [= E]. auto. Qed.

Lemma append_cancel_r a b c : a ++ c = b ++ c → a = b.
Proof.
  revert b. induction a as [|x a IH]; intros [|y b] E; try done.
  - apply (f_equal String.length) in E. rewrite !length_append in E. simpl in E. lia.
  - apply (f_equal String.length) in E. rewrite !length_append in E. simpl in E. lia.
  - rewrite !append_cons in E. injection E as -> E. f_equal. by apply IH.
Qed.

Lemma decimal_inj a b : in_int64 a = true → in_int64 b = true → decimal a = decimal b → a = b.
Proof. intros Ha Hb E. apply (f_equal Atoi) in E. rewrite !Atoi_decimal in E by done. by injection E. Qed.

Definition with_version (v : Z) (t : RESTQueryTuple) : RESTQueryTuple :=
  MkRESTQueryTuple (t_Schema t) (t_Table t) v (t_Select t) (t_Filters t) (t_Order t) (t_Limit t) (t_Offset t) (t_CountExact t).

(** The texts of one query at two versions differ. *)
Lemma tuple_json_version t v v' : in_int64 v = true → in_int64 v' = true →
  tuple_json (with_version v t) = tuple_json (with_version v' t) → v = v'.
Proof.
  intros Hv Hv'. set (pre := "{" ++ member "schema" (json_string (t_Schema t)) ++ "," ++ member "table" (json_string (t_Table t)) ++ ",").
  set (post := Join [member "select" (json_string (t_Select t)); member "filters" (json_string (t_Filters t));
        member "order" (json_string (t_Order t)); member "limit" (decimal (t_Limit t));
        member "offset" (decimal (t_Offset t)); member "count_exact" (json_bool (t_CountExact t))] "," ++ "}").
  assert (Hform : ∀ w, tuple_json (with_version w t)
            = pre ++ (if w =? 0 then "" else quote ++ "table_version" ++ quote ++ ":" ++ decimal w ++ ",") ++ post).
  { intros w. unfold tuple_json, pre, post. destruct (w =? 0) eqn:E; cbn [with_version t_TableVersion]; rewrite E;
      cbn [app Join]; unfold member; rewrite ?append_assoc; reflexivity. }
  rewrite !Hform. intros E%append_cancel_l%append_cancel_r.
  destruct (Z.eqb_spec v 0), (Z.eqb_spec v' 0); try done; [lia|].
  do 4 apply append_cancel_l in E. apply append_cancel_r in E. by apply decimal_inj.
Qed.

Lemma hex_digit_inj m n : (m < 16)%nat → (n < 16)%nat → hex_digit m = hex_digit n → m = n.
Proof.
  intros Hm Hn E. apply (f_equal nat_of_ascii) in E. unfold hex_digit in E.
  rewrite !nat_ascii_embedding in E by (destruct (Nat.ltb_spec m 10), (Nat.ltb_spec n 10); lia).
  destruct (Nat.ltb_spec m 10), (Nat.ltb_spec n 10); lia.
Qed.

Lemma hex_inj a b : hex_EncodeToString a = hex_EncodeToString b → a = b.
Proof.
  revert b. induction a as [|c a IH]; intros [|d b]; cbn [hex_EncodeToString]; try done.
  intros [= E1 E2 E3]. pose proof (nat_ascii_bounded c). pose proof (nat_ascii_bounded d).
  assert (Hdiv : ∀ n, (n < 256)%nat → (n / 16 < 16)%nat) by (intros; apply Nat.Div0.div_lt_upper_bound; lia).
  assert (Hmod : ∀ n, (n mod 16 < 16)%nat) by (intros; apply Nat.mod_upper_bound; lia).
  apply (hex_digit_inj (nat_of_ascii c / 16) (nat_of_ascii d / 16)) in E1; [|auto..].
  apply (hex_digit_inj (nat_of_ascii c mod 16) (nat_of_ascii d mod 16)) in E2; [|auto..].
  assert (E : nat_of_ascii c = nat_of_ascii d).
  { pose proof (Nat.div_mod_eq (nat_of_ascii c) 16). pose proof (Nat.div_mod_eq (nat_of_ascii d) 16). lia. }
  apply (f_equal ascii_of_nat) in E. rewrite !ascii_nat_embedding in E. subst d. f_equal. by apply IH.
Qed.

Section invalidation.
Context `{HostLib} `{UT : UnicodeTables} `{FL : Floats} {S : Type} `{KVLaws S} `{PL : !PgTextLaws}.

(** The version shown: nothing, or a number that can still grow. *)
Definition version_shown (t : Z) (schema table : string) (v : Z) (s : S) : Prop :=
  0 <= v < maxSafeVersion - 1
  ∧ ((v = 0 ∧ kv_view t s !! version_key schema table = None)
     ∨ kv_view t s !! version_key schema table = Some (decimal v)).

Lemma small_int64 v : 0 <= v < maxSafeVersion → in_int64 v = true.
Proof. intros Hv. apply in_int64_spec. unfold maxSafeVersion, int64_min, int64_max in *. lia. Qed.

Lemma shown_version env schema table v s : kv_faults env KVGet = false →
  version_shown (kv_now env) schema table v s → getTableCacheVersion env schema table s = v.
Proof.
  intros Hf [Hr Hv]. unfold getTableCacheVersion, Get. rewrite law_Get by done.
  destruct Hv as [[-> ->]| ->]; [done|].
  assert (Hi : in_int64 v = true) by (apply small_int64; lia).
  destruct (String.eqb_spec (decimal v) "") as [E|_]; [|by rewrite Atoi_decimal].
  pose proof (Atoi_decimal v Hi) as Ha. rewrite E in Ha. discriminate Ha.
Qed.

Lemma counted_version t schema table v s : version_shown t schema table v s →
  counted (kv_view t s !! version_key schema table) 1 = Some (v + 1).
Proof.
  intros [Hr Hv]. assert (Hi : in_int64 (v + 1) = true) by (apply small_int64; lia).
  destruct Hv as [[-> ->]| ->]; [done|]. unfold counted. rewrite text_of_decimal by (apply small_int64; lia).
  simpl. by rewrite Hi.
Qed.

(** A write moves the version on for a day. *)
Lemma invalidated_version env t config schema table v s :
  cfg_CacheEnabled config = true → cfg_InvalidateOnMutation config = true →
  kv_faults env KVIncrement = false → version_shown (kv_now env) schema table v s →
  kv_now env <= t < kv_now env + defaultKeyExpiry →
  kv_view t (InvalidateTableCache env config schema table s) !! version_key schema table = Some (decimal (v + 1)).
Proof.
  intros He Hi Hf Hv Ht. unfold InvalidateTableCache, Increment. rewrite He, Hi. cbn [negb orb].
  rewrite law_Increment. destruct (law_IncrementBy env (version_key schema table) 1 0 s Hf) as [s' Hs].
  rewrite (counted_version _ _ _ v) in Hs by done. destruct Hs as [-> Hview].
  assert (Hlt : (maxSafeVersion <=? v + 1) = false) by (apply Z.leb_gt; destruct Hv; lia). rewrite Hlt.
  rewrite Hview by lia. unfold put. change (lifetime 0) with defaultKeyExpiry.
  destruct (Z.ltb_spec t (kv_now env + defaultKeyExpiry)); [|lia]. apply lookup_insert_eq.
Qed.

(** A write hides the responses cached before it: for a day after
    [InvalidateTableCache], the version of the table is one more than it was,
    and the key of every query on the table without embedded relations and
    without a suffix of its own differs from its key before, unless the hash
    collides; for every driver that keeps the laws. *)
Theorem invalidation_hides_older_responses env env' config schema table v q s :
  (∀ x y, sha256_Sum256 x = sha256_Sum256 y → x = y) →
  cfg_CacheEnabled config = true → cfg_InvalidateOnMutation config = true →
  kv_faults env KVIncrement = false → kv_faults env KVGet = false → kv_faults env' KVGet = false →
  version_shown (kv_now env) schema table v s →
  kv_now env <= kv_now env' < kv_now env + defaultKeyExpiry →
  let older := getCompositeTableCacheVersion env schema table [] s in
  let newer := getCompositeTableCacheVersion env' schema table [] (InvalidateTableCache env config schema table s) in
  older = v ∧ newer = v + 1
  ∧ GenerateUserVisibleRESTKeyWithVersion schema table q "" newer
    ≠ GenerateUserVisibleRESTKeyWithVersion schema table q "" older.
Proof.
  intros Hsha He Hi Hf Hg Hg' Hv Ht. unfold getCompositeTableCacheVersion. cbv zeta.
  rewrite (shown_version env schema table v s) by done.
  assert (Hnew : getTableCacheVersion env' schema table (InvalidateTableCache env config schema table s) = v + 1).
  { unfold getTableCacheVersion, Get. rewrite law_Get by done.
    rewrite (invalidated_version env (kv_now env') config schema table v s) by done.
    assert (Hin : in_int64 (v + 1) = true) by (apply small_int64; destruct Hv; lia).
    destruct (String.eqb_spec (decimal (v + 1)) "") as [E|_]; [|by rewrite Atoi_decimal].
    pose proof (Atoi_decimal (v + 1) Hin) as Ha. rewrite E in Ha. discriminate Ha. }
  rewrite Hnew. split_and!; try done. unfold GenerateUserVisibleRESTKeyWithVersion, BuildRESTQueryKeyWithVersion.
  cbn [String.eqb negb]. intros E%append_cancel_l%hex_inj%Hsha.
  apply (tuple_json_version (MkRESTQueryTuple schema table 0 _ _ _ _ _ _) (v + 1) v) in E;
    [lia|apply small_int64; destruct Hv; lia..].
Qed.
End invalidation.

(** ** Examples *)

Section cache_samples.
#[local] Existing Instance sample_host.
#[local] Existing Instance sample_decoders.
#[local] Existing Instance sample_pg.
#[local] Existing Instance ascii_tables.
#[local] Existing Instance integer_floats.

Definition sample_config : DataConfig := MkDataConfig ["public"] true 1000 50 ["secrets"] true 30 10000 true.

(** A list request of user "u1" on public.users. *)
Definition list_request (values : list (string * list string)) : DataRequest :=
  MkDataRequest (kr_Request (user_request "u1" ""))
    (λ name, if String.eqb name "schema_name" then "public" else if String.eqb name "table_name" then "users" else "")
    "/v1/data/public/users" values.

(** The list handler over a database whose rows are the text [rows]. *)
Definition sample_list (t : Z) (rows : SQLStatement → string) (values : list (string * list string)) (s : KVTable)
    : DataResponse * KVTable :=
  handleListRecords (kv_ok t) sa_ok ∅ false "" sample_config [] None
    (λ _ st, Ok [AString (rows st)]) (λ _ _, None) (λ l, match l with [AString x] => x | _ => "" end)
    (list_request values) s.

(** The first request stores its answer; the store after it. *)
Definition cached_store : KVTable := (sample_list 10 (λ _, "old") [] ∅).2.

Lemma flush_keeps_cached_responses_witness :
  d_body (sample_list 30 (λ _, "new") [] (InvalidateCache (kv_ok 20) (MkInvalidateCacheInput "" "" "" true true) cached_store)).1
  = "old".
Proof.
  assert (Hhit : d_CacheStatus (sample_list 30 (λ _, "new") [] cached_store).1 = "HIT"
                 ∧ d_body (sample_list 30 (λ _, "new") [] cached_store).1 = "old") by (split; vm_compute; reflexivity).
  destruct Hhit as [Hhit Hbody].
  transitivity (d_body (sample_list 30 (λ _, "new") [] cached_store).1); [|exact Hbody]. apply (f_equal d_body).
  eapply (flush_keeps_cached_responses sa_ok ∅ false "" sample_config [] None _ _ _ (kv_ok 20) (kv_ok 30)
    (list_request []) _ cached_store); [vm_compute; congruence|reflexivity|apply surjective_pairing|exact Hhit].
Defined.

Lemma list_records_origin_witness : ∃ st,
  BuildSelect (NewQueryBuilder "public" "users") (MkQueryParams [] [] [] [] 50 0 false "") (MkTableMetadata "id" [] []) = Ok st
  ∧ parameterised st.
Proof.
  destruct (list_records_origin sa_ok ∅ false "" sample_config [] None (λ _ st, Ok [AString "rows"]) (λ _ _, None)
    (λ _, "rows") (kv_ok 10) (list_request []) _ (∅ : KVTable) _ (Forall_nil_2 _) ltac:(vm_compute; congruence)
    (surjective_pairing _) eq_refl) as (schema & table & rid & md & q & Hp & _ & _ & _ & Hq & Hor).
  injection Hp as <- <- <- <-. injection Hq as <-.
  destruct Hor as [[Hhit _]|(st & rows & Hst & Hpar & _)]; [discriminate Hhit|]. by exists st.
Defined.

(** Another user's requests, of both kinds. *)
Definition foreign_steps : list DataStep :=
  [StepKV (kv_ok 20) RouteDelete (user_request "u2" "");
   StepList (kv_ok 25) None (λ _ _, Ok []) (λ _ _, None) (λ _, "[]")
     (MkDataRequest (kr_Request (user_request "u2" "")) (λ _, "") "/v1/data/public/users" [])].

Lemma data_requests_isolated_witness :
  kv_view 30 (run_steps sa_ok ∅ false "" sample_config [] foreign_steps cached_store)
    !! BuildInternalKey (MkCaller "authenticated" "u1" "") "rest:abc"
  = kv_view 30 cached_store !! BuildInternalKey (MkCaller "authenticated" "u1" "") "rest:abc".
Proof.
  apply (data_requests_isolated sa_ok ∅ false "" sample_config []).
  - vm_compute. done.
  - repeat constructor; vm_compute; done.
Defined.

Lemma invalidation_hides_older_responses_witness :
  getCompositeTableCacheVersion (kv_ok 20) "public" "users" [] (InvalidateTableCache (kv_ok 20) sample_config "public" "users" ∅) = 1.
Proof.
  assert (PL : @PgTextLaws sample_pg) by exact sample_pg_laws.
  apply (invalidation_hides_older_responses (kv_ok 20) (kv_ok 20) sample_config "public" "users" 0
           (MkQueryParams [] [] [] [] 50 0 false "") (∅ : KVTable)); try reflexivity.
  - intros x y E. exact E.
  - split; [split; [done|vm_compute; reflexivity]|]. left. split; vm_compute; reflexivity.
  - split; [done|vm_compute; reflexivity].
Defined.
(** A stale response comes back when the version of its table expires: with
    [cache_ttl] of two days, a response cached before a write is not served
    after the write, and is served again once the counter of the version, which
    lives for one day, is gone. *)
Theorem version_expiry_revives_stale_response :
  let hour := 3600 * Second in
  let two_days := [("cache_ttl", ["172800"])] in
  let first := sample_list 0 (λ _, "old") two_days ∅ in
  let written := InvalidateTableCache (kv_ok hour) sample_config "public" "users" first.2 in
  let after := sample_list (2 * hour) (λ _, "new") two_days written in
  let next_day := sample_list (26 * hour) (λ _, "new") two_days after.2 in
  (d_CacheStatus first.1, d_body first.1) = ("MISS", "old")
  ∧ (d_CacheStatus after.1, d_body after.1) = ("MISS", "new")
  ∧ (d_CacheStatus next_day.1, d_body next_day.1) = ("HIT", "old").
Proof. split_and!; vm_compute; reflexivity. Qed.

(** The rows of a query answer its negation: the body is the statement run. *)
Example negated_filter_served_from_cache :
  let eq := sample_list 10 st_SQL [("status", ["eq.active"])] ∅ in
  let ne := sample_list 20 st_SQL [("status", ["not.eq.active"])] eq.2 in
  d_CacheStatus ne.1 = "HIT" ∧ d_body ne.1 = d_body eq.1
  ∧ d_body (sample_list 20 st_SQL [("status", ["not.eq.active"])] ∅).1 ≠ d_body eq.1.
Proof. split_and!; vm_compute; congruence. Qed.
End cache_samples.

(** ** The key forgets negation *)

Section forgets.
Context `{HostLib} `{UT : UnicodeTables} `{FL : Floats}.

Definition equals_filter (negated : bool) (column value : string) : FilterOp :=
  MkFilterOp column "eq" value "" [] negated.

Definition filtered_query (limit : Z) (filters : list FilterOp) : QueryParams :=
  MkQueryParams [] [] filters [] limit 0 false "".

Definition parameter_names : list string :=
  ["select"; "order"; "limit"; "offset"; "count"; "on_conflict"; "cache_ttl"; "cache_key"; "cache_key_suffix"].

Lemma parse_equals negated column value d m : IsValidIdentifier column = true → column ∉ parameter_names →
  ParseQueryParams [(column, [(if negated : bool then "not.eq." else "eq.") ++ value])] d m
  = Ok (filtered_query d [equals_filter negated column value]).
Proof.
  intros Hc Hn. unfold ParseQueryParams. cbn [parse_params]. unfold parse_param.
  assert (Hne : ∀ x, x ∈ parameter_names → String.eqb column x = false).
  { intros x Hx. apply String.eqb_neq. intros ->. done. }
  rewrite !Hne by (unfold parameter_names; set_solver).
  rewrite bool_decide_eq_false_2 by (intros Hin; apply Hn, (elem_of_app (take 6 parameter_names)); by right).
  cbn [parse_filters qp_Filters app]. unfold parseFilter. rewrite Hc. cbn [negb].
  destruct negated; reflexivity.
Qed.

Lemma select_equals schema table md column value d : IsValidIdentifier column = true → ∃ before after,
  ∀ negated, BuildSelect (NewQueryBuilder schema table) (filtered_query d [equals_filter negated column value]) md
    = Ok (MkSQLStatement (before ++ (if negated : bool then " != " else " = ") ++ after) [AString value]).
Proof.
  intros Hc. set (qb := NewQueryBuilder schema table).
  exists (("SELECT " ++ (dq (qb_table qb) ++ ".*") ++ " FROM " ++ dq (qb_schema qb) ++ "." ++ dq (qb_table qb))
          ++ " WHERE " ++ column_ref qb column),
    (hole 1 ++ (if 0 <? d then " LIMIT " ++ decimal d else "")).
  intros negated. unfold BuildSelect, filtered_query.
  cbn [qp_Filters qp_Fields qp_Embedded qp_Orders qp_Limit qp_Offset buildWhere where_loop].
  unfold filter_clause, equals_filter. cbn [fo_Column fo_Op fo_Negated fo_Value]. rewrite Hc. cbn [negb].
  change (String.eqb "eq" "eq") with true. change (0 <? 0) with false. cbn match.
  cbn [app all_columns fmap list_fmap Join].
  unfold with_where, compare_clause. set (w := column_ref qb column ++ _ ++ hole 1).
  change (String.eqb w "") with false. cbn match. do 2 f_equal. unfold w.
  destruct (0 <? d); rewrite ?append_empty, !append_assoc; reflexivity.
Qed.

(** A cached response does not distinguish a filter from its negation: for
    every table, column and value, the queries [column=eq.value] and
    [column=not.eq.value] have the same cache key at every table version, and
    select different rows: their statements differ. *)
Theorem negated_filters_share_cache_key schema table column value suffix version d m md :
  IsValidIdentifier column = true → column ∉ parameter_names →
  ∃ q q', ParseQueryParams [(column, ["eq." ++ value])] d m = Ok q
    ∧ ParseQueryParams [(column, ["not.eq." ++ value])] d m = Ok q'
    ∧ GenerateUserVisibleRESTKeyWithVersion schema table q suffix version
      = GenerateUserVisibleRESTKeyWithVersion schema table q' suffix version
    ∧ BuildSelect (NewQueryBuilder schema table) q md ≠ BuildSelect (NewQueryBuilder schema table) q' md.
Proof.
  intros Hc Hn. exists (filtered_query d [equals_filter false column value]), (filtered_query d [equals_filter true column value]).
  split; [by apply (parse_equals false)|]. split; [by apply (parse_equals true)|]. split; [done|].
  destruct (select_equals schema table md column value d Hc) as (before & after & Hst).
  rewrite !Hst. intros [= E%append_cancel_l]. discriminate E.
Qed.
End forgets.

Lemma negated_filters_share_cache_key_witness : ∃ q q',
  @GenerateUserVisibleRESTKeyWithVersion sample_host "public" "users" q "" 0
  = @GenerateUserVisibleRESTKeyWithVersion sample_host "public" "users" q' "" 0
  ∧ qp_Filters q = [equals_filter false "status" "active"] ∧ qp_Filters q' = [equals_filter true "status" "active"].
Proof.
  assert (Hn : "status" ∉ parameter_names) by (apply (bool_decide_unpack _); vm_compute; exact I).
  destruct (@negated_filters_share_cache_key sample_host ascii_tables integer_floats "public" "users" "status" "active" "" 0 50 1000
    (MkTableMetadata "id" [] []) eq_refl Hn) as (q & q' & Hq & Hq' & Hkey & _).
  exists q, q'. split; [exact Hkey|].
  split; [injection Hq as <-|injection Hq' as <-]; reflexivity.
Defined.

(** ** Callers with the role "anon" *)

(** The subject of a caller whose role is "anon" is not part of the key: all
    such callers share one namespace. *)
Lemma anon_subjects_share_namespace subject subject' k :
  BuildInternalKey (MkCaller "anon" subject "") k = BuildInternalKey (MkCaller "anon" subject' "") k.
Proof. reflexivity. Qed.
