(* ===== verification/DataConfig.v ===== *)
(** * data/config.go: the settings of the data service

    Defaults, validation, and the manager that keeps the settings in memory and
    in the table data.config.  The lists among the settings are Go slices: a
    copy of the settings shares their arrays, and JSON that is decoded over the
    copy is written into them.  So a slice is the array with the length that is
    in use, and decoding gives what the holder of the old slice sees as well as
    the new one.

    Shown: settings in memory and in the table are valid after any sequence of
    loads and updates, an accepted update is what is stored and read back, and
    an update that is refused changes the lists in memory all the same.

    Parameters: JSON, with the law that what is written is read back. *)

From stdpp Require Import list strings.
From Stdlib Require Import ZArith Lia Ascii String.
From S2P Require Import Prelude GoStrings.
Local Open Scope string_scope.
Local Open Scope Z_scope.

(** ** Settings *)

Record RESTConfig := MkRESTConfig { rest_Enabled : bool; rest_MaxLimit : Z; rest_DefaultLimit : Z }.
Record GraphQLConfig := MkGraphQLConfig {
  gql_Enabled : bool; gql_MaxDepth : Z; gql_MaxComplexity : Z; gql_DefaultLimit : Z; gql_IntrospectionEnabled : bool }.
Record RealtimeConfig := MkRealtimeConfig {
  rtc_Enabled : bool; rtc_HeartbeatIntervalMS : Z; rtc_MaxChannelsPerConnection : Z; rtc_MaxConnections : Z }.
Record CacheConfig := MkCacheConfig {
  cache_Enabled : bool; cache_CatalogTTLSeconds : Z; cache_QueryTTLSeconds : Z; cache_MaxCachedQueries : Z;
  cache_InvalidateOnMutation : bool; cache_InvalidateOnCDC : bool }.
Record RateLimitingConfig := MkRateLimitingConfig { rate_Enabled : bool; rate_RequestsPerMinute : Z; rate_Burst : Z }.

(** The settings that are no lists. *)
Record Scalars := MkScalars {
  s_REST : RESTConfig; s_GraphQL : GraphQLConfig; s_Realtime : RealtimeConfig; s_Cache : CacheConfig; s_RateLimiting : RateLimitingConfig }.

(** The lists: [Schemas], [REST.ExcludedTables] and those of [CORSConfig]. *)
Record Lists (X : Type) := MkLists { l_Schemas : X; l_ExcludedTables : X; l_AllowedOrigins : X; l_AllowedHeaders : X }.
Arguments MkLists {X}.
Arguments l_Schemas {X}.
Arguments l_ExcludedTables {X}.
Arguments l_AllowedOrigins {X}.
Arguments l_AllowedHeaders {X}.
Definition lists_map {X Y} (f : X → Y) (l : Lists X) : Lists Y :=
  MkLists (f (l_Schemas l)) (f (l_ExcludedTables l)) (f (l_AllowedOrigins l)) (f (l_AllowedHeaders l)).
Definition lists_zip {X Y W} (f : X → Y → W) (l : Lists X) (l' : Lists Y) : Lists W :=
  MkLists (f (l_Schemas l) (l_Schemas l')) (f (l_ExcludedTables l) (l_ExcludedTables l'))
    (f (l_AllowedOrigins l) (l_AllowedOrigins l')) (f (l_AllowedHeaders l) (l_AllowedHeaders l')).

Record Config (X : Type) := MkConfig { cfg_Scalars : Scalars; cfg_Lists : Lists X }.
Arguments MkConfig {X}.
Arguments cfg_Scalars {X}.
Arguments cfg_Lists {X}.

(** A slice of texts: an array of which the first elements are in use. *)
Record Slice := MkSlice { array : list string; used : nat }.
Definition view (s : Slice) : list string := take (used s) (array s).
Definition fresh (l : list string) : Slice := MkSlice l (List.length l).
Definition config_view (c : Config Slice) : Config (list string) := MkConfig (cfg_Scalars c) (lists_map view (cfg_Lists c)).
Definition config_fresh (c : Config (list string)) : Config Slice := MkConfig (cfg_Scalars c) (lists_map fresh (cfg_Lists c)).

Definition default_schemas : list string := ["public"; "reference_data"].
Definition DefaultConfig : Config (list string) :=
  MkConfig
    (MkScalars (MkRESTConfig true 1000 50) (MkGraphQLConfig true 8 500 100 true) (MkRealtimeConfig true 30000 50 10000)
       (MkCacheConfig true 3600 30 10000 true true) (MkRateLimitingConfig false 600 100))
    (MkLists default_schemas ["schema_migrations"; "secrets"] ["*"] ["Authorization"; "Content-Type"; "X-Custom-Header"]).

Inductive InvalidSetting :=
| BadMaxLimit (n : Z) | BadDefaultLimit (n : Z) | BadMaxDepth (n : Z) | BadMaxComplexity (n : Z) | BadHeartbeat (n : Z) | BadMaxChannels (n : Z).

Definition Validate (s : Scalars) : option InvalidSetting :=
  if rest_MaxLimit (s_REST s) <=? 0 then Some (BadMaxLimit (rest_MaxLimit (s_REST s)))
  else if rest_DefaultLimit (s_REST s) <=? 0 then Some (BadDefaultLimit (rest_DefaultLimit (s_REST s)))
  else if gql_MaxDepth (s_GraphQL s) <=? 0 then Some (BadMaxDepth (gql_MaxDepth (s_GraphQL s)))
  else if gql_MaxComplexity (s_GraphQL s) <=? 0 then Some (BadMaxComplexity (gql_MaxComplexity (s_GraphQL s)))
  else if rtc_HeartbeatIntervalMS (s_Realtime s) <=? 0 then Some (BadHeartbeat (rtc_HeartbeatIntervalMS (s_Realtime s)))
  else if rtc_MaxChannelsPerConnection (s_Realtime s) <=? 0 then Some (BadMaxChannels (rtc_MaxChannelsPerConnection (s_Realtime s)))
  else None.

(** ** Decoding over settings *)

(** A list as JSON gives it; an element that is null is left as it was. *)
Inductive GivenList := Absent | Null | Elements (l : list (option string)).

(** What the array holds once [l] has been decoded into it: elements beyond its
    end go to a new one. *)
Fixpoint overwrite (arr : list string) (l : list (option string)) : list string :=
  match l, arr with
  | g :: l, a :: arr => default a g :: overwrite arr l
  | _, _ => arr
  end.
Fixpoint decoded (arr : list string) (l : list (option string)) : list string :=
  match l with
  | [] => []
  | g :: l => default (default "" (head arr)) g :: decoded (tail arr) l
  end.

(** The slice as its holder sees it afterwards, and the slice that is decoded. *)
Definition decode_list (s : Slice) (given : GivenList) : Slice * Slice :=
  match given with
  | Absent => (s, s)
  | Null | Elements [] => (s, fresh [])
  | Elements l =>
      let arr := overwrite (array s) l in
      (MkSlice arr (used s), if (List.length l <=? List.length (array s))%nat then MkSlice arr (List.length l) else fresh (decoded (array s) l))
  end.

(** A JSON object for settings: how it changes those that are no lists, the
    lists it gives, and whether it has a value of a wrong type. *)
Record Patch := MkPatch { p_Scalars : Scalars → Scalars; p_Lists : Lists GivenList; p_TypeError : bool }.

Definition decode_shared (c : Config Slice) (p : Patch) : Config Slice :=
  MkConfig (cfg_Scalars c) (lists_zip (λ s g, (decode_list s g).1) (cfg_Lists c) (p_Lists p)).
Definition decode_copy (c : Config Slice) (p : Patch) : Config Slice :=
  MkConfig (p_Scalars p (cfg_Scalars c)) (lists_zip (λ s g, (decode_list s g).2) (cfg_Lists c) (p_Lists p)).

Class ConfigJSON := MkConfigJSON {
  (** [None]: the text does not begin with a JSON value. *)
  decode_patch : string → option Patch;
  encode_config : Config (list string) → string;
  decode_stored : string → option (Config (list string)) }.
Class ConfigJSONLaws `{ConfigJSON} := { law_stored : ∀ c, decode_stored (encode_config c) = Some c }.

(** ** The manager *)

Inductive ConfigError := ErrInvalidConfig (e : InvalidSetting) | ConfigQueryFailed | ConfigParseFailed | ConfigSaveFailed.
Inductive ConfigStmt := SelectConfig | UpsertConfig.

Record ConfigState := MkConfigState { cs_memory : Config Slice; cs_row : option string }.

Section manager.
Context `{ConfigJSON} (faults : ConfigStmt → bool).

Definition GetConfig (st : ConfigState) : Config (list string) := config_view (cs_memory st).
Definition SetMemoryConfig (c : Config Slice) (st : ConfigState) : ConfigState := MkConfigState c (cs_row st).

Definition with_schemas (c : Config Slice) : Config Slice :=
  match view (l_Schemas (cfg_Lists c)) with
  | [] => MkConfig (cfg_Scalars c)
            (MkLists (fresh default_schemas) (l_ExcludedTables (cfg_Lists c)) (l_AllowedOrigins (cfg_Lists c)) (l_AllowedHeaders (cfg_Lists c)))
  | _ => c
  end.

(** An accepted change is announced with the settings it leaves. *)
Definition SetConfig (c : Config Slice) (st : ConfigState) : result ConfigError (Config (list string)) * ConfigState :=
  match Validate (cfg_Scalars c) with
  | Some e => (Err (ErrInvalidConfig e), st)
  | None =>
      let c := with_schemas c in
      if faults UpsertConfig then (Err ConfigSaveFailed, st) else
      (Ok (config_view c), SetMemoryConfig c (MkConfigState (cs_memory st) (Some (encode_config (config_view c)))))
  end.

(** The settings that were stored, and announced, when there were none. *)
Definition LoadConfig (st : ConfigState) : result ConfigError (option (Config (list string))) * ConfigState :=
  if faults SelectConfig then (Err ConfigQueryFailed, st) else
  match cs_row st with
  | None => match SetConfig (config_fresh DefaultConfig) st with (Ok c, st) => (Ok (Some c), st) | (Err e, st) => (Err e, st) end
  | Some text =>
      match decode_stored text with
      | None => (Err ConfigParseFailed, st)
      | Some c => match Validate (cfg_Scalars c) with
                  | Some e => (Err (ErrInvalidConfig e), st)
                  | None => (Ok None, SetMemoryConfig (config_fresh c) st)
                  end
      end
  end.

(** Settings decoded over those in memory and stored.  [None]: not decoded. *)
Definition update_config (body : option string) (st : ConfigState) : option (result ConfigError (Config (list string))) * ConfigState :=
  match body ≫= decode_patch with
  | None => (None, st)
  | Some p =>
      let c := decode_copy (cs_memory st) p in
      let st := SetMemoryConfig (decode_shared (cs_memory st) p) st in
      if p_TypeError p then (None, st) else let '(r, st) := SetConfig c st in (Some r, st)
  end.
End manager.

(** ** What is kept *)

Section proofs.
Context `{ConfigJSON} `{!ConfigJSONLaws}.

(** A slice has no more elements in use than its array. *)
Definition slice_wf (s : Slice) : Prop := (used s <= List.length (array s))%nat.
Definition config_wf (c : Config Slice) : Prop :=
  Validate (cfg_Scalars c) = None
  ∧ slice_wf (l_Schemas (cfg_Lists c)) ∧ slice_wf (l_ExcludedTables (cfg_Lists c))
  ∧ slice_wf (l_AllowedOrigins (cfg_Lists c)) ∧ slice_wf (l_AllowedHeaders (cfg_Lists c)).
Definition state_wf (st : ConfigState) : Prop :=
  config_wf (cs_memory st)
  ∧ ∀ text, cs_row st = Some text → ∃ c, decode_stored text = Some c ∧ Validate (cfg_Scalars c) = None.

Lemma overwrite_length arr l : List.length (overwrite arr l) = List.length arr.
Proof. revert arr. induction l as [|g l IH]; intros [|a arr]; cbn; try done. by rewrite IH. Qed.

Lemma overwrite_take arr l : (List.length l <= List.length arr)%nat → take (List.length l) (overwrite arr l) = decoded arr l.
Proof.
  revert arr. induction l as [|g l IH]; intros [|a arr] Hl; cbn in *; try done; try lia. by rewrite IH by lia.
Qed.

Lemma decoded_length arr l : List.length (decoded arr l) = List.length l.
Proof. revert arr. induction l as [|g l IH]; intros arr; cbn; [done|by rewrite IH]. Qed.

Lemma fresh_wf l : slice_wf (fresh l).
Proof. unfold slice_wf. cbn. lia. Qed.
Lemma view_fresh l : view (fresh l) = l.
Proof. apply firstn_all. Qed.

Lemma decode_list_wf s given : slice_wf s → slice_wf (decode_list s given).1 ∧ slice_wf (decode_list s given).2.
Proof.
  unfold slice_wf. intros Hs. destruct given as [| |[|g l]]; cbn [decode_list fst snd]; try (split; [done|cbn; lia]).
  cbn [array used]. rewrite overwrite_length. split; [done|]. destruct (Nat.leb_spec (List.length (g :: l)) (List.length (array s))); cbn [array used fresh].
  - by rewrite overwrite_length.
  - lia.
Qed.

Lemma decode_shared_wf c p : config_wf c → config_wf (decode_shared c p).
Proof. intros (Hv & H1 & H2 & H3 & H4). split; [done|]. cbn. split_and!; by apply decode_list_wf. Qed.

Lemma with_schemas_wf c : config_wf c → config_wf (with_schemas c).
Proof.
  intros Hc. unfold with_schemas. destruct (view _); [|done]. destruct Hc as (? & ? & ? & ? & ?). split_and!; try done. apply fresh_wf.
Qed.

Lemma SetConfig_wf faults c st : state_wf st →
  (Validate (cfg_Scalars c) = None → config_wf c) → state_wf (SetConfig faults c st).2.
Proof.
  intros Hst Hc. unfold SetConfig. destruct (Validate (cfg_Scalars c)) eqn:Ev; [done|]. cbn zeta. destruct (faults UpsertConfig); [done|].
  pose proof (with_schemas_wf _ (Hc eq_refl)) as Hw. split; [done|]. cbn. intros text [= <-]. eexists. split; [apply law_stored|]. apply Hw.
Qed.

Lemma config_fresh_wf c : Validate (cfg_Scalars c) = None → config_wf (config_fresh c).
Proof. intros. split; [done|]. cbn. split_and!; apply fresh_wf. Qed.

Lemma LoadConfig_wf faults st : state_wf st → state_wf (LoadConfig faults st).2.
Proof.
  intros Hst. unfold LoadConfig. destruct (faults SelectConfig); [done|]. destruct (cs_row st) as [text|] eqn:Er.
  - destruct (decode_stored text) as [c|]; [|done]. destruct (Validate (cfg_Scalars c)) eqn:Ev; [done|]. split; [by apply config_fresh_wf|].
    exact (proj2 Hst).
  - pose proof (SetConfig_wf faults (config_fresh DefaultConfig) st Hst (λ _, config_fresh_wf DefaultConfig eq_refl)) as Hw.
    by destruct (SetConfig faults (config_fresh DefaultConfig) st) as [[] st'].
Qed.

Lemma memory_wf c st : config_wf c → state_wf st → state_wf (SetMemoryConfig c st).
Proof. intros Hc [_ Hr]. by split. Qed.

Lemma update_config_wf faults body st : state_wf st → state_wf (update_config faults body st).2.
Proof.
  intros Hst. unfold update_config. destruct (body ≫= decode_patch) as [p|]; [|done]. cbn zeta.
  pose proof (memory_wf _ _ (decode_shared_wf _ p (proj1 Hst)) Hst) as Hst'. destruct (p_TypeError p); [done|].
  destruct Hst as [(_ & H1 & H2 & H3 & H4) _]. match goal with |- context [SetConfig faults ?c ?s] => pose proof (SetConfig_wf faults c s Hst') as Hw end.
  destruct (SetConfig _ _ _) as [r st']. apply Hw. intros Hv. split; [done|]. cbn. split_and!; by apply decode_list_wf.
Qed.

(** The value a list has once it has been decoded. *)
Definition given_value (s : Slice) (given : GivenList) : list string :=
  match given with Absent => view s | Null => [] | Elements l => decoded (array s) l end.

Lemma decode_list_view s given : view (decode_list s given).2 = given_value s given.
Proof.
  destruct given as [| |[|g l]]; try done. cbn [decode_list fst snd given_value].
  destruct (Nat.leb_spec (List.length (g :: l)) (List.length (array s))); [by apply overwrite_take|apply view_fresh].
Qed.

Lemma decoded_texts arr (l : list string) : decoded arr (Some <$> l) = l.
Proof. revert arr. induction l as [|x l IH]; intros arr; cbn; [done|by rewrite IH]. Qed.

Inductive ConfigOp := LoadOp (faults : ConfigStmt → bool) | UpdateOp (faults : ConfigStmt → bool) (body : option string).
Definition config_op (op : ConfigOp) (st : ConfigState) : ConfigState :=
  match op with LoadOp faults => (LoadConfig faults st).2 | UpdateOp faults body => (update_config faults body st).2 end.
(** The manager of a new process. *)
Definition NewConfigManager (row : option string) : ConfigState := MkConfigState (config_fresh DefaultConfig) row.

(** whatever is loaded and requested, the settings in memory are valid, and
    so are those in the table if they were. *)
Theorem settings_stay_valid ops row :
  (∀ text, row = Some text → ∃ c, decode_stored text = Some c ∧ Validate (cfg_Scalars c) = None) →
  let st := foldl (λ st op, config_op op st) (NewConfigManager row) ops in
  Validate (cfg_Scalars (GetConfig st)) = None
  ∧ ∀ text, cs_row st = Some text → ∃ c, decode_stored text = Some c ∧ Validate (cfg_Scalars c) = None.
Proof.
  intros Hrow st. assert (Hst : state_wf st) by (
    unfold st; assert (Hw : state_wf (NewConfigManager row)) by (split; [by apply config_fresh_wf|done]);
    revert Hw; generalize (NewConfigManager row); induction ops as [|[faults|faults body] ops IH]; intros st0 Hw; cbn [foldl config_op];
      [done|apply IH; by apply LoadConfig_wf|apply IH; by apply update_config_wf]).
  destruct Hst as [[Hv _] Hr]. by split.
Qed.

(** an update that is accepted leaves the settings that were asked for, in
    memory and in the table alike; without schemas it gets the default ones. *)
Theorem update_accepted faults body st c st' : update_config faults body st = (Some (Ok c), st') →
  GetConfig st' = c ∧ (text ← cs_row st'; decode_stored text) = Some c ∧ l_Schemas (cfg_Lists c) ≠ []
  ∧ ∃ p, body ≫= decode_patch = Some p ∧ cfg_Scalars c = p_Scalars p (cfg_Scalars (cs_memory st))
    ∧ let asked := lists_zip given_value (cfg_Lists (cs_memory st)) (p_Lists p) in
      cfg_Lists c = MkLists (match l_Schemas asked with [] => default_schemas | l => l end)
                      (l_ExcludedTables asked) (l_AllowedOrigins asked) (l_AllowedHeaders asked).
Proof.
  unfold update_config. destruct (body ≫= decode_patch) as [p|]; [|done]. cbn zeta. destruct (p_TypeError p); [done|].
  unfold SetConfig. destruct (Validate _); [done|]. destruct (faults UpsertConfig); [done|]. intros [= <- <-].
  set (d := decode_copy (cs_memory st) p).
  assert (Hl : lists_map view (cfg_Lists d) = lists_zip given_value (cfg_Lists (cs_memory st)) (p_Lists p)).
  { unfold d, decode_copy, lists_map, lists_zip. cbn. by rewrite !decode_list_view. }
  assert (Hd : config_view (with_schemas d) = MkConfig (cfg_Scalars d)
            (let asked := lists_zip given_value (cfg_Lists (cs_memory st)) (p_Lists p) in
             MkLists (match l_Schemas asked with [] => default_schemas | l => l end)
               (l_ExcludedTables asked) (l_AllowedOrigins asked) (l_AllowedHeaders asked))).
  { cbn zeta. rewrite <- Hl. unfold with_schemas, config_view, lists_map. cbn [l_Schemas l_ExcludedTables l_AllowedOrigins l_AllowedHeaders].
    destruct (view (l_Schemas (cfg_Lists d))) as [|x l] eqn:E; cbn [cfg_Scalars cfg_Lists]; [|by rewrite E].
    f_equal. }
  split; [done|]. split; [apply law_stored|]. rewrite Hd. split; [cbn; by destruct (given_value _ _)|]. by exists p.
Qed.

(** *** Shortcomings *)

(** The lists of an update that is refused are in force nevertheless, as far
    as the arrays of those in force reach. *)
Lemma refused_update_changes_settings faults body st p e l :
  body ≫= decode_patch = Some p → p_TypeError p = false → Validate (p_Scalars p (cfg_Scalars (cs_memory st))) = Some e →
  let s := l_Schemas (cfg_Lists (cs_memory st)) in
  l_Schemas (p_Lists p) = Elements (Some <$> l) → used s = List.length l → List.length (array s) = List.length l →
  ∃ st', update_config faults body st = (Some (Err (ErrInvalidConfig e)), st') ∧ l_Schemas (cfg_Lists (GetConfig st')) = l.
Proof.
  intros Hb Ht He s Hl Hu Ha. unfold update_config. rewrite Hb. cbn zeta. rewrite Ht. unfold SetConfig. cbn [cfg_Scalars decode_copy]. rewrite He.
  eexists. split; [done|]. cbn. rewrite Hl. fold s. destruct l as [|x l]; cbn [fmap list_fmap decode_list fst].
  - unfold view. by rewrite Hu.
  - unfold view. cbn [used array]. rewrite Hu. change (Some x :: list_fmap _ _ Some l) with (Some <$> (x :: l)).
    rewrite <- (length_fmap Some (x :: l)), overwrite_take; [exact (decoded_texts _ (x :: l))|]. cbn [List.length]. rewrite length_fmap, Ha. done.
Qed.
End proofs.

Section samples.
(** A table of two updates: one that is refused and one that is not. *)
Definition sample_patch (text : string) : option Patch :=
  if String.eqb text "refused"
  then Some (MkPatch (λ s, MkScalars (MkRESTConfig true 0 50) (s_GraphQL s) (s_Realtime s) (s_Cache s) (s_RateLimiting s))
               (MkLists (Elements [Some "auth"; Some "core"]) Absent Absent Absent) false)
  else if String.eqb text "accepted"
  then Some (MkPatch (λ s, s) (MkLists (Elements [Some "public"]) (Elements [Some "a"; Some "b"; Some "c"]) Absent Null) false)
  else None.

(** Settings as a text: their number in binary. *)
#[local] Instance REST_eq : EqDecision RESTConfig. Proof. solve_decision. Defined.
#[local] Instance GraphQL_eq : EqDecision GraphQLConfig. Proof. solve_decision. Defined.
#[local] Instance Realtime_eq : EqDecision RealtimeConfig. Proof. solve_decision. Defined.
#[local] Instance Cache_eq : EqDecision CacheConfig. Proof. solve_decision. Defined.
#[local] Instance RateLimiting_eq : EqDecision RateLimitingConfig. Proof. solve_decision. Defined.
#[local] Instance Scalars_eq : EqDecision Scalars. Proof. solve_decision. Defined.
#[local] Instance Lists_eq : EqDecision (Lists (list string)). Proof. solve_decision. Defined.
#[local] Instance Config_eq : EqDecision (Config (list string)). Proof. solve_decision. Defined.

Definition settings_tuple (c : Config (list string)) :=
  let s := cfg_Scalars c in let l := cfg_Lists c in
  let '(MkRESTConfig a b d) := s_REST s in let '(MkGraphQLConfig e f g h i) := s_GraphQL s in
  let '(MkRealtimeConfig j k m n) := s_Realtime s in let '(MkCacheConfig o p q r t u) := s_Cache s in
  let '(MkRateLimitingConfig v w x) := s_RateLimiting s in
  ((a, b, d, (e, f, g, h, i)), (j, k, m, n), (o, p, q, (r, t, u)), (v, w, x),
   (l_Schemas l, l_ExcludedTables l, l_AllowedOrigins l, l_AllowedHeaders l)).
Definition tuple_settings (y : bool * Z * Z * (bool * Z * Z * Z * bool) * (bool * Z * Z * Z) * (bool * Z * Z * (Z * bool * bool))
    * (bool * Z * Z) * (list string * list string * list string * list string)) : Config (list string) :=
  let '((a, b, d, (e, f, g, h, i)), (j, k, m, n), (o, p, q, (r, t, u)), (v, w, x), (l1, l2, l3, l4)) := y in
  MkConfig (MkScalars (MkRESTConfig a b d) (MkGraphQLConfig e f g h i) (MkRealtimeConfig j k m n) (MkCacheConfig o p q r t u)
              (MkRateLimitingConfig v w x)) (MkLists l1 l2 l3 l4).
Lemma tuple_settings_tuple c : tuple_settings (settings_tuple c) = c.
Proof. by destruct c as [[[] [] [] [] []] []]. Qed.

Fixpoint binary (p : positive) : string :=
  match p with xH => "" | xO p => String "0" (binary p) | xI p => String "1" (binary p) end.
Fixpoint unbinary (s : string) : positive :=
  match s with EmptyString => xH | String c s => if Ascii.eqb c "0" then xO (unbinary s) else xI (unbinary s) end.
Lemma unbinary_binary p : unbinary (binary p) = p.
Proof. induction p as [p IH|p IH|]; cbn; [by rewrite IH..|done]. Qed.

#[local] Instance sample_json : ConfigJSON := {|
  decode_patch := sample_patch; encode_config := λ c, binary (encode (settings_tuple c));
  decode_stored := λ text, tuple_settings <$> decode (unbinary text) |}.
#[local] Instance sample_json_laws : ConfigJSONLaws.
Proof. split. intros c. cbn. rewrite unbinary_binary, decode_encode. cbn. by rewrite tuple_settings_tuple. Qed.

Lemma settings_stay_valid_witness :
  Validate (cfg_Scalars (GetConfig (update_config (λ _, false) (Some "refused") (LoadConfig (λ _, false) (NewConfigManager None)).2).2)) = None.
Proof.
  apply (settings_stay_valid [LoadOp (λ _, false); UpdateOp (λ _, false) (Some "refused")] None). intros text Ht. discriminate Ht.
Defined.

Definition accepted_settings : Config (list string) :=
  MkConfig (cfg_Scalars DefaultConfig) (MkLists ["public"] ["a"; "b"; "c"] ["*"] []).
Lemma update_accepted_witness : ∃ st', update_config (λ _, false) (Some "accepted") (NewConfigManager None) = (Some (Ok accepted_settings), st')
  ∧ GetConfig st' = accepted_settings.
Proof.
  eexists. split; [reflexivity|]. apply (update_accepted (λ _, false) (Some "accepted") (NewConfigManager None) accepted_settings). reflexivity.
Defined.

Example refused_is_in_force :
  l_Schemas (cfg_Lists (GetConfig (update_config (λ _, false) (Some "refused") (NewConfigManager None)).2)) = ["auth"; "core"].
Proof. reflexivity. Qed.
Example accepted_is_in_force :
  cfg_Lists (GetConfig (update_config (λ _, false) (Some "accepted") (NewConfigManager None)).2)
  = MkLists ["public"] ["a"; "b"; "c"] ["*"] [].
Proof. reflexivity. Qed.
End samples.
