(* ===== verification/RealtimeFilter.v ===== *)
(** * The filters of data/realtime/hub.go

    What a subscription asks of the rows it is told about: conditions joined by
    "&", each a column, an operator and a target, evaluated on the record of a
    change as it was decoded from JSON.  An outcome [None] is a panic: a pattern
    that is no valid UTF-8 makes [regexp.MustCompile] panic.

    What the theorems show: conditions are conjoined, a pattern without
    wildcards matches one text, [%] stands for any text without a line break,
    and where filters fall short of what they say.

    Parameter: the case orbits of Unicode that the flag [(?i)] goes by. *)

From S2P Require Import Prelude GoStrings GoRunes GoValues URLQuery.
From Stdlib Require Import ZArith Lia Ascii String.
Local Open Scope string_scope.
Local Open Scope Z_scope.

Class CaseOrbits := { same_orbit : rune → rune → bool }.

(** ** Patterns *)

(** What the built expression is made of: [.*], [.], and a rune for itself. *)
Inductive LikeItem := LikeAny | LikeOne | LikeRune (r : rune).

Definition like_item (r : rune) : LikeItem :=
  if (r =? 42) || (r =? 37) then LikeAny else if r =? 95 then LikeOne else LikeRune r.

(** A dot of an expression does not match a line break. *)
Definition dot (r : rune) : bool := negb (r =? 10).

Section like.
Context (same : rune → rune → bool).

(** [^...$] against the whole text. *)
Fixpoint like_match (items : list LikeItem) (text : list rune) : bool :=
  match items with
  | [] => match text with [] => true | _ => false end
  | LikeRune r :: items => match text with t :: text => same r t && like_match items text | [] => false end
  | LikeOne :: items => match text with t :: text => dot t && like_match items text | [] => false end
  | LikeAny :: items =>
      (fix any_text (text : list rune) : bool :=
        like_match items text || match text with t :: text => dot t && any_text text | [] => false end) text
  end.
End like.

Section filter.
Context `{FL : Floats} `{CO : CaseOrbits}.

Definition matchLike (text pattern : string) (caseInsensitive : bool) : option bool :=
  if ValidString pattern
  then Some (like_match (if caseInsensitive then same_orbit else Z.eqb) (like_item <$> runes pattern) (runes text))
  else None.

Definition toFloat64 (value : any) : option float64 :=
  match value with
  | AFloat f => Some f
  | AInt z => Some (float_of_int z)
  | AString s => ParseFloat s
  | _ => None
  end.

(** ** Conditions *)

(** [recordItem != nil]: the member is there and is not null. *)
Definition is_set (item : option any) : bool := match item with None | Some ANil => false | _ => true end.

Definition is_target (item : option any) (target : string) : bool :=
  if String.eqb target "null" then negb (is_set item)
  else if String.eqb target "not.null" then is_set item
  else if String.eqb target "true" || String.eqb target "false" then
    match item with Some v => String.eqb (format_v v) target | None => false end
  else false.

Definition compare_item (filterOp : string) (item : any) (target : string) : bool :=
  match toFloat64 item, ParseFloat target with
  | Some n, Some t =>
      if String.eqb filterOp "gt" then negb (float_leb n t)
      else if String.eqb filterOp "gte" then negb (float_ltb n t)
      else if String.eqb filterOp "lt" then negb (float_leb t n)
      else negb (float_ltb t n)
  | _, _ =>
      let s := format_v item in
      if String.eqb filterOp "gt" then negb (string_leb s target)
      else if String.eqb filterOp "gte" then negb (string_ltb s target)
      else if String.eqb filterOp "lt" then negb (string_leb target s)
      else negb (string_ltb target s)
  end.

Definition in_items (item : any) (target : string) : bool :=
  existsb (λ i, String.eqb (TrimSpace i) (format_v item)) (Split (TrimSuffix (TrimPrefix target "(") ")") ",").

Definition is_ordering (filterOp : string) : bool := existsb (String.eqb filterOp) ["gt"; "gte"; "lt"; "lte"].

(** An operator on a member that is there and not null. *)
Definition set_item_ok (filterOp : string) (item : any) (target : string) : option bool :=
  if String.eqb filterOp "eq" then Some (String.eqb (format_v item) target)
  else if String.eqb filterOp "neq" then Some (negb (String.eqb (format_v item) target))
  else if String.eqb filterOp "in" then Some (in_items item target)
  else if is_ordering filterOp then Some (compare_item filterOp item target)
  else if String.eqb filterOp "like" then matchLike (format_v item) target false
  else if String.eqb filterOp "ilike" then matchLike (format_v item) target true
  else Some false.

Definition operator_ok (filterOp target : string) (item : option any) : option bool :=
  if String.eqb filterOp "is" then Some (is_target item target) else
  match item with
  | None | Some ANil => Some false
  | Some item => set_item_ok filterOp item target
  end.

Definition unescaped (s : string) : string := default s (QueryUnescape s).

(** One part of a filter; what has no "=" or no operator is passed over. *)
Definition part_ok (record : list (string * any)) (part : string) : option bool :=
  match cut "=" (TrimSpace part) with
  | (_, None) => Some true
  | (columnName, Some clausePayload) =>
      match cut "." (unescaped clausePayload) with
      | (_, None) => Some true
      | (filterOp, Some target) => operator_ok filterOp target (map_get record (unescaped columnName))
      end
  end.

(** The loop over the parts ends at the first that fails. *)
Fixpoint parts_ok (record : list (string * any)) (parts : list string) : option bool :=
  match parts with
  | [] => Some true
  | part :: parts => match part_ok record part with Some true => parts_ok record parts | r => r end
  end.

Definition MatchFilter (record : list (string * any)) (filter : string) : option bool :=
  if String.eqb filter "" then Some true else parts_ok record (Split filter "&").
End filter.

(** ** Patterns *)

(** What a list of items matches, item by item. *)
Inductive Like (same : rune → rune → bool) : list LikeItem → list rune → Prop :=
| Like_nil : Like same [] []
| Like_rune r t items text : same r t = true → Like same items text → Like same (LikeRune r :: items) (t :: text)
| Like_one t items text : dot t = true → Like same items text → Like same (LikeOne :: items) (t :: text)
| Like_any u items text : forallb dot u = true → Like same items text → Like same (LikeAny :: items) (u ++ text).

Lemma like_any same items text :
  like_match same (LikeAny :: items) text = true
  ↔ ∃ u v, text = (u ++ v)%list ∧ forallb dot u = true ∧ like_match same items v = true.
Proof.
  induction text as [|t text IH].
  - cbn. rewrite orb_false_r. split; [by exists [], []|]. by intros ([|] & [|] & [=] & _ & H).
  - cbn [like_match]. cbn [like_match] in IH. rewrite orb_true_iff, andb_true_iff, IH. split.
    + intros [H|(Ht & u & v & -> & Hu & Hv)]; [by exists [], (t :: text)|]. exists (t :: u), v. cbn. by rewrite Ht, Hu.
    + intros ([|t' u] & v & E & Hu & Hv); [left; cbn in E; by subst v|]. injection E as <- ->. right.
      cbn [forallb] in Hu. apply andb_true_iff in Hu as [? ?]. split; [done|]. by exists u, v.
Qed.

Lemma like_match_spec same items text : like_match same items text = true ↔ Like same items text.
Proof.
  revert text. induction items as [|item items IH]; intros text.
  - split; [destruct text; [constructor|done]|by inversion 1].
  - destruct item as [| |r].
    + rewrite like_any. split.
      * intros (u & v & -> & Hu & Hv). constructor; [done|by apply IH].
      * inversion 1; subst. eexists _, _. split; [done|]. split; [done|by apply IH].
    + split; [|inversion 1; subst; cbn; rewrite andb_true_iff; split; [done|by apply IH]].
      destruct text as [|t text]; [done|]. cbn. intros [? ?]%andb_true_iff. constructor; [done|by apply IH].
    + split; [|inversion 1; subst; cbn; rewrite andb_true_iff; split; [done|by apply IH]].
      destruct text as [|t text]; [done|]. cbn. intros [? ?]%andb_true_iff. constructor; [done|by apply IH].
Qed.

(** ** What a filter asks *)

Section meaning.
Context `{FL : Floats} `{CO : CaseOrbits}.

(** A condition as a client writes it, column and clause escaped. *)
Record Condition := MkCondition { cn_Column : string; cn_Operator : string; cn_Target : string }.
Definition write_condition (c : Condition) : string :=
  encode_pair (cn_Column c, cn_Operator c ++ "." ++ cn_Target c).
Definition condition_ok (record : list (string * any)) (c : Condition) : option bool :=
  operator_ok (cn_Operator c) (cn_Target c) (map_get record (cn_Column c)).

(** All of them hold; a panic counts when those before it hold. *)
Fixpoint all_hold (outcomes : list (option bool)) : option bool :=
  match outcomes with
  | [] => Some true
  | Some true :: outcomes => all_hold outcomes
  | r :: _ => r
  end.

Lemma parts_all record parts : parts_ok record parts = all_hold (part_ok record <$> parts).
Proof. induction parts as [|p parts IH]; [done|]. cbn. rewrite IH. by destruct (part_ok record p) as [[]|]. Qed.

Lemma all_hold_app l l' : all_hold (l ++ l') = match all_hold l with Some true => all_hold l' | r => r end.
Proof. induction l as [|[[]|] l IH]; [done|apply IH|done..]. Qed.

Lemma plain_escaped s : all_chars escaped_char s = true → plain s = true.
Proof. apply all_chars_impl. intros c. destruct c as [[] [] [] [] [] [] [] []]; cbn; (reflexivity || discriminate). Qed.

Lemma part_of_condition record c : lacks "." (cn_Operator c) = true →
  part_ok record (write_condition c) = condition_ok record c.
Proof.
  intros Hop. unfold part_ok, write_condition, encode_pair. cbn [fst snd].
  rewrite TrimSpace_plain; [|unfold plain; rewrite all_chars_app; change (all_chars plain_char ("=" ++ ?s)) with (all_chars plain_char s);
    apply andb_true_iff; split; apply plain_escaped, QueryEscape_chars].
  rewrite single_app, cut_lacks by (by apply QueryEscape_lacks). unfold unescaped. rewrite !QueryUnescape_QueryEscape.
  cbn [from_option]. unfold default, id. rewrite single_app, cut_lacks by done. done.
Qed.

(** A filter whose columns and clauses are escaped asks what it says: it
    passes a record exactly when every condition does, each read back as its
    column, its operator and its target, whatever text these hold; conditions
    after the first that fails are not evaluated. *)
Theorem filter_reads_conditions record cs : Forall (λ c, lacks "." (cn_Operator c) = true) cs →
  MatchFilter record (Join (write_condition <$> cs) "&") = all_hold (condition_ok record <$> cs).
Proof.
  intros Hops. unfold MatchFilter. destruct cs as [|c cs]; [done|].
  assert (Hne : Join (write_condition <$> c :: cs) "&" ≠ "").
  { cbn. destruct (write_condition <$> cs); unfold write_condition, encode_pair; cbn [fst snd]; by destruct (QueryEscape (cn_Column c)). }
  rewrite (proj2 (String.eqb_neq _ _) Hne), Split_Join; [|done|].
  - rewrite parts_all. f_equal. clear Hne. induction Hops as [|c' cs' Hc Hops IH]; [done|]. cbn [fmap list_fmap]. by rewrite part_of_condition, IH.
  - apply list.Forall_forall. intros s (c' & -> & _)%list_elem_of_fmap. by apply encode_pair_lacks.
Qed.
End meaning.

Section samples.
#[local] Existing Instance integer_floats.
#[local] Instance equal_runes : CaseOrbits := { same_orbit := Z.eqb }.

Lemma filter_reads_conditions_witness :
  MatchFilter [("name", AString "a&b=c"); ("kind", AString "x.y")] "name=eq.a%26b%3Dc&kind=like.x%25" = Some true.
Proof.
  rewrite (filter_reads_conditions _ [MkCondition "name" "eq" "a&b=c"; MkCondition "kind" "like" "x%"]); [reflexivity|].
  repeat constructor.
Defined.
End samples.

(** ** Shortcomings *)

Section shortcomings.
Context `{FL : Floats} `{CO : CaseOrbits}.

(** A pattern that is no valid text stops the process at the first record that
    has the column. *)
Lemma malformed_pattern_panics record column pattern v : ValidString pattern = false →
  map_get record column = Some v → v ≠ ANil →
  condition_ok record (MkCondition column "like" pattern) = None.
Proof.
  intros Hp Hr Hv. unfold condition_ok, operator_ok. cbn [cn_Operator cn_Target cn_Column]. rewrite Hr.
  assert (Hm : ∀ t, matchLike t pattern false = None) by (intros t; unfold matchLike; by rewrite Hp).
  destruct v; [done|..]; apply Hm.
Qed.

(** A condition without an operator is passed over, as is one without "=". *)
Lemma misspelt_condition_ignored record column value : lacks "." value = true →
  part_ok record (encode_pair (column, value)) = Some true.
Proof.
  intros Hv. unfold part_ok, encode_pair. cbn [fst snd].
  rewrite TrimSpace_plain; [|unfold plain; rewrite all_chars_app; change (all_chars plain_char ("=" ++ ?s)) with (all_chars plain_char s);
    apply andb_true_iff; split; apply plain_escaped, QueryEscape_chars].
  rewrite single_app, cut_lacks by (by apply QueryEscape_lacks). unfold unescaped. rewrite !QueryUnescape_QueryEscape.
  cbn [from_option]. unfold default, id. by rewrite cut_lacks_none.
Qed.

(** A record that was cut down to its id satisfies [is.null] on every other
    column, whatever the row holds. *)
Lemma truncated_record_is_null id column : column ≠ "id" →
  condition_ok [("id", id)] (MkCondition column "is" "null") = Some true.
Proof. intros Hc. unfold condition_ok. cbn [cn_Operator cn_Target cn_Column map_get]. by rewrite (proj2 (String.eqb_neq "id" column)). Qed.
End shortcomings.
