(* ===== verification/Realtime.v ===== *)
(** * data/realtime and base_handler_realtime.go: changes of tables, streamed

    The hub with its clients, their subscriptions and the messages queued for
    them; the triggers that tell the hub of changes; the connection on which it
    listens; and the steps it takes: a client connects, sends a message, is
    written to or closes, a row changes, a notification is read, the connection
    is lost or listens again, a table is dropped, the process restarts.  Every
    step has its own configuration and its own tables of the database.  Tables,
    subscriptions and queues are as the code has them, and the order in which a
    client's subscriptions are visited is a parameter of a step.  A step that
    panics ends the process.

    What the theorems show: queues and subscriptions stay within their bounds
    and every subscription is of a table that the configuration exposed when it
    was made; a change that is notified is queued for exactly the subscriptions
    that ask for it when it is read, whatever happens in between; and the ways
    in which changes are lost, tables stay exposed or the process is stopped.

    Not modelled: the frames of the connection and its heartbeat, and messages
    that are handled while their client closes. *)

From stdpp Require Import strings gmap.
From Stdlib Require Import ZArith Lia Ascii String.
From S2P Require Import Prelude GoStrings GoRunes GoValues GoTime URLQuery KVStore DataCache RealtimeFilter.
Local Open Scope string_scope.
Local Open Scope Z_scope.

Section model.
Context `{FL : Floats}.

Record CDCEvent := MkCDCEvent {
  ev_Schema : string; ev_Table : string; ev_Event : string; ev_CommitTimestamp : string;
  ev_Record : list (string * any); ev_OldRecord : list (string * any); ev_Truncated : bool }.

Record Subscription := MkSubscription {
  sub_Channel : string; sub_Schema : string; sub_Table : string; sub_Event : string; sub_Filter : string }.

Record ClientMessage := MkClientMessage {
  cm_Action : string; cm_Topic : string; cm_Channel : string; cm_Schema : string; cm_Table : string; cm_Event : string;
  cm_Filter : string }.

Record BroadcastMessage := MkBroadcastMessage {
  bm_Channel : string; bm_Topic : string; bm_Event : string; bm_Schema : string; bm_Table : string; bm_CommitTimestamp : string;
  bm_Record : list (string * any); bm_OldRecord : list (string * any); bm_Truncated : bool }.

(** Errors, by what their texts say. *)
Inductive TriggerError := InvalidTriggerName | ProtectedTriggerSchema (schema : string) | TriggerFailed (tableKey : string).
Inductive Refusal :=
| InvalidMessage | ChannelAndTableRequired | ChannelRequired (action : string) | UnknownAction (action : string)
| SchemaProtected (schema : string) | SchemaNotExposed (schema : string) | TableExcluded (table : string)
| LimitReached (maxChannels : Z) | TriggerSetupFailed (e : TriggerError).

(** What is sent to a client, before it is written as JSON. *)
Inductive Outgoing := SentAck (channel status : string) | SentError (detail : Refusal) | SentChange (b : BroadcastMessage).

(** A client that is not closed. *)
Record Client := MkClient {
  cl_subscriptions : gmap string Subscription; cl_maxChannels : Z; cl_sendChannel : list Outgoing }.

(** A trigger as pg_trigger has it. *)
Record Trigger := MkTrigger { tg_Name : string; tg_Schema : string; tg_Table : string }.
End model.

(** What the handler reads of the settings: those of realtime, the origins of
    [CORSConfig] and [CacheConfig.InvalidateOnCDC]. *)
Record RealtimeConfig := MkRealtimeConfig {
  rt_Enabled : bool; rt_MaxChannelsPerConnection : Z; rt_MaxConnections : Z; rt_AllowedOrigins : list string;
  rt_InvalidateOnCDC : bool }.

Definition sendChannelBufferSize : nat := 256.
Definition presenceTTL : Z := 60 * Second.
Definition NewClient `{FL : Floats} (maxChannels : Z) : Client := MkClient ∅ (if maxChannels <=? 0 then 50 else maxChannels) [].

(** The send channel drops what does not fit. *)
Definition push `{FL : Floats} (m : Outgoing) (queue : list Outgoing) : list Outgoing :=
  if (List.length queue <? sendChannelBufferSize)%nat then (queue ++ [m])%list else queue.

(** ** Triggers *)

Definition trigger_name (schema table : string) : string := "trg_cdc_" ++ schema ++ "_" ++ table.
Definition table_key (schema table : string) : string := schema ++ "." ++ table.

(** What Postgres makes of a name that is not quoted. *)
Definition fold_identifier (s : string) : string := string_of_list_ascii (lower_ascii <$> list_ascii_of_string s).

Definition protected_from_triggers (schema : string) : bool :=
  String.eqb schema "core" || String.eqb schema "pg_catalog" || String.eqb schema "information_schema".

Section hub.
Context `{FL : Floats} `{CO : CaseOrbits} `{UT : UnicodeTables} {S : Type} `{KD : KVDriver S}.

(** The input of the type name, which cuts a text at 63 bytes. *)
Context (pg_name : string → string).

Record HubState := MkHubState {
  hub_clients : gmap string Client; hub_installedTables : gset string; hub_triggers : list Trigger; hub_store : S;
  (** Whether the service has started the hub, whether the connection listens,
      and what was notified on it and not read yet. *)
  hub_started : bool; hub_listening : bool; hub_pending : list CDCEvent }.
#[export] Instance HubState_eta : Eta HubState := λ st,
  MkHubState (hub_clients st) (hub_installedTables st) (hub_triggers st) (hub_store st) (hub_started st) (hub_listening st) (hub_pending st).

Record HubEnv := MkHubEnv {
  he_kv : KVEnv;
  (** The settings in force, and the tables of the database. *)
  he_data : DataConfig; he_rt : RealtimeConfig; he_exists : string → string → bool;
  (** Whether the statement on the trigger fails. *)
  he_ddl_fails : bool;
  (** The order in which the subscriptions of a client are visited. *)
  he_order : string → gmap string Subscription → list Subscription }.

(** The block that installs a trigger; [None]: the statement fails. *)
Definition install_trigger (env : HubEnv) (schema table : string) (triggers : list Trigger) : option (list Trigger) :=
  if existsb (λ t, String.eqb (tg_Name t) (pg_name (trigger_name schema table))) triggers then Some triggers else
  let name := pg_name (fold_identifier (trigger_name schema table)) in
  if negb (he_exists env schema table) then None
  else if existsb (λ t, String.eqb (tg_Name t) name && String.eqb (tg_Schema t) schema && String.eqb (tg_Table t) table) triggers then None
  else Some (triggers ++ [MkTrigger name schema table])%list.

Definition EnsureTableTrigger (env : HubEnv) (schema table : string) (st : HubState) : result TriggerError HubState :=
  let schema := if String.eqb schema "" then "public" else schema in
  if negb (IsValidIdentifier schema) || negb (IsValidIdentifier table) then Err InvalidTriggerName
  else if protected_from_triggers schema then Err (ProtectedTriggerSchema schema)
  else if bool_decide (table_key schema table ∈ hub_installedTables st) then Ok st
  else match (if he_ddl_fails env then None else install_trigger env schema table (hub_triggers st)) with
       | Some triggers =>
           Ok (st <| hub_installedTables := {[table_key schema table]} ∪ hub_installedTables st |> <| hub_triggers := triggers |>)
       | None => Err (TriggerFailed (table_key schema table))
       end.

(** ** Clients *)

Definition update_client (id : string) (f : Client → Client) (st : HubState) : HubState :=
  st <| hub_clients := alter f id (hub_clients st) |>.
Definition with_store (f : S → S) (st : HubState) : HubState :=
  st <| hub_store := f (hub_store st) |>.

Definition send_to (id : string) (m : Outgoing) : HubState → HubState :=
  update_client id (λ c, MkClient (cl_subscriptions c) (cl_maxChannels c) (push m (cl_sendChannel c))).
Definition with_subscriptions (id : string) (f : gmap string Subscription → gmap string Subscription) : HubState → HubState :=
  update_client id (λ c, MkClient (f (cl_subscriptions c)) (cl_maxChannels c) (cl_sendChannel c)).

Definition presence_key (channel clientID : string) : string := "data:presence:" ++ channel ++ ":" ++ clientID.
Definition SetPresence (env : HubEnv) (channel clientID : string) : HubState → HubState :=
  if String.eqb channel "" || String.eqb clientID "" then λ st, st
  else with_store (λ s, (Set_ (he_kv env) (presence_key channel clientID) clientID presenceTTL s).2).
Definition RemovePresence (env : HubEnv) (channel clientID : string) : HubState → HubState :=
  if String.eqb channel "" || String.eqb clientID "" then λ st, st
  else with_store (λ s, (Delete (he_kv env) (presence_key channel clientID) s).2).

(** The validator of the connection, with the settings of the moment; [Some]:
    why a table is refused. *)
Definition validator (config : DataConfig) (schema table : string) : option Refusal :=
  if protected_from_triggers schema then Some (SchemaProtected schema)
  else if negb (bool_decide (cfg_Schemas config = [])) && negb (bool_decide (schema ∈ cfg_Schemas config))
  then Some (SchemaNotExposed schema)
  else if existsb (λ t, String.eqb t table || String.eqb t (table_key schema table)) (cfg_ExcludedTables config)
  then Some (TableExcluded table)
  else None.

(** The channel, schema and table a message asks for. *)
Definition requested (m : ClientMessage) : string * string * string :=
  let channel := if String.eqb (cm_Channel m) "" then cm_Topic m else cm_Channel m in
  let '(schema, table) :=
    if negb (String.eqb (cm_Table m) "") then (cm_Schema m, cm_Table m) else
    let source := if String.eqb (cm_Topic m) "" && (Contains channel ":" || Contains channel ".") then channel else cm_Topic m in
    let given first := if String.eqb (cm_Schema m) "" then first else cm_Schema m in
    match cut ":" source with
    | (first, Some second) => (given first, second)
    | (_, None) => match cut "." source with
                   | (first, Some second) => (given first, second)
                   | (_, None) => (cm_Schema m, source)
                   end
    end in
  (channel, if String.eqb schema "" then "public" else schema, table).

Definition named_channel (m : ClientMessage) : string := if String.eqb (cm_Channel m) "" then cm_Topic m else cm_Channel m.

Definition subscribe (env : HubEnv) (id : string) (c : Client) (m : ClientMessage) (st : HubState) : HubState :=
  let '(channel, schema, table) := requested m in
  let refused detail := send_to id (SentError detail) in
  if String.eqb channel "" || String.eqb table "" then refused ChannelAndTableRequired st else
  match validator (he_data env) schema table with
  | Some detail => refused detail st
  | None =>
      if cl_maxChannels c <=? Z.of_nat (size (cl_subscriptions c))
      then refused (LimitReached (cl_maxChannels c)) st else
      let st := with_subscriptions id (insert channel (MkSubscription channel schema table (cm_Event m) (cm_Filter m))) st in
      match EnsureTableTrigger env schema table st with
      | Err e => refused (TriggerSetupFailed e) (with_subscriptions id (delete channel) st)
      | Ok st => send_to id (SentAck channel "subscribed") (SetPresence env channel id st)
      end
  end.

(** A message that is not JSON is answered with an error. *)
Definition ReadMessage (id : string) (st : HubState) : HubState := send_to id (SentError InvalidMessage) st.

Definition handleMessage (env : HubEnv) (id : string) (m : ClientMessage) (st : HubState) : HubState :=
  match hub_clients st !! id with
  | None => st
  | Some c =>
      let channel := named_channel m in
      let refused detail := send_to id (SentError detail) st in
      if String.eqb (cm_Action m) "subscribe" then subscribe env id c m st
      else if String.eqb (cm_Action m) "unsubscribe" then
        if String.eqb channel "" then refused (ChannelRequired "unsubscribe") else
        send_to id (SentAck channel "unsubscribed") (RemovePresence env channel id (with_subscriptions id (delete channel) st))
      else if String.eqb (cm_Action m) "presence" then
        if String.eqb channel "" then refused (ChannelRequired "presence") else
        send_to id (SentAck channel "presence_ok") (SetPresence env channel id st)
      else if String.eqb (cm_Action m) "ping" then send_to id (SentAck "" "pong") st
      else refused (UnknownAction (cm_Action m))
  end.

(** ** Changes *)

Definition wants (ev : CDCEvent) (sub : Subscription) : option bool :=
  if negb (String.eqb (sub_Schema sub) "") && negb (String.eqb (sub_Schema sub) (ev_Schema ev)) then Some false
  else if negb (String.eqb (sub_Table sub) "") && negb (String.eqb (sub_Table sub) (ev_Table ev)) then Some false
  else if negb (String.eqb (sub_Event sub) "*") && negb (String.eqb (sub_Event sub) "")
          && negb (String.eqb (sub_Event sub) (ev_Event ev)) then Some false
  else MatchFilter (ev_Record ev) (sub_Filter sub).

Definition broadcast_message (ev : CDCEvent) (sub : Subscription) : BroadcastMessage :=
  MkBroadcastMessage (sub_Channel sub) (sub_Channel sub) (ev_Event ev) (ev_Schema ev) (ev_Table ev) (ev_CommitTimestamp ev)
    (ev_Record ev) (ev_OldRecord ev) (ev_Truncated ev).

Fixpoint Dispatch (ev : CDCEvent) (subs : list Subscription) (queue : list Outgoing) : option (list Outgoing) :=
  match subs with
  | [] => Some queue
  | sub :: subs =>
      match wants ev sub with
      | None => None
      | Some true => Dispatch ev subs (push (SentChange (broadcast_message ev sub)) queue)
      | Some false => Dispatch ev subs queue
      end
  end.

(** The handler the service registers when it starts the hub: a change moves
    the version of its table. *)
Definition on_event (env : HubEnv) (ev : CDCEvent) (st : HubState) : S :=
  if hub_started st && cfg_CacheEnabled (he_data env) && rt_InvalidateOnCDC (he_rt env)
  then InvalidateTableCache (he_kv env) (he_data env) (ev_Schema ev) (ev_Table ev) (hub_store st) else hub_store st.

Definition dispatched (env : HubEnv) (ev : CDCEvent) (id : string) (c : Client) : option Client :=
  MkClient (cl_subscriptions c) (cl_maxChannels c) <$> Dispatch ev (he_order env id (cl_subscriptions c)) (cl_sendChannel c).

(** [None]: a client's filter panics, and with it the process. *)
Definition BroadcastEvent (env : HubEnv) (ev : CDCEvent) (st : HubState) : option HubState :=
  if bool_decide (map_Forall (λ id c, is_Some (dispatched env ev id c)) (hub_clients st))
  then Some (st <| hub_clients := map_imap (dispatched env ev) (hub_clients st) |> <| hub_store := on_event env ev st |>)
  else None.

(** ** Connections *)

Definition allowed_origin (rt : RealtimeConfig) (origin : string) : bool :=
  String.eqb origin "" || bool_decide (rt_AllowedOrigins rt = [])
  || existsb (λ allowed, String.eqb allowed "*" || String.eqb allowed origin) (rt_AllowedOrigins rt).

Definition handleConnectRealtime (env : HubEnv) (id origin : string) (st : HubState) : HubState :=
  let rt := he_rt env in
  let maxConnections := if rt_MaxConnections rt <=? 0 then 10000 else rt_MaxConnections rt in
  if negb (rt_Enabled rt) || (maxConnections <=? Z.of_nat (size (hub_clients st))) || negb (allowed_origin rt origin) then st else
  st <| hub_clients := <[id := NewClient (rt_MaxChannelsPerConnection rt)]> (hub_clients st) |>.

Definition Close (env : HubEnv) (id : string) (st : HubState) : HubState :=
  match hub_clients st !! id with
  | None => st
  | Some c =>
      foldr (λ channel, RemovePresence env channel id)
        (st <| hub_clients := delete id (hub_clients st) |>)
        (map_to_list (cl_subscriptions c)).*1
  end.

(** The next message of a client is written to its connection. *)
Definition write_next (id : string) : HubState → HubState :=
  update_client id (λ c, MkClient (cl_subscriptions c) (cl_maxChannels c) (tail (cl_sendChannel c))).

(** ** Rows *)

(** data.notify_cdc, the function of the triggers: the change as it is sent,
    cut down to the id of the row when its text is too long.  Parameters: the
    length of the text, and [->>] of a member that is no string. *)
Inductive RowOp := RowInsert | RowUpdate | RowDelete.
Definition op_name (op : RowOp) : string := match op with RowInsert => "INSERT" | RowUpdate => "UPDATE" | RowDelete => "DELETE" end.

Context (payload_length : CDCEvent → Z) (json_text : any → string).

Definition member_text (record : list (string * any)) (key : string) : option string :=
  match map_get record key with None | Some ANil => None | Some (AString s) => Some s | Some v => Some (json_text v) end.
Definition only_id (record : list (string * any)) : list (string * any) :=
  [("id", match member_text record "id" with
          | Some s => AString s
          | None => match member_text record "uuid" with Some s => AString s | None => ANil end end)].

Definition notify_cdc (op : RowOp) (schema table commitTimestamp : string) (new old : list (string * any)) : CDCEvent :=
  let record := match op with RowDelete => old | _ => new end in
  let oldRecord := match op with RowUpdate => old | _ => [] end in
  let ev := MkCDCEvent schema table (op_name op) commitTimestamp record oldRecord false in
  if 7800 <? payload_length ev
  then MkCDCEvent schema table (op_name op) commitTimestamp (only_id record)
         (match op with RowUpdate => only_id old | _ => [] end) true
  else ev.

(** The notifications of a changed row: one for every trigger of its table. *)
Definition notifications (op : RowOp) (schema table commitTimestamp : string) (new old : list (string * any)) (triggers : list Trigger)
    : list CDCEvent :=
  (λ _, notify_cdc op schema table commitTimestamp new old)
    <$> List.filter (λ t, String.eqb (tg_Schema t) schema && String.eqb (tg_Table t) table) triggers.

(** ** The hub *)

Inductive HubStep :=
| Connect (id origin : string)
| Receive (id : string) (m : option ClientMessage)
| RowChanged (op : RowOp) (schema table commitTimestamp : string) (new old : list (string * any))
(** Someone else notifies the channel. *)
| Notified (ev : CDCEvent)
(** The loop reads the next notification. *)
| Deliver
(** LISTEN on a connection: it is lost, or the statement fails, or it listens. *)
| Listens (on : bool)
| WriteOut (id : string)
| CloseClient (id : string)
| TableDropped (schema table : string)
| Restarted.

(** The hub of a process that has just started. *)
Definition started (enabled : bool) (triggers : list Trigger) (s : S) : HubState := MkHubState ∅ ∅ triggers s enabled false [].

(** What is notified while nobody listens is lost. *)
Definition notify (evs : list CDCEvent) (st : HubState) : HubState :=
  if hub_listening st then st <| hub_pending := (hub_pending st ++ evs)%list |> else st.

Definition hub_step (env : HubEnv) (step : HubStep) (st : HubState) : option HubState :=
  match step with
  | Connect id origin => Some (match hub_clients st !! id with Some _ => st | None => handleConnectRealtime env id origin st end)
  | Receive id (Some m) => Some (handleMessage env id m st)
  | Receive id None => Some (ReadMessage id st)
  | RowChanged op schema table ts new old => Some (notify (notifications op schema table ts new old (hub_triggers st)) st)
  | Notified ev => Some (notify [ev] st)
  | Deliver =>
      match hub_pending st with
      | [] => Some st
      | ev :: evs => BroadcastEvent env ev (st <| hub_pending := evs |>)
      end
  | Listens on => Some (st <| hub_listening := on && hub_started st |> <| hub_pending := [] |>)
  | WriteOut id => Some (write_next id st)
  | CloseClient id => Some (Close env id st)
  | TableDropped schema table =>
      Some (st <| hub_triggers := List.filter (λ t, negb (String.eqb (tg_Schema t) schema && String.eqb (tg_Table t) table)) (hub_triggers st) |>)
  | Restarted => Some (started (rt_Enabled (he_rt env)) (hub_triggers st) (hub_store st))
  end.

Fixpoint hub_run (steps : list (HubEnv * HubStep)) (st : HubState) : option HubState :=
  match steps with
  | [] => Some st
  | (env, step) :: steps => st ← hub_step env step st; hub_run steps st
  end.

(** ** Bounds and exposure *)

(** What the validator and the trigger installation let through. *)
Definition exposed (config : DataConfig) (schema table : string) : Prop :=
  validator config schema table = None ∧ IsValidIdentifier schema = true ∧ IsValidIdentifier table = true.

(** A table that a client asked for at a step at which it was exposed. *)
Definition granted (steps : list (HubEnv * HubStep)) (id schema table : string) : Prop :=
  ∃ env m channel, (env, Receive id (Some m)) ∈ steps ∧ cm_Action m = "subscribe" ∧ requested m = (channel, schema, table)
    ∧ exposed (he_data env) schema table.

Section invariant.
Context (G : string → string → string → Prop) (HG : ∀ id schema table, G id schema table → schema ≠ "" ∧ table ≠ "").

Record sub_wf (id channel : string) (sub : Subscription) : Prop := {
  wf_channel : sub_Channel sub = channel;
  wf_named : channel ≠ "";
  wf_granted : G id (sub_Schema sub) (sub_Table sub) }.

Record client_wf (id : string) (c : Client) : Prop := {
  wf_limit : 0 < cl_maxChannels c;
  wf_size : Z.of_nat (size (cl_subscriptions c)) <= cl_maxChannels c;
  wf_queue : (List.length (cl_sendChannel c) <= sendChannelBufferSize)%nat;
  wf_subs : ∀ channel sub, cl_subscriptions c !! channel = Some sub → sub_wf id channel sub;
  wf_told : ∀ b, SentChange b ∈ cl_sendChannel c → G id (bm_Schema b) (bm_Table b) }.

Definition hub_wf (st : HubState) : Prop := ∀ id c, hub_clients st !! id = Some c → client_wf id c.

(** The steps of the run grant what [G] says. *)
Definition grants (env : HubEnv) (step : HubStep) : Prop :=
  ∀ id m channel schema table, step = Receive id (Some m) → cm_Action m = "subscribe" → requested m = (channel, schema, table) →
    exposed (he_data env) schema table → G id schema table.

Lemma push_length m queue : (List.length queue <= sendChannelBufferSize)%nat → (List.length (push m queue) <= sendChannelBufferSize)%nat.
Proof. unfold push. intros H. destruct (Nat.ltb_spec (List.length queue) sendChannelBufferSize); [rewrite length_app; cbn; lia|done]. Qed.

(** A change of one client that keeps it well formed. *)
Lemma wf_update_client id f st :
  (∀ c, hub_clients st !! id = Some c → client_wf id c → client_wf id (f c)) → hub_wf st → hub_wf (update_client id f st).
Proof. intros Hf Hc id' c'. cbn. intros H. apply lookup_alter_Some in H as [(-> & c & Hl & ->)|(_ & Hl)]; eauto. Qed.

Definition is_change (m : Outgoing) : bool := match m with SentChange _ => true | _ => false end.

Lemma push_elem m queue x : x ∈ push m queue → x ∈ queue ∨ x = m.
Proof.
  unfold push. destruct (_ <? _)%nat; [|by left]. intros [?|?%list_elem_of_singleton]%elem_of_app; [by left|by right].
Qed.

Lemma wf_send id m st : is_change m = false → hub_wf st → hub_wf (send_to id m st).
Proof.
  intros Hm. apply wf_update_client. intros c _ [? ? ? ? Ht]. split; [done..|by apply push_length|done|].
  intros b [Hb|<-]%push_elem; [by apply Ht|done].
Qed.

Lemma wf_store f st : hub_wf st → hub_wf (with_store f st).
Proof. done. Qed.
Lemma wf_SetPresence env channel id st : hub_wf st → hub_wf (SetPresence env channel id st).
Proof. unfold SetPresence. by destruct (_ || _). Qed.
Lemma wf_RemovePresence env channel id st : hub_wf st → hub_wf (RemovePresence env channel id st).
Proof. unfold RemovePresence. by destruct (_ || _). Qed.

Lemma wf_unsubscribed id channel st : hub_wf st → hub_wf (with_subscriptions id (delete channel) st).
Proof.
  apply wf_update_client. intros c _ [? Hs ? Hsubs]. split; [done| |done| |done].
  - cbn. rewrite map_size_delete. destruct (cl_subscriptions c !! channel); unfold Datatypes.id; lia.
  - intros channel' sub H. cbn in H. apply lookup_delete_Some in H as [_ H]. by apply Hsubs.
Qed.

Lemma ensure_ok env schema table st st' : EnsureTableTrigger env schema table st = Ok st' → schema ≠ "" →
  IsValidIdentifier schema = true ∧ IsValidIdentifier table = true ∧ hub_clients st' = hub_clients st.
Proof.
  unfold EnsureTableTrigger. intros H Hne. cbn zeta in H. rewrite (proj2 (String.eqb_neq schema "")) in H by done.
  destruct (IsValidIdentifier schema), (IsValidIdentifier table); try done. cbn [negb orb] in H.
  destruct (protected_from_triggers schema); [done|]. case_bool_decide; [by injection H as <-|].
  destruct (if he_ddl_fails env then None else _); [|done]. by injection H as <-.
Qed.

(** The schema a message asks for is not empty. *)
Lemma requested_schema m channel schema table : requested m = (channel, schema, table) → schema ≠ "".
Proof.
  unfold requested. destruct (if negb _ then _ else _) as [s t]. intros [= _ <- _]. destruct (String.eqb_spec s ""); [done|]. done.
Qed.

Lemma alter_alter_subs (f g : gmap string Subscription → gmap string Subscription) id st :
  with_subscriptions id f (with_subscriptions id g st) = with_subscriptions id (λ m, f (g m)) st.
Proof.
  unfold with_subscriptions, update_client, update. cbn. f_equal. apply map_eq. intros i. destruct (decide (i = id)) as [->|Hi].
  - rewrite !lookup_alter_eq. by destruct (hub_clients st !! id).
  - by rewrite !lookup_alter_ne by done.
Qed.

Lemma wf_subscribe env id c m st : grants env (Receive id (Some m)) → cm_Action m = "subscribe" → hub_wf st →
  hub_clients st !! id = Some c → hub_wf (subscribe env id c m st).
Proof.
  intros Hg Ha Hwf Hc. unfold subscribe. destruct (requested m) as [[channel schema] table] eqn:Er. cbn zeta.
  destruct (String.eqb_spec channel "") as [|Hch]; [by apply wf_send|]. destruct (String.eqb_spec table "") as [|Htb]; [by apply wf_send|]. cbn [orb].
  destruct (validator _ schema table) as [e|] eqn:Ev; [by apply wf_send|].
  destruct (Z.leb_spec (cl_maxChannels c) (Z.of_nat (size (cl_subscriptions c)))) as [|Hsz]; [by apply wf_send|].
  destruct (EnsureTableTrigger env schema table _) as [st'|e] eqn:Ee.
  - apply wf_send; [done|]. apply wf_SetPresence. pose proof (requested_schema _ _ _ _ Er) as Hne.
    destruct (ensure_ok _ _ _ _ _ Ee Hne) as (Hs & Ht & Ecl).
    intros id' c' H. rewrite Ecl in H. cbn in H. apply lookup_alter_Some in H as [(<- & c0 & Hl & ->)|(_ & Hl)]; [|by apply Hwf].
    rewrite Hc in Hl. injection Hl as <-. destruct (Hwf _ _ Hc) as [? ? ? Hsubs]. split; [done| |done| |done].
    + cbn. rewrite map_size_insert. destruct (cl_subscriptions c !! channel); unfold Datatypes.id; lia.
    + intros channel' sub H. cbn in H. apply lookup_insert_Some in H as [[<- <-]|[_ H]]; [|by apply Hsubs].
      split; [done..|]. eapply Hg; [done..|]. by split.
  - rewrite alter_alter_subs. apply wf_send; [done|]. revert Hwf. apply wf_update_client. intros c0 Hc0 [? Hs ? Hsubs].
    rewrite Hc in Hc0. injection Hc0 as <-. split; [done| |done| |done].
    + cbn. rewrite delete_insert_eq, map_size_delete. destruct (cl_subscriptions c !! channel); unfold Datatypes.id; lia.
    + cbn. intros channel' sub H. rewrite delete_insert_eq in H. apply lookup_delete_Some in H as [_ H]. by apply Hsubs.
Qed.

Lemma wf_handleMessage env id m st : grants env (Receive id (Some m)) → hub_wf st → hub_wf (handleMessage env id m st).
Proof.
  intros Hg Hwf. unfold handleMessage. destruct (hub_clients st !! id) as [c|] eqn:Ec; [|done]. cbn zeta.
  destruct (String.eqb_spec (cm_Action m) "subscribe") as [Ha|_]; [by apply wf_subscribe|].
  destruct (String.eqb (cm_Action m) "unsubscribe").
  { case_match; [by apply wf_send|]. apply wf_send; [done|]. by apply wf_RemovePresence, wf_unsubscribed. }
  destruct (String.eqb (cm_Action m) "presence"); [|case_match; by apply wf_send].
  case_match; [by apply wf_send|]. apply wf_send; [done|]. by apply wf_SetPresence.
Qed.

Lemma started_wf enabled triggers s : hub_wf (started enabled triggers s).
Proof. intros id c H. cbn in H. by rewrite lookup_empty in H. Qed.
Lemma wf_connect env id origin st : hub_wf st → hub_wf (handleConnectRealtime env id origin st).
Proof.
  intros Hc. unfold handleConnectRealtime. cbn zeta. set (rt := he_rt env). destruct (_ || _); [done|].
  intros id' c'. cbn. intros [[<- <-]|[_ Hl]]%lookup_insert_Some; [|by eapply Hc].
  assert (0 < cl_maxChannels (NewClient (rt_MaxChannelsPerConnection rt))) by (cbn; destruct (Z.leb_spec (rt_MaxChannelsPerConnection rt) 0); lia).
  split; [done|cbn -[Z.leb]; rewrite map_size_empty; cbn in *; lia|cbn; lia| |cbn; set_solver].
  intros channel sub Hs. cbn in Hs. by rewrite lookup_empty in Hs.
Qed.

Lemma wf_close env id st : hub_wf st → hub_wf (Close env id st).
Proof.
  intros Hc. unfold Close. destruct (hub_clients st !! id) as [c|]; [|done].
  induction ((map_to_list (cl_subscriptions c)).*1) as [|channel channels IH]; [|by apply wf_RemovePresence].
  intros id' c' Hl. cbn in Hl. apply lookup_delete_Some in Hl as [_ Hl]. by eapply Hc.
Qed.

Lemma wf_write id st : hub_wf st → hub_wf (write_next id st).
Proof.
  apply wf_update_client. intros c _ [? ? Hq ? Ht]. split; [done..| |done|]; cbn in *; destruct (cl_sendChannel c); cbn in *; [lia..|done|set_solver].
Qed.

(** *** What a client is sent of a change *)

(** A queue with as many of the messages as fit. *)
Definition offered (queue more : list Outgoing) : list Outgoing := take sendChannelBufferSize (queue ++ more)%list.

(** The messages of a change for the subscriptions that ask for it. *)
Definition messages (ev : CDCEvent) (subs : list Subscription) : list Outgoing :=
  (λ sub, SentChange (broadcast_message ev sub)) <$> List.filter (λ sub, bool_decide (wants ev sub = Some true)) subs.

Lemma push_offered m queue : (List.length queue <= sendChannelBufferSize)%nat → push m queue = offered queue [m].
Proof.
  intros H. unfold push, offered. destruct (Nat.ltb_spec (List.length queue) sendChannelBufferSize) as [Hl|Hl].
  - rewrite take_ge; [done|]. rewrite length_app. cbn. lia.
  - rewrite take_app_le by done. by rewrite take_ge by done.
Qed.

Lemma offered_offered queue xs ys : offered (offered queue xs) ys = offered queue (xs ++ ys)%list.
Proof.
  unfold offered. rewrite !app_assoc. generalize (queue ++ xs)%list as l. intros l. generalize sendChannelBufferSize as n. intros n. clear.
  revert l. induction n as [|n IH]; [done|]. intros [|x l]; [done|]. cbn. by rewrite IH.
Qed.

Lemma elem_of_take_app (queue more : list Outgoing) m : m ∈ offered queue more → m ∈ queue ∨ m ∈ more.
Proof. intros (i & H & _)%elem_of_take. by apply elem_of_app, list_elem_of_lookup_2 with i. Qed.

Lemma offered_length queue more : (List.length (offered queue more) <= sendChannelBufferSize)%nat.
Proof. unfold offered. rewrite length_take. lia. Qed.

(** A message that was to be queued is, unless the queue is full. *)
Lemma offered_in queue more m : m ∈ queue ∨ m ∈ more → m ∈ offered queue more ∨ List.length (offered queue more) = sendChannelBufferSize.
Proof.
  intros Hm. unfold offered. destruct (Nat.le_gt_cases (List.length (queue ++ more)%list) sendChannelBufferSize) as [H|H].
  - left. rewrite take_ge by done. by apply elem_of_app.
  - right. rewrite length_take. lia.
Qed.

Lemma Dispatch_offered ev subs queue queue' : Dispatch ev subs queue = Some queue' → (List.length queue <= sendChannelBufferSize)%nat →
  queue' = offered queue (messages ev subs).
Proof.
  revert queue. unfold messages. induction subs as [|sub subs IH]; intros queue H Hl; cbn [Dispatch List.filter fmap list_fmap] in *.
  - injection H as <-. unfold offered. by rewrite app_nil_r, take_ge.
  - destruct (wants ev sub) as [[]|]; [| |done]; [rewrite bool_decide_true by done|rewrite bool_decide_false by done; by apply IH].
    apply IH in H; [|by apply push_length]. rewrite H, push_offered by done. by rewrite offered_offered.
Qed.

(** A message of a change is for a subscription of its table. *)
Lemma wants_table ev sub : wants ev sub = Some true → sub_Schema sub ≠ "" → sub_Table sub ≠ "" →
  ev_Schema ev = sub_Schema sub ∧ ev_Table ev = sub_Table sub.
Proof.
  unfold wants. intros H Hs Ht. destruct (String.eqb_spec (sub_Schema sub) ""); [done|]. destruct (String.eqb_spec (sub_Table sub) ""); [done|].
  destruct (String.eqb_spec (sub_Schema sub) (ev_Schema ev)); [|done]. by destruct (String.eqb_spec (sub_Table sub) (ev_Table ev)).
Qed.

Lemma messages_elem ev subs m : m ∈ messages ev subs ↔ ∃ sub, m = SentChange (broadcast_message ev sub) ∧ sub ∈ subs ∧ wants ev sub = Some true.
Proof.
  unfold messages. rewrite list_elem_of_fmap. split; intros (sub & -> & H); exists sub; (split; [done|]).
  - apply list_elem_of_In, filter_In in H as [H Hw]. apply bool_decide_eq_true in Hw. by rewrite list_elem_of_In.
  - destruct H. apply list_elem_of_In, filter_In. by rewrite <- list_elem_of_In, bool_decide_true.
Qed.

Lemma messages_Permutation ev subs subs' : subs ≡ₚ subs' → messages ev subs ≡ₚ messages ev subs'.
Proof.
  intros H. unfold messages. apply fmap_Permutation. induction H; cbn; repeat case_match; try done; try by constructor. by etrans.
Qed.

(** The order in which subscriptions are visited leaves out none. *)
Definition fair (env : HubEnv) : Prop := ∀ id subs, he_order env id subs ≡ₚ (map_to_list subs).*2.

Definition broadcast (env : HubEnv) (ev : CDCEvent) (st st' : HubState) : Prop :=
  hub_pending st' = hub_pending st ∧ hub_listening st' = hub_listening st
  ∧ (∀ id, match hub_clients st !! id with
           | Some c => hub_clients st' !! id
                       = Some (MkClient (cl_subscriptions c) (cl_maxChannels c)
                                 (offered (cl_sendChannel c) (messages ev (he_order env id (cl_subscriptions c)))))
           | None => hub_clients st' !! id = None
           end).

Lemma BroadcastEvent_broadcast env ev st st' : hub_wf st → BroadcastEvent env ev st = Some st' → broadcast env ev st st'.
Proof.
  intros Hc. unfold BroadcastEvent. case_bool_decide as Hall; [|done]. intros [= <-]. split_and!; [done..|].
  intros id. cbn. rewrite map_lookup_imap. destruct (hub_clients st !! id) as [c|] eqn:Ec; [|done].
  destruct (Hall id c Ec) as [c' Hd]. cbn. rewrite Hd. f_equal. unfold dispatched in Hd. apply fmap_Some in Hd as (q & Hq & ->).
  f_equal. eapply Dispatch_offered; [done|]. apply (Hc id c Ec).
Qed.

Lemma wf_broadcast env ev st st' : fair env → broadcast env ev st st' → hub_wf st → hub_wf st'.
Proof.
  intros Hfair (_ & _ & Hcl) Hc id c' H. specialize (Hcl id).
  destruct (hub_clients st !! id) as [c|] eqn:Ec; rewrite H in Hcl; [|done]. injection Hcl as ->.
  destruct (Hc id c Ec) as [? ? ? Hsubs Htold]. split; [done..|apply offered_length|done|].
  intros b [Hb|(sub & [= ->] & Hsub & Hw)%messages_elem]%elem_of_take_app; [by apply Htold|].
  rewrite (Hfair id) in Hsub. apply list_elem_of_fmap in Hsub as ([channel sub'] & -> & Hl%elem_of_map_to_list). cbn [snd] in *.
  destruct (Hsubs _ _ Hl) as [_ _ Hg]. destruct (HG _ _ _ Hg) as [Hs1 Ht1].
  destruct (wants_table _ _ Hw Hs1 Ht1) as [E1 E2]. cbn [broadcast_message bm_Schema bm_Table]. by rewrite E1, E2.
Qed.

Lemma wf_notify evs st : hub_wf st → hub_wf (notify evs st).
Proof. unfold notify. by destruct (hub_listening st). Qed.

Lemma wf_step env step st st' : fair env → grants env step → hub_step env step st = Some st' → hub_wf st → hub_wf st'.
Proof.
  intros Hfair Hg H Hwf. destruct step as [id origin|id [m|]|op schema table ts new old|ev| |on|id|id|schema table|]; cbn [hub_step] in H.
  6: { destruct (hub_pending st) as [|ev evs]; [by injection H as <-|]. eapply (wf_broadcast env ev (st <| hub_pending := evs |>)); [done| |exact Hwf].
       by apply BroadcastEvent_broadcast. }
  all: injection H as <-.
  - destruct (hub_clients st !! id); [done|by apply wf_connect].
  - by apply wf_handleMessage.
  - by apply wf_send.
  - by apply wf_notify.
  - by apply wf_notify.
  - exact Hwf.
  - by apply wf_write.
  - by apply wf_close.
  - exact Hwf.
  - apply started_wf.
Qed.

Lemma wf_run steps st st' : Forall (λ step, fair step.1) steps → Forall (λ step, grants step.1 step.2) steps →
  hub_run steps st = Some st' → hub_wf st → hub_wf st'.
Proof.
  intros Hfair. revert st. induction Hfair as [|[env step] steps Hf _ IH]; intros st Hg H Hwf; cbn in H; [by injection H as <-|].
  apply list.Forall_cons in Hg as [Hg1 Hg]. destruct (hub_step env step st) as [st1|] eqn:E; [|done]. apply (IH st1 Hg H). by eapply wf_step.
Qed.
End invariant.

Lemma granted_named steps id schema table : granted steps id schema table → schema ≠ "" ∧ table ≠ "".
Proof. intros (env & m & channel & _ & _ & _ & _ & Hs & Ht). split; intros ->; done. Qed.

Lemma granted_all steps : Forall (λ step, grants (granted steps) step.1 step.2) steps.
Proof.
  apply list.Forall_forall. intros [env step] Hin. cbn [fst snd]. intros id m channel schema table -> Ha Hr He. exists env, m, channel. by split_and!.
Qed.


(** *** A change reaches its subscriptions *)

Lemma offered_keeps queue more m :
  m ∈ queue ∨ List.length queue = sendChannelBufferSize → m ∈ offered queue more ∨ List.length (offered queue more) = sendChannelBufferSize.
Proof.
  intros [Hm|Hm]; [by apply offered_in; left|]. right. unfold offered. rewrite length_take, length_app. lia.
Qed.

Lemma push_keeps m x queue : (List.length queue <= sendChannelBufferSize)%nat →
  m ∈ queue ∨ List.length queue = sendChannelBufferSize → m ∈ push x queue ∨ List.length (push x queue) = sendChannelBufferSize.
Proof. intros Hl H. rewrite push_offered by done. by apply offered_keeps. Qed.

(** The message is in the queue of the client, or the queue is full. *)
Definition queued (m : Outgoing) (c : Client) : Prop :=
  m ∈ cl_sendChannel c ∨ List.length (cl_sendChannel c) = sendChannelBufferSize.

Lemma notifications_same op schema table ts new old triggers :
  (∃ t, t ∈ triggers ∧ tg_Schema t = schema ∧ tg_Table t = table) →
  notify_cdc op schema table ts new old ∈ notifications op schema table ts new old triggers.
Proof.
  intros (t & Ht & E1 & E2). unfold notifications. apply list_elem_of_fmap. exists t. split; [done|].
  apply list_elem_of_In, filter_In. rewrite <- list_elem_of_In, E1, E2, !String.eqb_refl. done.
Qed.

(** A step that neither closes client [id], changes its subscriptions or writes
    to it, nor ends the connection or the process. *)
Definition undisturbed (id : string) (step : HubStep) : Prop :=
  match step with
  | Receive id' _ | WriteOut id' | CloseClient id' => id' ≠ id
  | Listens _ | Restarted => False
  | _ => True
  end.

Definition is_delivery (step : HubEnv * HubStep) : bool := match step.2 with Deliver => true | _ => false end.

(** Where the message is until it is queued. *)
Definition on_its_way (id channel : string) (sub : Subscription) (ev : CDCEvent) (n : nat) (st : HubState) : Prop :=
  ∃ c, hub_clients st !! id = Some c ∧ cl_subscriptions c !! channel = Some sub
  ∧ (queued (SentChange (broadcast_message ev sub)) c ∨ ∃ i, hub_pending st !! i = Some ev ∧ (i < n)%nat).

Lemma foldr_presence env id channels st :
  let st' := foldr (λ channel, RemovePresence env channel id) st channels in
  hub_clients st' = hub_clients st ∧ hub_pending st' = hub_pending st.
Proof. induction channels as [|channel channels IH]; [done|]. cbn. unfold RemovePresence at 1 3. by destruct (_ || _). Qed.

(** A message of another client. *)
Lemma handleMessage_others env id id' m st : id' ≠ id →
  hub_clients (handleMessage env id' m st) !! id = hub_clients st !! id ∧ hub_pending (handleMessage env id' m st) = hub_pending st.
Proof.
  intros Hne.
  assert (Hup : ∀ f st0, hub_clients (update_client id' f st0) !! id = hub_clients st0 !! id) by (intros f st0; cbn; by rewrite lookup_alter_ne).
  assert (Hpres : ∀ channel st0, hub_clients (SetPresence env channel id' st0) = hub_clients st0 ∧ hub_pending (SetPresence env channel id' st0) = hub_pending st0
            ∧ hub_clients (RemovePresence env channel id' st0) = hub_clients st0 ∧ hub_pending (RemovePresence env channel id' st0) = hub_pending st0).
  { intros channel st0. unfold SetPresence, RemovePresence. by destruct (_ || _). }
  unfold handleMessage. destruct (hub_clients st !! id') as [c|]; [|done]. cbn zeta. unfold send_to, with_subscriptions.
  destruct (String.eqb (cm_Action m) "subscribe").
  - unfold subscribe, send_to, with_subscriptions. destruct (requested m) as [[channel schema] table]. cbn zeta.
    destruct (_ || _); [by rewrite Hup|]. destruct (validator _ _ _); [by rewrite Hup|]. destruct (_ <=? _); [by rewrite Hup|].
    set (st1 := update_client id' _ st). assert (H1 : hub_clients st1 !! id = hub_clients st !! id ∧ hub_pending st1 = hub_pending st) by (split; [apply Hup|done]).
    clearbody st1. destruct H1 as [H1 H2]. destruct (EnsureTableTrigger env schema table st1) as [st2|e] eqn:E; rewrite !Hup; [|done].
    destruct (Hpres channel st2) as (-> & E2 & _). cbn [hub_pending]. change (hub_pending (update_client id' _ ?x)) with (hub_pending x). rewrite E2.
    assert (hub_clients st2 = hub_clients st1 ∧ hub_pending st2 = hub_pending st1) as [-> ->]; [|done].
    clear - E. unfold EnsureTableTrigger in E. cbn zeta in E. repeat case_match; try done; by injection E as <-.
  - destruct (Hpres (named_channel m) (update_client id' (λ c0, MkClient (delete (named_channel m) (cl_subscriptions c0)) (cl_maxChannels c0) (cl_sendChannel c0)) st))
      as (_ & _ & E1 & E2). destruct (Hpres (named_channel m) st) as (E3 & E4 & _).
    repeat case_match; rewrite !Hup; rewrite ?E1, ?E3, ?Hup; by split.
Qed.

Lemma on_its_way_step G id channel sub ev n env step st st' : fair env → undisturbed id step → hub_wf G st →
  wants ev sub = Some true → hub_step env step st = Some st' → on_its_way id channel sub ev n st →
  on_its_way id channel sub ev (n - if is_delivery (env, step) then 1 else 0) st'.
Proof.
  intros Hfair Hun Hwf Hw H (c & Hc & Hsub & Hway).
  assert (Hsame : hub_clients st' !! id = Some c → (∀ i, hub_pending st !! i = Some ev → hub_pending st' !! i = Some ev) → is_delivery (env, step) = false →
            on_its_way id channel sub ev (n - if is_delivery (env, step) then 1 else 0) st').
  { intros Hc' Hp ->. rewrite Nat.sub_0_r. exists c. split_and!; [done..|]. destruct Hway as [?|(i & Hi & Hn)]; [by left|right; eauto]. }
  assert (Hnotify : ∀ evs, st' = notify evs st → hub_clients st' = hub_clients st ∧ ∀ i, hub_pending st !! i = Some ev → hub_pending st' !! i = Some ev).
  { intros evs ->. unfold notify. destruct (hub_listening st); [|done]. split; [done|]. intros i Hi. cbn. by apply lookup_app_l_Some. }
  destruct step as [id' origin|id' [m|]|op schema table ts new old|ev'| |on|id'|id'|schema table|]; cbn [hub_step undisturbed] in *; try done.
  6: { destruct (hub_pending st) as [|ev' evs] eqn:Ep.
       - injection H as <-. exists c. split_and!; [done..|]. destruct Hway as [?|(i & Hi & _)]; [by left|done].
       - apply (BroadcastEvent_broadcast G) in H as (Hp & _ & Hcl); [|exact Hwf]. cbn in Hp, Hcl. specialize (Hcl id). rewrite Hc in Hcl.
         eexists. split_and!; [exact Hcl|done|]. unfold queued. cbn. destruct Hway as [Hq|([|i] & Hi & Hn)].
         + left. by apply offered_keeps.
         + injection Hi as ->. left. apply offered_in. right. apply messages_elem. exists sub. split_and!; [done| |done].
           rewrite (Hfair id). apply list_elem_of_fmap. exists (channel, sub). split; [done|]. by apply elem_of_map_to_list.
         + right. exists i. rewrite Hp. split; [exact Hi|lia]. }
  all: injection H as <-.
  - destruct (hub_clients st !! id') as [c'|] eqn:E; [by apply Hsame|]. apply Hsame; [| |done].
    + unfold handleConnectRealtime. cbn zeta. destruct (_ || _); [done|]. cbn. rewrite lookup_insert_ne; [done|]. intros ->. congruence.
    + unfold handleConnectRealtime. cbn zeta. by destruct (_ || _).
  - destruct (handleMessage_others env id id' m st Hun) as [E1 E2]. apply Hsame; [by rewrite E1|by rewrite E2|done].
  - apply Hsame; [|done..]. cbn. by rewrite lookup_alter_ne.
  - destruct (Hnotify _ eq_refl) as [E1 E2]. apply Hsame; [by rewrite E1|done..].
  - destruct (Hnotify _ eq_refl) as [E1 E2]. apply Hsame; [by rewrite E1|done..].
  - apply Hsame; [|done..]. cbn. by rewrite lookup_alter_ne.
  - clear Hnotify. unfold Close in *. destruct (hub_clients st !! id') as [c'|]; [|by apply Hsame].
    destruct (foldr_presence env id' (map_to_list (cl_subscriptions c')).*1 (st <| hub_clients := delete id' (hub_clients st) |>)) as [E1 E2].
    apply Hsame; [rewrite E1; cbn; by rewrite lookup_delete_ne|by rewrite E2|done].
  - by apply Hsame.
Qed.

Lemma on_its_way_run id channel sub ev later n st st' :
  Forall (λ step, fair step.1) later → Forall (λ step, undisturbed id step.2) later → (∃ G, (∀ id s t, G id s t → s ≠ "" ∧ t ≠ "") ∧
    Forall (λ step, grants G step.1 step.2) later ∧ hub_wf G st) →
  wants ev sub = Some true → hub_run later st = Some st' → on_its_way id channel sub ev n st →
  on_its_way id channel sub ev (n - List.length (List.filter is_delivery later)) st'.
Proof.
  intros Hfair Hun (G & HG & Hgr & Hwf) Hw. revert n st Hwf. induction later as [|[env step] later IH]; intros n st Hwf H Hway.
  - injection H as <-. by rewrite Nat.sub_0_r.
  - cbn [hub_run] in H. destruct (hub_step env step st) as [st1|] eqn:E; [|done]. cbn in H.
    apply list.Forall_cons in Hfair as [Hf1 Hfair], Hun as [Hu1 Hun], Hgr as [Hg1 Hgr].
    pose proof (on_its_way_step G id channel sub ev n env step st st1 Hf1 Hu1 Hwf Hw E Hway) as H1.
    assert (Hwf1 : hub_wf G st1) by (by eapply wf_step).
    specialize (IH Hfair Hun Hgr _ st1 Hwf1 H H1). cbn [List.filter].
    replace (n - List.length (if is_delivery (env, step) then (env, step) :: List.filter is_delivery later else List.filter is_delivery later))%nat
      with ((n - if is_delivery (env, step) then 1 else 0) - List.length (List.filter is_delivery later))%nat; [done|].
    destruct (is_delivery (env, step)); cbn [List.length]; lia.
Qed.


Lemma unnamed_triggers name triggers : Forall (λ t, tg_Name t ≠ name) triggers → existsb (λ t, String.eqb (tg_Name t) name) triggers = false.
Proof. induction 1 as [|t l Hx _ IH]; [done|]. cbn. by rewrite (proj2 (String.eqb_neq _ _) Hx). Qed.

(** A subscription that is accepted where no trigger has the name of the table's
    puts the trigger of the table there, unless the hub takes it to be there
    already. *)
Lemma trigger_installed env schema table st st' : EnsureTableTrigger env schema table st = Ok st' → schema ≠ "" →
  table_key schema table ∉ hub_installedTables st →
  Forall (λ t, tg_Name t ≠ pg_name (trigger_name schema table)) (hub_triggers st) →
  ∃ t, t ∈ hub_triggers st' ∧ tg_Schema t = schema ∧ tg_Table t = table.
Proof.
  intros H Hne Hk Hnone. unfold EnsureTableTrigger in H. cbn zeta in H. rewrite (proj2 (String.eqb_neq schema "")) in H by done.
  destruct (_ || _); [done|]. destruct (protected_from_triggers schema); [done|]. rewrite bool_decide_false in H by done.
  destruct (he_ddl_fails env); [done|]. unfold install_trigger in H. rewrite unnamed_triggers in H by done. cbn zeta in H.
  destruct (negb _); [done|]. destruct (existsb _ _); [done|]. injection H as <-. cbn. eexists. split; [apply elem_of_app; right; by apply list_elem_of_singleton|done].
Qed.

(** what reading a notification adds to the queue of a client: one message for
    each of its subscriptions that ask for the change, in some order, as far as
    they fit.  Nothing else of the client changes. *)
Theorem broadcast_exact steps enabled triggers s st env ev evs st' id c :
  Forall (λ step, fair step.1) steps → hub_run steps (started enabled triggers s) = Some st → fair env → hub_pending st = ev :: evs →
  hub_step env Deliver st = Some st' → hub_clients st !! id = Some c →
  ∃ more, more ≡ₚ messages ev (map_to_list (cl_subscriptions c)).*2
    ∧ hub_clients st' !! id = Some (MkClient (cl_subscriptions c) (cl_maxChannels c) (offered (cl_sendChannel c) more)).
Proof.
  intros Hf Hrun Hfe Hp Hstep Hc.
  pose proof (wf_run (granted steps) (granted_named steps) _ _ _ Hf (granted_all steps) Hrun (started_wf _ _ _ _)) as Hwf.
  cbn [hub_step] in Hstep. rewrite Hp in Hstep.
  apply (BroadcastEvent_broadcast (granted steps)) in Hstep as (_ & _ & Hcl); [|exact Hwf]. cbn in Hcl. specialize (Hcl id). rewrite Hc in Hcl.
  eexists. split; [|exact Hcl]. by apply messages_Permutation.
Qed.

(** *** Shortcomings *)

(** Where another table's trigger has the name of a table's trigger, as those
    of "a"."b_c" and "a_b"."c" have, a subscription of the table is accepted
    and no change of it is ever notified. *)
Lemma colliding_names : trigger_name "a" "b_c" = trigger_name "a_b" "c".
Proof. reflexivity. Qed.

Lemma no_triggers schema table op ts new old triggers : Forall (λ t, tg_Schema t ≠ schema ∨ tg_Table t ≠ table) triggers →
  notifications op schema table ts new old triggers = [].
Proof.
  intros Hnone. unfold notifications. replace (List.filter _ _) with ([] : list Trigger); [done|]. symmetry.
  induction Hnone as [|t l Hx _ IH]; [done|]. cbn [List.filter].
  destruct (String.eqb_spec (tg_Schema t) schema), (String.eqb_spec (tg_Table t) table); [naive_solver|apply IH..].
Qed.

Lemma colliding_trigger_is_not_installed env schema table op ts new old st :
  exposed (he_data env) schema table → table_key schema table ∉ hub_installedTables st → he_ddl_fails env = false →
  Exists (λ t, tg_Name t = pg_name (trigger_name schema table)) (hub_triggers st) →
  Forall (λ t, tg_Schema t ≠ schema ∨ tg_Table t ≠ table) (hub_triggers st) →
  ∃ st', EnsureTableTrigger env schema table st = Ok st' ∧ notifications op schema table ts new old (hub_triggers st') = [].
Proof.
  intros (Hv & Hs & Ht) Hk Hd Hname Hnone. unfold EnsureTableTrigger. cbn zeta.
  assert (schema ≠ "") as Hne by (intros ->; done). rewrite (proj2 (String.eqb_neq schema "") Hne), Hs, Ht, Hd, (bool_decide_false _ Hk). cbn [negb orb].
  assert (protected_from_triggers schema = false) as ->. { unfold validator in Hv. by destruct (protected_from_triggers schema). }
  unfold install_trigger. replace (existsb _ _) with true; [eexists; split; [done|]|].
  - cbn. by apply no_triggers.
  - symmetry. apply existsb_exists. apply list.Exists_exists in Hname as (t & Hin & E). exists t. by rewrite <- list_elem_of_In, E, String.eqb_refl.
Qed.

(** A trigger whose name holds upper-case letters is stored under another name
    than it is looked for: once the process has been restarted, the table can
    no longer be subscribed to. *)
Lemma mixed_case_fails_after_restart env schema table triggers triggers' :
  pg_name (fold_identifier (trigger_name schema table)) ≠ pg_name (trigger_name schema table) →
  Forall (λ t, tg_Name t ≠ pg_name (trigger_name schema table)) triggers →
  install_trigger env schema table triggers = Some triggers' → install_trigger env schema table triggers' = None.
Proof.
  intros Hfold Hnone Hi. unfold install_trigger in Hi. rewrite (unnamed_triggers _ _ Hnone) in Hi. cbn zeta in Hi.
  destruct (negb (he_exists env schema table)) eqn:Et; [done|]. destruct (existsb _ triggers); [done|]. injection Hi as <-.
  unfold install_trigger. rewrite unnamed_triggers. 2:{ apply Forall_app. split; [done|]. by apply list.Forall_singleton. }
  cbn zeta. rewrite Et, existsb_app. cbn. by rewrite !String.eqb_refl, orb_true_r.
Qed.

(** A subscription whose trigger cannot be set up takes with it the one its
    channel had. *)
Lemma failed_resubscription_drops env id c m channel schema table st e :
  requested m = (channel, schema, table) → channel ≠ "" → table ≠ "" → validator (he_data env) schema table = None →
  hub_clients st !! id = Some c → Z.of_nat (size (cl_subscriptions c)) < cl_maxChannels c →
  (∀ st', hub_installedTables st' = hub_installedTables st → hub_triggers st' = hub_triggers st →
     EnsureTableTrigger env schema table st' = Err e) →
  (cl_subscriptions <$> hub_clients (subscribe env id c m st) !! id) = Some (delete channel (cl_subscriptions c)).
Proof.
  intros Hr Hch Htb Hv Hc Hsz He. unfold subscribe. rewrite Hr. cbn zeta.
  rewrite (proj2 (String.eqb_neq _ _) Hch), (proj2 (String.eqb_neq _ _) Htb), Hv, He by done. cbn [orb].
  rewrite (proj2 (Z.leb_gt _ _) Hsz), alter_alter_subs. cbn. rewrite !lookup_alter_eq, Hc. cbn. by rewrite delete_insert_eq.
Qed.

(** A filter that panics on a record stops the process for everyone. *)
Lemma panicking_filter_stops env ev evs id c channel sub st : fair env → hub_clients st !! id = Some c →
  cl_subscriptions c !! channel = Some sub → wants ev sub = None → hub_pending st = ev :: evs → hub_step env Deliver st = None.
Proof.
  intros Hf Hc Hsub Hw Hp. cbn [hub_step]. rewrite Hp. unfold BroadcastEvent. rewrite bool_decide_false; [done|]. intros Hall.
  destruct (Hall id c Hc) as [c' Hd]. unfold dispatched in Hd. apply fmap_Some in Hd as (q & Hq & _).
  assert (sub ∈ he_order env id (cl_subscriptions c)) as Hin.
  { rewrite (Hf id). apply list_elem_of_fmap. exists (channel, sub). split; [done|]. by apply elem_of_map_to_list. }
  clear Hsub. revert Hq. generalize (cl_sendChannel c).
  induction Hin as [sub' l|sub' sub1 l Hin IH]; intros queue Hq; cbn in Hq; [by rewrite Hw in Hq|].
  destruct (wants ev sub1) as [[]|]; [| |done]; by eapply IH.
Qed.

(** A table that is dropped and made anew has no trigger, and gets none: the hub
    takes it to be there, accepts subscriptions and is told of no change. *)
Lemma remade_table_is_silent env env' schema table op ts new old st :
  table_key schema table ∈ hub_installedTables st → schema ≠ "" → IsValidIdentifier schema = true → IsValidIdentifier table = true →
  protected_from_triggers schema = false →
  ∃ st', hub_step env (TableDropped schema table) st = Some st' ∧ EnsureTableTrigger env' schema table st' = Ok st'
    ∧ notifications op schema table ts new old (hub_triggers st') = [].
Proof.
  intros Hk Hne Hs Ht Hp. eexists. split; [done|]. split.
  - unfold EnsureTableTrigger. cbn zeta. rewrite (proj2 (String.eqb_neq schema "") Hne), Hs, Ht, Hp. cbn [negb orb]. by rewrite bool_decide_true.
  - cbn. apply no_triggers. apply list.Forall_forall. intros t Hin%list_elem_of_In. apply filter_In in Hin as [_ Hin].
    destruct (String.eqb_spec (tg_Schema t) schema), (String.eqb_spec (tg_Table t) table); [done|by right|by left|by left].
Qed.

(** Where realtime is off when the process starts, the hub is never started:
    once it is turned on, clients connect and subscribe, and no connection
    listens for changes. *)
Lemma never_started_never_listens steps st st' : hub_started st = false → hub_listening st = false →
  Forall (λ step, step.2 ≠ Restarted) steps → hub_run steps st = Some st' → hub_listening st' = false.
Proof.
  revert st. induction steps as [|[env step] steps IH]; intros st Hs Hl Hn H; cbn in H; [by injection H as <-|].
  apply list.Forall_cons in Hn as [Hn1 Hn]. destruct (hub_step env step st) as [st1|] eqn:E; [|done].
  assert (hub_started st1 = false ∧ hub_listening st1 = false) as [H1 H2]; [|by eapply IH].
  assert (Hpres : ∀ channel id st0, hub_started (SetPresence env channel id st0) = hub_started st0 ∧ hub_listening (SetPresence env channel id st0) = hub_listening st0
            ∧ hub_started (RemovePresence env channel id st0) = hub_started st0 ∧ hub_listening (RemovePresence env channel id st0) = hub_listening st0).
  { intros channel id st0. unfold SetPresence, RemovePresence. by destruct (_ || _). }
  destruct step as [id origin|id [m|]|op schema table ts new old|ev| |on|id|id|schema table|]; cbn [hub_step] in E; try done.
  6: { destruct (hub_pending st); [by injection E as <-|]. unfold BroadcastEvent in E. case_bool_decide; [|done]. by injection E as <-. }
  all: injection E as <-; try done.
  - destruct (hub_clients st !! id); [done|]. unfold handleConnectRealtime. cbn zeta. by destruct (_ || _).
  - unfold handleMessage. destruct (hub_clients st !! id) as [c|]; [|done]. cbn zeta. unfold subscribe, send_to, with_subscriptions.
    destruct (requested m) as [[channel schema] table]. cbn zeta.
    repeat first [case_match; try done]; cbn; try (destruct (Hpres (named_channel m) id st) as (-> & -> & _); done).
    all: try (match goal with H : EnsureTableTrigger _ _ _ _ = Ok ?x |- _ => destruct (Hpres channel id x) as (-> & -> & _);
                unfold EnsureTableTrigger in H; cbn zeta in H; repeat case_match; try done; by injection H as <- end).
    match goal with |- context [RemovePresence _ ?ch id ?x] => by destruct (Hpres ch id x) as (_ & _ & -> & ->) end.
  - unfold notify. by rewrite Hl.
  - unfold notify. by rewrite Hl.
  - cbn. by rewrite Hs, andb_false_r.
  - unfold Close. destruct (hub_clients st !! id) as [c|]; [|done].
    induction ((map_to_list (cl_subscriptions c)).*1) as [|channel channels IHc]; [done|]. cbn.
    by destruct (Hpres channel id (foldr (λ channel, RemovePresence env channel id) (st <| hub_clients := delete id (hub_clients st) |>) channels)) as (_ & _ & -> & ->).
Qed.
End hub.

(** ** Samples *)

Section samples.
#[local] Existing Instance integer_floats.
#[local] Existing Instance ascii_tables.
#[local] Existing Instance sample_pg.
#[local] Instance exact_orbits : CaseOrbits := { same_orbit := Z.eqb }.

Definition sample_cut (s : string) : string := String.substring 0 63 s.
Definition sample_rt : RealtimeConfig := MkRealtimeConfig true 50 100 [] true.
Definition hub_sample_env : HubEnv := MkHubEnv (kv_ok 10) sample_config sample_rt (λ _ _, true) false (λ _ subs, (map_to_list subs).*2).
Definition sample_orders : ClientMessage := MkClientMessage "subscribe" "public:orders" "" "" "" "INSERT" "status=eq.paid".
Definition sample_sub : Subscription := MkSubscription "public:orders" "public" "orders" "INSERT" "status=eq.paid".
Definition sample_paid : list (string * any) := [("status", AString "paid")].
Definition sample_change : CDCEvent := notify_cdc (λ _, 100) (λ _, "") RowInsert "public" "orders" "now" sample_paid [].
Definition hub_sample_steps : list (HubEnv * HubStep) :=
  [(hub_sample_env, Listens true); (hub_sample_env, Connect "c1" ""); (hub_sample_env, Receive "c1" (Some sample_orders))].
Definition hub_sample_run (steps : list (HubEnv * HubStep)) : option (HubState (S := KVTable)) :=
  hub_run sample_cut (λ _, 100) (λ _, "") steps (started true [] (∅ : KVTable)).
Definition hub_sample_client (queue : list Outgoing) : Client :=
  MkClient {["public:orders" := sample_sub]} 50 (SentAck "public:orders" "subscribed" :: queue).

Lemma hub_sample_orders : fair hub_sample_env.
Proof. by intros id subs. Qed.

Lemma hub_sample_fair : Forall (λ step, fair step.1) hub_sample_steps.
Proof. repeat (apply list.Forall_cons; split; [exact hub_sample_orders|]). by apply list.Forall_nil. Qed.


(** The row changes, another client comes, and the notification is read. *)
Definition hub_sample_later : list (HubEnv * HubStep) := [(hub_sample_env, Connect "c2" ""); (hub_sample_env, Deliver)].
Definition hub_sample_changed : HubEnv * HubStep := (hub_sample_env, RowChanged RowInsert "public" "orders" "now" sample_paid []).

Lemma hub_sample_runs : ∃ st, hub_sample_run hub_sample_steps = Some st ∧ hub_clients st !! "c1" = Some (hub_sample_client [])
  ∧ hub_listening st = true ∧ hub_triggers st = [MkTrigger "trg_cdc_public_orders" "public" "orders"] ∧ hub_pending st = []
  ∧ is_Some (hub_run sample_cut (λ _, 100) (λ _, "") (hub_sample_changed :: hub_sample_later) st).
Proof.
  eexists. split; [reflexivity|]. split_and!; [reflexivity..|]. assert (Hrun : ∀ o : option (HubState (S := KVTable)), (if o then true else false) = true → is_Some o).
  { by intros [st|]. }
  apply Hrun. vm_compute. reflexivity.
Qed.


(** A table that is excluded later stays subscribed. *)
Lemma excluded_table_still_streams :
  let excluding := MkHubEnv (kv_ok 10) (MkDataConfig ["public"] true 1000 50 ["orders"] true 30 10000 true) sample_rt (λ _ _, true) false (λ _ subs, (map_to_list subs).*2) in
  validator (he_data excluding) "public" "orders" = Some (TableExcluded "orders")
  ∧ (hub_sample_run (hub_sample_steps ++ [(excluding, RowChanged RowInsert "public" "orders" "now" sample_paid []); (excluding, Deliver)])
     ≫= λ st, cl_sendChannel <$> hub_clients st !! "c1")
    = Some [SentAck "public:orders" "subscribed"; SentChange (broadcast_message sample_change sample_sub)].
Proof. split; reflexivity. Qed.
End samples.
