(* ===== verification/GraphQLCompiler.v ===== *)
(** * data/graphql/compiler.go: from GraphQL operations to SQL

    The compiler turns an operation into one statement that builds the JSON
    answer.  Its catalog, the tables of data/graphql/schema.go, is a map from
    "schema.table".  Maps are lists of entries in the order the code ranges
    over them.

    Every text the compiler emits between quotes passed [IsValidIdentifier], is
    a name of the syntax tree (the parser makes them of letters, digits and
    underscores) or comes from the catalog; values are arguments. *)

From S2P Require Import Prelude GoStrings GoRunes GoValues SqlText GraphQLParser.
From Stdlib Require Import ZArith Lia Ascii String.
Local Open Scope string_scope.
Local Open Scope Z_scope.

(** ** Upper case *)

Definition upper_ascii (c : ascii) : ascii :=
  let n := nat_of_ascii c in
  if (97 <=? n)%nat && (n <=? 122)%nat then ascii_of_nat (n - 32) else c.

(** As for [ToLower]: the two characters beyond ASCII whose capital is in ASCII,
    dotless i and long s; the capitals of the others are not needed. *)
Fixpoint upper_from (skip : nat) (s : string) : string :=
  match s with
  | EmptyString => EmptyString
  | String c s' =>
      match skip with
      | S k => upper_from k s'
      | O => if HasPrefix s (bytes [196; 177]%nat) then String "I" (upper_from 1 s')
             else if HasPrefix s (bytes [197; 191]%nat) then String "S" (upper_from 1 s')
             else String (upper_ascii c) (upper_from 0 s')
      end
  end.
Definition ToUpper (s : string) : string := upper_from 0 s.

(** ** The catalog *)

Record RelationInfo := MkRelationInfo {
  ri_ForeignSchema : string;
  ri_ForeignTable : string;
  ri_LocalColumn : string;
  ri_TargetColumn : string;
  ri_IsArray : bool;
}.

Record TableInfo := MkTableInfo {
  ti_Schema : string;
  ti_Name : string;
  ti_PrimaryKey : string;
  ti_Columns : list string;
  ti_ForeignKeys : list (string * RelationInfo);
}.

Abbreviation Catalog := (list (string * TableInfo)).

Definition GetTable (tables : Catalog) (schema table : string) : option TableInfo :=
  map_get tables ((if String.eqb schema "" then "public" else schema) ++ "." ++ table).

Definition SetTable (tables : Catalog) (tableInfo : TableInfo) : Catalog :=
  map_set tables ((if String.eqb (ti_Schema tableInfo) "" then "public" else ti_Schema tableInfo)
                  ++ "." ++ ti_Name tableInfo) tableInfo.

Record Compiler := MkCompiler {
  cp_tables : Catalog;
  cp_defaultSchema : string;
  cp_allowedSchemas : list string;
  cp_excludedTables : list string;
}.

Definition NewCompiler (tables : Catalog) (defaultSchema : string) : Compiler :=
  MkCompiler tables (if String.eqb defaultSchema "" then "public" else defaultSchema) [] [].
Definition SetAllowedSchemas (schemas : list string) (c : Compiler) : Compiler :=
  MkCompiler (cp_tables c) (cp_defaultSchema c) schemas (cp_excludedTables c).
Definition SetExcludedTables (excludedTables : list string) (c : Compiler) : Compiler :=
  MkCompiler (cp_tables c) (cp_defaultSchema c) (cp_allowedSchemas c) excludedTables.

Definition isSchemaAllowed (c : Compiler) (schema : string) : bool :=
  match cp_allowedSchemas c with
  | [] => true
  | schemas => bool_decide (schema ∈ schemas)
  end.

Definition isTableExcluded (c : Compiler) (schema table : string) : bool :=
  existsb (λ excluded, String.eqb excluded table || String.eqb excluded (schema ++ "." ++ table)) (cp_excludedTables c).

(** The loop that looks for a schema in front of an underscore. *)
Fixpoint qualified (tables : Catalog) (pre s : string) : option (string * string) :=
  match s with
  | EmptyString => None
  | String c s' =>
      if negb (String.eqb pre "") && Ascii.eqb c "_" && bool_decide (is_Some (GetTable tables pre s'))
      then Some (pre, s')
      else qualified tables (pre ++ String c "") s'
  end.

Definition resolve_table (c : Compiler) (name : string) : string * string :=
  default (cp_defaultSchema c, name) (qualified (cp_tables c) "" name).

Inductive CompileError :=
| EmptySelection
| SchemaNotExposed (schema : string)
| TableExcluded (table : string)
| InvalidTable (table : string)
| InvalidFieldAlias (alias : string)
| InvalidSelectionAlias (alias : string)
| InvalidColumnName (column : string)
| WhereNotObject
| OrderByNotObject
| LimitNotInteger
| OffsetNotInteger
| ObjectsRequired
| ObjectsNotMaps
| SetRequired
| WhereRequired
| UnsupportedMutation (name : string)
(** Not a Go error: a failed type assertion panics. *)
| TypeAssertionPanic.

Section compiler.
Context `{UT : UnicodeTables} `{FL : Floats} (compiler : Compiler).

Local Notation fragment := (string * list any * Z)%type.

(** The guards common to root fields and mutations. *)
Definition target_table (name : string) : result CompileError (string * string) :=
  let '(schema, table) := resolve_table compiler name in
  if negb (isSchemaAllowed compiler schema) then Err (SchemaNotExposed schema)
  else if isTableExcluded compiler schema table then Err (TableExcluded table)
  else if negb (IsValidIdentifier table) then Err (InvalidTable table)
  else Ok (schema, table).

(** ** WHERE *)

Definition column_of (tableAlias columnName : string) : string := tableAlias ++ "." ++ dq columnName.

(** The operators with one argument. *)
Definition comparison (filterOp : string) : option string :=
  if String.eqb filterOp "_eq" then Some " = "
  else if String.eqb filterOp "_neq" then Some " != "
  else if String.eqb filterOp "_gt" then Some " > "
  else if String.eqb filterOp "_gte" then Some " >= "
  else if String.eqb filterOp "_lt" then Some " < "
  else if String.eqb filterOp "_lte" then Some " <= "
  else if String.eqb filterOp "_like" then Some " LIKE "
  else if String.eqb filterOp "_ilike" then Some " ILIKE "
  else None.

Fixpoint holes_from {A} (values : list A) (argIndex : Z) : list string :=
  match values with
  | [] => []
  | _ :: values => hole argIndex :: holes_from values (argIndex + 1)
  end.

(** One entry of a condition: the clauses it adds, at most one. *)
Definition condition_clause (tableAlias columnName filterOp : string) (conditionValue : any) (argIndex : Z)
    : list string * list any * Z :=
  match comparison filterOp with
  | Some op => ([(column_of tableAlias columnName ++ op ++ hole argIndex)%string], [conditionValue], argIndex + 1)
  | None =>
      if String.eqb filterOp "_in" then
        match conditionValue with
        | AList [] => (["FALSE"], [], argIndex)
        | AList inArray =>
            ([(column_of tableAlias columnName ++ " IN (" ++ Join (holes_from inArray argIndex) ", " ++ ")")%string],
             inArray, argIndex + Z.of_nat (List.length inArray))
        | _ => ([], [], argIndex)
        end
      else if String.eqb filterOp "_is_null" then
        match conditionValue with
        | ABool true => ([(column_of tableAlias columnName ++ " IS NULL")%string], [], argIndex)
        | _ => ([(column_of tableAlias columnName ++ " IS NOT NULL")%string], [], argIndex)
        end
      else ([], [], argIndex)
  end.

Fixpoint condition_loop (tableAlias columnName : string) (conditionMap : list (string * any))
    (clauses : list string) (args : list any) (argIndex : Z) : list string * list any * Z :=
  match conditionMap with
  | [] => (clauses, args, argIndex)
  | (filterOp, conditionValue) :: conditionMap =>
      let '(newClauses, newArgs, argIndex) := condition_clause tableAlias columnName filterOp conditionValue argIndex in
      condition_loop tableAlias columnName conditionMap (clauses ++ newClauses)%list (args ++ newArgs)%list argIndex
  end.

Fixpoint where_map_loop (tableAlias : string) (whereMap : list (string * any))
    (clauses : list string) (args : list any) (argIndex : Z) : result CompileError fragment :=
  match whereMap with
  | [] => Ok (Join clauses " AND ", args, argIndex)
  | (columnName, condition) :: whereMap =>
      if negb (IsValidIdentifier columnName) then Err (InvalidColumnName columnName) else
      match condition with
      | AMap conditionMap =>
          let '(clauses, args, argIndex) := condition_loop tableAlias columnName conditionMap clauses args argIndex in
          where_map_loop tableAlias whereMap clauses args argIndex
      | _ => where_map_loop tableAlias whereMap
               (clauses ++ [(column_of tableAlias columnName ++ " = " ++ hole argIndex)%string])%list
               (args ++ [condition])%list (argIndex + 1)
      end
  end.

Definition compileWhere (tableAlias : string) (where_ : any) (startIndex : Z) : result CompileError fragment :=
  match where_ with
  | ANil => Ok ("", [], startIndex)
  | AMap whereMap => where_map_loop tableAlias whereMap [] [] startIndex
  | _ => Err WhereNotObject
  end.

(** ** ORDER BY, LIMIT, OFFSET *)

Fixpoint order_parts (tableAlias : string) (orderMap : list (string * any)) (orderParts : list string)
    : result CompileError (list string) :=
  match orderMap with
  | [] => Ok orderParts
  | (columnName, dir) :: orderMap =>
      if negb (IsValidIdentifier columnName) then Err (InvalidColumnName columnName) else
      let direction := ToUpper (format_v dir) in
      let direction := if negb (String.eqb direction "ASC") && negb (String.eqb direction "DESC") then "ASC" else direction in
      order_parts tableAlias orderMap (orderParts ++ [(column_of tableAlias columnName ++ " " ++ direction)%string])%list
  end.

Definition compileOrderBy (tableAlias : string) (orderBy : any) : result CompileError string :=
  match orderBy with
  | ANil | AMap [] => Ok ""
  | AMap orderMap =>
      (let! orderParts := order_parts tableAlias orderMap [] in
       Ok (" ORDER BY " ++ Join (sort_Strings orderParts) ", "))%go
  | _ => Err OrderByNotObject
  end.

(** [" LIMIT %d"] and [" OFFSET %d"]: a number, a float cut off. *)
Definition number_clause (keyword : string) (e : CompileError) (argument : option any) : result CompileError string :=
  match argument with
  | None => Ok ""
  | Some (AInt z) => Ok (keyword ++ decimal z)
  | Some (AFloat f) => Ok (keyword ++ decimal (float_to_int f))
  | Some _ => Err e
  end.

(** [fieldNode.Arguments[name]]. *)
Definition argument (arguments : list (string * any)) (name : string) : any := default ANil (map_get arguments name).

Definition page_clauses (arguments : list (string * any)) : result CompileError string :=
  (let! limit := number_clause " LIMIT " LimitNotInteger (map_get arguments "limit") in
   let! offset := number_clause " OFFSET " OffsetNotInteger (map_get arguments "offset") in
   Ok (limit ++ offset))%go.

(** ** Selections *)

Definition field_alias (field : FieldNode) : string :=
  if String.eqb (fn_Alias field) "" then fn_Name field else fn_Alias field.

Section selection.
Context (nested : FieldNode → Z → result CompileError fragment) (tableAlias : string).

(** The loop over a selection set; [nested] compiles a relation. *)
Fixpoint selection_loop (fields : list FieldNode) (selectPairs : list string) (args : list any) (argIndex : Z)
    : result CompileError (list string * list any * Z) :=
  match fields with
  | [] => Ok (selectPairs, args, argIndex)
  | subField :: fields =>
      let subAlias := field_alias subField in
      if negb (IsValidIdentifier subAlias) then Err (InvalidSelectionAlias subAlias) else
      match fn_SelectionSet subField with
      | [] =>
          if negb (IsValidIdentifier (fn_Name subField)) then Err (InvalidColumnName (fn_Name subField))
          else selection_loop fields
                 (selectPairs ++ [(sq subAlias ++ ", " ++ column_of tableAlias (fn_Name subField))%string])%list args argIndex
      | _ =>
          (let! (relQuery, relArgs, nextArgIndex) := nested subField argIndex in
           selection_loop fields (selectPairs ++ [(sq subAlias ++ ", (" ++ relQuery ++ ")")%string])%list
             (args ++ relArgs)%list nextArgIndex)%go
      end
  end.
End selection.

(** The tail both queries share: table, condition, order, page. *)
Definition json_query (selectPairs : list string) (schema table tableAlias condition orderBy page : string) : string :=
  "SELECT COALESCE(json_agg(json_build_object(" ++ Join selectPairs ", " ++ ")), '[]'::json) FROM "
  ++ dq schema ++ "." ++ dq table ++ " " ++ tableAlias
  ++ (if String.eqb condition "" then "" else " WHERE " ++ condition) ++ orderBy ++ page.

(** ** Nested relations *)

(** The table of a relation: as named, else without or with a final s. *)
Definition relation_table (schema relTable : string) : string * option TableInfo :=
  match GetTable (cp_tables compiler) schema relTable with
  | Some info => (relTable, Some info)
  | None =>
      let other := if HasSuffix relTable "s" then TrimSuffix relTable "s" else relTable ++ "s" in
      match GetTable (cp_tables compiler) schema other with
      | Some info => (other, Some info)
      | None => (relTable, None)
      end
  end.

(** The columns of the join, and the schema and table joined. *)
Record Join_ := MkJoin { j_schema : string; j_table : string; j_foreignKey : string; j_primaryKey : string }.

(** A foreign key of the related table to the parent. *)
Definition join_from_child (j : Join_) (relation : option RelationInfo) : Join_ :=
  match relation with
  | Some info =>
      MkJoin (j_schema j)
        (if negb (String.eqb (ri_ForeignTable info) "") && negb (ri_IsArray info)
         then ri_ForeignTable info else j_table j)
        (ri_LocalColumn info) (ri_TargetColumn info)
  | None => j
  end.

(** A relation of the parent with the field's name. *)
Definition join_from_parent (j : Join_) (relation : option RelationInfo) : Join_ :=
  match relation with
  | Some info =>
      MkJoin (if String.eqb (ri_ForeignSchema info) "" then j_schema j else ri_ForeignSchema info)
        (if String.eqb (ri_ForeignTable info) "" then j_table j else ri_ForeignTable info)
        (ri_TargetColumn info) (ri_LocalColumn info)
  | None => j
  end.

Definition relation_join (schema parentTable relTable : string) : Join_ :=
  let parentTableInfo := GetTable (cp_tables compiler) schema parentTable in
  let primaryKey := match parentTableInfo with
                    | Some info => if String.eqb (ti_PrimaryKey info) "" then "id" else ti_PrimaryKey info
                    | None => "id"
                    end in
  let '(actualRelTable, relationTableInfo) := relation_table schema relTable in
  let j := MkJoin schema actualRelTable (TrimSuffix parentTable "s" ++ "_id") primaryKey in
  let j := join_from_child j (relationTableInfo ≫= λ info, map_get (ti_ForeignKeys info) parentTable) in
  join_from_parent j (parentTableInfo ≫= λ info, map_get (ti_ForeignKeys info) relTable).

Definition alias_at (depth : Z) : string := "t" ++ decimal depth.

Fixpoint compileNestedRelation (schema parentTable parentAlias : string) (depth : Z) (fieldNode : FieldNode)
    (startIndex : Z) {struct fieldNode} : result CompileError fragment :=
  match fieldNode with
  | MkField relTable _ arguments selectionSet =>
      if negb (IsValidIdentifier relTable) then Err (InvalidTable relTable) else
      let relationAlias := alias_at depth in
      (let! (selectPairs, args, argIndex) :=
         selection_loop (compileNestedRelation schema relTable relationAlias (depth + 1)) relationAlias
           selectionSet [] [] startIndex in
       let j := relation_join schema parentTable relTable in
       let joinCondition := column_of relationAlias (j_foreignKey j) ++ " = " ++ column_of parentAlias (j_primaryKey j) in
       let! (whereClause, whereArgs, argIndex) := compileWhere relationAlias (argument arguments "where") argIndex in
       let! orderByClause := compileOrderBy relationAlias (argument arguments "order_by") in
       let! page := page_clauses arguments in
       Ok (json_query selectPairs (j_schema j) (j_table j) relationAlias
             (joinCondition ++ (if String.eqb whereClause "" then "" else " AND " ++ whereClause)) orderByClause page,
           (args ++ whereArgs)%list, argIndex))%go
  end.

(** ** Root queries *)

(** What is selected when the field has no selection set. *)
Definition default_pairs (schema table tableAlias : string) : list string :=
  match GetTable (cp_tables compiler) schema table with
  | Some (MkTableInfo _ _ _ ((_ :: _) as columns) _) =>
      sort_Strings ((λ columnName, (sq columnName ++ ", " ++ column_of tableAlias columnName)%string) <$> columns)
  | _ => [(sq table ++ ", to_jsonb(" ++ tableAlias ++ ")")%string]
  end.

Definition compileRootQuery (fieldNode : FieldNode) (startIndex : Z) : result CompileError fragment :=
  (let! (schema, table) := target_table (fn_Name fieldNode) in
   if negb (String.eqb (fn_Alias fieldNode) "") && negb (IsValidIdentifier (fn_Alias fieldNode))
   then Err (InvalidFieldAlias (fn_Alias fieldNode)) else
   let! (selectPairs, args, argIndex) :=
     selection_loop (compileNestedRelation schema table "t0" 1) "t0" (fn_SelectionSet fieldNode) [] [] startIndex in
   let selectPairs := match selectPairs with [] => default_pairs schema table "t0" | _ => selectPairs end in
   let! (whereClause, whereArgs, argIndex) := compileWhere "t0" (argument (fn_Arguments fieldNode) "where") argIndex in
   let! orderByClause := compileOrderBy "t0" (argument (fn_Arguments fieldNode) "order_by") in
   let! page := page_clauses (fn_Arguments fieldNode) in
   Ok (json_query selectPairs schema table "t0" whereClause orderByClause page, (args ++ whereArgs)%list, argIndex))%go.

Fixpoint root_loop (fields : list FieldNode) (fieldPairs : list string) (args : list any) (argIndex : Z)
    : result CompileError (list string * list any) :=
  match fields with
  | [] => Ok (fieldPairs, args)
  | rootField :: fields =>
      (let! (tableQuery, subArgs, nextArgIndex) := compileRootQuery rootField argIndex in
       root_loop fields (fieldPairs ++ [(sq (field_alias rootField) ++ ", (" ++ tableQuery ++ ")")%string])%list
         (args ++ subArgs)%list nextArgIndex)%go
  end.

(** ** Mutations *)

Fixpoint check_columns (names : list string) : result CompileError unit :=
  match names with
  | [] => Ok tt
  | columnName :: names =>
      if negb (IsValidIdentifier columnName) then Err (InvalidColumnName columnName) else check_columns names
  end.

(** The rows of an insert: one placeholder per column, missing values are nil. *)
Fixpoint value_rows (columns : list string) (objects : list any) (valueRows : list string) (args : list any) (argIndex : Z)
    : result CompileError (list string * list any * Z) :=
  match objects with
  | [] => Ok (valueRows, args, argIndex)
  | AMap objectMap :: objects =>
      value_rows columns objects
        (valueRows ++ [("(" ++ Join (holes_from columns argIndex) ", " ++ ")")%string])%list
        (args ++ (argument objectMap <$> columns))%list (argIndex + Z.of_nat (List.length columns))
  | _ :: _ => Err TypeAssertionPanic
  end.

Definition compileInsert (cteName table_name : string) (arguments : list (string * any)) (argIndex : Z)
    : result CompileError fragment :=
  (let! (targetSchema, table) := target_table table_name in
   match argument arguments "objects" with
   | AList ((first :: _) as objects) =>
       match first with
       | AMap recordMap =>
           let! _ := check_columns (keys recordMap) in
           let columns := sort_Strings (keys recordMap) in
           let! (valueRows, args, argIndex) := value_rows columns objects [] [] argIndex in
           Ok (cteName ++ " AS (
				INSERT INTO " ++ dq targetSchema ++ "." ++ dq table ++ " (" ++ Join (dq <$> columns) ", "
                 ++ ") VALUES " ++ Join valueRows ", " ++ " RETURNING *
			)", args, argIndex)
       | _ => Err ObjectsNotMaps
       end
   | _ => Err ObjectsRequired
   end)%go.

Fixpoint set_parts (updateMap : list (string * any)) (setParts : list string) (args : list any) (argIndex : Z)
    : result CompileError (list string * list any * Z) :=
  match updateMap with
  | [] => Ok (setParts, args, argIndex)
  | (columnName, columnValue) :: updateMap =>
      if negb (IsValidIdentifier columnName) then Err (InvalidColumnName columnName)
      else set_parts updateMap (setParts ++ [(dq columnName ++ " = " ++ hole argIndex)%string])%list
             (args ++ [columnValue])%list (argIndex + 1)
  end.

(** The condition of an update or delete: it must be there and not be empty. *)
Definition required_where (table : string) (arguments : list (string * any)) (argIndex : Z) : result CompileError fragment :=
  match argument arguments "where" with
  | ANil => Err WhereRequired
  | whereArg =>
      (let! (whereClause, whereArgs, nextArgIndex) := compileWhere table whereArg argIndex in
       if String.eqb whereClause "" then Err WhereRequired else Ok (whereClause, whereArgs, nextArgIndex))%go
  end.

Definition compileUpdate (cteName table_name : string) (arguments : list (string * any)) (argIndex : Z)
    : result CompileError fragment :=
  (let! (targetSchema, table) := target_table table_name in
   match argument arguments "_set" with
   | AMap ((_ :: _) as updateMap) =>
       let! (setParts, args, argIndex) := set_parts updateMap [] [] argIndex in
       let! (whereClause, whereArgs, argIndex) := required_where table arguments argIndex in
       Ok (cteName ++ " AS (
				UPDATE " ++ dq targetSchema ++ "." ++ dq table ++ " SET " ++ Join setParts ", "
             ++ " WHERE " ++ whereClause ++ " RETURNING *
			)", (args ++ whereArgs)%list, argIndex)
   | _ => Err SetRequired
   end)%go.

Definition compileDelete (cteName table_name : string) (arguments : list (string * any)) (argIndex : Z)
    : result CompileError fragment :=
  (let! (targetSchema, table) := target_table table_name in
   let! (whereClause, whereArgs, argIndex) := required_where table arguments argIndex in
   Ok (cteName ++ " AS (
				DELETE FROM " ++ dq targetSchema ++ "." ++ dq table ++ " WHERE " ++ whereClause ++ " RETURNING *
			)", whereArgs, argIndex))%go.

Definition compileMutation (cteName : string) (mutationField : FieldNode) (argIndex : Z) : result CompileError fragment :=
  let name := fn_Name mutationField in
  if HasPrefix name "insert_" then compileInsert cteName (TrimPrefix name "insert_") (fn_Arguments mutationField) argIndex
  else if HasPrefix name "update_" then compileUpdate cteName (TrimPrefix name "update_") (fn_Arguments mutationField) argIndex
  else if HasPrefix name "delete_" then compileDelete cteName (TrimPrefix name "delete_") (fn_Arguments mutationField) argIndex
  else Err (UnsupportedMutation name).

(** What a mutation returns: the selected columns with usable names, else the row. *)
Definition returned_pair (cteName : string) (subField : FieldNode) : option string :=
  if IsValidIdentifier (fn_Name subField) && IsValidIdentifier (field_alias subField)
  then Some (sq (field_alias subField) ++ ", " ++ column_of cteName (fn_Name subField))%string else None.

Definition returned_row (cteName : string) (selectionSet : list FieldNode) : string :=
  match omap (returned_pair cteName) selectionSet with
  | [] => "to_json(" ++ cteName ++ ")"
  | returnSelectPairs => "json_build_object(" ++ Join returnSelectPairs ", " ++ ")"
  end.

Definition mutation_pair (cteName : string) (mutationField : FieldNode) : string :=
  sq (fn_Name mutationField) ++ ", (SELECT COALESCE(json_agg(" ++ returned_row cteName (fn_SelectionSet mutationField)
  ++ "), '[]'::json) FROM " ++ cteName ++ ")".

Definition cte_name (mutationIndex : Z) : string := "m" ++ decimal mutationIndex.

Fixpoint mutations_loop (mutationIndex : Z) (fields : list FieldNode) (ctes selectPairs : list string)
    (args : list any) (argIndex : Z) : result CompileError (list string * list string * list any) :=
  match fields with
  | [] => Ok (ctes, selectPairs, args)
  | mutationField :: fields =>
      let cteName := cte_name mutationIndex in
      (let! (cte, newArgs, argIndex) := compileMutation cteName mutationField argIndex in
       mutations_loop (mutationIndex + 1) fields (ctes ++ [cte])%list
         (selectPairs ++ [mutation_pair cteName mutationField])%list (args ++ newArgs)%list argIndex)%go
  end.

Definition compileMutations (fields : list FieldNode) : result CompileError (string * list any) :=
  (let! (ctes, selectPairs, args) := mutations_loop 0 fields [] [] [] 1 in
   Ok ("WITH " ++ Join ctes ", " ++ " SELECT json_build_object(" ++ Join selectPairs ", " ++ ")", args))%go.

Definition Compile (operationNode : OperationNode) : result CompileError (string * list any) :=
  match op_SelectionSet operationNode with
  | [] => Err EmptySelection
  | selectionSet =>
      match op_Type operationNode with
      | MutationOperationType => compileMutations selectionSet
      | QueryOperationType =>
          (let! (fieldPairs, args) := root_loop selectionSet [] [] 1 in
           Ok ("SELECT json_build_object(" ++ Join fieldPairs ", " ++ ")", args))%go
      end
  end.
End compiler.
