(* ===== verification/GraphQLSql.v ===== *)
(** * The SQL of GraphQL operations

    What the compiler emits is parameterised, for every query text and all
    variables; mutations are conditional; and what the compiler does not
    check. *)

From S2P Require Import Prelude GoStrings GoRunes GoValues SqlText GraphQLParser GraphQLCompiler.
From Stdlib Require Import ZArith Lia Ascii String.
Local Open Scope string_scope.
Local Open Scope Z_scope.

(** ** Names of the catalog and of the syntax tree *)

Section names.
Context `{UT : UnicodeTables} `{FL : Floats}.

Record relation_ok (r : RelationInfo) : Prop := {
  ro_schema : name_text (ri_ForeignSchema r) = true;
  ro_table : name_text (ri_ForeignTable r) = true;
  ro_local : name_text (ri_LocalColumn r) = true;
  ro_target : name_text (ri_TargetColumn r) = true;
}.

Record table_ok (t : TableInfo) : Prop := {
  to_pk : name_text (ti_PrimaryKey t) = true;
  to_columns : Forall (λ c, name_text c = true) (ti_Columns t);
  to_fks : Forall (λ kv, relation_ok kv.2) (ti_ForeignKeys t);
}.

Definition catalog_ok (tables : Catalog) : Prop := Forall (λ kv, table_ok kv.2) tables.

Lemma GetTable_ok tables schema table info : catalog_ok tables → GetTable tables schema table = Some info → table_ok info.
Proof.
  intros Hc Hg. apply map_get_in in Hg. unfold catalog_ok in Hc. rewrite list.Forall_forall in Hc. exact (Hc _ Hg).
Qed.

Lemma relation_lookup info name r : table_ok info → map_get (ti_ForeignKeys info) name = Some r → relation_ok r.
Proof. intros [_ _ Hf] Hg. apply map_get_in in Hg. rewrite list.Forall_forall in Hf. exact (Hf _ Hg). Qed.

(** Names and aliases, all the way down. *)
Inductive field_ok : FieldNode → Prop :=
| field_ok_intro name alias arguments selection :
    name_text name = true → name_text alias = true → Forall field_ok selection →
    field_ok (MkField name alias arguments selection).

Section field_induction.
Context (P : FieldNode → Prop)
  (Hfield : ∀ name alias arguments selection, Forall P selection → P (MkField name alias arguments selection)).

Fixpoint field_nested_ind (f : FieldNode) : P f :=
  match f with
  | MkField name alias arguments selection =>
      Hfield name alias arguments selection
        ((fix go (l : list FieldNode) : Forall P l :=
            match l with
            | [] => Forall_nil_2 _
            | x :: l' => Forall_cons_2 _ _ _ (field_nested_ind x) (go l')
            end) selection)
  end.
End field_induction.
End names.

(** ** Text that starts with a blank or is empty *)

Definition spaced (s : string) : bool := match s with EmptyString => true | String c _ => Ascii.eqb c " " end.

Lemma spaced_app a b : spaced a = true → spaced b = true → spaced (a ++ b) = true.
Proof. by destruct a. Qed.

Lemma spaced_breaks s : spaced s = true → breaks s = true.
Proof. destruct s as [|c s]; [done|]. simpl. intros ->%Ascii.eqb_eq. done. Qed.

Section sql.
Context `{UT : UnicodeTables} `{FL : Floats} (compiler : Compiler).

Lemma ident_inert c : ident_byte c = true → inert c = true.
Proof.
  intros Hc. unfold inert, plain_step. destruct (ident_byte_quotes c Hc) as [-> ->].
  destruct (Ascii.eqb_spec c "$") as [->|_]; [done|]. by destruct (Ascii.eqb_spec c ";") as [->|_].
Qed.

Lemma neutral_name s : name_text s = true → neutral s.
Proof.
  intros Hs. apply scan_inert. unfold name_text in Hs. induction s as [|c s IH]; [done|]. cbn [all_chars] in *.
  apply andb_true_iff in Hs as [Hc Hs]. by rewrite ident_inert, IH.
Qed.

Lemma emits_seq a b i j k : i <= j <= k → emits a (seq_holes i j) → emits b (seq_holes j k) → breaks b = true →
  emits (a ++ b) (seq_holes i k).
Proof. intros Hi Ha Hb Hbr. rewrite <- (seq_holes_app i j k) by done. by apply emits_app. Qed.

Lemma pieces_seq_snoc l x i j k : i <= j <= k → pieces l (seq_holes i j) → emits x (seq_holes j k) →
  pieces (l ++ [x])%list (seq_holes i k).
Proof. intros. rewrite <- (seq_holes_app i j k) by done. by apply pieces_snoc. Qed.

Lemma holes_from_pieces {A} (values : list A) i : 0 <= i →
  pieces (holes_from values i) (seq_holes i (i + Z.of_nat (List.length values))).
Proof.
  revert i. induction values as [|v values IH]; intros i Hi; cbn [holes_from List.length].
  - rewrite Z.add_0_r, seq_holes_nil. constructor.
  - rewrite <- (seq_holes_app i (i + 1)) by lia. constructor; [by apply emits_next_hole|].
    replace (i + Z.of_nat (S (List.length values))) with (i + 1 + Z.of_nat (List.length values)) by lia.
    apply IH. lia.
Qed.

Lemma neutral_sort l : Forall neutral l → Forall neutral (sort_Strings l).
Proof. intros Hl. unfold sort_Strings. by rewrite sort_by_perm. Qed.

(** Clauses made so far for the arguments from [s] on. *)
Definition clauses_ok (s : Z) (clauses : list string) (args : list any) (i : Z) : Prop :=
  i = s + Z.of_nat (List.length args) ∧ pieces clauses (seq_holes s i).

Lemma clauses_nil s : clauses_ok s [] [] s.
Proof. split; [cbn; lia|]. rewrite seq_holes_nil. constructor. Qed.

Lemma clauses_add s clauses args i x newArgs j : clauses_ok s clauses args i → clause_ok i x newArgs j →
  clauses_ok s (clauses ++ [x])%list (args ++ newArgs)%list j.
Proof.
  intros [Hi Hp] [Hj He]. split; [rewrite length_app; lia|]. apply (pieces_seq_snoc _ _ s i j); [lia|done|done].
Qed.

Lemma neutral_column alias column : neutral alias → name_text column = true → neutral (column_of alias column).
Proof. intros. unfold column_of. neutral_text. Qed.
Hint Resolve neutral_column : sql.

(** ** WHERE *)

Lemma comparison_neutral op text : comparison op = Some text → neutral text.
Proof. unfold comparison. repeat case_match; intros [= <-]; done. Qed.

Lemma condition_clause_ok alias column op v s clauses args i l newArgs j :
  neutral alias → name_text column = true → 0 <= s → clauses_ok s clauses args i →
  condition_clause alias column op v i = (l, newArgs, j) → clauses_ok s (clauses ++ l)%list (args ++ newArgs)%list j.
Proof.
  intros Ha Hc Hs Hcl. assert (Hi : 0 <= i) by (destruct Hcl; lia).
  assert (Hnone : clauses_ok s (clauses ++ [])%list (args ++ [])%list i) by (by rewrite !app_nil_r).
  assert (Hno : ∀ text, neutral text → clauses_ok s (clauses ++ [text])%list (args ++ [])%list i).
  { intros text Ht. eapply clauses_add; [done|]. split; [cbn; lia|]. rewrite seq_holes_nil. by apply neutral_emits. }
  unfold condition_clause. destruct (comparison op) as [text|] eqn:Ht.
  - apply comparison_neutral in Ht. intros [= <- <- <-]. eapply clauses_add; [done|]. split; [cbn; lia|].
    apply emits_after; [neutral_text|]. apply emits_after; [done|]. by apply emits_next_hole.
  - destruct (String.eqb op "_in").
    + destruct v as [| | | | |[|x values]|]; intros [= <- <- <-]; try done; [by apply Hno|].
      eapply clauses_add; [done|]. split; [done|]. apply emits_after; [neutral_text|]. apply emits_after; [done|].
      apply emits_then; [|done|done]. apply (emits_Join (holes_from (x :: values) i)); [done..|].
      exact (holes_from_pieces (x :: values) i Hi).
    + destruct (String.eqb op "_is_null"); [|by intros [= <- <- <-]].
      destruct v as [|[]| | | | |]; intros [= <- <- <-]; apply Hno; neutral_text.
Qed.

Lemma condition_loop_ok alias column conditions s clauses args i clauses' args' j :
  neutral alias → name_text column = true → 0 <= s → clauses_ok s clauses args i →
  condition_loop alias column conditions clauses args i = (clauses', args', j) → clauses_ok s clauses' args' j.
Proof.
  intros Ha Hc Hs. revert clauses args i. induction conditions as [|[op v] conditions IH]; intros clauses args i Hcl;
    cbn [condition_loop]; [by intros [= <- <- <-]|].
  destruct (condition_clause alias column op v i) as [[l newArgs] k] eqn:E. apply IH.
  by eapply condition_clause_ok.
Qed.

Lemma where_map_loop_ok alias entries s clauses args i text args' j :
  neutral alias → 0 <= s → clauses_ok s clauses args i →
  where_map_loop alias entries clauses args i = Ok (text, args', j) → clause_ok s text args' j.
Proof.
  intros Ha Hs. revert clauses args i. induction entries as [|[column condition] entries IH]; intros clauses args i Hcl;
    cbn [where_map_loop].
  - intros [= <- <- <-]. destruct Hcl as [Hi Hp]. split; [done|]. by apply emits_Join.
  - destruct (IsValidIdentifier column) eqn:Hv; cbn [negb]; [|done]. apply valid_name_text in Hv.
    assert (Heq : ∀ v, clauses_ok s (clauses ++ [(column_of alias column ++ " = " ++ hole i)%string])%list (args ++ [v])%list (i + 1)).
    { intros v. eapply clauses_add; [done|]. split; [cbn; lia|]. apply emits_after; [neutral_text|].
      apply emits_after; [done|]. apply emits_next_hole. destruct Hcl; lia. }
    destruct condition as [| | | | | |conditions]; try (by apply IH).
    destruct (condition_loop alias column conditions clauses args i) as [[c a] k] eqn:E. apply IH.
    by eapply condition_loop_ok.
Qed.

Lemma compileWhere_ok alias w i text args j : neutral alias → 0 <= i →
  compileWhere alias w i = Ok (text, args, j) → clause_ok i text args j.
Proof.
  intros Ha Hi. destruct w as [| | | | | |entries]; cbn [compileWhere]; try done.
  - intros [= <- <- <-]. split; [cbn; lia|]. by rewrite seq_holes_nil.
  - by apply where_map_loop_ok; [| |apply clauses_nil].
Qed.

(** ** ORDER BY and the page *)

Lemma order_parts_neutral alias entries parts parts' : neutral alias → Forall neutral parts →
  order_parts alias entries parts = Ok parts' → Forall neutral parts'.
Proof.
  intros Ha. revert parts. induction entries as [|[column dir] entries IH]; intros parts Hp; cbn [order_parts];
    [by intros [= <-]|].
  destruct (IsValidIdentifier column) eqn:Hv; cbn [negb]; [|done]. apply valid_name_text in Hv. apply IH.
  apply Forall_app_2; [done|]. constructor; [|done]. apply neutral_app; [neutral_text|]. apply neutral_app; [done|].
  destruct (String.eqb_spec (ToUpper (format_v dir)) "ASC") as [->|]; [done|].
  by destruct (String.eqb_spec (ToUpper (format_v dir)) "DESC") as [->|].
Qed.

Lemma compileOrderBy_ok alias o text : neutral alias → compileOrderBy alias o = Ok text → neutral text ∧ spaced text = true.
Proof.
  intros Ha. destruct o as [| | | | | |[|e entries]]; cbn [compileOrderBy]; try done; try (by intros [= <-]).
  intros (parts & Hp & [= <-])%result_bind_Ok. split; [|done]. apply neutral_app; [done|].
  apply neutral_Join; [done|]. by eapply neutral_sort, order_parts_neutral.
Qed.

Lemma number_clause_ok keyword e a text : neutral keyword → spaced keyword = true → keyword ≠ "" →
  number_clause keyword e a = Ok text → neutral text ∧ spaced text = true.
Proof.
  intros Hk Hs Hne. destruct a as [[]|]; cbn [number_clause]; intros [= <-]; try done;
    (split; [apply neutral_app; [done|apply neutral_decimal]|by destruct keyword]).
Qed.

Lemma page_clauses_ok arguments text : page_clauses arguments = Ok text → neutral text ∧ spaced text = true.
Proof.
  unfold page_clauses. intros (l & Hl & Hr)%result_bind_Ok. apply result_bind_Ok in Hr as (o & Ho & [= <-]).
  apply number_clause_ok in Hl as [Hl1 Hl2]; [|done..]. apply number_clause_ok in Ho as [Ho1 Ho2]; [|done..].
  split; [by apply neutral_app|by apply spaced_app].
Qed.
(** ** Selections *)

Lemma field_alias_ok f : field_ok f → name_text (field_alias f) = true.
Proof. intros [name alias args sel Hn Ha _]. unfold field_alias. simpl. by destruct (String.eqb alias ""). Qed.

Lemma selection_loop_ok nested alias fields s pairs args i pairs' args' j :
  neutral alias → 0 <= s →
  Forall (λ f, ∀ i sql args j, 0 <= i → nested f i = Ok (sql, args, j) → clause_ok i sql args j) fields →
  clauses_ok s pairs args i →
  selection_loop nested alias fields pairs args i = Ok (pairs', args', j) → clauses_ok s pairs' args' j.
Proof.
  intros Ha Hs Hn. revert pairs args i. induction Hn as [|f fields Hf _ IH]; intros pairs args i Hcl;
    cbn [selection_loop]; [by intros [= <- <- <-]|].
  destruct (IsValidIdentifier (field_alias f)) eqn:Hv; cbn [negb]; [|done]. apply valid_name_text in Hv.
  destruct (fn_SelectionSet f) as [|g sel].
  - destruct (IsValidIdentifier (fn_Name f)) eqn:Hc; cbn [negb]; [|done]. apply valid_name_text in Hc.
    apply IH. rewrite <- (app_nil_r args). eapply clauses_add; [done|]. split; [cbn; lia|].
    rewrite seq_holes_nil. apply neutral_emits. neutral_text.
  - intros ([[sql newArgs] k] & Hsub & Hrest)%result_bind_Ok. revert Hrest. apply IH.
    assert (Hi : 0 <= i) by (destruct Hcl; lia). destruct (Hf i sql newArgs k Hi Hsub) as [Hk He].
    eapply clauses_add; [done|]. split; [done|]. emit_text.
Qed.

Lemma json_query_ok pairs args schema table alias condition cargs orderBy page s i j :
  neutral alias → name_text schema = true → name_text table = true → 0 <= s →
  clauses_ok s pairs args i → clause_ok i condition cargs j →
  neutral orderBy ∧ spaced orderBy = true → neutral page ∧ spaced page = true →
  clause_ok s (json_query pairs schema table alias condition orderBy page) (args ++ cargs)%list j.
Proof.
  intros Ha Hs Ht H0 [Hi Hp] [Hj Hc] [Ho Hos] [Hg Hgs]. split; [rewrite length_app; lia|].
  unfold json_query. apply emits_after; [done|]. apply (emits_seq _ _ s i j); [lia|by apply emits_Join| |done].
  do 6 (apply emits_after; [neutral_text|]).
  destruct (String.eqb_spec condition "") as [->|_].
  - replace (seq_holes i j) with (@nil Z) by (unfold emits in Hc; cbn in Hc; congruence).
    apply neutral_emits. by repeat apply neutral_app.
  - apply emits_then; [emit_text|by apply neutral_app|by apply spaced_breaks, spaced_app].
Qed.

(** ** Nested relations *)

Context (Hcat : catalog_ok (cp_tables compiler)).

Lemma name_text_trim s : name_text s = true → name_text (TrimSuffix s "s") = true.
Proof.
  intros Hs. unfold TrimSuffix. destruct (strip_suffix "s" s) as [t|] eqn:E; [|done]. simpl.
  revert t E Hs. unfold name_text. induction s as [|c s IH]; intros t; [done|]. cbn [strip_suffix all_chars].
  destruct (String.eqb (String c s) "s"); [by intros [= <-]|].
  destruct (strip_suffix "s" s) as [u|] eqn:E; [|done]. intros [= <-] [Hc Hs]%andb_true_iff. cbn [all_chars].
  by rewrite Hc, (IH u).
Qed.

Lemma relation_table_ok schema relTable : name_text relTable = true →
  name_text (relation_table compiler schema relTable).1 = true
  ∧ ∀ info, (relation_table compiler schema relTable).2 = Some info → table_ok info.
Proof.
  intros Hr. unfold relation_table. destruct (GetTable _ schema relTable) as [info|] eqn:E.
  { split; [done|]. intros info' [= <-]. by eapply GetTable_ok. }
  set (other := if HasSuffix relTable "s" then _ else _).
  assert (Ho : name_text other = true).
  { unfold other. destruct (HasSuffix relTable "s"); [by apply name_text_trim|by apply name_text_app]. }
  destruct (GetTable _ schema other) as [info|] eqn:E'; [|by split].
  split; [done|]. intros info' [= <-]. by eapply GetTable_ok.
Qed.

Record join_ok (j : Join_) : Prop := {
  jo_schema : name_text (j_schema j) = true;
  jo_table : name_text (j_table j) = true;
  jo_fk : name_text (j_foreignKey j) = true;
  jo_pk : name_text (j_primaryKey j) = true;
}.

Lemma join_from_child_ok j r : join_ok j → (∀ info, r = Some info → relation_ok info) → join_ok (join_from_child j r).
Proof.
  intros Hj Hr. destruct r as [info|]; [|done]. destruct Hj, (Hr info eq_refl). split; simpl; try done.
  by destruct (_ && _).
Qed.

Lemma join_from_parent_ok j r : join_ok j → (∀ info, r = Some info → relation_ok info) → join_ok (join_from_parent j r).
Proof.
  intros Hj Hr. destruct r as [info|]; [|done]. destruct Hj, (Hr info eq_refl).
  split; simpl; try done; by destruct (String.eqb _ "").
Qed.

Lemma relation_join_ok schema parentTable relTable :
  name_text schema = true → name_text parentTable = true → name_text relTable = true →
  join_ok (relation_join compiler schema parentTable relTable).
Proof.
  intros Hs Hp Hr. unfold relation_join. destruct (relation_table_ok schema relTable Hr) as [Ht Hi].
  destruct (relation_table compiler schema relTable) as [table relInfo]; simpl in Ht, Hi.
  assert (Hparent : ∀ info, GetTable (cp_tables compiler) schema parentTable = Some info → table_ok info)
    by (intros info; by apply GetTable_ok).
  assert (Hfk : ∀ (t : option TableInfo) n info, (∀ i, t = Some i → table_ok i) →
            (t ≫= λ i, map_get (ti_ForeignKeys i) n) = Some info → relation_ok info).
  { intros [t|] n info Htab; [|done]. by apply relation_lookup, Htab. }
  apply join_from_parent_ok; [apply join_from_child_ok|]; [|by intros ?; apply Hfk..].
  split; simpl; [done|done|apply name_text_app; [by apply name_text_trim|done]|].
  destruct (GetTable _ _ _) as [parent|]; [|done]. destruct (Hparent parent eq_refl).
  by destruct (String.eqb _ "").
Qed.

Lemma alias_neutral depth : neutral (alias_at depth).
Proof. apply neutral_app; [done|apply neutral_decimal]. Qed.
Hint Resolve alias_neutral : sql.

Lemma nested_ok f : field_ok f → ∀ schema parentTable parentAlias depth i sql args j,
  name_text schema = true → name_text parentTable = true → neutral parentAlias → 0 <= i →
  compileNestedRelation compiler schema parentTable parentAlias depth f i = Ok (sql, args, j) → clause_ok i sql args j.
Proof.
  induction f as [name alias arguments selection IH] using field_nested_ind.
  intros Hf schema parentTable parentAlias depth i sql args j Hs Hp Ha Hi. inversion Hf as [? ? ? ? Hn _ Hsel]; subst.
  cbn [compileNestedRelation]. destruct (IsValidIdentifier name); cbn [negb]; [|done].
  intros ([[pairs pargs] k] & Hpairs & H)%result_bind_Ok.
  apply (selection_loop_ok _ _ _ i [] [] i) in Hpairs; [|apply alias_neutral|done| |apply clauses_nil].
  2:{ eapply Forall_both; [exact IH|exact Hsel|]. intros f' IHf Hf' i' sql' args' j' Hi' Hsub.
    exact (IHf Hf' _ _ _ _ _ _ _ _ Hs Hn (alias_neutral depth) Hi' Hsub). }
  apply result_bind_Ok in H as ([[w wargs] l] & Hw & H). apply compileWhere_ok in Hw; [|apply alias_neutral|destruct Hpairs; lia].
  apply result_bind_Ok in H as (o & Ho & H). apply compileOrderBy_ok in Ho; [|apply alias_neutral].
  apply result_bind_Ok in H as (page & Hpage & H). apply page_clauses_ok in Hpage.
  destruct (relation_join_ok schema parentTable name) as [Hjs Hjt Hjf Hjp]; [done..|].
  injection H as <- <- <-. eapply json_query_ok; [apply alias_neutral|done|done|done|done| |done|done].
  destruct Hw as [Hl Hw]. split; [done|].
  assert (Hjoin : neutral (column_of (alias_at depth) (j_foreignKey (relation_join compiler schema parentTable name)) ++ " = "
            ++ column_of parentAlias (j_primaryKey (relation_join compiler schema parentTable name)))).
  { apply neutral_app; [|apply neutral_app; [done|]]; apply neutral_column; auto using alias_neutral. }
  apply emits_after; [done|]. destruct (String.eqb_spec w "") as [->|_]; [done|]. by apply emits_after.
Qed.

(** ** Root queries *)

Lemma qualified_ok tables pre s schema table : name_text pre = true → name_text s = true →
  qualified tables pre s = Some (schema, table) → name_text schema = true ∧ name_text table = true.
Proof.
  revert pre. induction s as [|c s IH]; intros pre Hp; cbn [qualified]; [done|].
  intros [Hc Hs]%andb_true_iff. destruct (_ && _); [by intros [= <- <-]|].
  apply IH; [|done]. apply name_text_app; [done|]. unfold name_text. cbn [all_chars]. by rewrite Hc.
Qed.

Context (Hdefault : name_text (cp_defaultSchema compiler) = true).

(** The table of a root field or a mutation is exposed, not excluded, and has
    usable names. *)
Lemma target_table_ok name schema table : name_text name = true →
  target_table compiler name = Ok (schema, table) →
  isSchemaAllowed compiler schema = true ∧ isTableExcluded compiler schema table = false
  ∧ name_text schema = true ∧ IsValidIdentifier table = true.
Proof.
  intros Hn. unfold target_table, resolve_table.
  assert (Hq : ∀ s t, qualified (cp_tables compiler) "" name = Some (s, t) → name_text s = true).
  { intros s t E. by apply qualified_ok in E as []. }
  destruct (qualified (cp_tables compiler) "" name) as [[s t]|]; simpl;
    [specialize (Hq s t eq_refl)|clear Hq];
    (destruct (isSchemaAllowed _ _) eqn:H1; cbn [negb]; [|done]);
    (destruct (isTableExcluded _ _ _) eqn:H2; [done|]);
    (destruct (IsValidIdentifier _) eqn:H3; cbn [negb]; [|done]); by intros [= <- <-].
Qed.

Lemma default_pairs_neutral schema table alias : neutral alias → name_text table = true →
  Forall neutral (default_pairs compiler schema table alias).
Proof.
  intros Ha Ht. unfold default_pairs. destruct (GetTable _ _ _) as [info|] eqn:E.
  - apply GetTable_ok in E as [_ Hcols _]; [|done]. destruct info as [? ? ? [|c cs] ?]; simpl in Hcols.
    { constructor; [|done]. neutral_text. }
    apply neutral_sort, Forall_fmap. eapply Forall_impl; [|exact Hcols]. intros x Hx. unfold compose.
    apply neutral_app; [by apply neutral_sq|]. apply neutral_app; [done|by apply neutral_column].
  - constructor; [|done]. neutral_text.
Qed.

Lemma root_query_ok f i sql args j : field_ok f → 0 <= i →
  compileRootQuery compiler f i = Ok (sql, args, j) → clause_ok i sql args j.
Proof.
  intros Hf Hi. unfold compileRootQuery. intros ([schema table] & Ht & H)%result_bind_Ok.
  assert (Hn : name_text (fn_Name f) = true) by (by destruct Hf).
  destruct (target_table_ok _ _ _ Hn Ht) as (_ & _ & Hs & Hv). apply valid_name_text in Hv.
  destruct (negb _ && negb _); [done|].
  apply result_bind_Ok in H as ([[pairs pargs] k] & Hpairs & H).
  apply (selection_loop_ok _ _ _ i [] [] i) in Hpairs; [|done|done| |apply clauses_nil].
  2:{ destruct Hf as [name alias arguments selection _ _ Hsel]. simpl. eapply Forall_impl; [|exact Hsel].
      intros f' Hf' i' sql' args' j' Hi' Hsub. exact (nested_ok f' Hf' _ _ _ _ _ _ _ _ Hs Hv (eq_refl : neutral "t0") Hi' Hsub). }
  apply result_bind_Ok in H as ([[w wargs] l] & Hw & H). apply compileWhere_ok in Hw; [|done|destruct Hpairs; lia].
  apply result_bind_Ok in H as (o & Ho & H). apply compileOrderBy_ok in Ho; [|done].
  apply result_bind_Ok in H as (page & Hpage & H). apply page_clauses_ok in Hpage.
  injection H as <- <- <-. eapply json_query_ok; [done|done|done|done| |exact Hw|done|done].
  destruct pairs as [|x pairs]; [|done]. destruct Hpairs as [Hk Hp]. split; [done|].
  replace (seq_holes i k) with (@nil Z) by (by inversion Hp). by apply neutral_pieces, default_pairs_neutral.
Qed.

Lemma root_loop_ok fields pairs args i pairs' args' : Forall field_ok fields → 1 <= i →
  clauses_ok 1 pairs args i → root_loop compiler fields pairs args i = Ok (pairs', args') →
  ∃ j, clauses_ok 1 pairs' args' j.
Proof.
  intros Hf. revert pairs args i. induction Hf as [|f fields Hf _ IH]; intros pairs args i Hi Hcl; cbn [root_loop].
  { intros [= <- <-]. by exists i. }
  intros ([[sql sargs] k] & Hsub & H)%result_bind_Ok. apply root_query_ok in Hsub; [|done|lia].
  revert H. apply IH; [destruct Hsub; lia|]. eapply clauses_add; [done|]. destruct Hsub as [Hk He]. split; [done|].
  apply emits_after; [by apply neutral_sq, field_alias_ok|]. emit_text.
Qed.

(** ** Mutations *)

Lemma value_rows_ok columns objects s rows args i rows' args' j : 0 <= s → clauses_ok s rows args i →
  value_rows columns objects rows args i = Ok (rows', args', j) → clauses_ok s rows' args' j.
Proof.
  intros Hs. revert rows args i. induction objects as [|o objects IH]; intros rows args i Hcl; cbn [value_rows];
    [by intros [= <- <- <-]|].
  destruct o as [| | | | | |m]; try done. apply IH. eapply clauses_add; [done|]. split.
  - by rewrite length_fmap.
  - apply emits_after; [done|]. apply emits_then; [|done|done]. apply emits_Join; [done..|].
    apply holes_from_pieces. destruct Hcl; lia.
Qed.

Lemma check_columns_ok names u : check_columns names = Ok u → Forall (λ c, name_text c = true) names.
Proof.
  induction names as [|c names IH]; cbn [check_columns]; [constructor|].
  destruct (IsValidIdentifier c) eqn:Hv; cbn [negb]; [|done]. apply valid_name_text in Hv. constructor; auto.
Qed.

Lemma set_parts_ok entries s parts args i parts' args' j : 0 <= s → clauses_ok s parts args i →
  set_parts entries parts args i = Ok (parts', args', j) → clauses_ok s parts' args' j.
Proof.
  intros Hs. revert parts args i. induction entries as [|[c v] entries IH]; intros parts args i Hcl; cbn [set_parts];
    [by intros [= <- <- <-]|].
  destruct (IsValidIdentifier c) eqn:Hv; cbn [negb]; [|done]. apply valid_name_text in Hv. apply IH.
  eapply clauses_add; [done|]. split; [cbn; lia|]. apply emits_after; [by apply neutral_dq|]. apply emits_after; [done|].
  apply emits_next_hole. destruct Hcl; lia.
Qed.

Lemma required_where_ok table arguments i w args j : IsValidIdentifier table = true → 0 <= i →
  required_where table arguments i = Ok (w, args, j) → clause_ok i w args j ∧ w ≠ "".
Proof.
  intros Ht Hi. unfold required_where.
  assert (Hsub : ∀ a, (let! (whereClause, whereArgs, nextArgIndex) := compileWhere table a i in
       if String.eqb whereClause "" then Err WhereRequired else Ok (whereClause, whereArgs, nextArgIndex))%go = Ok (w, args, j)
       → clause_ok i w args j ∧ w ≠ "").
  { intros a ([[w' args'] j'] & Hw & H)%result_bind_Ok.
    apply compileWhere_ok in Hw; [|by apply neutral_name, valid_name_text|done].
    destruct (String.eqb_spec w' ""); [done|]. by injection H as <- <- <-. }
  destruct (argument arguments "where"); [done|..]; apply Hsub.
Qed.

Lemma name_text_trim_prefix s p : name_text s = true → name_text (TrimPrefix s p) = true.
Proof.
  intros Hs. unfold TrimPrefix. destruct (strip_prefix p s) as [t|] eqn:E; [|done]. simpl.
  revert s E Hs. unfold name_text. induction p as [|c p IH]; intros s; cbn [strip_prefix]; [by destruct s; intros [= <-]|].
  destruct s as [|d s]; [done|]. destruct (Ascii.eqb c d); [|done]. cbn [all_chars]. intros E [_ Hs]%andb_true_iff.
  by eapply IH.
Qed.

Lemma mutation_ok cteName f i sql args j : neutral cteName → field_ok f → 0 <= i →
  compileMutation compiler cteName f i = Ok (sql, args, j) → clause_ok i sql args j.
Proof.
  intros Hc Hf Hi. assert (Hn : ∀ p, name_text (TrimPrefix (fn_Name f) p) = true)
    by (intros p; apply name_text_trim_prefix; by destruct Hf).
  unfold compileMutation. destruct (HasPrefix _ "insert_"); [|destruct (HasPrefix _ "update_"); [|destruct (HasPrefix _ "delete_"); [|done]]].
  - unfold compileInsert. intros ([schema table] & Ht & H)%result_bind_Ok.
    apply target_table_ok in Ht as (_ & _ & Hs & Hv%valid_name_text); [|done].
    destruct (argument _ _) as [| | | | |[|o objects]|]; try done. destruct o as [| | | | | |m]; try done.
    apply result_bind_Ok in H as (u & Hcols & H). apply check_columns_ok in Hcols.
    apply result_bind_Ok in H as ([[rows rargs] k] & Hrows & [= <- <- <-]).
    apply (value_rows_ok _ _ i) in Hrows as [Hk Hp]; [|done|apply clauses_nil]. split; [done|].
    apply emits_after; [done|]. do 5 (apply emits_after; [neutral_text|]).
    apply emits_after.
    { apply neutral_Join; [done|]. apply Forall_fmap. unfold sort_Strings. rewrite sort_by_perm.
      eapply Forall_impl; [|exact Hcols]. intros c Hcn. unfold compose. by apply neutral_dq. }
    apply emits_after; [done|]. apply emits_then; [|done|done]. by apply emits_Join.
  - unfold compileUpdate. intros ([schema table] & Ht & H)%result_bind_Ok.
    apply target_table_ok in Ht as (_ & _ & Hs & Hv); [|done]. pose proof (valid_name_text _ Hv) as Hvt.
    destruct (argument _ _) as [| | | | | |[|e entries]]; try done.
    apply result_bind_Ok in H as ([[parts pargs] k] & Hparts & H).
    apply (set_parts_ok _ i) in Hparts as [Hk Hp]; [|done|apply clauses_nil].
    apply result_bind_Ok in H as ([[w wargs] l] & Hw & [= <- <- <-]).
    apply required_where_ok in Hw as [[Hl Hw] _]; [|done|lia]. split; [rewrite length_app; lia|].
    apply emits_after; [done|]. do 5 (apply emits_after; [neutral_text|]).
    apply (emits_seq _ _ i k l); [lia|by apply emits_Join|emit_text|done].
  - unfold compileDelete. intros ([schema table] & Ht & H)%result_bind_Ok.
    apply target_table_ok in Ht as (_ & _ & Hs & Hv); [|done]. pose proof (valid_name_text _ Hv) as Hvt.
    apply result_bind_Ok in H as ([[w wargs] l] & Hw & [= <- <- <-]).
    apply required_where_ok in Hw as [[Hl Hw] _]; [|done|lia]. split; [done|].
    apply emits_after; [done|]. do 5 (apply emits_after; [neutral_text|]). emit_text.
Qed.

Lemma returned_row_neutral cteName fields : neutral cteName → neutral (returned_row cteName fields).
Proof.
  intros Hc. unfold returned_row.
  assert (Hp : Forall neutral (omap (returned_pair cteName) fields)).
  { induction fields as [|f fields IH]; cbn; [constructor|]. unfold returned_pair at 1.
    destruct (IsValidIdentifier (fn_Name f)) eqn:H1; [|done]. destruct (IsValidIdentifier (field_alias f)) eqn:H2; [|done].
    apply valid_name_text in H1, H2. cbn. constructor; [|done]. apply neutral_app; [by apply neutral_sq|].
    apply neutral_app; [done|by apply neutral_column]. }
  destruct (omap _ _) as [|x l]; [neutral_text|]. apply neutral_app; [done|]. apply neutral_app; [by apply neutral_Join|done].
Qed.

Lemma mutations_loop_ok n fields ctes pairs args i ctes' pairs' args' : Forall field_ok fields → 1 <= i →
  clauses_ok 1 ctes args i → Forall neutral pairs →
  mutations_loop compiler n fields ctes pairs args i = Ok (ctes', pairs', args') →
  (∃ j, clauses_ok 1 ctes' args' j) ∧ Forall neutral pairs'.
Proof.
  intros Hf. revert n ctes pairs args i. induction Hf as [|f fields Hf _ IH]; intros n ctes pairs args i Hi Hcl Hp;
    cbn [mutations_loop]; [intros [= <- <- <-]; split; [by exists i|done]|].
  assert (Hc : neutral (cte_name n)) by (apply neutral_app; [done|apply neutral_decimal]).
  intros ([[cte cargs] k] & Hsub & H)%result_bind_Ok. apply mutation_ok in Hsub; [|done|done|lia].
  revert H. apply IH; [destruct Hsub; lia|by eapply clauses_add|]. apply Forall_app_2; [done|]. constructor; [|done].
  unfold mutation_pair. apply neutral_app; [apply neutral_sq; by destruct Hf|].
  apply neutral_app; [done|]. apply neutral_app; [by apply returned_row_neutral|]. neutral_text.
Qed.

Lemma Compile_ok op sql args : Forall field_ok (op_SelectionSet op) → Compile compiler op = Ok (sql, args) →
  placeholders sql = Some (seqZ 1 (Z.of_nat (List.length args))).
Proof.
  intros Hf.
  assert (Hfinish : ∀ j, clause_ok 1 sql args j → placeholders sql = Some (seqZ 1 (Z.of_nat (List.length args)))).
  { intros j [Hj He]. unfold emits, seq_holes in He. rewrite He. do 2 f_equal. lia. }
  unfold Compile. destruct (op_SelectionSet op) as [|f fields]; [done|]. destruct (op_Type op).
  - intros ([pairs pargs] & Hroot & [= <- <-])%result_bind_Ok.
    apply root_loop_ok in Hroot as [j [Hj Hp]]; [|done|done|apply clauses_nil]. apply (Hfinish j).
    split; [done|]. apply emits_after; [done|]. apply emits_then; [by apply emits_Join|done|done].
  - unfold compileMutations. intros ([[ctes pairs] margs] & Hm & [= <- <-])%result_bind_Ok.
    apply mutations_loop_ok in Hm as [[j [Hj Hc]] Hp]; [|done|done|apply clauses_nil|constructor]. apply (Hfinish j).
    split; [done|]. apply emits_after; [done|]. apply emits_then; [by apply emits_Join| |done].
    apply neutral_app; [done|]. apply neutral_app; [by apply neutral_Join|done].
Qed.
End sql.

(** ** Names the parser makes *)

Section parsed.
Context `{UT : UnicodeTables} `{FL : Floats}.

Lemma encode_rune_bytes r : 128 <= r → all_chars ident_byte (encode_rune r) = true.
Proof.
  intros Hr. assert (Hb : ∀ z, 128 <= z < 256 → ident_byte (byte_of z) = true).
  { intros z Hz. unfold ident_byte. rewrite byte_val_of by lia. by destruct (Z.leb_spec 128 z); [|lia]. }
  assert (He : ∀ q, 128 <= q <= 1114111 → all_chars ident_byte (encode_scalar q) = true).
  { intros q Hq. unfold encode_scalar. destruct (Z.ltb_spec q 128); [lia|].
    destruct (Z.ltb_spec q 2048); [|destruct (Z.ltb_spec q 65536)]; cbn [all_chars]; rewrite !Hb; try done; euclid. }
  unfold encode_rune. destruct (is_scalar r) eqn:E; [|by apply He].
  apply He. unfold is_scalar in E. apply andb_true_iff in E as [[_ E]%andb_true_iff _]. apply Z.leb_le in E. lia.
Qed.

Lemma encode_name l : forallb ident_char l = true → name_text (encode l) = true.
Proof.
  unfold name_text. induction l as [|r l IH]; [done|]. cbn [forallb encode]. intros [Hr Hl]%andb_true_iff.
  rewrite all_chars_app, IH, andb_true_r by done. destruct (decide (128 <= r)); [by apply encode_rune_bytes|].
  assert (Hpos : 0 <= r < 128).
  { unfold ident_char, IsLetter, IsDigit, in_range in Hr.
    destruct (Z.ltb_spec r 128); [|lia]. split; [|lia].
    repeat match type of Hr with _ || _ = true => apply orb_true_iff in Hr as [Hr|Hr]
      | _ && _ = true => apply andb_true_iff in Hr as [Hr ?] end; try apply Z.leb_le in Hr; try apply Z.eqb_eq in Hr; lia. }
  unfold encode_rune, is_scalar. replace ((0 <=? r) && (r <=? 1114111) && negb ((55296 <=? r) && (r <=? 57343))) with true.
  2:{ symmetry. apply andb_true_iff. split; [apply andb_true_iff; split; apply Z.leb_le; lia|].
      apply negb_true_iff, andb_false_iff. left. apply Z.leb_gt. lia. }
  unfold encode_scalar. destruct (Z.ltb_spec r 128); [|lia]. cbn [all_chars]. unfold ident_byte.
  rewrite byte_val_of by lia. rewrite Hr. by rewrite orb_true_r.
Qed.

Lemma span_all f l : forallb f (span f l).1 = true.
Proof.
  induction l as [|c l IH]; [done|]. cbn [span]. destruct (f c) eqn:E; [|done].
  destruct (span f l) as [a b]. cbn in *. by rewrite E.
Qed.

Lemma readIdent_name_text p name p' : readIdent p = (name, p') → name_text name = true.
Proof.
  unfold readIdent, read_while. pose proof (span_all ident_char (after p)) as Hs.
  destruct (span ident_char (after p)) as [a b]. intros [= <- _]. by apply encode_name.
Qed.

Section with_variables.
Context (variables : list (string * any)).

Lemma selection_names n :
  (∀ p fields p', parseSelectionSet variables n p = Ok (fields, p') → Forall field_ok fields)
  ∧ (∀ l p fields p', Forall field_ok l → fields_loop variables n l p = Ok (fields, p') → Forall field_ok fields).
Proof.
  induction n as [|n [IHs IHf]]; [done|]. split.
  - intros p fields p'. cbn [parseSelectionSet]. destruct (negb _); [done|]. by apply IHf.
  - intros l p fields p' Hl. cbn [fields_loop]. destruct (_ && _).
    2:{ destruct (negb _); [done|]. by intros [= <- _]. }
    destruct (readIdent (skipWhitespaceAndComments p)) as [name p1] eqn:E1. apply readIdent_name_text in E1.
    destruct (String.eqb name ""); [done|]. intros ([[name' alias] p2] & Hname & H)%result_bind_Ok.
    assert (Hn : name_text name' = true ∧ name_text alias = true).
    { destruct (peekChar _ =? 58); [|by injection Hname as <- <- _].
      destruct (readIdent (skipWhitespaceAndComments (advance _))) as [actual p3] eqn:E2. apply readIdent_name_text in E2.
      destruct (String.eqb actual ""); [done|]. by injection Hname as <- <- _. }
    apply result_bind_Ok in H as ([args p3] & _ & H). apply result_bind_Ok in H as ([sub p4] & Hsub & H).
    assert (Hfields : Forall field_ok sub).
    { destruct (peekChar p3 =? 123); [|by injection Hsub as <- _].
      apply result_bind_Ok in Hsub as ([children p5] & Hc & [= <- _]). by eapply IHs. }
    revert H. apply IHf. apply Forall_app_2; [done|]. constructor; [|done]. destruct Hn. by constructor.
Qed.

Lemma operations_names n target p op : operations_loop variables n target p = Ok (Some op) →
  Forall field_ok (op_SelectionSet op).
Proof.
  revert p. induction n as [|n IH]; intros p; [done|]. cbn [operations_loop]. destruct (isEOF p); [done|].
  intros ([op' q] & Hop & H)%result_bind_Ok.
  assert (Hok : Forall field_ok (op_SelectionSet op')).
  { unfold parse_operation in Hop. apply result_bind_Ok in Hop as ([[[[ty name] ttl] suffix] r] & _ & H').
    destruct (negb _); [done|]. apply result_bind_Ok in H' as ([fields r'] & Hf & [= <- _]).
    by apply selection_names in Hf. }
  destruct (_ && _); [by injection H as <-|]. destruct (String.eqb target ""); [by injection H as <-|]. by apply IH in H.
Qed.
End with_variables.

Lemma parsed_names query target variables op :
  ParseGraphQLWithOperation query target variables = Ok (Some op) → Forall field_ok (op_SelectionSet op).
Proof.
  unfold ParseGraphQLWithOperation. destruct (isEOF _); [done|]. intros ([op'|] & Hm & H)%result_bind_Ok.
  - injection H as <-. by eapply operations_names.
  - by destruct (negb _).
Qed.

(** C12: Over a catalog and a default schema whose names are made of letters, digits
    and underscores, the SQL of every GraphQL operation that parses and
    compiles is parameterised, whatever the query text and its variables:
    its quotes are closed, it has no statement separator, and its
    placeholders are $1 ... $n for n arguments, in order; through nested
    relations, batches of root fields and mutations. Names of the catalog
    are not escaped by the compiler, hence the condition. *)
Theorem graphql_sql_parameterised compiler query target variables op sql args :
  catalog_ok (cp_tables compiler) → name_text (cp_defaultSchema compiler) = true →
  ParseGraphQLWithOperation query target variables = Ok (Some op) →
  Compile compiler op = Ok (sql, args) →
  placeholders sql = Some (seqZ 1 (Z.of_nat (List.length args))).
Proof. intros Hcat Hdefault Hop%parsed_names. by apply Compile_ok. Qed.

(** An update or delete mutation is conditional and stays on exposed
    tables: when it compiles, its statement names a table of an allowed schema
    that is not excluded, and carries a WHERE clause that is not empty. *)
Theorem mutations_are_conditional compiler cteName f i sql args j :
  field_ok f → name_text (cp_defaultSchema compiler) = true →
  HasPrefix (fn_Name f) "update_" = true ∨ HasPrefix (fn_Name f) "delete_" = true →
  compileMutation compiler cteName f i = Ok (sql, args, j) →
  ∃ schema table before condition,
    isSchemaAllowed compiler schema = true ∧ isTableExcluded compiler schema table = false
    ∧ condition ≠ ""
    ∧ sql = before ++ " WHERE " ++ condition ++ " RETURNING *
			)"
    ∧ ((∃ set, before = cteName ++ " AS (
				UPDATE " ++ dq schema ++ "." ++ dq table ++ " SET " ++ set)
       ∨ before = cteName ++ " AS (
				DELETE FROM " ++ dq schema ++ "." ++ dq table).
Proof.
  intros Hf Hd Hname. assert (Hn : ∀ p, name_text (TrimPrefix (fn_Name f) p) = true)
    by (intros p; apply name_text_trim_prefix; by destruct Hf).
  assert (Hw : ∀ table arguments k w wargs l, required_where table arguments k = Ok (w, wargs, l) → w ≠ "").
  { intros table arguments k w wargs l. unfold required_where.
    destruct (argument arguments "where"); try done;
      intros ([[w' a'] j'] & _ & H)%result_bind_Ok; (destruct (String.eqb_spec w' ""); [done|]); by injection H as <- _ _. }
  unfold compileMutation.
  assert (Hins : HasPrefix (fn_Name f) "insert_" = false).
  { destruct (HasPrefix (fn_Name f) "insert_") eqn:E; [|done]. exfalso.
    unfold HasPrefix in *. destruct (fn_Name f) as [|c s]; [done|]. cbn [strip_prefix] in *.
    destruct (Ascii.eqb_spec "i" c) as [<-|]; [|done]. by destruct Hname. }
  rewrite Hins. destruct (HasPrefix (fn_Name f) "update_") eqn:Hu.
  - unfold compileUpdate. intros ([schema table] & Ht & H)%result_bind_Ok.
    apply target_table_ok in Ht as (Ha & Hx & _ & _); [|done|done].
    destruct (argument _ _) as [| | | | | |[|e entries]]; try done.
    apply result_bind_Ok in H as ([[parts pargs] k] & _ & H).
    apply result_bind_Ok in H as ([[w wargs] l] & Hwhere & [= <- _ _]).
    exists schema, table, (cteName ++ " AS (
				UPDATE " ++ dq schema ++ "." ++ dq table ++ " SET " ++ Join parts ", "), w.
    split_and!; [done|done|by eapply Hw| |left; by eexists]. by rewrite !append_assoc.
  - destruct Hname as [|Hdel]; [done|]. rewrite Hdel. unfold compileDelete.
    intros ([schema table] & Ht & H)%result_bind_Ok.
    apply target_table_ok in Ht as (Ha & Hx & _ & _); [|done|done].
    apply result_bind_Ok in H as ([[w wargs] l] & Hwhere & [= <- _ _]).
    exists schema, table, (cteName ++ " AS (
				DELETE FROM " ++ dq schema ++ "." ++ dq table), w.
    split_and!; [done|done|by eapply Hw| |by right]. by rewrite !append_assoc.
Qed.
End parsed.

(** ** What the compiler lets pass *)

Section lets_pass.
Context `{UT : UnicodeTables} `{FL : Floats}.

(** The compiler reads an entry of a condition as no condition at all. *)
Definition dropped (entry : string * any) : Prop :=
  comparison entry.1 = None ∧ entry.1 ≠ "_is_null"
  ∧ (entry.1 = "_in" → ∀ l, entry.2 ≠ AList l).

Lemma dropped_clause alias column entry i : dropped entry →
  condition_clause alias column entry.1 entry.2 i = ([], [], i).
Proof.
  destruct entry as [op v]. intros (Hc & Hn & Hin); simpl in *. unfold condition_clause. rewrite Hc.
  destruct (String.eqb_spec op "_in") as [->|].
  - destruct v as [| | | | |l|]; try done. by destruct (Hin eq_refl l).
  - by destruct (String.eqb_spec op "_is_null").
Qed.

Lemma dropped_loop alias column entries clauses args i : Forall dropped entries →
  condition_loop alias column entries clauses args i = (clauses, args, i).
Proof.
  intros Hd. induction Hd as [|[op v] entries He _ IH]; [done|]. cbn [condition_loop].
  pose proof (dropped_clause alias column (op, v) i He) as E. simpl in E. rewrite E. by rewrite !app_nil_r.
Qed.

(** Conditions with operators the compiler does not know are dropped
    silently: an entry of a where argument, on any column, whose operators are
    unknown (or [_in] without a list) leaves the compiled clause, its arguments
    and its errors as if it were not there; a misspelt operator widens a query,
    an update or a delete that has another condition. *)
Theorem unknown_operators_are_dropped alias before column entries after i :
  IsValidIdentifier column = true → Forall dropped entries →
  compileWhere alias (AMap (before ++ (column, AMap entries) :: after)) i = compileWhere alias (AMap (before ++ after)) i.
Proof.
  intros Hv Hd. cbn [compileWhere].
  assert (Hloop : ∀ clauses args k, where_map_loop alias (before ++ (column, AMap entries) :: after)%list clauses args k
                                    = where_map_loop alias (before ++ after)%list clauses args k); [|done].
  induction before as [|[c v] before IH]; intros clauses args k; cbn [app where_map_loop].
  - rewrite Hv. cbn [negb]. by rewrite dropped_loop.
  - destruct (IsValidIdentifier c); cbn [negb]; [|done]. destruct v; try apply IH.
    destruct (condition_loop _ _ _ _ _ _) as [[c' a'] k']. apply IH.
Qed.

Lemma selection_loop_ext (nested nested' : FieldNode → Z → result CompileError (string * list any * Z)) alias fields pairs args i :
  Forall (λ f, ∀ i, nested f i = nested' f i) fields →
  selection_loop nested alias fields pairs args i = selection_loop nested' alias fields pairs args i.
Proof.
  intros Hf. revert pairs args i. induction Hf as [|f fields Hf _ IH]; intros pairs args i; [done|].
  cbn [selection_loop]. destruct (negb (IsValidIdentifier (field_alias f))); [done|].
  destruct (fn_SelectionSet f); [destruct (negb _); [done|apply IH]|].
  rewrite Hf. destruct (nested' f i) as [[[q a] k]|]; [|done]. apply IH.
Qed.

(** Nested relations are not checked against the exposed schemas and the
    excluded tables: for every field, at every depth, the compiled relation and
    its errors are the same whatever schemas are allowed and whatever tables
    are excluded; only root fields and mutations are guarded. *)
Theorem nested_relations_bypass_exclusions compiler schemas excluded f :
  ∀ schema parentTable parentAlias depth i,
  compileNestedRelation (SetExcludedTables excluded (SetAllowedSchemas schemas compiler)) schema parentTable parentAlias depth f i
  = compileNestedRelation compiler schema parentTable parentAlias depth f i.
Proof.
  induction f as [name alias arguments selection IH] using field_nested_ind.
  intros schema parentTable parentAlias depth i. cbn [compileNestedRelation].
  destruct (negb (IsValidIdentifier name)); [done|].
  rewrite (selection_loop_ext _ (compileNestedRelation compiler schema name (alias_at depth) (depth + 1))); [done|].
  eapply Forall_impl; [|exact IH]. intros f' IHf k. apply IHf.
Qed.
End lets_pass.

(** ** Examples *)

Section graphql_samples.
#[local] Existing Instance ascii_tables.
#[local] Existing Instance integer_floats.

(** Users with posts and a table of secrets, as the introspection registers them. *)
Definition sample_catalog : Catalog :=
  [("public.users", MkTableInfo "public" "users" "id" ["id"; "name"]
      [("posts", MkRelationInfo "public" "posts" "id" "author_id" true);
       ("secrets", MkRelationInfo "public" "secrets" "id" "user_id" true)]);
   ("public.posts", MkTableInfo "public" "posts" "id" ["id"; "title"; "author_id"]
      [("users", MkRelationInfo "public" "users" "author_id" "id" false)]);
   ("public.secrets", MkTableInfo "public" "secrets" "id" ["id"; "value"; "user_id"]
      [("users", MkRelationInfo "public" "users" "user_id" "id" false)])].

Definition sample_compiler : Compiler :=
  SetExcludedTables ["secrets"] (SetAllowedSchemas ["public"] (NewCompiler sample_catalog "public")).

Lemma sample_catalog_ok : catalog_ok sample_catalog.
Proof. repeat constructor. Qed.

(** The statement of a query text, or nothing. *)
Definition compiled (query : string) : string * nat :=
  match ParseGraphQL query [] with
  | Ok (Some op) => match Compile sample_compiler op with Ok (sql, args) => (sql, List.length args) | Err _ => ("", 0%nat) end
  | _ => ("", 0%nat)
  end.

(** An excluded table at the root is refused; below another table it is read. *)
Example excluded_table_read_through_relation :
  compiled "{ secrets { value } }" = ("", 0%nat)
  ∧ Contains (compiled "{ users { id secrets { value } } }").1 (" FROM " ++ dq "public" ++ "." ++ dq "secrets" ++ " t1") = true.
Proof. split; vm_compute; reflexivity. Qed.

Definition sample_text : string :=
  "{ users(where: {id: {_in: [1, 2]}, name: {_ilike: 5}}, limit: 3) { id posts(where: {title: 7}) { title } } }".

Definition sample_operation : OperationNode :=
  match ParseGraphQL sample_text [] with
  | Ok (Some op) => op
  | _ => MkOperation QueryOperationType "" 0 "" []
  end.

Lemma graphql_sql_parameterised_witness : ∃ sql args,
  Compile sample_compiler sample_operation = Ok (sql, args)
  ∧ placeholders sql = Some (seqZ 1 (Z.of_nat (List.length args))) ∧ List.length args = 4%nat.
Proof.
  assert (Hlen : match Compile sample_compiler sample_operation with Ok (_, args) => List.length args | Err _ => 0%nat end = 4%nat)
    by reflexivity.
  destruct (Compile sample_compiler sample_operation) as [[sql args]|e] eqn:E; [|discriminate Hlen].
  exists sql, args. split; [reflexivity|]. split; [|exact Hlen].
  apply (graphql_sql_parameterised sample_compiler sample_text "" [] sample_operation sql args);
    [exact sample_catalog_ok|reflexivity|reflexivity|exact E].
Defined.

Definition delete_field : FieldNode := MkField "delete_users" "" [("where", AMap [("id", AMap [("_eq", AInt 1)])])] [].

Lemma mutations_are_conditional_witness : ∃ sql args j,
  compileMutation sample_compiler "m0" delete_field 1 = Ok (sql, args, j)
  ∧ ∃ before condition, condition ≠ "" ∧ sql = before ++ " WHERE " ++ condition ++ " RETURNING *
			)".
Proof.
  destruct (compileMutation sample_compiler "m0" delete_field 1) as [[[sql args] j]|e] eqn:E; [|discriminate E].
  exists sql, args, j. split; [reflexivity|].
  destruct (mutations_are_conditional sample_compiler "m0" delete_field 1 sql args j)
    as (schema & table & before & condition & _ & _ & Hne & Hsql & _);
    [by constructor|reflexivity|right; reflexivity|exact E|].
  exists before, condition. by split.
Defined.

Lemma unknown_operators_are_dropped_witness :
  compileWhere "t0" (AMap [("id", AInt 1); ("owner", AMap [("_equals", AInt 2)])]) 1
  = compileWhere "t0" (AMap [("id", AInt 1)]) 1.
Proof.
  apply (unknown_operators_are_dropped "t0" [("id", AInt 1)] "owner" [("_equals", AInt 2)] [] 1); [reflexivity|].
  repeat constructor; simpl; congruence.
Defined.

(** A batch whose second object is no map makes the type assertion panic. *)
Example insert_panics_on_mixed_objects :
  compileMutation sample_compiler "m0" (MkField "insert_users" "" [("objects", AList [AMap [("name", AInt 1)]; AInt 2])] []) 1
  = Err TypeAssertionPanic.
Proof. reflexivity. Qed.

(** Without the reverse relation on the parent, the child's foreign key makes
    the relation read the parent's table instead of the child's. *)
Example child_foreign_key_joins_parent_table :
  j_table (relation_join (NewCompiler (SetTable (SetTable [] (MkTableInfo "public" "users" "id" ["id"] []))
      (MkTableInfo "public" "posts" "id" ["id"; "author_id"]
         [("users", MkRelationInfo "public" "users" "author_id" "id" false)])) "public") "public" "users" "posts") = "users".
Proof. reflexivity. Qed.
End graphql_samples.
