(* ===== verification/GraphQLHandler.v ===== *)
(** * data/base_handler_graphql.go: POST /v1/graphql

    The handler from the decoded request to the response: the limits on depth,
    complexity and rows, the cached responses, the statement run under the
    caller's row-level security, the side effects of mutations, and the
    transaction that the deferred call resolves after the response is written.

    The database is a parameter: whether a transaction begins, what a statement
    returns, and whether the commit succeeds; so is the JSON envelope of an
    answer.  The JSON text of the answer to an
    introspection query is not modelled. *)

From Stdlib Require Import ZArith Lia Ascii String.
From S2P Require Import Prelude GoStrings GoRunes GoValues GoTime SqlText RestQuery RestBuilder Scopes ServiceAccounts KVStore DataKV DataCache GraphQLParser GraphQLCompiler GraphQLSql.
Local Open Scope string_scope.
Local Open Scope Z_scope.

Definition defaultGraphQLMaxDepth : Z := 8.
Definition maxGraphQLComplexity : Z := 500.

Record GraphQLConfig := MkGraphQLConfig {
  gc_Enabled : bool;
  gc_MaxDepth : Z;
  gc_MaxComplexity : Z;
  gc_DefaultLimit : Z;
  gc_IntrospectionEnabled : bool;
}.

Section keys.
Context `{HostLib} `{FL : Floats} (json_float : float64 → string).

(** [json.Marshal] of a value: the members of a map in the order of their names. *)
Fixpoint json_any (v : any) : string :=
  match v with
  | ANil => "null"
  | ABool b => json_bool b
  | AInt z => decimal z
  | AFloat f => json_float f
  | AString s => json_string s
  | AList l => "[" ++ Join (json_any <$> l) "," ++ "]"
  | AMap m =>
      "{" ++ Join ((λ kv, json_string kv.1 ++ ":" ++ kv.2)
        <$> sort_by (λ a b, string_leb a.1 b.1) ((λ kv, (kv.1, json_any kv.2)) <$> m)) "," ++ "}"
  end.

(** No variables and version zero are omitted. *)
Definition BuildGraphQLQueryKeyWithVersion (query : string) (variables : list (string * any)) (customSuffix : string)
    (tableVersion : Z) : string :=
  if negb (String.eqb customSuffix "") then "graphql:" ++ customSuffix else
  "graphql:" ++ hex_EncodeToString (sha256_Sum256 ("{" ++ Join (
    [member "query" (json_string (TrimSpace query))]
    ++ (match variables with [] => [] | _ => [member "variables" (json_any (AMap variables))] end)
    ++ (if tableVersion =? 0 then [] else [member "table_version" (decimal tableVersion)]))%list "," ++ "}")).
End keys.

(** ** The limits *)

Section limits.
Context `{FL : Floats}.

(** A limit argument as a number: what is neither int64 nor float64 counts as 0. *)
Definition numeric_limit (v : any) : Z :=
  match v with
  | AInt z => z
  | AFloat f => float_to_int f
  | _ => 0
  end.

(** One round of the loop that enforces limits on root fields; the default is
    written in place. *)
Definition enforce_limit (defaultLimit maxLimit : Z) (field : FieldNode) : FieldNode :=
  let arguments := fn_Arguments field in
  let set v := MkField (fn_Name field) (fn_Alias field) (map_set arguments "limit" v) (fn_SelectionSet field) in
  match map_get arguments "limit" with
  | None => if 0 <? defaultLimit then set (AInt defaultLimit) else field
  | Some limitArgument => if (maxLimit <? numeric_limit limitArgument) && (0 <? maxLimit) then set (AInt maxLimit) else field
  end.

Definition with_limits (defaultLimit maxLimit : Z) (op : OperationNode) : OperationNode :=
  MkOperation (op_Type op) (op_Name op) (op_CacheTTL op) (op_CacheKeySuffix op)
    (enforce_limit defaultLimit maxLimit <$> op_SelectionSet op).

Definition isIntrospectionQuery (op : OperationNode) : bool :=
  existsb (λ f, String.eqb (fn_Name f) "__schema" || String.eqb (fn_Name f) "__type") (op_SelectionSet op).
End limits.

(** ** The tables a query reads, for its cache version *)

Section tables.
Context `{FL : Floats} (tables : Catalog).

Definition public_table (name : string) : string * string := default ("public", name) (qualified tables "" name).

Fixpoint nested_tables (schema : string) (subField : FieldNode) : list (string * string) :=
  match subField with
  | MkField relationTable _ _ [] => []
  | MkField relationTable _ _ selection =>
      let known t := bool_decide (is_Some (GetTable tables schema t)) in
      ((if known relationTable then [(schema, relationTable)]
        else let other := if HasSuffix relationTable "s" then TrimSuffix relationTable "s" else (relationTable ++ "s")%string in
             if known other then [(schema, other)] else [])
       ++ concat (nested_tables schema <$> selection))%list
  end.

(** [resolveNestedGraphQLTables]. *)
Definition resolveNestedGraphQLTables (schema : string) (subFields : list FieldNode) : list (string * string) :=
  concat (nested_tables schema <$> subFields).

Definition resolveGraphQLTables (op : OperationNode) : list (string * string) :=
  concat ((λ f, let '(schema, table) := public_table (fn_Name f) in
                (schema, table) :: resolveNestedGraphQLTables schema (fn_SelectionSet f)) <$> op_SelectionSet op).
End tables.

Section version.
Context {S : Type} `{KVDriver S} (env : KVEnv).

Definition getGraphQLTableCacheVersion (refs : list (string * string)) (s : S) : Z :=
  match refs with
  | [] => 0
  | [(schema, table)] => getTableCacheVersion env schema table s
  | _ => Z.land (fnv_write fnv_offset (Join ((λ ref, ref.1 ++ "." ++ ref.2 ++ ":"
             ++ decimal (getTableCacheVersion env ref.1 ref.2 s) ++ ";") <$> refs) "")) int64_max
  end.
End version.

(** ** The handler *)

Inductive RowEvent :=
| RowCreatedEvent (schema table mutation : string)
| RowUpdatedEvent (schema table mutation : string)
| RowDeletedEvent (schema table : string).

Inductive GraphQLBody :=
| GErrorBody (detail : string)
| GDepthError (depth limit : Z)
| GComplexityError (complexity limit : Z)
| GIntrospectionBody
| GCachedBody (text : string)
| GDataBody (responseBytes : string).

Record GraphQLResponse := MkGraphQLResponse { gr_status : Z; gr_body : GraphQLBody }.

(** A request: its context, the method, and the decoded input; [None] when the
    payload is no JSON. *)
Record ExecuteGraphQLInput `{Floats} := MkExecuteGraphQLInput {
  ei_Query : string; ei_OperationName : string; ei_Variables : list (string * any) }.

Record GraphQLRequest `{Floats} := MkGraphQLRequest {
  gq_Request : Request; gq_Method : string; gq_Input : option ExecuteGraphQLInput }.

Definition ScopeDataQueryWrite : string := "data:query.write".

Section handler.
Context `{HostLib} `{UT : UnicodeTables} `{FL : Floats} {S : Type} `{KVDriver S} (json_float : float64 → string)
  (env : KVEnv) (sa_faults : SAStmt → bool) (accounts : Accounts) (trustProxy : bool) (saltSecret : string)
  (config : DataConfig) (graphql : GraphQLConfig) (compiler : Compiler).
Context (begin_error : option DBError) (run_json : option JWTClaims → string → list any → result DBError string)
  (encode_response : string → string) (commit_ok : bool).

(** What a request leaves: the response, the store, the events published, and
    whether a transaction was committed. *)
Record GraphQLResult := MkGraphQLResult {
  go_response : GraphQLResponse; go_store : S; go_events : list RowEvent; go_committed : bool }.

Definition gql_error (status : Z) (detail : string) (s : S) : GraphQLResult :=
  MkGraphQLResult (MkGraphQLResponse status (GErrorBody detail)) s [] false.

Definition gql_db_error (e : DBError) (s : S) : GraphQLResult :=
  let '(status, message) := writeDBErrorResponse e in gql_error status message s.

(** One field of [handleMutationSideEffects]. *)
Definition mutation_effect (field : FieldNode) (s : S) : S * list RowEvent :=
  let name := fn_Name field in
  let found := if HasPrefix name "insert_" then Some (TrimPrefix name "insert_", 0%nat)
               else if HasPrefix name "update_" then Some (TrimPrefix name "update_", 1%nat)
               else if HasPrefix name "delete_" then Some (TrimPrefix name "delete_", 2%nat)
               else None in
  match found with
  | None => (s, [])
  | Some (tableName, action) =>
      if String.eqb tableName "" then (s, []) else
      let '(schema, table) := public_table (cp_tables compiler) tableName in
      (InvalidateTableCache env config schema table s,
       [match action with
        | O => RowCreatedEvent schema table name
        | 1%nat => RowUpdatedEvent schema table name
        | _ => RowDeletedEvent schema table
        end])
  end.

Definition handleMutationSideEffects (op : OperationNode) (s : S) : S * list RowEvent :=
  foldl (λ acc field, let '(s, events) := mutation_effect field acc.1 in (s, (acc.2 ++ events)%list))
    (s, []) (op_SelectionSet op).

Definition graphql_ttl (request : Request) (op : OperationNode) : Z :=
  let h1 := Header request "Cache-TTL" in
  let h2 := Header request "X-Cache-TTL" in
  if 0 <? op_CacheTTL op then op_CacheTTL op
  else if negb (String.eqb h1 "") then default 0 (Atoi h1)
  else if negb (String.eqb h2 "") then default 0 (Atoi h2)
  else if cfg_CacheEnabled config && (0 <? cfg_QueryTTLSeconds config) then cfg_QueryTTLSeconds config
  else 0.

Definition graphql_suffix (request : Request) (op : OperationNode) : string :=
  first_text [op_CacheKeySuffix op; Header request "Cache-Key-Suffix"; Header request "X-Cache-Key-Suffix"].

Definition is_mutation (op : OperationNode) : bool :=
  match op_Type op with MutationOperationType => true | QueryOperationType => false end.

(** From the compiler on; [cache] is the key and the lifetime of an active cache. *)
Definition execute (request : Request) (op : OperationNode) (cache : option (string * Z)) (s : S) : GraphQLResult :=
  let compiler := SetExcludedTables (cfg_ExcludedTables config) (SetAllowedSchemas (cfg_Schemas config) compiler) in
  match Compile compiler op with
  | Err _ => gql_error 400 "GraphQL compilation error" s
  | Ok (sql, args) =>
      match begin_error with
      | Some e => gql_db_error e s
      | None =>
          let requiredScope := if is_mutation op then ScopeDataQueryWrite else ScopeDataQueryRead in
          let rls := if isRLSBypassed env sa_faults accounts trustProxy request requiredScope then None
                     else Some (JWT (AuthCtx request)) in
          match run_json rls sql args with
          | Err e => gql_db_error e s
          | Ok rawJSON =>
              let responseBytes := encode_response rawJSON in
              let '(s, events) := if is_mutation op then handleMutationSideEffects op s else (s, []) in
              let s := match cache with
                       | Some (internalCacheKey, cacheTTL) =>
                           if cache_room env config s
                           then store_response env config cacheTTL internalCacheKey responseBytes s else s
                       | None => s
                       end in
              (* the response is written; the deferred call commits and drops its error *)
              MkGraphQLResult (MkGraphQLResponse 200 (GDataBody responseBytes)) s events commit_ok
          end
      end
  end.

Definition limited_operation (op : OperationNode) : OperationNode :=
  with_limits (if gc_DefaultLimit graphql <=? 0 then cfg_DefaultLimit config else gc_DefaultLimit graphql)
    (if cfg_MaxLimit config <=? 0 then 1000 else cfg_MaxLimit config) op.

Definition handleExecuteGraphQL (request : GraphQLRequest) (s : S) : GraphQLResult :=
  if negb (String.eqb (gq_Method request) "POST") then gql_error 405 "GraphQL endpoint only supports POST requests" s
  else if negb (gc_Enabled graphql) then gql_error 403 "GraphQL API is disabled" s else
  match gq_Input request with
  | None => gql_error 400 "Invalid JSON request payload" s
  | Some input =>
      if String.eqb (TrimSpace (ei_Query input)) "" then gql_error 400 "GraphQL query string cannot be empty" s else
      match ParseGraphQLWithOperation (ei_Query input) (ei_OperationName input) (ei_Variables input) with
      | Err _ | Ok None => gql_error 400 "GraphQL syntax error" s
      | Ok (Some op) =>
          let maxDepth := if gc_MaxDepth graphql <=? 0 then defaultGraphQLMaxDepth else gc_MaxDepth graphql in
          let maxComplexity := if gc_MaxComplexity graphql <=? 0 then maxGraphQLComplexity else gc_MaxComplexity graphql in
          if maxDepth <? CalculateDepth op
          then MkGraphQLResult (MkGraphQLResponse 422 (GDepthError (CalculateDepth op) maxDepth)) s [] false
          else if maxComplexity <? CalculateComplexity op
          then MkGraphQLResult (MkGraphQLResponse 422 (GComplexityError (CalculateComplexity op) maxComplexity)) s [] false
          else if negb (is_mutation op) && isIntrospectionQuery op then
            if negb (gc_IntrospectionEnabled graphql) then gql_error 403 "GraphQL introspection is disabled" s
            else MkGraphQLResult (MkGraphQLResponse 200 GIntrospectionBody) s [] false
          else
            let op := limited_operation op in
            let cacheTTL := graphql_ttl (gq_Request request) op in
            if cfg_CacheEnabled config && (0 <? cacheTTL) && negb (is_mutation op) then
              let version := getGraphQLTableCacheVersion env (resolveGraphQLTables (cp_tables compiler) op) s in
              let key := BuildGraphQLQueryKeyWithVersion json_float (ei_Query input) (ei_Variables input)
                           (graphql_suffix (gq_Request request) op) version in
              let caller := ExtractAuthContext trustProxy (gq_Request request) (kv_now env) saltSecret in
              let internalCacheKey := BuildInternalKey caller key in
              match Get env internalCacheKey s with
              | Ok cached =>
                  if negb (String.eqb cached "") then MkGraphQLResult (MkGraphQLResponse 200 (GCachedBody cached)) s [] false
                  else execute (gq_Request request) op (Some (internalCacheKey, cacheTTL)) s
              | Err _ => execute (gq_Request request) op (Some (internalCacheKey, cacheTTL)) s
              end
            else execute (gq_Request request) op None s
      end
  end.
End handler.

(** ** Properties *)

Section guarded.
Context `{HostLib} `{UT : UnicodeTables} `{FL : Floats} {S : Type} `{KVDriver S} (json_float : float64 → string)
  (env : KVEnv) (sa_faults : SAStmt → bool) (accounts : Accounts) (trustProxy : bool) (saltSecret : string)
  (config : DataConfig) (graphql : GraphQLConfig) (compiler : Compiler) (begin_error : option DBError)
  (run_json : option JWTClaims → string → list any → result DBError string) (encode_response : string → string).

Local Notation handle commit_ok := (handleExecuteGraphQL json_float env sa_faults accounts trustProxy saltSecret config
  graphql compiler begin_error run_json encode_response commit_ok).
Local Notation exec commit_ok := (execute env sa_faults accounts trustProxy config compiler begin_error run_json
  encode_response commit_ok).

Definition limit_bounded (bound : Z) (field : FieldNode) : Prop :=
  ∃ v, map_get (fn_Arguments field) "limit" = Some v ∧ numeric_limit v <= bound.

Lemma enforce_limit_bounded defaultLimit maxLimit field : 0 < defaultLimit → 0 < maxLimit →
  limit_bounded (Z.max defaultLimit maxLimit) (enforce_limit defaultLimit maxLimit field).
Proof.
  intros Hd Hm. unfold limit_bounded, enforce_limit. destruct (map_get (fn_Arguments field) "limit") as [v|] eqn:E.
  - destruct (Z.ltb_spec maxLimit (numeric_limit v)) as [Hlt|Hge]; cbn [andb].
    + destruct (Z.ltb_spec 0 maxLimit); [|lia]. cbn [fn_Arguments]. exists (AInt maxLimit).
      rewrite map_get_set. split; [done|simpl; lia].
    + exists v. split; [done|lia].
  - destruct (Z.ltb_spec 0 defaultLimit); [|lia]. cbn [fn_Arguments]. exists (AInt defaultLimit).
    rewrite map_get_set. split; [done|simpl; lia].
Qed.

Lemma enforce_limit_ok defaultLimit maxLimit field : field_ok field → field_ok (enforce_limit defaultLimit maxLimit field).
Proof. intros [name alias args sel Hn Ha Hs]. unfold enforce_limit. repeat case_match; by constructor. Qed.

(** The bounds in force: the configured ones, or the defaults. *)
Definition depth_bound : Z := if gc_MaxDepth graphql <=? 0 then defaultGraphQLMaxDepth else gc_MaxDepth graphql.
Definition complexity_bound : Z := if gc_MaxComplexity graphql <=? 0 then maxGraphQLComplexity else gc_MaxComplexity graphql.
Definition default_rows : Z := if gc_DefaultLimit graphql <=? 0 then cfg_DefaultLimit config else gc_DefaultLimit graphql.
Definition max_rows : Z := if cfg_MaxLimit config <=? 0 then 1000 else cfg_MaxLimit config.

Lemma max_rows_positive : 0 < max_rows.
Proof. unfold max_rows. destruct (Z.leb_spec (cfg_MaxLimit config) 0); lia. Qed.

(** The data of a response was computed by the compiled statement. *)
Lemma execute_data commit_ok request op cache s text :
  gr_body (go_response (exec commit_ok request op cache s)) = GDataBody text →
  ∃ sql args raw,
    Compile (SetExcludedTables (cfg_ExcludedTables config) (SetAllowedSchemas (cfg_Schemas config) compiler)) op = Ok (sql, args)
    ∧ run_json (if isRLSBypassed env sa_faults accounts trustProxy request
                     (if is_mutation op then ScopeDataQueryWrite else ScopeDataQueryRead)
                then None else Some (JWT (AuthCtx request))) sql args = Ok raw
    ∧ text = encode_response raw.
Proof.
  unfold execute, gql_db_error. destruct (Compile _ op) as [[sql args]|]; [|done].
  destruct begin_error as [e|]; [by destruct (writeDBErrorResponse e)|].
  destruct (run_json _ sql args) as [raw|e] eqn:Hrun; [|by destruct (writeDBErrorResponse e)].
  match goal with |- context [let '(_, _) := ?x in _] => destruct x as [s' events] end. cbn [go_response gr_body]. intros [= <-].
  by exists sql, args, raw.
Qed.

(** Every answer with data of the GraphQL endpoint was computed within the
    bounds: the query parses to an operation whose depth and complexity are
    within the limits in force, each root field asks for a bounded number of
    rows, and the data is the answer of the database to the compiled statement,
    parameterised, run without row-level security only where the caller's
    scopes allow it. *)
Theorem graphql_answers_within_bounds commit_ok request s text :
  catalog_ok (cp_tables compiler) → name_text (cp_defaultSchema compiler) = true → 0 < default_rows →
  gr_body (go_response (handle commit_ok request s)) = GDataBody text →
  ∃ input op sql args raw,
    gq_Input request = Some input
    ∧ ParseGraphQLWithOperation (ei_Query input) (ei_OperationName input) (ei_Variables input) = Ok (Some op)
    ∧ CalculateDepth op <= depth_bound ∧ CalculateComplexity op <= complexity_bound
    ∧ Forall (limit_bounded (Z.max default_rows max_rows)) (op_SelectionSet (limited_operation config graphql op))
    ∧ Compile (SetExcludedTables (cfg_ExcludedTables config) (SetAllowedSchemas (cfg_Schemas config) compiler))
        (limited_operation config graphql op) = Ok (sql, args)
    ∧ placeholders sql = Some (seqZ 1 (Z.of_nat (List.length args)))
    ∧ run_json (if isRLSBypassed env sa_faults accounts trustProxy (gq_Request request)
                     (if is_mutation op then ScopeDataQueryWrite else ScopeDataQueryRead)
                then None else Some (JWT (AuthCtx (gq_Request request)))) sql args = Ok raw
    ∧ text = encode_response raw.
Proof.
  intros Hcat Hdef Hrows. unfold handleExecuteGraphQL.
  destruct (negb (String.eqb _ _)); [done|]. destruct (negb (gc_Enabled graphql)); [done|].
  destruct (gq_Input request) as [input|]; [|done]. destruct (String.eqb (TrimSpace _) ""); [done|].
  destruct (ParseGraphQLWithOperation _ _ _) as [[op|]|] eqn:Hop; try done.
  fold depth_bound complexity_bound.
  destruct (Z.ltb_spec depth_bound (CalculateDepth op)) as [|Hd]; [done|].
  destruct (Z.ltb_spec complexity_bound (CalculateComplexity op)) as [|Hc]; [done|].
  destruct (_ && isIntrospectionQuery op); [by destruct (negb _)|].
  set (lop := limited_operation config graphql op).
  intros Hres. assert (∃ cache, gr_body (go_response (exec commit_ok (gq_Request request) lop cache s)) = GDataBody text)
    as [cache Hdata]; [revert Hres; repeat case_match; try done; intros Hres; by eexists|].
  apply execute_data in Hdata as (sql & args & raw & Hsql & Hrun & Ht). exists input, op, sql, args, raw.
  split_and!; try done.
  - apply Forall_fmap, list.Forall_true. intros f. unfold compose. apply enforce_limit_bounded; [done|apply max_rows_positive].
  - eapply Compile_ok; [| | |exact Hsql]; [done|done|]. apply Forall_fmap.
    apply parsed_names in Hop. eapply Forall_impl; [|exact Hop]. intros f. apply enforce_limit_ok.
Qed.

(** A failed commit goes unreported: response, events and store are the same
    whether or not the commit of the transaction succeeds, for every request; a
    mutation whose deferred constraints fail at the commit is answered 200, its
    row events are published and the cache is invalidated. *)
Theorem graphql_commit_failure_unreported request s :
  let answer := handleExecuteGraphQL json_float env sa_faults accounts trustProxy saltSecret config graphql compiler
                  begin_error run_json encode_response in
  let failed := answer false request s in
  let done := answer true request s in
  go_response failed = go_response done ∧ go_events failed = go_events done ∧ go_store failed = go_store done
  ∧ go_committed failed = false.
Proof.
  intros answer failed done_. unfold failed, done_, answer, handleExecuteGraphQL.
  assert (He : ∀ request op cache s, go_response (exec false request op cache s) = go_response (exec true request op cache s)
            ∧ go_events (exec false request op cache s) = go_events (exec true request op cache s)
            ∧ go_store (exec false request op cache s) = go_store (exec true request op cache s)
            ∧ go_committed (exec false request op cache s) = false).
  { intros r op cache s0. unfold execute, gql_db_error. repeat case_match; done. }
  repeat case_match; try done; apply He.
Qed.
End guarded.

(** ** Examples *)

Section handler_samples.
#[local] Existing Instance sample_host.
#[local] Existing Instance sample_pg.
#[local] Existing Instance ascii_tables.
#[local] Existing Instance integer_floats.

Definition sample_graphql : GraphQLConfig := MkGraphQLConfig true 8 500 100 true.

Definition graphql_request (query operation : string) : GraphQLRequest :=
  MkGraphQLRequest _ (kr_Request (user_request "u1" "")) "POST" (Some (MkExecuteGraphQLInput _ query operation [])).

(** The endpoint over a database that answers with the statement itself. *)
Definition sample_handle (t : Z) (query operation : string) (s : KVTable) : GraphQLResult (S := KVTable) :=
  handleExecuteGraphQL decimal (kv_ok t) sa_ok ∅ false "" sample_config sample_graphql
    (NewCompiler sample_catalog "public") None (λ _ sql _, Ok sql) (λ raw, raw) true (graphql_request query operation) s.

Definition answer_text (r : GraphQLResult (S := KVTable)) : string :=
  match gr_body (go_response r) with
  | GDataBody text => text
  | GCachedBody text => "cached: " ++ text
  | _ => ""
  end.

Lemma graphql_answers_within_bounds_witness : ∃ op,
  ParseGraphQL sample_text [] = Ok (Some op) ∧ CalculateDepth op <= 8 ∧ CalculateComplexity op <= 500.
Proof.
  assert (Hbody : gr_body (go_response (sample_handle 10 sample_text "" ∅)) = GDataBody (answer_text (sample_handle 10 sample_text "" ∅)))
    by (vm_compute; reflexivity).
  destruct (graphql_answers_within_bounds (FL := integer_floats) decimal (kv_ok 10) sa_ok ∅ false "" sample_config sample_graphql
    (NewCompiler sample_catalog "public") None (λ _ sql _, Ok sql) (λ raw, raw) true (graphql_request sample_text "") (∅ : KVTable)
    (answer_text (sample_handle 10 sample_text "" ∅)))
    as (input & op & sql & args & raw & Hin & Hop & Hd & Hc & _);
    [exact sample_catalog_ok|reflexivity|vm_compute; reflexivity|exact Hbody|].
  injection Hin as <-. exists op. split; [exact Hop|]. split; [exact Hd|exact Hc].
Defined.

(** The name of the operation is not part of the key of a cached answer: of
    a document with two operations over one table, the answer to the first is
    served for the second. *)
Theorem operation_name_not_in_cache_key :
  let document := "query A { users { id } } query B { users { name } }" in
  let first := sample_handle 10 document "A" ∅ in
  let second := sample_handle 20 document "B" (go_store first) in
  answer_text second = ("cached: " ++ answer_text first)%string
  ∧ answer_text first ≠ "" ∧ answer_text (sample_handle 20 document "B" ∅) ≠ answer_text first.
Proof. split_and!; vm_compute; congruence. Qed.
End handler_samples.
