(* ===== verification/Events.v ===== *)
(** * core/event.go: events, patterns and the event bus

    Events and how they are completed before they are published, the patterns
    subscribers and hooks use, and the bus: a bounded queue between publishers
    and four workers, as a step relation.  A worker's turn is two steps, taking
    an event and finishing its dispatch, so that steps of publishers, of the
    other workers and of [Close] come in between. *)

From Stdlib Require Import ZArith Lia Ascii String.
From S2P Require Import Prelude GoStrings GoValues Scopes ServiceAccounts.
Local Open Scope string_scope.
Local Open Scope Z_scope.

(** ** Patterns *)

Definition MatchEventPattern (pattern eventName : string) : bool :=
  let pattern := TrimSpace pattern in
  let eventName := TrimSpace eventName in
  if String.eqb pattern "*" || String.eqb pattern eventName then true
  else if HasSuffix pattern ".*" then
    let prefix := TrimSuffix pattern ".*" in
    HasPrefix eventName (prefix ++ ".") || String.eqb eventName prefix
  else false.

(** *** Patterns by segments *)

(** Names between dots: not empty, without blanks and dots. *)
Definition segment (s : string) : bool := plain s && lacks "." s && negb (String.eqb s "").
Definition dotted (l : list string) : string := Join l ".".

Lemma segment_parts s : segment s = true → plain s = true ∧ lacks "." s = true ∧ s ≠ "".
Proof.
  unfold segment. intros [[Hp Hl]%andb_true_iff Hn]%andb_true_iff. split_and!; try done.
  intros ->. done.
Qed.

Lemma Split_dotted l t : l ≠ [] → Forall (λ s, lacks "." s = true) l →
  Split (dotted l ++ String "." t) "." = (l ++ Split t ".")%list ∧ Split (dotted l) "." = l.
Proof.
  intros Hl Hall. induction Hall as [|x l Hx Hl' IH]; [done|]. destruct l as [|y l].
  - split; [by apply Split_app|by apply Split_lacks].
  - destruct IH as [IH1 IH2]; [done|]. change (dotted (x :: y :: l)) with (x ++ String "." (dotted (y :: l))).
    split.
    + rewrite append_assoc, append_cons, Split_app by done. by rewrite IH1.
    + rewrite Split_app by done. by rewrite IH2.
Qed.

Lemma dotted_plain l : Forall (λ s, segment s = true) l → plain (dotted l) = true.
Proof.
  induction 1 as [|x l Hx Hl IH]; [done|]. apply segment_parts in Hx as (Hx & _ & _). destruct l as [|y l]; [done|].
  change (dotted (x :: y :: l)) with (x ++ String "." (dotted (y :: l))). unfold plain in *.
  rewrite all_chars_app, Hx. cbn [all_chars andb]. by rewrite IH.
Qed.

Lemma dotted_inj l l' : l ≠ [] → l' ≠ [] → Forall (λ s, segment s = true) l → Forall (λ s, segment s = true) l' →
  dotted l = dotted l' → l = l'.
Proof.
  intros Hl Hl' Ha Ha' E. apply (f_equal (λ s, Split s ".")) in E.
  assert (Hs : ∀ m, m ≠ [] → Forall (λ s, segment s = true) m → Split (dotted m) "." = m).
  { intros m Hm Hf. apply (Split_dotted m ""); [done|]. eapply Forall_impl; [|exact Hf].
    intros x Hx. by apply segment_parts in Hx as (_ & ? & _). }
  by rewrite !Hs in E.
Qed.

Lemma strip_prefix_app p t : strip_prefix p (p ++ t) = Some t.
Proof. induction p as [|c p IH]; [by destruct t|]. rewrite append_cons. cbn [strip_prefix]. by rewrite Ascii.eqb_refl. Qed.

Lemma strip_prefix_Some p s t : strip_prefix p s = Some t → s = p ++ t.
Proof.
  revert s. induction p as [|c p IH]; intros s; cbn [strip_prefix]; [by destruct s; intros [= <-]|].
  destruct s as [|d s]; [done|]. destruct (Ascii.eqb_spec c d) as [->|]; [|done].
  intros E. rewrite append_cons. f_equal. by apply IH.
Qed.

Lemma strip_suffix_Some p s t : strip_suffix p s = Some t → s = t ++ p.
Proof.
  revert t. induction s as [|c s IH]; intros t; cbn [strip_suffix].
  - destruct (String.eqb_spec "" p) as [<-|]; [by intros [= <-]|done].
  - destruct (String.eqb_spec (String c s) p) as [<-|]; [by intros [= <-]|].
    destruct (strip_suffix p s) as [u|]; [|done]. intros [= <-]. rewrite append_cons. f_equal. by apply IH.
Qed.

Lemma strip_suffix_app s p : p ≠ "" → strip_suffix p (s ++ p) = Some s.
Proof.
  intros Hp. induction s as [|c s IH].
  - change ("" ++ p) with p. destruct p as [|d p]; [done|]. cbn [strip_suffix]. by rewrite String.eqb_refl.
  - rewrite append_cons. cbn [strip_suffix].
    destruct (String.eqb_spec (String c (s ++ p)) p) as [E|_]; [|by rewrite IH].
    apply (f_equal String.length) in E. cbn [String.length] in E. rewrite length_append in E. lia.
Qed.

(** The prefix relation of the texts is that of the segments. *)
Lemma dotted_prefix ps es : ps ≠ [] → es ≠ [] → Forall (λ s, segment s = true) ps → Forall (λ s, segment s = true) es →
  (HasPrefix (dotted es) (dotted ps ++ ".") || String.eqb (dotted es) (dotted ps)) = true ↔ ps `prefix_of` es.
Proof.
  intros Hp He Hps Hes.
  assert (Hlacks : ∀ m, Forall (λ s, segment s = true) m → Forall (λ s, lacks "." s = true) m).
  { intros m Hm. eapply Forall_impl; [|exact Hm]. intros x Hx. by apply segment_parts in Hx as (_ & ? & _). }
  destruct (Split_dotted es "" He (Hlacks es Hes)) as [_ Hse].
  rewrite orb_true_iff. split.
  - intros [Hpre|E%String.eqb_eq].
    + unfold HasPrefix in Hpre. destruct (strip_prefix _ _) as [t|] eqn:E; [|done]. apply strip_prefix_Some in E.
      exists (Split t "."). apply (f_equal (λ s, Split s ".")) in E. rewrite Hse, append_assoc in E.
      destruct (Split_dotted ps t Hp (Hlacks ps Hps)) as [Hsp _]. exact (eq_trans E Hsp).
    + apply dotted_inj in E; [|done..]. by rewrite E.
  - intros [[|e rest] ->]; [right; rewrite app_nil_r; apply String.eqb_refl|left].
    assert (Hd : dotted (ps ++ e :: rest) = (dotted ps ++ ".") ++ dotted (e :: rest)).
    { clear -Hp. induction ps as [|x ps IH]; [done|]. destruct ps as [|y ps]; [by rewrite append_assoc|].
      change (dotted ((x :: y :: ps) ++ e :: rest)) with (x ++ "." ++ dotted ((y :: ps) ++ e :: rest)).
      rewrite IH by done. change (dotted (x :: y :: ps)) with (x ++ "." ++ dotted (y :: ps)). by rewrite !append_assoc. }
    unfold HasPrefix. by rewrite Hd, strip_prefix_app.
Qed.

(** Patterns mean what their segments say: a pattern that ends in a
    wildcard matches exactly the event types that start with the segments
    before it (also the type that is those segments), and a pattern without a
    wildcard matches exactly itself. *)
Theorem MatchEventPattern_segments ps es :
  Forall (λ s, segment s = true) ps → Forall (λ s, segment s = true) es → es ≠ [] →
  (MatchEventPattern (dotted (ps ++ ["*"])) (dotted es) = true ↔ ps `prefix_of` es)
  ∧ (ps ≠ [] → "*" ∉ ps → (MatchEventPattern (dotted ps) (dotted es) = true ↔ ps = es)).
Proof.
  intros Hps Hes He. unfold MatchEventPattern.
  assert (Hstar : Forall (λ s, segment s = true) (ps ++ ["*"])%list) by (apply Forall_app_2; [done|by repeat constructor]).
  rewrite !TrimSpace_plain by (by apply dotted_plain). split.
  - destruct (decide (ps = [])) as [->|Hp]; [split; [intros _; apply prefix_nil|done]|].
    assert (Hd : dotted (ps ++ ["*"]) = dotted ps ++ ".*").
    { clear -Hp. induction ps as [|x ps IH]; [done|]. destruct ps as [|y ps]; [done|].
      change (dotted ((x :: y :: ps) ++ ["*"])) with (x ++ "." ++ dotted ((y :: ps) ++ ["*"])). rewrite IH by done.
      change (dotted (x :: y :: ps)) with (x ++ "." ++ dotted (y :: ps)). by rewrite !append_assoc. }
    destruct (String.eqb_spec (dotted (ps ++ ["*"])) "*") as [E|_].
    { exfalso. apply (dotted_inj _ ["*"]) in E; [|by destruct ps|done|done|by repeat constructor].
      by destruct ps as [|? [|]]. }
    destruct (String.eqb_spec (dotted (ps ++ ["*"])) (dotted es)) as [E|_]; cbn [orb].
    { apply dotted_inj in E; [|by destruct ps|done|done|done]. split; [|done]. intros _. rewrite <- E. by eexists. }
    rewrite Hd. unfold HasSuffix, TrimSuffix. rewrite strip_suffix_app by done. cbn match. cbn [default from_option].
    by apply dotted_prefix.
  - intros Hp Hw. destruct (String.eqb_spec (dotted ps) "*") as [E|_].
    { exfalso. apply (dotted_inj _ ["*"]) in E as ->; [set_solver|done|done|done|by repeat constructor]. }
    destruct (String.eqb_spec (dotted ps) (dotted es)) as [E|Hne]; cbn [orb].
    { apply dotted_inj in E; [|done..]. by split. }
    assert (Hsuf : HasSuffix (dotted ps) ".*" = false).
    { unfold HasSuffix. destruct (strip_suffix ".*" (dotted ps)) as [t|] eqn:E; [|done]. exfalso. apply Hw.
      apply strip_suffix_Some in E. destruct (Split_dotted ps "" Hp) as [_ <-].
      { eapply Forall_impl; [|exact Hps]. intros x Hx. by apply segment_parts in Hx as (_ & ? & _). }
      rewrite E. change ".*" with (String "." "*"). rewrite Split_at. apply elem_of_app. right. by left. }
    rewrite Hsuf. split; [done|]. intros ->. done.
Qed.

(** ** Events *)

Section events.
Context `{FL : Floats}.

Record EventActor := MkEventActor { ea_Type : string; ea_ID : option N; ea_Role : option string }.
Record EventContext := MkEventContext {
  ec_IPAddress : option string; ec_UserAgent : option string; ec_RequestID : option string }.

Abbreviation Fields_ := (list (string * any)).

(** A nil map is [None]; the nil id is 0 and the zero time [None]. *)
Record Event := MkEvent {
  ev_ID : N;
  ev_Type : string;
  ev_Actor : EventActor;
  ev_Context : EventContext;
  ev_Action : string;
  ev_ResourceType : string;
  ev_ResourceID : option string;
  ev_Metadata : option Fields_;
  ev_Data : option Fields_;
  ev_CreatedAt : option Z;
}.

Definition no_actor : EventActor := MkEventActor "" None None.
Definition no_context : EventContext := MkEventContext None None None.

(** What a context carries. *)
Record Ctx := MkCtx {
  cx_Actor : option EventActor;
  cx_ServiceAccount : option ServiceAccount;
  cx_Transport : option EventContext;
  cx_Metadata : option Fields_;
}.

Definition WithResourceID (resourceID : string) (e : Event) : Event :=
  if String.eqb resourceID "" then e else
  MkEvent (ev_ID e) (ev_Type e) (ev_Actor e) (ev_Context e) (ev_Action e) (ev_ResourceType e) (Some resourceID)
    (ev_Metadata e) (ev_Data e) (ev_CreatedAt e).

(** The text before and after the last dot. *)
Fixpoint split_last (s : string) : option (string * string) :=
  match s with
  | EmptyString => None
  | String c s' =>
      match split_last s' with
      | Some (a, b) => Some (String c a, b)
      | None => if Ascii.eqb c "." then Some ("", s') else None
      end
  end.

(** [NewEvent]; [data] is what JSON makes of the payload. *)
Definition NewEvent (newID : N) (now : Z) (eventType : string) (data : Fields_) : Event :=
  let '(resourceType, action) :=
    match split_last eventType with
    | Some (a, b) => if String.eqb a "" || String.eqb b "" then ("", "") else (a, b)
    | None => ("", "")
    end in
  MkEvent newID eventType no_actor no_context action resourceType None (Some []) (Some data) (Some now).

Section prepare.
Context (uuid_Parse : string → option N).

Definition deriveEventActor (ctx : Ctx) : EventActor :=
  let from_account :=
    match cx_ServiceAccount ctx with
    | Some serviceAccount =>
        match sa_ConsoleUserID serviceAccount with
        | Some consoleUserID =>
            if String.eqb consoleUserID ""
            then MkEventActor "service_account" (Some (sa_ID serviceAccount))
                   (Some (if HasScope (sa_Scopes serviceAccount) "*" then "root" else "service_account"))
            else MkEventActor "console_user" (uuid_Parse consoleUserID) (Some "console_user")
        | None => MkEventActor "service_account" (Some (sa_ID serviceAccount))
                    (Some (if HasScope (sa_Scopes serviceAccount) "*" then "root" else "service_account"))
        end
    | None => MkEventActor "system" None None
    end in
  match cx_Actor ctx with
  | Some actor => if String.eqb (ea_Type actor) "" then from_account else actor
  | None => from_account
  end.

Definition deriveEventContext (ctx : Ctx) : EventContext := default no_context (cx_Transport ctx).

(** Metadata of the context, where the event has none of its own. *)
Definition merge_metadata (own context : Fields_) : Fields_ :=
  foldl (λ m kv, match map_get m kv.1 with Some _ => m | None => map_set m kv.1 kv.2 end) own context.

Definition no_transport (c : EventContext) : bool :=
  match c with MkEventContext None None None => true | _ => false end.

(** [None] is the error for a missing type, resource type, action or resource. *)
Definition prepareEvent (newID : N) (now : Z) (ctx : Ctx) (e : Event) : option Event :=
  if String.eqb (ev_Type e) "" || String.eqb (ev_ResourceType e) "" || String.eqb (ev_Action e) "" then None else
  match ev_ResourceID e with
  | None => None
  | Some resourceID =>
      if String.eqb resourceID "" then None else
      Some (MkEvent (if N.eqb (ev_ID e) 0 then newID else ev_ID e) (ev_Type e)
        (if String.eqb (ea_Type (ev_Actor e)) "" then deriveEventActor ctx else ev_Actor e)
        (if no_transport (ev_Context e) then deriveEventContext ctx else ev_Context e)
        (ev_Action e) (ev_ResourceType e) (ev_ResourceID e)
        (Some (merge_metadata (default [] (ev_Metadata e)) (default [] (cx_Metadata ctx))))
        (Some (default [] (ev_Data e)))
        (Some (default now (ev_CreatedAt e))))
  end.
End prepare.

(** An event of a type with a resource and an action, about a resource with a
    name, is published. *)
Lemma NewEvent_prepared uuid_Parse newID now newID' now' ctx eventType data resource a b :
  split_last eventType = Some (a, b) → a ≠ "" → b ≠ "" → resource ≠ "" →
  is_Some (prepareEvent uuid_Parse newID' now' ctx (WithResourceID resource (NewEvent newID now eventType data))).
Proof.
  intros Hs Ha Hb Hr. unfold NewEvent, WithResourceID. rewrite Hs.
  destruct (String.eqb_spec a ""), (String.eqb_spec b ""); try done. cbn [orb].
  destruct (String.eqb_spec resource ""); [done|]. unfold prepareEvent. cbn [ev_Type ev_ResourceType ev_Action ev_ResourceID].
  destruct (String.eqb_spec eventType "") as [->|]; [done|]. destruct (String.eqb_spec a ""), (String.eqb_spec b ""), (String.eqb_spec resource "");
    done.
Qed.

(** ** The bus *)

Definition defaultEventDispatchChannelCapacity : nat := 1000.
Definition defaultEventWorkerCount : nat := 4.

(** [late]: the event was taken after [Close], with the bus's context cancelled. *)
Inductive Worker := Idle | Busy (e : Event) (late : bool) | Exited.

(** The queue, the workers and the stop channel; subscribers by pattern; and
    what happened: events accepted and dropped, handlers called, events whose
    dispatch is over, events recorded in core.events. *)
Record Bus := MkBus {
  b_queue : list Event;
  b_workers : list Worker;
  b_stopped : bool;
  b_subscribers : list (string * list nat);
  b_accepted : list Event;
  b_dropped : list Event;
  b_notified : list (nat * Event);
  b_dispatched : list Event;
  b_recorded : list Event;
}.

Definition NewEventBus : Bus :=
  MkBus [] (replicate defaultEventWorkerCount Idle) false [] [] [] [] [] [].

Definition Subscribe (pattern : string) (handler : nat) (b : Bus) : Bus :=
  MkBus (b_queue b) (b_workers b) (b_stopped b)
    (map_set (b_subscribers b) pattern (default [] (map_get (b_subscribers b) pattern) ++ [handler])%list)
    (b_accepted b) (b_dropped b) (b_notified b) (b_dispatched b) (b_recorded b).

Definition matched_handlers (b : Bus) (e : Event) : list nat :=
  concat (snd <$> filter (λ kv, MatchEventPattern kv.1 (ev_Type e) = true) (b_subscribers b)).

(** [Publish] of a prepared event: its handlers run, and the event is sent to
    the channel or dropped when the channel is full. *)
Definition Publish (e : Event) (b : Bus) : Bus :=
  let room := (List.length (b_queue b) <? defaultEventDispatchChannelCapacity)%nat in
  MkBus (if room then b_queue b ++ [e] else b_queue b)%list (b_workers b) (b_stopped b) (b_subscribers b)
    (if room then b_accepted b ++ [e] else b_accepted b)%list (if room then b_dropped b else b_dropped b ++ [e])%list
    (b_notified b ++ ((λ h, (h, e)) <$> matched_handlers b e))%list (b_dispatched b) (b_recorded b).

(** A worker that waits takes the oldest event. *)
Definition take_event (i : nat) (b : Bus) : option Bus :=
  match b_workers b !! i, b_queue b with
  | Some Idle, e :: queue =>
      Some (MkBus queue (<[i := Busy e (b_stopped b)]> (b_workers b)) (b_stopped b) (b_subscribers b) (b_accepted b) (b_dropped b)
              (b_notified b) (b_dispatched b) (b_recorded b))
  | _, _ => None
  end.

(** The end of [dispatch]; the event is recorded unless the statement fails, as
    it does when the context was cancelled before. *)
Definition finish_dispatch (i : nat) (record_ok : bool) (b : Bus) : option Bus :=
  match b_workers b !! i with
  | Some (Busy e late) =>
      Some (MkBus (b_queue b) (<[i := Idle]> (b_workers b)) (b_stopped b) (b_subscribers b) (b_accepted b) (b_dropped b)
              (b_notified b) (b_dispatched b ++ [e])%list
              (if record_ok && negb late then b_recorded b ++ [e] else b_recorded b)%list)
  | _ => None
  end.

(** [Close] closes the stop channel; a waiting worker may then leave. *)
Definition close_bus (b : Bus) : Bus :=
  MkBus (b_queue b) (b_workers b) true (b_subscribers b) (b_accepted b) (b_dropped b) (b_notified b) (b_dispatched b) (b_recorded b).

Definition leave (i : nat) (b : Bus) : option Bus :=
  match b_workers b !! i with
  | Some Idle =>
      if b_stopped b then
        Some (MkBus (b_queue b) (<[i := Exited]> (b_workers b)) true (b_subscribers b) (b_accepted b) (b_dropped b)
                (b_notified b) (b_dispatched b) (b_recorded b))
      else None
  | _ => None
  end.

Inductive bus_step : Bus → Bus → Prop :=
| step_subscribe b pattern handler : bus_step b (Subscribe pattern handler b)
| step_publish b e : bus_step b (Publish e b)
| step_take b b' i : take_event i b = Some b' → bus_step b b'
| step_finish b b' i record_ok : finish_dispatch i record_ok b = Some b' → bus_step b b'
| step_close b : b_stopped b = false → bus_step b (close_bus b)
| step_leave b b' i : leave i b = Some b' → bus_step b b'.

Definition reachable_bus : Bus → Prop := rtc bus_step NewEventBus.

(** The events in the hands of workers. *)
Definition in_hand (workers : list Worker) : list Event :=
  omap (λ w, match w with Busy e _ => Some e | _ => None end) workers.

(** ** Where events are *)

Record bus_ok (b : Bus) : Prop := {
  bo_places : b_accepted b ≡ₚ (b_dispatched b ++ in_hand (b_workers b) ++ b_queue b)%list;
  bo_capacity : (List.length (b_queue b) <= defaultEventDispatchChannelCapacity)%nat;
  bo_recorded : b_recorded b `sublist_of` b_dispatched b;
  bo_workers : List.length (b_workers b) = defaultEventWorkerCount;
}.

Lemma in_hand_insert ws i w w' : ws !! i = Some w →
  ∃ l1 l2, in_hand ws = (l1 ++ in_hand [w] ++ l2)%list ∧ in_hand (<[i := w']> ws) = (l1 ++ in_hand [w'] ++ l2)%list.
Proof.
  intros Hi. exists (in_hand (take i ws)), (in_hand (drop (S i) ws)). unfold in_hand.
  rewrite <- !omap_app. split.
  - change ([w] ++ drop (S i) ws)%list with (w :: drop (S i) ws). by rewrite (take_drop_middle ws i w).
  - by rewrite insert_take_drop by (by eapply lookup_lt_Some).
Qed.

Lemma taken_in_hand ws i e late : ws !! i = Some Idle → in_hand (<[i := Busy e late]> ws) ≡ₚ e :: in_hand ws.
Proof.
  intros Hi. destruct (in_hand_insert ws i Idle (Busy e late) Hi) as (l1 & l2 & -> & ->). simpl.
  by rewrite Permutation_middle.
Qed.

Lemma finished_in_hand ws i e late w : ws !! i = Some (Busy e late) → w = Idle ∨ w = Exited →
  in_hand ws ≡ₚ e :: in_hand (<[i := w]> ws).
Proof.
  intros Hi Hw. destruct (in_hand_insert ws i (Busy e late) w Hi) as (l1 & l2 & -> & ->).
  destruct Hw as [-> | ->]; simpl; by rewrite Permutation_middle.
Qed.

Lemma left_in_hand ws i : ws !! i = Some Idle → in_hand (<[i := Exited]> ws) = in_hand ws.
Proof. intros Hi. by destruct (in_hand_insert ws i Idle Exited Hi) as (l1 & l2 & -> & ->). Qed.

Lemma bus_step_ok b b' : bus_step b b' → bus_ok b → bus_ok b'.
Proof.
  intros Hstep [Hp Hc Hr Hw]. destruct Hstep as [b pattern handler|b e|b b' i H|b b' i record_ok H|b|b b' i H].
  - done.
  - split; simpl; [| |done|done]; destruct (Nat.ltb_spec (List.length (b_queue b)) defaultEventDispatchChannelCapacity); try done.
    + by rewrite Hp, !app_assoc.
    + rewrite length_app. simpl. lia.
  - unfold take_event in H. destruct (b_workers b !! i) as [[| |]|] eqn:Hi; try done.
    destruct (b_queue b) as [|e queue]; [done|]. injection H as <-. split; simpl in *; [|lia|done|by rewrite length_insert].
    rewrite Hp, (taken_in_hand _ _ e _ Hi). apply Permutation_app_head. simpl. symmetry. apply Permutation_middle.
  - unfold finish_dispatch in H. destruct (b_workers b !! i) as [[|e late|]|] eqn:Hi; try done. injection H as <-.
    split; simpl; [|done| |by rewrite length_insert].
    + rewrite Hp, (finished_in_hand _ _ e late Idle Hi) by (by left). by rewrite <- app_assoc.
    + destruct (record_ok && negb late); [by apply sublist_app|by apply sublist_inserts_r].
  - done.
  - unfold leave in H. destruct (b_workers b !! i) as [[| |]|] eqn:Hi; try done.
    destruct (b_stopped b); [|done]. injection H as <-. split; simpl; [|done|done|by rewrite length_insert].
    by rewrite left_in_hand.
Qed.

Lemma reachable_bus_ok b : reachable_bus b → bus_ok b.
Proof.
  unfold reachable_bus. intros Hr. assert (Hi : bus_ok NewEventBus) by (split; simpl; [done|lia|done|done]).
  revert Hi. induction Hr as [|b b' b'' Hs _ IH]; [done|]. intros Hb. by eapply IH, bus_step_ok.
Qed.

(** C40: The bus loses no event it accepted and handles none twice: in every
    reachable state, under every interleaving of publishers, the four workers
    and [Close], the accepted events are, counted with multiplicity, those
    whose dispatch is over, those in the hands of a worker and those in the
    queue; the queue never holds more than its capacity, and what was recorded
    was dispatched, in the same order. *)
Theorem event_bus_accounts_for_events b : reachable_bus b →
  b_accepted b ≡ₚ (b_dispatched b ++ in_hand (b_workers b) ++ b_queue b)%list
  ∧ (List.length (b_queue b) <= 1000)%nat
  ∧ b_recorded b `sublist_of` b_dispatched b.
Proof. intros [Hp Hc Hr _]%reachable_bus_ok. done. Qed.

(** ** Closing *)

(** All workers have left: what is queued stays queued. *)
Definition abandoned (b : Bus) : Prop := b_stopped b = true ∧ Forall (λ w, w = Exited) (b_workers b).

Lemma abandoned_step b b' : abandoned b → bus_step b b' →
  abandoned b' ∧ b_dispatched b' = b_dispatched b ∧ b_recorded b' = b_recorded b ∧ b_queue b `prefix_of` b_queue b'.
Proof.
  intros [Hs Hw] Hstep.
  assert (Hno : ∀ i w, b_workers b !! i = Some w → w = Exited).
  { intros i w Hi. rewrite list.Forall_forall in Hw. by eapply Hw, list_elem_of_lookup_2. }
  destruct Hstep as [b pattern handler|b e|b b' i H|b b' i record_ok H|b Hc|b b' i H].
  - done.
  - split_and!; try done. simpl. destruct (_ <? _)%nat; [by eexists|done].
  - unfold take_event in H. destruct (b_workers b !! i) as [w|] eqn:Hi; [|done]. by rewrite (Hno i w Hi) in H.
  - unfold finish_dispatch in H. destruct (b_workers b !! i) as [w|] eqn:Hi; [|done]. by rewrite (Hno i w Hi) in H.
  - congruence.
  - unfold leave in H. destruct (b_workers b !! i) as [w|] eqn:Hi; [|done]. by rewrite (Hno i w Hi) in H.
Qed.

Lemma abandoned_stays b b' : abandoned b → rtc bus_step b b' →
  b_dispatched b' = b_dispatched b ∧ b_recorded b' = b_recorded b ∧ b_queue b `prefix_of` b_queue b'.
Proof.
  intros Ha Hr. induction Hr as [|b b1 b2 Hs _ IH]; [done|].
  destruct (abandoned_step b b1 Ha Hs) as (Ha' & Hd & Hrec & Hq).
  destruct (IH Ha') as (Hd' & Hrec' & Hq'). split_and!; [congruence|congruence|by etrans].
Qed.

(** The run: publish, close, and the workers leave before they look at the queue. *)
Definition closed_with (e : Event) : Bus :=
  MkBus [e] (replicate 4 Exited) true [] [e] [] [] [] [].

Lemma closed_with_reachable e : reachable_bus (closed_with e).
Proof.
  unfold reachable_bus.
  eapply (rtc_l _ _ (Publish e NewEventBus)); [constructor|].
  eapply (rtc_l _ _ (close_bus (Publish e NewEventBus))); [by constructor|].
  eapply rtc_l; [apply (step_leave _ _ 0); reflexivity|]. eapply rtc_l; [apply (step_leave _ _ 1); reflexivity|].
  eapply rtc_l; [apply (step_leave _ _ 2); reflexivity|]. eapply rtc_l; [apply (step_leave _ _ 3); reflexivity|].
  reflexivity.
Qed.

(** Closing the bus loses queued events: every event can be accepted, be
    still queued when [Close] has stopped the workers, and then is never
    dispatched nor recorded, whatever happens next. *)
Theorem close_loses_queued_events e : ∃ b, reachable_bus b ∧ e ∈ b_accepted b ∧ e ∈ b_queue b
  ∧ ∀ b', rtc bus_step b b' → e ∈ b_queue b' ∧ b_dispatched b' = [] ∧ b_recorded b' = [].
Proof.
  exists (closed_with e). split; [apply closed_with_reachable|]. split; [by left|]. split; [by left|].
  intros b' Hr. destruct (abandoned_stays (closed_with e) b') as (Hd & Hrec & Hq); [|done|].
  - split; [done|]. by repeat constructor.
  - split; [|by split]. destruct Hq as [k Hk]. rewrite Hk. by left.
Qed.
End events.

(** ** Examples *)

Section event_samples.
#[local] Existing Instance integer_floats.

Definition sample_event : Event :=
  WithResourceID "users:1" (NewEvent 7 0 "data.row.created" []).

Lemma MatchEventPattern_segments_witness :
  (MatchEventPattern "data.*" "data.row.created" = true ↔ ["data"] `prefix_of` ["data"; "row"; "created"])
  ∧ (MatchEventPattern "data" "data.row.created" = true ↔ ["data"] = ["data"; "row"; "created"]).
Proof.
  destruct (MatchEventPattern_segments ["data"] ["data"; "row"; "created"]) as [H1 H2];
    [by repeat constructor|by repeat constructor|discriminate|].
  split; [exact H1|]. apply H2; [discriminate|]. apply (bool_decide_unpack _). vm_compute. exact I.
Defined.

Lemma event_bus_accounts_for_events_witness :
  b_accepted (closed_with sample_event)
  ≡ₚ (b_dispatched (closed_with sample_event) ++ in_hand (b_workers (closed_with sample_event)) ++ b_queue (closed_with sample_event))%list.
Proof. apply (event_bus_accounts_for_events (closed_with sample_event)), closed_with_reachable. Defined.

End event_samples.
