(* ===== verification/EventHooks.v ===== *)
(** * core/event_hook.go: event hooks and their deliveries

    The tables core.event_hooks and core.event_hook_deliveries with the
    operations of [EventHookManager]; delivery attempts over an HTTP client and
    a database that are parameters, with the outcome of every attempt of its
    own; and the life of the tables as a step relation in which the deliveries
    a dispatch starts run later, on the copy of the hook that was read, while
    the hook may be changed or deleted. *)

From stdpp Require Import sorting.
From S2P Require Import Prelude GoStrings GoTime GoValues TasksModel Dispatcher SqlText Events.
From Stdlib Require Import ZArith Lia Ascii String.
Local Open Scope string_scope.
Local Open Scope Z_scope.

(** ** Rows and inputs *)

Definition EventHookDriverSQL : string := "sql".
Definition EventHookDriverHTTP : string := "http".
Definition defaultHookRetries : Z := 3.
Definition defaultHookTimeoutSeconds : Z := 10.
Definition maxHookTimeoutSeconds : Z := 60.

Record EventHook := MkEventHook {
  eh_ID : N; eh_Name : string; eh_Driver : string;
  eh_SQLFunctionName : option string; eh_HTTPTargetURL : option string;
  eh_HTTPEncryptedSigningSecret : option string;
  eh_EventTypes : list string; eh_IsEnabled : bool;
  eh_MaxRetries : Z; eh_TimeoutSeconds : Z; eh_CreatedAt : Z; eh_LastUpdatedAt : Z }.

Definition SigningSecretConfigured (h : EventHook) : bool :=
  match eh_HTTPEncryptedSigningSecret h with Some s => negb (String.eqb s "") | None => false end.

(** [ed_Payload] are the bytes of the event as they were sent. *)
Record EventHookDelivery := MkEventHookDelivery {
  ed_ID : N; ed_EventHookID : N; ed_EventID : N; ed_EventType : string; ed_Payload : string;
  ed_HTTPResponseStatus : option Z; ed_Result : option string; ed_ErrorMessage : option string;
  ed_AttemptCount : Z; ed_DurationMs : Z; ed_IsDelivered : bool; ed_DeliveredAt : option Z; ed_CreatedAt : Z }.

Record CreateEventHookInput := MkCreateEventHookInput {
  ceh_Name : string; ceh_Driver : string; ceh_SQLFunctionName : option string; ceh_HTTPTargetURL : option string;
  ceh_SigningSecret : string; ceh_EventTypes : list string; ceh_IsEnabled : option bool;
  ceh_MaxRetries : option Z; ceh_TimeoutSeconds : option Z }.

(** [ueh_EventTypes]: [None] is the nil slice, of a body without the field. *)
Record UpdateEventHookInput := MkUpdateEventHookInput {
  ueh_Name : option string; ueh_Driver : option string; ueh_SQLFunctionName : option string;
  ueh_HTTPTargetURL : option string; ueh_SigningSecret : option string; ueh_EventTypes : option (list string);
  ueh_IsEnabled : option bool; ueh_MaxRetries : option Z; ueh_TimeoutSeconds : option Z }.

Record EventHookFilter := MkEventHookFilter { ehf_Driver : option string; ehf_IsEnabled : option bool }.

(** The two tables, and the keys of core.events that deliveries refer to. *)
Record HookDB := MkHookDB {
  hooks : gmap N EventHook; deliveries : gmap N EventHookDelivery; event_ids : gset N }.

Inductive HookError :=
| HookNameRequired | InvalidDriver (driver : string)
| FunctionRequired | InvalidFunctionName (f : string) | URLNotAllowed | SecretNotAllowed
| URLRequired | InvalidTargetURL (e : GoError) | FunctionNotAllowed | EncryptFailed
| PatternsRequired | EmptyPattern | HookFailure
| ErrEventHookNotFound | ErrEventHookDeliveryNotFound.

(** The statements, each of which may fail. *)
Inductive HookStmt :=
| HInsert | HGet | HList | HUpdate | HDelete | HListDeliveries | HGetDelivery | HSelectDelivery
| HSelectEnabled | HUpsertDelivery.

(** ** Validation *)

Definition name_head (c : ascii) : bool :=
  let n := nat_of_ascii c in
  ((97 <=? n) && (n <=? 122) || (65 <=? n) && (n <=? 90) || (n =? 95))%nat.
Definition name_tail (c : ascii) : bool :=
  let n := nat_of_ascii c in (name_head c || (48 <=? n) && (n <=? 57))%nat.
Definition simple_name (s : string) : bool :=
  match s with String c s' => name_head c && all_chars name_tail s' | EmptyString => false end.

(** The pattern [[a-zA-Z_][a-zA-Z0-9_]*] once, or twice with a dot between:
    the letters of a name are no dots. *)
Definition sqlIdentifierPattern (s : string) : bool :=
  match Split s "." with
  | [a] => simple_name a
  | [a; b] => simple_name a && simple_name b
  | _ => false
  end.

Definition validateHookDriver (driver : string) : result HookError unit :=
  if negb (String.eqb driver EventHookDriverSQL) && negb (String.eqb driver EventHookDriverHTTP)
  then Err (InvalidDriver driver) else Ok tt.

Definition validateSQLFunctionName (functionName : string) : result HookError unit :=
  if sqlIdentifierPattern functionName then Ok tt else Err (InvalidFunctionName functionName).

(** Present and not blank. *)
Definition given (p : option string) : bool :=
  match p with Some s => negb (String.eqb (TrimSpace s) "") | None => false end.

Definition clamp_retries (p : option Z) (current : Z) : Z :=
  match p with
  | None => current
  | Some n => if n <? 0 then 0 else if 10 <? n then 10 else n
  end.

Definition clamp_timeout (p : option Z) (current : Z) : Z :=
  match p with
  | None => current
  | Some n => if n <? 1 then 1 else if maxHookTimeoutSeconds <? n then maxHookTimeoutSeconds else n
  end.

(** The zero value of the struct. *)
Definition zero_hook : EventHook :=
  MkEventHook 0 "" "" None None None [] false 0 0 zero_time zero_time.

Section manager.
Context `{Platform} (EncryptField : string → option string) (now : Z) (faults : HookStmt → bool).

Definition validateHookTargetURL (targetURL : string) : result HookError unit :=
  match url_Parse targetURL with
  | None => Err (InvalidTargetURL (wrap_error "invalid webhook target url: " (errorf (url_error targetURL))))
  | Some parsedURL =>
      if negb (String.eqb (Scheme parsedURL) "http") && negb (String.eqb (Scheme parsedURL) "https")
      then Err (InvalidTargetURL (errorf "webhook scheme must be http or https")) else
      let hostname := ToLower (Hostname parsedURL) in
      if String.eqb hostname "" then Err (InvalidTargetURL (errorf "webhook target hostname is required"))
      else if String.eqb hostname "metadata.google.internal" || String.eqb hostname "metadata"
      then Err (InvalidTargetURL (errorf "webhook target to metadata service is prohibited")) else
      match net_ParseIP hostname with
      | Some parsedIP =>
          if IsLinkLocalUnicast parsedIP || IsLinkLocalMulticast parsedIP
          then Err (InvalidTargetURL (errorf "webhook target to link-local address is prohibited"))
          else Ok tt
      | None => Ok tt
      end
  end.

(** The function name, target URL and encrypted secret of a new hook. *)
Definition target_columns (driver : string) (input : CreateEventHookInput)
    : result HookError (option string * option string * option string) :=
  if String.eqb driver EventHookDriverSQL then
    (if negb (given (ceh_SQLFunctionName input)) then Err FunctionRequired else
     let trimmedFunction := TrimSpace (default "" (ceh_SQLFunctionName input)) in
     let! _ := validateSQLFunctionName trimmedFunction in
     if given (ceh_HTTPTargetURL input) then Err URLNotAllowed
     else if negb (String.eqb (ceh_SigningSecret input) "") then Err SecretNotAllowed
     else Ok (Some trimmedFunction, None, None))%go
  else if String.eqb driver EventHookDriverHTTP then
    (if negb (given (ceh_HTTPTargetURL input)) then Err URLRequired else
     let trimmedURL := TrimSpace (default "" (ceh_HTTPTargetURL input)) in
     let! _ := validateHookTargetURL trimmedURL in
     if given (ceh_SQLFunctionName input) then Err FunctionNotAllowed
     else if String.eqb (ceh_SigningSecret input) "" then Ok (None, Some trimmedURL, None)
     else match EncryptField (ceh_SigningSecret input) with
          | Some encrypted => Ok (None, Some trimmedURL, Some encrypted)
          | None => Err EncryptFailed
          end)%go
  else Ok (None, None, None).

Definition check_patterns (eventTypes : list string) : result HookError unit :=
  match eventTypes with
  | [] => Err PatternsRequired
  | _ => if existsb (λ pattern, String.eqb (TrimSpace pattern) "") eventTypes then Err EmptyPattern else Ok tt
  end.

(** [newID] is the [uuid.NewV7] drawn. *)
Definition new_hook (newID : N) (input : CreateEventHookInput) : result HookError EventHook :=
  (let name := TrimSpace (ceh_Name input) in
   if String.eqb name "" then Err HookNameRequired else
   let driver := ToLower (TrimSpace (ceh_Driver input)) in
   let! _ := validateHookDriver driver in
   let! (sqlFunctionName, httpTargetURL, encryptedSecret) := target_columns driver input in
   let! _ := check_patterns (ceh_EventTypes input) in
   Ok (MkEventHook newID name driver sqlFunctionName httpTargetURL encryptedSecret (ceh_EventTypes input)
         (default true (ceh_IsEnabled input)) (clamp_retries (ceh_MaxRetries input) defaultHookRetries)
         (clamp_timeout (ceh_TimeoutSeconds input) defaultHookTimeoutSeconds) now now))%go.

Definition put_hook (h : EventHook) (db : HookDB) : HookDB :=
  MkHookDB (<[eh_ID h := h]> (hooks db)) (deliveries db) (event_ids db).

Definition Create (newID : N) (input : CreateEventHookInput) (db : HookDB)
    : result HookError EventHook * HookDB :=
  match new_hook newID input with
  | Err e => (Err e, db)
  | Ok h => if faults HInsert || bool_decide (is_Some (hooks db !! newID)) then (Err HookFailure, db)
            else (Ok h, put_hook h db)
  end.

Definition Get (eventHookUUID : N) (db : HookDB) : result HookError EventHook :=
  if faults HGet then Err ErrEventHookNotFound else
  match hooks db !! eventHookUUID with Some h => Ok h | None => Err ErrEventHookNotFound end.

Definition newer_hook (a b : EventHook) : Prop := eh_CreatedAt b <= eh_CreatedAt a.
#[export] Instance newer_hook_dec : RelDecision newer_hook.
Proof. intros a b. unfold newer_hook. apply _. Defined.

Definition filter_matches (f : EventHookFilter) (h : EventHook) : bool :=
  match ehf_Driver f with
  | Some d => String.eqb d "" || String.eqb (eh_Driver h) (ToLower (TrimSpace d))
  | None => true
  end
  && match ehf_IsEnabled f with Some b => Bool.eqb (eh_IsEnabled h) b | None => true end.

Definition List_ (f : EventHookFilter) (db : HookDB) : result HookError (list EventHook) :=
  if faults HList then Err HookFailure
  else Ok (merge_sort newer_hook (base.filter (λ h, filter_matches f h = true) (map_to_list (hooks db)).*2)).

(** A column that may be set, cleared by a blank, or left. *)
Definition override_column (check : string → result HookError unit) (p current : option string)
    : result HookError (option string) :=
  match p with
  | None => Ok current
  | Some s =>
      let trimmed := TrimSpace s in
      if String.eqb trimmed "" then Ok None else (let! _ := check trimmed in Ok (Some trimmed))%go
  end.

Definition override_secret (p current : option string) : result HookError (option string) :=
  match p with
  | None => Ok current
  | Some s =>
      let secretText := TrimSpace s in
      if String.eqb secretText "" then Ok None
      else match EncryptField secretText with Some encrypted => Ok (Some encrypted) | None => Err EncryptFailed end
  end.

Definition empty_column (p : option string) : bool :=
  match p with Some s => String.eqb s "" | None => true end.

(** The driver decides which columns stay. *)
Definition consistent_columns (driver : string) (sqlFunctionName httpTargetURL encryptedSecret : option string)
    : result HookError (option string * option string * option string) :=
  if String.eqb driver EventHookDriverSQL then
    if empty_column sqlFunctionName then Err FunctionRequired else Ok (sqlFunctionName, None, None)
  else if String.eqb driver EventHookDriverHTTP then
    if empty_column httpTargetURL then Err URLRequired else Ok (None, httpTargetURL, encryptedSecret)
  else Ok (sqlFunctionName, httpTargetURL, encryptedSecret).

(** The values [Update] writes, from the hook it read. *)
Definition changed_hook (input : UpdateEventHookInput) (current : EventHook) : result HookError EventHook :=
  (let! name := match ueh_Name input with
                | None => Ok (eh_Name current)
                | Some n => if String.eqb (TrimSpace n) "" then Err HookNameRequired else Ok (TrimSpace n)
                end in
   let! driver := match ueh_Driver input with
                  | None => Ok (eh_Driver current)
                  | Some d => let! _ := validateHookDriver (ToLower (TrimSpace d)) in Ok (ToLower (TrimSpace d))
                  end in
   let! sqlFunctionName := override_column validateSQLFunctionName (ueh_SQLFunctionName input) (eh_SQLFunctionName current) in
   let! httpTargetURL := override_column validateHookTargetURL (ueh_HTTPTargetURL input) (eh_HTTPTargetURL current) in
   let! encryptedSecret := override_secret (ueh_SigningSecret input) (eh_HTTPEncryptedSigningSecret current) in
   let! (sqlFunctionName, httpTargetURL, encryptedSecret) :=
     consistent_columns driver sqlFunctionName httpTargetURL encryptedSecret in
   Ok (MkEventHook (eh_ID current) name driver sqlFunctionName httpTargetURL encryptedSecret
         (default (eh_EventTypes current) (ueh_EventTypes input))
         (default (eh_IsEnabled current) (ueh_IsEnabled input))
         (clamp_retries (ueh_MaxRetries input) (eh_MaxRetries current))
         (clamp_timeout (ueh_TimeoutSeconds input) (eh_TimeoutSeconds current))
         (eh_CreatedAt current) now))%go.

(** The error of the [UPDATE] is discarded and leaves the zero hook. *)
Definition Update (eventHookUUID : N) (input : UpdateEventHookInput) (db : HookDB)
    : result HookError EventHook * HookDB :=
  match Get eventHookUUID db with
  | Err e => (Err e, db)
  | Ok current =>
      match changed_hook input current with
      | Err e => (Err e, db)
      | Ok h => if faults HUpdate then (Ok zero_hook, db) else (Ok h, put_hook h db)
      end
  end.

(** The deliveries of a hook go with it: [ON DELETE CASCADE]. *)
Definition drop_hook (eventHookUUID : N) (db : HookDB) : HookDB :=
  MkHookDB (base.delete eventHookUUID (hooks db))
    (base.filter (λ kv, ed_EventHookID kv.2 ≠ eventHookUUID) (deliveries db)) (event_ids db).

Definition Delete (eventHookUUID : N) (db : HookDB) : result HookError unit * HookDB :=
  if faults HDelete then (Err HookFailure, db) else
  match hooks db !! eventHookUUID with
  | None => (Err ErrEventHookNotFound, db)
  | Some _ => (Ok tt, drop_hook eventHookUUID db)
  end.

Definition newer_delivery (a b : EventHookDelivery) : Prop := ed_CreatedAt b <= ed_CreatedAt a.
#[export] Instance newer_delivery_dec : RelDecision newer_delivery.
Proof. intros a b. unfold newer_delivery. apply _. Defined.

Definition ListDeliveries (eventHookUUID : N) (db : HookDB) : result HookError (list EventHookDelivery) :=
  if faults HListDeliveries then Err HookFailure
  else Ok (take 100 (merge_sort newer_delivery
         (base.filter (λ d, ed_EventHookID d = eventHookUUID) (map_to_list (deliveries db)).*2))).

Definition GetDelivery (eventHookUUID deliveryUUID : N) (db : HookDB) : result HookError EventHookDelivery :=
  if faults HGetDelivery then Err ErrEventHookDeliveryNotFound else
  match deliveries db !! deliveryUUID with
  | Some d => if N.eqb (ed_EventHookID d) eventHookUUID then Ok d else Err ErrEventHookDeliveryNotFound
  | None => Err ErrEventHookDeliveryNotFound
  end.

(** The hooks a delivery is started for, in the order of the rows. *)
Definition hook_matches (eventType : string) (h : EventHook) : bool :=
  existsb (λ pattern, MatchEventPattern pattern eventType) (eh_EventTypes h).

Definition Dispatch `{FL : Floats} (event : Event) (db : HookDB) : list EventHook :=
  if faults HSelectEnabled then []
  else List.filter (hook_matches (ev_Type event))
         (List.filter eh_IsEnabled (map_to_list (hooks db)).*2).
End manager.

(** ** Deliveries *)

(** What the call of a hook's function answers: the query fails, reading its
    rows fails, or the text of the first value ([None]: no row, NULL, or a
    value that cannot be scanned). *)
Inductive SQLRows := QueryFailed (e : GoError) | RowsFailed (e : GoError) | Rows (first : option string).

(** One delivery sees its own outcomes: of the HTTP request and of the
    function call at each attempt, of the wait after it (false when the context
    is cancelled), the clock at each attempt and at the end. *)
Record DeliveryEnv := MkDeliveryEnv {
  de_http : Z → HTTPRequest → HTTPOutcome;
  de_sql : Z → string → string → Z → SQLRows;
  de_sleep : Z → bool; de_clock : Z → Z; de_duration : Z; de_end : Z }.

Definition CalculateHookBackoff (attempt : Z) : Z := wrap64 (wrap64 (Z.shiftl 1 attempt) * (100 * Millisecond)).

(** [isTransientDatabaseError] looks at the text only. *)
Definition transient_error (e : GoError) : bool :=
  let errMsg := ToLower (err_text e) in
  existsb (Contains errMsg)
    ["40001"; "40p01"; "57014"; "deadlock"; "serialization failure"; "connection reset";
     "broken pipe"; "connection refused"; "server closed the connection"].

Definition hook_statement (functionName : string) : string := "SELECT * FROM " ++ functionName ++ "($1::jsonb)".

(** The last outcome the loop keeps. *)
Record Progress := MkProgress {
  pr_Status : option Z; pr_Result : option string; pr_Error : option string;
  pr_IsDelivered : bool; pr_DeliveredAt : option Z }.

Section delivery.
Context `{Platform} `{FL : Floats} (DecryptField : string → option string)
  (json_event : Event → string) (unmarshal_event : string → option Event).

Definition ComputeHookSignature (secret timestamp payload : string) : string :=
  hmac_sha256_hex secret (timestamp ++ "." ++ payload).

Section one.
Context (env : DeliveryEnv) (hook : EventHook) (event : Event) (deliveryID : N) (timeoutSeconds : Z).

(** Result text and error. *)
Definition executeSQLAttempt (attempt : Z) : option string * option GoError :=
  if empty_column (eh_SQLFunctionName hook) then (None, Some (errorf "sql_function_name is missing")) else
  match de_sql env attempt (hook_statement (default "" (eh_SQLFunctionName hook))) (json_event event) timeoutSeconds with
  | QueryFailed e | RowsFailed e => (None, Some e)
  | Rows first => (Some (default "" first), None)
  end.

Definition signing_secret : string :=
  match eh_HTTPEncryptedSigningSecret hook with
  | Some s => if String.eqb s "" then "" else default "" (DecryptField s)
  | None => ""
  end.

Definition hook_headers (bodyBytes : string) : gmap string string :=
  let timestamp := decimal (Unix (default zero_time (ev_CreatedAt event))) in
  let h := set_header ∅ "Content-Type" "application/json" in
  let h := set_header h "User-Agent" "Layr-Event-Hook/1.0" in
  let h := set_header h "Webhook-Signature" (ComputeHookSignature signing_secret timestamp bodyBytes) in
  let h := set_header h "Webhook-Timestamp" timestamp in
  let h := set_header h "Webhook-Event" (ev_Type event) in
  set_header h "Webhook-Delivery-ID" (uuid_String deliveryID).

(** Status, body, whether the failure is permanent, error. *)
Definition executeHTTPAttempt (attempt : Z) : option Z * option string * bool * option GoError :=
  if empty_column (eh_HTTPTargetURL hook) then (None, None, true, Some (errorf "http_target_url is missing")) else
  let url := default "" (eh_HTTPTargetURL hook) in
  match url_Parse url with
  | None => (None, None, true, Some (wrap_error "failed to create http request: " (errorf (url_error url))))
  | Some _ =>
      match de_http env attempt (MkHTTPRequest url (hook_headers (json_event event)) (json_event event) timeoutSeconds) with
      | HTTPFailed e => (None, None, false, Some (wrap_error "failed to execute http request: " e))
      | HTTPResponded statusCode body =>
          (Some statusCode, Some (String.substring 0 maxLoggedResponseBodyBytes body), is_client_error statusCode, None)
      end
  end.

Definition ok_status (status : option Z) : bool :=
  match status with Some s => (200 <=? s) && (s <? 300) | None => false end.

(** One round of the loop: what is known after it, and whether another round
    may follow. *)
Definition attempt_delivery (attempt : Z) (p : Progress) : Progress * bool :=
  if String.eqb (eh_Driver hook) EventHookDriverSQL then
    let '(resultText, err) := executeSQLAttempt attempt in
    match err with
    | None => (MkProgress None resultText None true (Some (de_clock env attempt)), false)
    | Some e => (MkProgress None resultText (Some (err_text e)) (pr_IsDelivered p) (pr_DeliveredAt p),
                 transient_error e && de_sleep env attempt)
    end
  else if String.eqb (eh_Driver hook) EventHookDriverHTTP then
    let '(status, responseText, isClientError, err) := executeHTTPAttempt attempt in
    if bool_decide (err = None) && ok_status status
    then (MkProgress status responseText None true (Some (de_clock env attempt)), false)
    else
      let lastErr := match err, status with
                     | Some e, _ => Some (err_text e)
                     | None, Some s => Some ("HTTP error status " ++ decimal s)
                     | None, None => pr_Error p
                     end in
      (MkProgress status responseText lastErr (pr_IsDelivered p) (pr_DeliveredAt p),
       negb isClientError && de_sleep env attempt)
  else (p, true).

(** [n] rounds are left. *)
Fixpoint delivery_loop (n : nat) (attempt : Z) (p : Progress) : Z * Progress :=
  match n with
  | O => (attempt, p)
  | S n =>
      let attempt := attempt + 1 in
      let '(p, again) := attempt_delivery attempt p in
      if again then delivery_loop n attempt p else (attempt, p)
  end.
End one.

Definition attempts_allowed (hook : EventHook) : Z :=
  if eh_MaxRetries hook <=? 0 then defaultHookRetries else eh_MaxRetries hook.
Definition timeout_allowed (hook : EventHook) : Z :=
  if eh_TimeoutSeconds hook <=? 0 then defaultHookTimeoutSeconds else eh_TimeoutSeconds hook.

(** The outcome columns of a row that exists are replaced; a new row needs its
    hook and its event. *)
Definition upsert_delivery (d : EventHookDelivery) (db : HookDB) : HookDB :=
  match deliveries db !! ed_ID d with
  | Some old =>
      let row := MkEventHookDelivery (ed_ID old) (ed_EventHookID old) (ed_EventID old) (ed_EventType old)
                   (ed_Payload old) (ed_HTTPResponseStatus d) (ed_Result d) (ed_ErrorMessage d) (ed_AttemptCount d)
                   (ed_DurationMs d) (ed_IsDelivered d) (ed_DeliveredAt d) (ed_CreatedAt old) in
      MkHookDB (hooks db) (<[ed_ID d := row]> (deliveries db)) (event_ids db)
  | None =>
      if bool_decide (is_Some (hooks db !! ed_EventHookID d)) && bool_decide (ed_EventID d ∈ event_ids db)
      then MkHookDB (hooks db) (<[ed_ID d := d]> (deliveries db)) (event_ids db) else db
  end.

Definition no_progress : Progress := MkProgress None None None false None.

(** The delivery, and the text of the error when it did not arrive. *)
Definition DeliverWithID (faults : HookStmt → bool) (env : DeliveryEnv) (hook : EventHook) (event : Event)
    (deliveryID : N) (db : HookDB) : EventHookDelivery * option string * HookDB :=
  let '(attempt, p) := delivery_loop env hook event deliveryID (timeout_allowed hook)
                         (Z.to_nat (attempts_allowed hook)) 0 no_progress in
  let d := MkEventHookDelivery deliveryID (eh_ID hook) (ev_ID event) (ev_Type event) (json_event event)
             (pr_Status p) (pr_Result p) (pr_Error p) attempt (de_duration env)
             (pr_IsDelivered p) (pr_DeliveredAt p) (de_end env) in
  (d,
   if pr_IsDelivered p then None
   else Some match pr_Error p with
             | Some e => "hook delivery failed: " ++ e
             | None => "hook delivery failed"
             end,
   if faults HUpsertDelivery then db else upsert_delivery d db).

(** The event an old delivery carried; without one, its type and key. *)
Definition event_of (d : EventHookDelivery) : Event :=
  let bare := MkEvent (ed_EventID d) (ed_EventType d) no_actor no_context "" "" None None None None in
  match unmarshal_event (ed_Payload d) with
  | Some e => if N.eqb (ev_ID e) 0 then bare else e
  | None => bare
  end.

Definition RetryDelivery (faults : HookStmt → bool) (env : DeliveryEnv) (deliveryUUID : N) (db : HookDB)
    : result HookError (EventHookDelivery * option string) * HookDB :=
  match (if faults HSelectDelivery then None else deliveries db !! deliveryUUID) with
  | None => (Err ErrEventHookDeliveryNotFound, db)
  | Some old =>
      match Get faults (ed_EventHookID old) db with
      | Err e => (Err e, db)
      | Ok hook =>
          let '(d, err, db) := DeliverWithID faults env hook (event_of old) deliveryUUID db in
          (Ok (d, err), db)
      end
  end.
End delivery.

(** ** What a delivery does *)

(** How an attempt ends: the event arrived, or it did not and another attempt
    would not help, or it may be tried later. *)
Inductive Verdict := Arrived | Refused | Later.

Section outcome.
Context `{Platform} `{FL : Floats} (DecryptField : string → option string)
  (json_event : Event → string) (unmarshal_event : string → option Event).

(** By what the database answered to the call of the hook's function, or the
    other server to the request: an answer, an error whose text names a failed
    serialization, a deadlock, a cancelled statement or a lost connection, or
    another one; a status of 2xx, of 4xx but 429, or another one, or none. *)
Definition attempt_verdict (env : DeliveryEnv) (hook : EventHook) (event : Event) (deliveryID : N) (attempt : Z) : Verdict :=
  if bool_decide (eh_Driver hook = "sql") then
    match eh_SQLFunctionName hook with
    | None | Some EmptyString => Refused
    | Some name =>
        match de_sql env attempt ("SELECT * FROM " ++ name ++ "($1::jsonb)") (json_event event) (timeout_allowed hook) with
        | Rows _ => Arrived
        | QueryFailed e | RowsFailed e =>
            if existsb (Contains (ToLower (err_text e)))
                 ["40001"; "40p01"; "57014"; "deadlock"; "serialization failure"; "connection reset"; "broken pipe";
                  "connection refused"; "server closed the connection"] then Later else Refused
        end
    end
  else
    match eh_HTTPTargetURL hook with
    | None | Some EmptyString => Refused
    | Some url =>
        match url_Parse url with
        | None => Refused
        | Some _ =>
            match de_http env attempt (MkHTTPRequest url (hook_headers DecryptField hook event deliveryID (json_event event))
                                         (json_event event) (timeout_allowed hook)) with
            | HTTPFailed _ => Later
            | HTTPResponded status _ =>
                if (200 <=? status) && (status <=? 299) then Arrived
                else if (400 <=? status) && (status <=? 499) && negb (status =? 429) then Refused else Later
            end
        end
    end.

Definition known_driver (hook : EventHook) : Prop :=
  eh_Driver hook = EventHookDriverSQL ∨ eh_Driver hook = EventHookDriverHTTP.

(** The columns of an outcome agree with the verdict of attempt [k]. *)
Definition outcome_ok (env : DeliveryEnv) (v : Verdict) (k : Z) (p : Progress) : Prop :=
  match v with
  | Arrived => pr_IsDelivered p = true ∧ pr_DeliveredAt p = Some (de_clock env k) ∧ pr_Error p = None
  | _ => pr_IsDelivered p = false ∧ pr_DeliveredAt p = None ∧ pr_Error p ≠ None
  end.

Context (env : DeliveryEnv) (hook : EventHook) (event : Event) (deliveryID : N).
Local Notation verdict := (attempt_verdict env hook event deliveryID).
Local Notation attempt_ := (attempt_delivery DecryptField json_event env hook event deliveryID (timeout_allowed hook)).
Local Notation loop := (delivery_loop DecryptField json_event env hook event deliveryID (timeout_allowed hook)).

Lemma attempt_delivery_verdict k p p' again : known_driver hook →
  pr_IsDelivered p = false → pr_DeliveredAt p = None → attempt_ k p = (p', again) →
  outcome_ok env (verdict k) k p' ∧ again = match verdict k with Later => de_sleep env k | _ => false end.
Proof.
  intros Hd Hp Ht. unfold attempt_delivery, attempt_verdict. destruct Hd as [-> | ->].
  - change (String.eqb EventHookDriverSQL EventHookDriverSQL) with true. change (bool_decide (EventHookDriverSQL = "sql")) with true. cbv iota.
    unfold executeSQLAttempt, hook_statement. destruct (eh_SQLFunctionName hook) as [[|c f]|]; cbn [empty_column String.eqb default from_option id].
    1, 3: intros [= <- <-]; by rewrite Hp, Ht.
    destruct (de_sql _ _ _ _ _) as [e|e|first]; cbn [snd]; intros [= <- <-]; [| |done]; rewrite Hp, Ht; unfold transient_error; by destruct (existsb _ _).
  - change (String.eqb EventHookDriverHTTP EventHookDriverSQL) with false. change (bool_decide (EventHookDriverHTTP = "sql")) with false.
    change (String.eqb EventHookDriverHTTP EventHookDriverHTTP) with true. cbv iota.
    unfold executeHTTPAttempt. destruct (eh_HTTPTargetURL hook) as [[|c u]|]; cbn [empty_column String.eqb default from_option id].
    1, 3: intros [= <- <-]; by rewrite Hp, Ht.
    destruct (url_Parse _); [|intros [= <- <-]; by rewrite Hp, Ht].
    destruct (de_http _ _ _) as [e|status body]; [intros [= <- <-]; by rewrite Hp, Ht|]. rewrite bool_decide_eq_true_2 by done. cbn [andb].
    unfold ok_status. replace (status <? 300) with (status <=? 299) by (destruct (Z.leb_spec status 299), (Z.ltb_spec status 300); lia).
    replace ((400 <=? status) && (status <=? 499) && negb (status =? 429)) with (is_client_error status)
      by (unfold is_client_error; destruct (Z.leb_spec status 499), (Z.ltb_spec status 500); lia || done).
    destruct (_ && _); [by intros [= <- <-]|]. intros [= <- <-]. rewrite Hp, Ht. by destruct (is_client_error status).
Qed.

Lemma delivery_loop_spec n a p k q : known_driver hook → (0 < n)%nat →
  pr_IsDelivered p = false → pr_DeliveredAt p = None → loop n a p = (k, q) →
  a < k <= a + Z.of_nat n ∧ (∀ j, a < j < k → verdict j = Later ∧ de_sleep env j = true)
  ∧ outcome_ok env (verdict k) k q
  ∧ (verdict k = Later → de_sleep env k = true → k = a + Z.of_nat n).
Proof.
  intros Hd. revert a p. induction n as [|n IH]; [lia|]. intros a p _ Hp Ht. cbn [delivery_loop].
  destruct (attempt_ (a + 1) p) as [p' again] eqn:E. apply attempt_delivery_verdict in E as [Hok ->]; try done.
  destruct (verdict (a + 1)) eqn:Ev.
  1,2: intros [= <- <-]; rewrite Ev; split_and!; try done; try lia; intros j ?; lia.
  destruct (de_sleep env (a + 1)) eqn:Es.
  - destruct n as [|n].
    + cbn [delivery_loop]. intros [= <- <-]. rewrite Ev. split_and!; try done; lia.
    + destruct Hok as (Hp' & Ht' & _). intros Hl. destruct (IH (a + 1) p') as (Hk & Hj & Ho & Hlast); try done; [lia|].
      split_and!; try done; try lia.
      * intros j Hj'. destruct (decide (j = a + 1)) as [->|]; [done|]. apply Hj. lia.
      * intros Hv Hs. specialize (Hlast Hv Hs). lia.
  - intros [= <- <-]. rewrite Ev. split_and!; try done; try lia. congruence.
Qed.

Lemma attempts_allowed_pos : 0 < attempts_allowed hook.
Proof. unfold attempts_allowed, defaultHookRetries. destruct (Z.leb_spec (eh_MaxRetries hook) 0); lia. Qed.
End outcome.

(** The columns that tell how a delivery went. *)
Definition same_outcome (a b : EventHookDelivery) : Prop :=
  ed_HTTPResponseStatus a = ed_HTTPResponseStatus b ∧ ed_Result a = ed_Result b ∧ ed_ErrorMessage a = ed_ErrorMessage b
  ∧ ed_AttemptCount a = ed_AttemptCount b ∧ ed_IsDelivered a = ed_IsDelivered b ∧ ed_DeliveredAt a = ed_DeliveredAt b.

Lemma upsert_recorded d db :
  is_Some (deliveries db !! ed_ID d) ∨ (is_Some (hooks db !! ed_EventHookID d) ∧ ed_EventID d ∈ event_ids db) →
  ∃ row, deliveries (upsert_delivery d db) !! ed_ID d = Some row ∧ same_outcome row d.
Proof.
  unfold upsert_delivery. intros Hrow. destruct (deliveries db !! ed_ID d) as [old|] eqn:E.
  - cbn [deliveries]. rewrite lookup_insert_eq. by eexists.
  - destruct Hrow as [[? [=]]|[Hh He]]. rewrite !bool_decide_eq_true_2 by done. cbn [andb deliveries].
    rewrite lookup_insert_eq. by eexists.
Qed.

(** C32: A delivery of a hook with a known driver makes at least one attempt and at
    most as many as the hook allows (three when it allows none). It makes
    another one exactly while the last one failed in a way that may pass (no
    answer of the other server, the status 429 or one that is neither 2xx
    nor 4xx; a database error that names a serialization failure, a
    deadlock, a cancelled statement or a lost connection) and the wait was
    not cancelled; it is reported, without an error, as delivered exactly
    when the last attempt arrived (a status of 2xx; an answer of the
    function); and when the statement does not fail and the row, or its hook
    and event, exist, the table tells this outcome. *)
Theorem hook_delivery_outcome `{Platform} `{FL : Floats} DecryptField json_event faults env hook event deliveryID db d err db' :
  known_driver hook →
  DeliverWithID DecryptField json_event faults env hook event deliveryID db = (d, err, db') →
  let verdict := attempt_verdict DecryptField json_event env hook event deliveryID in
  let k := ed_AttemptCount d in
  1 <= k <= (if eh_MaxRetries hook <=? 0 then 3 else eh_MaxRetries hook)
  ∧ (∀ j, 1 <= j < k → verdict j = Later ∧ de_sleep env j = true)
  ∧ (verdict k = Later → k = (if eh_MaxRetries hook <=? 0 then 3 else eh_MaxRetries hook) ∨ de_sleep env k = false)
  ∧ (ed_IsDelivered d = true ↔ verdict k = Arrived) ∧ (err = None ↔ verdict k = Arrived)
  ∧ ed_DeliveredAt d = match verdict k with Arrived => Some (de_clock env k) | _ => None end
  ∧ (faults HUpsertDelivery = false →
     is_Some (deliveries db !! deliveryID) ∨ (is_Some (hooks db !! eh_ID hook) ∧ ev_ID event ∈ event_ids db) →
     ∃ row, deliveries db' !! deliveryID = Some row ∧ same_outcome row d).
Proof.
  intros Hd. change (if eh_MaxRetries hook <=? 0 then 3 else eh_MaxRetries hook) with (attempts_allowed hook). unfold DeliverWithID. pose proof (attempts_allowed_pos hook) as Hpos.
  destruct (delivery_loop _ _ _ _ _ _ _ _ _ _) as [k p] eqn:E.
  apply delivery_loop_spec in E as (Hk & Hj & Ho & Hlast); try done; [|lia]. rewrite Z2Nat.id in Hk, Hlast by lia.
  intros [= <- <- <-]. cbn [ed_AttemptCount ed_IsDelivered ed_DeliveredAt ed_ID ed_EventHookID ed_EventID].
  split_and!; try lia.
  - intros j ?. apply Hj. lia.
  - intros Hv. destruct (de_sleep env k) eqn:Es; [|by right]. left. by apply Hlast.
  - destruct (attempt_verdict _ _ _ _ _ _ _) eqn:Ev; destruct Ho as (-> & _ & _); done.
  - destruct (attempt_verdict _ _ _ _ _ _ _) eqn:Ev; destruct Ho as (-> & _ & _); done.
  - destruct (attempt_verdict _ _ _ _ _ _ _) eqn:Ev; by destruct Ho as (_ & -> & _).
  - intros -> Hrow. by apply (upsert_recorded (MkEventHookDelivery _ _ _ _ _ _ _ _ _ _ _ _ _)).
Qed.

(** ** The tables over time *)

(** A hook has a name, bounds within their ranges, and exactly the columns of
    its driver. *)
Definition hook_ok `{Platform} (h : EventHook) : Prop :=
  eh_Name h ≠ "" ∧ 0 <= eh_MaxRetries h <= 10 ∧ 1 <= eh_TimeoutSeconds h <= 60
  ∧ ((eh_Driver h = EventHookDriverSQL ∧ eh_HTTPTargetURL h = None ∧ eh_HTTPEncryptedSigningSecret h = None
      ∧ ∃ f, eh_SQLFunctionName h = Some f ∧ sqlIdentifierPattern f = true)
     ∨ (eh_Driver h = EventHookDriverHTTP ∧ eh_SQLFunctionName h = None
        ∧ ∃ u, eh_HTTPTargetURL h = Some u ∧ validateHookTargetURL u = Ok tt)).

Lemma clamp_retries_range p c : 0 <= c <= 10 → 0 <= clamp_retries p c <= 10.
Proof. destruct p as [n|]; cbn [clamp_retries]; [|done]. destruct (Z.ltb_spec n 0), (Z.ltb_spec 10 n); lia. Qed.

Lemma clamp_timeout_range p c : 1 <= c <= 60 → 1 <= clamp_timeout p c <= 60.
Proof.
  unfold clamp_timeout, maxHookTimeoutSeconds. destruct p as [n|]; [|done].
  destruct (Z.ltb_spec n 1), (Z.ltb_spec 60 n); lia.
Qed.

Section wf.
Context `{Platform} (EncryptField : string → option string).

Lemma new_hook_ok now newID input h : new_hook EncryptField now newID input = Ok h → hook_ok h ∧ eh_ID h = newID.
Proof.
  unfold new_hook. destruct (String.eqb_spec (TrimSpace (ceh_Name input)) ""); [done|].
  set (driver := ToLower _). unfold validateHookDriver, target_columns.
  destruct (String.eqb_spec driver EventHookDriverSQL) as [Hs|Hs]; [|destruct (String.eqb_spec driver EventHookDriverHTTP) as [Hh|]]; cbn [negb andb]; try done.
  - destruct (given (ceh_SQLFunctionName input)); [|done]. cbn [negb]. unfold validateSQLFunctionName.
    destruct (sqlIdentifierPattern _) eqn:Ef; [|done]. destruct (given (ceh_HTTPTargetURL input)); [done|].
    destruct (negb _); [done|]. cbn. destruct (check_patterns _); [|done]. intros [= <-]. unfold hook_ok. cbn.
    split_and!; try done; try (by apply clamp_retries_range); try (by apply clamp_timeout_range). left. by eauto 10.
  - destruct (given (ceh_HTTPTargetURL input)); [|done]. cbn [negb].
    destruct (validateHookTargetURL _) as [[]|] eqn:Eu; [|done]. destruct (given (ceh_SQLFunctionName input)); [done|].
    destruct (String.eqb_spec (ceh_SigningSecret input) ""); [|destruct (EncryptField _); [|done]];
      cbn; (destruct (check_patterns _); [|done]); intros [= <-]; unfold hook_ok; cbn;
      split_and!; try done; try (by apply clamp_retries_range); try (by apply clamp_timeout_range); right; eauto 10.
Qed.

(** A column [Update] leaves passes its check when the one before did. *)
Lemma override_column_ok check p current r : (∀ s, current = Some s → check s = Ok tt) →
  override_column check p current = Ok r → ∀ s, r = Some s → check s = Ok tt.
Proof.
  intros Hc. destruct p as [s|]; cbn [override_column]; [|intros [= <-]; exact Hc].
  destruct (String.eqb _ _); [intros [= <-]; done|]. destruct (check (TrimSpace s)) as [[]|] eqn:E; [|done].
  intros [= <-] ? [= <-]. done.
Qed.

Lemma hook_columns_checked h : hook_ok h →
  (∀ s, eh_SQLFunctionName h = Some s → validateSQLFunctionName s = Ok tt)
  ∧ (∀ s, eh_HTTPTargetURL h = Some s → validateHookTargetURL s = Ok tt).
Proof.
  intros (_ & _ & _ & [(_ & Hu & _ & f & Hf & Hp)|(_ & Hf & u & Hu & Hp)]); rewrite Hf, Hu; split;
    intros s [= <-]; try done. unfold validateSQLFunctionName. by rewrite Hp.
Qed.

Lemma changed_driver p current driver : current = EventHookDriverSQL ∨ current = EventHookDriverHTTP →
  match p with
  | None => Ok current
  | Some d => (let! _ := validateHookDriver (ToLower (TrimSpace d)) in Ok (ToLower (TrimSpace d)))%go
  end = Ok driver → driver = EventHookDriverSQL ∨ driver = EventHookDriverHTTP.
Proof.
  intros Hc. destruct p as [d|]; [|by intros [= <-]]. unfold validateHookDriver. set (dd := ToLower _).
  destruct (String.eqb_spec dd EventHookDriverSQL), (String.eqb_spec dd EventHookDriverHTTP); try done;
    intros [= <-]; auto.
Qed.

(** Checked columns that the driver keeps make a hook well formed. *)
Lemma consistent_columns_ok name driver f u sec f' u' sec' h :
  name ≠ "" → driver = EventHookDriverSQL ∨ driver = EventHookDriverHTTP →
  (∀ s, f = Some s → validateSQLFunctionName s = Ok tt) → (∀ s, u = Some s → validateHookTargetURL s = Ok tt) →
  consistent_columns driver f u sec = Ok (f', u', sec') →
  eh_Name h = name → eh_Driver h = driver → eh_SQLFunctionName h = f' → eh_HTTPTargetURL h = u' →
  eh_HTTPEncryptedSigningSecret h = sec' → 0 <= eh_MaxRetries h <= 10 → 1 <= eh_TimeoutSeconds h <= 60 → hook_ok h.
Proof.
  intros Hn Hd Hf Hu Hc En Ed Ef Eu Es Hr Ht. unfold hook_ok. rewrite En, Ed, Ef, Eu, Es. split_and!; try lia; try done.
  unfold consistent_columns in Hc. destruct Hd as [-> | ->].
  - left. change (String.eqb EventHookDriverSQL EventHookDriverSQL) with true in Hc. cbv iota in Hc.
    destruct f as [f|]; cbn [empty_column] in Hc; [|done]. destruct (String.eqb f ""); [done|]. injection Hc as <- <- <-.
    split_and!; try done. exists f. split; [done|]. specialize (Hf f eq_refl). unfold validateSQLFunctionName in Hf.
    by destruct (sqlIdentifierPattern f).
  - right. change (String.eqb EventHookDriverHTTP EventHookDriverSQL) with false in Hc.
    change (String.eqb EventHookDriverHTTP EventHookDriverHTTP) with true in Hc. cbv iota in Hc.
    destruct u as [u|]; cbn [empty_column] in Hc; [|done]. destruct (String.eqb u ""); [done|]. injection Hc as <- <- <-.
    split_and!; try done. exists u. split; [done|]. by apply Hu.
Qed.

Lemma changed_hook_ok now input current h : hook_ok current → changed_hook EncryptField now input current = Ok h →
  hook_ok h ∧ eh_ID h = eh_ID current.
Proof.
  intros Hok. destruct (hook_columns_checked _ Hok) as [Hf0 Hu0]. destruct Hok as (Hn & Hr & Ht & Hd). unfold changed_hook.
  destruct (match ueh_Name input with None => _ | _ => _ end) as [name|] eqn:En; [|done].
  assert (Hname : name ≠ "").
  { destruct (ueh_Name input) as [n|]; [|by injection En as <-].
    destruct (String.eqb_spec (TrimSpace n) ""); [done|]. by injection En as <-. }
  destruct (match ueh_Driver input with None => _ | _ => _ end) as [driver|] eqn:Ed; [|done].
  apply changed_driver in Ed; [|destruct Hd as [[-> _]|[-> _]]; auto].
  destruct (override_column validateSQLFunctionName _ _) as [f|] eqn:Ef; [|done].
  destruct (override_column validateHookTargetURL _ _) as [u|] eqn:Eu; [|done].
  destruct (override_secret _ _ _) as [sec|]; [|done]. cbn [result_bind].
  destruct (consistent_columns driver f u sec) as [[[f' u'] sec']|] eqn:Ec; [|done]. intros [= <-]. split; [|done].
  eapply (consistent_columns_ok name driver f u sec f' u' sec'); try done.
  - by eapply override_column_ok, Ef.
  - by eapply override_column_ok, Eu.
  - by apply clamp_retries_range.
  - by apply clamp_timeout_range.
Qed.
End wf.

(** The call of a function whose name passed the check has one placeholder
    and nothing that opens a quote or ends the statement. *)
Lemma name_tail_inert c : name_tail c = true → inert c = true.
Proof. destruct c as [[] [] [] [] [] [] [] []]; vm_compute; done. Qed.
Lemma name_head_tail c : name_head c = true → name_tail c = true.
Proof. unfold name_tail. by intros ->. Qed.

Lemma simple_name_inert s : simple_name s = true → all_chars inert s = true.
Proof.
  destruct s as [|c s]; [done|]. cbn [simple_name all_chars]. intros [Hc Hs]%andb_true_iff. apply andb_true_iff. split.
  - by apply name_tail_inert, name_head_tail.
  - eapply all_chars_impl; [|exact Hs]. apply name_tail_inert.
Qed.

Lemma sqlIdentifierPattern_inert s : sqlIdentifierPattern s = true → all_chars inert s = true.
Proof.
  unfold sqlIdentifierPattern. intros Hm. rewrite <- (Join_Split s ".").
  destruct (Split s ".") as [|a [|b [|c l]]]; try done.
  - by apply simple_name_inert.
  - apply andb_true_iff in Hm as [Ha Hb]. change (Join [a; b] (String "." "")) with (a ++ String "." b).
    rewrite all_chars_app. cbn [all_chars]. by rewrite !simple_name_inert.
Qed.

Lemma hook_statement_ok f : sqlIdentifierPattern f = true → placeholders (hook_statement f) = Some [1].
Proof.
  intros Hf. unfold hook_statement. apply (emits_after_inert "SELECT * FROM "); [done|].
  apply emits_after_inert; [by apply sqlIdentifierPattern_inert|]. done.
Qed.

Section life.
Context `{Platform} `{FL : Floats} (EncryptField DecryptField : string → option string)
  (json_event : Event → string) (unmarshal_event : string → option Event).

(** The tables, and the deliveries that were started and did not finish, each
    with the hook as it was read. *)
Record HookState := MkHookState { hs_db : HookDB; hs_started : list (EventHook * Event) }.

Definition record_event (id : N) (db : HookDB) : HookDB := MkHookDB (hooks db) (deliveries db) ({[id]} ∪ event_ids db).

Inductive hook_step : HookState → HookState → Prop :=
| step_create now faults newID input db started :
    hook_step (MkHookState db started) (MkHookState (Create EncryptField now faults newID input db).2 started)
| step_update now faults id input db started :
    hook_step (MkHookState db started) (MkHookState (Update EncryptField now faults id input db).2 started)
| step_delete faults id db started :
    hook_step (MkHookState db started) (MkHookState (Delete faults id db).2 started)
| step_record id db started :
    hook_step (MkHookState db started) (MkHookState (record_event id db) started)
| step_dispatch faults event db started :
    hook_step (MkHookState db started)
      (MkHookState db (started ++ ((λ h, (h, event)) <$> Dispatch faults event db)))
| step_deliver faults env newID hook event db started rest : started ≡ₚ (hook, event) :: rest →
    hook_step (MkHookState db started)
      (MkHookState (DeliverWithID DecryptField json_event faults env hook event newID db).2 rest)
| step_retry faults env id db started :
    hook_step (MkHookState db started)
      (MkHookState (RetryDelivery DecryptField json_event unmarshal_event faults env id db).2 started).

Definition no_hooks : HookState := MkHookState (MkHookDB ∅ ∅ ∅) [].

(** A delivery row: attempts within the bounds of its hook, the time and the
    error as the outcome says. *)
Definition delivery_ok (d : EventHookDelivery) : Prop :=
  1 <= ed_AttemptCount d <= 10
  ∧ (if ed_IsDelivered d then is_Some (ed_DeliveredAt d) ∧ ed_ErrorMessage d = None
     else ed_DeliveredAt d = None ∧ is_Some (ed_ErrorMessage d)).

Definition tables_ok (db : HookDB) : Prop :=
  map_Forall (λ id h, hook_ok h ∧ eh_ID h = id) (hooks db)
  ∧ map_Forall (λ id d, delivery_ok d ∧ ed_ID d = id ∧ is_Some (hooks db !! ed_EventHookID d)
                        ∧ ed_EventID d ∈ event_ids db) (deliveries db).

Definition state_ok (st : HookState) : Prop :=
  tables_ok (hs_db st) ∧ Forall (λ he, hook_ok he.1) (hs_started st).

Lemma hook_ok_driver h : hook_ok h → known_driver h.
Proof. intros (_ & _ & _ & [[? _]|[? _]]); [by left|by right]. Qed.

Lemma tables_put_hook h db : hook_ok h → tables_ok db → tables_ok (put_hook h db).
Proof.
  intros Hh [Hhooks Hdel]. split; cbn [put_hook hooks deliveries event_ids].
  - by apply map_Forall_insert_2.
  - eapply map_Forall_impl; [exact Hdel|]. cbn. intros id d (Hd & Hid & Hex & He). split_and!; try done.
    destruct (decide (eh_ID h = ed_EventHookID d)) as [->|]; [rewrite lookup_insert_eq|rewrite lookup_insert_ne by done]; eauto.
Qed.

Lemma tables_drop_hook id db : tables_ok db → tables_ok (drop_hook id db).
Proof.
  intros [Hhooks Hdel]. split; cbn [drop_hook hooks deliveries event_ids].
  - by apply map_Forall_delete.
  - intros i d Hi. apply map_lookup_filter_Some in Hi as [Hi Hne]. cbn in Hne. destruct (Hdel i d Hi) as (Hd & Hid & Hex & He).
    split_and!; try done. by rewrite lookup_delete_ne.
Qed.

(** The outcome of a delivery of a well-formed hook is well formed. *)
Lemma DeliverWithID_ok faults env hook event deliveryID db d err db' : hook_ok hook →
  DeliverWithID DecryptField json_event faults env hook event deliveryID db = (d, err, db') →
  delivery_ok d ∧ ed_ID d = deliveryID ∧ ed_EventHookID d = eh_ID hook ∧ ed_EventID d = ev_ID event
  ∧ (db' = db ∨ db' = upsert_delivery d db).
Proof.
  intros Hh. pose proof (hook_ok_driver _ Hh) as Hd. destruct Hh as (_ & Hr & _ & _). unfold DeliverWithID.
  pose proof (attempts_allowed_pos hook) as Hpos.
  destruct (delivery_loop _ _ _ _ _ _ _ _ _ _) as [k p] eqn:E.
  apply delivery_loop_spec in E as (Hk & _ & Ho & _); try done; [|lia]. rewrite Z2Nat.id in Hk by lia.
  intros [= <- <- <-]. cbn. split_and!; try done; [|destruct (faults HUpsertDelivery); auto].
  split; cbn.
  - unfold attempts_allowed, defaultHookRetries in *. destruct (Z.leb_spec (eh_MaxRetries hook) 0); lia.
  - destruct (attempt_verdict _ _ _ _ _ _ _); destruct Ho as (-> & -> & He); [by rewrite He; eauto|..];
      (split; [done|]); by destruct (pr_Error p); [eauto|].
Qed.

Lemma tables_upsert d db : delivery_ok d → tables_ok db → tables_ok (upsert_delivery d db).
Proof.
  intros Hd [Hhooks Hdel]. unfold upsert_delivery. destruct (deliveries db !! ed_ID d) as [old|] eqn:E.
  - destruct (Hdel _ _ E) as (Hold & Hid & Hex & He). split; cbn [hooks deliveries event_ids]; [done|].
    apply map_Forall_insert_2; [|done]. cbn. split_and!; try done.
  - destruct (bool_decide_reflect (is_Some (hooks db !! ed_EventHookID d))); cbn [andb]; [|done].
    destruct (bool_decide_reflect (ed_EventID d ∈ event_ids db)); [|done].
    split; cbn [hooks deliveries event_ids]; [done|]. by apply map_Forall_insert_2.
Qed.

Lemma tables_Create now faults newID input db : tables_ok db → tables_ok (Create EncryptField now faults newID input db).2.
Proof.
  intros Hdb. unfold Create. destruct (new_hook _ _ _ _) as [h|] eqn:E; [|done].
  destruct (_ || _); [done|]. apply tables_put_hook; [|done]. by eapply new_hook_ok.
Qed.

Lemma tables_Update now faults id input db : tables_ok db → tables_ok (Update EncryptField now faults id input db).2.
Proof.
  intros Hdb. unfold Update, Get. destruct (faults HGet); [done|]. destruct (hooks db !! id) as [current|] eqn:Eh; [|done].
  destruct (changed_hook _ _ _ _) as [h|] eqn:E; [|done]. destruct (faults HUpdate); [done|].
  apply tables_put_hook; [|done]. eapply changed_hook_ok; [|exact E]. by apply (proj1 Hdb) in Eh as [? _].
Qed.

Lemma Dispatch_rows faults event db h : h ∈ Dispatch faults event db → ∃ id, hooks db !! id = Some h.
Proof.
  unfold Dispatch. destruct (faults HSelectEnabled); [by intros ?%elem_of_nil|]. rewrite !list_elem_of_In, !filter_In, <- list_elem_of_In.
  intros [[Hin _] _]. apply list_elem_of_fmap in Hin as ([id h'] & -> & Hin). exists id. by apply elem_of_map_to_list in Hin.
Qed.

Lemma tables_Delete faults id db : tables_ok db → tables_ok (Delete faults id db).2.
Proof.
  intros Hdb. unfold Delete. destruct (faults HDelete); [done|]. destruct (hooks db !! id); [|done]. by apply tables_drop_hook.
Qed.

Lemma tables_Deliver faults env hook event id db : hook_ok hook → tables_ok db →
  tables_ok (DeliverWithID DecryptField json_event faults env hook event id db).2.
Proof.
  intros Hh Hdb. destruct (DeliverWithID _ _ _ _ _ _ _ _) as [[d err] db'] eqn:E.
  apply DeliverWithID_ok in E as (Hd & _ & _ & _ & [-> | ->]); try done. by apply tables_upsert.
Qed.

Lemma tables_Retry faults env id db : tables_ok db →
  tables_ok (RetryDelivery DecryptField json_event unmarshal_event faults env id db).2.
Proof.
  intros Hdb. unfold RetryDelivery. destruct (if faults HSelectDelivery then None else _) as [old|]; [|done].
  unfold Get. destruct (faults HGet); [done|]. destruct (hooks db !! ed_EventHookID old) as [hook|] eqn:Eh; [|done].
  apply (proj1 Hdb) in Eh as [Hh _]. pose proof (tables_Deliver faults env hook (event_of unmarshal_event old) id db Hh Hdb) as Ht.
  by destruct (DeliverWithID _ _ _ _ _ _ _ _) as [[d err] db'].
Qed.

Lemma hook_step_ok st st' : hook_step st st' → state_ok st → state_ok st'.
Proof.
  intros Hs [Hdb Hst]. destruct Hs; cbn [hs_db hs_started] in *; split; cbn [hs_db hs_started]; try done.
  - by apply tables_Create.
  - by apply tables_Update.
  - by apply tables_Delete.
  - destruct Hdb as [Hh Hd]. split; [done|]. cbn. eapply map_Forall_impl; [exact Hd|]. cbn.
    intros i d (? & ? & ? & ?). split_and!; try done. set_solver.
  - apply Forall_app. split; [done|]. apply Forall_fmap, Forall_forall. intros h Hh%list_elem_of_In. cbn.
    apply Dispatch_rows in Hh as [id Hid]. by destruct (proj1 Hdb _ _ Hid).
  - rewrite H0 in Hst. apply Forall_cons_iff in Hst as [Hh _]. by apply tables_Deliver.
  - rewrite H0 in Hst. by apply Forall_cons_iff in Hst as [_ ?].
  - by apply tables_Retry.
Qed.

(** The hook tables stay well formed under every interleaving of the
    operations with deliveries that run on hooks as they were when the event
    was dispatched, whatever statements fail: every hook has the columns of its
    driver only, a checked function name or target, and bounds in range; every
    delivery belongs to a hook and an event that exist, made one to ten
    attempts and has a time or an error as its outcome says.  A stored function
    name, also one a started delivery still holds, makes a statement with the
    single placeholder [$1], without quotes or separators. *)
Theorem hook_tables_wf st : rtc hook_step no_hooks st →
  state_ok st
  ∧ (∀ id h f, hooks (hs_db st) !! id = Some h → eh_SQLFunctionName h = Some f → placeholders (hook_statement f) = Some [1])
  ∧ Forall (λ he, ∀ f, eh_SQLFunctionName he.1 = Some f → placeholders (hook_statement f) = Some [1]) (hs_started st).
Proof.
  intros Hst. assert (Hok : state_ok st).
  { assert (Hinit : state_ok no_hooks) by (split; [split; apply map_Forall_empty|constructor]).
    induction Hst as [|a b c Hab _ IH]; [done|]. apply IH. by eapply hook_step_ok. }
  assert (Hstmt : ∀ h f, hook_ok h → eh_SQLFunctionName h = Some f → placeholders (hook_statement f) = Some [1]).
  { intros h f Hh Hf. apply hook_columns_checked in Hh as [Hc _]. apply Hc in Hf. apply hook_statement_ok.
    unfold validateSQLFunctionName in Hf. by destruct (sqlIdentifierPattern f). }
  split_and!; [done| |].
  - intros id h f Hid. apply Hstmt. by apply (proj1 (proj1 Hok)) in Hid as [? _].
  - eapply Forall_impl; [|exact (proj2 Hok)]. cbn. intros he Hh f. by apply Hstmt.
Qed.

(** Dispatching an event starts one delivery for each enabled hook that has
    a pattern the type matches, and for no other. *)
Theorem Dispatch_exact faults event db : faults HSelectEnabled = false → tables_ok db →
  NoDup (Dispatch faults event db)
  ∧ ∀ h, h ∈ Dispatch faults event db ↔
      hooks db !! eh_ID h = Some h ∧ eh_IsEnabled h = true
      ∧ ∃ pattern, pattern ∈ eh_EventTypes h ∧ MatchEventPattern pattern (ev_Type event) = true.
Proof.
  clear EncryptField DecryptField json_event unmarshal_event.
  intros Hf [Hh _]. assert (Hin : ∀ h, h ∈ (map_to_list (hooks db)).*2 ↔ hooks db !! eh_ID h = Some h).
  { intros h. rewrite list_elem_of_fmap. split.
    - intros ([id h'] & -> & Hin). apply elem_of_map_to_list in Hin. cbn. pose proof (Hh _ _ Hin) as [_ <-]. done.
    - intros Hid. exists (eh_ID h, h). split; [done|]. by apply elem_of_map_to_list. }
  unfold Dispatch. rewrite Hf. split.
  - apply NoDup_ListNoDup. do 2 apply List.NoDup_filter. apply NoDup_ListNoDup.
    apply (NoDup_fmap_1 eh_ID). rewrite <- list_fmap_compose.
    rewrite (list_fmap_ext (eh_ID ∘ snd) fst); [apply NoDup_fst_map_to_list|].
    intros i [id h] Hid%list_elem_of_lookup_2. apply elem_of_map_to_list in Hid. cbn. by apply Hh in Hid as [_ ?].
  - intros h. rewrite list_elem_of_In, !filter_In, <- list_elem_of_In, Hin. unfold hook_matches.
    rewrite existsb_exists. setoid_rewrite <- list_elem_of_In. tauto.
Qed.
End life.

(** ** Examples *)

Definition sample_hook : EventHook :=
  MkEventHook 1 "audit" "sql" (Some "app.on_event") None None ["auth.*"] true 5 10 0 0.
Definition flaky (arrives : Z) : DeliveryEnv :=
  MkDeliveryEnv (λ _ _, HTTPResponded 500 "") 
    (λ k _ _ _, if k =? arrives then Rows (Some "ok") else QueryFailed (errorf "deadlock detected"))
    (λ _, true) (λ k, k) 7 9.
Definition sample_input : CreateEventHookInput :=
  MkCreateEventHookInput " audit " "SQL" (Some "app.on_event") None "" ["auth.*"] None (Some 5) None.
Definition no_hook_faults (s : HookStmt) : bool := false.
Definition sample_tables : HookDB := MkHookDB {[1%N := sample_hook]} ∅ {[7%N]}.
Definition no_crypto (s : string) : option string := None.

Example sample_hook_created :
  (Create (H := sample_platform) no_crypto 0 no_hook_faults 1 sample_input (MkHookDB ∅ ∅ ∅)).1 = Ok sample_hook.
Proof. reflexivity. Qed.

Section examples.
Local Existing Instance sample_platform.
Local Existing Instance integer_floats.

Definition hook_event : Event := MkEvent 7 "auth.user.created" no_actor no_context "created" "auth.user" (Some "u") None None (Some 0).
Definition flaky_delivery (arrives : Z) (hook : EventHook) :=
  DeliverWithID no_crypto (λ _, "{}") no_hook_faults (flaky arrives) hook hook_event 3 sample_tables.

Lemma hook_delivery_outcome_witness :
  known_driver sample_hook ∧ ed_AttemptCount (flaky_delivery 2 sample_hook).1.1 = 2
  ∧ 1 <= ed_AttemptCount (flaky_delivery 2 sample_hook).1.1 <= attempts_allowed sample_hook.
Proof.
  split; [by left|]. split; [reflexivity|].
  apply (hook_delivery_outcome no_crypto (λ _, "{}") no_hook_faults (flaky 2) sample_hook hook_event 3 sample_tables
           (flaky_delivery 2 sample_hook).1.1 (flaky_delivery 2 sample_hook).1.2 (flaky_delivery 2 sample_hook).2);
    [by left|reflexivity].
Defined.

Lemma hook_tables_wf_witness :
  tables_ok (Create no_crypto 0 no_hook_faults 1 sample_input (MkHookDB ∅ ∅ ∅)).2.
Proof.
  apply (hook_tables_wf no_crypto no_crypto (λ _, "{}") (λ _, None)
    (MkHookState (Create no_crypto 0 no_hook_faults 1 sample_input (MkHookDB ∅ ∅ ∅)).2 [])).
  apply rtc_once. apply (step_create no_crypto no_crypto (λ _, "{}") (λ _, None) 0 no_hook_faults 1 sample_input (MkHookDB ∅ ∅ ∅) []).
Defined.

Lemma Dispatch_exact_witness : sample_hook ∈ Dispatch no_hook_faults hook_event sample_tables.
Proof.
  apply (Dispatch_exact no_hook_faults hook_event sample_tables eq_refl).
  - split; [|apply map_Forall_empty]. intros id h Hid. cbn [sample_tables hooks] in Hid. apply lookup_singleton_Some in Hid as [<- <-].
    split; [|done]. split_and!; try done. left. split_and!; try done. by exists "app.on_event".
  - split_and!; [done|done|]. exists "auth.*". split; [by apply list_elem_of_singleton|done].
Defined.

(** A hook stored with no retries is tried three times. *)
Example zero_retries_attempted_thrice :
  let hook := MkEventHook 1 "audit" "sql" (Some "app.on_event") None None ["auth.*"] true
                (clamp_retries (Some 0) defaultHookRetries) 10 0 0 in
  eh_MaxRetries hook = 0 ∧ ed_AttemptCount (flaky_delivery 9 hook).1.1 = 3.
Proof. split; reflexivity. Qed.

(** An update may leave a hook without any pattern, which [Create] refuses. *)
Example update_clears_patterns :
  let input := MkUpdateEventHookInput None None None None None (Some []) None None None in
  match (Update no_crypto 5 no_hook_faults 1 input sample_tables).1 with
  | Ok h => eh_EventTypes h = [] ∧ hook_matches "auth.user.created" h = false
  | Err _ => False
  end
  ∧ check_patterns [] = Err PatternsRequired.
Proof. split; [split|]; reflexivity. Qed.

(** A failed [UPDATE] is reported as success, with the zero hook. *)
Example failed_hook_update_reports_success :
  let input := MkUpdateEventHookInput (Some "x") None None None None None None None None in
  let faults s := match s with HUpdate => true | _ => false end in
  (Update no_crypto 5 faults 1 input sample_tables).1 = Ok zero_hook.
Proof. reflexivity. Qed.
End examples.
