(* ===== verification/EventStore.v ===== *)
(** * core/event.go: the events that are kept

    [EventManager]: recording an event in core.events, reading it back, and
    listing events by filter and page.  Postgres' reading and printing of an
    address ([INET]) and JSON's encoding of metadata and data are parameters. *)

From stdpp Require Import sorting.
From S2P Require Import Prelude GoStrings GoTime GoValues JobManager TasksHandlers Events.
From Stdlib Require Import ZArith Lia Ascii String.
Local Open Scope string_scope.
Local Open Scope Z_scope.

Definition defaultEventListLimit : Z := 50.
Definition maxEventListLimit : Z := 200.

(** A row has no column for the actor's role and the request's id. *)
Record EventRow := MkEventRow {
  er_ID : N; er_Type : string; er_ActorID : option N; er_ActorType : string;
  er_IPAddress : option string; er_UserAgent : option string; er_Action : string;
  er_ResourceType : string; er_ResourceID : string; er_Metadata : string; er_Data : string; er_CreatedAt : Z }.
Abbreviation EventTable := (gmap N EventRow).

Record EventFilter := MkEventFilter {
  ef_Type : option string; ef_ActorType : option string; ef_ActorID : option N; ef_ResourceType : option string;
  ef_ResourceID : option string; ef_StartDate : option Z; ef_EndDate : option Z; ef_Limit : Z; ef_Offset : Z }.

Inductive EventStmt := EInsert | EGet | EList.
Inductive EventError := IncompleteEvent | RecordFailed | ErrEventNotFound | ListFailed.

(** A text that is set must be equal; the empty text sets nothing. *)
Definition text_filter (f : option string) (v : string) : bool :=
  match f with Some t => String.eqb t "" || String.eqb v t | None => true end.

Definition event_matches (f : EventFilter) (r : EventRow) : bool :=
  text_filter (ef_Type f) (er_Type r) && text_filter (ef_ActorType f) (er_ActorType r)
  && match ef_ActorID f with Some id => bool_decide (er_ActorID r = Some id) | None => true end
  && text_filter (ef_ResourceType f) (er_ResourceType r) && text_filter (ef_ResourceID f) (er_ResourceID r)
  && match ef_StartDate f with Some d => d <=? er_CreatedAt r | None => true end
  && match ef_EndDate f with Some d => er_CreatedAt r <=? d | None => true end.

Definition event_limit (f : EventFilter) : Z :=
  let limit := if ef_Limit f <=? 0 then defaultEventListLimit else ef_Limit f in
  if maxEventListLimit <? limit then maxEventListLimit else limit.
Definition event_offset (f : EventFilter) : Z := if ef_Offset f <? 0 then 0 else ef_Offset f.

Local Abbreviation Fields_ := (list (string * any)).

Section store.
Context `{FL : Floats} (uuid_Parse : string → option N)
  (inet_text : string → option string) (json_fields : Fields_ → option string)
  (unmarshal_fields : string → option Fields_) (faults : EventStmt → bool).

(** The columns read back; a field that does not decode stays nil. *)
Definition scan_event (r : EventRow) : Event :=
  MkEvent (er_ID r) (er_Type r) (MkEventActor (er_ActorType r) (er_ActorID r) None)
    (MkEventContext (er_IPAddress r) (er_UserAgent r) None) (er_Action r) (er_ResourceType r)
    (Some (er_ResourceID r)) (unmarshal_fields (er_Metadata r)) (unmarshal_fields (er_Data r)) (Some (er_CreatedAt r)).

(** [Some None]: the column is null; [None]: Postgres refuses the address. *)
Definition stored_ip (ip : option string) : option (option string) :=
  match ip with
  | None => Some None
  | Some text => match inet_text text with Some t => Some (Some t) | None => None end
  end.

Definition row_of (e : Event) : option EventRow :=
  match stored_ip (ec_IPAddress (ev_Context e)) with
  | None => None
  | Some ip =>
      Some (MkEventRow (ev_ID e) (ev_Type e) (ea_ID (ev_Actor e)) (ea_Type (ev_Actor e)) ip (ec_UserAgent (ev_Context e))
              (ev_Action e) (ev_ResourceType e) (default "" (ev_ResourceID e))
              (default "{}" (json_fields (default [] (ev_Metadata e)))) (default "{}" (json_fields (default [] (ev_Data e))))
              (default zero_time (ev_CreatedAt e)))
  end.

Definition Record_ (newID : N) (now : Z) (ctx : Ctx) (e : Event) (t : EventTable) : result EventError Event * EventTable :=
  match prepareEvent uuid_Parse newID now ctx e with
  | None => (Err IncompleteEvent, t)
  | Some prepared =>
      match row_of prepared with
      | None => (Err RecordFailed, t)
      | Some r =>
          if faults EInsert || bool_decide (is_Some (t !! er_ID r)) then (Err RecordFailed, t)
          else (Ok (scan_event r), <[er_ID r := r]> t)
      end
  end.

Definition Get (eventUUID : N) (t : EventTable) : result EventError Event :=
  if faults EGet then Err ErrEventNotFound else
  match t !! eventUUID with Some r => Ok (scan_event r) | None => Err ErrEventNotFound end.

Definition matching_rows (f : EventFilter) (t : EventTable) : list EventRow :=
  newest_first er_CreatedAt (List.filter (event_matches f) (map_to_list t).*2).

Definition List_ (f : EventFilter) (t : EventTable) : result EventError (list Event) :=
  if faults EList then Err ListFailed
  else Ok (scan_event <$> page (event_limit f) (event_offset f) (matching_rows f t)).
End store.

(** ** What is kept *)

Section kept.
Context `{FL : Floats} (uuid_Parse : string → option N)
  (inet_text : string → option string) (json_fields : Fields_ → option string)
  (unmarshal_fields : string → option Fields_).
Local Notation record := (Record_ uuid_Parse inet_text json_fields unmarshal_fields).

(** Later calls, each with its clock, context and failures. *)
Definition run_records (calls : list ((EventStmt → bool) * N * Z * Ctx * Event)) (t : EventTable) : EventTable :=
  foldl (λ t c, let '(faults, newID, now, ctx, e) := c in (record faults newID now ctx e t).2) t calls.

Lemma Record_keeps faults newID now ctx e t id r : t !! id = Some r → (record faults newID now ctx e t).2 !! id = Some r.
Proof.
  intros Hid. unfold Record_. destruct (prepareEvent _ _ _ _ _) as [p|]; [|done]. destruct (row_of _ _ p) as [row|]; [|done].
  destruct (faults EInsert); cbn [orb]; [done|]. destruct (bool_decide_reflect (is_Some (t !! er_ID row))) as [|Hn]; [done|].
  cbn [snd]. rewrite lookup_insert_ne; [done|]. intros <-. apply Hn. by exists r.
Qed.

Lemma run_records_keep calls t id r : t !! id = Some r → run_records calls t !! id = Some r.
Proof.
  revert t. induction calls as [|[[[[faults newID] now] ctx] e] calls IH]; [done|]. intros t Hid. apply IH. by apply Record_keeps.
Qed.

Lemma Record_row faults newID now ctx e t recorded t' : record faults newID now ctx e t = (Ok recorded, t') →
  ∃ p r, prepareEvent uuid_Parse newID now ctx e = Some p ∧ row_of inet_text json_fields p = Some r
    ∧ recorded = scan_event unmarshal_fields r ∧ t' !! er_ID r = Some r ∧ t !! er_ID r = None.
Proof.
  unfold Record_. destruct (prepareEvent _ _ _ _ _) as [p|]; [|done]. destruct (row_of _ _ p) as [row|] eqn:Er; [|done].
  destruct (faults EInsert); cbn [orb]; [done|]. destruct (bool_decide_reflect (is_Some (t !! er_ID row))) as [|Hn]; [done|].
  intros [= <- <-]. exists p, row. do 3 (split; [done|]). split; [apply lookup_insert_eq|by apply eq_None_not_Some].
Qed.

(** Events are immutable and complete: an event that was recorded is read
    back as it was answered, whatever is recorded afterwards; it has the type,
    actor, user agent, resource and time of the prepared event, its address as
    the database prints it, and metadata and data that JSON gives back
    unchanged. *)
Theorem recorded_event_returned faults newID now ctx e t recorded t' calls faults' :
  (∀ p m, prepareEvent uuid_Parse newID now ctx e = Some p → ev_Metadata p = Some m ∨ ev_Data p = Some m →
     ∃ text, json_fields m = Some text ∧ unmarshal_fields text = Some m) →
  record faults newID now ctx e t = (Ok recorded, t') → faults' EGet = false →
  Get unmarshal_fields faults' (ev_ID recorded) (run_records calls t') = Ok recorded
  ∧ ∃ p, prepareEvent uuid_Parse newID now ctx e = Some p
    ∧ ev_ID recorded = ev_ID p ∧ ev_Type recorded = ev_Type p ∧ ev_Action recorded = ev_Action p
    ∧ ev_ResourceType recorded = ev_ResourceType p ∧ ev_ResourceID recorded = ev_ResourceID p
    ∧ ev_Metadata recorded = ev_Metadata p ∧ ev_Data recorded = ev_Data p ∧ ev_CreatedAt recorded = ev_CreatedAt p
    ∧ ea_Type (ev_Actor recorded) = ea_Type (ev_Actor p) ∧ ea_ID (ev_Actor recorded) = ea_ID (ev_Actor p)
    ∧ ec_UserAgent (ev_Context recorded) = ec_UserAgent (ev_Context p)
    ∧ stored_ip inet_text (ec_IPAddress (ev_Context p)) = Some (ec_IPAddress (ev_Context recorded)).
Proof.
  intros Hjson Hrec Hf. destruct (Record_row _ _ _ _ _ _ _ _ Hrec) as (p & r & Hp & Hr & -> & Hin & _). split.
  - unfold Get. rewrite Hf. cbn [scan_event ev_ID]. by rewrite (run_records_keep _ _ _ _ Hin).
  - exists p. split; [done|]. unfold row_of in Hr. destruct (stored_ip inet_text _) as [ip|] eqn:Eip; [|done].
    injection Hr as <-. assert (Hj := λ m, Hjson p m Hp). clear Hjson Hin Hrec. unfold prepareEvent in Hp.
    destruct (_ || _ || _); [done|]. destruct (ev_ResourceID e) as [rid|]; [|done]. destruct (String.eqb rid ""); [done|].
    injection Hp as <-. cbn in Hj |- *.
    destruct (Hj _ (or_introl eq_refl)) as (m & -> & Hm). destruct (Hj _ (or_intror eq_refl)) as (d & -> & Hd).
    simpl. by rewrite Hm, Hd.
Qed.

Lemma event_limit_range f : 1 <= event_limit f <= 200.
Proof.
  unfold event_limit, defaultEventListLimit, maxEventListLimit. destruct (Z.leb_spec (ef_Limit f) 0).
  - done.
  - destruct (Z.ltb_spec 200 (ef_Limit f)); lia.
Qed.

(** A page holds events that match, and at most 200 of them. *)
Lemma listed_events faults f t l : List_ unmarshal_fields faults f t = Ok l →
  Z.of_nat (List.length l) <= 200
  ∧ ∀ e, e ∈ l → ∃ id r, t !! id = Some r ∧ event_matches f r = true ∧ e = scan_event unmarshal_fields r.
Proof.
  unfold List_. destruct (faults EList); [done|]. intros [= <-]. split.
  - rewrite length_fmap. unfold page. rewrite length_take. pose proof (event_limit_range f). lia.
  - intros e He. apply list_elem_of_fmap in He as (r & -> & Hr).
    unfold page in Hr. apply elem_of_take in Hr as (i & Hr & _). apply list_elem_of_lookup_2 in Hr.
    assert (Hr' : r ∈ matching_rows f t).
    { rewrite <- (take_drop (Z.to_nat (event_offset f)) (matching_rows f t)). apply elem_of_app. by right. }
    unfold matching_rows in Hr'. destruct (newest_first_spec er_CreatedAt (List.filter (event_matches f) (map_to_list t).*2)) as [_ Hperm].
    rewrite Hperm in Hr'. rewrite list_elem_of_In, filter_In, <- list_elem_of_In in Hr'. destruct Hr' as [Hr' Hm].
    apply list_elem_of_fmap in Hr' as ([id r'] & -> & Hr'). apply elem_of_map_to_list in Hr'. by exists id, r'.
Qed.
End kept.

(** ** Examples *)

Section examples.
Local Existing Instance integer_floats.

Definition sample_inet (s : string) : option string := if Contains s "." then Some (s ++ "/32") else None.
Definition audit_event (ip : string) : Event :=
  MkEvent 7 "auth.user.created" (MkEventActor "user" (Some 3%N) (Some "admin")) (MkEventContext (Some ip) (Some "curl") (Some "r1"))
    "created" "auth.user" (Some "u") None None (Some 5).
Definition bare_ctx : Ctx := MkCtx None None None None.

(** The table has no column for the actor's role and the request's id, and an
    address comes back with its mask; an address Postgres cannot read keeps the
    event out of the table. *)
Example recorded_event_loses_role :
  let record ip := (Record_ (λ _, None) sample_inet (λ _, Some "{}") (λ _, Some []) (λ _, false) 9 9 bare_ctx (audit_event ip) ∅).1 in
  match record "10.0.0.1" with
  | Ok e => ea_Role (ev_Actor e) = None ∧ ec_RequestID (ev_Context e) = None ∧ ec_IPAddress (ev_Context e) = Some "10.0.0.1/32"
  | Err _ => False
  end ∧ record "unknown" = Err RecordFailed.
Proof. split; [refine (conj _ (conj _ _)); reflexivity|reflexivity]. Qed.

Definition audit_row : EventRow :=
  MkEventRow 7 "auth.user.created" (Some 3%N) "user" (Some "10.0.0.1/32") (Some "curl") "created" "auth.user" "u" "{}" "{}" 5.

Lemma recorded_event_returned_witness :
  let recorded := scan_event (λ _, Some []) audit_row in
  Record_ (λ _, None) sample_inet (λ _, Some "{}") (λ _, Some []) (λ _, false) 9 9 bare_ctx (audit_event "10.0.0.1") ∅
  = (Ok recorded, <[7%N := audit_row]> ∅)
  ∧ Get (λ _, Some []) (λ _, false) 7
      (run_records (λ _, None) sample_inet (λ _, Some "{}") (λ _, Some [])
         [(λ _, false, 10%N, 20, bare_ctx, audit_event "10.0.0.2")] (<[7%N := audit_row]> ∅)) = Ok recorded.
Proof.
  split; [reflexivity|].
  apply (recorded_event_returned (λ _, None) sample_inet (λ _, Some "{}") (λ _, Some []) (λ _, false) 9 9 bare_ctx
    (audit_event "10.0.0.1") ∅ (scan_event (λ _, Some []) audit_row) (<[7%N := audit_row]> ∅)); [|reflexivity|reflexivity].
  intros p m [= <-]. intros [[= <-]|[= <-]]; eexists; split; reflexivity.
Defined.
End examples.
