(* ===== verification/CoreHandlers.v ===== *)
(** * The control plane of the core and the publishable key gate

    core/control_plane_handler_service_account.go, core/control_plane_handler_event_hook.go,
    core/control_plane_handler_event.go: every handler with what it decodes,
    the manager it calls, the status it answers and the event it publishes; the
    routes of core/server.go with the scope their description names; and
    [PublishableKeyMiddleware].  Identifiers of service accounts are texts in
    the path that the database reads; a text it cannot read finds no row. *)

From S2P Require Import Prelude GoStrings GoTime GoValues TasksModel Dispatcher Scopes ServiceAccounts TasksHandlers Events EventHooks EventStore.
From Stdlib Require Import ZArith Lia Ascii String.
Local Open Scope string_scope.
Local Open Scope Z_scope.

(** ** Bodies *)

Class CoreDecoders := MkCoreDecoders {
  core_uuid : string → option N;
  decode_create_account : string → option CreateServiceAccountInput;
  decode_update_account : string → option UpdateServiceAccountInput;
  decode_create_hook : string → option CreateEventHookInput;
  decode_update_hook : string → option UpdateEventHookInput }.

Section core.
Context `{Platform} `{HostLib} `{FL : Floats} `{CoreDecoders}.

Inductive CoreBody :=
| CEmpty | CDecodeError | CAccountError (e : SAError) | CHookError (e : HookError) | CEventError (e : EventError)
| CDeliveryError (text : string)
| CAccounts (l : list ServiceAccount) | CAccount (a : ServiceAccount) | CCreatedAccount (a : ServiceAccount) (secretKey : string)
| CHooks (l : list EventHook) | CHook (h : EventHook)
| CDeliveries (l : list EventHookDelivery) | CDelivery (d : EventHookDelivery)
| CEvents (l : list Event) (p : PaginationOutput) | CEvent (e : Event).

Record CoreResponse := MkCoreResponse { c_status : Z; c_body : CoreBody }.

(** What is published: the type of the event and its resource. *)
Record CoreState := MkCoreState {
  c_accounts : Accounts; c_hooks : HookDB; c_events : EventTable; c_published : list (string * N) }.

Definition set_accounts (a : Accounts) (s : CoreState) : CoreState := MkCoreState a (c_hooks s) (c_events s) (c_published s).
Definition set_hooks (h : HookDB) (s : CoreState) : CoreState := MkCoreState (c_accounts s) h (c_events s) (c_published s).
Definition publish_core (type : string) (id : N) (s : CoreState) : CoreState :=
  MkCoreState (c_accounts s) (c_hooks s) (c_events s) (c_published s ++ [(type, id)]).

(** What one request meets: clock, failures, the identifier and random bytes
    it would draw, encryption, and the world its delivery sees. *)
Record CoreEnv := MkCoreEnv {
  ce_now : Z; ce_sa_faults : SAStmt → bool; ce_hook_faults : HookStmt → bool; ce_event_faults : EventStmt → bool;
  ce_newID : N; ce_random : string; ce_encrypt : string → option string; ce_decrypt : string → option string;
  ce_json_event : Event → string; ce_unmarshal_event : string → option Event;
  ce_unmarshal_fields : string → option (list (string * any)); ce_delivery : DeliveryEnv }.

Context (env : CoreEnv).

Definition answer (st : Z) (b : CoreBody) (s : CoreState) : CoreResponse * CoreState := (MkCoreResponse st b, s).

(** ** Service accounts *)

Definition handleListServiceAccounts (s : CoreState) : CoreResponse * CoreState :=
  match ServiceAccounts.List_ (ce_sa_faults env) (c_accounts s) with
  | Err e => answer StatusInternalServerError (CAccountError e) s
  | Ok accounts => answer StatusOK (CAccounts accounts) s
  end.

Definition handleCreateServiceAccount (request : ControlRequest) (s : CoreState) : CoreResponse * CoreState :=
  match decode_body decode_create_account request with
  | None => answer StatusBadRequest CDecodeError s
  | Some input =>
      match ServiceAccounts.Create (ce_now env) (ce_sa_faults env) (ce_newID env) (ce_random env) input (c_accounts s) with
      | (Err e, _) => answer StatusBadRequest (CAccountError e) s
      | (Ok (account, secretKey), accounts) =>
          answer StatusCreated (CCreatedAccount account secretKey)
            (publish_core "core.service_account.created" (sa_ID account) (set_accounts accounts s))
      end
  end.

(** [Get], with the text of an id. *)
Definition account_of (id : string) (s : CoreState) : result SAError (N * ServiceAccount) :=
  match core_uuid id with
  | None => Err ErrServiceAccountNotFound
  | Some n => match ServiceAccounts.Get (ce_sa_faults env) n (c_accounts s) with
              | Ok a => Ok (n, a)
              | Err e => Err e
              end
  end.

Definition handleGetServiceAccount (request : ControlRequest) (s : CoreState) : CoreResponse * CoreState :=
  match account_of (PathValue request "service_account_id") s with
  | Err e => answer StatusNotFound (CAccountError e) s
  | Ok (_, a) => answer StatusOK (CAccount a) s
  end.

Definition handleUpdateServiceAccount (request : ControlRequest) (s : CoreState) : CoreResponse * CoreState :=
  match decode_body decode_update_account request with
  | None => answer StatusBadRequest CDecodeError s
  | Some input =>
      match core_uuid (PathValue request "service_account_id") with
      | None => answer StatusNotFound (CAccountError ErrServiceAccountNotFound) s
      | Some id =>
          match ServiceAccounts.Update (ce_now env) (ce_sa_faults env) id input (c_accounts s) with
          | (Err ErrServiceAccountNotFound, _) => answer StatusNotFound (CAccountError ErrServiceAccountNotFound) s
          | (Err e, _) => answer StatusForbidden (CAccountError e) s
          | (Ok a, accounts) =>
              answer StatusOK (CAccount a) (publish_core "core.service_account.updated" (sa_ID a) (set_accounts accounts s))
          end
      end
  end.

Definition handleDeleteServiceAccount (request : ControlRequest) (s : CoreState) : CoreResponse * CoreState :=
  match account_of (PathValue request "service_account_id") s with
  | Err e => answer StatusNotFound (CAccountError e) s
  | Ok (id, _) =>
      match ServiceAccounts.Delete (ce_sa_faults env) id (c_accounts s) with
      | (Err e, accounts) => answer StatusForbidden (CAccountError e) (set_accounts accounts s)
      | (Ok _, accounts) =>
          answer StatusNoContent CEmpty (publish_core "core.service_account.deleted" id (set_accounts accounts s))
      end
  end.

(** ** Event hooks *)

Definition nonempty (s : string) : option string := if String.eqb s "" then None else Some s.

Definition handleListEventHooks (request : ControlRequest) (s : CoreState) : CoreResponse * CoreState :=
  let isEnabled := match nonempty (Query request "is_enabled") with
                   | Some v => Some (String.eqb v "true" || String.eqb v "1")
                   | None => None
                   end in
  match EventHooks.List_ (ce_hook_faults env) (MkEventHookFilter (nonempty (Query request "driver")) isEnabled) (c_hooks s) with
  | Err e => answer StatusInternalServerError (CHookError e) s
  | Ok l => answer StatusOK (CHooks l) s
  end.

Definition handleCreateEventHook (request : ControlRequest) (s : CoreState) : CoreResponse * CoreState :=
  match decode_body decode_create_hook request with
  | None => answer StatusBadRequest CDecodeError s
  | Some input =>
      match EventHooks.Create (ce_encrypt env) (ce_now env) (ce_hook_faults env) (ce_newID env) input (c_hooks s) with
      | (Err e, _) => answer StatusBadRequest (CHookError e) s
      | (Ok h, hooks) => answer StatusCreated (CHook h) (publish_core "core.event_hook.created" (eh_ID h) (set_hooks hooks s))
      end
  end.

(** The hook id of the path, or the answer to one that does not parse. *)
Definition with_hook_id (param : string) (request : ControlRequest) (s : CoreState)
    (k : N → CoreResponse * CoreState) : CoreResponse * CoreState :=
  match core_uuid (PathValue request param) with
  | None => answer StatusBadRequest CDecodeError s
  | Some id => k id
  end.

Definition handleGetEventHook (request : ControlRequest) (s : CoreState) : CoreResponse * CoreState :=
  with_hook_id "event_hook_id" request s (λ id,
    match EventHooks.Get (ce_hook_faults env) id (c_hooks s) with
    | Err e => answer StatusNotFound (CHookError e) s
    | Ok h => answer StatusOK (CHook h) s
    end).

Definition handleUpdateEventHook (request : ControlRequest) (s : CoreState) : CoreResponse * CoreState :=
  with_hook_id "event_hook_id" request s (λ id,
    match decode_body decode_update_hook request with
    | None => answer StatusBadRequest CDecodeError s
    | Some input =>
        match EventHooks.Update (ce_encrypt env) (ce_now env) (ce_hook_faults env) id input (c_hooks s) with
        | (Err ErrEventHookNotFound, _) => answer StatusNotFound (CHookError ErrEventHookNotFound) s
        | (Err e, _) => answer StatusBadRequest (CHookError e) s
        | (Ok h, hooks) => answer StatusOK (CHook h) (publish_core "core.event_hook.updated" (eh_ID h) (set_hooks hooks s))
        end
    end).

(** The error of [Delete] is discarded. *)
Definition handleDeleteEventHook (request : ControlRequest) (s : CoreState) : CoreResponse * CoreState :=
  with_hook_id "event_hook_id" request s (λ id,
    match EventHooks.Get (ce_hook_faults env) id (c_hooks s) with
    | Err e => answer StatusNotFound (CHookError e) s
    | Ok _ => answer StatusNoContent CEmpty
                (publish_core "core.event_hook.deleted" id (set_hooks (EventHooks.Delete (ce_hook_faults env) id (c_hooks s)).2 s))
    end).

Definition handleListEventHookDeliveries (request : ControlRequest) (s : CoreState) : CoreResponse * CoreState :=
  with_hook_id "event_hook_id" request s (λ id,
    match ListDeliveries (ce_hook_faults env) id (c_hooks s) with
    | Err e => answer StatusInternalServerError (CHookError e) s
    | Ok l => answer StatusOK (CDeliveries l) s
    end).

(** The hook id of the path is read but not used. *)
Definition handleRetryEventHookDelivery (request : ControlRequest) (s : CoreState) : CoreResponse * CoreState :=
  with_hook_id "delivery_id" request s (λ id,
    match RetryDelivery (ce_decrypt env) (ce_json_event env) (ce_unmarshal_event env) (ce_hook_faults env)
            (ce_delivery env) id (c_hooks s) with
    | (Err e, _) => answer StatusNotFound (CHookError e) s
    | (Ok (_, Some text), hooks) => answer StatusInternalServerError (CDeliveryError text) (set_hooks hooks s)
    | (Ok (d, None), hooks) =>
        answer StatusOK (CDelivery d) (publish_core "core.event_hook_delivery.retried" (ed_EventHookID d) (set_hooks hooks s))
    end).

(** ** Events *)

(** The filter has no dates: nothing of the request sets them. *)
Definition event_filter (request : ControlRequest) : EventFilter :=
  let p := ParsePagination (Query request) in
  MkEventFilter (nonempty (Query request "type")) (nonempty (Query request "actor_type"))
    (nonempty (Query request "actor_id") ≫= core_uuid) (nonempty (Query request "resource_type"))
    (nonempty (Query request "resource_id")) None None (pi_Limit p) (pi_Offset p).

Definition handleListEvents (request : ControlRequest) (s : CoreState) : CoreResponse * CoreState :=
  let f := event_filter request in
  match EventStore.List_ (ce_unmarshal_fields env) (ce_event_faults env) f (c_events s) with
  | Err e => answer StatusInternalServerError (CEventError e) s
  | Ok l => answer StatusOK (CEvents l (MkPaginationOutput (ef_Limit f) (ef_Offset f) (Z.of_nat (List.length l)) 0)) s
  end.

Definition handleGetEvent (request : ControlRequest) (s : CoreState) : CoreResponse * CoreState :=
  with_hook_id "event_id" request s (λ id,
    match EventStore.Get (ce_unmarshal_fields env) (ce_event_faults env) id (c_events s) with
    | Err e => answer StatusNotFound (CEventError e) s
    | Ok e => answer StatusOK (CEvent e) s
    end).
End core.

(** ** Routes *)

Inductive CoreRoute :=
| RouteListServiceAccounts | RouteCreateServiceAccount | RouteGetServiceAccount | RouteUpdateServiceAccount
| RouteDeleteServiceAccount | RouteListEventHooks | RouteCreateEventHook | RouteGetEventHook | RouteUpdateEventHook
| RouteDeleteEventHook | RouteListEventHookDeliveries | RouteRetryEventHookDelivery | RouteListEvents | RouteGetEvent.

(** The scope the description of the route says it requires. *)
Definition core_documented_scope (r : CoreRoute) : string :=
  match r with
  | RouteListServiceAccounts | RouteGetServiceAccount => "core:service-account.read"
  | RouteCreateServiceAccount | RouteUpdateServiceAccount | RouteDeleteServiceAccount => "core:service-account.write"
  | RouteListEventHooks | RouteGetEventHook | RouteListEventHookDeliveries => "core:event-hook.read"
  | RouteCreateEventHook | RouteUpdateEventHook | RouteDeleteEventHook | RouteRetryEventHookDelivery => "core:event-hook.write"
  | RouteListEvents | RouteGetEvent => "core:event.read"
  end.

Definition serve_core `{Platform} `{HostLib} `{FL : Floats} `{CoreDecoders} (env : CoreEnv) (r : CoreRoute)
    (request : ControlRequest) (s : CoreState) : CoreResponse * CoreState :=
  match r with
  | RouteListServiceAccounts => handleListServiceAccounts env s
  | RouteCreateServiceAccount => handleCreateServiceAccount env request s
  | RouteGetServiceAccount => handleGetServiceAccount env request s
  | RouteUpdateServiceAccount => handleUpdateServiceAccount env request s
  | RouteDeleteServiceAccount => handleDeleteServiceAccount env request s
  | RouteListEventHooks => handleListEventHooks env request s
  | RouteCreateEventHook => handleCreateEventHook env request s
  | RouteGetEventHook => handleGetEventHook env request s
  | RouteUpdateEventHook => handleUpdateEventHook env request s
  | RouteDeleteEventHook => handleDeleteEventHook env request s
  | RouteListEventHookDeliveries => handleListEventHookDeliveries env request s
  | RouteRetryEventHookDelivery => handleRetryEventHookDelivery env request s
  | RouteListEvents => handleListEvents env request s
  | RouteGetEvent => handleGetEvent env request s
  end.

(** ** The publishable key gate *)

(** [VerifyPublishableKey]; the comparison takes constant time. *)
Definition VerifyPublishableKey (publishableKey presentedKey : string) : bool :=
  let presentedKey := TrimSpace presentedKey in
  negb (String.eqb presentedKey "") && String.eqb presentedKey publishableKey.

Definition gate_exempt (path : string) : bool :=
  String.eqb path "/v1/manifest" || HasPrefix path "/v1/_/" || String.eqb path "/v1/_" || String.eqb path "/v1/spec.json"
  || String.eqb path "/v1/spec.yaml" || HasPrefix path "/.well-known/" || HasPrefix path "/v1/function/"
  || String.eqb path "/v1/function".

(** [None]: the request goes on. *)
Definition PublishableKeyMiddleware (publishableKey path : string) (request : Request) : option Z :=
  if gate_exempt path then None
  else if VerifyPublishableKey publishableKey (header_or request "Publishable-Key" "X-Publishable-Key") then None
  else if IsAuthenticated (AuthCtx request) then None
  else Some 401.

(** ** What the control plane keeps *)

Definition core_ok `{Platform} (s : CoreState) : Prop :=
  accounts_wf (c_accounts s) ∧ has_root (c_accounts s) ∧ tables_ok (c_hooks s).

Section keeps.
Context `{Platform} `{HostLib} `{FL : Floats} `{CoreDecoders}.

(** Requests one after another, each in its own circumstances. *)
Definition run_core (requests : list (CoreEnv * CoreRoute * ControlRequest)) (s : CoreState) : CoreState :=
  foldl (λ s r, (serve_core r.1.1 r.1.2 r.2 s).2) s requests.

Lemma keep_accounts s a : core_ok s → accounts_wf a ∧ has_root a → core_ok (set_accounts a s).
Proof. intros (_ & _ & Ht) [? ?]. done. Qed.

Lemma keep_hooks s h : core_ok s → tables_ok h → core_ok (set_hooks h s).
Proof. intros (? & ? & _) ?. done. Qed.

Lemma serve_core_ok env r request s : core_ok s → core_ok (serve_core env r request s).2.
Proof.
  intros Hs. pose proof Hs as (Hwf & Hroot & Ht). destruct r; cbn [serve_core].
  - unfold handleListServiceAccounts. by destruct (ServiceAccounts.List_ _ _).
  - unfold handleCreateServiceAccount. destruct (decode_body _ _) as [input|]; [|done].
    pose proof (Create_keeps (ce_now env) (ce_sa_faults env) (ce_newID env) (ce_random env) input _ Hwf Hroot) as Hk.
    destruct (ServiceAccounts.Create _ _ _ _ _ _) as [[[a key]|e] db]; [|done]. by apply (keep_accounts s).
  - unfold handleGetServiceAccount. by destruct (account_of _ _ _) as [[? ?]|].
  - unfold handleUpdateServiceAccount. destruct (decode_body _ _) as [input|]; [|done]. destruct (core_uuid _) as [id|]; [|done].
    pose proof (Update_keeps (ce_now env) (ce_sa_faults env) id input _ Hwf Hroot) as Hk.
    destruct (ServiceAccounts.Update _ _ _ _ _) as [[a|[]] db]; first [done|by apply (keep_accounts s)].
  - unfold handleDeleteServiceAccount. destruct (account_of _ _ _) as [[id ?]|]; [|done].
    pose proof (Delete_keeps (ce_sa_faults env) id _ Hwf Hroot) as Hk.
    destruct (ServiceAccounts.Delete _ _ _) as [[?|?] db]; by apply (keep_accounts s).
  - unfold handleListEventHooks. by destruct (EventHooks.List_ _ _ _).
  - unfold handleCreateEventHook. destruct (decode_body _ _) as [input|]; [|done].
    pose proof (tables_Create (ce_encrypt env) (ce_now env) (ce_hook_faults env) (ce_newID env) input _ Ht) as Hk.
    destruct (EventHooks.Create _ _ _ _ _ _) as [[h|e] db]; [|done]. by apply (keep_hooks s).
  - unfold handleGetEventHook, with_hook_id. destruct (core_uuid _); [|done]. by destruct (EventHooks.Get _ _ _).
  - unfold handleUpdateEventHook, with_hook_id. destruct (core_uuid _) as [id|]; [|done]. destruct (decode_body _ _) as [input|]; [|done].
    pose proof (tables_Update (ce_encrypt env) (ce_now env) (ce_hook_faults env) id input _ Ht) as Hk.
    destruct (EventHooks.Update _ _ _ _ _ _) as [[h|[]] db]; first [done|by apply (keep_hooks s)].
  - unfold handleDeleteEventHook, with_hook_id. destruct (core_uuid _) as [id|]; [|done]. destruct (EventHooks.Get _ _ _); [|done].
    by apply (keep_hooks s), tables_Delete.
  - unfold handleListEventHookDeliveries, with_hook_id. destruct (core_uuid _); [|done]. by destruct (ListDeliveries _ _ _).
  - unfold handleRetryEventHookDelivery, with_hook_id. destruct (core_uuid _) as [id|]; [|done].
    pose proof (tables_Retry (ce_decrypt env) (ce_json_event env) (ce_unmarshal_event env) (ce_hook_faults env) (ce_delivery env) id _ Ht) as Hk.
    destruct (RetryDelivery _ _ _ _ _ _ _) as [[[d [text|]]|e] db]; first [done|by apply (keep_hooks s)].
  - unfold handleListEvents. by destruct (EventStore.List_ _ _ _ _).
  - unfold handleGetEvent, with_hook_id. destruct (core_uuid _); [|done]. by destruct (EventStore.Get _ _ _ _).
Qed.


(** Anyone becomes root: whatever credentials a request has, none included,
    a request to create a service account with a name and without scopes is
    answered 201 with a key, and that key authenticates from then on and has
    every scope; the scope the description of the route names is not checked. *)
Theorem anyone_becomes_root env request s input later sa_faults clientIP :
  decode_body decode_create_account request = Some input →
  TrimSpace (csa_Name input) ≠ "" → csa_Scopes input = [] → csa_ExpiresAt input = None → csa_AllowedIPs input = [] →
  ce_sa_faults env SAInsert = false → c_accounts s !! ce_newID env = None →
  String.length (ce_random env) = secretKeyEntropyBytes →
  (∀ id r, c_accounts s !! id = Some r → ¬ key_of (hex_EncodeToString (ce_random env)) r) →
  sa_faults SASelectPrefix = false →
  ∃ account key s', serve_core env RouteCreateServiceAccount request s = (MkCoreResponse 201 (CCreatedAccount account key), s')
    ∧ Authenticate later sa_faults key clientIP (c_accounts s') = Ok (account, true)
    ∧ ∀ required, HasScope (sa_Scopes account) required = true.
Proof.
  intros Hdec Hname Hscopes Hexp Hips Hf Hnew Hlen Hkeys Hsel. cbn [serve_core]. unfold handleCreateServiceAccount. rewrite Hdec.
  destruct (ServiceAccounts.Create _ _ _ _ _ _) as [r db] eqn:E. assert (∃ a key, r = Ok (a, key)) as (a & key & ->).
  { unfold ServiceAccounts.Create in E. apply String.eqb_neq in Hname. rewrite Hname in E.
    destruct (GenerateServiceAccountSecretKey _) as [[? ?] ?]. rewrite Hf, Hnew in E. injection E as <- _. by eexists _, _. }
  destruct (Create_authenticates (ce_now env) (ce_sa_faults env) sa_faults (ce_newID env) (ce_random env) input (c_accounts s) a key db clientIP later)
    as (Ha & _ & _ & Hsc); try done; try (by rewrite Hexp); try (by rewrite Hips).
  exists a, key, (publish_core "core.service_account.created" (sa_ID a) (set_accounts db s)).
  split; [done|]. split; [done|]. intros required. rewrite Hsc, Hscopes. unfold HasScope.
  destruct (String.eqb required ""); [done|]. cbn [existsb]. unfold scope_satisfies.
  by destruct (parseScope required) as [[? ?] ?].
Qed.
End keeps.

(** ** Examples *)

Section examples.
Local Existing Instance sample_platform.
Local Existing Instance sample_host.
Local Existing Instance integer_floats.

Definition new_root_input : CreateServiceAccountInput := MkCreateServiceAccountInput None "me" None [] [] None.
Definition sample_core_decoders : CoreDecoders :=
  MkCoreDecoders (λ s, if String.eqb s "1" then Some 1%N else if String.eqb s "3" then Some 3%N else None)
    (λ _, Some new_root_input) (λ _, None) (λ _, Some sample_input) (λ _, None).
Local Existing Instance sample_core_decoders.

Definition sample_core_env (hook_faults : HookStmt → bool) : CoreEnv :=
  MkCoreEnv 0 sa_ok hook_faults (λ _, false) 5 sample_bytes no_crypto no_crypto (λ _, "{}") (λ _, None) (λ _, Some [])
    (flaky 1).
Definition core_request (hook delivery : string) : ControlRequest :=
  MkControlRequest bare_request (λ k, if String.eqb k "event_hook_id" then hook else delivery) (λ _, "") (Some "{}") 2.
Definition sample_core : CoreState := MkCoreState two_roots sample_tables ∅ [].

Lemma sample_core_ok : core_ok sample_core.
Proof.
  destruct two_roots_wf as [Hwf Hroot]. split_and!; [exact Hwf|exact Hroot|].
  split; [|apply map_Forall_empty]. intros id h Hid. cbn [sample_core c_hooks sample_tables hooks] in Hid.
  apply lookup_singleton_Some in Hid as [<- <-]. split; [|done]. split_and!; try done. left. split_and!; try done.
  by exists "app.on_event".
Qed.


Lemma anyone_becomes_root_witness :
  ∃ account key s', serve_core (sample_core_env no_hook_faults) RouteCreateServiceAccount (core_request "" "") (MkCoreState ∅ sample_tables ∅ [])
                    = (MkCoreResponse 201 (CCreatedAccount account key), s')
    ∧ Authenticate 9 sa_ok key "10.0.0.1" (c_accounts s') = Ok (account, true)
    ∧ ∀ required, HasScope (sa_Scopes account) required = true.
Proof. by apply (anyone_becomes_root _ _ _ new_root_input). Defined.

(** A delivery is retried through the path of any other hook. *)
Example retry_ignores_the_hook :
  let row := MkEventHookDelivery 3 1 7 "auth.user.created" "{}" None None (Some "x") 1 0 false None 0 in
  let s := MkCoreState ∅ (MkHookDB {[1%N := sample_hook]} {[3%N := row]} {[7%N]}) ∅ [] in
  GetDelivery no_hook_faults 99 3 (c_hooks s) = Err ErrEventHookDeliveryNotFound
  ∧ c_status (serve_core (sample_core_env no_hook_faults) RouteRetryEventHookDelivery (core_request "99" "3") s).1 = 200.
Proof. split; reflexivity. Qed.

(** A hook whose deletion failed is reported and announced as deleted. *)
Example failed_deletion_announced :
  let faults s := match s with HDelete => true | _ => false end in
  let r := serve_core (sample_core_env faults) RouteDeleteEventHook (core_request "1" "") sample_core in
  c_status r.1 = 204 ∧ c_published r.2 = [("core.event_hook.deleted", 1%N)] ∧ hooks (c_hooks r.2) !! 1%N = Some sample_hook.
Proof. split_and!; reflexivity. Qed.
End examples.
