(* ===== verification/RowSecurity.v ===== *)
(** * data/common/claims.go: the session variables row-level security reads

    [BuildClaimsMap] and [ApplyRLS]: the claims of a verified token become
    settings [request.jwt.<claim>] of the transaction, which the policies of
    the database read.  Go visits the entries of the map in any order, so
    [ApplyRLS] takes the order as an argument; the names of PostgreSQL's
    settings do not distinguish case, and a name it refuses aborts the
    transaction (the code drops the error), whatever is set later.

    Parameters: which names the database accepts, and the texts of floating
    point numbers. *)

From stdpp Require Import strings gmap.
From S2P Require Import Prelude GoStrings GoRunes GoValues ServiceAccounts DataCache GraphQLHandler.
From Stdlib Require Import ZArith Lia Ascii String.
Local Open Scope string_scope.
Local Open Scope Z_scope.

Section claims.
Context `{FL : Floats}.

(** The claims of [core.JWTClaims] that are not read elsewhere. *)
Record TokenClaims := MkTokenClaims {
  tc_JWT : JWTClaims; tc_Issuer : string; tc_ExpiresAt : Z; tc_NotBefore : Z; tc_IssuedAt : Z; tc_JWTID : string;
  tc_Claims : list (string * any) }.

Definition safe_char (c : ascii) : bool :=
  let n := byte_val c in
  (97 <=? n) && (n <=? 122) || (65 <=? n) && (n <=? 90) || (48 <=? n) && (n <=? 57) || (n =? 95) || (n =? 45).

(** The runes of a text that are allowed are single bytes. *)
Definition IsSafeClaimKey (claimKey : string) : bool :=
  negb (String.eqb claimKey "") && (String.length claimKey <=? 63)%nat && all_chars safe_char claimKey.

Definition text_claim (key v : string) : list (string * any) := if String.eqb v "" then [] else [(key, AString v)].
Definition number_claim (key : string) (v : Z) : list (string * any) := if v =? 0 then [] else [(key, AInt v)].

(** The claims the platform sets. *)
Definition standard_claims (c : TokenClaims) : list (string * any) :=
  (text_claim "sub" (Subject (tc_JWT c)) ++ text_claim "sid" (SessionID (tc_JWT c)) ++ text_claim "role" (JWTRole (tc_JWT c))
  ++ text_claim "iss" (tc_Issuer c) ++ text_claim "aud" (Audience (tc_JWT c)) ++ number_claim "exp" (tc_ExpiresAt c)
  ++ number_claim "nbf" (tc_NotBefore c) ++ number_claim "iat" (tc_IssuedAt c) ++ text_claim "jti" (tc_JWTID c)
  ++ text_claim "email" (Email (tc_JWT c)) ++ text_claim "phone" (Phone (tc_JWT c))
  ++ (if IsAnonymous (tc_JWT c) then [("is_anonymous", ABool true)] else []) ++ text_claim "scope" (Scope_ (tc_JWT c)))%list.

(** Custom claims come last. *)
Definition BuildClaimsMap (c : TokenClaims) : list (string * any) :=
  foldl (λ m kv, if IsSafeClaimKey kv.1 then map_set m kv.1 kv.2 else m) (standard_claims c) (tc_Claims c).

(** The transaction: its settings by lower-case name, or aborted. *)
Definition Tx : Type := option (gmap string string).

Fixpoint fold_case (name : string) : string :=
  match name with
  | EmptyString => EmptyString
  | String c name => String (lower_ascii c) (fold_case name)
  end.

Context (format_float json_float : float64 → string) (setting_name_valid : string → bool).

(** [SELECT set_config(name, value, true)], its error dropped. *)
Definition set_config (name value : string) (tx : Tx) : Tx :=
  match tx with
  | None => None
  | Some st => if setting_name_valid name then Some (<[fold_case name := value]> st) else None
  end.

Definition setting_value (v : any) : string :=
  match v with
  | AString s => s
  | AInt z => decimal z
  | AFloat f => format_float f
  | ABool b => if b then "true" else "false"
  | _ => json_any json_float v
  end.

Definition set_claim (tx : Tx) (kv : string * any) : Tx :=
  if IsSafeClaimKey kv.1 then set_config ("request.jwt." ++ kv.1) (setting_value kv.2) tx else tx.

(** [visited] is the order in which the entries of [claimsMap] are visited. *)
Definition ApplyRLS (visited claimsMap : list (string * any)) (tx : Tx) : Tx :=
  match claimsMap with
  | [] => tx
  | _ => set_config "request.jwt" (json_any json_float (AMap claimsMap)) (foldl set_claim tx visited)
  end.

(** ** What the policies see *)

Definition reserved_claims : list string :=
  ["sub"; "sid"; "role"; "iss"; "aud"; "exp"; "nbf"; "iat"; "jti"; "email"; "phone"; "is_anonymous"; "scope"].

Lemma fold_case_app a b : fold_case (a ++ b) = fold_case a ++ fold_case b.
Proof. induction a as [|c a IH]; [done|]. rewrite append_cons. cbn [fold_case]. by rewrite IH. Qed.

Lemma fold_case_claim k : fold_case ("request.jwt." ++ k) = "request.jwt." ++ fold_case k.
Proof. by rewrite fold_case_app. Qed.

Lemma sublist_Forall {A} (P : A → Prop) l k : l `sublist_of` k → Forall P k → Forall P l.
Proof. intros Hsub. rewrite !list.Forall_forall. intros H x Hx. apply H. by eapply sublist_subseteq. Qed.

Lemma sublist_map {A B} (f : A → B) l k : l `sublist_of` k → f <$> l `sublist_of` f <$> k.
Proof. induction 1; cbn [fmap list_fmap]; by constructor. Qed.

Lemma standard_claims_reserved c : keys (standard_claims c) `sublist_of` reserved_claims.
Proof.
  unfold standard_claims, keys. rewrite !fmap_app.
  assert (Ht : ∀ k v, (text_claim k v).*1 `sublist_of` [k])
    by (intros k v; unfold text_claim; destruct (String.eqb v ""); repeat constructor).
  assert (Hn : ∀ k v, (number_claim k v).*1 `sublist_of` [k])
    by (intros k v; unfold number_claim; destruct (v =? 0); repeat constructor).
  change reserved_claims with (["sub"] ++ ["sid"] ++ ["role"] ++ ["iss"] ++ ["aud"] ++ ["exp"] ++ ["nbf"] ++ ["iat"] ++ ["jti"]
    ++ ["email"] ++ ["phone"] ++ ["is_anonymous"] ++ ["scope"])%list.
  repeat (apply sublist_app; [apply Ht || apply Hn || (destruct (IsAnonymous (tc_JWT c)); repeat constructor)|]). apply Ht.
Qed.

(** Custom claims with fresh names follow those of the platform. *)
Lemma custom_claims_appended (custom m : list (string * any)) : NoDup (keys m ++ keys custom)%list →
  foldl (λ m kv, if IsSafeClaimKey kv.1 then map_set m kv.1 kv.2 else m) m custom
  = (m ++ filter (λ kv, IsSafeClaimKey kv.1 = true) custom)%list.
Proof.
  revert m. induction custom as [|[k v] custom IH]; intros m Hnd; cbn [foldl fst snd]; [by rewrite app_nil_r|].
  rewrite filter_cons. cbn [fst].
  assert (Hk : k ∉ keys m ∧ NoDup (keys m ++ keys custom)%list ∧ k ∉ keys custom).
  { apply list.NoDup_app in Hnd as (Hm & Hd & Hc). apply list.NoDup_cons in Hc as [Hk Hc]. split_and!; [|apply list.NoDup_app|done].
    - intros Hin. apply (Hd k Hin). by left.
    - split_and!; [done| |done]. intros x Hx Hx'. apply (Hd x Hx). by right. }
  destruct Hk as (Hkm & Hnd' & Hkc). destruct (IsSafeClaimKey k) eqn:E.
  - rewrite decide_True by done. rewrite map_set_fresh by done. rewrite IH; [by rewrite <- app_assoc|].
    unfold keys in *. rewrite fmap_app, <- app_assoc. exact Hnd.
  - rewrite decide_False by done. by apply IH.
Qed.

(** The loop over entries the database accepts. *)
Lemma set_claims_lookup (m : list (string * any)) st :
  NoDup (fold_case <$> keys m) → Forall (λ k, setting_name_valid ("request.jwt." ++ k) = true) (keys m) →
  ∃ st', foldl set_claim (Some st) m = Some st'
  ∧ (∀ k v, (k, v) ∈ m → IsSafeClaimKey k = true → st' !! ("request.jwt." ++ fold_case k) = Some (setting_value v))
  ∧ (∀ k, k ∉ fold_case <$> keys m → st' !! ("request.jwt." ++ k) = st !! ("request.jwt." ++ k)).
Proof.
  revert st. induction m as [|[k v] m IH]; intros st Hnd Hok.
  { exists st. split_and!; [done| |done]. intros k v Hin. by apply elem_of_nil in Hin. }
  cbn [keys fmap list_fmap fst] in Hnd, Hok. apply list.NoDup_cons in Hnd as [Hk Hnd]. apply Forall_cons_iff in Hok as [Hv Hok].
  cbn [foldl]. unfold set_claim at 2. cbn [fst snd].
  set (st1 := if IsSafeClaimKey k then <["request.jwt." ++ fold_case k := setting_value v]> st else st).
  replace (if IsSafeClaimKey k then _ else _) with (Some st1)
    by (unfold st1, set_config; rewrite Hv, fold_case_claim; by destruct (IsSafeClaimKey k)).
  destruct (IH st1 Hnd Hok) as (st' & -> & Hin & Hout). exists st'. split_and!; [done| |].
  - intros k0 v0 [[= -> ->]|H0]%elem_of_cons Hs; [|by apply Hin]. rewrite Hout by done. unfold st1. rewrite Hs. by rewrite lookup_insert_eq.
  - intros k0 [Hne Hk0]%not_elem_of_cons. rewrite Hout by done. unfold st1. destruct (IsSafeClaimKey k); [|done].
    apply lookup_insert_ne. intros E. apply Hne. by injection E.
Qed.

(** A text claim of the platform is in the map exactly when it is not empty. *)
Lemma text_claim_in key v k x : (k, x) ∈ text_claim key v ↔ k = key ∧ x = AString v ∧ v ≠ "".
Proof.
  unfold text_claim. destruct (String.eqb_spec v "") as [->|Hv].
  - split; [by intros ?%elem_of_nil|naive_solver].
  - rewrite list_elem_of_singleton. naive_solver.
Qed.

Lemma number_claim_key key v k x : (k, x) ∈ number_claim key v → k = key.
Proof. unfold number_claim. destruct (v =? 0); intros Hin; [by apply elem_of_nil in Hin|]. by apply list_elem_of_singleton in Hin as [= -> ->]. Qed.

Ltac standard_claim_in c :=
  unfold standard_claims; rewrite !elem_of_app, !text_claim_in; split; [|naive_solver];
  let H := fresh in intros H; repeat match type of H with _ ∨ _ => destruct H as [H|H] end;
  try (by destruct H as [? _]); try (by apply number_claim_key in H); try tauto;
  destruct (IsAnonymous (tc_JWT c)); [by apply list_elem_of_singleton in H|by apply elem_of_nil in H].

Lemma standard_sub c x : ("sub", x) ∈ standard_claims c ↔ x = AString (Subject (tc_JWT c)) ∧ Subject (tc_JWT c) ≠ "".
Proof. standard_claim_in c. Qed.

Lemma standard_role c x : ("role", x) ∈ standard_claims c ↔ x = AString (JWTRole (tc_JWT c)) ∧ JWTRole (tc_JWT c) ≠ "".
Proof. standard_claim_in c. Qed.

Lemma standard_lower c k x : (k, x) ∈ standard_claims c → fold_case k = k.
Proof.
  intros Hin. assert (Hr : Forall (λ k, fold_case k = k) (keys (standard_claims c))) by
    (eapply sublist_Forall; [apply standard_claims_reserved|unfold reserved_claims; repeat constructor]).
  rewrite list.Forall_forall in Hr. apply Hr. by apply (list_elem_of_fmap_2 fst _ (k, x)).
Qed.

(** A token whose custom claims keep to names of their own. *)
Definition own_names (c : TokenClaims) : Prop :=
  NoDup (fold_case <$> keys (tc_Claims c)) ∧ Forall (λ k, fold_case k ∉ reserved_claims) (keys (tc_Claims c)).

Lemma own_names_map c : own_names c →
  BuildClaimsMap c = (standard_claims c ++ filter (λ kv, IsSafeClaimKey kv.1 = true) (tc_Claims c))%list
  ∧ NoDup (fold_case <$> keys (BuildClaimsMap c)).
Proof.
  intros [Hnd Hres]. pose proof (standard_claims_reserved c) as Hsub.
  assert (Hfold : fold_case <$> keys (standard_claims c) = keys (standard_claims c)).
  { assert (Hr : Forall (λ k, fold_case k = k) (keys (standard_claims c))) by
      (eapply sublist_Forall; [exact Hsub|unfold reserved_claims; repeat constructor]).
    clear Hsub Hres. induction Hr as [|k l Hk Hr IH]; [done|]. cbn [fmap list_fmap]. f_equal; [exact Hk|exact IH]. }
  assert (Hstd : NoDup (keys (standard_claims c))) by
    (eapply sublist_NoDup; [apply (bool_decide_eq_true_1 (NoDup reserved_claims)); reflexivity|exact Hsub]).
  assert (Hall : NoDup (fold_case <$> (keys (standard_claims c) ++ keys (tc_Claims c)))%list).
  { rewrite fmap_app, Hfold. apply list.NoDup_app. split_and!; [done| |done].
    intros k Hk (k' & -> & Hk')%list_elem_of_fmap. rewrite Forall_forall in Hres.
    apply (Hres k'); [by apply list_elem_of_In|]. eapply sublist_subseteq; [exact Hsub|exact Hk]. }
  unfold BuildClaimsMap. rewrite custom_claims_appended by (eapply NoDup_fmap_1; exact Hall). split; [done|].
  unfold keys in *. rewrite !fmap_app. rewrite !fmap_app in Hall. eapply sublist_NoDup; [exact Hall|].
  apply sublist_app; [done|]. by apply sublist_map, sublist_map, sublist_filter.
Qed.

(** C35: The policies of the database see the verified identity. For a token whose
    custom claims keep to names of their own (compared without case, and
    none of the reserved ones), which like the standard ones are all names
    that the database accepts for a setting, whatever the order in which the
    claims are visited: the transaction is not aborted, request.jwt.sub is
    the subject of the token and request.jwt.role its role, each unset
    exactly when the token has none, and every custom claim with a safe name
    is seen under its own name. (A claim whose name has a hyphen or begins
    with a digit is refused by the database, and aborts the transaction.) *)
Theorem policies_see_verified_identity c visited :
  own_names c → visited ≡ₚ BuildClaimsMap c →
  setting_name_valid "request.jwt" = true →
  Forall (λ k, setting_name_valid ("request.jwt." ++ k) = true) (reserved_claims ++ keys (tc_Claims c))%list →
  ∃ st, ApplyRLS visited (BuildClaimsMap c) (Some ∅) = Some st
  ∧ st !! "request.jwt.sub" = (if String.eqb (Subject (tc_JWT c)) "" then None else Some (Subject (tc_JWT c)))
  ∧ st !! "request.jwt.role" = (if String.eqb (JWTRole (tc_JWT c)) "" then None else Some (JWTRole (tc_JWT c)))
  ∧ ∀ k v, (k, v) ∈ tc_Claims c → IsSafeClaimKey k = true →
      st !! ("request.jwt." ++ fold_case k) = Some (setting_value v).
Proof.
  intros Hown Hperm Hj Hval. destruct (own_names_map c Hown) as [Hmap Hnd]. pose proof (standard_claims_reserved c) as Hsub.
  assert (Hvalid : Forall (λ k, setting_name_valid ("request.jwt." ++ k) = true) (keys visited)).
  { unfold keys. rewrite Hperm, Hmap, fmap_app. apply Forall_app in Hval as [Hr Hc]. apply Forall_app. split.
    - eapply sublist_Forall; [exact Hsub|done].
    - eapply sublist_Forall; [apply sublist_map, sublist_filter|done]. }
  assert (Hnd' : NoDup (fold_case <$> keys visited)) by (unfold keys in *; by rewrite Hperm).
  destruct (set_claims_lookup visited ∅ Hnd' Hvalid) as (st & Hst & Hin & Hout).
  assert (Hid : ∀ key v, key ∈ reserved_claims → fold_case key = key → IsSafeClaimKey key = true →
    (∀ x, (key, x) ∈ standard_claims c ↔ x = AString v ∧ v ≠ "") →
    st !! ("request.jwt." ++ key) = if String.eqb v "" then None else Some v).
  { intros key v Hres Hfold Hsafe Hkv. destruct (String.eqb_spec v "") as [->|Hv].
    - rewrite Hout, lookup_empty; [done|]. unfold keys. rewrite Hperm, Hmap. intros (k & Hk & ([k' x] & -> & Hx)%list_elem_of_fmap)%list_elem_of_fmap.
      apply elem_of_app in Hx as [Hx|[_ Hx]%list_elem_of_filter].
      + assert (k' = key) as -> by (rewrite Hk; symmetry; by eapply standard_lower).
        apply Hkv in Hx as [_ Hx]. done.
      + destruct Hown as [_ Hown]. rewrite list.Forall_forall in Hown. apply (Hown k'); [by apply (list_elem_of_fmap_2 fst _ (k', x))|].
        cbn [fst] in Hk. by rewrite <- Hk.
    - rewrite <- Hfold. rewrite (Hin key (AString v)); [done| |done]. rewrite Hperm, Hmap. apply elem_of_app. left. by apply Hkv. }
  assert (Hpost : ∃ st', ApplyRLS visited (BuildClaimsMap c) (Some ∅) = Some st' ∧ ∀ k, st' !! ("request.jwt." ++ k) = st !! ("request.jwt." ++ k)).
  { unfold ApplyRLS. destruct (BuildClaimsMap c) eqn:E; [|rewrite Hst; unfold set_config; rewrite Hj].
    - exists ∅. split; [done|]. apply Permutation_nil_r in Hperm as ->. by injection Hst as <-.
    - eexists. split; [done|]. intros k. by apply lookup_insert_ne. }
  destruct Hpost as (st' & -> & Hst'). exists st'. split; [done|].
  split_and!.
  - etransitivity; [apply (Hst' "sub")|apply (Hid "sub"); [by left|done|done|apply standard_sub]].
  - etransitivity; [apply (Hst' "role")|apply (Hid "role"); [do 2 right; by left|done|done|apply standard_role]].
  - intros k v Hk Hs. rewrite Hst'. apply Hin; [|done]. rewrite Hperm, Hmap. apply elem_of_app. right. by apply list_elem_of_filter.
Qed.

(** A custom claim whose name the database refuses aborts the transaction of
    every request made with the token. *)
Lemma refused_name_aborts c visited k v tx :
  visited ≡ₚ BuildClaimsMap c → (k, v) ∈ BuildClaimsMap c → IsSafeClaimKey k = true →
  setting_name_valid ("request.jwt." ++ k) = false → ApplyRLS visited (BuildClaimsMap c) tx = None.
Proof.
  intros Hperm Hin Hs Hv. rewrite <- Hperm in Hin.
  assert (Hn : ∀ l, foldl set_claim None l = None).
  { induction l as [|[k' v'] l IH]; [done|]. cbn [foldl]. unfold set_claim at 2. cbn [fst]. destruct (IsSafeClaimKey k'); exact IH. }
  assert (Hfold : foldl set_claim tx visited = None).
  { apply list_elem_of_split in Hin as (l1 & l2 & ->). rewrite foldl_app. cbn [foldl]. unfold set_claim at 2. cbn [fst snd].
    rewrite Hs. unfold set_config. rewrite Hv. destruct (foldl set_claim tx l1); apply Hn. }
  unfold ApplyRLS. destruct (BuildClaimsMap c); [|by rewrite Hfold].
  apply Permutation_nil_r in Hperm as ->. by apply elem_of_nil in Hin.
Qed.
End claims.

(** Names of letters, digits and underscores, which PostgreSQL accepts. *)
Definition plain_setting_name (name : string) : bool :=
  all_chars (λ c, safe_char c && negb (byte_val c =? 45) || (byte_val c =? 46)) name.

Definition pro_token : TokenClaims (FL := integer_floats) :=
  MkTokenClaims (MkJWTClaims "user-1" "" "" "" "" false "" "") "" 0 0 0 "" [("plan", AString "pro")].

Lemma policies_see_verified_identity_witness : ∃ st,
  ApplyRLS (λ _, "") (λ _, "") plain_setting_name (rev (BuildClaimsMap pro_token)) (BuildClaimsMap pro_token) (Some ∅) = Some st
  ∧ st !! "request.jwt.sub" = Some "user-1" ∧ st !! "request.jwt.role" = None ∧ st !! "request.jwt.plan" = Some "pro".
Proof.
  destruct (policies_see_verified_identity (λ _, "") (λ _, "") plain_setting_name pro_token (rev (BuildClaimsMap pro_token)))
    as (st & H1 & H2 & H3 & H4).
  - split; [apply (bool_decide_eq_true_1 (NoDup ["plan"])); reflexivity|].
    constructor; [|constructor]. apply (bool_decide_eq_true_1 (_ ∉ reserved_claims)). reflexivity.
  - symmetry. apply Permutation_rev.
  - reflexivity.
  - repeat (constructor; [reflexivity|]). constructor.
  - exists st. refine (conj H1 (conj H2 (conj H3 (H4 "plan" (AString "pro") _ _)))); [by left|reflexivity].
Defined.

(** A safe name the database refuses. *)
Example hyphen_aborts :
  let c := MkTokenClaims (FL := integer_floats) no_claims "" 0 0 0 "" [("plan-id", AString "pro")] in
  ApplyRLS (λ _, "") (λ _, "") plain_setting_name (BuildClaimsMap c) (BuildClaimsMap c) (Some ∅) = None.
Proof. reflexivity. Qed.

(** A custom claim takes the place of the platform's. *)
Example custom_claim_overrides_subject :
  map_get (BuildClaimsMap (MkTokenClaims (FL := integer_floats) (tc_JWT pro_token) "" 0 0 0 "" [("sub", AString "user-2")])) "sub"
  = Some (AString "user-2").
Proof. reflexivity. Qed.
