(* ===== verification/RecordHandlers.v ===== *)
(** * data/base_handler_rest.go: reading, writing and deleting records, stored functions

    The handlers of /v1/data/{schema}/{table}, /v1/data/{schema}/{table}/{id}
    and /v1/data/{schema}/rpc/{function}.  Each runs one statement in a
    transaction under the caller's row-level security, commits it, moves the
    version of the table on ([DataCache]) and announces what it did.

    Parameters: the decoders of [encoding/json], and the database.  A statement
    is refused at once, or its rows are read until they end or an error stops
    them, which the code does not look at; committing the transaction of such
    a statement reports that it was rolled back, and a commit that fails leaves
    the database as it was.  That a statement ending in RETURNING * writes
    nothing when it returns no row is assumed where it is needed. *)

From stdpp Require Import strings gmap.
From Stdlib Require Import ZArith Lia Ascii String.
From S2P Require Import Prelude GoStrings GoRunes GoValues GoTime SqlText RestQuery RestBuilder Scopes ServiceAccounts KVStore DataKV DataCache GraphQLHandler.
Local Open Scope string_scope.
Local Open Scope Z_scope.

(** ** [http.ResponseWriter] *)

Section writer.
Context `{FL : Floats}.

Abbreviation Row := (list (string * any)).

Inductive RecordBody :=
| NoBody
| ErrorBody (detail : string)
| RowBody (row : Row)
| RowsBody (rows : list Row)
| ValueBody (v : any)
| ValuesBody (vs : list any).

(** Headers set after the status was written are not sent. *)
Record Writer := MkWriter {
  w_Header : list (string * string); w_Sent : option (Z * list (string * string)); w_Body : RecordBody }.

Definition new_writer : Writer := MkWriter [] None NoBody.
Definition SetHeader (name value : string) (w : Writer) : Writer :=
  MkWriter (map_set (w_Header w) name value) (w_Sent w) (w_Body w).
Definition WriteHeader (status : Z) (w : Writer) : Writer :=
  match w_Sent w with
  | Some _ => w
  | None => MkWriter (w_Header w) (Some (status, w_Header w)) (w_Body w)
  end.
Definition Encode (body : RecordBody) (w : Writer) : Writer :=
  let w := WriteHeader 200 w in MkWriter (w_Header w) (w_Sent w) body.

Definition status_of (w : Writer) : Z := default 0 (fst <$> w_Sent w).
Definition sent_header (w : Writer) (name : string) : option string := '(_, header) ← w_Sent w; map_get header name.

Definition WriteErrorResponse (status : Z) (detail : string) (w : Writer) : Writer :=
  Encode (ErrorBody detail) (WriteHeader status (SetHeader "Content-Type" "application/json" w)).

(** ** Requests and what they are decoded to *)

(** [data.Record]. *)
Record Record_ := MkRecord_ { rec_ID : string; rec_Properties : list (string * string) }.

Inductive ArgsResult := ArgsEOF | ArgsError | ArgsValue (rawPayload : option Row).

Class RecordDecoders := MkRecordDecoders {
  decode_rows : string → option (list Row);
  decode_create_input : string → option (list Record_);
  decode_row : string → option Row;
  decode_update_input : string → option (list (string * string));
  decode_any : string → option any;
  (** The first value of a stream, which ends, or fails at the limit. *)
  decode_args : string → bool → ArgsResult;
}.

(** [None] when reading the body fails. *)
Record RecordRequest := MkRecordRequest { rr_Data : DataRequest; rr_Method : string; rr_Body : option string }.

Definition maxRequestBodyBytes : Z := 10 * 1024 * 1024.

(** [io.ReadAll] through [http.MaxBytesReader]. *)
Definition record_body (request : RecordRequest) : option string :=
  body ← rr_Body request;
  if Z.of_nat (String.length body) <=? maxRequestBodyBytes then Some body else None.

Definition isReturnMinimal (request : RecordRequest) : bool :=
  Contains (Header (dr_Request (rr_Data request)) "Prefer") "return=minimal".

(** ** Events *)

Inductive RecordEvent :=
| RowCreated (resourceID schema table id : string) (properties : list (string * string))
| RowUpdated (resourceID schema table id : string) (properties : list (string * string))
| RowDeleted (resourceID schema table id : string)
| FunctionExecuted (resourceID schema function : string) (args : Row).

Definition row_properties (row : Row) : list (string * string) :=
  omap (λ kv, match kv.2 with ANil => None | v => Some (kv.1, format_v v) end) row.

Definition resource_id (schema table id : string) : string := schema ++ "." ++ table ++ ":" ++ id.

Definition row_id (primaryKey : string) (row : Row) : option string :=
  match map_get row primaryKey with
  | None | Some ANil => None
  | Some v => Some (format_v v)
  end.

Definition created_event (schema table primaryKey : string) (row : Row) : RecordEvent :=
  let rowID := default "" (row_id primaryKey row) in
  RowCreated (resource_id schema table rowID) schema table rowID (row_properties row).

(** ** Statements *)

Definition primary_key (tableMetadata : TableMetadata) : string :=
  if String.eqb (tm_PrimaryKey tableMetadata) "" then "id" else tm_PrimaryKey tableMetadata.

(** The columns [select] asks for; what is no identifier is left out. *)
Definition selected_columns `{UT : UnicodeTables} (request : DataRequest) : list string :=
  let selectParam := query_get request "select" in
  if negb (String.eqb selectParam "") && negb (String.eqb selectParam "*")
  then filter (λ c, IsValidIdentifier c = true) (TrimSpace <$> Split selectParam ",") else [].

Definition buildSelectColumns `{UT : UnicodeTables} (request : DataRequest) (tableMetadata : TableMetadata) : string :=
  match selected_columns request, tm_Columns tableMetadata with
  | (_ :: _) as columns, _ => Join (dq <$> columns) ", "
  | [], [] => "*"
  | [], columns => Join (dq <$> columns) ", "
  end.

Definition get_statement `{UT : UnicodeTables} (request : DataRequest) (schema table recordID : string)
    (tableMetadata : TableMetadata) : SQLStatement :=
  MkSQLStatement ("SELECT " ++ buildSelectColumns request tableMetadata ++ " FROM " ++ dq schema ++ "." ++ dq table
    ++ " WHERE " ++ dq (primary_key tableMetadata) ++ " = $1 LIMIT 1") [AString recordID].

(** The filter on the primary key. *)
Definition key_filter (tableMetadata : TableMetadata) (recordID : string) : FilterOp :=
  MkFilterOp (primary_key tableMetadata) "eq" recordID "" [] false.

Fixpoint named_arguments (names : list string) (i : Z) : list string :=
  match names with
  | [] => []
  | k :: names => (dq k ++ " := " ++ hole i) :: named_arguments names (i + 1)
  end.

Definition function_statement (schema functionName : string) (args : Row) : SQLStatement :=
  match args with
  | [] => MkSQLStatement ("SELECT * FROM " ++ dq schema ++ "." ++ dq functionName ++ "()") []
  | _ =>
      let names := sort_Strings (keys args) in
      MkSQLStatement ("SELECT * FROM " ++ dq schema ++ "." ++ dq functionName ++ "(" ++ Join (named_arguments names 1) ", " ++ ")")
        ((λ k, default ANil (map_get args k)) <$> names)
  end.
End writer.

(** ** The handlers *)

(** A statement: refused, or its fields, the rows read before an error ended
    them, and the database it leaves. *)
Inductive QueryOutcome `{Floats} (D : Type) :=
| QueryFailed (e : DBError)
| QueryRows (fields : list (string * Z)) (rows : list (list (string * any))) (rowsErr : option DBError) (after : D).
Arguments QueryFailed {_ _}.
Arguments QueryRows {_ _}.

Record DataState `{Floats} (S D : Type) := MkDataState { ds_store : S; ds_db : D; ds_events : list RecordEvent }.
Arguments MkDataState {_ _ _}.
Arguments ds_store {_ _ _}.
Arguments ds_db {_ _ _}.
Arguments ds_events {_ _ _}.

Section handlers.
Context `{HostLib} `{UT : UnicodeTables} `{FL : Floats} `{RecordDecoders} {S D : Type} `{KVDriver S}
  (env : KVEnv) (sa_faults : SAStmt → bool) (accounts : Accounts) (trustProxy : bool)
  (config : DataConfig) (tables : list (string * TableMetadata)).
Context (begin_error commit_error : option DBError) (run : option JWTClaims → SQLStatement → D → QueryOutcome D).

Definition Answer : Type := Writer * DataState S D.

Definition refuse (status : Z) (detail : string) (st : DataState S D) : Answer :=
  (WriteErrorResponse status detail new_writer, st).

Definition refuse_db (e : DBError) (st : DataState S D) : Answer :=
  let '(status, message) := writeDBErrorResponse e in refuse status message st.

(** The claims of the transaction, unless the caller bypasses the policies. *)
Definition transaction_claims (request : RecordRequest) (scope : string) : option JWTClaims :=
  if isRLSBypassed env sa_faults accounts trustProxy (dr_Request (rr_Data request)) scope then None
  else Some (JWT (AuthCtx (dr_Request (rr_Data request)))).

(** [tx.Commit] after a statement. *)
Definition commit (rowsErr : option DBError) : option DBError :=
  match rowsErr with Some _ => Some OtherDBError | None => commit_error end.

Definition with_db (db : D) (st : DataState S D) : DataState S D := MkDataState (ds_store st) db (ds_events st).

(** [resolveTransaction] of a transaction left open without an error. *)
Definition resolveTransaction (rowsErr : option DBError) (after : D) (st : DataState S D) : DataState S D :=
  match commit rowsErr with Some _ => st | None => with_db after st end.

(** What follows a committed write. *)
Definition announce (schema table : string) (after : D) (events : list RecordEvent) (st : DataState S D) : DataState S D :=
  MkDataState (InvalidateTableCache env config schema table (ds_store st)) after (ds_events st ++ events)%list.

Definition handleGetRecord (request : RecordRequest) (st : DataState S D) : Answer :=
  match prepareTableContext config tables (rr_Data request) with
  | Err (status, message) => refuse status message st
  | Ok (schema, table, recordID, tableMetadata) =>
      if String.eqb recordID "" then refuse 400 "Missing record ID in path" st else
      match begin_error with
      | Some e => refuse_db e st
      | None =>
          match run (transaction_claims request ScopeDataQueryRead)
                    (get_statement (rr_Data request) schema table recordID tableMetadata) (ds_db st) with
          | QueryFailed e => refuse_db e st
          | QueryRows _ results rowsErr after =>
              let st := resolveTransaction rowsErr after st in
              match results with
              | [] => refuse 404 "Record not found" st
              | row :: _ =>
                  if isReturnMinimal request then (WriteHeader 204 new_writer, st) else
                  (Encode (RowBody row) (WriteHeader 200 (SetHeader "Content-Type" "application/json" new_writer)), st)
              end
          end
      end
  end.

Definition record_row (rec : Record_) : list (string * any) :=
  foldl (λ m kv, map_set m kv.1 (AString kv.2))
    (if String.eqb (rec_ID rec) "" then [] else [("id", AString (rec_ID rec))]) (rec_Properties rec).

(** The rows of a body: an array of rows, records under [data], or one row. *)
Definition insert_body (body : option string) : result string (list (list (string * any))) :=
  match body with
  | None | Some EmptyString => Err "Invalid or empty request body"
  | Some ((String c _) as text) =>
      if Ascii.eqb c "[" then
        match decode_rows text with
        | None => Err "Invalid request payload"
        | Some [] => Err "No records to insert"
        | Some rows => Ok rows
        end
      else
        match decode_create_input text with
        | Some (r :: records) => Ok (record_row <$> r :: records)
        | _ => match decode_row text with
               | None => Err "Invalid request payload"
               | Some row => Ok [row]
               end
        end
  end.

Definition handleCreateRecord (request : RecordRequest) (st : DataState S D) : Answer :=
  match prepareTableContext config tables (rr_Data request) with
  | Err (status, message) => refuse status message st
  | Ok (schema, table, _, tableMetadata) =>
      match insert_body (record_body request) with
      | Err detail => refuse 400 detail st
      | Ok rawRows =>
          let onConflict := query_get (rr_Data request) "on_conflict" in
          if negb (String.eqb onConflict "") && negb (IsValidIdentifier onConflict)
          then refuse 400 "Invalid query parameters" st else
          match begin_error with
          | Some e => refuse_db e st
          | None =>
              match BuildInsert (NewQueryBuilder schema table) rawRows onConflict with
              | Err _ => refuse 400 "Invalid request data" st
              | Ok sqlStatement =>
                  match run (transaction_claims request ScopeDataQueryWrite) sqlStatement (ds_db st) with
                  | QueryFailed e => refuse_db e st
                  | QueryRows _ insertedRows rowsErr after =>
                      match commit rowsErr with
                      | Some commitErr => refuse_db commitErr st
                      | None =>
                          let primaryKey := primary_key tableMetadata in
                          let st := announce schema table after (created_event schema table primaryKey <$> insertedRows) st in
                          if isReturnMinimal request then (WriteHeader 204 new_writer, st) else
                          let w := WriteHeader 201 (SetHeader "Content-Type" "application/json" new_writer) in
                          match rawRows, insertedRows with
                          | [_], [row] =>
                              let w := match row_id primaryKey row with
                                       | Some rowID => SetHeader "Location" ("/v1/data/" ++ schema ++ "/" ++ table ++ "/" ++ rowID) w
                                       | None => w
                                       end in
                              (Encode (RowBody row) w, st)
                          | _, _ => (Encode (RowsBody insertedRows) w, st)
                          end
                      end
                  end
              end
          end
      end
  end.

Definition update_body (body : option string) : result string (list (string * any)) :=
  match body with
  | None | Some EmptyString => Err "Invalid or empty request body"
  | Some text =>
      match decode_update_input text with
      | Some (kv :: properties) => Ok ((λ p, (p.1, AString p.2)) <$> kv :: properties)
      | _ => match decode_row text with
             | None => Err "Invalid request payload"
             | Some rowData => Ok rowData
             end
      end
  end.

Definition handleUpdateRecord (request : RecordRequest) (st : DataState S D) : Answer :=
  match prepareTableContext config tables (rr_Data request) with
  | Err (status, message) => refuse status message st
  | Ok (schema, table, recordID, tableMetadata) =>
      if String.eqb recordID "" then refuse 400 "Missing record ID in path" st else
      match update_body (record_body request) with
      | Err detail => refuse 400 detail st
      | Ok rowMap =>
          match begin_error with
          | Some e => refuse_db e st
          | None =>
              match BuildUpdate (NewQueryBuilder schema table) rowMap [key_filter tableMetadata recordID] with
              | Err _ => refuse 400 "Invalid request data" st
              | Ok sqlStatement =>
                  match run (transaction_claims request ScopeDataQueryWrite) sqlStatement (ds_db st) with
                  | QueryFailed e => refuse_db e st
                  | QueryRows _ updatedRows rowsErr after =>
                      match updatedRows with
                      | [] => refuse 404 "Record not found" (resolveTransaction rowsErr after st)
                      | updatedRow :: _ =>
                          match commit rowsErr with
                          | Some commitErr => refuse_db commitErr st
                          | None =>
                              let st := announce schema table after
                                [RowUpdated (resource_id schema table recordID) schema table recordID (row_properties updatedRow)] st in
                              if isReturnMinimal request then (WriteHeader 204 new_writer, st) else
                              (Encode (RowBody updatedRow)
                                 (WriteHeader 200 (SetHeader "Content-Type" "application/json" new_writer)), st)
                          end
                      end
                  end
              end
          end
      end
  end.

(** [tx.Exec] reads the rows to their end; their number is the number of rows
    affected. *)
Definition handleDeleteRecord (request : RecordRequest) (st : DataState S D) : Answer :=
  match prepareTableContext config tables (rr_Data request) with
  | Err (status, message) => refuse status message st
  | Ok (schema, table, recordID, tableMetadata) =>
      if String.eqb recordID "" then refuse 400 "Missing record ID in path" st else
      match begin_error with
      | Some e => refuse_db e st
      | None =>
          match BuildDelete (NewQueryBuilder schema table) [key_filter tableMetadata recordID] with
          | Err _ => refuse 400 "Invalid request data" st
          | Ok sqlStatement =>
              match run (transaction_claims request ScopeDataQueryWrite) sqlStatement (ds_db st) with
              | QueryFailed e | QueryRows _ _ (Some e) _ => refuse_db e st
              | QueryRows _ [] None after => refuse 404 "Record not found" (resolveTransaction None after st)
              | QueryRows _ (_ :: _) None after =>
                  match commit None with
                  | Some commitErr => refuse_db commitErr st
                  | None =>
                      (WriteHeader 204 new_writer,
                       announce schema table after [RowDeleted (resource_id schema table recordID) schema table recordID] st)
                  end
              end
          end
      end
  end.
(** ** Stored functions *)

(** [strconv.ParseBool]. *)
Definition ParseBool (text : string) : option bool :=
  if bool_decide (text ∈ ["1"; "t"; "T"; "TRUE"; "true"; "True"]) then Some true
  else if bool_decide (text ∈ ["0"; "f"; "F"; "FALSE"; "false"; "False"]) then Some false else None.

Definition parseQueryArgValue (rawText : string) : any :=
  match Atoi rawText with
  | Some integerResult => AInt integerResult
  | None =>
      match ParseFloat rawText with
      | Some floatResult => AFloat floatResult
      | None =>
          match ParseBool rawText with
          | Some booleanResult => ABool booleanResult
          | None =>
              if HasPrefix rawText "{" || HasPrefix rawText "[" then default (AString rawText) (decode_any rawText)
              else AString rawText
          end
      end
  end.

Definition function_name (request : DataRequest) : string * string :=
  let schema := dr_PathValue request "schema_name" in
  let functionName := dr_PathValue request "function_name" in
  if String.eqb schema "" || String.eqb functionName "" then
    match Split (TrimPrefix (dr_Path request) "/v1/data/") "/" with
    | schema' :: rpc :: functionName' :: _ =>
        if String.eqb rpc "rpc" then (schema', functionName') else (schema, functionName)
    | _ => (schema, functionName)
    end
  else (schema, functionName).

(** The arguments of a call; [None] when the payload is refused. *)
Definition function_args (request : RecordRequest) : option (list (string * any)) :=
  if String.eqb (rr_Method request) "GET" then
    Some (omap (λ kv, if String.eqb kv.1 "invalidate_tables" then None else
                      match kv.2 with [] => None | v :: _ => Some (kv.1, parseQueryArgValue v) end) (dr_Values (rr_Data request)))
  else
    match rr_Body request with
    | None => None
    | Some body =>
        let exceeds := maxRequestBodyBytes <? Z.of_nat (String.length body) in
        match decode_args (if exceeds then slice_to (Z.to_nat maxRequestBodyBytes) body else body) exceeds with
        | ArgsError => None
        | ArgsEOF | ArgsValue None => Some []
        | ArgsValue (Some rawPayload) => Some rawPayload
        end
    end.

Definition invalidated_tables (request : DataRequest) (schema : string) : list (string * string) :=
  let header := first_text [Header (dr_Request request) "Cache-Invalidate-Tables";
                            Header (dr_Request request) "X-Cache-Invalidate-Tables"; query_get request "invalidate_tables"] in
  if String.eqb header "" then [] else
  omap (λ tableName, let tableName := TrimSpace tableName in
                     if String.eqb tableName "" then None else
                     match SplitN2 tableName "." with
                     | [targetSchema; targetTable] => Some (targetSchema, targetTable)
                     | _ => Some (schema, tableName)
                     end) (Split header ",").

Definition function_answer (functionName : string) (fields : list (string * Z)) (results : list (list (string * any))) : Writer :=
  let isVoid := match fields with [(_, oid)] => oid =? 2278 | _ => false end in
  if isVoid || match results with [] => true | _ => false end then WriteHeader 204 new_writer else
  let w := WriteHeader 200 (SetHeader "Content-Type" "application/json" new_writer) in
  let value r := default ANil (map_get r functionName) in
  let isScalar := match fields with [(name, _)] => String.eqb name functionName | _ => false end in
  if isScalar then
    match results with
    | [r] => Encode (ValueBody (value r)) w
    | _ => Encode (ValuesBody (value <$> results)) w
    end
  else Encode (RowsBody results) w.

Definition handleExecuteFunction (request : RecordRequest) (st : DataState S D) : Answer :=
  let isGet := String.eqb (rr_Method request) "GET" in
  if negb isGet && negb (String.eqb (rr_Method request) "POST") then refuse 405 "Method not allowed" st
  else if negb (cfg_RESTEnabled config) then refuse 403 "Access denied" st else
  let '(schema, functionName) := function_name (rr_Data request) in
  if String.eqb schema "" || String.eqb functionName "" then refuse 400 "Function name is required" st
  else if negb (IsValidIdentifier schema) || negb (IsValidIdentifier functionName) then refuse 400 "Invalid request" st
  else if negb (bool_decide (schema ∈ cfg_Schemas config)) then refuse 403 "Access denied" st else
  match function_args request with
  | None => refuse 400 "Invalid request payload" st
  | Some args =>
      if negb (forallb IsValidIdentifier (keys args)) then refuse 400 "Invalid argument" st else
      match begin_error with
      | Some e => refuse_db e st
      | None =>
          let scope := if isGet then ScopeDataQueryRead else ScopeDataQueryWrite in
          match run (transaction_claims request scope) (function_statement schema functionName args) (ds_db st) with
          | QueryFailed e => refuse_db e st
          | QueryRows fields results rowsErr after =>
              match commit rowsErr with
              | Some commitErr => refuse_db commitErr st
              | None =>
                  let store := foldl (λ s t, InvalidateTableCache env config t.1 t.2 s) (ds_store st)
                                 (invalidated_tables (rr_Data request) schema) in
                  (function_answer functionName fields results,
                   MkDataState store after (ds_events st
                     ++ [FunctionExecuted (schema ++ "." ++ functionName) schema functionName args])%list)
              end
          end
      end
  end.
(** data/router.go: the handlers of the routes. *)
Inductive RecordRoute := GetRecord | CreateRecord | UpdateRecord | DeleteRecord | ExecuteFunction.

Definition serve_record (route : RecordRoute) : RecordRequest → DataState S D → Answer :=
  match route with
  | GetRecord => handleGetRecord
  | CreateRecord => handleCreateRecord
  | UpdateRecord => handleUpdateRecord
  | DeleteRecord => handleDeleteRecord
  | ExecuteFunction => handleExecuteFunction
  end.
End handlers.

(** ** The statements are parameterised *)

Section statements.
Context `{UT : UnicodeTables} `{FL : Floats}.

Lemma set_loop_names values : ∀ parts args i r, set_loop values parts args i = Ok r →
  Forall (λ kv : string * any, IsValidIdentifier kv.1 = true) values.
Proof.
  induction values as [|[k v] values IH]; intros parts args i r; cbn [set_loop]; [constructor|].
  destruct (IsValidIdentifier k) eqn:E; [|done]. cbn [negb]. intros Hr. constructor; [done|by eapply IH].
Qed.

Lemma key_filter_wf md recordID : IsValidIdentifier (primary_key md) = true → filter_wf (key_filter md recordID).
Proof. intros Hk. split; [done|by left|done]. Qed.

Lemma key_filter_refused qb md recordID i : IsValidIdentifier (primary_key md) = false →
  buildWhere qb [key_filter md recordID] i = Err (InvalidFilterColumn (primary_key md)).
Proof. intros Hk. cbn [buildWhere where_loop]. unfold filter_clause. cbn [key_filter fo_Column]. by rewrite Hk. Qed.

Lemma update_parameterised schema table values md recordID st :
  IsValidIdentifier schema = true → IsValidIdentifier table = true →
  BuildUpdate (NewQueryBuilder schema table) values [key_filter md recordID] = Ok st → parameterised st.
Proof.
  intros Hs Ht Hst. destruct (IsValidIdentifier (primary_key md)) eqn:Hk.
  - assert (Hv : values ≠ [] ∧ Forall (λ kv, IsValidIdentifier kv.1 = true) values).
    { revert Hst. unfold BuildUpdate. destruct values as [|kv values]; [done|].
      destruct (set_loop (kv :: values) [] [] 1) as [r|e] eqn:E; [|done]. intros _. split; [done|by eapply set_loop_names]. }
    destruct (BuildUpdate_ok (NewQueryBuilder schema table) (new_builder_schema _ _ Hs) (valid_name_text _ Ht) values
      [key_filter md recordID]) as (st' & Hst' & Hp); [apply Hv|apply Hv|constructor; [by apply key_filter_wf|constructor]|].
    rewrite Hst in Hst'. by injection Hst' as ->.
  - exfalso. revert Hst. unfold BuildUpdate. destruct values; [done|]. destruct (set_loop _ _ _ _) as [[[parts args] i]|e]; [|done].
    by rewrite key_filter_refused.
Qed.

Lemma delete_parameterised schema table md recordID st :
  IsValidIdentifier schema = true → IsValidIdentifier table = true →
  BuildDelete (NewQueryBuilder schema table) [key_filter md recordID] = Ok st → parameterised st.
Proof.
  intros Hs Ht Hst. destruct (IsValidIdentifier (primary_key md)) eqn:Hk.
  - destruct (BuildDelete_ok (NewQueryBuilder schema table) (new_builder_schema _ _ Hs) (valid_name_text _ Ht)
      [key_filter md recordID]) as (st' & Hst' & Hp); [constructor; [by apply key_filter_wf|constructor]|].
    rewrite Hst in Hst'. by injection Hst' as ->.
  - exfalso. revert Hst. unfold BuildDelete. by rewrite key_filter_refused.
Qed.

Lemma neutral_names l : Forall (λ c, name_text c = true) l → neutral (Join (dq <$> l) ", ").
Proof. intros Hl. apply neutral_Join; [done|]. apply Forall_fmap. eapply list.Forall_impl; [exact Hl|]. intros c Hc. by apply neutral_dq. Qed.

Lemma primary_key_text md : metadata_ok md → name_text (primary_key md) = true.
Proof. intros Hm. unfold primary_key. destruct (String.eqb _ ""); [done|apply Hm]. Qed.

Lemma get_parameterised request schema table recordID md :
  IsValidIdentifier schema = true → IsValidIdentifier table = true → metadata_ok md →
  parameterised (get_statement request schema table recordID md).
Proof.
  intros Hs Ht Hm. apply parameterised_intro. cbn [List.length].
  assert (Hc : neutral (buildSelectColumns request md)).
  { unfold buildSelectColumns.
    destruct (selected_columns request) as [|c l] eqn:E; [destruct (tm_Columns md) as [|c l] eqn:Ec; [done|]|].
    - apply (neutral_names (c :: l)). rewrite <- Ec. apply Hm.
    - apply (neutral_names (c :: l)). rewrite <- E. unfold selected_columns. destruct (negb _ && _); [|constructor].
      rewrite list.Forall_forall. intros x [Hx _]%list_elem_of_filter. by apply valid_name_text. }
  assert (Hk : neutral (dq (primary_key md))) by by apply neutral_dq, primary_key_text.
  emit_text. reflexivity.
Qed.

Lemma named_arguments_pieces names i : Forall (λ k, IsValidIdentifier k = true) names → 0 <= i →
  pieces (named_arguments names i) (seq_holes i (i + Z.of_nat (List.length names))).
Proof.
  intros Hn. revert i. induction Hn as [|k names Hk Hn IH]; intros i Hi; cbn [named_arguments List.length].
  { rewrite Z.add_0_r, seq_holes_nil. constructor. }
  replace (i + Z.of_nat (S (List.length names))) with (i + 1 + Z.of_nat (List.length names)) by lia.
  rewrite <- (seq_holes_app i (i + 1)) by lia. constructor; [|apply IH; lia]. emit_text. by apply emits_next_hole.
Qed.

Lemma function_parameterised schema functionName args :
  IsValidIdentifier schema = true → IsValidIdentifier functionName = true →
  forallb IsValidIdentifier (keys args) = true → parameterised (function_statement schema functionName args).
Proof.
  intros Hs Hf Ha. unfold function_statement. destruct args as [|kv args].
  { apply parameterised_intro. cbn [List.length]. rewrite Z.add_0_r, seq_holes_nil. apply neutral_emits. neutral_text. }
  set (l := kv :: args) in *. clearbody l. apply parameterised_intro. rewrite length_fmap. emit_text.
  apply emits_Join; [done..|]. apply named_arguments_pieces; [|lia].
  unfold sort_Strings. rewrite list.Forall_forall. intros k Hk. rewrite sort_by_perm in Hk.
  rewrite forallb_forall in Ha. apply Ha. by apply list_elem_of_In.
Qed.
End statements.

(** ** What the handlers do *)

Section outcomes.
Context `{HostLib} `{UT : UnicodeTables} `{FL : Floats} `{RecordDecoders} {S D : Type} `{KVDriver S}
  (env : KVEnv) (sa_faults : SAStmt → bool) (accounts : Accounts) (trustProxy : bool)
  (config : DataConfig) (tables : list (string * TableMetadata)) (begin_error commit_error : option DBError).

Local Notation serve run := (serve_record env sa_faults accounts trustProxy config tables begin_error commit_error run).

(** C14: When the names in the table metadata are made of letters, digits and
    underscores, the record handlers only run parameterised statements: a
    database that behaves differently on any other statement cannot be told
    apart by any request, whatever its path, query string, headers and body.
    Names of the metadata are not escaped, hence the condition. *)
Theorem records_run_parameterised (run run' : option JWTClaims → SQLStatement → D → QueryOutcome D) route request st :
  Forall (λ kv, metadata_ok kv.2) tables →
  (∀ claims statement db, parameterised statement → run claims statement db = run' claims statement db) →
  serve run route request st = serve run' route request st.
Proof.
  intros Hmd Hrun. destruct route; cbn [serve_record].
  - unfold handleGetRecord. destruct (prepareTableContext _ _ _) as [[[[schema table] rid] md]|] eqn:E; [|done].
    apply prepare_ok in E as (Hs & Ht & _ & _ & _ & Hm); [|done]. by rewrite (Hrun _ _ _ (get_parameterised _ _ _ _ _ Hs Ht Hm)).
  - unfold handleCreateRecord. destruct (prepareTableContext _ _ _) as [[[[schema table] rid] md]|] eqn:E; [|done].
    apply prepare_ok in E as (Hs & Ht & _ & _ & _ & Hm); [|done]. destruct (insert_body _) as [rows|]; [|done].
    destruct (negb _ && _) eqn:Hc; [done|]. destruct begin_error; [done|].
    destruct (BuildInsert _ rows _) as [stm|] eqn:Hi; [|done]. rewrite Hrun; [done|].
    apply (BuildInsert_ok (NewQueryBuilder schema table) (new_builder_schema _ _ Hs) (valid_name_text _ Ht)) in Hi; [done|].
    destruct (String.eqb_spec (query_get (rr_Data request) "on_conflict") ""); [by left|right].
    cbn [negb andb] in Hc. by apply negb_false_iff in Hc.
  - unfold handleUpdateRecord. destruct (prepareTableContext _ _ _) as [[[[schema table] rid] md]|] eqn:E; [|done].
    apply prepare_ok in E as (Hs & Ht & _ & _ & _ & Hm); [|done]. destruct (String.eqb rid ""); [done|].
    destruct (update_body _) as [row|]; [|done]. destruct begin_error; [done|].
    destruct (BuildUpdate _ row _) as [stm|] eqn:Hu; [|done]. apply update_parameterised in Hu; [|done..]. by rewrite Hrun.
  - unfold handleDeleteRecord. destruct (prepareTableContext _ _ _) as [[[[schema table] rid] md]|] eqn:E; [|done].
    apply prepare_ok in E as (Hs & Ht & _ & _ & _ & Hm); [|done]. destruct (String.eqb rid ""); [done|]. destruct begin_error; [done|].
    destruct (BuildDelete _ _) as [stm|] eqn:Hu; [|done]. apply delete_parameterised in Hu; [|done..]. by rewrite Hrun.
  - unfold handleExecuteFunction. destruct (function_name _) as [schema fn].
    destruct (IsValidIdentifier schema) eqn:Hs, (IsValidIdentifier fn) eqn:Hf; cbn [negb orb]; try done.
    destruct (function_args request) as [args|]; [|done].
    destruct (forallb IsValidIdentifier (keys args)) eqn:Ha; cbn [negb]; [|done].
    by rewrite (Hrun _ _ _ (function_parameterised _ _ _ Hs Hf Ha)).
Qed.

Context (run : option JWTClaims → SQLStatement → D → QueryOutcome D).

Lemma refuse_status status detail (st : DataState S D) : status_of (refuse status detail st).1 = status.
Proof. done. Qed.

Lemma refuse_db_status e (st : DataState S D) : 400 <= status_of (refuse_db e st).1.
Proof.
  unfold refuse_db. destruct (writeDBErrorResponse e) as [status message] eqn:E. rewrite refuse_status.
  unfold writeDBErrorResponse in E. destruct e; repeat case_match; injection E as <- <-; lia.
Qed.

Lemma refuse_db_state e (st : DataState S D) : (refuse_db e st).2 = st.
Proof. unfold refuse_db. by destruct (writeDBErrorResponse e). Qed.

Lemma prepare_status request status message :
  prepareTableContext config tables request = Err (status, message) → 400 <= status.
Proof. unfold prepareTableContext. repeat case_match; try done; intros [= <- <-]; lia. Qed.

(** The statement of a write, and what it announces. *)
Definition write_statement (route : RecordRoute) (request : RecordRequest) (schema table recordID : string)
    (md : TableMetadata) (statement : SQLStatement) : Prop :=
  let qb := NewQueryBuilder schema table in
  match route with
  | CreateRecord => ∃ rows, insert_body (record_body request) = Ok rows
                    ∧ BuildInsert qb rows (query_get (rr_Data request) "on_conflict") = Ok statement
  | UpdateRecord => ∃ row, update_body (record_body request) = Ok row
                    ∧ BuildUpdate qb row [key_filter md recordID] = Ok statement
  | DeleteRecord => BuildDelete qb [key_filter md recordID] = Ok statement
  | _ => False
  end.

Definition write_events (route : RecordRoute) (schema table primaryKey recordID : string) (rows : list (list (string * any)))
    : list RecordEvent :=
  match route, rows with
  | CreateRecord, _ => created_event schema table primaryKey <$> rows
  | UpdateRecord, row :: _ => [RowUpdated (resource_id schema table recordID) schema table recordID (row_properties row)]
  | DeleteRecord, _ :: _ => [RowDeleted (resource_id schema table recordID) schema table recordID]
  | _, _ => []
  end.

(** A write that was committed: under the caller's policies, its statement ran
    to its end on an exposed table; the table was invalidated, the events
    announced. *)
Definition committed (route : RecordRoute) (request : RecordRequest) (st st' : DataState S D) : Prop :=
  ∃ schema table recordID md statement fields rows,
    prepareTableContext config tables (rr_Data request) = Ok (schema, table, recordID, md)
    ∧ write_statement route request schema table recordID md statement
    ∧ run (transaction_claims env sa_faults accounts trustProxy request ScopeDataQueryWrite) statement (ds_db st)
      = QueryRows fields rows None (ds_db st')
    ∧ begin_error = None ∧ commit_error = None ∧ (route ≠ CreateRecord → rows ≠ [])
    ∧ ds_store st' = InvalidateTableCache env config schema table (ds_store st)
    ∧ ds_events st' = (ds_events st ++ write_events route schema table (primary_key md) recordID rows)%list.

(** A statement that returns every row it writes. *)
Definition returns_its_rows (statement : SQLStatement) : Prop := ∃ body, st_SQL statement = body ++ " RETURNING *".

(** What such a statement does not return it does not write. *)
Hypothesis no_row_no_change : ∀ claims statement db fields after, returns_its_rows statement →
  run claims statement db = QueryRows fields [] None after → after = db.

Lemma update_returns schema table row filters statement :
  BuildUpdate (NewQueryBuilder schema table) row filters = Ok statement → returns_its_rows statement.
Proof.
  unfold BuildUpdate. destruct row; [done|]. destruct (set_loop _ _ _ _) as [[[parts args] i]|]; [|done].
  destruct (buildWhere _ _ _) as [[clause more]|]; [|done]. intros [= <-]. by eexists.
Qed.

Lemma delete_returns schema table filters statement :
  BuildDelete (NewQueryBuilder schema table) filters = Ok statement → returns_its_rows statement.
Proof. unfold BuildDelete. destruct (buildWhere _ _ _) as [[clause more]|]; [|done]. intros [= <-]. by eexists. Qed.

Lemma commit_none rowsErr : commit commit_error rowsErr = None → rowsErr = None ∧ commit_error = None.
Proof. by destruct rowsErr. Qed.

Lemma not_found_unchanged claims statement fields rowsErr after (st : DataState S D) : returns_its_rows statement →
  run claims statement (ds_db st) = QueryRows fields [] rowsErr after → resolveTransaction commit_error rowsErr after st = st.
Proof.
  intros Hret Hr. unfold resolveTransaction. destruct (commit commit_error rowsErr) eqn:Hc; [done|].
  apply commit_none in Hc as [-> _]. apply no_row_no_change in Hr as ->; [|done]. by destruct st.
Qed.

Definition exact_answer (route : RecordRoute) (request : RecordRequest) (st : DataState S D) (answer : Writer * DataState S D) : Prop :=
  (400 <= status_of answer.1 ∧ answer.2 = st)
  ∨ (status_of answer.1 ∈ [200; 201; 204] ∧ committed route request st answer.2).

Lemma refuse_exact route request status detail st : 400 <= status → exact_answer route request st (refuse status detail st).
Proof. intros. left. by split. Qed.

Lemma refuse_db_exact route request e st : exact_answer route request st (refuse_db e st).
Proof. left. split; [apply refuse_db_status|apply refuse_db_state]. Qed.

Ltac refusal := solve [apply refuse_exact; lia | apply refuse_db_exact].

Lemma prepared_exact route request st k :
  (∀ schema table rid md, prepareTableContext config tables (rr_Data request) = Ok (schema, table, rid, md) →
    exact_answer route request st (k (schema, table, rid, md))) →
  exact_answer route request st match prepareTableContext config tables (rr_Data request) with
                                | Ok c => k c | Err (status, message) => refuse status message st end.
Proof.
  intros Hk. destruct (prepareTableContext _ _ _) as [[[[schema table] rid] md]|[status message]] eqn:Hp; [by apply Hk|].
  apply prepare_status in Hp. by apply refuse_exact.
Qed.

Lemma create_exact request st : exact_answer CreateRecord request st (serve run CreateRecord request st).
Proof.
  apply (prepared_exact CreateRecord request st (λ '(schema, table, rid, md), _)). intros schema table rid md Hp. cbn beta iota.
  destruct (insert_body _) as [rows|] eqn:Hb; [|refusal]. destruct (negb _ && _); [refusal|]. destruct begin_error eqn:Hbegin; [refusal|].
  destruct (BuildInsert _ rows _) as [stm|] eqn:Hi; [|refusal]. destruct (run _ stm _) as [e|fields inserted rowsErr after] eqn:Hr; [refusal|].
  destruct (commit commit_error rowsErr) eqn:Hc; [refusal|]. apply commit_none in Hc as [-> Hc]. right.
  set (st' := announce _ _ _ _ _ _ _). assert (Hst : committed CreateRecord request st st').
  { exists schema, table, rid, md, stm, fields, inserted. split_and!; try done. by exists rows. }
  destruct (isReturnMinimal request); [by split; [do 2 right; left|]|].
  destruct rows as [|r1 [|r2 rows]], inserted as [|i1 [|i2 inserted]]; try (by split; [right; left|]).
  destruct (row_id _ _); by split; [right; left|].
Qed.

Lemma update_exact request st : exact_answer UpdateRecord request st (serve run UpdateRecord request st).
Proof.
  apply (prepared_exact UpdateRecord request st (λ '(schema, table, rid, md), _)). intros schema table rid md Hp. cbn beta iota.
  destruct (String.eqb rid ""); [refusal|]. destruct (update_body _) as [row|] eqn:Hb; [|refusal]. destruct begin_error eqn:Hbegin; [refusal|].
  destruct (BuildUpdate _ row _) as [stm|] eqn:Hi; [|refusal]. destruct (run _ stm _) as [e|fields updated rowsErr after] eqn:Hr; [refusal|].
  destruct updated as [|u updated].
  { left. split; [done|]. eapply not_found_unchanged; [by eapply update_returns|exact Hr]. }
  destruct (commit commit_error rowsErr) eqn:Hc; [refusal|]. apply commit_none in Hc as [-> Hc]. right.
  set (st' := announce _ _ _ _ _ _ _). assert (Hst : committed UpdateRecord request st st').
  { exists schema, table, rid, md, stm, fields, (u :: updated). split_and!; try done. by exists row. }
  destruct (isReturnMinimal request); split; try done; [do 2 right; left|left].
Qed.

Lemma delete_exact request st : exact_answer DeleteRecord request st (serve run DeleteRecord request st).
Proof.
  apply (prepared_exact DeleteRecord request st (λ '(schema, table, rid, md), _)). intros schema table rid md Hp. cbn beta iota.
  destruct (String.eqb rid ""); [refusal|]. destruct begin_error eqn:Hbegin; [refusal|].
  destruct (BuildDelete _ _) as [stm|] eqn:Hi; [|refusal].   destruct (run _ stm _) as [e|fields rows [e|] after] eqn:Hr; [refusal|destruct rows; refusal|].
  destruct rows as [|r rows].
  { left. split; [done|]. eapply not_found_unchanged; [by eapply delete_returns|exact Hr]. }
  destruct (commit commit_error None) eqn:Hc; [refusal|]. right. split; [do 2 right; left|].
  exists schema, table, rid, md, stm, fields, (r :: rows). by split_and!.
Qed.


(** A call of a stored function runs one statement with the caller's
    arguments in the order of their names, under the caller's policies; unless
    it is committed the answer is an error, nothing is invalidated or
    announced and the database is as it was; when it is committed the call is
    announced once, with 200 or, when the function returns nothing, 204. *)
Theorem function_calls_exact request st :
  let answer := serve run ExecuteFunction request st in
  (400 <= status_of answer.1 ∧ answer.2 = st)
  ∨ ∃ schema functionName args scope fields results,
      function_name (rr_Data request) = (schema, functionName) ∧ schema ∈ cfg_Schemas config
      ∧ function_args request = Some args
      ∧ (scope = if String.eqb (rr_Method request) "GET" then ScopeDataQueryRead else ScopeDataQueryWrite)
      ∧ run (transaction_claims env sa_faults accounts trustProxy request scope)
          (function_statement schema functionName args) (ds_db st) = QueryRows fields results None (ds_db answer.2)
      ∧ ds_events answer.2 = (ds_events st ++ [FunctionExecuted (schema ++ "." ++ functionName) schema functionName args])%list
      ∧ status_of answer.1 ∈ [200; 204] ∧ (results = [] → status_of answer.1 = 204).
Proof.
  cbn [serve_record]. unfold handleExecuteFunction. destruct (function_name _) as [schema fn] eqn:Hfn.
  assert (Href : ∀ status detail, 400 <= status → 400 <= status_of (refuse status detail st).1 ∧ (refuse status detail st).2 = st) by done.
  assert (Hdb : ∀ e, 400 <= status_of (refuse_db e st).1 ∧ (refuse_db e st).2 = st) by
    (intros e; split; [apply refuse_db_status|apply refuse_db_state]).
  destruct (negb _ && _); [left; by apply Href|]. destruct (negb (cfg_RESTEnabled config)); [left; by apply Href|].
  destruct (String.eqb schema "" || _); [left; by apply Href|]. destruct (negb _ || _); [left; by apply Href|].
  destruct (bool_decide _) eqn:Hschema; cbn [negb]; [|left; by apply Href]. apply bool_decide_eq_true_1 in Hschema.
  destruct (function_args request) as [args|]; [|left; by apply Href]. destruct (negb _); [left; by apply Href|].
  destruct begin_error; [left; apply Hdb|]. cbn zeta.
  destruct (run _ _ _) as [e|fields results rowsErr after] eqn:Hr; [left; apply Hdb|].
  destruct (commit commit_error rowsErr) eqn:Hc; [left; apply Hdb|]. apply commit_none in Hc as [-> Hc]. right.
  eexists schema, fn, args, _, fields, results. split_and!; [done|done|done|done|exact Hr|done| |].
  - cbn [fst]. unfold function_answer. destruct (_ || _); [right; left|]. destruct (match fields with [] => _ | _ => _ end); [|left].
    destruct results as [|r1 [|r2 results]]; left.
  - intros ->. unfold function_answer. cbn [fst]. by rewrite orb_true_r.
Qed.

(** The answer to a created record never carries its location: the
    header is set after the status was written. *)
Theorem created_location_never_sent request st :
  sent_header (serve run CreateRecord request st).1 "Location" = None.
Proof.
  cbn [serve_record]. unfold handleCreateRecord, refuse_db. repeat case_match; reflexivity.
Qed.

(** An update the database stops with an error after accepting the
    statement, as it does when a constraint is violated, is answered as if
    the record did not exist. *)
Theorem failed_update_answered_missing request st schema table recordID md row statement fields e after :
  prepareTableContext config tables (rr_Data request) = Ok (schema, table, recordID, md) → recordID ≠ "" →
  update_body (record_body request) = Ok row → begin_error = None →
  BuildUpdate (NewQueryBuilder schema table) row [key_filter md recordID] = Ok statement →
  run (transaction_claims env sa_faults accounts trustProxy request ScopeDataQueryWrite) statement (ds_db st)
    = QueryRows fields [] (Some e) after →
  serve run UpdateRecord request st = (WriteErrorResponse 404 "Record not found" new_writer, st).
Proof.
  intros Hp Hid Hb Hbegin Hst Hr. cbn [serve_record]. unfold handleUpdateRecord. rewrite Hp.
  apply String.eqb_neq in Hid as ->. by rewrite Hb, Hbegin, Hst, Hr.
Qed.
End outcomes.

(** ** A table of users *)

#[local] Existing Instance sample_host.
#[local] Existing Instance sample_pg.
#[local] Existing Instance ascii_tables.
#[local] Existing Instance integer_floats.

(** Bodies that are one row with a name, in the words of the examples. *)
Definition sample_decoders : RecordDecoders :=
  MkRecordDecoders (λ _, None) (λ _, None) (λ text, Some [("name", AString text)]) (λ _, None) (λ _, None) (λ _ _, ArgsEOF).
#[local] Existing Instance sample_decoders.

(** The database is the list of statements it ran; a name "taken" violates a
    constraint. *)
Definition sample_run (_ : option JWTClaims) (st : SQLStatement) (db : list SQLStatement) : QueryOutcome (list SQLStatement) :=
  match st_Args st with
  | AString "taken" :: _ => QueryRows [] [] (Some (PgError "23505")) db
  | args => QueryRows [("name", 25)] [[("id", AInt 7); ("name", default ANil (head args))]] None (st :: db)
  end.

Definition sample_record_request (method body : string) : RecordRequest :=
  MkRecordRequest
    (MkDataRequest (kr_Request (user_request "u1" ""))
      (λ name, if String.eqb name "schema_name" then "public" else if String.eqb name "table_name" then "users" else "7")
      "/v1/data/public/users/7" []) method (Some body).

Definition sample_data_state : DataState KVTable (list SQLStatement) := MkDataState ∅ [] [].

Definition sample_serve (run : option JWTClaims → SQLStatement → list SQLStatement → QueryOutcome (list SQLStatement)) route body :=
  serve_record (kv_ok 10) sa_ok ∅ false sample_config [] None None run route (sample_record_request "POST" body) sample_data_state.

(** One update and the statement it ran. *)
Example update_runs :
  let '(w, st) := sample_serve sample_run UpdateRecord "ada" in
  status_of w = 200
  ∧ ds_db st = [MkSQLStatement ("UPDATE " ++ dq "public" ++ "." ++ dq "users" ++ " SET " ++ dq "name" ++ " = $1 WHERE "
                  ++ dq "users" ++ "." ++ dq "id" ++ " = $2 RETURNING *") [AString "ada"; AString "7"]]
  ∧ ds_events st = [RowUpdated "public.users:7" "public" "users" "7" [("id", "7"); ("name", "ada")]].
Proof. refine (conj _ (conj _ _)); reflexivity. Qed.

Lemma records_run_parameterised_witness :
  sample_serve (λ c st db, match placeholders (st_SQL st) with None => QueryFailed OtherDBError | Some _ => sample_run c st db end)
    DeleteRecord "" = sample_serve sample_run DeleteRecord "".
Proof.
  apply (records_run_parameterised (kv_ok 10) sa_ok ∅ false sample_config [] None None); [constructor|].
  intros claims statement db Hp. unfold parameterised in Hp. by rewrite Hp.
Defined.


Lemma failed_update_answered_missing_witness :
  sample_serve sample_run UpdateRecord "taken" = (WriteErrorResponse 404 "Record not found" new_writer, sample_data_state).
Proof.
  eapply (failed_update_answered_missing (kv_ok 10) sa_ok ∅ false sample_config [] None None sample_run); [reflexivity|done|reflexivity..].
Defined.
