(* ===== verification/Tokens.v ===== *)
(** * core/crypto.go and core/jwt_signer.go: encrypted fields and signed tokens

    The texts are computed: envelopes and tokens with their base64 segments
    ([Encodings]), headers and claims with their JSON.  Parameters are HKDF,
    AES-GCM, Ed25519 and HMAC (class [Crypto]) with their documented laws
    ([CryptoLaws]), and the decoding of claims from JSON. *)

From stdpp Require Import strings gmap.
From Stdlib Require Import ZArith Lia Ascii String.
From S2P Require Import Prelude GoStrings GoTime GoRunes GoValues Encodings Scopes ServiceAccounts DataCache GraphQLHandler.
Local Open Scope string_scope.
Local Open Scope Z_scope.

Class Crypto := MkCrypto {
  (** 32 bytes from a key and a context. *)
  hkdf_sha256 : string → string → string;
  gcm_seal : string → string → string → string;
  gcm_open : string → string → string → option string;
  ed25519_Sign : string → string → string;
  (** Under the public key of the seed. *)
  ed25519_Verify : string → string → string → bool;
  hmac_sha256 : string → string → string;
}.

Definition gcm_nonce_size : nat := 12.
Definition gcm_tag_size : nat := 16.

Class CryptoLaws `{Crypto} := {
  law_gcm : ∀ key nonce plaintext, String.length nonce = gcm_nonce_size →
    gcm_open key nonce (gcm_seal key nonce plaintext) = Some plaintext;
  law_gcm_length : ∀ key nonce plaintext,
    String.length (gcm_seal key nonce plaintext) = (String.length plaintext + gcm_tag_size)%nat;
  law_ed25519 : ∀ seed message, ed25519_Verify seed message (ed25519_Sign seed message) = true;
}.

Definition raw_url_encode (s : string) : string := base64_encode url_alphabet s.
Definition raw_url_decode (s : string) : option string := base64_decode url_alphabet s.

(** [s[:n]] and [s[n:]]. *)
Fixpoint split_at (n : nat) (s : string) : string * string :=
  match n, s with
  | S n, String c s => let '(a, b) := split_at n s in (String c a, b)
  | _, _ => ("", s)
  end.

(** ** Encrypted fields *)

Definition CryptoContextDBEnvelopeAES256GCM : string := "db:envelope:aes256gcm:v1".
Definition CryptoContextAuthJWTSigning : string := "auth:jwt:ed25519:v1".
Definition CryptoContextPublishableKey : string := "client:publishable:v1".

Inductive CryptoError :=
| NoRandomNonce | InvalidEnvelopePrefix | InvalidEnvelopeFormat | InvalidNonceBase64 | InvalidCiphertextBase64
| InvalidTagBase64 | InvalidNonceSize | AuthenticationFailed.

Section fields.
Context `{Crypto} (encryptionKey : string).

Definition DeriveSubkey (derivationContext : string) : string := hkdf_sha256 encryptionKey derivationContext.

Definition DerivePublishableKey : string := hex_EncodeToString (DeriveSubkey CryptoContextPublishableKey).

Definition envelope_prefix : string := "enc:v1:aes256gcm:".

(** [random] is what the random reader answers. *)
Definition EncryptField (random : option string) (plaintext : string) : result CryptoError string :=
  match random with
  | None => Err NoRandomNonce
  | Some nonce =>
      let sealed := gcm_seal (DeriveSubkey CryptoContextDBEnvelopeAES256GCM) nonce plaintext in
      let '(ciphertext, authTag) := split_at (String.length sealed - gcm_tag_size) sealed in
      Ok (envelope_prefix ++ raw_url_encode nonce ++ ":" ++ raw_url_encode ciphertext ++ ":" ++ raw_url_encode authTag)
  end.

Definition DecryptField (encrypted : string) : result CryptoError string :=
  if negb (HasPrefix encrypted envelope_prefix) then Err InvalidEnvelopePrefix else
  match Split encrypted ":" with
  | [_; _; _; nonce64; ciphertext64; tag64] =>
      match raw_url_decode nonce64, raw_url_decode ciphertext64, raw_url_decode tag64 with
      | None, _, _ => Err InvalidNonceBase64
      | _, None, _ => Err InvalidCiphertextBase64
      | _, _, None => Err InvalidTagBase64
      | Some nonce, Some ciphertext, Some authTag =>
          if negb (String.length nonce =? gcm_nonce_size)%nat then Err InvalidNonceSize else
          match gcm_open (DeriveSubkey CryptoContextDBEnvelopeAES256GCM) nonce (ciphertext ++ authTag) with
          | None => Err AuthenticationFailed
          | Some plaintext => Ok plaintext
          end
      end
  | _ => Err InvalidEnvelopeFormat
  end.
End fields.

(** ** Claims *)

Section tokens.
Context `{HostLib} `{FL : Floats} `{Crypto} (json_float : float64 → string).

(** [JWTClaims], all of it; [reads] is the part other components look at. *)
Record SignedClaims := MkSignedClaims {
  k_Subject : string; k_SessionID : string; k_Email : string; k_EmailVerified : bool; k_Phone : string;
  k_PhoneVerified : bool; k_Role : string; k_IsAnonymous : bool; k_Issuer : string; k_Audience : string;
  k_ExpiresAt : Z; k_IssuedAt : Z; k_NotBefore : Z; k_AuthTime : Z; k_Nonce : string; k_JWTID : string;
  k_Scope : string; k_Events : list (string * any); k_Claims : list (string * any) }.

Definition reads (c : SignedClaims) : JWTClaims :=
  MkJWTClaims (k_Subject c) (k_SessionID c) (k_Email c) (k_Phone c) (k_Role c) (k_IsAnonymous c) (k_Audience c) (k_Scope c).

(** Members of the JSON object; empty ones are omitted. *)
Definition text_member (name v : string) : list string := if String.eqb v "" then [] else [member name (json_string v)].
Definition bool_member (name : string) (v : bool) : list string := if v then [member name "true"] else [].
Definition number_member (name : string) (v : Z) : list string := if v =? 0 then [] else [member name (decimal v)].
Definition map_member (name : string) (v : list (string * any)) : list string :=
  match v with [] => [] | _ => [member name (json_any json_float (AMap v))] end.

Definition claims_json (c : SignedClaims) : string :=
  "{" ++ Join ([member "sub" (json_string (k_Subject c))] ++ text_member "sid" (k_SessionID c) ++ text_member "email" (k_Email c)
    ++ bool_member "email_verified" (k_EmailVerified c) ++ text_member "phone" (k_Phone c)
    ++ bool_member "phone_verified" (k_PhoneVerified c) ++ text_member "role" (k_Role c)
    ++ bool_member "is_anonymous" (k_IsAnonymous c) ++ text_member "iss" (k_Issuer c) ++ text_member "aud" (k_Audience c)
    ++ number_member "exp" (k_ExpiresAt c) ++ number_member "iat" (k_IssuedAt c) ++ number_member "nbf" (k_NotBefore c)
    ++ number_member "auth_time" (k_AuthTime c) ++ text_member "nonce" (k_Nonce c) ++ text_member "jti" (k_JWTID c)
    ++ text_member "scope" (k_Scope c) ++ map_member "events" (k_Events c) ++ map_member "claims" (k_Claims c))%list "," ++ "}".

(** The header; its map is written in the order of its keys. *)
Definition header_json (typ keyID : string) : string :=
  "{" ++ Join [member "alg" (json_string "EdDSA"); member "kid" (json_string keyID); member "typ" (json_string typ)] "," ++ "}".

(** A signer: the seed of its keys and its key id. *)
Context (seed keyID : string).

Definition signing_input (header claims : string) : string := raw_url_encode header ++ "." ++ raw_url_encode claims.

Definition sign_token (header claims : string) : string :=
  signing_input header claims ++ "." ++ raw_url_encode (ed25519_Sign seed (signing_input header claims)).

Definition used_key_id : string := if String.eqb keyID "" then "layr-ed25519-v1" else keyID.

Definition defaultAccessTokenExpirySeconds : Z := 900.
Definition defaultIDTokenExpirySeconds : Z := 3600.
Definition defaultM2MTokenExpirySeconds : Z := 3600.

Definition text_or (v other : string) : string := if String.eqb v "" then other else v.
Definition number_or (v other : Z) : Z := if v =? 0 then other else v.
Definition expires_after (now seconds : Z) : Z := Unix (now + wrap64 (seconds * Second)).

Context (handle : string) (now : Z) (newID : string).

(** The claims of an access token; [handle] is the project's, or its default. *)
Definition access_claims (c : SignedClaims) (expirySeconds : Z) : SignedClaims :=
  MkSignedClaims (k_Subject c) (k_SessionID c) (k_Email c) (k_EmailVerified c) (k_Phone c) (k_PhoneVerified c)
    (text_or (k_Role c) "authenticated") (k_IsAnonymous c) (text_or (k_Issuer c) (text_or handle "layr-app"))
    (text_or (k_Audience c) (text_or handle "layr-app" ++ ":user"))
    (number_or (k_ExpiresAt c) (expires_after now (if 0 <? expirySeconds then expirySeconds else defaultAccessTokenExpirySeconds)))
    (number_or (k_IssuedAt c) (Unix now)) (number_or (k_NotBefore c) (Unix now)) (k_AuthTime c) (k_Nonce c)
    (text_or (k_JWTID c) newID) (k_Scope c) (k_Events c) (k_Claims c).

Definition GenerateAccessToken (c : SignedClaims) (expirySeconds : Z) : string :=
  sign_token (header_json "JWT" used_key_id) (claims_json (access_claims c expirySeconds)).

Definition id_claims (c : SignedClaims) (expirySeconds : Z) : SignedClaims :=
  MkSignedClaims (k_Subject c) (k_SessionID c) (k_Email c) (k_EmailVerified c) (k_Phone c) (k_PhoneVerified c)
    (text_or (k_Role c) "authenticated") (k_IsAnonymous c) (text_or (k_Issuer c) (text_or handle "layr-app")) (k_Audience c)
    (number_or (k_ExpiresAt c) (expires_after now (number_or expirySeconds defaultIDTokenExpirySeconds)))
    (number_or (k_IssuedAt c) (Unix now)) (k_NotBefore c) (number_or (k_AuthTime c) (Unix now)) (k_Nonce c)
    (k_JWTID c) (k_Scope c) (k_Events c) (k_Claims c).

Definition GenerateIDToken (c : SignedClaims) (expirySeconds : Z) : string :=
  sign_token (header_json "JWT" keyID) (claims_json (id_claims c expirySeconds)).

Definition m2m_claims (serviceAccountID : string) (scopes : list string) (expirySeconds : Z) (audience : string) : SignedClaims :=
  MkSignedClaims serviceAccountID "" "" false "" false "service_role" false (text_or handle "layr") audience
    (expires_after now (if expirySeconds <=? 0 then defaultM2MTokenExpirySeconds else expirySeconds)) (Unix now) 0 0 "" newID
    (Join scopes " ") [] [].

(** The private key is derived when the signer is made. *)
Definition GenerateM2MToken (serviceAccountID : string) (scopes : list string) (expirySeconds : Z) (audience : string) : option string :=
  if String.eqb serviceAccountID "" then None
  else Some (sign_token (header_json "JWT" used_key_id) (claims_json (m2m_claims serviceAccountID scopes expirySeconds audience))).

Definition SignOutTokenEventURI : string := "http://schemas.openid.net/event/backchannel-logout".

(** [issuer] is the base URL of the server. *)
Definition sign_out_claims (issuer subject sessionID clientID : string) (expirySeconds : Z) : SignedClaims :=
  MkSignedClaims subject sessionID "" false "" false "" false issuer clientID
    (expires_after now (if 0 <? expirySeconds then expirySeconds else 120)) (Unix now) 0 0 "" newID ""
    [(SignOutTokenEventURI, AMap [])] [].

Definition GenerateSignOutToken (issuer subject sessionID clientID : string) (expirySeconds : Z) : option string :=
  if String.eqb subject "" && String.eqb sessionID "" then None
  else if String.eqb clientID "" then None
  else Some (sign_token (header_json "logout+jwt" keyID) (claims_json (sign_out_claims issuer subject sessionID clientID expirySeconds))).

(** ** Verification *)

(** [json.Unmarshal] into the claims; the members of a header. *)
Context (unmarshal_claims : string → option SignedClaims) (header_alg : string → option (option string)).

Inductive TokenError :=
| TokenFormat | SignatureEncoding | SignatureMismatch | ClaimsEncoding | ClaimsJSON | TokenExpired | TokenNotYetValid
| HeaderEncoding | HeaderJSON | UnsupportedAlgorithm | NonceForbidden | NoSubject | NoEvents | NoSignOutEvent.

(** The signature and the claims: what [VerifyAccessToken] and
    [VerifyM2MToken] have in common. *)
Definition verify_signed (token : string) : result TokenError SignedClaims :=
  match Split token "." with
  | [header64; claims64; signature64] =>
      match raw_url_decode signature64 with
      | None => Err SignatureEncoding
      | Some signature =>
          if negb (ed25519_Verify seed (header64 ++ "." ++ claims64) signature) then Err SignatureMismatch else
          match raw_url_decode claims64 with
          | None => Err ClaimsEncoding
          | Some claimsJSON =>
              match unmarshal_claims claimsJSON with
              | None => Err ClaimsJSON
              | Some c => Ok c
              end
          end
      end
  | _ => Err TokenFormat
  end.

Definition VerifyAccessToken (token : string) : result TokenError SignedClaims :=
  (let! c := verify_signed token in
   if k_ExpiresAt c <? Unix now then Err TokenExpired
   else if Unix now <? k_NotBefore c then Err TokenNotYetValid else Ok c)%go.

Definition VerifyM2MToken (token : string) : result TokenError SignedClaims :=
  (let! c := verify_signed token in if k_ExpiresAt c <? Unix now then Err TokenExpired else Ok c)%go.

Definition VerifySignOutToken (token : string) : result TokenError SignedClaims :=
  match Split token "." with
  | [header64; claims64; signature64] =>
      match raw_url_decode header64 with
      | None => Err HeaderEncoding
      | Some headerBytes =>
          match header_alg headerBytes with
          | None => Err HeaderJSON
          | Some alg =>
              if negb (bool_decide (alg = Some "EdDSA")) then Err UnsupportedAlgorithm else
              match raw_url_decode claims64 with
              | None => Err ClaimsEncoding
              | Some claimsBytes =>
                  match unmarshal_claims claimsBytes with
                  | None => Err ClaimsJSON
                  | Some c =>
                      match raw_url_decode signature64 with
                      | None => Err SignatureEncoding
                      | Some signature =>
                          if negb (ed25519_Verify seed (header64 ++ "." ++ claims64) signature) then Err SignatureMismatch
                          else if negb (String.eqb (k_Nonce c) "") then Err NonceForbidden
                          else if String.eqb (k_Subject c) "" && String.eqb (k_SessionID c) "" then Err NoSubject
                          else match k_Events c with
                               | [] => Err NoEvents
                               | events =>
                                   match map_get events SignOutTokenEventURI with
                                   | None => Err NoSignOutEvent
                                   | Some _ => if (0 <? k_ExpiresAt c) && (k_ExpiresAt c <? Unix now) then Err TokenExpired else Ok c
                                   end
                               end
                      end
                  end
              end
          end
      end
  | _ => Err TokenFormat
  end.

(** ** Opaque tokens *)

(** Two new ids without their hyphens. *)
Definition GenerateRefreshToken (id1 id2 : string) : string :=
  string_of_list_ascii (List.filter (λ c, negb (Ascii.eqb c "-")) (list_ascii_of_string (id1 ++ id2))).

Definition HashRefreshToken (token : string) : string := hex_EncodeToString (sha256_Sum256 token).

Definition SignHMAC (message : string) : string := raw_url_encode (hmac_sha256 seed message).
Definition VerifyHMAC (message expectedSignature : string) : bool := String.eqb (SignHMAC message) expectedSignature.
End tokens.

(** ** Segments *)

(** The URL alphabet has neither dots nor colons. *)
Lemma raw_url_lacks (sep : ascii) s : sep = "."%char ∨ sep = ":"%char → lacks sep (raw_url_encode s) = true.
Proof. intros Hsep. apply encode_chars; [lia|]. by destruct Hsep as [->| ->]; vm_compute. Qed.

Lemma raw_url_plain s : plain (raw_url_encode s) = true.
Proof. apply encode_chars; [lia|]. by vm_compute. Qed.

Lemma sign_token_plain `{HostLib} {CR : Crypto} seed header claims : plain (sign_token seed header claims) = true.
Proof.
  unfold sign_token, signing_input. unfold plain. rewrite !all_chars_app. fold (plain (raw_url_encode header)) (plain (raw_url_encode claims)).
  fold (plain (raw_url_encode (ed25519_Sign seed (signing_input header claims)))). by rewrite !raw_url_plain.
Qed.

Lemma raw_url_round_trip s : raw_url_decode (raw_url_encode s) = Some s.
Proof. apply base64_round_trip, url_alphabet_ok. Qed.

Lemma Split_three a b c : lacks "." a = true → lacks "." b = true → lacks "." c = true →
  Split (a ++ "." ++ b ++ "." ++ c) "." = [a; b; c].
Proof.
  intros Ha Hb Hc. change (a ++ "." ++ b ++ "." ++ c) with (a ++ String "." (b ++ String "." c)).
  by rewrite !Split_app, Split_lacks.
Qed.

(** Three segments are what they were split from. *)
Lemma Split_three_inv token a b c : Split token "." = [a; b; c] →
  token = a ++ "." ++ b ++ "." ++ c ∧ lacks "." a = true ∧ lacks "." b = true.
Proof.
  intros E. split; [by rewrite <- (Join_Split token "."), E|].
  assert (Hl : Forall (λ f, lacks "." f = true) (Split token ".")).
  { clear E. induction token as [|ch token IH]; [by repeat constructor|]. cbn [Split].
    destruct (Ascii.eqb ch ".") eqn:Ec; [by constructor|].
    destruct (Split token ".") as [|f fs] eqn:Es; [by apply Split_not_nil in Es|].
    apply Forall_cons_iff in IH as [Hf Hfs]. constructor; [|done]. unfold lacks in *. cbn [all_chars]. by rewrite Ec, Hf. }
  rewrite E in Hl. apply Forall_cons_iff in Hl as [Ha Hl]. by apply Forall_cons_iff in Hl as [Hb _].
Qed.

Lemma split_at_append n s : (fst (split_at n s) ++ snd (split_at n s) = s)%string.
Proof.
  revert s. induction n as [|n IH]; intros s; [done|]. destruct s as [|c s]; [done|]. cbn [split_at].
  specialize (IH s). destruct (split_at n s) as [a b]. cbn [fst snd] in *. by rewrite append_cons, IH.
Qed.

Lemma HasPrefix_append p s : HasPrefix (p ++ s) p = true.
Proof. unfold HasPrefix. assert (E : strip_prefix p (p ++ s) = Some s); [|by rewrite E].
  induction p as [|c p IH]; [done|]. rewrite append_cons. cbn [strip_prefix]. by rewrite Ascii.eqb_refl. Qed.

(** ** Fields *)

Section field_laws.
Context `{CryptoLaws}.

(** What is encrypted into a field is what decrypting it gives back, under
    every key, nonce and plaintext. *)
Theorem field_round_trip key nonce plaintext encrypted : String.length nonce = gcm_nonce_size →
  EncryptField key (Some nonce) plaintext = Ok encrypted → DecryptField key encrypted = Ok plaintext.
Proof.
  intros Hn. cbn [EncryptField]. set (sealed := gcm_seal _ nonce plaintext).
  destruct (split_at _ sealed) as [ciphertext authTag] eqn:E. intros [= <-].
  pose proof (split_at_append (String.length sealed - gcm_tag_size) sealed) as Happ. rewrite E in Happ. cbn [fst snd] in Happ.
  unfold DecryptField. rewrite HasPrefix_append. cbn [negb]. unfold envelope_prefix.
  change ("enc:v1:aes256gcm:" ++ ?x) with ("enc" ++ String ":" ("v1" ++ String ":" ("aes256gcm" ++ String ":" x))).
  do 3 (rewrite Split_app by done).
  do 2 (change (raw_url_encode ?a ++ ":" ++ ?x) with (raw_url_encode a ++ String ":" x); rewrite Split_app by (apply raw_url_lacks; by right)).
  rewrite Split_lacks by (apply raw_url_lacks; by right).
  rewrite !raw_url_round_trip, Hn. cbn [Nat.eqb gcm_nonce_size negb]. unfold sealed in Happ. by rewrite Happ, law_gcm.
Qed.
End field_laws.

(** ** Tokens *)

Section token_laws.
Context `{FL : Floats} {CR : Crypto} {CL : CryptoLaws} (json_float : float64 → string) (seed : string)
  (unmarshal_claims : string → option SignedClaims).

(** A token signed with the seed verifies, and its claims are read back. *)
Lemma verify_signed_token header claims :
  verify_signed seed unmarshal_claims (sign_token seed header claims)
  = match unmarshal_claims claims with None => Err ClaimsJSON | Some c => Ok c end.
Proof.
  unfold verify_signed, sign_token, signing_input. rewrite !append_assoc.
  rewrite Split_three by (apply raw_url_lacks; by left).
  by rewrite !raw_url_round_trip, law_ed25519.
Qed.

(** A lifetime in seconds, added to an instant. *)
Lemma expires_after_seconds issued seconds : 0 <= seconds → seconds * Second < 2 ^ 63 →
  expires_after issued seconds = Unix issued + seconds.
Proof.
  intros H0 Hmax. unfold expires_after. rewrite wrap64_id by (unfold Second, int64_min, int64_max in *; lia).
  unfold Unix, Second in *. rewrite Z.div_add by lia. lia.
Qed.

(** C17: An access token issued for claims that bring no times of their own is
    accepted from the second it was issued in to the second its lifetime
    later (the lifetime asked for, or 900 seconds), and outside that refused
    as expired or as not yet valid; what is accepted is the user, session,
    email, phone, scope and custom claims it was issued for, under the role
    asked for or authenticated. The lifetime must not overflow a duration,
    and the JSON of the claims must be read back as written. *)
Theorem access_token_window keyID handle newID c expirySeconds issued now :
  let lifetime := if 0 <? expirySeconds then expirySeconds else 900 in
  let verified := VerifyAccessToken seed now unmarshal_claims
    (GenerateAccessToken json_float seed keyID handle issued newID c expirySeconds) in
  k_ExpiresAt c = 0 → k_NotBefore c = 0 → lifetime * Second < 2 ^ 63 →
  unmarshal_claims (claims_json json_float (access_claims handle issued newID c expirySeconds))
    = Some (access_claims handle issued newID c expirySeconds) →
  (Unix issued + lifetime < Unix now → verified = Err TokenExpired)
  ∧ (Unix now < Unix issued → verified = Err TokenNotYetValid)
  ∧ (Unix issued <= Unix now <= Unix issued + lifetime → ∃ claims, verified = Ok claims
      ∧ k_ExpiresAt claims = Unix issued + lifetime ∧ k_NotBefore claims = Unix issued
      ∧ k_Subject claims = k_Subject c ∧ k_SessionID claims = k_SessionID c
      ∧ k_Email claims = k_Email c ∧ k_EmailVerified claims = k_EmailVerified c
      ∧ k_Phone claims = k_Phone c ∧ k_PhoneVerified claims = k_PhoneVerified c
      ∧ k_Role claims = (if String.eqb (k_Role c) "" then "authenticated" else k_Role c)
      ∧ k_IsAnonymous claims = k_IsAnonymous c ∧ k_Scope claims = k_Scope c ∧ k_Claims claims = k_Claims c).
Proof.
  intros lifetime verified He Hn Hmax Hj.
  assert (Hl : 0 <= lifetime) by (unfold lifetime; destruct (Z.ltb_spec 0 expirySeconds); lia).
  set (claims := access_claims handle issued newID c expirySeconds) in *.
  assert (Hexp : k_ExpiresAt claims = Unix issued + lifetime).
  { cbn. rewrite He. cbn. by apply expires_after_seconds. }
  assert (Hnbf : k_NotBefore claims = Unix issued) by (cbn; by rewrite Hn).
  assert (Hv : verified = if Unix issued + lifetime <? Unix now then Err TokenExpired
    else if Unix now <? Unix issued then Err TokenNotYetValid else Ok claims).
  { unfold verified, VerifyAccessToken, GenerateAccessToken. rewrite verify_signed_token. fold claims. rewrite Hj.
    cbn [result_bind]. by rewrite Hexp, Hnbf. }
  rewrite Hv. destruct (Z.ltb_spec (Unix issued + lifetime) (Unix now)), (Z.ltb_spec (Unix now) (Unix issued));
    refine (conj _ (conj _ _)); intros; try lia; try done.
  exists claims. by repeat split.
Qed.
End token_laws.

Section unforgeable.
Context `{FL : Floats} {CR : Crypto} (seed : string) (unmarshal_claims : string → option SignedClaims).
(** The headers and claims that were signed. *)
Context (issued : list (string * string)).
(** Signatures cannot be made without the key. *)
Hypothesis unforgeable : ∀ message signature, ed25519_Verify seed message signature = true →
  ∃ header claims, (header, claims) ∈ issued ∧ message = signing_input header claims.

Lemma signing_input_inj h c h' c' : lacks "." h = true → h ++ "." ++ c = signing_input h' c' →
  h = raw_url_encode h' ∧ c = raw_url_encode c'.
Proof.
  intros Hh E. assert (Hs : Split (h ++ "." ++ c) "." = Split (signing_input h' c') ".") by by rewrite E. clear E.
  unfold signing_input in Hs. change ("." ++ ?x) with (String "." x) in Hs.
  rewrite !Split_app in Hs by (done || (apply raw_url_lacks; by left)).
  rewrite (Split_lacks (raw_url_encode c')) in Hs by (apply raw_url_lacks; by left).
  injection Hs as -> Hc. split; [done|]. by rewrite <- (Join_Split c "."), Hc.
Qed.

(** The claims of a verified token are claims that were signed. *)
Lemma verify_signed_issued token c : verify_signed seed unmarshal_claims token = Ok c →
  ∃ header claims, (header, claims) ∈ issued ∧ unmarshal_claims claims = Some c.
Proof.
  unfold verify_signed. destruct (Split token ".") as [|h [|cl [|sg [|]]]] eqn:Es; try done.
  apply Split_three_inv in Es as (_ & Hh & _).
  destruct (raw_url_decode sg) as [signature|]; [|done].
  destruct (ed25519_Verify _ _ _) eqn:Ev; [|done]. cbn [negb].
  apply unforgeable in Ev as (header & claims & Hin & E). apply signing_input_inj in E as [-> ->]; [|done].
  rewrite raw_url_round_trip. destruct (unmarshal_claims claims) eqn:Eu; [|done]. intros [= ->]. eauto.
Qed.

(** C16: When signatures cannot be forged, whatever token the server accepts as
    an access token carries claims it signed itself, and is neither expired
    nor early: no edit of header, claims or signature is accepted. *)
Theorem only_issued_tokens_accepted now token c :
  VerifyAccessToken seed now unmarshal_claims token = Ok c →
  (∃ header claims, (header, claims) ∈ issued ∧ unmarshal_claims claims = Some c)
  ∧ k_NotBefore c <= Unix now <= k_ExpiresAt c.
Proof.
  unfold VerifyAccessToken. destruct (verify_signed _ _ _) as [c'|] eqn:E; [|done]. cbn.
  destruct (k_ExpiresAt c' <? _) eqn:He; [done|]. destruct (_ <? k_NotBefore c') eqn:Hn; [done|].
  intros [= ->]. apply Z.ltb_ge in He, Hn. split; [by eapply verify_signed_issued|lia].
Qed.
End unforgeable.

(** ** Tokens in requests *)

(** What the middleware learns from [VerifyAccessToken]. *)
Definition request_claims `{Floats} `{Crypto} (seed : string) (now : Z) (unmarshal_claims : string → option SignedClaims)
    (token : string) : option JWTClaims :=
  match VerifyAccessToken seed now unmarshal_claims token with Ok c => Some (reads c) | Err _ => None end.

(** The caller a token signed by the server makes, while it is valid. *)
Lemma jwt_auth_signed `{HL : HostLib} `{FL : Floats} {CR : Crypto} {CL : CryptoLaws} json_float seed header unmarshal_claims c hash handle
    request now :
  unmarshal_claims (claims_json json_float c) = Some c → k_NotBefore c <= Unix now <= k_ExpiresAt c → k_Subject c ≠ "" →
  ExtractRequestSessionToken request = sign_token seed header (claims_json json_float c) →
  jwt_auth (request_claims seed now unmarshal_claims) hash handle request
  = if String.eqb (k_Role c) "service_role" || HasSuffix (k_Audience c) ":service_account" then
      if String.eqb (k_Audience c) ((if String.eqb handle "" then "layr" else handle) ++ ":service_account")
      then Some (WithAuthContext (MkAuthContext "" (k_Subject c) (set_role "service_role" (reads c)) "")) else None
    else Some (WithAuthContext (MkAuthContext (k_Subject c) "" (reads c)
           (if String.eqb (refresh_token request) "" then "" else hash (refresh_token request)))).
Proof.
  intros Hj Hnow Hs Hreq. unfold jwt_auth. rewrite Hreq.
  assert (E : request_claims seed now unmarshal_claims (sign_token seed header (claims_json json_float c)) = Some (reads c)).
  { unfold request_claims, VerifyAccessToken. rewrite verify_signed_token, Hj. cbn [result_bind].
    destruct (Z.ltb_spec (k_ExpiresAt c) (Unix now)); [lia|]. by destruct (Z.ltb_spec (Unix now) (k_NotBefore c)); [lia|]. }
  rewrite E. destruct (String.eqb (sign_token _ _ _) "") eqn:Et; [apply String.eqb_eq in Et; rewrite Et in E; done|].
  change (Subject (reads c)) with (k_Subject c). change (JWTRole (reads c)) with (k_Role c). change (Audience (reads c)) with (k_Audience c).
  rewrite (proj2 (String.eqb_neq (k_Subject c) "")) by done. by destruct (_ || _); [destruct (String.eqb (k_Audience c) _)|].
Qed.

(** The caller an account's token makes: no machine. *)
Lemma user_context a : String.eqb (ServiceAccountID a) "" = true → String.eqb (JWTRole (JWT a)) "service_role" = false →
  HasSuffix (Audience (JWT a)) ":service_account" = false → UserID a ≠ "" → UserID (WithAuthContext a) = UserID a.
Proof.
  intros Hi Hr Ha Hu. unfold WithAuthContext, IsServiceAccount. rewrite Hi, Hr, Ha. cbn [negb orb].
  rewrite (proj2 (String.eqb_neq (UserID a) "")) by done. by destruct (negb (String.eqb (Subject (JWT a)) "")).
Qed.

(** A sign-out token, which the server sends to the applications of third
    parties so that they end a session, is accepted as an access token of its
    subject while it has not expired: the caller it authenticates is the user. *)
Theorem sign_out_token_authenticates `{HL : HostLib} `{FL : Floats} {CR : Crypto} {CL : CryptoLaws} json_float seed keyID
    unmarshal_claims issuer subject sessionID clientID expirySeconds issued newID token hash handle request now :
  let claims := sign_out_claims issued newID issuer subject sessionID clientID expirySeconds in
  unmarshal_claims (claims_json json_float claims) = Some claims →
  GenerateSignOutToken json_float seed keyID issued newID issuer subject sessionID clientID expirySeconds = Some token →
  String.eqb subject "" = false → HasSuffix clientID ":service_account" = false → 0 <= Unix now <= k_ExpiresAt claims →
  ExtractRequestSessionToken request = token →
  UserID <$> jwt_auth (request_claims seed now unmarshal_claims) hash handle request = Some subject.
Proof.
  intros claims Hj. unfold GenerateSignOutToken. destruct (_ && _); [done|]. destruct (String.eqb clientID ""); [done|].
  intros [= <-] Hs Haud Hnow Hreq. apply String.eqb_neq in Hs. fold claims in Hreq. erewrite jwt_auth_signed; [|exact Hj|exact Hnow|exact Hs|exact Hreq].
  change (k_Role claims) with "". change (k_Audience claims) with clientID. change (k_Subject claims) with subject. rewrite Haud.
  change (String.eqb "" "service_role") with false. cbn [orb fmap option_fmap option_map]. f_equal. by apply user_context.
Qed.

(** ** Concrete instances, for the examples *)

(** A cipher and signatures that show what they protect. *)
Definition sample_tag : string := "0123456789abcdef".
Definition drop_tag (s : string) : string := (split_at (String.length s - gcm_tag_size) s).1.
Definition sample_crypto (accepts : string → bool) : Crypto := {|
  hkdf_sha256 key context := key ++ context;
  gcm_seal _ _ plaintext := plaintext ++ sample_tag;
  gcm_open _ _ sealed := Some (drop_tag sealed);
  ed25519_Sign seed message := seed ++ message;
  ed25519_Verify seed message signature := String.eqb signature (seed ++ message) && accepts message;
  hmac_sha256 key message := key ++ message;
|}.

Lemma split_at_length s t : split_at (String.length s) (s ++ t) = (s, t).
Proof. induction s as [|c s IH]; [done|]. rewrite append_cons. cbn [String.length split_at]. by rewrite IH. Qed.

Lemma sample_crypto_laws : @CryptoLaws (sample_crypto (λ _, true)).
Proof.
  split.
  - intros key nonce plaintext _. cbn. unfold drop_tag. rewrite length_append. cbn [String.length sample_tag].
    rewrite Nat.add_sub, split_at_length. done.
  - intros key nonce plaintext. cbn. by rewrite length_append.
  - intros seed message. cbn. by rewrite String.eqb_refl.
Qed.

Lemma field_round_trip_witness :
  let C := sample_crypto (λ _, true) in
  @DecryptField C "k" "enc:v1:aes256gcm:MDEyMzQ1Njc4OWFi:aGVsbG8:MDEyMzQ1Njc4OWFiY2RlZg" = Ok "hello".
Proof.
  apply (@field_round_trip _ sample_crypto_laws "k" "0123456789ab" "hello"); vm_compute; reflexivity.
Defined.

Local Existing Instance integer_floats.

(** The instant of a Unix time. *)
Definition unix_time (seconds : Z) : Z := (62135596800 + seconds) * Second.

Definition sample_user_claims : SignedClaims :=
  MkSignedClaims "u1" "s1" "" false "" false "" false "" "" 0 0 0 0 "" "" "" [] [].
Definition sample_access : SignedClaims := access_claims "acme" (unix_time 1000) "t1" sample_user_claims 900.
Definition sample_sign_out : SignedClaims := sign_out_claims (unix_time 1000) "t2" "https://acme" "u1" "s1" "crm" 0.
(** Reads the claims of the examples. *)
Definition sample_unmarshal (s : string) : option SignedClaims :=
  if String.eqb s (claims_json decimal sample_access) then Some sample_access
  else if String.eqb s (claims_json decimal sample_sign_out) then Some sample_sign_out else None.

Lemma access_token_window_witness :
  let C := sample_crypto (λ _, true) in
  let token := GenerateAccessToken decimal "seed" "" "acme" (unix_time 1000) "t1" sample_user_claims 900 in
  (∃ claims, VerifyAccessToken "seed" (unix_time 1900) sample_unmarshal token = Ok claims
     ∧ k_Subject claims = "u1" ∧ k_SessionID claims = "s1" ∧ k_ExpiresAt claims = 1900)
  ∧ VerifyAccessToken "seed" (unix_time 1901) sample_unmarshal token = Err TokenExpired
  ∧ VerifyAccessToken "seed" (unix_time 999) sample_unmarshal token = Err TokenNotYetValid.
Proof.
  assert (Hj : sample_unmarshal (claims_json decimal sample_access) = Some sample_access).
  { unfold sample_unmarshal. by rewrite String.eqb_refl. }
  intros C token.
  assert (Hwindow := λ now, access_token_window (FL := integer_floats) (CR := C) (CL := sample_crypto_laws) decimal
    "seed" sample_unmarshal "" "acme" "t1" sample_user_claims 900 (unix_time 1000) now eq_refl eq_refl eq_refl Hj).
  refine (conj _ (conj _ _)).
  - destruct (Hwindow (unix_time 1900)) as (_ & _ & Hok). destruct Hok as (claims & E & Hexp & _ & Hs & Hid & _);
      [split; apply Z.leb_le; reflexivity|]. exact (ex_intro _ claims (conj E (conj Hs (conj Hid Hexp)))).
  - apply (Hwindow (unix_time 1901)). reflexivity.
  - apply (Hwindow (unix_time 999)). reflexivity.
Defined.

Lemma only_issued_tokens_accepted_witness :
  let header := header_json "JWT" "layr-ed25519-v1" in let claims := claims_json decimal sample_access in
  let C := sample_crypto (String.eqb (signing_input header claims)) in
  ∃ h cl, (h, cl) ∈ [(header, claims)] ∧ sample_unmarshal cl = Some sample_access.
Proof.
  intros header claims C.
  destruct (only_issued_tokens_accepted (FL := integer_floats) (CR := C) "seed" sample_unmarshal [(header, claims)]) with
    (now := unix_time 1500) (token := @sign_token C "seed" header claims) (c := sample_access) as [Hissued _].
  - intros message signature [_ E%String.eqb_eq]%andb_true_iff. exists header, claims. split; [by apply list_elem_of_here|done].
  - reflexivity.
  - exact Hissued.
Defined.

Definition sample_logout_request (token : string) : Request :=
  MkRequest (λ name, if String.eqb name "Authorization" then "Bearer " ++ token else "") (λ _, None) "" no_auth.

Lemma substring_whole t : String.substring 0 (String.length t) t = t.
Proof. induction t as [|c t IH]; [done|]. cbn. by rewrite IH. Qed.

(** A bearer token is read back. *)
Lemma bearer_token_read token : plain token = true → token ≠ "" → ExtractRequestSessionToken (sample_logout_request token) = token.
Proof.
  intros Hp Hne. unfold ExtractRequestSessionToken, bearer. change (Header (sample_logout_request token) "Authorization") with ("Bearer " ++ token).
  assert (Hpre : HasPrefix (ToLower ("Bearer " ++ token)) "bearer " = true) by (by destruct token).
  rewrite Hpre. assert (Hs : slice_from 7 ("Bearer " ++ token) = token).
  { rewrite <- (substring_whole token) at 2. unfold slice_from. rewrite length_append.
    replace (String.length "Bearer " + String.length token - 7)%nat with (String.length token) by (cbn; lia). reflexivity. }
  rewrite Hs, TrimSpace_plain by done. by rewrite (proj2 (String.eqb_neq token "")).
Qed.

Lemma sign_out_token_authenticates_witness :
  let C := sample_crypto (λ _, true) in
  let token := @sign_token C "seed" (header_json "logout+jwt" "k1") (claims_json decimal sample_sign_out) in
  UserID <$> jwt_auth (request_claims "seed" (unix_time 1060) sample_unmarshal) (λ t, t) "acme" (sample_logout_request token)
  = Some "u1".
Proof.
  intros C token.
  apply (sign_out_token_authenticates (HL := sample_host) (FL := integer_floats) (CR := C) (CL := sample_crypto_laws) decimal
    "seed" "k1" sample_unmarshal "https://acme" "u1" "s1" "crm" 0 (unix_time 1000) "t2" token); try reflexivity.
  split; apply Z.leb_le; reflexivity.
Defined.
