(* ===== verification/AuthCodes.v ===== *)
(** * Credentials: auth/otp, auth/totp, auth/password and auth/phone.go

    One-time codes, time-based codes (RFC 6238), Argon2id password hashes in
    their PHC text, and the normal form of phone numbers.  Parameters are
    SHA-256 ([HostLib]), HMAC-SHA1 and Argon2id ([AuthCrypto]) with their
    documented laws ([AuthCryptoLaws]), and the Unicode tables of the Go
    release ([UnicodeTables], [CaseTables]). *)

From stdpp Require Import strings gmap.
From Stdlib Require Import ZArith Lia Ascii String.
From S2P Require Import Prelude GoStrings GoTime GoRunes Encodings Scopes ServiceAccounts.
Local Open Scope string_scope.
Local Open Scope Z_scope.

(** ** Case of a text *)

Class CaseTables := MkCaseTables { lower_table : rune → rune; upper_table : rune → rune }.

Section case.
Context `{CaseTables}.

Definition lower_rune (r : rune) : rune := if r <? 128 then if in_range 65 90 r then r + 32 else r else lower_table r.
Definition upper_rune (r : rune) : rune := if r <? 128 then if in_range 97 122 r then r - 32 else r else upper_table r.

(** [strings.ToLower] and [strings.ToUpper]: the runes of the text mapped. *)
Definition strings_ToLower (s : string) : string := encode (lower_rune <$> runes s).
Definition strings_ToUpper (s : string) : string := encode (upper_rune <$> runes s).
End case.

(** ** Parameters *)

Class AuthCrypto := MkAuthCrypto {
  hmac_sha1 : string → string → string;
  (** Password, salt, iterations, memory, parallelism and key length; [None]
      when the library panics. *)
  argon2_IDKey : string → string → Z → Z → Z → Z → option string;
}.

Class AuthCryptoLaws `{AuthCrypto} := {
  law_hmac_sha1 : ∀ key message, String.length (hmac_sha1 key message) = 20%nat;
  law_argon2 : ∀ password salt iterations memory parallelism keyLength,
    1 <= iterations → 1 <= parallelism → 1 <= keyLength →
    ∃ key, argon2_IDKey password salt iterations memory parallelism keyLength = Some key
      ∧ Z.of_nat (String.length key) = keyLength;
}.

(** [fmt.Sprintf("%06d", n)] for a number that is not negative. *)
Definition zeros (n : nat) : string := string_of_list_ascii (replicate n "0"%char).
Definition pad6 (n : Z) : string := zeros (6 - String.length (decimal n)) ++ decimal n.

(** ** auth/otp *)

Definition CodeTTL : Z := 15 * Minute.
Definition MaxAttempts : Z := 5.
Definition MaxCodeLimit : Z := 1000000.

(** [random] is the number below the limit the reader gives, or its failure. *)
Definition GenerateOTPCode (random : option Z) : option string := pad6 <$> random.

Section otp.
Context `{HostLib}.

Definition HashCode (code : string) : string := hex_EncodeToString (sha256_Sum256 (TrimSpace code)).
Definition VerifyCode (inputCode storedHash : string) : bool := String.eqb (HashCode inputCode) storedHash.
Definition IsExpired (now expiresAt : Z) : bool := expiresAt <? now.
End otp.

(** ** auth/totp *)

Record TOTPManager := MkTOTPManager { issuer : string; periodSeconds : Z; digits : Z }.

Definition NewTOTPManager (issuer : string) : TOTPManager :=
  MkTOTPManager (if String.eqb issuer "" then "Layr" else issuer) 30 6.

Inductive TOTPError := InvalidBase32Secret | NoRandomSecret | IndexOutOfRange.

(** The time of a Unix second. *)
Definition time_Unix (seconds : Z) : Z := (seconds + 62135596800) * Second.

(** [binary.BigEndian.PutUint64]. *)
Definition be64 (n : Z) : string :=
  string_of_list_ascii ((λ k, byte_of (Z.land (Z.shiftr n k) 255)) <$> [56; 48; 40; 32; 24; 16; 8; 0]).

Definition text_bytes (s : string) : list Z := byte_val <$> list_ascii_of_string s.

(** [binary.BigEndian.Uint32(l[offset:offset+4])]. *)
Definition be32_at (l : list Z) (offset : Z) : option Z :=
  match drop (Z.to_nat offset) l with
  | a :: b :: c :: d :: _ => Some (Z.lor (Z.lor (Z.shiftl a 24) (Z.shiftl b 16)) (Z.lor (Z.shiftl c 8) d))
  | _ => None
  end.

Section totp.
Context `{CaseTables} `{AuthCrypto}.

Definition GenerateSecret (random : option string) : result TOTPError string :=
  match random with None => Err NoRandomSecret | Some secretBytes => Ok (base32_encode secretBytes) end.

(** Dynamic truncation of the digest. *)
Definition truncated (hash : list Z) : option Z :=
  final ← list.last hash;
  value ← be32_at hash (Z.land final 15);
  Some (Z.land value (2 ^ 31 - 1) mod 1000000).

Definition GenerateTOTPCode (m : TOTPManager) (secretBase32 : string) (atTime : Z) : result TOTPError string :=
  match base32_decode (strings_ToUpper (TrimSpace secretBase32)) with
  | None => Err InvalidBase32Secret
  | Some secretKey =>
      let counter := Z.quot (Unix atTime) (periodSeconds m) mod 2 ^ 64 in
      match truncated (text_bytes (hmac_sha1 secretKey (be64 counter))) with
      | None => Err IndexOutOfRange
      | Some codeValue => Ok (pad6 codeValue)
      end
  end.

(** The steps from [step] on, [n] of them: the first whose code is [code]. *)
Fixpoint validate_steps (m : TOTPManager) (secretBase32 code : string) (currentStep step : Z) (n : nat) : bool :=
  match n with
  | O => false
  | S n =>
      match GenerateTOTPCode m secretBase32 (time_Unix (wrap64 (wrap64 (currentStep + step) * periodSeconds m))) with
      | Err _ => false
      | Ok expectedCode =>
          if String.eqb code expectedCode then true
          else validate_steps m secretBase32 code currentStep (step + 1) n
      end
  end.

Definition ValidateCode (m : TOTPManager) (secretBase32 code : string) (atTime skewSteps : Z) : bool :=
  let code := TrimSpace code in
  if negb (Z.of_nat (String.length code) =? digits m) then false else
  let skewSteps := if skewSteps <? 0 then 1 else skewSteps in
  validate_steps m secretBase32 code (Z.quot (Unix atTime) (periodSeconds m)) (- skewSteps) (Z.to_nat (2 * skewSteps + 1)).
End totp.

(** ** auth/password *)

Definition DefaultMemory : Z := 64 * 1024.
Definition DefaultIterations : Z := 3.
Definition DefaultParallelism : Z := 4.
Definition DefaultSaltLength : Z := 16.
Definition DefaultKeyLength : Z := 32.
Definition argon2_Version : Z := 19.

Inductive PasswordError :=
| NoRandomSalt | InvalidHashFormat | IncompatibleHashType | UnsupportedVersion | InvalidParameters | InvalidParameterFormat
| InvalidMemory | InvalidIterations | InvalidParallelism | InvalidSaltBase64 | InvalidHashBase64 | Argon2Panics.

(** [strconv.ParseUint(s, 10, bits)]. *)
Definition ParseUint (s : string) (bits : Z) : option Z :=
  n ← unsigned_digits s; if n <? 2 ^ bits then Some n else None.

(** The digits at the head of a text. *)
Fixpoint digit_prefix (s : string) : string :=
  match s with
  | String c s => match digit_of c with Some _ => String c (digit_prefix s) | None => "" end
  | EmptyString => ""
  end.

(** The integer [%d] reads at the head of a text: spaces without line ends
    are skipped, a sign is allowed, and what follows the digits is left. *)
Definition scan_d (s : string) : option Z :=
  let t := trim_left s in
  if negb (lacks (byte 10) (take_str (String.length s - String.length t) s)) then None else
  z ← match t with
      | String "-" rest => Z.opp <$> unsigned_digits (digit_prefix rest)
      | String "+" rest => unsigned_digits (digit_prefix rest)
      | _ => unsigned_digits (digit_prefix t)
      end;
  if in_int64 z then Some z else None.

(** [fmt.Sscanf(s, "v=%d", &version)]. *)
Definition scan_version (s : string) : option Z := rest ← strip_prefix "v=" s; scan_d rest.

Record ArgonParameters := MkArgonParameters { ap_memory : Z; ap_iterations : Z; ap_parallelism : Z }.

(** One round of the loop over the parameters. *)
Definition read_parameter (p : ArgonParameters) (parameter : string) : result PasswordError ArgonParameters :=
  match Split parameter "=" with
  | [key; value] =>
      if String.eqb key "m" then
        match ParseUint value 32 with
        | None => Err InvalidMemory | Some v => Ok (MkArgonParameters v (ap_iterations p) (ap_parallelism p)) end
      else if String.eqb key "t" then
        match ParseUint value 32 with
        | None => Err InvalidIterations | Some v => Ok (MkArgonParameters (ap_memory p) v (ap_parallelism p)) end
      else if String.eqb key "p" then
        match ParseUint value 8 with
        | None => Err InvalidParallelism | Some v => Ok (MkArgonParameters (ap_memory p) (ap_iterations p) v) end
      else Ok p
  | _ => Err InvalidParameterFormat
  end.

Fixpoint read_parameters (p : ArgonParameters) (l : list string) : result PasswordError ArgonParameters :=
  match l with
  | [] => Ok p
  | parameter :: l => (let! p' := read_parameter p parameter in read_parameters p' l)%go
  end.

Section password.
Context `{AuthCrypto}.

(** The PHC text of a hash. *)
Definition phc_text (salt hash : string) : string :=
  "$argon2id$v=" ++ decimal argon2_Version ++ "$m=" ++ decimal DefaultMemory ++ ",t=" ++ decimal DefaultIterations
    ++ ",p=" ++ decimal DefaultParallelism ++ "$" ++ base64_encode std_alphabet salt ++ "$" ++ base64_encode std_alphabet hash.

(** [random] is the salt the reader gives, or its failure. *)
Definition HashPassword (random : option string) (plainPassword : string) : result PasswordError string :=
  match random with
  | None => Err NoRandomSalt
  | Some salt =>
      match argon2_IDKey plainPassword salt DefaultIterations DefaultMemory DefaultParallelism DefaultKeyLength with
      | None => Err Argon2Panics
      | Some hash => Ok (phc_text salt hash)
      end
  end.

Definition VerifyPassword (plainPassword encodedHash : string) : result PasswordError bool :=
  match Split encodedHash "$" with
  | [_; kind; version; parameters; salt64; hash64] =>
      if negb (String.eqb kind "argon2id") then Err IncompatibleHashType
      else if negb (bool_decide (scan_version version = Some argon2_Version)) then Err UnsupportedVersion
      else let parameterSegments := Split parameters "," in
        if negb (List.length parameterSegments =? 3)%nat then Err InvalidParameters else
        (let! p := read_parameters (MkArgonParameters 0 0 0) parameterSegments in
         match base64_decode std_alphabet salt64 with
         | None => Err InvalidSaltBase64
         | Some salt =>
             match base64_decode std_alphabet hash64 with
             | None => Err InvalidHashBase64
             | Some expectedHash =>
                 match argon2_IDKey plainPassword salt (ap_iterations p) (ap_memory p) (ap_parallelism p)
                         (Z.of_nat (String.length expectedHash) mod 2 ^ 32) with
                 | None => Err Argon2Panics
                 | Some computedHash => Ok (String.eqb computedHash expectedHash)
                 end
             end
         end)%go
  | _ => Err InvalidHashFormat
  end.

(** [ok, err := hasher.Verify(...)]: no error and a match. *)
Definition password_ok (plainPassword encodedHash : string) : bool :=
  match VerifyPassword plainPassword encodedHash with Ok ok => ok | Err _ => false end.
End password.

(** ** auth/phone.go *)

Definition minPhoneDigits : nat := 8.
Definition maxPhoneDigits : nat := 15.

(** Space, tab, line ends, hyphen, parentheses and dot. *)
Definition phone_separator (r : rune) : bool := bool_decide (r ∈ [32; 9; 13; 10; 45; 40; 41; 46]).

Section phone.
Context `{UnicodeTables}.

(** The digits of the loop, in order; [None] when another character stops it. *)
Fixpoint phone_digits (l : list rune) : option (list rune) :=
  match l with
  | [] => Some []
  | character :: l =>
      if phone_separator character then phone_digits l
      else if IsDigit character then cons character <$> phone_digits l
      else None
  end.

(** [None] is [ErrInvalidPhone]. *)
Definition NormalizePhone (rawPhone : string) : option string :=
  match TrimSpace rawPhone with
  | String "+" rest =>
      ds ← phone_digits (runes rest);
      if (List.length ds <? minPhoneDigits)%nat || (maxPhoneDigits <? List.length ds)%nat then None
      else Some ("+" ++ encode ds)
  | _ => None
  end.
End phone.

(** ** Codes of six digits *)

Lemma dec_digits_length fuel n acc k : 0 <= n < 10 ^ Z.of_nat k → (0 < k)%nat →
  (String.length (dec_digits fuel n acc) <= k + String.length acc)%nat.
Proof.
  revert n acc k. induction fuel as [|f IH]; intros n acc k Hn Hk; cbn [dec_digits]; [lia|].
  destruct (Z.eqb_spec (n / 10) 0) as [E|E]; [cbn [String.length]; lia|].
  destruct k as [|k]; [lia|]. rewrite Nat2Z.inj_succ, Z.pow_succ_r in Hn by lia.
  assert (0 <= n / 10 < 10 ^ Z.of_nat k) as Hn'.
  { split; [apply Z.div_pos; lia|]. apply Z.div_lt_upper_bound; lia. }
  destruct k as [|k]; [cbn in Hn'; lia|].
  specialize (IH (n / 10) (String (digit_char (n mod 10)) acc) (S k) Hn'). cbn [String.length] in IH. lia.
Qed.

Lemma zeros_length n : String.length (zeros n) = n.
Proof. induction n as [|n IH]; [done|]. unfold zeros in *. cbn. by rewrite IH. Qed.

Lemma zeros_plain n : plain (zeros n) = true.
Proof. unfold plain, zeros. induction n as [|n IH]; [done|]. cbn. by rewrite IH. Qed.

Lemma pad6_length n : 0 <= n < MaxCodeLimit → String.length (pad6 n) = 6%nat.
Proof.
  intros Hn. unfold pad6. rewrite length_append, zeros_length.
  assert (String.length (decimal n) <= 6)%nat; [|lia].
  unfold decimal. destruct (Z.ltb_spec n 0); [lia|].
  pose proof (dec_digits_length 20 n "" 6 Hn). cbn [String.length] in *. lia.
Qed.

Lemma pad6_plain n : plain (pad6 n) = true.
Proof. unfold plain, pad6. rewrite all_chars_app. apply andb_true_iff. split; [apply zeros_plain|apply decimal_plain]. Qed.

(** ** The window of time-based codes *)

Section totp_laws.
Context `{CaseTables} `{AuthCryptoLaws}.

Lemma length_text_bytes s : List.length (text_bytes s) = String.length s.
Proof. unfold text_bytes. rewrite length_fmap. induction s as [|c s IH]; [done|]. cbn. by rewrite IH. Qed.

(** The digest of 20 bytes has four bytes at every offset below 16. *)
Lemma truncated_total key message : ∃ v, truncated (text_bytes (hmac_sha1 key message)) = Some v ∧ 0 <= v < MaxCodeLimit.
Proof.
  set (l := text_bytes _). assert (Hl : List.length l = 20%nat) by (unfold l; by rewrite length_text_bytes, law_hmac_sha1).
  unfold truncated. destruct (list.last l) as [final|] eqn:El; [|apply last_None in El; by rewrite El in Hl]. cbn [mbind option_bind].
  assert (Ho : 0 <= Z.land final 15 < 16).
  { change 15 with (Z.ones 4). rewrite Z.land_ones by lia. apply Z.mod_pos_bound. lia. }
  unfold be32_at. set (o := Z.land final 15) in *.
  assert (4 <= List.length (drop (Z.to_nat o) l))%nat as Hd by (rewrite length_drop, Hl; lia).
  destruct (drop _ _) as [|a [|b [|c [|d rest]]]]; cbn in Hd; try lia.
  eexists. split; [reflexivity|]. apply Z.mod_pos_bound. unfold MaxCodeLimit. lia.
Qed.

(** A readable secret has a code of six digits at every instant, which
    depends only on the step of the instant. *)
Lemma GenerateTOTPCode_total m secret key t : base32_decode (strings_ToUpper (TrimSpace secret)) = Some key →
  ∃ v, GenerateTOTPCode m secret t = Ok (pad6 v) ∧ 0 <= v < MaxCodeLimit.
Proof.
  intros Hk. unfold GenerateTOTPCode. rewrite Hk. edestruct (truncated_total key) as (v & -> & Hv). eauto.
Qed.

Lemma GenerateTOTPCode_step m secret t t' : Z.quot (Unix t) (periodSeconds m) = Z.quot (Unix t') (periodSeconds m) →
  GenerateTOTPCode m secret t = GenerateTOTPCode m secret t'.
Proof. intros E. unfold GenerateTOTPCode. by rewrite E. Qed.

Lemma Unix_time_Unix s : Unix (time_Unix s) = s.
Proof. unfold Unix, time_Unix. rewrite Z.div_mul by done. lia. Qed.

Lemma validate_steps_spec m secret key code current n : ∀ step,
  base32_decode (strings_ToUpper (TrimSpace secret)) = Some key →
  validate_steps m secret code current step n = true ↔
  ∃ d, step <= d < step + Z.of_nat n
    ∧ GenerateTOTPCode m secret (time_Unix (wrap64 (wrap64 (current + d) * periodSeconds m))) = Ok code.
Proof.
  induction n as [|n IH]; intros step Hk; cbn [validate_steps].
  - split; [done|]. intros (d & Hd & _). lia.
  - destruct (GenerateTOTPCode_total m secret key (time_Unix (wrap64 (wrap64 (current + step) * periodSeconds m))) Hk) as (v & E & _).
    rewrite E. destruct (String.eqb_spec code (pad6 v)) as [->|Hne].
    + split; [|done]. intros _. exists step. split; [lia|done].
    + rewrite IH by done. split; intros (d & Hd & Hg).
      * exists d. split; [lia|done].
      * exists d. split; [|done]. assert (d ≠ step) by congruence. lia.
Qed.

(** A code is accepted exactly when it is, up to surrounding spaces, the code
    of some instant whose 30-second step is the current one, the one before
    or the one after: the skew window is three steps wide and no wider. *)
Theorem totp_window i secret key code now : base32_decode (strings_ToUpper (TrimSpace secret)) = Some key →
  30 <= Unix now < 2 ^ 62 →
  ValidateCode (NewTOTPManager i) secret code now 1 = true ↔
  ∃ t, 0 <= Unix t ∧ Z.abs (Unix t / 30 - Unix now / 30) <= 1
    ∧ GenerateTOTPCode (NewTOTPManager i) secret t = Ok (TrimSpace code).
Proof.
  intros Hk Hnow. set (m := NewTOTPManager i). assert (Hp : periodSeconds m = 30) by done.
  assert (Hq : Z.quot (Unix now) 30 = Unix now / 30) by (apply Z.quot_div_nonneg; lia).
  pose proof (Z.div_mod (Unix now) 30 ltac:(lia)). pose proof (Z.mod_pos_bound (Unix now) 30 ltac:(lia)).
  assert (Hs : ∀ d, -1 <= d < 2 → wrap64 (wrap64 (Unix now / 30 + d) * 30) = (Unix now / 30 + d) * 30).
  { intros d Hd. rewrite (wrap64_id (Unix now / 30 + d)) by (unfold int64_min, int64_max; lia). apply wrap64_id. unfold int64_min, int64_max. lia. }
  unfold ValidateCode. change (digits m) with 6. rewrite Hp, Hq. destruct (Z.eqb_spec (Z.of_nat (String.length (TrimSpace code))) 6) as [Hl|Hl]; cbn [negb].
  - change (if 1 <? 0 then 1 else 1) with 1. change (Z.to_nat (2 * 1 + 1)) with 3%nat. rewrite (validate_steps_spec m secret key) by done.
    split.
    + intros (d & Hd & Hg). rewrite Hp, Hs in Hg by lia. eexists. split; [|split; [|exact Hg]]; rewrite Unix_time_Unix; [lia|].
      rewrite Z.div_mul by lia. lia.
    + intros (t & Ht & Hd & Hg). exists (Unix t / 30 - Unix now / 30). split; [lia|]. rewrite <- Hg. apply GenerateTOTPCode_step.
      rewrite Hp, Hs, Unix_time_Unix by lia. rewrite Z.quot_mul by lia. rewrite Z.quot_div_nonneg by lia. lia.
  - split; [done|]. intros (t & _ & _ & Hg). destruct (GenerateTOTPCode_total m secret key t Hk) as (v & E & Hv).
    rewrite E in Hg. injection Hg as Hg. by rewrite <- Hg, (pad6_length v Hv) in Hl.
Qed.
End totp_laws.

(** ** Passwords *)

Section password_laws.
Context `{AuthCryptoLaws}.

Lemma std_base64_lacks (sep : ascii) s : sep = "$"%char → lacks sep (base64_encode std_alphabet s) = true.
Proof. intros ->. apply encode_chars; [lia|]. by vm_compute. Qed.

Lemma std_base64_round_trip s : base64_decode std_alphabet (base64_encode std_alphabet s) = Some s.
Proof. apply base64_round_trip, std_alphabet_ok. Qed.

(** Reading back the text of a hash leaves the comparison of the keys. *)
Lemma VerifyPassword_phc attempt salt hash :
  VerifyPassword attempt (phc_text salt hash) =
  match argon2_IDKey attempt salt DefaultIterations DefaultMemory DefaultParallelism (Z.of_nat (String.length hash) mod 2 ^ 32) with
  | None => Err Argon2Panics
  | Some computedHash => Ok (String.eqb computedHash hash)
  end.
Proof.
  unfold VerifyPassword, phc_text.
  set (salt64 := base64_encode std_alphabet salt). set (hash64 := base64_encode std_alphabet hash).
  assert (E : Split ("$argon2id$v=" ++ decimal argon2_Version ++ "$m=" ++ decimal DefaultMemory ++ ",t=" ++ decimal DefaultIterations
    ++ ",p=" ++ decimal DefaultParallelism ++ "$" ++ salt64 ++ "$" ++ hash64) "$"
    = [""; "argon2id"; "v=19"; "m=65536,t=3,p=4"; salt64; hash64]).
  { change (_ ++ _) with ("" ++ String "$" ("argon2id" ++ String "$" ("v=19" ++ String "$" ("m=65536,t=3,p=4" ++ String "$" (salt64 ++ String "$" hash64))))).
    do 4 (rewrite Split_app by done). rewrite Split_app by (by apply std_base64_lacks). by rewrite Split_lacks by (by apply std_base64_lacks). }
  rewrite E. assert (Hv : scan_version "v=19" = Some argon2_Version) by done. rewrite Hv, bool_decide_eq_true_2 by done.
  change (String.eqb "argon2id" "argon2id") with true. cbn [negb].
  assert (Hs : Split "m=65536,t=3,p=4" "," = ["m=65536"; "t=3"; "p=4"]) by done. rewrite Hs. cbn [List.length Nat.eqb negb].
  assert (Hp : read_parameters (MkArgonParameters 0 0 0) ["m=65536"; "t=3"; "p=4"] = Ok (MkArgonParameters 65536 3 4)) by done.
  rewrite Hp. cbn [result_bind ap_iterations ap_memory ap_parallelism]. subst salt64 hash64. by rewrite !std_base64_round_trip.
Qed.

(** A password always hashes (a salt given), its hash verifies it, and
    another password verifies against the hash exactly when Argon2id derives
    the same key from it under the salt of the hash. *)
Theorem password_hash_verifies salt password :
  ∃ h, HashPassword (Some salt) password = Ok h ∧ VerifyPassword password h = Ok true
  ∧ ∀ attempt, VerifyPassword attempt h = Ok true ↔
      argon2_IDKey attempt salt DefaultIterations DefaultMemory DefaultParallelism DefaultKeyLength
      = argon2_IDKey password salt DefaultIterations DefaultMemory DefaultParallelism DefaultKeyLength.
Proof.
  destruct (law_argon2 password salt DefaultIterations DefaultMemory DefaultParallelism DefaultKeyLength) as (key & Ek & Hl); [done..|].
  exists (phc_text salt key). unfold HashPassword. rewrite Ek. split; [done|].
  assert (Hattempt : ∀ attempt, VerifyPassword attempt (phc_text salt key) = Ok true ↔
    argon2_IDKey attempt salt DefaultIterations DefaultMemory DefaultParallelism DefaultKeyLength = Some key).
  { intros attempt. rewrite VerifyPassword_phc, Hl. change (DefaultKeyLength mod 2 ^ 32) with DefaultKeyLength.
    destruct (argon2_IDKey attempt _ _ _ _ _) as [k|]; [|done]. split.
    - intros [= E%String.eqb_eq]. by rewrite E.
    - intros [= ->]. by rewrite String.eqb_refl. }
  split; [by apply Hattempt|done].
Qed.
End password_laws.

(** ** Phone numbers *)

Section phone_laws.
Context `{UnicodeTables}.

Lemma phone_digits_spec l ds : phone_digits l = Some ds →
  ds = filter (λ r, phone_separator r = false) l ∧ Forall (λ r, IsDigit r = true ∧ phone_separator r = false) ds.
Proof.
  revert ds. induction l as [|r l IH]; intros ds; cbn [phone_digits]; [by intros [= <-]|].
  destruct (phone_separator r) eqn:Es.
  - intros E. rewrite filter_cons_False by congruence. by apply IH.
  - destruct (IsDigit r) eqn:Ed; [|done]. destruct (phone_digits l) as [ds'|]; [|done]. intros [= <-].
    destruct (IH ds' eq_refl) as [-> Hds]. split; [by rewrite filter_cons_True|by constructor].
Qed.

(** Digits are kept by a second reading. *)
Lemma phone_digits_digits ds : Forall (λ r, IsDigit r = true ∧ phone_separator r = false) ds → phone_digits ds = Some ds.
Proof. induction 1 as [|r ds [Hd Hs] Hds IH]; [done|]. cbn [phone_digits]. by rewrite Hs, Hd, IH. Qed.

(** ASCII digits as text. *)
Lemma encode_ascii_digits ds : Forall (λ r, 48 <= r <= 57) ds →
  plain (encode ds) = true ∧ runes (encode ds) = ds.
Proof.
  intros Hds. assert (Hall : all_chars (λ c, byte_val c <? 128) (encode ds) = true
    ∧ plain (encode ds) = true ∧ byte_val <$> list_ascii_of_string (encode ds) = ds).
  { induction Hds as [|r ds Hr Hds (IH1 & IH2 & IH3)]; [done|].
    assert (E : encode (r :: ds) = String (byte_of r) (encode ds)).
    { cbn [encode]. unfold encode_rune, is_scalar, encode_scalar. rewrite !(proj2 (Z.leb_le _ _)) by lia.
      rewrite (proj2 (Z.leb_gt 55296 r)) by lia. cbn [andb negb]. by rewrite (proj2 (Z.ltb_lt r 128)) by lia. }
    rewrite E. assert (Hb : byte_val (byte_of r) = r) by (apply byte_val_of; lia).
    unfold plain in *. cbn [all_chars list_ascii_of_string fmap list_fmap]. rewrite Hb, IH1, IH2. split; [|split].
    - rewrite andb_true_r. apply Z.ltb_lt. lia.
    - rewrite andb_true_r. unfold plain_char. unfold byte_val in Hb. apply andb_true_iff. split; apply Nat.leb_le; lia.
    - f_equal. apply IH3. }
  destruct Hall as (H1 & H2 & H3). split; [done|]. by rewrite runes_ascii.
Qed.

(** A phone number is normalised to a plus sign and its 8 to 15 digits, in
    order and without the separators it was written with; when the number is
    written in ASCII, normalising the result again changes nothing. *)
Theorem NormalizePhone_canonical raw phone : NormalizePhone raw = Some phone →
  ∃ rest ds, TrimSpace raw = String "+" rest ∧ phone = "+" ++ encode ds
    ∧ ds = filter (λ r, phone_separator r = false) (runes rest)
    ∧ Forall (λ r, IsDigit r = true) ds ∧ (8 <= List.length ds <= 15)%nat
    ∧ (Forall (λ r, r < 128) ds → NormalizePhone phone = Some phone).
Proof.
  unfold NormalizePhone at 1. destruct (TrimSpace raw) as [|c rest]; [done|].
  destruct (ascii_dec c "+") as [->|Hc]; [|by destruct c as [[] [] [] [] [] [] [] []]].
  destruct (phone_digits (runes rest)) as [ds|] eqn:Ed; [|done]. cbn [mbind option_bind].
  destruct (Nat.ltb_spec (List.length ds) minPhoneDigits) as [|Hmin]; [done|].
  destruct (Nat.ltb_spec maxPhoneDigits (List.length ds)) as [|Hmax]; [done|]. intros [= <-].
  apply phone_digits_spec in Ed as [Ef Hds]. exists rest, ds. unfold minPhoneDigits, maxPhoneDigits in *.
  split; [done|]. split; [done|]. split; [done|]. split; [by eapply list.Forall_impl; [exact Hds|intros r []]|]. split; [lia|].
  intros Hascii. assert (H48 : Forall (λ r, 48 <= r <= 57) ds).
  { apply list.Forall_forall. intros r Hr. rewrite list.Forall_forall in Hds. rewrite list.Forall_forall in Hascii.
    specialize (Hascii r Hr). destruct (Hds r Hr) as [Hd _]. unfold IsDigit in Hd. rewrite (proj2 (Z.ltb_lt r 128)) in Hd by lia.
    unfold in_range in Hd. apply andb_true_iff in Hd as [?%Z.leb_le ?%Z.leb_le]. lia. }
  destruct (encode_ascii_digits ds H48) as [Hplain Hrunes]. unfold NormalizePhone.
  rewrite TrimSpace_plain by done. change ("+" ++ encode ds) with (String "+" (encode ds)). cbv beta iota. rewrite Hrunes, phone_digits_digits by done. cbn [mbind option_bind].
  unfold minPhoneDigits, maxPhoneDigits. by rewrite (proj2 (Nat.ltb_ge _ _) Hmin), (proj2 (Nat.ltb_ge _ _) Hmax).
Qed.
End phone_laws.

(** ** Concrete instances, for the examples *)

(** The first [n] characters of a text padded with zeros. *)
Definition fixed (n : nat) (s : string) : string := take_str n (s ++ zeros n).

Lemma fixed_length n s : String.length (fixed n s) = n.
Proof.
  unfold fixed. assert (Hlen : (n <= String.length (s ++ zeros n))%nat) by (rewrite length_append, zeros_length; lia).
  revert Hlen. generalize (s ++ zeros n). clear s. induction n as [|n IH]; intros [|c s]; cbn; intros; try lia. by rewrite IH by lia.
Qed.

Definition sample_case : CaseTables := MkCaseTables (λ r, r) (λ r, r).
(** The key of a password is its head, the digest of a counter its text. *)
Definition sample_auth_crypto : AuthCrypto := {|
  hmac_sha1 key message := fixed 20 (message ++ key);
  argon2_IDKey password salt iterations _ parallelism keyLength :=
    if (iterations <? 1) || (parallelism <? 1) || (keyLength <? 1) then None
    else Some (fixed (Z.to_nat keyLength) (password ++ salt));
|}.

Lemma sample_auth_crypto_laws : @AuthCryptoLaws sample_auth_crypto.
Proof.
  split.
  - intros key message. apply fixed_length.
  - intros password salt iterations memory parallelism keyLength Hi Hp Hk. cbn.
    rewrite !(proj2 (Z.ltb_ge _ _)) by lia. eexists. split; [reflexivity|]. rewrite fixed_length. lia.
Qed.

(** The code of 10:00:05 is accepted at 10:00:31, and no longer at 10:01:00. *)
Lemma totp_window_witness :
  let C := sample_auth_crypto in let K := sample_case in
  let now := time_Unix 36031 in
  ∃ code, GenerateTOTPCode (NewTOTPManager "") "MZXW6YQ" (time_Unix 36005) = Ok code
    ∧ ValidateCode (NewTOTPManager "") "MZXW6YQ" code now 1 = true.
Proof.
  intros C K now.
  eexists. split; [vm_compute; reflexivity|].
  apply (@totp_window K C sample_auth_crypto_laws "" "MZXW6YQ" "foob"); [vm_compute; reflexivity|by vm_compute|].
  exists (time_Unix 36005). split; [by vm_compute|]. split; [by vm_compute|]. vm_compute. reflexivity.
Defined.

Lemma password_hash_verifies_witness :
  ∃ h, @HashPassword sample_auth_crypto (Some "0123456789abcdef") "secret" = Ok h
    ∧ @VerifyPassword sample_auth_crypto "secret" h = Ok true ∧ @VerifyPassword sample_auth_crypto "Secret" h ≠ Ok true.
Proof.
  destruct (@password_hash_verifies sample_auth_crypto sample_auth_crypto_laws "0123456789abcdef" "secret") as (h & Hh & Hv & Hiff).
  exists h. split; [exact Hh|]. split; [exact Hv|]. intros Hs. apply Hiff in Hs. vm_compute in Hs. discriminate.
Defined.

Lemma NormalizePhone_canonical_witness :
  @NormalizePhone ascii_tables " +1 (555) 010-2030" = Some "+15550102030"
  ∧ ∃ ds, "+15550102030" = "+" ++ encode ds ∧ (8 <= List.length ds <= 15)%nat.
Proof.
  assert (E : @NormalizePhone ascii_tables " +1 (555) 010-2030" = Some "+15550102030") by reflexivity.
  split; [exact E|]. destruct (NormalizePhone_canonical _ _ E) as (rest & ds & _ & E' & _ & _ & Hl & _).
  exists ds. split; [exact E'|exact Hl].
Defined.

(** Digits of other scripts are kept as they are: the number of an account
    depends on the script it was typed in, and is not E.164. *)
Example phone_digits_of_other_scripts :
  let U := MkUnicodeTables (λ _, false) (λ r, in_range 1632 1641 r) in
  let arabic := encode [1633; 1637; 1637; 1637; 1632; 1633; 1632; 1634; 1632; 1635; 1632] in
  NormalizePhone ("+" ++ arabic) = Some ("+" ++ arabic) ∧ NormalizePhone "+15550102030" = Some "+15550102030".
Proof. split; reflexivity. Qed.
