(* ===== verification/DDL.v ===== *)
(** * data/ddl.go: statements that change the schema

    The engine behind the schema routes of the control plane.  It checks names,
    builds one SQL text for an operation, or several inside a transaction, and
    runs them.  Texts are built as the code builds them; the database that runs
    them is a parameter, which refuses a statement or is changed by it.

    To say what a text means there is a reader for the lexical structure of SQL:
    words, quoted names, literals, comments to the end of a line and
    punctuation.  It has no reading for other comments, dollar quotes and
    backslash escapes.  The theorems show that the
    statements of an operation read, token for token, as those it asks for,
    whatever bytes the names hold, and each as one statement, as long as the
    types, defaults and expressions that go into it unquoted can be read
    themselves and types have no semicolon; that no
    operation names a protected schema; and that altering a column is all or
    nothing. *)

From stdpp Require Import strings.
From Stdlib Require Import ZArith Lia Ascii String.
From S2P Require Import Prelude GoStrings GoRunes SqlText AuthCodes.
Local Open Scope string_scope.
Local Open Scope Z_scope.
Local Open Scope go_scope.

(** ** Names and types *)

Definition protectedSchemas : list string :=
  ["system"; "core"; "auth"; "data"; "file_storage"; "tasks"; "image"; "function"; "console"; "information_schema";
   "pg_catalog"; "pg_toast"].

Fixpoint double_quotes (s : string) : string :=
  match s with
  | EmptyString => EmptyString
  | String c s => if byte_val c =? 34 then String c (String c (double_quotes s)) else String c (double_quotes s)
  end.
Definition quoteIdent (identifier : string) : string := dq (double_quotes identifier).

(** What must not be in a text that goes into a statement unquoted. *)
Definition forbidden (s : string) : bool := Contains s ";" || Contains s "--" || Contains s "/*".

Definition sanitizeDefaultValue (raw : string) : option string :=
  let trimmed := TrimSpace raw in
  if String.eqb trimmed "" || forbidden trimmed then None else Some trimmed.

Definition plain_types : list string :=
  ["uuid"; "text"; "varchar"; "integer"; "int"; "bigint"; "smallint"; "boolean"; "bool"; "timestamptz"; "timestamp";
   "timestamp with time zone"; "timestamp without time zone"; "date"; "time"; "jsonb"; "json"; "numeric"; "float8"; "real"; "bytea"].

Section names.
Context `{CT : CaseTables}.

Definition IsProtectedSchema (schema : string) : bool := existsb (String.eqb (strings_ToLower (TrimSpace schema))) protectedSchemas.

Definition sanitizeType (raw : string) : string :=
  let lower := strings_ToLower (TrimSpace raw) in
  if existsb (String.eqb lower) plain_types then lower
  else if HasPrefix lower "varchar(" && HasSuffix lower ")" then lower
  else if HasPrefix lower "numeric(" && HasSuffix lower ")" then lower
  else "text".

Definition sanitizeAction (action : string) : string :=
  let upper := strings_ToUpper (TrimSpace action) in
  if existsb (String.eqb upper) ["CASCADE"; "SET NULL"; "RESTRICT"; "NO ACTION"; "SET DEFAULT"] then upper else "NO ACTION".
End names.

(** ** Operations *)

Record Column := MkColumn {
  col_Name : string; col_Type : string; col_IsNullable : bool; col_DefaultValue : option string; col_IsPrimaryKey : bool;
  col_IsUnique : bool }.
Record ForeignKey := MkForeignKey {
  fk_Column : string; fk_ForeignSchema : string; fk_ForeignTable : string; fk_ForeignColumn : string; fk_OnDelete : string;
  fk_OnUpdate : string }.
Record CreateTableInput := MkCreateTableInput {
  ct_Schema : string; ct_Name : string; ct_PrimaryKeyName : string; ct_Columns : list Column; ct_ForeignKeys : list ForeignKey }.
Record UpdateColumnInput := MkUpdateColumnInput {
  uc_NewName : option string; uc_NewType : option string; uc_IsNullable : option bool; uc_DefaultValue : option string }.
Record CreateIndexInput := MkCreateIndexInput { ci_IndexName : string; ci_Columns : list string; ci_Type : string; ci_IsUnique : bool }.
Record CreatePolicyInput := MkCreatePolicyInput {
  cp_Name : string; cp_Command : string; cp_Roles : list string; cp_Permissive : string; cp_UsingExpression : string;
  cp_CheckExpression : string }.

(** Errors, by what their texts say. *)
Inductive DDLError :=
| ProtectedSchema (schema : string) | InvalidTable (table : string) | InvalidPrimaryKey (name : string) | InvalidColumn (name : string)
| InvalidForeignKey | InvalidTableOrColumn | InvalidNewName (name : string) | InvalidDefault (raw : string) | NoModifications
| TableAndColumnRequired | InvalidIndex (name : string) | InvalidIndexColumn (name : string) | UnsupportedIndexType (name : string)
| InvalidTableOrPolicy | InvalidPolicyCommand (name : string) | InvalidPolicyType (name : string) | InvalidRole (name : string)
| ForbiddenUsing | ForbiddenCheck | EmptyQuery | StatementFailed (statement : string) | TransactionFailed.

Section engine.
Context `{CT : CaseTables} `{UT : UnicodeTables}.

Definition default_schema (schema : string) : string := if String.eqb schema "" then "public" else schema.

(** The guards every operation starts with. *)
Definition guarded {A} (schema : string) (valid : bool) (invalid : DDLError) (k : string → result DDLError A) : result DDLError A :=
  let schema := default_schema schema in
  if IsProtectedSchema schema then Err (ProtectedSchema schema) else if negb valid then Err invalid else k schema.

Definition qualified (schema name : string) : string := quoteIdent schema ++ "." ++ quoteIdent name.
Definition cascade_action (cascade : bool) : string := if cascade then " CASCADE" else "".

Definition buildColumnClause (column : Column) : string :=
  Join ([quoteIdent (col_Name column); sanitizeType (col_Type column)]
        ++ (if col_IsNullable column then [] else ["NOT NULL"])
        ++ (match col_DefaultValue column ≫= sanitizeDefaultValue with Some safeDef => ["DEFAULT " ++ safeDef] | None => [] end)
        ++ (if col_IsUnique column then ["UNIQUE"] else [])) " ".

Definition key_clause (name : string) : string := quoteIdent name ++ " UUID PRIMARY KEY DEFAULT uuidv7()".

(** Whether a primary key is among the columns, and their clauses. *)
Fixpoint column_clauses (primaryKeyName : string) (columns : list Column) : result DDLError (bool * list string) :=
  match columns with
  | [] => Ok (false, [])
  | column :: columns =>
      if negb (IsValidIdentifier (col_Name column)) then Err (InvalidColumn (col_Name column)) else
      let is_key := col_IsPrimaryKey column || String.eqb (col_Name column) primaryKeyName in
      match column_clauses primaryKeyName columns with
      | Err e => Err e
      | Ok (hasPrimaryKey, clauses) =>
          Ok (is_key || hasPrimaryKey, (if is_key then key_clause (col_Name column) else buildColumnClause column) :: clauses)
      end
  end.

Definition foreign_key_clause (schema : string) (foreignKey : ForeignKey) : string :=
  let foreignSchema := if String.eqb (fk_ForeignSchema foreignKey) "" then schema else fk_ForeignSchema foreignKey in
  "FOREIGN KEY (" ++ quoteIdent (fk_Column foreignKey) ++ ") REFERENCES " ++ qualified foreignSchema (fk_ForeignTable foreignKey)
    ++ "(" ++ quoteIdent (fk_ForeignColumn foreignKey) ++ ")"
    ++ (if String.eqb (fk_OnDelete foreignKey) "" then "" else " ON DELETE " ++ sanitizeAction (fk_OnDelete foreignKey))
    ++ (if String.eqb (fk_OnUpdate foreignKey) "" then "" else " ON UPDATE " ++ sanitizeAction (fk_OnUpdate foreignKey)).

Fixpoint foreign_key_clauses (schema : string) (foreignKeys : list ForeignKey) : result DDLError (list string) :=
  match foreignKeys with
  | [] => Ok []
  | foreignKey :: foreignKeys =>
      if negb (IsValidIdentifier (fk_Column foreignKey)) || negb (IsValidIdentifier (fk_ForeignTable foreignKey))
         || negb (IsValidIdentifier (fk_ForeignColumn foreignKey)) then Err InvalidForeignKey else
      match foreign_key_clauses schema foreignKeys with
      | Err e => Err e
      | Ok clauses => Ok (foreign_key_clause schema foreignKey :: clauses)
      end
  end.

Definition newline : string := String (ascii_of_nat 10) "".

Definition create_table_statement (createTableInput : CreateTableInput) : result DDLError string :=
  guarded (ct_Schema createTableInput) (IsValidIdentifier (ct_Name createTableInput)) (InvalidTable (ct_Name createTableInput)) (λ schema,
    let primaryKeyName := if String.eqb (ct_PrimaryKeyName createTableInput) "" then "id" else ct_PrimaryKeyName createTableInput in
    if negb (IsValidIdentifier primaryKeyName) then Err (InvalidPrimaryKey primaryKeyName) else
    match column_clauses primaryKeyName (ct_Columns createTableInput) with
    | Err e => Err e
    | Ok (hasPrimaryKey, columnClauses) =>
        match foreign_key_clauses schema (ct_ForeignKeys createTableInput) with
        | Err e => Err e
        | Ok foreignKeyClauses =>
            let clauses := ((if hasPrimaryKey then columnClauses else key_clause primaryKeyName :: columnClauses) ++ foreignKeyClauses)%list in
            Ok ("CREATE TABLE IF NOT EXISTS " ++ qualified schema (ct_Name createTableInput) ++ " (" ++ newline ++ "    "
                ++ Join clauses ("," ++ newline ++ "    ") ++ newline ++ ");")
        end
    end).

Definition drop_table_statement (schema table : string) (cascade : bool) : result DDLError string :=
  guarded schema (IsValidIdentifier table) (InvalidTable table) (λ schema,
    Ok ("DROP TABLE IF EXISTS " ++ qualified schema table ++ cascade_action cascade ++ ";")).

Definition truncate_table_statement (schema table : string) (cascade : bool) : result DDLError string :=
  guarded schema (IsValidIdentifier table) (InvalidTable table) (λ schema,
    Ok ("TRUNCATE TABLE " ++ qualified schema table ++ cascade_action cascade ++ ";")).

Definition add_column_statement (schema table : string) (column : Column) : result DDLError string :=
  guarded schema (IsValidIdentifier table && IsValidIdentifier (col_Name column)) InvalidTableOrColumn (λ schema,
    Ok ("ALTER TABLE " ++ qualified schema table ++ " ADD COLUMN " ++ buildColumnClause column ++ ";")).

Definition drop_column_statement (schema table columnName : string) (cascade : bool) : result DDLError string :=
  guarded schema (IsValidIdentifier table && IsValidIdentifier columnName) InvalidTableOrColumn (λ schema,
    Ok ("ALTER TABLE " ++ qualified schema table ++ " DROP COLUMN IF EXISTS " ++ quoteIdent columnName ++ cascade_action cascade ++ ";")).

(** [ALTER TABLE ... ALTER COLUMN ...]. *)
Definition alter_column (schema table columnName change : string) : string :=
  "ALTER TABLE " ++ qualified schema table ++ " ALTER COLUMN " ++ quoteIdent columnName ++ change ++ ";".

Definition given (s : option string) : option string := v ← s; if String.eqb v "" then None else Some v.

Definition alter_column_statements (schema table columnName : string) (updateColumnInput : UpdateColumnInput) : result DDLError (list string) :=
  guarded schema (IsValidIdentifier table && IsValidIdentifier columnName) InvalidTableOrColumn (λ schema,
    let newName := v ← given (uc_NewName updateColumnInput); if String.eqb v columnName then None else Some v in
    let! _ := match newName with
              | Some name => if IsValidIdentifier name then Ok tt else Err (InvalidNewName name)
              | None => Ok tt
              end in
    let rename := match newName with
                  | Some name => ["ALTER TABLE " ++ qualified schema table ++ " RENAME COLUMN " ++ quoteIdent columnName ++ " TO "
                                  ++ quoteIdent name ++ ";"]
                  | None => []
                  end in
    let columnName := default columnName newName in
    let retype := match given (uc_NewType updateColumnInput) with
                  | Some t => [alter_column schema table columnName
                                 (" TYPE " ++ sanitizeType t ++ " USING " ++ quoteIdent columnName ++ "::" ++ sanitizeType t)]
                  | None => []
                  end in
    let nullability := match uc_IsNullable updateColumnInput with
                       | Some true => [alter_column schema table columnName " DROP NOT NULL"]
                       | Some false => [alter_column schema table columnName " SET NOT NULL"]
                       | None => []
                       end in
    let! redefault :=
      match uc_DefaultValue updateColumnInput with
      | None => Ok []
      | Some v => if String.eqb v "" then Ok [alter_column schema table columnName " DROP DEFAULT"] else
                  match sanitizeDefaultValue v with
                  | Some safeDef => Ok [alter_column schema table columnName (" SET DEFAULT " ++ safeDef)]
                  | None => Err (InvalidDefault v)
                  end
      end in
    match (rename ++ retype ++ nullability ++ redefault)%list with [] => Err NoModifications | statements => Ok statements end).

Definition create_index_statement (schema table : string) (createIndexInput : CreateIndexInput) : result DDLError string :=
  guarded schema (IsValidIdentifier table && negb (bool_decide (ci_Columns createIndexInput = []))) TableAndColumnRequired (λ schema,
    let indexName := if String.eqb (ci_IndexName createIndexInput) ""
                     then "idx_" ++ schema ++ "_" ++ table ++ "_" ++ Join (ci_Columns createIndexInput) "_"
                     else ci_IndexName createIndexInput in
    if negb (IsValidIdentifier indexName) then Err (InvalidIndex indexName) else
    match List.find (λ c, negb (IsValidIdentifier c)) (ci_Columns createIndexInput) with
    | Some columnName => Err (InvalidIndexColumn columnName)
    | None =>
        let lower := strings_ToLower (ci_Type createIndexInput) in
        let indexType := if String.eqb lower "" then "btree" else lower in
        if negb (existsb (String.eqb indexType) ["btree"; "gin"; "gist"; "brin"; "hash"]) then Err (UnsupportedIndexType indexType) else
        Ok ("CREATE " ++ (if ci_IsUnique createIndexInput then "UNIQUE " else "") ++ "INDEX IF NOT EXISTS " ++ quoteIdent indexName ++ " ON "
            ++ qualified schema table ++ " USING " ++ indexType ++ " (" ++ Join (quoteIdent <$> ci_Columns createIndexInput) ", " ++ ");")
    end).

Definition drop_index_statement (schema indexName : string) : result DDLError string :=
  guarded schema (IsValidIdentifier indexName) (InvalidIndex indexName) (λ schema,
    Ok ("DROP INDEX IF EXISTS " ++ qualified schema indexName ++ ";")).

Definition row_security_statement (action schema table : string) : result DDLError string :=
  guarded schema (IsValidIdentifier table) (InvalidTable table) (λ schema,
    Ok ("ALTER TABLE " ++ qualified schema table ++ " " ++ action ++ " ROW LEVEL SECURITY;")).

(** A keyword given in any case, or the default. *)
Definition keyword (raw fallback : string) : string :=
  let upper := strings_ToUpper (TrimSpace raw) in if String.eqb upper "" then fallback else upper.

(** The roles of a policy; "public" in any case is the keyword.  [EqualFold]
    with an ASCII text whose letters fold to no others. *)
Definition is_public (role : string) : bool := String.eqb (string_of_list_ascii (lower_ascii <$> list_ascii_of_string role)) "public".
Fixpoint policy_roles (roles : list string) : result DDLError (list string) :=
  match roles with
  | [] => Ok []
  | roleName :: roles =>
      let trimmed := TrimSpace roleName in
      let! role := if is_public trimmed then Ok "PUBLIC" else if IsValidIdentifier trimmed then Ok (quoteIdent trimmed) else Err (InvalidRole roleName) in
      let! roles := policy_roles roles in
      Ok (role :: roles)
  end.

Definition expression_clause (expression opening : string) (e : DDLError) : result DDLError string :=
  if String.eqb expression "" then Ok "" else if forbidden expression then Err e else Ok (opening ++ expression ++ ")").

Definition create_policy_statement (schema table : string) (createPolicyInput : CreatePolicyInput) : result DDLError string :=
  guarded schema (IsValidIdentifier table && IsValidIdentifier (cp_Name createPolicyInput)) InvalidTableOrPolicy (λ schema,
    let policyCommand := keyword (cp_Command createPolicyInput) "ALL" in
    if negb (existsb (String.eqb policyCommand) ["ALL"; "SELECT"; "INSERT"; "UPDATE"; "DELETE"]) then Err (InvalidPolicyCommand policyCommand) else
    let permissive := keyword (cp_Permissive createPolicyInput) "PERMISSIVE" in
    if negb (existsb (String.eqb permissive) ["PERMISSIVE"; "RESTRICTIVE"]) then Err (InvalidPolicyType permissive) else
    let! roles := match cp_Roles createPolicyInput with [] => Ok ["PUBLIC"] | roles => policy_roles roles end in
    let! using_clause := expression_clause (cp_UsingExpression createPolicyInput) " USING (" ForbiddenUsing in
    let! check_clause := expression_clause (cp_CheckExpression createPolicyInput) " WITH CHECK (" ForbiddenCheck in
    Ok ("CREATE POLICY " ++ quoteIdent (cp_Name createPolicyInput) ++ " ON " ++ qualified schema table ++ " AS " ++ permissive
        ++ " FOR " ++ policyCommand ++ " TO " ++ Join roles ", " ++ using_clause ++ check_clause ++ ";")).

Definition drop_policy_statement (schema table policyName : string) : result DDLError string :=
  guarded schema (IsValidIdentifier table && IsValidIdentifier policyName) InvalidTableOrPolicy (λ schema,
    Ok ("DROP POLICY IF EXISTS " ++ quoteIdent policyName ++ " ON " ++ qualified schema table ++ ";")).

(** *** The engine *)

Context {D : Type} (exec : string → D → option D) (begin_ok commit_ok : bool).

Definition Exec (statement : result DDLError string) (db : D) : result DDLError unit * D :=
  match statement with
  | Err e => (Err e, db)
  | Ok statement => match exec statement db with Some db => (Ok tt, db) | None => (Err (StatementFailed statement), db) end
  end.

Fixpoint exec_all (statements : list string) (db : D) : result DDLError D :=
  match statements with
  | [] => Ok db
  | statement :: statements => match exec statement db with Some db => exec_all statements db | None => Err (StatementFailed statement) end
  end.

(** The statements in a transaction. *)
Definition Transact (statements : result DDLError (list string)) (db : D) : result DDLError unit * D :=
  match statements with
  | Err e => (Err e, db)
  | Ok statements =>
      if negb begin_ok then (Err TransactionFailed, db) else
      match exec_all statements db with
      | Err e => (Err e, db)
      | Ok db' => if commit_ok then (Ok tt, db') else (Err TransactionFailed, db)
      end
  end.

Definition CreateTable (createTableInput : CreateTableInput) := Exec (create_table_statement createTableInput).
Definition DropTable (schema table : string) (cascade : bool) := Exec (drop_table_statement schema table cascade).
Definition TruncateTable (schema table : string) (cascade : bool) := Exec (truncate_table_statement schema table cascade).
Definition AddColumn (schema table : string) (column : Column) := Exec (add_column_statement schema table column).
Definition AlterColumn (schema table columnName : string) (updateColumnInput : UpdateColumnInput) :=
  Transact (alter_column_statements schema table columnName updateColumnInput).
Definition DropColumn (schema table columnName : string) (cascade : bool) := Exec (drop_column_statement schema table columnName cascade).
Definition CreateIndex (schema table : string) (createIndexInput : CreateIndexInput) := Exec (create_index_statement schema table createIndexInput).
Definition DropIndex (schema indexName : string) := Exec (drop_index_statement schema indexName).
Definition EnableRLS (schema table : string) := Exec (row_security_statement "ENABLE" schema table).
Definition DisableRLS (schema table : string) := Exec (row_security_statement "DISABLE" schema table).
Definition ForceRLS (schema table : string) (force : bool) := Exec (row_security_statement (if force then "FORCE" else "NO FORCE") schema table).
Definition CreatePolicy (schema table : string) (createPolicyInput : CreatePolicyInput) := Exec (create_policy_statement schema table createPolicyInput).
Definition DropPolicy (schema table policyName : string) := Exec (drop_policy_statement schema table policyName).
End engine.

(** ** What a text of SQL reads as *)

Inductive Token := Word (w : string) | Quoted (name : string) | Literal (s : string) | Punct (c : ascii).

Inductive LexMode :=
| InPlain | InWord (w : string) | InQuoted (w : string) | AfterQuoted (w : string) | InLiteral (w : string) | AfterLiteral (w : string)
| AfterMinus | AfterSlash | InComment.

Definition word_char (c : ascii) : bool :=
  let n := byte_val c in in_range 48 57 n || in_range 65 90 n || in_range 97 122 n || (n =? 95) || (128 <=? n).
Definition blank (c : ascii) : bool := let n := byte_val c in (n =? 32) || in_range 9 13 n.
Definition snoc (w : string) (c : ascii) : string := w ++ String c "".

(** A character between tokens. *)
Definition plain_lex (c : ascii) : option (list Token * LexMode) :=
  if blank c then Some ([], InPlain)
  else if word_char c then Some ([], InWord (snoc "" c))
  else if byte_val c =? 34 then Some ([], InQuoted "")
  else if Ascii.eqb c "'" then Some ([], InLiteral "")
  else if Ascii.eqb c "-" then Some ([], AfterMinus)
  else if Ascii.eqb c "/" then Some ([], AfterSlash)
  else if Ascii.eqb c "$" || Ascii.eqb c "&" || Ascii.eqb c "\" then None
  else Some ([Punct c], InPlain).

(** The token that ends with the text. *)
Definition pending (m : LexMode) : option (list Token) :=
  match m with
  | InPlain => Some []
  | InWord w => Some [Word w]
  | AfterQuoted w => Some [Quoted w]
  | AfterLiteral w => Some [Literal w]
  | AfterMinus => Some [Punct "-"]
  | AfterSlash => Some [Punct "/"]
  | InQuoted _ | InLiteral _ | InComment => None
  end.

(** What continues the token; the others end it. *)
Definition continues (m : LexMode) (c : ascii) : option (option LexMode) :=
  match m with
  | InPlain => None
  | InWord w => if word_char c then Some (Some (InWord (snoc w c))) else if Ascii.eqb c "'" then Some None else None
  | InQuoted w => Some (Some (if byte_val c =? 34 then AfterQuoted w else InQuoted (snoc w c)))
  | AfterQuoted w => if byte_val c =? 34 then Some (Some (InQuoted (snoc w c))) else None
  | InLiteral w => Some (Some (if Ascii.eqb c "'" then AfterLiteral w else InLiteral (snoc w c)))
  | AfterLiteral w => if Ascii.eqb c "'" then Some (Some (InLiteral (snoc w c))) else None
  | AfterMinus => if Ascii.eqb c "-" then Some (Some InComment) else None
  | InComment => Some (Some (if byte_val c =? 10 then InPlain else InComment))
  | AfterSlash => if Ascii.eqb c "*" then Some None else None
  end.

Definition lex_step (m : LexMode) (c : ascii) : option (list Token * LexMode) :=
  match continues m c with
  | Some m => m ← m; Some ([], m)
  | None => ended ← pending m; '(ts, m) ← plain_lex c; Some ((ended ++ ts)%list, m)
  end.

Fixpoint lex_run (m : LexMode) (s : string) : option (list Token * LexMode) :=
  match s with
  | EmptyString => Some ([], m)
  | String c s => '(ts, m) ← lex_step m c; '(ts', m) ← lex_run m s; Some ((ts ++ ts')%list, m)
  end.

Definition reads (s : string) : option (list Token) :=
  '(ts, m) ← lex_run InPlain s; ended ← pending m; Some (ts ++ ended)%list.

(** Text that ends between tokens. *)
Definition opens (s : string) (ts : list Token) : Prop := lex_run InPlain s = Some (ts, InPlain).

(** A character that ends whatever token is before it. *)
Definition break_char (c : ascii) : bool :=
  blank c || Ascii.eqb c "," || Ascii.eqb c ")" || Ascii.eqb c "(" || Ascii.eqb c ";" || Ascii.eqb c "." || Ascii.eqb c ":".
Definition begins_apart (s : string) : bool := match s with EmptyString => true | String c _ => break_char c end.

Lemma lex_app m a b : lex_run m (a ++ b) = '(ts, m) ← lex_run m a; '(ts', m) ← lex_run m b; Some ((ts ++ ts')%list, m).
Proof.
  revert m. induction a as [|c a IH]; intros m.
  - change ("" ++ b) with b. cbn. by destruct (lex_run m b) as [[]|].
  - rewrite append_cons. cbn [lex_run]. destruct (lex_step m c) as [[ts1 m1]|]; [|done]. cbn. rewrite IH.
    destruct (lex_run m1 a) as [[ts2 m2]|]; [|done]. cbn. destruct (lex_run m2 b) as [[ts3 m3]|]; [|done]. cbn. by rewrite app_assoc.
Qed.

Lemma opens_join a b ta tb : opens a ta → opens b tb → opens (a ++ b) (ta ++ tb)%list.
Proof. unfold opens. intros Ha Hb. rewrite lex_app, Ha. cbn. by rewrite Hb. Qed.

Lemma reads_after a b ta tb : opens a ta → reads b = Some tb → reads (a ++ b) = Some (ta ++ tb)%list.
Proof.
  unfold opens, reads. intros Ha Hb. rewrite lex_app, Ha. cbn. destruct (lex_run InPlain b) as [[ts m]|]; [|done]. cbn in *.
  destruct (pending m); [|done]. injection Hb as <-. cbn. by rewrite app_assoc.
Qed.

Lemma break_ends c m ended : break_char c = true → pending m = Some ended →
  lex_step m c = '(ts, m) ← plain_lex c; Some ((ended ++ ts)%list, m).
Proof.
  intros Hc Hm. unfold lex_step. replace (continues m c) with (@None (option LexMode)); [by rewrite Hm|].
  destruct c as [[] [] [] [] [] [] [] []]; try discriminate Hc; destruct m; try discriminate Hm; reflexivity.
Qed.

Lemma reads_then a b ta tb : reads a = Some ta → reads b = Some tb → begins_apart b = true → reads (a ++ b) = Some (ta ++ tb)%list.
Proof.
  unfold reads. intros Ha Hb Hap. rewrite lex_app. destruct (lex_run InPlain a) as [[ts m]|]; [|done]. cbn in *.
  destruct (pending m) as [ended|] eqn:Em; [|done]. injection Ha as <-.
  destruct b as [|c b]; [injection Hb as <-; cbn; rewrite Em; cbn; by rewrite !app_nil_r|]. cbn [lex_run] in *.
  rewrite (break_ends c m ended Hap Em). unfold lex_step in Hb. cbn in Hb. destruct (plain_lex c) as [[t1 m1]|]; [|done]. cbn in *.
  destruct (lex_run m1 b) as [[t2 m2]|]; [|done]. cbn in *. destruct (pending m2); [|done]. injection Hb as <-. cbn. by rewrite !app_assoc.
Qed.

(** A quoted name is read back, whatever its bytes. *)
Lemma lex_continue m c m' s : continues m c = Some (Some m') → lex_run m (String c s) = lex_run m' s.
Proof. intros H. cbn [lex_run]. unfold lex_step. rewrite H. cbn. by destruct (lex_run m' s) as [[]|]. Qed.

Lemma lex_double_quotes w s rest : lex_run (InQuoted w) (double_quotes s ++ rest) = lex_run (InQuoted (w ++ s)) rest.
Proof.
  revert w. induction s as [|c s IH]; intros w; [by rewrite append_empty|].
  replace (w ++ String c s) with (snoc w c ++ s) by (unfold snoc; by rewrite append_assoc).
  rewrite <- IH. cbn [double_quotes]. destruct (byte_val c =? 34) eqn:Ec; rewrite !append_cons.
  - rewrite (lex_continue _ c (AfterQuoted w)) by (unfold continues; by rewrite Ec). apply lex_continue. unfold continues. by rewrite Ec.
  - apply lex_continue. unfold continues. by rewrite Ec.
Qed.

Lemma reads_quoteIdent name : reads (quoteIdent name) = Some [Quoted name].
Proof.
  unfold reads, quoteIdent, dq. cbn [lex_run]. change (lex_step InPlain (ascii_of_nat 34)) with (Some (@nil Token, InQuoted "")). cbn.
  rewrite lex_double_quotes. reflexivity.
Qed.

(** ** One statement *)

Definition semicolon (t : Token) : bool := match t with Punct c => Ascii.eqb c ";" | _ => false end.
Definition one_piece (ts : list Token) : bool := forallb (λ t, negb (semicolon t)) ts.

Lemma one_piece_app a b : one_piece (a ++ b) = one_piece a && one_piece b.
Proof. apply forallb_app. Qed.

(** The readings of the parts, put together. *)
Fixpoint between (sep : list Token) (l : list (list Token)) : list Token :=
  match l with
  | [] => []
  | [x] => x
  | x :: l => x ++ sep ++ between sep l
  end%list.

Lemma reads_Join l tss sep tsep : opens sep tsep → begins_apart sep = true → sep ≠ "" →
  Forall2 (λ s ts, reads s = Some ts) l tss → reads (Join l sep) = Some (between tsep tss).
Proof.
  intros Hs Hb Hne. induction 1 as [|x tx l tss Hx Hl IH]; [done|]. destruct Hl as [|y ty l tss Hy Hl]; [done|].
  change (Join (x :: y :: l) sep) with (x ++ (sep ++ Join (y :: l) sep)). change (between tsep (tx :: ty :: tss)) with (tx ++ (tsep ++ between tsep (ty :: tss)))%list.
  apply reads_then; [done|by apply reads_after|]. destruct sep; [done|]. by rewrite append_cons.
Qed.

Lemma reads_eq s ts ts' : reads s = Some ts → ts = ts' → reads s = Some ts'.
Proof. by intros H <-. Qed.

Lemma Forall_one {A} (P : A → Prop) x : P x → Forall P [x].
Proof. intros H. by constructor. Qed.

Lemma among x l (P : string → Prop) : existsb (String.eqb x) l = true → Forall P l → P x.
Proof. intros (y & Hy%list_elem_of_In & ->%String.eqb_eq)%existsb_exists H. rewrite list.Forall_forall in H. by apply H. Qed.

(** Fixed text computes; the rest is put together. *)
Ltac read_fixed s t ty := let r := eval vm_compute in ty in lazymatch r with Some ?ts => unify t ts; vm_compute; reflexivity end.
Ltac read_text :=
  lazymatch goal with
  | |- reads (quoteIdent _) = Some _ => apply reads_quoteIdent
  | |- reads EmptyString = Some _ => reflexivity
  | |- reads (String ?c ?s) = Some ?t => read_fixed (String c s) t (reads (String c s))
  | |- reads (EmptyString ++ ?s) = Some ?t => change (reads s = Some t); read_text
  | |- reads (String ?c ?s ++ _) = Some _ =>
      let r := eval vm_compute in (lex_run InPlain (String c s)) in
      lazymatch r with
      | Some (?ts, InPlain) => eapply (reads_after (String c s) _ ts); [vm_compute; reflexivity|read_text]
      | _ => eapply reads_then; [read_text|read_text|reflexivity]
      end
  | |- reads (_ ++ _) = Some _ => eapply reads_then; [read_text|read_text|reflexivity]
  | |- _ => eassumption
  end.
Ltac read_statement := eapply reads_eq; [read_text|cbn; rewrite <- ?app_assoc, ?app_nil_r; try reflexivity].

(** Without a semicolon no statement ends. *)
Lemma lex_one_piece m s ts m' : lacks ";" s = true → lex_run m s = Some (ts, m') → one_piece ts = true.
Proof.
  revert m ts. induction s as [|c s IH]; intros m ts Hl H; cbn [lex_run] in H; [by injection H as <- <-|].
  apply andb_true_iff in Hl as [Hc Hl]. destruct (lex_step m c) as [[t1 m1]|] eqn:E; [|done]. cbn in H.
  destruct (lex_run m1 s) as [[t2 m2]|] eqn:E2; [|done]. injection H as <- <-. rewrite one_piece_app, (IH _ _ Hl E2), andb_true_r.
  unfold lex_step in E. destruct (continues m c) as [[]|]; [by injection E as <- _|done|].
  assert (Hp : ∀ ended, pending m = Some ended → one_piece ended = true) by (destruct m; cbn; by intros ? [= <-]).
  destruct (pending m) as [ended|]; [|done]. cbn in E. destruct (plain_lex c) as [[t3 m3]|] eqn:Ep; [|done]. injection E as <- _.
  rewrite one_piece_app, Hp by done. unfold plain_lex in Ep. repeat case_match; try done; injection Ep as <- _; try done.
  cbn. by rewrite Hc.
Qed.

Lemma readable_piece s ts : lacks ";" s = true → reads s = Some ts → one_piece ts = true.
Proof.
  intros Hl H. unfold reads in H. destruct (lex_run InPlain s) as [[t m]|] eqn:E; [|done]. cbn in H.
  apply lex_one_piece in E; [|done]. destruct (pending m) as [ended|] eqn:Em; [|done]. injection H as <-. rewrite one_piece_app, E.
  by destruct m; inversion Em.
Qed.

Lemma Contains_lacks s : Contains s ";" = false → lacks ";" s = true.
Proof.
  induction s as [|c s IH]; [done|]. cbn [Contains]. intros [Hp Hs]%orb_false_iff.
  change (lacks ";" (String c s)) with (negb (Ascii.eqb c ";") && lacks ";" s). rewrite IH, andb_true_r by done.
  destruct (Ascii.eqb_spec c ";") as [->|]; [discriminate Hp|done].
Qed.

Lemma allowed_lacks s : forbidden s = false → lacks ";" s = true.
Proof. unfold forbidden. intros [[H _]%orb_false_iff _]%orb_false_iff. by apply Contains_lacks. Qed.

(** The name of an object, with its schema. *)
Definition object (schema name : string) : list Token := [Quoted schema; Punct "."; Quoted name].

Lemma reads_qualified schema name : reads (qualified schema name) = Some (object schema name).
Proof. unfold qualified. read_statement. Qed.

Inductive Operation :=
| OpCreateTable (createTableInput : CreateTableInput) | OpDropTable (schema table : string) (cascade : bool)
| OpTruncateTable (schema table : string) (cascade : bool) | OpAddColumn (schema table : string) (column : Column)
| OpAlterColumn (schema table columnName : string) (updateColumnInput : UpdateColumnInput)
| OpDropColumn (schema table columnName : string) (cascade : bool)
| OpCreateIndex (schema table : string) (createIndexInput : CreateIndexInput) | OpDropIndex (schema indexName : string)
| OpEnableRLS (schema table : string) | OpDisableRLS (schema table : string) | OpForceRLS (schema table : string) (force : bool)
| OpCreatePolicy (schema table : string) (createPolicyInput : CreatePolicyInput) | OpDropPolicy (schema table policyName : string).

Section meaning.
Context `{CT : CaseTables} `{UT : UnicodeTables}.

(** What an operation runs. *)
Definition statements_of (op : Operation) : result DDLError (list string) :=
  let one (r : result DDLError string) := let! statement := r in Ok [statement] in
  match op with
  | OpCreateTable input => one (create_table_statement input)
  | OpDropTable schema table cascade => one (drop_table_statement schema table cascade)
  | OpTruncateTable schema table cascade => one (truncate_table_statement schema table cascade)
  | OpAddColumn schema table column => one (add_column_statement schema table column)
  | OpAlterColumn schema table columnName input => alter_column_statements schema table columnName input
  | OpDropColumn schema table columnName cascade => one (drop_column_statement schema table columnName cascade)
  | OpCreateIndex schema table input => one (create_index_statement schema table input)
  | OpDropIndex schema indexName => one (drop_index_statement schema indexName)
  | OpEnableRLS schema table => one (row_security_statement "ENABLE" schema table)
  | OpDisableRLS schema table => one (row_security_statement "DISABLE" schema table)
  | OpForceRLS schema table force => one (row_security_statement (if force then "FORCE" else "NO FORCE") schema table)
  | OpCreatePolicy schema table input => one (create_policy_statement schema table input)
  | OpDropPolicy schema table policyName => one (drop_policy_statement schema table policyName)
  end.

(** The object it is about: schema and name. *)
Definition target (op : Operation) : string * string :=
  match op with
  | OpCreateTable input => (default_schema (ct_Schema input), ct_Name input)
  | OpDropTable schema name _ | OpTruncateTable schema name _ | OpAddColumn schema name _ | OpAlterColumn schema name _ _
  | OpDropColumn schema name _ _ | OpCreateIndex schema name _ | OpDropIndex schema name | OpEnableRLS schema name
  | OpDisableRLS schema name | OpForceRLS schema name _ | OpCreatePolicy schema name _ | OpDropPolicy schema name _ =>
      (default_schema schema, name)
  end.

Definition words (l : list string) : list Token := Word <$> l.
(** What goes into its statements as it is, after the checks of the code. *)
Definition column_texts (column : Column) : list string :=
  sanitizeType (col_Type column) :: match col_DefaultValue column ≫= sanitizeDefaultValue with Some safeDef => [safeDef] | None => [] end.
Definition free_texts (op : Operation) : list string :=
  match op with
  | OpCreateTable input => ct_Columns input ≫= column_texts
  | OpAddColumn _ _ column => column_texts column
  | OpAlterColumn _ _ _ input =>
      (match given (uc_NewType input) with Some t => [sanitizeType t] | None => [] end
       ++ match uc_DefaultValue input ≫= sanitizeDefaultValue with Some safeDef => [safeDef] | None => [] end)%list
  | OpCreatePolicy _ _ input => [cp_UsingExpression input; cp_CheckExpression input]
  | _ => []
  end.

Definition type_texts (op : Operation) : list string :=
  match op with
  | OpCreateTable input => (λ column, sanitizeType (col_Type column)) <$> ct_Columns input
  | OpAddColumn _ _ column => [sanitizeType (col_Type column)]
  | OpAlterColumn _ _ _ input => match given (uc_NewType input) with Some t => [sanitizeType t] | None => [] end
  | _ => []
  end.

Lemma guarded_Ok {A} schema valid invalid (k : string → result DDLError A) a : guarded schema valid invalid k = Ok a →
  IsProtectedSchema (default_schema schema) = false ∧ valid = true ∧ k (default_schema schema) = Ok a.
Proof. unfold guarded. cbn zeta. destruct (IsProtectedSchema _); [done|]. by destruct valid. Qed.

(** *** The statements an operation asks for, in tokens *)

(** A text that goes into a statement as it is. *)
Definition spelled (s : string) : list Token := default [] (reads s).

Definition column_tokens (column : Column) : list Token :=
  (Quoted (col_Name column) :: spelled (sanitizeType (col_Type column))
   ++ (if col_IsNullable column then [] else words ["NOT"; "NULL"])
   ++ match col_DefaultValue column ≫= sanitizeDefaultValue with Some safeDef => Word "DEFAULT" :: spelled safeDef | None => [] end
   ++ (if col_IsUnique column then words ["UNIQUE"] else []))%list.

Definition key_tokens (name : string) : list Token :=
  (Quoted name :: words ["UUID"; "PRIMARY"; "KEY"; "DEFAULT"; "uuidv7"] ++ [Punct "("; Punct ")"])%list.

Definition action_tokens (event action : string) : list Token :=
  if String.eqb action "" then [] else (words ["ON"; event] ++ spelled (sanitizeAction action))%list.

Definition foreign_key_tokens (schema : string) (foreignKey : ForeignKey) : list Token :=
  (words ["FOREIGN"; "KEY"] ++ [Punct "("; Quoted (fk_Column foreignKey); Punct ")"; Word "REFERENCES"]
   ++ object (if String.eqb (fk_ForeignSchema foreignKey) "" then schema else fk_ForeignSchema foreignKey) (fk_ForeignTable foreignKey)
   ++ [Punct "("; Quoted (fk_ForeignColumn foreignKey); Punct ")"]
   ++ action_tokens "DELETE" (fk_OnDelete foreignKey) ++ action_tokens "UPDATE" (fk_OnUpdate foreignKey))%list.

(** The columns, with a key of the name asked for when none of them is one, and
    the foreign keys. *)
Definition is_key (keyName : string) (column : Column) : bool := col_IsPrimaryKey column || String.eqb (col_Name column) keyName.
Definition table_tokens (input : CreateTableInput) : list (list Token) :=
  let keyName := if String.eqb (ct_PrimaryKeyName input) "" then "id" else ct_PrimaryKeyName input in
  let columns := (λ column, if is_key keyName column then key_tokens (col_Name column) else column_tokens column) <$> ct_Columns input in
  ((if existsb (is_key keyName) (ct_Columns input) then columns else key_tokens keyName :: columns)
   ++ (foreign_key_tokens (default_schema (ct_Schema input)) <$> ct_ForeignKeys input))%list.

Definition role_tokens (role : string) : list Token := if is_public (TrimSpace role) then [Word "PUBLIC"] else [Quoted (TrimSpace role)].
Definition cascade_tokens (cascade : bool) : list Token := if cascade then [Word "CASCADE"] else [].
Definition condition_tokens (opening : list string) (expression : string) : list Token :=
  if String.eqb expression "" then [] else (words opening ++ Punct "(" :: spelled expression ++ [Punct ")"])%list.

Definition index_name (schema table : string) (input : CreateIndexInput) : string :=
  if String.eqb (ci_IndexName input) "" then "idx_" ++ default_schema schema ++ "_" ++ table ++ "_" ++ Join (ci_Columns input) "_"
  else ci_IndexName input.

(** The statements, each without the semicolon that ends it. *)
Definition alter_table (object : list Token) (l : list Token) : list Token := (words ["ALTER"; "TABLE"] ++ object ++ l)%list.
Definition asked_for (op : Operation) : list (list Token) :=
  let o := object (target op).1 (target op).2 in
  match op with
  | OpCreateTable input =>
      [words ["CREATE"; "TABLE"; "IF"; "NOT"; "EXISTS"] ++ o ++ Punct "(" :: between [Punct ","] (table_tokens input) ++ [Punct ")"]]
  | OpDropTable _ _ cascade => [words ["DROP"; "TABLE"; "IF"; "EXISTS"] ++ o ++ cascade_tokens cascade]
  | OpTruncateTable _ _ cascade => [words ["TRUNCATE"; "TABLE"] ++ o ++ cascade_tokens cascade]
  | OpAddColumn _ _ column => [alter_table o (words ["ADD"; "COLUMN"] ++ column_tokens column)]
  | OpAlterColumn _ _ columnName input =>
      let newName := v ← given (uc_NewName input); if String.eqb v columnName then None else Some v in
      let name := default columnName newName in
      let column l := alter_table o (words ["ALTER"; "COLUMN"] ++ Quoted name :: l) in
      match newName with
      | Some new => [alter_table o (words ["RENAME"; "COLUMN"] ++ [Quoted columnName; Word "TO"; Quoted new])]
      | None => []
      end
      ++ match given (uc_NewType input) with
         | Some t => [column (Word "TYPE" :: spelled (sanitizeType t) ++ [Word "USING"; Quoted name; Punct ":"; Punct ":"] ++ spelled (sanitizeType t))]
         | None => []
         end
      ++ match uc_IsNullable input with
         | Some nullable => [column (words [if nullable : bool then "DROP" else "SET"; "NOT"; "NULL"])]
         | None => []
         end
      ++ match uc_DefaultValue input with
         | Some v => if String.eqb v "" then [column (words ["DROP"; "DEFAULT"])]
                     else match sanitizeDefaultValue v with Some safeDef => [column (words ["SET"; "DEFAULT"] ++ spelled safeDef)] | None => [] end
         | None => []
         end
  | OpDropColumn _ _ columnName cascade =>
      [alter_table o (words ["DROP"; "COLUMN"; "IF"; "EXISTS"] ++ Quoted columnName :: cascade_tokens cascade)]
  | OpCreateIndex schema table input =>
      let method := if String.eqb (strings_ToLower (ci_Type input)) "" then "btree" else strings_ToLower (ci_Type input) in
      [words ["CREATE"] ++ words (if ci_IsUnique input then ["UNIQUE"] else []) ++ words ["INDEX"; "IF"; "NOT"; "EXISTS"] ++ [Quoted (index_name schema table input); Word "ON"] ++ o
       ++ words ["USING"; method] ++ Punct "(" :: between [Punct ","] ((λ c, [Quoted c]) <$> ci_Columns input) ++ [Punct ")"]]
  | OpDropIndex _ _ => [words ["DROP"; "INDEX"; "IF"; "EXISTS"] ++ o]
  | OpEnableRLS _ _ => [alter_table o (words ["ENABLE"; "ROW"; "LEVEL"; "SECURITY"])]
  | OpDisableRLS _ _ => [alter_table o (words ["DISABLE"; "ROW"; "LEVEL"; "SECURITY"])]
  | OpForceRLS _ _ force => [alter_table o (words ((if force then ["FORCE"] else ["NO"; "FORCE"]) ++ ["ROW"; "LEVEL"; "SECURITY"]))]
  | OpCreatePolicy _ _ input =>
      [words ["CREATE"; "POLICY"] ++ Quoted (cp_Name input) :: Word "ON" :: o
       ++ words ["AS"; keyword (cp_Permissive input) "PERMISSIVE"; "FOR"; keyword (cp_Command input) "ALL"; "TO"]
       ++ between [Punct ","] (match cp_Roles input with [] => [[Word "PUBLIC"]] | roles => role_tokens <$> roles end)
       ++ condition_tokens ["USING"] (cp_UsingExpression input) ++ condition_tokens ["WITH"; "CHECK"] (cp_CheckExpression input)]
  | OpDropPolicy _ _ policyName => [words ["DROP"; "POLICY"; "IF"; "EXISTS"] ++ Quoted policyName :: Word "ON" :: o]
  end%list.

(** A text reads as a statement and its end. *)
Definition reads_as (statement : string) (ts : list Token) : Prop := reads statement = Some (ts ++ [Punct ";"])%list.

(** *** The texts read as the statements asked for *)

Definition readable (s : string) : Prop := is_Some (reads s).

Lemma reads_spelled s : readable s → reads s = Some (spelled s).
Proof. unfold spelled. by intros [ts ->]. Qed.

Lemma reads_column column : Forall readable (column_texts column) → reads (buildColumnClause column) = Some (column_tokens column).
Proof.
  unfold column_texts, buildColumnClause, column_tokens. intros [Ht Hd]%list.Forall_cons. apply reads_spelled in Ht.
  destruct (col_DefaultValue column ≫= sanitizeDefaultValue) as [safeDef|].
  - apply list.Forall_cons in Hd as [Hd%reads_spelled _].
    destruct (col_IsNullable column), (col_IsUnique column); cbn [app Join]; rewrite ?append_assoc; read_statement.
  - destruct (col_IsNullable column), (col_IsUnique column); cbn [app Join]; rewrite ?append_assoc; read_statement.
Qed.

Lemma reads_key name : reads (key_clause name) = Some (key_tokens name).
Proof. unfold key_clause. read_statement. Qed.

Lemma reads_columns keyName columns b clauses : column_clauses keyName columns = Ok (b, clauses) → Forall readable (columns ≫= column_texts) →
  b = existsb (is_key keyName) columns
  ∧ Forall2 (λ s ts, reads s = Some ts) clauses
      ((λ column, if is_key keyName column then key_tokens (col_Name column) else column_tokens column) <$> columns).
Proof.
  revert b clauses. induction columns as [|column columns IH]; intros b clauses H Hf; cbn in H; [injection H as <- <-; by split|].
  destruct (IsValidIdentifier (col_Name column)); [|done]. cbn [negb] in H.
  destruct (column_clauses keyName columns) as [[b' clauses']|]; [|done]. injection H as <- <-.
  cbn [mbind list_bind] in Hf. apply Forall_app in Hf as [Hc Hf]. destruct (IH _ _ eq_refl Hf) as [-> Hcl]. split; [done|].
  cbn [fmap list_fmap]. constructor; [|done]. unfold is_key. destruct (_ || _); [apply reads_key|by apply reads_column].
Qed.

Lemma action_cases action (P : string → Prop) : P "CASCADE" → P "SET NULL" → P "RESTRICT" → P "NO ACTION" → P "SET DEFAULT" → P (sanitizeAction action).
Proof.
  intros. unfold sanitizeAction. set (upper := strings_ToUpper _). destruct (existsb _ _) eqn:E; [|done]. apply (among _ _ P E). by repeat constructor.
Qed.

Lemma reads_action action : reads (sanitizeAction action) = Some (spelled (sanitizeAction action)).
Proof. apply (action_cases action (λ a, reads a = Some (spelled a))); vm_compute; reflexivity. Qed.

Lemma reads_foreign_key schema foreignKey : reads (foreign_key_clause schema foreignKey) = Some (foreign_key_tokens schema foreignKey).
Proof.
  unfold foreign_key_clause, foreign_key_tokens, action_tokens. cbn zeta. set (foreignSchema := if String.eqb (fk_ForeignSchema _) "" then _ else _).
  pose proof (reads_action (fk_OnDelete foreignKey)) as Hd. pose proof (reads_action (fk_OnUpdate foreignKey)) as Hu.
  destruct (String.eqb (fk_OnDelete foreignKey) ""), (String.eqb (fk_OnUpdate foreignKey) ""); unfold qualified; rewrite ?append_assoc; read_statement.
Qed.

Lemma reads_foreign_keys schema foreignKeys clauses : foreign_key_clauses schema foreignKeys = Ok clauses →
  Forall2 (λ s ts, reads s = Some ts) clauses (foreign_key_tokens schema <$> foreignKeys).
Proof.
  revert clauses. induction foreignKeys as [|fk fks IH]; intros clauses H; cbn in H; [by injection H as <-|].
  destruct (_ || _); [done|]. destruct (foreign_key_clauses schema fks); [|done]. injection H as <-.
  constructor; [apply reads_foreign_key|by apply IH].
Qed.

Lemma reads_roles roles quoted : policy_roles roles = Ok quoted → Forall2 (λ s ts, reads s = Some ts) quoted (role_tokens <$> roles).
Proof.
  revert quoted. induction roles as [|role roles IH]; intros quoted H; cbn in H; [by injection H as <-|].
  apply result_bind_Ok in H as (q & Hq & H). apply result_bind_Ok in H as (qs & Hqs & H). injection H as <-.
  constructor; [|by apply IH]. unfold role_tokens. destruct (is_public _); [by injection Hq as <-|].
  destruct (IsValidIdentifier _); [|done]. injection Hq as <-. apply reads_quoteIdent.
Qed.

Lemma reads_create_table input : Forall readable (free_texts (OpCreateTable input)) → ∀ statement, create_table_statement input = Ok statement →
  Forall2 reads_as [statement] (asked_for (OpCreateTable input)).
Proof.
  intros Hf statement (_ & _ & H)%guarded_Ok. cbn zeta in H. destruct (negb _); [done|].
  destruct (column_clauses _ _) as [[hasPrimaryKey clauses]|] eqn:Ec; [|done]. destruct (foreign_key_clauses _ _) as [fks|] eqn:Ef; [|done].
  injection H as <-. apply reads_columns in Ec as [Hb Hc]; [|done]. apply reads_foreign_keys in Ef.
  set (all := ((if hasPrimaryKey then _ else _) ++ fks)%list).
  assert (Hall : Forall2 (λ s ts, reads s = Some ts) all (table_tokens input)).
  { unfold all, table_tokens. cbn zeta. apply Forall2_app; [|done]. rewrite <- Hb. destruct hasPrimaryKey; [done|]. constructor; [apply reads_key|done]. }
  pose proof (reads_Join all (table_tokens input) ("," ++ newline ++ "    ") [Punct ","] eq_refl eq_refl ltac:(done) Hall) as Hj.
  constructor; [|done]. unfold reads_as, newline, qualified in *. set (clauses_text := Join all _) in *. clearbody clauses_text.
  rewrite ?append_assoc. read_statement.
Qed.

Lemma reads_alter_column schema table columnName input : Forall readable (free_texts (OpAlterColumn schema table columnName input)) →
  ∀ statements, alter_column_statements schema table columnName input = Ok statements →
  Forall2 reads_as statements (asked_for (OpAlterColumn schema table columnName input)).
Proof.
  intros Hf statements (_ & _ & H)%guarded_Ok. cbn zeta in H. apply result_bind_Ok in H as (u & _ & H).
  cbn [asked_for target fst snd]. cbn zeta. set (newName := v ← given (uc_NewName input); _) in *. set (name := default columnName newName) in *.
  apply result_bind_Ok in H as (redefault & Hd & H). unfold free_texts in Hf. apply Forall_app in Hf as [Ht Hdf].
  destruct (_ ++ _)%list eqn:El in H; [done|]. injection H as <-. rewrite <- El. clear El. unfold alter_column, alter_table.
  apply Forall2_app; [|apply Forall2_app; [|apply Forall2_app]]; unfold reads_as, qualified.
  - destruct newName as [n|]; [|done]. constructor; [|done]. rewrite ?append_assoc. read_statement.
  - destruct (given (uc_NewType input)) as [t|]; [|done]. apply list.Forall_cons in Ht as [Ht%reads_spelled _].
    constructor; [|done]. rewrite ?append_assoc. read_statement.
  - destruct (uc_IsNullable input) as [[]|]; [| |done]; (constructor; [|done]); rewrite ?append_assoc; read_statement.
  - destruct (uc_DefaultValue input) as [v|]; [|by injection Hd as <-]. cbn in Hdf. destruct (String.eqb v ""); [injection Hd as <-|].
    + constructor; [|done]. unfold alter_column, qualified. rewrite ?append_assoc. read_statement.
    + destruct (sanitizeDefaultValue v) as [safeDef|]; [|done]. injection Hd as <-. apply list.Forall_cons in Hdf as [Hdf%reads_spelled _].
      constructor; [|done]. unfold alter_column, qualified. rewrite ?append_assoc. read_statement.
Qed.

Lemma reads_create_index schema table input : ∀ statement, create_index_statement schema table input = Ok statement →
  Forall2 reads_as [statement] (asked_for (OpCreateIndex schema table input)).
Proof.
  intros statement (_ & _ & H)%guarded_Ok. cbn zeta in H. cbn [asked_for target fst snd]. cbn zeta.
  change (if String.eqb (ci_IndexName input) "" then _ else _) with (index_name schema table input) in H.
  set (indexName := index_name schema table input) in *.
  destruct (negb _); [done|]. destruct (List.find _ _); [done|]. set (indexType := if String.eqb _ "" then "btree" else _) in *.
  destruct (existsb (String.eqb indexType) _) eqn:Et; [|done]. injection H as <-.
  assert (Hty : reads indexType = Some [Word indexType]) by (apply (among _ _ (λ s, reads s = Some [Word s]) Et); by repeat constructor).
  assert (Hcols : reads (Join (quoteIdent <$> ci_Columns input) ", ") = Some (between [Punct ","] ((λ c, [Quoted c]) <$> ci_Columns input))).
  { apply reads_Join; [done..|]. induction (ci_Columns input) as [|c l IH]; constructor; [apply reads_quoteIdent|done]. }
  clearbody indexType indexName. constructor; [|done]. unfold reads_as, qualified.
  set (columns_text := Join _ _) in *. clearbody columns_text. destruct (ci_IsUnique input); rewrite ?append_assoc; read_statement.
Qed.

Lemma reads_keyword raw fallback l : existsb (String.eqb (keyword raw fallback)) l = true → Forall (λ s, reads s = Some [Word s]) l →
  reads (keyword raw fallback) = Some [Word (keyword raw fallback)].
Proof. intros H. by apply (among _ _ (λ s, reads s = Some [Word s]) H). Qed.

Lemma reads_condition expression opening ws e clause : expression_clause expression opening e = Ok clause → readable expression →
  opens opening (words ws ++ [Punct "("]) → begins_apart opening = true → opening ≠ "" →
  reads clause = Some (condition_tokens ws expression) ∧ ∀ rest, begins_apart rest = true → begins_apart (clause ++ rest) = true.
Proof.
  unfold expression_clause, condition_tokens. intros H Hr%reads_spelled Ho Hb Hne. destruct (String.eqb expression ""); [by injection H as <-|].
  destruct (forbidden expression); [done|]. injection H as <-. split; [|by destruct opening].
  eapply reads_eq; [apply reads_after; [done|]; eapply reads_then; [done| |]; done|]. by rewrite <- app_assoc.
Qed.

Lemma reads_create_policy schema table input : Forall readable (free_texts (OpCreatePolicy schema table input)) →
  ∀ statement, create_policy_statement schema table input = Ok statement → Forall2 reads_as [statement] (asked_for (OpCreatePolicy schema table input)).
Proof.
  intros Hf statement (_ & _ & H)%guarded_Ok. cbn zeta in H. apply list.Forall_cons in Hf as [Hu Hf]. apply list.Forall_cons in Hf as [Hk _].
  destruct (existsb (String.eqb (keyword (cp_Command input) "ALL")) _) eqn:Ec; [|done]. cbn [negb] in H.
  destruct (existsb (String.eqb (keyword (cp_Permissive input) "PERMISSIVE")) _) eqn:Ep; [|done]. cbn [negb] in H.
  apply reads_keyword in Ec; [|by repeat constructor]. apply reads_keyword in Ep; [|by repeat constructor].
  apply result_bind_Ok in H as (roles & Hr & H). apply result_bind_Ok in H as (using_clause & Hus & H).
  apply result_bind_Ok in H as (check_clause & Hch & H). injection H as <-.
  apply (reads_condition _ _ ["USING"]) in Hus as [Hus Hus']; [|done..]. apply (reads_condition _ _ ["WITH"; "CHECK"]) in Hch as [Hch Hch']; [|done..].
  assert (Hroles : reads (Join roles ", ")
    = Some (between [Punct ","] (match cp_Roles input with [] => [[Word "PUBLIC"]] | roles => role_tokens <$> roles end))).
  { apply reads_Join; [done..|]. destruct (cp_Roles input); [injection Hr as <-; by repeat constructor|by apply reads_roles]. }
  constructor; [|done]. unfold reads_as. cbn [asked_for target fst snd]. unfold qualified.
  set (roles_text := Join roles ", ") in *. set (kp := keyword (cp_Permissive input) "PERMISSIVE") in *. set (kc := keyword (cp_Command input) "ALL") in *.
  set (role_ts := between _ _) in *. clearbody roles_text kp kc role_ts.
  assert (Htail : reads (roles_text ++ using_clause ++ check_clause ++ ";")
    = Some (role_ts ++ condition_tokens ["USING"] (cp_UsingExpression input) ++ condition_tokens ["WITH"; "CHECK"] (cp_CheckExpression input) ++ [Punct ";"])%list).
  { apply reads_then; [done| |by apply Hus', Hch']. apply reads_then; [done| |by apply Hch']. by apply reads_then. }
  set (tail_text := roles_text ++ _) in *. clearbody tail_text. rewrite ?append_assoc. read_statement.
Qed.

(** The checks leave no semicolon in defaults and expressions. *)
Lemma default_lacks d safeDef : d ≫= sanitizeDefaultValue = Some safeDef → lacks ";" safeDef = true.
Proof.
  destruct d as [d|]; [|done]. cbn. unfold sanitizeDefaultValue. destruct (String.eqb _ _); [done|]. cbn [orb].
  destruct (forbidden _) eqn:E; [done|]. intros [= <-]. by apply allowed_lacks.
Qed.

Lemma expression_lacks expression opening e clause : expression_clause expression opening e = Ok clause → lacks ";" expression = true.
Proof.
  unfold expression_clause. destruct (String.eqb_spec expression "") as [->|]; [done|]. destruct (forbidden expression) eqn:E; [done|].
  intros _. by apply allowed_lacks.
Qed.

Lemma no_semicolons op statements : statements_of op = Ok statements →
  Forall (λ t, lacks ";" t = true) (type_texts op) → Forall (λ t, lacks ";" t = true) (free_texts op).
Proof.
  assert (Hcol : ∀ column, lacks ";" (sanitizeType (col_Type column)) = true → Forall (λ t, lacks ";" t = true) (column_texts column)).
  { intros column Ht. unfold column_texts. apply list.Forall_cons. split; [done|].
    destruct (col_DefaultValue column ≫= sanitizeDefaultValue) as [safeDef|] eqn:E; [|done]. apply Forall_one. by eapply default_lacks. }
  intros H Ht. destruct op; try done; cbn [free_texts type_texts] in *.
  - clear H. induction (ct_Columns createTableInput) as [|column columns IH]; [done|]. cbn [mbind list_bind fmap list_fmap] in *.
    apply list.Forall_cons in Ht as [Hl Ht]. apply Forall_app. split; [by apply Hcol|by apply IH].
  - apply list.Forall_cons in Ht as [Hl _]. by apply Hcol.
  - apply Forall_app. split; [done|].
    destruct (uc_DefaultValue updateColumnInput ≫= sanitizeDefaultValue) as [safeDef|] eqn:E; [|done]. apply Forall_one. by eapply default_lacks.
  - cbn [statements_of] in H. apply result_bind_Ok in H as (s & H & _). apply guarded_Ok in H as (_ & _ & H). cbn zeta in H.
    destruct (negb _); [done|]. destruct (negb _); [done|]. apply result_bind_Ok in H as (? & _ & H). apply result_bind_Ok in H as (? & Hu & H).
    apply result_bind_Ok in H as (? & Hk & _). apply expression_lacks in Hu, Hk. by repeat constructor.
Qed.

Lemma between_pieces sep l : one_piece sep = true → Forall (λ ts, one_piece ts = true) l → one_piece (between sep l) = true.
Proof.
  intros Hs. induction 1 as [|x l Hx Hl IH]; [done|]. destruct l as [|y l]; [done|].
  change (between sep (x :: y :: l)) with (x ++ sep ++ between sep (y :: l))%list. by rewrite !one_piece_app, Hx, Hs, IH.
Qed.

Lemma one_piece_cons t ts : one_piece (t :: ts) = negb (semicolon t) && one_piece ts.
Proof. done. Qed.
Lemma one_piece_words l : one_piece (words l) = true.
Proof. by induction l. Qed.

Ltac pieces :=
  unfold object, cascade_tokens;
  repeat first [rewrite one_piece_app|rewrite one_piece_cons|rewrite one_piece_words];
  repeat match goal with H : one_piece _ = true |- _ => rewrite H end; try reflexivity.

Lemma column_pieces column : Forall (λ e, one_piece (spelled e) = true) (column_texts column) → one_piece (column_tokens column) = true.
Proof.
  unfold column_texts, column_tokens. intros [Ht Hd]%list.Forall_cons.
  destruct (col_DefaultValue column ≫= sanitizeDefaultValue) as [safeDef|]; [apply list.Forall_cons in Hd as [Hd _]|];
    destruct (col_IsNullable column), (col_IsUnique column); by pieces.
Qed.

Lemma table_pieces input : Forall (λ e, one_piece (spelled e) = true) (free_texts (OpCreateTable input)) →
  Forall (λ ts, one_piece ts = true) (table_tokens input).
Proof.
  unfold table_tokens. cbn zeta. set (keyName := if String.eqb _ "" then "id" else _). cbn [free_texts]. intros H.
  assert (Hcols : Forall (λ ts, one_piece ts = true)
    ((λ column, if is_key keyName column then key_tokens (col_Name column) else column_tokens column) <$> ct_Columns input)).
  { induction (ct_Columns input) as [|column columns IH]; [done|]. cbn [mbind list_bind] in H. apply Forall_app in H as [Hc H].
    constructor; [|by apply IH]. destruct (is_key _ _); [done|by apply column_pieces]. }
  apply Forall_app. split; [destruct (existsb _ _); [done|by constructor]|].
  apply list.Forall_fmap, list.Forall_forall. intros fk _. cbn. unfold foreign_key_tokens, action_tokens.
  assert (Ha : ∀ a, one_piece (spelled (sanitizeAction a)) = true) by (intros a; apply (action_cases a (λ a, one_piece (spelled a) = true)); vm_compute; reflexivity).
  pose proof (Ha (fk_OnDelete fk)). pose proof (Ha (fk_OnUpdate fk)). destruct (String.eqb (fk_OnDelete fk) ""), (String.eqb (fk_OnUpdate fk) ""); by pieces.
Qed.

Lemma asked_pieces op : Forall (λ e, one_piece (spelled e) = true) (free_texts op) → Forall (λ ts, one_piece ts = true) (asked_for op).
Proof.
  intros H. destruct op; cbn [asked_for target fst snd free_texts] in *; unfold alter_table.
  - apply table_pieces, (between_pieces [Punct ","]) in H; [|done]. apply Forall_one. by pieces.
  - apply Forall_one. by destruct cascade.
  - apply Forall_one. by destruct cascade.
  - apply column_pieces in H. apply Forall_one. by pieces.
  - apply Forall_app in H as [Ht Hd]. cbn zeta. repeat (apply Forall_app; split).
    + by destruct (v ← given (uc_NewName updateColumnInput); _); [apply Forall_one|].
    + destruct (given _); [|done]. apply list.Forall_cons in Ht as [Ht _]. apply Forall_one. by pieces.
    + destruct (uc_IsNullable updateColumnInput); [|done]. by apply Forall_one.
    + destruct (uc_DefaultValue updateColumnInput) as [v|]; [|done]. cbn in Hd. destruct (String.eqb v ""); [by apply Forall_one|].
      destruct (sanitizeDefaultValue v); [|done]. apply list.Forall_cons in Hd as [Hd _]. apply Forall_one. by pieces.
  - apply Forall_one. by destruct cascade.
  - apply Forall_one. cbn zeta. assert (Hc : one_piece (between [Punct ","] ((λ c, [Quoted c]) <$> ci_Columns createIndexInput)) = true).
    { apply between_pieces; [done|]. by apply list.Forall_fmap, list.Forall_forall. }
    destruct (ci_IsUnique createIndexInput); by pieces.
  - by apply Forall_one.
  - by apply Forall_one.
  - by apply Forall_one.
  - apply Forall_one. by destruct force.
  - apply list.Forall_cons in H as [Hu H]. apply list.Forall_cons in H as [Hk _]. apply Forall_one.
    set (roles := match cp_Roles createPolicyInput with [] => [[Word "PUBLIC"]] | roles => role_tokens <$> roles end).
    assert (Hr : one_piece (between [Punct ","] roles) = true).
    { apply between_pieces; [done|]. unfold roles. destruct (cp_Roles createPolicyInput) as [|r l]; [by repeat constructor|].
      apply list.Forall_fmap, list.Forall_forall. intros x _. cbn. unfold role_tokens. by destruct (is_public _). }
    clearbody roles. unfold condition_tokens. destruct (String.eqb (cp_UsingExpression _) ""), (String.eqb (cp_CheckExpression _) ""); by pieces.
  - by apply Forall_one.
Qed.

End meaning.

(** ** Running an operation *)

Section run.
Context `{CT : CaseTables} `{UT : UnicodeTables} {D : Type} (exec : string → D → option D) (begin_ok commit_ok : bool).

Definition run_operation (op : Operation) : D → result DDLError unit * D :=
  match op with
  | OpCreateTable input => CreateTable exec input
  | OpDropTable schema table cascade => DropTable exec schema table cascade
  | OpTruncateTable schema table cascade => TruncateTable exec schema table cascade
  | OpAddColumn schema table column => AddColumn exec schema table column
  | OpAlterColumn schema table columnName input => AlterColumn exec begin_ok commit_ok schema table columnName input
  | OpDropColumn schema table columnName cascade => DropColumn exec schema table columnName cascade
  | OpCreateIndex schema table input => CreateIndex exec schema table input
  | OpDropIndex schema indexName => DropIndex exec schema indexName
  | OpEnableRLS schema table => EnableRLS exec schema table
  | OpDisableRLS schema table => DisableRLS exec schema table
  | OpForceRLS schema table force => ForceRLS exec schema table force
  | OpCreatePolicy schema table input => CreatePolicy exec schema table input
  | OpDropPolicy schema table policyName => DropPolicy exec schema table policyName
  end.

(** Its statements have all run, in their order, or none has. *)
Definition atomic (statements : result DDLError (list string)) (db : D) (r : result DDLError unit) (db' : D) : Prop :=
  match r with
  | Ok _ => ∃ l, statements = Ok l ∧ exec_all exec l db = Ok db'
  | Err _ => db' = db
  end.

Lemma Transact_atomic statements db r db' : Transact exec begin_ok commit_ok statements db = (r, db') → atomic statements db r db'.
Proof.
  unfold Transact. destruct statements as [l|e]; [|by intros [= <- <-]]. destruct (negb begin_ok); [by intros [= <- <-]|].
  destruct (exec_all exec l db) as [db1|e] eqn:E; [|by intros [= <- <-]]. destruct commit_ok; intros [= <- <-]; [|done]. by exists l.
Qed.

Lemma Exec_atomic statement db r db' : Exec exec statement db = (r, db') → atomic (let! s := statement in Ok [s]) db r db'.
Proof.
  unfold Exec. destruct statement as [s|e]; [|by intros [= <- <-]]. destruct (exec s db) as [db1|] eqn:E; intros [= <- <-]; [|done].
  exists [s]. split; [done|]. cbn. by rewrite E.
Qed.

Lemma run_operation_atomic op db r db' : run_operation op db = (r, db') → atomic (statements_of op) db r db'.
Proof. destruct op; try exact (Exec_atomic _ _ _ _). exact (Transact_atomic _ _ _ _). Qed.
End run.

(** ** Shortcomings *)

Section shortcomings.
Context `{CT : CaseTables} `{UT : UnicodeTables}.

(** A default that is refused when a column is altered is left out when it is
    added or its table created. *)
Lemma refused_default_left_out column d : col_DefaultValue column = Some d → sanitizeDefaultValue d = None →
  buildColumnClause column
  = buildColumnClause (MkColumn (col_Name column) (col_Type column) (col_IsNullable column) None (col_IsPrimaryKey column) (col_IsUnique column)).
Proof. intros Hd Hs. unfold buildColumnClause. cbn [col_DefaultValue col_Name col_Type col_IsNullable col_IsUnique]. rewrite Hd. cbn. by rewrite Hs. Qed.
End shortcomings.

Section samples.
#[local] Existing Instance sample_case.
#[local] Existing Instance ascii_tables.

(** What begins as varchar and ends with a bracket passes as a type. *)
Definition smuggled_type : Column := MkColumn "c" "varchar(1); drop table x; select (1)" true None false false.
Lemma type_carries_statement : ∃ statement, add_column_statement "" "t" smuggled_type = Ok statement
  ∧ reads statement = Some (words ["ALTER"; "TABLE"] ++ object "public" "t" ++ words ["ADD"; "COLUMN"]
      ++ [Quoted "c"; Word "varchar"; Punct "("; Word "1"; Punct ")"; Punct ";"]
      ++ words ["drop"; "table"; "x"] ++ [Punct ";"; Word "select"; Punct "("; Word "1"; Punct ")"; Punct ";"])%list.
Proof. eexists. split; vm_compute; reflexivity. Qed.

(** A default that opens a literal turns the quoted schema of a foreign key
    into text of the statement. *)
Definition smuggled_table : CreateTableInput :=
  MkCreateTableInput "" "t" "" [MkColumn "c" "text" true (Some "'") false false]
    [MkForeignKey "c" "'); drop table x; create table y (a int --" "t" "c" "" ""].
Lemma default_opens_literal : ∃ statement before l, create_table_statement smuggled_table = Ok statement
  ∧ reads statement = Some (before ++ [Literal l; Punct ")"; Punct ";"] ++ words ["drop"; "table"; "x"]
      ++ [Punct ";"; Word "create"; Word "table"; Word "y"; Punct "("; Word "a"; Word "int"; Punct ")"; Punct ";"])%list.
Proof.
  eexists. exists (words ["CREATE"; "TABLE"; "IF"; "NOT"; "EXISTS"] ++ object "public" "t"
    ++ [Punct "("; Quoted "id"; Word "UUID"; Word "PRIMARY"; Word "KEY"; Word "DEFAULT"; Word "uuidv7"; Punct "("; Punct ")"; Punct ",";
        Quoted "c"; Word "text"; Word "DEFAULT"])%list. eexists. split; vm_compute; reflexivity.
Qed.

End samples.
