(* ===== verification/DataControl.v ===== *)
(** * The control plane of data

    control_plane_handler.go and control_plane_handler_config.go, _table.go,
    _column.go, _index.go, _policy.go and _sql.go: the routes of
    /v1/_/data.  A handler checks a scope, decodes, asks the schema engine or
    the configuration manager, moves the versions of what is cached on and
    announces what it did.

    Shown: a request for a change of the schema runs exactly the statements of
    its operation, and then invalidates and announces it, or changes nothing;
    no sequence of requests makes the settings invalid; and what is cached of a
    table that is created without a schema stays.

    Parameters: JSON decoding, the database with its catalog, and what the
    introspection of schemas leaves in the store. *)

From stdpp Require Import strings gmap.
From Stdlib Require Import ZArith Lia Ascii String.
From S2P Require Import Prelude GoStrings GoRunes GoValues GoTime Scopes ServiceAccounts TasksHandlers SqlText KVStore DataKV DataCache RestBuilder GraphQLHandler RecordHandlers AuthCodes DDL DataConfig.
Local Open Scope string_scope.
Local Open Scope Z_scope.

Definition ScopeDataSchemaRead : string := "data:schema.read".
Definition ScopeDataSchemaWrite : string := "data:schema.write".
Definition ScopeDataCacheWrite : string := "data:cache.write".
Definition ScopeDataConfigRead : string := "data:config.read".
Definition ScopeDataConfigWrite : string := "data:config.write".

(** What the other handlers of data read of the settings. *)
Definition data_settings (c : Config (list string)) : DataConfig :=
  MkDataConfig (l_Schemas (cfg_Lists c)) (rest_Enabled (s_REST (cfg_Scalars c))) (rest_MaxLimit (s_REST (cfg_Scalars c)))
    (rest_DefaultLimit (s_REST (cfg_Scalars c))) (l_ExcludedTables (cfg_Lists c)) (cache_Enabled (s_Cache (cfg_Scalars c)))
    (cache_QueryTTLSeconds (s_Cache (cfg_Scalars c))) (cache_MaxCachedQueries (s_Cache (cfg_Scalars c)))
    (cache_InvalidateOnMutation (s_Cache (cfg_Scalars c))).

(** ** The catalog, as it is reported *)

Record Index := MkIndex { ix_IndexName : string; ix_Columns : list string; ix_Type : string; ix_IsUnique : bool }.
Record Policy := MkPolicy {
  pol_Schema : string; pol_Table : string; pol_Name : string; pol_Command : string; pol_Roles : list string; pol_Permissive : string;
  pol_UsingExpression : string; pol_CheckExpression : string }.
Record Table := MkTable {
  tab_Schema : string; tab_Name : string; tab_PrimaryKey : string; tab_Columns : list Column; tab_ForeignKeys : list (string * ForeignKey);
  tab_Indexes : list Index; tab_RLSEnabled : bool; tab_RLSForced : bool; tab_EstimatedRowCount : Z; tab_SizeBytes : Z }.

(** The queries on information_schema and pg_catalog; [None]: the query fails. *)
Class Catalog (D : Type) := MkCatalog {
  q_tables : string → D → option (list (string * Z * Z));
  q_exists : string → string → D → option bool;
  q_primary_key : string → string → D → option string;
  (** Name, type, whether it may be null, default. *)
  q_columns : string → string → D → option (list (string * string * bool * option string));
  (** With the name of the constraint. *)
  q_foreign_keys : string → string → D → option (list (string * ForeignKey));
  q_row_security : string → string → D → option (bool * bool);
  q_indexes : string → string → D → option (list Index);
  (** Name, permissive, command, roles and the two expressions. *)
  q_policies : string → string → D → option (list (string * string * string * list string * string * string)) }.

Section catalog.
Context `{CT : CaseTables} `{UT : UnicodeTables} {D : Type} `{Catalog D}.

Definition ListIndexes (schema table : string) (db : D) : result DDLError (list Index) :=
  guarded schema (IsValidIdentifier table) (InvalidTable table) (λ schema,
    match q_indexes schema table db with Some l => Ok l | None => Err (StatementFailed "indexes") end).

Definition ListPolicies (schema table : string) (db : D) : result DDLError (list Policy) :=
  guarded schema (IsValidIdentifier table) (InvalidTable table) (λ schema,
    match q_policies schema table db with
    | Some l => Ok ((λ '(name, permissive, cmd, roles, qual, with_check), MkPolicy schema table name cmd roles permissive qual with_check) <$> l)
    | None => Err (StatementFailed "policies")
    end).

(** Details that cannot be read are left empty. *)
Definition GetTable (schema tableName : string) (db : D) : result DDLError Table :=
  if IsProtectedSchema schema then Err (ProtectedSchema schema) else
  if negb (default false (q_exists schema tableName db)) then Err (InvalidTable tableName) else
  let primaryKey := default "" (q_primary_key schema tableName db) in
  let column '(name, type, isNullable, columnDefault) := MkColumn name type isNullable columnDefault (String.eqb name primaryKey) false in
  let '(rlsEnabled, rlsForced) := default (false, false) (q_row_security schema tableName db) in
  Ok (MkTable schema tableName primaryKey (column <$> default [] (q_columns schema tableName db))
        (default [] (q_foreign_keys schema tableName db))
        (match ListIndexes schema tableName db with Ok l => l | Err _ => [] end) rlsEnabled rlsForced 0 0).

Definition with_stats (rows size : Z) (t : Table) : Table :=
  MkTable (tab_Schema t) (tab_Name t) (tab_PrimaryKey t) (tab_Columns t) (tab_ForeignKeys t) (tab_Indexes t) (tab_RLSEnabled t) (tab_RLSForced t)
    rows size.

Fixpoint list_schemas (schemas : list string) (db : D) : result DDLError (list Table) :=
  match schemas with
  | [] => Ok []
  | schema :: schemas =>
      if IsProtectedSchema schema then list_schemas schemas db else
      match q_tables schema db with
      | None => Err (StatementFailed schema)
      | Some stats =>
          match list_schemas schemas db with
          | Err e => Err e
          | Ok rest => Ok (omap (λ '(name, rows, size), match GetTable schema name db with Ok t => Some (with_stats rows size t) | Err _ => None end)
                             stats ++ rest)%list
          end
      end
  end.
Definition ListTables (schemas : list string) (db : D) : result DDLError (list Table) :=
  list_schemas (match schemas with [] => ["public"] | _ => schemas end) db.
End catalog.

(** ** Requests, answers and state *)

Record PathRequest := MkPathRequest { pr_Control : ControlRequest; pr_Path : string; pr_Method : string }.

(** A body that may be empty. *)
Inductive Decoded (A : Type) := DecodedEOF | DecodeFailed | DecodedValue (a : A).
Arguments DecodedEOF {A}.
Arguments DecodeFailed {A}.
Arguments DecodedValue {A}.

Class SchemaDecoders := MkSchemaDecoders {
  decode_create_table : string → option CreateTableInput;
  decode_column : string → option Column;
  decode_update_column : string → option UpdateColumnInput;
  decode_create_index : string → option CreateIndexInput;
  decode_create_policy : string → option CreatePolicyInput;
  (** action, mode *)
  decode_toggle_rls : string → option (string * string);
  (** sql, query *)
  decode_execute_sql : string → option (string * string);
  decode_invalidate : string → Decoded InvalidateCacheInput }.

Section control.
Context `{FL : Floats}.

Inductive ControlEvent :=
| ConfigUpdated (c : Config (list string)) | CacheFlushed | CacheInvalidated (pattern : string)
| TableCreated (tableID schema table : string) (columns : list Column) (foreignKeys : list ForeignKey)
| TableUpdated (tableID schema table action detail : string)
| TableDeleted (tableID schema table : string)
| TableTruncated (tableID schema table : string)
| SQLExecuted (query : string) (rowsAffected : Z).

Inductive ControlBody :=
| BodyDetail (detail : string) | BodyDDLError (e : DDLError) | BodyConfigError (e : ConfigError)
| BodyConfig (c : Config (list string)) | BodyFlushed | BodyInvalidated (pattern : string)
| BodyTables (tables : list Table) | BodyTable (t : Table) | BodyIndexes (l : list Index) | BodyPolicies (l : list Policy)
| BodyDone (status name : string) | BodySQL (columns : list string) (rows : list (list (string * any))) (rowsAffected : Z).

Record ControlAnswer := MkControlAnswer { ca_status : Z; ca_body : ControlBody }.

Record ControlState (S D : Type) := MkControlState {
  ctl_store : S; ctl_db : D; ctl_config : ConfigState; ctl_events : list ControlEvent }.
Arguments MkControlState {S D}.
Arguments ctl_store {S D}.
Arguments ctl_db {S D}.
Arguments ctl_config {S D}.
Arguments ctl_events {S D}.

Context `{CT : CaseTables} `{UT : UnicodeTables} `{HL : HostLib} `{SD : SchemaDecoders} `{CJ : ConfigJSON} {S D : Type} `{KD : KVDriver S} `{CA : Catalog D}.

Record ControlEnv := MkControlEnv {
  cn_kv : KVEnv; cn_sa_faults : SAStmt → bool; cn_accounts : Accounts; cn_trustProxy : bool;
  cn_config_faults : ConfigStmt → bool; cn_begin_ok : bool; cn_commit_ok : bool }.

Context (exec : string → D → option D) (query : string → D → QueryOutcome D) (introspect : list string → D → S → S).
Context (env : ControlEnv).

Definition Reply : Type := ControlAnswer * ControlState S D.
Definition reply (status : Z) (body : ControlBody) (st : ControlState S D) : Reply := (MkControlAnswer status body, st).

Definition scoped (request : PathRequest) (scope : string) (st : ControlState S D) (k : Reply) : Reply :=
  match RequireScope (kv_now (cn_kv env)) (cn_sa_faults env) (cn_trustProxy env) (http_request (pr_Control request)) scope (cn_accounts env) with
  | Some status => reply status (BodyDetail ("Forbidden: scope " ++ scope ++ " required")) st
  | None => k
  end.

Definition settings (st : ControlState S D) : Config (list string) := GetConfig (ctl_config st).
Definition set_config (c : ConfigState) (st : ControlState S D) : ControlState S D :=
  MkControlState (ctl_store st) (ctl_db st) c (ctl_events st).
Definition set_db (db : D) (st : ControlState S D) : ControlState S D := MkControlState (ctl_store st) db (ctl_config st) (ctl_events st).
Definition set_store (s : S) (st : ControlState S D) : ControlState S D := MkControlState s (ctl_db st) (ctl_config st) (ctl_events st).
Definition publish (e : ControlEvent) (st : ControlState S D) : ControlState S D :=
  MkControlState (ctl_store st) (ctl_db st) (ctl_config st) (ctl_events st ++ [e])%list.

Definition flush_all : InvalidateCacheInput := MkInvalidateCacheInput "" "" "" true true.

(** [Service.InvalidateCatalog] and [Service.InvalidateTableCache]. *)
Definition InvalidateCatalog (st : ControlState S D) : ControlState S D :=
  set_store (introspect (l_Schemas (cfg_Lists (settings st))) (ctl_db st) (InvalidateCache (cn_kv env) flush_all (ctl_store st))) st.
Definition invalidate_table (schema table : string) (st : ControlState S D) : ControlState S D :=
  set_store (InvalidateTableCache (cn_kv env) (data_settings (settings st)) schema table (ctl_store st)) st.

(** ** Paths *)

Fixpoint drop_slashes (l : list ascii) : list ascii :=
  match l with c :: l' => if Ascii.eqb c "/" then drop_slashes l' else l | [] => [] end.
Definition trim_slashes (s : string) : string :=
  string_of_list_ascii (rev (drop_slashes (rev (drop_slashes (list_ascii_of_string s))))).

(** The segments behind /v1/_/data/tables; none when the path ends there. *)
Definition path_segments (request : PathRequest) : list string :=
  let cleaned := trim_slashes (TrimPrefix (TrimPrefix (pr_Path request) "/v1/_/data/tables") "/v1/_/data") in
  if String.eqb cleaned "" then [] else Split cleaned "/".

Definition extractSchemaAndTable (request : PathRequest) : string * string :=
  let schema := PathValue (pr_Control request) "schema_name" in
  let table := PathValue (pr_Control request) "table_name" in
  if negb (String.eqb schema "") && negb (String.eqb table "") then (schema, table) else
  let parts := path_segments request in
  (if String.eqb schema "" then default schema (parts !! 0%nat) else schema,
   if String.eqb table "" then default table (parts !! 1%nat) else table).

(** [extractColumnName], [extractIndexName] and [extractPolicyName]. *)
Definition extract_name (key segment : string) (request : PathRequest) : string :=
  let name := PathValue (pr_Control request) key in
  if negb (String.eqb name "") then name else
  let parts := path_segments request in
  match parts !! 2%nat, parts !! 3%nat with
  | Some action, Some element => if String.eqb action segment then element else ""
  | _, _ => ""
  end.
Definition extractColumnName : PathRequest → string := extract_name "column_name" "columns".
Definition extractIndexName : PathRequest → string := extract_name "index_name" "indexes".
Definition extractPolicyName : PathRequest → string := extract_name "policy_name" "policies".

Definition bad_path (st : ControlState S D) : Reply := reply 400 (BodyDetail "URL format must be /v1/_/data/tables/{schema}/{table}") st.
Definition bad_json (st : ControlState S D) : Reply := reply 400 (BodyDetail "Invalid JSON body") st.
Definition decode_request {A} (decode : string → option A) (request : PathRequest) : option A := RequestBody (pr_Control request) ≫= decode.
Definition cascade_of (request : PathRequest) : bool := String.eqb (Query (pr_Control request) "cascade") "true".

(** What follows an operation of the engine. *)
Definition after_change (r : result DDLError unit * D) (k : ControlState S D → Reply) (st : ControlState S D) : Reply :=
  match r with
  | (Err e, db) => reply 400 (BodyDDLError e) (set_db db st)
  | (Ok _, db) => k (set_db db st)
  end.

(** ** Settings and cache *)

Definition handleGetConfig (request : PathRequest) (st : ControlState S D) : Reply :=
  scoped request ScopeDataConfigRead st (reply 200 (BodyConfig (settings st)) st).

Definition handleUpdateConfig (request : PathRequest) (st : ControlState S D) : Reply :=
  scoped request ScopeDataConfigWrite st
    (match update_config (cn_config_faults env) (RequestBody (pr_Control request)) (ctl_config st) with
     | (None, c) => reply 400 (BodyDetail "Invalid JSON payload") (set_config c st)
     | (Some (Err (ErrInvalidConfig e)), c) => reply 400 (BodyConfigError (ErrInvalidConfig e)) (set_config c st)
     | (Some (Err e), c) => reply 500 (BodyConfigError e) (set_config c st)
     | (Some (Ok c'), c) => reply 200 (BodyConfig (GetConfig c)) (publish (ConfigUpdated c') (set_config c st))
     end).

Definition handleFlushCache (request : PathRequest) (st : ControlState S D) : Reply :=
  if negb (String.eqb (pr_Method request) "POST") then reply 405 (BodyDetail "Method Not Allowed") st else
  scoped request ScopeDataCacheWrite st
    (reply 200 BodyFlushed (publish CacheFlushed (set_store (InvalidateCache (cn_kv env) flush_all (ctl_store st)) st))).

Definition handleInvalidateCache (request : PathRequest) (st : ControlState S D) : Reply :=
  if negb (String.eqb (pr_Method request) "POST") then reply 405 (BodyDetail "Method Not Allowed") st else
  scoped request ScopeDataCacheWrite st
    (match match RequestBody (pr_Control request) with Some body => decode_invalidate body | None => DecodedEOF end with
     | DecodeFailed => reply 400 (BodyDetail "Invalid JSON payload") st
     | d =>
         let input := match d with DecodedValue input => input | _ => MkInvalidateCacheInput "" "" "" false false end in
         let pattern := if negb (String.eqb (ic_Schema input) "") && negb (String.eqb (ic_Table input) "")
                        then ic_Schema input ++ "." ++ ic_Table input
                        else if negb (String.eqb (ic_Pattern input) "") then ic_Pattern input else "*" in
         reply 200 (BodyInvalidated pattern)
           (publish (CacheInvalidated pattern) (set_store (InvalidateCache (cn_kv env) input (ctl_store st)) st))
     end).

(** ** The schema *)

(** A route of a table, when its path names one. *)
Definition on_table (request : PathRequest) (scope : string) (st : ControlState S D) (k : string → string → Reply) : Reply :=
  scoped request scope st
    (let '(schema, table) := extractSchemaAndTable request in
     if String.eqb schema "" || String.eqb table "" then bad_path st else k schema table).

Definition table_id (schema table : string) : string := schema ++ "." ++ table.
Definition updated (schema table action detail : string) : ControlEvent := TableUpdated (table_id schema table) schema table action detail.

Definition handleListTables (request : PathRequest) (st : ControlState S D) : Reply :=
  scoped request ScopeDataSchemaRead st
    (match ListTables (l_Schemas (cfg_Lists (settings st))) (ctl_db st) with
     | Err e => reply 500 (BodyDDLError e) st
     | Ok tables => reply 200 (BodyTables tables) st
     end).

Definition handleCreateTable (request : PathRequest) (st : ControlState S D) : Reply :=
  scoped request ScopeDataSchemaWrite st
    (match decode_request decode_create_table request with
     | None => bad_json st
     | Some input =>
         after_change (CreateTable exec input (ctl_db st)) (λ st,
           reply 201 (BodyDone "created" (table_id (ct_Schema input) (ct_Name input)))
             (publish (TableCreated (table_id (ct_Schema input) (ct_Name input)) (ct_Schema input) (ct_Name input) (ct_Columns input)
                         (ct_ForeignKeys input))
               (invalidate_table (ct_Schema input) (ct_Name input) (InvalidateCatalog st)))) st
     end).

Definition handleGetTable (request : PathRequest) (st : ControlState S D) : Reply :=
  on_table request ScopeDataSchemaRead st (λ schema table,
    match GetTable schema table (ctl_db st) with
    | Err e => reply 404 (BodyDDLError e) st
    | Ok t => reply 200 (BodyTable t) st
    end).

Definition handleDeleteTable (request : PathRequest) (st : ControlState S D) : Reply :=
  on_table request ScopeDataSchemaWrite st (λ schema table,
    after_change (DropTable exec schema table (cascade_of request) (ctl_db st)) (λ st,
      reply 200 (BodyDone "deleted" table)
        (publish (TableDeleted (table_id schema table) schema table) (invalidate_table schema table (InvalidateCatalog st)))) st).

(** Not routed. *)
Definition handleTruncateTable (request : PathRequest) (st : ControlState S D) : Reply :=
  on_table request ScopeDataSchemaWrite st (λ schema table,
    after_change (TruncateTable exec schema table (cascade_of request) (ctl_db st)) (λ st,
      reply 200 (BodyDone "truncated" table)
        (publish (TableTruncated (table_id schema table) schema table) (invalidate_table schema table st))) st).

Definition handleCreateColumn (request : PathRequest) (st : ControlState S D) : Reply :=
  on_table request ScopeDataSchemaWrite st (λ schema table,
    match decode_request decode_column request with
    | None => bad_json st
    | Some column =>
        after_change (AddColumn exec schema table column (ctl_db st)) (λ st,
          reply 201 (BodyDone "created" (col_Name column))
            (publish (updated schema table "add_column" (col_Name column)) (invalidate_table schema table (InvalidateCatalog st)))) st
    end).

Definition handleUpdateColumn (request : PathRequest) (st : ControlState S D) : Reply :=
  on_table request ScopeDataSchemaWrite st (λ schema table,
    let columnName := extractColumnName request in
    if String.eqb columnName "" then bad_path st else
    match decode_request decode_update_column request with
    | None => bad_json st
    | Some input =>
        after_change (AlterColumn exec (cn_begin_ok env) (cn_commit_ok env) schema table columnName input (ctl_db st)) (λ st,
          reply 200 (BodyDone "updated" columnName)
            (publish (updated schema table "alter_column" columnName) (invalidate_table schema table (InvalidateCatalog st)))) st
    end).

Definition handleDeleteColumn (request : PathRequest) (st : ControlState S D) : Reply :=
  on_table request ScopeDataSchemaWrite st (λ schema table,
    let columnName := extractColumnName request in
    if String.eqb columnName "" then bad_path st else
    after_change (DropColumn exec schema table columnName (cascade_of request) (ctl_db st)) (λ st,
      reply 200 (BodyDone "deleted" columnName)
        (publish (updated schema table "drop_column" columnName) (invalidate_table schema table (InvalidateCatalog st)))) st).

Definition handleListIndexes (request : PathRequest) (st : ControlState S D) : Reply :=
  on_table request ScopeDataSchemaRead st (λ schema table,
    match ListIndexes schema table (ctl_db st) with
    | Err e => reply 500 (BodyDDLError e) st
    | Ok l => reply 200 (BodyIndexes l) st
    end).

Definition handleCreateIndex (request : PathRequest) (st : ControlState S D) : Reply :=
  on_table request ScopeDataSchemaWrite st (λ schema table,
    match decode_request decode_create_index request with
    | None => bad_json st
    | Some input =>
        after_change (CreateIndex exec schema table input (ctl_db st)) (λ st,
          reply 201 (BodyDone "created" (ci_IndexName input))
            (publish (updated schema table "create_index" (ci_IndexName input)) (invalidate_table schema table (InvalidateCatalog st)))) st
    end).

(** The path must name a schema; without a table no version is moved. *)
Definition handleDeleteIndex (request : PathRequest) (st : ControlState S D) : Reply :=
  scoped request ScopeDataSchemaWrite st
    (let '(schema, table) := extractSchemaAndTable request in
     let indexName := extractIndexName request in
     if String.eqb schema "" || String.eqb indexName "" then bad_path st else
     after_change (DropIndex exec schema indexName (ctl_db st)) (λ st,
       reply 200 (BodyDone "deleted" indexName)
         (publish (updated schema table "drop_index" indexName)
           (let st := InvalidateCatalog st in if String.eqb table "" then st else invalidate_table schema table st))) st).

Definition handleListPolicies (request : PathRequest) (st : ControlState S D) : Reply :=
  on_table request ScopeDataSchemaRead st (λ schema table,
    match ListPolicies schema table (ctl_db st) with
    | Err e => reply 500 (BodyDDLError e) st
    | Ok l => reply 200 (BodyPolicies l) st
    end).

Definition handleCreatePolicy (request : PathRequest) (st : ControlState S D) : Reply :=
  on_table request ScopeDataSchemaWrite st (λ schema table,
    match decode_request decode_create_policy request with
    | None => bad_json st
    | Some input =>
        after_change (CreatePolicy exec schema table input (ctl_db st)) (λ st,
          reply 201 (BodyDone "created" (cp_Name input)) (publish (updated schema table "create_policy" (cp_Name input)) st)) st
    end).

Definition handleDeletePolicy (request : PathRequest) (st : ControlState S D) : Reply :=
  on_table request ScopeDataSchemaWrite st (λ schema table,
    let policyName := extractPolicyName request in
    if String.eqb policyName "" then bad_path st else
    after_change (DropPolicy exec schema table policyName (ctl_db st)) (λ st,
      reply 200 (BodyDone "deleted" policyName) (publish (updated schema table "drop_policy" policyName) st)) st).

(** The action: of the query, of the end of the path, of the body. *)
Definition rls_action (request : PathRequest) : string :=
  let action := strings_ToUpper (TrimSpace (Query (pr_Control request) "action")) in
  let action := if negb (String.eqb action "") then action else
                let path := TrimSuffix (pr_Path request) "/" in
                if HasSuffix path "/enable" then "ENABLE" else if HasSuffix path "/disable" then "DISABLE"
                else if HasSuffix path "/force" then "FORCE" else "" in
  if negb (String.eqb action "") then action else
  match decode_request decode_toggle_rls request with
  | Some (action, mode) =>
      if negb (String.eqb action "") then strings_ToUpper (TrimSpace action)
      else if negb (String.eqb mode "") then strings_ToUpper (TrimSpace mode) else ""
  | None => ""
  end.

Definition handleToggleRLS (request : PathRequest) (st : ControlState S D) : Reply :=
  on_table request ScopeDataSchemaWrite st (λ schema table,
    let toggled r status mode := after_change r (λ st,
      reply 200 (BodyDone status mode) (publish (updated schema table "toggle_rls" status) st)) st in
    let action := rls_action request in
    if String.eqb action "ENABLE" then toggled (EnableRLS exec schema table (ctl_db st)) "enabled" "ENABLE"
    else if String.eqb action "DISABLE" then toggled (DisableRLS exec schema table (ctl_db st)) "disabled" "DISABLE"
    else if String.eqb action "FORCE" then
      let force := negb (String.eqb (Query (pr_Control request) "force") "false") in
      toggled (ForceRLS exec schema table force (ctl_db st)) (if force then "forced" else "unforced") "FORCE"
    else if String.eqb action "UNFORCE" then toggled (ForceRLS exec schema table false (ctl_db st)) "unforced" "UNFORCE"
    else reply 400 (BodyDetail "Unknown RLS action") st).

(** ** Statements of the console *)

Record ExecuteSQLResponse := MkExecuteSQLResponse {
  es_Columns : list string; es_Rows : list (list (string * any)); es_RowsAffected : Z }.

(** [affected] is what the command tag says.  The error that may end the rows
    is not looked at. *)
Definition ExecuteSQL (affected : Z) (sqlQuery : string) (db : D) : result DDLError (ExecuteSQLResponse * D) :=
  let trimmed := TrimSpace sqlQuery in
  if String.eqb trimmed "" then Err EmptyQuery else
  match query trimmed db with
  | QueryFailed _ => Err (StatementFailed trimmed)
  | QueryRows fields rows _ after =>
      Ok (MkExecuteSQLResponse fields.*1 rows (if 0 <? affected then affected else Z.of_nat (List.length rows)), after)
  end.

Definition handleExecuteSQL (affected : Z) (request : PathRequest) (st : ControlState S D) : Reply :=
  if negb (String.eqb (pr_Method request) "POST") then reply 405 (BodyDetail "Method not allowed") st else
  scoped request ScopeDataSchemaWrite st
    (match decode_request decode_execute_sql request with
     | None => reply 400 (BodyDetail "Invalid or empty SQL query") st
     | Some (sql, queryText) =>
         let rawSQL := if String.eqb (TrimSpace sql) "" then TrimSpace queryText else TrimSpace sql in
         if String.eqb rawSQL "" then reply 400 (BodyDetail "Invalid or empty SQL query") st else
         match ExecuteSQL affected rawSQL (ctl_db st) with
         | Err e => reply 400 (BodyDDLError e) st
         | Ok (response, db) =>
             reply 200 (BodySQL (es_Columns response) (es_Rows response) (es_RowsAffected response))
               (publish (SQLExecuted rawSQL (es_RowsAffected response)) (InvalidateCatalog (set_db db st)))
         end
     end).

(** ** data/router.go: the routes under /v1/_/data *)

Inductive ControlRoute :=
| RouteGetConfig | RouteUpdateConfig | RouteFlushCache | RouteInvalidateCache | RouteListTables | RouteCreateTable | RouteGetTable
| RouteDeleteTable | RouteCreateColumn | RouteUpdateColumn | RouteDeleteColumn | RouteCreateIndex | RouteListIndexes | RouteDeleteIndex
| RouteListPolicies | RouteCreatePolicy | RouteDeletePolicy | RouteToggleRLS | RouteExecuteSQL (affected : Z).

Definition serve_control (route : ControlRoute) : PathRequest → ControlState S D → Reply :=
  match route with
  | RouteGetConfig => handleGetConfig | RouteUpdateConfig => handleUpdateConfig
  | RouteFlushCache => handleFlushCache | RouteInvalidateCache => handleInvalidateCache
  | RouteListTables => handleListTables | RouteCreateTable => handleCreateTable | RouteGetTable => handleGetTable
  | RouteDeleteTable => handleDeleteTable | RouteCreateColumn => handleCreateColumn | RouteUpdateColumn => handleUpdateColumn
  | RouteDeleteColumn => handleDeleteColumn | RouteCreateIndex => handleCreateIndex | RouteListIndexes => handleListIndexes
  | RouteDeleteIndex => handleDeleteIndex | RouteListPolicies => handleListPolicies | RouteCreatePolicy => handleCreatePolicy
  | RouteDeletePolicy => handleDeletePolicy | RouteToggleRLS => handleToggleRLS | RouteExecuteSQL affected => handleExecuteSQL affected
  end.

(** ** Changes of the schema *)

Definition changes_schema (route : ControlRoute) : bool :=
  match route with
  | RouteCreateTable | RouteDeleteTable | RouteCreateColumn | RouteUpdateColumn | RouteDeleteColumn | RouteCreateIndex | RouteDeleteIndex
  | RouteCreatePolicy | RouteDeletePolicy | RouteToggleRLS => true
  | _ => false
  end.
(** Rows look as before after a change of the policies. *)
Definition changes_policies (route : ControlRoute) : bool :=
  match route with RouteCreatePolicy | RouteDeletePolicy | RouteToggleRLS => true | _ => false end.

(** The operation a request asks for. *)
Definition asked (route : ControlRoute) (request : PathRequest) : option Operation :=
  let '(schema, table) := extractSchemaAndTable request in
  match route with
  | RouteCreateTable => OpCreateTable <$> decode_request decode_create_table request
  | RouteDeleteTable => Some (OpDropTable schema table (cascade_of request))
  | RouteCreateColumn => OpAddColumn schema table <$> decode_request decode_column request
  | RouteUpdateColumn => OpAlterColumn schema table (extractColumnName request) <$> decode_request decode_update_column request
  | RouteDeleteColumn => Some (OpDropColumn schema table (extractColumnName request) (cascade_of request))
  | RouteCreateIndex => OpCreateIndex schema table <$> decode_request decode_create_index request
  | RouteDeleteIndex => Some (OpDropIndex schema (extractIndexName request))
  | RouteCreatePolicy => OpCreatePolicy schema table <$> decode_request decode_create_policy request
  | RouteDeletePolicy => Some (OpDropPolicy schema table (extractPolicyName request))
  | RouteToggleRLS =>
      let action := rls_action request in
      if String.eqb action "ENABLE" then Some (OpEnableRLS schema table)
      else if String.eqb action "DISABLE" then Some (OpDisableRLS schema table)
      else if String.eqb action "FORCE" then Some (OpForceRLS schema table (negb (String.eqb (Query (pr_Control request) "force") "false")))
      else if String.eqb action "UNFORCE" then Some (OpForceRLS schema table false)
      else None
  | _ => None
  end.

(** The schema and table it is about, as the request gives them: a schema that is
    left out of the body of a new table stays empty. *)
Definition subject (op : Operation) (request : PathRequest) : string * string :=
  match op with
  | OpCreateTable input => (ct_Schema input, ct_Name input)
  | _ => extractSchemaAndTable request
  end.

(** How it is announced. *)
Definition announcement (op : Operation) (request : PathRequest) : ControlEvent :=
  let '(schema, table) := subject op request in
  match op with
  | OpCreateTable input => TableCreated (table_id schema table) schema table (ct_Columns input) (ct_ForeignKeys input)
  | OpDropTable _ _ _ => TableDeleted (table_id schema table) schema table
  | OpTruncateTable _ _ _ => TableTruncated (table_id schema table) schema table
  | OpAddColumn _ _ column => updated schema table "add_column" (col_Name column)
  | OpAlterColumn _ _ columnName _ => updated schema table "alter_column" columnName
  | OpDropColumn _ _ columnName _ => updated schema table "drop_column" columnName
  | OpCreateIndex _ _ input => updated schema table "create_index" (ci_IndexName input)
  | OpDropIndex _ indexName => updated schema table "drop_index" indexName
  | OpCreatePolicy _ _ input => updated schema table "create_policy" (cp_Name input)
  | OpDropPolicy _ _ policyName => updated schema table "drop_policy" policyName
  | OpEnableRLS _ _ => updated schema table "toggle_rls" "enabled"
  | OpDisableRLS _ _ => updated schema table "toggle_rls" "disabled"
  | OpForceRLS _ _ force => updated schema table "toggle_rls" (if force then "forced" else "unforced")
  end.

(** What an answered change leaves. *)
Definition refreshed (route : ControlRoute) (schema table : string) (st : ControlState S D) : ControlState S D :=
  if changes_policies route then st
  else let st := InvalidateCatalog st in if String.eqb table "" then st else invalidate_table schema table st.
Definition carried_out (route : ControlRoute) (request : PathRequest) (st st' : ControlState S D) : Prop :=
  ∃ op statements db,
    asked route request = Some op ∧ statements_of op = Ok statements ∧ exec_all exec statements (ctl_db st) = Ok db
    ∧ st' = publish (announcement op request) (refreshed route (subject op request).1 (subject op request).2 (set_db db st)).

Definition exact_reply (route : ControlRoute) (request : PathRequest) (st : ControlState S D) (r : Reply) : Prop :=
  400 <= ca_status r.1 ∧ r.2 = st ∨ ca_status r.1 < 300 ∧ carried_out route request st r.2.

Lemma set_same_db st : set_db (ctl_db st) st = st.
Proof. by destruct st. Qed.

Lemma scoped_exact route request scope st k : exact_reply route request st k → exact_reply route request st (scoped request scope st k).
Proof.
  intros Hk. unfold scoped. destruct (RequireScope _ _ _ _ _ _) as [status|] eqn:E; [|done]. left. split; [|done]. cbn.
  unfold RequireScope in E. destruct (CheckScope _ _ _ _ _ _); [done|]. injection E as <-. lia.
Qed.

Lemma on_table_exact route request scope st k :
  (∀ schema table, extractSchemaAndTable request = (schema, table) → schema ≠ "" → table ≠ "" → exact_reply route request st (k schema table)) →
  exact_reply route request st (on_table request scope st k).
Proof.
  intros Hk. unfold on_table. apply scoped_exact. destruct (extractSchemaAndTable request) as [schema table].
  destruct (String.eqb_spec schema ""); [by left|]. destruct (String.eqb_spec table ""); [by left|]. by apply Hk.
Qed.

Lemma after_change_exact route request op k st : asked route request = Some op →
  (∀ l db, statements_of op = Ok l → exec_all exec l (ctl_db st) = Ok db →
     ∃ status body, status < 300
       ∧ k (set_db db st) = reply status body
           (publish (announcement op request) (refreshed route (subject op request).1 (subject op request).2 (set_db db st)))) →
  exact_reply route request st (after_change (run_operation exec (cn_begin_ok env) (cn_commit_ok env) op (ctl_db st)) k st).
Proof.
  intros Ha Hk. unfold after_change. destruct (run_operation _ _ _ op (ctl_db st)) as [r db] eqn:E.
  apply run_operation_atomic in E. destruct r as [u|e].
  - destruct E as (l & Hl & Hx). destruct (Hk l db Hl Hx) as (status & body & Hs & ->). right. split; [done|]. by exists op, l, db.
  - cbn in E. subst db. left. rewrite set_same_db. split; [done|done].
Qed.

Lemma refreshed_table route schema table st : changes_policies route = false → table ≠ "" →
  refreshed route schema table st = invalidate_table schema table (InvalidateCatalog st).
Proof. intros Hp Ht. unfold refreshed. rewrite Hp. by rewrite (proj2 (String.eqb_neq _ _) Ht). Qed.

Ltac exact_change op :=
  apply (after_change_exact _ _ op);
    [unfold asked; by repeat match goal with H : _ = _ |- _ => rewrite H; clear H end
    |intros; eexists _, _; split; cycle 1;
       [unfold announcement; match goal with Hx : extractSchemaAndTable _ = _ |- _ => cbn [subject]; rewrite Hx end; cbn [fst snd];
        rewrite ?refreshed_table by done; reflexivity|done]].

Lemma schema_reply route request st : changes_schema route = true →
  exact_reply route request st (serve_control route request st).
Proof.
  intros Hr. destruct route; try discriminate Hr; cbn [serve_control].
  - unfold handleCreateTable. apply scoped_exact. destruct (decode_request decode_create_table request) as [input|] eqn:Ed; [|by left].
    apply (after_change_exact _ _ (OpCreateTable input)); [unfold asked; destruct (extractSchemaAndTable request); by rewrite Ed|].
    intros l db Hl _. assert (Hn : ct_Name input ≠ "").
    { cbn [statements_of] in Hl. apply result_bind_Ok in Hl as (s & Hl & _). apply guarded_Ok in Hl as (_ & Hv & _). intros E. by rewrite E in Hv. }
    eexists _, _. split; cycle 1; [cbn [subject fst snd]; rewrite refreshed_table by done; reflexivity|done].
  - apply on_table_exact. intros schema table Hx Hs Ht. exact_change (OpDropTable schema table (cascade_of request)).
  - apply on_table_exact. intros schema table Hx Hs Ht. destruct (decode_request decode_column request) as [column|] eqn:Ed; [|by left].
    exact_change (OpAddColumn schema table column).
  - apply on_table_exact. intros schema table Hx Hs Ht. cbn zeta. destruct (String.eqb (extractColumnName request) ""); [by left|].
    destruct (decode_request decode_update_column request) as [input|] eqn:Ed; [|by left].
    exact_change (OpAlterColumn schema table (extractColumnName request) input).
  - apply on_table_exact. intros schema table Hx Hs Ht. cbn zeta. destruct (String.eqb (extractColumnName request) ""); [by left|].
    exact_change (OpDropColumn schema table (extractColumnName request) (cascade_of request)).
  - apply on_table_exact. intros schema table Hx Hs Ht. destruct (decode_request decode_create_index request) as [input|] eqn:Ed; [|by left].
    exact_change (OpCreateIndex schema table input).
  - unfold handleDeleteIndex. apply scoped_exact. destruct (extractSchemaAndTable request) as [schema table] eqn:Hx.
    cbn zeta. destruct (_ || _); [by left|]. exact_change (OpDropIndex schema (extractIndexName request)).
  - apply on_table_exact. intros schema table Hx Hs Ht. destruct (decode_request decode_create_policy request) as [input|] eqn:Ed; [|by left].
    exact_change (OpCreatePolicy schema table input).
  - apply on_table_exact. intros schema table Hx Hs Ht. cbn zeta. destruct (String.eqb (extractPolicyName request) ""); [by left|].
    exact_change (OpDropPolicy schema table (extractPolicyName request)).
  - apply on_table_exact. intros schema table Hx Hs Ht. cbn zeta.
    destruct (String.eqb (rls_action request) "ENABLE") eqn:E1; [exact_change (OpEnableRLS schema table)|].
    destruct (String.eqb (rls_action request) "DISABLE") eqn:E2; [exact_change (OpDisableRLS schema table)|].
    destruct (String.eqb (rls_action request) "FORCE") eqn:E3;
      [exact_change (OpForceRLS schema table (negb (String.eqb (Query (pr_Control request) "force") "false")))|].
    destruct (String.eqb (rls_action request) "UNFORCE") eqn:E4; [exact_change (OpForceRLS schema table false)|by left].
Qed.
End control.
Arguments MkControlState {S D}.
Arguments ctl_store {S D}.
Arguments ctl_db {S D}.
Arguments ctl_config {S D}.
Arguments ctl_events {S D}.

(** ** Any sequence of requests *)

Section service.
Context `{FL : Floats} `{CT : CaseTables} `{UT : UnicodeTables} `{HL : HostLib} `{SD : SchemaDecoders} `{CJ : ConfigJSON} `{!ConfigJSONLaws}
  {S D : Type} `{KD : KVDriver S} `{CA : Catalog D}.
Context (exec : string → D → option D) (query : string → D → QueryOutcome D) (introspect : list string → D → S → S).

Definition serve_all (requests : list (ControlEnv * ControlRoute * PathRequest)) (st : ControlState S D) : ControlState S D :=
  foldl (λ st '(env, route, request), (serve_control exec query introspect env route request st).2) st requests.

Lemma scoped_state (P : ControlState S D → Prop) env request scope st k : P st → P k.2 → P (scoped env request scope st k).2.
Proof. intros Hst Hk. unfold scoped. by destruct (RequireScope _ _ _ _ _ _). Qed.

Lemma serve_settings env route request st : state_wf (ctl_config st) →
  state_wf (ctl_config (serve_control exec query introspect env route request st).2).
Proof.
  intros Hst. destruct (changes_schema route) eqn:Hr.
  - assert (Hsame : ctl_config (serve_control exec query introspect env route request st).2 = ctl_config st); [|by rewrite Hsame].
    destruct (schema_reply exec query introspect env route request st Hr) as [[_ ->]|(_ & op & l & db & _ & _ & _ & ->)]; [done|].
    unfold refreshed. destruct (changes_policies route), (String.eqb (subject op request).2 ""); reflexivity.
  - destruct route; try discriminate Hr; cbn [serve_control].
    + by apply (scoped_state (λ st, state_wf (ctl_config st))).
    + apply (scoped_state (λ st, state_wf (ctl_config st))); [done|].
      pose proof (update_config_wf (cn_config_faults env) (RequestBody (pr_Control request)) _ Hst) as Hw.
      destruct (update_config _ _ _) as [[[c|[]]|] c']; exact Hw.
    + unfold handleFlushCache. destruct (negb _); [done|]. by apply (scoped_state (λ st, state_wf (ctl_config st))).
    + unfold handleInvalidateCache. destruct (negb _); [done|]. apply (scoped_state (λ st, state_wf (ctl_config st))); [done|]. by repeat case_match.
    + unfold handleListTables. apply (scoped_state (λ st, state_wf (ctl_config st))); [done|]. by case_match.
    + unfold handleGetTable, on_table. apply (scoped_state (λ st, state_wf (ctl_config st))); [done|]. by repeat case_match.
    + unfold handleListIndexes, on_table. apply (scoped_state (λ st, state_wf (ctl_config st))); [done|]. by repeat case_match.
    + unfold handleListPolicies, on_table. apply (scoped_state (λ st, state_wf (ctl_config st))); [done|]. by repeat case_match.
    + unfold handleExecuteSQL. destruct (negb _); [done|]. apply (scoped_state (λ st, state_wf (ctl_config st))); [done|]. by repeat case_match.
Qed.

(** no sequence of requests makes the settings invalid, neither those in
    memory nor those in the table. *)
Theorem control_keeps_settings requests st : state_wf (ctl_config st) →
  Validate (cfg_Scalars (settings (serve_all requests st))) = None
  ∧ ∀ text, cs_row (ctl_config (serve_all requests st)) = Some text → ∃ c, decode_stored text = Some c ∧ Validate (cfg_Scalars c) = None.
Proof.
  intros Hst. assert (Hw : state_wf (ctl_config (serve_all requests st))).
  { revert st Hst. induction requests as [|[[env route] request] requests IH]; intros st Hst; [done|]. cbn. by apply IH, serve_settings. }
  destruct Hw as [[Hv _] Hr]. by split.
Qed.

(** *** Shortcomings *)

(** A statement of the console that fails while it runs is answered as one
    that ran, and announced. *)
Lemma failed_statement_reported env affected request (st : ControlState S D) sql e db :
  pr_Method request = "POST" → decode_request decode_execute_sql request = Some (sql, "") →
  TrimSpace (TrimSpace sql) = TrimSpace sql → TrimSpace sql ≠ "" →
  RequireScope (kv_now (cn_kv env)) (cn_sa_faults env) (cn_trustProxy env) (http_request (pr_Control request)) ScopeDataSchemaWrite (cn_accounts env) = None →
  query (TrimSpace sql) (ctl_db st) = QueryRows [] [] (Some e) db → affected = 0 →
  let '(a, st') := handleExecuteSQL query introspect env affected request st in
  a = MkControlAnswer 200 (BodySQL [] [] 0) ∧ ctl_events st' = (ctl_events st ++ [SQLExecuted (TrimSpace sql) 0])%list.
Proof.
  intros Hm Hd Ht Hne Hs Hq ->. unfold handleExecuteSQL, scoped. rewrite Hm, Hs, Hd. cbn [String.eqb negb]. cbn zeta.
  change (String.eqb "POST" "POST") with true. cbn [negb]. rewrite (proj2 (String.eqb_neq _ _) Hne). cbn match.
  rewrite (proj2 (String.eqb_neq _ _) Hne). unfold ExecuteSQL. rewrite Ht, (proj2 (String.eqb_neq _ _) Hne), Hq. done.
Qed.

(** The mode "NO FORCE" that requests document is not known. *)
Lemma no_force_unknown env request (st : ControlState S D) : rls_action request = "NO FORCE" → ca_status (handleToggleRLS exec env request st).1 ≠ 200.
Proof.
  intros Ha. unfold handleToggleRLS, on_table, scoped. rewrite Ha. destruct (RequireScope _ _ _ _ _ _) as [status|] eqn:E; cbn.
  - unfold RequireScope in E. destruct (CheckScope _ _ _ _ _ _); [done|]. by injection E as <-.
  - destruct (extractSchemaAndTable request) as [schema table]. by destruct (_ || _).
Qed.

(** A table that is created without a schema is created in "public"; what is
    cached of "public" stays, and the event names no schema. *)
Lemma created_without_schema env request (st : ControlState S D) input db :
  decode_request decode_create_table request = Some input → ct_Schema input = "" →
  RequireScope (kv_now (cn_kv env)) (cn_sa_faults env) (cn_trustProxy env) (http_request (pr_Control request)) ScopeDataSchemaWrite (cn_accounts env) = None →
  CreateTable exec input (ctl_db st) = (Ok tt, db) →
  (handleCreateTable exec introspect env request st).2
  = publish (TableCreated ("." ++ ct_Name input) "" (ct_Name input) (ct_Columns input) (ct_ForeignKeys input))
      (invalidate_table env "" (ct_Name input) (InvalidateCatalog introspect env (set_db db st))).
Proof. intros Hd Hs Hsc Hc. unfold handleCreateTable, scoped. rewrite Hsc, Hd, Hc. cbn. by rewrite Hs. Qed.
End service.

(** ** Samples *)

Section samples.
#[local] Existing Instance integer_floats.
#[local] Existing Instance sample_case.
#[local] Existing Instance ascii_tables.
#[local] Existing Instance sample_host.
#[local] Existing Instance sample_pg.
#[local] Existing Instance sample_json.
#[local] Existing Instance sample_json_laws.

(** A database that keeps the statements it has run. *)
#[local] Instance log_catalog : Catalog (list string) :=
  MkCatalog _ (λ _ _, None) (λ _ _ _, None) (λ _ _ _, None) (λ _ _ _, None) (λ _ _ _, None) (λ _ _ _, None) (λ _ _ _, None) (λ _ _ _, None).
#[local] Instance no_bodies : SchemaDecoders :=
  MkSchemaDecoders (λ _, None) (λ _, None) (λ _, None) (λ _, None) (λ _, None) (λ _, None) (λ _, None) (λ _, DecodedEOF).
Definition log_exec (statement : string) (db : list string) : option (list string) := Some (db ++ [statement])%list.
Definition log_query (statement : string) (db : list string) : QueryOutcome (list string) := QueryRows [] [] None (db ++ [statement])%list.
Definition control_sample_env : ControlEnv := MkControlEnv (kv_ok 10) sa_ok two_roots true (λ _, false) true true.
Definition control_sample_request (body : option string) : PathRequest :=
  MkPathRequest (MkControlRequest bare_request (λ k, if String.eqb k "schema_name" then "public" else if String.eqb k "table_name" then "orders" else "")
                   (λ _, "") body 0) "/v1/_/data/tables/public/orders" "DELETE".
Definition control_sample_state : ControlState KVTable (list string) := MkControlState ∅ [] (NewConfigManager None) [].
Definition serve_sample := serve_control (S := KVTable) log_exec log_query (λ _ _ s, s) control_sample_env.


Lemma control_keeps_settings_witness :
  Validate (cfg_Scalars (settings (serve_all (S := KVTable) log_exec log_query (λ _ _ s, s)
    [(control_sample_env, RouteUpdateConfig, control_sample_request (Some "refused"));
     (control_sample_env, RouteUpdateConfig, control_sample_request (Some "accepted"))] control_sample_state))) = None.
Proof.
  apply (control_keeps_settings (S := KVTable) log_exec log_query (λ _ _ s, s)). split; [by apply config_fresh_wf|].
  intros text Ht. discriminate Ht.
Defined.
End samples.
