(* ===== verification/AuthModel.v ===== *)
(** * The auth service: tables, statements, events and the monad of its handlers

    auth/migrations.go and auth/model.go as a state: users, sessions and
    one-time codes under their ids, the key-value store behind its interface
    ([KVDriver]), and what the service has sent out: events, messages and
    back-channel notifications.  Each SQL statement of the handlers is a
    function on the tables; it may fail ([ae_fails]) without effect.

    Parameters ([AuthHost]): the ids and random values drawn, the uuid and inet
    types of Postgres, the JSON of a cached session, the project's SQL function
    of claims, and the exchanges with outside services. *)

From stdpp Require Import strings gmap.
From Stdlib Require Import ZArith Lia Ascii String.
From S2P Require Import Prelude GoStrings GoTime GoRunes GoValues Scopes ServiceAccounts KVStore SignInRisk Tokens AuthCodes.
Local Open Scope string_scope.
Local Open Scope Z_scope.

(** ** Rows *)

Section rows.
Context `{FL : Floats}.

Abbreviation properties := (list (string * any)).

Record User := MkUser {
  u_ID : string; u_Email : option string; u_Phone : option string; u_PasswordHash : option string;
  u_EncryptedMFASecret : option string; u_MFAEnabled : bool; u_Role : string; u_IsAnonymous : bool;
  u_EmailVerifiedAt : option Z; u_PhoneVerifiedAt : option Z; u_LockedUntil : option Z;
  u_Properties : any; u_CreatedAt : Z; u_LastUpdatedAt : Z }.

Record Session := MkSession {
  s_ID : string; s_UserID : string; s_ClientID : option string; s_RefreshTokenHash : string;
  s_IPAddress : option string; s_UserAgent : option string; s_ExpiresAt : Z; s_CreatedAt : Z }.

Record OTP := MkOTP {
  o_ID : string; o_Recipient : string; o_CodeHash : string; o_Purpose : string; o_Attempts : Z;
  o_ExpiresAt : Z; o_CreatedAt : Z }.

(** A linked account of an outside provider, and a registered credential. *)
Record Identity := MkIdentity {
  id_ID : string; id_UserID : string; id_Provider : string; id_ProviderUserID : string; id_Properties : any;
  id_LastSignInAt : Z; id_CreatedAt : Z; id_LastUpdatedAt : Z }.

Record PasskeyRow := MkPasskeyRow {
  pk_ID : string; pk_UserID : string; pk_CredentialID : string; pk_PublicKey : string; pk_Counter : Z;
  pk_Transports : list string; pk_FriendlyName : string; pk_CreatedAt : Z; pk_LastUsedAt : Z }.

(** What callers see of a credential, and an export of an identity. *)
Record Passkey := MkPasskey {
  pv_ID : string; pv_FriendlyName : string; pv_Transports : list string; pv_CreatedAt : Z; pv_LastUsedAt : Z }.
Record ExportIdentityRecord := MkExportIdentityRecord {
  ex_Provider : string; ex_ProviderUserID : string; ex_Properties : any; ex_CreatedAt : Z; ex_LastSignInAt : Z }.

Record CachedSession := MkCachedSession { cs_User : User; cs_Claims : properties }.

(** The zero [User], with an id; its properties are a nil map. *)
Definition zero_user (id : string) : User :=
  MkUser id None None None None false "" false None None None ANil zero_time zero_time.

(** [json.Unmarshal] into a map: what is no object is dropped. *)
Definition properties_of (v : any) : any := match v with AMap m => AMap m | _ => AMap [] end.

(** What the handlers scan: every column but the password hash. *)
Definition scanned (u : User) : User :=
  MkUser (u_ID u) (u_Email u) (u_Phone u) None (u_EncryptedMFASecret u) (u_MFAEnabled u) (u_Role u) (u_IsAnonymous u)
    (u_EmailVerifiedAt u) (u_PhoneVerifiedAt u) (u_LockedUntil u) (properties_of (u_Properties u)) (u_CreatedAt u) (u_LastUpdatedAt u).

(** [old || new] of jsonb: objects are merged; anything else is an array, of
    itself when it is none. *)
Definition jsonb_concat (old new : any) : any :=
  match old, new with
  | AMap m, AMap n => AMap (foldl (λ m kv, map_set m kv.1 kv.2) m n)
  | AList l, AList l' => AList (l ++ l')
  | AList l, _ => AList (l ++ [new])
  | _, AList l => AList (old :: l)
  | _, _ => AList [old; new]
  end.

Record AuthTables := MkAuthTables {
  users : gmap string User; sessions : gmap string Session; otps : gmap string OTP;
  identities : gmap string Identity; passkeys : gmap string PasskeyRow }.

Definition locked (now : Z) (u : User) : bool :=
  match u_LockedUntil u with Some t => now <? t | None => false end.

(** ** Outside parameters *)

(** An exchange fails, or gives a status and what is read of the body. *)
Inductive HTTPResult (A : Type) := HTTPFailed | HTTPResponse (status : Z) (body : A).

Class AuthHost := MkAuthHost {
  (** The [n]th id drawn, by [uuid.NewV7] or a [uuidv7()] default. *)
  new_uuid : nat → string;
  (** [uuid.Parse] and the input of the uuid type: the canonical text. *)
  uuid_in : string → option string;
  (** [ip_address::text] of an inet input; [None] when it is refused. *)
  inet_in : string → option string;
  (** [host] of an address. *)
  inet_host : string → string;
  (** The [n]th random draw: a number below the limit of the codes, bytes. *)
  rand_number : nat → option Z;
  rand_bytes : nat → option string;
  (** [json.Marshal] and [json.Unmarshal] of a cached session. *)
  marshal_session : CachedSession → string;
  unmarshal_session : string → option CachedSession;
  (** [to_regprocedure('public.auth_claims(uuid)')], the function, its JSON. *)
  auth_claims_procedure : option string;
  auth_claims : string → option string;
  unmarshal_claims_map : string → option properties;
  (** Outside services: the form posted to a captcha service (the body decodes
      to the [success] member), and the range API of breached passwords. *)
  captcha_post : string → list (string * string) → HTTPResult (option bool);
  pwned_range : string → HTTPResult (option string);
  sha1_Sum : string → string;
  (** [text ILIKE pattern]. *)
  ilike : string → string → bool;
}.

(** ** Events *)

Record SessionCreatedEventData := MkSessionCreatedEventData {
  sc_ID : string; sc_User : User; sc_AuthMethod : string; sc_Provider : string; sc_IPAddress : option string;
  sc_UserAgent : option string; sc_ExpiresAt : Z; sc_CreatedAt : Z }.
Record TokenRefreshedEventData := MkTokenRefreshedEventData {
  tr_SessionID : string; tr_User : User; tr_IPAddress : option string; tr_UserAgent : option string; tr_ExpiresAt : Z }.
Record SessionDeletedEventData := MkSessionDeletedEventData {
  sd_User : User; sd_SessionID : option string; sd_RevokedCount : option Z }.
Record UserSignInFailedEventData := MkUserSignInFailedEventData {
  sf_Identifier : string; sf_AuthMethod : string; sf_Reason : string; sf_IPAddress : string; sf_UserAgent : string;
  sf_User : option User }.
Record OTPVerificationFailedEventData := MkOTPVerificationFailedEventData {
  of_Recipient : string; of_Purpose : string; of_Channel : string; of_Reason : string; of_IPAddress : string;
  of_UserAgent : string }.
Record MFAChallengeFailedEventData := MkMFAChallengeFailedEventData {
  mf_UserID : string; mf_Reason : string; mf_IPAddress : string; mf_UserAgent : string; mf_User : option User }.
Record RateLimitExceededEventData := MkRateLimitExceededEventData {
  rl_Identifier : string; rl_Endpoint : string; rl_AttemptCount : Z; rl_IPAddress : string; rl_UserAgent : string }.
Record SuspiciousSignInEventData := MkSuspiciousSignInEventData {
  ss_User : User; ss_IPAddress : string; ss_UserAgent : string; ss_RiskScore : Z; ss_RiskLevel : string;
  ss_Reasons : list string }.

(** The data of an event. *)
Inductive AuthEventData :=
| SessionCreated (d : SessionCreatedEventData)
| TokenRefreshed (d : TokenRefreshedEventData)
| SessionDeleted (d : SessionDeletedEventData)
| UserSignedUp (u : User) | UserConverted (u : User) | UserUpdated (u : User) | UserDeleted (u : User)
| UserCreated (u : User) | UserLocked (u : User) (lockedUntil : Z) | UserUnlocked (u : User)
| UserEmailVerified (u : User) | UserPhoneVerified (u : User)
| PasswordResetRequested (recipient : string) (u : User) | PasswordReset (recipient : string) (u : User) | PasswordChanged (u : User)
| MFAEnabled (u : User) | MFADisabled (u : User) | MFAChallengeFailed (d : MFAChallengeFailedEventData)
| OTPSent (recipient purpose channel : string) (u : option User)
| OTPVerified (recipient purpose channel : string) (u : option User)
| OTPVerificationFailed (d : OTPVerificationFailedEventData)
| UserSignInFailed (d : UserSignInFailedEventData)
| RateLimitExceeded (d : RateLimitExceededEventData)
| SuspiciousSignIn (d : SuspiciousSignInEventData)
| BotChallengeFailed (ipAddress provider endpoint : string)
| PasswordBreachBlocked (email : string) (count : Z)
| IdentityLinked (userID provider providerUserID : string) (properties : any) (u : User)
| PasskeyCreated (id : string) (u : User) (friendlyName : string) (transports : list string)
| PasskeyDeleted (id : string) (u : User)
| UserExported (u : User).

Definition event_type (d : AuthEventData) : string :=
  match d with
  | SessionCreated _ => "auth.session.created" | TokenRefreshed _ => "auth.token.refreshed"
  | SessionDeleted _ => "auth.session.deleted" | UserSignedUp _ => "auth.user.signed_up"
  | UserConverted _ => "auth.user.converted" | UserUpdated _ => "auth.user.updated" | UserDeleted _ => "auth.user.deleted"
  | UserCreated _ => "auth.user.created" | UserLocked _ _ => "auth.user.locked" | UserUnlocked _ => "auth.user.unlocked"
  | UserEmailVerified _ => "auth.user.email_verified" | UserPhoneVerified _ => "auth.user.phone_verified"
  | PasswordResetRequested _ _ => "auth.password.reset_requested" | PasswordReset _ _ => "auth.password.reset"
  | PasswordChanged _ => "auth.password.changed" | MFAEnabled _ => "auth.mfa.enabled" | MFADisabled _ => "auth.mfa.disabled"
  | MFAChallengeFailed _ => "auth.mfa.challenge_failed" | OTPSent _ _ _ _ => "auth.otp.sent"
  | OTPVerified _ _ _ _ => "auth.otp.verified" | OTPVerificationFailed _ => "auth.otp.verification_failed"
  | UserSignInFailed _ => "auth.user.sign_in_failed" | RateLimitExceeded _ => "auth.threat.rate_limit_exceeded"
  | SuspiciousSignIn _ => "auth.user.suspicious_sign_in" | BotChallengeFailed _ _ _ => "auth.threat.bot_challenge_failed"
  | PasswordBreachBlocked _ _ => "auth.threat.password_breach_blocked"
  | IdentityLinked _ _ _ _ _ => "auth.identity.linked" | PasskeyCreated _ _ _ _ => "auth.passkey.created"
  | PasskeyDeleted _ _ => "auth.passkey.deleted" | UserExported _ => "auth.user.exported"
  end.

(** An event with the resource it is about. *)
Record AuthEvent := MkAuthEvent { e_Resource : string; e_Data : AuthEventData }.

(** Calls of the dispatchers, whose results the handlers ignore. *)
Inductive Message :=
| EmailPasswordReset (recipient code userID : string) | SMSPasswordReset (recipient code userID : string)
| EmailVerification (recipient code userID : string) | SMSVerification (recipient code userID : string)
| EmailSignInOTP (recipient code userID : string) | SMSSignInOTP (recipient code userID : string)
| EmailSuspiciousActivity (recipient userID ipAddress userAgent : string)
| BackChannelSignOut (uri signOutToken : string).

(** ** Responses *)

Record AuthTokenResponse := MkAuthTokenResponse {
  at_User : User; at_AccessToken : string; at_RefreshToken : string; at_ExpiresIn : Z; at_TokenType : string;
  at_Claims : properties }.

Record UserSession := MkUserSession {
  us_ID : string; us_IPAddress : option string; us_UserAgent : option string; us_IsCurrent : bool; us_ExpiresAt : Z;
  us_CreatedAt : Z }.

Record GetUserResponse := MkGetUserResponse {
  gu_ID : string; gu_Email : option string; gu_Phone : option string; gu_Role : string; gu_IsAnonymous : bool;
  gu_EmailVerified : bool; gu_PhoneVerified : bool; gu_MFAEnabled : bool; gu_Properties : any; gu_CreatedAt : Z;
  gu_LastUpdatedAt : Z }.

Record IssueOIDCTokenResponse := MkIssueOIDCTokenResponse {
  it_AccessToken : string; it_TokenType : string; it_ExpiresIn : Z; it_RefreshToken : string; it_IDToken : string;
  it_Scope : string }.

Record GetOIDCUserInfoResponse := MkGetOIDCUserInfoResponse {
  gi_Subject : string; gi_Name : string; gi_Email : option string; gi_EmailVerified : bool; gi_PhoneNumber : option string;
  gi_PhoneNumberVerified : bool; gi_Role : string; gi_IsAnonymous : bool; gi_UpdatedAt : Z; gi_Properties : any }.

Record OIDCConfiguration := MkOIDCConfiguration {
  dc_Issuer : string; dc_AuthorizationEndpoint : string; dc_TokenEndpoint : string; dc_UserinfoEndpoint : string;
  dc_JwksURI : string; dc_EndSessionEndpoint : string; dc_BackChannelSignOutSupported : bool;
  dc_BackChannelSignOutSessionSupported : bool; dc_FrontChannelSignOutSupported : bool;
  dc_FrontChannelSignOutSessionSupported : bool; dc_ResponseTypesSupported : list string; dc_SubjectTypesSupported : list string;
  dc_IDTokenSigningAlgValuesSupported : list string; dc_ScopesSupported : list string;
  dc_TokenEndpointAuthMethodsSupported : list string; dc_ClaimsSupported : list string;
  dc_CodeChallengeMethodsSupported : list string; dc_GrantTypesSupported : list string }.

(** The data of the sign-in page. *)
Record signInPageData := MkSignInPageData {
  pg_ProjectName : string; pg_ClientName : string; pg_LogoURL : string; pg_PrivacyPolicyURL : string;
  pg_TermsOfServiceURL : string; pg_CustomCSS : string; pg_StateID : string; pg_ErrorMessage : string; pg_NoticeMessage : string;
  pg_ShowPassword : bool; pg_ShowSignUp : bool; pg_ShowPasskeys : bool; pg_ShowOAuth : bool; pg_ShowEmailOTP : bool;
  pg_ShowSMSOTP : bool; pg_Providers : list (string * string); pg_RequiresMFA : bool; pg_MFAToken : string; pg_RequiresOTP : bool;
  pg_OTPRecipient : string; pg_AuthMode : string }.

Record SignUpOptions := MkSignUpOptions {
  sg_Challenge : string; sg_RelyingPartyID : string; sg_RelyingPartyName : string; sg_UserID : string; sg_UserName : string }.

Inductive AuthBody :=
| NoContent
| ErrorMessage (message : string)
| TokenResponse (r : AuthTokenResponse)
| MFARequired (mfaTicket : string)
| SetupMFAResponse (secret account issuer : string)
| SessionsResponse (l : list UserSession)
| SessionRows (l : list Session)
| RevokedResponse (revokedCount : Z)
| UserResponse (u : User)
| UserProfile (r : GetUserResponse)
| ListUsersResponse (l : list User) (limit offset count : Z)
| AlreadyVerified (message recipient : string)
| Verified (message : string)
| PropertiesResponse (p : any)
(** An OAuth error with the challenge of its WWW-Authenticate header. *)
| OAuthError (challenge : option string) (error description : string)
(** The URL given to [http.Redirect]. *)
| Redirect (location : string)
| OIDCPage (p : signInPageData)
| OIDCTokens (r : IssueOIDCTokenResponse)
| OIDCUserInfo (r : GetOIDCUserInfoResponse)
| DiscoveryDocument (d : OIDCConfiguration)
(** The page that signs out of the clients in frames. *)
| FrontChannelPage (redirectURI : string) (urls : list string)
| SignedOutPage
| PasskeySignUp (o : SignUpOptions) | PasskeySignIn (challenge relyingPartyID : string) | PasskeysResponse (l : list Passkey)
| ExportResponse (u : User) (l : list ExportIdentityRecord) (exportedAt : Z).

Inductive CookieWrite := CookieUntouched | CookieSet (refreshToken : string) (expiresAt : Z) | CookieCleared.

Record AuthResponse := MkAuthResponse { r_Status : Z; r_Body : AuthBody; r_Cookie : CookieWrite }.

(** A request body: none, one that is not JSON, or the decoded input. *)
Inductive Decoded (A : Type) := NoBody | BadJSON | Input (input : A).
End rows.
Arguments HTTPFailed {A}.
Arguments HTTPResponse {A} status body.
Arguments NoBody {A}.
Arguments BadJSON {A}.
Arguments Input {A} input.

(** ** Statements *)

Inductive AuthStmt :=
| StInsertSession | StSelectUser | StSelectRecipient | StListSessions | StDeleteSession | StDeleteSessionHash
| StSelectSessionHash | StCountSessions | StDeleteOthers | StInsertUser | StUpdateUser | StSelectIdentifier
| StInsertOTP | StSelectOTP | StDeleteOTP | StCountAttempt | StConflict | StClaimsProcedure | StClaims | StDeleteUser
| StSessionHashes | StRisk | StListUsers | StSelectAddress | StDropCodes
| StUpdateSession | StSelectIdentity | StInsertIdentity | StTouchIdentity | StListIdentities
| StSelectPasskey | StInsertPasskey | StTouchPasskey | StDeletePasskey | StListPasskeys.

Section statements.
Context `{FL : Floats} `{AH : !AuthHost}.

(** The first row that satisfies a condition; the order of rows without an
    ORDER BY is not specified, this is one of them. *)
Definition first_row {A} (P : A → bool) (m : gmap string A) : option A := list.head (List.filter P (snd <$> map_to_list m)).

Definition opt_eqb (a : option string) (v : string) : bool := bool_decide (a = Some v).

(** [WHERE email = $1 OR phone = $1]. *)
Definition has_recipient (v : string) (u : User) : bool := opt_eqb (u_Email u) v || opt_eqb (u_Phone u) v.

(** [WHERE id = $1] of a uuid column; an input that is no uuid is an error. *)
Definition row_by_id {A} (id : string) (m : gmap string A) : option A := id' ← uuid_in id; m !! id'.

Definition with_users (f : gmap string User → gmap string User) (t : AuthTables) : AuthTables :=
  MkAuthTables (f (users t)) (sessions t) (otps t) (identities t) (passkeys t).
Definition with_sessions (f : gmap string Session → gmap string Session) (t : AuthTables) : AuthTables :=
  MkAuthTables (users t) (f (sessions t)) (otps t) (identities t) (passkeys t).
Definition with_otps (f : gmap string OTP → gmap string OTP) (t : AuthTables) : AuthTables :=
  MkAuthTables (users t) (sessions t) (f (otps t)) (identities t) (passkeys t).
Definition with_identities (f : gmap string Identity → gmap string Identity) (t : AuthTables) : AuthTables :=
  MkAuthTables (users t) (sessions t) (otps t) (f (identities t)) (passkeys t).
Definition with_passkeys (f : gmap string PasskeyRow → gmap string PasskeyRow) (t : AuthTables) : AuthTables :=
  MkAuthTables (users t) (sessions t) (otps t) (identities t) (f (passkeys t)).

(** The unique columns of auth.users: no other row has the value. *)
Definition unique_user (u : User) (m : gmap string User) : bool :=
  let clashes (a b : option string) := match a, b with Some x, Some y => String.eqb x y | _, _ => false end in
  match first_row (λ v, negb (String.eqb (u_ID v) (u_ID u))
                        && (clashes (u_Email v) (u_Email u) || clashes (u_Phone v) (u_Phone u))) m with
  | Some _ => false
  | None => true
  end.

(** A row written: an error when a unique column clashes. *)
Definition put_user (u : User) (t : AuthTables) : option (User * AuthTables) :=
  if unique_user u (users t) then Some (u, with_users (insert (u_ID u) u) t) else None.

(** [UPDATE auth.users SET ... WHERE id = $n RETURNING ...]. *)
Definition update_user_row (f : User → User) (id : string) (t : AuthTables) : option (User * AuthTables) :=
  u ← row_by_id id (users t); put_user (f u) t.

(** [INSERT INTO auth.sessions]: the user must exist, the address be one. *)
Definition insert_session (id userID refreshHash clientIP : string) (userAgent : option string) (expiresAt now : Z)
    (t : AuthTables) : option (Session * AuthTables) :=
  u ← row_by_id userID (users t);
  address ← inet_in clientIP;
  let s := MkSession id (u_ID u) None refreshHash (Some address) userAgent expiresAt now in
  Some (s, with_sessions (insert id s) t).

Definition drop_sessions (P : Session → bool) (t : AuthTables) : AuthTables :=
  with_sessions (filter (λ kv, P kv.2 = false)) t.

Definition sessions_where (P : Session → bool) (t : AuthTables) : list Session :=
  List.filter P (snd <$> map_to_list (sessions t)).

(** The rows of [DELETE ... RETURNING]. *)
Definition delete_sessions (P : Session → bool) (t : AuthTables) : list Session * AuthTables :=
  (sessions_where P t, drop_sessions P t).

Definition drop_identities (P : Identity → bool) (t : AuthTables) : AuthTables :=
  with_identities (filter (λ kv, P kv.2 = false)) t.
Definition drop_passkeys (P : PasskeyRow → bool) (t : AuthTables) : AuthTables :=
  with_passkeys (filter (λ kv, P kv.2 = false)) t.

(** [DELETE FROM auth.users WHERE id = $1], with the sessions, identities and
    passkeys of the user. *)
Definition delete_user_row (id : string) (t : AuthTables) : option AuthTables :=
  id' ← uuid_in id;
  Some (drop_passkeys (λ p, String.eqb (pk_UserID p) id') (drop_identities (λ i, String.eqb (id_UserID i) id')
    (drop_sessions (λ s, String.eqb (s_UserID s) id') (with_users (delete id') t)))).

(** Newest first, as [ORDER BY created_at DESC]. *)
Definition newer_session (a b : Session) : bool := s_CreatedAt b <=? s_CreatedAt a.
Definition newer_otp (a b : OTP) : bool := o_CreatedAt b <=? o_CreatedAt a.

(** [WHERE recipient = $1 AND purpose = $2 AND expires_at > clock_timestamp()
    ORDER BY created_at DESC LIMIT 1]. *)
Definition live_otp (recipient purpose : string) (now : Z) (o : OTP) : bool :=
  String.eqb (o_Recipient o) recipient && String.eqb (o_Purpose o) purpose && (now <? o_ExpiresAt o).
Definition newest_otp (recipient purpose : string) (now : Z) (t : AuthTables) : option OTP :=
  list.head (sort_by newer_otp (List.filter (live_otp recipient purpose now) (snd <$> map_to_list (otps t)))).
End statements.
