(* ===== verification/AuthMonad.v ===== *)
(** * The handlers of the auth service: configuration, state and monad

    A handler reads a request and a configuration, works on the tables, the
    key-value store and what is sent out, and ends with one response; an early
    [return] ends it at once.  [Handler] threads the state and the response;
    [keeps] and its rules prove that a handler preserves a property of the
    state, statement by statement. *)

From stdpp Require Import strings gmap.
From Stdlib Require Import ZArith Lia Ascii String.
From S2P Require Import Prelude GoStrings GoTime GoRunes GoValues Scopes ServiceAccounts KVStore SignInRisk Tokens AuthCodes AuthModel.
Local Open Scope string_scope.
Local Open Scope Z_scope.

(** ** auth/config.go *)

Record OIDCClient := MkOIDCClient {
  oc_Name : string; oc_ClientID : string; oc_ClientSecret : string; oc_RedirectURIs : list string;
  oc_PostSignOutRedirectURIs : list string; oc_Public : bool; oc_Scopes : list string; oc_BackChannelSignOutURI : string;
  oc_BackChannelSignOutSessionRequired : bool; oc_FrontChannelSignOutURI : string; oc_FrontChannelSignOutSessionRequired : bool }.

Record ResourceServerConfig := MkResourceServerConfig {
  rs_Name : string; rs_Identifier : string; rs_Description : string; rs_Scopes : list string }.

Record OIDCUIConfig := MkOIDCUIConfig {
  ui_CustomCSS : string; ui_LogoURL : string; ui_PrivacyPolicyURL : string; ui_TermsOfServiceURL : string;
  ui_ShowSignUp : bool; ui_ShowPassword : bool; ui_ShowPasskeys : bool; ui_ShowOAuth : bool; ui_ShowEmailOTP : bool;
  ui_ShowSMSOTP : bool }.

Record OIDCConfig := MkOIDCConfig {
  od_Enabled : bool; od_Clients : list OIDCClient; od_ResourceServers : list ResourceServerConfig; od_UI : OIDCUIConfig }.

Record OAuthProviderConfig := MkOAuthProviderConfig {
  op_Enabled : bool; op_Preset : string; op_AuthURL : string; op_TokenURL : string; op_UserInfoURL : string;
  op_ClientID : string; op_ClientSecret : string; op_ClientSecretConfigured : bool; op_Scope : string; op_ResponseMode : string; op_ResponseType : string;
  op_IDAttribute : string; op_EmailAttribute : string; op_NameAttribute : string; op_AvatarAttribute : string }.

(** The settings the handlers read; the dispatchers' [IsConfigured]. *)
Record AuthConfig := MkAuthConfig {
  c_PasswordEnabled : bool; c_PasswordMinLength : Z; c_BreachCheckEnabled : bool; c_BreachCheckFailOpen : bool;
  c_EmailOTPEnabled : bool; c_EmailOTPExpiryMinutes : Z; c_SMSOTPEnabled : bool; c_SMSOTPExpiryMinutes : Z;
  c_MFAEnabled : bool; c_MFAPolicy : string; c_MFARiskTriggers : list string; c_MFAIssuer : string;
  c_AnonymousEnabled : bool; c_AccessTokenExpirySeconds : Z; c_RefreshTokenExpirySeconds : Z;
  c_OIDC : OIDCConfig; c_OAuthProviders : list (string * OAuthProviderConfig);
  c_PasskeysEnabled : bool; c_RelyingPartyID : string; c_RelyingPartyName : string;
  c_RateLimitingEnabled : bool; c_MaxSignInAttempts : Z; c_WindowDurationSeconds : Z;
  c_FastPathSessionsEnabled : bool; c_SessionTTLSeconds : Z;
  c_BotProtectionEnabled : bool; c_BotProvider : string; c_BotSecretKey : string; c_BotMode : string;
  c_AdaptiveFailedAttempts : Z; c_NotifyOnNewDevice : bool; c_KnownDevicesMaxDays : Z;
  c_EmailReady : bool; c_SMSReady : bool }.

Definition c_OIDCClients (config : AuthConfig) : list OIDCClient := od_Clients (c_OIDC config).

Definition defaultRefreshTokenExpirySeconds : Z := 2592000.
Definition defaultSessionTTLSeconds : Z := 900.

(** The kernel's keys and settings. *)
Class Kernel `{FL : Floats} := MkKernel {
  k_json_float : float64 → string;
  k_seed : string; k_keyID : string; k_handle : string; k_baseURL : string; k_encryptionKey : string;
  k_trustProxy : bool; k_projectName : string }.

(** ** State *)

(** auth/passkey/webauthn.go: an active challenge. *)
Record SessionChallenge := MkSessionChallenge { ch_UserID : string; ch_Challenge : string; ch_ExpiresAt : Z }.

Section monad.
Context `{FL : Floats} {S : Type}.

Record AuthState := MkAuthState {
  st_db : AuthTables; st_kv : S; st_events : list AuthEvent; st_sent : list Message;
  (** The ids and random values drawn so far. *)
  st_drawn : nat;
  (** The challenges in the memory of the passkey manager. *)
  st_challenges : gmap string SessionChallenge }.

(** The instant of a request, and the statements that fail. *)
Record AuthEnv := MkAuthEnv { ae_now : Z; ae_fails : AuthStmt → bool; ae_kv_fails : KVStmt → bool }.
Definition auth_ok (now : Z) : AuthEnv := MkAuthEnv now (λ _, false) (λ _, false).
Definition ae_kv (env : AuthEnv) : KVEnv := MkKVEnv (ae_now env) (ae_kv_fails env).

(** [inl]: the response is written and the handler is done. *)
Definition Handler (A : Type) : Type := AuthState → (AuthResponse + A) * AuthState.

Definition ret {A} (a : A) : Handler A := λ s, (inr a, s).
Definition hbind {A B} (k : A → Handler B) (h : Handler A) : Handler B :=
  λ s, match h s with (inl r, s') => (inl r, s') | (inr a, s') => k a s' end.

(** [WriteJSONResponse] and [WriteErrorResponse], then [return]. *)
Definition respond_with {A} (status : Z) (body : AuthBody) (cookie : CookieWrite) : Handler A :=
  λ s, (inl (MkAuthResponse status body cookie), s).
Definition respond {A} (status : Z) (body : AuthBody) : Handler A := respond_with status body CookieUntouched.
Definition reject {A} (status : Z) (message : string) : Handler A := respond status (ErrorMessage message).

Definition publish (resource : string) (d : AuthEventData) : Handler unit :=
  λ s, (inr tt, MkAuthState (st_db s) (st_kv s) (st_events s ++ [MkAuthEvent resource d]) (st_sent s) (st_drawn s) (st_challenges s)).
Definition send (m : Message) : Handler unit :=
  λ s, (inr tt, MkAuthState (st_db s) (st_kv s) (st_events s) (st_sent s ++ [m]) (st_drawn s) (st_challenges s)).
(** The next id or random value to be drawn. *)
Definition draw : Handler nat :=
  λ s, (inr (st_drawn s), MkAuthState (st_db s) (st_kv s) (st_events s) (st_sent s) (Datatypes.S (st_drawn s)) (st_challenges s)).

Definition set_db (db : AuthTables) (s : AuthState) : AuthState :=
  MkAuthState db (st_kv s) (st_events s) (st_sent s) (st_drawn s) (st_challenges s).
Definition set_kv (kv : S) (s : AuthState) : AuthState :=
  MkAuthState (st_db s) kv (st_events s) (st_sent s) (st_drawn s) (st_challenges s).

(** A statement: [None] when it fails or finds no row. *)
Definition stmt {A} (env : AuthEnv) (k : AuthStmt) (f : AuthTables → option (A * AuthTables)) : Handler (option A) :=
  λ s, if ae_fails env k then (inr None, s)
       else match f (st_db s) with Some (a, db) => (inr (Some a), set_db db s) | None => (inr None, s) end.
Definition query {A} (env : AuthEnv) (k : AuthStmt) (f : AuthTables → option A) : Handler (option A) :=
  stmt env k (λ t, a ← f t; Some (a, t)).
Definition exec (env : AuthEnv) (k : AuthStmt) (f : AuthTables → AuthTables) : Handler (option unit) :=
  stmt env k (λ t, Some (tt, f t)).

(** Calls of the key-value store. *)
Definition on_kv {A} (f : S → A * S) : Handler A :=
  λ s, let '(a, kv) := f (st_kv s) in (inr a, set_kv kv s).
Definition read_kv {A} (f : S → A) : Handler A := λ s, (inr (f (st_kv s)), s).

(** The response of a handler, which every path ends with. *)
Definition run (h : Handler AuthResponse) (s : AuthState) : AuthResponse * AuthState :=
  match h s with (inl r, s') => (r, s') | (inr r, s') => (r, s') end.
End monad.
Arguments AuthState {FL} S.
Arguments Handler {FL} S A.

Declare Scope auth_scope.
Delimit Scope auth_scope with auth.
Notation "'let*' x := c 'in' k" := (hbind (λ x, k) c) (at level 10, x pattern, c at level 100, k at level 200) : auth_scope.
Notation "c ;; k" := (hbind (λ _, k) c) (at level 100, k at level 200, right associativity) : auth_scope.
Notation "'when' b 'then' c ;; k" := (hbind (λ _, k) (if b then c else ret tt))
  (at level 10, b at level 100, c at level 99, k at level 200) : auth_scope.

(** ** Rules *)

Section rules.
Context `{FL : Floats} {S : Type}.
Implicit Types (P : AuthState S → Prop).

(** A handler preserves a property, whatever it answers. *)
Definition keeps {A} P (h : Handler S A) : Prop := ∀ s, P s → P (h s).2.

Lemma keeps_ret {A} P (a : A) : keeps P (ret a). Proof. by intros s. Qed.
Lemma keeps_respond_with {A} P status body cookie : keeps P (respond_with (A := A) status body cookie). Proof. by intros s. Qed.
Lemma keeps_bind {A B} P (h : Handler S A) (k : A → Handler S B) : keeps P h → (∀ a, keeps P (k a)) → keeps P (hbind k h).
Proof. intros Hh Hk s Hs. unfold hbind. specialize (Hh s Hs). destruct (h s) as [[r|a] s']; [done|]. by apply Hk. Qed.
Lemma keeps_if {A} P (b : bool) (h h' : Handler S A) : keeps P h → keeps P h' → keeps P (if b then h else h').
Proof. by destruct b. Qed.
Lemma keeps_read_kv {A} P (f : S → A) : keeps P (read_kv f). Proof. by intros s. Qed.
Lemma keeps_query {A} P env k (f : AuthTables → option A) : keeps P (query env k f).
Proof.
  intros s Hs. unfold query, stmt. destruct (ae_fails env k); [done|]. destruct (f (st_db s)); [|done]. by destruct s.
Qed.
Lemma keeps_run P (h : Handler S AuthResponse) s : keeps P h → P s → P (run h s).2.
Proof. intros Hh Hs. specialize (Hh s Hs). unfold run. by destruct (h s) as [[]]. Qed.

(** Properties of the tables. *)
Definition of_db (Q : AuthTables → Prop) (s : AuthState S) : Prop := Q (st_db s).

Lemma keeps_publish Q resource d : keeps (of_db Q) (publish resource d). Proof. by intros s. Qed.
Lemma keeps_send Q m : keeps (of_db Q) (send m). Proof. by intros s. Qed.
Lemma keeps_draw Q : keeps (of_db Q) draw. Proof. by intros s. Qed.
Lemma keeps_on_kv {A} Q (f : S → A * S) : keeps (of_db Q) (on_kv f).
Proof. intros s Hs. unfold on_kv. by destruct (f (st_kv s)). Qed.
Lemma keeps_stmt {A} Q env k (f : AuthTables → option (A * AuthTables)) :
  (∀ t a t', Q t → f t = Some (a, t') → Q t') → keeps (of_db Q) (stmt env k f).
Proof.
  intros Hf s Hs. unfold stmt. destruct (ae_fails env k); [done|].
  destruct (f (st_db s)) as [[a t']|] eqn:E; [|done]. by eapply Hf.
Qed.
Lemma keeps_exec Q env k f : (∀ t, Q t → Q (f t)) → keeps (of_db Q) (exec env k f).
Proof. intros Hf. apply keeps_stmt. intros t [] t' Ht [= <-]. auto. Qed.
End rules.

Create HintDb auth.
#[export] Hint Resolve keeps_ret keeps_respond_with keeps_read_kv keeps_query keeps_publish keeps_send keeps_draw keeps_on_kv : auth.

(** Walks through a handler: sequencing, tests and case analyses. *)
Ltac keeps_step :=
  match goal with
  | |- keeps _ (hbind _ _) => apply keeps_bind; [|intros ?]
  | |- keeps _ (respond _ _) => apply keeps_respond_with
  | |- keeps _ (reject _ _) => apply keeps_respond_with
  | |- keeps _ (if _ then _ else _) => apply keeps_if
  | |- keeps _ (match ?x with _ => _ end) => destruct x
  | |- keeps _ (let '(_, _) := ?x in _) => destruct x
  end.
Ltac keeps_walk := repeat (first [solve [auto with auth] | keeps_step]).

(** ** Facts of the primitives *)

Section facts.
Context `{FL : Floats} {S : Type}.
Implicit Types (s : AuthState S).

Lemma stmt_ok {A} env k (f : AuthTables → option (A * AuthTables)) s : ae_fails env k = false →
  stmt env k f s = match f (st_db s) with Some (a, db) => (inr (Some a), set_db db s) | None => (inr None, s) end.
Proof. intros E. unfold stmt. by rewrite E. Qed.

(** A failing statement is one that finds nothing. *)
Lemma query_state {A} env k (f : AuthTables → option A) s : ∃ a, query env k f s = (inr a, s) ∧ (a = None ∨ a = f (st_db s)).
Proof.
  unfold query, stmt. destruct (ae_fails env k); [eexists; split; [reflexivity|by left]|].
  destruct (f (st_db s)) as [a|]; cbn; eexists; (split; [|by right]); destruct s; reflexivity.
Qed.

Lemma query_ok {A} env k (f : AuthTables → option A) s : ae_fails env k = false → query env k f s = (inr (f (st_db s)), s).
Proof. intros E. unfold query. rewrite stmt_ok by done. destruct (f (st_db s)); [|done]. by destruct s. Qed.

Lemma first_row_some {A} (P : A → bool) (m : gmap string A) a : first_row P m = Some a → P a = true ∧ ∃ k, m !! k = Some a.
Proof.
  unfold first_row. intros Hh. assert (Hin : In a (List.filter P (snd <$> map_to_list m))) by (destruct (List.filter _ _); [done|]; left; by simplify_eq/=).
  apply filter_In in Hin as [Hin HP]. split; [done|]. apply list_elem_of_In, list_elem_of_fmap in Hin as ([k a'] & -> & Hin).
  apply elem_of_map_to_list in Hin. eauto.
Qed.

Lemma first_row_none {A} (P : A → bool) (m : gmap string A) : first_row P m = None ↔ ∀ k a, m !! k = Some a → P a = false.
Proof.
  unfold first_row. split.
  - intros Hh k a Hk. destruct (P a) eqn:E; [|done].
    assert (Hin : In a (List.filter P (snd <$> map_to_list m))).
    { apply filter_In. split; [|done]. apply list_elem_of_In, list_elem_of_fmap. exists (k, a). split; [done|]. by apply elem_of_map_to_list. }
    by destruct (List.filter P _).
  - intros Hall. destruct (List.filter P (snd <$> map_to_list m)) as [|a l] eqn:E; [done|].
    assert (Hin : In a (List.filter P (snd <$> map_to_list m))) by (rewrite E; by left).
    apply filter_In in Hin as [Hin HP]. apply list_elem_of_In, list_elem_of_fmap in Hin as ([k a'] & -> & Hin).
    apply elem_of_map_to_list in Hin. apply Hall in Hin. cbn in *. congruence.
Qed.
End facts.

(** Steps that go on and touch neither the tables nor the store. *)
Section quiet.
Context `{FL : Floats} {S : Type}.

Definition quiet {A} (h : Handler S A) : Prop :=
  ∀ s, ∃ a s', h s = (inr a, s') ∧ st_db s' = st_db s ∧ st_kv s' = st_kv s.

Lemma quiet_ret {A} (a : A) : quiet (ret a). Proof. intros s. by eexists _, _. Qed.
Lemma quiet_publish resource d : quiet (publish resource d). Proof. intros s. by eexists _, _. Qed.
Lemma quiet_send m : quiet (send m). Proof. intros s. by eexists _, _. Qed.
Lemma quiet_draw : quiet draw. Proof. intros s. by eexists _, _. Qed.
Lemma quiet_read_kv {A} (f : S → A) : quiet (read_kv f). Proof. intros s. by eexists _, _. Qed.
Lemma quiet_query {A} env k (f : AuthTables → option A) : quiet (query env k f).
Proof. intros s. destruct (query_state env k f s) as (a & -> & _). by eexists _, _. Qed.
Lemma quiet_bind {A B} (h : Handler S A) (k : A → Handler S B) : quiet h → (∀ a, quiet (k a)) → quiet (hbind k h).
Proof.
  intros Hh Hk s. destruct (Hh s) as (a & s1 & E1 & D1 & K1). destruct (Hk a s1) as (b & s2 & E2 & D2 & K2).
  exists b, s2. unfold hbind. rewrite E1, E2. split; [done|]. split; congruence.
Qed.
Lemma quiet_if {A} (b : bool) (h h' : Handler S A) : quiet h → quiet h' → quiet (if b then h else h').
Proof. by destruct b. Qed.
End quiet.
#[export] Hint Resolve quiet_ret quiet_publish quiet_send quiet_draw quiet_read_kv quiet_query quiet_bind quiet_if : auth.

(** ** Running a handler step by step *)

Section running.
Context `{FL : Floats} {S : Type}.
Implicit Types (s : AuthState S).

Lemma run_ret {A} (a : A) (k : A → Handler S AuthResponse) s : run (hbind k (ret a)) s = run (k a) s.
Proof. done. Qed.
Lemma run_respond {A} status body cookie (k : A → Handler S AuthResponse) s :
  run (hbind k (respond_with status body cookie)) s = (MkAuthResponse status body cookie, s).
Proof. done. Qed.
Lemma run_response status body cookie s : run (S := S) (respond_with status body cookie) s = (MkAuthResponse status body cookie, s).
Proof. done. Qed.
Lemma run_bind {A B} (h : Handler S A) (k : A → Handler S B) (k' : B → Handler S AuthResponse) s :
  run (hbind k' (hbind k h)) s = run (hbind (λ a, hbind k' (k a)) h) s.
Proof. unfold run, hbind. by destruct (h s) as [[r|a] s']. Qed.
Lemma run_stmt {A} env st (f : AuthTables → option (A * AuthTables)) (k : option A → Handler S AuthResponse) s :
  ae_fails env st = false →
  run (hbind k (stmt env st f)) s
  = match f (st_db s) with Some (a, db) => run (k (Some a)) (set_db db s) | None => run (k None) s end.
Proof. intros E. unfold run, hbind. rewrite stmt_ok by done. by destruct (f (st_db s)) as [[]|]. Qed.
Lemma run_query {A} env st (f : AuthTables → option A) (k : option A → Handler S AuthResponse) s :
  ae_fails env st = false → run (hbind k (query env st f)) s = run (k (f (st_db s))) s.
Proof. intros E. unfold run, hbind. by rewrite query_ok. Qed.
Lemma run_on_kv {A} (f : S → A * S) (k : A → Handler S AuthResponse) s :
  run (hbind k (on_kv f)) s = run (k (f (st_kv s)).1) (set_kv (f (st_kv s)).2 s).
Proof. unfold run, hbind, on_kv. by destruct (f (st_kv s)). Qed.
Lemma run_read_kv {A} (f : S → A) (k : A → Handler S AuthResponse) s : run (hbind k (read_kv f)) s = run (k (f (st_kv s))) s.
Proof. done. Qed.
Lemma run_if {A} (b : bool) (h h' : Handler S A) (k : A → Handler S AuthResponse) s :
  run (hbind k (if b then h else h')) s = if b then run (hbind k h) s else run (hbind k h') s.
Proof. by destruct b. Qed.
(** The state after a draw, and after an event or a message. *)
Definition bump s : AuthState S := MkAuthState (st_db s) (st_kv s) (st_events s) (st_sent s) (Datatypes.S (st_drawn s)) (st_challenges s).
Definition log (resource : string) (d : AuthEventData) s : AuthState S :=
  MkAuthState (st_db s) (st_kv s) (st_events s ++ [MkAuthEvent resource d]) (st_sent s) (st_drawn s) (st_challenges s).
Lemma run_draw (k : nat → Handler S AuthResponse) s : run (hbind k draw) s = run (k (st_drawn s)) (bump s).
Proof. done. Qed.
Lemma run_publish resource d (k : unit → Handler S AuthResponse) s : run (hbind k (publish resource d)) s = run (k tt) (log resource d s).
Proof. done. Qed.
Lemma run_quiet {A} (h : Handler S A) (k : A → Handler S AuthResponse) s : quiet h →
  ∃ a s', run (hbind k h) s = run (k a) s' ∧ st_db s' = st_db s ∧ st_kv s' = st_kv s.
Proof. intros Hh. destruct (Hh s) as (a & s' & E & D & K). exists a, s'. unfold run, hbind. by rewrite E. Qed.

(** A statement finds what it looks for, or nothing. *)
Lemma run_stmt_any {A} env st (h : AuthTables → option (A * AuthTables)) (k : option A → Handler S AuthResponse) s :
  run (hbind k (stmt env st h)) s = run (k None) s
  ∨ ∃ a db, h (st_db s) = Some (a, db) ∧ run (hbind k (stmt env st h)) s = run (k (Some a)) (set_db db s).
Proof.
  unfold run, hbind, stmt. destruct (ae_fails env st); [by left|]. destruct (h (st_db s)) as [[a db]|]; [right; by eauto|by left].
Qed.
Lemma run_query_any {A} env st (h : AuthTables → option A) (k : option A → Handler S AuthResponse) s :
  run (hbind k (query env st h)) s = run (k None) s
  ∨ ∃ a, h (st_db s) = Some a ∧ run (hbind k (query env st h)) s = run (k (Some a)) s.
Proof.
  unfold run, hbind. destruct (query_state env st h s) as (a & -> & [->| ->]); [by left|]. destruct (h (st_db s)) as [a|]; [right; by eauto|by left].
Qed.
End running.

(** The two outcomes of the statement that is run next. *)
Ltac query_cases a H :=
  match goal with |- context [run (hbind ?k (query ?e ?st ?h)) ?s] => destruct (run_query_any e st h k s) as [->|(a & H & ->)] end.
Ltac stmt_cases a db H :=
  match goal with |- context [run (hbind ?k (stmt ?e ?st ?h)) ?s] => destruct (run_stmt_any e st h k s) as [->|(a & db & H & ->)] end.

(** Steps that either go on with the tables as they were or answer with
    something other than 200: what a 200 implies is what they let through. *)
Section gates.
Context `{FL : Floats} {S : Type}.

Definition gate {A} (h : Handler S A) : Prop :=
  ∀ s, match h s with (inl r, s') => r_Status r ≠ 200 ∧ st_db s' = st_db s | (inr _, s') => st_db s' = st_db s end.

Lemma gate_quiet {A} (h : Handler S A) : quiet h → gate h.
Proof. intros Hh s. destruct (Hh s) as (a & s' & -> & D & _). done. Qed.
Lemma gate_ret {A} (a : A) : gate (ret a). Proof. by intros s. Qed.
Lemma gate_reject {A} status body : (status =? 200) = false → gate (respond (A := A) status body).
Proof. intros Hs s. cbn. split; [by apply Z.eqb_neq|done]. Qed.
Lemma gate_on_kv {A} (f : S → A * S) : gate (on_kv f).
Proof. intros s. unfold on_kv. by destruct (f (st_kv s)). Qed.
Lemma gate_bind {A B} (h : Handler S A) (k : A → Handler S B) : gate h → (∀ a, gate (k a)) → gate (hbind k h).
Proof.
  intros Hh Hk s. unfold hbind. specialize (Hh s). destruct (h s) as [[r|a] s1]; [done|]. specialize (Hk a s1).
  destruct (k a s1) as [[r|b] s2]; [destruct Hk; split; congruence|congruence].
Qed.
Lemma gate_if {A} (b : bool) (h h' : Handler S A) : gate h → gate h' → gate (if b then h else h').
Proof. by destruct b. Qed.

(** A response of a gate, and passing it. *)
Lemma gate_run {A} (h : Handler S A) (k : A → Handler S AuthResponse) s : gate h → r_Status (run (hbind k h) s).1 = 200 →
  ∃ a s', h s = (inr a, s') ∧ st_db s' = st_db s ∧ run (hbind k h) s = run (k a) s'.
Proof.
  intros Hh. specialize (Hh s). unfold run, hbind. destruct (h s) as [[r|a] s']; [by intros; destruct Hh|]. intros _. by exists a, s'.
Qed.

(** A gate that is not passed, or is. *)
Lemma gate_step {A} (h : Handler S A) (k : A → Handler S AuthResponse) s : gate h →
  (∃ r s', run (hbind k h) s = (r, s') ∧ r_Status r ≠ 200 ∧ st_db s' = st_db s)
  ∨ ∃ a s', run (hbind k h) s = run (k a) s' ∧ st_db s' = st_db s.
Proof.
  intros Hh. specialize (Hh s). unfold run, hbind. destruct (h s) as [[r|a] s']; [left; destruct Hh; eauto|right; eauto].
Qed.
End gates.
#[export] Hint Resolve gate_ret gate_reject gate_on_kv gate_bind gate_if : auth.
#[export] Hint Extern 1 (gate (publish _ _)) => apply gate_quiet, quiet_publish : auth.
#[export] Hint Extern 1 (gate (send _)) => apply gate_quiet, quiet_send : auth.
#[export] Hint Extern 1 (gate draw) => apply gate_quiet, quiet_draw : auth.
#[export] Hint Extern 1 (gate (read_kv _)) => apply gate_quiet, quiet_read_kv : auth.
#[export] Hint Extern 1 (gate (query _ _ _)) => apply gate_quiet, quiet_query : auth.
#[export] Hint Extern 1 (gate (reject _ _)) => apply gate_reject; reflexivity : auth.

Ltac gate_step_tac :=
  match goal with
  | |- gate (hbind _ _) => apply gate_bind; [|intros ?]
  | |- gate (if _ then _ else _) => apply gate_if
  | |- gate (match ?x with _ => _ end) => destruct x
  end.
Ltac gate_walk := repeat (first [solve [auto with auth] | gate_step_tac]).
