(* ===== verification/AuthSessions.v ===== *)
(** * auth/base_handler.go, base_handler_session.go, federated_sign_out.go and
      control_plane_handler_session.go: the life of a session

    Issuing a session with its tokens, listing, revoking, refreshing and
    signing out, and the notifications to OpenID clients.  What the theorems
    show: handlers keep the tables well formed, a refresh token is used once,
    and revoked or signed-out sessions are gone. *)

From stdpp Require Import strings gmap.
From Stdlib Require Import ZArith Lia Ascii String.
From S2P Require Import Prelude GoStrings GoTime GoRunes GoValues Scopes ServiceAccounts KVStore SignInRisk DataCache Tokens AuthCodes AuthModel AuthMonad.
Local Open Scope string_scope.
Local Open Scope Z_scope.
Local Open Scope auth_scope.

Section sessions.
Context `{FL : Floats} `{HL : HostLib} `{CR : Crypto} `{AH : !AuthHost} `{K : !Kernel} {S : Type} `{KD : KVDriver S}.
Context (config : AuthConfig) (env : AuthEnv).
Let now := ae_now env.

Definition nilIfEmpty (value : string) : option string := if String.eqb value "" then None else Some value.

Definition client_ip (request : Request) : string := ExtractRequestClientIP k_trustProxy request.
Definition user_agent (request : Request) : string := Header request "User-Agent".

Definition session_key (tokenHash : string) : string := "auth:session:" ++ tokenHash.

Definition kv_Set (key value : string) (expiry : Z) : Handler S unit := on_kv (λ kv, (tt, (Set_ (ae_kv env) key value expiry kv).2)).
Definition kv_Delete (key : string) : Handler S unit := on_kv (λ kv, (tt, (Delete (ae_kv env) key kv).2)).
Definition kv_Get (key : string) : Handler S (result KVError string) := read_kv (Get (ae_kv env) key).

(** ** federated_sign_out.go *)

Record ClientSessionInfo := MkClientSessionInfo { ci_ClientID : string; ci_SessionID : string; ci_UserID : string }.

(** The client of an id; of clients with one id, the last. *)
Definition client_of (clients : list OIDCClient) (id : string) : option OIDCClient :=
  list.last (List.filter (λ c, String.eqb (oc_ClientID c) id) clients).

(** One notification: none for an unknown client or one without a URI. *)
Definition notify_client (target : ClientSessionInfo) : Handler S unit :=
  match client_of (c_OIDCClients config) (ci_ClientID target) with
  | None => ret tt
  | Some c =>
      if String.eqb (oc_BackChannelSignOutURI c) "" then ret tt else
      let* n := draw in
      match GenerateSignOutToken k_json_float k_seed k_keyID now (new_uuid n) k_baseURL (ci_UserID target) (ci_SessionID target)
              (oc_ClientID c) 0 with
      | None => ret tt
      | Some token => send (BackChannelSignOut (oc_BackChannelSignOutURI c) token)
      end
  end.

Fixpoint dispatchBackChannelSignOut (targets : list ClientSessionInfo) : Handler S unit :=
  match targets with
  | [] => ret tt
  | target :: targets => notify_client target ;; dispatchBackChannelSignOut targets
  end.

(** The target of a deleted session that belongs to a client. *)
Definition client_target (userID : string) (s : Session) : list ClientSessionInfo :=
  match s_ClientID s with
  | Some clientID => if String.eqb clientID "" then [] else [MkClientSessionInfo clientID (s_ID s) userID]
  | None => []
  end.

(** ** base_handler.go *)

Definition resolveCustomClaims (userID : string) : Handler S (list (string * any)) :=
  if String.eqb userID "" then ret [] else
  let* registered := query env StClaimsProcedure (λ _, auth_claims_procedure) in
  if String.eqb (default "" registered) "" then ret [] else
  let* raw := query env StClaims (λ _, auth_claims userID) in
  if String.eqb (default "" raw) "" || String.eqb (default "" raw) "null" then ret [] else
  ret (default [] (unmarshal_claims_map (default "" raw))).

Definition user_claims (user : User) (sessionID : string) (customClaims : list (string * any)) : SignedClaims :=
  MkSignedClaims (u_ID user) sessionID (default "" (u_Email user)) false (default "" (u_Phone user)) false (u_Role user)
    (u_IsAnonymous user) "" "" 0 0 0 0 "" "" "" [] customClaims.

Definition refresh_expiry : Z :=
  now + wrap64 ((if c_RefreshTokenExpirySeconds config <=? 0 then defaultRefreshTokenExpirySeconds
                 else c_RefreshTokenExpirySeconds config) * Second).

Definition session_ttl : Z :=
  wrap64 ((if c_SessionTTLSeconds config <=? 0 then defaultSessionTTLSeconds else c_SessionTTLSeconds config) * Second).

(** The fast path: the user and the claims under the hash of the token. *)
Definition cache_session (refreshHash : string) (user : User) (customClaims : list (string * any)) : Handler S unit :=
  if c_FastPathSessionsEnabled config then
    kv_Set (session_key refreshHash) (marshal_session (MkCachedSession user customClaims)) session_ttl
  else ret tt.

(** Issued also when the row of the session could not be inserted. *)
Definition issueSessionResponse (request : Request) (user : User) (authMethod provider : string) : Handler S AuthResponse :=
  let* n1 := draw in
  let* n2 := draw in
  let refreshToken := GenerateRefreshToken (new_uuid n1) (new_uuid n2) in
  let refreshHash := HashRefreshToken refreshToken in
  let clientIP := client_ip request in
  let userAgent := nilIfEmpty (user_agent request) in
  let* n3 := draw in
  let* row := stmt env StInsertSession (insert_session (new_uuid n3) (u_ID user) refreshHash clientIP userAgent refresh_expiry now) in
  let* sessionID := match row with Some s => ret (s_ID s) | None => let* n := draw in ret (new_uuid n) end in
  let* customClaims := resolveCustomClaims (u_ID user) in
  let* n4 := draw in
  let accessToken := GenerateAccessToken k_json_float k_seed k_keyID k_handle now (new_uuid n4)
    (user_claims user sessionID customClaims) (c_AccessTokenExpirySeconds config) in
  cache_session refreshHash user customClaims ;;
  publish sessionID (SessionCreated (MkSessionCreatedEventData sessionID user authMethod provider (nilIfEmpty clientIP) userAgent
    refresh_expiry now)) ;;
  when String.eqb authMethod "session_refresh"
  then publish sessionID (TokenRefreshed (MkTokenRefreshedEventData sessionID user (nilIfEmpty clientIP) userAgent refresh_expiry)) ;;
  respond_with 200 (TokenResponse (MkAuthTokenResponse user accessToken refreshToken (c_AccessTokenExpirySeconds config) "Bearer"
    customClaims)) (CookieSet refreshToken refresh_expiry).

(** [fetchUserByID]: the zero user with the id when there is none. *)
Definition fetchUserByID (userID : string) : Handler S User :=
  let* u := query env StSelectUser (λ t, row_by_id userID (users t)) in
  ret (match u with Some u => scanned u | None => zero_user userID end).

Definition fetchUserByRecipient (recipient : string) : Handler S (option User) :=
  let* u := query env StSelectRecipient (λ t, first_row (has_recipient recipient) (users t)) in
  ret (scanned <$> u).

(** [SELECT ... FROM auth.users WHERE id = $1], as the handlers scan it. *)
Definition select_user (userID : string) : Handler S (option User) :=
  let* u := query env StSelectUser (λ t, row_by_id userID (users t)) in ret (scanned <$> u).

Definition resolveAnonymousCaller (request : Request) : Handler S (option User) :=
  let userID := UserID (AuthCtx request) in
  if String.eqb userID "" then ret None else
  let* user := select_user userID in
  ret (u ← user; match u_Email u, u_Phone u with
                 | None, None => if u_IsAnonymous u then Some u else None
                 | _, _ => None end).

(** The id of the caller; without one the request is refused. *)
Definition authenticated (request : Request) : Handler S string :=
  if String.eqb (UserID (AuthCtx request)) "" then reject 401 "Authentication required" else ret (UserID (AuthCtx request)).

(** ** base_handler_session.go *)

Definition unavailable {A} : Handler S A := reject 500 "Service temporarily unavailable".

Definition is_current (sessionID refreshHash : string) (s : Session) : bool :=
  (negb (String.eqb sessionID "") && String.eqb (s_ID s) sessionID)
  || (negb (String.eqb refreshHash "") && String.eqb (s_RefreshTokenHash s) refreshHash).

Definition user_session (sessionID refreshHash : string) (s : Session) : UserSession :=
  MkUserSession (s_ID s) (s_IPAddress s) (s_UserAgent s) (is_current sessionID refreshHash s) (s_ExpiresAt s) (s_CreatedAt s).

Definition active_session (userID : string) (s : Session) : bool := String.eqb (s_UserID s) userID && (now <? s_ExpiresAt s).

(** The caller's only session is its current one when it named none. *)
Definition mark_only (sessionID refreshHash : string) (l : list UserSession) : list UserSession :=
  match l with
  | [s] => if String.eqb sessionID "" && String.eqb refreshHash ""
           then [MkUserSession (us_ID s) (us_IPAddress s) (us_UserAgent s) true (us_ExpiresAt s) (us_CreatedAt s)] else l
  | _ => l
  end.

Definition handleListSessions (request : Request) : Handler S AuthResponse :=
  let* userID := authenticated request in
  let refreshHash := RefreshTokenHash (AuthCtx request) in
  let sessionID := SessionID (JWT (AuthCtx request)) in
  let* rows := query env StListSessions (λ t, id ← uuid_in userID; Some (sort_by newer_session (sessions_where (active_session id) t))) in
  match rows with
  | None => unavailable
  | Some rows => respond 200 (SessionsResponse (mark_only sessionID refreshHash (user_session sessionID refreshHash <$> rows)))
  end.

(** The id in the path of the request. *)
Definition target_session (pathValue urlPath : string) : string :=
  if negb (String.eqb pathValue "") then pathValue else
  let path := TrimSuffix urlPath "/" in
  let id := TrimPrefix path "/v1/auth/user/sessions/" in
  if String.eqb id path then TrimPrefix path "/v1/auth/sessions/" else id.

Definition handleRevokeSession (pathValue urlPath : string) (request : Request) : Handler S AuthResponse :=
  let* userID := authenticated request in
  let target := target_session pathValue urlPath in
  if String.eqb target "" || Contains target "/" then reject 400 "Invalid session ID" else
  if bool_decide (uuid_in target = None) then reject 400 "Invalid session ID" else
  let* deleted := stmt env StDeleteSession (λ t,
    id ← uuid_in target; uid ← uuid_in userID; s ← sessions t !! id;
    if String.eqb (s_UserID s) uid then Some (s, with_sessions (delete id) t) else None) in
  match deleted with
  | None => reject 404 "Session not found"
  | Some s =>
      when negb (String.eqb (s_RefreshTokenHash s) "") then kv_Delete (session_key (s_RefreshTokenHash s)) ;;
      dispatchBackChannelSignOut
        (match s_ClientID s with
         | Some clientID => if String.eqb clientID "" then [] else [MkClientSessionInfo clientID target userID]
         | None => [] end) ;;
      let* user := fetchUserByID userID in
      publish target (SessionDeleted (MkSessionDeletedEventData user (Some target) None)) ;;
      respond 204 NoContent
  end.

(** Drops the cached sessions of a list of hashes. *)
Fixpoint forget_sessions (hashes : list string) : Handler S unit :=
  match hashes with
  | [] => ret tt
  | hash :: hashes => when negb (String.eqb hash "") then kv_Delete (session_key hash) ;; forget_sessions hashes
  end.

(** The session the caller presents: the one of its token, or of its hash. *)
Definition current_session (userID : string) (request : Request) : Handler S string :=
  let sessionID := SessionID (JWT (AuthCtx request)) in
  let hash := RefreshTokenHash (AuthCtx request) in
  if negb (String.eqb sessionID "") && negb (bool_decide (uuid_in sessionID = None)) then ret sessionID else
  if String.eqb hash "" then ret "" else
  let* s := query env StSelectSessionHash (λ t, id ← uuid_in userID;
    first_row (λ s, String.eqb (s_UserID s) id && String.eqb (s_RefreshTokenHash s) hash) (sessions t)) in
  ret (match s with Some s => s_ID s | None => "" end).

(** [WHERE user_id = $1 AND id != $2]. *)
Definition other_session (userID current : string) (s : Session) : bool :=
  String.eqb (s_UserID s) userID && negb (String.eqb (s_ID s) current).

Definition handleRevokeOtherSessions (request : Request) : Handler S AuthResponse :=
  let* userID := authenticated request in
  let* current := current_session userID request in
  if String.eqb current "" then
    let* count := query env StCountSessions (λ t, id ← uuid_in userID;
      Some (Z.of_nat (List.length (sessions_where (active_session id) t)))) in
    match count with
    | None => unavailable
    | Some count => if count <=? 1 then respond 200 (RevokedResponse 0)
                    else reject 400 "Current session identifier is required to revoke other devices"
    end
  else
    let* rows := stmt env StDeleteOthers (λ t, id ← uuid_in userID; cur ← uuid_in current;
      Some (delete_sessions (other_session id cur) t)) in
    match rows with
    | None => unavailable
    | Some rows =>
        forget_sessions (s_RefreshTokenHash <$> rows) ;;
        dispatchBackChannelSignOut (rows ≫= client_target userID) ;;
        let* user := fetchUserByID userID in
        let revokedCount := Z.of_nat (List.length rows) in
        publish userID (SessionDeleted (MkSessionDeletedEventData user None (Some revokedCount))) ;;
        respond 200 (RevokedResponse revokedCount)
    end.

Definition has_hash (tokenHash : string) (s : Session) : bool := String.eqb (s_RefreshTokenHash s) tokenHash.

(** The cached session of a token: text that decodes to one with a user id. *)
Definition cached_session (tokenHash : string) : Handler S (option CachedSession) :=
  if c_FastPathSessionsEnabled config then
    let* r := kv_Get (session_key tokenHash) in
    ret (match r with
         | Ok data => if String.eqb data "" then None else
                      c ← unmarshal_session data; if String.eqb (u_ID (cs_User c)) "" then None else Some c
         | Err _ => None
         end)
  else ret None.

Definition refresh_cached (request : Request) (tokenHash : string) (c : CachedSession) : Handler S AuthResponse :=
  kv_Delete (session_key tokenHash) ;;
  exec env StDeleteSessionHash (drop_sessions (has_hash tokenHash)) ;;
  if locked now (cs_User c) then reject 423 "Account temporarily locked"
  else issueSessionResponse request (cs_User c) "session_refresh" "".

Definition delete_session_id (id : string) : Handler S (option unit) := exec env StDeleteSession (with_sessions (delete id)).

Definition refresh_stored (request : Request) (tokenHash : string) : Handler S AuthResponse :=
  let* row := query env StSelectSessionHash (λ t, first_row (has_hash tokenHash) (sessions t)) in
  match row with
  | None => reject 401 "Refresh token revoked or invalid"
  | Some s =>
      if s_ExpiresAt s <? now then
        delete_session_id (s_ID s) ;; reject 401 "Refresh token expired"
      else
        let* user := select_user (s_UserID s) in
        match user with
        | None => reject 401 "Refresh token revoked or invalid"
        | Some user =>
            if locked now user then delete_session_id (s_ID s) ;; reject 423 "Account temporarily locked"
            else delete_session_id (s_ID s) ;; issueSessionResponse request user "session_refresh" ""
        end
  end.

(** The refresh token of the body, else of the request. *)
Definition presented_token (body : string) (request : Request) : string :=
  if String.eqb body "" then ExtractRequestSessionToken request else body.

Definition handleRefreshToken (body : Decoded string) (request : Request) : Handler S AuthResponse :=
  let* input := match body with NoBody => ret "" | BadJSON => reject 400 "Invalid JSON body" | Input token => ret token end in
  let token := presented_token input request in
  if String.eqb token "" then reject 401 "Refresh token is required" else
  let tokenHash := HashRefreshToken token in
  let* cached := cached_session tokenHash in
  match cached with
  | Some c => refresh_cached request tokenHash c
  | None => refresh_stored request tokenHash
  end.

Definition handleSignOut (body : Decoded string) (request : Request) : Handler S AuthResponse :=
  let token := presented_token (match body with Input token => token | _ => "" end) request in
  when negb (String.eqb token "") then (
    let tokenHash := HashRefreshToken token in
    kv_Delete (session_key tokenHash) ;;
    let* deleted := stmt env StDeleteSessionHash (λ t,
      s ← first_row (has_hash tokenHash) (sessions t); Some (s, drop_sessions (has_hash tokenHash) t)) in
    match deleted with
    | None => ret tt
    | Some s =>
        dispatchBackChannelSignOut (client_target (s_UserID s) s) ;;
        let* user := fetchUserByID (s_UserID s) in
        publish (s_ID s) (SessionDeleted (MkSessionDeletedEventData user (Some (s_ID s)) None))
    end) ;;
  respond_with 204 NoContent CookieCleared.

(** ** control_plane_handler_session.go; [allowed] is [RequireScope]. *)

Definition handleListUserSessions (allowed : bool) (userID : string) : Handler S AuthResponse :=
  if negb allowed then reject 403 "Forbidden: scope auth:user.read required" else
  if bool_decide (uuid_in userID = None) then reject 400 "Invalid user UUID" else
  let* rows := query env StListSessions (λ t, id ← uuid_in userID;
    Some (sort_by newer_session (sessions_where (λ s, String.eqb (s_UserID s) id) t))) in
  match rows with
  | None => reject 500 ""
  | Some rows => respond 200 (SessionRows rows)
  end.

Definition handleRevokeUserSessions (allowed : bool) (userID : string) : Handler S AuthResponse :=
  if negb allowed then reject 403 "Forbidden: scope auth:user.write required" else
  if bool_decide (uuid_in userID = None) then reject 400 "Invalid user UUID" else
  let* rows := stmt env StDeleteOthers (λ t, id ← uuid_in userID; Some (delete_sessions (λ s, String.eqb (s_UserID s) id) t)) in
  match rows with
  | None => reject 500 ""
  | Some rows =>
      forget_sessions (s_RefreshTokenHash <$> rows) ;;
      dispatchBackChannelSignOut (rows ≫= client_target userID) ;;
      let* user := fetchUserByID userID in
      publish userID (SessionDeleted (MkSessionDeletedEventData user None (Some (Z.of_nat (List.length rows))))) ;;
      respond 204 NoContent
  end.
End sessions.

(** ** Refreshing *)

Section refreshing.
Context `{FL : Floats} `{HL : HostLib} `{CR : Crypto} `{AH : !AuthHost} `{K : !Kernel} {S : Type}.
Context {KD : KVDriver S} {PT : PgText} {KL : KVLaws S}.
Context (config : AuthConfig).
Implicit Types (s : AuthState S).

Lemma resolve_claims_state env userID s : ∃ c, resolveCustomClaims env userID s = (inr c, s).
Proof.
  unfold resolveCustomClaims. destruct (String.eqb userID ""); [by eexists|]. unfold hbind.
  destruct (query_state env StClaimsProcedure (λ _, auth_claims_procedure) s) as (r & -> & _).
  destruct (String.eqb (default "" r) ""); [by eexists|].
  destruct (query_state env StClaims (λ _, auth_claims userID) s) as (raw & -> & _).
  destruct (_ || _); by eexists.
Qed.

Definition new_token (n : nat) : string := GenerateRefreshToken (new_uuid n) (new_uuid (Datatypes.S n)).

(** What issuing a session does: it answers with a fresh refresh token, adds
    at most the row of that token, and writes at most its cache entry. *)
Lemma issue_effect env request user m p s :
  ∃ r s' row, issueSessionResponse config env request user m p s = (inl (MkAuthResponse 200 (TokenResponse r)
      (CookieSet (new_token (st_drawn s)) (refresh_expiry config env))), s')
  ∧ at_User r = user ∧ at_RefreshToken r = new_token (st_drawn s)
  ∧ (st_db s' = st_db s ∨ insert_session (new_uuid (Datatypes.S (Datatypes.S (st_drawn s)))) (u_ID user) (HashRefreshToken (new_token (st_drawn s)))
       (client_ip request) (nilIfEmpty (user_agent request)) (refresh_expiry config env) (ae_now env) (st_db s) = Some (row, st_db s'))
  ∧ st_kv s' = (if c_FastPathSessionsEnabled config
                then (Set_ (ae_kv env) (session_key (HashRefreshToken (new_token (st_drawn s))))
                        (marshal_session (MkCachedSession user (at_Claims r))) (session_ttl config) (st_kv s)).2
                else st_kv s).
Proof.
  destruct s as [db kv events sent drawn]. unfold issueSessionResponse. cbn [st_drawn st_db st_kv].
  set (row := insert_session _ _ _ _ _ _ _ db). unfold hbind, draw at 1 2 3. cbn [st_db st_kv st_drawn st_events st_sent].
  unfold stmt. cbn [st_db st_drawn]. fold (new_token drawn). fold row.
  destruct (ae_fails env StInsertSession), row as [[r db']|] eqn:Erow;
    cbn -[resolveCustomClaims cache_session publish GenerateAccessToken HashRefreshToken new_token refresh_expiry client_ip];
    edestruct resolve_claims_state as [c Ec]; rewrite Ec; clear Ec;
    unfold cache_session; destruct (c_FastPathSessionsEnabled config), (String.eqb m "session_refresh");
    cbn; (eexists _, _, _; split; [reflexivity|]; split; [reflexivity|]; split; [reflexivity|]; split; [auto|reflexivity]).
  Unshelve. all: exact (MkSession "" "" None "" None None 0 0).
Qed.

(** Text from which a cached session is read. *)
Definition usable (data : string) : Prop := data ≠ "" ∧ ∃ c, unmarshal_session data = Some c ∧ u_ID (cs_User c) ≠ "".

(** No row and, from an instant on, no cache entry answers for the hash. *)
Definition token_dead (now : Z) (tokenHash : string) (s : AuthState S) : Prop :=
  (∀ id x, sessions (st_db s) !! id = Some x → s_RefreshTokenHash x ≠ tokenHash)
  ∧ (c_FastPathSessionsEnabled config = true → ∀ t data, now <= t →
      kv_view t (st_kv s) !! session_key tokenHash = Some data → ¬ usable data).

Lemma session_key_inj a b : session_key a = session_key b → a = b.
Proof. unfold session_key. by intros [= E]. Qed.

Definition refused : AuthResponse := MkAuthResponse 401 (ErrorMessage "Refresh token revoked or invalid") CookieUntouched.

(** What the cache answers for a token. *)
Lemma cached_session_spec env tokenHash s : ae_kv_fails env KVGet = false →
  ∃ c, cached_session config env tokenHash s = (inr c, s)
  ∧ match c with
    | Some c => c_FastPathSessionsEnabled config = true ∧ u_ID (cs_User c) ≠ ""
        ∧ ∃ data, kv_view (ae_now env) (st_kv s) !! session_key tokenHash = Some data ∧ data ≠ "" ∧ unmarshal_session data = Some c
    | None => c_FastPathSessionsEnabled config = true → ∀ data,
        kv_view (ae_now env) (st_kv s) !! session_key tokenHash = Some data → ¬ usable data
    end.
Proof.
  intros Hkv. unfold cached_session. destruct (c_FastPathSessionsEnabled config); [|by exists None].
  unfold kv_Get, hbind, read_kv, Get. rewrite law_Get by done. cbn [ae_kv kv_now].
  destruct (kv_view (ae_now env) (st_kv s) !! session_key tokenHash) as [data|] eqn:Ev; [|by exists None].
  eexists. split; [reflexivity|]. destruct (String.eqb_spec data "") as [->|Hd]; [by intros _ d [= <-] []|].
  destruct (unmarshal_session data) as [c|] eqn:Eu; cbn [mbind option_bind].
  - destruct (String.eqb_spec (u_ID (cs_User c)) "") as [Hi|Hi]; [|by eauto 8].
    intros _ d [= <-] (_ & c' & Ec & Hne). congruence.
  - intros _ d [= <-] (_ & c' & Ec & Hne). congruence.
Qed.

(** A dead token is refused, and the refusal changes nothing. *)
Lemma dead_token_refused env token request now s : token ≠ "" → now <= ae_now env → ae_kv_fails env KVGet = false →
  token_dead now (HashRefreshToken token) s → run (handleRefreshToken config env (Input token) request) s = (refused, s).
Proof.
  intros Ht Hnow Hkv [Hrows Hcache]. unfold run, handleRefreshToken, hbind. cbn [ret].
  unfold presented_token. rewrite !(proj2 (String.eqb_neq token "")) by done.
  destruct (cached_session_spec env (HashRefreshToken token) s Hkv) as ([c|] & -> & Hc).
  { destruct Hc as (Hf & Hid & data & Hv & Hd & Hu). exfalso. eapply (Hcache Hf _ data Hnow Hv). split; eauto. }
  unfold refresh_stored, hbind.
  destruct (query_state env StSelectSessionHash (λ t, first_row (has_hash (HashRefreshToken token)) (sessions t)) s) as (r & -> & Hr).
  assert (r = None) as ->; [|done]. destruct Hr as [->| ->]; [done|]. apply first_row_none. intros k a Ha.
  apply String.eqb_neq. by eapply Hrows.
Qed.

(** A token that issuing leaves dead: its row and its cache entry are gone
    before, and the fresh token has another hash. *)
Lemma issue_keeps_dead env tokenHash request user m p s r s' : ae_kv_fails env KVSet = false →
  HashRefreshToken (new_token (st_drawn s)) ≠ tokenHash → token_dead (ae_now env) tokenHash s →
  issueSessionResponse config env request user m p s = (r, s') → token_dead (ae_now env) tokenHash s'.
Proof.
  intros Hkv Hne [Hrows Hcache] E. destruct (issue_effect env request user m p s) as (t & s2 & row & E' & _ & _ & Hdb & Hkv').
  rewrite E' in E. injection E as <- <-. split.
  - destruct Hdb as [-> | Hins]; [done|]. unfold insert_session in Hins.
    destruct (row_by_id _ _) as [u|]; [|done]. destruct (inet_in _) as [a|]; [|done]. cbn [mbind option_bind] in Hins.
    injection Hins as Er Edb. rewrite <- Edb. cbn [sessions with_sessions].
    intros id x [[<- <-]|[_ Hx]]%lookup_insert_Some; [done|]. by eapply Hrows.
  - intros Hf t' data Ht'. rewrite Hkv', Hf.
    destruct (law_frame (ae_kv env) (st_kv s) t' (session_key tokenHash) Ht') as [Hset _].
    unfold Set_. rewrite Hset; [by apply Hcache|]. intros Hk%session_key_inj. congruence.
Qed.

(** C8: When no statement of a refresh fails, the token has at most one session,
    sessions are stored under their ids and no token drawn later has its
    hash, a refresh that succeeds uses the token up: every later refresh
    with it, while the store can be read, is refused and changes nothing,
    whether the session came from the cache or from the table. *)
Theorem refresh_token_single_use now token request s :
  token ≠ "" →
  (∀ id x, sessions (st_db s) !! id = Some x → s_ID x = id) →
  (∀ id1 id2 x1 x2, sessions (st_db s) !! id1 = Some x1 → sessions (st_db s) !! id2 = Some x2 →
     s_RefreshTokenHash x1 = HashRefreshToken token → s_RefreshTokenHash x2 = HashRefreshToken token → id1 = id2) →
  (∀ n, (st_drawn s <= n)%nat → HashRefreshToken (new_token n) ≠ HashRefreshToken token) →
  let '(r, s') := run (handleRefreshToken config (auth_ok now) (Input token) request) s in
  r_Status r = 200 → ∀ env' request', now <= ae_now env' → ae_kv_fails env' KVGet = false →
    run (handleRefreshToken config env' (Input token) request') s' = (refused, s').
Proof.
  intros Ht Hkeys Hone Hfresh. set (h := HashRefreshToken token) in *.
  destruct (run (handleRefreshToken _ _ _ _) _) as [r s'] eqn:E. intros Hok env' request' Hnow Hkv.
  apply (dead_token_refused env' token request' now); [done..|]. revert E.
  unfold run, handleRefreshToken, hbind. cbn [ret]. unfold presented_token. rewrite !(proj2 (String.eqb_neq token "")) by done.
  destruct (cached_session_spec (auth_ok now) h s eq_refl) as ([c|] & Ec & Hc); fold h; rewrite Ec.
  - unfold refresh_cached, hbind. cbn [kv_Delete on_kv]. unfold kv_Delete, on_kv, exec. rewrite stmt_ok by done.
    destruct (law_Delete (ae_kv (auth_ok now)) (session_key h) (st_kv s) eq_refl) as (kv & Ekv & Hview).
    unfold Delete. rewrite Ekv. cbn [snd set_db st_db set_kv].
    destruct (locked _ _); [by intros [= <- <-]|]. intros E.
    set (s1 := set_db _ _) in E. assert (Hdead : token_dead now h s1).
    { split; [intros id x Hx|intros _ t' data _]; cbn in *.
      - apply map_lookup_filter_Some in Hx as [_ Hx]. by apply String.eqb_neq.
      - by rewrite Hview, lookup_delete_eq. }
    destruct (issueSessionResponse _ _ _ _ _ _ s1) as [[r1|r1] s2] eqn:Ei; injection E as <- <-;
      (eapply issue_keeps_dead in Ei; [exact Ei|done|by apply Hfresh|done]).
  - unfold refresh_stored, hbind. rewrite query_ok by done.
    destruct (first_row (has_hash h) (sessions (st_db s))) as [x|] eqn:Er; [|by intros [= <- <-]].
    apply first_row_some in Er as [Hx (id & Hid)]. apply String.eqb_eq in Hx. pose proof (Hkeys id x Hid) as Hidx.
    destruct (s_ExpiresAt x <? _); [unfold delete_session_id, exec; rewrite stmt_ok by done; by intros [= <- <-]|].
    unfold select_user, hbind. rewrite query_ok by done. cbn [ret].
    destruct (scanned <$> _) as [user|]; [|by intros [= <- <-]].
    destruct (locked _ _); unfold delete_session_id, exec; rewrite stmt_ok by done; [by intros [= <- <-]|]. intros E.
    set (s1 := set_db _ _) in E. assert (Hdead : token_dead now h s1).
    { split; [intros id' y Hy Hh|intros Hf t' data Ht' Hd].
      - cbn in Hy. apply lookup_delete_Some in Hy as [Hne Hy]. apply Hne. rewrite Hidx. by eapply Hone.
      - apply (Hc Hf). eapply lookup_weaken; [exact Hd|]. by apply law_expiry. }
    destruct (issueSessionResponse _ _ _ _ _ _ s1) as [[r1|r1] s2] eqn:Ei; injection E as <- <-;
      (eapply issue_keeps_dead in Ei; [exact Ei|done|by apply Hfresh|done]).
Qed.
End refreshing.

(** ** Signing out and revoking *)

Section revoking.
Context `{FL : Floats} `{HL : HostLib} `{CR : Crypto} `{AH : !AuthHost} `{K : !Kernel} {S : Type}.
Context {KD : KVDriver S} {PT : PgText} {KL : KVLaws S}.
Context (config : AuthConfig).
Implicit Types (s : AuthState S).

Lemma quiet_dispatch env targets : quiet (dispatchBackChannelSignOut config env targets : Handler S unit).
Proof.
  induction targets as [|target targets IH]; cbn [dispatchBackChannelSignOut]; [auto with auth|].
  apply quiet_bind; [|done]. unfold notify_client. destruct (client_of _ _) as [c|]; [|auto with auth].
  destruct (String.eqb _ _); [auto with auth|]. apply quiet_bind; [auto with auth|]. intros n.
  destruct (GenerateSignOutToken _ _ _ _ _ _ _ _ _ _); auto with auth.
Qed.

Lemma quiet_fetch env userID : quiet (fetchUserByID env userID : Handler S User).
Proof. unfold fetchUserByID. auto with auth. Qed.

(** Signing out kills the token: the answer is 204 and clears the cookie,
    and from then on a refresh with the token is refused, also through the
    cache (no statement failing during the sign-out). *)
Theorem signed_out_token_refused now token request s : token ≠ "" →
  let '(r, s') := run (handleSignOut config (auth_ok now) (Input token) request) s in
  r = MkAuthResponse 204 NoContent CookieCleared
  ∧ ∀ env' request', now <= ae_now env' → ae_kv_fails env' KVGet = false →
      run (handleRefreshToken config env' (Input token) request') s' = (refused, s').
Proof.
  intros Ht. destruct (run _ s) as [r s'] eqn:E.
  assert (Hend : r = MkAuthResponse 204 NoContent CookieCleared ∧ token_dead config now (HashRefreshToken token) s').
  { revert E. unfold handleSignOut, presented_token. rewrite !(proj2 (String.eqb_neq token "")) by done. cbn [negb].
    set (h := HashRefreshToken token). unfold run. unfold hbind at 1 2.
    unfold kv_Delete at 1, on_kv at 1. destruct (law_Delete (ae_kv (auth_ok now)) (session_key h) (st_kv s) eq_refl) as (kv & Ekv & Hview).
    unfold Delete. rewrite Ekv. cbn [snd]. unfold hbind at 1. rewrite stmt_ok by done. cbn [st_db set_kv].
    assert (Hkv : c_FastPathSessionsEnabled config = true → ∀ t data, now <= t → kv_view t kv !! session_key h = Some data → ¬ usable data).
    { intros _ t data _. by rewrite Hview, lookup_delete_eq. }
    destruct (first_row (has_hash h) (sessions (st_db s))) as [x|] eqn:Er; cbn [mbind option_bind].
    - set (s1 := set_db _ _).
      assert (Hdead : token_dead config now h s1).
      { split; [|done]. intros id y Hy. cbn in Hy. apply map_lookup_filter_Some in Hy as [_ Hy]. by apply String.eqb_neq. }
      destruct (quiet_dispatch (auth_ok now) (client_target (s_UserID x) x) s1) as (a & s2 & E2 & D2 & K2). unfold hbind at 1. rewrite E2.
      destruct (quiet_fetch (auth_ok now) (s_UserID x) s2) as (u & s3 & E3 & D3 & K3). unfold hbind at 1. rewrite E3.
      cbn. intros [= <- <-]. split; [done|]. unfold token_dead in *. cbn. by rewrite D3, K3, D2, K2.
    - cbn. intros [= <- <-]. split; [done|]. split; [|done]. intros id y Hy Hh. cbn in Hy.
      rewrite first_row_none in Er. specialize (Er id y Hy). unfold has_hash in Er. by apply String.eqb_neq in Er. }
  destruct Hend as [-> Hdead]. split; [done|]. intros env' request' Hnow Hkv. by apply (dead_token_refused config env' token request' now).
Qed.

(** With the fast path on, a cached session is refreshed whatever the tables
    say; the new refresh token is cached in turn. *)
Lemma fast_path_refresh env token request s c data : token ≠ "" →
  c_FastPathSessionsEnabled config = true → 0 < c_SessionTTLSeconds config <= 10 ^ 9 →
  ae_kv_fails env KVGet = false → ae_kv_fails env KVSet = false →
  kv_view (ae_now env) (st_kv s) !! session_key (HashRefreshToken token) = Some data → data ≠ "" →
  unmarshal_session data = Some c → u_ID (cs_User c) ≠ "" → locked (ae_now env) (cs_User c) = false →
  ∃ r cookie s', run (handleRefreshToken config env (Input token) request) s = (MkAuthResponse 200 (TokenResponse r) cookie, s')
    ∧ at_User r = cs_User c
    ∧ kv_view (ae_now env) (st_kv s') !! session_key (HashRefreshToken (at_RefreshToken r))
      = Some (marshal_session (MkCachedSession (cs_User c) (at_Claims r))).
Proof.
  intros Ht Hf Httl Hg Hset Hv Hd Hu Hid Hl. unfold run, handleRefreshToken, hbind. cbn [ret].
  unfold presented_token. rewrite !(proj2 (String.eqb_neq token "")) by done.
  destruct (cached_session_spec config env (HashRefreshToken token) s Hg) as ([c'|] & -> & Hc).
  2: { exfalso. apply (Hc Hf data Hv). split; eauto. }
  destruct Hc as (_ & _ & data' & Hv' & _ & Hu'). assert (c' = c) as -> by congruence.
  unfold refresh_cached, hbind, kv_Delete, on_kv. destruct (Delete _ _ _) as [e kv].
  destruct (exec env StDeleteSessionHash _ _) as [x s1] eqn:Ex. assert (∃ o, x = inr o) as [o ->].
  { unfold exec, stmt in Ex. destruct (ae_fails _ _); injection Ex as <- <-; eauto. }
  rewrite Hl. destruct (issue_effect config env request (cs_User c) "session_refresh" "" s1) as (r & s2 & row & -> & Hr & Htok & _ & Hkv).
  exists r, (CookieSet (new_token (st_drawn s1)) (refresh_expiry config env)), s2. split; [done|]. split; [done|].
  rewrite Hkv, Hf, Htok. set (key := session_key _).
  destruct (law_Set (ae_kv env) key (marshal_session (MkCachedSession (cs_User c) (at_Claims r))) (session_ttl config) (st_kv s1) Hset) as (kv' & Ek & Hview).
  unfold Set_. rewrite Ek. cbn [snd]. rewrite Hview by (cbn; lia). unfold put. cbn [ae_kv kv_now].
  rewrite (proj2 (Z.ltb_lt _ _)); [by rewrite lookup_insert_eq|].
  unfold session_ttl, lifetime, effective_expiry. rewrite (proj2 (Z.leb_gt (c_SessionTTLSeconds config) 0)) by lia.
  rewrite wrap64_id by (unfold Second, int64_min, int64_max; lia). rewrite (proj2 (Z.leb_gt _ _)) by (unfold Second; lia).
  rewrite Z.quot_div_nonneg by (unfold Second; lia). unfold Second.
  replace (c_SessionTTLSeconds config * 1000000000) with (c_SessionTTLSeconds config * 1000000 * 1000) by lia. rewrite Z.div_mul by lia. lia.
Qed.

(** The row of a revoked session. *)
Definition revocable (target userID : string) (t : AuthTables) : option (string * Session) :=
  id ← uuid_in target; uid ← uuid_in userID; x ← sessions t !! id;
  if String.eqb (s_UserID x) uid then Some (id, x) else None.

(** Revoking a session takes away the named session of the caller and no
    other row, drops its cache entry, and answers 204; a session of another
    user, or none, is answered 404 without effect. *)
Theorem revoke_session_exact now target urlPath request s : UserID (AuthCtx request) ≠ "" → target ≠ "" → Contains target "/" = false →
  uuid_in target ≠ None →
  match revocable target (UserID (AuthCtx request)) (st_db s), run (handleRevokeSession config (auth_ok now) target urlPath request) s with
  | Some (id, x), (r, s') => r = MkAuthResponse 204 NoContent CookieUntouched
      ∧ st_db s' = with_sessions (delete id) (st_db s)
      ∧ (s_RefreshTokenHash x ≠ "" → ∀ t, kv_view t (st_kv s') = delete (session_key (s_RefreshTokenHash x)) (kv_view t (st_kv s)))
  | None, (r, s') => r = MkAuthResponse 404 (ErrorMessage "Session not found") CookieUntouched ∧ s' = s
  end.
Proof.
  intros Hu Ht Hslash Hid. unfold revocable, handleRevokeSession, authenticated.
  assert (target_session target urlPath = target) as -> by (unfold target_session; by rewrite (proj2 (String.eqb_neq target ""))).
  rewrite (proj2 (String.eqb_neq (UserID _) "")) by done. rewrite run_ret, (proj2 (String.eqb_neq target "")), Hslash by done.
  cbn [orb]. rewrite bool_decide_eq_false_2 by done.
  rewrite run_stmt by done.
  destruct (uuid_in target) as [id|]; [|done]. cbn [mbind option_bind].
  destruct (uuid_in (UserID _)) as [uid|]; [|done]. cbn [mbind option_bind].
  destruct (sessions (st_db s) !! id) as [x|]; [|done]. cbn [mbind option_bind].
  destruct (String.eqb (s_UserID x) uid); [|done]. set (s1 := set_db _ s).
  assert (Hrest : ∀ kv, let '(r, s') := run (hbind (λ _, let* user := fetchUserByID (auth_ok now) (UserID (AuthCtx request)) in
      publish target (SessionDeleted (MkSessionDeletedEventData user (Some target) None)) ;; respond 204 NoContent)
      (dispatchBackChannelSignOut config (auth_ok now) (match s_ClientID x with
         | Some clientID => if String.eqb clientID "" then [] else [MkClientSessionInfo clientID target (UserID (AuthCtx request))]
         | None => [] end))) (set_kv kv s1) in
    r = MkAuthResponse 204 NoContent CookieUntouched ∧ st_db s' = st_db s1 ∧ st_kv s' = kv).
  { intros kv. match goal with |- context [run (hbind ?k ?h) ?s0] => destruct (run_quiet h k s0 (quiet_dispatch _ _)) as (a & s2 & -> & D & K1) end.
    match goal with |- context [run (hbind ?k ?h) ?s0] => destruct (run_quiet h k s0 (quiet_fetch _ _)) as (u & s3 & -> & D' & K2) end. cbn. split; [done|]. by rewrite D', K2, D, K1. }
  destruct (String.eqb_spec (s_RefreshTokenHash x) "") as [Hh|Hh]; cbn [negb].
  - rewrite run_ret. specialize (Hrest (st_kv s1)). replace (set_kv (st_kv s1) s1) with s1 in Hrest by (by destruct s1).
    destruct (run _ s1) as [r s']. destruct Hrest as (-> & -> & ->). done.
  - unfold kv_Delete at 1. rewrite run_on_kv. cbn [fst snd].
    destruct (law_Delete (ae_kv (auth_ok now)) (session_key (s_RefreshTokenHash x)) (st_kv s1) eq_refl) as (kv & Ekv & Hview).
    unfold Delete. rewrite Ekv. cbn [snd]. specialize (Hrest kv). destruct (run _ (set_kv kv s1)) as [r s'].
    by destruct Hrest as (-> & -> & ->).
Qed.

Lemma sessions_where_in (P : Session → bool) t x : x ∈ sessions_where P t ↔ P x = true ∧ ∃ id, sessions t !! id = Some x.
Proof.
  unfold sessions_where. rewrite list_elem_of_In, filter_In, <- list_elem_of_In, list_elem_of_fmap. split.
  - intros [([id y] & -> & Hin) HP]. apply elem_of_map_to_list in Hin. eauto.
  - intros [HP [id Hid]]. split; [|done]. exists (id, x). split; [done|]. by apply elem_of_map_to_list.
Qed.

(** The cache entries of the hashes are gone. *)
Lemma forget_sessions_spec now hashes : ∀ s, ∃ s', forget_sessions (S := S) (auth_ok now) hashes s = (inr tt, s')
  ∧ st_db s' = st_db s ∧ (∀ t, kv_view t (st_kv s') ⊆ kv_view t (st_kv s))
  ∧ ∀ h t, h ∈ hashes → h ≠ "" → kv_view t (st_kv s') !! session_key h = None.
Proof.
  induction hashes as [|hash hashes IH]; intros s; cbn [forget_sessions].
  - exists s. split; [done|]. split; [done|]. split; [done|]. by intros h t ?%elem_of_nil.
  - assert (Hstep : ∃ s1, (if negb (String.eqb hash "") then kv_Delete (auth_ok now) (session_key hash) else ret tt) s = (inr tt, s1)
      ∧ st_db s1 = st_db s ∧ (∀ t, kv_view t (st_kv s1) ⊆ kv_view t (st_kv s))
      ∧ (hash ≠ "" → ∀ t, kv_view t (st_kv s1) !! session_key hash = None)).
    { destruct (String.eqb_spec hash "") as [->|Hne]; cbn [negb]; [by exists s|].
      unfold kv_Delete, on_kv, Delete. destruct (law_Delete (ae_kv (auth_ok now)) (session_key hash) (st_kv s) eq_refl) as (kv & -> & Hv).
      eexists. split; [reflexivity|]. split; [done|]. cbn. split; intros; rewrite Hv; [apply delete_subseteq|apply lookup_delete_eq]. }
    destruct Hstep as (s1 & E1 & D1 & Hsub & Hnone). destruct (IH s1) as (s2 & E2 & D2 & Hsub2 & Hnone2).
    exists s2. unfold hbind. rewrite E1, E2. split; [done|]. split; [congruence|]. split; [intros t; transitivity (kv_view t (st_kv s1)); [apply Hsub2|apply Hsub]|].
    intros h t [->|Hh]%elem_of_cons Hne; [|by apply Hnone2].
    specialize (Hnone Hne t). destruct (kv_view t (st_kv s2) !! session_key hash) eqn:Ev; [|done].
    eapply lookup_weaken in Ev; [|apply Hsub2]. congruence.
Qed.

(** Revoking the other sessions leaves a caller with exactly the session its
    token names, leaves the sessions of other users alone, drops the cache
    entries of those removed and answers how many there were. *)
Theorem revoke_others_exact now request s uid current : UserID (AuthCtx request) ≠ "" →
  uuid_in (UserID (AuthCtx request)) = Some uid → SessionID (JWT (AuthCtx request)) ≠ "" →
  uuid_in (SessionID (JWT (AuthCtx request))) = Some current →
  let '(r, s') := run (handleRevokeOtherSessions config (auth_ok now) request) s in
  r = MkAuthResponse 200 (RevokedResponse (Z.of_nat (List.length (sessions_where (other_session uid current) (st_db s))))) CookieUntouched
  ∧ (∀ id x, sessions (st_db s') !! id = Some x ↔
       sessions (st_db s) !! id = Some x ∧ (s_UserID x = uid → s_ID x = current))
  ∧ users (st_db s') = users (st_db s) ∧ otps (st_db s') = otps (st_db s)
  ∧ ∀ id x t, sessions (st_db s) !! id = Some x → s_UserID x = uid → s_ID x ≠ current → s_RefreshTokenHash x ≠ "" →
      kv_view t (st_kv s') !! session_key (s_RefreshTokenHash x) = None.
Proof.
  intros Hu Huid Hs Hcur. unfold handleRevokeOtherSessions, authenticated, current_session.
  rewrite (proj2 (String.eqb_neq (UserID _) "")) by done. rewrite run_ret. rewrite (proj2 (String.eqb_neq (SessionID _) "")) by done.
  rewrite bool_decide_eq_false_2 by (by rewrite Hcur). cbn [negb andb]. rewrite run_ret, (proj2 (String.eqb_neq (SessionID _) "")) by done.
  rewrite run_stmt by done. rewrite Huid, Hcur. cbn [mbind option_bind delete_sessions].
  set (rows := sessions_where (other_session uid current) (st_db s)). set (s1 := set_db _ s).
  match goal with |- context [run (hbind ?k (forget_sessions ?e ?l)) s1] =>
    destruct (forget_sessions_spec now l s1) as (s2 & E2 & D2 & _ & Hnone);
    assert (run (hbind k (forget_sessions e l)) s1 = run (k tt) s2) as -> by (unfold run, hbind; by rewrite E2) end.
  match goal with |- context [run (hbind ?k ?h) ?s0] => destruct (run_quiet h k s0 (quiet_dispatch _ _)) as (a & s3 & -> & D3 & K3) end.
  match goal with |- context [run (hbind ?k ?h) ?s0] => destruct (run_quiet h k s0 (quiet_fetch _ _)) as (u & s4 & -> & D4 & K4) end.
  cbn. rewrite D4, D3, D2, K4, K3. split; [done|]. split; [|split; [done|split; [done|]]].
  - intros id x. unfold s1, drop_sessions. cbn. rewrite map_lookup_filter_Some. cbn. unfold other_session.
    rewrite andb_false_iff, String.eqb_neq, negb_false_iff, String.eqb_eq. split; intros [? Hor]; (split; [done|]); [|];
      destruct (decide (s_UserID x = uid)); tauto.
  - intros id x t Hx Hux Hidx Hne. apply Hnone; [|done]. apply list_elem_of_fmap. exists x. split; [done|]. apply sessions_where_in.
    split; [|eauto]. unfold other_session. rewrite Hux, String.eqb_refl, (proj2 (String.eqb_neq (s_ID x) current)) by done. done.
Qed.
End revoking.

(** ** Preservation: a property of the tables that survives adding and
    dropping sessions survives every handler here *)

Section preservation.
Context `{FL : Floats} `{HL : HostLib} `{CR : Crypto} `{AH : !AuthHost} `{K : !Kernel} {S : Type} `{KD : KVDriver S}.
Context (config : AuthConfig) (env : AuthEnv) (Q : AuthTables → Prop).
Hypothesis Q_insert : ∀ id userID hash ip ua expires now t x t', Q t →
  insert_session id userID hash ip ua expires now t = Some (x, t') → Q t'.
Hypothesis Q_drop : ∀ P t, Q t → Q (drop_sessions P t).
Hypothesis Q_delete : ∀ id t, Q t → Q (with_sessions (delete id) t).

Lemma quiet_keeps {A} (h : Handler S A) : quiet h → keeps (of_db Q) h.
Proof. intros Hh s Hs. destruct (Hh s) as (a & s' & E & D & _). rewrite E. unfold of_db in *. cbn. by rewrite D. Qed.

Lemma keeps_claims userID : keeps (of_db Q) (resolveCustomClaims (S := S) env userID).
Proof. unfold resolveCustomClaims. keeps_walk. Qed.

Lemma keeps_issue request user m p : keeps (of_db Q) (issueSessionResponse (S := S) config env request user m p).
Proof.
  intros s Hs. destruct (issue_effect config env request user m p s) as (r & s' & row & E & _ & _ & Hdb & _). rewrite E. unfold of_db in *. cbn.
  destruct Hdb as [-> | Hins]; [done|]. by eapply Q_insert.
Qed.

Lemma keeps_dispatch targets : keeps (of_db Q) (dispatchBackChannelSignOut (S := S) config env targets).
Proof. apply quiet_keeps, quiet_dispatch. Qed.
Lemma keeps_fetch userID : keeps (of_db Q) (fetchUserByID (S := S) env userID).
Proof. apply quiet_keeps, quiet_fetch. Qed.
Lemma keeps_authenticated request : keeps (of_db Q) (authenticated (S := S) request).
Proof. unfold authenticated. keeps_walk. Qed.
Lemma keeps_forget hashes : keeps (of_db Q) (forget_sessions (S := S) env hashes).
Proof. induction hashes as [|h l IH]; cbn [forget_sessions]; keeps_walk. unfold kv_Delete. keeps_walk. Qed.

Hint Resolve keeps_claims keeps_issue keeps_dispatch keeps_fetch keeps_authenticated keeps_forget : auth.

Lemma keeps_list_sessions request : keeps (of_db Q) (handleListSessions (S := S) env request).
Proof. unfold handleListSessions, unavailable. keeps_walk. Qed.

Lemma keeps_revoke_session pathValue urlPath request : keeps (of_db Q) (handleRevokeSession (S := S) config env pathValue urlPath request).
Proof.
  unfold handleRevokeSession, kv_Delete. keeps_walk. apply keeps_stmt. intros t x t' Ht E.
  apply bind_Some in E as (i & _ & (u & _ & (y & _ & E)%bind_Some)%bind_Some). destruct (String.eqb _ _); [|done]. injection E as <- <-. auto.
Qed.

Lemma keeps_revoke_others request : keeps (of_db Q) (handleRevokeOtherSessions (S := S) config env request).
Proof.
  unfold handleRevokeOtherSessions, current_session, unavailable. keeps_walk. apply keeps_stmt. intros t x t' Ht E.
  apply bind_Some in E as (i & _ & (u & _ & [= <- <-])%bind_Some). auto.
Qed.

Lemma keeps_refresh body request : keeps (of_db Q) (handleRefreshToken (S := S) config env body request).
Proof.
  unfold handleRefreshToken, cached_session, kv_Get, refresh_cached, refresh_stored, kv_Delete, select_user, delete_session_id.
  keeps_walk; apply keeps_exec; auto.
Qed.

Lemma keeps_sign_out body request : keeps (of_db Q) (handleSignOut (S := S) config env body request).
Proof.
  unfold handleSignOut, kv_Delete. keeps_walk. apply keeps_stmt. intros t x t' Ht E.
  apply bind_Some in E as (y & _ & [= <- <-]). auto.
Qed.

Lemma keeps_list_user_sessions allowed userID : keeps (of_db Q) (handleListUserSessions (S := S) env allowed userID).
Proof. unfold handleListUserSessions. keeps_walk. Qed.

Lemma keeps_revoke_user_sessions allowed userID : keeps (of_db Q) (handleRevokeUserSessions (S := S) config env allowed userID).
Proof.
  unfold handleRevokeUserSessions. keeps_walk. apply keeps_stmt. intros t x t' Ht E.
  apply bind_Some in E as (y & _ & [= <- <-]). auto.
Qed.
End preservation.

(** ** Concrete instances, for the examples *)

Local Existing Instance integer_floats.

Definition sample_auth_host : AuthHost := {|
  new_uuid n := "id" ++ decimal (Z.of_nat n);
  uuid_in s := if String.eqb s "" then None else Some s;
  inet_in s := Some s;
  inet_host s := s;
  rand_number n := Some (Z.of_nat n);
  rand_bytes n := Some "0123456789abcdef";
  marshal_session c := u_ID (cs_User c);
  unmarshal_session s := Some (MkCachedSession (zero_user s) []);
  auth_claims_procedure := None;
  auth_claims _ := None;
  unmarshal_claims_map _ := None;
  captcha_post _ _ := HTTPFailed;
  pwned_range _ := HTTPFailed;
  sha1_Sum s := s;
  ilike text pattern := Contains pattern text;
|}.

Definition sample_kernel : Kernel := {|
  k_json_float := decimal; k_seed := "seed"; k_keyID := ""; k_handle := "acme"; k_baseURL := "https://acme"; k_encryptionKey := "key";
  k_trustProxy := false; k_projectName := "Acme Corp" |}.

(** A client with a secret and a public one. *)
Definition sample_crm : OIDCClient :=
  MkOIDCClient "CRM" "crm" "enc:v1:aes256gcm:MDEyMzQ1Njc4OWFi:cGxhaW4:MDEyMzQ1Njc4OWFiY2RlZg" ["https://crm/cb"] ["https://crm/bye"] false [] "https://crm/logout" false "https://crm/front" true.
Definition sample_spa : OIDCClient := MkOIDCClient "SPA" "spa" "" ["https://spa/cb"] [] true [] "" false "" false.
Definition sample_oidc : OIDCConfig :=
  MkOIDCConfig true [sample_crm; sample_spa] [MkResourceServerConfig "Billing" "https://billing" "" ["invoices:read"]]
    (MkOIDCUIConfig "" "" "" "" true true true true true true).

Definition sample_auth_config (fastPath : bool) : AuthConfig := {|
  c_PasswordEnabled := true; c_PasswordMinLength := 8; c_BreachCheckEnabled := false; c_BreachCheckFailOpen := true;
  c_EmailOTPEnabled := true; c_EmailOTPExpiryMinutes := 15; c_SMSOTPEnabled := true; c_SMSOTPExpiryMinutes := 15;
  c_MFAEnabled := true; c_MFAPolicy := "always"; c_MFARiskTriggers := []; c_MFAIssuer := "acme";
  c_AnonymousEnabled := true; c_AccessTokenExpirySeconds := 900; c_RefreshTokenExpirySeconds := 2592000;
  c_OIDC := sample_oidc; c_OAuthProviders := []; c_PasskeysEnabled := true; c_RelyingPartyID := "acme.com"; c_RelyingPartyName := "Acme";
  c_RateLimitingEnabled := true; c_MaxSignInAttempts := 5; c_WindowDurationSeconds := 900;
  c_FastPathSessionsEnabled := fastPath; c_SessionTTLSeconds := 900;
  c_BotProtectionEnabled := false; c_BotProvider := ""; c_BotSecretKey := ""; c_BotMode := "always";
  c_AdaptiveFailedAttempts := 5; c_NotifyOnNewDevice := true; c_KnownDevicesMaxDays := 30;
  c_EmailReady := true; c_SMSReady := true |}.

Local Existing Instance sample_auth_host.
Local Existing Instance sample_kernel.
Local Existing Instance sample_host.
Local Existing Instance sample_pg.
Definition sample_signatures : Crypto := sample_crypto (λ _, true).
Local Existing Instance sample_signatures.

Definition alice : User :=
  MkUser "alice" (Some "alice@acme.com") None (Some "") None false "authenticated" false None None None (AMap []) 0 0.
Definition alice_session (id hash : string) : Session := MkSession id "alice" (Some "crm") hash None None (unix_time 9000) 0.

(** Two sessions of one user; [cached] is what the store holds. *)
Definition sample_auth_state (cached : KVTable) : AuthState KVTable :=
  MkAuthState (MkAuthTables {["alice" := alice]}
    {["s1" := alice_session "s1" (HashRefreshToken "t1"); "s2" := alice_session "s2" (HashRefreshToken "t2")]} ∅ ∅ ∅) cached [] [] 7 ∅.

Definition caller (userID sessionID : string) : Request :=
  MkRequest (λ _, "") (λ _, None) "10.0.0.1"
    (MkAuthContext userID "" (MkJWTClaims userID sessionID "" "" "authenticated" false "" "") "").

Lemma sample_sessions_keyed id x : sessions (st_db (sample_auth_state ∅)) !! id = Some x → s_ID x = id.
Proof. cbn [sample_auth_state st_db sessions]. rewrite lookup_insert_Some, lookup_singleton_Some. intros [[<- <-]|[_ [<- <-]]]; done. Qed.

Lemma sample_hash_inj a b : HashRefreshToken a = HashRefreshToken b → a = b.
Proof. by intros E%hex_inj. Qed.

Lemma sample_hashes_unique token id1 id2 x1 x2 : sessions (st_db (sample_auth_state ∅)) !! id1 = Some x1 →
  sessions (st_db (sample_auth_state ∅)) !! id2 = Some x2 → s_RefreshTokenHash x1 = HashRefreshToken token →
  s_RefreshTokenHash x2 = HashRefreshToken token → id1 = id2.
Proof.
  cbn [sample_auth_state st_db sessions]. rewrite !lookup_insert_Some, !lookup_singleton_Some.
  intros [[<- <-]|[_ [<- <-]]] [[<- <-]|[_ [<- <-]]] H1%sample_hash_inj H2%sample_hash_inj; congruence.
Qed.

Lemma refresh_token_single_use_witness :
  let '(r, s') := run (handleRefreshToken (sample_auth_config false) (auth_ok (unix_time 100)) (Input "t1") (caller "" "")) (sample_auth_state ∅) in
  r_Status r = 200 ∧ run (handleRefreshToken (sample_auth_config false) (auth_ok (unix_time 200)) (Input "t1") (caller "" "")) s' = (refused, s').
Proof.
  assert (Hs : r_Status (run (handleRefreshToken (sample_auth_config false) (auth_ok (unix_time 100)) (Input "t1") (caller "" ""))
    (sample_auth_state ∅)).1 = 200) by reflexivity.
  pose proof (refresh_token_single_use (KL := DatabaseKVStore_laws) (sample_auth_config false) (unix_time 100) "t1" (caller "" "") (sample_auth_state ∅)) as Hw.
  destruct (run _ _) as [r s']. split; [exact Hs|]. apply Hw; clear Hw; [done|apply sample_sessions_keyed|apply sample_hashes_unique| |exact Hs| |done].
  - intros n _ E%sample_hash_inj. unfold new_token, GenerateRefreshToken in E. cbn in E. discriminate.
  - unfold unix_time, Second. cbn. lia.
Defined.

Lemma signed_out_token_refused_witness :
  let '(r, s') := run (handleSignOut (sample_auth_config true) (auth_ok (unix_time 100)) (Input "t1") (caller "" "")) (sample_auth_state ∅) in
  r_Status r = 204
  ∧ run (handleRefreshToken (sample_auth_config true) (auth_ok (unix_time 200)) (Input "t1") (caller "" "")) s' = (refused, s').
Proof.
  pose proof (signed_out_token_refused (KL := DatabaseKVStore_laws) (sample_auth_config true) (unix_time 100) "t1" (caller "" "") (sample_auth_state ∅)) as Hw.
  destruct (run _ _) as [r s']. destruct Hw as [-> Hw]; [done|]. split; [done|]. apply Hw; [|done]. unfold unix_time, Second. cbn. lia.
Defined.

Lemma revoke_session_exact_witness :
  let '(r, s') := run (handleRevokeSession (sample_auth_config false) (auth_ok (unix_time 100)) "s1" "" (caller "alice" "s2")) (sample_auth_state ∅) in
  r_Status r = 204 ∧ sessions (st_db s') !! "s1" = None ∧ sessions (st_db s') !! "s2" = Some (alice_session "s2" (HashRefreshToken "t2")).
Proof.
  pose proof (revoke_session_exact (KL := DatabaseKVStore_laws) (sample_auth_config false) (unix_time 100) "s1" "" (caller "alice" "s2") (sample_auth_state ∅)) as Hw.
  specialize (Hw ltac:(done) ltac:(done) eq_refl ltac:(done)).
  assert (Hx : revocable "s1" "alice" (st_db (sample_auth_state ∅)) = Some ("s1", alice_session "s1" (HashRefreshToken "t1"))) by reflexivity.
  change (UserID (AuthCtx (caller "alice" "s2"))) with "alice" in Hw. rewrite Hx in Hw.
  destruct (run _ _) as [r s']. destruct Hw as (-> & -> & _). split; [done|]. split; reflexivity.
Defined.

Lemma revoke_others_exact_witness :
  let '(r, s') := run (handleRevokeOtherSessions (sample_auth_config false) (auth_ok (unix_time 100)) (caller "alice" "s2")) (sample_auth_state ∅) in
  r_Body r = RevokedResponse 1 ∧ sessions (st_db s') !! "s1" = None.
Proof.
  pose proof (revoke_others_exact (KL := DatabaseKVStore_laws) (sample_auth_config false) (unix_time 100) (caller "alice" "s2") (sample_auth_state ∅)
    "alice" "s2") as Hw.
  destruct (run _ _) as [r s']. destruct Hw as (-> & Hsessions & _); try done. split; [reflexivity|].
  apply eq_None_not_Some. intros [x Hx]. apply Hsessions in Hx as [Hx Hcur].
  injection Hx as <-. by specialize (Hcur eq_refl).
Defined.
