(* ===== verification/AuthThreat.v ===== *)
(** * auth/base_handler_threat.go, auth/threat/captcha.go and breach.go

    The checks before a sign-in or a new password (captcha, breached
    passwords), and [completeSignInFlow]: risk, notices, the second factor,
    and the session.  The queries on auth.sessions that [SignInRisk] takes as
    a parameter are those of the tables here. *)

From stdpp Require Import strings gmap.
From Stdlib Require Import ZArith Lia Ascii String.
From S2P Require Import Prelude GoStrings GoTime GoRunes GoValues Scopes ServiceAccounts KVStore SignInRisk DataCache Tokens AuthCodes AuthModel AuthMonad AuthSessions.
Local Open Scope string_scope.
Local Open Scope Z_scope.
Local Open Scope auth_scope.

(** ** threat/breach.go *)

(** [strings.EqualFold] with a text of hexadecimal digits. *)
Fixpoint fold_text (s : string) : string :=
  match s with EmptyString => "" | String c s => String (lower_ascii c) (fold_text s) end.
Definition EqualFold_hex (s hex : string) : bool := String.eqb (fold_text s) (fold_text hex).

(** The lines of a range response: breached or not, and the count. *)
Fixpoint search_lines (lines : list string) (suffix : string) : bool * Z :=
  match lines with
  | [] => (false, 0)
  | rawLine :: lines =>
      match SplitN2 (TrimSpace rawLine) ":" with
      | [token; count] => if EqualFold_hex token suffix then (true, default 1 (Atoi count)) else search_lines lines suffix
      | _ => search_lines lines suffix
      end
  end.
Definition searchSuffix (content suffix : string) : bool * Z := search_lines (Split content (byte 10)) suffix.

Definition defaultCacheTTL : Z := 24 * 3600 * Second.
Definition pwnedHashPrefixLength : nat := 5.

Section threat.
Context `{FL : Floats} `{HL : HostLib} `{CR : Crypto} `{AC : AuthCrypto} `{CT : CaseTables} `{AH : !AuthHost} `{K : !Kernel}
  {S : Type} `{KD : KVDriver S}.
Context (config : AuthConfig) (env : AuthEnv).
Let now := ae_now env.

(** [None] is an error; without [failOpen] every failure of the API is one. *)
Definition CheckPwnedPassword (password : string) (failOpen : bool) : Handler S (option (bool * Z)) :=
  if String.eqb password "" then ret (Some (false, 0)) else
  let sha1Hex := strings_ToUpper (hex_EncodeToString (sha1_Sum password)) in
  let '(prefix, suffix) := split_at pwnedHashPrefixLength sha1Hex in
  let cacheKey := "auth:threat:pwned:" ++ prefix in
  let* cached := kv_Get env cacheKey in
  let content := match cached with Ok content => content | Err _ => "" end in
  if negb (String.eqb content "") then ret (Some (searchSuffix content suffix)) else
  let failed := if failOpen then Some (false, 0) else None in
  match pwned_range prefix with
  | HTTPFailed => ret failed
  | HTTPResponse status body =>
      if negb (status =? 200) then ret failed else
      match body with
      | None => ret failed
      | Some responseString =>
          kv_Set env cacheKey responseString defaultCacheTTL ;;
          ret (Some (searchSuffix responseString suffix))
      end
  end.

(** ** threat/captcha.go *)

(** The endpoint of a provider. *)
Definition captcha_url (provider : string) : option string :=
  let provider := strings_ToLower (TrimSpace provider) in
  if String.eqb provider "" || String.eqb provider "turnstile" || String.eqb provider "cloudflare"
  then Some "https://challenges.cloudflare.com/turnstile/v0/siteverify"
  else if String.eqb provider "recaptcha" || String.eqb provider "google"
  then Some "https://www.google.com/recaptcha/api/siteverify"
  else if String.eqb provider "hcaptcha" then Some "https://hcaptcha.com/siteverify"
  else None.

(** [verifyFormPost]: [None] is an error. *)
Definition verifyFormPost (url secretKey token remoteIP : string) : option bool :=
  match captcha_post url ([("secret", secretKey); ("response", token)]
          ++ (if String.eqb remoteIP "" then [] else [("remoteip", remoteIP)]))%list with
  | HTTPFailed => None
  | HTTPResponse status body => if negb (status =? 200) then None else body
  end.

Definition captcha_Verify (url secretKey token remoteIP : string) : option bool :=
  if String.eqb (TrimSpace token) "" then Some false else verifyFormPost url secretKey token remoteIP.

(** ** base_handler_threat.go *)

Definition DecryptSecret (encrypted : string) : option string :=
  if String.eqb encrypted "" then Some "" else
  match DecryptField k_encryptionKey encrypted with Ok plaintext => Some plaintext | Err _ => None end.

Definition requires_challenge (clientIP : string) : Handler S bool :=
  if String.eqb (c_BotMode config) "always" then ret true else
  read_kv (λ kv, c_AdaptiveFailedAttempts config <=? GetFailedAttempts (ae_kv env) clientIP (Some kv)).

Definition challenge_failed {A} (clientIP endpoint message : string) : Handler S A :=
  publish clientIP (BotChallengeFailed clientIP (c_BotProvider config) endpoint) ;; reject 400 message.

(** Goes on when the caller may, else the error is written. *)
Definition checkCaptcha (clientIP token endpoint : string) : Handler S unit :=
  if negb (c_BotProtectionEnabled config) then ret tt else
  let* required := requires_challenge clientIP in
  if negb required then ret tt else
  let trimmedToken := TrimSpace token in
  if String.eqb trimmedToken "" then challenge_failed clientIP endpoint "CAPTCHA verification required" else
  let secretKey := default "" (DecryptSecret (c_BotSecretKey config)) in
  if String.eqb secretKey "" then unavailable else
  match captcha_url (c_BotProvider config) with
  | None => unavailable
  | Some url =>
      if bool_decide (captcha_Verify url secretKey trimmedToken clientIP = Some true) then ret tt
      else challenge_failed clientIP endpoint "CAPTCHA verification failed"
  end.

Definition checkPasswordBreach (prospectivePassword email : string) : Handler S unit :=
  if negb (c_BreachCheckEnabled config) then ret tt else
  let* r := CheckPwnedPassword prospectivePassword (c_BreachCheckFailOpen config) in
  match r with
  | None => reject 503 "Service temporarily unavailable"
  | Some (true, breachCount) =>
      publish email (PasswordBreachBlocked email breachCount) ;;
      reject 400 "This password has appeared in a known data breach. Please choose a different, more secure password."
  | Some (false, _) => ret tt
  end.

Definition record_failure (identifier : string) : Handler S unit :=
  on_kv (λ kv, (tt, default kv (RecordFailedAttempt (ae_kv env) identifier 0 (Some kv)).2)).
Definition reset_failures (identifier : string) : Handler S unit :=
  on_kv (λ kv, (tt, default kv (ResetFailedAttempts (ae_kv env) identifier (Some kv)).2)).

Definition day : Z := 24 * 3600 * Second.

(** The query of [EvaluateSignInRisk] on auth.sessions. *)
Definition session_history (t : AuthTables) (cleanUA cleanIP userID : string) (windowDays : Z) : option (Z * Z * Z) :=
  if ae_fails env StRisk then None else
  id ← uuid_in userID;
  let rows := sessions_where (λ s, String.eqb (s_UserID s) id && (now - windowDays * day <=? s_CreatedAt s)) t in
  let count (P : Session → bool) := Z.of_nat (List.length (List.filter P rows)) in
  Some (count (λ _, true), count (λ s, opt_eqb (s_UserAgent s) cleanUA),
        count (λ s, opt_eqb (inet_host <$> s_IPAddress s) cleanIP)).

Definition sign_in_risk (userID clientIP userAgent : string) : Handler S RiskAssessment :=
  λ s, (inr (EvaluateSignInRisk (ae_kv env) (Some (session_history (st_db s))) (Some (st_kv s)) userID clientIP userAgent
               (c_KnownDevicesMaxDays config)), s).

(** Whether the second factor is asked for. *)
Definition triggers_mfa (user : User) (a : RiskAssessment) : bool :=
  u_MFAEnabled user && c_MFAEnabled config &&
  (String.eqb (c_MFAPolicy config) "always" || String.eqb (c_MFAPolicy config) ""
   || (String.eqb (c_MFAPolicy config) "adaptive"
       && (String.eqb (Level a) RiskLevelMedium || String.eqb (Level a) RiskLevelHigh
           || existsb (λ trigger, existsb (String.eqb trigger) (Reasons a)) (c_MFARiskTriggers config)))).

Definition mfaTicketTTL : Z := 5 * Minute.
Definition ticket_key (ticket : string) : string := "auth:mfa_ticket:" ++ ticket.

Definition warn_new_device (user : User) (clientIP userAgent : string) (a : RiskAssessment) : Handler S unit :=
  if IsNewDevice a && c_NotifyOnNewDevice config then
    when negb (String.eqb (default "" (u_Email user)) "")
    then send (EmailSuspiciousActivity (default "" (u_Email user)) (u_ID user) clientIP userAgent) ;;
    publish (u_ID user) (SuspiciousSignIn (MkSuspiciousSignInEventData user clientIP userAgent (Score a) (Level a) (Reasons a)))
  else ret tt.

Definition completeSignInFlow (request : Request) (user : User) (authMethod provider : string) : Handler S AuthResponse :=
  let clientIP := client_ip request in
  let userAgent := user_agent request in
  reset_failures clientIP ;;
  reset_failures (u_ID user) ;;
  let* riskAssessment := sign_in_risk (u_ID user) clientIP userAgent in
  warn_new_device user clientIP userAgent riskAssessment ;;
  if triggers_mfa user riskAssessment then
    let* n := draw in
    let mfaTicket := "mfa_tk_" ++ new_uuid n in
    kv_Set env (ticket_key mfaTicket) (u_ID user) mfaTicketTTL ;;
    respond 200 (MFARequired mfaTicket)
  else issueSessionResponse config env request user authMethod provider.
End threat.

(** ** The checks let the tables be *)

Section threat_gates.
Context `{FL : Floats} `{HL : HostLib} `{CR : Crypto} `{AC : AuthCrypto} `{CT : CaseTables} `{AH : !AuthHost} `{K : !Kernel}
  {S : Type} `{KD : KVDriver S}.
Context (config : AuthConfig) (env : AuthEnv).

Lemma gate_checkCaptcha clientIP token endpoint : gate (checkCaptcha (S := S) config env clientIP token endpoint).
Proof. unfold checkCaptcha, requires_challenge, challenge_failed, unavailable. gate_walk. Qed.

Lemma gate_checkPasswordBreach p email : gate (checkPasswordBreach (S := S) config env p email).
Proof.
  unfold checkPasswordBreach, CheckPwnedPassword, kv_Get, kv_Set. gate_walk. all: try (destruct (split_at _ _)); gate_walk.
Qed.

Lemma gate_record_failure identifier : gate (record_failure (S := S) env identifier). Proof. apply gate_on_kv. Qed.
Lemma gate_reset_failures identifier : gate (reset_failures (S := S) env identifier). Proof. apply gate_on_kv. Qed.
Lemma gate_kv_Delete key : gate (kv_Delete (S := S) env key). Proof. apply gate_on_kv. Qed.
Lemma gate_kv_Set key value expiry : gate (kv_Set (S := S) env key value expiry). Proof. apply gate_on_kv. Qed.

Lemma quiet_sign_in_risk userID clientIP userAgent : quiet (sign_in_risk (S := S) config env userID clientIP userAgent).
Proof. intros s. by eexists _, _. Qed.

(** Completing a sign-in answers 200: with a ticket, the tables as they were,
    or with tokens for the user; always with a ticket when the policy is to
    ask every account that has a second factor. *)
Lemma complete_flow request user m p s :
  let '(r, s') := run (completeSignInFlow config env request user m p) s in
  r_Status r = 200
  ∧ ((u_MFAEnabled user = true ∧ (∃ ticket, r_Body r = MFARequired ticket) ∧ st_db s' = st_db s)
     ∨ (∃ t, r_Body r = TokenResponse t ∧ at_User t = user))
  ∧ (u_MFAEnabled user = true → c_MFAEnabled config = true → c_MFAPolicy config = "always" ∨ c_MFAPolicy config = "" →
     ∃ ticket, r_Body r = MFARequired ticket).
Proof.
  unfold completeSignInFlow, reset_failures. rewrite !run_on_kv. set (s1 := set_kv _ _).
  match goal with |- context [run (hbind ?k ?h) s1] => destruct (run_quiet h k s1 (quiet_sign_in_risk _ _ _)) as (a & s0 & -> & D0 & _) end.
  assert (Hw : quiet (warn_new_device (S := S) config user (client_ip request) (user_agent request) a)).
  { unfold warn_new_device. destruct (_ && _); [|apply quiet_ret]. apply quiet_bind; [|intros; apply quiet_publish].
    destruct (negb _); [apply quiet_send|apply quiet_ret]. }
  match goal with |- context [run (hbind ?k ?h) s0] => destruct (run_quiet h k s0 Hw) as (w & s2 & -> & D & _) end.
  destruct (triggers_mfa config user a) eqn:Et.
  - cbn. split; [done|]. unfold triggers_mfa in Et. apply andb_true_iff in Et as [[Hm _]%andb_true_iff _]. split; [left|].
    + split; [done|]. split; [by eexists|]. by rewrite D, D0.
    + intros _ _ _. by eexists.
  - destruct (issue_effect config env request user m p s2) as (t & s3 & row & Ei & Hu & _). unfold run. rewrite Ei. cbn.
    split; [done|]. split; [right; by exists t|]. intros Hm Hc Hp. exfalso. unfold triggers_mfa in Et. rewrite Hm, Hc in Et.
    by destruct Hp as [Hp|Hp]; rewrite Hp in Et.
Qed.
End threat_gates.
#[export] Hint Resolve gate_checkCaptcha gate_checkPasswordBreach gate_record_failure gate_reset_failures gate_kv_Delete gate_kv_Set : auth.
