(* ===== verification/AuthPassword.v ===== *)
(** * auth/base_handler_password.go: passwords

    Sign-up, sign-in, reset by a code, and change of a password.  What the
    theorems show: a sign-in goes on only with the password of an account
    that is not locked, and a reset code allows five guesses at the confirmation
    of a reset. *)

From stdpp Require Import strings gmap.
From Stdlib Require Import ZArith Lia Ascii String.
From S2P Require Import Prelude GoStrings GoTime GoRunes GoValues Scopes ServiceAccounts KVStore SignInRisk DataCache Tokens AuthCodes AuthModel AuthMonad AuthSessions AuthThreat.
Local Open Scope string_scope.
Local Open Scope Z_scope.
Local Open Scope auth_scope.

Definition maxPasswordResetAttempts : Z := 5.
Definition ipPasswordResetLimit : Z := 10.
Definition passwordResetCooldownTTL : Z := 60 * Second.
Definition Hour : Z := 3600 * Second.

Section password.
Context `{FL : Floats} `{HL : HostLib} `{CR : Crypto} `{AC : AuthCrypto} `{CT : CaseTables} `{UT : UnicodeTables}
  `{AH : !AuthHost} `{K : !Kernel} {S : Type} `{KD : KVDriver S}.
Context (config : AuthConfig) (env : AuthEnv).
Let now := ae_now env.

Record SignUpInput := MkSignUpInput {
  su_Email : string; su_Phone : string; su_Password : string; su_CaptchaToken : string; su_Properties : list (string * any) }.
Record SignInInput := MkSignInInput { si_Email : string; si_Phone : string; si_Password : string; si_CaptchaToken : string }.
Record RequestPasswordResetInput := MkRequestPasswordResetInput { rr_Email : string; rr_Phone : string; rr_CaptchaToken : string }.
Record ConfirmPasswordResetInput := MkConfirmPasswordResetInput {
  cr_Email : string; cr_Phone : string; cr_Code : string; cr_Password : string }.
Record UpdateUserPasswordInput := MkUpdateUserPasswordInput { up_CurrentPassword : string; up_NewPassword : string }.

Definition invalid_phone {A} : Handler S A :=
  reject 400 "Invalid phone number format: must be in E.164 format with country code".
(** [json.NewDecoder(request.Body).Decode]: a body that is missing is no JSON. *)
Definition decoded {A} (body : Decoded A) : Handler S A :=
  match body with Input input => ret input | _ => reject 400 "Invalid JSON body" end.

Definition normal_email (email : string) : string := TrimSpace (strings_ToLower email).
(** A number that must be given in a form that can be normalised. *)
Definition normal_phone (phone : string) : Handler S string :=
  match NormalizePhone phone with Some phone => ret phone | None => invalid_phone end.

Definition long_enough (password : string) : Handler S unit :=
  if Z.of_nat (String.length password) <? c_PasswordMinLength config
  then reject 400 ("Password must be at least " ++ decimal (c_PasswordMinLength config) ++ " characters") else ret tt.

(** The hash, empty when there was no salt. *)
Definition hash_password (password : string) : Handler S string :=
  let* n := draw in
  ret (match HashPassword (rand_bytes n) password with Ok h => h | Err _ => "" end).

(** [INSERT INTO auth.users]. *)
Definition insert_user (u : User) : Handler S (option User) :=
  let* row := stmt env StInsertUser (put_user u) in ret (scanned <$> row).

Definition new_user (id : string) (email phone passwordHash : option string) (isAnonymous : bool) (emailVerified phoneVerified : option Z)
    (properties : list (string * any)) : User :=
  MkUser id email phone passwordHash None false "authenticated" isAnonymous emailVerified phoneVerified None (AMap properties) now now.

(** [UPDATE auth.users ... WHERE id = $n RETURNING ...]. *)
Definition update_user (f : User → User) (id : string) : Handler S (option User) :=
  let* row := stmt env StUpdateUser (update_user_row f id) in ret (scanned <$> row).

Definition touched (u : User) : User :=
  MkUser (u_ID u) (u_Email u) (u_Phone u) (u_PasswordHash u) (u_EncryptedMFASecret u) (u_MFAEnabled u) (u_Role u) (u_IsAnonymous u)
    (u_EmailVerifiedAt u) (u_PhoneVerifiedAt u) (u_LockedUntil u) (u_Properties u) (u_CreatedAt u) now.

Definition with_password (passHash : string) (u : User) : User :=
  touched (MkUser (u_ID u) (u_Email u) (u_Phone u) (Some passHash) (u_EncryptedMFASecret u) (u_MFAEnabled u) (u_Role u)
    (u_IsAnonymous u) (u_EmailVerifiedAt u) (u_PhoneVerifiedAt u) (u_LockedUntil u) (u_Properties u) (u_CreatedAt u) (u_LastUpdatedAt u)).

(** The account an anonymous user becomes. *)
Definition converted (email phone : option string) (passHash : string) (properties : list (string * any)) (u : User) : User :=
  touched (MkUser (u_ID u) email phone (Some passHash) (u_EncryptedMFASecret u) (u_MFAEnabled u) (u_Role u) false
    (u_EmailVerifiedAt u) (u_PhoneVerifiedAt u) (u_LockedUntil u) (jsonb_concat (u_Properties u) (AMap properties)) (u_CreatedAt u)
    (u_LastUpdatedAt u)).

(** An account that has one of the values. *)
Definition conflicting (email phone : option string) (u : User) : bool :=
  match email with Some e => opt_eqb (u_Email u) e | None => false end
  || match phone with Some p => opt_eqb (u_Phone u) p | None => false end.

Definition sign_up_anonymous (request : Request) (anonymous : User) (email phone : option string) (passHash : string)
    (properties : list (string * any)) : Handler S AuthResponse :=
  let* existing := query env StConflict (λ t, first_row (conflicting email phone) (users t)) in
  if match existing with Some u => negb (String.eqb (u_ID u) (u_ID anonymous)) | None => false end then
    reject 409 (match email with Some _ => "Email is already in use by another account"
                | None => "Phone number is already in use by another account" end)
  else
    let* row := update_user (converted email phone passHash properties) (u_ID anonymous) in
    match row with
    | None => unavailable
    | Some user => publish (u_ID user) (UserConverted user) ;; issueSessionResponse config env request user "password" ""
    end.

Definition handleSignUp (body : Decoded SignUpInput) (request : Request) : Handler S AuthResponse :=
  if negb (c_PasswordEnabled config) then reject 403 "Access denied" else
  let* input := decoded body in
  let email := normal_email (su_Email input) in
  let* phone := if String.eqb (TrimSpace (su_Phone input)) "" then ret "" else normal_phone (TrimSpace (su_Phone input)) in
  if String.eqb email "" && String.eqb phone "" then reject 400 "Email or phone number is required" else
  long_enough (su_Password input) ;;
  checkCaptcha config env (client_ip request) (su_CaptchaToken input) "/v1/auth/sign-up" ;;
  checkPasswordBreach config env (su_Password input) email ;;
  let* passHash := hash_password (su_Password input) in
  let* anonymousUser := resolveAnonymousCaller env request in
  match anonymousUser with
  | Some anonymous => sign_up_anonymous request anonymous (nilIfEmpty email) (nilIfEmpty phone) passHash (su_Properties input)
  | None =>
      let* n := draw in
      let* row := insert_user (new_user (new_uuid n) (nilIfEmpty email) (nilIfEmpty phone) (Some passHash) false None None (su_Properties input)) in
      match row with
      | None => unavailable
      | Some user => publish (u_ID user) (UserSignedUp user) ;; issueSessionResponse config env request user "password" ""
      end
  end.

(** ** Sign-in *)

Definition sign_in_rate_key (identifier : string) : string := "auth:ratelimit:sign_in:" ++ identifier.

Definition check_sign_in_rate (identifier clientIP : string) (request : Request) : Handler S unit :=
  if c_RateLimitingEnabled config && negb (String.eqb identifier "") then
    let* r := on_kv (Increment (ae_kv env) (sign_in_rate_key identifier) (wrap64 (c_WindowDurationSeconds config * Second))) in
    match r with
    | Ok count =>
        if c_MaxSignInAttempts config <? count then
          publish identifier (RateLimitExceeded (MkRateLimitExceededEventData identifier "/v1/auth/sign-in" count clientIP (user_agent request))) ;;
          reject 429 "Too many login attempts. Please try again later."
        else ret tt
    | Err _ => ret tt
    end
  else ret tt.

Definition sign_in_failed (identifier resource reason clientIP : string) (user : option User) (request : Request) : Handler S unit :=
  record_failure env clientIP ;;
  when match user with Some _ => true | None => false end then record_failure env resource ;;
  publish resource (UserSignInFailed (MkUserSignInFailedEventData identifier "password" reason clientIP (user_agent request) user)).

(** The properties are read only once the password is verified. *)
Definition without_properties (u : User) : User :=
  MkUser (u_ID u) (u_Email u) (u_Phone u) (u_PasswordHash u) (u_EncryptedMFASecret u) (u_MFAEnabled u) (u_Role u) (u_IsAnonymous u)
    (u_EmailVerifiedAt u) (u_PhoneVerifiedAt u) (u_LockedUntil u) ANil (u_CreatedAt u) (u_LastUpdatedAt u).

(** The account of an identifier; a null password hash cannot be scanned. *)
Definition select_credentials (identifier : string) : Handler S (option (User * string)) :=
  query env StSelectIdentifier (λ t, u ← first_row (has_recipient identifier) (users t); h ← u_PasswordHash u; Some (scanned u, h)).

(** The email, else the normal form of the phone number. *)
Definition identifier_of (input : SignInInput) : option string :=
  let email := normal_email (si_Email input) in
  if String.eqb email "" && negb (String.eqb (si_Phone input) "") then NormalizePhone (si_Phone input) else Some email.

Definition sign_in_identifier (input : SignInInput) : Handler S string :=
  match identifier_of input with Some identifier => ret identifier | None => invalid_phone end.

Definition handleSignIn (body : Decoded SignInInput) (request : Request) : Handler S AuthResponse :=
  let* input := decoded body in
  let* identifier := sign_in_identifier input in
  if String.eqb identifier "" || String.eqb (si_Password input) "" then reject 401 "Invalid credentials" else
  let clientIP := client_ip request in
  checkCaptcha config env clientIP (si_CaptchaToken input) "/v1/auth/sign-in" ;;
  check_sign_in_rate identifier clientIP request ;;
  let* account := select_credentials identifier in
  match account with
  | None =>
      sign_in_failed identifier identifier "user_not_found" clientIP None request ;; reject 401 "Invalid credentials"
  | Some (user, passHash) =>
      if locked now user then
        sign_in_failed identifier (u_ID user) "account_locked" clientIP (Some (without_properties user)) request ;; reject 423 "Account temporarily locked"
      else if password_ok (si_Password input) passHash then
        kv_Delete env (sign_in_rate_key identifier) ;;
        completeSignInFlow config env request user "password" ""
      else
        sign_in_failed identifier (u_ID user) "invalid_credentials" clientIP (Some (without_properties user)) request ;; reject 401 "Invalid credentials"
  end.

(** ** Reset *)

(** The dispatcher of the channel is configured. *)
Definition delivery_ready (isEmail : bool) : Handler S unit :=
  if if isEmail then c_EmailReady config else c_SMSReady config then ret tt else unavailable.

Definition otp_ip_key (clientIP : string) : string := "auth:ratelimit:otp:ip:" ++ clientIP.
Definition cooldown_key (purpose recipient : string) : string := "auth:cooldown:" ++ purpose ++ ":" ++ recipient.
Definition otp_key (purpose recipient : string) : string := "auth:otp:" ++ purpose ++ ":" ++ recipient.

(** Requests of one address within the hour, beyond the limit. *)
Definition over_ip_limit (clientIP : string) (limit : Z) : Handler S (option Z) :=
  let* r := on_kv (Increment (ae_kv env) (otp_ip_key clientIP) Hour) in
  ret (match r with Ok count => if limit <? count then Some count else None | Err _ => None end).

Definition cooling_down (purpose recipient : string) : Handler S bool :=
  let* r := kv_Get env (cooldown_key purpose recipient) in ret (match r with Ok _ => true | Err _ => false end).

(** A code drawn, stored as its hash and, in the store, as it is. *)
Definition store_code (purpose recipient : string) (codeTTL cooldown : Z) (code : string) : Handler S unit :=
  let* n := draw in
  exec env StInsertOTP (with_otps (insert (new_uuid n)
    (MkOTP (new_uuid n) recipient (HashCode code) purpose 0 (now + codeTTL) now))) ;;
  kv_Set env (otp_key purpose recipient) code codeTTL ;;
  kv_Set env (cooldown_key purpose recipient) "1" cooldown.

Definition draw_code : Handler S string := let* n := draw in ret (default "" (GenerateOTPCode (rand_number n))).

Definition handleRequestPasswordReset (body : Decoded RequestPasswordResetInput) (request : Request) : Handler S AuthResponse :=
  if negb (c_PasswordEnabled config) then reject 403 "Access denied" else
  let* input := decoded body in
  let recipient := if String.eqb (normal_email (rr_Email input)) "" then TrimSpace (rr_Phone input) else normal_email (rr_Email input) in
  if String.eqb recipient "" then reject 400 "Email or phone number is required" else
  let clientIP := client_ip request in
  checkCaptcha config env clientIP (rr_CaptchaToken input) "/v1/auth/password-reset/request" ;;
  let isEmail := Contains recipient "@" in
  delivery_ready isEmail ;;
  let* recipient := if isEmail then ret recipient else normal_phone recipient in
  let* over := over_ip_limit clientIP ipPasswordResetLimit in
  match over with Some _ => reject 429 "Rate limit exceeded. Too many requests from this IP address." | None =>
  let* cooling := cooling_down "password_reset" recipient in
  if (cooling : bool) then reject 429 "Please wait 60 seconds before requesting another code" else
  let* user := fetchUserByRecipient env recipient in
  match user with
  | None => respond 204 NoContent
  | Some user =>
      let* code := draw_code in
      store_code "password_reset" recipient CodeTTL passwordResetCooldownTTL code ;;
      send (if isEmail then EmailPasswordReset recipient code (u_ID user) else SMSPasswordReset recipient code (u_ID user)) ;;
      publish (u_ID user) (PasswordResetRequested recipient user) ;;
      respond 204 NoContent
  end end.

Definition delete_otp (id : string) : Handler S (option unit) := exec env StDeleteOTP (with_otps (delete id)).
Definition count_attempt (id : string) : Handler S (option unit) :=
  exec env StCountAttempt (with_otps (alter (λ o, MkOTP (o_ID o) (o_Recipient o) (o_CodeHash o) (o_Purpose o) (o_Attempts o + 1)
    (o_ExpiresAt o) (o_CreatedAt o)) id)).

Definition otp_failed (recipient purpose channel reason : string) (request : Request) : Handler S unit :=
  publish recipient (OTPVerificationFailed (MkOTPVerificationFailedEventData recipient purpose channel reason (client_ip request)
    (user_agent request))).

(** [UPDATE auth.users SET password_hash ... WHERE email = $2 OR phone = $2]:
    every row is updated, one is scanned. *)
Definition set_password (recipient passHash : string) (t : AuthTables) : option (User * AuthTables) :=
  u ← first_row (has_recipient recipient) (users t);
  Some (with_password passHash u,
        with_users (fmap (λ u, if has_recipient recipient u then with_password passHash u else u)) t).

Definition handleConfirmPasswordReset (body : Decoded ConfirmPasswordResetInput) (request : Request) : Handler S AuthResponse :=
  if negb (c_PasswordEnabled config) then reject 403 "Access denied" else
  let* input := decoded body in
  let recipient := if String.eqb (normal_email (cr_Email input)) "" then TrimSpace (cr_Phone input) else normal_email (cr_Email input) in
  if String.eqb recipient "" || String.eqb (cr_Code input) "" || String.eqb (cr_Password input) ""
  then reject 400 "Recipient, code, and new password are required" else
  let* recipient := if Contains recipient "@" then ret recipient else normal_phone recipient in
  long_enough (cr_Password input) ;;
  checkPasswordBreach config env (cr_Password input) recipient ;;
  let* found := query env StSelectOTP (newest_otp recipient "password_reset" now) in
  match found with
  | None => reject 400 "Invalid or expired reset code"
  | Some o =>
      if maxPasswordResetAttempts <=? o_Attempts o then delete_otp (o_ID o) ;; reject 400 "Maximum attempts exceeded" else
      if negb (VerifyCode (cr_Code input) (o_CodeHash o)) then
        count_attempt (o_ID o) ;;
        otp_failed recipient "password_reset" (if Contains recipient "@" then "email" else "sms") "invalid_code" request ;;
        reject 400 "Invalid reset code"
      else
        delete_otp (o_ID o) ;;
        kv_Delete env (otp_key "password_reset" recipient) ;;
        let* passHash := hash_password (cr_Password input) in
        let* row := stmt env StUpdateUser (set_password recipient passHash) in
        match row with
        | None => reject 400 "Invalid or expired reset code"
        | Some row =>
            let user := scanned row in
            if locked now user then reject 423 "Account temporarily locked" else
            publish (u_ID user) (PasswordReset recipient user) ;;
            issueSessionResponse config env request user "password_reset" ""
        end
  end.

(** ** Change *)

Definition handleUpdateUserPassword (body : Decoded UpdateUserPasswordInput) (request : Request) : Handler S AuthResponse :=
  let* userID := authenticated request in
  let* input := decoded body in
  let* row := query env StSelectUser (λ t, row_by_id userID (users t)) in
  match row with
  | None => reject 404 "User not found"
  | Some u =>
      if locked now u then reject 423 "Account temporarily locked" else
      if u_IsAnonymous u || (bool_decide (u_Email u = None) && bool_decide (u_Phone u = None))
      then reject 400 "Cannot set password on an account without a registered email or phone number" else
      let existing := default "" (u_PasswordHash u) in
      (if String.eqb existing "" then ret tt
       else if String.eqb (up_CurrentPassword input) "" then reject 400 "Current password is required"
       else if password_ok (up_CurrentPassword input) existing then ret tt
       else reject 400 "Current password is incorrect") ;;
      long_enough (up_NewPassword input) ;;
      checkPasswordBreach config env (up_NewPassword input) (default "" (u_Email u)) ;;
      let* hashedPassword := hash_password (up_NewPassword input) in
      let* row := update_user (with_password hashedPassword) userID in
      match row with Some user => publish (u_ID user) (PasswordChanged user) | None => ret tt end ;;
      respond 204 NoContent
  end.
End password.

(** ** Sign-in *)

Section sign_in.
Context `{FL : Floats} `{HL : HostLib} `{CR : Crypto} `{AC : AuthCrypto} `{CT : CaseTables} `{UT : UnicodeTables}
  `{AH : !AuthHost} `{K : !Kernel} {S : Type} `{KD : KVDriver S}.
Context (config : AuthConfig) (env : AuthEnv).
Implicit Types (s : AuthState S).

Lemma gate_decoded {A} (body : Decoded A) : gate (decoded (S := S) body).
Proof. unfold decoded. gate_walk. Qed.
Lemma gate_normal_phone phone : gate (normal_phone (S := S) phone).
Proof. unfold normal_phone, invalid_phone. gate_walk. Qed.
Lemma gate_long_enough password : gate (long_enough (S := S) config password).
Proof. unfold long_enough. gate_walk. Qed.
Lemma gate_sign_in_failed i r reason ip u request : gate (sign_in_failed (S := S) env i r reason ip u request).
Proof. unfold sign_in_failed. gate_walk. Qed.
Lemma gate_sign_in_identifier input : gate (sign_in_identifier (S := S) input).
Proof. unfold sign_in_identifier, invalid_phone. gate_walk. Qed.
Lemma gate_check_sign_in_rate identifier ip request : gate (check_sign_in_rate (S := S) config env identifier ip request).
Proof. unfold check_sign_in_rate. gate_walk. Qed.

Lemma decoded_inv {A} (body : Decoded A) input s s' : decoded (S := S) body s = (inr input, s') → body = Input input.
Proof. destruct body; intros E; [discriminate E|discriminate E|by injection E as -> _]. Qed.

(** What a run did: it was refused and left the tables alone, or [P] holds. *)
Definition refused_or (db : AuthTables) (P : AuthResponse → AuthState S → Prop) (x : AuthResponse * AuthState S) : Prop :=
  (r_Status x.1 ≠ 200 ∧ st_db x.2 = db) ∨ P x.1 x.2.

Lemma refused_or_gate {A} db P (h : Handler S A) (k : A → Handler S AuthResponse) s : gate h → st_db s = db →
  (∀ a s', h s = (inr a, s') → st_db s' = db → refused_or db P (run (k a) s')) → refused_or db P (run (hbind k h) s).
Proof.
  intros Hh Hs Hk. specialize (Hh s). unfold run, hbind in *. destruct (h s) as [[r|a] s'] eqn:E.
  - left. destruct Hh. cbn. split; congruence.
  - apply (Hk a s'); congruence.
Qed.

Lemma refused_or_reject db P status message s : (status =? 200) = false → st_db s = db →
  refused_or db P (run (reject (S := S) status message) s).
Proof. intros Hs Hdb. left. cbn. split; [by apply Z.eqb_neq|done]. Qed.

(** C3: A sign-in is refused, with the tables as they were, unless the password
    is that of an account with the identifier that is not locked; it then
    answers with a ticket for the second factor, or with tokens for that
    account; with a ticket whenever the account has a second factor and the
    policy is to always ask for it. *)
Theorem sign_in_sound body request s :
  refused_or (st_db s) (λ r s', r_Status r = 200 ∧ ∃ input identifier id u passHash,
    body = Input input ∧ identifier_of input = Some identifier ∧ users (st_db s) !! id = Some u
    ∧ has_recipient identifier u = true ∧ u_PasswordHash u = Some passHash ∧ password_ok (si_Password input) passHash = true
    ∧ locked (ae_now env) u = false
    ∧ ((∃ ticket, r_Body r = MFARequired ticket) ∧ st_db s' = st_db s ∨ (∃ t, r_Body r = TokenResponse t ∧ at_User t = scanned u))
    ∧ (u_MFAEnabled u = true → c_MFAEnabled config = true → c_MFAPolicy config = "always" → ∃ ticket, r_Body r = MFARequired ticket))
  (run (handleSignIn config env body request) s).
Proof.
  unfold handleSignIn. apply refused_or_gate; [apply gate_decoded|done|]. intros input s1 E1 D1.
  apply decoded_inv in E1 as ->.
  apply refused_or_gate; [apply gate_sign_in_identifier|done|]. intros identifier s2 E2 D2.
  assert (Hid : identifier_of input = Some identifier).
  { unfold sign_in_identifier in E2. destruct (identifier_of input); [by injection E2 as -> _|discriminate E2]. }
  destruct (_ || _); [by apply refused_or_reject|].
  apply refused_or_gate; [auto with auth|done|]. intros [] s3 _ D3.
  apply refused_or_gate; [apply gate_check_sign_in_rate|done|]. intros [] s4 _ D4.
  apply refused_or_gate; [apply gate_quiet, quiet_query|done|]. intros account s5 E5 D5.
  destruct account as [[user passHash]|].
  2: { apply refused_or_gate; [apply gate_sign_in_failed|done|]. intros [] s6 _ D6. by apply refused_or_reject. }
  assert (Hu : ∃ id u, users (st_db s) !! id = Some u ∧ has_recipient identifier u = true ∧ u_PasswordHash u = Some passHash ∧ user = scanned u).
  { unfold select_credentials in E5. destruct (query_state env StSelectIdentifier (λ t, u ← first_row (has_recipient identifier) (users t); h ← u_PasswordHash u; Some (scanned u, h)) s4) as (a & Ea & Ha).
    rewrite Ea in E5. injection E5 as -> ->. destruct Ha as [|Ha]; [done|]. symmetry in Ha.
    apply bind_Some in Ha as (u & Hf & (h & Hh & [= <- <-])%bind_Some). apply first_row_some in Hf as [Hr (id & Hid')].
    rewrite D4 in Hid'. eauto 8. }
  destruct Hu as (id & u & Hid' & Hr & Hh & ->). change (locked (ae_now env) (scanned u)) with (locked (ae_now env) u).
  destruct (locked (ae_now env) u) eqn:El.
  { apply refused_or_gate; [apply gate_sign_in_failed|done|]. intros [] s6 _ D6. by apply refused_or_reject. }
  destruct (password_ok (si_Password input) passHash) eqn:Ep.
  2: { apply refused_or_gate; [apply gate_sign_in_failed|done|]. intros [] s6 _ D6. by apply refused_or_reject. }
  apply refused_or_gate; [auto with auth|done|]. intros [] s6 _ D6. right.
  pose proof (complete_flow config env request (scanned u) "password" "" s6) as Hflow.
  destruct (run _ s6) as [r s']. destruct Hflow as (Hs & Hbody & Hmfa). cbn [fst snd]. split; [done|].
  exists input, identifier, id, u, passHash. do 7 (split; [done|]). split.
  - destruct Hbody as [(_ & Ht & D)|Ht]; [left; split; [done|congruence]|by right].
  - intros. apply Hmfa; auto.
Qed.
End sign_in.

(** ** One-time codes *)

Section codes.
Context `{FL : Floats} `{AH : !AuthHost}.

(** The code of an id is the only one of its recipient and purpose. *)
Definition only_code (recipient purpose id : string) (o : OTP) (t : AuthTables) : Prop :=
  otps t !! id = Some o ∧ o_ID o = id ∧ o_Recipient o = recipient ∧ o_Purpose o = purpose
  ∧ ∀ id' o', otps t !! id' = Some o' → o_Recipient o' = recipient → o_Purpose o' = purpose → id' = id.

Lemma newest_otp_in recipient purpose now t o : newest_otp recipient purpose now t = Some o →
  live_otp recipient purpose now o = true ∧ ∃ id, otps t !! id = Some o.
Proof.
  unfold newest_otp. intros Hh. assert (Hin : o ∈ sort_by newer_otp (List.filter (live_otp recipient purpose now) (snd <$> map_to_list (otps t)))).
  { destruct (sort_by _ _); [done|]. injection Hh as ->. by left. }
  rewrite (sort_by_perm newer_otp) in Hin. apply list_elem_of_In, filter_In in Hin as [Hin Hl]. split; [done|].
  apply list_elem_of_In, list_elem_of_fmap in Hin as ([id o'] & -> & Hin). apply elem_of_map_to_list in Hin. eauto.
Qed.

Lemma newest_otp_only recipient purpose now id o t : only_code recipient purpose id o t → now < o_ExpiresAt o →
  newest_otp recipient purpose now t = Some o.
Proof.
  intros (Ho & Hid & Hr & Hp & Honly) Hnow. destruct (newest_otp recipient purpose now t) as [o'|] eqn:E.
  - apply newest_otp_in in E as [Hl (id' & Ho')]. unfold live_otp in Hl.
    apply andb_true_iff in Hl as [[H1%String.eqb_eq H2%String.eqb_eq]%andb_true_iff _].
    assert (id' = id) as -> by (by eapply Honly). congruence.
  - exfalso. unfold newest_otp in E.
    assert (Hin : o ∈ sort_by newer_otp (List.filter (live_otp recipient purpose now) (snd <$> map_to_list (otps t)))).
    { rewrite (sort_by_perm newer_otp). apply list_elem_of_In, filter_In. split.
      - apply list_elem_of_In, list_elem_of_fmap. exists (id, o). split; [done|]. by apply elem_of_map_to_list.
      - unfold live_otp. rewrite Hr, Hp, !String.eqb_refl. by apply Z.ltb_lt. }
    destruct (sort_by _ _); [by apply elem_of_nil in Hin|done].
Qed.

(** A code after some more attempts. *)
Definition tried (n : Z) (o : OTP) : OTP :=
  MkOTP (o_ID o) (o_Recipient o) (o_CodeHash o) (o_Purpose o) (o_Attempts o + n) (o_ExpiresAt o) (o_CreatedAt o).

Lemma only_code_tried recipient purpose id o t :
  only_code recipient purpose id o t →
  only_code recipient purpose id (tried 1 o) (with_otps (alter (tried 1) id) t).
Proof.
  intros (Ho & Hid & Hr & Hp & Honly). split; [cbn; by rewrite lookup_alter_eq, Ho|]. do 3 (split; [done|]).
  intros id' o' Ho'. cbn in Ho'. destruct (decide (id' = id)) as [->|Hne]; [done|]. rewrite lookup_alter_ne in Ho' by done. by apply Honly.
Qed.
End codes.

(** ** Resetting a password *)

Section reset.
Context `{FL : Floats} `{HL : HostLib} `{CR : Crypto} `{AC : AuthCrypto} `{CT : CaseTables} `{UT : UnicodeTables}
  `{AH : !AuthHost} `{K : !Kernel} {S : Type} `{KD : KVDriver S}.
Context (config : AuthConfig).
Implicit Types (s : AuthState S).

(** A confirmation that reaches the code of an email: the form is complete and
    the new password acceptable. *)
Definition confirms (recipient : string) (input : ConfirmPasswordResetInput) : Prop :=
  normal_email (cr_Email input) = recipient ∧ recipient ≠ "" ∧ Contains recipient "@" = true ∧ cr_Code input ≠ ""
  ∧ cr_Password input ≠ "" ∧ c_PasswordMinLength config <= Z.of_nat (String.length (cr_Password input)).

Lemma confirm_reaches now recipient input request s o : c_PasswordEnabled config = true → c_BreachCheckEnabled config = false →
  confirms recipient input → newest_otp recipient "password_reset" now (st_db s) = Some o →
  (maxPasswordResetAttempts <= o_Attempts o →
    run (handleConfirmPasswordReset config (auth_ok now) (Input input) request) s
    = (MkAuthResponse 400 (ErrorMessage "Maximum attempts exceeded") CookieUntouched, set_db (with_otps (delete (o_ID o)) (st_db s)) s))
  ∧ (o_Attempts o < maxPasswordResetAttempts → VerifyCode (cr_Code input) (o_CodeHash o) = false →
    let '(r, s') := run (handleConfirmPasswordReset config (auth_ok now) (Input input) request) s in
    r = MkAuthResponse 400 (ErrorMessage "Invalid reset code") CookieUntouched
    ∧ st_db s' = with_otps (alter (tried 1) (o_ID o)) (st_db s)).
Proof.
  intros Hpw Hbreach (He & Hr & Hat & Hc & Hp & Hlen) Ho. unfold handleConfirmPasswordReset. rewrite Hpw. cbn [negb decoded]. rewrite run_ret.
  rewrite He, (proj2 (String.eqb_neq recipient "")), (proj2 (String.eqb_neq (cr_Code input) "")), (proj2 (String.eqb_neq (cr_Password input) "")) by done.
  cbv iota. rewrite Hat, (proj2 (String.eqb_neq recipient "")) by done. cbn [orb]. rewrite run_ret.
  unfold long_enough, checkPasswordBreach. rewrite Hbreach. rewrite (proj2 (Z.ltb_ge _ _)) by lia. cbn [negb]. rewrite !run_ret, run_query by done.
  cbn [ae_now auth_ok]. rewrite Ho. split.
  - intros Ha. rewrite (proj2 (Z.leb_le _ _)) by done. unfold delete_otp, exec. by rewrite run_stmt.
  - intros Ha Hv. rewrite (proj2 (Z.leb_gt _ _)) by lia. rewrite Hv. cbn [negb]. unfold count_attempt, exec. rewrite run_stmt by done.
    cbn. done.
Qed.

(** Confirmations one after another, each at its instant. *)
Fixpoint confirm_all (l : list (Z * ConfirmPasswordResetInput * Request)) (s : AuthState S) : AuthState S :=
  match l with
  | [] => s
  | (now, input, request) :: l =>
      confirm_all l (run (handleConfirmPasswordReset config (auth_ok now) (Input input) request) s).2
  end.

(** C24: At the confirmation endpoint of the password reset, the code sent to an
    email allows five guesses: after five wrong ones, however they are
    spread over its lifetime, even the right code is refused with an error,
    and it is deleted. This is for requests to this endpoint only, with
    complete forms and acceptable passwords, while the code is the only one
    of its address for a reset, the breach check is off and no statement
    fails. (The one-time code endpoint takes the same code without a limit.) *)
Theorem reset_guesses_bounded recipient id o guesses now input request s :
  c_PasswordEnabled config = true → c_BreachCheckEnabled config = false →
  only_code recipient "password_reset" id o (st_db s) → o_Attempts o = 0 →
  Forall (λ g, let '(t, i, _) := g in t < o_ExpiresAt o ∧ confirms recipient i ∧ VerifyCode (cr_Code i) (o_CodeHash o) = false) guesses →
  List.length guesses = 5%nat → now < o_ExpiresAt o → confirms recipient input →
  let '(r, s') := run (handleConfirmPasswordReset config (auth_ok now) (Input input) request) (confirm_all guesses s) in
  r = MkAuthResponse 400 (ErrorMessage "Maximum attempts exceeded") CookieUntouched ∧ otps (st_db s') !! id = None.
Proof.
  intros Hpw Hbreach Hcode Ha Hg Hlen Hnow Hin.
  assert (Hall : ∀ guesses o s, only_code recipient "password_reset" id o (st_db s) →
    o_Attempts o + Z.of_nat (List.length guesses) <= maxPasswordResetAttempts →
    Forall (λ g, let '(t, i, _) := g in t < o_ExpiresAt o ∧ confirms recipient i ∧ VerifyCode (cr_Code i) (o_CodeHash o) = false) guesses →
    ∃ o', only_code recipient "password_reset" id o' (st_db (confirm_all guesses s)) ∧ o_ExpiresAt o' = o_ExpiresAt o
      ∧ o_Attempts o' = o_Attempts o + Z.of_nat (List.length guesses)).
  { clear -Hpw Hbreach. intros guesses. induction guesses as [|[[t i] q] guesses IH]; intros o s Hcode Hle Hg; cbn [confirm_all].
    - exists o. cbn. split; [done|]. split; [done|lia].
    - apply Forall_cons_iff in Hg as [(Ht & Hi & Hv) Hg]. cbn [List.length] in Hle.
      pose proof (newest_otp_only _ _ t _ _ _ Hcode Ht) as Hnew.
      destruct (confirm_reaches t recipient i q s o Hpw Hbreach Hi Hnew) as [_ Hwrong]. specialize (Hwrong ltac:(lia) Hv).
      destruct (run _ s) as [r s1]. destruct Hwrong as [_ Hdb]. cbn [snd].
      assert (Hid : o_ID o = id) by (by destruct Hcode as (_ & ? & _)). rewrite Hid in Hdb.
      destruct (IH (tried 1 o) s1) as (o' & Hc' & He' & Ha'); [rewrite Hdb; by apply only_code_tried|cbn; lia|exact Hg|].
      exists o'. split; [done|]. split; [done|]. rewrite Ha'. cbn [o_Attempts tried List.length]. lia. }
  destruct (Hall guesses o s) as (o' & Hc' & He' & Ha'); [done|rewrite Ha, Hlen; done|done|].
  pose proof (newest_otp_only _ _ now _ _ _ Hc' ltac:(lia)) as Hnew.
  destruct (confirm_reaches now recipient input request _ o' Hpw Hbreach Hin Hnew) as [Hmax _].
  rewrite Hmax by (rewrite Ha', Ha, Hlen; done). split; [done|]. cbn.
  assert (o_ID o' = id) as -> by (by destruct Hc' as (_ & ? & _)). apply lookup_delete_eq.
Qed.
End reset.

(** ** Concrete instances *)

Local Existing Instance integer_floats.
Local Existing Instance sample_auth_host.
Local Existing Instance sample_kernel.
Local Existing Instance sample_host.
Local Existing Instance sample_pg.
Local Existing Instance sample_signatures.
Local Existing Instance sample_case.
Local Existing Instance sample_auth_crypto.
Local Existing Instance ascii_tables.

(** A code for alice's address, and the state that holds it. *)
Definition alice_code (purpose : string) : OTP :=
  MkOTP "o1" "alice@acme.com" (HashCode "314159") purpose 0 (unix_time 900) (unix_time 0).
Definition coded_state (purpose : string) : AuthState KVTable :=
  MkAuthState (MkAuthTables {["alice" := alice]} ∅ {["o1" := alice_code purpose]} ∅ ∅) ∅ [] [] 7 ∅.

Lemma only_alice_code purpose : only_code "alice@acme.com" purpose "o1" (alice_code purpose) (st_db (coded_state purpose)).
Proof. split; [reflexivity|]. do 3 (split; [done|]). intros id o Hid _ _. cbn in Hid. by apply lookup_singleton_Some in Hid as [<- _]. Qed.

Definition guess_reset (code : string) : ConfirmPasswordResetInput := MkConfirmPasswordResetInput "alice@acme.com" "" code "correct horse".

Lemma reset_guesses_bounded_witness :
  let guess t := (unix_time t, guess_reset "000000", caller "" "") in
  let guesses := guess <$> [100; 101; 102; 103; 800] in
  r_Body (run (handleConfirmPasswordReset (sample_auth_config false) (auth_ok (unix_time 850)) (Input (guess_reset "314159")) (caller "" ""))
     (confirm_all (sample_auth_config false) guesses (coded_state "password_reset"))).1 = ErrorMessage "Maximum attempts exceeded".
Proof.
  intros guess guesses.
  pose proof (reset_guesses_bounded (sample_auth_config false) "alice@acme.com" "o1" (alice_code "password_reset") guesses (unix_time 850)
    (guess_reset "314159") (caller "" "") (coded_state "password_reset")) as Hw.
  destruct (run _ _) as [r s']. destruct Hw as [-> _]; [done|done|apply only_alice_code|done| |done|reflexivity|done|reflexivity].
  repeat apply Forall_cons; try apply Forall_nil; done.
Defined.
