(* ===== verification/AuthFactors.v ===== *)
(** * auth/base_handler_otp.go, base_handler_mfa.go, base_handler_anonymous.go:
      one-time codes, the second factor, and guests

    Sending and verifying codes, setting up, verifying, challenging and
    disabling TOTP, and anonymous sessions.  What the theorems show: a code
    signs in at most once and only while it lives, a ticket admits one attempt,
    and a challenge is met only by a code of the account's secret. *)

From stdpp Require Import strings gmap.
From Stdlib Require Import ZArith Lia Ascii String.
From S2P Require Import Prelude GoStrings GoTime GoRunes GoValues Scopes ServiceAccounts KVStore SignInRisk DataCache Tokens AuthCodes AuthModel AuthMonad AuthSessions AuthThreat AuthPassword.
Local Open Scope string_scope.
Local Open Scope Z_scope.
Local Open Scope auth_scope.

Definition defaultOTPCooldown : Z := 60 * Second.

Section factors.
Context `{FL : Floats} `{HL : HostLib} `{CR : Crypto} `{AC : AuthCrypto} `{CT : CaseTables} `{UT : UnicodeTables}
  `{AH : !AuthHost} `{K : !Kernel} {S : Type} `{KD : KVDriver S}.
Context (config : AuthConfig) (env : AuthEnv).
Let now := ae_now env.

(** ** base_handler_otp.go *)

Record SendOTPInput := MkSendOTPInput { so_Recipient : string; so_Purpose : string; so_CaptchaToken : string }.
Record VerifyOTPInput := MkVerifyOTPInput { vo_Recipient : string; vo_Code : string; vo_Purpose : string; vo_CaptchaToken : string }.

Definition otp_purpose (purpose : string) : string := if String.eqb (TrimSpace purpose) "" then "sign_in" else TrimSpace purpose.
Definition otp_channel (isEmail : bool) : string := if isEmail then "email" else "sms".

(** Codes are enabled for the channel of the recipient. *)
Definition channel_enabled (isEmail : bool) : bool := if isEmail then c_EmailOTPEnabled config else c_SMSOTPEnabled config.

Definition handleSendOTP (body : Decoded SendOTPInput) (request : Request) : Handler S AuthResponse :=
  if negb (c_EmailOTPEnabled config) && negb (c_SMSOTPEnabled config) then reject 403 "Access denied" else
  let* input := match body with
                | Input input => if String.eqb (so_Recipient input) "" then reject 400 "Recipient email or phone number is required" else ret input
                | _ => reject 400 "Recipient email or phone number is required" end in
  let clientIP := client_ip request in
  checkCaptcha config env clientIP (so_CaptchaToken input) "/v1/auth/otp" ;;
  let recipient := normal_email (so_Recipient input) in
  let purpose := otp_purpose (so_Purpose input) in
  let isEmail := Contains recipient "@" in
  if negb (channel_enabled isEmail) then reject 403 "Access denied" else
  delivery_ready config isEmail ;;
  let* recipient := if isEmail then ret recipient else normal_phone recipient in
  let codeTTL := wrap64 ((if isEmail then c_EmailOTPExpiryMinutes config else c_SMSOTPExpiryMinutes config) * Minute) in
  let* code := draw_code in
  let* over := over_ip_limit env clientIP 10 in
  match over with
  | Some count =>
      publish clientIP (RateLimitExceeded (MkRateLimitExceededEventData clientIP "/v1/auth/otp" count clientIP (user_agent request))) ;;
      reject 429 "Rate limit exceeded. Too many requests from this IP address."
  | None =>
      let* cooling := cooling_down env purpose recipient in
      if (cooling : bool) then reject 429 "Please wait 60 seconds before requesting another code" else
      store_code env purpose recipient codeTTL defaultOTPCooldown code ;;
      send (if isEmail then EmailSignInOTP recipient code "" else SMSSignInOTP recipient code "") ;;
      let* targetUser := fetchUserByRecipient env recipient in
      publish recipient (OTPSent recipient purpose (otp_channel isEmail) targetUser) ;;
      respond 204 NoContent
  end.

(** The address of an account, verified now. *)
Definition with_address (isEmail : bool) (recipient : string) (u : User) : User :=
  touched env (if isEmail
    then MkUser (u_ID u) (Some recipient) (u_Phone u) (u_PasswordHash u) (u_EncryptedMFASecret u) (u_MFAEnabled u) (u_Role u) false
           (Some now) (u_PhoneVerifiedAt u) (u_LockedUntil u) (u_Properties u) (u_CreatedAt u) (u_LastUpdatedAt u)
    else MkUser (u_ID u) (u_Email u) (Some recipient) (u_PasswordHash u) (u_EncryptedMFASecret u) (u_MFAEnabled u) (u_Role u) false
           (u_EmailVerifiedAt u) (Some now) (u_LockedUntil u) (u_Properties u) (u_CreatedAt u) (u_LastUpdatedAt u)).

(** [verified_at = COALESCE(verified_at, clock_timestamp())]. *)
Definition seen_address (isEmail : bool) (u : User) : User :=
  let first (t : option Z) := Some (default now t) in
  touched env (MkUser (u_ID u) (u_Email u) (u_Phone u) (u_PasswordHash u) (u_EncryptedMFASecret u) (u_MFAEnabled u) (u_Role u) (u_IsAnonymous u)
    (if isEmail then first (u_EmailVerifiedAt u) else u_EmailVerifiedAt u)
    (if isEmail then u_PhoneVerifiedAt u else first (u_PhoneVerifiedAt u))
    (u_LockedUntil u) (u_Properties u) (u_CreatedAt u) (u_LastUpdatedAt u)).

Definition has_address (isEmail : bool) (recipient : string) (u : User) : bool :=
  opt_eqb (if isEmail then u_Email u else u_Phone u) recipient.

(** [INSERT ... ON CONFLICT DO UPDATE ... RETURNING ..., (xmax = 0) AS is_new]. *)
Definition upsert_user (isEmail : bool) (recipient id : string) (t : AuthTables) : option ((User * bool) * AuthTables) :=
  match first_row (has_address isEmail recipient) (users t) with
  | Some u => let u' := seen_address isEmail u in Some ((scanned u', false), with_users (insert (u_ID u) u') t)
  | None =>
      let u := new_user env id (if isEmail then Some recipient else None) (if isEmail then None else Some recipient) None false
                 (if isEmail then Some now else None) (if isEmail then None else Some now) [] in
      '(u, t) ← put_user u t; Some ((scanned u, true), t)
  end.

(** A guest takes over the address; a failed update leaves the zero user. *)
Definition convert_guest (request : Request) (guest : User) (isEmail : bool) (recipient purpose : string) : Handler S AuthResponse :=
  let* conflict := query env StConflict (λ t, first_row (has_address isEmail recipient) (users t)) in
  if match conflict with Some u => negb (String.eqb (u_ID u) (u_ID guest)) | None => false end then
    reject 409 (if isEmail then "Email is already in use by another account" else "Phone number is already in use by another account")
  else
    let* row := update_user env (with_address isEmail recipient) (u_ID guest) in
    let user := default (scanned (zero_user "")) row in
    publish (u_ID user) (UserConverted user) ;;
    publish recipient (OTPVerified recipient purpose (otp_channel isEmail) (Some user)) ;;
    issueSessionResponse config env request user "otp" "".

(** After the code: the account of the address signs in, or is created; a
    failed statement leaves the zero user. *)
Definition enter_by_code (request : Request) (isEmail : bool) (recipient purpose : string) : Handler S AuthResponse :=
  let* n := draw in
  let* row := stmt env StInsertUser (upsert_user isEmail recipient (new_uuid n)) in
  let '(user, isNewUser) := default (scanned (zero_user ""), false) row in
  if negb isNewUser && locked now user then
    otp_failed recipient purpose (otp_channel isEmail) "account_locked" request ;; reject 423 "Account temporarily locked"
  else
    when isNewUser then publish (u_ID user) (UserSignedUp user) ;;
    publish recipient (OTPVerified recipient purpose (otp_channel isEmail) (Some user)) ;;
    completeSignInFlow config env request user "otp" "".

Definition invalid_code (o : OTP) (recipient purpose : string) (isEmail : bool) (request : Request) : Handler S AuthResponse :=
  count_attempt env (o_ID o) ;;
  record_failure env (client_ip request) ;;
  record_failure env recipient ;;
  otp_failed recipient purpose (otp_channel isEmail) "invalid_code" request ;;
  reject 400 "Invalid OTP code".

Definition handleVerifyOTP (body : Decoded VerifyOTPInput) (request : Request) : Handler S AuthResponse :=
  if negb (c_EmailOTPEnabled config) && negb (c_SMSOTPEnabled config) then reject 403 "Access denied" else
  let* input := match body with
                | Input input => if String.eqb (vo_Recipient input) "" || String.eqb (vo_Code input) ""
                                 then reject 400 "Recipient and code are required" else ret input
                | _ => reject 400 "Recipient and code are required" end in
  checkCaptcha config env (client_ip request) (vo_CaptchaToken input) "/v1/auth/otp/verify" ;;
  let recipient := normal_email (vo_Recipient input) in
  let purpose := otp_purpose (vo_Purpose input) in
  let isEmail := Contains recipient "@" in
  if negb (channel_enabled isEmail) then reject 403 "Access denied" else
  let* recipient := if isEmail then ret recipient else normal_phone recipient in
  let* found := query env StSelectOTP (newest_otp recipient purpose now) in
  match found with
  | None =>
      otp_failed recipient purpose (otp_channel isEmail) "invalid_or_expired_code" request ;; reject 400 "Invalid or expired OTP code"
  | Some o =>
      if negb (VerifyCode (vo_Code input) (o_CodeHash o)) then invalid_code o recipient purpose isEmail request else
      delete_otp env (o_ID o) ;;
      kv_Delete env (otp_key purpose recipient) ;;
      let* guest := resolveAnonymousCaller env request in
      match guest with
      | Some guest => convert_guest request guest isEmail recipient purpose
      | None => enter_by_code request isEmail recipient purpose
      end
  end.

(** ** base_handler_mfa.go *)

Definition totp_manager : TOTPManager := NewTOTPManager (c_MFAIssuer config).

Definition with_mfa (secret : option string) (enabled : bool) (u : User) : User :=
  MkUser (u_ID u) (u_Email u) (u_Phone u) (u_PasswordHash u) secret enabled (u_Role u) (u_IsAnonymous u) (u_EmailVerifiedAt u)
    (u_PhoneVerifiedAt u) (u_LockedUntil u) (u_Properties u) (u_CreatedAt u) (u_LastUpdatedAt u).

Definition update_mfa (f : User → User) (id : string) : Handler S unit :=
  let* _ := stmt env StUpdateUser (update_user_row (λ u, touched env (f u)) id) in ret tt.

Definition unlocked (user : User) : Handler S unit :=
  if locked now user then reject 423 "Account temporarily locked" else ret tt.

Definition handleSetupMFA (request : Request) : Handler S AuthResponse :=
  if negb (c_MFAEnabled config) then reject 403 "Access denied" else
  let* userID := authenticated request in
  let* row := select_user env userID in
  match row with
  | None => reject 404 "User not found"
  | Some user =>
      unlocked user ;;
      let* n1 := draw in
      let* n2 := draw in
      let secretBase32 := match GenerateSecret (rand_bytes n1) with Ok s => s | Err _ => "" end in
      let encryptedSecret := match EncryptField k_encryptionKey (rand_bytes n2) secretBase32 with Ok s => s | Err _ => "" end in
      update_mfa (with_mfa (Some encryptedSecret) false) (u_ID user) ;;
      let accountName := if negb (String.eqb (default "" (u_Email user)) "") then default "" (u_Email user)
                         else if negb (String.eqb (default "" (u_Phone user)) "") then default "" (u_Phone user) else u_ID user in
      respond 200 (SetupMFAResponse secretBase32 accountName (c_MFAIssuer config))
  end.

(** The plain secret of an account; one without a secret has no second factor. *)
Definition mfa_secret (user : User) : Handler S string :=
  let secret := default "" (u_EncryptedMFASecret user) in
  if String.eqb secret "" then reject 400 "MFA is not set up on this account" else
  match DecryptField k_encryptionKey secret with Ok plaintext => ret plaintext | Err _ => unavailable end.

Definition handleVerifyMFA (body : Decoded string) (request : Request) : Handler S AuthResponse :=
  if negb (c_MFAEnabled config) then reject 403 "Access denied" else
  let* userID := authenticated request in
  let code := TrimSpace (match body with Input code => code | _ => "" end) in
  if String.eqb code "" then reject 400 "Code is required" else
  let* row := select_user env userID in
  match row with
  | None => reject 404 "User not found"
  | Some user =>
      unlocked user ;;
      let* secret := mfa_secret user in
      if negb (ValidateCode totp_manager secret code now 1) then reject 401 "Invalid MFA code" else
      let user := with_mfa (u_EncryptedMFASecret user) true user in
      update_mfa (λ u, with_mfa (u_EncryptedMFASecret u) true u) (u_ID user) ;;
      publish (u_ID user) (MFAEnabled user) ;;
      publish (u_ID user) (UserUpdated user) ;;
      issueSessionResponse config env request user "mfa" ""
  end.

Definition mfa_failed (resource userID reason : string) (user : option User) (request : Request) : Handler S unit :=
  publish resource (MFAChallengeFailed (MkMFAChallengeFailedEventData userID reason (client_ip request) (user_agent request) user)).

(** The ticket and the code. *)
Definition handleChallengeMFA (body : Decoded (string * string)) (request : Request) : Handler S AuthResponse :=
  if negb (c_MFAEnabled config) then reject 403 "Access denied" else
  let* input := match body with NoBody => ret ("", "") | BadJSON => reject 400 "Invalid JSON body" | Input input => ret input end in
  let ticket := TrimSpace (fst input) in
  let code := TrimSpace (snd input) in
  if String.eqb ticket "" || String.eqb code "" then reject 400 "MFA ticket and code are required" else
  let* stored := kv_Get env (ticket_key ticket) in
  let userID := match stored with Ok userID => userID | Err _ => "" end in
  if String.eqb userID "" then
    mfa_failed ticket "" "invalid_ticket" None request ;; reject 401 "Invalid or expired MFA ticket"
  else
    kv_Delete env (ticket_key ticket) ;;
    let* row := select_user env userID in
    match row with
    | None => reject 401 "Invalid or expired MFA ticket"
    | Some user =>
        if locked now user then
          mfa_failed (u_ID user) (u_ID user) "account_locked" (Some user) request ;; reject 423 "Account temporarily locked"
        else
          let* secret := mfa_secret user in
          if negb (ValidateCode totp_manager secret code now 1) then
            mfa_failed (u_ID user) (u_ID user) "invalid_code" (Some user) request ;; reject 401 "Invalid MFA code"
          else issueSessionResponse config env request user "mfa" ""
    end.

Definition handleDisableMFA (request : Request) : Handler S AuthResponse :=
  if negb (c_MFAEnabled config) then reject 403 "Access denied" else
  let* userID := authenticated request in
  let* row := select_user env userID in
  match row with
  | None => reject 404 "User not found"
  | Some user =>
      unlocked user ;;
      let user := with_mfa None false user in
      update_mfa (with_mfa None false) (u_ID user) ;;
      publish (u_ID user) (MFADisabled user) ;;
      publish (u_ID user) (UserUpdated user) ;;
      respond 204 NoContent
  end.

(** ** base_handler_anonymous.go *)

Definition handleSignInAnonymous (body : Decoded (list (string * any))) (request : Request) : Handler S AuthResponse :=
  if negb (c_AnonymousEnabled config) then reject 403 "Access denied" else
  let properties := match body with Input properties => properties | _ => [] end in
  let* n := draw in
  let* row := insert_user env (new_user env (new_uuid n) None None None true None None properties) in
  match row with
  | None => unavailable
  | Some user => publish (u_ID user) (UserSignedUp user) ;; issueSessionResponse config env request user "anonymous" ""
  end.
End factors.

(** ** The second factor *)

Section challenge.
Context `{FL : Floats} `{HL : HostLib} `{CR : Crypto} `{AC : AuthCrypto} `{CT : CaseTables} `{UT : UnicodeTables}
  `{AH : !AuthHost} `{K : !Kernel} {S : Type} `{KD : KVDriver S}.
Context (config : AuthConfig).
Implicit Types (s : AuthState S).

Lemma gate_mfa_secret user : gate (mfa_secret (S := S) user).
Proof. unfold mfa_secret, unavailable. gate_walk. Qed.
Lemma gate_mfa_failed resource userID reason user request : gate (mfa_failed (S := S) resource userID reason user request).
Proof. apply gate_quiet, quiet_publish. Qed.

Lemma mfa_secret_inv user secret s s' : mfa_secret (S := S) user s = (inr secret, s') →
  DecryptField k_encryptionKey (default "" (u_EncryptedMFASecret user)) = Ok secret.
Proof.
  unfold mfa_secret. destruct (String.eqb _ _); [discriminate|].
  destruct (DecryptField _ _) as [p|e]; [|discriminate]. by intros [= -> _].
Qed.

(** The account a ticket stands for. *)
Definition ticket_holder env (ticket : string) s : option User :=
  match Get (ae_kv env) (ticket_key ticket) (st_kv s) with Ok userID => row_by_id userID (users (st_db s)) | Err _ => None end.

Lemma select_user_inv env userID user s s' : select_user (S := S) env userID s = (inr (Some user), s') →
  s' = s ∧ ∃ u, row_by_id userID (users (st_db s)) = Some u ∧ user = scanned u.
Proof.
  unfold select_user, hbind. destruct (query_state env StSelectUser (λ t, row_by_id userID (users t)) s) as (a & -> & Ha).
  intros [= E <-]. split; [done|]. destruct Ha as [->|Ha]; [discriminate E|]. rewrite <- Ha. destruct a as [u|]; [|discriminate E].
  exists u. by injection E as <-.
Qed.

(** C9: A challenge is refused, with the tables as they were, unless the ticket
    is one the store still holds for an account that is not locked, and the
    code is one of the secret of that account within a step of the time; it is
    then answered with tokens for that account. *)
Theorem challenge_sound env body request s :
  refused_or (st_db s) (λ r s', r_Status r = 200 ∧ ∃ input u secret t,
    body = Input input ∧ ticket_holder env (TrimSpace (fst input)) s = Some u ∧ locked (ae_now env) u = false
    ∧ DecryptField k_encryptionKey (default "" (u_EncryptedMFASecret u)) = Ok secret
    ∧ ValidateCode (totp_manager config) secret (TrimSpace (snd input)) (ae_now env) 1 = true
    ∧ r_Body r = TokenResponse t ∧ at_User t = scanned u)
  (run (handleChallengeMFA config env body request) s).
Proof.
  unfold handleChallengeMFA. destruct (negb _); [by apply refused_or_reject|].
  destruct body as [| |input].
  - rewrite run_ret. cbn [fst snd]. change (String.eqb (TrimSpace "") "") with true. cbn [orb]. by apply refused_or_reject.
  - left. cbn. done.
  - rewrite run_ret. destruct (_ || _); [by apply refused_or_reject|].
    unfold kv_Get. rewrite run_read_kv. destruct (Get _ _ _) as [userID|e] eqn:Eg.
    2: { cbn [String.eqb]. apply refused_or_gate; [apply gate_mfa_failed|done|]. intros [] s1 _ D1. by apply refused_or_reject. }
    destruct (String.eqb userID ""). { apply refused_or_gate; [apply gate_mfa_failed|done|]. intros [] s1 _ D1. by apply refused_or_reject. }
    apply refused_or_gate; [auto with auth|done|]. intros [] s1 _ D1.
    apply refused_or_gate; [unfold select_user; gate_walk|done|]. intros row s2 E2 D2.
    destruct row as [user|]; [|by apply refused_or_reject].
    apply select_user_inv in E2 as (_ & u & Hu & ->).
    change (locked (ae_now env) (scanned u)) with (locked (ae_now env) u).
    destruct (locked (ae_now env) u) eqn:El.
    { apply refused_or_gate; [apply gate_mfa_failed|done|]. intros [] s3 _ D3. by apply refused_or_reject. }
    apply refused_or_gate; [apply gate_mfa_secret|done|]. intros secret s3 E3 D3. apply mfa_secret_inv in E3.
    destruct (ValidateCode _ _ _ _ _) eqn:Ev; cbn [negb].
    2: { apply refused_or_gate; [apply gate_mfa_failed|done|]. intros [] s4 _ D4. by apply refused_or_reject. }
    right. destruct (issue_effect config env request (scanned u) "mfa" "" s3) as (t & s4 & row & Ei & Ht & _). unfold run. rewrite Ei. cbn.
    split; [done|]. exists input, u, secret, t. unfold ticket_holder. rewrite Eg, <- D1. auto 8.
Qed.
End challenge.

(** ** Tickets *)

Section tickets.
Context `{FL : Floats} `{HL : HostLib} `{CR : Crypto} `{AC : AuthCrypto} `{CT : CaseTables} `{UT : UnicodeTables}
  `{AH : !AuthHost} `{K : !Kernel} {S : Type}.
Context {KD : KVDriver S} {PT : PgText} {KL : KVLaws S}.
Context (config : AuthConfig).
Implicit Types (s : AuthState S).

(** From an instant on the store holds no account for the ticket. *)
Definition ticket_spent (now : Z) (ticket : string) s : Prop :=
  ∀ t, now <= t → default "" (kv_view t (st_kv s) !! ticket_key ticket) = "".

Definition bad_ticket : AuthResponse := MkAuthResponse 401 (ErrorMessage "Invalid or expired MFA ticket") CookieUntouched.

Lemma ticket_spent_kv now ticket s s' : st_kv s' = st_kv s → ticket_spent now ticket s → ticket_spent now ticket s'.
Proof. unfold ticket_spent. by intros ->. Qed.

Lemma store_keys_apart ticket h : ticket_key ticket ≠ session_key h.
Proof. unfold session_key, ticket_key. discriminate. Qed.

(** Quiet steps, then an answer. *)
Lemma quiet_spent {A} now ticket (h : Handler S A) k s : quiet h →
  (∀ a s', st_kv s' = st_kv s → ticket_spent now ticket (run (k a) s').2) → ticket_spent now ticket (run (hbind k h) s).2.
Proof. intros Hh Hk. destruct (run_quiet h k s Hh) as (a & s' & -> & _ & Ek). by apply Hk. Qed.

Lemma issue_spent now ticket request user m p s : ticket_spent now ticket s →
  ticket_spent now ticket (run (issueSessionResponse config (auth_ok now) request user m p) s).2.
Proof.
  intros Hs. destruct (issue_effect config (auth_ok now) request user m p s) as (r & s' & row & E & _ & _ & _ & Hkv). unfold run. rewrite E. cbn.
  intros t Ht. rewrite Hkv. destruct (c_FastPathSessionsEnabled config); [|by apply Hs].
  destruct (law_frame (ae_kv (auth_ok now)) (st_kv s) t (ticket_key ticket) Ht) as [Hset _].
  unfold Set_. rewrite Hset by (apply store_keys_apart). by apply Hs.
Qed.

(** A ticket admits one attempt: after a challenge with it, whatever the
    code and the outcome, every later challenge with the same ticket is
    refused, with the tables as they were. *)
Theorem ticket_single_use now ticket code code' request s :
  c_MFAEnabled config = true → TrimSpace ticket ≠ "" → TrimSpace code ≠ "" → TrimSpace code' ≠ "" →
  let s' := (run (handleChallengeMFA config (auth_ok now) (Input (ticket, code)) request) s).2 in
  ∀ env request', now <= ae_now env → ae_kv_fails env KVGet = false →
    let '(r, s'') := run (handleChallengeMFA config env (Input (ticket, code')) request') s' in
    r = bad_ticket ∧ st_db s'' = st_db s'.
Proof.
  intros Hm Ht Hc Hc' s' env request' Hnow Hg.
  assert (Hs : ticket_spent now (TrimSpace ticket) s').
  { subst s'. unfold handleChallengeMFA. rewrite Hm. cbn [negb fst snd]. rewrite run_ret. cbn [fst snd].
    rewrite (proj2 (String.eqb_neq (TrimSpace ticket) "")), (proj2 (String.eqb_neq (TrimSpace code) "")) by done. cbn [orb].
    unfold kv_Get. rewrite run_read_kv. unfold Get. rewrite law_Get by done. cbn [ae_kv kv_now auth_ok ae_now].
    assert (Hexp : ∀ t data, now <= t → kv_view t (st_kv s) !! ticket_key (TrimSpace ticket) = Some data →
      kv_view now (st_kv s) !! ticket_key (TrimSpace ticket) = Some data).
    { intros t data Ht' Hv. eapply lookup_weaken; [exact Hv|]. by apply law_expiry. }
    set (stored := match kv_view now _ !! _ with Some v => Ok v | None => _ end).
    destruct (String.eqb_spec (match stored with Ok u => u | Err _ => "" end) "") as [Hu|Hu].
    - apply quiet_spent; [apply quiet_publish|]. intros a s1 K1. cbn. intros t Ht'. rewrite K1.
      destruct (kv_view t _ !! _) as [data|] eqn:Ev; [|done]. apply Hexp in Ev; [|done]. subst stored. by rewrite Ev in Hu.
    - unfold kv_Delete. rewrite run_on_kv. set (s1 := set_kv _ s).
      assert (Hs1 : ticket_spent now (TrimSpace ticket) s1).
      { intros t _. subst s1. cbn. unfold Delete.
        destruct (law_Delete (ae_kv (auth_ok now)) (ticket_key (TrimSpace ticket)) (st_kv s) eq_refl) as (kv & -> & Hview). cbn.
        by rewrite Hview, lookup_delete_eq. }
      apply quiet_spent; [unfold select_user; auto with auth|]. intros [user|] s2 K2; [|by apply (ticket_spent_kv _ _ s1)].
      assert (Hs2 : ticket_spent now (TrimSpace ticket) s2) by (by apply (ticket_spent_kv _ _ s1)).
      destruct (locked _ _); [apply quiet_spent; [apply quiet_publish|]; intros a s3 K3; by apply (ticket_spent_kv _ _ s2)|].
      unfold mfa_secret. destruct (String.eqb (default _ _) _); [exact Hs2|]. destruct (DecryptField _ _); [|exact Hs2].
      rewrite run_ret. destruct (negb _); [apply quiet_spent; [apply quiet_publish|]; intros b s3 K3; by apply (ticket_spent_kv _ _ s2)|].
      by apply issue_spent. }
  clearbody s'. unfold handleChallengeMFA. rewrite Hm. cbn [negb]. rewrite run_ret. cbn [fst snd].
  rewrite (proj2 (String.eqb_neq (TrimSpace ticket) "")), (proj2 (String.eqb_neq (TrimSpace code') "")) by done. cbn [orb].
  unfold kv_Get. rewrite run_read_kv. unfold Get. rewrite law_Get by done. cbn [ae_kv kv_now].
  specialize (Hs (ae_now env) Hnow). destruct (kv_view (ae_now env) _ !! _) as [d|]; cbn in Hs; [subst d|]; done.
Qed.
End tickets.

(** ** Codes *)

Section verify.
Context `{FL : Floats} `{HL : HostLib} `{CR : Crypto} `{AC : AuthCrypto} `{CT : CaseTables} `{UT : UnicodeTables}
  `{AH : !AuthHost} `{K : !Kernel} {S : Type} `{KD : KVDriver S}.
Context (config : AuthConfig).
Implicit Types (s : AuthState S).

(** The address a code is verified for. *)
Definition otp_recipient (input : VerifyOTPInput) : option string :=
  let recipient := normal_email (vo_Recipient input) in
  if Contains recipient "@" then Some recipient else NormalizePhone recipient.

Lemma invalid_code_run now o recipient purpose isEmail request s :
  ∃ s', run (invalid_code (auth_ok now) o recipient purpose isEmail request) s
        = (MkAuthResponse 400 (ErrorMessage "Invalid OTP code") CookieUntouched, s')
  ∧ st_db s' = with_otps (alter (tried 1) (o_ID o)) (st_db s).
Proof.
  unfold invalid_code, count_attempt, exec. rewrite run_stmt by done. unfold record_failure. rewrite !run_on_kv.
  eexists. split; [reflexivity|]. done.
Qed.

(** The rest of a verification leaves the codes alone. *)
Definition codes_are (m : gmap string OTP) (t : AuthTables) : Prop := otps t = m.

Lemma keeps_codes_issue env m request user method p :
  keeps (of_db (codes_are m)) (issueSessionResponse (S := S) config env request user method p).
Proof.
  apply keeps_issue. intros id uid hash ip ua e n t x t' <- E. unfold insert_session in E.
  apply bind_Some in E as (u & _ & (a & _ & [= _ <-])%bind_Some). done.
Qed.

Lemma keeps_codes_complete env m request user method p :
  keeps (of_db (codes_are m)) (completeSignInFlow (S := S) config env request user method p).
Proof.
  unfold completeSignInFlow, reset_failures, kv_Set. apply keeps_bind; [auto with auth|intros _]. apply keeps_bind; [auto with auth|intros _].
  apply keeps_bind; [apply quiet_keeps, quiet_sign_in_risk|intros a]. apply keeps_bind; [unfold warn_new_device; keeps_walk|intros _].
  keeps_walk. apply keeps_codes_issue.
Qed.

Lemma put_user_otps u t x t' : put_user u t = Some (x, t') → x = u ∧ otps t' = otps t.
Proof. unfold put_user. destruct (unique_user _ _); [|done]. by intros [= <- <-]. Qed.

Lemma keeps_codes_enter env m request isEmail recipient purpose :
  keeps (of_db (codes_are m)) (enter_by_code (S := S) config env request isEmail recipient purpose).
Proof.
  unfold enter_by_code. apply keeps_bind; [auto with auth|intros n]. apply keeps_bind.
  - apply keeps_stmt. intros t a t' <- E. unfold upsert_user in E. destruct (first_row _ _) as [u|]; [by injection E as _ <-|].
    apply bind_Some in E as ([u t1] & Hp & [= _ <-]). by apply put_user_otps in Hp as [_ ?].
  - intros row. destruct (default _ row) as [user isNew]. unfold otp_failed. keeps_walk; apply keeps_codes_complete.
Qed.

Lemma keeps_codes_convert env m request guest isEmail recipient purpose :
  keeps (of_db (codes_are m)) (convert_guest (S := S) config env request guest isEmail recipient purpose).
Proof.
  unfold convert_guest, update_user. keeps_walk; [|apply keeps_codes_issue].
  apply keeps_stmt. intros t x t' <- E. unfold update_user_row in E. apply bind_Some in E as (u & _ & Hp).
  by apply put_user_otps in Hp as [_ ?].
Qed.

(** C18: When no statement fails, a one-time code signs in once, and only while it
    lives: an answer 200 means that the newest live code of the address and
    purpose was presented, and that code, and no other, is gone afterwards. *)
Theorem verify_otp_sound now body request s :
  let '(r, s') := run (handleVerifyOTP config (auth_ok now) body request) s in
  r_Status r = 200 → ∃ input recipient o, body = Input input ∧ otp_recipient input = Some recipient
    ∧ newest_otp recipient (otp_purpose (vo_Purpose input)) now (st_db s) = Some o
    ∧ VerifyCode (vo_Code input) (o_CodeHash o) = true
    ∧ otps (st_db s') = delete (o_ID o) (otps (st_db s)).
Proof.
  destruct (run _ s) as [r s'] eqn:E. intros Hr. unfold handleVerifyOTP in E.
  destruct (_ && _); [by injection E as <- <-|].
  destruct body as [| |input]; [by injection E as <- <-|by injection E as <- <-|].
  destruct (_ || _); [by injection E as <- <-|]. rewrite run_ret in E.
  assert (Hpass : ∀ A (h : Handler S A) k s1, gate h → run (hbind k h) s1 = (r, s') →
    ∃ a s2, h s1 = (inr a, s2) ∧ st_db s2 = st_db s1 ∧ run (k a) s2 = (r, s')).
  { intros A h k s1 Hh E1. destruct (gate_run h k s1 Hh) as (a & s2 & E2 & D & E3); [by rewrite E1|]. exists a, s2. by rewrite <- E3. }
  apply Hpass in E as ([] & s1 & _ & D1 & E); [|auto with auth].
  destruct (negb _); [by injection E as <- <-|].
  apply Hpass in E as (recipient & s2 & E2 & D2 & E); [|destruct (Contains _ _); auto using gate_ret, gate_normal_phone].
  apply Hpass in E as (found & s3 & E3 & D3 & E); [|apply gate_quiet, quiet_query]. rewrite query_ok in E3 by done. injection E3 as <- <-.
  cbn [ae_now auth_ok] in E. destruct (newest_otp _ _ _ _) as [o|] eqn:Eo; [|by injection E as <- <-].
  destruct (VerifyCode _ _) eqn:Ev; cbn [negb] in E.
  2: { destruct (invalid_code_run now o recipient (otp_purpose (vo_Purpose input)) (Contains (normal_email (vo_Recipient input)) "@") request s2)
         as (s4 & E4 & _). rewrite E4 in E. by injection E as <- <-. }
  exists input, recipient, o. rewrite D2, D1 in Eo. repeat split; [|done|done|].
  { unfold otp_recipient. destruct (Contains _ _); [by injection E2 as -> _|]. unfold normal_phone in E2.
    destruct (NormalizePhone _); [by injection E2 as -> _|discriminate E2]. }
  unfold delete_otp, exec in E. rewrite run_stmt in E by done. unfold kv_Delete in E. rewrite run_on_kv in E.
  set (s4 := set_kv _ _) in E. set (m := delete (o_ID o) (otps (st_db s))).
  assert (H4 : of_db (codes_are m) s4) by (unfold of_db, codes_are, m; cbn; by rewrite D2, D1).
  match type of E with run ?h s4 = _ => assert (Hk : keeps (of_db (codes_are m)) h) end.
  { apply keeps_bind; [unfold resolveAnonymousCaller, select_user; keeps_walk|]. intros [guest|]; [apply keeps_codes_convert|apply keeps_codes_enter]. }
  apply (keeps_run _ _ _ Hk) in H4. rewrite E in H4. exact H4.
Qed.

(** A verification that reaches the code of an email. *)
Definition verifies (recipient purpose : string) (input : VerifyOTPInput) : Prop :=
  normal_email (vo_Recipient input) = recipient ∧ vo_Recipient input ≠ "" ∧ Contains recipient "@" = true ∧ vo_Code input ≠ ""
  ∧ otp_purpose (vo_Purpose input) = purpose.

Lemma verify_reaches now recipient purpose input request s o : c_EmailOTPEnabled config = true → c_BotProtectionEnabled config = false →
  verifies recipient purpose input → newest_otp recipient purpose now (st_db s) = Some o →
  run (handleVerifyOTP config (auth_ok now) (Input input) request) s
  = run (if negb (VerifyCode (vo_Code input) (o_CodeHash o)) then invalid_code (auth_ok now) o recipient purpose true request else
         delete_otp (auth_ok now) (o_ID o) ;;
         kv_Delete (auth_ok now) (otp_key purpose recipient) ;;
         let* guest := resolveAnonymousCaller (auth_ok now) request in
         match guest with
         | Some guest => convert_guest config (auth_ok now) request guest true recipient purpose
         | None => enter_by_code config (auth_ok now) request true recipient purpose
         end) s.
Proof.
  intros He Hb (Hn & Hr & Hat & Hc & Hp) Ho. unfold handleVerifyOTP. rewrite He. cbn [negb andb].
  rewrite (proj2 (String.eqb_neq (vo_Recipient input) "")), (proj2 (String.eqb_neq (vo_Code input) "")) by done. cbn [orb]. rewrite run_ret.
  unfold checkCaptcha. rewrite Hb. cbn [negb]. rewrite run_ret, Hn, Hat, Hp. unfold channel_enabled. rewrite He. cbn [negb].
  rewrite run_ret, run_query by done. cbn [ae_now auth_ok]. by rewrite Ho.
Qed.

(** Verifications one after another, each at its instant. *)
Fixpoint verify_all (l : list (Z * VerifyOTPInput * Request)) (s : AuthState S) : AuthState S :=
  match l with
  | [] => s
  | (now, input, request) :: l => verify_all l (run (handleVerifyOTP config (auth_ok now) (Input input) request) s).2
  end.

Lemma wrong_guesses recipient purpose id guesses : ∀ o s, c_EmailOTPEnabled config = true → c_BotProtectionEnabled config = false →
  only_code recipient purpose id o (st_db s) →
  Forall (λ g, let '(t, i, _) := g in t < o_ExpiresAt o ∧ verifies recipient purpose i ∧ VerifyCode (vo_Code i) (o_CodeHash o) = false) guesses →
  ∃ o', only_code recipient purpose id o' (st_db (verify_all guesses s)) ∧ o_ExpiresAt o' = o_ExpiresAt o ∧ o_CodeHash o' = o_CodeHash o
    ∧ o_Attempts o' = o_Attempts o + Z.of_nat (List.length guesses) ∧ users (st_db (verify_all guesses s)) = users (st_db s).
Proof.
  induction guesses as [|[[t i] q] guesses IH]; intros o s He Hb Hcode Hg; cbn [verify_all List.length].
  - exists o. do 3 (split; [done|]). split; [lia|done].
  - apply Forall_cons_iff in Hg as [(Ht & Hi & Hv) Hg]. pose proof (newest_otp_only _ _ t _ _ _ Hcode Ht) as Hnew.
    rewrite (verify_reaches t recipient purpose i q s o) by done. rewrite Hv. cbn [negb].
    destruct (invalid_code_run t o recipient purpose true q s) as (s1 & -> & Hdb). cbn [snd].
    assert (Hid : o_ID o = id) by (by destruct Hcode as (_ & ? & _)). rewrite Hid in Hdb.
    destruct (IH (tried 1 o) s1) as (o' & Hc' & He' & Hh' & Ha' & Hu'); [done..|rewrite Hdb; by apply only_code_tried|exact Hg|].
    exists o'. rewrite Ha', Hu', Hdb. do 3 (split; [done|]). split; [cbn; lia|done].
Qed.

(** The number of guesses at a sign-in code is not bounded: after any number
    of wrong codes the right one is still accepted while the code lives, and
    signs in the account of the address.  (The attempts are counted and a
    maximum is declared, but nothing reads the count.) *)
Theorem otp_guesses_unbounded recipient purpose id o u guesses now input request s :
  c_EmailOTPEnabled config = true → c_BotProtectionEnabled config = false →
  only_code recipient purpose id o (st_db s) →
  Forall (λ g, let '(t, i, _) := g in t < o_ExpiresAt o ∧ verifies recipient purpose i ∧ VerifyCode (vo_Code i) (o_CodeHash o) = false) guesses →
  now < o_ExpiresAt o → verifies recipient purpose input → VerifyCode (vo_Code input) (o_CodeHash o) = true →
  UserID (AuthCtx request) = "" → first_row (has_address true recipient) (users (st_db s)) = Some u → locked now u = false →
  let '(r, s') := run (handleVerifyOTP config (auth_ok now) (Input input) request) (verify_all guesses s) in
  r_Status r = 200 ∧ ((∃ ticket, r_Body r = MFARequired ticket) ∨ ∃ t, r_Body r = TokenResponse t ∧ u_ID (at_User t) = u_ID u).
Proof.
  intros He Hb Hcode Hg Hnow Hin Hv Hanon Hu Hl.
  destruct (wrong_guesses recipient purpose id guesses o s He Hb Hcode Hg) as (o' & Hc' & Hexp & Hh' & _ & Hu').
  pose proof (newest_otp_only _ _ now _ _ _ Hc' ltac:(lia)) as Hnew. set (s1 := verify_all guesses s) in *.
  rewrite (verify_reaches now recipient purpose input request s1 o') by done. rewrite Hh', Hv. cbn [negb].
  unfold delete_otp, exec. rewrite run_stmt by done. unfold kv_Delete. rewrite run_on_kv.
  unfold resolveAnonymousCaller. rewrite Hanon. cbn [String.eqb]. rewrite run_ret. unfold enter_by_code.
  unfold run at 1, hbind at 1. cbn [draw]. fold (run (S := S)). set (s2 := MkAuthState _ _ _ _ _ _).
  match goal with |- context [hbind ?k (stmt ?e ?st ?f) s2] => change (match hbind k (stmt e st f) s2 with (inl r, s') => (r, s') | (inr r, s') => (r, s') end)
    with (run (hbind k (stmt e st f)) s2) end.
  rewrite run_stmt by done. unfold upsert_user. assert (users (st_db s2) = users (st_db s)) as -> by (by rewrite <- Hu').
  rewrite Hu. cbn [from_option Datatypes.id negb andb]. change (locked (ae_now (auth_ok now)) (scanned (seen_address (auth_ok now) true u))) with (locked now u).
  rewrite Hl. cbn iota. rewrite run_ret. match goal with |- context [run (hbind ?k (publish ?a ?b)) ?s0] =>
    destruct (run_quiet (publish a b) k s0 (quiet_publish _ _)) as (x & s4 & -> & _) end.
  pose proof (complete_flow config (auth_ok now) request (scanned (seen_address (auth_ok now) true u)) "otp" "" s4) as Hflow.
  destruct (run _ s4) as [r s']. destruct Hflow as (Hs & Hbody & _). split; [done|].
  destruct Hbody as [(_ & Ht & _)|(t & Ht & Eu)]; [by left|]. right. exists t. split; [done|]. by rewrite Eu.
Qed.
End verify.

(** ** Concrete instances *)

Local Existing Instance integer_floats.
Local Existing Instance sample_auth_host.
Local Existing Instance sample_kernel.
Local Existing Instance sample_host.
Local Existing Instance sample_pg.
Local Existing Instance sample_signatures.
Local Existing Instance sample_case.
Local Existing Instance sample_auth_crypto.
Local Existing Instance ascii_tables.

(** A ticket of alice, in the store until 900. *)
Definition ticket_state : AuthState KVTable :=
  MkAuthState (MkAuthTables {["alice" := alice]} ∅ ∅ ∅ ∅) {[ticket_key "tk" := MkKVRow "alice" (unix_time 900)]} [] [] 7 ∅.

Lemma ticket_single_use_witness :
  r_Body (run (handleChallengeMFA (sample_auth_config false) (auth_ok (unix_time 100)) (Input ("tk", "123456")) (caller "" "")) ticket_state).1
    = ErrorMessage "MFA is not set up on this account"
  ∧ let s' := (run (handleChallengeMFA (sample_auth_config false) (auth_ok (unix_time 100)) (Input ("tk", "123456")) (caller "" "")) ticket_state).2 in
    (run (handleChallengeMFA (sample_auth_config false) (auth_ok (unix_time 200)) (Input ("tk", "654321")) (caller "" "")) s').1 = bad_ticket.
Proof.
  split; [reflexivity|].
  pose proof (ticket_single_use (KL := DatabaseKVStore_laws) (sample_auth_config false) (unix_time 100) "tk" "123456" "654321" (caller "" "")
    ticket_state eq_refl ltac:(done) ltac:(done) ltac:(done) (auth_ok (unix_time 200)) (caller "" "")) as Hw.
  cbv zeta. destruct (run _ _) as [r s']. destruct Hw as [-> _]; [unfold unix_time, Second; cbn; lia|done|done].
Defined.

Definition present (code : string) : VerifyOTPInput := MkVerifyOTPInput " alice@acme.com" code "" "".

Lemma verify_otp_sound_witness :
  let '(r, s') := run (handleVerifyOTP (sample_auth_config false) (auth_ok (unix_time 100)) (Input (present "314159")) (caller "" ""))
                    (coded_state "sign_in") in
  r_Status r = 200 ∧ otps (st_db s') = delete "o1" (otps (st_db (coded_state "sign_in"))).
Proof.
  assert (Hs : r_Status (run (handleVerifyOTP (sample_auth_config false) (auth_ok (unix_time 100)) (Input (present "314159")) (caller "" ""))
    (coded_state "sign_in")).1 = 200) by reflexivity.
  pose proof (verify_otp_sound (sample_auth_config false) (unix_time 100) (Input (present "314159")) (caller "" "") (coded_state "sign_in")) as Hw.
  destruct (run _ _) as [r s']. split; [exact Hs|]. destruct (Hw Hs) as (input & recipient & o & [= <-] & Hr & Ho & _ & Hotps).
  rewrite Hotps. assert (Er : otp_recipient (present "314159") = Some "alice@acme.com") by reflexivity. rewrite Er in Hr. clear Er. injection Hr as <-.
  pose proof (newest_otp_only _ _ (unix_time 100) _ _ _ (only_alice_code "sign_in") ltac:(done)) as Eo'.
  change (otp_purpose _) with "sign_in" in Ho. rewrite Eo' in Ho. assert (Eo : alice_code "sign_in" = o) by congruence. by rewrite <- Eo.
Defined.

Lemma otp_guesses_unbounded_witness :
  let guess t := (unix_time t, present "000000", caller "" "") in
  let guesses := guess <$> [100; 101; 102; 103; 104; 105; 106; 107] in
  MaxAttempts < Z.of_nat (List.length guesses)
  ∧ r_Status (run (handleVerifyOTP (sample_auth_config false) (auth_ok (unix_time 850)) (Input (present "314159")) (caller "" ""))
     (verify_all (sample_auth_config false) guesses (coded_state "sign_in"))).1 = 200.
Proof.
  intros guess guesses. split; [done|].
  pose proof (otp_guesses_unbounded (sample_auth_config false) "alice@acme.com" "sign_in" "o1" (alice_code "sign_in") alice guesses (unix_time 850)
    (present "314159") (caller "" "") (coded_state "sign_in")) as Hw.
  destruct (run _ _) as [r s']. cbn [fst]. apply Hw; clear Hw; [done|done|apply only_alice_code| |done|done|reflexivity|done|reflexivity|done].
  repeat apply Forall_cons; try apply Forall_nil; done.
Defined.
