(* ===== verification/AuthUsers.v ===== *)
(** * auth/base_handler_user.go and control_plane_handler_user.go: accounts

    Reading, updating and deleting one's own account, and the operators' list,
    create, get, delete, lock and unlock.  What the theorems show: deleting
    one's account and locking an account end its sessions, in the table and in
    the cache; an operator's delete leaves the cached sessions, which go on
    refreshing. *)

From stdpp Require Import strings gmap.
From Stdlib Require Import ZArith Lia Ascii String.
From S2P Require Import Prelude GoStrings GoTime GoRunes GoValues Scopes ServiceAccounts TasksHandlers KVStore SignInRisk DataCache Tokens AuthCodes AuthModel AuthMonad AuthSessions AuthThreat AuthPassword AuthFactors.
Local Open Scope string_scope.
Local Open Scope Z_scope.
Local Open Scope auth_scope.

Section accounts.
Context `{FL : Floats} `{HL : HostLib} `{CR : Crypto} `{AC : AuthCrypto} `{CT : CaseTables} `{UT : UnicodeTables}
  `{AH : !AuthHost} `{K : !Kernel} {S : Type} `{KD : KVDriver S}.
Context (config : AuthConfig) (env : AuthEnv).
Let now := ae_now env.

(** ** base_handler_user.go *)

Definition user_profile (user : User) : GetUserResponse :=
  MkGetUserResponse (u_ID user) (u_Email user) (u_Phone user) (u_Role user) (u_IsAnonymous user)
    (negb (bool_decide (u_EmailVerifiedAt user = None))) (negb (bool_decide (u_PhoneVerifiedAt user = None)))
    (u_MFAEnabled user) (u_Properties user) (u_CreatedAt user) (u_LastUpdatedAt user).

Definition handleGetUser (request : Request) : Handler S AuthResponse :=
  let* userID := authenticated request in
  let* row := select_user env userID in
  match row with
  | None => reject 404 "User not found"
  | Some user => respond 200 (UserProfile (user_profile user))
  end.

(** [properties = COALESCE(properties, '{}') || $1]. *)
Definition with_properties (properties : any) (u : User) : User :=
  touched env (MkUser (u_ID u) (u_Email u) (u_Phone u) (u_PasswordHash u) (u_EncryptedMFASecret u) (u_MFAEnabled u) (u_Role u)
    (u_IsAnonymous u) (u_EmailVerifiedAt u) (u_PhoneVerifiedAt u) (u_LockedUntil u) (jsonb_concat (u_Properties u) properties)
    (u_CreatedAt u) (u_LastUpdatedAt u)).

(** The JSON of a map that may be nil. *)
Definition properties_json (properties : option (list (string * any))) : any :=
  match properties with Some m => AMap m | None => ANil end.

Definition handleUpdateUserProperties (body : Decoded (option (list (string * any)))) (request : Request) : Handler S AuthResponse :=
  let* userID := authenticated request in
  let* properties := decoded body in
  let* row := update_user env (with_properties (properties_json properties)) userID in
  match row with
  | None => unavailable
  | Some user => publish (u_ID user) (UserUpdated user) ;; respond 200 (PropertiesResponse (u_Properties user))
  end.

(** Drops the cached sessions of every hash. *)
Fixpoint drop_cached (hashes : list string) : Handler S unit :=
  match hashes with
  | [] => ret tt
  | hash :: hashes => kv_Delete env (session_key hash) ;; drop_cached hashes
  end.

(** [DELETE FROM auth.otps WHERE recipient = $1], for an address there is. *)
Definition drop_codes (recipient : option string) : Handler S unit :=
  if String.eqb (default "" recipient) "" then ret tt else
  let* _ := exec env StDropCodes (with_otps (filter (λ kv, o_Recipient kv.2 ≠ default "" recipient))) in ret tt.

Definition handleDeleteUser (request : Request) : Handler S AuthResponse :=
  let* userID := authenticated request in
  let* row := select_user env userID in
  let user := default (scanned (zero_user "")) row in
  let* hashes := query env StSessionHashes (λ t, id ← uuid_in userID;
    Some (s_RefreshTokenHash <$> sessions_where (λ s, String.eqb (s_UserID s) id) t)) in
  drop_cached (default [] hashes) ;;
  let* deleted := stmt env StDeleteUser (λ t, t' ← delete_user_row userID t; Some (tt, t')) in
  match deleted with
  | None => unavailable
  | Some _ =>
      drop_codes (u_Email user) ;;
      drop_codes (u_Phone user) ;;
      publish (u_ID user) (UserDeleted user) ;;
      respond_with 204 NoContent CookieCleared
  end.

(** The columns an export reads of the account and of its identities. *)
Definition exported_user (u : User) : User :=
  MkUser (u_ID u) (u_Email u) (u_Phone u) None None false (u_Role u) (u_IsAnonymous u) (u_EmailVerifiedAt u) (u_PhoneVerifiedAt u) None
    (properties_of (u_Properties u)) (u_CreatedAt u) (u_LastUpdatedAt u).
Definition exported_identity (i : Identity) : ExportIdentityRecord :=
  MkExportIdentityRecord (id_Provider i) (id_ProviderUserID i) (properties_of (id_Properties i)) (id_CreatedAt i) (id_LastSignInAt i).

(** Identities that cannot be read are left out; the error is not reported. *)
Definition handleExportUser (request : Request) : Handler S AuthResponse :=
  let* userID := authenticated request in
  let* row := query env StSelectUser (λ t, row_by_id userID (users t)) in
  match row with
  | None => reject 404 "User not found"
  | Some row =>
      let user := exported_user row in
      let* rows := query env StListIdentities (λ t, id ← uuid_in userID;
        Some (List.filter (λ i, String.eqb (id_UserID i) id) (snd <$> map_to_list (identities t)))) in
      publish (u_ID user) (UserExported user) ;;
      respond 200 (ExportResponse user (exported_identity <$> default [] rows) now)
  end.

(** ** control_plane_handler_user.go; [allowed] is [RequireScope]. *)

Definition forbidden_read {A} : Handler S A := reject 403 "Forbidden: scope auth:user.read required".
Definition forbidden_write {A} : Handler S A := reject 403 "Forbidden: scope auth:user.write required".

(** A statement that found no row, or failed. *)
Definition no_row {A} (k : AuthStmt) : Handler S A :=
  if ae_fails env k then reject 500 "" else reject 404 "User not found".

Definition newer_user (a b : User) : bool := u_CreatedAt b <=? u_CreatedAt a.

(** The filters of the list. *)
Definition listed (role search : string) (u : User) : bool :=
  (String.eqb role "" || String.eqb (u_Role u) role)
  && (String.eqb search ""
      || match u_Email u with Some e => ilike e ("%" ++ search ++ "%") | None => false end
      || match u_Phone u with Some p => ilike p ("%" ++ search ++ "%") | None => false end).

(** [urlQuery] is [URL.Query().Get]. *)
Definition handleListUsers (allowed : bool) (urlQuery : string → string) : Handler S AuthResponse :=
  if negb allowed then forbidden_read else
  let p := ParsePagination urlQuery in
  let roleFilter := TrimSpace (urlQuery "role") in
  let searchQuery := TrimSpace (urlQuery "search") in
  let* rows := query env StListUsers (λ t,
    let rows := sort_by newer_user (List.filter (listed roleFilter searchQuery) (snd <$> map_to_list (users t))) in
    Some (take (Z.to_nat (pi_Limit p)) (drop (Z.to_nat (pi_Offset p)) rows))) in
  match rows with
  | None => reject 500 ""
  | Some rows =>
      respond 200 (ListUsersResponse (scanned <$> rows) (pi_Limit p) (pi_Offset p) (Z.of_nat (List.length rows)))
  end.

Record CreateUserInput := MkCreateUserInput {
  cu_Email : string; cu_Phone : string; cu_Password : string; cu_Role : string; cu_EmailVerified : bool; cu_PhoneVerified : bool;
  cu_Properties : list (string * any) }.

Definition handleCreateUser (allowed : bool) (body : Decoded CreateUserInput) : Handler S AuthResponse :=
  if negb allowed then forbidden_write else
  let* input := decoded body in
  let email := normal_email (cu_Email input) in
  let* phone := if String.eqb (TrimSpace (cu_Phone input)) "" then ret "" else normal_phone (TrimSpace (cu_Phone input)) in
  if String.eqb email "" && String.eqb phone "" then reject 400 "Email or phone number is required" else
  let* passwordHash := if String.eqb (cu_Password input) "" then ret None else
                         let* hash := hash_password (cu_Password input) in ret (Some hash) in
  let role := if String.eqb (cu_Role input) "" then "authenticated" else cu_Role input in
  let verifiedAt (b : bool) := if b then Some now else None in
  let* n := draw in
  let* row := insert_user env (MkUser (new_uuid n) (nilIfEmpty email) (nilIfEmpty phone) passwordHash None false role false
    (verifiedAt (cu_EmailVerified input)) (verifiedAt (cu_PhoneVerified input)) None (AMap (cu_Properties input)) now now) in
  match row with
  | None => reject 500 ""
  | Some user => publish (u_ID user) (UserCreated user) ;; respond 201 (UserResponse user)
  end.

Definition valid_user_id (userID : string) : Handler S unit :=
  if bool_decide (uuid_in userID = None) then reject 400 "Invalid user UUID" else ret tt.

Definition operator_handleGetUser (allowed : bool) (userID : string) : Handler S AuthResponse :=
  if negb allowed then forbidden_read else
  valid_user_id userID ;;
  let* row := select_user env userID in
  match row with
  | None => no_row StSelectUser
  | Some user => respond 200 (UserResponse user)
  end.

(** [DELETE ... RETURNING]. *)
Definition delete_returning (userID : string) (t : AuthTables) : option (User * AuthTables) :=
  u ← row_by_id userID (users t); t' ← delete_user_row userID t; Some (u, t').

Definition operator_handleDeleteUser (allowed : bool) (userID : string) : Handler S AuthResponse :=
  if negb allowed then forbidden_write else
  valid_user_id userID ;;
  let* row := stmt env StDeleteUser (delete_returning userID) in
  match row with
  | None => no_row StDeleteUser
  | Some u => publish (u_ID u) (UserDeleted (scanned u)) ;; respond 204 NoContent
  end.

Definition with_lock (lockedUntil : option Z) (u : User) : User :=
  touched env (MkUser (u_ID u) (u_Email u) (u_Phone u) (u_PasswordHash u) (u_EncryptedMFASecret u) (u_MFAEnabled u) (u_Role u)
    (u_IsAnonymous u) (u_EmailVerifiedAt u) (u_PhoneVerifiedAt u) lockedUntil (u_Properties u) (u_CreatedAt u) (u_LastUpdatedAt u)).

(** A lock without an end lasts a hundred years. *)
Definition lock_end (lockedUntil : option Z) : Z := default (AddDate UTC now 100 0 0) lockedUntil.

(** [lockedUntil] is what [Decode] left, its error being ignored. *)
Definition handleLockUser (allowed : bool) (userID : string) (lockedUntil : option Z) : Handler S AuthResponse :=
  if negb allowed then forbidden_write else
  valid_user_id userID ;;
  let* row := update_user env (with_lock (Some (lock_end lockedUntil))) userID in
  match row with
  | None => no_row StUpdateUser
  | Some user =>
      let* rows := stmt env StDeleteOthers (λ t, id ← uuid_in userID; Some (delete_sessions (λ s, String.eqb (s_UserID s) id) t)) in
      forget_sessions env (s_RefreshTokenHash <$> default [] rows) ;;
      dispatchBackChannelSignOut config env (default [] rows ≫= client_target userID) ;;
      publish userID (UserLocked user (lock_end lockedUntil)) ;;
      respond 200 (UserResponse user)
  end.

Definition handleUnlockUser (allowed : bool) (userID : string) : Handler S AuthResponse :=
  if negb allowed then forbidden_write else
  valid_user_id userID ;;
  let* row := update_user env (with_lock None) userID in
  match row with
  | None => no_row StUpdateUser
  | Some user => publish userID (UserUnlocked user) ;; respond 200 (UserResponse user)
  end.
End accounts.

(** ** Ending the sessions of an account *)

Section ending.
Context `{FL : Floats} `{HL : HostLib} `{CR : Crypto} `{AC : AuthCrypto} `{CT : CaseTables} `{UT : UnicodeTables}
  `{AH : !AuthHost} `{K : !Kernel} {S : Type}.
Context {KD : KVDriver S} {PT : PgText} {KL : KVLaws S}.
Context (config : AuthConfig).
Implicit Types (s : AuthState S).

(** A refresh token of the account, and of no other. *)
Definition token_of (uid token : string) s : Prop :=
  token ≠ "" ∧ HashRefreshToken token ≠ ""
  ∧ (∃ id x, sessions (st_db s) !! id = Some x ∧ s_UserID x = uid ∧ s_RefreshTokenHash x = HashRefreshToken token)
  ∧ ∀ id x, sessions (st_db s) !! id = Some x → s_RefreshTokenHash x = HashRefreshToken token → s_UserID x = uid.

Definition user_hashes (uid : string) (t : AuthTables) : list string :=
  s_RefreshTokenHash <$> sessions_where (λ x, String.eqb (s_UserID x) uid) t.

(** The account has no session left, in the table or in the cache. *)
Definition sessions_ended (uid : string) s s' : Prop :=
  (∀ id x, sessions (st_db s') !! id = Some x ↔ sessions (st_db s) !! id = Some x ∧ s_UserID x ≠ uid)
  ∧ ∀ h t, h ∈ user_hashes uid (st_db s) → h ≠ "" → kv_view t (st_kv s') !! session_key h = None.

Lemma ended_refused now uid token env request s s' : sessions_ended uid s s' → token_of uid token s →
  now <= ae_now env → ae_kv_fails env KVGet = false → run (handleRefreshToken config env (Input token) request) s' = (refused, s').
Proof.
  intros [Hrows Hcache] (Ht & Hh & (id & x & Hx & Hux & Hhx) & Hown) Hnow Hg.
  apply (dead_token_refused config env token request now); [done..|]. split.
  - intros id' y Hy Hhy. apply Hrows in Hy as [Hy Hne]. apply Hne. by eapply Hown.
  - intros _ t data _. rewrite Hcache; [done| |done]. apply list_elem_of_fmap. exists x. split; [done|].
    apply sessions_where_in. split; [by apply String.eqb_eq|eauto].
Qed.

Lemma drop_cached_spec now hashes : ∀ s, ∃ s', drop_cached (S := S) (auth_ok now) hashes s = (inr tt, s')
  ∧ st_db s' = st_db s ∧ (∀ t, kv_view t (st_kv s') ⊆ kv_view t (st_kv s))
  ∧ ∀ h t, h ∈ hashes → kv_view t (st_kv s') !! session_key h = None.
Proof.
  induction hashes as [|hash hashes IH]; intros s; cbn [drop_cached].
  - exists s. split; [done|]. split; [done|]. split; [done|]. by intros h t ?%elem_of_nil.
  - unfold hbind at 1, kv_Delete, on_kv, Delete.
    destruct (law_Delete (ae_kv (auth_ok now)) (session_key hash) (st_kv s) eq_refl) as (kv & -> & Hv). cbn [snd].
    destruct (IH (set_kv kv s)) as (s' & E & D & Hsub & Hnone). exists s'. rewrite E. split; [done|]. split; [done|]. split.
    + intros t. etransitivity; [apply Hsub|]. cbn. rewrite Hv. apply delete_subseteq.
    + intros h t [->|Hh]%elem_of_cons; [|by apply Hnone]. destruct (kv_view t (st_kv s') !! session_key hash) eqn:Ev; [|done].
      eapply lookup_weaken in Ev; [|apply Hsub]. cbn in Ev. by rewrite Hv, lookup_delete_eq in Ev.
Qed.

Lemma dropped_rows uid t id x : sessions (drop_sessions (λ x, String.eqb (s_UserID x) uid) t) !! id = Some x ↔
  sessions t !! id = Some x ∧ s_UserID x ≠ uid.
Proof. cbn. rewrite map_lookup_filter_Some. cbn. by rewrite String.eqb_neq. Qed.

(** Locking an account sets its end, answers with the account, and ends its
    sessions: every one of its refresh tokens is refused from then on, also
    through the cache; the sessions of other accounts stay. *)
Theorem lock_user_ends_sessions now userID uid u lockedUntil s : uuid_in userID = Some uid → users (st_db s) !! uid = Some u →
  u_ID u = uid → unique_user u (users (st_db s)) = true →
  let '(r, s') := run (handleLockUser config (auth_ok now) true userID lockedUntil) s in
  r_Status r = 200 ∧ (∃ u', users (st_db s') !! uid = Some u' ∧ u_LockedUntil u' = Some (lock_end (auth_ok now) lockedUntil))
  ∧ sessions_ended uid s s'
  ∧ ∀ token env request, token_of uid token s → now <= ae_now env → ae_kv_fails env KVGet = false →
      run (handleRefreshToken config env (Input token) request) s' = (refused, s').
Proof.
  intros Hid Hu Huid Huniq. destruct (run _ s) as [r s'] eqn:E.
  assert (Hall : r_Status r = 200 ∧ (∃ u', users (st_db s') !! uid = Some u' ∧ u_LockedUntil u' = Some (lock_end (auth_ok now) lockedUntil))
    ∧ sessions_ended uid s s').
  2: { destruct Hall as (? & ? & Hend). do 3 (split; [done|]). intros token env request Htok Hnow Hg. by eapply ended_refused. }
  revert E. unfold handleLockUser, valid_user_id. cbn [negb]. rewrite bool_decide_eq_false_2 by (by rewrite Hid). rewrite run_ret.
  unfold update_user. rewrite run_bind, run_stmt by done. unfold update_user_row, row_by_id. rewrite Hid. cbn [mbind option_bind].
  rewrite Hu. cbn [mbind option_bind]. unfold put_user.
  change (unique_user (with_lock (auth_ok now) (Some (lock_end (auth_ok now) lockedUntil)) u) (users (st_db s))) with (unique_user u (users (st_db s))).
  rewrite Huniq. set (u' := with_lock _ _ u). set (s1 := set_db _ s). rewrite run_ret. cbn [fmap option_fmap option_map]. rewrite run_stmt by done.
  cbn [mbind option_bind delete_sessions]. set (rows := sessions_where _ _). set (s2 := set_db _ s1). cbn [default from_option Datatypes.id].
  destruct (forget_sessions_spec now (s_RefreshTokenHash <$> rows) s2) as (s3 & E3 & D3 & _ & Hnone).
  unfold run at 1. unfold hbind at 1. rewrite E3.
  destruct (quiet_dispatch config (auth_ok now) (rows ≫= client_target userID) s3) as (a & s4 & E4 & D4 & K4). unfold hbind at 1. rewrite E4.
  cbn. intros [= <- <-]. split; [done|]. unfold sessions_ended. cbn [st_db st_kv]. rewrite D4, K4, D3. split.
  - exists u'. split; [|done]. change (u_ID u) with (u_ID u') in Huid. cbn. rewrite <- Huid. apply lookup_insert_eq.
  - split; [intros id x; exact (dropped_rows uid (st_db s1) id x)|]. intros h t Hh Hne. by apply Hnone.
Qed.

(** C2: Deleting one's own account, when no statement fails and the account is found
    under the caller's id, removes that account and no other, its sessions
    and no other, with their entries in the cache, and of the one-time codes
    exactly those sent to its addresses; every refresh with a token of one
    of those sessions, which no session of another account has, is refused
    afterwards, as long as the store can be read. *)
Theorem delete_account_complete now request uid u s : UserID (AuthCtx request) ≠ "" → uuid_in (UserID (AuthCtx request)) = Some uid →
  users (st_db s) !! uid = Some u →
  let '(r, s') := run (handleDeleteUser (auth_ok now) request) s in
  r = MkAuthResponse 204 NoContent CookieCleared ∧ users (st_db s') = delete uid (users (st_db s)) ∧ sessions_ended uid s s'
  ∧ (∀ id o, otps (st_db s') !! id = Some o ↔ otps (st_db s) !! id = Some o
       ∧ (o_Recipient o = "" ∨ (u_Email u ≠ Some (o_Recipient o) ∧ u_Phone u ≠ Some (o_Recipient o))))
  ∧ ∀ token env request', token_of uid token s → now <= ae_now env → ae_kv_fails env KVGet = false →
      run (handleRefreshToken config env (Input token) request') s' = (refused, s').
Proof.
  intros Hne Hid Hu. destruct (run _ s) as [r s'] eqn:E.
  assert (Hall : r = MkAuthResponse 204 NoContent CookieCleared ∧ users (st_db s') = delete uid (users (st_db s)) ∧ sessions_ended uid s s'
    ∧ (∀ id o, otps (st_db s') !! id = Some o ↔ otps (st_db s) !! id = Some o
       ∧ (o_Recipient o = "" ∨ (u_Email u ≠ Some (o_Recipient o) ∧ u_Phone u ≠ Some (o_Recipient o))))).
  2: { destruct Hall as (? & ? & Hend & ?). do 4 (split; [done|]). intros token env request' Htok Hnow Hg. by eapply ended_refused. }
  revert E. unfold handleDeleteUser, authenticated. rewrite (proj2 (String.eqb_neq (UserID _) "")) by done. rewrite run_ret.
  unfold select_user. rewrite run_bind, run_query by done. unfold row_by_id. rewrite Hid. cbn [mbind option_bind]. rewrite Hu, run_ret.
  rewrite run_query by done. cbn [mbind option_bind]. cbn [default from_option Datatypes.id fmap option_fmap option_map].
  fold (user_hashes uid (st_db s)). destruct (drop_cached_spec now (user_hashes uid (st_db s)) s) as (s1 & E1 & D1 & _ & Hnone).
  unfold run at 1. unfold hbind at 1. rewrite E1. unfold hbind at 1. rewrite stmt_ok by done. unfold delete_user_row. rewrite Hid.
  cbn [mbind option_bind]. set (s2 := set_db _ s1).
  assert (Hdrop : ∀ a s0, ∃ s3, drop_codes (S := S) (auth_ok now) a s0 = (inr tt, s3) ∧ st_kv s3 = st_kv s0 ∧ users (st_db s3) = users (st_db s0)
    ∧ sessions (st_db s3) = sessions (st_db s0)
    ∧ ∀ id o, otps (st_db s3) !! id = Some o ↔ otps (st_db s0) !! id = Some o ∧ (o_Recipient o = "" ∨ a ≠ Some (o_Recipient o))).
  { clear. intros a s0. unfold drop_codes. destruct (String.eqb_spec (default "" a) "") as [Ha|Ha].
    - exists s0. do 4 (split; [done|]). intros id o. split; [|tauto]. intros Ho. split; [done|].
      destruct (decide (o_Recipient o = "")) as [|Hr]; [by left|right]. intros ->. cbn in Ha. congruence.
    - unfold hbind, exec. rewrite stmt_ok by done. eexists. split; [reflexivity|]. do 3 (split; [done|]). intros id o. cbn.
      rewrite map_lookup_filter_Some. cbn. split; intros [Ho Hr]; (split; [done|]).
      + right. intros ->. by cbn in Hr.
      + destruct a as [a|]; [|by cbn in Ha]. cbn in *. destruct Hr as [Hr|Hr]; congruence. }
  destruct (Hdrop (u_Email (scanned u)) s2) as (s3 & E3 & K3 & U3 & R3 & O3). unfold hbind at 1. rewrite E3.
  destruct (Hdrop (u_Phone (scanned u)) s3) as (s4 & E4 & K4 & U4 & R4 & O4). unfold hbind at 1. rewrite E4.
  cbn. intros [= <- <-]. split; [done|]. unfold sessions_ended. cbn [st_db st_kv]. rewrite U4, R4, K4, U3, R3, K3. cbn. rewrite D1.
  split; [done|]. split; [split|].
  - intros id x. rewrite map_lookup_filter_Some. cbn. by rewrite String.eqb_neq.
  - intros h t Hh _. by apply Hnone.
  - intros id o. rewrite O4, O3. cbn. rewrite D1. tauto.
Qed.

(** An operator's delete removes the account and its sessions from the
    tables but leaves the cache: with the fast path on, a cached session of
    the deleted account is still refreshed, and answered with new tokens. *)
Theorem deleted_account_still_refreshes now userID uid u s :
  uuid_in userID = Some uid → users (st_db s) !! uid = Some u →
  let '(r, s') := run (operator_handleDeleteUser (auth_ok now) true userID) s in
  r_Status r = 204 ∧ users (st_db s') !! uid = None
  ∧ (∀ id x, sessions (st_db s') !! id = Some x ↔ sessions (st_db s) !! id = Some x ∧ s_UserID x ≠ uid)
  ∧ ∀ token env request c data, token ≠ "" → c_FastPathSessionsEnabled config = true → 0 < c_SessionTTLSeconds config <= 10 ^ 9 →
      ae_kv_fails env KVGet = false → ae_kv_fails env KVSet = false →
      kv_view (ae_now env) (st_kv s) !! session_key (HashRefreshToken token) = Some data → data ≠ "" →
      unmarshal_session data = Some c → u_ID (cs_User c) = uid → uid ≠ "" → locked (ae_now env) (cs_User c) = false →
      ∃ t cookie s'', run (handleRefreshToken config env (Input token) request) s' = (MkAuthResponse 200 (TokenResponse t) cookie, s'')
        ∧ u_ID (at_User t) = uid.
Proof.
  intros Hid Hu. unfold operator_handleDeleteUser, valid_user_id. cbn [negb].
  rewrite bool_decide_eq_false_2 by (by rewrite Hid). rewrite run_ret, run_stmt by done.
  unfold delete_returning, row_by_id, delete_user_row. rewrite Hid. cbn [mbind option_bind]. rewrite Hu. cbn [mbind option_bind].
  cbn -[drop_sessions]. split; [done|]. split; [apply lookup_delete_eq|]. split; [intros id x; exact (dropped_rows uid (st_db s) id x)|].
  intros token env request c data Ht Hf Httl Hg Hset Hv Hd Hc Hcid Hne Hl.
  match goal with |- context [run _ ?s1] => destruct (fast_path_refresh config env token request s1 c data) as (t & cookie & s2 & E & Et & _) end;
    [done..|congruence|done|]. exists t, cookie, s2. split; [done|]. by rewrite Et.
Qed.
End ending.

(** ** Properties *)

Section properties.
Context `{FL : Floats} `{HL : HostLib} `{CR : Crypto} `{AC : AuthCrypto} `{CT : CaseTables} `{UT : UnicodeTables}
  `{AH : !AuthHost} `{K : !Kernel} {S : Type} `{KD : KVDriver S}.
Implicit Types (s : AuthState S).

(** The account of a caller, stored under its id. *)
Definition own_account (request : Request) (uid : string) (u : User) s : Prop :=
  UserID (AuthCtx request) ≠ "" ∧ uuid_in (UserID (AuthCtx request)) = Some uid ∧ users (st_db s) !! uid = Some u ∧ u_ID u = uid
  ∧ unique_user u (users (st_db s)) = true.

(** Only the row of the account changes: it may be written again. *)
Lemma unique_user_insert u u' m : u_ID u' = u_ID u → u_Email u' = u_Email u → u_Phone u' = u_Phone u →
  unique_user u m = true → unique_user u' (<[u_ID u := u']> m) = true.
Proof.
  intros Hid He Hp. unfold unique_user. rewrite Hid, He, Hp.
  destruct (first_row _ m) eqn:E; [done|]. intros _. rewrite first_row_none in E.
  rewrite (proj2 (first_row_none _ _)); [done|]. intros k v [[<- <-]|[Hne Hv]]%lookup_insert_Some; [|by apply E in Hv].
  by rewrite Hid, String.eqb_refl.
Qed.

Lemma update_properties_run now properties request uid u s : own_account request uid u s →
  ∃ s', run (handleUpdateUserProperties (auth_ok now) (Input properties) request) s
    = (MkAuthResponse 200 (PropertiesResponse (properties_of (jsonb_concat (u_Properties u) (properties_json properties)))) CookieUntouched, s')
  ∧ own_account request uid (with_properties (auth_ok now) (properties_json properties) u) s'
  ∧ ∀ id, id ≠ uid → users (st_db s') !! id = users (st_db s) !! id.
Proof.
  intros (Hne & Hid & Hu & Huid & Huniq). unfold handleUpdateUserProperties, authenticated.
  rewrite (proj2 (String.eqb_neq (UserID _) "")) by done. rewrite run_ret. cbn [decoded]. rewrite run_ret.
  unfold update_user. rewrite run_bind, run_stmt by done. unfold update_user_row, row_by_id. rewrite Hid. cbn [mbind option_bind].
  rewrite Hu. cbn [mbind option_bind]. unfold put_user. set (u' := with_properties _ _ u).
  change (unique_user u' (users (st_db s))) with (unique_user u (users (st_db s))). rewrite Huniq.
  eexists. split; [reflexivity|]. cbn [st_db set_db publish]. change (u_ID u') with (u_ID u). rewrite Huid. split.
  - split; [done|]. split; [done|]. split; [cbn; apply lookup_insert_eq|]. split; [done|].
    cbn. change (u_ID u') with (u_ID u). rewrite <- Huid at 1. by apply unique_user_insert.
  - intros id Hne'. cbn. by rewrite lookup_insert_ne.
Qed.

(** An update merges an object into the properties of the caller.  But one
    without properties (the body [{}]) concatenates a JSON null: the stored
    object becomes an array, the account is shown without properties from
    then on, and no later update brings them back. *)
Theorem null_properties_lose_map now request uid u m s : own_account request uid u s → u_Properties u = AMap m →
  (∀ m', (run (handleUpdateUserProperties (auth_ok now) (Input (Some m')) request) s).1
         = MkAuthResponse 200 (PropertiesResponse (AMap (foldl (λ m kv, map_set m kv.1 kv.2) m m'))) CookieUntouched)
  ∧ let '(r, s') := run (handleUpdateUserProperties (auth_ok now) (Input None) request) s in
    r = MkAuthResponse 200 (PropertiesResponse (AMap [])) CookieUntouched
    ∧ (∃ u', users (st_db s') !! uid = Some u' ∧ u_Properties u' = AList [AMap m; ANil])
    ∧ ∀ now' m', (run (handleUpdateUserProperties (auth_ok now') (Input (Some m')) request) s').1
                 = MkAuthResponse 200 (PropertiesResponse (AMap [])) CookieUntouched.
Proof.
  intros Hown Hm. split.
  - intros m'. destruct (update_properties_run now (Some m') request uid u s Hown) as (s' & -> & _). by rewrite Hm.
  - destruct (update_properties_run now None request uid u s Hown) as (s' & -> & Hown' & _). rewrite Hm. split; [done|].
    assert (Hp : u_Properties (with_properties (auth_ok now) (properties_json None) u) = AList [AMap m; ANil]) by (cbn; by rewrite Hm).
    split; [by destruct Hown' as (_ & _ & ? & _); eexists|]. intros now' m'.
    destruct (update_properties_run now' (Some m') request uid _ s' Hown') as (s'' & -> & _). by rewrite Hp.
Qed.
End properties.

(** ** Concrete instances *)

Local Existing Instance integer_floats.
Local Existing Instance sample_auth_host.
Local Existing Instance sample_kernel.
Local Existing Instance sample_host.
Local Existing Instance sample_pg.
Local Existing Instance sample_signatures.
Local Existing Instance sample_case.
Local Existing Instance sample_auth_crypto.
Local Existing Instance ascii_tables.

Lemma alice_token token : token = "t1" ∨ token = "t2" → token_of "alice" token (sample_auth_state ∅).
Proof.
  intros Ht. split; [by destruct Ht as [-> | ->]|]. split; [by destruct Ht as [-> | ->]|]. split.
  - destruct Ht as [-> | ->]; [exists "s1", (alice_session "s1" (HashRefreshToken "t1"))|exists "s2", (alice_session "s2" (HashRefreshToken "t2"))];
      repeat split.
  - intros id x Hx _. cbn [sample_auth_state st_db sessions] in Hx.
    rewrite lookup_insert_Some, lookup_singleton_Some in Hx. by destruct Hx as [[<- <-]|[_ [<- <-]]].
Qed.

Lemma lock_user_ends_sessions_witness :
  let '(r, s') := run (handleLockUser (sample_auth_config true) (auth_ok (unix_time 100)) true "alice" (Some (unix_time 5000))) (sample_auth_state ∅) in
  r_Status r = 200
  ∧ run (handleRefreshToken (sample_auth_config true) (auth_ok (unix_time 200)) (Input "t1") (caller "" "")) s' = (refused, s').
Proof.
  pose proof (lock_user_ends_sessions (KL := DatabaseKVStore_laws) (sample_auth_config true) (unix_time 100) "alice" "alice" alice (Some (unix_time 5000))
    (sample_auth_state ∅) eq_refl eq_refl eq_refl eq_refl) as Hw.
  destruct (run _ _) as [r s']. destruct Hw as (Hs & _ & _ & Hw). split; [exact Hs|]. apply Hw; [by apply alice_token; left| |done].
  unfold unix_time, Second. cbn. lia.
Defined.

Lemma delete_account_complete_witness :
  let '(r, s') := run (handleDeleteUser (auth_ok (unix_time 100)) (caller "alice" "s1")) (sample_auth_state ∅) in
  r_Status r = 204
  ∧ run (handleRefreshToken (sample_auth_config true) (auth_ok (unix_time 200)) (Input "t2") (caller "" "")) s' = (refused, s').
Proof.
  pose proof (delete_account_complete (KL := DatabaseKVStore_laws) (sample_auth_config true) (unix_time 100) (caller "alice" "s1") "alice" alice
    (sample_auth_state ∅) ltac:(done) eq_refl eq_refl) as Hw.
  destruct (run _ _) as [r s']. destruct Hw as (-> & _ & _ & _ & Hw). split; [done|]. apply Hw; [by apply alice_token; right| |done].
  unfold unix_time, Second. cbn. lia.
Defined.

(** Alice with a session in the cache. *)
Definition cached_state : AuthState KVTable :=
  sample_auth_state {[session_key (HashRefreshToken "t1") := MkKVRow "alice" (unix_time 900)]}.

Lemma deleted_account_still_refreshes_witness :
  let '(r, s') := run (operator_handleDeleteUser (auth_ok (unix_time 50)) true "alice") cached_state in
  r_Status r = 204 ∧ users (st_db s') !! "alice" = None
  ∧ ∃ t cookie s'', run (handleRefreshToken (sample_auth_config true) (auth_ok (unix_time 100)) (Input "t1") (caller "" "")) s'
      = (MkAuthResponse 200 (TokenResponse t) cookie, s'') ∧ u_ID (at_User t) = "alice".
Proof.
  pose proof (deleted_account_still_refreshes (KL := DatabaseKVStore_laws) (sample_auth_config true) (unix_time 50) "alice" "alice" alice
    cached_state eq_refl eq_refl) as Hw.
  destruct (run _ _) as [r s']. destruct Hw as (Hs & Hu & _ & Hw). split; [exact Hs|]. split; [exact Hu|].
  by apply (Hw "t1" (auth_ok (unix_time 100)) (caller "" "") (MkCachedSession (zero_user "alice") []) "alice").
Defined.

Lemma null_properties_lose_map_witness :
  let '(r, s') := run (handleUpdateUserProperties (auth_ok (unix_time 50)) (Input None) (caller "alice" "s1")) (sample_auth_state ∅) in
  r_Body r = PropertiesResponse (AMap []) ∧ ∃ u', users (st_db s') !! "alice" = Some u' ∧ u_Properties u' = AList [AMap []; ANil].
Proof.
  destruct (null_properties_lose_map (unix_time 50) (caller "alice" "s1") "alice" alice [] (sample_auth_state ∅)) as [_ Hw]; [|done|].
  { split; [done|]. repeat split. }
  destruct (run _ _) as [r s']. destruct Hw as (-> & Hu & _). split; [done|exact Hu].
Defined.
