(* ===== verification/AuthVerification.v ===== *)
(** * auth/base_handler_verification.go: addresses and their verification

    Requesting and confirming the verification of an email address or phone
    number, and changing one's own.  The handlers of the two kinds of address
    share their steps; [isEmail] tells them apart.  What the theorems show:
    these handlers verify an address only by its newest code, within its life
    and five guesses, and all its codes are spent then; and that a locked
    account renews its tokens here. *)

From stdpp Require Import strings gmap.
From Stdlib Require Import ZArith Lia Ascii String.
From S2P Require Import Prelude GoStrings GoTime GoRunes GoValues Scopes ServiceAccounts KVStore SignInRisk DataCache Tokens AuthCodes AuthModel AuthMonad AuthSessions AuthThreat AuthPassword AuthFactors AuthUsers.
Local Open Scope string_scope.
Local Open Scope Z_scope.
Local Open Scope auth_scope.

Definition maxOtpAttempts : Z := 5.

Section verification.
Context `{FL : Floats} `{HL : HostLib} `{CR : Crypto} `{AC : AuthCrypto} `{CT : CaseTables} `{UT : UnicodeTables}
  `{AH : !AuthHost} `{K : !Kernel} {S : Type} `{KD : KVDriver S}.
Context (config : AuthConfig) (env : AuthEnv).
Let now := ae_now env.

Definition verification_purpose (isEmail : bool) : string := if isEmail then "email_verification" else "phone_verification".

(** The account of an address, and whether the address is verified. *)
Definition select_address (isEmail : bool) (recipient : string) : Handler S (option User) :=
  query env StSelectAddress (λ t, first_row (has_address isEmail recipient) (users t)).
Definition verified_at (isEmail : bool) (u : User) : option Z := if isEmail then u_EmailVerifiedAt u else u_PhoneVerifiedAt u.

Definition in_use {A} (isEmail : bool) : Handler S A :=
  reject 409 (if isEmail then "Email is already in use by another account" else "Phone number is already in use by another account").

(** The code stored and sent; the event names the user [target] finds. *)
Definition send_verification (isEmail : bool) (recipient userID : string) (target : Handler S (option User)) : Handler S AuthResponse :=
  let purpose := verification_purpose isEmail in
  let* code := draw_code in
  let* n := draw in
  exec env StInsertOTP (with_otps (insert (new_uuid n)
    (MkOTP (new_uuid n) recipient (HashCode code) purpose 0 (now + CodeTTL) now))) ;;
  kv_Set env (otp_key purpose recipient) code CodeTTL ;;
  send (if isEmail then EmailVerification recipient code userID else SMSVerification recipient code userID) ;;
  let* targetUser := target in
  publish recipient (OTPSent recipient purpose (otp_channel isEmail) targetUser) ;;
  respond 204 NoContent.

(** ** Requests *)

(** The address given, else the one of the token. *)
Definition named_address (given ofToken : string) : string := if String.eqb given "" then ofToken else given.

(** From the address on; [userID] is what the message carries. *)
Definition request_verification (isEmail : bool) (recipient : string) (userID : option User → string) (request : Request) : Handler S AuthResponse :=
  let authUserID := UserID (AuthCtx request) in
  let* existing := select_address isEmail recipient in
  let go := send_verification isEmail recipient (userID existing)
    (if negb (String.eqb authUserID "") then select_user env authUserID
     else match existing with
          | Some u => if String.eqb (u_ID u) "" then ret None else select_user env (u_ID u)
          | None => ret None end) in
  if negb (String.eqb authUserID "") then
    match existing with
    | Some u =>
        if negb (String.eqb (u_ID u) authUserID) then in_use isEmail
        else match verified_at isEmail u with
             | Some _ => respond 200 (AlreadyVerified (if isEmail then "Email is already verified" else "Phone number is already verified") recipient)
             | None => go
             end
    | None => go
    end
  else match existing with
       | None => respond 204 NoContent
       | Some u => match verified_at isEmail u with Some _ => respond 204 NoContent | None => go end
       end.

Definition input_or_empty (body : Decoded string) : string := match body with Input value => value | _ => "" end.

Definition handleRequestEmailVerification (body : Decoded string) (request : Request) : Handler S AuthResponse :=
  let recipient := named_address (normal_email (input_or_empty body)) (normal_email (Email (JWT (AuthCtx request)))) in
  if String.eqb recipient "" || negb (Contains recipient "@") then reject 400 "Email address is required" else
  delivery_ready config true ;;
  request_verification true recipient (λ _, UserID (AuthCtx request)) request.

(** The message carries the caller, else the account of the number. *)
Definition handleRequestPhoneVerification (body : Decoded string) (request : Request) : Handler S AuthResponse :=
  let recipient := named_address (TrimSpace (input_or_empty body)) (TrimSpace (Phone (JWT (AuthCtx request)))) in
  if String.eqb recipient "" then reject 400 "Phone number is required" else
  let* recipient := normal_phone recipient in
  delivery_ready config false ;;
  request_verification false recipient
    (λ existing, if String.eqb (UserID (AuthCtx request)) "" then match existing with Some u => u_ID u | None => "" end
                 else UserID (AuthCtx request)) request.

(** ** Confirmations *)

(** [WHERE recipient = $1 AND purpose = $2 ORDER BY created_at DESC LIMIT 1]. *)
Definition of_purpose (recipient purpose : string) (o : OTP) : bool := String.eqb (o_Recipient o) recipient && String.eqb (o_Purpose o) purpose.
Definition newest_code (recipient purpose : string) (t : AuthTables) : option OTP :=
  list.head (sort_by newer_otp (List.filter (of_purpose recipient purpose) (snd <$> map_to_list (otps t)))).

Definition spend_codes (recipient purpose : string) : Handler S (option unit) :=
  exec env StDropCodes (with_otps (filter (λ kv, of_purpose recipient purpose kv.2 = false))).

Definition address_verified (isEmail : bool) (u : User) : AuthEventData := if isEmail then UserEmailVerified u else UserPhoneVerified u.

(** [email IS NULL AND phone IS NULL AND is_anonymous]. *)
Definition is_guest (u : User) : bool := bool_decide (u_Email u = None) && bool_decide (u_Phone u = None) && u_IsAnonymous u.

(** The caller takes the address, whose owner may have been any account. *)
Definition confirm_as_caller (isEmail : bool) (recipient authUserID : string) (request : Request) : Handler S AuthResponse :=
  let* guest := query env StSelectUser (λ t, is_guest <$> row_by_id authUserID (users t)) in
  let* row := update_user env (with_address env isEmail recipient) authUserID in
  match row with
  | None => unavailable
  | Some user =>
      publish (u_ID user) (address_verified isEmail user) ;;
      publish (u_ID user) (UserUpdated user) ;;
      when default false guest then publish (u_ID user) (UserConverted user) ;;
      issueSessionResponse config env request user "otp" ""
  end.

Definition with_verified (isEmail : bool) (u : User) : User :=
  touched env (MkUser (u_ID u) (u_Email u) (u_Phone u) (u_PasswordHash u) (u_EncryptedMFASecret u) (u_MFAEnabled u) (u_Role u) (u_IsAnonymous u)
    (if isEmail then Some now else u_EmailVerifiedAt u) (if isEmail then u_PhoneVerifiedAt u else Some now)
    (u_LockedUntil u) (u_Properties u) (u_CreatedAt u) (u_LastUpdatedAt u)).

Definition confirm_address (isEmail : bool) (recipient : string) : Handler S AuthResponse :=
  let* row := stmt env StUpdateUser (λ t, u ← first_row (has_address isEmail recipient) (users t); put_user (with_verified isEmail u) t) in
  match row with
  | None => unavailable
  | Some u =>
      let user := scanned u in
      publish (u_ID user) (address_verified isEmail user) ;;
      publish (u_ID user) (UserUpdated user) ;;
      respond 200 (Verified (if isEmail then "Email successfully verified" else "Phone number successfully verified"))
  end.

Definition confirm_verification (isEmail : bool) (recipient code : string) (request : Request) : Handler S AuthResponse :=
  let purpose := verification_purpose isEmail in
  let* found := query env StSelectOTP (newest_code recipient purpose) in
  match found with
  | None => reject 400 "Invalid or expired verification code"
  | Some o =>
      if IsExpired now (o_ExpiresAt o) then reject 400 "Verification code has expired" else
      if maxOtpAttempts <=? o_Attempts o then delete_otp env (o_ID o) ;; reject 400 "Maximum attempts exceeded" else
      if negb (VerifyCode code (o_CodeHash o)) then
        count_attempt env (o_ID o) ;;
        otp_failed recipient purpose (otp_channel isEmail) "invalid_code" request ;;
        reject 400 "Invalid verification code"
      else
        spend_codes recipient purpose ;;
        kv_Delete env (otp_key purpose recipient) ;;
        let authUserID := UserID (AuthCtx request) in
        if negb (String.eqb authUserID "") then confirm_as_caller isEmail recipient authUserID request
        else confirm_address isEmail recipient
  end.

(** The address and the code of the body. *)
Definition handleConfirmEmailVerification (body : Decoded (string * string)) (request : Request) : Handler S AuthResponse :=
  let* input := decoded body in
  let recipient := named_address (normal_email (fst input)) (normal_email (Email (JWT (AuthCtx request)))) in
  let code := TrimSpace (snd input) in
  if String.eqb recipient "" || String.eqb code "" then reject 400 "Email and verification code are required" else
  confirm_verification true recipient code request.

Definition handleConfirmPhoneVerification (body : Decoded (string * string)) (request : Request) : Handler S AuthResponse :=
  let* input := decoded body in
  let recipient := named_address (TrimSpace (fst input)) (TrimSpace (Phone (JWT (AuthCtx request)))) in
  let code := TrimSpace (snd input) in
  if String.eqb recipient "" || String.eqb code "" then reject 400 "Phone number and verification code are required" else
  let* recipient := normal_phone recipient in
  confirm_verification false recipient code request.

(** ** Changing one's address *)

(** A guest's account gets the address, not verified. *)
Definition with_new_address (isEmail : bool) (recipient : string) (u : User) : User :=
  touched env (MkUser (u_ID u) (if isEmail then Some recipient else u_Email u) (if isEmail then u_Phone u else Some recipient)
    (u_PasswordHash u) (u_EncryptedMFASecret u) (u_MFAEnabled u) (u_Role u) false (u_EmailVerifiedAt u) (u_PhoneVerifiedAt u)
    (u_LockedUntil u) (u_Properties u) (u_CreatedAt u) (u_LastUpdatedAt u)).

(** [Exec] of an update: no row is no error. *)
Definition exec_user (f : User → User) (id : string) (t : AuthTables) : option (unit * AuthTables) :=
  id' ← uuid_in id;
  match users t !! id' with
  | None => Some (tt, t)
  | Some u => '(_, t') ← put_user (f u) t; Some (tt, t')
  end.

(** [resolveAnonymousCaller] fails with an error other than not found. *)
Definition lookup_failed (request : Request) : bool :=
  negb (String.eqb (UserID (AuthCtx request)) "")
  && (ae_fails env StSelectUser || bool_decide (uuid_in (UserID (AuthCtx request)) = None)).

Definition convert_caller (isEmail : bool) (recipient : string) (guest : option User) : Handler S (option User) :=
  match guest with
  | None => ret None
  | Some guest =>
      let* updated := stmt env StUpdateUser (exec_user (with_new_address isEmail recipient) (u_ID guest)) in
      match updated with
      | None => unavailable
      | Some _ =>
          let guest := with_new_address isEmail recipient guest in
          publish (u_ID guest) (UserConverted guest) ;; ret (Some guest)
      end
  end.

Definition change_address (isEmail : bool) (recipient authUserID : string) (request : Request) : Handler S AuthResponse :=
  let* existing := select_address isEmail recipient in
  if match existing with Some u => negb (String.eqb (u_ID u) authUserID) | None => false end then in_use isEmail else
  let* guest := resolveAnonymousCaller env request in
  if lookup_failed request then unavailable else
  let* guest := convert_caller isEmail recipient guest in
  send_verification isEmail recipient authUserID
    (match guest with Some guest => ret (Some guest) | None => select_user env authUserID end).

Definition handleUpdateUserEmail (body : Decoded string) (request : Request) : Handler S AuthResponse :=
  let* authUserID := authenticated request in
  let* input := decoded body in
  let recipient := normal_email input in
  if String.eqb recipient "" || negb (Contains recipient "@") then reject 400 "Valid email address is required" else
  delivery_ready config true ;;
  change_address true recipient authUserID request.

Definition handleUpdateUserPhone (body : Decoded string) (request : Request) : Handler S AuthResponse :=
  let* authUserID := authenticated request in
  let* input := decoded body in
  let recipient := TrimSpace input in
  if String.eqb recipient "" then reject 400 "Phone number is required" else
  let* recipient := normal_phone recipient in
  delivery_ready config false ;;
  change_address false recipient authUserID request.
End verification.

(** ** What a confirmation proves *)

Section confirming.
Context `{FL : Floats} `{HL : HostLib} `{CR : Crypto} `{AC : AuthCrypto} `{CT : CaseTables} `{UT : UnicodeTables}
  `{AH : !AuthHost} `{K : !Kernel} {S : Type} `{KD : KVDriver S}.
Context (config : AuthConfig).
Implicit Types (s : AuthState S).

(** The address is that of an account, verified at [now]; the codes are [m]. *)
Definition address_proved (now : Z) (isEmail : bool) (recipient : string) (m : gmap string OTP) (t : AuthTables) : Prop :=
  otps t = m ∧ ∃ id u, users t !! id = Some u ∧ has_address isEmail recipient u = true ∧ verified_at isEmail u = Some now.

Lemma keeps_proved_issue env now isEmail recipient m request user method p :
  keeps (of_db (address_proved now isEmail recipient m)) (issueSessionResponse (S := S) config env request user method p).
Proof.
  apply keeps_issue. intros id uid hash ip ua e n t x t' Ht E. unfold insert_session in E.
  apply bind_Some in E as (u & _ & (a & _ & [= _ <-])%bind_Some). exact Ht.
Qed.

Lemma put_user_proved now isEmail recipient u t x t' : has_address isEmail recipient u = true → verified_at isEmail u = Some now →
  put_user u t = Some (x, t') → address_proved now isEmail recipient (otps t) t'.
Proof.
  intros Ha Hv E. unfold put_user in E. destruct (unique_user u (users t)); [|done]. injection E as <- <-. split; [done|].
  exists (u_ID u), u. split; [cbn; apply lookup_insert_eq|done].
Qed.

Lemma has_address_refl isEmail recipient env u :
  has_address isEmail recipient (with_address env isEmail recipient u) = true ∧ verified_at isEmail (with_address env isEmail recipient u) = Some (ae_now env).
Proof. unfold has_address, opt_eqb. destruct isEmail; cbn; (split; [by apply bool_decide_eq_true_2|done]). Qed.

(** Steps on the account after the code: an answer 200 means the address is
    proved, and the codes are left alone. *)
Lemma confirm_as_caller_spec now isEmail recipient authUserID request s :
  let '(r, s') := run (confirm_as_caller config (auth_ok now) isEmail recipient authUserID request) s in
  r_Status r = 200 → address_proved now isEmail recipient (otps (st_db s)) (st_db s').
Proof.
  destruct (run _ s) as [r s'] eqn:E. intros Hr. unfold confirm_as_caller in E. rewrite run_query in E by done.
  unfold update_user in E. rewrite run_bind, run_stmt in E by done. unfold update_user_row in E.
  destruct (row_by_id authUserID (users (st_db s))) as [u|] eqn:Eu; cbn [mbind option_bind] in E; [|rewrite run_ret in E; by injection E as <- <-].
  destruct (put_user _ (st_db s)) as [[u' t']|] eqn:Ep; [|rewrite run_ret in E; by injection E as <- <-].
  rewrite run_ret in E. cbn [fmap option_fmap option_map] in E.
  assert (Ht : address_proved now isEmail recipient (otps (st_db s)) t').
  { destruct (has_address_refl isEmail recipient (auth_ok now) u) as [H1 H2]. by apply (put_user_proved now isEmail recipient _ _ _ _ H1 H2 Ep). }
  match type of E with run ?h ?s1 = _ => assert (Hk : keeps (of_db (address_proved now isEmail recipient (otps (st_db s)))) h) end.
  { keeps_walk. apply keeps_proved_issue. }
  apply (keeps_run _ _ (set_db t' s) Hk) in Ht. rewrite E in Ht. exact Ht.
Qed.

Lemma confirm_address_spec now isEmail recipient s :
  let '(r, s') := run (confirm_address (auth_ok now) isEmail recipient) s in
  r_Status r = 200 → address_proved now isEmail recipient (otps (st_db s)) (st_db s').
Proof.
  destruct (run _ s) as [r s'] eqn:E. intros Hr. unfold confirm_address in E. rewrite run_stmt in E by done.
  destruct (first_row _ _) as [u|] eqn:Eu; cbn [mbind option_bind] in E; [|by injection E as <- <-].
  apply first_row_some in Eu as [Ha _]. destruct (put_user _ (st_db s)) as [[u' t']|] eqn:Ep; [|by injection E as <- <-].
  assert (Ht : address_proved now isEmail recipient (otps (st_db s)) t').
  { eapply put_user_proved; [| |exact Ep]; [by destruct isEmail|by destruct isEmail]. }
  injection E as <- <-. exact Ht.
Qed.

(** The address a confirmation is about. *)
Definition confirmed_address (isEmail : bool) (given : string) (request : Request) : option string :=
  if isEmail then Some (named_address (normal_email given) (normal_email (Email (JWT (AuthCtx request)))))
  else NormalizePhone (named_address (TrimSpace given) (TrimSpace (Phone (JWT (AuthCtx request))))).

Lemma newest_code_in recipient purpose t o : newest_code recipient purpose t = Some o → of_purpose recipient purpose o = true.
Proof.
  unfold newest_code. intros Hh. assert (Hin : o ∈ sort_by newer_otp (List.filter (of_purpose recipient purpose) (snd <$> map_to_list (otps t)))).
  { destruct (sort_by _ _); [done|]. injection Hh as ->. by left. }
  rewrite (sort_by_perm newer_otp) in Hin. by apply list_elem_of_In, filter_In in Hin as [_ ?].
Qed.

Lemma confirm_verification_spec now isEmail recipient code request s :
  let purpose := verification_purpose isEmail in
  let '(r, s') := run (confirm_verification config (auth_ok now) isEmail recipient code request) s in
  r_Status r = 200 → ∃ o, newest_code recipient purpose (st_db s) = Some o ∧ now <= o_ExpiresAt o ∧ o_Attempts o < maxOtpAttempts
    ∧ VerifyCode code (o_CodeHash o) = true
    ∧ address_proved now isEmail recipient (filter (λ kv, of_purpose recipient purpose kv.2 = false) (otps (st_db s))) (st_db s').
Proof.
  cbv zeta. destruct (run _ s) as [r s'] eqn:E. intros Hr. unfold confirm_verification in E. rewrite run_query in E by done.
  destruct (newest_code _ _ _) as [o|] eqn:Eo; [|by injection E as <- <-].
  destruct (IsExpired _ _) eqn:Ex; [by injection E as <- <-|].
  destruct (maxOtpAttempts <=? o_Attempts o) eqn:Ea; [unfold delete_otp, exec in E; rewrite run_stmt in E by done; by injection E as <- <-|].
  destruct (VerifyCode code _) eqn:Ev; cbn [negb] in E.
  2: { unfold count_attempt, exec in E. rewrite run_stmt in E by done. by injection E as <- <-. }
  exists o. split; [done|]. split; [by apply Z.ltb_ge in Ex|]. split; [by apply Z.leb_gt|]. split; [done|].
  unfold spend_codes, exec in E. rewrite run_stmt in E by done. unfold kv_Delete in E. rewrite run_on_kv in E. set (s1 := set_kv _ _) in E.
  change (filter _ (otps (st_db s))) with (otps (st_db s1)).
  destruct (negb _).
  - pose proof (confirm_as_caller_spec now isEmail recipient (UserID (AuthCtx request)) request s1) as Hc. rewrite E in Hc. by apply Hc.
  - pose proof (confirm_address_spec now isEmail recipient s1) as Hc. rewrite E in Hc. by apply Hc.
Qed.

Definition handleConfirmVerification (isEmail : bool) (env : AuthEnv) (body : Decoded (string * string)) (request : Request) : Handler S AuthResponse :=
  if isEmail then handleConfirmEmailVerification config env body request else handleConfirmPhoneVerification config env body request.

(** C23: The confirmation endpoints for email and phone, when no statement fails,
    verify an address only by its newest code, within the life of the code
    and after fewer than five attempts: an answer 200 means that the code
    was presented, that an account now has the address, verified, and that
    every code sent to verify the address, and no other, is gone. (The
    one-time code endpoint verifies addresses too, without a limit of
    attempts.) *)
Theorem verification_sound now isEmail body request s :
  let purpose := verification_purpose isEmail in
  let '(r, s') := run (handleConfirmVerification isEmail (auth_ok now) body request) s in
  r_Status r = 200 → ∃ input recipient o, body = Input input ∧ confirmed_address isEmail (fst input) request = Some recipient
    ∧ newest_code recipient purpose (st_db s) = Some o ∧ now <= o_ExpiresAt o ∧ o_Attempts o < maxOtpAttempts
    ∧ VerifyCode (TrimSpace (snd input)) (o_CodeHash o) = true
    ∧ (∀ id o', otps (st_db s') !! id = Some o' ↔ otps (st_db s) !! id = Some o' ∧ of_purpose recipient purpose o' = false)
    ∧ ∃ id u, users (st_db s') !! id = Some u ∧ has_address isEmail recipient u = true ∧ verified_at isEmail u = Some now.
Proof.
  cbv zeta. assert (Hend : ∀ input recipient, confirmed_address isEmail (fst input) request = Some recipient →
    let '(r, s') := run (confirm_verification config (auth_ok now) isEmail recipient (TrimSpace (snd input)) request) s in
    r_Status r = 200 → ∃ input' recipient o, Input input = Input input' ∧ confirmed_address isEmail (fst input') request = Some recipient
    ∧ newest_code recipient (verification_purpose isEmail) (st_db s) = Some o ∧ now <= o_ExpiresAt o ∧ o_Attempts o < maxOtpAttempts
    ∧ VerifyCode (TrimSpace (snd input')) (o_CodeHash o) = true
    ∧ (∀ id o', otps (st_db s') !! id = Some o' ↔ otps (st_db s) !! id = Some o' ∧ of_purpose recipient (verification_purpose isEmail) o' = false)
    ∧ ∃ id u, users (st_db s') !! id = Some u ∧ has_address isEmail recipient u = true ∧ verified_at isEmail u = Some now).
  { intros input recipient Hin. pose proof (confirm_verification_spec now isEmail recipient (TrimSpace (snd input)) request s) as Hc. cbv zeta in Hc.
    destruct (run _ s) as [r s']. intros Hr. destruct (Hc Hr) as (o & Ho & Hx & Ha & Hv & Hotps & Hu). exists input, recipient, o.
    do 6 (split; [done|]). split; [|done]. intros id o'. rewrite Hotps, map_lookup_filter_Some. done. }
  unfold handleConfirmVerification. destruct isEmail.
  - unfold handleConfirmEmailVerification. destruct body as [| |input]; [done..|]. cbn [decoded]. rewrite run_ret.
    destruct (_ || _); [done|]. by apply Hend.
  - unfold handleConfirmPhoneVerification. destruct body as [| |input]; [done..|]. cbn [decoded]. rewrite run_ret.
    destruct (_ || _); [done|]. unfold normal_phone. destruct (NormalizePhone _) as [phone|] eqn:En; [|done]. rewrite run_ret.
    by apply Hend.
Qed.

(** A locked account can renew its tokens by verifying an address: the
    confirmation does not read the lock, where every other way in does. *)
Theorem locked_account_verifies now recipient code request uid u o s : own_account request uid u s →
  locked now u = true → u_Email u = Some recipient → TrimSpace code ≠ "" → recipient ≠ "" → normal_email recipient = recipient →
  newest_code recipient "email_verification" (st_db s) = Some o → now <= o_ExpiresAt o → o_Attempts o < maxOtpAttempts →
  VerifyCode (TrimSpace code) (o_CodeHash o) = true →
  let '(r, s') := run (handleConfirmEmailVerification config (auth_ok now) (Input (recipient, code)) request) s in
  r_Status r = 200 ∧ ∃ t, r_Body r = TokenResponse t ∧ u_ID (at_User t) = uid ∧ locked now (at_User t) = true.
Proof.
  intros (Hne & Hid & Hu & Huid & Huniq) Hl He Hc Hr Hn Ho Hx Ha Hv. unfold handleConfirmEmailVerification. cbn [decoded]. rewrite run_ret.
  cbn [fst snd]. rewrite Hn. unfold named_address. rewrite (proj2 (String.eqb_neq recipient "")), (proj2 (String.eqb_neq (TrimSpace code) "")) by done.
  cbv iota. rewrite (proj2 (String.eqb_neq recipient "")) by done. cbn [orb]. unfold confirm_verification. rewrite run_query by done. cbn [verification_purpose].
  rewrite Ho. unfold IsExpired. cbn [ae_now auth_ok]. rewrite (proj2 (Z.ltb_ge _ _)), (proj2 (Z.leb_gt _ _)), Hv by done. cbn [negb].
  unfold spend_codes, exec. rewrite run_stmt by done. unfold kv_Delete. rewrite run_on_kv. rewrite (proj2 (String.eqb_neq (UserID _) "")) by done. cbn [negb].
  set (s1 := set_kv _ _). unfold confirm_as_caller. rewrite run_query by done.
  unfold update_user. rewrite run_bind, run_stmt by done. unfold update_user_row, row_by_id. rewrite Hid. cbn [mbind option_bind].
  change (users (st_db s1)) with (users (st_db s)). rewrite Hu. cbn [mbind option_bind]. unfold put_user.
  assert (unique_user (with_address (auth_ok now) true recipient u) (users (st_db s1)) = true) as ->.
  { etransitivity; [|exact Huniq]. unfold unique_user. cbn. by rewrite He. }
  rewrite run_ret. cbn [fmap option_fmap option_map]. set (u' := scanned _). set (s2 := set_db _ s1).
  match goal with |- context [run (hbind ?k ?h) s2] => destruct (run_quiet h k s2 (quiet_publish _ _)) as (a & s3 & -> & _) end.
  match goal with |- context [run (hbind ?k ?h) s3] => destruct (run_quiet h k s3 (quiet_publish _ _)) as (b & s4 & -> & _) end.
  match goal with |- context [run (hbind ?k ?h) s4] => assert (Hq : quiet h) by (destruct (default _ _); auto with auth);
    destruct (run_quiet h k s4 Hq) as (d & s5 & -> & _) end.
  destruct (issue_effect config (auth_ok now) request u' "otp" "" s5) as (t & s6 & row & E & Ht & _). unfold run. rewrite E. cbn.
  split; [done|]. exists t. split; [done|]. rewrite Ht. split; [exact Huid|exact Hl].
Qed.
End confirming.

(** ** Concrete instances *)

Local Existing Instance integer_floats.
Local Existing Instance sample_auth_host.
Local Existing Instance sample_kernel.
Local Existing Instance sample_host.
Local Existing Instance sample_pg.
Local Existing Instance sample_signatures.
Local Existing Instance sample_case.
Local Existing Instance sample_auth_crypto.
Local Existing Instance ascii_tables.

Lemma verification_sound_witness :
  let '(r, s') := run (handleConfirmVerification (sample_auth_config false) true (auth_ok (unix_time 100)) (Input (" alice@acme.com", "314159"))
                        (caller "" "")) (coded_state "email_verification") in
  r_Status r = 200 ∧ otps (st_db s') !! "o1" = None.
Proof.
  assert (Hs : r_Status (run (handleConfirmVerification (sample_auth_config false) true (auth_ok (unix_time 100)) (Input (" alice@acme.com", "314159"))
                        (caller "" "")) (coded_state "email_verification")).1 = 200) by reflexivity.
  pose proof (verification_sound (sample_auth_config false) (unix_time 100) true (Input (" alice@acme.com", "314159")) (caller "" "")
    (coded_state "email_verification")) as Hw. cbv zeta in Hw.
  destruct (run _ _) as [r s']. split; [exact Hs|].
  destruct (Hw Hs) as (input & recipient & o & [= <-] & Hr & _ & _ & _ & _ & Hotps & _).
  assert (Er : confirmed_address true " alice@acme.com" (caller "" "") = Some "alice@acme.com") by reflexivity.
  cbn [fst] in Hr. rewrite Er in Hr. apply (f_equal (default "")) in Hr. cbn [default from_option Datatypes.id] in Hr. rewrite <- Hr in Hotps.
  apply eq_None_not_Some. intros [o' Ho']. apply Hotps in Ho' as [Ho' Hp]. cbn in Ho'. rewrite lookup_singleton_eq in Ho'.
  injection Ho' as <-. vm_compute in Hp. discriminate Hp.
Defined.

(** Alice, locked until 5000. *)
Definition locked_alice : User :=
  MkUser "alice" (Some "alice@acme.com") None (Some "") None false "authenticated" false None None (Some (unix_time 5000)) (AMap []) 0 0.
Definition locked_state : AuthState KVTable :=
  MkAuthState (MkAuthTables {["alice" := locked_alice]} ∅ {["o1" := alice_code "email_verification"]} ∅ ∅) ∅ [] [] 7 ∅.

Lemma locked_account_verifies_witness :
  let '(r, s') := run (handleConfirmEmailVerification (sample_auth_config false) (auth_ok (unix_time 100)) (Input ("alice@acme.com", "314159"))
                        (caller "alice" "s1")) locked_state in
  r_Status r = 200 ∧ ∃ t, r_Body r = TokenResponse t ∧ locked (unix_time 100) (at_User t) = true.
Proof.
  pose proof (locked_account_verifies (sample_auth_config false) (unix_time 100) "alice@acme.com" "314159" (caller "alice" "s1") "alice" locked_alice
    (alice_code "email_verification") locked_state) as Hw.
  destruct (run _ _) as [r s']. destruct Hw as (Hs & t & Ht & _ & Hl); [by repeat split|reflexivity|reflexivity|done|done|reflexivity|reflexivity|done|done|reflexivity|].
  split; [exact Hs|by exists t].
Defined.
