(* ===== verification/AuthOAuth.v ===== *)
(** * auth/oauth/oauth.go and base_handler_oauth.go: signing in with a provider

    The settings of the providers with their presets, the exchange of a code,
    what is read of a profile, and the two handlers of the flow.  What the
    theorems show: explicit settings win over presets, a callback needs a state
    that was stored and spends it, and a provider that names an address signs
    in to the account that has it.

    Parameters ([OAuthHost]): the answers of the provider's endpoints, and the
    JSON of the payloads kept in the key-value store. *)

From stdpp Require Import strings gmap.
From Stdlib Require Import ZArith Lia Ascii String.
From S2P Require Import Prelude GoStrings GoTime GoRunes GoValues URLQuery Encodings Scopes ServiceAccounts KVStore SignInRisk DataCache Tokens AuthCodes AuthModel AuthMonad AuthSessions AuthThreat AuthPassword AuthFactors.
Local Open Scope string_scope.
Local Open Scope Z_scope.
Local Open Scope auth_scope.

(** ** Payloads *)

Record OAuthStatePayload := MkOAuthStatePayload {
  os_StateID : string; os_Provider : string; os_RedirectURI : string; os_OIDCStateID : string; os_AnonymousID : string;
  os_CreatedAtUnix : Z }.

Record OIDCAuthorizationStatePayload := MkStatePayload {
  sp_StateID : string; sp_ClientID : string; sp_RedirectURI : string; sp_Scope : string; sp_ClientState : string;
  sp_CodeChallenge : string; sp_CodeChallengeMethod : string; sp_Nonce : string; sp_CreatedAt : Z }.

Record OIDCAuthorizationCodePayload := MkCodePayload {
  cp_Code : string; cp_ClientID : string; cp_RedirectURI : string; cp_UserID : string; cp_Scope : string;
  cp_CodeChallenge : string; cp_CodeChallengeMethod : string; cp_Nonce : string }.

(** ** auth/oauth/oauth.go *)

Record ProviderPreset := MkProviderPreset {
  pp_AuthURL : string; pp_TokenURL : string; pp_UserInfoURL : string; pp_DefaultScopes : string; pp_ResponseMode : string;
  pp_ResponseType : string; pp_IDAttribute : string; pp_EmailAttribute : string; pp_NameAttribute : string; pp_AvatarAttribute : string }.

Definition Presets : list (string * ProviderPreset) :=
  [("google", MkProviderPreset "https://accounts.google.com/o/oauth2/v2/auth" "https://oauth2.googleapis.com/token"
      "https://openidconnect.googleapis.com/v1/userinfo" "openid email profile" "" "code" "sub" "email" "name" "picture");
   ("github", MkProviderPreset "https://github.com/login/oauth/authorize" "https://github.com/login/oauth/access_token"
      "https://api.github.com/user" "read:user user:email" "" "code" "id" "email" "name" "avatar_url");
   ("apple", MkProviderPreset "https://appleid.apple.com/auth/authorize" "https://appleid.apple.com/auth/token"
      "https://appleid.apple.com/auth/userinfo" "name email" "form_post" "code id_token" "sub" "email" "name" "");
   ("discord", MkProviderPreset "https://discord.com/api/oauth2/authorize" "https://discord.com/api/oauth2/token"
      "https://discord.com/api/users/@me" "identify email" "" "code" "id" "email" "username" "avatar")].

Record ProviderConfig := MkProviderConfig {
  pc_Name : string; pc_Preset : string; pc_AuthURL : string; pc_TokenURL : string; pc_UserInfoURL : string; pc_ClientID : string;
  pc_ClientSecret : string; pc_Scope : string; pc_ResponseMode : string; pc_ResponseType : string; pc_IDAttribute : string;
  pc_EmailAttribute : string; pc_NameAttribute : string; pc_AvatarAttribute : string }.

(** A setting, or what stands in for an empty one. *)
Definition or_else (a b : string) : string := if String.eqb a "" then b else a.

(** The settings a preset fills in. *)
Definition with_preset (presetKey : string) (p : ProviderPreset) (c : ProviderConfig) : ProviderConfig :=
  MkProviderConfig (pc_Name c) (or_else (pc_Preset c) presetKey) (or_else (pc_AuthURL c) (pp_AuthURL p))
    (or_else (pc_TokenURL c) (pp_TokenURL p)) (or_else (pc_UserInfoURL c) (pp_UserInfoURL p)) (pc_ClientID c) (pc_ClientSecret c)
    (or_else (pc_Scope c) (pp_DefaultScopes p)) (or_else (pc_ResponseMode c) (pp_ResponseMode p))
    (or_else (pc_ResponseType c) (pp_ResponseType p)) (or_else (pc_IDAttribute c) (pp_IDAttribute p))
    (or_else (pc_EmailAttribute c) (pp_EmailAttribute p)) (or_else (pc_NameAttribute c) (pp_NameAttribute p))
    (or_else (pc_AvatarAttribute c) (pp_AvatarAttribute p)).

Definition named (name : string) (c : ProviderConfig) : ProviderConfig :=
  MkProviderConfig (or_else (pc_Name c) name) (pc_Preset c) (pc_AuthURL c) (pc_TokenURL c) (pc_UserInfoURL c) (pc_ClientID c)
    (pc_ClientSecret c) (pc_Scope c) (pc_ResponseMode c) (pc_ResponseType c) (pc_IDAttribute c) (pc_EmailAttribute c)
    (pc_NameAttribute c) (pc_AvatarAttribute c).

Definition with_response_type (c : ProviderConfig) : ProviderConfig :=
  MkProviderConfig (pc_Name c) (pc_Preset c) (pc_AuthURL c) (pc_TokenURL c) (pc_UserInfoURL c) (pc_ClientID c) (pc_ClientSecret c)
    (pc_Scope c) (pc_ResponseMode c) (or_else (pc_ResponseType c) "code") (pc_IDAttribute c) (pc_EmailAttribute c) (pc_NameAttribute c)
    (pc_AvatarAttribute c).

(** [None]: the provider has no authorization or no token URL. *)
Definition ResolveProviderConfig (name : string) (providerConfig : ProviderConfig) : option ProviderConfig :=
  let c := named name providerConfig in
  let presetKey := or_else (pc_Preset c) name in
  let c := match map_get Presets presetKey with Some p => with_preset presetKey p c | None => c end in
  let c := with_response_type c in
  if String.eqb (pc_AuthURL c) "" || String.eqb (pc_TokenURL c) "" then None else Some c.

Definition BuildAuthorizeURLWithConfig (c : ProviderConfig) (redirectURI state : string) : option string :=
  if String.eqb (pc_ClientID c) "" then None else
  if String.eqb (pc_AuthURL c) "" then None else
  let queryValues : Values :=
    ([("client_id", pc_ClientID c); ("redirect_uri", redirectURI); ("response_type", or_else (pc_ResponseType c) "code")]
    ++ (if String.eqb (pc_Scope c) "" then [] else [("scope", pc_Scope c)])
    ++ (if String.eqb (pc_ResponseMode c) "" then [] else [("response_mode", pc_ResponseMode c)])
    ++ [("state", state)])%list in
  Some (pc_AuthURL c ++ (if Contains (pc_AuthURL c) "?" then "&" else "?") ++ values_Encode queryValues).

Section exchange.
Context `{FL : Floats}.

Record UserInfo := MkUserInfo {
  ui_Provider : string; ui_ProviderUserID : string; ui_UserEmail : string; ui_UserName : string; ui_AvatarURL : string;
  ui_UserProperties : list (string * any) }.

(** What is read of the answer to a code. *)
Record TokenPayload := MkTokenPayload { tp_AccessToken : string; tp_IDToken : string; tp_Error : string }.

Class OAuthHost := MkOAuthHost {
  (** The form posted to a token endpoint; a GET with a bearer token.  The body
      is the decoded JSON, if it is. *)
  token_post : string → Values → HTTPResult (option TokenPayload);
  userinfo_get : string → string → HTTPResult (option (list (string * any)));
  marshal_oauth_state : OAuthStatePayload → string; unmarshal_oauth_state : string → option OAuthStatePayload;
  marshal_oidc_state : OIDCAuthorizationStatePayload → string; unmarshal_oidc_state : string → option OIDCAuthorizationStatePayload;
  marshal_code : OIDCAuthorizationCodePayload → string; unmarshal_code : string → option OIDCAuthorizationCodePayload }.

(** [base64] with padding: line breaks are dropped, the length is a multiple of
    four, and the last group may end in one or two equals signs. *)
Definition padded_decode (alphabet s : string) : option string :=
  let t := string_of_list_ascii (List.filter (λ c, negb (is_newline c)) (list_ascii_of_string s)) in
  if negb (Nat.eqb (String.length t mod 4) 0) then None else base64_decode alphabet (TrimSuffix (TrimSuffix t "=") "=").

Definition pad4 (s : string) : string :=
  match (String.length s mod 4)%nat with 1%nat => s ++ "===" | 2%nat => s ++ "==" | 3%nat => s ++ "=" | _ => s end.

Context `{AH : !AuthHost} `{OH : !OAuthHost}.

Definition parseIDToken (idToken : string) : option (list (string * any)) :=
  match Split idToken "." with
  | _ :: payload :: _ =>
      match padded_decode url_alphabet (pad4 payload) with
      | Some decoded => unmarshal_claims_map decoded
      | None => decoded ← padded_decode std_alphabet (pad4 payload); unmarshal_claims_map decoded
      end
  | _ => None
  end.

Definition text_at (m : list (string * any)) (key : string) : option string :=
  match map_get m key with Some (AString s) => Some s | _ => None end.

(** The first member of a profile that is there. *)
Definition first_member (m : list (string * any)) (keys : list string) : option any := list.head (omap (map_get m) keys).
Definition first_text (m : list (string * any)) (keys : list string) : option string := list.head (omap (text_at m) keys).

Definition extractAttributes (m : list (string * any)) (c : ProviderConfig) : UserInfo :=
  MkUserInfo (pc_Name c)
    (match first_member m [or_else (pc_IDAttribute c) "sub"; "id"; "sub"] with Some v => format_v v | None => "" end)
    (default "" (text_at m (or_else (pc_EmailAttribute c) "email")))
    (default "" (first_text m [or_else (pc_NameAttribute c) "name"; "username"]))
    (default "" (first_text m [or_else (pc_AvatarAttribute c) "avatar_url"; "picture"]))
    m.

Definition is_2xx (status : Z) : bool := (200 <=? status) && (status <? 300).
Definition merge (m n : list (string * any)) : list (string * any) := foldl (λ m kv, map_set m kv.1 kv.2) m n.

(** The profile of the provider, when there is a URL and a token for it. *)
Definition fetch_profile (c : ProviderConfig) (accessToken : string) (m : list (string * any)) : option (list (string * any)) :=
  if String.eqb (pc_UserInfoURL c) "" || String.eqb accessToken "" then Some m else
  match userinfo_get (pc_UserInfoURL c) accessToken with
  | HTTPResponse status (Some profile) => if is_2xx status then Some (merge m profile) else None
  | _ => None
  end.

(** [None]: the exchange failed, or the profile names no user. *)
Definition ExchangeCodeWithConfig (c : ProviderConfig) (code redirectURI : string) : option UserInfo :=
  match token_post (pc_TokenURL c) [("client_id", pc_ClientID c); ("client_secret", pc_ClientSecret c); ("code", code);
                                    ("grant_type", "authorization_code"); ("redirect_uri", redirectURI)] with
  | HTTPResponse status (Some payload) =>
      if negb (is_2xx status) then None else
      if negb (String.eqb (tp_Error payload) "") then None else
      if String.eqb (tp_AccessToken payload) "" && String.eqb (tp_IDToken payload) "" then None else
      let claims := if String.eqb (tp_IDToken payload) "" then [] else merge [] (default [] (parseIDToken (tp_IDToken payload))) in
      rawProperties ← fetch_profile c (tp_AccessToken payload) claims;
      let userInfo := extractAttributes rawProperties c in
      if String.eqb (ui_ProviderUserID userInfo) "" then None else Some userInfo
  | _ => None
  end.
End exchange.

(** ** Requests with forms *)

Record ExchangeOAuthTokenInput := MkExchangeOAuthTokenInput {
  xi_Provider : string; xi_Code : string; xi_RedirectURI : string; xi_State : string }.

Record OAuthTokenInput := MkOAuthTokenInput {
  ti_GrantType : string; ti_ClientID : string; ti_ClientSecret : string; ti_Code : string; ti_RedirectURI : string;
  ti_CodeVerifier : string; ti_RefreshToken : string; ti_Scope : string; ti_Audience : string; ti_Provider : string }.

(** The query and the form of the body, as far as they parse; [fr_FormError]
    is whether [ParseForm] reports an error, [fr_BasicAuth] what [BasicAuth]
    gives, and the inputs are what is left of the body, decoded as JSON. *)
Record FormRequest := MkFormRequest {
  fr_Request : Request; fr_IsGet : bool; fr_Path : string; fr_PathProvider : string; fr_Query : Values; fr_Post : Values;
  fr_FormError : bool; fr_BasicAuth : option (string * string); fr_Exchange : ExchangeOAuthTokenInput; fr_Token : OAuthTokenInput }.

Definition Query_Get (f : FormRequest) (key : string) : string := values_Get (fr_Query f) key.
(** [FormValue]: the body goes before the query. *)
Definition FormValue (f : FormRequest) (key : string) : string := values_Get (fr_Post f ++ fr_Query f)%list key.

Definition content_type (f : FormRequest) : string := Header (fr_Request f) "Content-Type".

Fixpoint trim_left_slashes (s : string) : string :=
  match s with
  | String c s' => if Ascii.eqb c "/" then trim_left_slashes s' else s
  | "" => ""
  end.
Fixpoint trim_right_slashes (s : string) : string :=
  match s with
  | String c s' => let t := trim_right_slashes s' in if Ascii.eqb c "/" && String.eqb t "" then "" else String c t
  | "" => ""
  end.

(** The segment after the first "oauth" of a path. *)
Fixpoint provider_segment (segments : list string) : string :=
  match segments with
  | [] => ""
  | segment :: rest =>
      if String.eqb segment "oauth" then
        match rest with
        | candidate :: _ => if String.eqb candidate "token" || String.eqb candidate "callback" then "" else candidate
        | [] => ""
        end
      else provider_segment rest
  end.
Definition path_provider (f : FormRequest) : string :=
  or_else (fr_PathProvider f) (provider_segment (Split (trim_right_slashes (trim_left_slashes (fr_Path f))) "/")).

Record CallbackParameters := MkCallbackParameters { cb_Provider : string; cb_Code : string; cb_RedirectURI : string; cb_State : string }.

Definition callback_parameters (f : FormRequest) : CallbackParameters :=
  if fr_IsGet f then
    MkCallbackParameters (path_provider f) (Query_Get f "code") (Query_Get f "redirect_uri") (Query_Get f "state")
  else if Contains (content_type f) "application/x-www-form-urlencoded" then
    MkCallbackParameters (or_else (path_provider f) (FormValue f "provider")) (FormValue f "code") (FormValue f "redirect_uri")
      (or_else (FormValue f "state") (Query_Get f "state"))
  else
    let input := fr_Exchange f in
    MkCallbackParameters (or_else (xi_Provider input) (path_provider f)) (xi_Code input) (xi_RedirectURI input)
      (or_else (xi_State input) (Query_Get f "state")).

(** ** The handlers *)

Section oauth.
Context `{FL : Floats} `{HL : HostLib} `{CR : Crypto} `{AC : AuthCrypto} `{CT : CaseTables} `{UT : UnicodeTables}
  `{AH : !AuthHost} `{K : !Kernel} {S : Type} `{KD : KVDriver S} `{OH : !OAuthHost} `{UL : URLParser}.
Context (config : AuthConfig) (env : AuthEnv).
Let now := ae_now env.

(** core/error.go: [WriteOAuthErrorResponse]. *)
Definition oauth_challenge (status : Z) (error description : string) : option string :=
  if negb (status =? 401) then None else
  if String.eqb error "invalid_client" then Some ("Basic realm=" ++ quote ++ "OAuth" ++ quote) else
  if negb (String.eqb description "")
  then Some ("Bearer error=" ++ quote ++ error ++ quote ++ ", error_description=" ++ quote ++ description ++ quote)
  else Some ("Bearer error=" ++ quote ++ error ++ quote).
Definition oauth_error_with {A} (status : Z) (error description : string) (cookie : CookieWrite) : Handler S A :=
  respond_with status (OAuthError (oauth_challenge status error description) error description) cookie.
Definition oauth_error {A} (status : Z) (error description : string) : Handler S A :=
  oauth_error_with status error description CookieUntouched.
Definition oauth_unavailable {A} : Handler S A := oauth_error 500 "server_error" "Service temporarily unavailable".

(** *** base_handler.go *)

Definition oidc_state_key (stateID : string) : string := "auth:oidc:state:" ++ stateID.
Definition code_key (code : string) : string := "auth:code:" ++ code.
Definition defaultOIDCAuthCodeCacheTTL : Z := 5 * Minute.

(** A code is two ids without their dashes, as a refresh token is. *)
Definition new_code (n : nat) : string := GenerateRefreshToken (new_uuid n) (new_uuid (Datatypes.S n)).

Definition issueOIDCAuthorizationCode (clientID redirectURI userID scope codeChallenge codeChallengeMethod nonce : string)
    : Handler S string :=
  let* n := draw in
  let* _ := draw in
  let code := new_code n in
  kv_Set env (code_key code) (marshal_code (MkCodePayload code clientID redirectURI userID scope codeChallenge codeChallengeMethod nonce))
    defaultOIDCAuthCodeCacheTTL ;;
  ret code.

(** *** base_handler_oauth.go *)

Definition pkce_key (state : string) : string := "auth:pkce:" ++ state.

Definition provider_config (provider : string) (c : OAuthProviderConfig) (clientSecret : string) : ProviderConfig :=
  MkProviderConfig provider (op_Preset c) (op_AuthURL c) (op_TokenURL c) (op_UserInfoURL c) (op_ClientID c) clientSecret (op_Scope c)
    (op_ResponseMode c) (op_ResponseType c) (op_IDAttribute c) (op_EmailAttribute c) (op_NameAttribute c) (op_AvatarAttribute c).

Definition callback_url (provider : string) : string := k_baseURL ++ "/v1/auth/oauth/" ++ provider ++ "/callback".

(** An enabled provider. *)
Definition enabled_provider (provider : string) : Handler S OAuthProviderConfig :=
  match map_get (c_OAuthProviders config) provider with
  | None => oauth_error 404 "invalid_request" "Resource not found"
  | Some c => if op_Enabled c then ret c else oauth_error 403 "access_denied" "Access denied"
  end.

Definition resolved (provider : string) (c : ProviderConfig) : Handler S ProviderConfig :=
  match ResolveProviderConfig provider c with Some c => ret c | None => oauth_error 400 "invalid_request" "Invalid request" end.

Definition with_scope (scope : string) (c : ProviderConfig) : ProviderConfig :=
  if String.eqb scope "" then c else
  MkProviderConfig (pc_Name c) (pc_Preset c) (pc_AuthURL c) (pc_TokenURL c) (pc_UserInfoURL c) (pc_ClientID c) (pc_ClientSecret c)
    scope (pc_ResponseMode c) (pc_ResponseType c) (pc_IDAttribute c) (pc_EmailAttribute c) (pc_NameAttribute c) (pc_AvatarAttribute c).

Definition handleAuthorizeOAuth (f : FormRequest) : Handler S AuthResponse :=
  let provider := fr_PathProvider f in
  let* oAuthProviderConfig := enabled_provider provider in
  let* c := resolved provider (provider_config provider oAuthProviderConfig "") in
  let redirectURI := or_else (Query_Get f "redirect_uri") (callback_url provider) in
  let* state := if String.eqb (Query_Get f "state") "" then let* n := draw in ret (new_uuid n) else ret (Query_Get f "state") in
  let* guest := resolveAnonymousCaller env (fr_Request f) in
  kv_Set env (pkce_key state) (marshal_oauth_state (MkOAuthStatePayload state provider redirectURI (Query_Get f "oidc_state")
    (match guest with Some u => u_ID u | None => "" end) (Unix now))) (10 * Minute) ;;
  respond 302 (Redirect (default "" (BuildAuthorizeURLWithConfig (with_scope (Query_Get f "scope") c) redirectURI state))).

(** [INSERT INTO auth.sessions] without an address, for a client or none. *)
Definition insert_client_session (id userID : string) (clientID : option string) (refreshHash : string) (expiresAt now : Z)
    (t : AuthTables) : option (unit * AuthTables) :=
  u ← row_by_id userID (users t);
  Some (tt, with_sessions (insert id (MkSession id (u_ID u) clientID refreshHash None None expiresAt now)) t).

(** The redirect back to the client, with the code and the client's state. *)
Definition client_redirect (p : OIDCAuthorizationStatePayload) (code : string) : option string :=
  url_with (sp_RedirectURI p) (("code", code) :: if String.eqb (sp_ClientState p) "" then [] else [("state", sp_ClientState p)]).

Definition issue_state_code (p : OIDCAuthorizationStatePayload) (userID : string) : Handler S string :=
  issueOIDCAuthorizationCode (sp_ClientID p) (sp_RedirectURI p) userID (sp_Scope p) (sp_CodeChallenge p) (sp_CodeChallengeMethod p) (sp_Nonce p).

(** The stored authorization of an OpenID client. *)
Definition stored_authorization (stateID : string) : Handler S (option OIDCAuthorizationStatePayload) :=
  let* r := kv_Get env (oidc_state_key stateID) in
  ret (match r with Ok data => if String.eqb data "" then None else unmarshal_oidc_state data | Err _ => None end).

(** Ends at the client whose authorization was pending, or with a session. *)
Definition CompleteOAuthFlow (f : FormRequest) (user : User) (payload : option OAuthStatePayload) : Handler S AuthResponse :=
  let finish := completeSignInFlow config env (fr_Request f) user "oauth" (fr_PathProvider f) in
  let oidcStateID := match payload with Some p => os_OIDCStateID p | None => "" end in
  if String.eqb oidcStateID "" then finish else
  let* pending := stored_authorization oidcStateID in
  match pending with
  | None => finish
  | Some p =>
      kv_Delete env (oidc_state_key oidcStateID) ;;
      let* code := issue_state_code p (u_ID user) in
      let* n := draw in
      let* _ := draw in
      let refreshToken := new_token n in
      let* id := draw in
      stmt env StInsertSession (insert_client_session (new_uuid id) (u_ID user) None (HashRefreshToken refreshToken) (refresh_expiry config env) now) ;;
      match client_redirect p code with
      | Some location => respond_with 302 (Redirect location) (CookieSet refreshToken (refresh_expiry config env))
      | None => finish
      end
  end.

Definition has_identity (provider providerUserID : string) (i : Identity) : bool :=
  String.eqb (id_Provider i) provider && String.eqb (id_ProviderUserID i) providerUserID.

Definition seen_identity (userID : string) (properties : any) (i : Identity) : Identity :=
  MkIdentity (id_ID i) userID (id_Provider i) (id_ProviderUserID i) properties now (id_CreatedAt i) (id_LastUpdatedAt i).

(** [INSERT INTO auth.identities ... ON CONFLICT (provider, provider_user_id)];
    the conflict takes the identity over when a guest is converted. *)
Definition upsert_identity (takeOver : bool) (id userID : string) (userInfo : UserInfo) (provider : string) (t : AuthTables)
    : option (unit * AuthTables) :=
  userID ← uuid_in userID;
  let properties := AMap (ui_UserProperties userInfo) in
  match first_row (has_identity provider (ui_ProviderUserID userInfo)) (identities t) with
  | Some i =>
      if takeOver then u ← users t !! userID; Some (tt, with_identities (insert (id_ID i) (seen_identity (u_ID u) properties i)) t)
      else Some (tt, with_identities (insert (id_ID i) (seen_identity (id_UserID i) (id_Properties i) i)) t)
  | None =>
      u ← users t !! userID;
      Some (tt, with_identities (insert id (MkIdentity id (u_ID u) provider (ui_ProviderUserID userInfo) properties now now now)) t)
  end.

Definition touch_identity (provider providerUserID : string) : AuthTables → AuthTables :=
  with_identities (fmap (λ i, if has_identity provider providerUserID i then seen_identity (id_UserID i) (id_Properties i) i else i)).

(** The guest that becomes an account of the provider's user. *)
Definition linked_guest (email : option string) (properties : list (string * any)) (u : User) : User :=
  touched env (MkUser (u_ID u) (match u_Email u with Some e => Some e | None => email end) (u_Phone u) (u_PasswordHash u)
    (u_EncryptedMFASecret u) (u_MFAEnabled u) (u_Role u) false
    (match email with Some _ => Some (default now (u_EmailVerifiedAt u)) | None => u_EmailVerifiedAt u end)
    (u_PhoneVerifiedAt u) (u_LockedUntil u) (jsonb_concat (u_Properties u) (AMap properties)) (u_CreatedAt u) (u_LastUpdatedAt u)).

(** The columns that are scanned of it. *)
Definition linked_scan (u : User) : User :=
  MkUser (u_ID u) (u_Email u) (u_Phone u) None None false (u_Role u) (u_IsAnonymous u) None None None (properties_of (u_Properties u))
    (u_CreatedAt u) (u_LastUpdatedAt u).

(** [INSERT INTO auth.users ... ON CONFLICT (email) DO UPDATE]. *)
Definition upsert_oauth_user (email : option string) (properties : list (string * any)) (id : string) (t : AuthTables)
    : option (User * AuthTables) :=
  match e ← email; first_row (has_address true e) (users t) with
  | Some u => Some (touched env u, with_users (insert (u_ID u) (touched env u)) t)
  | None => put_user (new_user env id email None None false (Some now) None properties) t
  end.

Definition linked (user : User) (provider : string) (userInfo : UserInfo) : Handler S unit :=
  publish (u_ID user) (IdentityLinked (u_ID user) provider (ui_ProviderUserID userInfo) (AMap (ui_UserProperties userInfo)) user).

Definition link_guest (f : FormRequest) (guest : User) (existingUserID : option string) (provider : string) (userInfo : UserInfo)
    (payload : option OAuthStatePayload) : Handler S AuthResponse :=
  if match existingUserID with Some id => negb (String.eqb id (u_ID guest)) | None => false end
  then oauth_error 409 "invalid_request" "OAuth identity is already linked to another account" else
  let email := nilIfEmpty (ui_UserEmail userInfo) in
  let* conflict := match email with
                   | Some e => query env StConflict (λ t, first_row (has_address true e) (users t))
                   | None => ret None
                   end in
  if match conflict with Some u => negb (String.eqb (u_ID u) (u_ID guest)) | None => false end
  then oauth_error 409 "invalid_request" "Email is already in use by another account" else
  let* n := draw in
  stmt env StInsertIdentity (upsert_identity true (new_uuid n) (u_ID guest) userInfo provider) ;;
  let* row := stmt env StUpdateUser (update_user_row (linked_guest email (ui_UserProperties userInfo)) (u_ID guest)) in
  match row with
  | None => oauth_unavailable
  | Some row =>
      let user := linked_scan row in
      publish (u_ID guest) (IdentityLinked (u_ID guest) provider (ui_ProviderUserID userInfo) (AMap (ui_UserProperties userInfo)) user) ;;
      publish (u_ID user) (UserConverted user) ;;
      CompleteOAuthFlow f user payload
  end.

(** The account of an identity that is linked; a failed query leaves the zero user. *)
Definition enter_linked (f : FormRequest) (existingUserID provider : string) (userInfo : UserInfo) (payload : option OAuthStatePayload)
    : Handler S AuthResponse :=
  let* row := select_user env existingUserID in
  let user := default (scanned (zero_user "")) row in
  if locked now user then oauth_error 423 "access_denied" "Account is temporarily locked" else
  exec env StTouchIdentity (touch_identity provider (ui_ProviderUserID userInfo)) ;;
  CompleteOAuthFlow f user payload.

(** A new identity: the account of its address, or a new one. *)
Definition enter_new (f : FormRequest) (provider : string) (userInfo : UserInfo) (payload : option OAuthStatePayload) : Handler S AuthResponse :=
  let* n := draw in
  let* row := stmt env StInsertUser (upsert_oauth_user (nilIfEmpty (ui_UserEmail userInfo)) (ui_UserProperties userInfo) (new_uuid n)) in
  let user := scanned (default (zero_user "") row) in
  let* n := draw in
  stmt env StInsertIdentity (upsert_identity false (new_uuid n) (u_ID user) userInfo provider) ;;
  linked user provider userInfo ;;
  publish (u_ID user) (UserSignedUp user) ;;
  CompleteOAuthFlow f user payload.

(** The payload of a stored state; a state stored as plain text must be itself. *)
Definition read_state (state stored : string) : option (option OAuthStatePayload) :=
  match unmarshal_oauth_state stored with
  | Some p =>
      if String.eqb (os_StateID p) "" then if String.eqb stored state then Some None else None
      else if String.eqb (os_StateID p) state then Some (Some p) else None
  | None => if String.eqb stored state then Some None else None
  end.

(** Spends the state of a callback. *)
Definition consume_state (state : string) : Handler S (option OAuthStatePayload) :=
  if String.eqb state "" then oauth_error 400 "invalid_request" "OAuth state parameter is required" else
  let* r := kv_Get env (pkce_key state) in
  let stored := match r with Ok data => data | Err _ => "" end in
  if String.eqb stored "" then oauth_error 403 "access_denied" "Access denied" else
  match read_state state stored with
  | None => oauth_error 403 "access_denied" "Access denied"
  | Some payload => kv_Delete env (pkce_key state) ;; ret payload
  end.

(** The identity's account; a query that fails is told from one without rows. *)
Definition select_identity (provider providerUserID : string) : Handler S (option string) :=
  let* r := query env StSelectIdentity (λ t, Some (first_row (has_identity provider providerUserID) (identities t))) in
  match r with None => oauth_unavailable | Some row => ret (id_UserID <$> row) end.

Definition handleProcessOAuthCallback (f : FormRequest) : Handler S AuthResponse :=
  let p := callback_parameters f in
  let* payload := consume_state (cb_State p) in
  let redirectURI := or_else (cb_RedirectURI p) (match payload with Some s => os_RedirectURI s | None => "" end) in
  let provider := cb_Provider p in
  if String.eqb provider "" || String.eqb (cb_Code p) ""
  then oauth_error 400 "invalid_request" "Provider and authorization code required" else
  let* oAuthProviderConfig := enabled_provider provider in
  let clientSecret := default "" (DecryptSecret (op_ClientSecret oAuthProviderConfig)) in
  let redirectURI := or_else redirectURI (callback_url provider) in
  let* c := resolved provider (provider_config provider oAuthProviderConfig clientSecret) in
  match ExchangeCodeWithConfig c (cb_Code p) redirectURI with
  | None => oauth_error 400 "invalid_grant" "Authentication failed"
  | Some userInfo =>
      let* existingUserID := select_identity provider (ui_ProviderUserID userInfo) in
      let* guest := resolveAnonymousCaller env (fr_Request f) in
      match guest, existingUserID with
      | Some guest, _ => link_guest f guest existingUserID provider userInfo payload
      | None, Some existingUserID => enter_linked f existingUserID provider userInfo payload
      | None, None => enter_new f provider userInfo payload
      end
  end.
End oauth.

(** ** Concrete outside answers, for the examples *)

Definition fields (l : list string) : string := Join l "|".

(** A provider that knows one user, and payloads written field by field. *)
Definition sample_oauth_host `{FL : Floats} : OAuthHost := {|
  token_post _ _ := HTTPResponse 200 (Some (MkTokenPayload "access" "" ""));
  userinfo_get _ _ := HTTPResponse 200 (Some [("sub", AString "g1"); ("email", AString "alice@acme.com")]);
  marshal_oauth_state p := fields [os_StateID p; os_Provider p; os_RedirectURI p; os_OIDCStateID p; os_AnonymousID p];
  unmarshal_oauth_state s :=
    match Split s "|" with [a; b; c; d; e] => Some (MkOAuthStatePayload a b c d e 0) | _ => None end;
  marshal_oidc_state p := fields [sp_StateID p; sp_ClientID p; sp_RedirectURI p; sp_Scope p; sp_ClientState p; sp_CodeChallenge p;
                                  sp_CodeChallengeMethod p; sp_Nonce p];
  unmarshal_oidc_state s :=
    match Split s "|" with [a; b; c; d; e; f; g; h] => Some (MkStatePayload a b c d e f g h 0) | _ => None end;
  marshal_code p := fields [cp_Code p; cp_ClientID p; cp_RedirectURI p; cp_UserID p; cp_Scope p; cp_CodeChallenge p;
                            cp_CodeChallengeMethod p; cp_Nonce p];
  unmarshal_code s :=
    match Split s "|" with [a; b; c; d; e; f; g; h] => Some (MkCodePayload a b c d e f g h) | _ => None end |}.

Definition no_token_input : OAuthTokenInput := MkOAuthTokenInput "" "" "" "" "" "" "" "" "" "".
Definition no_exchange_input : ExchangeOAuthTokenInput := MkExchangeOAuthTokenInput "" "" "" "".

(** A GET with a query, and a POST with a form. *)
Definition get_request (request : Request) (provider : string) (query : Values) : FormRequest :=
  MkFormRequest request true "" provider query [] false None no_exchange_input no_token_input.
Definition post_request (request : Request) (form : Values) : FormRequest :=
  MkFormRequest request false "" "" [] form false None no_exchange_input no_token_input.

(** ** Settings *)

Lemma or_else_left a b : a ≠ "" → or_else a b = a.
Proof. intros Ha. unfold or_else. by rewrite (proj2 (String.eqb_neq a "")). Qed.
Lemma or_else_twice a b : or_else (or_else a b) b = or_else a b.
Proof. unfold or_else. destruct (String.eqb_spec a ""); [by destruct (String.eqb b "")|]. by rewrite (proj2 (String.eqb_neq a "")). Qed.

Lemma or_else_code a b : or_else (or_else (or_else (or_else a b) "code") b) "code" = or_else (or_else a b) "code".
Proof.
  assert (Hne : ∀ x, or_else x "code" ≠ "") by (intros x; unfold or_else; by destruct (String.eqb_spec x "")).
  by rewrite (or_else_left (or_else (or_else a b) "code") b), or_else_left by apply Hne.
Qed.

Lemma or_else_key a n : or_else (or_else a (or_else a n)) n = or_else a n.
Proof.
  destruct (String.eqb_spec a "") as [->|Ha]; [|by rewrite !or_else_left by (by rewrite ?or_else_left)].
  change (or_else n n = n). unfold or_else. by destruct (String.eqb n "").
Qed.

(** The settings a preset may fill in. *)
Definition preset_settings : list (ProviderConfig → string) :=
  [pc_AuthURL; pc_TokenURL; pc_UserInfoURL; pc_Scope; pc_ResponseMode; pc_ResponseType; pc_IDAttribute; pc_EmailAttribute;
   pc_NameAttribute; pc_AvatarAttribute].

(** Resolving a provider never overrides what was set: every setting that is
    not empty is kept, as are the client and its secret; the endpoints and the
    response type of the result are set; and resolving again changes nothing. *)
Theorem explicit_settings_win name c r : ResolveProviderConfig name c = Some r →
  Forall (λ setting, setting c ≠ "" → setting r = setting c) preset_settings
  ∧ pc_ClientID r = pc_ClientID c ∧ pc_ClientSecret r = pc_ClientSecret c
  ∧ pc_AuthURL r ≠ "" ∧ pc_TokenURL r ≠ "" ∧ pc_ResponseType r ≠ "" ∧ ResolveProviderConfig name r = Some r.
Proof.
  unfold ResolveProviderConfig. cbn zeta. change (pc_Preset (named name c)) with (pc_Preset c). change (pc_Preset (named name r)) with (pc_Preset r).
  intros H.
  assert (Hkey : ∀ p, with_response_type (with_preset (or_else (pc_Preset c) name) p (named name c)) = r →
    or_else (pc_Preset r) name = or_else (pc_Preset c) name).
  { intros p <-. apply or_else_key. }
  assert (Htype : ∀ t, or_else t "code" ≠ "").
  { intros t. unfold or_else. by destruct (String.eqb_spec t ""). }
  destruct (map_get Presets (or_else (pc_Preset c) name)) as [p|] eqn:Ep; destruct (_ || _) eqn:Hu; try done;
    pose proof Hu as [Ha%String.eqb_neq Ht%String.eqb_neq]%orb_false_iff; injection H as Hr.
  - rewrite (Hkey p Hr), Ep. assert (Hfix : with_response_type (with_preset (or_else (pc_Preset c) name) p (named name r)) = r).
    { subst r. unfold with_response_type, with_preset, named. cbn. rewrite !or_else_twice. f_equal. apply or_else_code. }
    rewrite Hfix. subst r. split_and!; try done; [|apply Htype|by rewrite Hu].
    repeat constructor; intros Hs; cbn in *; by rewrite ?or_else_left by (by rewrite ?or_else_left).
  - assert (Hkey' : or_else (pc_Preset r) name = or_else (pc_Preset c) name) by (by subst r). rewrite Hkey', Ep.
    assert (Hfix : with_response_type (named name r) = r).
    { subst r. unfold with_response_type, named. cbn. by rewrite !or_else_twice. }
    rewrite Hfix. subst r. split_and!; try done; [|apply Htype|by rewrite Hu].
    repeat constructor; intros Hs; cbn in *; by rewrite ?or_else_left.
Qed.

(** ** The callback *)

Section callback.
Context `{FL : Floats} `{HL : HostLib} `{CR : Crypto} `{AC : AuthCrypto} `{CT : CaseTables} `{UT : UnicodeTables}
  `{AH : !AuthHost} `{K : !Kernel} {S : Type} `{KD : KVDriver S} `{OH : !OAuthHost} `{UL : URLParser}.
Context (config : AuthConfig) (env : AuthEnv).
Implicit Types (s : AuthState S) (f : FormRequest).

(** What was stored for a state. *)
Definition stored_state (state : string) s : string := match Get (ae_kv env) (pkce_key state) (st_kv s) with Ok data => data | Err _ => "" end.

(** The redirect address of the exchange: of the request, else of the state,
    else the provider's callback. *)
Definition exchange_uri f (payload : option OAuthStatePayload) : string :=
  or_else (or_else (cb_RedirectURI (callback_parameters f)) (match payload with Some s => os_RedirectURI s | None => "" end))
    (callback_url (cb_Provider (callback_parameters f))).

(** What was stored for a state names the state, or is the state itself. *)
Definition agrees (state stored : string) (payload : option OAuthStatePayload) : Prop :=
  match payload with
  | Some p => unmarshal_oauth_state stored = Some p ∧ os_StateID p = state
  | None => stored = state
  end.

Lemma read_state_agrees state stored payload : read_state state stored = Some payload → agrees state stored payload.
Proof.
  unfold read_state, agrees. destruct (unmarshal_oauth_state stored) as [p|].
  - destruct (String.eqb (os_StateID p) "").
    + destruct (String.eqb_spec stored state); [|done]. by intros [= <-].
    + destruct (String.eqb_spec (os_StateID p) state); [|done]. by intros [= <-].
  - destruct (String.eqb_spec stored state); [|done]. by intros [= <-].
Qed.

(** C22: A callback that is not refused was begun: its state was stored and
    agrees with what was stored, the provider is one that is enabled, and the
    provider's token endpoint answered the code with a user. *)
Theorem callback_was_begun f s :
  let p := callback_parameters f in
  r_Status (run (handleProcessOAuthCallback config env f) s).1 < 400 →
  ∃ payload c resolved userInfo,
    cb_State p ≠ "" ∧ stored_state (cb_State p) s ≠ "" ∧ agrees (cb_State p) (stored_state (cb_State p) s) payload
  ∧ map_get (c_OAuthProviders config) (cb_Provider p) = Some c ∧ op_Enabled c = true
  ∧ ResolveProviderConfig (cb_Provider p) (provider_config (cb_Provider p) c (default "" (DecryptSecret (op_ClientSecret c)))) = Some resolved
  ∧ ExchangeCodeWithConfig resolved (cb_Code p) (exchange_uri f payload) = Some userInfo.
Proof.
  cbn zeta. unfold handleProcessOAuthCallback. set (p := callback_parameters f). cbn zeta. unfold consume_state. rewrite run_if.
  destruct (String.eqb_spec (cb_State p) "") as [|Hst]; [cbn; lia|]. rewrite run_bind. unfold kv_Get. rewrite run_read_kv.
  fold (stored_state (cb_State p) s). rewrite run_if. destruct (String.eqb_spec (stored_state (cb_State p) s) "") as [|Hstored]; [cbn; lia|].
  destruct (read_state _ _) as [payload|] eqn:Er; [|cbn; lia]. rewrite run_bind. unfold kv_Delete. rewrite run_on_kv, run_ret.
  destruct (_ || _); [cbn; lia|]. unfold enabled_provider. destruct (map_get _ _) as [c|] eqn:Ec; [|cbn; lia]. rewrite run_if.
  destruct (op_Enabled c) eqn:Een; [|cbn; lia]. rewrite run_ret. unfold resolved.
  destruct (ResolveProviderConfig _ _) as [rc|] eqn:Erc; [|cbn; lia]. rewrite run_ret.
  fold p in Er. change (or_else (or_else (cb_RedirectURI p) _) _) with (exchange_uri f payload).
  destruct (ExchangeCodeWithConfig rc (cb_Code p) (exchange_uri f payload)) as [userInfo|] eqn:Ex; [|cbn; lia].
  intros _. exists payload, c, rc, userInfo. by apply read_state_agrees in Er.
Qed.

(** A new identity enters the account that has its address, whether or not the
    provider verified the address and whether or not the account is locked. *)
Theorem new_identity_enters_account f provider userInfo payload s u :
  ae_fails env StInsertUser = false → ui_UserEmail userInfo ≠ "" →
  first_row (has_address true (ui_UserEmail userInfo)) (users (st_db s)) = Some u →
  ∃ s', run (enter_new config env f provider userInfo payload) s = run (CompleteOAuthFlow config env f (scanned (touched env u)) payload) s'.
Proof.
  intros Hf He Hu. unfold enter_new. rewrite run_draw, run_stmt by done. unfold upsert_oauth_user, nilIfEmpty.
  rewrite (proj2 (String.eqb_neq _ "")) by done. cbn [mbind option_bind]. change (st_db (bump s)) with (st_db s). rewrite Hu.
  change (default (zero_user "") (Some (touched env u))) with (touched env u). rewrite run_draw.
  stmt_cases a db Ha; unfold linked; rewrite !run_publish; by eexists.
Qed.
End callback.

(** ** A concrete callback *)

Lemma explicit_settings_win_witness :
  ∃ r, ResolveProviderConfig "google" (MkProviderConfig "" "" "" "https://token" "" "id" "secret" "" "" "" "" "" "" "") = Some r
  ∧ pc_TokenURL r = "https://token" ∧ pc_AuthURL r ≠ "" ∧ ResolveProviderConfig "google" r = Some r.
Proof.
  eexists. split; [reflexivity|].
  destruct (explicit_settings_win "google" (MkProviderConfig "" "" "" "https://token" "" "id" "secret" "" "" "" "" "" "" "") _ eq_refl)
    as (_ & _ & _ & Ha & _ & _ & Hi). split; [reflexivity|]. split; [exact Ha|exact Hi].
Defined.

Local Existing Instance integer_floats.
Local Existing Instance sample_auth_host.
Local Existing Instance sample_oauth_host.
Local Existing Instance sample_kernel.
Local Existing Instance sample_host.
Local Existing Instance sample_pg.
Local Existing Instance sample_signatures.
Local Existing Instance sample_case.
Local Existing Instance sample_auth_crypto.
Local Existing Instance ascii_tables.

(** The sample configuration with one provider. *)
Definition google_config : AuthConfig :=
  let c := sample_auth_config false in {|
  c_PasswordEnabled := c_PasswordEnabled c; c_PasswordMinLength := c_PasswordMinLength c; c_BreachCheckEnabled := c_BreachCheckEnabled c;
  c_BreachCheckFailOpen := c_BreachCheckFailOpen c; c_EmailOTPEnabled := c_EmailOTPEnabled c; c_EmailOTPExpiryMinutes := c_EmailOTPExpiryMinutes c;
  c_SMSOTPEnabled := c_SMSOTPEnabled c; c_SMSOTPExpiryMinutes := c_SMSOTPExpiryMinutes c; c_MFAEnabled := c_MFAEnabled c;
  c_MFAPolicy := c_MFAPolicy c; c_MFARiskTriggers := c_MFARiskTriggers c; c_MFAIssuer := c_MFAIssuer c; c_AnonymousEnabled := c_AnonymousEnabled c;
  c_AccessTokenExpirySeconds := c_AccessTokenExpirySeconds c; c_RefreshTokenExpirySeconds := c_RefreshTokenExpirySeconds c; c_OIDC := c_OIDC c;
  c_OAuthProviders := [("google", MkOAuthProviderConfig true "" "" "" "" "gid" "" false "" "" "" "" "" "" "")];
  c_PasskeysEnabled := c_PasskeysEnabled c; c_RelyingPartyID := c_RelyingPartyID c; c_RelyingPartyName := c_RelyingPartyName c;
  c_RateLimitingEnabled := c_RateLimitingEnabled c; c_MaxSignInAttempts := c_MaxSignInAttempts c; c_WindowDurationSeconds := c_WindowDurationSeconds c;
  c_FastPathSessionsEnabled := c_FastPathSessionsEnabled c; c_SessionTTLSeconds := c_SessionTTLSeconds c;
  c_BotProtectionEnabled := c_BotProtectionEnabled c; c_BotProvider := c_BotProvider c; c_BotSecretKey := c_BotSecretKey c; c_BotMode := c_BotMode c;
  c_AdaptiveFailedAttempts := c_AdaptiveFailedAttempts c; c_NotifyOnNewDevice := c_NotifyOnNewDevice c; c_KnownDevicesMaxDays := c_KnownDevicesMaxDays c;
  c_EmailReady := c_EmailReady c; c_SMSReady := c_SMSReady c |}.

Definition google_start : FormRequest := get_request (caller "" "") "google" [("state", "st1")].
Definition google_back : FormRequest := get_request (caller "" "") "google" [("state", "st1"); ("code", "c1")].
Definition google_begun : AuthState KVTable :=
  (run (handleAuthorizeOAuth google_config (auth_ok (unix_time 100)) google_start) (sample_auth_state ∅)).2.

Lemma callback_was_begun_witness :
  r_Status (run (handleProcessOAuthCallback google_config (auth_ok (unix_time 110)) google_back) google_begun).1 = 200
  ∧ stored_state (auth_ok (unix_time 110)) "st1" google_begun ≠ "".
Proof.
  assert (Hs : r_Status (run (handleProcessOAuthCallback google_config (auth_ok (unix_time 110)) google_back) google_begun).1 = 200) by reflexivity.
  split; [exact Hs|]. destruct (callback_was_begun google_config (auth_ok (unix_time 110)) google_back google_begun) as (payload & c & rc & info & _ & Hst & _).
  - rewrite Hs. lia.
  - exact Hst.
Defined.

(** Alice's account, entered by whoever the provider says has her address. *)
Lemma new_identity_enters_account_witness :
  ∃ s', run (enter_new google_config (auth_ok (unix_time 110)) google_back "google"
      (MkUserInfo "google" "g1" "alice@acme.com" "" "" []) None) (sample_auth_state ∅)
    = run (CompleteOAuthFlow google_config (auth_ok (unix_time 110)) google_back (scanned (touched (auth_ok (unix_time 110)) alice)) None) s'.
Proof. apply new_identity_enters_account; [reflexivity|discriminate|reflexivity]. Defined.
