(* ===== verification/AuthOIDC.v ===== *)
(** * auth/base_handler_oidc.go: the OpenID provider

    Discovery, the authorization endpoint with its sign-in form, the token
    endpoint with its three grants, user info and sign-out.  The pages are the
    data their template is given.  The theorems are in AuthOIDCFlow.v. *)

From stdpp Require Import strings gmap.
From Stdlib Require Import ZArith Lia Ascii String.
From S2P Require Import Prelude GoStrings GoTime GoRunes GoValues URLQuery Slugifier Encodings Scopes ServiceAccounts KVStore SignInRisk DataCache Tokens AuthCodes AuthModel AuthMonad AuthSessions AuthThreat AuthPassword AuthFactors AuthUsers AuthOAuth.
Local Open Scope string_scope.
Local Open Scope Z_scope.
Local Open Scope auth_scope.

Definition defaultM2MExpirySeconds : Z := 3600.
Definition defaultOIDCMFATTL : Z := 5 * Minute.

Definition BuildOIDCDiscovery (baseURL : string) : OIDCConfiguration :=
  let base := trim_right_slashes baseURL in
  MkOIDCConfiguration base (base ++ "/v1/auth/oauth/authorize") (base ++ "/v1/auth/oauth/token") (base ++ "/v1/auth/oauth/userinfo")
    (base ++ "/.well-known/jwks.json") (base ++ "/v1/auth/oauth/sign-out") true true true true
    ["code"; "token"; "id_token"; "code token"; "code id_token"; "token id_token"; "code token id_token"]
    ["public"] ["EdDSA"] ["openid"; "profile"; "email"; "phone"; "offline_access"] ["client_secret_post"; "client_secret_basic"; "none"]
    ["sub"; "iss"; "aud"; "exp"; "iat"; "auth_time"; "nonce"; "email"; "email_verified"; "phone_number"; "phone_number_verified"; "role"]
    ["S256"; "plain"] ["authorization_code"; "refresh_token"; "client_credentials"].

Section oidc.
Context `{FL : Floats} `{HL : HostLib} `{CR : Crypto} `{AC : AuthCrypto} `{CT : CaseTables} `{UT : UnicodeTables}
  `{AH : !AuthHost} `{K : !Kernel} {S : Type} `{KD : KVDriver S} `{OH : !OAuthHost} `{UL : URLParser}.
Context (config : AuthConfig) (env : AuthEnv).
Let now := ae_now env.

Definition GetOIDCClient (clientID : string) : option OIDCClient :=
  if od_Enabled (c_OIDC config) then List.find (λ c, String.eqb (oc_ClientID c) clientID) (od_Clients (c_OIDC config)) else None.

Definition oidc_enabled : Handler S unit :=
  if od_Enabled (c_OIDC config) then ret tt else oauth_error 403 "access_denied" "Access denied".

Definition handleGetOIDCDiscovery : Handler S AuthResponse := respond 200 (DiscoveryDocument (BuildOIDCDiscovery k_baseURL)).

(** ** Pages *)

Definition email_otp_shown : bool := c_EmailOTPEnabled config && ui_ShowEmailOTP (od_UI (c_OIDC config)) && c_EmailReady config.
Definition sms_otp_shown : bool := c_SMSOTPEnabled config && ui_ShowSMSOTP (od_UI (c_OIDC config)) && c_SMSReady config.

Definition enabled_providers : list string := fst <$> List.filter (λ kv, op_Enabled kv.2) (c_OAuthProviders config).

(** The first byte of the key in upper case; [None]: an empty key panics. *)
Definition provider_button (key : string) : option (string * string) :=
  match key with "" => None | String c rest => Some (key, strings_ToUpper (String c "") ++ rest) end.

Definition renderOIDCPage (stateID : string) (client : option OIDCClient) (errorMessage noticeMessage authMode mfaToken otpRecipient : string)
    : Handler S AuthResponse :=
  let ui := od_UI (c_OIDC config) in
  let showPasskeys := c_PasskeysEnabled config && ui_ShowPasskeys ui in
  match mapM provider_button (if ui_ShowOAuth ui then enabled_providers else []) with
  | None => unavailable
  | Some providers =>
      let authMode := or_else authMode "sign_in" in
      respond 200 (OIDCPage (MkSignInPageData (or_else k_projectName "Layr") (match client with Some c => oc_Name c | None => "" end)
        (ui_LogoURL ui) (ui_PrivacyPolicyURL ui) (ui_TermsOfServiceURL ui) (ui_CustomCSS ui) stateID errorMessage noticeMessage
        (c_PasswordEnabled config && ui_ShowPassword ui) (c_PasswordEnabled config && ui_ShowSignUp ui) showPasskeys (ui_ShowOAuth ui)
        email_otp_shown sms_otp_shown providers (String.eqb authMode "mfa") mfaToken
        (String.eqb authMode "otp_request" || String.eqb authMode "otp_verify") otpRecipient authMode))
  end.
Definition renderOIDCSignInPage stateID client errorMessage := renderOIDCPage stateID client errorMessage "" "sign_in" "" "".
Definition renderOIDCSignUpPage stateID client errorMessage := renderOIDCPage stateID client errorMessage "" "sign_up" "" "".
Definition renderOIDCMFAPage stateID client errorMessage noticeMessage mfaToken :=
  renderOIDCPage stateID client errorMessage noticeMessage "mfa" mfaToken "".
Definition renderOIDCOTPRequestPage stateID client errorMessage noticeMessage :=
  renderOIDCPage stateID client errorMessage noticeMessage "otp_request" "" "".
Definition renderOIDCOTPVerifyPage stateID client errorMessage noticeMessage recipient :=
  renderOIDCPage stateID client errorMessage noticeMessage "otp_verify" "" recipient.

(** ** The authorization endpoint *)

Definition redirectError (redirectURI errSlug errDescription clientState : string) : Handler S AuthResponse :=
  match url_with redirectURI ([("error", errSlug); ("error_description", errDescription)]
                              ++ (if String.eqb clientState "" then [] else [("state", clientState)]))%list with
  | None => oauth_error 400 "invalid_request" errDescription
  | Some location => respond 302 (Redirect location)
  end.

(** A page of an authorization that is pending already. *)
Definition resume_page (f : FormRequest) : Handler S (option (string * OIDCAuthorizationStatePayload)) :=
  let stateID := Query_Get f "state" in
  if String.eqb stateID "" || String.eqb (Query_Get f "mode") "" then ret None else
  let* p := stored_authorization env stateID in
  ret (match p with Some p => Some (stateID, p) | None => None end).

(** What the request asks for, to be stored. *)
Definition requested_authorization (f : FormRequest) (stateID : string) : OIDCAuthorizationStatePayload :=
  MkStatePayload stateID (Query_Get f "client_id") (Query_Get f "redirect_uri") (Query_Get f "scope") (Query_Get f "state")
    (Query_Get f "code_challenge") (Query_Get f "code_challenge_method") (Query_Get f "nonce") now.

Definition store_authorization (f : FormRequest) (client : OIDCClient) : Handler S AuthResponse :=
  let* n := draw in
  let stateID := new_uuid n in
  kv_Set env (oidc_state_key stateID) (marshal_oidc_state (requested_authorization f stateID)) (10 * Minute) ;;
  renderOIDCSignInPage stateID (Some client) "".

(** An authorization that begins: with a code when the caller is signed in. *)
Definition begin_authorization (f : FormRequest) : Handler S AuthResponse :=
  let clientID := Query_Get f "client_id" in
  let redirectURI := Query_Get f "redirect_uri" in
  let clientState := Query_Get f "state" in
  if String.eqb clientID "" then oauth_error 400 "invalid_client" "Missing client_id parameter" else
  match GetOIDCClient clientID with
  | None => oauth_error 400 "invalid_client" ("Unknown client_id '" ++ clientID ++ "'")
  | Some client =>
      if String.eqb redirectURI "" then oauth_error 400 "invalid_request" "Missing redirect_uri parameter" else
      if negb (existsb (String.eqb redirectURI) (oc_RedirectURIs client))
      then oauth_error 400 "invalid_request" "Unauthorized redirect_uri" else
      if negb (String.eqb (Query_Get f "response_type") "code")
      then redirectError redirectURI "unsupported_response_type" "Response type must be 'code'" clientState else
      if String.eqb (Query_Get f "code_challenge") "" || negb (String.eqb (Query_Get f "code_challenge_method") "S256")
      then redirectError redirectURI "invalid_request" "PKCE code_challenge with S256 method is required" clientState else
      let activeUserID := UserID (AuthCtx (fr_Request f)) in
      if String.eqb activeUserID "" then store_authorization f client else
      let p := requested_authorization f "" in
      let* code := issue_state_code env p activeUserID in
      match client_redirect p code with
      | Some location => respond 302 (Redirect location)
      | None => store_authorization f client
      end
  end.

Definition handleAuthorizeOIDC (f : FormRequest) : Handler S AuthResponse :=
  oidc_enabled ;;
  let* resumed := resume_page f in
  match resumed with
  | Some (stateID, p) => renderOIDCPage stateID (GetOIDCClient (sp_ClientID p)) "" "" (Query_Get f "mode") "" ""
  | None => begin_authorization f
  end.

(** The code, a browser session for single sign-on, and the way back. *)
Definition completeOIDCAuthorization (stateID : string) (p : OIDCAuthorizationStatePayload) (user : User) : Handler S AuthResponse :=
  kv_Delete env (oidc_state_key stateID) ;;
  let* code := issue_state_code env p (u_ID user) in
  let* n := draw in
  let* _ := draw in
  let refreshToken := new_token n in
  let expiresAt := now + wrap64 (c_RefreshTokenExpirySeconds config * Second) in
  let* id := draw in
  let sessionID := new_uuid id in
  stmt env StInsertSession (insert_client_session sessionID (u_ID user) None (HashRefreshToken refreshToken) expiresAt now) ;;
  publish sessionID (SessionCreated (MkSessionCreatedEventData sessionID user "" "" None None expiresAt now)) ;;
  match client_redirect p code with
  | None => oauth_error_with 400 "invalid_request" "Invalid redirect_uri" (CookieSet refreshToken expiresAt)
  | Some location => respond_with 302 (Redirect location) (CookieSet refreshToken expiresAt)
  end.

(** ** The form *)

Definition mfa_key (token : string) : string := "auth:oidc:mfa:" ++ token.

(** A second factor is asked for on a page of its own. *)
Definition ask_second_factor (stateID : string) (client : option OIDCClient) (user : User) : Handler S AuthResponse :=
  let* n := draw in
  let mfaToken := "mfa_oidc_" ++ new_uuid n in
  kv_Set env (mfa_key mfaToken) (u_ID user) defaultOIDCMFATTL ;;
  renderOIDCMFAPage stateID client "" "Two-factor authentication required" mfaToken.

(** What is wrong with a code of the account's second factor. *)
Definition second_factor_error (user : User) (mfaCode : string) : option string :=
  let secret := default "" (u_EncryptedMFASecret user) in
  if String.eqb secret "" then Some "Multi-factor authentication configuration error" else
  match DecryptField k_encryptionKey secret with
  | Err _ => Some "Failed to verify multi-factor authentication"
  | Ok plaintext =>
      if ValidateCode (totp_manager config) plaintext mfaCode now 1 then None else Some "Invalid two-factor authentication code"
  end.

(** The rows scanned by the form, whose properties are not read. *)
Definition select_account (st : AuthStmt) (P : AuthTables → option User) : Handler S (option User) :=
  let* row := query env st P in ret (without_properties <$> row).

Section submit.
Context (f : FormRequest) (stateID : string) (client : option OIDCClient) (p : OIDCAuthorizationStatePayload).

Definition submit_mfa : Handler S AuthResponse :=
  let mfaToken := FormValue f "mfa_token" in
  let mfaCode := TrimSpace (FormValue f "mfa_code") in
  let expired := renderOIDCSignInPage stateID client "MFA session expired. Please sign in again." in
  if String.eqb mfaToken "" then expired else
  let* r := kv_Get env (mfa_key mfaToken) in
  let mfaUserID := match r with Ok id => id | Err _ => "" end in
  if String.eqb mfaUserID "" then expired else
  if String.eqb mfaCode "" then renderOIDCMFAPage stateID client "Two-factor authentication code is required" "" mfaToken else
  let* row := select_account StSelectUser (λ t, row_by_id mfaUserID (users t)) in
  match row with
  | None => expired
  | Some user =>
      match second_factor_error user mfaCode with
      | Some message =>
          renderOIDCMFAPage stateID client message "" mfaToken
      | None => kv_Delete env (mfa_key mfaToken) ;; completeOIDCAuthorization stateID p user
      end
  end.

Definition submit_send_otp : Handler S AuthResponse :=
  let recipient := TrimSpace (FormValue f "recipient") in
  let refused message := renderOIDCOTPRequestPage stateID client message "" in
  if String.eqb recipient "" then refused "Please enter an email address or phone number" else
  let isEmail := Contains recipient "@" in
  if negb (if isEmail then email_otp_shown else sms_otp_shown)
  then refused (if isEmail then "Email OTP sign-in is not available" else "SMS OTP sign-in is not available") else
  match (if isEmail then Some (strings_ToLower recipient) else NormalizePhone recipient) with
  | None => refused "Invalid phone number format: must be in E.164 format with country code"
  | Some recipient =>
      let* over := over_ip_limit env (client_ip (fr_Request f)) 10 in
      match over with
      | Some _ => renderOIDCOTPRequestPage stateID client "Rate limit exceeded. Too many requests from this IP address." recipient
      | None =>
          let* cooling := cooling_down env "sign_in" recipient in
          if (cooling : bool) then renderOIDCOTPRequestPage stateID client "Please wait 60 seconds before requesting another code" recipient else
          let codeTTL := wrap64 ((if isEmail then c_EmailOTPExpiryMinutes config else c_SMSOTPExpiryMinutes config) * Minute) in
          let* code := draw_code in
          store_code env "sign_in" recipient codeTTL defaultOTPCooldown code ;;
          send (if isEmail then EmailSignInOTP recipient code "" else SMSSignInOTP recipient code "") ;;
          let* targetUser := fetchUserByRecipient env recipient in
          publish recipient (OTPSent recipient "sign_in" (otp_channel isEmail) targetUser) ;;
          renderOIDCOTPVerifyPage stateID client "" "Verification code sent!" recipient
      end
  end.

(** The account of the address signs in, or is created. *)
Definition enter_oidc (isEmail : bool) (recipient : string) : Handler S AuthResponse :=
  let* n := draw in
  let* row := stmt env StInsertUser (upsert_user env isEmail recipient (new_uuid n)) in
  let '(user, isNewUser) := default (zero_user "", false) row in
  let user := without_properties user in
  if negb isNewUser && locked now user
  then renderOIDCSignInPage stateID client "Account temporarily locked. Please try again later." else
  when isNewUser then publish (u_ID user) (UserSignedUp user) ;;
  publish recipient (OTPVerified recipient "sign_in" (otp_channel isEmail) (Some user)) ;;
  if u_MFAEnabled user then ask_second_factor stateID client user else completeOIDCAuthorization stateID p user.

Definition submit_verify_otp : Handler S AuthResponse :=
  let recipient := TrimSpace (FormValue f "recipient") in
  let otpCode := TrimSpace (FormValue f "otp_code") in
  if String.eqb recipient "" || String.eqb otpCode "" then renderOIDCOTPVerifyPage stateID client "Verification code is required" "" recipient else
  let isEmail := Contains recipient "@" in
  let recipient := if isEmail then strings_ToLower recipient else default recipient (NormalizePhone recipient) in
  let invalid := renderOIDCOTPVerifyPage stateID client "Invalid or expired verification code" "" recipient in
  let* found := query env StSelectOTP (newest_otp recipient "sign_in" now) in
  match found with
  | None => invalid
  | Some o =>
      if negb (VerifyCode otpCode (o_CodeHash o)) then count_attempt env (o_ID o) ;; invalid else
      delete_otp env (o_ID o) ;;
      kv_Delete env (otp_key "sign_in" recipient) ;;
      enter_oidc isEmail recipient
  end.

Definition form_email : string := strings_ToLower (TrimSpace (FormValue f "email")).

Definition submit_sign_up : Handler S AuthResponse :=
  if negb (c_PasswordEnabled config) || negb (ui_ShowSignUp (od_UI (c_OIDC config)))
  then renderOIDCSignInPage stateID client "Sign-up is disabled" else
  let email := form_email in
  let password := FormValue f "password" in
  let refused := renderOIDCSignUpPage stateID client in
  if String.eqb email "" || String.eqb password "" then refused "Email and password are required" else
  if negb (String.eqb password (FormValue f "confirm_password")) then refused "Passwords do not match" else
  if Z.of_nat (String.length password) <? c_PasswordMinLength config
  then refused ("Password must be at least " ++ decimal (c_PasswordMinLength config) ++ " characters") else
  let* existing := query env StConflict (λ t, first_row (has_address true email) (users t)) in
  match existing with
  | Some _ => refused "An account with this email already exists"
  | None =>
      let* passHash := hash_password password in
      let* n := draw in
      let* row := insert_user env (new_user env (new_uuid n) (Some email) None (Some passHash) false None None []) in
      match row with
      | None => refused "Failed to create account"
      | Some row =>
          let user := without_properties row in
          publish (u_ID user) (UserSignedUp user) ;;
          completeOIDCAuthorization stateID p user
      end
  end.

Definition submit_sign_in : Handler S AuthResponse :=
  let refused := renderOIDCSignInPage stateID client in
  if negb (c_PasswordEnabled config) || negb (ui_ShowPassword (od_UI (c_OIDC config))) then refused "Password sign-in is disabled" else
  let email := form_email in
  let userPassword := FormValue f "password" in
  if String.eqb email "" || String.eqb userPassword "" then refused "Email and password are required" else
  let* row := select_account StSelectIdentifier (λ t, first_row (has_address true email) (users t)) in
  match row with
  | None => refused "Invalid email or password"
  | Some user =>
      match u_PasswordHash user with
      | None => refused "Invalid email or password"
      | Some passwordHash =>
          if locked now user then refused "Account temporarily locked. Please try again later." else
          if negb (password_ok userPassword passwordHash) then refused "Invalid email or password" else
          let mfaCode := TrimSpace (FormValue f "mfa_code") in
          if u_MFAEnabled user then
            if String.eqb mfaCode "" then ask_second_factor stateID client user else
            match second_factor_error user mfaCode with
            | Some message => refused message
            | None => completeOIDCAuthorization stateID p user
            end
          else completeOIDCAuthorization stateID p user
      end
  end.
End submit.

(** The authorization a form belongs to. *)
Definition pending_authorization (f : FormRequest) : Handler S (string * OIDCAuthorizationStatePayload) :=
  let expired := oauth_error 400 "invalid_request" "Authorization session expired or invalid" in
  if fr_FormError f then oauth_error 400 "invalid_request" "Invalid form data" else
  let stateID := FormValue f "state" in
  if String.eqb stateID "" then expired else
  let* pending := stored_authorization env stateID in
  match pending with Some p => ret (stateID, p) | None => expired end.

Definition handleSubmitOIDCAuthorize (f : FormRequest) : Handler S AuthResponse :=
  oidc_enabled ;;
  let* pending := pending_authorization f in
  let '(stateID, p) := pending in
  let client := GetOIDCClient (sp_ClientID p) in
  let action := TrimSpace (FormValue f "action") in
  if String.eqb action "verify_mfa" then submit_mfa f stateID client p else
  if String.eqb action "send_otp" then submit_send_otp f stateID client else
  if String.eqb action "verify_otp" then submit_verify_otp f stateID client p else
  if String.eqb action "sign_up" then submit_sign_up f stateID client p else
  submit_sign_in f stateID client p.

(** ** The token endpoint *)

Definition parseOAuthTokenRequest (f : FormRequest) : OAuthTokenInput :=
  let input := if Contains (content_type f) "application/json" || String.eqb (FormValue f "grant_type") "" then fr_Token f
               else MkOAuthTokenInput "" "" "" "" "" "" "" "" "" "" in
  let basic := match fr_BasicAuth f with
               | Some (id, secret) => if String.eqb id "" && String.eqb secret "" then None else Some (id, secret)
               | None => None end in
  MkOAuthTokenInput (or_else (ti_GrantType input) (FormValue f "grant_type"))
    (match basic with Some (id, _) => id | None => or_else (ti_ClientID input) (FormValue f "client_id") end)
    (match basic with Some (_, secret) => secret | None => or_else (ti_ClientSecret input) (FormValue f "client_secret") end)
    (or_else (ti_Code input) (FormValue f "code")) (or_else (ti_RedirectURI input) (FormValue f "redirect_uri"))
    (or_else (ti_CodeVerifier input) (FormValue f "code_verifier")) (or_else (ti_RefreshToken input) (FormValue f "refresh_token"))
    (or_else (ti_Scope input) (FormValue f "scope")) (or_else (ti_Audience input) (FormValue f "audience"))
    (or_else (ti_Provider input) (FormValue f "provider")).

(** *** Client credentials *)

(** The requested scopes without repetitions, in their order. *)
Fixpoint deduplicated (seen l : list string) : list string :=
  match l with
  | [] => []
  | s :: l => if existsb (String.eqb s) seen then deduplicated seen l else s :: deduplicated (s :: seen) l
  end.

(** [None]: a scope is not among the allowed ones. *)
Definition grant_scopes (requested : string) (allowed : list string) : option (list string) :=
  if String.eqb (TrimSpace requested) "" then Some allowed else
  let scopes := deduplicated [] (Fields (TrimSpace requested)) in
  if forallb (HasScope allowed) scopes then Some scopes else None.

Definition resource_server (audience : string) : option ResourceServerConfig :=
  List.find (λ r, String.eqb (rs_Identifier r) audience) (od_ResourceServers (c_OIDC config)).

(** Transliteration of the slugifier; text of a service account's id; the
    accounts, and the statements on them that fail.  When an account was last
    used is written apart from the request. *)
Context (Unidecode : string → string) (id_text : N → string) (accounts : Accounts) (sa_faults : SAStmt → bool).

Definition layr_audience : string := or_else (Slugify Unidecode k_projectName) "layr" ++ ":service_account".

Definition handleOAuthClientCredentials (request : Request) (input : OAuthTokenInput) : Handler S AuthResponse :=
  let invalid := oauth_error 401 "invalid_client" "Invalid client credentials" in
  if String.eqb (ti_ClientSecret input) "" then invalid else
  match Authenticate now sa_faults (ti_ClientSecret input) (client_ip request) accounts with
  | Err _ => invalid
  | Ok (account, _) =>
      let clientID := ti_ClientID input in
      if negb (String.eqb clientID "") && negb (String.eqb (id_text (sa_ID account)) clientID)
         && negb (String.eqb (sa_KeyPrefix account) clientID) then invalid else
      let audience := TrimSpace (ti_Audience input) in
      if String.eqb audience "" then oauth_error 400 "invalid_request" "audience parameter is required" else
      let server := resource_server audience in
      match (if String.eqb audience layr_audience then Some (sa_Scopes account) else rs_Scopes <$> server) with
      | None => oauth_error 400 "invalid_target" "The requested audience is not a registered resource server"
      | Some allowed =>
          match grant_scopes (ti_Scope input) allowed with
          | None => oauth_error 400 "invalid_scope"
              (if String.eqb audience layr_audience then "The requested scope exceeds permissions granted to the client"
               else "The requested scope is not defined for the target resource server")
          | Some grantedScopes =>
              let* n := draw in
              match GenerateM2MToken k_json_float k_seed k_keyID k_handle now (new_uuid n) (id_text (sa_ID account)) grantedScopes
                      defaultM2MExpirySeconds audience with
              | None => oauth_unavailable
              | Some accessToken => respond 200 (OIDCTokens (MkIssueOIDCTokenResponse accessToken "Bearer" defaultM2MExpirySeconds "" ""
                                                               (Join grantedScopes " ")))
              end
          end
      end
  end.

(** *** The code and the refresh token *)

(** The credentials of the client: the header, else the form. *)
Definition client_credentials (f : FormRequest) : string * string :=
  match fr_BasicAuth f with Some c => c | None => (FormValue f "client_id", FormValue f "client_secret") end.

(** A confidential client must present its secret. *)
Definition secret_matches (client : OIDCClient) (clientSecret : string) : bool :=
  oc_Public client
  || (negb (String.eqb clientSecret "") && String.eqb clientSecret (default "" (DecryptSecret (oc_ClientSecret client)))).

Definition S256 (codeVerifier : string) : string := raw_url_encode (sha256_Sum256 codeVerifier).

Definition invalid_code_grant {A} : Handler S A := oauth_error 400 "invalid_grant" "Authorization code invalid or expired".

(** The code is deleted before its payload is looked at. *)
Definition redeem_code (code : string) : Handler S OIDCAuthorizationCodePayload :=
  if String.eqb code "" then invalid_code_grant else
  let* r := kv_Get env (code_key code) in
  let codeJSON := match r with Ok data => data | Err _ => "" end in
  if String.eqb codeJSON "" then invalid_code_grant else
  kv_Delete env (code_key code) ;;
  match unmarshal_code codeJSON with Some p => ret p | None => invalid_code_grant end.

Definition id_token_claims (user : User) (sessionID clientID nonce : string) (customClaims : list (string * any)) : SignedClaims :=
  MkSignedClaims (u_ID user) sessionID (default "" (u_Email user)) (bool_decide (u_EmailVerifiedAt user ≠ None))
    (default "" (u_Phone user)) (bool_decide (u_PhoneVerifiedAt user ≠ None)) (u_Role user) (u_IsAnonymous user)
    k_baseURL clientID 0 0 0 0 nonce "" "" [] customClaims.

Definition sign_access (user : User) (sessionID : string) (customClaims : list (string * any)) : Handler S string :=
  let* n := draw in
  ret (GenerateAccessToken k_json_float k_seed k_keyID k_handle now (new_uuid n) (user_claims user sessionID customClaims)
         (c_AccessTokenExpirySeconds config)).
Definition sign_id (user : User) (sessionID clientID nonce : string) (customClaims : list (string * any)) : string :=
  GenerateIDToken k_json_float k_seed k_keyID k_handle now (id_token_claims user sessionID clientID nonce customClaims)
    (c_AccessTokenExpirySeconds config).

Definition oidc_expiry : Z := now + wrap64 (c_RefreshTokenExpirySeconds config * Second).

Definition issue_oidc_tokens (clientID : string) (p : OIDCAuthorizationCodePayload) (user : User) : Handler S AuthResponse :=
  let* id := draw in
  let sessionID := new_uuid id in
  let* customClaims := resolveCustomClaims env (u_ID user) in
  let* accessToken := sign_access user sessionID customClaims in
  let* n := draw in
  let* _ := draw in
  let refreshToken := new_token n in
  stmt env StInsertSession (insert_client_session sessionID (u_ID user) (Some clientID) (HashRefreshToken refreshToken) oidc_expiry now) ;;
  publish sessionID (SessionCreated (MkSessionCreatedEventData sessionID user "" "" None None oidc_expiry now)) ;;
  respond 200 (OIDCTokens (MkIssueOIDCTokenResponse accessToken "Bearer" (c_AccessTokenExpirySeconds config) refreshToken
    (sign_id user sessionID clientID (cp_Nonce p) customClaims) (cp_Scope p))).

(** What a payload must agree with: the client, the redirect address when one
    is given, and the verifier. *)
Definition exchange_code (f : FormRequest) (clientID : string) (p : OIDCAuthorizationCodePayload) : Handler S AuthResponse :=
  let redirectURI := FormValue f "redirect_uri" in
  if negb (String.eqb (cp_ClientID p) clientID) then oauth_error 400 "invalid_grant" "Client mismatch" else
  if negb (String.eqb redirectURI "") && negb (String.eqb (cp_RedirectURI p) redirectURI)
  then oauth_error 400 "invalid_grant" "redirect_uri mismatch" else
  if String.eqb (cp_CodeChallenge p) "" || negb (String.eqb (cp_CodeChallenge p) (S256 (FormValue f "code_verifier")))
  then oauth_error 400 "invalid_grant" "Invalid code_verifier for PKCE challenge" else
  let* row := query env StSelectUser (λ t, row_by_id (cp_UserID p) (users t)) in
  match row with
  | None => oauth_unavailable
  | Some u => issue_oidc_tokens clientID p (exported_user u)
  end.

Definition handleIssueOIDCTokenAuthorizationCode (f : FormRequest) : Handler S AuthResponse :=
  let '(clientID, clientSecret) := client_credentials f in
  if String.eqb clientID "" then oauth_error 401 "invalid_client" "Missing client credentials" else
  match GetOIDCClient clientID with
  | None => oauth_error 401 "invalid_client" "Invalid client credentials"
  | Some client =>
      if negb (secret_matches client clientSecret) then oauth_error 401 "invalid_client" "Invalid client secret" else
      let* p := redeem_code (FormValue f "code") in exchange_code f clientID p
  end.

(** The live session of a refresh token, as the grant selects it. *)
Definition live_session (tokenHash : string) (s : Session) : bool := has_hash tokenHash s && (now <? s_ExpiresAt s).

Definition rotate (id tokenHash : string) (expiresAt : Z) : AuthTables → AuthTables :=
  with_sessions (alter (λ s, MkSession (s_ID s) (s_UserID s) (s_ClientID s) tokenHash (s_IPAddress s) (s_UserAgent s) expiresAt (s_CreatedAt s)) id).

(** An unknown client is not refused, and the session's client is not read. *)
Definition refresh_client_ok (clientID clientSecret : string) : bool :=
  match (if String.eqb clientID "" then None else GetOIDCClient clientID) with
  | Some client => secret_matches client clientSecret
  | None => true
  end.

Definition refresh_user (u : User) : User :=
  MkUser (u_ID u) (u_Email u) (u_Phone u) None None false (u_Role u) (u_IsAnonymous u) (u_EmailVerifiedAt u) (u_PhoneVerifiedAt u)
    (u_LockedUntil u) ANil zero_time zero_time.

Definition handleIssueOIDCTokenRefreshToken (f : FormRequest) : Handler S AuthResponse :=
  let '(clientID, clientSecret) := client_credentials f in
  if negb (refresh_client_ok clientID clientSecret) then oauth_error 401 "invalid_client" "Invalid client secret" else
  let refreshToken := FormValue f "refresh_token" in
  if String.eqb refreshToken "" then oauth_error 400 "invalid_request" "Missing refresh_token parameter" else
  let invalid := oauth_error 400 "invalid_grant" "Invalid or expired refresh token" in
  let* row := query env StSelectSessionHash (λ t, first_row (live_session (HashRefreshToken refreshToken)) (sessions t)) in
  match row with
  | None => invalid
  | Some x =>
      let* row := query env StSelectUser (λ t, row_by_id (s_UserID x) (users t)) in
      match row with
      | None => invalid
      | Some u =>
          let user := refresh_user u in
          if locked now user then
            delete_session_id env (s_ID x) ;; oauth_error 400 "invalid_grant" "Account is temporarily locked"
          else
            let* n := draw in
            let* _ := draw in
            let newRefreshToken := new_token n in
            exec env StUpdateSession (rotate (s_ID x) (HashRefreshToken newRefreshToken) oidc_expiry) ;;
            let* customClaims := resolveCustomClaims env (u_ID user) in
            let* accessToken := sign_access user (s_ID x) customClaims in
            respond 200 (OIDCTokens (MkIssueOIDCTokenResponse accessToken "Bearer" (c_AccessTokenExpirySeconds config) newRefreshToken
              (sign_id user (s_ID x) clientID "" customClaims) ""))
      end
  end.

Definition handleIssueOIDCToken (f : FormRequest) : Handler S AuthResponse :=
  let input := parseOAuthTokenRequest f in
  if String.eqb (ti_GrantType input) "" || negb (String.eqb (ti_Provider input) "") then handleProcessOAuthCallback config env f else
  if String.eqb (ti_GrantType input) "client_credentials" then handleOAuthClientCredentials (fr_Request f) input else
  oidc_enabled ;;
  if String.eqb (ti_GrantType input) "authorization_code" then handleIssueOIDCTokenAuthorizationCode f else
  if String.eqb (ti_GrantType input) "refresh_token" then handleIssueOIDCTokenRefreshToken f else
  oauth_error 400 "unsupported_grant_type" ("Unsupported grant_type '" ++ ti_GrantType input ++ "'").

(** ** User info *)

Definition handleGetOIDCUserInfo (request : Request) : Handler S AuthResponse :=
  oidc_enabled ;;
  let userID := UserID (AuthCtx request) in
  if String.eqb userID "" then oauth_error 401 "invalid_token" "Bearer token required" else
  let* row := query env StSelectUser (λ t, row_by_id userID (users t)) in
  match row with
  | None => oauth_error 401 "invalid_token" "The access token is invalid"
  | Some u =>
      let properties := properties_of (u_Properties u) in
      respond 200 (OIDCUserInfo (MkGetOIDCUserInfoResponse (u_ID u)
        (match properties with AMap m => default "" (text_at m "name") | _ => "" end) (u_Email u) (bool_decide (u_EmailVerifiedAt u ≠ None))
        (u_Phone u) (bool_decide (u_PhoneVerifiedAt u ≠ None)) (u_Role u) (u_IsAnonymous u) (Unix (u_LastUpdatedAt u)) properties))
  end.

(** ** Sign-out *)

(** federated_sign_out.go: the frames that sign out of the clients. *)
Definition front_channel_url (target : ClientSessionInfo) : option string :=
  c ← client_of (c_OIDCClients config) (ci_ClientID target);
  if String.eqb (oc_FrontChannelSignOutURI c) "" then None else
  url_with (oc_FrontChannelSignOutURI c) (("iss", trim_right_slashes k_baseURL)
    :: if oc_FrontChannelSignOutSessionRequired c && negb (String.eqb (ci_SessionID target) "") then [("sid", ci_SessionID target)] else []).
Definition buildFrontChannelSignOutURLs (targets : list ClientSessionInfo) : list string :=
  deduplicated [] (omap front_channel_url targets).

(** Who signs out: the token hint, else the session of the request. *)
Context (unmarshal_claims : string → option SignedClaims).

Record SignOutCaller := MkSignOutCaller { so_UserID : string; so_SessionID : string; so_ClientID : string }.

Definition query_or_form (f : FormRequest) (key : string) : string := or_else (Query_Get f key) (FormValue f key).

Definition sign_out_caller (f : FormRequest) : Handler S SignOutCaller :=
  let hint := query_or_form f "id_token_hint" in
  let hinted := match (if String.eqb hint "" then Err NoSubject else VerifyAccessToken k_seed now unmarshal_claims hint) with
                | Ok c => MkSignOutCaller (k_Subject c) (k_SessionID c) (k_Audience c)
                | Err _ => MkSignOutCaller "" "" "" end in
  let token := ExtractRequestSessionToken (fr_Request f) in
  let* found := if String.eqb (so_UserID hinted) "" && negb (String.eqb token "")
                then query env StSelectSessionHash (λ t, first_row (has_hash (HashRefreshToken token)) (sessions t)) else ret None in
  let clientID := or_else (so_ClientID hinted) (query_or_form f "client_id") in
  ret (match found with
       | Some s => MkSignOutCaller (s_UserID s) (s_ID s) clientID
       | None => MkSignOutCaller (so_UserID hinted) (so_SessionID hinted) clientID end).

Definition client_sessions (userID : string) (t : AuthTables) : list Session :=
  sessions_where (λ s, String.eqb (s_UserID s) userID && bool_decide (s_ClientID s ≠ None)) t.

(** The sessions of the caller are ended; those of clients are returned, and
    only theirs are dropped from the cache. *)
Definition end_sessions (userID : string) : Handler S (list ClientSessionInfo) :=
  if String.eqb userID "" then ret [] else
  let* rows := query env StListSessions (λ t, id ← uuid_in userID; Some (client_sessions id t)) in
  let rows := default [] rows in
  forget_sessions env (s_RefreshTokenHash <$> rows) ;;
  stmt env StDeleteOthers (λ t, id ← uuid_in userID; Some (tt, drop_sessions (λ s, String.eqb (s_UserID s) id) t)) ;;
  let targets := (λ s, MkClientSessionInfo (default "" (s_ClientID s)) (s_ID s) userID) <$> rows in
  let* user := fetchUserByID env userID in
  publish userID (SessionDeleted (MkSessionDeletedEventData user None (Some (Z.of_nat (List.length targets))))) ;;
  ret targets.

(** The client of the request is told too, once. *)
Definition with_client (caller : SignOutCaller) (targets : list ClientSessionInfo) : list ClientSessionInfo :=
  if negb (String.eqb (so_ClientID caller) "") && (negb (String.eqb (so_UserID caller) "") || negb (String.eqb (so_SessionID caller) ""))
     && negb (existsb (λ t, String.eqb (ci_ClientID t) (so_ClientID caller)) targets)
  then (targets ++ [MkClientSessionInfo (so_ClientID caller) (so_SessionID caller) (so_UserID caller)])%list
  else targets.

(** Allowed when a client registered it, or when none registered any. *)
Definition valid_post_sign_out (clientID uri : string) : bool :=
  let clients := c_OIDCClients config in
  negb (String.eqb uri "")
  && (existsb (λ c, (String.eqb clientID "" || String.eqb (oc_ClientID c) clientID) && existsb (String.eqb uri) (oc_PostSignOutRedirectURIs c)) clients
      || negb (existsb (λ c, negb (bool_decide (oc_PostSignOutRedirectURIs c = []))) clients)).

Definition post_sign_out_url (uri state : string) : string :=
  if String.eqb state "" then uri else default uri (url_with uri [("state", state)]).

Definition handleSignOutOIDC (f : FormRequest) : Handler S AuthResponse :=
  oidc_enabled ;;
  let* caller := sign_out_caller f in
  let* ended := end_sessions (so_UserID caller) in
  let targets := with_client caller ended in
  dispatchBackChannelSignOut config env targets ;;
  let uri := query_or_form f "post_sign_out_redirect_uri" in
  let state := query_or_form f "state" in
  let validRedirect := valid_post_sign_out (so_ClientID caller) uri in
  match buildFrontChannelSignOutURLs targets with
  | [] => if validRedirect then respond_with 302 (Redirect (post_sign_out_url uri state)) CookieCleared
          else respond_with 200 SignedOutPage CookieCleared
  | urls => respond_with 200 (FrontChannelPage (if validRedirect then post_sign_out_url uri state else "") urls) CookieCleared
  end.
End oidc.
