(* ===== verification/AuthOIDCFlow.v ===== *)
(** * The flows of the OpenID provider

    What the handlers of AuthOIDC.v promise together: a code is exchanged by
    the client and the verifier it was issued for, once while the store does not
    fail, for tokens that are signed for the code's account; redirects go to
    registered addresses; the sign-in form lets in who proves a factor; each
    scope of a machine token is one that its account holds or covers.  And where
    they fall short: covering is not transitive, so that a read-only account is
    granted the root scope, the refresh grant does not look at the client of a session, an ID token is an
    access token, a locked account redeems a code. *)

From stdpp Require Import strings gmap.
From Stdlib Require Import ZArith Lia Ascii String.
From S2P Require Import Prelude GoStrings GoTime GoRunes GoValues URLQuery Slugifier Encodings Scopes ServiceAccounts KVStore SignInRisk DataCache Tokens AuthCodes AuthModel AuthMonad AuthSessions AuthThreat AuthPassword AuthFactors AuthUsers AuthOAuth AuthOIDC.
Local Open Scope string_scope.
Local Open Scope Z_scope.
Local Open Scope auth_scope.

(** ** Steps on the key-value store *)

Section kv_steps.
Context `{FL : Floats} {S : Type} {KD : KVDriver S} {PT : PgText} {KL : KVLaws S}.
Implicit Types (s : AuthState S).

Definition shown (now : Z) (s : AuthState S) : gmap string string := kv_view now (st_kv s).

Lemma run_kv_Get env key (k : result KVError string → Handler S AuthResponse) s : ae_kv_fails env KVGet = false →
  run (hbind k (kv_Get env key)) s
  = run (k (match shown (ae_now env) s !! key with Some v => Ok v | None => Err ErrKVStoreKeyNotFound end)) s.
Proof. intros E. unfold kv_Get. rewrite run_read_kv. unfold Get. by rewrite law_Get. Qed.

Lemma run_kv_Delete env key (k : unit → Handler S AuthResponse) s : ae_kv_fails env KVDelete = false →
  ∃ kv, run (hbind k (kv_Delete env key)) s = run (k tt) (set_kv kv s) ∧ ∀ t, kv_view t kv = delete key (shown t s).
Proof.
  intros E. unfold kv_Delete. rewrite run_on_kv. unfold Delete.
  destruct (law_Delete (ae_kv env) key (st_kv s) E) as (kv & -> & Hv). by exists kv.
Qed.

Lemma run_kv_Set env key value expiry (k : unit → Handler S AuthResponse) s : ae_kv_fails env KVSet = false →
  ∃ kv, run (hbind k (kv_Set env key value expiry)) s = run (k tt) (set_kv kv s)
  ∧ ∀ t, ae_now env <= t → kv_view t kv = put t (ae_now env + lifetime expiry) key value (shown t s).
Proof.
  intros E. unfold kv_Set. rewrite run_on_kv. unfold Set_.
  destruct (law_Set (ae_kv env) key value expiry (st_kv s) E) as (kv & -> & Hv). by exists kv.
Qed.

(** Those steps, failing or not. *)
Lemma run_kv_Delete_any env key (k : unit → Handler S AuthResponse) s :
  ∃ kv, run (hbind k (kv_Delete env key)) s = run (k tt) (set_kv kv s)
  ∧ (ae_kv_fails env KVDelete = false → ∀ t, kv_view t kv = delete key (shown t s)).
Proof.
  destruct (ae_kv_fails env KVDelete) eqn:Ef; [unfold kv_Delete; eexists; split; [apply run_on_kv|done]|].
  destruct (run_kv_Delete env key k s Ef) as (kv & E & Hv). by exists kv.
Qed.
Lemma run_kv_Set_any env key value expiry (k : unit → Handler S AuthResponse) s :
  ∃ kv, run (hbind k (kv_Set env key value expiry)) s = run (k tt) (set_kv kv s)
  ∧ (ae_kv_fails env KVSet = false → ∀ t, ae_now env <= t → kv_view t kv = put t (ae_now env + lifetime expiry) key value (shown t s)).
Proof.
  destruct (ae_kv_fails env KVSet) eqn:Ef; [unfold kv_Set; eexists; split; [apply run_on_kv|done]|].
  destruct (run_kv_Set env key value expiry k s Ef) as (kv & E & Hv). by exists kv.
Qed.

(** What is not shown stays so. *)
Lemma stays_gone now t key s : now <= t → shown now s !! key = None → shown t s !! key = None.
Proof.
  intros Ht Hn. destruct (shown t s !! key) as [v|] eqn:E; [|done]. exfalso.
  enough (shown now s !! key = Some v) by congruence. eapply lookup_weaken; [exact E|]. by apply law_expiry.
Qed.
End kv_steps.

(** ** Exchanging a code *)

Section exchange.
Context `{FL : Floats} `{HL : HostLib} `{CR : Crypto} `{AC : AuthCrypto} `{CT : CaseTables} `{UT : UnicodeTables}
  `{AH : !AuthHost} `{K : !Kernel} {S : Type} `{OH : !OAuthHost} `{UL : URLParser}.
Context {KD : KVDriver S} {PT : PgText} {KL : KVLaws S}.
Context (config : AuthConfig) (env : AuthEnv).
Implicit Types (s : AuthState S) (f : FormRequest).

(** A code redeems nothing from an instant on. *)
Definition code_gone (now : Z) (code : string) s : Prop := ∀ t, now <= t → default "" (shown t s !! code_key code) = "".

(** What the answer to a code must agree with. *)
Definition grants f (p : OIDCAuthorizationCodePayload) : Prop :=
  cp_ClientID p = (client_credentials f).1
  ∧ (FormValue f "redirect_uri" = "" ∨ FormValue f "redirect_uri" = cp_RedirectURI p)
  ∧ cp_CodeChallenge p = S256 (FormValue f "code_verifier").

(** The client of a request: one of the configuration, and when it is a
    confidential one the secret presented is its own. *)
Definition client_known f : Prop :=
  (client_credentials f).1 ≠ "" ∧ ∃ client, GetOIDCClient config (client_credentials f).1 = Some client
    ∧ (oc_Public client = true
       ∨ (client_credentials f).2 ≠ "" ∧ DecryptSecret (oc_ClientSecret client) = Some (client_credentials f).2).

Lemma secret_matches_spec client secret : secret_matches client secret = true ↔
  oc_Public client = true ∨ secret ≠ "" ∧ DecryptSecret (oc_ClientSecret client) = Some secret.
Proof.
  unfold secret_matches. rewrite orb_true_iff, andb_true_iff, negb_true_iff, String.eqb_neq, String.eqb_eq.
  destruct (DecryptSecret (oc_ClientSecret client)); naive_solver.
Qed.

(** The tokens of a session of an account for a client: the access token and
    the ID token are signed, and say whose they are. *)
Definition account_tokens (sessionID : string) (user : User) (client nonce scope : string) (tok : IssueOIDCTokenResponse) : Prop :=
  (∃ claims, it_AccessToken tok = sign_token k_seed (header_json "JWT" (used_key_id k_keyID)) (claims_json k_json_float claims)
    ∧ k_Subject claims = u_ID user ∧ k_SessionID claims = sessionID ∧ k_Email claims = default "" (u_Email user)
    ∧ k_Phone claims = default "" (u_Phone user) ∧ k_Role claims = text_or (u_Role user) "authenticated"
    ∧ k_IsAnonymous claims = u_IsAnonymous user ∧ k_NotBefore claims = Unix (ae_now env)
    ∧ k_ExpiresAt claims = expires_after (ae_now env) (if 0 <? c_AccessTokenExpirySeconds config then c_AccessTokenExpirySeconds config else 900))
  ∧ (∃ claims, it_IDToken tok = sign_token k_seed (header_json "JWT" k_keyID) (claims_json k_json_float claims)
    ∧ k_Subject claims = u_ID user ∧ k_SessionID claims = sessionID ∧ k_Audience claims = client ∧ k_Nonce claims = nonce
    ∧ k_Email claims = default "" (u_Email user))
  ∧ it_TokenType tok = "Bearer" ∧ it_Scope tok = scope.

(** The row of that session, under the hash of the refresh token. *)
Definition client_session (sessionID userID client : string) (tok : IssueOIDCTokenResponse) : Session :=
  MkSession sessionID userID (Some client) (HashRefreshToken (it_RefreshToken tok)) None None (oidc_expiry config env) (ae_now env).

Lemma issue_tokens_run clientID p user s :
  ∃ sessionID tok s', run (issue_oidc_tokens config env clientID p user) s = (MkAuthResponse 200 (OIDCTokens tok) CookieUntouched, s')
  ∧ account_tokens sessionID user clientID (cp_Nonce p) (cp_Scope p) tok ∧ st_kv s' = st_kv s
  ∧ st_db s' = match (if ae_fails env StInsertSession then None else row_by_id (u_ID user) (users (st_db s))) with
               | Some u => with_sessions (insert sessionID (client_session sessionID (u_ID u) clientID tok)) (st_db s)
               | None => st_db s
               end.
Proof.
  unfold issue_oidc_tokens. rewrite run_draw. unfold run, hbind at 1. destruct (resolve_claims_state env (u_ID user) (bump s)) as (c & ->).
  unfold sign_access, hbind, draw, ret, stmt, insert_client_session. cbn -[row_by_id]. exists (new_uuid (st_drawn s)).
  assert (Htok : ∀ tok, it_AccessToken tok = GenerateAccessToken k_json_float k_seed k_keyID k_handle (ae_now env) (new_uuid (Datatypes.S (st_drawn s)))
      (user_claims user (new_uuid (st_drawn s)) c) (c_AccessTokenExpirySeconds config) →
    it_IDToken tok = sign_id config env user (new_uuid (st_drawn s)) clientID (cp_Nonce p) c → it_TokenType tok = "Bearer" → it_Scope tok = cp_Scope p →
    account_tokens (new_uuid (st_drawn s)) user clientID (cp_Nonce p) (cp_Scope p) tok).
  { intros tok Ha Hi Ht Hs. split_and!; [eexists; split; [exact Ha|by split_and!]|eexists; split; [exact Hi|by split_and!]|done|done]. }
  destruct (ae_fails env StInsertSession); [eexists _, _; split; [reflexivity|]; split_and!; [by apply Htok|done..]|].
  destruct (row_by_id (u_ID user) (users (st_db s))) as [u|]; eexists _, _; (split; [reflexivity|]); (split_and!; [by apply Htok|done..]).
Qed.

(** Redeeming one: gone, whatever is made of it. *)
Lemma redeem_step f (k : OIDCAuthorizationCodePayload → Handler S AuthResponse) s :
  ae_kv_fails env KVGet = false → ae_kv_fails env KVDelete = false →
  (∃ b, run (hbind k (redeem_code env (FormValue f "code"))) s = (MkAuthResponse 400 b CookieUntouched, s)
        ∧ (FormValue f "code" = "" ∨ default "" (shown (ae_now env) s !! code_key (FormValue f "code")) = ""))
  ∨ ∃ data kv, shown (ae_now env) s !! code_key (FormValue f "code") = Some data
      ∧ (∀ t, kv_view t kv = delete (code_key (FormValue f "code")) (shown t s))
      ∧ run (hbind k (redeem_code env (FormValue f "code"))) s
        = match unmarshal_code data with Some p => run (k p) (set_kv kv s) | None => run (hbind k invalid_code_grant) (set_kv kv s) end.
Proof.
  intros Hg Hd. unfold redeem_code. rewrite run_if. destruct (String.eqb_spec (FormValue f "code") "") as [Hc|Hc]; [left; by eauto|].
  rewrite run_bind, run_kv_Get by done. destruct (shown _ _ !! _) as [data|] eqn:Ev; [|left; by eauto].
  rewrite run_if. destruct (String.eqb_spec data "") as [->|Hne]; [left; by eauto|]. rewrite run_bind.
  edestruct run_kv_Delete as (kv & -> & Hv); [exact Hd|]. right. exists data, kv. split_and!; [done..|]. by destruct (unmarshal_code data).
Qed.

Lemma gone_later now t code s : now <= t → default "" (shown now s !! code_key code) = "" → default "" (shown t s !! code_key code) = "".
Proof.
  intros Ht Hn. destruct (shown t s !! code_key code) as [v|] eqn:E; [|done].
  assert (Ev : shown now s !! code_key code = Some v) by (eapply lookup_weaken; [exact E|]; by apply law_expiry).
  by rewrite Ev in Hn.
Qed.

(** The answers of the grant before it looks at the code. *)
Lemma known_client_run f s : client_known f → run (handleIssueOIDCTokenAuthorizationCode config env f) s
  = run (hbind (exchange_code config env f (client_credentials f).1) (redeem_code env (FormValue f "code"))) s.
Proof.
  unfold client_known, handleIssueOIDCTokenAuthorizationCode. destruct (client_credentials f) as [clientID secret]. cbn [fst snd].
  intros (Hne & client & -> & ->%secret_matches_spec). by rewrite (proj2 (String.eqb_neq clientID "")).
Qed.

Lemma grant_client f s : client_known f ∨ ∃ b, run (handleIssueOIDCTokenAuthorizationCode config env f) s = (MkAuthResponse 401 b CookieUntouched, s).
Proof.
  unfold client_known, handleIssueOIDCTokenAuthorizationCode. destruct (client_credentials f) as [clientID secret]. cbn [fst snd].
  destruct (String.eqb_spec clientID ""); [right; by eexists|]. destruct (GetOIDCClient config clientID) as [client|]; [|right; by eexists].
  destruct (secret_matches client secret) eqn:Es; [left|right; by eexists]. apply secret_matches_spec in Es. eauto.
Qed.

(** What a payload is made of leaves the store alone. *)
Lemma exchange_kv f clientID p s : st_kv (run (exchange_code config env f clientID p) s).2 = st_kv s.
Proof.
  unfold exchange_code. destruct (negb _); [done|]. destruct (_ && _); [done|]. destruct (_ || _); [done|].
  destruct (run_quiet (query env StSelectUser (λ t, row_by_id (cp_UserID p) (users t)))
    (λ row, match row with None => oauth_unavailable | Some u => issue_oidc_tokens config env clientID p (exported_user u) end) s) as (row & s1 & -> & _ & Hk);
    [auto with auth|].
  destruct row as [u|]; [|done]. destruct (issue_tokens_run clientID p (exported_user u) s1) as (sid & tok & s' & -> & _ & E & _). cbn. congruence.
Qed.

(** C4: A token endpoint that answers 200 to an authorization code has been given a
    known client, with its secret unless the client is public, a code that
    was stored for that client and, if the request gives a redirect address,
    for that address, and the verifier whose SHA-256 is the challenge of the
    code. The tokens are those of the code's account: access token and ID
    token are signed for it, one session, that client and the code's nonce;
    the code is gone from the store, and the one change to the tables is the
    session under the hash of the refresh token, or there is none when its
    statement fails. Reading and deleting in the key-value store must not
    fail. *)
Theorem code_exchange_sound f s :
  ae_kv_fails env KVGet = false → ae_kv_fails env KVDelete = false →
  let '(r, s') := run (handleIssueOIDCTokenAuthorizationCode config env f) s in
  r_Status r = 200 →
  client_known f
  ∧ ∃ data p u sessionID tok, shown (ae_now env) s !! code_key (FormValue f "code") = Some data ∧ unmarshal_code data = Some p
    ∧ grants f p ∧ row_by_id (cp_UserID p) (users (st_db s)) = Some u
    ∧ r = MkAuthResponse 200 (OIDCTokens tok) CookieUntouched
    ∧ account_tokens sessionID (exported_user u) (cp_ClientID p) (cp_Nonce p) (cp_Scope p) tok
    ∧ (∀ t, shown t s' = delete (code_key (FormValue f "code")) (shown t s))
    ∧ (st_db s' = st_db s
       ∨ ∃ v, row_by_id (u_ID u) (users (st_db s)) = Some v
         ∧ st_db s' = with_sessions (insert sessionID (client_session sessionID (u_ID v) (cp_ClientID p) tok)) (st_db s)).
Proof.
  intros Hg Hd. destruct (grant_client f s) as [Hclient|(b & ->)]; [|done]. rewrite known_client_run by done.
  edestruct redeem_step as [(b & -> & _)|(data & kv & Hv & Hkv & ->)]; [done..| |]; [done|].
  destruct (unmarshal_code data) as [p|] eqn:Ep; [|done]. unfold exchange_code.
  destruct (String.eqb_spec (cp_ClientID p) (client_credentials f).1) as [Hcl|]; [|done]. cbn [negb].
  destruct (_ && _) eqn:Hr; [done|]. destruct (_ || _) eqn:Hc; [done|].
  destruct (ae_fails env StSelectUser) eqn:Ef; [unfold run, hbind, query, stmt; by rewrite Ef|].
  rewrite run_query by done. cbn [set_kv st_db]. destruct (row_by_id _ _) as [u|] eqn:Eu; [|done].
  rewrite <- Hcl. destruct (issue_tokens_run (cp_ClientID p) p (exported_user u) (set_kv kv s)) as (sessionID & tok & s' & E & Htok & Hk & Hdb).
  rewrite E. intros _. split; [done|]. exists data, p, u, sessionID, tok. split_and!; try done.
  - apply andb_false_iff in Hr. apply orb_false_iff in Hc as [_ Hc%negb_false_iff%String.eqb_eq]. split_and!; [done| |done].
    by destruct Hr as [H%negb_false_iff%String.eqb_eq|H%negb_false_iff%String.eqb_eq]; [left|right].
  - intros t. unfold shown at 1. by rewrite Hk.
  - rewrite Hdb. change (u_ID (exported_user u)) with (u_ID u). cbn [set_kv st_db].
    destruct (ae_fails env StInsertSession); [by left|]. destruct (row_by_id (u_ID u) _) as [v|]; [right; by exists v|by left].
Qed.

(** A code a known client has presented is gone, whatever the answer. *)
Lemma presented_code_gone f s : client_known f → ae_kv_fails env KVGet = false → ae_kv_fails env KVDelete = false →
  code_gone (ae_now env) (FormValue f "code") (run (handleIssueOIDCTokenAuthorizationCode config env f) s).2 ∨ FormValue f "code" = "".
Proof.
  intros Hk Hg Hd. rewrite known_client_run by done.
  edestruct redeem_step as [(b & -> & [Hc|Hc])|(data & kv & Hv & Hkv & ->)]; [done..|by right| |]; left; intros t Ht.
  - by eapply gone_later.
  - assert (E : st_kv (match unmarshal_code data with Some p => run (exchange_code config env f (client_credentials f).1 p) (set_kv kv s)
      | None => run (hbind (exchange_code config env f (client_credentials f).1) invalid_code_grant) (set_kv kv s) end).2 = kv)
      by (destruct (unmarshal_code data); [apply exchange_kv|done]).
    unfold shown. by rewrite E, Hkv, lookup_delete_eq.
Qed.

(** The exchange of a code that is gone. *)
Lemma gone_code_refused f s : code_gone (ae_now env) (FormValue f "code") s ∨ FormValue f "code" = "" →
  ae_kv_fails env KVGet = false → ae_kv_fails env KVDelete = false →
  ∃ r, run (handleIssueOIDCTokenAuthorizationCode config env f) s = (r, s) ∧ r_Status r ∈ [400; 401].
Proof.
  intros Hgone Hg Hd. destruct (grant_client f s) as [Hclient|(b & ->)]; [|eexists; split; [done|set_solver]].
  rewrite known_client_run by done. unfold redeem_code. rewrite run_if.
  destruct (String.eqb_spec (FormValue f "code") "") as [|Hne]; [eexists; split; [done|set_solver]|].
  destruct Hgone as [Hgone|]; [|done]. rewrite run_bind, run_kv_Get by done. specialize (Hgone (ae_now env) ltac:(lia)).
  destruct (shown _ _ !! _) as [data|]; cbn in Hgone; [subst data|]; (eexists; split; [done|set_solver]).
Qed.
End exchange.

(** C19: When reading and deleting in the key-value store do not fail, a code works
    at most once: whatever a known client is answered to it, every later
    exchange of that code, by whatever client, is refused and changes
    nothing. *)
Theorem code_single_use `{FL : Floats} `{HL : HostLib} `{CR : Crypto} `{AC : AuthCrypto} `{CT : CaseTables} `{UT : UnicodeTables}
  `{AH : !AuthHost} `{K : !Kernel} {S : Type} `{OH : !OAuthHost} `{UL : URLParser} {KD : KVDriver S} {PT : PgText} {KL : KVLaws S}
  config config' env env' f f' (s : AuthState S) :
  client_known config f → FormValue f' "code" = FormValue f "code" → ae_now env <= ae_now env' →
  ae_kv_fails env KVGet = false → ae_kv_fails env KVDelete = false → ae_kv_fails env' KVGet = false →  ae_kv_fails env' KVDelete = false →
  let s' := (run (handleIssueOIDCTokenAuthorizationCode config env f) s).2 in
  let '(r, s'') := run (handleIssueOIDCTokenAuthorizationCode config' env' f') s' in
  r_Status r ∈ [400; 401] ∧ s'' = s'.
Proof.
  intros Hk Hcode Hnow Hg Hd Hg' Hd'. cbn zeta. pose proof (presented_code_gone config env f s Hk Hg Hd) as Hgone.
  edestruct gone_code_refused as (r & -> & Hr); [|exact Hg'|exact Hd'|done].
  rewrite Hcode. destruct Hgone as [Hgone|]; [left|by right]. intros t Ht. apply Hgone. lia.
Qed.

(** ** Authorizing *)

Section authorizing.
Context `{FL : Floats} `{HL : HostLib} `{CR : Crypto} `{AC : AuthCrypto} `{CT : CaseTables} `{UT : UnicodeTables}
  `{AH : !AuthHost} `{K : !Kernel} {S : Type} `{OH : !OAuthHost} `{UL : URLParser} {KD : KVDriver S}.
Context (config : AuthConfig) (env : AuthEnv).
Implicit Types (s : AuthState S) (f : FormRequest).

(** A page changes nothing and sends nobody away. *)
Definition no_redirect (r : AuthResponse) : Prop := ∀ location, r_Body r ≠ Redirect location.

Lemma page_run stateID client e n mode token recipient s :
  ∃ r, run (renderOIDCPage (S := S) config stateID client e n mode token recipient) s = (r, s) ∧ no_redirect r.
Proof. unfold renderOIDCPage, unavailable. destruct (mapM _ _); (eexists; split; [reflexivity|done]). Qed.

Lemma store_authorization_run f client s :
  ∃ r s', run (store_authorization config env f client) s = (r, s') ∧ no_redirect r.
Proof.
  unfold store_authorization. rewrite run_draw. unfold kv_Set. rewrite run_on_kv. unfold renderOIDCSignInPage.
  match goal with |- context [run (renderOIDCPage _ ?id ?c ?m _ _ _ _) ?st] => destruct (page_run id c m "" "sign_in" "" "" st) as (r & E & Hr) end.
  rewrite E. by eexists _, _.
Qed.

(** A request a client may make on behalf of a browser. *)
Definition may_redirect f : Prop :=
  ∃ client, GetOIDCClient config (Query_Get f "client_id") = Some client ∧ Query_Get f "redirect_uri" ∈ oc_RedirectURIs client.
Definition asks_for_code f : Prop :=
  Query_Get f "response_type" = "code" ∧ Query_Get f "code_challenge" ≠ "" ∧ Query_Get f "code_challenge_method" = "S256".

(** Where a browser is sent. *)
Definition sent_by_client f location : Prop :=
  may_redirect f
  ∧ ∃ params, url_with (Query_Get f "redirect_uri") params = Some location
    ∧ (values_Get params "code" = "" ∨ asks_for_code f ∧ UserID (AuthCtx (fr_Request f)) ≠ "").

Lemma redirect_error_sent f slug d s location : may_redirect f →
  r_Body (run (redirectError (S := S) (Query_Get f "redirect_uri") slug d (Query_Get f "state")) s).1 = Redirect location → sent_by_client f location.
Proof.
  intros Hmay. unfold redirectError. destruct (url_with _ _) as [u|] eqn:Eu; [|done]. cbn. intros [= <-]. split; [done|]. eexists.
  split; [exact Eu|]. left. by destruct (String.eqb (Query_Get f "state") "").
Qed.

Lemma begin_authorization_sent f s location :
  r_Body (run (begin_authorization config env f) s).1 = Redirect location → sent_by_client f location.
Proof.
  unfold begin_authorization. destruct (String.eqb (Query_Get f "client_id") ""); [done|].
  destruct (GetOIDCClient config (Query_Get f "client_id")) as [client|] eqn:Ec; [|done].
  destruct (String.eqb (Query_Get f "redirect_uri") ""); [done|]. destruct (existsb _ _) eqn:Er; [|done]. cbn [negb].
  assert (Hmay : may_redirect f).
  { exists client. split; [done|]. apply existsb_exists in Er as (x & Hin & ->%String.eqb_eq). by apply list_elem_of_In. }
  destruct (String.eqb_spec (Query_Get f "response_type") "code") as [Ht|]; cbn [negb]; [|by apply redirect_error_sent].
  destruct (_ || _) eqn:Hc; [by apply redirect_error_sent|]. apply orb_false_iff in Hc as [Hc%String.eqb_neq Hm%negb_false_iff%String.eqb_eq].
  destruct (String.eqb_spec (UserID (AuthCtx (fr_Request f))) "") as [Hu|Hu].
  { destruct (store_authorization_run f client s) as (r & s1 & -> & Hr). intros E. by destruct (Hr location). }
  unfold issue_state_code, issueOIDCAuthorizationCode. rewrite run_bind, run_draw, run_bind, run_draw, run_bind. unfold kv_Set. rewrite run_on_kv, run_ret.
  destruct (client_redirect _ _) as [u|] eqn:Eu.
  - intros [= <-]. split; [done|]. eexists. split; [exact Eu|]. by right.
  - match goal with |- context [store_authorization config env f client] => idtac end. intros E.
    match type of E with context [run _ ?st] => destruct (store_authorization_run f client st) as (r & s1 & E' & Hr) end.
    rewrite E' in E. by destruct (Hr location).
Qed.

(** C20: The authorization endpoint sends a browser nowhere but to an address
    registered for the client that asks, whatever the request; and it sends a
    code only to a client that asked for one with a challenge hashed by S256. *)
Theorem authorize_redirects_registered f s location :
  r_Body (run (handleAuthorizeOIDC config env f) s).1 = Redirect location → sent_by_client f location.
Proof.
  unfold handleAuthorizeOIDC, oidc_enabled. rewrite run_if. destruct (od_Enabled _); [|done]. rewrite run_ret. unfold resume_page.
  rewrite run_if. destruct (_ || _); [apply begin_authorization_sent|]. unfold stored_authorization, kv_Get. rewrite !run_bind, run_read_kv, !run_ret.
  destruct (match _ with Ok _ => _ | Err _ => _ end) as [p|]; [|apply begin_authorization_sent].
  match goal with |- context [renderOIDCPage _ ?id ?c "" "" ?m "" "" ] => destruct (page_run id c "" "" m "" "" s) as (r & -> & Hr) end.
  intros E. by destruct (Hr location).
Qed.
End authorizing.

(** ** Signing in on the form *)

Section submitting.
Context `{FL : Floats} `{HL : HostLib} `{CR : Crypto} `{AC : AuthCrypto} `{CT : CaseTables} `{UT : UnicodeTables}
  `{AH : !AuthHost} `{K : !Kernel} {S : Type} `{OH : !OAuthHost} `{UL : URLParser} {KD : KVDriver S} {PT : PgText} {KL : KVLaws S}.
Context (config : AuthConfig) (env : AuthEnv).
Implicit Types (s : AuthState S) (f : FormRequest).

(** The text under a key of the store. *)
Definition stored (key : string) s : string := match Get (ae_kv env) key (st_kv s) with Ok data => data | Err _ => "" end.

(** The form's code is one of the account's second factor, within a step. *)
Definition form_code_ok f (user : User) : Prop :=
  ∃ encrypted secret, u_EncryptedMFASecret user = Some encrypted ∧ DecryptField k_encryptionKey encrypted = Ok secret
  ∧ ValidateCode (totp_manager config) secret (TrimSpace (FormValue f "mfa_code")) (ae_now env) 1 = true.

Lemma second_factor_ok f user : second_factor_error config env user (TrimSpace (FormValue f "mfa_code")) = None → form_code_ok f user.
Proof.
  unfold second_factor_error, form_code_ok. destruct (u_EncryptedMFASecret user) as [encrypted|]; [|done]. cbn [default from_option id].
  destruct (String.eqb encrypted ""); [done|]. destruct (DecryptField _ _) as [secret|] eqn:Ed; [|done].
  destruct (ValidateCode _ _ _ _ _) eqn:Ev; [|done]. intros _. by exists encrypted, secret.
Qed.

(** Who a form proves to be: a password, with a second factor where the account
    has one; the second factor of a sign-in that had got that far; a code sent
    to the address; or a new account under an address that nobody has. *)
Inductive proves f s : User → Prop :=
| proves_password u hash :
    first_row (has_address true (form_email f)) (users (st_db s)) = Some u → u_PasswordHash u = Some hash →
    password_ok (FormValue f "password") hash = true → locked (ae_now env) u = false →
    (u_MFAEnabled u = false ∨ form_code_ok f (without_properties u)) → proves f s (without_properties u)
| proves_second_factor u :
    stored (mfa_key (FormValue f "mfa_token")) s ≠ "" → row_by_id (stored (mfa_key (FormValue f "mfa_token")) s) (users (st_db s)) = Some u →
    form_code_ok f (without_properties u) → proves f s (without_properties u)
| proves_code recipient isEmail o user :
    newest_otp recipient "sign_in" (ae_now env) (st_db s) = Some o → VerifyCode (TrimSpace (FormValue f "otp_code")) (o_CodeHash o) = true →
    u_MFAEnabled user = false → u_ID user = "" ∨ has_address isEmail recipient user = true → proves f s user
| proves_new user :
    u_Email user = Some (form_email f) → (∀ id v, users (st_db s) !! id = Some v → u_ID v ≠ u_ID user → u_Email v ≠ Some (form_email f)) →
    proves f s user.

(** A response that redirects has completed the authorization for someone the
    form proves to be. *)
Definition admits f stateID p s (o : AuthResponse * AuthState S) : Prop :=
  no_redirect o.1 ∨ ∃ user s1, proves f s user ∧ o = run (completeOIDCAuthorization config env stateID p user) s1.

Lemma admits_page f stateID p s s1 id client e n mode token recipient :
  admits f stateID p s (run (renderOIDCPage config id client e n mode token recipient) s1).
Proof. left. by destruct (page_run config id client e n mode token recipient s1) as (r & -> & Hr). Qed.

Lemma admits_ask f stateID p s s1 id client user : admits f stateID p s (run (ask_second_factor config env id client user) s1).
Proof.
  left. unfold ask_second_factor. rewrite run_draw. unfold kv_Set. rewrite run_on_kv. unfold renderOIDCMFAPage.
  match goal with |- context [run (renderOIDCPage _ ?id ?c ?e ?n ?m ?t ?r) ?st] => destruct (page_run config id c e n m t r st) as (x & -> & Hx) end.
  exact Hx.
Qed.

Lemma submit_sign_in_admits f stateID client p s : admits f stateID p s (run (submit_sign_in config env f stateID client p) s).
Proof.
  unfold submit_sign_in. cbn zeta. destruct (_ || _); [apply admits_page|]. destruct (_ || _); [apply admits_page|]. unfold select_account. rewrite run_bind.
  query_cases u Hu; rewrite run_ret; cbn [fmap option_fmap option_map];
    [apply admits_page|].
  destruct (u_PasswordHash (without_properties u)) as [hash|] eqn:Eh; [|apply admits_page].
  change (u_PasswordHash u = Some hash) in Eh. change (locked (ae_now env) (without_properties u)) with (locked (ae_now env) u).
  destruct (locked _ u) eqn:El; [apply admits_page|]. destruct (password_ok _ hash) eqn:Ep; [|apply admits_page]. cbn [negb].
  change (u_MFAEnabled (without_properties u)) with (u_MFAEnabled u). destruct (u_MFAEnabled u) eqn:Em.
  - destruct (String.eqb _ _); [apply admits_ask|]. destruct (second_factor_error _ _ _ _) eqn:Es; [apply admits_page|]. apply second_factor_ok in Es.
    right. exists (without_properties u), s. split; [|done]. by eapply proves_password; eauto; right.
  - right. exists (without_properties u), s. split; [|done]. by eapply proves_password; eauto; left.
Qed.

Lemma submit_mfa_admits f stateID client p s : admits f stateID p s (run (submit_mfa config env f stateID client p) s).
Proof.
  unfold submit_mfa. cbn zeta. destruct (String.eqb (FormValue f "mfa_token") ""); [apply admits_page|].
  unfold kv_Get. rewrite run_read_kv. fold (stored (mfa_key (FormValue f "mfa_token")) s).
  destruct (String.eqb_spec (stored (mfa_key (FormValue f "mfa_token")) s) "") as [_|Hid]; [apply admits_page|].
  destruct (String.eqb _ _); [apply admits_page|]. unfold select_account. rewrite run_bind.
  query_cases u Hu; rewrite run_ret; cbn [fmap option_fmap option_map];
    [apply admits_page|].
  destruct (second_factor_error _ _ _ _) eqn:Es; [apply admits_page|]. apply second_factor_ok in Es. unfold kv_Delete. rewrite run_on_kv.
  right. eexists _, _. split; [by eapply proves_second_factor|done].
Qed.

Lemma upsert_has_address isEmail recipient id t user isNew t' : upsert_user env isEmail recipient id t = Some ((user, isNew), t') →
  has_address isEmail recipient user = true.
Proof.
  unfold upsert_user. destruct (first_row _ _) as [u|] eqn:Eu.
  - intros [= <- _ _]. apply first_row_some in Eu as [Hu _]. exact Hu.
  - intros ([v t1] & Hp & [= <- _ _])%bind_Some. unfold put_user in Hp. destruct (unique_user _ _); [|done]. injection Hp as <- _.
    unfold has_address, opt_eqb. apply bool_decide_eq_true. by destruct isEmail.
Qed.

Lemma enter_oidc_admits f stateID client p isEmail recipient o s s1 :
  newest_otp recipient "sign_in" (ae_now env) (st_db s) = Some o → VerifyCode (TrimSpace (FormValue f "otp_code")) (o_CodeHash o) = true →
  admits f stateID p s (run (enter_oidc config env stateID client p isEmail recipient) s1).
Proof.
  intros Ho Hv. unfold enter_oidc. rewrite run_draw.
  assert (Hrest : ∀ row s2, u_ID row.1 = "" ∨ has_address isEmail recipient row.1 = true →
    admits f stateID p s (run (let '(user, isNewUser) := row in let user := without_properties user in
      if negb isNewUser && locked (ae_now env) user
      then renderOIDCSignInPage config stateID client "Account temporarily locked. Please try again later." else
      when isNewUser then publish (u_ID user) (UserSignedUp user) ;;
      publish recipient (OTPVerified recipient "sign_in" (otp_channel isEmail) (Some user)) ;;
      if u_MFAEnabled user then ask_second_factor config env stateID client user
      else completeOIDCAuthorization config env stateID p user) s2)).
  { intros [user isNew] s2 Hu. cbn [fst] in Hu. cbn zeta. destruct (_ && _); [apply admits_page|]. rewrite run_if.
    destruct isNew; [rewrite run_publish|rewrite run_ret]; rewrite run_publish;
      (destruct (u_MFAEnabled (without_properties user)) eqn:Em; [apply admits_ask|right; eexists _, _; split; [by eapply proves_code|done]]). }
  stmt_cases row db Hrow; [apply (Hrest (zero_user "", false)); by left|apply (Hrest row)].
  right. destruct row as [user isNew]. by eapply upsert_has_address.
Qed.

Lemma submit_verify_otp_admits f stateID client p s : admits f stateID p s (run (submit_verify_otp config env f stateID client p) s).
Proof.
  unfold submit_verify_otp. cbn zeta. destruct (_ || _); [apply admits_page|].
  query_cases o Ho; [apply admits_page|]. destruct (VerifyCode _ _) eqn:Ev; cbn [negb].
  - unfold delete_otp, exec. stmt_cases a db Ha; unfold kv_Delete; rewrite run_on_kv; by eapply enter_oidc_admits.
  - unfold count_attempt, exec. stmt_cases a db Ha; apply admits_page.
Qed.

(** Steps that always go on. *)
Definition goes_on {A} (h : Handler S A) : Prop := ∀ s, ∃ a s', h s = (inr a, s').
Lemma goes_on_bind {A B} (h : Handler S A) (k : A → Handler S B) : goes_on h → (∀ a, goes_on (k a)) → goes_on (hbind k h).
Proof. intros Hh Hk s. destruct (Hh s) as (a & s1 & E). destruct (Hk a s1) as (b & s2 & E2). exists b, s2. unfold hbind. by rewrite E. Qed.
Lemma goes_on_ret {A} (a : A) : goes_on (ret a). Proof. intros s. by eexists _, _. Qed.
Lemma goes_on_kv {A} (g : S → A * S) : goes_on (on_kv g).
Proof. intros s. unfold on_kv. destruct (g (st_kv s)). by eexists _, _. Qed.
Lemma goes_on_stmt {A} st (h : AuthTables → option (A * AuthTables)) : goes_on (stmt env st h).
Proof. intros s. unfold stmt. destruct (ae_fails env st); [by eexists _, _|]. destruct (h (st_db s)) as [[]|]; by eexists _, _. Qed.
Lemma goes_on_quiet {A} (h : Handler S A) : quiet h → goes_on h.
Proof. intros Hq s. destruct (Hq s) as (a & s' & E & _). eauto. Qed.

Lemma admits_step {A} f stateID p s (h : Handler S A) (k : A → Handler S AuthResponse) s1 : goes_on h →
  (∀ a s2, admits f stateID p s (run (k a) s2)) → admits f stateID p s (run (hbind k h) s1).
Proof. intros Hh Hk. destruct (Hh s1) as (a & s2 & E). unfold run, hbind. rewrite E. apply Hk. Qed.

Lemma submit_send_otp_admits f stateID client p s : admits f stateID p s (run (submit_send_otp config env f stateID client) s).
Proof.
  unfold submit_send_otp. cbn zeta. destruct (String.eqb _ ""); [apply admits_page|]. destruct (negb _); [apply admits_page|].
  destruct (if Contains _ "@" then _ else _) as [recipient|]; [|apply admits_page].
  apply admits_step; [unfold over_ip_limit; apply goes_on_bind; [apply goes_on_kv|intros; apply goes_on_ret]|]. intros over s2.
  destruct over; [apply admits_page|]. apply admits_step; [apply goes_on_quiet; unfold cooling_down, kv_Get; auto with auth|].
  intros [] s3; [apply admits_page|]. apply admits_step; [apply goes_on_quiet; unfold draw_code; auto with auth|]. intros code s4.
  apply admits_step; [unfold store_code; apply goes_on_bind; [apply goes_on_quiet, quiet_draw|intros n]; apply goes_on_bind; [apply goes_on_stmt|intros _];
    apply goes_on_bind; [apply goes_on_kv|intros _; apply goes_on_kv]|]. intros _ s5.
  apply admits_step; [apply goes_on_quiet; auto with auth|]. intros _ s6.
  apply admits_step; [apply goes_on_quiet; unfold fetchUserByRecipient; auto with auth|]. intros target s7.
  apply admits_step; [apply goes_on_quiet; auto with auth|]. intros _ s8. apply admits_page.
Qed.

Lemma submit_sign_up_admits f stateID client p s : admits f stateID p s (run (submit_sign_up config env f stateID client p) s).
Proof.
  unfold submit_sign_up. cbn zeta. destruct (_ || _); [apply admits_page|]. destruct (_ || _); [apply admits_page|].
  destruct (negb _); [apply admits_page|]. destruct (_ <? _); [apply admits_page|].
  assert (Hnew : ∀ s1, users (st_db s1) = users (st_db s) → admits f stateID p s (run (
      let* passHash := hash_password (FormValue f "password") in
      let* n := draw in
      let* row := insert_user env (new_user env (new_uuid n) (Some (form_email f)) None (Some passHash) false None None []) in
      match row with
      | None => renderOIDCSignUpPage config stateID client "Failed to create account"
      | Some row =>
          let user := without_properties row in
          publish (u_ID user) (UserSignedUp user) ;;
          completeOIDCAuthorization config env stateID p user
      end) s1)).
  { intros s1 E1. unfold hash_password. rewrite run_bind, run_draw, run_ret, run_draw. unfold insert_user. rewrite run_bind.
    stmt_cases row db Hrow; rewrite run_ret; cbn [fmap option_fmap option_map]; [apply admits_page|]. rewrite run_publish.
    right. eexists _, _. split; [|done]. cbn [bump st_db] in Hrow. unfold put_user in Hrow. rewrite E1 in Hrow. destruct (unique_user _ _) eqn:Eq; [|done].
    injection Hrow as <- _. apply proves_new; [done|]. intros id v Hv Hne He. unfold unique_user in Eq. destruct (first_row _ _) eqn:Ef; [done|].
    rewrite first_row_none in Ef. specialize (Ef _ _ Hv). cbn in Ef, Hne. rewrite (proj2 (String.eqb_neq _ _)) in Ef by done.
    rewrite He in Ef. by rewrite String.eqb_refl in Ef. }
  query_cases existing He; [by apply Hnew|apply admits_page].
Qed.

(** What the authorization of a form ends with: the browser is sent to the
    redirect address it was begun with, with a code under which the store holds
    the account and what was asked for; the authorization is over. *)
Definition authorized f (p : OIDCAuthorizationStatePayload) (user : User) (location : string) s' : Prop :=
  ∃ code, url_with (sp_RedirectURI p) (("code", code) :: if String.eqb (sp_ClientState p) "" then [] else [("state", sp_ClientState p)]) = Some location
  ∧ (ae_kv_fails env KVSet = false → ∀ t, ae_now env <= t < ae_now env + lifetime (5 * Minute) →
      shown t s' !! code_key code = Some (marshal_code (MkCodePayload code (sp_ClientID p) (sp_RedirectURI p) (u_ID user) (sp_Scope p)
        (sp_CodeChallenge p) (sp_CodeChallengeMethod p) (sp_Nonce p))))
  ∧ (ae_kv_fails env KVSet = false → ae_kv_fails env KVDelete = false → ∀ t, ae_now env <= t → shown t s' !! oidc_state_key (FormValue f "state") = None).

Lemma complete_authorizes f p user s location :
  r_Body (run (completeOIDCAuthorization config env (FormValue f "state") p user) s).1 = Redirect location →
  authorized f p user location (run (completeOIDCAuthorization config env (FormValue f "state") p user) s).2.
Proof.
  unfold completeOIDCAuthorization, issue_state_code, issueOIDCAuthorizationCode.
  edestruct (run_kv_Delete_any env (oidc_state_key (FormValue f "state"))) as (kv & -> & Hdel).
  rewrite run_bind, run_draw, run_bind, run_draw, run_bind.
  edestruct (run_kv_Set_any env (code_key (new_code (st_drawn (set_kv kv s))))) as (kv2 & -> & Hset). rewrite run_ret, !run_draw.
  set (code := new_code _) in *.
  stmt_cases x db Hx; rewrite run_publish; destruct (client_redirect p code) as [u|] eqn:Eu; [|done| |done]; cbn; intros [= ->];
    (exists code; split_and!; [exact Eu|intros Hs t Ht|intros Hs Hd t Ht]; unfold shown; cbn [st_kv set_kv bump log set_db];
      rewrite Hset by (done || lia); unfold put).
  all: change (lifetime (5 * Minute)) with (lifetime defaultOIDCAuthCodeCacheTTL) in *.
  1, 3: destruct (Z.ltb_spec t (ae_now env + lifetime defaultOIDCAuthCodeCacheTTL)); [|lia]; by rewrite lookup_insert_eq.
  all: destruct (t <? _); rewrite ?lookup_insert_ne, ?lookup_delete_ne by done; unfold shown; cbn [st_kv set_kv bump];
    rewrite Hdel by done; by rewrite lookup_delete_eq.
Qed.

End submitting.

(** ** Machine tokens *)

Section machines.
Context `{FL : Floats} `{HL : HostLib} {CR : Crypto} {CL : CryptoLaws} `{AC : AuthCrypto} `{CT : CaseTables} `{UT : UnicodeTables}
  `{AH : !AuthHost} `{K : !Kernel} {S : Type} `{OH : !OAuthHost} `{UL : URLParser} {KD : KVDriver S}.
Context (config : AuthConfig) (env : AuthEnv) (Unidecode : string → string) (id_text : N → string) (accounts : Accounts)
  (sa_faults : SAStmt → bool).
Implicit Types (s : AuthState S).

(** The scopes an audience allows a caller: its own at Layr, those the resource
    server defines elsewhere. *)
Definition allowed_scopes (account : ServiceAccount) (audience : string) : option (list string) :=
  if String.eqb audience (layr_audience Unidecode) then Some (sa_Scopes account) else rs_Scopes <$> resource_server config audience.

Definition machine_claims (account : ServiceAccount) (granted : list string) (audience : string) (n : nat) : SignedClaims :=
  m2m_claims k_handle (ae_now env) (new_uuid n) (id_text (sa_ID account)) granted defaultM2MExpirySeconds audience.

Lemma client_credentials_run request input s r s' :
  run (handleOAuthClientCredentials config env Unidecode id_text accounts sa_faults request input) s = (r, s') → r_Status r = 200 →
  ∃ account due allowed granted, let audience := TrimSpace (ti_Audience input) in
    Authenticate (ae_now env) sa_faults (ti_ClientSecret input) (client_ip request) accounts = Ok (account, due)
  ∧ allowed_scopes account audience = Some allowed ∧ grant_scopes (ti_Scope input) allowed = Some granted
  ∧ id_text (sa_ID account) ≠ ""
  ∧ r_Body r = OIDCTokens (MkIssueOIDCTokenResponse (sign_token k_seed (header_json "JWT" (used_key_id k_keyID))
      (claims_json k_json_float (machine_claims account granted audience (st_drawn s)))) "Bearer" defaultM2MExpirySeconds "" "" (Join granted " ")).
Proof.
  unfold handleOAuthClientCredentials. destruct (String.eqb (ti_ClientSecret input) ""); [by intros [= <- _]|].
  destruct (Authenticate _ _ _ _ _) as [[account due]|e] eqn:Ea; [|by intros [= <- _]]. cbn zeta.
  destruct (_ && _); [by intros [= <- _]|]. destruct (String.eqb (TrimSpace (ti_Audience input)) ""); [by intros [= <- _]|].
  fold (allowed_scopes account (TrimSpace (ti_Audience input))).
  destruct (allowed_scopes account _) as [allowed|] eqn:El; [|by intros [= <- _]].
  destruct (grant_scopes _ _) as [granted|] eqn:Eg; [|by destruct (String.eqb _ _); intros [= <- _]].
  rewrite run_draw. unfold GenerateM2MToken. destruct (String.eqb_spec (id_text (sa_ID account)) "") as [_|Hid]; [by intros [= <- _]|].
  intros [= <- _] _. exists account, due, allowed, granted. done.
Qed.

(** What [jwt_auth] makes of a machine token. *)
Lemma machine_token_auth unmarshal_claims account granted audience n hash handle later request :
  let claims := machine_claims account granted audience n in
  unmarshal_claims (claims_json k_json_float claims) = Some claims → id_text (sa_ID account) ≠ "" → 0 <= Unix later <= k_ExpiresAt claims →
  ExtractRequestSessionToken request = sign_token k_seed (header_json "JWT" (used_key_id k_keyID)) (claims_json k_json_float claims) →
  jwt_auth (request_claims k_seed later unmarshal_claims) hash handle request
  = if String.eqb audience ((if String.eqb handle "" then "layr" else handle) ++ ":service_account")
    then Some (MkAuthContext "" (id_text (sa_ID account)) (set_role "service_role" (reads claims)) "") else None.
Proof.
  intros claims Hj Hid Hnow Hreq. erewrite jwt_auth_signed; [|exact Hj|exact Hnow|exact Hid|exact Hreq].
  change (k_Role claims) with "service_role". change (k_Audience claims) with audience. change (k_Subject claims) with (id_text (sa_ID account)).
  change (String.eqb "service_role" "service_role") with true. cbn [orb]. destruct (String.eqb audience _); [|done].
  unfold WithAuthContext, IsServiceAccount. cbn [ServiceAccountID JWT]. rewrite (proj2 (String.eqb_neq (id_text (sa_ID account)) "")) by done. done.
Qed.

Lemma grant_scopes_allowed requested allowed granted g : grant_scopes requested allowed = Some granted → g ∈ granted →
  g ∈ allowed ∨ HasScope allowed g = true.
Proof.
  unfold grant_scopes. destruct (String.eqb _ ""); [intros [= <-]; by left|]. destruct (forallb _ _) eqn:E; [|done]. intros [= <-] Hg.
  right. rewrite forallb_forall in E. by apply E, list_elem_of_In.
Qed.

(** C7: A machine token is granted only to a key that authenticates, for the
    audience of Layr or of a registered resource server; its scopes are
    those asked for, or all when none is, and each of them is one that the
    account holds, or HasScope accepts from those it holds, at Layr, and one
    that the resource server defines, or HasScope accepts from those,
    elsewhere; that check is not transitive, so a read-only account can be
    granted the root scope (read_only_account_becomes_root). While the token
    lives, and when its claims are read back as written, it is that account
    at Layr, under the name of the project; with the audience of a resource
    server it is nobody there. *)
Theorem machine_token_bounded unmarshal_claims request input s r s' tok later hash request' :
  run (handleOAuthClientCredentials config env Unidecode id_text accounts sa_faults request input) s = (r, s') →
  r_Status r = 200 → r_Body r = OIDCTokens tok →
  ExtractRequestSessionToken request' = it_AccessToken tok → 0 <= Unix later <= expires_after (ae_now env) defaultM2MExpirySeconds →
  ∃ account due granted allowed,
  Authenticate (ae_now env) sa_faults (ti_ClientSecret input) (client_ip request) accounts = Ok (account, due) ∧ it_Scope tok = Join granted " "
  ∧ (TrimSpace (ti_Audience input) = layr_audience Unidecode ∧ allowed = sa_Scopes account
     ∨ ∃ server, server ∈ od_ResourceServers (c_OIDC config) ∧ rs_Identifier server = TrimSpace (ti_Audience input) ∧ allowed = rs_Scopes server)
  ∧ granted = (if String.eqb (TrimSpace (ti_Scope input)) "" then allowed else deduplicated [] (Fields (TrimSpace (ti_Scope input))))
  ∧ (∀ g, g ∈ granted → g ∈ allowed ∨ HasScope allowed g = true)
  ∧ (let claims := machine_claims account granted (TrimSpace (ti_Audience input)) (st_drawn s) in
     unmarshal_claims (claims_json k_json_float claims) = Some claims →
     jwt_auth (request_claims k_seed later unmarshal_claims) hash (Slugify Unidecode k_projectName) request'
     = if String.eqb (TrimSpace (ti_Audience input)) (layr_audience Unidecode)
       then Some (MkAuthContext "" (id_text (sa_ID account)) (set_role "service_role" (reads claims)) "") else None).
Proof.
  intros Hrun Hs Hb Hreq Hnow. apply client_credentials_run in Hrun as (account & due & allowed & granted & Ha & Hl & Hg & Hid & Hb'); [|done].
  rewrite Hb in Hb'. injection Hb' as ->. cbn [it_AccessToken it_Scope] in *. exists account, due, granted, allowed. split_and!; [done|done| | | |].
  - unfold allowed_scopes in Hl. destruct (String.eqb_spec (TrimSpace (ti_Audience input)) (layr_audience Unidecode)) as [E|_]; [injection Hl as <-; by left|right].
    apply fmap_Some in Hl as (server & Hfind & ->). apply find_some in Hfind as [Hin Hid'%String.eqb_eq]. exists server. by rewrite list_elem_of_In.
  - unfold grant_scopes in Hg. destruct (String.eqb _ ""); [by injection Hg|]. destruct (forallb _ _); [by injection Hg|done].
  - intros g. by eapply grant_scopes_allowed.
  - intros Hj. erewrite machine_token_auth; [|exact Hj|done|exact Hnow|exact Hreq]. reflexivity.
Qed.

(** Where it falls short: covering is not transitive.  An account that may only
    read, everywhere, is granted the root scope when it asks for it. *)
Theorem read_only_account_becomes_root request input s account due :
  Authenticate (ae_now env) sa_faults (ti_ClientSecret input) (client_ip request) accounts = Ok (account, due) →
  sa_Scopes account = ["*:*.read"] → id_text (sa_ID account) ≠ "" →
  ti_ClientSecret input ≠ "" → ti_ClientID input = "" → TrimSpace (ti_Audience input) = layr_audience Unidecode → ti_Scope input = "*" →
  let '(r, s') := run (handleOAuthClientCredentials config env Unidecode id_text accounts sa_faults request input) s in
  HasScope (sa_Scopes account) "core:service-account.write" = false
  ∧ ∃ tok, r_Body r = OIDCTokens tok ∧ it_Scope tok = "*" ∧ ∀ required, HasScope (Fields (it_Scope tok)) required = true.
Proof.
  intros Ha Hsc Hid Hsecret Hclient Haud Hscope. unfold handleOAuthClientCredentials.
  rewrite (proj2 (String.eqb_neq (ti_ClientSecret input) "")) by done. rewrite Ha, Hclient, Haud, Hscope, Hsc. cbn zeta.
  change (String.eqb "" "") with true. cbn [negb andb].
  assert (Hne : String.eqb (layr_audience Unidecode) "" = false).
  { unfold layr_audience, or_else. destruct (String.eqb_spec (Slugify Unidecode k_projectName) "") as [_|Hs]; [done|].
    by destruct (Slugify Unidecode k_projectName). }
  rewrite Hne, String.eqb_refl. change (grant_scopes "*" ["*:*.read"]) with (Some ["*"]). cbv iota. rewrite run_draw. unfold GenerateM2MToken.
  rewrite (proj2 (String.eqb_neq (id_text (sa_ID account)) "")) by done. split; [reflexivity|]. eexists. split_and!; [reflexivity..|].
  intros required. cbn [it_Scope]. change (Fields (Join ["*"] " ")) with ["*"]. unfold HasScope. destruct (String.eqb required ""); [done|].
  cbn [existsb]. unfold scope_satisfies. destruct (parseScope required) as [[]]. done.
Qed.
End machines.

(** ** Where the provider falls short *)

Section shortcomings.
Context `{FL : Floats} `{HL : HostLib} {CR : Crypto} {CL : CryptoLaws} `{AC : AuthCrypto} `{CT : CaseTables} `{UT : UnicodeTables}
  `{AH : !AuthHost} `{K : !Kernel} {S : Type} `{OH : !OAuthHost} `{UL : URLParser} {KD : KVDriver S}.
Context (config : AuthConfig).
Implicit Types (s : AuthState S) (f : FormRequest).

(** The ID token a client is given about its user is an access token of that
    user: whoever holds it is the user, at Layr, until it expires. *)
Theorem id_token_authenticates env user sessionID clientID nonce customClaims unmarshal_claims hash handle request later :
  let claims := id_claims k_handle (ae_now env) (id_token_claims user sessionID clientID nonce customClaims) (c_AccessTokenExpirySeconds config) in
  unmarshal_claims (claims_json k_json_float claims) = Some claims →
  u_ID user ≠ "" → u_Role user ≠ "service_role" → HasSuffix clientID ":service_account" = false → 0 <= Unix later <= k_ExpiresAt claims →
  ExtractRequestSessionToken request = sign_id config env user sessionID clientID nonce customClaims →
  UserID <$> jwt_auth (request_claims k_seed later unmarshal_claims) hash handle request = Some (u_ID user).
Proof.
  intros claims Hj Hid Hrole Haud Hnow Hreq. erewrite jwt_auth_signed; [|exact Hj|exact Hnow|exact Hid|exact Hreq].
  change (k_Audience claims) with clientID. change (k_Subject claims) with (u_ID user). rewrite Haud.
  assert (Hr : String.eqb (k_Role claims) "service_role" = false).
  { change (k_Role claims) with (text_or (u_Role user) "authenticated"). unfold text_or. destruct (String.eqb (u_Role user) ""); [done|].
    by apply String.eqb_neq. }
  rewrite Hr. cbn [orb fmap option_fmap option_map]. f_equal. by apply user_context.
Qed.

(** The refresh grant does not look at the client of the session: with a live
    refresh token, a request that names a public client, an unknown one or none
    is given an access token, a new refresh token, and an ID token for whatever
    audience it names. *)
Theorem refresh_grant_ignores_client now f s id x u :
  (client_credentials f).2 = "" →
  match GetOIDCClient config (client_credentials f).1 with Some client => oc_Public client = true | None => True end →
  FormValue f "refresh_token" ≠ "" →
  first_row (live_session (auth_ok now) (HashRefreshToken (FormValue f "refresh_token"))) (sessions (st_db s)) = Some x →
  uuid_in (s_UserID x) = Some id → users (st_db s) !! id = Some u → locked now u = false →
  ∃ customClaims tok, r_Body (run (handleIssueOIDCTokenRefreshToken config (auth_ok now) f) s).1 = OIDCTokens tok
  ∧ it_RefreshToken tok = new_token (st_drawn s)
  ∧ it_IDToken tok = sign_id config (auth_ok now) (refresh_user u) (s_ID x) (client_credentials f).1 "" customClaims.
Proof.
  intros Hsecret Hclient Htok Hx Hid Hu Hl. unfold handleIssueOIDCTokenRefreshToken. destruct (client_credentials f) as [clientID secret]. cbn [fst snd] in *.
  subst secret. assert (Hok : refresh_client_ok config clientID "" = true).
  { unfold refresh_client_ok, secret_matches. destruct (String.eqb clientID ""); [done|]. destruct (GetOIDCClient config clientID); [by rewrite Hclient|done]. }
  rewrite Hok. cbn [negb]. rewrite (proj2 (String.eqb_neq _ _)) by done. rewrite run_query by done.
  change (ae_now (auth_ok now)) with now. rewrite Hx. rewrite run_query by done. unfold row_by_id. rewrite Hid. cbn [mbind option_bind]. rewrite Hu.
  change (locked now (refresh_user u)) with (locked now u). rewrite Hl, !run_draw. unfold exec. rewrite run_stmt by done.
  set (s1 := set_db _ _). destruct (resolve_claims_state (auth_ok now) (u_ID (refresh_user u)) s1) as (customClaims & E).
  unfold run, hbind. rewrite E. exists customClaims. eexists. split_and!; [reflexivity..|]. reflexivity.
Qed.

(** A locked account redeems the codes it holds: the exchange does not look at
    the lock. *)
Definition with_lock (until : option Z) (u : User) : User :=
  MkUser (u_ID u) (u_Email u) (u_Phone u) (u_PasswordHash u) (u_EncryptedMFASecret u) (u_MFAEnabled u) (u_Role u) (u_IsAnonymous u)
    (u_EmailVerifiedAt u) (u_PhoneVerifiedAt u) until (u_Properties u) (u_CreatedAt u) (u_LastUpdatedAt u).
Theorem exchange_ignores_lock env f clientID p s id u until :
  uuid_in (cp_UserID p) = Some id → users (st_db s) !! id = Some u → ae_fails env StSelectUser = false →
  r_Status (run (exchange_code config env f clientID p) s).1 = 200 →
  r_Status (run (exchange_code config env f clientID p) (set_db (with_users (insert id (with_lock until u)) (st_db s)) s)).1 = 200.
Proof.
  intros Hid Hu Hf. unfold exchange_code. destruct (negb _); [done|]. destruct (_ && _); [done|]. destruct (_ || _); [done|].
  rewrite !run_query by done. cbn [set_db with_users st_db users]. unfold row_by_id. rewrite Hid. cbn [mbind option_bind]. rewrite Hu, lookup_insert_eq.
  intros _. by destruct (issue_tokens_run config env clientID p (exported_user (with_lock until u)) (set_db (with_users (insert id (with_lock until u)) (st_db s)) s))
    as (sid & tok & s' & -> & _).
Qed.
End shortcomings.

(** Wrong passwords on the form cost nothing: the answer is a page and the
    tables, the store and the events are as they were, however often. *)
Theorem form_guesses_free `{FL : Floats} `{HL : HostLib} `{CR : Crypto} `{AC : AuthCrypto} `{CT : CaseTables} `{UT : UnicodeTables}
  `{AH : !AuthHost} `{K : !Kernel} {S : Type} `{OH : !OAuthHost} `{UL : URLParser} {KD : KVDriver S}
  config env f stateID client p (s : AuthState S) u hash :
  first_row (has_address true (form_email f)) (users (st_db s)) = Some u → u_PasswordHash u = Some hash →
  password_ok (FormValue f "password") hash = false →
  (run (submit_sign_in config env f stateID client p) s).2 = s.
Proof.
  intros Hu Hh Hp. unfold submit_sign_in. cbn zeta.
  assert (Hpage : ∀ e, (run (renderOIDCSignInPage config stateID client e) s).2 = s).
  { intros e. unfold renderOIDCSignInPage. by destruct (page_run config stateID client e "" "sign_in" "" "" s) as (r & -> & _). }
  destruct (_ || _); [apply Hpage|]. destruct (_ || _); [apply Hpage|]. unfold select_account. rewrite run_bind.
  match goal with |- (run (hbind ?k (query env ?st ?h)) s).2 = _ => destruct (run_query_any env st h k s) as [->|(v & Hv & ->)] end;
    rewrite run_ret; cbn [fmap option_fmap option_map]; [apply Hpage|].
  rewrite Hu in Hv. injection Hv as <-. change (u_PasswordHash (without_properties u)) with (u_PasswordHash u). rewrite Hh.
  destruct (locked _ _); [apply Hpage|]. rewrite Hp. apply Hpage.
Qed.

(** ** The flow from end to end *)

Section flow.
Context `{FL : Floats} `{HL : HostLib} `{CR : Crypto} `{AC : AuthCrypto} `{CT : CaseTables} `{UT : UnicodeTables}
  `{AH : !AuthHost} `{K : !Kernel} {S : Type} `{OH : !OAuthHost} `{UL : URLParser} {ULL : URLParserLaws}.
Context {KD : KVDriver S} {PT : PgText} {KL : KVLaws S}.
Context (config : AuthConfig).
Implicit Types (s : AuthState S) (f : FormRequest).

(** A well-formed request for a code, of a browser that is signed in. *)
Definition code_request f : Prop :=
  od_Enabled (c_OIDC config) = true ∧ Query_Get f "mode" = "" ∧ Query_Get f "client_id" ≠ "" ∧ Query_Get f "redirect_uri" ≠ ""
  ∧ may_redirect config f ∧ asks_for_code f ∧ UserID (AuthCtx (fr_Request f)) ≠ "".

(** The payload such a request stores. *)
Definition code_payload f (code : string) : OIDCAuthorizationCodePayload :=
  MkCodePayload code (Query_Get f "client_id") (Query_Get f "redirect_uri") (UserID (AuthCtx (fr_Request f))) (Query_Get f "scope")
    (Query_Get f "code_challenge") (Query_Get f "code_challenge_method") (Query_Get f "nonce").

Lemma authorize_signed_in now f s location : code_request f →
  client_redirect (requested_authorization (auth_ok now) f "") (new_code (st_drawn s)) = Some location →
  ∃ s', run (handleAuthorizeOIDC config (auth_ok now) f) s = (MkAuthResponse 302 (Redirect location) CookieUntouched, s') ∧ st_db s' = st_db s
  ∧ ∀ t, now <= t → kv_view t (st_kv s') = put t (now + lifetime defaultOIDCAuthCodeCacheTTL) (code_key (new_code (st_drawn s)))
      (marshal_code (code_payload f (new_code (st_drawn s)))) (shown t s).
Proof.
  intros (Hon & Hmode & Hc & Hr & (client & Hclient & Hin) & (Ht & Hch & Hm) & Hu) Hloc.
  unfold handleAuthorizeOIDC, oidc_enabled. rewrite Hon, run_ret. unfold resume_page. rewrite Hmode, orb_true_r, run_ret. unfold begin_authorization.
  rewrite (proj2 (String.eqb_neq (Query_Get f "client_id") "")), Hclient, (proj2 (String.eqb_neq (Query_Get f "redirect_uri") "")) by done.
  assert (He : existsb (String.eqb (Query_Get f "redirect_uri")) (oc_RedirectURIs client) = true).
  { apply existsb_exists. exists (Query_Get f "redirect_uri"). split; [by apply list_elem_of_In|apply String.eqb_refl]. }
  rewrite He, Ht, Hm, (proj2 (String.eqb_neq (Query_Get f "code_challenge") "")), (proj2 (String.eqb_neq (UserID _) "")) by done.
  change (String.eqb "code" "code") with true. change (String.eqb "S256" "S256") with true. cbn [negb orb].
  unfold issue_state_code, issueOIDCAuthorizationCode. rewrite run_bind, run_draw, run_bind, run_draw, run_bind.
  edestruct (run_kv_Set (auth_ok now) (code_key (new_code (st_drawn s)))) as (kv & E & Hv); [reflexivity|]. rewrite E, run_ret.
  change (requested_authorization (auth_ok now) f "") with (requested_authorization (auth_ok now) f "") in Hloc. rewrite Hloc.
  eexists. split; [reflexivity|]. split; [done|]. intros t Ht'. cbn [set_kv st_kv]. rewrite Hv by done. reflexivity.
Qed.

(** C6: A signed-in browser that asks for a code is sent back with one, and the
    client that presents next the code it was sent, with its secret, the
    address and the verifier of the challenge, within five minutes, is given
    the tokens of that account: an access token and an ID token signed for
    it, the client and the nonce, the scope asked for, and a refresh token
    under whose hash the session is now stored. Assumed: no statement fails,
    nothing happens in between, the payload of the code is read back as it
    was written, the random code is not empty, and accounts are stored under
    their ids. *)
Theorem authorized_code_exchanges now later f f' s id u location :
  code_request f → uuid_in (UserID (AuthCtx (fr_Request f))) = Some id → users (st_db s) !! id = Some u →
  u_ID u = id → uuid_in id = Some id →
  let code := new_code (st_drawn s) in
  code ≠ "" → unmarshal_code (marshal_code (code_payload f code)) = Some (code_payload f code) → marshal_code (code_payload f code) ≠ "" →
  client_redirect (requested_authorization (auth_ok now) f "") code = Some location →
  client_known config f' → (client_credentials f').1 = Query_Get f "client_id" →
  FormValue f' "code" = values_Get (ParseQuery (raw_query location)) "code" →
  FormValue f' "redirect_uri" = Query_Get f "redirect_uri" → S256 (FormValue f' "code_verifier") = Query_Get f "code_challenge" →
  now <= later < now + lifetime defaultOIDCAuthCodeCacheTTL →
  let '(r, s1) := run (handleAuthorizeOIDC config (auth_ok now) f) s in
  r = MkAuthResponse 302 (Redirect location) CookieUntouched
  ∧ ∃ s2 sessionID tok, run (handleIssueOIDCTokenAuthorizationCode config (auth_ok later) f') s1
      = (MkAuthResponse 200 (OIDCTokens tok) CookieUntouched, s2)
    ∧ account_tokens config (auth_ok later) sessionID (exported_user u) (Query_Get f "client_id") (Query_Get f "nonce") (Query_Get f "scope") tok
    ∧ sessions (st_db s2) !! sessionID = Some (client_session config (auth_ok later) sessionID id (Query_Get f "client_id") tok).
Proof.
  intros Hreq Hid Hu Hkey Hcanon code Hcode Hround Hne Hloc Hknown Hcl Hpc Hpr Hver Hlater.
  destruct (authorize_signed_in now f s location Hreq Hloc) as (s1 & -> & Hdb & Hview). split; [done|].
  assert (Hpc' : FormValue f' "code" = code).
  { rewrite Hpc. unfold client_redirect in Hloc. erewrite url_with_read; [|..|exact Hloc]; [done|].
    destruct (String.eqb (sp_ClientState _) ""); cbn; repeat constructor; set_solver. }
  rewrite known_client_run by done. unfold redeem_code. rewrite Hpc', run_if, (proj2 (String.eqb_neq code "")) by done.
  rewrite run_bind, run_kv_Get by done. unfold shown. rewrite Hview by (cbn; lia). unfold put. cbn [auth_ok ae_now].
  destruct (Z.ltb_spec later (now + lifetime defaultOIDCAuthCodeCacheTTL)); [|lia]. rewrite lookup_insert_eq.
  rewrite run_if, (proj2 (String.eqb_neq _ "")) by done. rewrite run_bind.
  edestruct (run_kv_Delete (auth_ok later)) as (kv & E & _); [reflexivity|]. rewrite E. fold code. rewrite Hround, run_ret, Hcl.
  unfold exchange_code. destruct Hreq as (_ & _ & _ & Hr & _ & (_ & Hch & _) & _). cbn [code_payload cp_ClientID cp_RedirectURI cp_CodeChallenge cp_UserID].
  rewrite Hpr, Hver, !String.eqb_refl, (proj2 (String.eqb_neq (Query_Get f "code_challenge") "")) by done. cbn [negb orb]. rewrite andb_false_r.
  rewrite run_query by done. cbn [set_kv st_db]. rewrite Hdb. unfold row_by_id. rewrite Hid. cbn [mbind option_bind]. rewrite Hu.
  destruct (issue_tokens_run config (auth_ok later) (Query_Get f "client_id") (code_payload f code) (exported_user u) (set_kv kv s1))
    as (sessionID & tok & s2 & E2 & Htok & _ & Hdb2). exists s2, sessionID, tok. split_and!; [exact E2|exact Htok|].
  rewrite Hdb2. change (u_ID (exported_user u)) with (u_ID u). change (ae_fails (auth_ok later) StInsertSession) with false. cbn [set_kv st_db].
  rewrite Hdb. unfold row_by_id. rewrite Hkey, Hcanon. cbn [mbind option_bind]. rewrite Hu. cbn [with_sessions sessions].
  by rewrite Hkey, lookup_insert_eq.
Qed.
End flow.

(** ** A concrete flow *)

Local Existing Instance integer_floats.
Local Existing Instance sample_auth_host.
Local Existing Instance sample_oauth_host.
Local Existing Instance sample_kernel.
Local Existing Instance sample_host.
Local Existing Instance sample_pg.
Local Existing Instance sample_signatures.
Local Existing Instance sample_case.
Local Existing Instance sample_auth_crypto.
Local Existing Instance ascii_tables.

Definition flow_config : AuthConfig := sample_auth_config false.
Definition flow_start : AuthState KVTable := sample_auth_state ∅.

(** Alice's browser asks for a code; the client presents it, and again. *)
Definition ask_code : FormRequest :=
  get_request (caller "alice" "s2") "" [("client_id", "crm"); ("redirect_uri", "https://crm/cb"); ("response_type", "code");
    ("code_challenge", S256 "v"); ("code_challenge_method", "S256"); ("state", "xyz"); ("scope", "openid"); ("nonce", "n1")].
Definition present (code secret : string) : FormRequest :=
  post_request (caller "" "") [("client_id", "crm"); ("client_secret", secret); ("code", code); ("redirect_uri", "https://crm/cb");
    ("code_verifier", "v")].
Definition flow_asked : AuthState KVTable := (run (handleAuthorizeOIDC flow_config (auth_ok (unix_time 100)) ask_code) flow_start).2.

Lemma crm_known code : client_known flow_config (present code "plain").
Proof. split; [done|]. exists sample_crm. split; [reflexivity|]. right. split; [done|reflexivity]. Qed.

Lemma authorized_code_exchanges_witness :
  let '(r, s1) := run (handleAuthorizeOIDC flow_config (auth_ok (unix_time 100)) ask_code) flow_start in
  r_Body r = Redirect "https://crm/cb?code=id7id8&state=xyz"
  ∧ ∃ s2 sessionID tok, run (handleIssueOIDCTokenAuthorizationCode flow_config (auth_ok (unix_time 200)) (present "id7id8" "plain")) s1
      = (MkAuthResponse 200 (OIDCTokens tok) CookieUntouched, s2)
    ∧ account_tokens flow_config (auth_ok (unix_time 200)) sessionID (exported_user alice) "crm" "n1" "openid" tok.
Proof.
  pose proof (authorized_code_exchanges (KL := DatabaseKVStore_laws) flow_config (unix_time 100) (unix_time 200) ask_code (present "id7id8" "plain")
    flow_start "alice" alice "https://crm/cb?code=id7id8&state=xyz") as Hw.
  destruct (run _ flow_start) as [r s1]. destruct Hw as [-> (s2 & sessionID & tok & E & Htok & _)];
    [|done|done|done|done|done|done|done|reflexivity|apply crm_known|done|reflexivity|done|reflexivity| |].
  - split_and!; try done. exists sample_crm. split; [reflexivity|]. by left.
  - split; by vm_compute.
  - split; [done|]. by exists s2, sessionID, tok.
Defined.

Lemma code_exchange_sound_witness :
  let '(r, s') := run (handleIssueOIDCTokenAuthorizationCode flow_config (auth_ok (unix_time 200)) (present "id7id8" "plain")) flow_asked in
  r_Status r = 200 ∧ ∃ p, cp_UserID p = "alice" ∧ grants (present "id7id8" "plain") p.
Proof.
  assert (Hs : r_Status (run (handleIssueOIDCTokenAuthorizationCode flow_config (auth_ok (unix_time 200)) (present "id7id8" "plain")) flow_asked).1 = 200)
    by reflexivity.
  pose proof (code_exchange_sound (KL := DatabaseKVStore_laws) flow_config (auth_ok (unix_time 200)) (present "id7id8" "plain") flow_asked eq_refl eq_refl) as Hw.
  destruct (run _ _) as [r s']. split; [exact Hs|]. destruct (Hw Hs) as (_ & data & p & u & sessionID & tok & Hd & Hp & Hg & _). exists p. split; [|exact Hg].
  assert (Ed : Some data = Some (marshal_code (code_payload ask_code "id7id8"))) by (rewrite <- Hd; reflexivity).
  injection Ed as ->. by injection Hp as <-.
Defined.

Lemma code_single_use_witness :
  let s' := (run (handleIssueOIDCTokenAuthorizationCode flow_config (auth_ok (unix_time 200)) (present "id7id8" "plain")) flow_asked).2 in
  let '(r, s'') := run (handleIssueOIDCTokenAuthorizationCode flow_config (auth_ok (unix_time 201)) (present "id7id8" "plain")) s' in
  r_Status r ∈ [400; 401] ∧ s'' = s'.
Proof.
  apply (code_single_use (KL := DatabaseKVStore_laws)); [apply crm_known|done|by vm_compute|done..].
Defined.

Lemma authorize_redirects_registered_witness :
  r_Body (run (handleAuthorizeOIDC flow_config (auth_ok (unix_time 100)) ask_code) flow_start).1 = Redirect "https://crm/cb?code=id7id8&state=xyz"
  ∧ sent_by_client flow_config ask_code "https://crm/cb?code=id7id8&state=xyz".
Proof. split; [reflexivity|]. apply (authorize_redirects_registered flow_config (auth_ok (unix_time 100)) ask_code flow_start). reflexivity. Defined.

(** Alice signs in on the form: a request without a caller is shown the form,
    whose state is the first id drawn. *)
Definition ask_form : FormRequest :=
  get_request (caller "" "") "" [("client_id", "crm"); ("redirect_uri", "https://crm/cb"); ("response_type", "code");
    ("code_challenge", S256 "v"); ("code_challenge_method", "S256"); ("state", "xyz")].
Definition form_shown : AuthState KVTable := (run (handleAuthorizeOIDC flow_config (auth_ok (unix_time 100)) ask_form) flow_start).2.
Definition sign_up_form (email : string) : FormRequest :=
  post_request (caller "" "") [("state", "id7"); ("action", "sign_up"); ("email", email); ("password", "secret12"); ("confirm_password", "secret12")].


Lemma form_guesses_free_witness :
  (run (submit_sign_in flow_config (auth_ok (unix_time 110)) (post_request (caller "" "") [("email", "alice@acme.com"); ("password", "guess")])
          "id7" (Some sample_crm) (requested_authorization (auth_ok (unix_time 100)) ask_form "id7")) form_shown).2 = form_shown.
Proof. by apply form_guesses_free with (u := alice) (hash := ""). Defined.

(** A service account that may read everything. *)
Definition reader_key : string := "00000000000000000000000000000000000000000000000000000000000000ff".
Definition reader_account : ServiceAccount :=
  MkServiceAccount 1 None "reader" None (slice_to secretKeyPrefixLength reader_key) (HashSecretKey reader_key) ["*:*.read"] true [] None None 0 0.
Definition ask_root : OAuthTokenInput := MkOAuthTokenInput "client_credentials" "" reader_key "" "" "" "" "*" "acme-corp:service_account" "".
Definition number_text (n : N) : string := decimal (Z.of_N n).

Lemma read_only_account_becomes_root_witness :
  let '(r, s') := run (handleOAuthClientCredentials flow_config (auth_ok (unix_time 100)) id number_text {[1%N := reader_account]} sa_ok
                         (caller "" "") ask_root) flow_start in
  HasScope (sa_Scopes reader_account) "core:service-account.write" = false
  ∧ ∃ tok, r_Body r = OIDCTokens tok ∧ it_Scope tok = "*" ∧ ∀ required, HasScope (Fields (it_Scope tok)) required = true.
Proof.
  pose proof (read_only_account_becomes_root flow_config (auth_ok (unix_time 100)) id number_text {[1%N := reader_account]} sa_ok
    (caller "" "") ask_root flow_start (scan_account reader_account) true) as Hw. apply Hw; done.
Defined.

(** Its token, used within the hour. *)
Definition ask_token : OAuthTokenInput := MkOAuthTokenInput "client_credentials" "" reader_key "" "" "" "" "" "acme-corp:service_account" "".
Definition reader_claims : SignedClaims :=
  machine_claims (auth_ok (unix_time 100)) number_text (scan_account reader_account) ["*:*.read"] "acme-corp:service_account" 7.
Definition reader_token : string :=
  sign_token k_seed (header_json "JWT" (used_key_id k_keyID)) (claims_json k_json_float reader_claims).

Definition reader_response : AuthResponse * AuthState KVTable :=
  run (handleOAuthClientCredentials flow_config (auth_ok (unix_time 100)) id number_text {[1%N := reader_account]} sa_ok (caller "" "") ask_token)
    flow_start.
Definition reader_tokens : IssueOIDCTokenResponse := MkIssueOIDCTokenResponse reader_token "Bearer" defaultM2MExpirySeconds "" "" "*:*.read".

Lemma machine_token_bounded_witness :
  r_Body reader_response.1 = OIDCTokens reader_tokens
  ∧ jwt_auth (request_claims k_seed (unix_time 200) (λ _, Some reader_claims)) id "acme-corp" (sample_logout_request reader_token)
    = Some (MkAuthContext "" "1" (set_role "service_role" (reads reader_claims)) "").
Proof.
  assert (Hb : r_Body reader_response.1 = OIDCTokens reader_tokens) by reflexivity. split; [exact Hb|].
  destruct (machine_token_bounded (CL := sample_crypto_laws) flow_config (auth_ok (unix_time 100)) id number_text {[1%N := reader_account]} sa_ok
    (λ _, Some reader_claims) (caller "" "") ask_token flow_start reader_response.1 reader_response.2 reader_tokens (unix_time 200) id
    (sample_logout_request reader_token)) as (account & due & granted & allowed & Ha & _ & Hl & -> & _ & Hauth); [by rewrite <- surjective_pairing|reflexivity|exact Hb| | |].
  - apply bearer_token_read; [apply sign_token_plain|discriminate].
  - split; by vm_compute.
  - injection Ha as <- <-. destruct Hl as [[_ ->]|(server & Hin & _)]; [by apply Hauth|]. by apply list_elem_of_In in Hin.
Defined.

(** Alice's session, opened for one client, refreshed in the name of another
    that nobody registered. *)
Lemma refresh_grant_ignores_client_witness :
  let f := post_request (caller "" "") [("client_id", "nobody"); ("refresh_token", "t1")] in
  ∃ customClaims tok, r_Body (run (handleIssueOIDCTokenRefreshToken flow_config (auth_ok (unix_time 100)) f) flow_start).1 = OIDCTokens tok
  ∧ it_RefreshToken tok = "id7id8"
  ∧ it_IDToken tok = sign_id flow_config (auth_ok (unix_time 100)) (refresh_user alice) "s1" "nobody" "" customClaims.
Proof.
  exact (refresh_grant_ignores_client flow_config (unix_time 100) (post_request (caller "" "") [("client_id", "nobody"); ("refresh_token", "t1")])
    flow_start "alice" (alice_session "s1" (HashRefreshToken "t1")) alice eq_refl I ltac:(discriminate) eq_refl eq_refl eq_refl eq_refl).
Defined.

Definition alice_id_claims : SignedClaims :=
  id_claims k_handle (unix_time 100) (id_token_claims alice "s1" "crm" "n1" []) (c_AccessTokenExpirySeconds flow_config).
Definition alice_id_token : string := sign_id flow_config (auth_ok (unix_time 100)) alice "s1" "crm" "n1" [].
Lemma id_token_authenticates_witness :
  UserID <$> jwt_auth (request_claims k_seed (unix_time 200) (λ _, Some alice_id_claims)) id "acme-corp" (sample_logout_request alice_id_token) = Some "alice".
Proof.
  refine (id_token_authenticates (CL := sample_crypto_laws) flow_config (auth_ok (unix_time 100)) alice "s1" "crm" "n1" []
    (λ _, Some alice_id_claims) id "acme-corp" (sample_logout_request alice_id_token) (unix_time 200) eq_refl _ _ eq_refl _ _).
  - discriminate.
  - discriminate.
  - split; by vm_compute.
  - apply bearer_token_read; [apply sign_token_plain|discriminate].
Defined.
