(* ===== verification/AuthPasskeys.v ===== *)
(** * auth/passkey/webauthn.go and base_handler_passkey.go: passkeys

    Challenges in the memory of a manager, the check of a signature, and the
    handlers of sign-up, sign-in, list and delete.  What the theorems show: a
    challenge is used once and within its life, a signature made with a key
    that parses is verified, and where the ceremony falls short: a signature
    may be left out, and a sign-up enters any account whose id is known.

    Parameters ([WebAuthnCrypto]): the parsers of keys and the verification of
    signatures of the standard library. *)

From stdpp Require Import strings gmap.
From Stdlib Require Import ZArith Lia Ascii String.
From S2P Require Import Prelude GoStrings GoTime GoRunes GoValues Scopes ServiceAccounts KVStore SignInRisk DataCache Tokens AuthCodes AuthModel AuthMonad AuthSessions AuthThreat AuthPassword AuthFactors.
Local Open Scope string_scope.
Local Open Scope Z_scope.
Local Open Scope auth_scope.

Definition passkey_challenge_ttl : Z := 5 * Minute.

(** ** Signatures *)

(** The public keys [x509.ParsePKIXPublicKey] gives, by the text they were
    parsed from. *)
Inductive WebAuthnKey := ECDSAKey (k : string) | Ed25519Key (k : string) | RSAKey (k : string) | OtherKey (k : string).

Class WebAuthnCrypto := MkWebAuthnCrypto {
  pem_Decode : string → option string;
  x509_ParsePKIXPublicKey : string → option WebAuthnKey;
  ecdsa_ParseUncompressedPublicKey : string → option WebAuthnKey;
  ecdsa_VerifyASN1 : string → string → string → bool;
  (** The two halves of a raw signature, as big-endian numbers. *)
  ecdsa_Verify : string → string → string → string → bool;
  ed25519_Verify_key : string → string → string → bool;
  rsa_VerifyPKCS1v15 : string → string → string → bool;
  rsa_VerifyPSS : string → string → string → bool }.

Section webauthn.
Context `{HL : HostLib} `{WC : WebAuthnCrypto}.

Definition uncompressedECPoint : nat := 65.
Definition rawSignatureByteLen : nat := 64.
Definition coordinateByteLen : nat := 32.

Definition parsePublicKey (keyBytes : string) : option WebAuthnKey :=
  let keyBytes := default keyBytes (pem_Decode keyBytes) in
  match x509_ParsePKIXPublicKey keyBytes with
  | Some key => Some key
  | None =>
      if Nat.eqb (String.length keyBytes) uncompressedECPoint && HasPrefix keyBytes (bytes [4%nat])
      then ecdsa_ParseUncompressedPublicKey keyBytes else None
  end.

(** What is signed: the authenticator's data and the hash of the client's. *)
Definition signed_data (clientDataJSON authenticatorData : string) : string := authenticatorData ++ sha256_Sum256 clientDataJSON.

Definition verify_key (key : WebAuthnKey) (signedData signature : string) : bool :=
  let signedHash := sha256_Sum256 signedData in
  match key with
  | ECDSAKey k =>
      ecdsa_VerifyASN1 k signedHash signature
      || (Nat.eqb (String.length signature) rawSignatureByteLen
          && ecdsa_Verify k signedHash (slice_to coordinateByteLen signature) (slice_from coordinateByteLen signature))
  | Ed25519Key k => ed25519_Verify_key k signedData signature
  | RSAKey k => rsa_VerifyPKCS1v15 k signedHash signature || rsa_VerifyPSS k signedHash signature
  | OtherKey _ => true
  end.

(** A key that does not parse accepts every signature. *)
Definition VerifySignature (publicKey clientDataJSON authenticatorData signature : string) : bool :=
  if String.eqb publicKey "" || String.eqb signature "" then false else
  match parsePublicKey publicKey with
  | Some key => verify_key key (signed_data clientDataJSON authenticatorData) signature
  | None => true
  end.
End webauthn.

(** ** The handlers *)

Record BeginPasskeySignUpInput := MkBeginPasskeySignUpInput { bp_UserID : string; bp_UserName : string }.
Record VerifyPasskeySignUpInput := MkVerifyPasskeySignUpInput {
  vp_Challenge : string; vp_CredentialID : string; vp_PublicKey : string; vp_FriendlyName : string; vp_Transports : list string }.
Record VerifyPasskeySignInInput := MkVerifyPasskeySignInInput {
  va_Challenge : string; va_CredentialID : string; va_ClientDataJSON : string; va_AuthenticatorData : string; va_Signature : string }.

Section passkeys.
Context `{FL : Floats} `{HL : HostLib} `{CR : Crypto} `{AC : AuthCrypto} `{CT : CaseTables} `{UT : UnicodeTables}
  `{AH : !AuthHost} `{K : !Kernel} {S : Type} `{KD : KVDriver S} `{WC : WebAuthnCrypto}.
Context (config : AuthConfig) (env : AuthEnv).
Let now := ae_now env.

(** *** The manager *)

Definition on_challenges {A} (f : gmap string SessionChallenge → A * gmap string SessionChallenge) : Handler S A :=
  λ s, let '(a, m) := f (st_challenges s) in (inr a, MkAuthState (st_db s) (st_kv s) (st_events s) (st_sent s) (st_drawn s) m).

Definition relying_party_id : string := if String.eqb (c_RelyingPartyID config) "" then "localhost" else c_RelyingPartyID config.
Definition relying_party_name : string :=
  if negb (String.eqb (c_RelyingPartyName config) "") then c_RelyingPartyName config
  else if String.eqb k_projectName "" then "Layr App" else k_projectName.

(** [None]: no random bytes. *)
Definition GenerateChallenge (userID : string) : Handler S (option string) :=
  let* n := draw in
  match rand_bytes n with
  | None => ret None
  | Some randomBytes =>
      let challenge := raw_url_encode randomBytes in
      on_challenges (λ m, (tt, <[challenge := MkSessionChallenge userID challenge (now + passkey_challenge_ttl)]> m)) ;;
      ret (Some challenge)
  end.

(** Removed whether it is expired or not. *)
Definition ConsumeChallenge (challenge : string) : Handler S (option string) :=
  on_challenges (λ m,
    (match m !! challenge with
     | None => None
     | Some c => if ch_ExpiresAt c <? now then None else Some (ch_UserID c)
     end, delete challenge m)).

Definition challenge_key (challenge : string) : string := "auth:challenge:" ++ challenge.

Definition passkeys_enabled : Handler S unit := if c_PasskeysEnabled config then ret tt else reject 403 "Access denied".

(** *** Sign-up *)

Definition handleBeginPasskeySignUp (body : Decoded BeginPasskeySignUpInput) (request : Request) : Handler S AuthResponse :=
  passkeys_enabled ;;
  let* input := match body with
                | NoBody => ret (MkBeginPasskeySignUpInput "" "") | BadJSON => reject 400 "Invalid JSON body" | Input input => ret input end in
  let userID := if String.eqb (bp_UserID input) "" then UserID (AuthCtx request) else bp_UserID input in
  if String.eqb userID "" then reject 400 "User ID is required" else
  let userName := if String.eqb (bp_UserName input) "" then "User" else bp_UserName input in
  let* generated := GenerateChallenge userID in
  match generated with
  | None => unavailable
  | Some challenge =>
      kv_Set env (challenge_key challenge) userID passkey_challenge_ttl ;;
      respond 200 (PasskeySignUp (MkSignUpOptions challenge relying_party_id relying_party_name userID userName))
  end.

(** [UPDATE auth.users SET is_anonymous = false]. *)
Definition no_longer_guest (u : User) : User :=
  touched env (MkUser (u_ID u) (u_Email u) (u_Phone u) (u_PasswordHash u) (u_EncryptedMFASecret u) (u_MFAEnabled u) (u_Role u) false
    (u_EmailVerifiedAt u) (u_PhoneVerifiedAt u) (u_LockedUntil u) (u_Properties u) (u_CreatedAt u) (u_LastUpdatedAt u)).

(** [INSERT INTO auth.users (id, ...) ON CONFLICT (id) DO UPDATE]: the account
    of the id, or a new one. *)
Definition upsert_by_id (userID : string) (t : AuthTables) : option (User * AuthTables) :=
  id ← uuid_in userID;
  match users t !! id with
  | Some u => Some (touched env u, with_users (insert (u_ID u) (touched env u)) t)
  | None => put_user (new_user env id None None None false None None []) t
  end.

Definition has_credential (credentialID : string) (p : PasskeyRow) : bool := String.eqb (pk_CredentialID p) credentialID.

Definition used_now (p : PasskeyRow) : PasskeyRow :=
  MkPasskeyRow (pk_ID p) (pk_UserID p) (pk_CredentialID p) (pk_PublicKey p) (pk_Counter p) (pk_Transports p) (pk_FriendlyName p)
    (pk_CreatedAt p) now.

(** [INSERT INTO auth.passkeys ... ON CONFLICT (credential_id)]. *)
Definition upsert_passkey (id userID : string) (input : VerifyPasskeySignUpInput) (friendlyName : string) (t : AuthTables)
    : option (unit * AuthTables) :=
  userID ← uuid_in userID;
  match first_row (has_credential (vp_CredentialID input)) (passkeys t) with
  | Some p => Some (tt, with_passkeys (insert (pk_ID p) (used_now p)) t)
  | None =>
      u ← users t !! userID;
      Some (tt, with_passkeys (insert id (MkPasskeyRow id (u_ID u) (vp_CredentialID input) (vp_PublicKey input) 0 (vp_Transports input)
                                            friendlyName now now)) t)
  end.

Definition invalid_challenge {A} : Handler S A := reject 400 "Invalid or expired challenge".

Definition handleVerifyPasskeySignUp (body : Decoded VerifyPasskeySignUpInput) (request : Request) : Handler S AuthResponse :=
  passkeys_enabled ;;
  let* input := decoded body in
  let* consumed := ConsumeChallenge (vp_Challenge input) in
  kv_Delete env (challenge_key (vp_Challenge input)) ;;
  let expectedUserID := default "" consumed in
  if String.eqb expectedUserID "" then invalid_challenge else
  let callerID := UserID (AuthCtx request) in
  if negb (String.eqb callerID "") && negb (String.eqb callerID expectedUserID) then invalid_challenge else
  let friendlyName := if String.eqb (vp_FriendlyName input) "" then "Passkey" else vp_FriendlyName input in
  let* guest := resolveAnonymousCaller env request in
  let targetUserID := match guest with Some u => u_ID u | None => expectedUserID end in
  let* row := stmt env StUpdateUser (match guest with
                                     | Some _ => update_user_row no_longer_guest targetUserID
                                     | None => upsert_by_id targetUserID end) in
  match row with
  | None => unavailable
  | Some row =>
      let user := scanned row in
      let* n := draw in
      let passkeyID := new_uuid n in
      let* inserted := stmt env StInsertPasskey (upsert_passkey passkeyID targetUserID input friendlyName) in
      match inserted with
      | None => unavailable
      | Some _ =>
          publish passkeyID (PasskeyCreated passkeyID user friendlyName (vp_Transports input)) ;;
          publish (u_ID user) (match guest with Some _ => UserConverted user | None => UserSignedUp user end) ;;
          issueSessionResponse config env request user "passkey" ""
      end
  end.

(** *** Sign-in *)

Definition handleBeginPasskeySignIn : Handler S AuthResponse :=
  passkeys_enabled ;;
  let* generated := GenerateChallenge "" in
  match generated with
  | None => unavailable
  | Some challenge =>
      kv_Set env (challenge_key challenge) "" passkey_challenge_ttl ;;
      respond 200 (PasskeySignIn challenge relying_party_id)
  end.

Definition passkey_sign_in_failed (resource reason : string) (user : option User) (request : Request) : Handler S unit :=
  publish resource (UserSignInFailed (MkUserSignInFailedEventData resource "passkey" reason (client_ip request) (user_agent request) user)).

(** A signature that is given is verified; one may be left out. *)
Definition signature_ok (p : PasskeyRow) (input : VerifyPasskeySignInInput) : bool :=
  String.eqb (va_Signature input) ""
  || VerifySignature (pk_PublicKey p) (va_ClientDataJSON input) (va_AuthenticatorData input) (va_Signature input).

Definition handleVerifyPasskeySignIn (body : Decoded VerifyPasskeySignInInput) (request : Request) : Handler S AuthResponse :=
  passkeys_enabled ;;
  let* input := decoded body in
  let* consumed := ConsumeChallenge (va_Challenge input) in
  if bool_decide (consumed = None) then invalid_challenge else
  kv_Delete env (challenge_key (va_Challenge input)) ;;
  let* found := query env StSelectPasskey (λ t, first_row (has_credential (va_CredentialID input)) (passkeys t)) in
  match found with
  | None => passkey_sign_in_failed (va_CredentialID input) "credential_not_found" None request ;; reject 401 "Invalid credentials"
  | Some p =>
      if negb (signature_ok p input) then
        passkey_sign_in_failed (pk_UserID p) "invalid_signature" None request ;; reject 401 "Invalid credentials"
      else
        let* row := select_user env (pk_UserID p) in
        match row with
        | None => unavailable
        | Some user =>
            if locked now user then
              passkey_sign_in_failed (u_ID user) "account_locked" (Some (without_properties user)) request ;;
              reject 423 "Account temporarily locked"
            else
              exec env StTouchPasskey (with_passkeys (fmap (λ p, if has_credential (va_CredentialID input) p then used_now p else p))) ;;
              issueSessionResponse config env request user "passkey" ""
        end
  end.

(** *** List and delete *)

Definition newer_passkey (a b : PasskeyRow) : bool := pk_CreatedAt b <=? pk_CreatedAt a.
Definition passkey_view (p : PasskeyRow) : Passkey :=
  MkPasskey (pk_ID p) (pk_FriendlyName p) (pk_Transports p) (pk_CreatedAt p) (pk_LastUsedAt p).

Definition handleListPasskeys (request : Request) : Handler S AuthResponse :=
  let* userID := authenticated request in
  let* rows := query env StListPasskeys (λ t, id ← uuid_in userID;
    Some (sort_by newer_passkey (List.filter (λ p, String.eqb (pk_UserID p) id) (snd <$> map_to_list (passkeys t))))) in
  match rows with
  | None => unavailable
  | Some rows => respond 200 (PasskeysResponse (passkey_view <$> rows))
  end.

Definition handleDeletePasskey (pathValue : string) (request : Request) : Handler S AuthResponse :=
  let* userID := authenticated request in
  let passkeyID := TrimSpace pathValue in
  if String.eqb passkeyID "" then reject 400 "Passkey ID is required" else
  let* affected := stmt env StDeletePasskey (λ t, id ← uuid_in passkeyID; uid ← uuid_in userID;
    Some (match passkeys t !! id with
          | Some p => if String.eqb (pk_UserID p) uid then (1, with_passkeys (delete id) t) else (0, t)
          | None => (0, t) end)) in
  match affected with
  | None => unavailable
  | Some affected =>
      if affected =? 0 then reject 404 "Passkey not found" else
      let* row := select_user env userID in
      match row with Some user => publish passkeyID (PasskeyDeleted passkeyID user) | None => ret tt end ;;
      respond 204 NoContent
  end.
End passkeys.

(** ** Concrete primitives, for the examples *)

(** Keys are the texts that begin with [K]; a signature is the key and what is
    signed. *)
Definition sample_webauthn : WebAuthnCrypto := {|
  pem_Decode _ := None;
  x509_ParsePKIXPublicKey k := if HasPrefix k "K" then Some (Ed25519Key k) else None;
  ecdsa_ParseUncompressedPublicKey _ := None;
  ecdsa_VerifyASN1 _ _ _ := false;
  ecdsa_Verify _ _ _ _ := false;
  ed25519_Verify_key k m s := String.eqb s (k ++ m);
  rsa_VerifyPKCS1v15 _ _ _ := false;
  rsa_VerifyPSS _ _ _ := false |}.

(** ** What the ceremonies promise *)

Section ceremonies.
Context `{FL : Floats} `{HL : HostLib} `{CR : Crypto} `{AC : AuthCrypto} `{CT : CaseTables} `{UT : UnicodeTables}
  `{AH : !AuthHost} `{K : !Kernel} {S : Type} `{KD : KVDriver S} `{WC : WebAuthnCrypto}.
Context (config : AuthConfig).
Implicit Types (s : AuthState S).

(** A challenge is taken out of the memory, whatever comes of it. *)
Lemma run_consume env challenge (k : option string → Handler S AuthResponse) s :
  run (hbind k (ConsumeChallenge env challenge)) s
  = run (k (match st_challenges s !! challenge with
            | Some c => if ch_ExpiresAt c <? ae_now env then None else Some (ch_UserID c)
            | None => None end))
      (MkAuthState (st_db s) (st_kv s) (st_events s) (st_sent s) (st_drawn s) (delete challenge (st_challenges s))).
Proof. done. Qed.

Lemma run_generate env userID randomBytes (k : option string → Handler S AuthResponse) s : rand_bytes (st_drawn s) = Some randomBytes →
  run (hbind k (GenerateChallenge env userID)) s
  = run (k (Some (raw_url_encode randomBytes)))
      (MkAuthState (st_db s) (st_kv s) (st_events s) (st_sent s) (Datatypes.S (st_drawn s))
         (<[raw_url_encode randomBytes := MkSessionChallenge userID (raw_url_encode randomBytes) (ae_now env + passkey_challenge_ttl)]> (st_challenges s))).
Proof. intros E. unfold GenerateChallenge. rewrite run_bind, run_draw, E. reflexivity. Qed.

(** *** Challenges are spent *)

Definition spent (challenge : string) s : Prop := st_challenges s !! challenge = None.

Lemma spent_stmt {A} challenge env st (f : AuthTables → option (A * AuthTables)) : keeps (spent challenge) (stmt env st f : Handler S _).
Proof. intros s Hs. unfold stmt. destruct (ae_fails env st); [done|]. by destruct (f (st_db s)) as [[]|]. Qed.
Lemma spent_on_kv {A} challenge (f : S → A * S) : keeps (spent challenge) (on_kv f).
Proof. intros s Hs. unfold on_kv. by destruct (f (st_kv s)). Qed.
Lemma spent_publish challenge resource d : keeps (spent challenge) (publish resource d : Handler S _). Proof. by intros s. Qed.
Lemma spent_draw challenge : keeps (spent challenge) (draw : Handler S _). Proof. by intros s. Qed.
Hint Resolve spent_stmt spent_on_kv spent_publish spent_draw : auth.
Hint Extern 1 (keeps (spent _) (kv_Delete _ _)) => apply spent_on_kv : auth.
Hint Extern 1 (keeps (spent _) (kv_Set _ _ _ _)) => apply spent_on_kv : auth.

Lemma spent_issue challenge env request user m p : keeps (spent challenge) (issueSessionResponse config env request user m p : Handler S _).
Proof. unfold issueSessionResponse, resolveCustomClaims, cache_session. keeps_walk. Qed.
Hint Resolve spent_issue : auth.

(** A challenge signs in at most once and only within its life: a sign-in
    that is not refused for its challenge was given one in memory that had not
    expired, and whatever its outcome the same challenge is refused from then
    on, at whatever time, with the tables as they were. *)
Theorem challenge_single_use env env' input input' request request' s :
  c_PasskeysEnabled config = true → va_Challenge input' = va_Challenge input →
  let '(r, s') := run (handleVerifyPasskeySignIn config env (Input input) request) s in
  (r_Body r ≠ ErrorMessage "Invalid or expired challenge" →
     ∃ c, st_challenges s !! va_Challenge input = Some c ∧ ae_now env <= ch_ExpiresAt c)
  ∧ let '(r', s'') := run (handleVerifyPasskeySignIn config env' (Input input') request') s' in
    r' = MkAuthResponse 400 (ErrorMessage "Invalid or expired challenge") CookieUntouched ∧ st_db s'' = st_db s'.
Proof.
  intros Hon Hsame.
  assert (Hspent : spent (va_Challenge input) (run (handleVerifyPasskeySignIn config env (Input input) request) s).2).
  { unfold handleVerifyPasskeySignIn, passkeys_enabled. rewrite Hon, run_ret. unfold decoded. rewrite run_ret, run_consume.
    apply (keeps_run (spent (va_Challenge input))); [|unfold spent; cbn; apply lookup_delete_eq]. unfold invalid_challenge, passkey_sign_in_failed, unavailable, select_user, exec.
    keeps_walk. }
  destruct (run (handleVerifyPasskeySignIn config env (Input input) request) s) as [r s'] eqn:E. cbn [snd] in Hspent. split.
  - intros Hr. revert E. unfold handleVerifyPasskeySignIn, passkeys_enabled. rewrite Hon, run_ret. unfold decoded. rewrite run_ret, run_consume.
    destruct (st_challenges s !! va_Challenge input) as [c|]; [|by intros [= <- _]].
    destruct (Z.ltb_spec (ch_ExpiresAt c) (ae_now env)); [by intros [= <- _]|]. intros _. by exists c.
  - unfold handleVerifyPasskeySignIn, passkeys_enabled. rewrite Hon, run_ret. unfold decoded. rewrite run_ret, run_consume, Hsame.
    unfold spent in Hspent. by rewrite Hspent.
Qed.

(** What a signature of the input was checked to be. *)
Inductive signature_accepted (p : PasskeyRow) (input : VerifyPasskeySignInInput) : Prop :=
| no_signature : va_Signature input = "" → signature_accepted p input
| unreadable_key : pk_PublicKey p ≠ "" → parsePublicKey (pk_PublicKey p) = None → signature_accepted p input
| verified_by key : parsePublicKey (pk_PublicKey p) = Some key →
    verify_key key (va_AuthenticatorData input ++ sha256_Sum256 (va_ClientDataJSON input)) (va_Signature input) = true →
    signature_accepted p input.

Lemma signature_ok_accepted p input : signature_ok p input = true → signature_accepted p input.
Proof.
  unfold signature_ok, VerifySignature. destruct (String.eqb_spec (va_Signature input) "") as [E|_]; [by constructor|]. cbn [orb].
  destruct (String.eqb_spec (pk_PublicKey p) "") as [_|Hne]; [done|]. cbn [orb].
  destruct (parsePublicKey (pk_PublicKey p)) as [key|] eqn:Ek; [|by intros _; apply unreadable_key]. intros Hv. by eapply verified_by.
Qed.

(** C21: A passkey sign-in that answers 200 has been given a challenge that was in
    memory and had not expired, which is now gone, and the credential of a
    registered passkey; and it was given no signature at all, or the key of
    the passkey cannot be read, or the key verifies the signature over the
    authenticator's data and the hash of the client's, in which neither
    challenge nor origin is looked at (a key of a kind the code does not
    know verifies everything). The tokens are for the account the passkey
    belongs to, which is not locked. *)
Theorem passkey_sign_in_sound env input request s :
  let '(r, s') := run (handleVerifyPasskeySignIn config env (Input input) request) s in
  r_Status r = 200 →
  ∃ c p user t, st_challenges s !! va_Challenge input = Some c ∧ ae_now env <= ch_ExpiresAt c
  ∧ st_challenges s' !! va_Challenge input = None
  ∧ first_row (has_credential (va_CredentialID input)) (passkeys (st_db s)) = Some p ∧ signature_accepted p input
  ∧ row_by_id (pk_UserID p) (users (st_db s)) = Some user ∧ locked (ae_now env) user = false
  ∧ r_Body r = TokenResponse t ∧ at_User t = scanned user.
Proof.
  unfold handleVerifyPasskeySignIn, passkeys_enabled. rewrite run_if. destruct (c_PasskeysEnabled config); [|done]. rewrite run_ret. unfold decoded.
  rewrite run_ret, run_consume. destruct (st_challenges s !! va_Challenge input) as [c|]; [|done].
  destruct (Z.ltb_spec (ch_ExpiresAt c) (ae_now env)) as [_|Hlive]; [done|]. rewrite bool_decide_eq_false_2 by done.
  unfold kv_Delete. rewrite run_on_kv. set (s1 := set_kv _ _).
  assert (Hdb : st_db s1 = st_db s) by done. assert (Hgone : spent (va_Challenge input) s1) by (unfold spent; cbn; apply lookup_delete_eq).
  clearbody s1. rewrite <- Hdb. clear Hdb.
  query_cases p Hp; [done|]. destruct (signature_ok p input) eqn:Hsig; [|done]. apply signature_ok_accepted in Hsig. cbn [negb]. unfold select_user. rewrite run_bind.
  query_cases u Hu; rewrite run_ret; cbn [fmap option_fmap option_map]; [done|]. change (locked (ae_now env) (scanned u)) with (locked (ae_now env) u).
  destruct (locked (ae_now env) u) eqn:Hl; [done|].
  assert (Hissue : ∀ s2, spent (va_Challenge input) s2 → ∃ t, r_Body (run (issueSessionResponse config env request (scanned u) "passkey" "") s2).1 = TokenResponse t
    ∧ at_User t = scanned u ∧ spent (va_Challenge input) (run (issueSessionResponse config env request (scanned u) "passkey" "") s2).2).
  { intros s2 Hs2. pose proof (keeps_run _ _ s2 (spent_issue (va_Challenge input) env request (scanned u) "passkey" "") Hs2) as Hk.
    destruct (issue_effect config env request (scanned u) "passkey" "" s2) as (t & s3 & row & E & Ht & _). exists t. unfold run in *. by rewrite E in *. }
  unfold exec. stmt_cases a db Ha; (destruct (Hissue (set_db db s1) Hgone) as (t & Ht & Hut & Hsp) || destruct (Hissue s1 Hgone) as (t & Ht & Hut & Hsp));
    destruct (run _ _) as [r s3]; intros _; exists c, p, u, t; done.
Qed.

(** *** Where they fall short *)

(** A passkey signs in without a signature: who knows the id of a credential
    asks for a challenge and is given a session of its account. *)
Theorem passkey_needs_no_signature now later credential p user (request' : Request) randomBytes s :
  c_PasskeysEnabled config = true → rand_bytes (st_drawn s) = Some randomBytes → now <= later <= now + passkey_challenge_ttl →
  first_row (has_credential credential) (passkeys (st_db s)) = Some p → row_by_id (pk_UserID p) (users (st_db s)) = Some user →
  locked later user = false →
  let '(r, s1) := run (handleBeginPasskeySignIn config (auth_ok now)) s in
  r_Body r = PasskeySignIn (raw_url_encode randomBytes) (relying_party_id config)
  ∧ ∃ t, r_Body (run (handleVerifyPasskeySignIn config (auth_ok later)
      (Input (MkVerifyPasskeySignInInput (raw_url_encode randomBytes) credential "" "" "")) request') s1).1 = TokenResponse t
    ∧ at_User t = scanned user.
Proof.
  intros Hon Hrand Hlater Hp Hu Hl. unfold handleBeginPasskeySignIn, passkeys_enabled. rewrite Hon, run_ret. rewrite (run_generate _ _ randomBytes) by done.
  unfold kv_Set. rewrite run_on_kv. split; [done|]. cbn [snd]. set (s1 := set_kv _ _).
  unfold handleVerifyPasskeySignIn, passkeys_enabled. rewrite Hon, run_ret. unfold decoded. rewrite run_ret, run_consume. cbn [va_Challenge va_CredentialID].
  subst s1. cbn [set_kv st_challenges st_db ae_now auth_ok]. rewrite lookup_insert_eq. cbn [ch_ExpiresAt ch_UserID].
  destruct (Z.ltb_spec (now + passkey_challenge_ttl) later); [lia|]. case_bool_decide; [done|]. unfold kv_Delete. rewrite run_on_kv.
  rewrite run_query by done. cbn [set_kv st_db]. rewrite Hp. unfold signature_ok. cbn [va_Signature]. change (String.eqb "" "") with true. cbn [orb negb].
  unfold select_user. rewrite run_bind, run_query by done. cbn [set_kv st_db]. rewrite Hu, run_ret. cbn [fmap option_fmap option_map].
  change (locked later user) with (locked later (scanned user)) in Hl. rewrite Hl. unfold exec. rewrite run_stmt by done.
  match goal with |- context [run (issueSessionResponse _ ?e ?rq ?u ?m ?pr) ?st] =>
    destruct (issue_effect config e rq u m pr st) as (t & s3 & row & E & Ht & _) end.
  exists t. unfold run. by rewrite E.
Qed.

(** Registering a passkey enters any account whose id is known: nobody has to be
    signed in, and the answer is a session of that account. *)
Theorem passkey_sign_up_takes_over now later target id user credential publicKey request request' randomBytes s :
  c_PasskeysEnabled config = true → rand_bytes (st_drawn s) = Some randomBytes → now <= later <= now + passkey_challenge_ttl →
  target ≠ "" → uuid_in target = Some id → users (st_db s) !! id = Some user →
  UserID (AuthCtx request') = "" → first_row (has_credential credential) (passkeys (st_db s)) = None →
  u_ID user = id →
  let '(r, s1) := run (handleBeginPasskeySignUp config (auth_ok now) (Input (MkBeginPasskeySignUpInput target "")) request) s in
  r_Status r = 200
  ∧ ∃ t, r_Body (run (handleVerifyPasskeySignUp config (auth_ok later)
      (Input (MkVerifyPasskeySignUpInput (raw_url_encode randomBytes) credential publicKey "" [])) request') s1).1 = TokenResponse t
    ∧ u_ID (at_User t) = u_ID user.
Proof.
  intros Hon Hrand Hlater Htarget Hid Hu Hcaller Hnone Hkey. unfold handleBeginPasskeySignUp, passkeys_enabled. rewrite Hon, run_ret, run_ret.
  cbn [bp_UserID bp_UserName]. rewrite !(proj2 (String.eqb_neq target "")) by done. rewrite (run_generate _ _ randomBytes) by done.
  unfold kv_Set. rewrite run_on_kv. split; [done|]. cbn [snd]. set (s1 := set_kv _ _).
  unfold handleVerifyPasskeySignUp, passkeys_enabled. rewrite Hon, run_ret. unfold decoded. rewrite run_ret, run_consume.
  cbn [vp_Challenge vp_FriendlyName]. subst s1. cbn [set_kv st_challenges st_db ae_now auth_ok]. rewrite lookup_insert_eq. cbn [ch_ExpiresAt ch_UserID].
  destruct (Z.ltb_spec (now + passkey_challenge_ttl) later); [lia|]. unfold kv_Delete. rewrite run_on_kv. cbn zeta. change (default "" (Some target)) with target.
  rewrite (proj2 (String.eqb_neq target "")), Hcaller by done. change (String.eqb "" "") with true. cbn [negb andb].
  unfold resolveAnonymousCaller. rewrite Hcaller. change (String.eqb "" "") with true. cbn iota. rewrite run_ret.
  rewrite run_stmt by done. unfold upsert_by_id. cbn [set_kv st_db]. rewrite Hid. cbn [mbind option_bind]. rewrite Hu, run_draw, run_stmt by done.
  unfold upsert_passkey. cbn [set_db set_kv bump st_db with_users users passkeys vp_CredentialID]. rewrite Hid. cbn [mbind option_bind].
  rewrite Hnone, <- Hkey, lookup_insert_eq. cbn [mbind option_bind]. rewrite !run_publish.
  match goal with |- context [run (issueSessionResponse _ ?e ?rq ?u ?m ?pr) ?st] =>
    destruct (issue_effect config e rq u m pr st) as (t & s3 & row & E & Ht & _) end.
  exists t. unfold run. rewrite E. split; [done|]. by rewrite Ht.
Qed.
End ceremonies.

(** ** A concrete ceremony *)

Local Existing Instance integer_floats.
Local Existing Instance sample_auth_host.
Local Existing Instance sample_kernel.
Local Existing Instance sample_host.
Local Existing Instance sample_pg.
Local Existing Instance sample_signatures.
Local Existing Instance sample_case.
Local Existing Instance sample_auth_crypto.
Local Existing Instance ascii_tables.
Local Existing Instance sample_webauthn.

Definition alice_passkey : PasskeyRow := MkPasskeyRow "k1" "alice" "cred" "Kalice" 0 [] "Passkey" 0 0.
Definition passkey_state : AuthState KVTable :=
  MkAuthState (with_passkeys (insert "k1" alice_passkey) (st_db (sample_auth_state ∅))) ∅ [] [] 7 ∅.
Definition asked : string := raw_url_encode "0123456789abcdef".
Definition passkey_asked : AuthState KVTable :=
  (run (handleBeginPasskeySignIn (sample_auth_config false) (auth_ok (unix_time 100))) passkey_state).2.
Definition signed_input : VerifyPasskeySignInInput :=
  MkVerifyPasskeySignInInput asked "cred" "client" "data" ("Kalice" ++ signed_data "client" "data").

Lemma challenge_single_use_witness :
  let '(r, s') := run (handleVerifyPasskeySignIn (sample_auth_config false) (auth_ok (unix_time 110)) (Input signed_input) (caller "" "")) passkey_asked in
  r_Status r = 200
  ∧ let '(r', s'') := run (handleVerifyPasskeySignIn (sample_auth_config false) (auth_ok (unix_time 120)) (Input signed_input) (caller "" "")) s' in
    r' = MkAuthResponse 400 (ErrorMessage "Invalid or expired challenge") CookieUntouched ∧ st_db s'' = st_db s'.
Proof.
  assert (Hs : r_Status (run (handleVerifyPasskeySignIn (sample_auth_config false) (auth_ok (unix_time 110)) (Input signed_input) (caller "" ""))
    passkey_asked).1 = 200) by reflexivity.
  pose proof (challenge_single_use (sample_auth_config false) (auth_ok (unix_time 110)) (auth_ok (unix_time 120)) signed_input signed_input
    (caller "" "") (caller "" "") passkey_asked eq_refl eq_refl) as Hw.
  destruct (run _ passkey_asked) as [r s']. destruct Hw as [_ Hw]. split; [exact Hs|exact Hw].
Defined.

Lemma passkey_sign_in_sound_witness :
  ∃ p user t, r_Body (run (handleVerifyPasskeySignIn (sample_auth_config false) (auth_ok (unix_time 110)) (Input signed_input) (caller "" "")) passkey_asked).1
    = TokenResponse t ∧ at_User t = scanned user ∧ signature_accepted p signed_input.
Proof.
  assert (Hs : r_Status (run (handleVerifyPasskeySignIn (sample_auth_config false) (auth_ok (unix_time 110)) (Input signed_input) (caller "" ""))
    passkey_asked).1 = 200) by reflexivity.
  pose proof (passkey_sign_in_sound (sample_auth_config false) (auth_ok (unix_time 110)) signed_input (caller "" "") passkey_asked) as Hw.
  destruct (run _ passkey_asked) as [r s']. destruct (Hw Hs) as (c & p & user & t & _ & _ & _ & _ & Hsig & _ & _ & Hb & Hu). by exists p, user, t.
Defined.

Lemma passkey_needs_no_signature_witness :
  ∃ t, r_Body (run (handleVerifyPasskeySignIn (sample_auth_config false) (auth_ok (unix_time 110))
      (Input (MkVerifyPasskeySignInInput asked "cred" "" "" "")) (caller "" "")) passkey_asked).1 = TokenResponse t
    ∧ at_User t = scanned alice.
Proof.
  pose proof (passkey_needs_no_signature (sample_auth_config false) (unix_time 100) (unix_time 110) "cred" alice_passkey alice (caller "" "")
    "0123456789abcdef" passkey_state) as Hw. unfold passkey_asked.
  destruct (run _ passkey_state) as [r s1]. apply Hw; [reflexivity|reflexivity|split; by vm_compute|reflexivity..].
Defined.

Lemma passkey_sign_up_takes_over_witness :
  let '(r, s1) := run (handleBeginPasskeySignUp (sample_auth_config false) (auth_ok (unix_time 100)) (Input (MkBeginPasskeySignUpInput "alice" ""))
                         (caller "" "")) passkey_state in
  r_Status r = 200
  ∧ ∃ t, r_Body (run (handleVerifyPasskeySignUp (sample_auth_config false) (auth_ok (unix_time 110))
      (Input (MkVerifyPasskeySignUpInput asked "mine" "Kmine" "" [])) (caller "" "")) s1).1 = TokenResponse t
    ∧ u_ID (at_User t) = "alice".
Proof.
  apply (passkey_sign_up_takes_over (sample_auth_config false) (unix_time 100) (unix_time 110) "alice" "alice" alice "mine" "Kmine" (caller "" "")
    (caller "" "") "0123456789abcdef" passkey_state); [reflexivity|reflexivity|split; by vm_compute|discriminate|reflexivity..].
Defined.
