(* ===== verification/AuthService.v ===== *)
(** * auth/router.go: the calls of the auth service, one after another

    Every handler modelled is a constructor of [AuthCall], as every route is
    one of the router; [serve_all] runs calls in sequence, each at its instant,
    with its own configuration and failing statements.  What the theorem
    shows: the tables stay well formed, whatever the calls. *)

From stdpp Require Import strings gmap.
From Stdlib Require Import ZArith Lia Ascii String.
From S2P Require Import Prelude GoStrings GoTime GoRunes GoValues URLQuery Scopes ServiceAccounts KVStore SignInRisk DataCache Tokens AuthCodes AuthModel AuthMonad AuthSessions AuthThreat AuthPassword AuthFactors AuthUsers AuthVerification AuthOAuth AuthOIDC AuthPasskeys.
Local Open Scope string_scope.
Local Open Scope Z_scope.
Local Open Scope auth_scope.

Section service.
Context `{FL : Floats} `{HL : HostLib} `{CR : Crypto} `{AC : AuthCrypto} `{CT : CaseTables} `{UT : UnicodeTables}
  `{AH : !AuthHost} `{K : !Kernel} {S : Type} `{KD : KVDriver S} `{OH : !OAuthHost} `{UL : URLParser} `{WC : WebAuthnCrypto}.
(** What the OpenID handlers use of other components. *)
Context (Unidecode : string → string) (id_text : N → string) (accounts : Accounts) (sa_faults : SAStmt → bool)
  (unmarshal_claims : string → option SignedClaims).

(** ** Calls *)

Inductive AuthCall :=
| SignUp (body : Decoded SignUpInput) | SignIn (body : Decoded SignInInput) | SignInAnonymous (body : Decoded (list (string * any)))
| RequestPasswordReset (body : Decoded RequestPasswordResetInput) | ConfirmPasswordReset (body : Decoded ConfirmPasswordResetInput)
| UpdateUserPassword (body : Decoded UpdateUserPasswordInput)
| SendOTP (body : Decoded SendOTPInput) | VerifyOTP (body : Decoded VerifyOTPInput)
| SetupMFA | VerifyMFA (body : Decoded string) | ChallengeMFA (body : Decoded (string * string)) | DisableMFA
| RefreshToken (body : Decoded string) | SignOut (body : Decoded string)
| ListSessions | RevokeSession (pathValue urlPath : string) | RevokeOtherSessions
| GetUser | UpdateUserProperties (body : Decoded (option (list (string * any)))) | DeleteUser
| RequestEmailVerification (body : Decoded string) | ConfirmEmailVerification (body : Decoded (string * string))
| RequestPhoneVerification (body : Decoded string) | ConfirmPhoneVerification (body : Decoded (string * string))
| UpdateUserEmail (body : Decoded string) | UpdateUserPhone (body : Decoded string)
| ExportUser
| BeginPasskeySignUp (body : Decoded BeginPasskeySignUpInput) | VerifyPasskeySignUp (body : Decoded VerifyPasskeySignUpInput)
| BeginPasskeySignIn | VerifyPasskeySignIn (body : Decoded VerifyPasskeySignInInput) | ListPasskeys | DeletePasskey (pathValue : string)
(** Providers, and the OpenID endpoints. *)
| AuthorizeOAuth (f : FormRequest) | ProcessOAuthCallback (f : FormRequest)
| GetOIDCDiscovery | AuthorizeOIDC (f : FormRequest) | SubmitOIDCAuthorize (f : FormRequest) | IssueOIDCToken (f : FormRequest)
| GetOIDCUserInfo | SignOutOIDC (f : FormRequest)
(** The control plane; [allowed] is what [RequireScope] answers. *)
| OperatorListUsers (allowed : bool) (urlQuery : string → string) | OperatorCreateUser (allowed : bool) (body : Decoded CreateUserInput)
| OperatorGetUser (allowed : bool) (userID : string) | OperatorDeleteUser (allowed : bool) (userID : string)
| OperatorLockUser (allowed : bool) (userID : string) (lockedUntil : option Z) | OperatorUnlockUser (allowed : bool) (userID : string)
| OperatorListSessions (allowed : bool) (userID : string) | OperatorRevokeSessions (allowed : bool) (userID : string).

Definition serve (config : AuthConfig) (env : AuthEnv) (request : Request) (c : AuthCall) : Handler S AuthResponse :=
  match c with
  | SignUp body => handleSignUp config env body request
  | SignIn body => handleSignIn config env body request
  | SignInAnonymous body => handleSignInAnonymous config env body request
  | RequestPasswordReset body => handleRequestPasswordReset config env body request
  | ConfirmPasswordReset body => handleConfirmPasswordReset config env body request
  | UpdateUserPassword body => handleUpdateUserPassword config env body request
  | SendOTP body => handleSendOTP config env body request
  | VerifyOTP body => handleVerifyOTP config env body request
  | SetupMFA => handleSetupMFA config env request
  | VerifyMFA body => handleVerifyMFA config env body request
  | ChallengeMFA body => handleChallengeMFA config env body request
  | DisableMFA => handleDisableMFA config env request
  | RefreshToken body => handleRefreshToken config env body request
  | SignOut body => handleSignOut config env body request
  | ListSessions => handleListSessions env request
  | RevokeSession pathValue urlPath => handleRevokeSession config env pathValue urlPath request
  | RevokeOtherSessions => handleRevokeOtherSessions config env request
  | GetUser => handleGetUser env request
  | UpdateUserProperties body => handleUpdateUserProperties env body request
  | DeleteUser => handleDeleteUser env request
  | RequestEmailVerification body => handleRequestEmailVerification config env body request
  | ConfirmEmailVerification body => handleConfirmEmailVerification config env body request
  | RequestPhoneVerification body => handleRequestPhoneVerification config env body request
  | ConfirmPhoneVerification body => handleConfirmPhoneVerification config env body request
  | UpdateUserEmail body => handleUpdateUserEmail config env body request
  | UpdateUserPhone body => handleUpdateUserPhone config env body request
  | ExportUser => handleExportUser env request
  | BeginPasskeySignUp body => handleBeginPasskeySignUp config env body request
  | VerifyPasskeySignUp body => handleVerifyPasskeySignUp config env body request
  | BeginPasskeySignIn => handleBeginPasskeySignIn config env
  | VerifyPasskeySignIn body => handleVerifyPasskeySignIn config env body request
  | ListPasskeys => handleListPasskeys env request
  | DeletePasskey pathValue => handleDeletePasskey env pathValue request
  | AuthorizeOAuth f => handleAuthorizeOAuth config env f
  | ProcessOAuthCallback f => handleProcessOAuthCallback config env f
  | GetOIDCDiscovery => handleGetOIDCDiscovery
  | AuthorizeOIDC f => handleAuthorizeOIDC config env f
  | SubmitOIDCAuthorize f => handleSubmitOIDCAuthorize config env f
  | IssueOIDCToken f => handleIssueOIDCToken config env Unidecode id_text accounts sa_faults f
  | GetOIDCUserInfo => handleGetOIDCUserInfo config env request
  | SignOutOIDC f => handleSignOutOIDC config env unmarshal_claims f
  | OperatorListUsers allowed urlQuery => handleListUsers env allowed urlQuery
  | OperatorCreateUser allowed body => handleCreateUser env allowed body
  | OperatorGetUser allowed userID => operator_handleGetUser env allowed userID
  | OperatorDeleteUser allowed userID => operator_handleDeleteUser env allowed userID
  | OperatorLockUser allowed userID lockedUntil => handleLockUser config env allowed userID lockedUntil
  | OperatorUnlockUser allowed userID => handleUnlockUser env allowed userID
  | OperatorListSessions allowed userID => handleListUserSessions env allowed userID
  | OperatorRevokeSessions allowed userID => handleRevokeUserSessions config env allowed userID
  end.

Fixpoint serve_all (calls : list (AuthConfig * AuthEnv * Request * AuthCall)) (s : AuthState S) : AuthState S :=
  match calls with
  | [] => s
  | (config, env, request, c) :: calls => serve_all calls (run (serve config env request c) s).2
  end.

End service.

(** ** Well-formed tables *)

Section tables.
Context `{FL : Floats} `{AH : !AuthHost}.

(** Rows are stored under their ids; a session belongs to an account there is;
    no two accounts share an email address or a phone number, no two identities
    a provider's user, no two passkeys a credential. *)
Definition otps_keyed (m : gmap string OTP) : Prop := ∀ id o, m !! id = Some o → o_ID o = id.

Definition identities_wf (us : gmap string User) (m : gmap string Identity) : Prop :=
  (∀ id i, m !! id = Some i → id_ID i = id ∧ is_Some (us !! id_UserID i))
  ∧ ∀ id id' i i', m !! id = Some i → m !! id' = Some i' → id_Provider i = id_Provider i' →
      id_ProviderUserID i = id_ProviderUserID i' → id = id'.
Definition passkeys_wf (us : gmap string User) (m : gmap string PasskeyRow) : Prop :=
  (∀ id p, m !! id = Some p → pk_ID p = id ∧ is_Some (us !! pk_UserID p))
  ∧ ∀ id id' p p', m !! id = Some p → m !! id' = Some p' → pk_CredentialID p = pk_CredentialID p' → id = id'.

Record auth_wf (t : AuthTables) : Prop := {
  wf_users : ∀ id u, users t !! id = Some u → u_ID u = id;
  wf_sessions : ∀ id x, sessions t !! id = Some x → s_ID x = id ∧ is_Some (users t !! s_UserID x);
  wf_otps : otps_keyed (otps t);
  wf_emails : ∀ id id' u u' e, users t !! id = Some u → users t !! id' = Some u' → u_Email u = Some e → u_Email u' = Some e → id = id';
  wf_phones : ∀ id id' u u' p, users t !! id = Some u → users t !! id' = Some u' → u_Phone u = Some p → u_Phone u' = Some p → id = id';
  wf_identities : identities_wf (users t) (identities t);
  wf_passkeys : passkeys_wf (users t) (passkeys t) }.

Implicit Types (t : AuthTables).

Lemma wf_empty : auth_wf (MkAuthTables ∅ ∅ ∅ ∅ ∅).
Proof. split; [..|split|split]; unfold otps_keyed; intros *; cbn; by rewrite !lookup_empty. Qed.

(** Accounts that are not removed keep what is theirs. *)
Lemma links_more us us' m m' : (∀ id, is_Some (us !! id) → is_Some (us' !! id)) →
  identities_wf us m ∧ passkeys_wf us m' → identities_wf us' m ∧ passkeys_wf us' m'.
Proof. intros Hd [[H1 H2] [H3 H4]]. split; (split; [|done]); intros id x Hx; [apply H1 in Hx|apply H3 in Hx]; naive_solver. Qed.

Lemma wf_insert_session id userID hash ip ua expires now t x t' : auth_wf t →
  insert_session id userID hash ip ua expires now t = Some (x, t') → auth_wf t'.
Proof.
  intros [Hu Hs Ho He Hp Hi Hk] E. unfold insert_session in E. apply bind_Some in E as (u & Eu & (a & _ & [= _ <-])%bind_Some).
  unfold row_by_id in Eu. apply bind_Some in Eu as (id' & _ & Eu). split; cbn; try done.
  intros k y [[<- <-]|[_ Hy]]%lookup_insert_Some; [|by apply Hs in Hy]. cbn. split; [done|]. rewrite (Hu _ _ Eu). by eexists.
Qed.

Lemma wf_with_sessions f t : (∀ id x, f (sessions t) !! id = Some x → sessions t !! id = Some x) → auth_wf t → auth_wf (with_sessions f t).
Proof. intros Hf [Hu Hs Ho He Hp Hi Hk]. split; try done. intros id x Hx. by apply Hs, Hf. Qed.

Lemma wf_drop_sessions P t : auth_wf t → auth_wf (drop_sessions P t).
Proof. apply wf_with_sessions. by intros id x [? _]%map_lookup_filter_Some. Qed.
Lemma wf_delete_session k t : auth_wf t → auth_wf (with_sessions (delete k) t).
Proof. apply wf_with_sessions. by intros id x [_ ?]%lookup_delete_Some. Qed.

Lemma wf_with_otps f t : (∀ m, otps_keyed m → otps_keyed (f m)) → auth_wf t → auth_wf (with_otps f t).
Proof. intros Hf [Hu Hs Ho He Hp Hi Hk]. split; try done. by apply Hf. Qed.

(** Rows rewritten where they are, with their ids and addresses. *)
Lemma wf_rewrite_users f t : (∀ id u, f (users t) !! id = Some u → ∃ v, users t !! id = Some v ∧ u_ID u = u_ID v ∧ u_Email u = u_Email v ∧ u_Phone u = u_Phone v) →
  (∀ id, is_Some (users t !! id) → is_Some (f (users t) !! id)) → auth_wf t → auth_wf (with_users f t).
Proof.
  intros Hf Hdom [Hu Hs Ho He Hp Hi Hk]. split; cbn; try done.
  - intros id u (v & Hv & -> & _)%Hf. by apply Hu.
  - intros id x [Hid Hx]%Hs. split; [done|]. by apply Hdom.
  - intros id id' u u' e (v & Hv & _ & -> & _)%Hf (v' & Hv' & _ & -> & _)%Hf. by apply (He _ _ v v').
  - intros id id' u u' e (v & Hv & _ & _ & ->)%Hf (v' & Hv' & _ & _ & ->)%Hf. by apply (Hp _ _ v v').
  - by apply (links_more (users t) _ _ (passkeys t)).
  - by apply (links_more (users t) _ (identities t) _).
Qed.

Lemma wf_with_identities f t : identities_wf (users t) (f (identities t)) → auth_wf t → auth_wf (with_identities f t).
Proof. intros Hf []. by split. Qed.
Lemma wf_with_passkeys f t : passkeys_wf (users t) (f (passkeys t)) → auth_wf t → auth_wf (with_passkeys f t).
Proof. intros Hf []. by split. Qed.

Lemma unique_user_spec u m v id : unique_user u m = true → m !! id = Some v → u_ID v ≠ u_ID u →
  (∀ e, u_Email v = Some e → u_Email u ≠ Some e) ∧ ∀ p, u_Phone v = Some p → u_Phone u ≠ Some p.
Proof.
  unfold unique_user. destruct (first_row _ m) eqn:E; [done|]. intros _ Hv Hne. rewrite first_row_none in E. specialize (E id v Hv).
  rewrite (proj2 (String.eqb_neq _ _)) in E by done. cbn [negb andb] in E. apply orb_false_iff in E as [E1 E2].
  split; intros a Hva Ha; [rewrite Hva, Ha, String.eqb_refl in E1|rewrite Hva, Ha, String.eqb_refl in E2]; discriminate.
Qed.

Lemma wf_put_user u t v t' : auth_wf t → put_user u t = Some (v, t') → auth_wf t'.
Proof.
  intros [Hu Hs Ho He Hp Hi Hk] E. unfold put_user in E. destruct (unique_user u (users t)) eqn:Eq; [|done]. injection E as <- <-.
  assert (Hother : ∀ id v, id ≠ u_ID u → users t !! id = Some v → (∀ e, u_Email v = Some e → u_Email u ≠ Some e) ∧ ∀ p, u_Phone v = Some p → u_Phone u ≠ Some p).
  { intros id v Hne Hv. eapply unique_user_spec; [done..|]. by rewrite (Hu _ _ Hv). }
  split; cbn; try done.
  - intros id v [[<- <-]|[_ Hv]]%lookup_insert_Some; [done|by apply Hu].
  - intros id x [Hid Hx]%Hs. split; [done|]. destruct (decide (s_UserID x = u_ID u)) as [->|Hne]; [rewrite lookup_insert_eq; by eexists|].
    by rewrite lookup_insert_ne.
  - intros id id' v v' e [[<- <-]|[Hne Hv]]%lookup_insert_Some [[<- <-]|[Hne' Hv']]%lookup_insert_Some H1 H2; [done|..|by apply (He _ _ v v' e)].
    + by destruct (Hother id' v') as [Hn _]; [done..|]; destruct (Hn e).
    + by destruct (Hother id v) as [Hn _]; [done..|]; destruct (Hn e).
  - intros id id' v v' e [[<- <-]|[Hne Hv]]%lookup_insert_Some [[<- <-]|[Hne' Hv']]%lookup_insert_Some H1 H2; [done|..|by apply (Hp _ _ v v' e)].
    + by destruct (Hother id' v') as [_ Hn]; [done..|]; destruct (Hn e).
    + by destruct (Hother id v) as [_ Hn]; [done..|]; destruct (Hn e).
  - apply (links_more (users t) _ _ (passkeys t)); [|done]. intros id. rewrite lookup_insert_is_Some'. auto.
  - apply (links_more (users t) _ (identities t) _); [|done]. intros id. rewrite lookup_insert_is_Some'. auto.
Qed.

Lemma wf_delete_user id t t' : auth_wf t → delete_user_row id t = Some t' → auth_wf t'.
Proof.
  intros [Hu Hs Ho He Hp Hi Hk] E. unfold delete_user_row in E. apply bind_Some in E as (k & _ & [= <-]). split; cbn; try done.
  - intros id' u [_ Hv]%lookup_delete_Some. by apply Hu.
  - intros id' x [Hx Hne]%map_lookup_filter_Some. cbn in Hne. apply String.eqb_neq in Hne. apply Hs in Hx as [Hid Hx]. split; [done|].
    by rewrite lookup_delete_ne.
  - intros id1 id2 u u' e [_ H1]%lookup_delete_Some [_ H2]%lookup_delete_Some. by apply (He _ _ u u').
  - intros id1 id2 u u' e [_ H1]%lookup_delete_Some [_ H2]%lookup_delete_Some. by apply (Hp _ _ u u').
  - destruct Hi as [Hi1 Hi2]. split; intros *; rewrite !map_lookup_filter_Some; cbn; [|naive_solver].
    intros [(Hid & Hx)%Hi1 Hne%String.eqb_neq]. by rewrite lookup_delete_ne.
  - destruct Hk as [Hk1 Hk2]. split; intros *; rewrite !map_lookup_filter_Some; cbn; [|naive_solver].
    intros [(Hid & Hx)%Hk1 Hne%String.eqb_neq]. by rewrite lookup_delete_ne.
Qed.

(** What the new statements write. *)
Lemma wf_insert_client_session id userID client hash expires now t x t' : auth_wf t →
  insert_client_session id userID client hash expires now t = Some (x, t') → auth_wf t'.
Proof.
  intros [Hu Hs Ho He Hp Hi Hk] (u & (id' & _ & Eu)%bind_Some & [= _ <-])%bind_Some. split; cbn; try done.
  intros k y [[<- <-]|[_ Hy]]%lookup_insert_Some; [|by apply Hs in Hy]. cbn. split; [done|]. rewrite (Hu _ _ Eu). by eexists.
Qed.

Lemma identities_insert us m id i : identities_wf us m → id_ID i = id → is_Some (us !! id_UserID i) →
  (∀ k j, m !! k = Some j → k ≠ id → id_Provider j = id_Provider i → id_ProviderUserID j ≠ id_ProviderUserID i) →
  identities_wf us (<[id := i]> m).
Proof.
  intros [H1 H2] Hid Hu Hn. split.
  - intros k j [[<- <-]|[_ Hj]]%lookup_insert_Some; [done|by apply H1].
  - intros k k' j j' [[<- <-]|[Hne Hj]]%lookup_insert_Some [[<- <-]|[Hne' Hj']]%lookup_insert_Some Ep Eu; [done|..|by apply (H2 _ _ j j')].
    + by destruct (Hn k' j').
    + by destruct (Hn k j).
Qed.
Lemma passkeys_insert us m id p : passkeys_wf us m → pk_ID p = id → is_Some (us !! pk_UserID p) →
  (∀ k q, m !! k = Some q → k ≠ id → pk_CredentialID q ≠ pk_CredentialID p) → passkeys_wf us (<[id := p]> m).
Proof.
  intros [H1 H2] Hid Hu Hn. split.
  - intros k j [[<- <-]|[_ Hj]]%lookup_insert_Some; [done|by apply H1].
  - intros k k' j j' [[<- <-]|[Hne Hj]]%lookup_insert_Some [[<- <-]|[Hne' Hj']]%lookup_insert_Some Ep; [done|..|by apply (H2 _ _ j j')].
    + by destruct (Hn k' j').
    + by destruct (Hn k j).
Qed.

Lemma has_identity_spec provider uid i : has_identity provider uid i = true ↔ id_Provider i = provider ∧ id_ProviderUserID i = uid.
Proof. unfold has_identity. by rewrite andb_true_iff, !String.eqb_eq. Qed.
Lemma has_credential_spec c p : has_credential c p = true ↔ pk_CredentialID p = c.
Proof. unfold has_credential. by rewrite String.eqb_eq. Qed.

Lemma wf_upsert_identity env takeOver id userID info provider t x t' : auth_wf t →
  upsert_identity env takeOver id userID info provider t = Some (x, t') → auth_wf t'.
Proof.
  intros Ht (uid & _ & E)%bind_Some. pose proof (wf_identities _ Ht) as Hwf. destruct (first_row _ _) as [i|] eqn:Ei.
  - apply first_row_some in Ei as [_ (k & Hk)]. pose proof (proj1 Hwf _ _ Hk) as [Hid Hu].
    assert (Hn : ∀ k' j, identities t !! k' = Some j → k' ≠ id_ID i → id_Provider j = id_Provider i → id_ProviderUserID j ≠ id_ProviderUserID i).
    { intros k' j Hj Hne E1 E2. apply Hne. rewrite Hid. by apply (proj2 Hwf _ _ j i). }
    destruct takeOver.
    + apply bind_Some in E as (u & Hu' & [= _ <-]). apply wf_with_identities; [|done]. apply identities_insert; cbn; try done.
      rewrite (wf_users _ Ht _ _ Hu'). by eexists.
    + injection E as _ <-. apply wf_with_identities; [|done]. by apply identities_insert.
  - apply bind_Some in E as (u & Hu' & [= _ <-]). apply wf_with_identities; [|done]. apply identities_insert; cbn; try done.
    + rewrite (wf_users _ Ht _ _ Hu'). by eexists.
    + intros k j Hj _ E1 E2. rewrite first_row_none in Ei. specialize (Ei _ _ Hj).
      apply not_true_iff_false in Ei. apply Ei, has_identity_spec. done.
Qed.

Lemma wf_touch_identity env provider uid t : auth_wf t → auth_wf (touch_identity env provider uid t).
Proof.
  intros Ht. apply wf_with_identities; [|done]. destruct (wf_identities _ Ht) as [H1 H2].
  assert (Hf : ∀ k j, ((λ i, if has_identity provider uid i then seen_identity env (id_UserID i) (id_Properties i) i else i) <$> identities t) !! k = Some j →
    ∃ i, identities t !! k = Some i ∧ id_ID j = id_ID i ∧ id_UserID j = id_UserID i ∧ id_Provider j = id_Provider i ∧ id_ProviderUserID j = id_ProviderUserID i).
  { intros k j. rewrite lookup_fmap. destruct (identities t !! k) as [i|]; [|done]. intros [= <-]. exists i. by destruct (has_identity _ _ i). }
  split; [intros k j (i & Hi & -> & -> & _)%Hf; by apply H1|].
  intros k k' j j' (i & Hi & _ & _ & -> & ->)%Hf (i' & Hi' & _ & _ & -> & ->)%Hf. by apply H2.
Qed.

Lemma wf_upsert_passkey env id userID input name t x t' : auth_wf t →
  upsert_passkey env id userID input name t = Some (x, t') → auth_wf t'.
Proof.
  intros Ht (uid & _ & E)%bind_Some. pose proof (wf_passkeys _ Ht) as Hwf. destruct (first_row _ _) as [p|] eqn:Ep.
  - injection E as _ <-. apply first_row_some in Ep as [_ (k & Hk)]. pose proof (proj1 Hwf _ _ Hk) as [Hid Hu].
    apply wf_with_passkeys; [|done]. apply passkeys_insert; try done. cbn. intros k' q Hq Hne E. apply Hne. rewrite Hid. by apply (proj2 Hwf _ _ q p).
  - apply bind_Some in E as (u & Hu' & [= _ <-]). apply wf_with_passkeys; [|done]. apply passkeys_insert; cbn; try done.
    + rewrite (wf_users _ Ht _ _ Hu'). by eexists.
    + intros k q Hq _ E. rewrite first_row_none in Ep. specialize (Ep _ _ Hq). apply not_true_iff_false in Ep. by apply Ep, has_credential_spec.
Qed.

Lemma wf_touch_passkey env c t : auth_wf t →
  auth_wf (with_passkeys (fmap (λ p, if has_credential c p then used_now env p else p)) t).
Proof.
  intros Ht. apply wf_with_passkeys; [|done]. destruct (wf_passkeys _ Ht) as [H1 H2].
  assert (Hf : ∀ k j, ((λ p, if has_credential c p then used_now env p else p) <$> passkeys t) !! k = Some j →
    ∃ i, passkeys t !! k = Some i ∧ pk_ID j = pk_ID i ∧ pk_UserID j = pk_UserID i ∧ pk_CredentialID j = pk_CredentialID i).
  { intros k j. rewrite lookup_fmap. destruct (passkeys t !! k) as [i|]; [|done]. intros [= <-]. exists i. by destruct (has_credential _ i). }
  split; [intros k j (i & Hi & -> & -> & _)%Hf; by apply H1|].
  intros k k' j j' (i & Hi & _ & _ & ->)%Hf (i' & Hi' & _ & _ & ->)%Hf. by apply H2.
Qed.

Lemma wf_delete_passkey id t : auth_wf t → auth_wf (with_passkeys (delete id) t).
Proof.
  intros Ht. apply wf_with_passkeys; [|done]. destruct (wf_passkeys _ Ht) as [H1 H2].
  split; intros *; rewrite !lookup_delete_Some; naive_solver.
Qed.

(** A row written over the one it was found in. *)
Lemma wf_touch_user u u' k t : auth_wf t → users t !! k = Some u → u_ID u' = u_ID u → u_Email u' = u_Email u → u_Phone u' = u_Phone u →
  auth_wf (with_users (insert (u_ID u) u') t).
Proof.
  intros Ht Hk Hid He Hp. pose proof (wf_users _ Ht _ _ Hk) as Hkey. apply wf_rewrite_users; [..|done].
  - intros id v [[<- <-]|[_ Hv]]%lookup_insert_Some; [exists u; split; [by rewrite Hkey|done]|by exists v].
  - intros id Hs. rewrite lookup_insert_is_Some'. auto.
Qed.

Lemma wf_update_row f id t v t' : auth_wf t → update_user_row f id t = Some (v, t') → auth_wf t'.
Proof. intros Ht E. unfold update_user_row in E. apply bind_Some in E as (u & _ & E). by eapply wf_put_user. Qed.

Lemma keyed_filter (P : string * OTP → Prop) `{∀ x, Decision (P x)} m : otps_keyed m → otps_keyed (filter P m).
Proof. intros Hm id o [Ho _]%map_lookup_filter_Some. by apply Hm. Qed.
Lemma keyed_delete k m : otps_keyed m → otps_keyed (delete k m).
Proof. intros Hm id o [_ Ho]%lookup_delete_Some. by apply Hm. Qed.
Lemma keyed_insert o m : otps_keyed m → otps_keyed (<[o_ID o := o]> m).
Proof. intros Hm id o' [[<- <-]|[_ Ho]]%lookup_insert_Some; [done|by apply Hm]. Qed.
Lemma keyed_alter f k m : (∀ o, o_ID (f o) = o_ID o) → otps_keyed m → otps_keyed (alter f k m).
Proof. intros Hf Hm id o [(-> & v & Hv & ->)|[_ Ho]]%lookup_alter_Some; [rewrite Hf|]; by apply Hm. Qed.
End tables.

(** ** Every call keeps them so *)

Section keeping.
Context `{FL : Floats} `{HL : HostLib} `{CR : Crypto} `{AC : AuthCrypto} `{CT : CaseTables} `{UT : UnicodeTables}
  `{AH : !AuthHost} `{K : !Kernel} {S : Type} `{KD : KVDriver S} `{OH : !OAuthHost} `{UL : URLParser} `{WC : WebAuthnCrypto}.
(** What the OpenID handlers use of other components. *)
Context (Unidecode : string → string) (id_text : N → string) (accounts : Accounts) (sa_faults : SAStmt → bool)
  (unmarshal_claims : string → option SignedClaims).
Context (config : AuthConfig) (env : AuthEnv).

Abbreviation kept h := (keeps (of_db auth_wf) (h : Handler S _)).

Lemma gate_kept {A} (h : Handler S A) : gate h → keeps (of_db auth_wf) h.
Proof. intros Hh s Hs. specialize (Hh s). unfold of_db in *. destruct (h s) as [[r|a] s']; cbn; [destruct Hh as [_ ->]|rewrite Hh]; done. Qed.

Lemma kept_issue request user m p : kept (issueSessionResponse config env request user m p).
Proof. apply keeps_issue. intros *. apply wf_insert_session. Qed.

Lemma kept_put k u : kept (stmt env k (put_user u)).
Proof. apply keeps_stmt. intros t v t'. apply wf_put_user. Qed.
Lemma kept_update_row k f id : kept (stmt env k (update_user_row f id)).
Proof. apply keeps_stmt. intros t v t'. apply wf_update_row. Qed.
Lemma kept_otps k f : (∀ m, otps_keyed m → otps_keyed (f m)) → kept (exec env k (with_otps f)).
Proof. intros Hf. apply keeps_exec. intros t. by apply wf_with_otps. Qed.
Lemma kept_delete_sessions k (P : string → string → Session → bool) a b :
  kept (stmt env k (λ t, id ← uuid_in a; cur ← uuid_in b; Some (delete_sessions (P id cur) t))).
Proof. apply keeps_stmt. intros t x t' Ht (id & _ & (cur & _ & [= _ <-])%bind_Some)%bind_Some. by apply wf_drop_sessions. Qed.

Hint Resolve kept_issue kept_put kept_update_row : auth.
Hint Extern 1 (keeps (of_db auth_wf) (checkCaptcha _ _ _ _ _)) => apply gate_kept, gate_checkCaptcha : auth.
Hint Extern 1 (keeps (of_db auth_wf) (checkPasswordBreach _ _ _ _)) => apply gate_kept, gate_checkPasswordBreach : auth.
Hint Extern 1 (keeps (of_db auth_wf) (decoded _)) => apply gate_kept, gate_decoded : auth.
Hint Extern 1 (keeps (of_db auth_wf) (normal_phone _)) => apply gate_kept, gate_normal_phone : auth.
Hint Extern 1 (keeps (of_db auth_wf) (long_enough _ _)) => apply gate_kept, gate_long_enough : auth.
Hint Extern 1 (keeps (of_db auth_wf) (sign_in_failed _ _ _ _ _ _ _)) => apply gate_kept, gate_sign_in_failed : auth.
Hint Extern 1 (keeps (of_db auth_wf) (sign_in_identifier _)) => apply gate_kept, gate_sign_in_identifier : auth.
Hint Extern 1 (keeps (of_db auth_wf) (check_sign_in_rate _ _ _ _ _)) => apply gate_kept, gate_check_sign_in_rate : auth.
Hint Extern 1 (keeps (of_db auth_wf) (mfa_secret _)) => apply gate_kept, gate_mfa_secret : auth.
Hint Extern 1 (keeps (of_db auth_wf) (kv_Delete _ _)) => apply gate_kept, gate_kv_Delete : auth.
Hint Extern 1 (keeps (of_db auth_wf) (kv_Set _ _ _ _)) => apply gate_kept, gate_kv_Set : auth.
Hint Extern 1 (keeps (of_db auth_wf) (kv_Get _ _)) => apply keeps_read_kv : auth.
Hint Extern 1 (keeps (of_db auth_wf) (fetchUserByID _ _)) => apply keeps_fetch : auth.
Hint Extern 1 (keeps (of_db auth_wf) (dispatchBackChannelSignOut _ _ _)) => apply keeps_dispatch : auth.
Hint Extern 1 (keeps (of_db auth_wf) (authenticated _)) => apply keeps_authenticated : auth.
Hint Extern 1 (keeps (of_db auth_wf) (forget_sessions _ _)) => apply keeps_forget : auth.
Hint Extern 1 (keeps (of_db auth_wf) (reject _ _)) => apply keeps_respond_with : auth.
Hint Extern 1 (keeps (of_db auth_wf) (respond _ _)) => apply keeps_respond_with : auth.

Lemma kept_update_user f id : kept (update_user env f id). Proof. unfold update_user. keeps_walk. Qed.
Lemma kept_insert_user u : kept (insert_user env u). Proof. unfold insert_user. keeps_walk. Qed.
Lemma kept_update_mfa f id : kept (update_mfa env f id). Proof. unfold update_mfa. keeps_walk. Qed.
Lemma kept_select_user id : kept (select_user env id). Proof. unfold select_user. keeps_walk. Qed.
Lemma kept_by_recipient r : kept (fetchUserByRecipient env r). Proof. unfold fetchUserByRecipient. keeps_walk. Qed.
Lemma kept_anonymous request : kept (resolveAnonymousCaller env request).
Proof. unfold resolveAnonymousCaller, select_user. keeps_walk. Qed.
Lemma kept_unlocked user : kept (unlocked env user). Proof. unfold unlocked. keeps_walk. Qed.
Lemma kept_delivery isEmail : kept (delivery_ready config isEmail). Proof. unfold delivery_ready, unavailable. keeps_walk. Qed.
Lemma kept_delete_otp id : kept (delete_otp env id). Proof. apply kept_otps. intros m. apply keyed_delete. Qed.
Lemma kept_count_attempt id : kept (count_attempt env id). Proof. apply kept_otps. intros m. by apply keyed_alter. Qed.
Lemma kept_insert_otp n recipient code purpose expires : kept (exec env StInsertOTP (with_otps (insert (new_uuid n)
  (MkOTP (new_uuid n) recipient code purpose 0 expires (ae_now env))))).
Proof. apply kept_otps. intros m. apply (keyed_insert (MkOTP (new_uuid n) _ _ _ _ _ _)). Qed.
Lemma kept_record_failure identifier : kept (record_failure env identifier). Proof. apply gate_kept, gate_record_failure. Qed.
Hint Resolve kept_update_user kept_insert_user kept_update_mfa kept_select_user kept_by_recipient kept_anonymous kept_unlocked kept_delivery
  kept_delete_otp kept_count_attempt kept_insert_otp kept_record_failure : auth.

Lemma kept_over_limit ip limit : kept (over_ip_limit env ip limit). Proof. unfold over_ip_limit. keeps_walk. Qed.
Lemma kept_cooling purpose r : kept (cooling_down env purpose r). Proof. unfold cooling_down. keeps_walk. Qed.
Lemma kept_hash p : kept (hash_password p). Proof. unfold hash_password. keeps_walk. Qed.
Lemma kept_draw_code : kept draw_code. Proof. unfold draw_code. keeps_walk. Qed.
Lemma kept_store_code purpose r ttl cd code : kept (store_code env purpose r ttl cd code). Proof. unfold store_code. keeps_walk. Qed.
Lemma kept_otp_failed r p c reason request : kept (otp_failed r p c reason request). Proof. apply keeps_publish. Qed.
Lemma kept_complete request user m p : kept (completeSignInFlow config env request user m p).
Proof.
  unfold completeSignInFlow, reset_failures. apply keeps_bind; [auto with auth|intros _]. apply keeps_bind; [auto with auth|intros _].
  apply keeps_bind; [apply quiet_keeps, quiet_sign_in_risk|intros a]. apply keeps_bind; [unfold warn_new_device; keeps_walk|intros _]. keeps_walk.
Qed.
Hint Resolve kept_over_limit kept_cooling kept_hash kept_draw_code kept_store_code kept_otp_failed kept_complete : auth.

Lemma kept_sign_up body request : kept (handleSignUp config env body request).
Proof. unfold handleSignUp, sign_up_anonymous, unavailable. keeps_walk. Qed.
Lemma kept_sign_in body request : kept (handleSignIn config env body request).
Proof. unfold handleSignIn, select_credentials. keeps_walk. Qed.
Lemma kept_request_reset body request : kept (handleRequestPasswordReset config env body request).
Proof. unfold handleRequestPasswordReset, unavailable. keeps_walk. Qed.

Lemma wf_set_password recipient hash t v t' : auth_wf t → set_password env recipient hash t = Some (v, t') → auth_wf t'.
Proof.
  intros Ht E. apply bind_Some in E as (u & _ & [= _ <-]). apply wf_rewrite_users; [..|done].
  - intros id u'. rewrite lookup_fmap. destruct (users t !! id) as [w|] eqn:Ew; [|done]. intros [= <-]. exists w. split; [done|].
    by destruct (has_recipient recipient w).
  - intros id [w Hw]. rewrite lookup_fmap, Hw. by eexists.
Qed.
Lemma kept_confirm_reset body request : kept (handleConfirmPasswordReset config env body request).
Proof. unfold handleConfirmPasswordReset, unavailable. keeps_walk. apply keeps_stmt. intros t v t'. apply wf_set_password. Qed.
Lemma kept_update_password body request : kept (handleUpdateUserPassword config env body request).
Proof. unfold handleUpdateUserPassword, unavailable. keeps_walk. Qed.

Lemma kept_send_otp body request : kept (handleSendOTP config env body request).
Proof. unfold handleSendOTP, unavailable. keeps_walk. Qed.

Lemma wf_upsert isEmail recipient id t v t' : auth_wf t → upsert_user env isEmail recipient id t = Some (v, t') → auth_wf t'.
Proof.
  intros Ht E. unfold upsert_user in E. destruct (first_row _ _) as [u|] eqn:Eu.
  - injection E as _ <-. apply first_row_some in Eu as [_ (k & Hk)]. pose proof (wf_users _ Ht _ _ Hk) as Hid. apply wf_rewrite_users; [..|done].
    + intros id' u' [[<- <-]|[_ Hu']]%lookup_insert_Some; [exists u|by exists u']. by rewrite Hid.
    + intros id' Hs. destruct (decide (id' = u_ID u)) as [->|Hne]; [rewrite lookup_insert_eq; by eexists|by rewrite lookup_insert_ne].
  - apply bind_Some in E as ([w t1] & Hp & [= _ <-]). by eapply wf_put_user.
Qed.
Lemma kept_verify_otp body request : kept (handleVerifyOTP config env body request).
Proof.
  unfold handleVerifyOTP, invalid_code, convert_guest, enter_by_code. keeps_walk.
  apply keeps_stmt. intros t v t'. apply wf_upsert.
Qed.

Lemma kept_setup_mfa request : kept (handleSetupMFA config env request).
Proof. unfold handleSetupMFA. keeps_walk. Qed.
Lemma kept_verify_mfa body request : kept (handleVerifyMFA config env body request).
Proof. unfold handleVerifyMFA. keeps_walk. Qed.
Lemma kept_challenge_mfa body request : kept (handleChallengeMFA config env body request).
Proof. unfold handleChallengeMFA, mfa_failed. keeps_walk. Qed.
Lemma kept_disable_mfa request : kept (handleDisableMFA config env request).
Proof. unfold handleDisableMFA. keeps_walk. Qed.
Lemma kept_sign_in_anonymous body request : kept (handleSignInAnonymous config env body request).
Proof. unfold handleSignInAnonymous, unavailable. keeps_walk. Qed.

Lemma kept_drop_codes a : kept (drop_codes env a).
Proof. unfold drop_codes. keeps_walk. apply kept_otps. intros m. apply keyed_filter. Qed.
Lemma kept_drop_cached hashes : kept (drop_cached env hashes).
Proof. induction hashes as [|h l IH]; cbn [drop_cached]; keeps_walk. Qed.
Hint Resolve kept_drop_codes kept_drop_cached : auth.

Lemma kept_get_user request : kept (handleGetUser env request).
Proof. unfold handleGetUser. keeps_walk. Qed.
Lemma kept_update_properties body request : kept (handleUpdateUserProperties env body request).
Proof. unfold handleUpdateUserProperties, unavailable. keeps_walk. Qed.
Lemma kept_delete_account request : kept (handleDeleteUser env request).
Proof.
  unfold handleDeleteUser, unavailable. keeps_walk. apply keeps_stmt. intros t x t' Ht (t1 & Hd & [= _ <-])%bind_Some. by eapply wf_delete_user.
Qed.

Lemma kept_valid_user_id userID : kept (valid_user_id userID). Proof. unfold valid_user_id. keeps_walk. Qed.
Lemma kept_no_row {A} k : keeps (of_db auth_wf) (no_row env k : Handler S A). Proof. unfold no_row. keeps_walk. Qed.
Hint Resolve kept_valid_user_id kept_no_row : auth.

Lemma kept_list_users allowed urlQuery : kept (handleListUsers env allowed urlQuery).
Proof. unfold handleListUsers, forbidden_read. keeps_walk. Qed.
Lemma kept_create_user allowed body : kept (handleCreateUser env allowed body).
Proof. unfold handleCreateUser, forbidden_write. keeps_walk. Qed.
Lemma kept_operator_get allowed userID : kept (operator_handleGetUser env allowed userID).
Proof. unfold operator_handleGetUser, forbidden_read. keeps_walk. Qed.
Lemma kept_operator_delete allowed userID : kept (operator_handleDeleteUser env allowed userID).
Proof.
  unfold operator_handleDeleteUser, forbidden_write. keeps_walk. apply keeps_stmt.
  intros t x t' Ht (u & _ & (t1 & Hd & [= _ <-])%bind_Some)%bind_Some. by eapply wf_delete_user.
Qed.
Lemma kept_lock allowed userID until : kept (handleLockUser config env allowed userID until).
Proof.
  unfold handleLockUser, forbidden_write. keeps_walk; apply keeps_stmt; intros t x t' Ht (id & _ & [= _ <-])%bind_Some; by apply wf_drop_sessions.
Qed.
Lemma kept_unlock allowed userID : kept (handleUnlockUser env allowed userID).
Proof. unfold handleUnlockUser, forbidden_write. keeps_walk. Qed.

Lemma kept_send_verification isEmail recipient userID target : kept target →
  kept (send_verification env isEmail recipient userID target).
Proof. intros Ht. unfold send_verification. keeps_walk. Qed.
Lemma kept_select_address isEmail recipient : kept (select_address env isEmail recipient). Proof. apply keeps_query. Qed.
Hint Resolve kept_send_verification kept_select_address : auth.

Lemma kept_request_verification isEmail recipient userID request : kept (request_verification env isEmail recipient userID request).
Proof.
  unfold request_verification, in_use. keeps_walk; apply kept_send_verification; keeps_walk.
Qed.
Lemma kept_confirm_verification isEmail recipient code request : kept (confirm_verification config env isEmail recipient code request).
Proof.
  unfold confirm_verification, confirm_as_caller, confirm_address, unavailable, spend_codes. keeps_walk.
  - apply kept_otps. intros m. apply keyed_filter.
  - apply keeps_stmt. intros t x t' Ht (u & _ & E)%bind_Some. by eapply wf_put_user.
Qed.
Lemma wf_exec_user f id t x t' : auth_wf t → exec_user f id t = Some (x, t') → auth_wf t'.
Proof.
  intros Ht (k & _ & E)%bind_Some. destruct (users t !! k) as [u|]; [|by injection E as _ <-].
  apply bind_Some in E as ([v t1] & Hp & [= _ <-]). by eapply wf_put_user.
Qed.
Lemma kept_change_address isEmail recipient authUserID request : kept (change_address env isEmail recipient authUserID request).
Proof.
  unfold change_address, in_use, unavailable, convert_caller. keeps_walk; [|apply kept_send_verification; keeps_walk].
  apply keeps_stmt, wf_exec_user.
Qed.
Hint Resolve kept_request_verification kept_confirm_verification kept_change_address : auth.

Lemma kept_export request : kept (handleExportUser env request).
Proof. unfold handleExportUser. keeps_walk. Qed.

(** *** Passkeys *)

Lemma kept_challenges {A} (f : gmap string SessionChallenge → A * gmap string SessionChallenge) :
  keeps (of_db auth_wf) (on_challenges f : Handler S A).
Proof. intros s Hs. unfold on_challenges. by destruct (f (st_challenges s)). Qed.
Lemma kept_generate u : kept (GenerateChallenge env u).
Proof. unfold GenerateChallenge. keeps_walk; apply kept_challenges. Qed.
Lemma kept_consume c : kept (ConsumeChallenge env c). Proof. apply kept_challenges. Qed.
Lemma kept_passkeys_enabled : kept (passkeys_enabled config). Proof. unfold passkeys_enabled. keeps_walk. Qed.
Hint Resolve kept_generate kept_consume kept_passkeys_enabled : auth.

Lemma wf_upsert_by_id id t v t' : auth_wf t → upsert_by_id env id t = Some (v, t') → auth_wf t'.
Proof.
  intros Ht (k & _ & E)%bind_Some. destruct (users t !! k) as [u|] eqn:Eu; [|by eapply wf_put_user].
  injection E as _ <-. by eapply wf_touch_user.
Qed.

Lemma kept_begin_passkey_sign_up body request : kept (handleBeginPasskeySignUp config env body request).
Proof. unfold handleBeginPasskeySignUp, unavailable. keeps_walk. Qed.
Lemma kept_verify_passkey_sign_up body request : kept (handleVerifyPasskeySignUp config env body request).
Proof.
  unfold handleVerifyPasskeySignUp, invalid_challenge, unavailable. keeps_walk; apply keeps_stmt; intros t x t'.
  - destruct (_ : option User); [apply wf_update_row|apply wf_upsert_by_id].
  - apply wf_upsert_passkey.
Qed.
Lemma kept_begin_passkey_sign_in : kept (handleBeginPasskeySignIn config env).
Proof. unfold handleBeginPasskeySignIn, unavailable. keeps_walk. Qed.
Lemma kept_verify_passkey_sign_in body request : kept (handleVerifyPasskeySignIn config env body request).
Proof.
  unfold handleVerifyPasskeySignIn, invalid_challenge, passkey_sign_in_failed, unavailable. keeps_walk.
  apply keeps_exec. intros t. apply wf_touch_passkey.
Qed.
Lemma kept_list_passkeys request : kept (handleListPasskeys env request).
Proof. unfold handleListPasskeys, unavailable. keeps_walk. Qed.
Lemma kept_delete_passkey pathValue request : kept (handleDeletePasskey env pathValue request).
Proof.
  unfold handleDeletePasskey, unavailable. keeps_walk. apply keeps_stmt.
  intros t x t' Ht (id & _ & (uid & _ & [= E])%bind_Some)%bind_Some.
  destruct (passkeys t !! id) as [p|]; [destruct (String.eqb _ _)|]; injection E as _ <-; auto using wf_delete_passkey.
Qed.

(** *** Providers *)

Lemma kept_enabled_provider p : kept (enabled_provider config p). Proof. unfold enabled_provider, oauth_error, oauth_error_with. keeps_walk. Qed.
Lemma kept_resolved p c : keeps (of_db auth_wf) (resolved p c : Handler S _). Proof. unfold resolved, oauth_error, oauth_error_with. keeps_walk. Qed.
Lemma kept_oauth_error {A} status error description : keeps (of_db auth_wf) (oauth_error status error description : Handler S A).
Proof. apply keeps_respond_with. Qed.
Lemma kept_oauth_unavailable {A} : keeps (of_db auth_wf) (oauth_unavailable : Handler S A). Proof. apply keeps_respond_with. Qed.
Lemma kept_state_code p u : kept (issue_state_code env p u). Proof. unfold issue_state_code, issueOIDCAuthorizationCode. keeps_walk. Qed.
Lemma kept_stored_authorization id : kept (stored_authorization env id). Proof. unfold stored_authorization. keeps_walk. Qed.
Lemma kept_client_session id u client hash expires : kept (stmt env StInsertSession (insert_client_session id u client hash expires (ae_now env))).
Proof. apply keeps_stmt. intros t x t'. apply wf_insert_client_session. Qed.
Hint Resolve kept_enabled_provider kept_resolved kept_oauth_error kept_oauth_unavailable kept_state_code kept_stored_authorization
  kept_client_session : auth.

Lemma kept_authorize_oauth f : kept (handleAuthorizeOAuth config env f).
Proof. unfold handleAuthorizeOAuth. keeps_walk. Qed.
Lemma kept_complete_oauth f user payload : kept (CompleteOAuthFlow config env f user payload).
Proof. unfold CompleteOAuthFlow. keeps_walk. Qed.
Lemma kept_upsert_identity takeOver id u info provider : kept (stmt env StInsertIdentity (upsert_identity env takeOver id u info provider)).
Proof. apply keeps_stmt. intros t x t'. apply wf_upsert_identity. Qed.
Hint Resolve kept_complete_oauth kept_upsert_identity : auth.

Lemma wf_upsert_oauth_user email properties id t v t' : auth_wf t → upsert_oauth_user env email properties id t = Some (v, t') → auth_wf t'.
Proof.
  intros Ht. unfold upsert_oauth_user. destruct (e ← email; _) as [u|] eqn:Eu; [|by apply wf_put_user].
  intros [= _ <-]. apply bind_Some in Eu as (e & _ & [_ (k & Hk)]%first_row_some). by eapply wf_touch_user.
Qed.
Lemma kept_callback f : kept (handleProcessOAuthCallback config env f).
Proof.
  unfold handleProcessOAuthCallback, consume_state, select_identity, link_guest, enter_linked, enter_new, linked. keeps_walk.
  - apply keeps_exec. intros t. apply wf_touch_identity.
  - apply keeps_stmt. intros t v t'. apply wf_upsert_oauth_user.
Qed.

(** *** OpenID *)

Lemma kept_oidc_enabled : kept (oidc_enabled config). Proof. unfold oidc_enabled. keeps_walk. Qed.
Lemma kept_page stateID client e n mode token recipient : kept (renderOIDCPage config stateID client e n mode token recipient).
Proof. unfold renderOIDCPage, unavailable. keeps_walk. Qed.
Hint Resolve kept_oidc_enabled kept_page : auth.
Lemma kept_store_authorization f client : kept (store_authorization config env f client). Proof. unfold store_authorization. keeps_walk. apply kept_page. Qed.
Lemma kept_redirect_error uri slug d state : keeps (of_db auth_wf) (redirectError uri slug d state : Handler S _).
Proof. unfold redirectError. keeps_walk. Qed.
Hint Resolve kept_store_authorization kept_redirect_error : auth.
Lemma kept_authorize_oidc f : kept (handleAuthorizeOIDC config env f).
Proof. unfold handleAuthorizeOIDC, begin_authorization, resume_page. keeps_walk. Qed.

Lemma kept_complete_oidc stateID p user : kept (completeOIDCAuthorization config env stateID p user).
Proof. unfold completeOIDCAuthorization, oauth_error_with. keeps_walk. Qed.
Lemma kept_ask stateID client user : kept (ask_second_factor config env stateID client user).
Proof. unfold ask_second_factor. keeps_walk. apply kept_page. Qed.
Hint Resolve kept_complete_oidc kept_ask : auth.
Lemma kept_enter_oidc stateID client p isEmail recipient : kept (enter_oidc config env stateID client p isEmail recipient).
Proof. unfold enter_oidc. keeps_walk; [apply keeps_stmt; intros t v t'; apply wf_upsert|apply kept_page]. Qed.
Hint Resolve kept_enter_oidc : auth.
Lemma kept_submit f : kept (handleSubmitOIDCAuthorize config env f).
Proof.
  unfold handleSubmitOIDCAuthorize, pending_authorization, submit_mfa, submit_send_otp, submit_verify_otp, submit_sign_up, submit_sign_in,
    select_account. keeps_walk; apply kept_page.
Qed.

Lemma kept_client_credentials request input : kept (handleOAuthClientCredentials config env Unidecode id_text accounts sa_faults request input).
Proof. unfold handleOAuthClientCredentials. keeps_walk. Qed.
Lemma kept_claims u : kept (resolveCustomClaims env u). Proof. unfold resolveCustomClaims. keeps_walk. Qed.
Hint Resolve kept_client_credentials kept_claims : auth.
Lemma kept_code_grant f : kept (handleIssueOIDCTokenAuthorizationCode config env f).
Proof.
  unfold handleIssueOIDCTokenAuthorizationCode, exchange_code, redeem_code, invalid_code_grant, issue_oidc_tokens, sign_access. keeps_walk.
Qed.
Lemma kept_refresh_grant f : kept (handleIssueOIDCTokenRefreshToken config env f).
Proof.
  unfold handleIssueOIDCTokenRefreshToken, sign_access, delete_session_id. keeps_walk; apply keeps_exec; intros t.
  - apply wf_delete_session.
  - intros [Hu Hs Ho He Hp Hi Hk]. split; cbn; try done.
    intros id x [(<- & y & Hy & ->)|[_ Hx]]%lookup_alter_Some; [cbn|]; by apply Hs.
Qed.
Lemma kept_token f : kept (handleIssueOIDCToken config env Unidecode id_text accounts sa_faults f).
Proof. unfold handleIssueOIDCToken. keeps_walk; [apply kept_callback|apply kept_code_grant|apply kept_refresh_grant]. Qed.
Lemma kept_userinfo request : kept (handleGetOIDCUserInfo config env request).
Proof. unfold handleGetOIDCUserInfo. keeps_walk. Qed.
Lemma kept_sign_out_oidc f : kept (handleSignOutOIDC config env unmarshal_claims f).
Proof.
  unfold handleSignOutOIDC, sign_out_caller, end_sessions. keeps_walk.
  apply keeps_stmt. intros t x t' Ht (id & _ & [= _ <-])%bind_Some. by apply wf_drop_sessions.
Qed.

(** Every call keeps the tables well formed. *)
Lemma kept_serve request c : kept (serve Unidecode id_text accounts sa_faults unmarshal_claims config env request c).
Proof.
  destruct c; cbn [serve].
  1: apply kept_sign_up. 1: apply kept_sign_in. 1: apply kept_sign_in_anonymous. 1: apply kept_request_reset.
  1: apply kept_confirm_reset. 1: apply kept_update_password. 1: apply kept_send_otp. 1: apply kept_verify_otp.
  1: apply kept_setup_mfa. 1: apply kept_verify_mfa. 1: apply kept_challenge_mfa. 1: apply kept_disable_mfa.
  1: apply keeps_refresh; intros *; eauto using wf_insert_session, wf_drop_sessions, wf_delete_session.
  1: apply keeps_sign_out; intros *; eauto using wf_drop_sessions.
  1: apply keeps_list_sessions. 1: apply keeps_revoke_session; intros *; eauto using wf_delete_session.
  1: apply keeps_revoke_others; intros *; eauto using wf_drop_sessions.
  1: apply kept_get_user. 1: apply kept_update_properties. 1: apply kept_delete_account.
  1: unfold handleRequestEmailVerification; keeps_walk. 1: unfold handleConfirmEmailVerification; keeps_walk.
  1: unfold handleRequestPhoneVerification; keeps_walk. 1: unfold handleConfirmPhoneVerification; keeps_walk.
  1: unfold handleUpdateUserEmail; keeps_walk. 1: unfold handleUpdateUserPhone; keeps_walk.
  1: apply kept_export. 1: apply kept_begin_passkey_sign_up. 1: apply kept_verify_passkey_sign_up.
  1: apply kept_begin_passkey_sign_in. 1: apply kept_verify_passkey_sign_in. 1: apply kept_list_passkeys. 1: apply kept_delete_passkey.
  1: apply kept_authorize_oauth. 1: apply kept_callback. 1: apply keeps_respond_with. 1: apply kept_authorize_oidc. 1: apply kept_submit.
  1: apply kept_token. 1: apply kept_userinfo. 1: apply kept_sign_out_oidc.
  1: apply kept_list_users. 1: apply kept_create_user. 1: apply kept_operator_get. 1: apply kept_operator_delete.
  1: apply kept_lock. 1: apply kept_unlock. 1: apply keeps_list_user_sessions.
  apply keeps_revoke_user_sessions; intros *; eauto using wf_drop_sessions.
Qed.
End keeping.

(** ** Runs *)

Section runs.
Context `{FL : Floats} `{HL : HostLib} `{CR : Crypto} `{AC : AuthCrypto} `{CT : CaseTables} `{UT : UnicodeTables}
  `{AH : !AuthHost} `{K : !Kernel} {S : Type} `{KD : KVDriver S} `{OH : !OAuthHost} `{UL : URLParser} `{WC : WebAuthnCrypto}.
(** What the OpenID handlers use of other components. *)
Context (Unidecode : string → string) (id_text : N → string) (accounts : Accounts) (sa_faults : SAStmt → bool)
  (unmarshal_claims : string → option SignedClaims).

(** The tables of the service stay well formed through every sequence of
    calls, whatever the requests, the configuration, the instants and the
    statements that fail: rows are under their ids, sessions belong to
    accounts that exist, no two accounts share an address or a number, no two
    identities a provider's user and no two passkeys a credential. *)
Theorem auth_tables_wf calls (s : AuthState S) : auth_wf (st_db s) → auth_wf (st_db (serve_all Unidecode id_text accounts sa_faults unmarshal_claims calls s)).
Proof.
  revert s. induction calls as [|[[[config env] request] c] calls IH]; intros s Hs; cbn [serve_all]; [done|].
  apply IH. exact (keeps_run _ _ s (kept_serve Unidecode id_text accounts sa_faults unmarshal_claims config env request c) Hs).
Qed.
End runs.

(** ** A concrete run *)

Local Existing Instance integer_floats.
Local Existing Instance sample_auth_host.
Local Existing Instance sample_kernel.
Local Existing Instance sample_host.
Local Existing Instance sample_pg.
Local Existing Instance sample_signatures.
Local Existing Instance sample_case.
Local Existing Instance sample_auth_crypto.
Local Existing Instance ascii_tables.
Local Existing Instance sample_oauth_host.
Local Existing Instance sample_webauthn.

(** A guest signs in, gives an address, registers a passkey and is locked. *)
Definition sample_calls : list (AuthConfig * AuthEnv * Request * AuthCall) :=
  let at_ t := auth_ok (unix_time t) in
  [(sample_auth_config true, at_ 10, caller "" "", SignInAnonymous NoBody);
   (sample_auth_config true, at_ 20, caller "id0" "id3", UpdateUserEmail (Input "Bob@acme.com"));
   (sample_auth_config true, at_ 30, caller "id0" "id3", UpdateUserProperties (Input (Some [("plan", AString "free")])));
   (sample_auth_config true, at_ 34, caller "id0" "id3", BeginPasskeySignUp (Input (MkBeginPasskeySignUpInput "" "Bob")));
   (sample_auth_config true, at_ 35, caller "id0" "id3",
     VerifyPasskeySignUp (Input (MkVerifyPasskeySignUpInput (raw_url_encode "0123456789abcdef") "cred" "Kbob" "" [])));
   (sample_auth_config true, at_ 40, caller "" "", OperatorLockUser true "id0" None)].

Lemma auth_tables_wf_witness :
  let s := serve_all id (λ n, decimal (Z.of_N n)) ∅ sa_ok (λ _, None) sample_calls (MkAuthState (MkAuthTables ∅ ∅ ∅ ∅ ∅) ∅ [] [] 0 ∅) in
  auth_wf (st_db s) ∧ u_Email <$> users (st_db s) !! "id0" = Some (Some "bob@acme.com")
  ∧ sessions (st_db s) = ∅ ∧ (pk_UserID <$> passkeys (st_db s) !! "id8") = Some "id0".
Proof.
  intros s. split; [apply auth_tables_wf, wf_empty|]. split; [reflexivity|]. split; reflexivity.
Defined.
