(* ===== verification/ImageOptions.v ===== *)
(** * image/options.go: what a request for an image asks for

    The path of a request gives options and a source, either in clear behind
    [plain/] or in base64; the options are segments between slashes, each a name
    with arguments between colons, and [preset:a:b] stands for the options of
    presets, which may name presets in turn, five levels deep.

    Shown: what the expansion of presets leaves holds no presets, an option
    string means its parts one after the other, so that of two options that say
    the same thing the last one counts, a source in base64 is read back, unless
    it holds [@], and presets that name themselves are refused.

    Parameters: the presets, the time and the case tables of Unicode. *)

From stdpp Require Import list strings.
From Stdlib Require Import ZArith Lia Ascii String SpecFloat.
From S2P Require Import Prelude GoStrings GoFloats GoRunes GoValues Encodings URLQuery AuthCodes.
Local Open Scope string_scope.
Local Open Scope Z_scope.
Local Open Scope go_scope.

(** ** Data *)

Definition GravityNorth : string := "no".
Definition GravitySouth : string := "so".
Definition GravityEast : string := "ea".
Definition GravityWest : string := "we".
Definition GravityCenter : string := "ce".
Definition GravityNorthEast : string := "noea".
Definition GravityNorthWest : string := "nowe".
Definition GravitySouthEast : string := "soea".
Definition GravitySouthWest : string := "sowe".
Definition GravitySmart : string := "sm".
Definition GravityFocus : string := "fp".

Definition ResizeFit : string := "fit".
Definition ResizeFill : string := "fill".
Definition ResizeFillDown : string := "fill-down".
Definition ResizeForce : string := "force".
Definition ResizeAuto : string := "auto".

Definition maxPresetRecursionDepth : nat := 5.

Record GravityOption := MkGravityOption { g_Type : string; g_XOffset : spec_float; g_YOffset : spec_float }.

Record ProcessingOptions := MkProcessingOptions {
  po_ResizeType : string; po_Width : Z; po_Height : Z; po_MinWidth : Z; po_MinHeight : Z; po_Enlarge : bool; po_Extend : bool;
  po_ExtendGravity : GravityOption; po_ResizingAlgorithm : string; po_DPR : spec_float; po_Gravity : GravityOption;
  po_CropWidth : spec_float; po_CropHeight : spec_float; po_CropGravity : GravityOption;
  po_TrimThreshold : spec_float; po_TrimColor : string; po_TrimEqualHor : bool; po_TrimEqualVer : bool;
  po_PaddingTop : Z; po_PaddingRight : Z; po_PaddingBottom : Z; po_PaddingLeft : Z;
  po_AutoRotate : bool; po_Rotate : Z; po_Background : string; po_BackgroundAlpha : spec_float;
  po_Blur : spec_float; po_Sharpen : spec_float; po_Pixelate : Z;
  po_UnsharpenMode : spec_float; po_UnsharpenWeight : spec_float; po_UnsharpenDividor : spec_float; po_UnsharpenThreshold : spec_float;
  po_WatermarkOpacity : spec_float; po_WatermarkGravity : GravityOption; po_WatermarkXOffset : Z; po_WatermarkYOffset : Z;
  po_WatermarkScale : spec_float; po_WatermarkURL : string;
  po_Format : string; po_Quality : Z; po_FormatQuality : list (string * Z);
  po_AutoQualityMethod : string; po_AutoQualityTarget : spec_float; po_AutoQualityMin : Z; po_AutoQualityMax : Z;
  po_StripMetadata : bool; po_KeepCopyright : bool; po_StripColorProfile : bool; po_ZoomX : spec_float; po_ZoomY : spec_float;
  po_Presets : list string; po_Cachebuster : string; po_Expires : Z; po_RawMode : bool; po_VideoThumbnailSecond : spec_float;
  po_FallbackImageURL : string; po_SkipProcessing : list string }.

#[export] Instance GravityOption_eta : Eta GravityOption := λ g, MkGravityOption (g_Type g) (g_XOffset g) (g_YOffset g).
#[export] Instance ProcessingOptions_eta : Eta ProcessingOptions := λ o,
  MkProcessingOptions (po_ResizeType o) (po_Width o) (po_Height o) (po_MinWidth o) (po_MinHeight o) (po_Enlarge o) (po_Extend o)
    (po_ExtendGravity o) (po_ResizingAlgorithm o) (po_DPR o) (po_Gravity o) (po_CropWidth o) (po_CropHeight o) (po_CropGravity o)
    (po_TrimThreshold o) (po_TrimColor o) (po_TrimEqualHor o) (po_TrimEqualVer o) (po_PaddingTop o) (po_PaddingRight o)
    (po_PaddingBottom o) (po_PaddingLeft o) (po_AutoRotate o) (po_Rotate o) (po_Background o) (po_BackgroundAlpha o) (po_Blur o)
    (po_Sharpen o) (po_Pixelate o) (po_UnsharpenMode o) (po_UnsharpenWeight o) (po_UnsharpenDividor o) (po_UnsharpenThreshold o)
    (po_WatermarkOpacity o) (po_WatermarkGravity o) (po_WatermarkXOffset o) (po_WatermarkYOffset o) (po_WatermarkScale o)
    (po_WatermarkURL o) (po_Format o) (po_Quality o) (po_FormatQuality o) (po_AutoQualityMethod o) (po_AutoQualityTarget o)
    (po_AutoQualityMin o) (po_AutoQualityMax o) (po_StripMetadata o) (po_KeepCopyright o) (po_StripColorProfile o) (po_ZoomX o)
    (po_ZoomY o) (po_Presets o) (po_Cachebuster o) (po_Expires o) (po_RawMode o) (po_VideoThumbnailSecond o) (po_FallbackImageURL o)
    (po_SkipProcessing o).

Definition centered : GravityOption := MkGravityOption GravityCenter f64_zero f64_zero.

Definition NewDefaultProcessingOptions : ProcessingOptions := {|
  po_ResizeType := ResizeFit; po_Width := 0; po_Height := 0; po_MinWidth := 0; po_MinHeight := 0; po_Enlarge := false; po_Extend := false;
  po_ExtendGravity := centered; po_ResizingAlgorithm := "lanczos3"; po_DPR := f64_one; po_Gravity := centered;
  po_CropWidth := f64_zero; po_CropHeight := f64_zero; po_CropGravity := centered;
  po_TrimThreshold := f64_zero; po_TrimColor := ""; po_TrimEqualHor := false; po_TrimEqualVer := false;
  po_PaddingTop := 0; po_PaddingRight := 0; po_PaddingBottom := 0; po_PaddingLeft := 0;
  po_AutoRotate := true; po_Rotate := 0; po_Background := ""; po_BackgroundAlpha := f64_one;
  po_Blur := f64_zero; po_Sharpen := f64_zero; po_Pixelate := 0;
  po_UnsharpenMode := f64_zero; po_UnsharpenWeight := f64_zero; po_UnsharpenDividor := f64_zero; po_UnsharpenThreshold := f64_zero;
  po_WatermarkOpacity := f64_zero; po_WatermarkGravity := centered; po_WatermarkXOffset := 0; po_WatermarkYOffset := 0;
  po_WatermarkScale := f64_zero; po_WatermarkURL := "";
  po_Format := ""; po_Quality := 0; po_FormatQuality := [];
  po_AutoQualityMethod := ""; po_AutoQualityTarget := f64_zero; po_AutoQualityMin := 0; po_AutoQualityMax := 0;
  po_StripMetadata := true; po_KeepCopyright := true; po_StripColorProfile := true; po_ZoomX := f64_one; po_ZoomY := f64_one;
  po_Presets := []; po_Cachebuster := ""; po_Expires := 0; po_RawMode := false; po_VideoThumbnailSecond := f64_zero;
  po_FallbackImageURL := ""; po_SkipProcessing := [] |}.

Record InfoOptions := MkInfoOptions {
  io_Size : bool; io_Format : bool; io_Dimensions : bool; io_EXIF : bool; io_EXIFCanonicalNames : bool; io_XMP : bool; io_VideoMeta : bool;
  io_Colorspace : bool; io_Bands : bool; io_Pages : bool; io_Alpha : bool }.
#[export] Instance InfoOptions_eta : Eta InfoOptions := λ o,
  MkInfoOptions (io_Size o) (io_Format o) (io_Dimensions o) (io_EXIF o) (io_EXIFCanonicalNames o) (io_XMP o) (io_VideoMeta o)
    (io_Colorspace o) (io_Bands o) (io_Pages o) (io_Alpha o).
Definition NewDefaultInfoOptions : InfoOptions := MkInfoOptions true true true true false true false true true true true.

Inductive OptionsError :=
| EmptyPath | MissingSource | BadSource | PresetsTooDeep | UnknownPreset (name : string) | RequestExpired (timestamp : Z).

(** ** Paths *)

(** The text before and behind the first [sub], and the last [c]. *)
Fixpoint cut_text (sub s : string) : option (string * string) :=
  match strip_prefix sub s with
  | Some rest => Some ("", rest)
  | None => match s with
            | "" => None
            | String c s => (λ p, (String c p.1, p.2)) <$> cut_text sub s
            end
  end.

Fixpoint cut_last (c : ascii) (s : string) : option (string * string) :=
  match s with
  | "" => None
  | String d s' =>
      match cut_last c s' with
      | Some (a, b) => Some (String d a, b)
      | None => if Ascii.eqb d c then Some ("", s') else None
      end
  end.

(** The source of a plain path: [source@extension]. *)
Definition plain_source (text : string) : result OptionsError (string * string) :=
  let rawSource := TrimSpace text in
  if String.eqb rawSource "" then Err MissingSource else
  let '(sourceURL, extensionOverride) :=
    match cut_last "@" rawSource with
    | Some (source, ext) => (source, TrimPrefix ext ".")
    | None => (rawSource, "")
    end in
  Ok (match PathUnescape sourceURL with
      | Some decoded => if HasPrefix decoded "http" then decoded else sourceURL
      | None => sourceURL
      end, extensionOverride).

Definition decode_source (encoded : string) : option string :=
  match base64_decode url_alphabet encoded with
  | Some s => Some s
  | None => match base64_decode_padded url_alphabet encoded with
            | Some s => Some s
            | None => base64_decode_padded std_alphabet encoded
            end
  end.

(** Options, source and extension. *)
Definition ParseURLPath (pathAfterSignature : string) : result OptionsError (string * string * string) :=
  let trimmedPath := TrimPrefix pathAfterSignature "/" in
  if String.eqb trimmedPath "" then Err EmptyPath else
  match cut_text "/plain/" trimmedPath with
  | Some (optionsString, text) =>
      let! source := plain_source text in Ok (optionsString, source.1, source.2)
  | None =>
      if HasPrefix trimmedPath "plain/" then
        let! source := plain_source (TrimPrefix trimmedPath "plain/") in Ok ("", source.1, source.2)
      else
      let '(optionsString, encodedSource) :=
        match cut_last "/" trimmedPath with Some (a, b) => (a, b) | None => ("", trimmedPath) end in
      let '(encodedSource, extensionOverride) :=
        match cut_last "@" encodedSource with
        | Some (a, b) => (a, TrimPrefix b ".")
        | None => match cut_last "." encodedSource with Some (a, b) => (a, b) | None => (encodedSource, "") end
        end in
      if String.eqb encodedSource "" then Err MissingSource else
      match decode_source encodedSource with
      | None => Err BadSource
      | Some sourceURL =>
          match cut_last "@" sourceURL with
          | Some (a, b) => Ok (optionsString, a, TrimPrefix b ".")
          | None => Ok (optionsString, sourceURL, extensionOverride)
          end
      end
  end.

(** ** Arguments *)

(** What the [n]-th argument does to [r], when there is one, and when it is not
    empty. *)
Definition with_arg {R} (args : list string) (n : nat) (r : R) (f : string → R) : R :=
  match args !! n with Some a => f a | None => r end.
Definition with_filled {R} (args : list string) (n : nat) (r : R) (f : string → R) : R :=
  with_arg args n r (λ a, if String.eqb a "" then r else f a).

(** The value a dropped error leaves. *)
Definition float_arg (a : string) : spec_float := (ParseFloat64 a).1.

Definition parseBooleanFlag (value : string) : bool :=
  bool_decide (ToLower (TrimSpace value) ∈ ["1"; "t"; "true"; "yes"]).

Definition text_or_base64 (a : string) : string := default a (base64_decode url_alphabet a).

Definition parseResizeOption (args : list string) (o : ProcessingOptions) : ProcessingOptions :=
  let o := with_filled args 0 o (λ a, o <| po_ResizeType := a |>) in
  let o := with_filled args 1 o (λ a, o <| po_Width := atoi_value a |>) in
  let o := with_filled args 2 o (λ a, o <| po_Height := atoi_value a |>) in
  let o := with_filled args 3 o (λ a, o <| po_Enlarge := parseBooleanFlag a |>) in
  with_filled args 4 o (λ a, o <| po_Extend := parseBooleanFlag a |>).

Definition parseSizeOption (args : list string) (o : ProcessingOptions) : ProcessingOptions :=
  let o := o <| po_ResizeType := ResizeFit |> in
  let o := with_filled args 0 o (λ a, o <| po_Width := atoi_value a |>) in
  let o := with_filled args 1 o (λ a, o <| po_Height := atoi_value a |>) in
  let o := with_filled args 2 o (λ a, o <| po_Enlarge := parseBooleanFlag a |>) in
  with_filled args 3 o (λ a, o <| po_Extend := parseBooleanFlag a |>).

(** The two cases of the code, for a focus and for other gravities, do the
    same. *)
Definition parseGravityOption (args : list string) (g : GravityOption) : GravityOption :=
  let g := with_arg args 0 g (λ a, g <| g_Type := a |>) in
  let g := with_arg args 1 g (λ a, g <| g_XOffset := float_arg a |>) in
  with_arg args 2 g (λ a, g <| g_YOffset := float_arg a |>).

Definition parseExtendOption (args : list string) (o : ProcessingOptions) : ProcessingOptions :=
  let o := with_arg args 0 o (λ a, o <| po_Extend := parseBooleanFlag a |>) in
  o <| po_ExtendGravity := parseGravityOption (tail args) (po_ExtendGravity o) |>.

Definition parseCropOption (args : list string) (o : ProcessingOptions) : ProcessingOptions :=
  let o := with_arg args 0 o (λ a, o <| po_CropWidth := float_arg a |>) in
  let o := with_arg args 1 o (λ a, o <| po_CropHeight := float_arg a |>) in
  o <| po_CropGravity := parseGravityOption (drop 2 args) (po_CropGravity o) |>.

Definition parseTrimOption (args : list string) (o : ProcessingOptions) : ProcessingOptions :=
  let o := with_arg args 0 o (λ a, o <| po_TrimThreshold := float_arg a |>) in
  let o := with_arg args 1 o (λ a, o <| po_TrimColor := a |>) in
  let o := with_arg args 2 o (λ a, o <| po_TrimEqualHor := parseBooleanFlag a |>) in
  with_arg args 3 o (λ a, o <| po_TrimEqualVer := parseBooleanFlag a |>).

Definition padded (top right bottom left : string) (o : ProcessingOptions) : ProcessingOptions :=
  o <| po_PaddingTop := atoi_value top |> <| po_PaddingRight := atoi_value right |>
    <| po_PaddingBottom := atoi_value bottom |> <| po_PaddingLeft := atoi_value left |>.
Definition parsePaddingOption (args : list string) (o : ProcessingOptions) : ProcessingOptions :=
  match args with
  | [all] => padded all all all all o
  | [vertical; horizontal] => padded vertical horizontal vertical horizontal o
  | [a; b; c; d] => padded a b c d o
  | _ => o
  end.

Definition parseUnsharpenOption (args : list string) (o : ProcessingOptions) : ProcessingOptions :=
  let o := with_arg args 0 o (λ a, o <| po_UnsharpenMode := float_arg a |>) in
  let o := with_arg args 1 o (λ a, o <| po_UnsharpenWeight := float_arg a |>) in
  let o := with_arg args 2 o (λ a, o <| po_UnsharpenDividor := float_arg a |>) in
  with_arg args 3 o (λ a, o <| po_UnsharpenThreshold := float_arg a |>).

Definition parseWatermarkOption (args : list string) (o : ProcessingOptions) : ProcessingOptions :=
  let o := with_arg args 0 o (λ a, o <| po_WatermarkOpacity := float_arg a |>) in
  let o := with_arg args 1 o (λ a, o <| po_WatermarkGravity := parseGravityOption [a] (po_WatermarkGravity o) |>) in
  let o := with_arg args 2 o (λ a, o <| po_WatermarkXOffset := atoi_value a |>) in
  let o := with_arg args 3 o (λ a, o <| po_WatermarkYOffset := atoi_value a |>) in
  let o := with_arg args 4 o (λ a, o <| po_WatermarkScale := float_arg a |>) in
  with_arg args 5 o (λ a, o <| po_WatermarkURL := text_or_base64 a |>).

Definition parseAutoQualityOption (args : list string) (o : ProcessingOptions) : ProcessingOptions :=
  let o := with_arg args 0 o (λ a, o <| po_AutoQualityMethod := a |>) in
  let o := with_arg args 1 o (λ a, o <| po_AutoQualityTarget := float_arg a |>) in
  let o := with_arg args 2 o (λ a, o <| po_AutoQualityMin := atoi_value a |>) in
  with_arg args 3 o (λ a, o <| po_AutoQualityMax := atoi_value a |>).

Definition parseZoomOption (args : list string) (o : ProcessingOptions) : ProcessingOptions :=
  let o := with_arg args 0 o (λ a,
    let '(zoom, ok) := ParseFloat64 a in if ok then o <| po_ZoomX := zoom |> <| po_ZoomY := zoom |> else o) in
  with_arg args 1 o (λ a, let '(zoom, ok) := ParseFloat64 a in if ok then o <| po_ZoomY := zoom |> else o).

Section options.
Context `{UT : UnicodeTables} `{CT : CaseTables}.

Fixpoint format_qualities (args : list string) (m : list (string * Z)) : list (string * Z) :=
  match args with
  | format :: quality :: args =>
      format_qualities args (match Atoi quality with Some q => map_set m (strings_ToLower format) q | None => m end)
  | _ => m
  end.
Definition parseFormatQualityOption (args : list string) (o : ProcessingOptions) : ProcessingOptions :=
  o <| po_FormatQuality := format_qualities args (po_FormatQuality o) |>.

(** The cases of the switch: names and what their arguments do. *)
Definition option_cases : list (list string * (list string → ProcessingOptions → ProcessingOptions)) :=
  let one (f : string → ProcessingOptions → ProcessingOptions) args o := with_arg args 0 o (λ a, f a o) in
  [ (["resize"; "rs"], parseResizeOption);
    (["size"; "s"], parseSizeOption);
    (["resizing_type"; "rt"], one (λ a o, o <| po_ResizeType := a |>));
    (["resizing_algorithm"; "ra"], one (λ a o, o <| po_ResizingAlgorithm := a |>));
    (["width"; "w"], one (λ a o, o <| po_Width := atoi_value a |>));
    (["height"; "h"], one (λ a o, o <| po_Height := atoi_value a |>));
    (["min_width"; "min-width"; "mw"], one (λ a o, o <| po_MinWidth := atoi_value a |>));
    (["min_height"; "min-height"; "mh"], one (λ a o, o <| po_MinHeight := atoi_value a |>));
    (["dpr"], one (λ a o, let '(dpr, ok) := ParseFloat64 a in if ok && f64_positive dpr then o <| po_DPR := dpr |> else o));
    (["enlarge"; "el"], one (λ a o, o <| po_Enlarge := parseBooleanFlag a |>));
    (["extend"; "ex"], parseExtendOption);
    (["gravity"; "g"], λ args o, o <| po_Gravity := parseGravityOption args (po_Gravity o) |>);
    (["crop"; "c"], parseCropOption);
    (["trim"; "t"], parseTrimOption);
    (["padding"; "pd"], parsePaddingOption);
    (["auto_rotate"; "ar"], one (λ a o, o <| po_AutoRotate := parseBooleanFlag a |>));
    (["rotate"; "rot"], one (λ a o, o <| po_Rotate := atoi_value a |>));
    (["background"; "bg"], λ args, one (λ _ o, o <| po_Background := Join args ":" |>) args);
    (["background_alpha"; "bga"], one (λ a o, o <| po_BackgroundAlpha := float_arg a |>));
    (["blur"; "bl"], one (λ a o, o <| po_Blur := float_arg a |>));
    (["sharpen"; "sh"], one (λ a o, o <| po_Sharpen := float_arg a |>));
    (["pixelate"; "pix"], one (λ a o, o <| po_Pixelate := atoi_value a |>));
    (["unsharpen"; "ush"], parseUnsharpenOption);
    (["watermark"; "wm"], parseWatermarkOption);
    (["watermark_url"; "wmu"], one (λ a o, o <| po_WatermarkURL := text_or_base64 a |>));
    (["format"; "f"; "ext"], one (λ a o, o <| po_Format := strings_ToLower a |>));
    (["quality"; "q"], one (λ a o, o <| po_Quality := atoi_value a |>));
    (["format_quality"; "fq"], parseFormatQualityOption);
    (["autoquality"; "aq"], parseAutoQualityOption);
    (["strip_metadata"; "sm"], one (λ a o, o <| po_StripMetadata := parseBooleanFlag a |>));
    (["keep_copyright"; "kcr"], one (λ a o, o <| po_KeepCopyright := parseBooleanFlag a |>));
    (["strip_color_profile"; "scp"], one (λ a o, o <| po_StripColorProfile := parseBooleanFlag a |>));
    (["zoom"; "z"], parseZoomOption);
    (["cachebuster"; "cb"], one (λ a o, o <| po_Cachebuster := a |>));
    (["expires"; "exp"], one (λ a o, o <| po_Expires := atoi_value a |>));
    (["raw"], one (λ a o, o <| po_RawMode := parseBooleanFlag a |>));
    (["video_thumbnail_second"; "vts"], one (λ a o, o <| po_VideoThumbnailSecond := float_arg a |>));
    (["fallback_image_url"; "fiu"], one (λ a o, o <| po_FallbackImageURL := text_or_base64 a |>));
    (["skip_processing"; "skp"], λ args o, o <| po_SkipProcessing := (po_SkipProcessing o ++ args)%list |>) ].

Definition apply_option (optionName : string) (args : list string) (o : ProcessingOptions) : ProcessingOptions :=
  match List.find (λ c, bool_decide (optionName ∈ c.1)) option_cases with
  | Some (_, f) => f args o
  | None => o
  end.

(** A segment of the option string. *)
Definition apply_segment (o : ProcessingOptions) (segment : string) : ProcessingOptions :=
  let segment := TrimSpace segment in
  if String.eqb segment "" || String.eqb segment "_" then o else
  match Split segment ":" with
  | optionName :: args => apply_option optionName args o
  | [] => o
  end.

(** ** Presets *)

Context (presetResolver : string → option string).

(** [f] on each, the results one after the other, until one fails. *)
Fixpoint gather {A} (f : A → result OptionsError (list string)) (l : list A) : result OptionsError (list string) :=
  match l with
  | [] => Ok []
  | x :: l => let! r := f x in let! rest := gather f l in Ok (r ++ rest)%list
  end.

Definition names_presets (segment : string) : bool := HasPrefix segment "preset:" || HasPrefix segment "pr:".

Definition expand_segment (nested : string → result OptionsError (list string)) (segment : string) : result OptionsError (list string) :=
  let segment := TrimSpace segment in
  if String.eqb segment "" then Ok [] else
  if names_presets segment then
    gather (λ presetName, match presetResolver presetName with
                          | None => Err (UnknownPreset presetName)
                          | Some resolvedOptions => nested resolvedOptions
                          end) (tail (Split segment ":"))
  else Ok [segment].

(** [levels] is [maxPresetRecursionDepth + 1 - depth]. *)
Fixpoint expandPresets (levels : nat) (optionsString : string) : result OptionsError (list string) :=
  match levels with
  | O => Err PresetsTooDeep
  | S levels => gather (expand_segment (expandPresets levels)) (Split optionsString "/")
  end.

(** [now] in seconds. *)
Definition ParseProcessingOptions (now : Z) (optionsString : string) : result OptionsError ProcessingOptions :=
  if String.eqb optionsString "" || String.eqb optionsString "_" then Ok NewDefaultProcessingOptions else
  let! expandedSegments := expandPresets (S maxPresetRecursionDepth) optionsString in
  let o := foldl apply_segment NewDefaultProcessingOptions expandedSegments in
  if (0 <? po_Expires o) && (po_Expires o <? now) then Err (RequestExpired (po_Expires o)) else Ok o.
End options.

(** ** What /info reports *)

Definition apply_info (o : InfoOptions) (segment : string) : InfoOptions :=
  match Split segment ":" with
  | [] => o
  | name :: args =>
      let enabled := match args with a :: _ => parseBooleanFlag a | [] => true end in
      if bool_decide (name ∈ ["size"; "s"]) then o <| io_Size := enabled |>
      else if bool_decide (name ∈ ["format"; "f"]) then o <| io_Format := enabled |>
      else if bool_decide (name ∈ ["dimensions"; "d"]) then o <| io_Dimensions := enabled |>
      else if String.eqb name "exif" then
        let o := o <| io_EXIF := enabled |> in with_arg args 1 o (λ a, o <| io_EXIFCanonicalNames := parseBooleanFlag a |>)
      else if String.eqb name "xmp" then o <| io_XMP := enabled |>
      else if String.eqb name "video_meta" then o <| io_VideoMeta := enabled |>
      else if String.eqb name "colorspace" then o <| io_Colorspace := enabled |>
      else if String.eqb name "bands" then o <| io_Bands := enabled |>
      else if String.eqb name "pages" then o <| io_Pages := enabled |>
      else if String.eqb name "alpha" then o <| io_Alpha := enabled |>
      else o
  end.

Definition ParseInfoOptions (optionsString : string) : InfoOptions :=
  if String.eqb optionsString "" || String.eqb optionsString "_" then NewDefaultInfoOptions
  else foldl apply_info NewDefaultInfoOptions (Split optionsString "/").

(** ** Lists of presets *)

Section presets.
Context `{UT : UnicodeTables} `{CT : CaseTables} (presetResolver : string → option string).

Lemma gather_Ok {A} (f : A → result OptionsError (list string)) l r :
  gather f l = Ok r ↔ ∃ rs, Forall2 (λ x y, f x = Ok y) l rs ∧ r = concat rs.
Proof.
  revert r. induction l as [|x l IH]; intros r; cbn [gather].
  { split; [intros [= <-]; by exists []|]. intros (rs & H & ->). by inversion H. }
  setoid_rewrite result_bind_Ok. split.
  - intros (y & Hy & (z & (rs & Hl & ->)%IH & [= <-])%result_bind_Ok). exists (y :: rs). split; [by constructor|done].
  - intros (rs & H & ->). inversion H as [|x' y l' rs' Hy Hl]; subst. exists y. split; [done|].
    apply result_bind_Ok. eexists. split; [by apply IH; eexists|done].
Qed.

Lemma gather_app {A} (f : A → result OptionsError (list string)) l l' :
  gather f (l ++ l') = let! r := gather f l in let! r' := gather f l' in Ok (r ++ r')%list.
Proof.
  induction l as [|x l IH]; cbn [gather app result_bind]; [by destruct (gather f l')|].
  destruct (f x); cbn [result_bind]; [|done]. rewrite IH. destruct (gather f l); cbn [result_bind]; [|done].
  destruct (gather f l'); cbn [result_bind]; [|done]. by rewrite List.app_assoc.
Qed.

Lemma gather_accepts {A} (f : A → result OptionsError (list string)) l :
  (∃ r, gather f l = Ok r) ↔ Forall (λ x, ∃ r, f x = Ok r) l.
Proof.
  induction l as [|x l IH]; cbn [gather]; [split; [by constructor|by eexists]|]. rewrite Forall_cons_iff, <- IH. split.
  - intros (r & (y & Hy & (z & Hz & _)%result_bind_Ok)%result_bind_Ok). split; by eexists.
  - intros [[y Hy] [z Hz]]. rewrite Hy, Hz. by eexists.
Qed.

(** What the expansion leaves. *)
Definition plain_option (segment : string) : Prop := segment ≠ "" ∧ names_presets segment = false ∧ ∃ raw, segment = TrimSpace raw.

Lemma expand_plain levels s l : expandPresets presetResolver levels s = Ok l → Forall plain_option l.
Proof.
  revert s l. induction levels as [|levels IH]; intros s l; [done|]. cbn [expandPresets]. intros (rs & Hrs & ->)%gather_Ok.
  apply Forall_concat. revert rs Hrs. generalize (Split s "/"). intros segments rs. induction 1 as [|x y xs ys Hx Hxs IHl]; constructor; [|done].
  clear IHl Hxs xs ys. unfold expand_segment in Hx. cbn zeta in Hx. destruct (String.eqb_spec (TrimSpace x) "") as [|Hne]; [simplify_eq; constructor|].
  destruct (names_presets (TrimSpace x)) eqn:Hp.
  - apply gather_Ok in Hx as (zs & Hzs & ->). apply Forall_concat. induction Hzs as [|a b la lb Ha Hla IHz]; constructor; [|done].
    destruct (presetResolver a) as [o|]; [|done]. by apply (IH o).
  - simplify_eq. apply Forall_singleton. by split; [|split; [|exists x]].
Qed.

(** The presets a text names. *)
Definition named_presets (s : string) : list string :=
  Split s "/" ≫= λ segment, let segment := TrimSpace segment in
    if negb (String.eqb segment "") && names_presets segment then tail (Split segment ":") else [].

(** [ps] are presets each of which is named by the one before, the first by
    [s]. *)
Fixpoint chain (s : string) (ps : list string) : Prop :=
  match ps with
  | [] => True
  | p :: ps => p ∈ named_presets s ∧ match presetResolver p with Some o => chain o ps | None => ps = [] end
  end.

Definition resolves (p : string) : Prop := is_Some (presetResolver p).

Lemma expand_accepts_step levels s :
  (∃ l, expandPresets presetResolver (S levels) s = Ok l)
  ↔ Forall (λ p, ∃ o l, presetResolver p = Some o ∧ expandPresets presetResolver levels o = Ok l) (named_presets s).
Proof.
  cbn [expandPresets]. rewrite gather_accepts. unfold named_presets. generalize (Split s "/"). intros segments.
  induction segments as [|x segments IH]; [by split; constructor|]. rewrite bind_cons, Forall_app, <- IH, Forall_cons_iff.
  apply and_iff_compat_r. unfold expand_segment. cbn zeta. destruct (String.eqb (TrimSpace x) ""); cbn [negb andb]; [by split; [constructor|eexists]|].
  destruct (names_presets (TrimSpace x)); [|by split; [constructor|eexists]]. rewrite gather_accepts. apply Forall_iff. intros p.
  destruct (presetResolver p) as [o|]; [|naive_solver]. naive_solver.
Qed.

Lemma expand_accepts levels s :
  (∃ l, expandPresets presetResolver (S levels) s = Ok l) ↔ ∀ ps, chain s ps → (List.length ps <= levels)%nat ∧ Forall resolves ps.
Proof.
  revert s. induction levels as [|levels IH]; intros s; rewrite expand_accepts_step, list.Forall_forall.
  - split.
    + intros H [|p ps]; [by split; [|constructor]|]. intros [Hp _]. apply H in Hp as (o & l & _ & Hl). done.
    + intros H p Hp. destruct (presetResolver p) as [o|] eqn:Ep; [destruct (H [p])|destruct (H [p])]; cbn in *; rewrite ?Ep; try done; lia.
  - split.
    + intros H [|p ps]; [split; [cbn; lia|constructor]|]. intros [Hp Hc]. apply H in Hp as (o & l & Ho & Hl). rewrite Ho in Hc.
      edestruct (proj1 (IH o)) as [Hlen Hr]; [by eexists|done|]. split; [cbn; lia|]. constructor; [by exists o|done].
    + intros H p Hp. assert (Hres : resolves p).
      { destruct (H [p]) as [_ Hr]; [cbn; by case_match|]. by inversion Hr. }
      destruct Hres as [o Ho]. destruct (proj2 (IH o)) as [l Hl].
      { intros ps Hps. destruct (H (p :: ps)) as [Hlen Hr]; [by cbn; rewrite Ho|]. cbn in Hlen. inversion Hr. split; [lia|done]. }
      by exists o, l.
Qed.
End presets.

(** ** Options, one after the other *)

Section order.
Context `{UT : UnicodeTables} `{CT : CaseTables} (presetResolver : string → option string) (now : Z).

(** What the options of [s] make of [o]. *)
Definition applied (o : ProcessingOptions) (s : string) : result OptionsError ProcessingOptions :=
  let! segments := expandPresets presetResolver (S maxPresetRecursionDepth) s in Ok (foldl apply_segment o segments).

Definition unexpired (o : ProcessingOptions) : result OptionsError ProcessingOptions :=
  if (0 <? po_Expires o) && (po_Expires o <? now) then Err (RequestExpired (po_Expires o)) else Ok o.

Lemma ParseProcessingOptions_applied s :
  ParseProcessingOptions presetResolver now s = let! o := applied NewDefaultProcessingOptions s in unexpired o.
Proof.
  unfold ParseProcessingOptions, applied. destruct (String.eqb_spec s "") as [->|_]; [done|].
  destruct (String.eqb_spec s "_") as [->|_]; [done|]. by destruct (expandPresets _ _ s).
Qed.

Lemma applied_app o a b : applied o (a ++ "/" ++ b) = let! o := applied o a in applied o b.
Proof.
  unfold applied, maxPresetRecursionDepth. cbn [expandPresets]. change (a ++ "/" ++ b) with (a ++ String "/" b).
  rewrite Split_at, gather_app. destruct (gather _ (Split a "/")); cbn [result_bind]; [|done].
  destruct (gather _ (Split b "/")); cbn [result_bind]; [|done]. by rewrite foldl_app.
Qed.

(** Options mean the same before and behind a slash: those behind it are applied
    to what those before it made, presets of either side expanded in their
    place. *)
Theorem options_in_order a b :
  ParseProcessingOptions presetResolver now (a ++ "/" ++ b)
  = let! o := applied NewDefaultProcessingOptions a in let! o := applied o b in unexpired o.
Proof.
  rewrite ParseProcessingOptions_applied, applied_app. by destruct (applied _ a).
Qed.

(** Options that hold a number. *)
Definition number_options : list (string * (ProcessingOptions → Z)) :=
  [("width", po_Width); ("w", po_Width); ("height", po_Height); ("h", po_Height);
   ("min_width", po_MinWidth); ("min-width", po_MinWidth); ("mw", po_MinWidth);
   ("min_height", po_MinHeight); ("min-height", po_MinHeight); ("mh", po_MinHeight);
   ("rotate", po_Rotate); ("rot", po_Rotate); ("pixelate", po_Pixelate); ("pix", po_Pixelate);
   ("quality", po_Quality); ("q", po_Quality); ("expires", po_Expires); ("exp", po_Expires)].

Lemma applied_segment o segment : plain segment = true → lacks "/" segment = true → segment ≠ "" → names_presets segment = false →
  applied o segment = Ok (apply_segment o segment).
Proof.
  intros Hp Hl Hne Hn. unfold applied, maxPresetRecursionDepth. cbn [expandPresets]. rewrite (Split_lacks segment "/") by done.
  cbn [gather]. unfold expand_segment. cbn zeta. rewrite (TrimSpace_plain segment), Hn by done. by destruct (String.eqb_spec segment "").
Qed.

(** Of two options that give the same number, the last one counts, whatever
    options and presets stand before it. *)
Theorem last_option_counts a name field arg o :
  (name, field) ∈ number_options → plain arg = true → lacks "/" arg = true → lacks ":" arg = true →
  ParseProcessingOptions presetResolver now (a ++ "/" ++ (name ++ ":" ++ arg)) = Ok o → field o = atoi_value arg.
Proof.
  intros Hin Hp Hs Hc. rewrite options_in_order. intros (o1 & _ & (o2 & Ho2 & Ho)%result_bind_Ok)%result_bind_Ok.
  assert (E : plain (name ++ ":" ++ arg) = true ∧ lacks "/" (name ++ ":" ++ arg) = true ∧ name ++ ":" ++ arg ≠ ""
              ∧ names_presets (name ++ ":" ++ arg) = false ∧ Split (name ++ ":" ++ arg) ":" = [name; arg]
              ∧ String.eqb (name ++ ":" ++ arg) "_" = false ∧ ∀ o, field (apply_option name [arg] o) = atoi_value arg).
  { change (name ++ ":" ++ arg) with (name ++ String ":" arg). unfold plain, lacks in *. unfold number_options in Hin.
    repeat (apply elem_of_cons in Hin as [[= -> ->]|Hin];
      [split_and!; [exact Hp|exact Hs|done|done|by rewrite Split_app, (Split_lacks arg)|done|done]|]). by apply elem_of_nil in Hin. }
  destruct E as (E1 & E2 & E3 & E4 & E5 & E6 & E7). rewrite applied_segment in Ho2 by done. simplify_eq.
  unfold apply_segment in Ho. cbn zeta in Ho. rewrite (TrimSpace_plain _ E1), E5, E6 in Ho.
  destruct (String.eqb_spec (name ++ ":" ++ arg) "") as [|_]; [done|]. cbn [orb] in Ho. unfold unexpired in Ho.
  case_match; [done|]. by injection Ho as <-.
Qed.
End order.

(** ** Presets that are too deep *)

Lemma gather_Err {A} (f : A → result OptionsError (list string)) l e : gather f l = Err e → ∃ x, x ∈ l ∧ f x = Err e.
Proof.
  induction l as [|x l IH]; [done|]. cbn [gather]. destruct (f x) eqn:Ex; cbn [result_bind].
  - destruct (gather f l) eqn:El; [done|]. intros [= ->]. destruct IH as (y & Hy & Hf); [done|]. exists y. by split; [right|].
  - intros [= ->]. exists x. by split; [left|].
Qed.

Lemma expand_not_expired presetResolver levels s e timestamp :
  expandPresets presetResolver levels s = Err e → e ≠ RequestExpired timestamp.
Proof.
  revert s e. induction levels as [|levels IH]; intros s e; cbn [expandPresets]; [by intros [= <-]|]. intros (x & _ & Hx)%gather_Err.
  unfold expand_segment in Hx. cbn zeta in Hx. case_match; [done|]. case_match; [|done]. apply gather_Err in Hx as (p & _ & Hp).
  case_match; [by eapply IH|by injection Hp as <-].
Qed.

(** Presets are no reason to refuse options exactly when every chain of presets
    that starts in them ends within five presets, all of which exist; presets
    that name themselves, or each other in a circle, are such a reason. *)
Theorem presets_five_deep `{UT : UnicodeTables} `{CT : CaseTables} (presetResolver : string → option string) now s :
  (∀ e, ParseProcessingOptions presetResolver now s = Err e → ∃ timestamp, e = RequestExpired timestamp)
  ↔ ∀ ps, chain presetResolver s ps → (List.length ps <= maxPresetRecursionDepth)%nat ∧ Forall (resolves presetResolver) ps.
Proof.
  rewrite <- expand_accepts, ParseProcessingOptions_applied. unfold applied. split.
  - intros H. destruct (expandPresets _ _ s) as [l|e] eqn:E; [by eexists|]. destruct (H e) as [timestamp ->]; [done|].
    by eapply expand_not_expired in E.
  - intros [l ->] e. cbn [result_bind]. unfold unexpired. case_match; [|done]. intros [= <-]. by eexists.
Qed.

(** ** Sources in base64 *)

Lemma cut_last_lacks c s : lacks c s = true → cut_last c s = None.
Proof.
  unfold lacks. induction s as [|d s IH]; [done|]. cbn [all_chars cut_last]. intros [Hd%negb_true_iff Hs]%andb_true_iff.
  by rewrite (IH Hs), Hd.
Qed.

Lemma cut_last_app c a b : lacks c b = true → cut_last c (a ++ String c b) = Some (a, b).
Proof.
  intros Hb. induction a as [|d a IH]; simpl; [by rewrite cut_last_lacks, Ascii.eqb_refl|]. by rewrite IH.
Qed.

(** A path that is no plain one. *)
Definition encoded_path (path : string) : Prop := cut_text "/plain/" path = None ∧ HasPrefix path "plain/" = false.

Definition base64_char (c : ascii) : bool := negb (Ascii.eqb c "/") && negb (Ascii.eqb c "@") && negb (Ascii.eqb c ".").

(** The base64 of a source is read back with its options and its extension,
    but for what follows the last [@] of the source: that is taken for an
    extension. *)
Theorem encoded_source_read options source ext :
  let path := options ++ "/" ++ base64_encode url_alphabet source ++ "." ++ ext in
  encoded_path path → source ≠ "" →
  lacks "/" ext = true → lacks "@" ext = true → lacks "." ext = true →
  ParseURLPath ("/" ++ path) =
    Ok match cut_last "@" source with
       | Some (before, behind) => (options, before, TrimPrefix behind ".")
       | None => (options, source, ext)
       end.
Proof.
  intros path [Hpl Hpre] Hs Hx1 Hx2 Hx3. unfold ParseURLPath. change (TrimPrefix ("/" ++ path) "/") with path.
  set (enc := base64_encode url_alphabet source) in *.
  assert (Hrt : base64_decode url_alphabet enc = Some source) by apply base64_round_trip, url_alphabet_ok.
  assert (He : enc ≠ "") by (intros E; rewrite E in Hrt; by injection Hrt).
  assert (Hc : lacks "/" enc = true ∧ lacks "@" enc = true ∧ lacks "." enc = true).
  { assert (H : all_chars base64_char enc = true) by (apply encode_chars; [lia|by vm_compute]).
    unfold lacks. split_and!; (eapply all_chars_impl; [|exact H]); unfold base64_char; intros c Hcc; bool_to_prop; destruct Hcc as [[H1 H2] H3]; by apply negb_true_iff. }
  destruct Hc as (Hc1 & Hc2 & Hc3). rewrite Hpl, Hpre.
  assert (Hlast : cut_last "/" path = Some (options, enc ++ String "." ext)).
  { apply (cut_last_app "/"). rewrite lacks_app, Hc1. by apply lacks_cons. }
  rewrite Hlast. rewrite (cut_last_lacks "@"), (cut_last_app ".") by first [done|rewrite lacks_app, Hc2; by apply lacks_cons].
  destruct (String.eqb_spec path "") as [E|_]; [by rewrite E in Hlast|]. destruct (String.eqb_spec enc "") as [|_]; [done|].
  unfold decode_source. rewrite Hrt. by destruct (cut_last "@" source) as [[]|].
Qed.

Example encoded_source_read_witness :
  ParseURLPath ("/" ++ "w:300/h:200" ++ "/" ++ base64_encode url_alphabet "https://cdn.example/a.png" ++ "." ++ "webp")
  = Ok ("w:300/h:200", "https://cdn.example/a.png", "webp").
Proof. apply (encoded_source_read "w:300/h:200" "https://cdn.example/a.png" "webp"); vm_compute; try split; done. Defined.

(** A source whose name holds [@] is cut there. *)
Theorem at_sign_cuts_source :
  ParseURLPath ("/w:300/" ++ base64_encode url_alphabet "https://cdn.example/a@2x.png") = Ok ("w:300", "https://cdn.example/a", "2x.png").
Proof. vm_compute. reflexivity. Qed.
