(* ===== verification/ImageCache.v ===== *)
(** * image/signature.go and image/cache.go: signed paths and the cache of images

    A path is signed with an HMAC; a signature may be given in several codes and
    may be cut short.  What has been transformed is kept under a key made of the
    source and the options, in a map into a list whose elements move to the
    front when they are used; the oldest one makes room for a new one.

    Shown: what is signed verifies, and what verifies is the beginning of the
    HMAC, of which one byte is enough; map and list always hold the same images,
    at most [maxEntries], and behave as a list in the order of use; two options
    with the same text in the key agree in everything it says.

    Parameters: SHA-256 and HMAC, with their lengths as laws where needed. *)

From stdpp Require Import list strings gmap.
From Stdlib Require Import ZArith Lia Ascii String SpecFloat.
From S2P Require Import Prelude GoStrings GoFloats GoRunes GoValues Encodings URLQuery Scopes ServiceAccounts DataCache Tokens AuthCodes ImageOptions.
Local Open Scope string_scope.
Local Open Scope Z_scope.

(** ** Signatures *)

Fixpoint hex_DecodeString (s : string) : option string :=
  match s with
  | "" => Some ""
  | String a (String b s) =>
      match unhex a, unhex b with
      | Some x, Some y => String (ascii_of_nat (16 * x + y)) <$> hex_DecodeString s
      | _, _ => None
      end
  | _ => None
  end.

Section signature.
Context `{CR : Crypto}.

Definition path_digest (signingKey signingSalt path : string) : string := hmac_sha256 signingKey (signingSalt ++ path).

Definition SignPath (signingKey signingSalt path : string) : string :=
  base64_encode url_alphabet (path_digest signingKey signingSalt path).

(** The bytes a signature stands for: 64 hexadecimal digits, or base64 without
    or with padding. *)
Definition signature_bytes (text : string) : option string :=
  let hexed := if (String.length text =? 64)%nat then default "" (hex_DecodeString text) else "" in
  if negb (String.eqb hexed "") then Some hexed else
  match base64_decode url_alphabet text with
  | Some decoded => Some decoded
  | None => base64_decode_padded url_alphabet text
  end.

Definition VerifySignature (signingKey signingSalt providedSignature path : string) (allowInsecure : bool) : bool :=
  let trimmedSignature := TrimSpace providedSignature in
  if String.eqb trimmedSignature "" then false else
  if allowInsecure && (String.eqb trimmedSignature "_" || String.eqb trimmedSignature "unsafe") then true else
  if String.eqb signingKey "" then false else
  let expectedBytes := path_digest signingKey signingSalt path in
  match signature_bytes trimmedSignature with
  | None => false
  | Some providedBytes =>
      let providedLength := String.length providedBytes in
      if (providedLength =? 0)%nat || (String.length expectedBytes <? providedLength)%nat then false
      else String.eqb providedBytes (take_str providedLength expectedBytes)
  end.

(** A placeholder that stands for a signature where that is allowed. *)
Definition placeholder (signature : string) : bool :=
  let s := TrimSpace signature in String.eqb s "_" || String.eqb s "unsafe".
End signature.

(** ** Keys *)

Definition bool_v (b : bool) : string := if b then "true" else "false".

(** The sections of the text that is hashed, and their fields. *)
Definition key_sections (o : ProcessingOptions) : list (list string) :=
  [ ["rs"; po_ResizeType o; decimal (po_Width o); decimal (po_Height o); bool_v (po_Enlarge o); bool_v (po_Extend o)];
    ["algo"; po_ResizingAlgorithm o];
    ["dpr"; format_2f (po_DPR o)];
    ["g"; g_Type (po_Gravity o); format_2f (g_XOffset (po_Gravity o)); format_2f (g_YOffset (po_Gravity o))];
    ["c"; format_2f (po_CropWidth o); format_2f (po_CropHeight o); g_Type (po_CropGravity o)];
    ["t"; format_2f (po_TrimThreshold o); po_TrimColor o; bool_v (po_TrimEqualHor o); bool_v (po_TrimEqualVer o)];
    ["pd"; decimal (po_PaddingTop o); decimal (po_PaddingRight o); decimal (po_PaddingBottom o); decimal (po_PaddingLeft o)];
    ["ar"; bool_v (po_AutoRotate o)];
    ["rot"; decimal (po_Rotate o)];
    ["bg"; po_Background o; format_2f (po_BackgroundAlpha o)];
    ["bl"; format_2f (po_Blur o)];
    ["sh"; format_2f (po_Sharpen o)];
    ["pix"; decimal (po_Pixelate o)];
    ["wm"; format_2f (po_WatermarkOpacity o); g_Type (po_WatermarkGravity o); decimal (po_WatermarkXOffset o);
     decimal (po_WatermarkYOffset o); format_2f (po_WatermarkScale o); po_WatermarkURL o];
    ["f"; po_Format o];
    ["q"; decimal (po_Quality o)];
    ["sm"; bool_v (po_StripMetadata o)];
    ["kcr"; bool_v (po_KeepCopyright o)];
    ["scp"; bool_v (po_StripColorProfile o)];
    ["z"; format_2f (po_ZoomX o); format_2f (po_ZoomY o)];
    ["cb"; po_Cachebuster o];
    ["raw"; bool_v (po_RawMode o)] ].

Definition options_payload (o : ProcessingOptions) : string := Join ((λ fields, Join fields ":") <$> key_sections o) "|".

Section cache.
Context `{HL : HostLib}.

Definition options_hash (o : ProcessingOptions) : string := hex_EncodeToString (sha256_Sum256 (options_payload o)).

(** The key, and the hash of the options. *)
Definition ComputeCacheKey (sourceURL : string) (o : ProcessingOptions) : string * string :=
  (hex_EncodeToString (sha256_Sum256 (sourceURL ++ "|" ++ options_hash o)), options_hash o).

(** ** The cache *)

Record CachedImage := MkCachedImage {
  img_CacheKey : string; img_ContentType : string; img_ETag : string; img_Data : string; img_CreatedAt : Z }.
Record lruEntry := MkLruEntry { entry_key : string; entry_image : CachedImage }.

(** An element of the list has an identity, which the map refers to. *)
Record CacheManager := MkCacheManager {
  memoryCache : gmap string N; lruList : list (N * lruEntry); nextElement : N; maxEntries : nat;
  totalRequests : Z; cacheHits : Z; cacheMisses : Z; bytesServed : Z }.
#[export] Instance CacheManager_eta : Eta CacheManager := λ c,
  MkCacheManager (memoryCache c) (lruList c) (nextElement c) (maxEntries c) (totalRequests c) (cacheHits c) (cacheMisses c) (bytesServed c).

Definition defaultMaxMemoryCacheEntries : nat := 1000.
Definition defaultMaxCachedItemBytes : Z := 10485760.

Definition NewCacheManager : CacheManager := MkCacheManager ∅ [] 0 defaultMaxMemoryCacheEntries 0 0 0 0.

(** container/list. *)
Definition element_value (element : N) (l : list (N * lruEntry)) : option lruEntry := snd <$> List.find (λ e, N.eqb e.1 element) l.
Definition list_Remove (element : N) (l : list (N * lruEntry)) : list (N * lruEntry) := List.filter (λ e, negb (N.eqb e.1 element)) l.
Definition MoveToFront (element : N) (l : list (N * lruEntry)) : list (N * lruEntry) :=
  match element_value element l with
  | Some v => (element, v) :: list_Remove element l
  | None => l
  end.
Definition set_value (element : N) (image : CachedImage) (l : list (N * lruEntry)) : list (N * lruEntry) :=
  (λ e, if N.eqb e.1 element then (e.1, MkLruEntry (entry_key e.2) image) else e) <$> l.

Definition Get (cacheKey : string) (c : CacheManager) : option CachedImage * CacheManager :=
  let c := c <| totalRequests := wrap64 (totalRequests c + 1) |> in
  match memoryCache c !! cacheKey with
  | Some element =>
      let c := c <| lruList := MoveToFront element (lruList c) |> in
      match element_value element (lruList c) with
      | Some entry =>
          (Some (entry_image entry),
           c <| cacheHits := wrap64 (cacheHits c + 1) |>
             <| bytesServed := wrap64 (bytesServed c + Z.of_nat (String.length (img_Data (entry_image entry)))) |>)
      | None => (None, c)
      end
  | None => (None, c <| cacheMisses := wrap64 (cacheMisses c + 1) |>)
  end.

Definition image_etag (data : string) : string :=
  String (ascii_of_nat 34) (hex_EncodeToString (take_str 16 (sha256_Sum256 data)) ++ String (ascii_of_nat 34) "").

(** The image at its place in memory. *)
Definition store_image (cacheKey : string) (image : CachedImage) (c : CacheManager) : CacheManager :=
  match memoryCache c !! cacheKey with
  | Some element => c <| lruList := set_value element image (MoveToFront element (lruList c)) |>
  | None =>
      let c :=
        if (maxEntries c <=? List.length (lruList c))%nat then
          match list.last (lruList c) with
          | Some (oldestElement, oldestEntry) =>
              c <| lruList := list_Remove oldestElement (lruList c) |> <| memoryCache := delete (entry_key oldestEntry) (memoryCache c) |>
          | None => c
          end
        else c in
      c <| lruList := (nextElement c, MkLruEntry cacheKey image) :: lruList c |>
        <| memoryCache := <[cacheKey := nextElement c]> (memoryCache c) |> <| nextElement := (nextElement c + 1)%N |>
  end.

(** An image that is too large is not kept. *)
Definition Set_ (now : Z) (cacheKey contentType data : string) (c : CacheManager) : string * CacheManager :=
  let eTag := image_etag data in
  (eTag, if Z.of_nat (String.length data) <=? defaultMaxCachedItemBytes
         then store_image cacheKey (MkCachedImage cacheKey contentType eTag data now) c else c).

Definition Invalidate (cacheKey : string) (c : CacheManager) : CacheManager :=
  match memoryCache c !! cacheKey with
  | Some element => c <| lruList := list_Remove element (lruList c) |> <| memoryCache := delete cacheKey (memoryCache c) |>
  | None => c
  end.

Definition Clear (c : CacheManager) : CacheManager := c <| memoryCache := ∅ |> <| lruList := [] |>.

(** ** The index in the table image.cache_entries *)

Record CacheEntry := MkCacheEntry {
  row_id : N; row_SourceURL : string; row_OptionsHash : string; row_ContentType : string; row_ByteSize : Z; row_ETag : string;
  row_LastAccessedAt : Z; row_CreatedAt : Z }.
#[export] Instance CacheEntry_eta : Eta CacheEntry := λ r,
  MkCacheEntry (row_id r) (row_SourceURL r) (row_OptionsHash r) (row_ContentType r) (row_ByteSize r) (row_ETag r) (row_LastAccessedAt r)
    (row_CreatedAt r).

(** A statement that fails leaves the rows, and no trace. *)
Definition touchDatabaseEntry (ok : bool) (now : Z) (cacheKey : string) (rows : gmap string CacheEntry) : gmap string CacheEntry :=
  if ok then alter (λ r, r <| row_LastAccessedAt := now |>) cacheKey rows else rows.

Definition recordDatabaseEntry (ok : bool) (now : Z) (newID : N) (cacheKey sourceURL optionsHash contentType : string) (byteSize : Z) (eTag : string)
    (rows : gmap string CacheEntry) : gmap string CacheEntry :=
  if negb ok then rows else
  match rows !! cacheKey with
  | Some _ => alter (λ r, r <| row_LastAccessedAt := now |>) cacheKey rows
  | None => <[cacheKey := MkCacheEntry newID sourceURL optionsHash contentType byteSize eTag now now]> rows
  end.

(** Hits and requests; their ratio is their quotient. *)
Definition Stats (c : CacheManager) : Z * Z * Z * Z := (cacheHits c, cacheMisses c, totalRequests c, bytesServed c).
End cache.

(** ** Signatures: what verifies *)

Section signed.
Context `{CR : Crypto} (signingKey signingSalt : string).
Context (law_hmac : ∀ message, String.length (hmac_sha256 signingKey message) = 32%nat).

Lemma path_digest_length path : String.length (path_digest signingKey signingSalt path) = 32%nat.
Proof. apply law_hmac. Qed.

Lemma length_of_chars l : String.length (string_of_list_ascii l) = List.length l.
Proof. induction l as [|c l IH]; [done|]. cbn. by rewrite IH. Qed.

Lemma base64_length s : (6 * String.length (base64_encode url_alphabet s) < 8 * String.length s + 6)%nat.
Proof.
  unfold base64_encode, encode_bits. cbn zeta. rewrite length_of_chars, length_fmap.
  destruct (groups_spec 6 (List.length (text_bits s)) (text_bits s)) as [Hg (p & Hp & Hc)]; [lia|done|].
  set (gs := groups _ _ _) in *. clearbody gs.
  apply (f_equal (@List.length bool)) in Hc. rewrite length_app, length_replicate, length_text_bits in Hc.
  enough (List.length (concat gs) = (6 * List.length gs)%nat) by lia.
  clear -Hg. induction Hg as [|g gs Hg _ IH]; [done|]. cbn [concat List.length]. rewrite length_app. lia.
Qed.

Lemma length_take_str n s : String.length (take_str n s) = Nat.min n (String.length s).
Proof. revert s. induction n as [|n IH]; intros [|c s]; try done. cbn [take_str String.length]. rewrite IH. lia. Qed.

(** A placeholder where that is allowed, or the beginning of the HMAC under a
    key that is not empty. *)
Theorem VerifySignature_exact signature path allowInsecure :
  VerifySignature signingKey signingSalt signature path allowInsecure = true
  ↔ (allowInsecure = true ∧ placeholder signature = true)
    ∨ (signingKey ≠ "" ∧ ∃ n, (1 <= n <= 32)%nat
        ∧ signature_bytes (TrimSpace signature) = Some (take_str n (path_digest signingKey signingSalt path))).
Proof.
  unfold VerifySignature, placeholder. cbn zeta. set (s := TrimSpace signature). set (d := path_digest _ _ _).
  assert (Hd : String.length d = 32%nat) by apply path_digest_length.
  assert (Hsig : (match signature_bytes s with
                  | None => false
                  | Some b => if (String.length b =? 0)%nat || (String.length d <? String.length b)%nat then false
                              else String.eqb b (take_str (String.length b) d)
                  end) = true ↔ ∃ n, (1 <= n <= 32)%nat ∧ signature_bytes s = Some (take_str n d)).
  { destruct (signature_bytes s) as [b|]; [|naive_solver]. rewrite Hd. split.
    - destruct (Nat.eqb_spec (String.length b) 0); [done|]. destruct (Nat.ltb_spec 32 (String.length b)); [done|]. cbn [orb].
      intros E%String.eqb_eq. exists (String.length b). split; [lia|]. by rewrite <- E.
    - intros (n & Hn & [= ->]). rewrite length_take_str, Hd. replace (n `min` 32)%nat with n by lia.
      destruct (Nat.eqb_spec n 0), (Nat.ltb_spec 32 n); try lia. apply String.eqb_refl. }
  destruct (String.eqb_spec s "") as [E|_].
  { rewrite E. split; [done|]. intros [[_ H]|[_ (n & Hn & H)]]; [done|]. change (signature_bytes "") with (Some "") in H. injection H as H.
    apply (f_equal String.length) in H. rewrite length_take_str, Hd in H. cbn in H. lia. }
  destruct allowInsecure, (String.eqb s "_" || String.eqb s "unsafe"); cbn [andb]; try (split; [by left|done]);
    destruct (String.eqb_spec signingKey "") as [|Hk]; try (split; [done|]; intros [[]|[]]; done);
    rewrite Hsig; split; try (by right); intros [[]|[_ H]]; done.
Qed.

Lemma signature_bytes_short s : (String.length s <= 32)%nat → signature_bytes (base64_encode url_alphabet s) = Some s.
Proof.
  intros Hs. unfold signature_bytes. pose proof (base64_length s). destruct (Nat.eqb_spec (String.length (base64_encode url_alphabet s)) 64); [lia|].
  cbn [default String.eqb negb]. by rewrite base64_round_trip by apply url_alphabet_ok.
Qed.

(** What is signed verifies. *)
Theorem signed_path_verifies path allowInsecure : signingKey ≠ "" →
  VerifySignature signingKey signingSalt (SignPath signingKey signingSalt path) path allowInsecure = true.
Proof.
  intros Hk. apply VerifySignature_exact. right. split; [done|]. exists 32%nat. split; [lia|]. unfold SignPath.
  rewrite TrimSpace_plain by apply raw_url_plain. rewrite signature_bytes_short by (rewrite path_digest_length; lia). f_equal.
  pose proof (path_digest_length path) as Hl. revert Hl. generalize (path_digest signingKey signingSalt path). generalize 32%nat. clear.
  intros n s. revert n. induction s as [|c s IH]; intros [|n]; try done. cbn. intros [= H]. by rewrite <- (IH n H).
Qed.

(** Whatever the path, one of 256 signatures of two characters verifies. *)
Theorem one_byte_verifies path allowInsecure : signingKey ≠ "" →
  ∃ c, VerifySignature signingKey signingSalt (base64_encode url_alphabet (String c "")) path allowInsecure = true.
Proof.
  intros Hk. pose proof (path_digest_length path) as Hl. destruct (path_digest signingKey signingSalt path) as [|c s] eqn:E; [done|]. exists c.
  apply VerifySignature_exact. right. split; [done|]. exists 1%nat. split; [lia|].
  rewrite TrimSpace_plain by apply raw_url_plain. rewrite signature_bytes_short by (cbn; lia). by rewrite E.
Qed.
End signed.

(** ** The cache is a list in the order of use *)

Definition images (c : CacheManager) : list (string * CachedImage) := (λ e, (entry_key e.2, entry_image e.2)) <$> lruList c.

Definition image_of (k : string) (l : list (string * CachedImage)) : option CachedImage := snd <$> List.find (λ e, String.eqb e.1 k) l.
Definition others (k : string) (l : list (string * CachedImage)) : list (string * CachedImage) := List.filter (λ e, negb (String.eqb e.1 k)) l.
Definition used_last (k : string) (l : list (string * CachedImage)) : list (string * CachedImage) :=
  match image_of k l with Some image => (k, image) :: others k l | None => l end.

(** The map leads to the elements of the list, each by the key it holds. *)
Record cache_ok (c : CacheManager) : Prop := {
  ok_elements : NoDup (lruList c).*1;
  ok_fresh : Forall (λ e, (e.1 < nextElement c)%N) (lruList c);
  ok_map : ∀ k element, memoryCache c !! k = Some element ↔ ∃ image, (element, MkLruEntry k image) ∈ lruList c;
  ok_size : (List.length (lruList c) <= maxEntries c)%nat;
  ok_room : (0 < maxEntries c)%nat }.

Lemma filter_fmap_agree {A B} (f : A → B) (p : A → bool) (q : B → bool) l :
  (∀ x, x ∈ l → p x = q (f x)) → f <$> List.filter p l = List.filter q (f <$> l).
Proof.
  induction l as [|x l IH]; intros H; [done|]. cbn [List.filter fmap list_fmap]. rewrite <- (H x) by constructor.
  rewrite <- (IH (λ y Hy, H y (list_elem_of_further _ _ _ Hy))). by destruct (p x).
Qed.

Lemma find_fmap_agree {A B} (f : A → B) (p : A → bool) (q : B → bool) l :
  (∀ x, x ∈ l → p x = q (f x)) → f <$> List.find p l = List.find q (f <$> l).
Proof.
  induction l as [|x l IH]; intros H; [done|]. cbn [List.find fmap list_fmap]. rewrite <- (H x) by constructor.
  destruct (p x); [done|]. apply IH. intros y Hy. apply H. by constructor.
Qed.

Lemma list_filter_in {A} (p : A → bool) x l : x ∈ List.filter p l ↔ x ∈ l ∧ p x = true.
Proof. rewrite !list_elem_of_In. apply filter_In. Qed.

Lemma NoDup_fst_inj {A B} (l : list (A * B)) a b b' : NoDup l.*1 → (a, b) ∈ l → (a, b') ∈ l → b = b'.
Proof.
  induction l as [|[x y] l IH]; cbn; [by intros _ ?%elem_of_nil|]. intros [Hx Hl]%list.NoDup_cons H1 H2.
  assert (Hin : ∀ b, (a, b) ∈ l → a ∈ l.*1) by (intros b0 H; apply list_elem_of_fmap; by exists (a, b0)).
  apply elem_of_cons in H1 as [E1|H1]; apply elem_of_cons in H2 as [E2|H2].
  - congruence.
  - injection E1 as -> ->. by destruct Hx; apply (Hin b').
  - injection E2 as -> ->. by destruct Hx; apply (Hin b).
  - by apply IH.
Qed.

Lemma NoDup_filter_fst {A B} (p : A * B → bool) (l : list (A * B)) : NoDup l.*1 → NoDup (List.filter p l).*1.
Proof.
  induction l as [|x l IH]; [done|]. cbn [fmap list_fmap List.filter]. intros [Hx Hl]%list.NoDup_cons. specialize (IH Hl).
  destruct (p x); [|done]. cbn. apply list.NoDup_cons. split; [|done]. intros (y & Ey & [Hy _]%list_filter_in)%list_elem_of_fmap.
  destruct Hx. apply list_elem_of_fmap. by exists y.
Qed.

Section lru.
Context (c : CacheManager) (Hok : cache_ok c).

(** The element of a key. *)
Lemma key_element k element : memoryCache c !! k = Some element →
  ∀ e, e ∈ lruList c → N.eqb e.1 element = String.eqb (entry_key e.2) k.
Proof.
  intros Hk [id [k' image']] He. cbn. apply (ok_map c Hok) in Hk as Hi. destruct Hi as [image Hi].
  destruct (N.eqb_spec id element) as [->|Hne]; symmetry.
  - pose proof (NoDup_fst_inj _ _ _ _ (ok_elements c Hok) Hi He) as [= -> ->]. apply String.eqb_refl.
  - apply String.eqb_neq. intros ->. assert (memoryCache c !! k = Some id) by (apply (ok_map c Hok); by eexists). congruence.
Qed.

Lemma key_absent k : memoryCache c !! k = None → ∀ e, e ∈ lruList c → String.eqb (entry_key e.2) k = false.
Proof.
  intros Hk [id [k' image']] He. apply String.eqb_neq. cbn. intros ->.
  assert (memoryCache c !! k = Some id) by (apply (ok_map c Hok); by eexists). congruence.
Qed.

Lemma images_others k : others k (images c) = (λ e, (entry_key e.2, entry_image e.2)) <$> List.filter (λ e, negb (String.eqb (entry_key e.2) k)) (lruList c).
Proof. unfold others, images. symmetry. by apply filter_fmap_agree. Qed.

Lemma filter_element k element : memoryCache c !! k = Some element →
  list_Remove element (lruList c) = List.filter (λ e, negb (String.eqb (entry_key e.2) k)) (lruList c).
Proof. intros Hk. unfold list_Remove. apply filter_ext_in. intros e He%list_elem_of_In. by rewrite (key_element k element). Qed.

Lemma others_absent k : memoryCache c !! k = None → others k (images c) = images c.
Proof.
  intros Hk. rewrite images_others. unfold images. f_equal. pose proof (key_absent k Hk) as Ha. clear -Ha. induction (lruList c) as [|e l IH]; [done|].
  cbn [List.filter]. rewrite (Ha e) by constructor. cbn [negb]. f_equal. apply IH. intros e' He'. apply Ha. by constructor.
Qed.

Lemma image_of_element k element : memoryCache c !! k = Some element →
  ∃ image, element_value element (lruList c) = Some (MkLruEntry k image) ∧ image_of k (images c) = Some image
  ∧ (element, MkLruEntry k image) ∈ lruList c.
Proof.
  intros Hk. apply (ok_map c Hok) in Hk as Hi. destruct Hi as [image Hi]. exists image.
  assert (Hf : List.find (λ e, N.eqb e.1 element) (lruList c) = Some (element, MkLruEntry k image)).
  { destruct (List.find _ _) as [[id e]|] eqn:E.
    - apply find_some in E as [He%list_elem_of_In E%N.eqb_eq]. cbn in E. subst id. f_equal. f_equal.
      by apply (NoDup_fst_inj _ _ _ _ (ok_elements c Hok) He).
    - eapply find_none in E; [|by apply list_elem_of_In]. cbn in E. by rewrite N.eqb_refl in E. }
  unfold element_value, image_of, images. rewrite Hf. split_and!; [done| |done].
  rewrite <- (find_fmap_agree (λ e, (entry_key e.2, entry_image e.2)) (λ e, N.eqb e.1 element)) by apply (key_element k element Hk).
  by rewrite Hf.
Qed.

Lemma image_of_absent k : memoryCache c !! k = None → image_of k (images c) = None.
Proof.
  intros Hk. unfold image_of. destruct (List.find _ _) as [[k' image]|] eqn:E; [|done].
  apply find_some in E as [He%list_elem_of_In E]. cbn in E. unfold images in He. apply list_elem_of_fmap in He as ([id e] & [= -> ->] & He).
  cbn in E. pose proof (key_absent k Hk _ He) as Ha. cbn in Ha. congruence.
Qed.

(** The map, read through the list. *)
Lemma map_elements k element : memoryCache c !! k = Some element ↔ ∃ image, (element, MkLruEntry k image) ∈ lruList c.
Proof. apply Hok. Qed.
End lru.

(** What of a cache the invariant is about. *)
Lemma cache_ok_counters c c' : memoryCache c' = memoryCache c → lruList c' = lruList c → nextElement c' = nextElement c →
  maxEntries c' = maxEntries c → cache_ok c → cache_ok c'.
Proof. intros E1 E2 E3 E4 []. by split; rewrite ?E1, ?E2, ?E3, ?E4. Qed.

Lemma list_Remove_length element l v : NoDup l.*1 → (element, v) ∈ l → S (List.length (list_Remove element l)) = List.length l.
Proof.
  induction l as [|[id w] l IH]; [by intros _ ?%elem_of_nil|]. cbn [fmap list_fmap]. intros [Hx Hl]%list.NoDup_cons Hin. unfold list_Remove.
  cbn [List.filter fst]. destruct (N.eqb_spec id element) as [->|Hne]; cbn [negb List.length].
  - f_equal. f_equal. clear -Hx. induction l as [|[id' w'] l IH]; [done|]. cbn [List.filter fst fmap list_fmap] in *.
    destruct (N.eqb_spec id' element) as [->|_]; [by destruct Hx; left|]. cbn [negb]. rewrite IH; [done|]. intros H. apply Hx. by right.
  - f_equal. apply IH; [done|]. apply elem_of_cons in Hin as [[= -> _]|Hin]; done.
Qed.

Lemma in_list_Remove e element l : e ∈ list_Remove element l ↔ e ∈ l ∧ e.1 ≠ element.
Proof. unfold list_Remove. rewrite list_filter_in, negb_true_iff, N.eqb_neq. done. Qed.

Lemma cache_ok_front c k element image : cache_ok c → memoryCache c !! k = Some element →
  cache_ok (c <| lruList := (element, MkLruEntry k image) :: list_Remove element (lruList c) |>).
Proof.
  intros Hok Hk. destruct (image_of_element c Hok k element Hk) as (old & _ & _ & Hin). pose proof (NoDup_fst_inj (lruList c) element) as Hinj.
  destruct Hok as [Hnd Hf Hm Hs Hr]. split; cbn.
  - apply list.NoDup_cons. split; [|by apply NoDup_filter_fst]. intros (e & Ee & [_ He]%in_list_Remove)%list_elem_of_fmap. by destruct He.
  - rewrite list.Forall_forall in Hf. apply list.Forall_forall. intros e [->|[He _]%in_list_Remove]%elem_of_cons; [by apply (Hf _ Hin)|by apply Hf].
  - intros k' element'. rewrite Hm. split.
    + intros [image' Hin']. destruct (decide (element' = element)) as [->|Hne].
      * pose proof (Hinj _ _ Hnd Hin Hin') as [= -> _]. exists image. by left.
      * exists image'. right. by apply in_list_Remove.
    + intros [image' [[= -> -> _]|[Hin' _]%in_list_Remove]%elem_of_cons]; by eexists.
  - pose proof (list_Remove_length element (lruList c) _ Hnd Hin). lia.
  - done.
Qed.

Lemma cache_ok_remove c k element : cache_ok c → memoryCache c !! k = Some element →
  cache_ok (c <| lruList := list_Remove element (lruList c) |> <| memoryCache := delete k (memoryCache c) |>).
Proof.
  intros Hok Hk. destruct (image_of_element c Hok k element Hk) as (old & _ & _ & Hin). pose proof (NoDup_fst_inj (lruList c) element) as Hinj.
  destruct Hok as [Hnd Hf Hm Hs Hr]. split; cbn.
  - by apply NoDup_filter_fst.
  - rewrite list.Forall_forall in Hf. apply list.Forall_forall. intros e [He _]%in_list_Remove. by apply Hf.
  - intros k' element'. destruct (decide (k' = k)) as [->|Hne].
    + rewrite lookup_delete_eq. split; [done|]. intros (image & [Hin' Hd]%in_list_Remove). cbn in Hd.
      assert (memoryCache c !! k = Some element') by (apply Hm; by eexists). congruence.
    + rewrite lookup_delete_ne by done. rewrite Hm. split.
      * intros [image' Hin']. exists image'. apply in_list_Remove. split; [done|]. cbn. intros ->. pose proof (Hinj _ _ Hnd Hin Hin') as [= -> _]. done.
      * intros (image' & [Hin' _]%in_list_Remove). by eexists.
  - pose proof (list_Remove_length element (lruList c) _ Hnd Hin). lia.
  - done.
Qed.

Lemma cache_ok_insert c k image : cache_ok c → memoryCache c !! k = None → (List.length (lruList c) < maxEntries c)%nat →
  cache_ok (c <| lruList := (nextElement c, MkLruEntry k image) :: lruList c |>
              <| memoryCache := <[k := nextElement c]> (memoryCache c) |> <| nextElement := (nextElement c + 1)%N |>).
Proof.
  intros Hok Hk Hlen. pose proof (key_absent c Hok k Hk) as Ha. destruct Hok as [Hnd Hf Hm Hs Hr]. rewrite list.Forall_forall in Hf. split; cbn.
  - apply list.NoDup_cons. split; [|done]. intros (e & Ee & He)%list_elem_of_fmap. specialize (Hf e He). cbn in Hf. lia.
  - apply list.Forall_forall. intros e [->|He]%elem_of_cons; [cbn; lia|]. specialize (Hf e He). cbn in Hf. lia.
  - intros k' element'. destruct (decide (k' = k)) as [->|Hne].
    + rewrite lookup_insert_eq. split; [intros [= <-]; exists image; by left|]. intros [image' [[= -> _]|He]%elem_of_cons]; [done|].
      specialize (Ha _ He). cbn in Ha. by rewrite String.eqb_refl in Ha.
    + rewrite lookup_insert_ne by done. rewrite Hm. split; intros [image' He]; exists image'; [by right|].
      apply elem_of_cons in He as [[= _ E _]|He]; done.
  - lia.
  - done.
Qed.

Section operations.
Context `{HL : HostLib}.
#[local] Arguments element_value : simpl never.
#[local] Arguments list_Remove : simpl never.

Lemma images_front c element k image : cache_ok c → memoryCache c !! k = Some element →
  images (c <| lruList := (element, MkLruEntry k image) :: list_Remove element (lruList c) |>) = (k, image) :: others k (images c).
Proof.
  intros Hok Hk. rewrite images_others. unfold images. cbn [lruList fmap list_fmap]. cbn. f_equal. f_equal. by apply filter_element.
Qed.

Lemma Get_correct c k : cache_ok c →
  (Get k c).1 = image_of k (images c) ∧ images (Get k c).2 = used_last k (images c) ∧ cache_ok (Get k c).2.
Proof.
  intros Hok. unfold Get, used_last. cbn zeta. cbn [memoryCache update]. destruct (memoryCache c !! k) as [element|] eqn:Hk.
  - destruct (image_of_element c Hok k element Hk) as (image & Hv & Hi & Hin). unfold MoveToFront. cbn. rewrite Hv.
    assert (Hh : ∀ l, element_value element ((element, MkLruEntry k image) :: l) = Some (MkLruEntry k image)).
    { intros l. unfold element_value. cbn [List.find fst]. by rewrite N.eqb_refl. }
    rewrite Hh. cbn. rewrite Hi. split_and!; [done| |].
    + rewrite <- (images_front c element k image) by done. done.
    + eapply cache_ok_counters; [..|by apply (cache_ok_front c k element image)]; done.
  - cbn. rewrite (image_of_absent c Hok k Hk). split_and!; [done|done|]. by apply (cache_ok_counters c).
Qed.

Lemma front_set element k image old l : NoDup l.*1 → element_value element l = Some old → entry_key old = k →
  set_value element image (MoveToFront element l) = (element, MkLruEntry k image) :: list_Remove element l.
Proof.
  intros _ Hv Hk. unfold MoveToFront. rewrite Hv. unfold set_value. cbn [fmap list_fmap fst snd]. rewrite N.eqb_refl, Hk. f_equal.
  unfold list_Remove. clear. induction l as [|[id e] l IH]; [done|]. cbn [List.filter fst]. destruct (N.eqb_spec id element) as [|Hne]; cbn [negb]; [done|].
  cbn [fmap list_fmap fst]. apply N.eqb_neq in Hne. by rewrite Hne, IH.
Qed.

(** The oldest element leaves the list and the map. *)
Lemma evict_correct c : cache_ok c → (maxEntries c <= List.length (lruList c))%nat →
  ∃ element entry, list.last (lruList c) = Some (element, entry) ∧ memoryCache c !! entry_key entry = Some element
  ∧ (λ e, (entry_key e.2, entry_image e.2)) <$> list_Remove element (lruList c) = take (maxEntries c - 1) (images c).
Proof.
  intros Hok Hlen. pose proof (ok_room c Hok) as Hr. pose proof (ok_size c Hok) as Hs. pose proof (ok_elements c Hok) as Hnd.
  destruct (last_is_Some (lruList c)) as [_ H]. destruct H as [[element entry] Hl]; [intros E; rewrite E in *; cbn in *; lia|].
  exists element, entry. split; [done|]. apply last_Some in Hl as (l & El). split.
  { apply (ok_map c Hok). exists (entry_image entry). rewrite El. destruct entry. apply elem_of_app. right. by left. }
  unfold images. rewrite El in *. rewrite length_app in *. cbn [List.length] in *. rewrite fmap_app, take_app_length'.
  2:{ rewrite length_fmap. lia. }
  f_equal. unfold list_Remove. rewrite List.filter_app. cbn [List.filter fst]. rewrite N.eqb_refl. cbn [negb]. rewrite app_nil_r.
  rewrite fmap_app in Hnd. apply list.NoDup_app in Hnd as (_ & Hd & _). clear -Hd.
  induction l as [|[id e] l IH]; [done|]. cbn [List.filter fst fmap list_fmap] in *. destruct (N.eqb_spec id element) as [->|_]; cbn [negb].
  - destruct (Hd element); [by left|by left].
  - f_equal. apply IH. intros x Hx. apply Hd. by right.
Qed.

Lemma store_correct c k image : cache_ok c →
  images (store_image k image c) = take (maxEntries c) ((k, image) :: others k (images c))
  ∧ cache_ok (store_image k image c) ∧ maxEntries (store_image k image c) = maxEntries c.
Proof.
  intros Hok. pose proof (ok_room c Hok) as Hr. pose proof (ok_size c Hok) as Hs. unfold store_image.
  destruct (memoryCache c !! k) as [element|] eqn:Hk.
  - destruct (image_of_element c Hok k element Hk) as (old & Hv & Hi & Hin).
    rewrite (front_set element k image (MkLruEntry k old)) by (done || apply Hok).
    split_and!; [|by apply cache_ok_front|done]. rewrite images_front by done. symmetry. apply take_ge. cbn [List.length].
    rewrite images_others, length_fmap, <- (filter_element c Hok k element Hk).
    pose proof (list_Remove_length element (lruList c) _ (ok_elements c Hok) Hin). lia.
  - rewrite (others_absent c Hok k Hk). destruct (Nat.leb_spec (maxEntries c) (List.length (lruList c))) as [Hle|Hgt].
    + destruct (evict_correct c Hok Hle) as (element & entry & -> & He & Hrest). cbn zeta.
      pose proof (cache_ok_remove c (entry_key entry) element Hok He) as Hok'.
      set (c' := c <| lruList := list_Remove element (lruList c) |> <| memoryCache := delete (entry_key entry) (memoryCache c) |>) in *.
      assert (Hk' : memoryCache c' !! k = None) by (cbn; rewrite lookup_delete_ne; [done|intros E; congruence]).
      assert (Hlen : (List.length (lruList c') < maxEntries c')%nat).
      { cbn. destruct (image_of_element c Hok _ _ He) as (old & _ & _ & Hin).
        pose proof (list_Remove_length element (lruList c) _ (ok_elements c Hok) Hin). lia. }
      split_and!; [|by apply cache_ok_insert|done]. unfold images. cbn [lruList update]. unfold images in Hrest. cbn. rewrite Hrest.
      destruct (maxEntries c) as [|n]; [lia|]. cbn [take]. by rewrite Nat.sub_1_r.
    + cbn zeta. split_and!; [|by apply cache_ok_insert|done]. unfold images. cbn. rewrite firstn_all2; [done|]. cbn [List.length]. rewrite length_fmap. lia.
Qed.

Lemma Invalidate_correct c k : cache_ok c → images (Invalidate k c) = others k (images c) ∧ cache_ok (Invalidate k c).
Proof.
  intros Hok. unfold Invalidate. destruct (memoryCache c !! k) as [element|] eqn:Hk.
  - split; [|by apply cache_ok_remove]. rewrite images_others. unfold images. cbn. f_equal. by apply filter_element.
  - by rewrite (others_absent c Hok k Hk).
Qed.

Lemma Clear_correct c : cache_ok c → images (Clear c) = [] ∧ cache_ok (Clear c).
Proof.
  intros []. split; [done|]. split; cbn; [constructor|constructor| |lia|done]. intros k element. rewrite lookup_empty.
  split; [done|]. by intros (image & ?%elem_of_nil).
Qed.
End operations.

(** ** Any sequence of uses *)

Inductive CacheOp := UseImage (k : string) | KeepImage (now : Z) (k contentType data : string) | DropImage (k : string) | DropAll.

Section sequences.
Context `{HL : HostLib}.

Definition cache_step (op : CacheOp) (c : CacheManager) : option CachedImage * CacheManager :=
  match op with
  | UseImage k => Get k c
  | KeepImage now k contentType data => (None, (Set_ now k contentType data c).2)
  | DropImage k => (None, Invalidate k c)
  | DropAll => (None, Clear c)
  end.

(** The same of a list of images, the one used last first. *)
Definition list_step (op : CacheOp) (l : list (string * CachedImage)) : option CachedImage * list (string * CachedImage) :=
  match op with
  | UseImage k => (image_of k l, used_last k l)
  | KeepImage now k contentType data =>
      (None, if Z.of_nat (String.length data) <=? defaultMaxCachedItemBytes
             then take defaultMaxMemoryCacheEntries ((k, MkCachedImage k contentType (image_etag data) data now) :: others k l) else l)
  | DropImage k => (None, others k l)
  | DropAll => (None, [])
  end.

Fixpoint run_steps {S} (step : CacheOp → S → option CachedImage * S) (ops : list CacheOp) (s : S) : list (option CachedImage) * S :=
  match ops with
  | [] => ([], s)
  | op :: ops => let '(r, s) := step op s in let '(rs, s) := run_steps step ops s in (r :: rs, s)
  end.

Lemma cache_step_correct op c : cache_ok c → maxEntries c = defaultMaxMemoryCacheEntries →
  (cache_step op c).1 = (list_step op (images c)).1 ∧ images (cache_step op c).2 = (list_step op (images c)).2
  ∧ cache_ok (cache_step op c).2 ∧ maxEntries (cache_step op c).2 = defaultMaxMemoryCacheEntries.
Proof.
  intros Hok Hm. destruct op as [k|now k contentType data|k|]; cbn [cache_step list_step fst snd].
  - destruct (Get_correct c k Hok) as (H1 & H2 & H3). split_and!; [done|done|done|]. rewrite <- Hm. unfold Get. cbn zeta. by repeat case_match.
  - unfold Set_. cbn [snd]. destruct (_ <=? _); [|done].
    destruct (store_correct c k (MkCachedImage k contentType (image_etag data) data now) Hok) as (H1 & H2 & H3). rewrite <- Hm. by split_and!.
  - destruct (Invalidate_correct c k Hok) as (H1 & H2). split_and!; [done|done|done|]. unfold Invalidate. by case_match.
  - destruct (Clear_correct c Hok) as (H1 & H2). by split_and!.
Qed.

(** C38: From the start on, the cache answers like the list of the images in the
    order of use, cut off behind the thousandth. *)
Theorem cache_is_list ops :
  let '(answers, c) := run_steps cache_step ops NewCacheManager in
  (answers, images c) = run_steps list_step ops [] ∧ (List.length (images c) <= defaultMaxMemoryCacheEntries)%nat.
Proof.
  assert (Hgen : ∀ c, cache_ok c → maxEntries c = defaultMaxMemoryCacheEntries →
    let '(answers, c') := run_steps cache_step ops c in
    (answers, images c') = run_steps list_step ops (images c) ∧ (List.length (images c') <= defaultMaxMemoryCacheEntries)%nat).
  { induction ops as [|op ops IH]; intros c Hok Hm; cbn [run_steps].
    - split; [done|]. unfold images. rewrite length_fmap, <- Hm. apply Hok.
    - destruct (cache_step_correct op c Hok Hm) as (H1 & H2 & H3 & H4). destruct (cache_step op c) as [r c'], (list_step op (images c)) as [r' l'].
      cbn in *. subst r' l'. specialize (IH c' H3 H4). destruct (run_steps cache_step ops c') as [answers c''].
      destruct IH as [<- Hlen]. done. }
  apply (Hgen NewCacheManager); [|done]. split; cbn; [constructor|constructor| |lia|unfold defaultMaxMemoryCacheEntries; lia].
  intros k element. rewrite lookup_empty. split; [done|]. by intros (image & ?%elem_of_nil).
Qed.
End sequences.

(** ** What the key says *)

Definition clean_field (x : string) : Prop := lacks "|" x = true ∧ lacks ":" x = true.

(** Fields of which only the one at [w] may hold a colon. *)
Fixpoint fields_fit (w : nat) (fields : list string) {struct fields} : Prop :=
  match fields with
  | [] => True
  | x :: fields =>
      lacks "|" x = true ∧ match w with O => Forall clean_field fields | S w => lacks ":" x = true ∧ fields_fit w fields end
  end.

Lemma cut_inj sep a a' s s' : lacks sep a = true → lacks sep a' = true → a ++ String sep s = a' ++ String sep s' → a = a' ∧ s = s'.
Proof.
  intros Ha Ha' E%(f_equal (cut sep)). rewrite !cut_lacks in E by done. by injection E.
Qed.

Lemma Join_snoc l y sep : l ≠ [] → Join (l ++ [y]) sep = Join l sep ++ sep ++ y.
Proof.
  induction l as [|x l IH]; [done|]. intros _. destruct l as [|z l]; [done|]. cbn [app] in *.
  change (Join (x :: z :: l ++ [y]) sep) with (x ++ sep ++ Join (z :: l ++ [y]) sep). rewrite IH by done.
  change (Join (x :: z :: l) sep) with (x ++ sep ++ Join (z :: l) sep). by rewrite !append_assoc.
Qed.

Lemma wild_first x x' l l' : List.length l = List.length l' → Forall clean_field l → Forall clean_field l' →
  Join (x :: l) ":" = Join (x' :: l') ":" → x :: l = x' :: l'.
Proof.
  revert l'. induction l as [|y l IH] using rev_ind; intros l' Hlen Hl Hl' E.
  - destruct l'; [by cbn in E; subst|done].
  - destruct l' as [|y' l' _] using rev_ind; [rewrite length_app in Hlen; cbn in Hlen; lia|]. rewrite !length_app in Hlen. cbn in Hlen.
    apply Forall_app in Hl as [Hl Hy], Hl' as [Hl' Hy']. inversion_clear Hy as [|?? [_ Hyc]]. inversion_clear Hy' as [|?? [_ Hyc']].
    change (x :: l ++ [y]) with ((x :: l) ++ [y])%list in *. change (x' :: l' ++ [y']) with ((x' :: l') ++ [y'])%list in *.
    rewrite !Join_snoc in E by done. apply (f_equal (cut_last ":")) in E.
    change (":" ++ y) with (String ":" y) in E. change (":" ++ y') with (String ":" y') in E. rewrite !cut_last_app in E by done.
    injection E as E ->. f_equal. apply IH; [lia|done..].
Qed.

Lemma fields_inj w l l' : List.length l = List.length l' → fields_fit w l → fields_fit w l' → Join l ":" = Join l' ":" → l = l'.
Proof.
  revert w l'. induction l as [|x l IH]; intros w [|x' l'] Hlen H H' E; try done. cbn [List.length] in Hlen. cbn [fields_fit] in H, H'.
  destruct w as [|w]; [apply wild_first; [lia|apply H|apply H'|done]|]. destruct H as (_ & Hx & H), H' as (_ & Hx' & H').
  destruct l as [|y l], l' as [|y' l']; try done; [by cbn in E; subst|].
  apply (cut_inj ":") in E as [-> E]; [|done..]. f_equal. apply (IH w); [lia|done..].
Qed.

Lemma fields_lack_bar w l : fields_fit w l → lacks "|" (Join l ":") = true.
Proof.
  assert (Hc : ∀ l, Forall (λ x, lacks "|" x = true) l → lacks "|" (Join l ":") = true).
  { clear. induction 1 as [|x l Hx Hl IH]; [done|]. destruct l as [|y l]; [done|].
    change (Join (x :: y :: l) ":") with (x ++ ":" ++ Join (y :: l) ":"). rewrite !lacks_app, Hx, IH. done. }
  intros H. apply Hc. revert w H. induction l as [|x l IH]; intros w; [constructor|]. cbn [fields_fit]. intros [Hx H]. constructor; [done|].
  destruct w as [|w]; [|by apply (IH w), H]. eapply list.Forall_impl; [exact H|]. intros y Hy. apply Hy.
Qed.

(** Arity and wild field of each section. *)
Fixpoint sections_fit (shape : list (nat * nat)) (ls : list (list string)) : Prop :=
  match shape, ls with
  | (arity, w) :: shape, l :: ls => List.length l = arity ∧ fields_fit w l ∧ sections_fit shape ls
  | [], [] => True
  | _, _ => False
  end.

Lemma sections_inj shape ls ls' : sections_fit shape ls → sections_fit shape ls' →
  Join ((λ l, Join l ":") <$> ls) "|" = Join ((λ l, Join l ":") <$> ls') "|" → ls = ls'.
Proof.
  intros H H' E.
  assert (Hl : ∀ shape ls, sections_fit shape ls → Forall (λ s, lacks "|" s = true) ((λ l, Join l ":") <$> ls)).
  { clear. induction shape as [|[a w] shape IH]; intros [|l ls]; try done. intros (_ & Hf & Hs). constructor; [|by apply IH].
    by eapply fields_lack_bar. }
  assert (E' : (λ l, Join l ":") <$> ls = (λ l, Join l ":") <$> ls').
  { destruct shape as [|[a w] shape], ls as [|l ls], ls' as [|l' ls']; try done.
    apply (f_equal (λ s, Split s "|")) in E. rewrite !(Split_Join "|") in E; [exact E|done|by eapply Hl|done|by eapply Hl]. }
  clear E. revert ls ls' H H' E'. induction shape as [|[a w] shape IH]; intros [|l ls] [|l' ls']; try done.
  intros (Ha & Hf & Hs) (Ha' & Hf' & Hs'). cbn [fmap list_fmap]. intros [= E Es]. f_equal; [|by apply IH].
  apply (fields_inj w); [congruence|done..].
Qed.

Definition key_shape : list (nat * nat) :=
  [(6, 1); (2, 1); (2, 1); (4, 1); (4, 3); (5, 2); (5, 1); (2, 1); (2, 1); (3, 1); (2, 1); (2, 1); (2, 1); (7, 6); (2, 1); (2, 1); (2, 1);
   (2, 1); (2, 1); (3, 1); (2, 1); (2, 1)]%nat.

(** The texts of the options hold no bar, and the gravity of the watermark no
    colon. *)
Definition key_texts (o : ProcessingOptions) : list string :=
  [po_ResizeType o; po_ResizingAlgorithm o; g_Type (po_Gravity o); g_Type (po_CropGravity o); po_TrimColor o; po_Background o;
   g_Type (po_WatermarkGravity o); po_WatermarkURL o; po_Format o; po_Cachebuster o].
Definition key_clean (o : ProcessingOptions) : bool := forallb (lacks "|") (key_texts o) && lacks ":" (g_Type (po_WatermarkGravity o)).

Lemma decimal_field n : clean_field (decimal n).
Proof.
  assert (H : all_chars float_char (decimal n) = true) by (unfold decimal; case_match; [cbn [all_chars]|]; by rewrite ?digits_chars).
  split; (eapply all_chars_impl; [|exact H]); intros c; unfold float_char; rewrite !andb_true_iff; by intros [[]].
Qed.
Lemma float_field x : clean_field (format_2f x).
Proof. split; apply format_2f_lacks; auto. Qed.
Lemma bool_field b : clean_field (bool_v b).
Proof. by destruct b. Qed.

Lemma key_sections_fit o : key_clean o = true → sections_fit key_shape (key_sections o).
Proof.
  unfold key_clean, key_texts. cbn [forallb]. intros H. bool_to_prop. destruct_and!.
  assert (Hd := decimal_field). assert (Hf := float_field). assert (Hb := bool_field).
  unfold key_shape, key_sections. cbn [sections_fit fields_fit].
  split_and!; repeat first [done | apply Hd | apply Hf | apply Hb | apply Forall_nil_2 | apply Forall_cons_2].
Qed.

(** Options with the same text in the key have the same sections. *)
Lemma payload_inj o o' : key_clean o = true → key_clean o' = true → options_payload o = options_payload o' → key_sections o = key_sections o'.
Proof. intros H H' E. by apply (sections_inj key_shape); [apply key_sections_fit|apply key_sections_fit|]. Qed.

Section keys.
Context `{HL : HostLib}.

Lemma hex_lacks_bar s : lacks "|" (hex_EncodeToString s) = true.
Proof.
  assert (Hd : ∀ n, (n < 16)%nat → Ascii.eqb (hex_digit n) "|" = false).
  { intros n Hn. do 16 (destruct n as [|n]; [done|]). lia. }
  unfold lacks. induction s as [|c s IH]; [done|]. cbn [hex_EncodeToString all_chars]. pose proof (nat_ascii_bounded c).
  rewrite IH, !Hd; [done|apply Nat.mod_upper_bound; lia|apply Nat.Div0.div_lt_upper_bound; lia].
Qed.

(** When SHA-256 does not collide on what is hashed, the same key means the
    same source and options that say the same in every section. *)
Theorem cache_key_separates source source' o o' :
  (∀ a b, sha256_Sum256 a = sha256_Sum256 b → a ∈ [options_payload o; source ++ "|" ++ options_hash o] →
     b ∈ [options_payload o'; source' ++ "|" ++ options_hash o'] → a = b) →
  key_clean o = true → key_clean o' = true →
  (ComputeCacheKey source o).1 = (ComputeCacheKey source' o').1 → source = source' ∧ key_sections o = key_sections o'.
Proof.
  intros Hsha Hc Hc' E%hex_inj. apply Hsha in E; [|right; by left|right; by left].
  change ("|" ++ options_hash o) with (String "|" (options_hash o)) in E. change ("|" ++ options_hash o') with (String "|" (options_hash o')) in E.
  apply (f_equal (cut_last "|")) in E. rewrite !cut_last_app in E by apply hex_lacks_bar. injection E as -> E%hex_inj. split; [done|].
  apply payload_inj; [done|done|]. by apply Hsha; [|left|left].
Qed.
End keys.
