(* ===== verification/ImageEngine.v ===== *)
(** * image/engine.go: what is done to an image

    An image is decoded, turned, cropped, resized, padded, blurred, sharpened,
    pixelated, marked and encoded, in this order, each step when the options ask
    for it.

    Shown: options that say the same in the key of the cache give the same
    result, if their floats are hundredths; many options are read and have no
    effect; an image is not enlarged unless that is asked for; and a colour
    written with colons may be taken for hexadecimal digits.

    Parameters: the decoders and encoders and the imaging library. *)

From stdpp Require Import list strings.
From Stdlib Require Import ZArith Lia Ascii String SpecFloat.
From S2P Require Import Prelude GoStrings GoFloats GoRunes GoValues Encodings URLQuery DataCache AuthCodes RealtimeFilter ImageOptions ImageCache.
Local Open Scope string_scope.
Local Open Scope Z_scope.

(** ** Colours *)

Inductive Color := Transparent | RGBA (r g b a : Z).

(** [strconv.ParseUint(s, base, 8)] without its error: 255 as soon as the value
    is out of range, else zero. *)
Fixpoint uint8_digits (hex : bool) (acc : Z) (s : string) : Z :=
  match s with
  | "" => acc
  | String c s =>
      match digit_in hex c with
      | Some d => let n := (if hex then 16 else 10) * acc + d in if 255 <? n then 255 else uint8_digits hex n s
      | None => 0
      end
  end.
Definition uint8_value (hex : bool) (s : string) : Z := if String.eqb s "" then 0 else uint8_digits hex 0 s.

Definition parseColorHex (colorHex : string) (alpha : spec_float) : Color :=
  let trimmedHex := TrimPrefix (TrimSpace colorHex) "#" in
  if String.eqb trimmedHex "" then Transparent else
  let alphaByte := if f64_leb alpha f64_zero then 255 else uint8_of_f64 (f64_mul alpha (f64_of_int 255)) in
  match list_ascii_of_string trimmedHex with
  | [a; b; c; d; e; f] =>
      let two x y := uint8_value true (String x (String y "")) in RGBA (two a b) (two c d) (two e f) alphaByte
  | [a; b; c] =>
      let two x := uint8_value true (String x (String x "")) in RGBA (two a) (two b) (two c) alphaByte
  | _ =>
      match Split colorHex ":" with
      | [r; g; b] => RGBA (uint8_value false r) (uint8_value false g) (uint8_value false b) alphaByte
      | _ => Transparent
      end
  end.

(** ** The library *)

Inductive Anchor := Center | TopLeft | Top | TopRight | Left | Right | BottomLeft | Bottom | BottomRight.
Inductive ResampleFilter := NearestNeighbor | Linear | CatmullRom | Lanczos.

Class Imaging := MkImaging {
  picture : Type;
  Dx : picture → Z;
  Dy : picture → Z;
  (** [image.Decode] and [image.DecodeConfig], with the name of the format. *)
  image_Decode : string → option (picture * string);
  image_DecodeConfig : string → option (Z * Z * string);
  Clone : picture → picture;
  Rotate90 : picture → picture;
  Rotate180 : picture → picture;
  Rotate270 : picture → picture;
  CropAnchor : picture → Z → Z → Anchor → picture;
  Fit : picture → Z → Z → ResampleFilter → picture;
  Fill : picture → Z → Z → Anchor → ResampleFilter → picture;
  Resize : picture → Z → Z → ResampleFilter → picture;
  New : Z → Z → Color → picture;
  Paste : picture → picture → Z → Z → picture;
  Overlay : picture → picture → Z → Z → spec_float → picture;
  Blur : picture → spec_float → picture;
  Sharpen : picture → spec_float → picture;
  webp_Encode : Z → picture → option string;
  jpeg_Encode : Z → picture → option string;
  png_Encode : picture → option string;
  gif_Encode : picture → option string;
  bmp_Encode : picture → option string;
  tiff_Encode : picture → option string }.

Definition resolveMIMEType `{UT : UnicodeTables} `{CT : CaseTables} (format : string) : string :=
  let format := strings_ToLower format in
  if String.eqb format "webp" then "image/webp"
  else if String.eqb format "avif" then "image/avif"
  else if String.eqb format "png" then "image/png"
  else if bool_decide (format ∈ ["jpeg"; "jpg"]) then "image/jpeg"
  else if String.eqb format "gif" then "image/gif"
  else if String.eqb format "svg" then "image/svg+xml"
  else if String.eqb format "ico" then "image/x-icon"
  else if String.eqb format "tiff" then "image/tiff"
  else if String.eqb format "bmp" then "image/bmp"
  else "application/octet-stream".

Definition resolveResampleFilter `{UT : UnicodeTables} `{CT : CaseTables} (algorithm : string) : ResampleFilter :=
  let algorithm := strings_ToLower algorithm in
  if String.eqb algorithm "nearest" then NearestNeighbor
  else if String.eqb algorithm "linear" then Linear
  else if String.eqb algorithm "cubic" then CatmullRom
  else Lanczos.

Definition resolveImagingAnchor (gravity : GravityOption) : Anchor :=
  let type := g_Type gravity in
  if String.eqb type GravityNorth then Top
  else if String.eqb type GravitySouth then Bottom
  else if String.eqb type GravityEast then Right
  else if String.eqb type GravityWest then Left
  else if String.eqb type GravityNorthEast then TopRight
  else if String.eqb type GravityNorthWest then TopLeft
  else if String.eqb type GravitySouthEast then BottomRight
  else if String.eqb type GravitySouthWest then BottomLeft
  else Center.

(** [strings.EqualFold]. *)
Definition EqualFold `{UT : UnicodeTables} `{CO : CaseOrbits} (s t : string) : bool :=
  (List.length (runes s) =? List.length (runes t))%nat && forallb (λ p, same_orbit p.1 p.2) (combine (runes s) (runes t)).

Inductive TransformError := DecodeError | EncodeError (format : string).

(** [int(float64(n) * f)] *)
Definition scaled (n : Z) (f : spec_float) : Z := int_of_f64 (f64_mul (f64_of_int n) f).

Section engine.
Context `{UT : UnicodeTables} `{CT : CaseTables} `{CO : CaseOrbits} `{IM : Imaging}.

Definition decodeImage (input : string) : option (picture * string) :=
  match image_Decode input with Some (p, formatName) => Some (p, strings_ToLower formatName) | None => None end.

Definition resizeImage (source : picture) (o : ProcessingOptions) : picture :=
  let effectiveDPR := if f64_leb (po_DPR o) f64_zero then f64_one else po_DPR o in
  let clamp target size := if negb (po_Enlarge o) && (size <? target) && (0 <? target) then size else target in
  let targetWidth := clamp (scaled (po_Width o) effectiveDPR) (Dx source) in
  let targetHeight := clamp (scaled (po_Height o) effectiveDPR) (Dy source) in
  let resampleFilter := resolveResampleFilter (po_ResizingAlgorithm o) in
  let both := (0 <? targetWidth) && (0 <? targetHeight) in
  if String.eqb (po_ResizeType o) ResizeFit then
    if both then Fit source targetWidth targetHeight resampleFilter else Resize source targetWidth targetHeight resampleFilter
  else if String.eqb (po_ResizeType o) ResizeFill || String.eqb (po_ResizeType o) ResizeFillDown then
    if both then Fill source targetWidth targetHeight (resolveImagingAnchor (po_Gravity o)) resampleFilter
    else Resize source targetWidth targetHeight resampleFilter
  else if String.eqb (po_ResizeType o) ResizeForce then Resize source targetWidth targetHeight resampleFilter
  else Fit source targetWidth targetHeight resampleFilter.

(** A size up to one is a share of the image. *)
Definition cropImage (source : picture) (cropWidth cropHeight : spec_float) (gravity : GravityOption) : picture :=
  let size crop full := if f64_positive crop && f64_leb crop f64_one then scaled full crop else int_of_f64 crop in
  CropAnchor source (size cropWidth (Dx source)) (size cropHeight (Dy source)) (resolveImagingAnchor gravity).

Definition padImage (source : picture) (o : ProcessingOptions) : picture :=
  Paste (New (wrap64 (Dx source + po_PaddingLeft o + po_PaddingRight o)) (wrap64 (Dy source + po_PaddingTop o + po_PaddingBottom o))
           (parseColorHex (po_Background o) (po_BackgroundAlpha o)))
    source (po_PaddingLeft o) (po_PaddingTop o).

(** The remainder of Go has the sign of the dividend. *)
Definition rotateImage (source : picture) (angle : Z) : picture :=
  let normalizedAngle := Z.rem (Z.rem angle 360 + 360) 360 in
  if normalizedAngle =? 90 then Rotate270 source
  else if normalizedAngle =? 180 then Rotate180 source
  else if normalizedAngle =? 270 then Rotate90 source
  else source.

Definition pixelateImage (source : picture) (pixelSize : Z) : picture :=
  if (Dx source <=? pixelSize) || (Dy source <=? pixelSize) then source else
  Resize (Resize source (Z.quot (Dx source) pixelSize) (Z.quot (Dy source) pixelSize) NearestNeighbor) (Dx source) (Dy source) NearestNeighbor.

(** The text of the option is what is decoded. *)
Definition applyWatermark (source : picture) (o : ProcessingOptions) : option picture :=
  match decodeImage (po_WatermarkURL o) with
  | None => None
  | Some (watermarkImage, _) =>
      let watermark := Clone watermarkImage in
      let scaledWidth := scaled (Dx source) (po_WatermarkScale o) in
      let watermark := if f64_positive (po_WatermarkScale o) && (0 <? scaledWidth) then Resize watermark scaledWidth 0 Lanczos else watermark in
      let opacity := if f64_leb (po_WatermarkOpacity o) f64_zero then f64_one else po_WatermarkOpacity o in
      Some (Overlay source watermark (po_WatermarkXOffset o) (po_WatermarkYOffset o) opacity)
  end.

Definition encodeImage (source : picture) (format : string) (quality defaultQuality : Z) : option string :=
  let effectiveQuality := if quality <=? 0 then defaultQuality else quality in
  let effectiveQuality := if effectiveQuality <=? 0 then 80 else effectiveQuality in
  if String.eqb format "webp" then webp_Encode effectiveQuality source
  else if String.eqb format "png" then png_Encode source
  else if String.eqb format "gif" then gif_Encode source
  else if String.eqb format "bmp" then bmp_Encode source
  else if String.eqb format "tiff" then tiff_Encode source
  else if bool_decide (format ∈ ["jpeg"; "jpg"; ""]) then jpeg_Encode effectiveQuality source
  else None.

Definition when (b : bool) (f : picture → picture) (p : picture) : picture := if b then f p else p.

(** The steps between decoding and encoding. *)
Definition process (o : ProcessingOptions) (p : picture) : picture :=
  let p := Clone p in
  let p := when (negb (po_Rotate o =? 0)) (λ p, rotateImage p (po_Rotate o)) p in
  let p := when (f64_positive (po_CropWidth o) && f64_positive (po_CropHeight o))
             (λ p, cropImage p (po_CropWidth o) (po_CropHeight o) (po_CropGravity o)) p in
  let p := when ((0 <? po_Width o) || (0 <? po_Height o)) (λ p, resizeImage p o) p in
  let p := when ((0 <? po_PaddingTop o) || (0 <? po_PaddingRight o) || (0 <? po_PaddingBottom o) || (0 <? po_PaddingLeft o))
             (λ p, padImage p o) p in
  let p := when (f64_positive (po_Blur o)) (λ p, Blur p (po_Blur o)) p in
  let p := when (f64_positive (po_Sharpen o)) (λ p, Sharpen p (po_Sharpen o)) p in
  let p := when (1 <? po_Pixelate o) (λ p, pixelateImage p (po_Pixelate o)) p in
  when (negb (String.eqb (po_WatermarkURL o) "")) (λ p, default p (applyWatermark p o)) p.

(** The image, and its type. *)
Definition Transform (defaultQuality : Z) (input : string) (o : ProcessingOptions) : result TransformError (string * string) :=
  match decodeImage input with
  | None => Err DecodeError
  | Some (sourceImage, detectedFormat) =>
      let targetFormat := let f := strings_ToLower (po_Format o) in if String.eqb f "" then detectedFormat else f in
      if po_RawMode o && String.eqb targetFormat detectedFormat then Ok (input, resolveMIMEType targetFormat) else
      if existsb (λ skipExt, EqualFold skipExt detectedFormat) (po_SkipProcessing o) then Ok (input, resolveMIMEType detectedFormat) else
      match encodeImage (process o sourceImage) targetFormat (po_Quality o) defaultQuality with
      | Some output => Ok (output, resolveMIMEType targetFormat)
      | None => Err (EncodeError targetFormat)
      end
  end.

(** ** Inspection *)

Record GetInfoResponse := MkGetInfoResponse {
  info_Size : Z; info_Format : string; info_MIMEType : string; info_Width : Z; info_Height : Z; info_Orientation : Z; info_Colorspace : string;
  info_Bands : Z; info_Pages : Z; info_Alpha : option bool }.

Definition Inspect (input : string) (o : InfoOptions) : option GetInfoResponse :=
  match image_DecodeConfig input with
  | None => None
  | Some (width, height, formatName) =>
      Some {| info_Size := if io_Size o then Z.of_nat (String.length input) else 0;
              info_Format := if io_Format o then formatName else "";
              info_MIMEType := if io_Format o then resolveMIMEType formatName else "";
              info_Width := if io_Dimensions o then width else 0;
              info_Height := if io_Dimensions o then height else 0;
              info_Orientation := 1;
              info_Colorspace := if io_Colorspace o then "sRGB" else "";
              info_Bands := if io_Bands o then 3 else 0;
              info_Pages := if io_Pages o then 1 else 0;
              info_Alpha := if io_Alpha o then Some (negb (bool_decide (formatName ∈ ["jpeg"; "jpg"]))) else None |}
  end.
End engine.

(** ** The key decides the result *)

(** Numbers of 64 bits and floats that are hundredths, in what is used. *)
Definition used_numbers (o : ProcessingOptions) : list Z :=
  [po_Width o; po_Height o; po_PaddingTop o; po_PaddingRight o; po_PaddingBottom o; po_PaddingLeft o; po_Rotate o; po_Pixelate o;
   po_WatermarkXOffset o; po_WatermarkYOffset o; po_Quality o].
Definition used_floats (o : ProcessingOptions) : list spec_float :=
  [po_DPR o; po_CropWidth o; po_CropHeight o; po_BackgroundAlpha o; po_Blur o; po_Sharpen o; po_WatermarkOpacity o; po_WatermarkScale o].
Definition in_hundredths (o : ProcessingOptions) : Prop :=
  Forall (λ z, in_int64 z = true) (used_numbers o) ∧ Forall exact_2f (used_floats o).

Lemma bool_v_inj a b : bool_v a = bool_v b → a = b.
Proof. by destruct a, b. Qed.

Section keyed.
Context `{UT : UnicodeTables} `{CT : CaseTables} `{CO : CaseOrbits} `{IM : Imaging}.

(** What a step takes from the options, when they have the same sections. *)
Record same_settings (o o' : ProcessingOptions) : Prop := {
  same_numbers : used_numbers o = used_numbers o';
  same_floats : used_floats o = used_floats o';
  same_texts : [po_ResizeType o; po_ResizingAlgorithm o; g_Type (po_Gravity o); g_Type (po_CropGravity o); po_Background o; po_WatermarkURL o; po_Format o]
               = [po_ResizeType o'; po_ResizingAlgorithm o'; g_Type (po_Gravity o'); g_Type (po_CropGravity o'); po_Background o'; po_WatermarkURL o'; po_Format o'];
  same_flags : (po_Enlarge o, po_RawMode o) = (po_Enlarge o', po_RawMode o') }.

Lemma sections_settings o o' : in_hundredths o → in_hundredths o' → key_sections o = key_sections o' → same_settings o o'.
Proof.
  intros [Hn Hf] [Hn' Hf'] E. unfold used_numbers, used_floats in *.
  repeat match goal with H : Forall _ (_ :: _) |- _ => apply Forall_cons_1 in H as [? H] end.
  unfold key_sections in E. injection E as E.
  repeat match goal with
  | H : decimal _ = decimal _ |- _ => apply decimal_inj in H; [|assumption..]
  | H : bool_v _ = bool_v _ |- _ => apply bool_v_inj in H
  | H : format_2f _ = format_2f _ |- _ => apply format_2f_inj in H; [|assumption..]
  end.
  split; unfold used_numbers, used_floats; congruence.
Qed.

Lemma settings_result defaultQuality input o o' : same_settings o o' → po_SkipProcessing o = po_SkipProcessing o' →
  Transform defaultQuality input o = Transform defaultQuality input o'.
Proof.
  intros [Hn Hf Ht Hb] Hs. unfold used_numbers, used_floats in *. injection Hn as ?. injection Hf as ?. injection Ht as ?. injection Hb as ?.
  unfold Transform, process, resizeImage, cropImage, padImage, applyWatermark, resolveImagingAnchor. repeat match goal with H : _ = _ |- _ => rewrite H; clear H end. done.
Qed.

(** Options with the same text in the key, that skip the same formats, make the
    same of every image, when their floats are hundredths. *)
Theorem key_decides_result defaultQuality input o o' :
  key_clean o = true → key_clean o' = true → in_hundredths o → in_hundredths o' →
  options_payload o = options_payload o' → po_SkipProcessing o = po_SkipProcessing o' →
  Transform defaultQuality input o = Transform defaultQuality input o'.
Proof. intros Hc Hc' Hh Hh' E. apply settings_result, sections_settings; [done..|]. by apply payload_inj. Qed.
End keyed.

(** ** What has no effect *)

Section effects.
Context `{UT : UnicodeTables} `{CT : CaseTables} `{CO : CaseOrbits} `{IM : Imaging}.

(** Without what the engine does not look at. *)
Definition looked_at (o : ProcessingOptions) : ProcessingOptions :=
  let d := NewDefaultProcessingOptions in
  o <| po_MinWidth := 0 |> <| po_MinHeight := 0 |> <| po_Extend := false |> <| po_ExtendGravity := centered |>
    <| po_Gravity := MkGravityOption (g_Type (po_Gravity o)) f64_zero f64_zero |>
    <| po_CropGravity := MkGravityOption (g_Type (po_CropGravity o)) f64_zero f64_zero |>
    <| po_TrimThreshold := f64_zero |> <| po_TrimColor := "" |> <| po_TrimEqualHor := false |> <| po_TrimEqualVer := false |>
    <| po_AutoRotate := true |>
    <| po_UnsharpenMode := f64_zero |> <| po_UnsharpenWeight := f64_zero |> <| po_UnsharpenDividor := f64_zero |> <| po_UnsharpenThreshold := f64_zero |>
    <| po_WatermarkGravity := centered |> <| po_FormatQuality := [] |>
    <| po_AutoQualityMethod := "" |> <| po_AutoQualityTarget := f64_zero |> <| po_AutoQualityMin := 0 |> <| po_AutoQualityMax := 0 |>
    <| po_StripMetadata := true |> <| po_KeepCopyright := true |> <| po_StripColorProfile := true |>
    <| po_ZoomX := f64_one |> <| po_ZoomY := f64_one |> <| po_VideoThumbnailSecond := f64_zero |>.

(** Least sizes, extension, offsets of gravity, trimming, turning by EXIF,
    unsharpening, the place of the watermark by gravity, qualities by format or
    by themselves, metadata, zoom and seconds of a video are read and have no
    effect. *)
Theorem options_without_effect defaultQuality input o :
  Transform defaultQuality input o = Transform defaultQuality input (looked_at o).
Proof. reflexivity. Qed.

(** Some of them are in the key of the cache all the same, and some others that
    have an effect are not: two requests that differ by a blur below a hundredth,
    or by the formats to skip, have the same key. *)
Theorem key_leaves_out presets now :
  ∃ blurred skipping plain_,
    ParseProcessingOptions presets now "bl:0.004" = Ok blurred ∧ ParseProcessingOptions presets now "skp:png" = Ok skipping
    ∧ ParseProcessingOptions presets now "bl:0" = Ok plain_
    ∧ options_payload blurred = options_payload plain_ ∧ options_payload skipping = options_payload plain_
    ∧ f64_positive (po_Blur blurred) = true ∧ f64_positive (po_Blur plain_) = false
    ∧ po_SkipProcessing skipping = ["png"] ∧ po_SkipProcessing plain_ = [].
Proof.
  exists (NewDefaultProcessingOptions <| po_Blur := float_arg "0.004" |>), (NewDefaultProcessingOptions <| po_SkipProcessing := ["png"] |>),
    (NewDefaultProcessingOptions <| po_Blur := float_arg "0" |>).
  split_and!; vm_compute; reflexivity.
Qed.

(** ** Sizes *)

(** What is documented of the sizes of the results. *)
Class ImagingLaws : Prop := {
  law_resize : ∀ p w h filter, 0 < w → 0 < h → Dx (Resize p w h filter) = w ∧ Dy (Resize p w h filter) = h;
  (** One of the sizes is zero: the ratio is kept. *)
  law_resize_width : ∀ p w filter, 0 < w → Dx (Resize p w 0 filter) = w ∧ (w <= Dx p → Dy (Resize p w 0 filter) <= Dy p);
  law_resize_height : ∀ p h filter, 0 < h → Dy (Resize p 0 h filter) = h ∧ (h <= Dy p → Dx (Resize p 0 h filter) <= Dx p);
  law_fit : ∀ p w h filter, Dx (Fit p w h filter) <= Dx p ∧ Dy (Fit p w h filter) <= Dy p;
  law_fill : ∀ p w h anchor filter, 0 < w → 0 < h → Dx (Fill p w h anchor filter) = w ∧ Dy (Fill p w h anchor filter) = h }.

(** Unless enlarging is asked for, the image does not grow. *)
Theorem resize_does_not_enlarge `{!ImagingLaws} source o :
  let dpr := if f64_leb (po_DPR o) f64_zero then f64_one else po_DPR o in
  po_Enlarge o = false → 0 < Dx source → 0 < Dy source →
  0 <= scaled (po_Width o) dpr → 0 <= scaled (po_Height o) dpr → 0 < scaled (po_Width o) dpr + scaled (po_Height o) dpr →
  Dx (resizeImage source o) <= Dx source ∧ Dy (resizeImage source o) <= Dy source.
Proof.
  intros dpr He Hx Hy Hw Hh Hwh. unfold resizeImage. fold dpr. rewrite He. cbn [negb andb]. cbn zeta.
  set (clamp := λ target size : Z, if (size <? target) && (0 <? target) then size else target).
  change (if (Dx source <? scaled (po_Width o) dpr) && (0 <? scaled (po_Width o) dpr) then Dx source else scaled (po_Width o) dpr)
    with (clamp (scaled (po_Width o) dpr) (Dx source)).
  change (if (Dy source <? scaled (po_Height o) dpr) && (0 <? scaled (po_Height o) dpr) then Dy source else scaled (po_Height o) dpr)
    with (clamp (scaled (po_Height o) dpr) (Dy source)).
  assert (Hc : ∀ t s, 0 < s → 0 <= t → 0 <= clamp t s <= s ∧ (0 < t → 0 < clamp t s)).
  { intros t s Hs Ht. unfold clamp. destruct (Z.ltb_spec s t), (Z.ltb_spec 0 t); cbn [andb]; lia. }
  destruct (Hc _ _ Hx Hw) as [Hcw Hcw']. destruct (Hc _ _ Hy Hh) as [Hch Hch'].
  set (w := clamp _ (Dx source)) in *. set (h := clamp _ (Dy source)) in *. clearbody w h.
  assert (Hpos : 0 < w ∨ 0 < h) by lia. clear Hc Hcw' Hch' clamp. generalize (resolveResampleFilter (po_ResizingAlgorithm o)). intros filter.
  assert (Hr : Dx (Resize source w h filter) <= Dx source ∧ Dy (Resize source w h filter) <= Dy source).
  { destruct (Z.ltb_spec 0 w), (Z.ltb_spec 0 h); [| | |lia].
    - destruct (law_resize source w h filter) as [Hd1 Hd2]; lia.
    - replace h with 0 by lia. destruct (law_resize_width source w filter) as [Hd1 Hd2]; [lia|]. specialize (Hd2 ltac:(lia)). lia.
    - replace w with 0 by lia. destruct (law_resize_height source h filter) as [Hd1 Hd2]; [lia|]. specialize (Hd2 ltac:(lia)). lia. }
  destruct ((0 <? w) && (0 <? h)) eqn:Eb; bool_to_prop; repeat case_match; try apply law_fit; try done.
  destruct (law_fill source w h (resolveImagingAnchor (po_Gravity o)) filter) as [Hd1 Hd2]; lia.
Qed.
End effects.

(** A colour of three decimal numbers that has six characters is taken for
    hexadecimal digits. *)
Theorem colon_colour_misread :
  parseColorHex "1:23:45" f64_one = RGBA 1 23 45 255 ∧ parseColorHex "1:23:4" f64_one = RGBA 0 35 0 255.
Proof. split; vm_compute; reflexivity. Qed.
