(* ===== verification/FileStore.v ===== *)
(** * filestorage: the tables and the database engine

    model.go, migrations.go and engine_database.go.  An object is a row of
    file_storage.objects and rows of file_storage.chunks, which hold its bytes in
    pieces of a fixed size.  An upload writes them in one transaction, a
    download reads the pieces that a range touches and cuts the first and the
    last one.

    Shown: the tables behave as a map from bucket and key to bytes: an upload
    that succeeds adds its bytes and changes nothing else, one that is refused
    changes nothing, a deletion removes one object, and a download gives exactly
    the bytes of the range.  An upload whose last statement or commit fails is
    reported as a success all the same.

    Bytes are lists of [ascii]; faults of the database are arguments. *)

From stdpp Require Import list strings gmap.
From Stdlib Require Import ZArith Lia Ascii String.
From S2P Require Import Prelude GoStrings GoValues Scopes ServiceAccounts.
Local Open Scope string_scope.
Local Open Scope Z_scope.
Local Open Scope go_scope.

(** ** Rows *)

Abbreviation blob := (list ascii).

Section rows.
Context `{FL : Floats}.

Record Bucket := MkBucket {
  bk_ID : N; bk_Name : string; bk_IsPublic : bool; bk_Backend : string; bk_BackendConfig : list (string * any);
  bk_AllowedMIMETypes : list string; bk_MaxFileSizeBytes : Z; bk_CreatedAt : Z; bk_LastUpdatedAt : Z }.

(** The metadata is always the empty object. *)
Record Object := MkObject {
  ob_ID : N; ob_BucketID : N; ob_ObjectKey : string; ob_ContentType : string; ob_SizeBytes : Z; ob_ChecksumSHA256 : string;
  ob_CreatedAt : Z; ob_LastUpdatedAt : Z }.
#[export] Instance Object_eta : Eta Object := λ o,
  MkObject (ob_ID o) (ob_BucketID o) (ob_ObjectKey o) (ob_ContentType o) (ob_SizeBytes o) (ob_ChecksumSHA256 o) (ob_CreatedAt o) (ob_LastUpdatedAt o).

(** The tables the engine reads and writes. *)
Record FileTables := MkFileTables { t_buckets : gmap N Bucket; t_objects : gmap N Object; t_chunks : gmap (N * Z) blob }.
End rows.
#[export] Instance FileTables_eta `{FL : Floats} : Eta FileTables := λ t,
  MkFileTables (t_buckets t) (t_objects t) (t_chunks t).

Record ContentRange := MkContentRange { cr_Start : Z; cr_End : Z; cr_Total : Z; cr_IsPartial : bool }.

Inductive StorageError :=
| ErrObjectNotFound | ErrBucketNotFound | ErrInvalidRange | ErrPayloadTooLarge | ErrEngineNotInitialized | StorageFailed (what : string).

Definition DefaultDatabaseChunkSize : Z := 524288.

(** The statements that may fail. *)
Inductive StorageStmt :=
| StBegin | StUpsertObject | StDeleteChunks | StInsertChunk (index : Z) | StFinalize | StCommit | StSelectObject | StDeleteObject | StSelectChunks.

(** A reader: its bytes, and whether it ends with [io.EOF]. *)
Record Reader := MkReader { rd_bytes : blob; rd_eof : bool }.

Section engine.
Context `{FL : Floats} `{HL : HostLib} (faults : StorageStmt → bool) (chunkSizeBytes : Z).

Definition object_matches (bucketID : N) (key : string) (o : Object) : bool := N.eqb (ob_BucketID o) bucketID && String.eqb (ob_ObjectKey o) key.

Definition find_object (bucketID : N) (key : string) (t : FileTables) : option Object :=
  snd <$> List.find (λ r, object_matches bucketID key r.2) (map_to_list (t_objects t)).

Definition checksum_of (data : blob) : string := hex_EncodeToString (sha256_Sum256 (string_of_list_ascii data)).

(** INSERT ... ON CONFLICT (bucket_id, object_key) DO UPDATE ... RETURNING id *)
Definition upsert_object (objectID : N) (bucketID : N) (key contentType : string) (now : Z) (t : FileTables) : option (N * FileTables) :=
  if negb (bool_decide (is_Some (t_buckets t !! bucketID))) then None else
  match find_object bucketID key t with
  | Some o =>
      Some (ob_ID o, t <| t_objects := <[ob_ID o := o <| ob_ContentType := contentType |> <| ob_SizeBytes := 0 |> <| ob_ChecksumSHA256 := "" |>
                                                     <| ob_LastUpdatedAt := now |>]> (t_objects t) |>)
  | None => Some (objectID, t <| t_objects := <[objectID := MkObject objectID bucketID key contentType 0 "" now now]> (t_objects t) |>)
  end.

Definition delete_chunks (id : N) (t : FileTables) : FileTables := t <| t_chunks := filter (λ c, c.1.1 ≠ id) (t_chunks t) |>.

(** The loop of [io.ReadFull]: pieces of [chunkSizeBytes], the last one shorter.
    [fuel] is more than the number of bytes left. *)
Fixpoint insert_chunks (fuel : nat) (maxFileSize : Z) (id : N) (index total : Z) (rest : blob) (eof : bool) (t : FileTables)
    : result StorageError (Z * FileTables) :=
  match fuel with
  | O => Err (StorageFailed "fuel")
  | S fuel =>
      let piece := take (Z.to_nat chunkSizeBytes) rest in
      let rest := drop (Z.to_nat chunkSizeBytes) rest in
      let bytesRead := Z.of_nat (List.length piece) in
      let! (index, total, t) :=
        if 0 <? bytesRead then
          let total := total + bytesRead in
          if (0 <? maxFileSize) && (maxFileSize <? total) then Err ErrPayloadTooLarge
          else if faults (StInsertChunk index) then Err (StorageFailed "insert chunk")
          else Ok (index + 1, total, t <| t_chunks := <[(id, index) := piece]> (t_chunks t) |>)
        else Ok (index, total, t) in
      if bytesRead <? chunkSizeBytes then if eof then Ok (total, t) else Err (StorageFailed "read")
      else insert_chunks fuel maxFileSize id index total rest eof t
  end.

(** The row the last statement returns; it fills nothing when it fails. *)
Definition unscanned : Object := MkObject 0 0 "" "" 0 "" 0 0.

(** What the transaction comes to: the object and the tables it would leave.  A
    statement that fails makes every later one fail, and rolls all back; the
    deletion of old chunks, the last update and the commit are not looked at. *)
Definition upload_transaction (now : Z) (objectID : N) (bucket : Bucket) (key : string) (reader : Reader) (contentType : string) (t : FileTables)
    : result StorageError (Object * FileTables) :=
  match (if faults StUpsertObject then None else upsert_object objectID (bk_ID bucket) key contentType now t) with
  | None => Err (StorageFailed "register object")
  | Some (id, t1) =>
      let aborted := faults StDeleteChunks in
      let t2 := if aborted then t1 else delete_chunks id t1 in
      if aborted && negb (bool_decide (rd_bytes reader = [])) then
        (if (0 <? bk_MaxFileSizeBytes bucket) && (bk_MaxFileSizeBytes bucket <? Z.min chunkSizeBytes (Z.of_nat (List.length (rd_bytes reader))))
         then Err ErrPayloadTooLarge else Err (StorageFailed "insert chunk"))
      else
      let! (totalBytes, t3) := insert_chunks (S (List.length (rd_bytes reader))) (bk_MaxFileSizeBytes bucket) id 0 0 (rd_bytes reader) (rd_eof reader) t2 in
      if aborted || faults StFinalize then Ok (unscanned, t) else
      match t_objects t3 !! id with
      | None => Ok (unscanned, t3)
      | Some o =>
          let o := o <| ob_SizeBytes := totalBytes |> <| ob_ChecksumSHA256 := checksum_of (rd_bytes reader) |> <| ob_LastUpdatedAt := now |> in
          Ok (o, if faults StCommit then t else t3 <| t_objects := <[id := o]> (t_objects t3) |>)
      end
  end.

Definition stored_type (contentType : string) : string := if String.eqb contentType "" then "application/octet-stream" else contentType.

Definition Upload (now : Z) (objectID : N) (bucket : Bucket) (key : string) (reader : Reader) (contentType : string) (t : FileTables)
    : result StorageError Object * FileTables :=
  let contentType := stored_type contentType in
  if faults StBegin then (Err (StorageFailed "begin"), t) else
  match upload_transaction now objectID bucket key reader contentType t with
  | Err e => (Err e, t)
  | Ok (o, t') => (Ok o, t')
  end.

Definition Head (bucket : Bucket) (key : string) (t : FileTables) : result StorageError Object :=
  if faults StSelectObject then Err (StorageFailed "query object") else
  match find_object (bk_ID bucket) key t with
  | Some o => Ok o
  | None => Err ErrObjectNotFound
  end.

(** The chunks go with the object. *)
Definition Delete (bucket : Bucket) (key : string) (t : FileTables) : result StorageError unit * FileTables :=
  if faults StDeleteObject then (Err (StorageFailed "delete object"), t) else
  match find_object (bk_ID bucket) key t with
  | None => (Err ErrObjectNotFound, t)
  | Some o => (Ok (), delete_chunks (ob_ID o) (t <| t_objects := delete (ob_ID o) (t_objects t) |>))
  end.

(** What of a chunk belongs to the bytes from [startByte] to [endByte]. *)
Definition chunk_slice (startByte endByte index : Z) (data : blob) : blob :=
  let startChunkIndex := startByte / chunkSizeBytes in
  let endChunkIndex := endByte / chunkSizeBytes in
  let offsetInChunk := startByte mod chunkSizeBytes in
  let slice :=
    if (index =? startChunkIndex) && (offsetInChunk <? Z.of_nat (List.length data)) then drop (Z.to_nat offsetInChunk) data else data in
  if index =? endChunkIndex then
    let relativeEnd := endByte mod chunkSizeBytes + 1 - (if index =? startChunkIndex then offsetInChunk else 0) in
    if (0 <=? relativeEnd) && (relativeEnd <? Z.of_nat (List.length slice)) then take (Z.to_nat relativeEnd) slice else slice
  else slice.

(** The chunks that are there between two indices, in order. *)
Definition select_chunks (id : N) (from to : Z) (t : FileTables) : list (Z * blob) :=
  omap (λ i, (λ data, (from + Z.of_nat i, data)) <$> t_chunks t !! (id, from + Z.of_nat i)) (seq 0 (Z.to_nat (to - from + 1))).

(** The bytes of the stream, and the length that is announced. *)
Definition Download (bucket : Bucket) (key : string) (contentRange : option ContentRange) (t : FileTables) : result StorageError (blob * Z) :=
  let! object := Head bucket key t in
  let! (startByte, endByte) :=
    match contentRange with
    | Some r =>
        if cr_IsPartial r then
          if (cr_Start r <? 0) || (ob_SizeBytes object <=? cr_End r) || (cr_End r <? cr_Start r) then Err ErrInvalidRange
          else Ok (cr_Start r, cr_End r)
        else Ok (0, ob_SizeBytes object - 1)
    | None => Ok (0, ob_SizeBytes object - 1)
    end in
  let contentLength := endByte - startByte + 1 in
  if contentLength <=? 0 then Ok ([], 0) else
  if faults StSelectChunks then Ok ([], contentLength) else
  Ok (concat ((λ c, chunk_slice startByte endByte c.1 c.2) <$> select_chunks (ob_ID object) (startByte / chunkSizeBytes) (endByte / chunkSizeBytes) t),
      contentLength).
End engine.

(** ** Segments of bytes *)

(** The bytes from [x] up to [y], which is left out. *)
Definition seg (body : blob) (x y : Z) : blob := take (Z.to_nat (y - x)) (drop (Z.to_nat x) body).

Lemma seg_app body x y z : 0 <= x → x <= y → y <= z → (seg body x y ++ seg body y z)%list = seg body x z.
Proof.
  intros Hx Hxy Hyz. unfold seg. rewrite <- (take_drop (Z.to_nat (y - x)) (drop (Z.to_nat x) body)) at 2. rewrite drop_drop.
  replace (Z.to_nat x + Z.to_nat (y - x))%nat with (Z.to_nat y) by lia.
  destruct (decide (Z.to_nat (y - x) <= List.length (drop (Z.to_nat x) body))%nat) as [Hle|Hgt].
  - rewrite take_app, length_take, Nat.min_l by done. rewrite take_take, Nat.min_r by lia. f_equal. f_equal. lia.
  - rewrite (take_ge (drop _ body)) by lia. rewrite length_drop in Hgt. rewrite (drop_ge body (Z.to_nat y)) by lia.
    by rewrite !take_nil, !app_nil_r, take_ge by (rewrite length_drop; lia).
Qed.

Lemma seg_all body : seg body 0 (Z.of_nat (List.length body)) = body.
Proof. unfold seg. rewrite drop_0. apply take_ge. lia. Qed.

Lemma seg_length body x y : 0 <= x → y <= Z.of_nat (List.length body) → Z.of_nat (List.length (seg body x y)) = Z.max 0 (y - x).
Proof. intros. unfold seg. rewrite length_take, length_drop. lia. Qed.

Lemma seg_drop body x y n : 0 <= x → 0 <= n → drop (Z.to_nat n) (seg body x y) = seg body (x + n) y.
Proof.
  intros Hx Hn. unfold seg. rewrite skipn_firstn_comm, drop_drop. f_equal; [lia|]. f_equal. lia.
Qed.

Lemma seg_take body x y n : 0 <= n → n <= y - x → take (Z.to_nat n) (seg body x y) = seg body x (x + n).
Proof. intros Hn Hy. unfold seg. rewrite take_take. f_equal. lia. Qed.

Section chunks.
Context (S : Z) (HS : 0 < S).

(** The [i]-th piece of [body]. *)
Definition chunk_at (body : blob) (i : Z) : option blob :=
  if (0 <=? i) && (i * S <? Z.of_nat (List.length body)) then Some (seg body (i * S) ((i + 1) * S)) else None.

Lemma chunk_slice_seg body a b i : 0 <= a → a <= b → b < Z.of_nat (List.length body) → a / S <= i → i <= b / S →
  chunk_slice S a b i (seg body (i * S) ((i + 1) * S)) = seg body (Z.max a (i * S)) (Z.min (b + 1) ((i + 1) * S)).
Proof.
  intros Ha Hab Hb Hi1 Hi2. pose proof (Z.div_mod a S ltac:(lia)) as Ea. pose proof (Z.div_mod b S ltac:(lia)) as Eb.
  pose proof (Z.mod_pos_bound a S HS) as Hra. pose proof (Z.mod_pos_bound b S HS) as Hrb.
  assert (Hqa : 0 <= a / S) by (apply Z.div_pos; lia).
  set (qa := a / S) in *. set (qb := b / S) in *. set (ra := a mod S) in *. set (rb := b mod S) in *.
  assert (Hlen : ∀ x y, 0 <= x → x <= y → x <= Z.of_nat (List.length body) →
            Z.of_nat (List.length (seg body x y)) = Z.min (y - x) (Z.of_nat (List.length body) - x)).
  { intros x y ???. unfold seg. rewrite length_take, length_drop. lia. }
  assert (HiS : i * S <= b) by nia. unfold chunk_slice. cbn zeta. fold qa qb ra rb. clearbody qa qb ra rb.
  assert (Hslice : (if (i =? qa) && (ra <? Z.of_nat (List.length (seg body (i * S) ((i + 1) * S))))
                    then drop (Z.to_nat ra) (seg body (i * S) ((i + 1) * S)) else seg body (i * S) ((i + 1) * S))
                   = seg body (Z.max a (i * S)) ((i + 1) * S)).
  { destruct (Z.eqb_spec i qa) as [->|Hne]; cbn [andb].
    - rewrite Hlen by nia. destruct (Z.ltb_spec ra (Z.min ((qa + 1) * S - qa * S) (Z.of_nat (List.length body) - qa * S))); [|nia].
      rewrite seg_drop by nia. f_equal; nia.
    - f_equal; nia. }
  rewrite Hslice. destruct (Z.eqb_spec i qb) as [->|Hne].
  - set (rel := rb + 1 - (if qb =? qa then ra else 0)).
    assert (Hrel : rel = b + 1 - Z.max a (qb * S)) by (unfold rel; destruct (Z.eqb_spec qb qa) as [E|E]; [subst qb|]; nia).
    rewrite Hlen by nia. destruct (Z.leb_spec 0 rel); [|nia].
    destruct (Z.ltb_spec rel (Z.min ((qb + 1) * S - Z.max a (qb * S)) (Z.of_nat (List.length body) - Z.max a (qb * S)))); cbn [andb].
    + rewrite seg_take by nia. f_equal; nia.
    + replace (Z.min (b + 1) ((qb + 1) * S)) with (b + 1) by nia.
      destruct (Z.eq_dec ((qb + 1) * S) (b + 1)) as [->|Hne]; [done|]. assert (b + 1 = Z.of_nat (List.length body)) by nia.
      unfold seg. rewrite !take_ge; [done| |]; rewrite length_drop; nia.
  - f_equal; nia.
Qed.

Lemma concat_slices body a b n : 0 <= a → a <= b → b < Z.of_nat (List.length body) → a / S + Z.of_nat n <= b / S + 1 → (0 < n)%nat →
  concat ((λ i, seg body (Z.max a ((a / S + Z.of_nat i) * S)) (Z.min (b + 1) ((a / S + Z.of_nat i + 1) * S))) <$> seq 0 n)
  = seg body a (Z.min (b + 1) ((a / S + Z.of_nat n) * S)).
Proof.
  intros Ha Hab Hb. pose proof (Z.div_mod a S ltac:(lia)) as Ea. pose proof (Z.div_mod b S ltac:(lia)) as Eb.
  pose proof (Z.mod_pos_bound a S HS) as Hra. pose proof (Z.mod_pos_bound b S HS) as Hrb.
  assert (Hqa : 0 <= a / S) by (apply Z.div_pos; lia).
  set (qa := a / S) in *. set (qb := b / S) in *. set (ra := a mod S) in *. set (rb := b mod S) in *.
  induction n as [|n IH]; intros Hn Hpos; [lia|]. rewrite seq_S, fmap_app, concat_app. cbn [fmap list_fmap concat Nat.add]. rewrite app_nil_r.
  destruct n as [|n].
  - cbn. f_equal; nia.
  - rewrite IH by lia. set (m := Z.of_nat (Datatypes.S n)) in *. replace (Z.of_nat (Datatypes.S (Datatypes.S n))) with (m + 1) in * by lia.
    replace (Z.min (b + 1) ((qa + m) * S)) with (Z.max a ((qa + m) * S)) by nia. rewrite seg_app by nia. f_equal. nia.
Qed.
End chunks.

(** ** The tables as a map of files *)

Section store.
Context `{FL : Floats} `{HL : HostLib} (faults : StorageStmt → bool) (S : Z) (HS : 0 < S).

(** Rows by their ids, no two for one key of a bucket, and chunks of objects
    only. *)
Record tables_ok (t : FileTables) : Prop := {
  ok_ids : ∀ id o, t_objects t !! id = Some o → ob_ID o = id;
  ok_keys : ∀ id id' o o', t_objects t !! id = Some o → t_objects t !! id' = Some o' →
    ob_BucketID o = ob_BucketID o' → ob_ObjectKey o = ob_ObjectKey o' → id = id';
  ok_owned : ∀ id i data, t_chunks t !! (id, i) = Some data → is_Some (t_objects t !! id) }.

(** [o] is the object of a key, and [body] its bytes. *)
Definition holds (t : FileTables) (bucketID : N) (key : string) (o : Object) (body : blob) : Prop :=
  find_object bucketID key t = Some o ∧ ob_SizeBytes o = Z.of_nat (List.length body)
  ∧ ∀ i, t_chunks t !! (ob_ID o, i) = chunk_at S body i.

Lemma find_object_Some t b k o : tables_ok t →
  find_object b k t = Some o ↔ t_objects t !! ob_ID o = Some o ∧ ob_BucketID o = b ∧ ob_ObjectKey o = k.
Proof.
  intros Hok. unfold find_object. split.
  - destruct (List.find _ _) as [[id o']|] eqn:E; [|done]. intros [= <-]. apply find_some in E as [Hin Hm].
    apply list_elem_of_In, elem_of_map_to_list in Hin. unfold object_matches in Hm. cbn in Hm. apply andb_true_iff in Hm as [Hb Hk].
    apply N.eqb_eq in Hb. apply String.eqb_eq in Hk. rewrite (ok_ids t Hok id o' Hin). done.
  - intros (Ho & Hb & Hk). destruct (List.find _ _) as [[id o']|] eqn:E.
    + apply find_some in E as [Hin Hm]. apply list_elem_of_In, elem_of_map_to_list in Hin. unfold object_matches in Hm. cbn in Hm.
      apply andb_true_iff in Hm as [Hb' Hk']. apply N.eqb_eq in Hb'. apply String.eqb_eq in Hk'.
      assert (id = ob_ID o) as -> by (apply (ok_keys t Hok _ _ o' o); congruence). cbn. congruence.
    + apply elem_of_map_to_list, list_elem_of_In in Ho. apply (find_none _ _ E) in Ho. unfold object_matches in Ho. cbn in Ho.
      by rewrite Hb, Hk, N.eqb_refl, String.eqb_refl in Ho.
Qed.

Lemma find_object_None t b k : tables_ok t →
  find_object b k t = None ↔ ∀ id o, t_objects t !! id = Some o → ob_BucketID o = b → ob_ObjectKey o = k → False.
Proof.
  intros Hok. split.
  - intros Hn id o Ho Hb Hk. assert (Hf : find_object b k t = Some o); [|congruence]. apply find_object_Some; [done|].
    by rewrite (ok_ids t Hok id o Ho).
  - intros H. destruct (find_object b k t) as [o|] eqn:E; [|done]. apply find_object_Some in E as (Ho & Hb & Hk); [|done]. by destruct (H _ _ Ho Hb Hk).
Qed.

(** What the loop writes. *)
Lemma insert_chunks_spec fuel maxFileSize id index total rest eof t total' t' :
  insert_chunks faults S fuel maxFileSize id index total rest eof t = Ok (total', t') →
  eof = true ∧ total' = total + Z.of_nat (List.length rest) ∧ (0 < maxFileSize → rest ≠ [] → total' <= maxFileSize)
  ∧ t_buckets t' = t_buckets t ∧ t_objects t' = t_objects t
  ∧ ∀ id' i, t_chunks t' !! (id', i) =
      if decide (id' = id ∧ index <= i ∧ (i - index) * S < Z.of_nat (List.length rest))
      then Some (seg rest ((i - index) * S) ((i - index + 1) * S)) else t_chunks t !! (id', i).
Proof.
  revert index total rest t. induction fuel as [|fuel IH]; intros index total rest t; [done|]. cbn [insert_chunks]. cbn zeta.
  set (piece := take (Z.to_nat S) rest).
  assert (Hp : Z.of_nat (List.length piece) = Z.min S (Z.of_nat (List.length rest))) by (unfold piece; rewrite length_take; lia).
  destruct (Z.ltb_spec 0 (Z.of_nat (List.length piece))) as [Hpos|Hzero].
  - destruct ((0 <? maxFileSize) && (maxFileSize <? total + Z.of_nat (List.length piece))) eqn:Emax; [done|].
    destruct (faults (StInsertChunk index)); [done|]. cbn [result_bind].
    assert (Hpiece : piece = seg rest 0 S) by (unfold piece, seg; rewrite Z.sub_0_r; by rewrite drop_0).
    destruct (Z.ltb_spec (Z.of_nat (List.length piece)) S) as [Hlast|Hmore].
    + destruct eof; [|done]. intros [= <- <-].
      split_and!; [done|lia|intros ? _; bool_to_prop; destruct Emax; lia|done..|].
      intros id' i. cbn. destruct (decide _) as [(-> & Hi & Hlt)|Hn].
      * assert (i = index) as -> by nia. rewrite lookup_insert_eq, Z.sub_diag. cbn. by rewrite Hpiece, Z.add_0_l, Z.mul_1_l.
      * rewrite lookup_insert_ne; [done|]. intros [= -> <-]. apply Hn. split_and!; [done|lia|]. rewrite Z.sub_diag. cbn. lia.
    + intros H. apply IH in H as (-> & -> & Hmax & E1 & E2 & Hc). rewrite length_drop in *.
      split_and!; [done|lia| |done..|].
      { intros Hm _. destruct (decide (drop (Z.to_nat S) rest = [])) as [E|E]; [|by apply Hmax].
        apply (f_equal (@List.length ascii)) in E. rewrite length_drop in E. cbn in E. bool_to_prop. destruct Emax; lia. }
      intros id' i. rewrite Hc. clear Hc. cbn [t_chunks update]. destruct (decide (id' = id ∧ index <= i ∧ (i - index) * S < Z.of_nat (List.length rest))) as [(-> & Hi & Hlt)|Hn].
      * destruct (decide (i = index)) as [->|Hne].
        -- rewrite decide_False by lia. cbn. rewrite lookup_insert_eq, Z.sub_diag. cbn. by rewrite Hpiece, Z.add_0_l, Z.mul_1_l.
        -- rewrite decide_True by (split_and!; [done|lia|nia]). f_equal. unfold seg. rewrite drop_drop. f_equal; [|f_equal]; nia.
      * rewrite decide_False by (intros (-> & Hi & Hlt); apply Hn; split_and!; [done|lia|nia]). cbn. rewrite lookup_insert_ne; [done|].
        intros [= -> <-]. apply Hn. split_and!; [done|lia|]. rewrite Z.sub_diag. cbn. lia.
  - cbn [result_bind]. destruct (Z.ltb_spec (Z.of_nat (List.length piece)) S); [|lia]. destruct eof; [|done]. intros [= <- <-].
    assert (rest = []) as -> by (apply length_zero_iff_nil; lia). split_and!; [done|cbn; lia|done..|].
    intros id' i. rewrite decide_False; [done|]. intros (_ & Hi & Hlt). cbn in Hlt. nia.
Qed.

Lemma delete_chunks_lookup id t id' i :
  t_chunks (delete_chunks id t) !! (id', i) = if decide (id' = id) then None else t_chunks t !! (id', i).
Proof.
  cbn. destruct (decide (id' = id)) as [->|Hne].
  - apply map_lookup_filter_None. right. intros x _ H. by destruct H.
  - destruct (t_chunks t !! (id', i)) as [x|] eqn:E; [by apply map_lookup_filter_Some|]. apply map_lookup_filter_None. by left.
Qed.

(** The row an upload goes to: the one of the key, or a new one. *)
Lemma upsert_object_spec objectID b k contentType now t id t1 : tables_ok t → t_objects t !! objectID = None →
  upsert_object objectID b k contentType now t = Some (id, t1) →
  tables_ok t1 ∧ t_buckets t1 = t_buckets t ∧ t_chunks t1 = t_chunks t
  ∧ (∃ o, t_objects t1 = <[id := o]> (t_objects t) ∧ ob_ID o = id ∧ ob_BucketID o = b ∧ ob_ObjectKey o = k ∧ ob_ContentType o = contentType)
  ∧ (id = objectID ∨ is_Some (t_objects t !! id))
  ∧ (∀ o, t_objects t !! id = Some o → ob_BucketID o = b ∧ ob_ObjectKey o = k)
  ∧ (∀ id' o, t_objects t !! id' = Some o → ob_BucketID o = b → ob_ObjectKey o = k → id' = id).
Proof.
  intros Hok Hfresh. unfold upsert_object. destruct (negb _); [done|]. destruct (find_object b k t) as [o|] eqn:Ef; intros [= <- <-].
  - apply find_object_Some in Ef as (Ho & Hb & Hk); [|done]. split_and!.
    + split; cbn.
      * intros id' o'. destruct (decide (id' = ob_ID o)) as [->|Hne]; [rewrite lookup_insert_eq; by intros [= <-]|].
        rewrite lookup_insert_ne by done. apply (ok_ids t Hok).
      * intros i1 i2 o1 o2. destruct (decide (i1 = ob_ID o)) as [->|H1], (decide (i2 = ob_ID o)) as [->|H2]; rewrite ?lookup_insert_eq, ?lookup_insert_ne by done.
        -- done.
        -- intros [= <-] Ho2 E1 E2. by apply (ok_keys t Hok _ _ o o2).
        -- intros Ho1 [= <-] E1 E2. by apply (ok_keys t Hok _ _ o1 o).
        -- apply (ok_keys t Hok).
      * intros id' i data Hc. destruct (decide (id' = ob_ID o)) as [->|Hne]; [rewrite lookup_insert_eq; by eexists|].
        rewrite lookup_insert_ne by done. by apply (ok_owned t Hok) in Hc.
    + done.
    + done.
    + eexists. by split_and!.
    + right. by eexists.
    + intros o' Ho'. replace o' with o by congruence. done.
    + intros id' o' Ho' Hb' Hk'. apply (ok_keys t Hok _ _ o' o); congruence.
  - pose proof (proj1 (find_object_None t b k Hok) Ef) as Hno. split_and!.
    + split; cbn.
      * intros id' o'. destruct (decide (id' = objectID)) as [->|Hne]; [rewrite lookup_insert_eq; by intros [= <-]|].
        rewrite lookup_insert_ne by done. apply (ok_ids t Hok).
      * intros i1 i2 o1 o2. destruct (decide (i1 = objectID)) as [->|H1], (decide (i2 = objectID)) as [->|H2]; rewrite ?lookup_insert_eq, ?lookup_insert_ne by done.
        -- done.
        -- intros [= <-] Ho2 E1 E2. cbn in *. by destruct (Hno _ _ Ho2).
        -- intros Ho1 [= <-] E1 E2. cbn in *. by destruct (Hno _ _ Ho1).
        -- apply (ok_keys t Hok).
      * intros id' i data Hc. destruct (decide (id' = objectID)) as [->|Hne]; [rewrite lookup_insert_eq; by eexists|].
        rewrite lookup_insert_ne by done. by apply (ok_owned t Hok) in Hc.
    + done.
    + done.
    + eexists. by split_and!.
    + by left.
    + intros o Ho. congruence.
    + intros id' o Ho Hb Hk. by destruct (Hno _ _ Ho).
Qed.

(** An upload that is refused changes nothing. *)
Theorem upload_refused now objectID bucket key reader contentType t e t' :
  Upload faults S now objectID bucket key reader contentType t = (Err e, t') → t' = t.
Proof.
  unfold Upload. cbn zeta. destruct (faults StBegin); [by intros [= _ <-]|].
  destruct (upload_transaction _ _ _ _ _ _ _ _ _) as [[o t1]|e1]; by intros [= _ <-].
Qed.

(** An upload that succeeds, without a fault in the statements that are not
    looked at, stores exactly the bytes that were sent, within the limit of the
    bucket, under the key, and leaves every other file as it was. *)
Theorem upload_stores now objectID bucket key reader contentType t o t' :
  faults StDeleteChunks = false → faults StFinalize = false → faults StCommit = false →
  tables_ok t → t_objects t !! objectID = None →
  Upload faults S now objectID bucket key reader contentType t = (Ok o, t') →
  tables_ok t' ∧ holds t' (bk_ID bucket) key o (rd_bytes reader) ∧ ob_ChecksumSHA256 o = checksum_of (rd_bytes reader)
  ∧ ob_ContentType o = stored_type contentType ∧ t_buckets t' = t_buckets t
  ∧ (∀ id, is_Some (t_objects t' !! id) → id = objectID ∨ is_Some (t_objects t !! id))
  ∧ (0 < bk_MaxFileSizeBytes bucket → rd_bytes reader ≠ [] → Z.of_nat (List.length (rd_bytes reader)) <= bk_MaxFileSizeBytes bucket)
  ∧ (∀ b' k', (b', k') ≠ (bk_ID bucket, key) → find_object b' k' t' = find_object b' k' t)
  ∧ ∀ b' k' o' body', (b', k') ≠ (bk_ID bucket, key) → holds t' b' k' o' body' ↔ holds t b' k' o' body'.
Proof.
  intros Hf1 Hf2 Hf3 Hok Hfresh. unfold Upload, upload_transaction. cbn zeta. destruct (faults StBegin); [done|].
  destruct (faults StUpsertObject); [done|].
  destruct (upsert_object _ _ _ _ _ _) as [[id t1]|] eqn:Eu; [|done]. rewrite Hf1, Hf2, Hf3. cbn [andb orb].
  apply upsert_object_spec in Eu as (Hok1 & Eb1 & Ec1 & (o1 & Eo1 & Hid & Hb1 & Hk1 & Hct) & Hids & Hsame & Hother); [|done..].
  destruct (insert_chunks _ _ _ _ _ _ _ _ _ _) as [[total t3]|e] eqn:Ei; [|done]. cbn [result_bind].
  apply insert_chunks_spec in Ei as (_ & Htot & Hmax & Eb3 & Eo3 & Hc3).
  assert (Ho3 : t_objects t3 !! id = Some o1) by (rewrite Eo3; cbn; by rewrite Eo1, lookup_insert_eq). rewrite Ho3.
  set (o2 := o1 <| ob_SizeBytes := total |> <| ob_ChecksumSHA256 := checksum_of (rd_bytes reader) |> <| ob_LastUpdatedAt := now |>).
  intros [= <- <-].
  assert (Eobj : <[id := o2]> (t_objects t3) = <[id := o2]> (t_objects t)) by (rewrite Eo3; cbn; by rewrite Eo1, insert_insert_eq).
  assert (Hok' : tables_ok (t3 <| t_objects := <[id := o2]> (t_objects t3) |>)).
  { split; cbn; rewrite Eobj.
    - intros id' o'. destruct (decide (id' = id)) as [->|Hne]; [rewrite lookup_insert_eq; by intros [= <-]|].
      rewrite lookup_insert_ne by done. apply (ok_ids t Hok).
    - intros i1 i2 p1 p2. destruct (decide (i1 = id)) as [->|H1], (decide (i2 = id)) as [->|H2]; rewrite ?lookup_insert_eq, ?lookup_insert_ne by done.
      + done.
      + intros [= <-] Hp E1 E2. symmetry. apply (Hother _ _ Hp); cbn in *; congruence.
      + intros Hp [= <-] E1 E2. apply (Hother _ _ Hp); cbn in *; congruence.
      + apply (ok_keys t Hok).
    - intros id' i data. rewrite Hc3. destruct (decide (id' = id)) as [->|Hne]; [rewrite lookup_insert_eq; by eexists|].
      rewrite decide_False by (by intros []). rewrite delete_chunks_lookup, decide_False by done. rewrite Ec1, lookup_insert_ne by done.
      apply (ok_owned t Hok). }
  assert (Hfind : ∀ b' k', (b', k') ≠ (bk_ID bucket, key) →
            find_object b' k' (t3 <| t_objects := <[id := o2]> (t_objects t3) |>) = find_object b' k' t).
  { intros b' k' Hne. apply option_eq. intros o'. rewrite !find_object_Some by done. cbn. rewrite Eobj. destruct (decide (ob_ID o' = id)) as [Eid|Hneid].
    - rewrite Eid, lookup_insert_eq. split; intros (Hl & Hb & Hk).
      + injection Hl as <-. destruct Hne. cbn in Hb, Hk. congruence.
      + apply Hsame in Hl as [Hb2 Hk2]. destruct Hne. congruence.
    - by rewrite lookup_insert_ne by done. }
  split_and!; [done| | |done|rewrite <- Eb1; exact Eb3| |intros Hm Hne; rewrite Z.add_0_l in Htot; rewrite <- Htot; by apply Hmax|exact Hfind|].
  - split_and!.
    + apply find_object_Some; [done|]. cbn. by rewrite Hid, Eobj, lookup_insert_eq.
    + cbn. lia.
    + intros i. cbn. rewrite Hid, Hc3. unfold chunk_at.
      destruct (decide (id = id ∧ 0 <= i ∧ (i - 0) * S < Z.of_nat (List.length (rd_bytes reader)))) as [(_ & Hi & Hlt)|Hn].
      * destruct (Z.leb_spec 0 i), (Z.ltb_spec (i * S) (Z.of_nat (List.length (rd_bytes reader)))); try lia. cbn [andb]. by rewrite Z.sub_0_r.
      * rewrite delete_chunks_lookup, decide_True by done.
        destruct (Z.leb_spec 0 i), (Z.ltb_spec (i * S) (Z.of_nat (List.length (rd_bytes reader)))); try done. destruct Hn. split_and!; [done|lia|lia].
  - done.
  - cbn. rewrite Eobj. intros id' [o' Ho']. destruct (decide (id' = id)) as [->|Hne]; [done|]. rewrite lookup_insert_ne in Ho' by done. right. by eexists.
  - intros b' k' o' body' Hne.
    unfold holds. rewrite Hfind by done. split; intros (Hl & Hs & Hch); (split_and!; [done|done|]); intros i; rewrite <- Hch; cbn.
    + apply find_object_Some in Hl as (Hl & Hb & Hk); [|done].
      assert (ob_ID o' ≠ id) by (intros Eid; rewrite Eid in Hl; apply Hsame in Hl as [??]; destruct Hne; congruence).
      rewrite Hc3, decide_False by (by intros []). by rewrite delete_chunks_lookup, decide_False, Ec1 by done.
    + apply find_object_Some in Hl as (Hl & Hb & Hk); [|done].
      assert (ob_ID o' ≠ id) by (intros Eid; rewrite Eid in Hl; apply Hsame in Hl as [??]; destruct Hne; congruence).
      rewrite Hc3, decide_False by (by intros []). by rewrite delete_chunks_lookup, decide_False, Ec1 by done.
Qed.

(** The chunks of a range of an object are all there. *)
Lemma select_chunks_all t id body a b : (∀ i, t_chunks t !! (id, i) = chunk_at S body i) →
  0 <= a → a <= b → b < Z.of_nat (List.length body) →
  select_chunks id (a / S) (b / S) t
  = (λ i, (a / S + Z.of_nat i, seg body ((a / S + Z.of_nat i) * S) ((a / S + Z.of_nat i + 1) * S))) <$> seq 0 (Z.to_nat (b / S - a / S + 1)).
Proof.
  intros Hch Ha Hab Hb. unfold select_chunks. assert (Hqa : 0 <= a / S) by (apply Z.div_pos; lia).
  assert (Hle : ∀ i, (i ∈ seq 0 (Z.to_nat (b / S - a / S + 1))) → a / S + Z.of_nat i <= b / S).
  { intros i [_ Hi]%elem_of_seq. lia. }
  revert Hle. generalize (seq 0 (Z.to_nat (b / S - a / S + 1))) as l. induction l as [|i l IH]; intros Hle; [done|].
  cbn [omap list_omap fmap list_fmap]. rewrite IH by (intros j Hj; apply Hle; by right). rewrite Hch. unfold chunk_at.
  pose proof (Hle i ltac:(by left)). pose proof (Z.mul_div_le b S HS).
  destruct (Z.leb_spec 0 (a / S + Z.of_nat i)), (Z.ltb_spec ((a / S + Z.of_nat i) * S) (Z.of_nat (List.length body))); by try nia.
Qed.

(** The bytes a download is to give of [body]. *)
Definition requested (contentRange : option ContentRange) (body : blob) : result StorageError (blob * Z) :=
  let size := Z.of_nat (List.length body) in
  match contentRange with
  | Some (MkContentRange from to _ true) =>
      if (0 <=? from) && (from <=? to) && (to <? size) then Ok (seg body from (to + 1), to - from + 1) else Err ErrInvalidRange
  | _ => Ok (body, size)
  end.

Lemma download_requested bucket key contentRange t o body :
  faults StSelectObject = false → faults StSelectChunks = false → holds t (bk_ID bucket) key o body →
  Download faults S bucket key contentRange t = requested contentRange body.
Proof.
  intros Hf1 Hf2 (Hfind & Hsize & Hch). unfold Download, Head. rewrite Hf1, Hfind. cbn [result_bind]. rewrite Hsize.
  assert (Hread : ∀ a b, 0 <= a → a <= b → b < Z.of_nat (List.length body) →
    concat ((λ c, chunk_slice S a b c.1 c.2) <$> select_chunks (ob_ID o) (a / S) (b / S) t) = seg body a (b + 1)).
  { intros a b Ha Hab Hb. pose proof (Z.div_le_mono a b S HS Hab). rewrite (select_chunks_all t (ob_ID o) body) by done. rewrite <- list_fmap_compose.
    transitivity (seg body a (Z.min (b + 1) ((a / S + Z.of_nat (Z.to_nat (b / S - a / S + 1))) * S))).
    - rewrite <- concat_slices by (done || lia). f_equal. apply list_fmap_ext. intros k i Hi. apply lookup_seq in Hi as [-> Hi]. cbn.
      apply chunk_slice_seg; done || lia.
    - f_equal. pose proof (Z.mul_succ_div_gt b S HS). nia. }
  assert (Hall : (let! (startByte, endByte) := Ok (0, Z.of_nat (List.length body) - 1) in
      let contentLength := endByte - startByte + 1 in
      if contentLength <=? 0 then Ok ([], 0) else if faults StSelectChunks then Ok ([], contentLength) else
      Ok (concat ((λ c, chunk_slice S startByte endByte c.1 c.2) <$> select_chunks (ob_ID o) (startByte / S) (endByte / S) t), contentLength))
      = Ok (body, Z.of_nat (List.length body)) :> result StorageError (blob * Z)).
  { cbn [result_bind]. cbn zeta. rewrite Hf2. destruct (Z.leb_spec (Z.of_nat (List.length body) - 1 - 0 + 1) 0).
    - by destruct body; [|cbn in *; lia].
    - rewrite Hread by lia. replace (Z.of_nat (List.length body) - 1 + 1) with (Z.of_nat (List.length body)) by lia. rewrite seg_all. do 2 f_equal. lia. }
  unfold requested. destruct contentRange as [[from to total []]|]; [|exact Hall..]. cbn [cr_IsPartial cr_Start cr_End]. rewrite Hf2. clear Hall.
  destruct (Z.ltb_spec from 0), (Z.leb_spec (Z.of_nat (List.length body)) to), (Z.ltb_spec to from), (Z.leb_spec 0 from), (Z.leb_spec from to),
    (Z.ltb_spec to (Z.of_nat (List.length body))); try lia; cbn [orb andb result_bind]; try done.
  destruct (Z.leb_spec (to - from + 1) 0); [lia|]. by rewrite Hread by lia.
Qed.

Lemma delete_removes bucket key t t' : tables_ok t → Delete faults bucket key t = (Ok (), t') →
  tables_ok t' ∧ find_object (bk_ID bucket) key t' = None ∧ t_buckets t' = t_buckets t
  ∧ (∀ id, is_Some (t_objects t' !! id) → is_Some (t_objects t !! id))
  ∧ (∀ b' k', (b', k') ≠ (bk_ID bucket, key) → find_object b' k' t' = find_object b' k' t)
  ∧ ∀ b' k' o' body', (b', k') ≠ (bk_ID bucket, key) → holds t' b' k' o' body' ↔ holds t b' k' o' body'.
Proof.
  intros Hok. unfold Delete. destruct (faults StDeleteObject); [done|]. destruct (find_object _ _ _) as [o|] eqn:Ef; [|done].
  intros [= <-]. apply find_object_Some in Ef as (Ho & Hb & Hk); [|done]. set (t1 := delete_chunks _ _).
  assert (Hsub : ∀ id x, t_objects t1 !! id = Some x → id ≠ ob_ID o ∧ t_objects t !! id = Some x).
  { intros id x. cbn. by intros [Hne Hx]%lookup_delete_Some. }
  assert (Hch : ∀ id i, id ≠ ob_ID o → t_chunks t1 !! (id, i) = t_chunks t !! (id, i)).
  { intros id i Hne. unfold t1. by rewrite delete_chunks_lookup, decide_False by done. }
  assert (Hok1 : tables_ok t1).
  { split.
    - intros id x [_ Hx]%Hsub. by apply (ok_ids t Hok).
    - intros i1 i2 x1 x2 [_ H1]%Hsub [_ H2]%Hsub. by apply (ok_keys t Hok).
    - intros id i data Hd. unfold t1 in Hd. rewrite delete_chunks_lookup in Hd. destruct (decide (id = ob_ID o)) as [|Hne]; [done|].
      cbn in Hd. apply (ok_owned t Hok) in Hd. cbn. by rewrite lookup_delete_ne. }
  assert (Hfind : ∀ b' k', (b', k') ≠ (bk_ID bucket, key) → find_object b' k' t1 = find_object b' k' t).
  { intros b' k' Hne. apply option_eq. intros o'. rewrite !find_object_Some by done. split.
    - intros (Hl & Hb' & Hk'). by apply Hsub in Hl as [_ Hl].
    - intros (Hl & Hb' & Hk'). split_and!; [|done..]. cbn. rewrite lookup_delete_ne; [done|]. intros Eid. rewrite <- Eid in Hl. apply Hne. congruence. }
  split_and!; [done| |done| | |].
  - apply find_object_None; [done|]. intros id x [Hne Hx]%Hsub Hb' Hk'. apply Hne. apply (ok_keys t Hok _ _ x o); congruence.
  - intros id [x Hx]. apply Hsub in Hx as [_ Hx]. by eexists.
  - exact Hfind.
  - intros b' k' o' body' Hne. unfold holds. rewrite Hfind by done. split; intros (Hl & Hs & Hc); (split_and!; [done..|]); intros i.
    all: rewrite <- Hc; destruct (proj1 (find_object_Some t b' k' o' Hok) Hl) as (Ho' & Hb' & Hk').
    all: by rewrite Hch by (intros Eid; rewrite Eid in Ho'; apply Hne; congruence).
Qed.
End store.

(** ** The engine as a map *)

(** A file: the type it is served with, and its bytes. *)
Record File := MkFile { f_type : string; f_bytes : blob }.

(** Operations on the engine, and what their callers see. *)
Inductive FileOp `{FL : Floats} :=
| OpUpload (now : Z) (objectID : N) (bucket : Bucket) (key : string) (reader : Reader) (contentType : string)
| OpHead (bucket : Bucket) (key : string)
| OpDownload (bucket : Bucket) (key : string) (contentRange : option ContentRange)
| OpDelete (bucket : Bucket) (key : string).
Arguments FileOp {FL}.

Inductive FileAnswer :=
| Stored (contentType : string) (size : Z) (checksum : string) | Bytes (data : blob) (length : Z) | Deleted | Refused (e : StorageError).

Section refinement.
Context `{FL : Floats} `{HL : HostLib} (S : Z) (HS : 0 < S).

Definition answer {A} (f : A → FileAnswer) (r : result StorageError A) : FileAnswer := match r with Ok a => f a | Err e => Refused e end.
Definition stored (o : Object) : FileAnswer := Stored (ob_ContentType o) (ob_SizeBytes o) (ob_ChecksumSHA256 o).

(** A call of the engine over a database without faults. *)
Definition engine_step (op : FileOp) (t : FileTables) : FileAnswer * FileTables :=
  match op with
  | OpUpload now objectID bucket key reader contentType =>
      let '(r, t) := Upload (λ _, false) S now objectID bucket key reader contentType t in (answer stored r, t)
  | OpHead bucket key => (answer stored (Head (λ _, false) bucket key t), t)
  | OpDownload bucket key contentRange => (answer (λ '(data, n), Bytes data n) (Download (λ _, false) S bucket key contentRange t), t)
  | OpDelete bucket key => let '(r, t) := Delete (λ _, false) bucket key t in (answer (λ _, Deleted) r, t)
  end.

(** What it is to do: files under the keys of buckets. *)
Definition shown (f : File) : FileAnswer := Stored (f_type f) (Z.of_nat (List.length (f_bytes f))) (checksum_of (f_bytes f)).

Definition file_step (buckets : gmap N Bucket) (op : FileOp) (m : gmap (N * string) File) : FileAnswer * gmap (N * string) File :=
  match op with
  | OpUpload _ _ bucket key reader contentType =>
      let limit := bk_MaxFileSizeBytes bucket in
      let f := MkFile (stored_type contentType) (rd_bytes reader) in
      if negb (bool_decide (is_Some (buckets !! bk_ID bucket))) then (Refused (StorageFailed "register object"), m)
      else if (0 <? limit) && (limit <? Z.of_nat (List.length (rd_bytes reader))) then (Refused ErrPayloadTooLarge, m)
      else if negb (rd_eof reader) then (Refused (StorageFailed "read"), m)
      else (shown f, <[(bk_ID bucket, key) := f]> m)
  | OpHead bucket key => (from_option shown (Refused ErrObjectNotFound) (m !! (bk_ID bucket, key)), m)
  | OpDownload bucket key contentRange =>
      (from_option (λ f, answer (λ '(data, n), Bytes data n) (requested contentRange (f_bytes f))) (Refused ErrObjectNotFound)
         (m !! (bk_ID bucket, key)), m)
  | OpDelete bucket key =>
      match m !! (bk_ID bucket, key) with
      | Some _ => (Deleted, delete (bk_ID bucket, key) m)
      | None => (Refused ErrObjectNotFound, m)
      end
  end.

Fixpoint run_ops {St} (step : FileOp → St → FileAnswer * St) (ops : list FileOp) (st : St) : list FileAnswer :=
  match ops with [] => [] | op :: ops => let '(a, st) := step op st in a :: run_ops step ops st end.

Definition upload_ids (ops : list FileOp) : list N := omap (λ op, match op with OpUpload _ id _ _ _ _ => Some id | _ => None end) ops.

(** The tables hold the files of [m], and nothing else. *)
Record represents (t : FileTables) (m : gmap (N * string) File) : Prop := {
  rep_ok : tables_ok t;
  rep_in : ∀ b k f, m !! (b, k) = Some f → ∃ o, holds S t b k o (f_bytes f) ∧ stored o = shown f;
  rep_out : ∀ b k, m !! (b, k) = None → find_object b k t = None }.

(** What the loop comes to over a database without faults. *)
Lemma insert_chunks_result fuel maxFileSize id index total rest eof t :
  (List.length rest < fuel)%nat → maxFileSize <= 0 ∨ total <= maxFileSize →
  if (0 <? maxFileSize) && (maxFileSize <? total + Z.of_nat (List.length rest))
  then insert_chunks (λ _, false) S fuel maxFileSize id index total rest eof t = Err ErrPayloadTooLarge
  else if eof then ∃ r, insert_chunks (λ _, false) S fuel maxFileSize id index total rest eof t = Ok r
  else insert_chunks (λ _, false) S fuel maxFileSize id index total rest eof t = Err (StorageFailed "read").
Proof.
  revert index total rest t. induction fuel as [|fuel IH]; intros index total rest t Hfuel Htot; [lia|]. cbn [insert_chunks]. cbn zeta.
  set (piece := take (Z.to_nat S) rest).
  assert (Hp : Z.of_nat (List.length piece) = Z.min S (Z.of_nat (List.length rest))) by (unfold piece; rewrite length_take; lia).
  destruct (Z.ltb_spec 0 (Z.of_nat (List.length piece))) as [Hpos|Hzero].
  - destruct (Z.ltb_spec 0 maxFileSize) as [Hmax|Hmax], (Z.ltb_spec maxFileSize (total + Z.of_nat (List.length piece))) as [Hbig|Hbig];
      cbn [andb result_bind].
    1: { destruct (Z.ltb_spec maxFileSize (total + Z.of_nat (List.length rest))); [done|lia]. }
    all: destruct (Z.ltb_spec (Z.of_nat (List.length piece)) S) as [Hlast|Hmore];
      [destruct (Z.ltb_spec maxFileSize (total + Z.of_nat (List.length rest))); [lia || (destruct eof; [by eexists|done])|destruct eof; [by eexists|done]]|].
    all: specialize (IH (index + 1) (total + Z.of_nat (List.length piece)) (drop (Z.to_nat S) rest)); rewrite length_drop in IH;
      replace (total + Z.of_nat (List.length piece) + Z.of_nat (List.length rest - Z.to_nat S)) with (total + Z.of_nat (List.length rest)) in IH by lia;
      destruct (Z.ltb_spec 0 maxFileSize); try lia; apply IH; lia.
  - cbn [result_bind]. destruct (Z.ltb_spec (Z.of_nat (List.length piece)) S); [|lia].
    destruct (Z.ltb_spec 0 maxFileSize), (Z.ltb_spec maxFileSize (total + Z.of_nat (List.length rest))); cbn [andb]; try lia; destruct eof; try done; by eexists.
Qed.

Lemma represents_find t m b k : represents t m →
  match m !! (b, k) with
  | Some f => ∃ o, find_object b k t = Some o ∧ holds S t b k o (f_bytes f) ∧ stored o = shown f
  | None => find_object b k t = None
  end.
Proof.
  intros H. destruct (m !! (b, k)) as [f|] eqn:E; [|by apply (rep_out t m H)].
  destruct (rep_in t m H b k f E) as (o & Hh & Hs). exists o. split_and!; [apply Hh|done..].
Qed.

(** The files but one are kept by a step that keeps what the tables hold of them. *)
Lemma represents_others t t' m b k : represents t m → tables_ok t' →
  (∀ b' k' o body, (b', k') ≠ (b, k) → holds S t' b' k' o body ↔ holds S t b' k' o body) →
  (∀ b' k', (b', k') ≠ (b, k) → find_object b' k' t' = find_object b' k' t) →
  ∀ fo, (match fo with
         | Some f => ∃ o, holds S t' b k o (f_bytes f) ∧ stored o = shown f
         | None => find_object b k t' = None
         end) →
  represents t' (partial_alter (λ _, fo) (b, k) m).
Proof.
  intros Hr Hok Hsame Hfind fo Hfo. split; [done| |].
  - intros b' k' f. destruct (decide ((b', k') = (b, k))) as [[= -> ->]|Hne]; [rewrite lookup_partial_alter_eq; by intros ->|].
    rewrite lookup_partial_alter_ne by congruence. intros Hf. destruct (rep_in t m Hr b' k' f Hf) as (o & Hh & Hs). exists o. by rewrite Hsame.
  - intros b' k'. destruct (decide ((b', k') = (b, k))) as [[= -> ->]|Hne]; [rewrite lookup_partial_alter_eq; by intros ->|].
    rewrite lookup_partial_alter_ne by congruence. intros Hn. rewrite Hfind by done. by apply (rep_out t m Hr).
Qed.

(** When an upload succeeds, and how it fails. *)
Lemma upload_result now objectID bucket key reader contentType t : tables_ok t → t_objects t !! objectID = None →
  let limit := bk_MaxFileSizeBytes bucket in
  let r := Upload (λ _, false) S now objectID bucket key reader contentType t in
  if negb (bool_decide (is_Some (t_buckets t !! bk_ID bucket))) then r = (Err (StorageFailed "register object"), t)
  else if (0 <? limit) && (limit <? Z.of_nat (List.length (rd_bytes reader))) then r = (Err ErrPayloadTooLarge, t)
  else if negb (rd_eof reader) then r = (Err (StorageFailed "read"), t)
  else ∃ o t', r = (Ok o, t').
Proof.
  intros Hok Hfresh. cbn zeta. unfold Upload, upload_transaction. cbn zeta.
  destruct (upsert_object _ _ _ _ _ _) as [[id t1]|] eqn:Eu.
  - assert (Hb : bool_decide (is_Some (t_buckets t !! bk_ID bucket)) = true) by (unfold upsert_object in Eu; by destruct (bool_decide _)).
    rewrite Hb. apply upsert_object_spec in Eu as (_ & _ & _ & (o1 & Eo1 & _) & _); [|done..]. cbn [negb andb orb].
    pose proof (insert_chunks_result (Datatypes.S (List.length (rd_bytes reader))) (bk_MaxFileSizeBytes bucket) id 0 0 (rd_bytes reader)
                  (rd_eof reader) (delete_chunks id t1) ltac:(lia) ltac:(lia)) as H. rewrite Z.add_0_l in H.
    destruct ((0 <? bk_MaxFileSizeBytes bucket) && _); [by rewrite H|]. destruct (rd_eof reader); cbn [negb]; [|by rewrite H].
    destruct H as [[total t3] H]. rewrite H. cbn [result_bind]. apply insert_chunks_spec in H as (_ & _ & _ & _ & E & _); [|done].
    rewrite E. cbn. rewrite Eo1, lookup_insert_eq. by do 2 eexists.
  - assert (Hb : bool_decide (is_Some (t_buckets t !! bk_ID bucket)) = false).
    { unfold upsert_object in Eu. destruct (bool_decide _); [|done]. cbn in Eu. by destruct (find_object _ _ _). }
    by rewrite Hb.
Qed.

(** One call: the answer is the one of the map, and the tables keep holding it. *)
Lemma engine_simulates op t m a t' : represents t m → (∀ id, id ∈ upload_ids [op] → t_objects t !! id = None) →
  engine_step op t = (a, t') →
  fst (file_step (t_buckets t) op m) = a ∧ represents t' (snd (file_step (t_buckets t) op m)) ∧ t_buckets t' = t_buckets t
  ∧ ∀ id, is_Some (t_objects t' !! id) → is_Some (t_objects t !! id) ∨ id ∈ upload_ids [op].
Proof.
  intros Hr Hfresh. pose proof (rep_ok t m Hr) as Hok. destruct op as [now id bucket key reader contentType|bucket key|bucket key contentRange|bucket key];
    cbn [engine_step file_step].
  - destruct (Upload _ _ _ _ _ _ _ _ _) as [r t1] eqn:Eu. intros [= <- <-]. cbn [upload_ids omap list_omap] in Hfresh.
    assert (Hnew : t_objects t !! id = None) by (apply Hfresh; by left).
    pose proof (upload_result now id bucket key reader contentType t Hok Hnew) as H. cbn zeta in H. rewrite Eu in H.
    destruct (negb (bool_decide _)); [injection H as -> ->; by split_and!; [..|by left]|].
    destruct ((0 <? _) && _); [injection H as -> ->; by split_and!; [..|by left]|].
    destruct (negb (rd_eof reader)); [injection H as -> ->; by split_and!; [..|by left]|].
    destruct H as (o & t' & [= -> ->]).
    destruct (upload_stores (λ _, false) S HS now id bucket key reader contentType t o t') as (Hok' & Hh & Hsum & Hct & Hbk & Hids & _ & Hfind & Hsame);
      [done..|].
    assert (Hst : stored o = shown (MkFile (stored_type contentType) (rd_bytes reader))).
    { unfold stored, shown. destruct Hh as (_ & -> & _). by rewrite Hsum, Hct. }
    cbn [fst snd answer]. split_and!; [done| |done|].
    + apply (represents_others t t' m (bk_ID bucket) key Hr Hok' Hsame Hfind (Some _)). by exists o.
    + intros i Hi. destruct (Hids i Hi) as [->|]; [right; by left|by left].
  - intros [= <- <-]. split_and!; [|done|done|by left]. pose proof (represents_find t m (bk_ID bucket) key Hr) as H. unfold Head.
    destruct (m !! _) as [f|]; [destruct H as (o & -> & _ & Hs)|rewrite H]; done.
  - intros [= <- <-]. split_and!; [|done|done|by left]. pose proof (represents_find t m (bk_ID bucket) key Hr) as H.
    destruct (m !! _) as [f|].
    + destruct H as (o & _ & Hh & _). by rewrite (download_requested (λ _, false) S HS _ _ _ _ o (f_bytes f)).
    + unfold Download, Head. by rewrite H.
  - destruct (Delete _ _ _ _) as [r t1] eqn:Ed. intros [= <- <-]. pose proof (represents_find t m (bk_ID bucket) key Hr) as H.
    destruct (m !! _) as [f|] eqn:Ef.
    + destruct H as (o & Hf & _). assert (r = Ok ()) as -> by (unfold Delete in Ed; rewrite Hf in Ed; congruence).
      destruct (delete_removes (λ _, false) S bucket key t t1 Hok Ed) as (Hok1 & Hgone & Hbk & Hids & Hfind & Hsame).
      cbn [fst snd answer]. split_and!; [done| |done|intros i Hi; left; by apply Hids].
      by apply (represents_others t t1 m (bk_ID bucket) key Hr Hok1 Hsame Hfind None).
    + unfold Delete in Ed. rewrite H in Ed. injection Ed as <- <-. by split_and!; [..|by left].
Qed.

(** C37: The engine behaves as a map from buckets and keys to files: from tables
    without objects, any sequence of uploads, reads and deletions is answered as
    the map answers it, where the database works and gives each object an id of
    its own. *)
Theorem database_engine_is_map (buckets : gmap N Bucket) ops : NoDup (upload_ids ops) →
  run_ops engine_step ops (MkFileTables buckets ∅ ∅) = run_ops (file_step buckets) ops ∅.
Proof.
  intros Hnd. set (t0 := MkFileTables buckets ∅ ∅).
  assert (Hr : represents t0 ∅).
  { split; [split; intros *; cbn; rewrite ?lookup_empty; done|intros b k f; by rewrite lookup_empty|]. intros b k _. unfold find_object. cbn.
    by rewrite map_to_list_empty. }
  assert (Hfresh : ∀ id, id ∈ upload_ids ops → t_objects t0 !! id = None) by (intros id _; apply lookup_empty).
  assert (Hb : t_buckets t0 = buckets) by done. rewrite <- Hb. clearbody t0. clear Hb. revert Hr Hfresh.
  generalize (∅ : gmap (N * string) File) as m. generalize dependent t0.
  induction ops as [|op ops IH]; intros t m Hr Hfresh; [done|]. cbn [run_ops].
  destruct (engine_step op t) as [a t'] eqn:Es.
  assert (Hsplit : upload_ids (op :: ops) = (upload_ids [op] ++ upload_ids ops)%list) by (unfold upload_ids; by rewrite <- omap_app).
  rewrite Hsplit in Hnd, Hfresh. apply list.NoDup_app in Hnd as (_ & Hdis & Hnd).
  destruct (engine_simulates op t m a t' Hr) as (Ha & Hr' & Hb & Hids); [|done|].
  { intros id Hi. apply Hfresh, elem_of_app. by left. }
  destruct (file_step (t_buckets t) op m) as [a' m'] eqn:Ef. cbn [fst snd] in *. rewrite Ha, <- Hb. f_equal. apply IH; [done..|].
  intros id Hi. apply eq_None_not_Some. intros [Hs|Hs]%Hids.
  - rewrite Hfresh in Hs; [by destruct Hs|]. apply elem_of_app. by right.
  - by apply (Hdis id).
Qed.
End refinement.

(** ** Witnesses and a shortcoming *)

Definition sample_bucket `{FL : Floats} : Bucket := MkBucket 1 "photos" true "" [] [] 12 0 0.
Definition sample_reader (s : string) : Reader := MkReader (list_ascii_of_string s) true.

Definition sample_ops `{FL : Floats} : list FileOp :=
  [ OpUpload 5 7 sample_bucket "a.txt" (sample_reader "0123456789") "";
    OpDownload sample_bucket "a.txt" (Some (MkContentRange 2 8 0 true));
    OpUpload 6 8 sample_bucket "a.txt" (sample_reader "abcdefghijklm") "";
    OpUpload 7 9 sample_bucket "a.txt" (sample_reader "abcdefgh") "text/plain";
    OpDownload sample_bucket "a.txt" None;
    OpDownload sample_bucket "a.txt" (Some (MkContentRange 0 8 0 true));
    OpDelete sample_bucket "a.txt"; OpHead sample_bucket "a.txt" ].

(** With pieces of four bytes; the answers are those of a file that is written,
    kept when a larger one is refused, replaced and deleted. *)
Lemma database_engine_is_map_witness :
  let FL := integer_floats in let HL := sample_host in
  run_ops (engine_step 4) sample_ops (MkFileTables {[1%N := sample_bucket]} ∅ ∅)
  = [ Stored "application/octet-stream" 10 (checksum_of (list_ascii_of_string "0123456789")); Bytes (list_ascii_of_string "2345678") 7;
      Refused ErrPayloadTooLarge; Stored "text/plain" 8 (checksum_of (list_ascii_of_string "abcdefgh"));
      Bytes (list_ascii_of_string "abcdefgh") 8; Refused ErrInvalidRange; Deleted; Refused ErrObjectNotFound ].
Proof.
  cbn zeta. rewrite (database_engine_is_map 4); [vm_compute; reflexivity|lia|]. change (NoDup [7%N; 8%N; 9%N]). by apply (bool_decide_unpack _).
Defined.

(** A commit that fails is not noticed: the upload is answered with the object,
    and nothing is stored. *)
Theorem failed_commit_reports_success `{FL : Floats} `{HL : HostLib} : ∃ faults o t,
  t_buckets t !! bk_ID sample_bucket = Some sample_bucket ∧
  Upload faults 4 5 7 sample_bucket "a.txt" (sample_reader "0123456789") "" t = (Ok o, t) ∧
  ob_SizeBytes o = 10 ∧ Head faults sample_bucket "a.txt" t = Err ErrObjectNotFound.
Proof.
  exists (λ s, match s with StCommit => true | _ => false end). eexists. exists (MkFileTables {[1%N := sample_bucket]} ∅ ∅).
  split_and!; vm_compute; reflexivity.
Qed.
